(* ===== verification/_CoqProject ===== *)
-Q . S2P
Prelude.v
PyStr.v
PyDict.v
PyRegex.v
PyVal.v
PyPath.v
Passwords.v
Config.v
Topics.v
Models.v
Base64.v
DarwinCert.v
Tls.v
Auth.v
Client.v
ClientFacts.v
Interface.v
ClientImpl.v
Service.v
ServiceFacts.v
RetainedQuery.v
Statistics.v
ServiceImpl.v
Api.v
Stream.v
WebSocket.v
WebSocketFacts.v
WebSocketImpl.v
Lifespan.v
PyJson.v
JsonFacts.v
JsonTotal.v
VersionPlan.v
VersionPlanFacts.v
Release.v
ReleaseState.v
LedgerFacts.v
ReservationFacts.v
LedgerDemo.v
ChangeScope.v
ChangeScopeFacts.v
ReleaseValidation.v
PyMatch.v
JsonDocument.v
JsonDocumentFacts.v
JsonFrame.v
JsonEditFacts.v
TomlEdit.v
VersionEdit.v
SyncVersions.v
SyncFacts.v
OciMetadata.v
OciFacts.v
Transport.v
TransportFacts.v
Fuzz.v
ReleasePolicy.v
ReleaseRuns.v
ReleaseExecution.v
ReleaseExecutionFacts.v
ReleaseNotes.v
ReleaseNotesFacts.v
ReleaseManifest.v
Publication.v
Recorded.v
PublicationFacts.v
Promotion.v
PromotionFacts.v
VersionReceipt.v
VersionReceiptFacts.v
Toolchain.v
ReleaseVersion.v
Readback.v
ReadbackFacts.v
Versioned.v
VersionedPublish.v
VersionedFacts.v
VersionedDemo.v
PreparedFacts.v
WorkflowContracts.v
