(* ===== verification/Prelude.v ===== *)
(** * FastAPI MQTT gateway: a verification library

    The repository is a REST and WebSocket gateway in front of an MQTT broker
    ([src/src/fastapi_mqtt_gateway]) and the toolkit that versions, gates and
    releases it ([src/scripts]).  This library is a shallow embedding of both: each
    Python function is a Rocq function of the same name over the data the source
    has, exceptions are values of [outcome], state is threaded by the monad [M] of
    this file, and what runs concurrently is a step relation or an arbitrary
    computation constrained by invariants.

    ** The parts and how they interact

    A request is authenticated ([core/auth.py]), its topics are tested against the
    operator's filters ([core/topics.py]), and the service
    ([services/mqtt_service.py]) records who owns which topic and drives the one
    MQTT client ([mqtt/client.py]).  The client's network thread queues messages for
    the event loop, which hands them to the service's statistics cache and to the
    callbacks of retained queries and WebSocket sessions ([api/__init__.py]).
    [main.py] builds and takes down the whole.  A release is described by a frozen
    plan ([scripts/version_plan.py]) whose build number is reserved in a ledger, a
    JSON file on a branch written by compare and swap ([scripts/release_state.py]),
    with the requests of [scripts/release_control.py]; the plan is applied to the
    files that hold a version, and checked in container archives; the jobs that may
    be skipped are chosen by [scripts/change_scope.py], the results of the jobs
    are judged by [scripts/release_validation.py], and the workflow files themselves
    are checked by [scripts/workflow_contracts.py].  [scripts/release_versioned.py]
    ties these together: it freezes a plan before anything is built, and publishes
    what was built once the receipts of the builds ([scripts/version_receipt.py])
    cover it; a candidate is promoted without a new build by
    [scripts/release_control.py].

    ** Files and sources

    - Python itself: [Prelude] (exceptions, outcomes, the state monad, traces),
      [PyStr] (str, bytes, UTF-8), [PyDict] (ordered dictionaries and their [gmap]
      view), [PyRegex] and [PyMatch] (full match by derivatives, search by
      backtracking, both related to the language of the pattern), [PyVal] (dynamic
      values), [PyPath], [Base64], [PyJson] (the standard library's
      JSON writer and reader) with [JsonFacts] and [JsonTotal].
    - [Passwords]: [core/passwords.py], [password_hash.py].  [Config]:
      [core/config.py].  [Topics]: [core/topics.py], [fuzz/fuzz_topics.py].
      [Models]: [models/__init__.py] and the message types.
    - [Tls]: [tls_policy.py], [mqtt/tls.py].  [DarwinCert]:
      [_darwin_certificate.py].
    - [Auth]: [core/auth.py] and the login route.  [Api]: the other routes.
    - [Client], [ClientFacts]: [mqtt/client.py].  [Interface] is the class through
      which the service sees it, [ClientImpl] the instance and its laws.
    - [Service], [ServiceFacts], [RetainedQuery], [Statistics]:
      [services/mqtt_service.py], proved against [Interface]; [ServiceImpl] puts
      them on the real client.
    - [WebSocket], [Stream], [WebSocketFacts], [WebSocketImpl]: the WebSocket
      endpoint; its session as a computation, its streaming phase as a transition
      system.  [Lifespan]: [main.py].
    - [VersionPlan], [VersionPlanFacts]: the declarations, identities, plans and
      projections of [scripts/version_plan.py].
    - [JsonDocument], [TomlEdit], [VersionEdit], [SyncVersions] with
      [JsonDocumentFacts], [JsonFrame], [JsonEditFacts], [SyncFacts]: its edits of
      version fields and their application to a checkout.  [OciMetadata],
      [OciFacts]: its verification of container archives.
    - [Release], [ReleaseState]: the requests of [scripts/release_control.py] and
      the ledger; [LedgerFacts], [ReservationFacts], [LedgerDemo]: its history.
    - The rest of [scripts/release_control.py]: [Transport] (route checks, [gh]
      processes, retries, responses and pages), [ReleasePolicy] (the policy of a
      commit and its profiles), [ReleaseRuns] and [ReleaseExecution] (provenance of
      Actions runs, the gate, the wait, supersession), [ReleaseNotes] (the Markdown
      reader and the notes), [ReleaseManifest] (staged assets and manifests),
      [Publication] (the transaction of a release and of a candidate), [Promotion]
      (a candidate becomes a stable release) and [Readback] (the creation of a
      release, and its bounded observation when the answer is lost); their theorems
      follow the definitions or are in a file [...Facts].  [Recorded] is the client
      of these theorems: it logs every request, and its answers are arbitrary.
    - [VersionReceipt], [VersionReceiptFacts]: the verification of build receipts of
      [scripts/version_receipt.py].  [Toolchain] (the comparison of toolchains),
      [Versioned] (the checks) and [VersionedPublish] (the two commands) with
      [VersionedFacts], [VersionedDemo] and [PreparedFacts]:
      [scripts/release_versioned.py].
      [ReleaseVersion]: where [scripts/release.py] finds the base version.
    - [Fuzz]: the manifest and the report of
      [scripts/release_fuzz.py].  [ChangeScope], [ChangeScopeFacts]:
      [scripts/change_scope.py].  [ReleaseValidation]:
      [scripts/release_validation.py].  [WorkflowContracts]:
      [scripts/workflow_contracts.py].

    ** What the theorems show

    - Access: an authorized filter delivers authorized topics only, the overlap
      test is exact for MQTT 4.7 but for two kinds of pairs that its theorem names,
      where it errs towards an overlap, and the containment test is sound ([Topics]); a login's
      token is valid until its expiry and only live tokens authenticate ([Auth]);
      no route and no WebSocket session touches the broker before that ([Api],
      [WebSocketFacts]).
    - The service refines an ownership specification, owner by owner, and every
      session and every retained query leaves nothing behind on any path, under any
      interference ([ServiceFacts], [RetainedQuery], [WebSocketFacts]).
    - Ordering and bounds: the client dispatches every accepted message once and in
      order under all interleavings of its two threads ([ClientFacts]); the stream
      sends in order, never begins a frame after expiry, and after an overflow is
      closed within two turns of its overflow task and its owner ([Stream]); the statistics cache is the most recent topics ([Statistics]).
    - Configuration, verifiers, TLS: settings load exactly when they satisfy every
      declared constraint, hashing and verifying round-trip, contexts and handshakes
      enforce the key policy of every supported host, native references are released once, the application is taken
      down on every path ([Config], [Passwords], [Tls], [DarwinCert], [Lifespan]).
    - Releases: the valid plans are those that creation makes, tags name one release, build
      numbers project in order ([VersionPlanFacts]); concurrent runs append ledger
      steps only, never share a build number, and begin its publication once, byte promotions of
      the same candidate apart ([ReservationFacts]); JSON text round-trips and its reader always ends
      ([JsonFacts], [JsonTotal]).
    - Version inputs: the document reader agrees with [json.loads]
      ([JsonDocumentFacts]), and an edited document reads as the old data with its
      field replaced ([JsonEditFacts]); a synchronisation
      prepares every edit before the first write, commits them in order, and
      checking afterwards succeeds without a change exactly when no edited text
      exceeds the size limit of an input ([SyncFacts]).
    - Publication: a request starts only the command of an allowed route and
      absence is what GitHub says, not what a failure suggests ([TransportFacts]); the
      executing run is the process's own and the wait for it ends
      ([ReleaseExecutionFacts]); the notes are the reviewed section of the changelog,
      and the mask of a line blanks exactly its comments ([ReleaseNotesFacts]); a manifest names safe, distinct, identified assets
      ([ReleaseManifest]); a release becomes public only after every staged
      file was downloaded again and the server's answer for the tag named the commit
      ([PublicationFacts]); and its creation is sent once,
      whatever became of the answer ([ReadbackFacts]).
    - The commands: a promotion writes nothing before the candidate was verified
      and then publishes exactly its bytes ([PromotionFacts]); accepted receipts
      cover the payloads exactly ([VersionReceiptFacts]); two toolchains differ in
      no field exactly when they are equal, and the comparison ends ([Toolchain]);
      a versioned publication writes nothing before the plan, the reservation, the
      candidate, the receipts and the toolchains were verified, and then the ledger
      and exactly the verified files ([VersionedFacts]); preparing one writes at most
      a reservation, and the plan it freezes is valid for the policy and the commit
      and is held by the ledger ([PreparedFacts]).
    - Gates: a verified fuzz report covers its campaign ([Fuzz]); every image of a verified
      archive has the expected version and the verification is bounded ([OciFacts]); a passed gate has seen every job that
      the policy selects succeed ([ReleaseValidation]); accepted workflow files refer to nothing that
      can change, keep every pull request behind the required gate, and call their
      validators along a graph without a cycle, which is what the walk decides
      ([WorkflowContracts]); jobs are skipped for documentation
      only ([ChangeScopeFacts]).

    ** Parameters and their hypotheses

    Code outside the repository is an argument: PBKDF2, SHA-256 (hexadecimal, and
    free of collisions on the documents at hand where uniqueness needs it), the text
    of floats, paho's [topic_matches_sub], and the classes [Paho], [PyJWT] with
    [PyJWTLaws], [OpenSSL] with [OpenSSLLaws], [NativeCalls] (Apple's frameworks),
    [UnicodeCase] and [EditLibrary] (tomllib, ast, plistlib and the character
    tables).  [GitHub] answers the requests of the release client;
    [LedgerHistory] states what its contents API and the other runs promise about
    the history of the ledger, and [LedgerDemo] is a server that keeps the promise.
    [Shell] runs processes, [Host] is the environment, the files, Git and the clock
    of the process, with [HostClock] for a clock that does not run backwards, and
    [Assets] transfers the assets of a release; SHA-1, the full case folding of
    Unicode and its decimal digits are functions.  [Planner] is the calendar, random
    text and the file of the frozen plan; the reader of ZIP archives, and the code
    of the repository that looks into binary files (artifacts, detached provenance,
    signatures: the record [inspectors]), are arguments too, as is the parser of YAML,
    which answers the tree of nodes of a document.
    For the synchronisation, temporary names are fresh, and [SyncFacts] assumes that
    [os.replace] succeeds: its last section shows what is left behind when it does
    not.

    ** Fuel

    The JSON readers get twice the length of the text plus two, because every
    bracket costs a value and an item ([parse_json_total], [json_document_total]);
    the scanner loops of [TomlEdit] and the searches of [PyMatch] get the length of
    the text they scan, since each turn moves the index ([TomlEdit]); the walk of
    an archive gets ten levels: at depth nine the code refuses ([OciMetadata]).  The
    pages of an answer get the length of its text, as each page takes a character;
    the wait for a run gets 151 rounds, because each but the last sleeps two seconds
    of its 300 ([executing_run_wait_ends]); the mask of a changelog line gets twice
    its length plus one ([release_comment_line_ends]); an inventory is read in at
    most 101 pages, since the hundred-and-first is refused ([inventory_rounds]); the
    comparison of toolchains gets the number of values on both sides, each of which
    is taken from the work list once ([loop_total]); the walk of the workflows gets
    one level more than there are workflows, since those on its chain are distinct
    ([callable_workflow_total]).

    ** Not modelled

    Logging and the interpolated part of messages; rate limiting, routing and
    middleware of the web framework; rounding of floats (a float is the rational it
    denotes), the words NaN and Infinity in JSON, Python's limits on the digits of
    an integer and on recursion; the reading of [.env] files; real time beyond the
    clock values the code reads.  Of the release toolkit: what reads or writes binary
    formats through the standard library (the checkers of package archives, the
    assembly of containers and their provenance); what drives processes and the file
    system without a decision of its own (the execution of a fuzzing campaign, the
    capture of a receipt, builders, registries, the preparation of a version, the
    checks of the runner); and the command lines, which only
    dispatch to the modelled operations. *)

From Stdlib Require Export ZArith Lia.
From stdpp Require Export base tactics list option numbers gmap strings.

(** ** Python exceptions

    The exception classes the modelled code raises or catches.  A message is
    the constant text of the source; interpolated values are dropped. *)

Inductive exn_class : Type :=
  | EHTTP (status_code : Z)
  | ERuntime | EValue | EUnicode | EType | EKey | EIndex | EOverflow
  | ETimeout | EOS | ESSL | ESSLWant | EDisconnect | ECancelled | EInvalidToken
  | EVersion | ERelease | EGitHub (status : option Z) | ESubprocess | EToml | ESyntax | EArchive
  | EAttribute | EOther.

Record exn : Type := Exn { exn_kind : exn_class; exn_text : string }.

#[export] Instance exn_class_eq_dec : EqDecision exn_class.
Proof. solve_decision. Defined.
#[export] Instance exn_eq_dec : EqDecision exn.
Proof. solve_decision. Defined.

(** [isinstance c d]: class [c] is [d] or one of its subclasses, for the part
    of Python's hierarchy in use ([UnicodeError], [VersionError] and
    [tomllib.TOMLDecodeError] are [ValueError]s, [TimeoutError] and [ssl.SSLError] are [OSError]s). *)
Definition is_value_error (c : exn_class) : bool :=
  match c with EValue | EUnicode | EVersion | EToml => true | _ => false end.

Definition is_os_error (c : exn_class) : bool :=
  match c with ETimeout | EOS | ESSL | ESSLWant => true | _ => false end.

Definition is_ssl_error (c : exn_class) : bool :=
  match c with ESSL | ESSLWant => true | _ => false end.

(** [except Exception]: everything but [asyncio.CancelledError], which derives
    from [BaseException] only. *)
Definition is_exception (c : exn_class) : bool :=
  match c with ECancelled => false | _ => true end.

(** [GitHubError] derives from [ReleaseError]. *)
Definition is_release_error (c : exn_class) : bool :=
  match c with ERelease | EGitHub _ => true | _ => false end.

(** ** Outcomes of a call *)

Inductive outcome (A : Type) : Type :=
  | Ok (a : A)
  | Raise (e : exn).
Arguments Ok {_} _.
Arguments Raise {_} _.

#[export] Instance outcome_eq_dec `{EqDecision A} : EqDecision (outcome A).
Proof. solve_decision. Defined.

#[export] Instance Ok_inj {A} : Inj (=) (=) (@Ok A).
Proof. by intros ?? [= ->]. Qed.

#[export] Instance outcome_ret : MRet outcome := @Ok.
#[export] Instance outcome_bind : MBind outcome := λ A B f m,
  match m with Ok a => f a | Raise e => Raise e end.
#[export] Instance outcome_fmap : FMap outcome := λ A B f m,
  match m with Ok a => Ok (f a) | Raise e => Raise e end.

Definition is_ok {A} (m : outcome A) : bool :=
  match m with Ok _ => true | Raise _ => false end.

(** [if not cond: raise e] *)
Definition check (cond : bool) (e : exn) : outcome unit :=
  if cond then Ok tt else Raise e.

(** [try: m except <p>: h] for a pure body. *)
Definition catch {A} (m : outcome A) (p : exn_class → bool) (h : exn → outcome A) : outcome A :=
  match m with
  | Ok a => Ok a
  | Raise e => if p (exn_kind e) then h e else Raise e
  end.

(** [for x in l: f x], stopping at the first exception. *)
Fixpoint for_each {A} (f : A → outcome unit) (l : list A) : outcome unit :=
  match l with
  | [] => Ok tt
  | x :: l' => f x ≫= λ _ : unit, for_each f l'
  end.

(** [[f(x) for x in l]] *)
Section collect.
Context {A B : Type} (f : A → outcome B).
Fixpoint collect (l : list A) : outcome (list B) :=
  match l with
  | [] => Ok []
  | x :: l => y ← f x; ys ← collect l; Ok (y :: ys)
  end.
End collect.

(** [[x for x in l if f(x)]] of a condition that may fail. *)
Fixpoint select {A} (f : A → outcome bool) (l : list A) : outcome (list A) :=
  match l with
  | [] => Ok []
  | x :: l => b ← f x; rest ← select f l; Ok (if b : bool then x :: rest else rest)
  end.

(** [any(f x for x in l)] and [all(...)], short-circuiting, where [f] may raise. *)
Fixpoint any_of {A} (f : A → outcome bool) (l : list A) : outcome bool :=
  match l with
  | [] => Ok false
  | x :: l' => f x ≫= λ b : bool, if b then Ok true else any_of f l'
  end.

Fixpoint all_of {A} (f : A → outcome bool) (l : list A) : outcome bool :=
  match l with
  | [] => Ok true
  | x :: l' => f x ≫= λ b : bool, if b then all_of f l' else Ok false
  end.

Definition o_or (m k : outcome bool) : outcome bool := m ≫= λ b : bool, if b then Ok true else k.
Definition o_and (m k : outcome bool) : outcome bool := m ≫= λ b : bool, if b then k else Ok false.

(** ** Stateful code that may raise

    Python keeps the mutations made before an exception, so the state is
    threaded through both results. *)

Definition M (S A : Type) : Type := S → S * outcome A.

#[export] Instance M_ret {S} : MRet (M S) := λ A a s, (s, Ok a).
#[export] Instance M_bind {S} : MBind (M S) := λ A B f m s,
  match m s with
  | (s', Ok a) => f a s'
  | (s', Raise e) => (s', Raise e)
  end.

Definition raise {S A} (e : exn) : M S A := λ s, (s, Raise e).
Definition get {S} : M S S := λ s, (s, Ok s).
Definition modify {S} (f : S → S) : M S unit := λ s, (f s, Ok tt).
Definition lift {S A} (m : outcome A) : M S A := λ s, (s, m).

(** [try: m except <p>: h] *)
Definition try_except {S A} (m : M S A) (p : exn_class → bool) (h : exn → M S A) : M S A :=
  λ s, match m s with
       | (s', Ok a) => (s', Ok a)
       | (s', Raise e) => if p (exn_kind e) then h e s' else (s', Raise e)
       end.

(** [try: m finally: f]: an exception of [f] replaces the result of [m]. *)
Definition try_finally {S A} (m : M S A) (f : M S unit) : M S A :=
  λ s, match m s with
       | (s', r) =>
         match f s' with
         | (s'', Ok _) => (s'', r)
         | (s'', Raise e) => (s'', Raise e)
         end
       end.

(** [with contextlib.suppress(<p>): m] *)
Definition suppress {S} (p : exn_class → bool) (m : M S unit) : M S unit :=
  try_except m p (λ _ : exn, mret tt).

Fixpoint for_each_M {S A} (f : A → M S unit) (l : list A) : M S unit :=
  match l with
  | [] => mret tt
  | x :: l' => f x ≫= λ _ : unit, for_each_M f l'
  end.

(** Run a computation on one component of a larger state. *)
Definition zoom {S T A} (get_part : T → S) (set_part : S → T → T) (m : M S A) : M T A :=
  λ t, let '(s', r) := m (get_part t) in (set_part s' t, r).

(** ** Lemmas on outcomes *)

Create HintDb gateway discriminated.
Create Rewrite HintDb gateway.

Section outcome_lemmas.
Context {A B : Type}.
Implicit Types m : outcome A.

Lemma bind_ok (f : A → outcome B) m b :
  m ≫= f = Ok b ↔ ∃ a, m = Ok a ∧ f a = Ok b.
Proof. destruct m; naive_solver. Qed.

Lemma bind_raise (f : A → outcome B) m e :
  m ≫= f = Raise e ↔ m = Raise e ∨ ∃ a, m = Ok a ∧ f a = Raise e.
Proof. destruct m; naive_solver. Qed.

Lemma is_ok_true m : is_ok m = true ↔ ∃ a, m = Ok a.
Proof. destruct m; naive_solver. Qed.

Lemma is_ok_false m : is_ok m = false ↔ ∃ e, m = Raise e.
Proof. destruct m; naive_solver. Qed.
End outcome_lemmas.

Lemma check_ok c e u : check c e = Ok u ↔ c = true.
Proof. unfold check; destruct c, u; naive_solver. Qed.

Lemma check_raise c e e' : check c e = Raise e' ↔ c = false ∧ e' = e.
Proof. unfold check; destruct c; naive_solver. Qed.

Lemma for_each_ok {A} (f : A → outcome unit) l u :
  for_each f l = Ok u ↔ ∀ x, x ∈ l → f x = Ok tt.
Proof.
  destruct u. induction l as [|x l IH]; simpl.
  { split; [intros _ x Hx; by apply elem_of_nil in Hx | done]. }
  rewrite bind_ok. setoid_rewrite elem_of_cons. split.
  - intros ([] & Hx & Hl) y [->|Hy]; [done|]. by apply IH.
  - intros H. exists tt. split; [|apply IH]; eauto.
Qed.

Lemma for_each_raise {A} (f : A → outcome unit) l e :
  for_each f l = Raise e →
  ∃ l1 x l2, l = l1 ++ x :: l2 ∧ f x = Raise e ∧ ∀ y, y ∈ l1 → f y = Ok tt.
Proof.
  induction l as [|x l IH]; simpl; [done|].
  rewrite bind_raise. intros [Hx|([] & Hx & Hl)].
  - exists [], x, l. split_and!; [done..|]. intros y Hy. by apply elem_of_nil in Hy.
  - destruct (IH Hl) as (l1 & y & l2 & -> & Hy & Hl1). exists (x :: l1), y, l2.
    split_and!; [done..|]. intros z [->|Hz]%elem_of_cons; auto.
Qed.

Lemma collect_ok {A B} (f : A → outcome B) l ys :
  collect f l = Ok ys ↔ Forall2 (λ x y, f x = Ok y) l ys.
Proof.
  revert ys. induction l as [|x l IH]; intros ys; cbn.
  - split; [intros [= <-]; constructor|]. by inversion 1.
  - rewrite bind_ok. setoid_rewrite bind_ok. setoid_rewrite IH. split.
    + intros (y & ? & ys' & ? & [= <-]). by constructor.
    + inversion 1; subst. eauto 10.
Qed.

Lemma select_elem {A} (f : A → outcome bool) l l' x : select f l = Ok l' → x ∈ l' → x ∈ l ∧ f x = Ok true.
Proof.
  revert l'. induction l as [|y l IH]; intros l' H Hx; cbn in H; [injection H as <-; by apply elem_of_nil in Hx|].
  apply bind_ok in H as (b & Hb & H). apply bind_ok in H as (rest & Hr & [= <-]). rewrite elem_of_cons. destruct b.
  - apply elem_of_cons in Hx as [->|Hx]; [by split; [left|]|]. destruct (IH _ Hr Hx). split; [by right|done].
  - destruct (IH _ Hr Hx). split; [by right|done].
Qed.

Lemma collect_Forall {A B} (f : A → outcome B) (P : A → Prop) (R : B → Prop) l ys :
  collect f l = Ok ys → Forall P l → (∀ x y, P x → f x = Ok y → R y) → Forall R ys.
Proof.
  rewrite collect_ok. intros Hl HP HR. induction Hl; [constructor|]. inversion HP; subst. constructor; eauto.
Qed.

Lemma any_of_total {A} (f : A → outcome bool) (g : A → bool) l :
  (∀ x, x ∈ l → f x = Ok (g x)) → any_of f l = Ok (existsb g l).
Proof.
  induction l as [|x l IH]; intros H; simpl; [done|].
  rewrite (H x) by apply list_elem_of_here. simpl. destruct (g x); simpl; [done|].
  apply IH. intros y Hy. apply H. by apply list_elem_of_further.
Qed.

Lemma any_of_true {A} (f : A → outcome bool) l :
  any_of f l = Ok true → ∃ x, x ∈ l ∧ f x = Ok true.
Proof.
  induction l as [|x l IH]; simpl; [done|].
  rewrite bind_ok. intros ([] & Hx & Hl).
  - exists x. split; [apply list_elem_of_here | done].
  - destruct (IH Hl) as (y & Hy & Hf). exists y. split; [by apply list_elem_of_further | done].
Qed.

Lemma any_of_false {A} (f : A → outcome bool) l :
  any_of f l = Ok false ↔ ∀ x, x ∈ l → f x = Ok false.
Proof.
  induction l as [|x l IH]; simpl.
  { split; [intros _ x Hx; by apply elem_of_nil in Hx | done]. }
  rewrite bind_ok. setoid_rewrite elem_of_cons. split.
  - intros ([] & Hx & Hl); [done|]. intros y [->|Hy]; [done|]. by apply IH.
  - intros H. exists false. split; [by apply H; left|]. apply IH. auto.
Qed.

Lemma filter_id {A} (P : A → Prop) `{∀ x, Decision (P x)} (l : list A) :
  Forall P l → filter P l = l.
Proof. induction 1; [done|]. rewrite filter_cons_True by done. by f_equal. Qed.

Lemma existsb_exists_elem {A} (g : A → bool) l :
  existsb g l = true ↔ ∃ x, x ∈ l ∧ g x = true.
Proof.
  rewrite existsb_exists. setoid_rewrite list_elem_of_In. done.
Qed.

#[export] Hint Rewrite @bind_ok @bind_raise check_ok check_raise : gateway.

(** Every exception of an outcome is of a kind [P] accepts. *)
Definition raises {A} (P : exn_class → bool) (m : outcome A) : Prop := ∀ e, m = Raise e → P (exn_kind e) = true.

Lemma raises_bind {A B} (P : exn_class → bool) (m : outcome A) (f : A → outcome B) :
  raises P m → (∀ a, raises P (f a)) → raises P (m ≫= f).
Proof. intros Hm Hf e. destruct m as [a|e']; cbn; [apply Hf|]. intros [= <-]. by apply Hm. Qed.

Lemma raises_ok {A} P (a : A) : raises P (Ok a).
Proof. by intros e. Qed.

Lemma raises_error {A} (P : exn_class → bool) e : P (exn_kind e) = true → raises P (Raise e : outcome A).
Proof. intros HP e' [= <-]. done. Qed.

Lemma raises_check (P : exn_class → bool) c e : P (exn_kind e) = true → raises P (check c e).
Proof. unfold check. destruct c; [intros; apply raises_ok|apply raises_error]. Qed.

Lemma raises_if {A} P (b : bool) (m m' : outcome A) : raises P m → raises P m' → raises P (if b then m else m').
Proof. by destruct b. Qed.

Ltac solve_raises :=
  repeat first [ apply raises_ok | by apply raises_error | by apply raises_check
               | apply raises_if | apply raises_bind; [|intros] ].

Lemma o_and_true (m k : outcome bool) : o_and m k = Ok true ↔ m = Ok true ∧ k = Ok true.
Proof. destruct m as [[]|]; cbn; naive_solver. Qed.

(** ** Stateful computations *)

Lemma lift_bind_M {S A B} (m : outcome A) (f : A → M S B) (s : S) :
  (lift m ≫= f) s = match m with Ok a => f a s | Raise e => (s, Raise e) end.
Proof. unfold mbind, M_bind, lift. by destruct m. Qed.

Lemma bind_M_ok {S A B} (m : M S A) (f : A → M S B) (s s' : S) b :
  (m ≫= f) s = (s', Ok b) ↔ ∃ s1 a, m s = (s1, Ok a) ∧ f a s1 = (s', Ok b).
Proof. unfold mbind, M_bind. destruct (m s) as [s1 [a|e]]; naive_solver. Qed.

(** A sequence that ran: it stopped in its first part, or went on to the second. *)
Lemma bind_trace {S A B} (m : M S A) (f : A → M S B) s s' r :
  (m ≫= f) s = (s', r) → (∃ e, m s = (s', Raise e) ∧ r = Raise e) ∨ ∃ s1 a, m s = (s1, Ok a) ∧ f a s1 = (s', r).
Proof. unfold mbind, M_bind. destruct (m s) as [s1 [a|e]]; [eauto 10|]. intros [= -> <-]. left. by exists e. Qed.

Lemma lift_M_ok {S A} (m : outcome A) (s s' : S) a : lift m s = (s', Ok a) ↔ s' = s ∧ m = Ok a.
Proof. unfold lift. naive_solver. Qed.

Lemma mret_M_ok {S A} (x a : A) (s s' : S) : (mret x : M S A) s = (s', Ok a) ↔ s' = s ∧ x = a.
Proof. unfold mret, M_ret. naive_solver. Qed.

(** ** Tactics *)

(** Name the witnesses of the existentials and split the conjunctions of the
    context, repeatedly. *)
Ltac deex :=
  repeat match goal with
  | H : ∃ x, _ |- _ => let y := fresh x in destruct H as [y H]
  | H : _ ∧ _ |- _ => destruct H
  end.

(** Decompose an equation about a sequence of outcomes into its steps. *)
Ltac inv_bind :=
  repeat match goal with
  | H : mbind _ _ = Ok _ |- _ => apply bind_ok in H; deex
  | H : check _ _ = Ok _ |- _ => apply check_ok in H
  | H : Ok _ = Ok _ |- _ => injection H as H; subst
  | H : Raise _ = Ok _ |- _ => discriminate H
  | H : Ok _ = Raise _ |- _ => discriminate H
  | H : mret _ = Ok _ |- _ => injection H as H; subst
  end.

(** Decompose a stateful computation that succeeded into its steps. *)
Ltac inv_M :=
  repeat match goal with
  | H : mbind _ _ _ = (_, Ok _) |- _ => apply bind_M_ok in H; deex
  | H : lift _ _ = (_, Ok _) |- _ => apply lift_M_ok in H as [-> H]
  | H : mret _ _ = (_, Ok _) |- _ => apply mret_M_ok in H as [-> H]
  | H : raise _ _ = (_, Ok _) |- _ => discriminate H
  end; inv_bind.

(** Run a stateful computation by its definition. *)
Ltac run_M := unfold mbind, M_bind, mret, M_ret, get, modify, raise, lift in *; cbn in *.

(** Turn boolean connectives and decided propositions of the context and the
    goal into logical ones. *)
Ltac boolprop :=
  repeat match goal with
  | H : context [andb _ _ = true] |- _ => rewrite andb_true_iff in H
  | H : context [orb _ _ = true] |- _ => rewrite orb_true_iff in H
  | H : context [negb _ = true] |- _ => rewrite negb_true_iff in H
  | H : context [andb _ _ = false] |- _ => rewrite andb_false_iff in H
  | H : context [orb _ _ = false] |- _ => rewrite orb_false_iff in H
  | H : context [negb _ = false] |- _ => rewrite negb_false_iff in H
  | H : context [bool_decide _ = true] |- _ => rewrite bool_decide_eq_true in H
  | H : context [bool_decide _ = false] |- _ => rewrite bool_decide_eq_false in H
  | |- context [andb _ _ = true] => rewrite andb_true_iff
  | |- context [orb _ _ = true] => rewrite orb_true_iff
  | |- context [negb _ = true] => rewrite negb_true_iff
  | |- context [orb _ _ = false] => rewrite orb_false_iff
  | |- context [bool_decide _ = true] => rewrite bool_decide_eq_true
  | |- context [bool_decide _ = false] => rewrite bool_decide_eq_false
  end.

(** ** Executions of a step relation *)

Section steps.
Context {S L : Type} (step : S → L → S → Prop).

(** [steps s ls s']: the labelled steps [ls] lead from [s] to [s']. *)
Inductive steps : S → list L → S → Prop :=
  | steps_nil s : steps s [] s
  | steps_cons s1 l s2 ls s3 : step s1 l s2 → steps s2 ls s3 → steps s1 (l :: ls) s3.

Definition reachable (init : S → Prop) (s : S) : Prop := ∃ s0 ls, init s0 ∧ steps s0 ls s.

Lemma steps_app s1 ls1 s2 ls2 s3 :
  steps s1 ls1 s2 → steps s2 ls2 s3 → steps s1 (ls1 ++ ls2) s3.
Proof. induction 1; simpl; eauto using steps. Qed.

Lemma steps_invariant (I : S → Prop) s ls s' :
  (∀ s1 l s2, I s1 → step s1 l s2 → I s2) → I s → steps s ls s' → I s'.
Proof. intros Hstep HI. induction 1; eauto. Qed.

Lemma reachable_invariant (init I : S → Prop) :
  (∀ s, init s → I s) → (∀ s1 l s2, I s1 → step s1 l s2 → I s2) →
  ∀ s, reachable init s → I s.
Proof.
  intros Hinit Hstep s (s0 & ls & H0 & Hs). eapply steps_invariant; eauto.
Qed.
End steps.
