(* ===== verification/PyStr.v ===== *)
(** * Python strings and bytes

    [str] is a list of code points, [bytes] a list of bytes.  The methods the
    modelled code calls, and the UTF-8 codec with its [strict] and [replace]
    error handlers, are executable; their lemmas carry the string reasoning of
    every other file. *)

From Stdlib Require Import Strings.Byte.
From S2P Require Import Prelude.

Notation pystr := (list N).
Notation bytes := (list byte).

(** String literals of the source. *)
Fixpoint lit (s : string) : pystr :=
  match s with
  | EmptyString => []
  | String a s' => Ascii.N_of_ascii a :: lit s'
  end.
Notation "& s" := (lit s%string) (at level 1, format "& s").

(** The code point of a one-character literal. *)
Definition chr (s : string) : N := default 0%N (head (lit s)).

Arguments lit : simpl never.
Arguments chr : simpl never.

#[export] Instance byte_eq_dec : EqDecision byte := Byte.byte_eq_dec.

(** ** Methods *)

(** [s.split(c)] for a one-character separator: never empty. *)
Fixpoint split (c : N) (s : pystr) : list pystr :=
  match s with
  | [] => [[]]
  | x :: s' =>
    if decide (x = c) then [] :: split c s'
    else match split c s' with
         | p :: ps => (x :: p) :: ps
         | [] => [[x]]
         end
  end.

(** [c.join(l)] for a one-character separator. *)
Fixpoint join (c : N) (l : list pystr) : pystr :=
  match l with
  | [] => []
  | [p] => p
  | p :: l' => p ++ c :: join c l'
  end.

(** [s.partition(c)[0]] and [s.partition(c)[2]]. *)
Fixpoint partition (c : N) (s : pystr) : pystr * pystr :=
  match s with
  | [] => ([], [])
  | x :: s' =>
    if decide (x = c) then ([], s')
    else let '(a, b) := partition c s' in (x :: a, b)
  end.

(** [s.startswith(p)] *)
Fixpoint startswith {A} `{EqDecision A} (p s : list A) : bool :=
  match p, s with
  | [], _ => true
  | x :: p', y :: s' => bool_decide (x = y) && startswith p' s'
  | _ :: _, [] => false
  end.

Definition endswith {A} `{EqDecision A} (p s : list A) : bool := startswith (rev p) (rev s).

(** [c in s] for a character. *)
Definition has (c : N) (s : pystr) : bool := bool_decide (c ∈ s).

(** [str.isspace] of one character (the set [str.strip] removes). *)
Definition is_space (c : N) : bool :=
  ((9 <=? c) && (c <=? 13) || (28 <=? c) && (c <=? 32) || (c =? 133) || (c =? 160)
   || (c =? 5760) || (8192 <=? c) && (c <=? 8202) || (c =? 8232) || (c =? 8233)
   || (c =? 8239) || (c =? 8287) || (c =? 12288))%N.

Fixpoint drop_while {A} (f : A → bool) (l : list A) : list A :=
  match l with
  | [] => []
  | x :: l' => if f x then drop_while f l' else l
  end.

Fixpoint take_while {A} (f : A → bool) (l : list A) : list A :=
  match l with
  | [] => []
  | x :: l' => if f x then x :: take_while f l' else []
  end.

(** [s.lstrip()], [s.rstrip()], [s.strip()] *)
Definition lstrip (s : pystr) : pystr := drop_while is_space s.
Definition rstrip (s : pystr) : pystr := rev (drop_while is_space (rev s)).
Definition strip (s : pystr) : pystr := rstrip (lstrip s).

(** [str.lower]/[str.upper] on ASCII letters. *)
Definition ascii_lower_char (c : N) : N := if ((65 <=? c) && (c <=? 90))%N then (c + 32)%N else c.
Definition ascii_upper_char (c : N) : N := if ((97 <=? c) && (c <=? 122))%N then (c - 32)%N else c.
Definition is_ascii (s : pystr) : bool := forallb (λ c, c <? 128)%N s.

(** Case mapping of the whole of Unicode is the Python runtime's table: only
    its behaviour on ASCII strings is fixed. *)
Class UnicodeCase := {
  str_lower : pystr → pystr;
  str_upper : pystr → pystr;
  str_lower_ascii s : is_ascii s = true → str_lower s = ascii_lower_char <$> s;
  str_upper_ascii s : is_ascii s = true → str_upper s = ascii_upper_char <$> s;
}.

(** Case mapping that knows ASCII only, for concrete runs. *)
Definition ascii_case : UnicodeCase.
Proof.
  refine {| str_lower s := ascii_lower_char <$> s; str_upper s := ascii_upper_char <$> s |}; done.
Defined.

(** ASCII digits ([\d] under [re.ASCII]) and decimal numerals. *)
Definition is_digit (c : N) : bool := ((48 <=? c) && (c <=? 57))%N.
Definition digit_value (c : N) : Z := Z.of_N c - 48.

(** [int(s)] of a string of ASCII digits. *)
Definition int_of_digits (s : pystr) : Z := fold_left (λ a c, 10 * a + digit_value c)%Z s 0%Z.

Fixpoint digits_fuel (fuel : nat) (n : Z) (acc : pystr) : pystr :=
  match fuel with
  | O => acc
  | S fuel' =>
    let acc' := Z.to_N (48 + n mod 10) :: acc in
    if decide (n < 10)%Z then acc' else digits_fuel fuel' (n / 10) acc'
  end.

(** [str(n)] of an integer: [Z.log2 n + 1] bits bound the decimal digits. *)
Definition str_of_nonneg (n : Z) : pystr := digits_fuel (S (Z.to_nat (Z.log2 n))) n [].
Definition str_of_int (n : Z) : pystr :=
  if decide (n < 0)%Z then 45%N :: str_of_nonneg (- n) else str_of_nonneg n.

(** ** UTF-8 *)

Definition surrogate (c : N) : bool := ((55296 <=? c) && (c <=? 57343))%N.
Definition byte_of (n : N) : byte := default Byte.x00 (Byte.of_N n).

Definition utf8_char (c : N) : option bytes :=
  if (c <? 128)%N then Some [byte_of c]
  else if (c <? 2048)%N then Some [byte_of (192 + c / 64); byte_of (128 + c mod 64)]
  else if surrogate c then None
  else if (c <? 65536)%N then
    Some [byte_of (224 + c / 4096); byte_of (128 + c / 64 mod 64); byte_of (128 + c mod 64)]
  else if (c <? 1114112)%N then
    Some [byte_of (240 + c / 262144); byte_of (128 + c / 4096 mod 64);
          byte_of (128 + c / 64 mod 64); byte_of (128 + c mod 64)]
  else None.

(** [s.encode()]: a lone surrogate raises [UnicodeEncodeError]. *)
Fixpoint utf8_encode_opt (s : pystr) : option bytes :=
  match s with
  | [] => Some []
  | c :: s' =>
    match utf8_char c, utf8_encode_opt s' with
    | Some b, Some bs => Some (b ++ bs)
    | _, _ => None
    end
  end.

Definition unicode_encode_error : exn := Exn EUnicode "surrogates not allowed".

Definition encode (s : pystr) : outcome bytes :=
  match utf8_encode_opt s with
  | Some b => Ok b
  | None => Raise unicode_encode_error
  end.

Definition cont (b : byte) : bool := (128 <=? Byte.to_N b)%N && (Byte.to_N b <? 192)%N.

(** The second byte CPython accepts after a three- or four-byte lead. *)
Definition second_of_3 (b0 b1 : byte) : bool :=
  cont b1 &&
  (if (Byte.to_N b0 =? 224)%N then (160 <=? Byte.to_N b1)%N
   else if (Byte.to_N b0 =? 237)%N then (Byte.to_N b1 <? 160)%N else true).
Definition second_of_4 (b0 b1 : byte) : bool :=
  cont b1 &&
  (if (Byte.to_N b0 =? 240)%N then (144 <=? Byte.to_N b1)%N
   else if (Byte.to_N b0 =? 244)%N then (Byte.to_N b1 <? 144)%N else true).

(** The entry for the sequence starting at [b0], then the scan of the rest;
    [None] stands for a maximal ill-formed subpart. *)
Definition utf8_step (scan : bytes → list (option N)) (b0 : byte) (r0 : bytes) : list (option N) :=
  let n0 := Byte.to_N b0 in
  if (n0 <? 128)%N then Some n0 :: scan r0
  else if (194 <=? n0)%N && (n0 <? 224)%N then
    match r0 with
    | b1 :: r1 =>
      if cont b1 then Some ((n0 - 192) * 64 + (Byte.to_N b1 - 128))%N :: scan r1
      else None :: scan r0
    | [] => [None]
    end
  else if (224 <=? n0)%N && (n0 <? 240)%N then
    match r0 with
    | b1 :: r1 =>
      if second_of_3 b0 b1 then
        match r1 with
        | b2 :: r2 =>
          if cont b2 then
            Some ((n0 - 224) * 4096 + (Byte.to_N b1 - 128) * 64 + (Byte.to_N b2 - 128))%N
              :: scan r2
          else None :: scan r1
        | [] => [None]
        end
      else None :: scan r0
    | [] => [None]
    end
  else if (240 <=? n0)%N && (n0 <? 245)%N then
    match r0 with
    | b1 :: r1 =>
      if second_of_4 b0 b1 then
        match r1 with
        | b2 :: r2 =>
          if cont b2 then
            match r2 with
            | b3 :: r3 =>
              if cont b3 then
                Some ((n0 - 240) * 262144 + (Byte.to_N b1 - 128) * 4096
                      + (Byte.to_N b2 - 128) * 64 + (Byte.to_N b3 - 128))%N :: scan r3
              else None :: scan r2
            | [] => [None]
            end
          else None :: scan r1
        | [] => [None]
        end
      else None :: scan r0
    | [] => [None]
    end
  else None :: scan r0.

Fixpoint utf8_scan (bs : bytes) : list (option N) :=
  match bs with
  | [] => []
  | b0 :: r0 => utf8_step utf8_scan b0 r0
  end.

(** [b.decode(errors="replace")] *)
Definition decode_replace (b : bytes) : pystr := default 65533%N <$> utf8_scan b.

(** [b.decode()] *)
Definition decode (b : bytes) : outcome pystr :=
  match mapM id (utf8_scan b) with
  | Some s => Ok s
  | None => Raise (Exn EUnicode "invalid start byte")
  end.

(** ** Lemmas: splitting and joining *)

Lemma split_not_nil c s : split c s ≠ [].
Proof. destruct s; simpl; [done|]. case_decide; [done|]. by destruct (split c s). Qed.

Lemma split_cons_ne c x s :
  x ≠ c → ∃ p ps, split c s = p :: ps ∧ split c (x :: s) = (x :: p) :: ps.
Proof.
  intros Hx. destruct (split c s) as [|p ps] eqn:E; [by destruct (split_not_nil c s)|].
  exists p, ps. simpl. by rewrite decide_False, E.
Qed.

Lemma split_parts_free c s p : p ∈ split c s → c ∉ p.
Proof.
  revert p. induction s as [|x s IH]; intros p; simpl.
  { intros ->%list_elem_of_singleton. apply not_elem_of_nil. }
  case_decide as Hx.
  { intros [->|Hp]%elem_of_cons; [apply not_elem_of_nil | by apply IH]. }
  destruct (split c s) as [|q qs]; [by intros ->%list_elem_of_singleton; set_solver|].
  intros [->|Hp]%elem_of_cons.
  - apply not_elem_of_cons. split; [done|]. apply IH, list_elem_of_here.
  - apply IH. by apply list_elem_of_further.
Qed.

Lemma join_cons c p l : l ≠ [] → join c (p :: l) = p ++ c :: join c l.
Proof. by destruct l. Qed.

Lemma join_split c s : join c (split c s) = s.
Proof.
  induction s as [|x s IH]; simpl; [done|]. case_decide as Hx.
  - rewrite join_cons by apply split_not_nil. by rewrite IH, Hx.
  - destruct (split c s) as [|p ps] eqn:E; [by destruct (split_not_nil c s)|].
    rewrite <-IH. by destruct ps.
Qed.

Lemma split_app_sep c p s : c ∉ p → split c (p ++ c :: s) = p :: split c s.
Proof.
  induction p as [|x p IH]; intros Hp; simpl.
  { by rewrite decide_True. }
  apply not_elem_of_cons in Hp as [Hx Hp]. rewrite decide_False by done. by rewrite IH.
Qed.

Lemma split_free c p : c ∉ p → split c p = [p].
Proof.
  induction p as [|x p IH]; intros Hp; simpl; [done|].
  apply not_elem_of_cons in Hp as [Hx Hp]. rewrite decide_False by done. by rewrite IH.
Qed.

Lemma split_join c l : l ≠ [] → Forall (λ p, c ∉ p) l → split c (join c l) = l.
Proof.
  induction l as [|p l IH]; intros Hl Hf; [done|].
  apply Forall_cons in Hf as [Hp Hf]. destruct l as [|q l].
  - by apply split_free.
  - rewrite join_cons by done. rewrite split_app_sep by done. by rewrite IH.
Qed.

Lemma split_inj c s t : split c s = split c t → s = t.
Proof. intros H. by rewrite <-(join_split c s), H, join_split. Qed.

Lemma elem_of_join c x l :
  x ∈ join c l → x = c ∨ ∃ p, p ∈ l ∧ x ∈ p.
Proof.
  induction l as [|p l IH]; [by intros ?%elem_of_nil|].
  destruct l as [|q l].
  - simpl. intros Hx. right. exists p. split; [apply list_elem_of_here | done].
  - rewrite join_cons by done. rewrite elem_of_app, elem_of_cons. intros [Hx|[->|Hx]].
    + right. exists p. split; [apply list_elem_of_here | done].
    + by left.
    + destruct (IH Hx) as [->|(r & Hr & Hxr)]; [by left|].
      right. exists r. split; [by apply list_elem_of_further | done].
Qed.

Lemma elem_of_split c x s : x ≠ c → x ∈ s ↔ ∃ p, p ∈ split c s ∧ x ∈ p.
Proof.
  intros Hc. split.
  - rewrite <-(join_split c s) at 1. intros [?|?]%elem_of_join; [done|naive_solver].
  - intros (p & Hp & Hx). revert p Hp Hx. induction s as [|y s IH]; intros p Hp Hx; simpl in Hp.
    { apply list_elem_of_singleton in Hp as ->. by apply elem_of_nil in Hx. }
    case_decide.
    + apply elem_of_cons in Hp as [->|Hp]; [by apply elem_of_nil in Hx|].
      apply list_elem_of_further; eauto.
    + destruct (split c s) as [|q qs].
      { apply list_elem_of_singleton in Hp as ->. apply list_elem_of_singleton in Hx as ->.
        apply list_elem_of_here. }
      apply elem_of_cons in Hp as [->|Hp].
      * apply elem_of_cons in Hx as [->|Hx]; [apply list_elem_of_here|].
        apply list_elem_of_further. eapply IH; [apply list_elem_of_here | done].
      * apply list_elem_of_further. eapply IH; [by apply list_elem_of_further | done].
Qed.

Lemma has_true c s : has c s = true ↔ c ∈ s.
Proof. apply bool_decide_eq_true. Qed.

Lemma has_false c s : has c s = false ↔ c ∉ s.
Proof. apply bool_decide_eq_false. Qed.

(** The first character of a string is that of its first part. *)
Lemma split_head c s x :
  x ≠ c → head s = Some x ↔ ∃ p, head (split c s) = Some (x :: p).
Proof.
  intros Hx. destruct s as [|y s]; simpl.
  { split; [done|]. by intros [p Hp]. }
  case_decide as Hy; simpl.
  { subst. split; [congruence|]. by intros [p Hp]. }
  destruct (split c s) as [|q qs]; simpl; naive_solver.
Qed.

(** ** Lemmas: prefixes *)

Lemma startswith_true {A} `{EqDecision A} (p s : list A) :
  startswith p s = true ↔ ∃ t, s = p ++ t.
Proof.
  revert s. induction p as [|x p IH]; intros s; simpl.
  { split; [by exists s | done]. }
  destruct s as [|y s]; [split; [done | by intros [t Ht]]|].
  rewrite andb_true_iff, bool_decide_eq_true, IH. naive_solver.
Qed.

Lemma startswith_app {A} `{EqDecision A} (p s : list A) : startswith p (p ++ s) = true.
Proof. apply startswith_true. by exists s. Qed.

Lemma startswith_char (c : N) (s : pystr) : startswith [c] s = true ↔ head s = Some c.
Proof. rewrite startswith_true. destruct s; simpl; [split; naive_solver|]. naive_solver. Qed.

(** ** Lemmas: numerals *)

Lemma int_of_digits_app s t :
  int_of_digits (s ++ t) = (int_of_digits s * 10 ^ Z.of_nat (length t) + int_of_digits t)%Z.
Proof.
  unfold int_of_digits. rewrite fold_left_app. generalize (fold_left (λ a c, 10 * a + digit_value c)%Z s 0%Z).
  induction t as [|c t IH] using rev_ind; intros a; [simpl; lia|].
  rewrite !fold_left_app, length_app. simpl. rewrite IH.
  rewrite Nat2Z.inj_add, Z.pow_add_r by lia. change (10 ^ Z.of_nat 1)%Z with 10%Z. lia.
Qed.

Lemma digits_fuel_value fuel n acc :
  (0 ≤ n < 2 ^ Z.of_nat fuel)%Z →
  int_of_digits (digits_fuel fuel n acc) = (n * 10 ^ Z.of_nat (length acc) + int_of_digits acc)%Z
  ∧ (Forall (λ c, is_digit c = true) acc →
     Forall (λ c, is_digit c = true) (digits_fuel fuel n acc)).
Proof.
  revert n acc. induction fuel as [|fuel IH]; intros n acc Hn.
  { change (2 ^ Z.of_nat 0)%Z with 1%Z in Hn. simpl. split; [lia | done]. }
  pose proof (Z.mod_pos_bound n 10 ltac:(lia)) as Hm.
  set (d := Z.to_N (48 + n mod 10)).
  assert (digit_value d = (n mod 10)%Z) as Hd by (unfold digit_value, d; lia).
  assert (is_digit d = true) as Hi.
  { unfold is_digit. apply andb_true_iff. split; apply N.leb_le; unfold d; lia. }
  assert (int_of_digits (d :: acc)
          = (n mod 10 * 10 ^ Z.of_nat (length acc) + int_of_digits acc)%Z) as Hc.
  { change (d :: acc) with ([d] ++ acc). rewrite int_of_digits_app.
    unfold int_of_digits at 1. simpl. rewrite Hd. lia. }
  simpl. fold d. case_decide as Hlt.
  - rewrite Hc, Z.mod_small by lia. split; [done|]. by constructor.
  - rewrite Nat2Z.inj_succ, Z.pow_succ_r in Hn by lia.
    destruct (IH (n / 10)%Z (d :: acc)) as [Hv Hf].
    { split; [apply Z.div_pos; lia|]. apply Z.div_lt_upper_bound; lia. }
    rewrite Hv, Hc. cbn [length]. rewrite Nat2Z.inj_succ, Z.pow_succ_r by lia.
    split; [|intros; apply Hf; by constructor].
    pose proof (Z.div_mod n 10 ltac:(lia)). nia.
Qed.

Lemma nonneg_fuel n : (0 ≤ n)%Z → (0 ≤ n < 2 ^ Z.of_nat (S (Z.to_nat (Z.log2 n))))%Z.
Proof.
  intros Hn. split; [done|]. rewrite Nat2Z.inj_succ, Z2Nat.id by apply Z.log2_nonneg.
  destruct (Z.eq_dec n 0%Z) as [->|]; [done|]. apply Z.log2_spec. lia.
Qed.

(** [int(str(n)) == n] *)
Lemma int_of_str_of_nonneg n : (0 ≤ n)%Z → int_of_digits (str_of_nonneg n) = n.
Proof.
  intros Hn. unfold str_of_nonneg.
  destruct (digits_fuel_value _ n [] (nonneg_fuel n Hn)) as [-> _]. simpl. unfold int_of_digits; simpl. lia.
Qed.

Lemma str_of_nonneg_digits n : (0 ≤ n)%Z → Forall (λ c, is_digit c = true) (str_of_nonneg n).
Proof. intros Hn. by apply (digits_fuel_value _ n [] (nonneg_fuel n Hn)). Qed.

Lemma digits_fuel_not_nil fuel n acc : fuel ≠ 0 ∨ acc ≠ [] → digits_fuel fuel n acc ≠ [].
Proof.
  revert n acc. induction fuel as [|fuel IH]; intros n acc H; simpl.
  { by destruct H. }
  case_decide; [done|]. apply IH. by right.
Qed.

Lemma str_of_nonneg_not_nil n : str_of_nonneg n ≠ [].
Proof. apply digits_fuel_not_nil. by left. Qed.

Lemma str_of_nonneg_inj n m : (0 ≤ n)%Z → (0 ≤ m)%Z → str_of_nonneg n = str_of_nonneg m → n = m.
Proof.
  intros Hn Hm H. by rewrite <-(int_of_str_of_nonneg n Hn), H, int_of_str_of_nonneg.
Qed.

Lemma str_of_int_nonneg n : (0 ≤ n)%Z → str_of_int n = str_of_nonneg n.
Proof. intros. unfold str_of_int. rewrite decide_False by lia. done. Qed.

(** ** Lemmas: UTF-8 *)

Lemma byte_of_to_N n : (n < 256)%N → Byte.to_N (byte_of n) = n.
Proof.
  intros Hn. unfold byte_of. destruct (Byte.of_N n) as [b|] eqn:E; simpl.
  - by apply Byte.to_of_N.
  - apply Byte.of_N_None_iff in E. lia.
Qed.

(** Decide the range tests of the decoder on concrete byte values. *)
Ltac solve_range :=
  repeat match goal with
  | |- context [(?a <? ?b)%N] =>
    first [rewrite (proj2 (N.ltb_lt a b)) by lia | rewrite (proj2 (N.ltb_ge a b)) by lia]
  | |- context [(?a <=? ?b)%N] =>
    first [rewrite (proj2 (N.leb_le a b)) by lia | rewrite (proj2 (N.leb_gt a b)) by lia]
  end; cbn [andb].

Lemma utf8_scan_cons b bs : utf8_scan (b :: bs) = utf8_step utf8_scan b bs.
Proof. done. Qed.

Lemma utf8_scan_char c b bs :
  utf8_char c = Some b → utf8_scan (b ++ bs) = Some c :: utf8_scan bs.
Proof.
  unfold utf8_char, surrogate. intros H.
  destruct (N.ltb_spec c 128).
  { injection H as <-. cbn [app]. rewrite utf8_scan_cons. unfold utf8_step.
    rewrite byte_of_to_N by lia. by solve_range. }
  pose proof (N.mod_lt c 64 ltac:(done)). pose proof (N.mod_lt (c / 64) 64 ltac:(done)).
  pose proof (N.mod_lt (c / 4096) 64 ltac:(done)).
  pose proof (N.div_mod c 64 ltac:(done)). pose proof (N.div_mod (c / 64) 64 ltac:(done)) as H64.
  pose proof (N.div_mod (c / 4096) 64 ltac:(done)) as H4096.
  rewrite N.Div0.div_div in H64. change (64 * 64)%N with 4096%N in H64.
  rewrite N.Div0.div_div in H4096. change (4096 * 64)%N with 262144%N in H4096.
  (* abstract the quotients and remainders into variables *)
  generalize dependent (c mod 64)%N. generalize dependent ((c / 64) mod 64)%N.
  generalize dependent ((c / 4096) mod 64)%N. generalize dependent (c / 64)%N.
  generalize dependent (c / 4096)%N. generalize dependent (c / 262144)%N. intros.
  destruct (N.ltb_spec c 2048).
  { injection H as <-. cbn [app]. rewrite utf8_scan_cons. unfold utf8_step, cont.
    rewrite !byte_of_to_N by lia. solve_range. do 2 f_equal. lia. }
  destruct (N.leb_spec 55296 c), (N.leb_spec c 57343); cbn [andb] in H; try discriminate H;
  (destruct (N.ltb_spec c 65536); [|destruct (N.ltb_spec c 1114112); [|done]]);
  injection H as <-; cbn [app]; rewrite utf8_scan_cons;
  unfold utf8_step, second_of_3, second_of_4, cont;
  rewrite !byte_of_to_N by lia; solve_range;
  repeat match goal with |- context [(?a =? ?b)%N] => destruct (N.eqb_spec a b); solve_range end;
  do 2 f_equal; lia.
Qed.

Lemma utf8_scan_encode s b : utf8_encode_opt s = Some b → utf8_scan b = Some <$> s.
Proof.
  revert b. induction s as [|c s IH]; intros b; simpl; [by intros [= <-]|].
  destruct (utf8_char c) as [bc|] eqn:Hc; [|done].
  destruct (utf8_encode_opt s) as [bs|]; [|done]. intros [= <-].
  rewrite (utf8_scan_char _ _ _ Hc). by rewrite (IH bs).
Qed.

(** [s.encode().decode() == s], with either error handler. *)
Lemma decode_replace_encode s b : encode s = Ok b → decode_replace b = s.
Proof.
  unfold encode, decode_replace. destruct (utf8_encode_opt s) as [b'|] eqn:E; [|done].
  intros [= ->]. rewrite (utf8_scan_encode _ _ E), <-list_fmap_compose. apply list_fmap_id.
Qed.

Lemma mapM_id_Some (s : pystr) : mapM id (Some <$> s) = Some s.
Proof. induction s as [|c s IH]; [done|]. cbn. cbn in IH. by rewrite IH. Qed.

Lemma decode_encode s b : encode s = Ok b → decode b = Ok s.
Proof.
  unfold encode, decode. destruct (utf8_encode_opt s) as [b'|] eqn:E; [|done].
  intros [= ->]. rewrite (utf8_scan_encode _ _ E).
  by rewrite mapM_id_Some.
Qed.

Lemma encode_inj s t b : encode s = Ok b → encode t = Ok b → s = t.
Proof. intros <-%decode_replace_encode <-%decode_replace_encode. done. Qed.

Lemma encode_nil_iff s b : encode s = Ok b → b = [] ↔ s = [].
Proof.
  intros H. split; [|intros ->; by injection H].
  intros ->. apply decode_replace_encode in H. by rewrite <-H.
Qed.

#[export] Hint Rewrite has_true has_false startswith_char : gateway.

(** ** Lemmas: partition *)

Lemma partition_app c p s : c ∉ p → partition c (p ++ c :: s) = (p, s).
Proof.
  induction p as [|x p IH]; cbn.
  - intros _. by rewrite decide_True.
  - intros [Hx Hp]%not_elem_of_cons. rewrite decide_False by congruence. by rewrite IH.
Qed.

Lemma partition_free c p : c ∉ p → partition c p = (p, []).
Proof.
  induction p as [|x p IH]; cbn; [done|].
  intros [Hx Hp]%not_elem_of_cons. rewrite decide_False by congruence. by rewrite IH.
Qed.

Lemma forallb_not_elem (f : N → bool) c (s : pystr) : forallb f s = true → f c = false → c ∉ s.
Proof. rewrite forallb_forall. intros Hs Hc Hin%list_elem_of_In. apply Hs in Hin. congruence. Qed.
