(* ===== verification/PyDict.v ===== *)
(** * Python dictionaries

    [dict] and [OrderedDict] keep insertion order: a dictionary is the list of
    its items.  Assignment updates a key in place or appends it, as CPython
    does, and [to_map] forgets the order.  The lemmas relate every operation to
    its [gmap] counterpart, so that clients reason with stdpp's maps. *)

From S2P Require Import Prelude.

Notation pydict K V := (list (K * V)).

Section operations.
Context {K V : Type} `{EqDecision K}.
Implicit Types d : pydict K V.

(** [d.get(k)] *)
Fixpoint dict_get (k : K) (d : pydict K V) : option V :=
  match d with
  | [] => None
  | (k', v) :: d' => if decide (k = k') then Some v else dict_get k d'
  end.

(** [k in d] *)
Definition dict_has (k : K) (d : pydict K V) : bool := bool_decide (is_Some (dict_get k d)).

(** [d[k] = v] *)
Fixpoint dict_set (k : K) (v : V) (d : pydict K V) : pydict K V :=
  match d with
  | [] => [(k, v)]
  | (k', v') :: d' => if decide (k = k') then (k, v) :: d' else (k', v') :: dict_set k v d'
  end.

(** [d.pop(k, None)], [del d[k]] *)
Fixpoint dict_pop (k : K) (d : pydict K V) : pydict K V :=
  match d with
  | [] => []
  | (k', v') :: d' => if decide (k = k') then d' else (k', v') :: dict_pop k d'
  end.

(** [d.popitem(last=False)] of a non-empty [OrderedDict]. *)
Definition dict_popitem_first (d : pydict K V) : pydict K V := tail d.

Definition dict_keys (d : pydict K V) : list K := d.*1.
Definition dict_values (d : pydict K V) : list V := d.*2.

(** [dict.fromkeys(l)]: the distinct elements of [l] in order. *)
Definition dict_fromkeys (l : list K) : list K :=
  fold_left (λ acc k, if bool_decide (k ∈ acc) then acc else acc ++ [k]) l [].

Definition to_map `{Countable K} (d : pydict K V) : gmap K V := list_to_map d.
#[global] Arguments to_map : simpl never.
End operations.

(** The representation invariant: keys are distinct. *)
Notation dict_ok d := (NoDup (dict_keys d)).

Section lemmas.
Context {K V : Type} `{EqDecision K}.
Implicit Types d : pydict K V.

Lemma dict_get_set k v d k' :
  dict_get k' (dict_set k v d) = if decide (k' = k) then Some v else dict_get k' d.
Proof. induction d as [|[k1 v1] d IH]; simpl; repeat (case_decide; simplify_eq/=; try done). Qed.

Lemma dict_get_set_eq k v d : dict_get k (dict_set k v d) = Some v.
Proof. by rewrite dict_get_set, decide_True. Qed.

Lemma dict_get_set_ne k v d k' : k' ≠ k → dict_get k' (dict_set k v d) = dict_get k' d.
Proof. intros. by rewrite dict_get_set, decide_False. Qed.

Lemma dict_get_None k d : dict_get k d = None ↔ k ∉ dict_keys d.
Proof.
  unfold dict_keys. induction d as [|[k1 v1] d IH]; csimpl.
  { split; [intros _; apply not_elem_of_nil | done]. }
  rewrite not_elem_of_cons. case_decide; naive_solver.
Qed.

Lemma dict_get_Some_key k v d : dict_get k d = Some v → k ∈ dict_keys d.
Proof.
  intros H. destruct (decide (k ∈ dict_keys d)) as [|Hn]; [done|].
  apply dict_get_None in Hn. congruence.
Qed.

Lemma dict_get_elem k v d : dict_get k d = Some v → (k, v) ∈ d.
Proof.
  induction d as [|[k1 v1] d IH]; simpl; [done|]. case_decide; intros; simplify_eq.
  - apply list_elem_of_here.
  - apply list_elem_of_further. auto.
Qed.

Lemma dict_elem_get k v d : dict_ok d → (k, v) ∈ d → dict_get k d = Some v.
Proof.
  unfold dict_keys. induction d as [|[k1 v1] d IH]; csimpl; [by intros _ ?%elem_of_nil|].
  intros [Hk Hd]%NoDup_cons [[= <- <-]|He]%elem_of_cons; [by rewrite decide_True|].
  rewrite decide_False; [auto|]. intros ->. apply Hk. apply list_elem_of_fmap. by exists (k1, v).
Qed.

Lemma dict_keys_set k v d :
  dict_keys (dict_set k v d) = if decide (k ∈ dict_keys d) then dict_keys d else dict_keys d ++ [k].
Proof.
  unfold dict_keys. induction d as [|[k1 v1] d IH]; csimpl; [done|].
  destruct (decide (k = k1)) as [->|Hk]; csimpl.
  - rewrite decide_True by apply list_elem_of_here. done.
  - rewrite IH. destruct (decide (k ∈ d.*1)) as [Hd|Hd].
    + by rewrite decide_True by by apply list_elem_of_further.
    + rewrite decide_False; [done|]. by intros [?|?]%elem_of_cons.
Qed.

Lemma dict_ok_set k v d : dict_ok d → dict_ok (dict_set k v d).
Proof.
  intros Hd. rewrite dict_keys_set. case_decide; [done|].
  apply NoDup_app. split_and!; [done| |apply NoDup_singleton].
  intros x Hx ->%list_elem_of_singleton. done.
Qed.

Lemma dict_keys_pop k d : dict_ok d → dict_keys (dict_pop k d) = filter (k ≠.) (dict_keys d).
Proof.
  unfold dict_keys. induction d as [|[k1 v1] d IH]; csimpl; [done|].
  intros [Hk Hd]%NoDup_cons. rewrite filter_cons. case_decide as Hkk.
  - subst. rewrite decide_False by (intros ?; done). symmetry. apply filter_id.
    apply Forall_forall. intros x Hx ->. done.
  - rewrite decide_True by done. csimpl. by rewrite IH.
Qed.

Lemma dict_ok_pop k d : dict_ok d → dict_ok (dict_pop k d).
Proof. intros Hd. rewrite dict_keys_pop by done. by apply NoDup_filter. Qed.

Lemma dict_get_pop_ne k d k' : k' ≠ k → dict_get k' (dict_pop k d) = dict_get k' d.
Proof.
  intros Hk. induction d as [|[k1 v1] d IH]; simpl; [done|].
  destruct (decide (k = k1)) as [->|]; [by rewrite decide_False|]. simpl. by rewrite IH.
Qed.

Lemma dict_get_pop_eq k d : dict_ok d → dict_get k (dict_pop k d) = None.
Proof.
  intros Hd. apply dict_get_None. rewrite dict_keys_pop by done.
  rewrite list_elem_of_filter. naive_solver.
Qed.

Lemma dict_pop_absent k d : k ∉ dict_keys d → dict_pop k d = d.
Proof.
  unfold dict_keys. induction d as [|[k1 v1] d IH]; csimpl; [done|].
  intros [Hk Hd]%not_elem_of_cons. rewrite decide_False by done. by rewrite IH.
Qed.

Lemma dict_set_absent k v d : k ∉ dict_keys d → dict_set k v d = d ++ [(k, v)].
Proof.
  unfold dict_keys. induction d as [|[k1 v1] d IH]; csimpl; [done|].
  intros [Hk Hd]%not_elem_of_cons. rewrite decide_False by done. by rewrite IH.
Qed.

Lemma length_dict_pop k d :
  length (dict_pop k d) = if decide (k ∈ dict_keys d) then pred (length d) else length d.
Proof.
  destruct (decide (k ∈ dict_keys d)) as [H|H]; [|by rewrite dict_pop_absent].
  revert H. unfold dict_keys. induction d as [|[k1 v1] d IH]; csimpl; [by intros ?%elem_of_nil|].
  case_decide; [done|]. intros [?|Hd]%elem_of_cons; [done|]. csimpl. rewrite IH by done.
  destruct d; [by apply elem_of_nil in Hd | done].
Qed.

Lemma dict_values_set k v d x :
  x ∈ dict_values (dict_set k v d) → x = v ∨ x ∈ dict_values d.
Proof.
  unfold dict_values. induction d as [|[k1 v1] d IH]; csimpl.
  - intros ->%list_elem_of_singleton. by left.
  - case_decide; csimpl; rewrite !elem_of_cons; naive_solver.
Qed.

Lemma dict_values_pop k d x : x ∈ dict_values (dict_pop k d) → x ∈ dict_values d.
Proof.
  unfold dict_values. induction d as [|[k1 v1] d IH]; csimpl; [done|].
  case_decide; csimpl; rewrite ?elem_of_cons; naive_solver.
Qed.

Lemma dict_fromkeys_spec (l : list K) :
  NoDup (dict_fromkeys l) ∧ ∀ x, x ∈ dict_fromkeys l ↔ x ∈ l.
Proof.
  unfold dict_fromkeys.
  assert (∀ acc, NoDup acc →
    NoDup (fold_left (λ acc k, if bool_decide (k ∈ acc) then acc else acc ++ [k]) l acc) ∧
    ∀ x, x ∈ fold_left (λ acc k, if bool_decide (k ∈ acc) then acc else acc ++ [k]) l acc
      ↔ x ∈ acc ∨ x ∈ l) as H.
  { induction l as [|k l IH]; intros acc Hacc; simpl.
    { split; [done|]. intros x. rewrite elem_of_nil. naive_solver. }
    case_bool_decide as Hk.
    - destruct (IH acc Hacc) as [? Hx]. split; [done|]. intros x. rewrite Hx, elem_of_cons. naive_solver.
    - destruct (IH (acc ++ [k])) as [? Hx].
      { apply NoDup_app. split_and!; [done| |apply NoDup_singleton].
        intros x Hx ->%list_elem_of_singleton. done. }
      split; [done|]. intros x. rewrite Hx, elem_of_app, list_elem_of_singleton, elem_of_cons. tauto. }
  destruct (H [] (NoDup_nil_2)) as [Hn Hx]. split; [done|].
  intros x. rewrite Hx, elem_of_nil. naive_solver.
Qed.

(** *** The map a dictionary denotes *)

Context `{!Countable K}.

Lemma lookup_to_map d k : to_map d !! k = dict_get k d.
Proof.
  unfold to_map. induction d as [|[k1 v1] d IH]; simpl; [apply lookup_empty|].
  rewrite lookup_insert. repeat case_decide; naive_solver.
Qed.

Lemma to_map_set k v d : to_map (dict_set k v d) = <[k:=v]> (to_map d).
Proof.
  apply map_eq. intros k'. rewrite lookup_insert, !lookup_to_map, dict_get_set.
  repeat case_decide; naive_solver.
Qed.

Lemma to_map_pop k d : dict_ok d → to_map (dict_pop k d) = delete k (to_map d).
Proof.
  intros Hd. apply map_eq. intros k'. rewrite lookup_delete, !lookup_to_map. case_decide.
  - subst. by rewrite dict_get_pop_eq.
  - by rewrite dict_get_pop_ne.
Qed.

Lemma elem_of_dict_keys k d : k ∈ dict_keys d ↔ is_Some (to_map d !! k).
Proof.
  rewrite lookup_to_map. destruct (dict_get k d) eqn:E.
  - split; [eauto|]. intros _. by eapply dict_get_Some_key.
  - apply dict_get_None in E. split; [done|]. by intros [??].
Qed.

Lemma dict_keys_get k d : k ∈ dict_keys d ↔ is_Some (dict_get k d).
Proof. by rewrite elem_of_dict_keys, lookup_to_map. Qed.

Lemma elem_of_dict_keys_set k k' v d : k ∈ dict_keys (dict_set k' v d) ↔ k = k' ∨ k ∈ dict_keys d.
Proof. rewrite !dict_keys_get, dict_get_set. case_decide; naive_solver. Qed.

Lemma dict_has_true k d : dict_has k d = true ↔ is_Some (to_map d !! k).
Proof. unfold dict_has. by rewrite bool_decide_eq_true, lookup_to_map. Qed.

Lemma dict_has_false k d : dict_has k d = false ↔ to_map d !! k = None.
Proof. unfold dict_has. by rewrite bool_decide_eq_false, lookup_to_map, eq_None_not_Some. Qed.
End lemmas.

#[export] Hint Resolve dict_ok_set dict_ok_pop : gateway.
#[export] Hint Rewrite @to_map_set @to_map_pop using (auto with gateway) : gateway.

#[global] Arguments dict_keys : simpl never.
#[global] Arguments dict_values : simpl never.
