(* ===== verification/PyRegex.v ===== *)
(** * Regular expressions

    The fragment of Python's [re] the modelled code uses with [fullmatch]:
    characters, classes, concatenation, alternation and repetition.  Matching
    is by Brzozowski derivatives, so a pattern runs on a concrete string;
    [fullmatch_iff] relates the matcher to the language of the pattern. *)

From S2P Require Import Prelude PyStr.

Inductive regex : Type :=
  | Empty
  | Eps
  | Char (f : N → bool)
  | Seq (r1 r2 : regex)
  | Alt (r1 r2 : regex)
  | Star (r : regex).

(** [r{n}], [r{m,n}], [r?], [r+] and a literal string. *)
Fixpoint rep (n : nat) (r : regex) : regex :=
  match n with O => Eps | S n' => Seq r (rep n' r) end.
Definition opt (r : regex) : regex := Alt Eps r.
Fixpoint rep_upto (n : nat) (r : regex) : regex :=
  match n with O => Eps | S n' => opt (Seq r (rep_upto n' r)) end.
Definition plus (r : regex) : regex := Seq r (Star r).
Definition chars (s : pystr) : regex := foldr (λ c r, Seq (Char (N.eqb c)) r) Eps s.

Declare Scope regex_scope.
Delimit Scope regex_scope with re.
Infix "⋅" := Seq (at level 38, right associativity) : regex_scope.
Infix "⊹" := Alt (at level 39, right associativity) : regex_scope.

(** Character classes. *)
Definition in_range (a b : N) (c : N) : bool := ((a <=? c) && (c <=? b))%N.
Definition one_of (s : string) (c : N) : bool := bool_decide (c ∈ lit s).
Definition lower_hex (c : N) : bool := is_digit c || in_range 97 102 c.
Definition one_to_nine (c : N) : bool := in_range 49 57 c.
Definition ascii_alnum (c : N) : bool := is_digit c || in_range 65 90 c || in_range 97 122 c.

(** ** Matching *)

Fixpoint nullable (r : regex) : bool :=
  match r with
  | Empty | Char _ => false
  | Eps | Star _ => true
  | Seq r1 r2 => nullable r1 && nullable r2
  | Alt r1 r2 => nullable r1 || nullable r2
  end.

(** Simplifying constructors keep the derivatives small. *)
Definition mk_seq (r1 r2 : regex) : regex :=
  match r1 with Empty => Empty | Eps => r2 | _ => Seq r1 r2 end.
Definition mk_alt (r1 r2 : regex) : regex :=
  match r1, r2 with Empty, _ => r2 | _, Empty => r1 | _, _ => Alt r1 r2 end.

Fixpoint deriv (c : N) (r : regex) : regex :=
  match r with
  | Empty | Eps => Empty
  | Char f => if f c then Eps else Empty
  | Seq r1 r2 =>
    if nullable r1 then mk_alt (mk_seq (deriv c r1) r2) (deriv c r2)
    else mk_seq (deriv c r1) r2
  | Alt r1 r2 => mk_alt (deriv c r1) (deriv c r2)
  | Star r1 => mk_seq (deriv c r1) (Star r1)
  end.

(** [re.fullmatch(r, s) is not None] *)
Definition fullmatch (r : regex) (s : pystr) : bool := nullable (fold_left (λ r c, deriv c r) s r).

(** ** The language of a pattern *)

Inductive matches : regex → pystr → Prop :=
  | matches_eps : matches Eps []
  | matches_char f c : f c = true → matches (Char f) [c]
  | matches_seq r1 r2 s1 s2 : matches r1 s1 → matches r2 s2 → matches (Seq r1 r2) (s1 ++ s2)
  | matches_alt_l r1 r2 s : matches r1 s → matches (Alt r1 r2) s
  | matches_alt_r r1 r2 s : matches r2 s → matches (Alt r1 r2) s
  | matches_star_nil r : matches (Star r) []
  | matches_star_cons r s1 s2 : matches r s1 → matches (Star r) s2 → matches (Star r) (s1 ++ s2).

Lemma matches_empty s : matches Empty s ↔ False.
Proof. split; [|done]. inversion 1. Qed.

Lemma matches_eps_iff s : matches Eps s ↔ s = [].
Proof. split; [by inversion 1 | intros ->; constructor]. Qed.

Lemma matches_char_iff f s : matches (Char f) s ↔ ∃ c, s = [c] ∧ f c = true.
Proof. split; [inversion 1; eauto | intros (c & -> & Hc); by constructor]. Qed.

Lemma matches_seq_iff r1 r2 s :
  matches (Seq r1 r2) s ↔ ∃ s1 s2, s = s1 ++ s2 ∧ matches r1 s1 ∧ matches r2 s2.
Proof. split; [inversion 1; eauto 10 | intros (s1 & s2 & -> & ? & ?); by constructor]. Qed.

Lemma matches_alt_iff r1 r2 s : matches (Alt r1 r2) s ↔ matches r1 s ∨ matches r2 s.
Proof. split; [inversion 1; eauto | intros []; eauto using matches]. Qed.

#[export] Hint Rewrite matches_empty matches_eps_iff matches_char_iff matches_seq_iff
  matches_alt_iff : gateway.

Lemma nullable_iff r : nullable r = true ↔ matches r [].
Proof.
  induction r as [| |f|r1 IH1 r2 IH2|r1 IH1 r2 IH2|r IH]; simpl.
  - by rewrite matches_empty.
  - by rewrite matches_eps_iff.
  - rewrite matches_char_iff. split; [done|]. by intros (c & ? & ?).
  - rewrite andb_true_iff, IH1, IH2, matches_seq_iff. split.
    + intros []. by exists [], [].
    + intros (s1 & s2 & [-> ->]%eq_sym%app_eq_nil & ? & ?). done.
  - by rewrite orb_true_iff, IH1, IH2, matches_alt_iff.
  - split; [intros _; constructor | done].
Qed.

Lemma mk_seq_matches r1 r2 s : matches (mk_seq r1 r2) s ↔ matches (Seq r1 r2) s.
Proof.
  destruct r1; simpl; try done; rewrite matches_seq_iff.
  - rewrite matches_empty. split; [done|]. by intros (? & ? & _ & ?%matches_empty & _).
  - split; [intros; by exists [], s; rewrite matches_eps_iff|].
    by intros (? & ? & -> & ->%matches_eps_iff & ?).
Qed.

Lemma mk_alt_matches r1 r2 s : matches (mk_alt r1 r2) s ↔ matches (Alt r1 r2) s.
Proof.
  rewrite matches_alt_iff.
  destruct r1, r2; simpl; rewrite ?matches_alt_iff, ?matches_empty; naive_solver.
Qed.

(** A non-empty match of [r*] starts with a non-empty match of [r]. *)
Lemma matches_star_split r c s :
  matches (Star r) (c :: s) →
  ∃ s1 s2, s = s1 ++ s2 ∧ matches r (c :: s1) ∧ matches (Star r) s2.
Proof.
  intros H. remember (Star r) as r' eqn:Hr. remember (c :: s) as t eqn:Ht.
  revert c s Ht. induction H as [| | | | | |r1 s1 s2 H1 _ H2 IH2]; intros x t0 Ht; simplify_eq.
  destruct s1 as [|x1 s1]; simplify_eq/=.
  - by apply IH2.
  - eauto.
Qed.

Lemma deriv_matches c r s : matches (deriv c r) s ↔ matches r (c :: s).
Proof.
  revert s. induction r as [| |f|r1 IH1 r2 IH2|r1 IH1 r2 IH2|r IH]; intros s; simpl.
  - by rewrite !matches_empty.
  - rewrite matches_empty, matches_eps_iff. done.
  - rewrite matches_char_iff. destruct (f c) eqn:Hf.
    + rewrite matches_eps_iff. split; [intros ->; eauto|]. by intros (? & [= -> ->] & _).
    + rewrite matches_empty. split; [done|]. intros (? & [= -> ->] & ?). congruence.
  - assert (matches (mk_seq (deriv c r1) r2) s ↔
            ∃ s1 s2, s = s1 ++ s2 ∧ matches r1 (c :: s1) ∧ matches r2 s2) as Hs.
    { rewrite mk_seq_matches, matches_seq_iff. by setoid_rewrite IH1. }
    assert (matches (Seq r1 r2) (c :: s) ↔
            (∃ s1 s2, s = s1 ++ s2 ∧ matches r1 (c :: s1) ∧ matches r2 s2)
            ∨ matches r1 [] ∧ matches r2 (c :: s)) as Hc.
    { rewrite matches_seq_iff. split.
      - intros ([|c' s1] & s2 & Heq & H1 & H2); simplify_eq/=; naive_solver.
      - intros [(s1 & s2 & -> & H1 & H2)|[H1 H2]].
        + by exists (c :: s1), s2.
        + by exists [], (c :: s). }
    destruct (nullable r1) eqn:Hn.
    + rewrite mk_alt_matches, matches_alt_iff, Hs, IH2, Hc. apply nullable_iff in Hn. naive_solver.
    + rewrite Hs, Hc. split; [by left|]. intros [|[Hm _]]; [done|].
      apply nullable_iff in Hm. congruence.
  - by rewrite mk_alt_matches, !matches_alt_iff, IH1, IH2.
  - rewrite mk_seq_matches, matches_seq_iff. setoid_rewrite IH. split.
    + intros (s1 & s2 & -> & H1 & H2). by apply (matches_star_cons r (c :: s1)).
    + apply matches_star_split.
Qed.

Theorem fullmatch_iff r s : fullmatch r s = true ↔ matches r s.
Proof.
  unfold fullmatch. revert r. induction s as [|c s IH]; intros r; simpl.
  - apply nullable_iff.
  - by rewrite IH, deriv_matches.
Qed.

(** ** Derived forms *)

Lemma matches_rep_char f n s :
  matches (rep n (Char f)) s ↔ length s = n ∧ forallb f s = true.
Proof.
  revert s. induction n as [|n IH]; intros s; simpl.
  - rewrite matches_eps_iff. destruct s; simpl; naive_solver.
  - rewrite matches_seq_iff. split.
    + intros (s1 & s2 & -> & (c & -> & Hc)%matches_char_iff & [Hl Hf]%IH).
      simpl. rewrite Hc, Hl. done.
    + destruct s as [|c s]; simpl; [by intros [??]|]. rewrite andb_true_iff. intros [[= Hl] [Hc Hf]].
      exists [c], s. rewrite matches_char_iff, IH. split_and!; eauto.
Qed.

Lemma matches_star_char f s : matches (Star (Char f)) s ↔ forallb f s = true.
Proof.
  induction s as [|c s IH]; simpl; [split; [done|constructor]|]. rewrite andb_true_iff, <-IH. split.
  - intros (s1 & s2 & -> & (? & [= <- ->] & ?)%matches_char_iff & ?)%matches_star_split. done.
  - intros [Hc Hs]. apply (matches_star_cons _ [c]); [by constructor | done].
Qed.

Lemma matches_plus_char f s : matches (plus (Char f)) s ↔ s ≠ [] ∧ forallb f s = true.
Proof.
  unfold plus. rewrite matches_seq_iff. split.
  - intros (s1 & s2 & -> & (c & -> & Hc)%matches_char_iff & Hs%matches_star_char). simpl. by rewrite Hc.
  - destruct s as [|c s]; [by intros []|]. simpl. rewrite andb_true_iff. intros [_ [Hc Hs]].
    exists [c], s. rewrite matches_char_iff, matches_star_char. eauto.
Qed.

Lemma matches_chars p s : matches (chars p) s ↔ s = p.
Proof.
  revert s. induction p as [|c p IH]; intros s; simpl; [apply matches_eps_iff|].
  rewrite matches_seq_iff. setoid_rewrite matches_char_iff. setoid_rewrite IH. split.
  - intros (s1 & s2 & -> & (c' & -> & Hc%N.eqb_eq) & ->). by subst.
  - intros ->. exists [c], p. split_and!; [done| |done]. exists c. by rewrite N.eqb_refl.
Qed.

Lemma fullmatch_rep_char f n s :
  fullmatch (rep n (Char f)) s = true ↔ length s = n ∧ forallb f s = true.
Proof. rewrite fullmatch_iff. apply matches_rep_char. Qed.

(** Every character of a match belongs to a class that contains the classes of
    the pattern. *)
Fixpoint alphabet (f : N → bool) (r : regex) : Prop :=
  match r with
  | Empty | Eps => True
  | Char g => ∀ c, g c = true → f c = true
  | Seq r1 r2 | Alt r1 r2 => alphabet f r1 ∧ alphabet f r2
  | Star r => alphabet f r
  end.

Lemma alphabet_rep f n r : alphabet f r → alphabet f (rep n r).
Proof. intros Hr. induction n; cbn; auto. Qed.

Lemma alphabet_chars f p : forallb f p = true → alphabet f (chars p).
Proof.
  induction p as [|c p IH]; cbn; [done|]. rewrite andb_true_iff. intros [Hc Hp].
  split; [by intros d ->%N.eqb_eq|]. apply IH, Hp.
Qed.

Lemma matches_alphabet f r s : matches r s → alphabet f r → forallb f s = true.
Proof.
  induction 1; cbn; intros Ha; rewrite ?forallb_app, ?andb_true_iff; naive_solver.
Qed.

Lemma fullmatch_alphabet f r s : alphabet f r → fullmatch r s = true → forallb f s = true.
Proof. intros Ha Hm. apply fullmatch_iff in Hm. by eapply matches_alphabet. Qed.
