(* ===== verification/PyVal.v ===== *)
(** * Dynamic values

    The values JSON text, JWT claims and YAML/TOML tables decode to.  A float is
    the rational it denotes (the values in use are finite); a [datetime] is its
    POSIX timestamp.  Equality is Python's: booleans, integers and floats compare
    as numbers, dictionaries without regard to order. *)

From Stdlib Require Import QArith.QArith QArith.Qround.
From S2P Require Import Prelude PyStr PyDict.
#[local] Open Scope Z_scope.

Inductive pyval : Type :=
  | VNone
  | VBool (b : bool)
  | VInt (n : Z)
  | VFloat (q : Q)
  | VStr (s : pystr)
  | VDatetime (t : Q)
  | VList (l : list pyval)
  | VDict (d : pydict pystr pyval).

(** A dictionary with string keys: a JSON object. *)
Notation pyobject := (pydict pystr pyval).

(** ** Induction, decidable identity, countability *)

Section induction.
Context (P : pyval → Prop).
Context (P_none : P VNone) (P_bool : ∀ b, P (VBool b)) (P_int : ∀ n, P (VInt n)) (P_float : ∀ q, P (VFloat q)).
Context (P_str : ∀ s, P (VStr s)) (P_datetime : ∀ t, P (VDatetime t)).
Context (P_list : ∀ l, Forall P l → P (VList l)).
Context (P_dict : ∀ d, Forall (λ kv, P kv.2) d → P (VDict d)).

Fixpoint pyval_rect_nested (v : pyval) : P v :=
  match v with
  | VNone => P_none
  | VBool b => P_bool b
  | VInt n => P_int n
  | VFloat q => P_float q
  | VStr s => P_str s
  | VDatetime t => P_datetime t
  | VList l => P_list l
      ((fix go l : Forall P l :=
          match l with [] => Forall_nil_2 _ | v :: l => Forall_cons_2 _ _ _ (pyval_rect_nested v) (go l) end) l)
  | VDict d => P_dict d
      ((fix go d : Forall (λ kv, P kv.2) d :=
          match d with
          | [] => Forall_nil_2 _
          | kv :: d => Forall_cons_2 _ _ _ (pyval_rect_nested kv.2) (go d)
          end) d)
  end.
End induction.

#[export] Instance Q_eq_dec : EqDecision Q.
Proof. solve_decision. Defined.

#[export] Instance pyval_eq_dec : EqDecision pyval.
Proof.
  refine (fix go (v w : pyval) : Decision (v = w) :=
    let list_dec : ∀ l l' : list pyval, Decision (l = l') := @list_eq_dec _ go in
    let pair_dec : EqDecision (pystr * pyval) := @prod_eq_dec _ _ _ go in
    match v, w with
    | VNone, VNone => left _
    | VBool b, VBool b' => cast_if (decide (b = b'))
    | VInt n, VInt n' => cast_if (decide (n = n'))
    | VFloat q, VFloat q' => cast_if (decide (q = q'))
    | VStr s, VStr s' => cast_if (decide (s = s'))
    | VDatetime t, VDatetime t' => cast_if (decide (t = t'))
    | VList l, VList l' => cast_if (list_dec l l')
    | VDict d, VDict d' => cast_if (@list_eq_dec _ pair_dec d d')
    | _, _ => right _
    end); abstract congruence.
Defined.

#[export] Instance Q_countable : Countable Q.
Proof.
  refine (inj_countable' (λ q, (Qnum q, Qden q)) (λ p, Qmake p.1 p.2) _). by intros [].
Defined.

Inductive scalar : Type :=
  | SNone | SBool (b : bool) | SInt (n : Z) | SFloat (q : Q) | SStr (s : pystr) | SDatetime (t : Q).

#[export] Instance scalar_eq_dec : EqDecision scalar.
Proof. solve_decision. Defined.
#[export] Instance scalar_countable : Countable scalar.
Proof.
  refine (inj_countable'
    (λ s, match s with
          | SNone => inl (inl (inl tt)) | SBool b => inl (inl (inr b)) | SInt n => inl (inr (inl n))
          | SFloat q => inl (inr (inr q)) | SStr s => inr (inl s) | SDatetime t => inr (inr t)
          end)
    (λ x, match x with
          | inl (inl (inl _)) => SNone | inl (inl (inr b)) => SBool b | inl (inr (inl n)) => SInt n
          | inl (inr (inr q)) => SFloat q | inr (inl s) => SStr s | inr (inr t) => SDatetime t
          end) _). by intros [].
Defined.

Fixpoint to_tree (v : pyval) : gen_tree scalar :=
  match v with
  | VNone => GenLeaf SNone
  | VBool b => GenLeaf (SBool b)
  | VInt n => GenLeaf (SInt n)
  | VFloat q => GenLeaf (SFloat q)
  | VStr s => GenLeaf (SStr s)
  | VDatetime t => GenLeaf (SDatetime t)
  | VList l => GenNode 0 (to_tree <$> l)
  | VDict d => GenNode 1 ((λ kv, GenNode 2 [GenLeaf (SStr kv.1); to_tree kv.2]) <$> d)
  end.

Fixpoint of_tree (t : gen_tree scalar) : pyval :=
  match t with
  | GenLeaf SNone => VNone
  | GenLeaf (SBool b) => VBool b
  | GenLeaf (SInt n) => VInt n
  | GenLeaf (SFloat q) => VFloat q
  | GenLeaf (SStr s) => VStr s
  | GenLeaf (SDatetime t) => VDatetime t
  | GenNode O l => VList (of_tree <$> l)
  | GenNode _ l =>
    VDict ((λ t, match t with
                 | GenNode _ [GenLeaf (SStr k); t'] => (k, of_tree t')
                 | _ => ([], VNone)
                 end) <$> l)
  end.

Lemma of_to_tree v : of_tree (to_tree v) = v.
Proof.
  induction v using pyval_rect_nested; cbn; try done; f_equal.
  - rewrite <-list_fmap_compose. rewrite <-(list_fmap_id l) at 2. by apply Forall_fmap_ext_1.
  - rewrite <-list_fmap_compose. rewrite <-(list_fmap_id d) at 2. apply Forall_fmap_ext_1.
    eapply Forall_impl; [done|]. intros [k v] Hv. cbn in *. by rewrite Hv.
Qed.

#[export] Instance pyval_countable : Countable pyval := inj_countable' to_tree of_tree of_to_tree.

(** ** Tests *)

(** [bool(v)] *)
Definition truthy (v : pyval) : bool :=
  match v with
  | VNone => false
  | VBool b => b
  | VInt n => negb (n =? 0)
  | VFloat q => negb (Qeq_bool q 0)
  | VStr s => negb (bool_decide (s = []))
  | VDatetime _ => true
  | VList l => match l with [] => false | _ => true end
  | VDict d => match d with [] => false | _ => true end
  end.

Definition is_str (v : pyval) : bool := match v with VStr _ => true | _ => false end.
Definition is_list (v : pyval) : bool := match v with VList _ => true | _ => false end.
Definition is_dict (v : pyval) : bool := match v with VDict _ => true | _ => false end.
(** The text of a value already known to be a string. *)
Definition str_value (v : pyval) : pystr := match v with VStr s => s | _ => [] end.

(** [isinstance(v, int)] includes the booleans; [type(v) is int] does not. *)
Definition is_int (v : pyval) : bool := match v with VInt _ | VBool _ => true | _ => false end.
Definition type_is_int (v : pyval) : bool := match v with VInt _ => true | _ => false end.

Definition numeric (v : pyval) : option Q :=
  match v with
  | VBool b => Some (inject_Z (if b then 1 else 0))
  | VInt n => Some (inject_Z n)
  | VFloat q => Some q
  | _ => None
  end.

(** [v == w] *)
Fixpoint py_eq (v w : pyval) {struct v} : bool :=
  match v, w with
  | VNone, VNone => true
  | VStr s, VStr s' => bool_decide (s = s')
  | VDatetime t, VDatetime t' => Qeq_bool t t'
  | VList l, VList l' =>
    (fix eq_list l l' :=
       match l, l' with
       | [], [] => true
       | a :: l, b :: l' => py_eq a b && eq_list l l'
       | _, _ => false
       end) l l'
  | VDict d, VDict d' =>
    (length d =? length d')%nat &&
    (fix eq_entries d :=
       match d with
       | [] => true
       | (k, a) :: d =>
         match dict_get k d' with
         | Some b => py_eq a b && eq_entries d
         | None => false
         end
       end) d
  | _, _ =>
    match numeric v, numeric w with
    | Some q, Some q' => Qeq_bool q q'
    | _, _ => false
    end
  end.

Lemma py_eq_int v n : type_is_int v = true → py_eq v (VInt n) = true → v = VInt n.
Proof.
  destruct v as [| |m| | | | |]; try done. intros _ H. cbn in H. apply Qeq_bool_eq in H.
  unfold Qeq in H. cbn in H. f_equal. lia.
Qed.

Lemma type_is_int_spec v : type_is_int v = true → ∃ n, v = VInt n.
Proof. destruct v; try done. by eexists. Qed.

Lemma py_eq_str v s : py_eq v (VStr s) = true ↔ v = VStr s.
Proof.
  destruct v; cbn; try (by split; intros).
  rewrite bool_decide_eq_true. split; [by intros ->|by intros [= ->]].
Qed.

(** ** Numbers from text

    [int(s)] and [float(s)] on ASCII text: surrounding white space, a sign,
    digits with single underscores between them, a fraction and an exponent.  The
    words [inf] and [nan] name no value of the model and are refused. *)

Fixpoint digit_run (s : pystr) (acc : Z) (n : nat) (after_digit : bool) : option (Z * nat) :=
  match s with
  | [] => if after_digit then Some (acc, n) else None
  | c :: s' =>
    if is_digit c then digit_run s' (10 * acc + digit_value c) (S n) true
    else if bool_decide (c = chr "_") && after_digit then digit_run s' acc n false
    else None
  end.

Definition signed {A} (neg : A → A) (f : pystr → option A) (s : pystr) : option A :=
  match s with
  | c :: s' => if bool_decide (c = chr "-") then neg <$> f s'
               else if bool_decide (c = chr "+") then f s' else f s
  | [] => f s
  end.

Definition int_literal (s : pystr) : option Z :=
  signed Z.opp (λ s, fst <$> digit_run s 0 0 false) (strip s).

(** [digits][.digits], at least one digit in all. *)
Definition mantissa (s : pystr) : option Q :=
  let '(whole, fraction) := partition (chr ".") s in
  let part s := if bool_decide (s = []) then Some (0, O) else digit_run s 0 0 false in
  '(a, _) ← part whole;
  '(b, n) ← part fraction;
  if bool_decide (whole = []) && bool_decide (fraction = []) then None
  else Some (Qmake (a * 10 ^ Z.of_nat n + b) (Z.to_pos (10 ^ Z.of_nat n))).

Definition float_literal (s : pystr) : option Q :=
  signed Qopp (λ s,
    let exponent_mark c := bool_decide (c = chr "e") || bool_decide (c = chr "E") in
    let head := take_while (λ c, negb (exponent_mark c)) s in
    m ← mantissa head;
    match drop (length head) s with
    | [] => Some m
    | _ :: e =>
      n ← signed Z.opp (λ s, fst <$> digit_run s 0 0 false) e;
      Some (m * Qpower (inject_Z 10) n)%Q
    end) (strip s).

Definition type_error : exn := Exn EType "".

(** [int(v)], [float(v)] *)
Definition py_int (v : pyval) : outcome Z :=
  match v with
  | VBool b => Ok (if b then 1 else 0)
  | VInt n => Ok n
  | VFloat q => Ok (if Qle_bool 0 q then Qfloor q else Qceiling q)
  | VStr s => match int_literal s with
              | Some n => Ok n
              | None => Raise (Exn EValue "invalid literal for int() with base 10")
              end
  | _ => Raise type_error
  end.

Definition py_float (v : pyval) : outcome Q :=
  match v with
  | VBool b => Ok (inject_Z (if b then 1 else 0))
  | VInt n => if Z.abs n <? 2 ^ 1024 then Ok (inject_Z n)
              else Raise (Exn EOverflow "int too large to convert to float")
  | VFloat q => Ok q
  | VStr s => match float_literal s with
              | Some q => Ok q
              | None => Raise (Exn EValue "could not convert string to float")
              end
  | _ => Raise type_error
  end.

Example int_literals :
  (int_literal (&" -1_000 "), int_literal (&"1__0"), int_literal (&"+7"), int_literal (&"_1"), int_literal (&"1.0"))
  = (Some (-1000), None, Some 7, None, None).
Proof. vm_compute. reflexivity. Qed.

Example float_literals :
  (float_literal (&"1_0.25e1"), float_literal (&".5"), float_literal (&"2."), float_literal (&"."), float_literal (&"1e"))
  = (Some (10250 # 100)%Q, Some (5 # 10)%Q, Some (2 # 1)%Q, None, None).
Proof. vm_compute. reflexivity. Qed.

(** ** Access *)

Definition type_error_of (text : string) : exn := Exn EType text.

(** [d[k]], and [v.get(k, default)] of a dictionary. *)
Definition item (k : pystr) (d : pydict pystr pyval) : outcome pyval :=
  match dict_get k d with Some v => Ok v | None => Raise (Exn EKey "") end.

Definition get_default (k : pystr) (v : pyval) (d : pydict pystr pyval) : pyval := default v (dict_get k d).

(** [v in {...}] for a set of strings: the operand must be hashable. *)
Definition py_in (v : pyval) (names : list pystr) : outcome bool :=
  match v with
  | VList _ | VDict _ => Raise (type_error_of "unhashable type")
  | VStr s => Ok (bool_decide (s ∈ names))
  | _ => Ok false
  end.

(** [str(v)] of a string or an integer. *)
Definition py_str (v : pyval) : pystr :=
  match v with VStr s => s | VInt n => str_of_int n | _ => [] end.

Lemma py_in_true v names : py_in v names = Ok true ↔ ∃ s, v = VStr s ∧ s ∈ names.
Proof.
  destruct v; cbn; try (split; [done|by intros (? & ? & ?)]).
  split; [intros [= Hs%bool_decide_eq_true]; eauto|].
  intros (? & [= ->] & ?). by rewrite bool_decide_true.
Qed.
