(* ===== verification/PyPath.v ===== *)
(** * Pure POSIX paths ([pathlib.PurePosixPath])

    The parsing, [str], [suffix] and [stem] of Python 3.11 to 3.13. *)

From S2P Require Import Prelude PyStr.

Record posix_path : Type := PosixPath { path_root : pystr; path_parts : list pystr }.

Definition path_of (s : pystr) : posix_path :=
  {| path_root := if startswith (&"//") s && negb (startswith (&"///") s) then &"//"
                  else if startswith (&"/") s then &"/" else [];
     path_parts := filter (λ p, p ≠ [] ∧ p ≠ &".") (split (chr "/") s) |}.

Definition is_absolute (p : posix_path) : bool := negb (bool_decide (path_root p = [])).

Definition path_str (p : posix_path) : pystr :=
  if bool_decide (path_root p = []) && bool_decide (path_parts p = []) then &"."
  else path_root p ++ join (chr "/") (path_parts p).

(** [path.name] *)
Definition path_name (p : posix_path) : pystr := default [] (last (path_parts p)).

(** The position of the last dot. *)
Fixpoint rfind (c : N) (s : pystr) : option nat :=
  match s with
  | [] => None
  | x :: s => match rfind c s with
              | Some i => Some (S i)
              | None => if bool_decide (x = c) then Some O else None
              end
  end.

Definition dot_position (name : pystr) : option nat :=
  i ← rfind (chr ".") name; if ((0 <? i) && (i <? length name - 1))%nat then Some i else None.

Definition path_suffix (p : posix_path) : pystr :=
  match dot_position (path_name p) with Some i => drop i (path_name p) | None => [] end.
Definition path_stem (p : posix_path) : pystr :=
  match dot_position (path_name p) with Some i => take i (path_name p) | None => path_name p end.

Example paths :
  path_str (path_of (&"a//./b/")) = &"a/b" ∧ path_suffix (path_of (&"docs/a.tar.md")) = &".md"
  ∧ path_suffix (path_of (&"docs/.md")) = [] ∧ path_stem (path_of (&"README.rst")) = &"README"
  ∧ path_str (path_of []) = &".".
Proof. vm_compute. done. Qed.

(** The parts of a path that is equal to its own text. *)
Lemma path_parts_ok s p : p ∈ path_parts (path_of s) → p ≠ [] ∧ p ≠ &"." ∧ chr "/" ∉ p.
Proof.
  intros [[H1 H2] H3]%list_elem_of_filter. split_and!; [done..|]. by apply split_parts_free in H3.
Qed.
