(* ===== verification/Passwords.v ===== *)
(** * Password verifiers ([core/passwords.py], [password_hash.py])

    PBKDF2 is a parameter: only the length of an HMAC-SHA256 output is used.
    [secrets.token_bytes(16)] and the two [getpass] answers are inputs. *)

From Stdlib Require Import Strings.Byte.
From S2P Require Import Prelude PyStr PyRegex.

(** ** Hexadecimal, [bytes.hex] and [bytes.fromhex] *)

Definition hex_digit (n : N) : N := if (n <? 10)%N then (48 + n)%N else (87 + n)%N.

Definition byte_hex (b : byte) : pystr :=
  [hex_digit (Byte.to_N b / 16); hex_digit (Byte.to_N b mod 16)].

Definition hex (b : bytes) : pystr := b ≫= byte_hex.

Definition hex_value (c : N) : option N :=
  if is_digit c then Some (c - 48)%N
  else if in_range 97 102 c then Some (c - 87)%N
  else if in_range 65 70 c then Some (c - 55)%N
  else None.

Fixpoint fromhex (s : pystr) : outcome bytes :=
  match s with
  | [] => Ok []
  | c :: s' =>
    if is_space c && (c <? 128)%N then fromhex s' else
    match s' with
    | [] => Raise (Exn EValue "non-hexadecimal number found in fromhex()")
    | d :: s'' =>
      match hex_value c, hex_value d with
      | Some h, Some l => b ← fromhex s''; Ok (byte_of (16 * h + l) :: b)
      | _, _ => Raise (Exn EValue "non-hexadecimal number found in fromhex()")
      end
    end
  end.

(** ** [core/passwords.py] *)

Definition ITERATIONS : Z := 600000.

Definition password_prefix : pystr := &"pbkdf2_sha256$600000$".

Definition PATTERN : regex :=
  (chars password_prefix ⋅ rep 32 (Char lower_hex) ⋅ chars (&"$") ⋅ rep 64 (Char lower_hex))%re.

(** [_PATTERN.fullmatch(value)]: the two groups have fixed positions. *)
Definition match_verifier (value : pystr) : option (pystr * pystr) :=
  if fullmatch PATTERN value then
    let body := drop (length password_prefix) value in
    Some (take 32 body, drop 33 body)
  else None.

Definition validate_password_hash (value : pystr) : outcome pystr :=
  match match_verifier value with
  | None => Raise (Exn EValue "Configure a PBKDF2 API_PASSWORD_HASH using the password-hash command")
  | Some _ => Ok value
  end.

Section kdf.
Context (pbkdf2_hmac : pystr → bytes → bytes → Z → bytes).

Definition hash_password (salt : bytes) (password : pystr) : outcome pystr :=
  if negb ((16 <=? Z.of_nat (length password)) && (Z.of_nat (length password) <=? 1024))%Z then
    Raise (Exn EValue "Password length must be between 16 and 1024 characters")
  else
    pw ← encode password;
    let digest := pbkdf2_hmac (&"sha256") pw salt ITERATIONS in
    Ok (&"pbkdf2_sha256$" ++ str_of_int ITERATIONS ++ &"$" ++ hex salt ++ &"$" ++ hex digest).

Definition verify_password (password encoded : pystr) : outcome bool :=
  match match_verifier encoded with
  | None => Ok false
  | Some (salt_hex, expected_hex) =>
    if negb ((1 <=? Z.of_nat (length password)) && (Z.of_nat (length password) <=? 1024))%Z then
      Ok false
    else
      pw ← encode password;
      salt ← fromhex salt_hex;
      let actual := pbkdf2_hmac (&"sha256") pw salt ITERATIONS in
      expected ← fromhex expected_hex;
      Ok (bool_decide (actual = expected))
  end.

(** [password_hash.main]: what is written to standard output, or the text of
    [SystemExit]. *)
Definition password_hash_main (salt : bytes) (password confirmation : pystr) : string + pystr :=
  if negb (bool_decide (password = confirmation)) then inl "Passwords do not match"%string
  else match hash_password salt password with
       | Ok encoded => inr (encoded ++ [10%N])
       | Raise e => inl (exn_text e)
       end.
End kdf.

(** ** Lemmas *)

Lemma hex_digit_value n : (n < 16)%N → hex_value (hex_digit n) = Some n ∧ lower_hex (hex_digit n) = true.
Proof.
  intros Hn. unfold hex_value, hex_digit, lower_hex, is_digit, in_range.
  destruct (N.ltb_spec n 10); solve_range; cbn [orb]; split; try done; f_equal; lia.
Qed.

Lemma lower_hex_not_space c : lower_hex c = true → is_space c && (c <? 128)%N = false.
Proof.
  unfold lower_hex, is_digit, in_range, is_space. intros H. boolprop.
  rewrite !N.leb_le in H. apply andb_false_iff. left.
  repeat (apply orb_false_iff; split); try apply andb_false_iff;
    rewrite ?N.leb_gt, ?N.eqb_neq; lia.
Qed.

Lemma byte_div_mod b : (Byte.to_N b / 16 < 16)%N ∧ (Byte.to_N b mod 16 < 16)%N.
Proof.
  pose proof (Byte.to_N_bounded b). split.
  - apply N.Div0.div_lt_upper_bound. lia.
  - by apply N.mod_lt.
Qed.

Lemma byte_of_halves b : byte_of (16 * (Byte.to_N b / 16) + Byte.to_N b mod 16) = b.
Proof.
  rewrite <-N.div_mod by done. unfold byte_of. by rewrite Byte.of_to_N.
Qed.

Lemma length_hex b : length (hex b) = 2 * length b.
Proof. induction b as [|x b IH]; [done|]. simpl in *. rewrite IH. lia. Qed.

Lemma hex_lower b : forallb lower_hex (hex b) = true.
Proof.
  induction b as [|x b IH]; [done|]. destruct (byte_div_mod x) as [H1 H2].
  cbn [hex mbind list_bind byte_hex app forallb].
  rewrite (proj2 (hex_digit_value _ H1)), (proj2 (hex_digit_value _ H2)). apply IH.
Qed.

Lemma fromhex_hex b : fromhex (hex b) = Ok b.
Proof.
  induction b as [|x b IH]; [done|]. destruct (byte_div_mod x) as [H1 H2].
  destruct (hex_digit_value _ H1) as [Hv1 Hl1], (hex_digit_value _ H2) as [Hv2 Hl2].
  cbn [hex mbind list_bind byte_hex app fromhex].
  rewrite (lower_hex_not_space _ Hl1), Hv1, Hv2.
  change (mbind byte_hex b) with (hex b). rewrite IH. cbn [mbind outcome_bind]. by rewrite byte_of_halves.
Qed.

Lemma hex_value_lower c : lower_hex c = true → ∃ v, hex_value c = Some v ∧ (v < 16)%N ∧ hex_digit v = c.
Proof.
  unfold lower_hex, hex_value, hex_digit, in_range, is_digit. intros H. boolprop.
  destruct H as [H|H]; rewrite !N.leb_le in H.
  - exists (c - 48)%N. solve_range. split_and!; [done|lia|lia].
  - exists (c - 87)%N. solve_range. split_and!; [done|lia|lia].
Qed.

(** Lower-case hexadecimal of even length is the image of [hex]. *)
Lemma fromhex_lower n s :
  length s = 2 * n → forallb lower_hex s = true →
  ∃ b, fromhex s = Ok b ∧ hex b = s ∧ length b = n.
Proof.
  revert s. induction n as [|n IH]; intros s Hl Hs.
  { destruct s; [by exists [] | simpl in Hl; lia]. }
  destruct s as [|c [|d s]]; simpl in Hl; [lia|lia|]. simpl in Hs. boolprop. destruct Hs as (Hc & Hd & Hs).
  destruct (IH s) as (b & Hb & Hh & Hlb); [lia|done|].
  destruct (hex_value_lower c Hc) as (h & Hh1 & Hh2 & Hh3).
  destruct (hex_value_lower d Hd) as (l & Hl1 & Hl2 & Hl3).
  assert (Byte.to_N (byte_of (16 * h + l)) = (16 * h + l)%N) as Hto by (apply byte_of_to_N; lia).
  exists (byte_of (16 * h + l) :: b). cbn [fromhex]. rewrite (lower_hex_not_space _ Hc), Hh1, Hl1, Hb.
  split; [done|]. cbn [hex mbind list_bind byte_hex app length]. change (mbind byte_hex b) with (hex b).
  rewrite Hto, Hh. split; [|lia].
  rewrite (N.mul_comm 16), N.div_add_l, N.div_small, N.add_0_r, Hh3 by lia.
  rewrite N.add_comm, N.Div0.mod_add, N.mod_small, Hl3 by lia. done.
Qed.

Lemma match_verifier_iff value salt digest :
  match_verifier value = Some (salt, digest) ↔
  value = password_prefix ++ salt ++ &"$" ++ digest
  ∧ length salt = 32 ∧ forallb lower_hex salt = true
  ∧ length digest = 64 ∧ forallb lower_hex digest = true.
Proof.
  unfold match_verifier. destruct (fullmatch PATTERN value) eqn:E.
  - apply fullmatch_iff in E. unfold PATTERN in E.
    apply matches_seq_iff in E as (p & r & -> & ->%matches_chars & E).
    apply matches_seq_iff in E as (s1 & r1 & -> & [Hl1 Hf1]%matches_rep_char & E).
    apply matches_seq_iff in E as (d & s2 & -> & ->%matches_chars & [Hl2 Hf2]%matches_rep_char).
    rewrite drop_app_length. rewrite <-Hl1 at 1. rewrite take_app_length.
    replace (drop 33 (s1 ++ &"$" ++ s2)) with s2
      by (rewrite drop_app_ge, Hl1 by lia; done).
    split; [naive_solver|].
    intros (Heq & ? & ? & ? & ?). apply app_inv_head in Heq.
    apply app_inj_1 in Heq as [-> Heq]; [|congruence]. apply app_inv_head in Heq. by subst.
  - split; [done|]. intros (-> & Hl1 & Hf1 & Hl2 & Hf2). exfalso.
    apply not_true_iff_false in E. apply E, fullmatch_iff. unfold PATTERN.
    repeat (constructor; [first [by apply matches_chars | by apply matches_rep_char]|]).
    by apply matches_rep_char.
Qed.

Section kdf_lemmas.
Context (pbkdf2_hmac : pystr → bytes → bytes → Z → bytes).

Lemma hash_password_ok salt pw h :
  hash_password pbkdf2_hmac salt pw = Ok h ↔
  (16 ≤ Z.of_nat (length pw) ≤ 1024)%Z ∧
  ∃ b, encode pw = Ok b ∧
       h = password_prefix ++ hex salt ++ &"$" ++ hex (pbkdf2_hmac (&"sha256") b salt ITERATIONS).
Proof.
  unfold hash_password. destruct (_ && _) eqn:E; cbn [negb].
  - boolprop. rewrite !Z.leb_le in E. rewrite bind_ok. naive_solver.
  - apply andb_false_iff in E. rewrite !Z.leb_gt in E. split; [done|]. lia.
Qed.

Lemma verify_password_eq pw salt_hex digest_hex :
  length salt_hex = 32 → forallb lower_hex salt_hex = true →
  length digest_hex = 64 → forallb lower_hex digest_hex = true →
  (1 ≤ Z.of_nat (length pw) ≤ 1024)%Z →
  ∃ salt digest, hex salt = salt_hex ∧ hex digest = digest_hex ∧
  verify_password pbkdf2_hmac pw (password_prefix ++ salt_hex ++ &"$" ++ digest_hex) =
    (b ← encode pw; Ok (bool_decide (pbkdf2_hmac (&"sha256") b salt ITERATIONS = digest))).
Proof.
  intros Hl1 Hf1 Hl2 Hf2 Hpw.
  destruct (fromhex_lower 16 salt_hex) as (salt & Hs & Hsh & _); [done..|].
  destruct (fromhex_lower 32 digest_hex) as (digest & Hd & Hdh & _); [done..|].
  exists salt, digest. split_and!; [done..|]. unfold verify_password.
  rewrite (proj2 (match_verifier_iff _ salt_hex digest_hex)) by done.
  rewrite (proj2 (Z.leb_le _ _)), (proj2 (Z.leb_le _ _)) by lia. cbn [andb negb].
  destruct (encode pw) as [b|e]; [|done]. cbn. by rewrite Hs, Hd.
Qed.

Lemma verify_password_malformed pw encoded :
  match_verifier encoded = None → verify_password pbkdf2_hmac pw encoded = Ok false.
Proof. unfold verify_password. by intros ->. Qed.

(** Whatever verifier is configured, a successful check means that it is a
    [pbkdf2_sha256] verifier with exactly 600000 iterations (a stored work
    factor is never used), a 128-bit salt and a 256-bit digest equal to the
    PBKDF2 output; the digest comparison is the only way to succeed. *)
Theorem verify_password_sound pw encoded
    (Hok : verify_password pbkdf2_hmac pw encoded = Ok true) :
  ∃ salt b, (1 ≤ Z.of_nat (length pw) ≤ 1024)%Z ∧ encode pw = Ok b ∧ length salt = 16
  ∧ encoded = &"pbkdf2_sha256$600000$" ++ hex salt ++ &"$"
              ++ hex (pbkdf2_hmac (&"sha256") b salt 600000).
Proof.
  unfold verify_password in Hok.
  destruct (match_verifier encoded) as [[s d]|] eqn:E; [|done].
  apply match_verifier_iff in E as (-> & Hl1 & Hf1 & Hl2 & Hf2).
  destruct (_ && _)%Z eqn:Hp; cbn [negb] in Hok; [|done]. boolprop. rewrite !Z.leb_le in Hp.
  destruct (fromhex_lower 16 s) as (salt & Hs & Hsh & Hsl); [done..|].
  destruct (fromhex_lower 32 d) as (digest & Hd & Hdh & _); [done..|].
  inv_bind. rewrite Hs, Hd in *. simplify_eq. boolprop.
  match goal with H : pbkdf2_hmac _ _ _ _ = _ |- _ => rewrite <-H in * end.
  eauto 10.
Qed.
(** C24: a verifier made by [hash_password] is accepted by [validate_password_hash]
    (hence by the settings), and [verify_password] then accepts exactly the
    passwords whose PBKDF2 digest under the stored salt is the stored one, the
    original password among them.  Conversely every verifier that accepts the
    password is the one that [hash_password] makes of it with some salt.  An
    HMAC-SHA256 digest has 32 bytes; nothing is assumed of other hash functions. *)
Theorem hash_password_roundtrip (Hlen : ∀ p s n, length (pbkdf2_hmac (&"sha256") p s n) = 32)
    salt pw h (Hsalt : length salt = 16) (Hhash : hash_password pbkdf2_hmac salt pw = Ok h) :
  validate_password_hash h = Ok h
  ∧ verify_password pbkdf2_hmac pw h = Ok true
  ∧ (∀ h', verify_password pbkdf2_hmac pw h' = Ok true → ∃ salt', length salt' = 16 ∧ hash_password pbkdf2_hmac salt' pw = Ok h')
  ∧ ∃ b, encode pw = Ok b ∧
    ∀ pw' b', (1 ≤ Z.of_nat (length pw') ≤ 1024)%Z → encode pw' = Ok b' →
      verify_password pbkdf2_hmac pw' h =
        Ok (bool_decide (pbkdf2_hmac (&"sha256") b' salt ITERATIONS
                         = pbkdf2_hmac (&"sha256") b salt ITERATIONS)).
Proof.
  apply hash_password_ok in Hhash as (Hpw & b & Hb & ->).
  set (digest := pbkdf2_hmac (&"sha256") b salt ITERATIONS).
  assert (length (hex salt) = 32) as Hls by (rewrite length_hex; lia).
  assert (length (hex digest) = 64) as Hld by (unfold digest; rewrite length_hex, Hlen; lia).
  assert (∀ pw' b', (1 ≤ Z.of_nat (length pw') ≤ 1024)%Z → encode pw' = Ok b' →
    verify_password pbkdf2_hmac pw' (password_prefix ++ hex salt ++ &"$" ++ hex digest)
    = Ok (bool_decide (pbkdf2_hmac (&"sha256") b' salt ITERATIONS = digest))) as Hv.
  { intros pw' b' Hpw' Hb'.
    destruct (verify_password_eq pw' (hex salt) (hex digest)) as (s & d & Hs & Hd & ->);
      auto using hex_lower.
    pose proof (fromhex_hex s) as H1. rewrite Hs, fromhex_hex in H1. injection H1 as <-.
    pose proof (fromhex_hex d) as H2. rewrite Hd, fromhex_hex in H2. injection H2 as <-.
    by rewrite Hb'. }
  split_and!.
  - unfold validate_password_hash.
    by rewrite (proj2 (match_verifier_iff _ (hex salt) (hex digest))) by auto using hex_lower.
  - rewrite (Hv pw b) by (done || lia). by rewrite bool_decide_eq_true_2.
  - intros h' (salt' & b' & _ & Hb' & Hs' & ->)%verify_password_sound. exists salt'. split; [done|].
    apply hash_password_ok. split; [done|]. by exists b'.
  - eauto.
Qed.

End kdf_lemmas.

(** ** Concrete runs *)

(** A key derivation with the output sizes of SHA-256 and SHA-512: the password padded
    with zeros. *)
Definition demo_kdf (h : pystr) (p s : bytes) (n : Z) : bytes :=
  let size := if bool_decide (h = &"sha256") then 32 else 64 in take size (p ++ replicate size Byte.x00).
Definition demo_salt : bytes := replicate 16 Byte.xab.
Definition demo_password : pystr := &"correct horse battery".

Lemma demo_kdf_length p s n : length (demo_kdf (&"sha256") p s n) = 32.
Proof. unfold demo_kdf. rewrite bool_decide_eq_true_2 by done. rewrite length_take, length_app, length_replicate. lia. Qed.

Example hash_password_demo :
  hash_password demo_kdf demo_salt demo_password =
  Ok (&"pbkdf2_sha256$600000$abababababababababababababababab$636f727265637420686f7273652062617474657279" ++ replicate 22 48%N).
Proof. vm_compute. reflexivity. Qed.

Lemma hash_password_roundtrip_witness :
  ∃ h, hash_password demo_kdf demo_salt demo_password = Ok h
       ∧ validate_password_hash h = Ok h ∧ verify_password demo_kdf demo_password h = Ok true.
Proof.
  destruct (hash_password demo_kdf demo_salt demo_password) as [h|e] eqn:E;
    [|vm_compute in E; discriminate E].
  exists h. destruct (hash_password_roundtrip demo_kdf demo_kdf_length demo_salt demo_password h)
    as (H1 & H2 & _); [reflexivity | exact E | auto].
Defined.

Definition demo_verifier : pystr :=
  &"pbkdf2_sha256$600000$abababababababababababababababab$636f727265637420686f7273652062617474657279" ++ replicate 22 48%N.

Lemma verify_password_sound_witness :
  verify_password demo_kdf demo_password demo_verifier = Ok true
  ∧ ∃ salt b, (1 ≤ Z.of_nat (length demo_password) ≤ 1024)%Z ∧ encode demo_password = Ok b
    ∧ length salt = 16
    ∧ demo_verifier = &"pbkdf2_sha256$600000$" ++ hex salt ++ &"$"
              ++ hex (demo_kdf (&"sha256") b salt 600000).
Proof.
  split; [vm_compute; reflexivity|].
  apply (verify_password_sound demo_kdf demo_password demo_verifier). vm_compute. reflexivity.
Defined.
