(* ===== verification/Config.v ===== *)
(** * Settings ([core/config.py])

    [RawSettings] is what pydantic has after coercion to the annotated types,
    [load_settings] runs the field constraints and validators in field order
    and yields the [Settings] every other component reads.  Pydantic reports
    all failing fields at once; here the first one is reported.  Python floats
    are rationals: rounding is not modelled. *)

From Stdlib Require Import QArith.QArith.
From S2P Require Import Prelude PyStr PyRegex Passwords.
#[local] Open Scope Z_scope.

Record Settings : Type := mkSettings {
  app_name : pystr;
  app_version : pystr;
  debug : bool;
  host : pystr;
  port : Z;
  mqtt_broker_host : pystr;
  mqtt_broker_port : Z;
  mqtt_username : pystr;
  mqtt_password : pystr;
  mqtt_client_id : pystr;
  mqtt_keepalive : Z;
  mqtt_clean_session : bool;
  mqtt_use_tls : bool;
  mqtt_ca_certs : pystr;
  mqtt_certfile : pystr;
  mqtt_keyfile : pystr;
  api_username : pystr;
  api_password_hash : pystr;
  jwt_secret_key : pystr;
  jwt_algorithm : pystr;
  jwt_access_token_expire_minutes : Z;
  jwt_refresh_token_expire_days : Z;
  cors_allowed_origins : list pystr;
  rate_limit_enabled : bool;
  rate_limit_requests : Z;
  rate_limit_window_seconds : Z;
  default_topic_prefix : pystr;
  allowed_topic_patterns : list pystr;
  blocked_topic_patterns : list pystr;
  retained_query_timeout : Q;
  mqtt_queue_size : Z;
  websocket_queue_size : Z;
  websocket_max_topics : Z;
  websocket_auth_timeout : Q;
  websocket_send_timeout : Q;
  max_message_bytes : Z;
  log_level : pystr;
  log_format : pystr;
}.

(** The three list settings may be given as one comma-separated string. *)
Record RawSettings : Type := mkRawSettings {
  raw_base : Settings;
  raw_allowed_topic_patterns : pystr + list pystr;
  raw_blocked_topic_patterns : pystr + list pystr;
  raw_cors_allowed_origins : pystr + list pystr;
}.

(** The declared defaults; the three required credentials are arguments. *)
Definition default_settings (version username password_hash secret : pystr) : Settings :=
  mkSettings (&"FastAPI MQTT Gateway") version false (&"0.0.0.0") 8000
    (&"mqtt-broker") 1883 [] [] (&"fastapi-mqtt-gateway") 60 true false [] [] []
    username password_hash secret (&"HS256") 30 7 [] true 100 60 (&"gateway")
    [&"#"] [&"$SYS/#"; &"$share/#"] 5 256 64 32 5 10 1048576 (&"INFO") (&"json").

Definition config_error (text : string) : exn := Exn EValue text.

Section validators.
Context `{UnicodeCase}.

(** [Settings.reject_placeholder_credentials] *)
Definition reject_placeholder_credentials (value : pystr) : outcome pystr :=
  let normalized := str_lower (strip value) in
  if bool_decide (normalized = []) || existsb (λ p, startswith p normalized)
       [&"change-me"; &"replace-me"; &"your-"] then
    Raise (config_error "Configure a non-placeholder API credential or JWT signing secret")
  else Ok value.

(** [Settings.check_password_hash] *)
Definition check_password_hash (value : pystr) : outcome pystr := validate_password_hash value.

(** [Settings.validate_log_level] *)
Definition log_levels : list pystr := [&"DEBUG"; &"INFO"; &"WARNING"; &"ERROR"; &"CRITICAL"].

Definition validate_log_level (v : pystr) : outcome pystr :=
  if negb (bool_decide (str_upper v ∈ log_levels)) then Raise (config_error "log_level must be one of")
  else Ok (str_upper v).

(** [Settings.parse_patterns] *)
Definition parse_patterns (v : pystr + list pystr) : list pystr :=
  match v with
  | inl s => filter (λ p, p ≠ []) (strip <$> split (chr ",") s)
  | inr l => l
  end.

(** The loop body of [Settings.validate_acl_patterns] over the levels. *)
Fixpoint acl_levels_ok (levels : list pystr) : bool :=
  match levels with
  | [] => true
  | level :: rest =>
    negb ((has (chr "+") level && negb (bool_decide (level = &"+")))
          || (has (chr "#") level && (negb (bool_decide (level = &"#")) || negb (bool_decide (rest = [])))))
    && acl_levels_ok rest
  end.

Definition validate_acl_pattern (pattern : pystr) : outcome unit :=
  let levels := split (chr "/") pattern in
  if bool_decide (pattern = []) || has 0 pattern then Raise (config_error "Invalid MQTT ACL filter")
  else
    encoded ← encode pattern;
    if 65535 <? Z.of_nat (length encoded) then Raise (config_error "Invalid MQTT ACL filter")
    else check (acl_levels_ok levels) (config_error "Invalid MQTT ACL wildcard").

(** [Settings.validate_acl_patterns] *)
Definition validate_acl_patterns (patterns : list pystr) : outcome (list pystr) :=
  for_each validate_acl_pattern patterns ≫= λ _ : unit, Ok patterns.

(** [Field(ge=lo, le=hi)], [Field(min_length=lo, max_length=hi)] *)
Definition bounded (lo hi n : Z) : outcome unit :=
  check ((lo <=? n) && (n <=? hi)) (config_error "Input out of range").
Definition bounded_length (lo hi : Z) (s : pystr) : outcome unit := bounded lo hi (Z.of_nat (length s)).
(** [Field(gt=0, le=hi)] of a float *)
Definition bounded_float (hi q : Q) : outcome unit :=
  check (negb (Qle_bool q 0) && Qle_bool q hi) (config_error "Input out of range").

(** Construction of [Settings()]. *)
Definition load_settings (raw : RawSettings) : outcome Settings :=
  let s := raw_base raw in
  _ ← bounded_length 1 256 (api_username s);
  _ ← reject_placeholder_credentials (api_username s);
  _ ← check_password_hash (api_password_hash s);
  _ ← check (32 <=? Z.of_nat (length (jwt_secret_key s))) (config_error "String should have at least 32 characters");
  _ ← reject_placeholder_credentials (jwt_secret_key s);
  _ ← check (bool_decide (jwt_algorithm s = &"HS256")) (config_error "Input should be 'HS256'");
  _ ← bounded 1 1440 (jwt_access_token_expire_minutes s);
  let cors := parse_patterns (raw_cors_allowed_origins raw) in
  allowed ← validate_acl_patterns (parse_patterns (raw_allowed_topic_patterns raw));
  blocked ← validate_acl_patterns (parse_patterns (raw_blocked_topic_patterns raw));
  _ ← bounded 1 4096 (mqtt_queue_size s);
  _ ← bounded 1 1024 (websocket_queue_size s);
  _ ← bounded 1 256 (websocket_max_topics s);
  _ ← bounded_float 30 (websocket_auth_timeout s);
  _ ← bounded_float 60 (websocket_send_timeout s);
  _ ← bounded 1 1048576 (max_message_bytes s);
  level ← validate_log_level (log_level s);
  Ok (mkSettings (app_name s) (app_version s) (debug s) (host s) (port s)
        (mqtt_broker_host s) (mqtt_broker_port s) (mqtt_username s) (mqtt_password s)
        (mqtt_client_id s) (mqtt_keepalive s) (mqtt_clean_session s) (mqtt_use_tls s)
        (mqtt_ca_certs s) (mqtt_certfile s) (mqtt_keyfile s)
        (api_username s) (api_password_hash s) (jwt_secret_key s) (jwt_algorithm s)
        (jwt_access_token_expire_minutes s) (jwt_refresh_token_expire_days s)
        cors (rate_limit_enabled s) (rate_limit_requests s) (rate_limit_window_seconds s)
        (default_topic_prefix s) allowed blocked (retained_query_timeout s)
        (mqtt_queue_size s) (websocket_queue_size s) (websocket_max_topics s)
        (websocket_auth_timeout s) (websocket_send_timeout s) (max_message_bytes s)
        level (log_format s)).

(** [get_settings]: [lru_cache] keeps the first successful construction. *)
Definition get_settings (environment : RawSettings) : M (option Settings) Settings := λ cache,
  match cache with
  | Some s => (cache, Ok s)
  | None => match load_settings environment with
            | Ok s => (Some s, Ok s)
            | Raise e => (None, Raise e)
            end
  end.
End validators.

(** [Settings.mqtt_broker_url] *)
Definition mqtt_broker_url (s : Settings) : pystr :=
  let scheme := if mqtt_use_tls s then &"mqtts" else &"mqtt" in
  let auth := if bool_decide (mqtt_username s = []) then []
              else mqtt_username s ++ &":" ++ mqtt_password s ++ &"@" in
  scheme ++ &"://" ++ auth ++ mqtt_broker_host s ++ &":" ++ str_of_int (mqtt_broker_port s).

(** ** Well-formed topic filters

    The rule of MQTT 4.7.1 that both the settings and the request validation
    implement: a wildcard occupies a whole level and [#] only the last one. *)

Fixpoint filter_levels_ok (levels : list pystr) : Prop :=
  match levels with
  | [] => True
  | level :: rest =>
    (chr "+" ∈ level → level = &"+")
    ∧ (chr "#" ∈ level → level = &"#" ∧ rest = [])
    ∧ filter_levels_ok rest
  end.

Record filter_ok (f : pystr) : Prop := {
  filter_not_empty : f ≠ [];
  filter_no_nul : 0%N ∉ f;
  filter_encodes : ∃ b, encode f = Ok b ∧ Z.of_nat (length b) ≤ 65535;
  filter_levels : filter_levels_ok (split (chr "/") f);
}.

Lemma acl_levels_ok_iff levels : acl_levels_ok levels = true ↔ filter_levels_ok levels.
Proof.
  induction levels as [|l rest IH]; [done|].
  cbn [acl_levels_ok filter_levels_ok].
  rewrite andb_true_iff, negb_true_iff, orb_false_iff, !andb_false_iff, IH, orb_false_iff.
  rewrite !negb_false_iff, !has_false, !bool_decide_eq_true.
  destruct (decide (chr "+" ∈ l)), (decide (chr "#" ∈ l)); naive_solver.
Qed.

Lemma validate_acl_pattern_ok p u : validate_acl_pattern p = Ok u ↔ filter_ok p.
Proof.
  unfold validate_acl_pattern. destruct u. split.
  - destruct (_ || _) eqn:E; [done|]. boolprop. destruct E as [E1 E2]. apply has_false in E2.
    rewrite bind_ok. intros (b & Hb & H). destruct (Z.ltb_spec 65535 (Z.of_nat (length b))); [done|].
    apply check_ok, acl_levels_ok_iff in H. split; eauto.
  - intros [H1 H2 (b & Hb & Hl) H4].
    rewrite bool_decide_eq_false_2, (proj2 (has_false _ _)), Hb by done. cbn.
    rewrite (proj2 (Z.ltb_ge _ _)) by done. by apply check_ok, acl_levels_ok_iff.
Qed.

(** The constraints that the fields of the settings declare, and their validators. *)
Record settings_ok (s : Settings) : Prop := {
  allowed_ok : Forall filter_ok (allowed_topic_patterns s);
  blocked_ok : Forall filter_ok (blocked_topic_patterns s);
  mqtt_queue_ok : 1 ≤ mqtt_queue_size s ≤ 4096;
  websocket_queue_ok : 1 ≤ websocket_queue_size s ≤ 1024;
  websocket_topics_ok : 1 ≤ websocket_max_topics s ≤ 256;
  auth_timeout_ok : (0 < websocket_auth_timeout s <= 30)%Q;
  send_timeout_ok : (0 < websocket_send_timeout s <= 60)%Q;
  message_bytes_ok : 1 ≤ max_message_bytes s ≤ 1048576;
  expire_minutes_ok : 1 ≤ jwt_access_token_expire_minutes s ≤ 1440;
  username_ok : 1 ≤ Z.of_nat (length (api_username s)) ≤ 256;
  secret_ok : 32 ≤ Z.of_nat (length (jwt_secret_key s));
  password_hash_ok : is_Some (match_verifier (api_password_hash s));
  algorithm_ok : jwt_algorithm s = &"HS256";
  log_level_ok : log_level s ∈ log_levels;
}.

Section load.
Context `{UnicodeCase}.

Lemma validate_acl_patterns_ok ps qs :
  validate_acl_patterns ps = Ok qs ↔ qs = ps ∧ Forall filter_ok ps.
Proof.
  unfold validate_acl_patterns. rewrite bind_ok, Forall_forall. split.
  - intros ([] & Hp & [= <-]). split; [done|]. intros p Hin.
    eapply validate_acl_pattern_ok. by eapply (proj1 (for_each_ok _ _ tt)).
  - intros [-> Hf]. exists tt. split; [|done]. apply for_each_ok. intros p Hin.
    by apply validate_acl_pattern_ok, Hf.
Qed.

Lemma bounded_ok lo hi n u : bounded lo hi n = Ok u ↔ lo ≤ n ≤ hi.
Proof. unfold bounded. rewrite check_ok, andb_true_iff, !Z.leb_le. done. Qed.

Lemma reject_placeholder_ok v w :
  reject_placeholder_credentials v = Ok w ↔
  w = v ∧ str_lower (strip v) ≠ []
  ∧ ∀ p, p ∈ [&"change-me"; &"replace-me"; &"your-"] → startswith p (str_lower (strip v)) = false.
Proof.
  unfold reject_placeholder_credentials.
  destruct (_ || _) eqn:E; rewrite ?orb_true_iff, ?orb_false_iff in E.
  - split; [done|]. intros (_ & H1 & H2). destruct E as [E|E]; [by boolprop|].
    apply existsb_exists_elem in E as (p & Hp & Hs). rewrite H2 in Hs; done.
  - destruct E as [E1 E2]. boolprop. split.
    + intros [= ->]. split_and!; [done..|]. intros p Hp.
      apply not_true_iff_false. intros Hs. apply not_true_iff_false in E2. apply E2.
      apply existsb_exists_elem. eauto.
    + by intros (-> & _).
Qed.

Lemma bounded_float_ok hi q u : bounded_float hi q = Ok u ↔ (0 < q <= hi)%Q.
Proof.
  unfold bounded_float. rewrite check_ok, andb_true_iff, negb_true_iff, Qle_bool_iff.
  rewrite <-not_true_iff_false, Qle_bool_iff. split; intros [? ?]; (split; [|done]); [by apply Qnot_le_lt|by apply Qlt_not_le].
Qed.

(** A credential that is neither blank nor a placeholder. *)
Definition credential_ok (v : pystr) : Prop :=
  str_lower (strip v) ≠ [] ∧ ∀ p, p ∈ [&"change-me"; &"replace-me"; &"your-"] → startswith p (str_lower (strip v)) = false.

Lemma check_password_hash_ok v w : check_password_hash v = Ok w ↔ w = v ∧ is_Some (match_verifier v).
Proof.
  unfold check_password_hash, validate_password_hash. destruct (match_verifier v) as [m|] eqn:E; [|split; [done|by intros [_ [? ?]]]].
  split; [intros [= ->]; by split; [|eexists]|by intros [-> _]].
Qed.

Lemma validate_log_level_ok v w : validate_log_level v = Ok w ↔ w = str_upper v ∧ str_upper v ∈ log_levels.
Proof. unfold validate_log_level. case_bool_decide as Hin; cbn; naive_solver. Qed.

(** What the settings are when they load: the configured values, with the lists
    parsed and the level in upper case. *)
Definition loaded (raw : RawSettings) : Settings :=
  let s := raw_base raw in
  mkSettings (app_name s) (app_version s) (debug s) (host s) (port s)
    (mqtt_broker_host s) (mqtt_broker_port s) (mqtt_username s) (mqtt_password s)
    (mqtt_client_id s) (mqtt_keepalive s) (mqtt_clean_session s) (mqtt_use_tls s)
    (mqtt_ca_certs s) (mqtt_certfile s) (mqtt_keyfile s)
    (api_username s) (api_password_hash s) (jwt_secret_key s) (jwt_algorithm s)
    (jwt_access_token_expire_minutes s) (jwt_refresh_token_expire_days s)
    (parse_patterns (raw_cors_allowed_origins raw)) (rate_limit_enabled s) (rate_limit_requests s) (rate_limit_window_seconds s)
    (default_topic_prefix s) (parse_patterns (raw_allowed_topic_patterns raw)) (parse_patterns (raw_blocked_topic_patterns raw))
    (retained_query_timeout s) (mqtt_queue_size s) (websocket_queue_size s) (websocket_max_topics s)
    (websocket_auth_timeout s) (websocket_send_timeout s) (max_message_bytes s) (str_upper (log_level s)) (log_format s).

(** C25: settings load exactly when they satisfy every documented constraint, and
    then are the configured values with the lists parsed and the level in upper
    case: every ACL rule is a legal MQTT filter, every queue, size, lifetime and
    timeout is in its range, the API verifier is a PBKDF2 verifier, the signing
    secret has at least 32 characters for HS256, the log level is known, and neither
    credential is blank or a known placeholder. *)
Theorem load_settings_ok raw s :
  load_settings raw = Ok s ↔
  s = loaded raw ∧ settings_ok s ∧ credential_ok (api_username s) ∧ credential_ok (jwt_secret_key s).
Proof.
  split.
  - intros Hload. unfold load_settings in Hload. inv_bind.
    repeat match goal with
    | H : bounded_length _ _ _ = Ok _ |- _ => apply bounded_ok in H
    | H : bounded _ _ _ = Ok _ |- _ => apply bounded_ok in H
    | H : bounded_float _ _ = Ok _ |- _ => apply bounded_float_ok in H
    | H : validate_acl_patterns _ = Ok _ |- _ => apply validate_acl_patterns_ok in H as [-> H]
    | H : reject_placeholder_credentials _ = Ok _ |- _ => apply reject_placeholder_ok in H as (_ & H)
    | H : check_password_hash _ = Ok _ |- _ => apply check_password_hash_ok in H as (_ & H)
    | H : validate_log_level _ = Ok _ |- _ => apply validate_log_level_ok in H as (-> & H)
    end.
    boolprop. split; [done|]. split; [|by split]. split; cbn; first [done | apply Z.leb_le; done | eauto].
  - intros (-> & [] & Hu & Hj). cbn in *. unfold load_settings.
    assert (∀ lo hi n, lo ≤ n ≤ hi → bounded lo hi n = Ok tt) as Hb by (intros; by apply bounded_ok).
    assert (∀ hi q, (0 < q <= hi)%Q → bounded_float hi q = Ok tt) as Hf by (intros; by apply bounded_float_ok).
    assert (∀ v, credential_ok v → reject_placeholder_credentials v = Ok v) as Hc by (intros v ?; by apply reject_placeholder_ok).
    assert (∀ l, Forall filter_ok l → validate_acl_patterns l = Ok l) as Hp by (intros l ?; by apply validate_acl_patterns_ok).
    assert (∀ v, is_Some (match_verifier v) → check_password_hash v = Ok v) as Hh by (intros v ?; by apply check_password_hash_ok).
    unfold bounded_length. rewrite (Hb 1 256 (Z.of_nat _)) by done. cbn [mbind outcome_bind].
    rewrite Hc by done. cbn [mbind outcome_bind]. rewrite Hh by done. cbn [mbind outcome_bind].
    rewrite (proj2 (Z.leb_le _ _)) by done. cbn [check mbind outcome_bind].
    rewrite Hc by done. cbn [mbind outcome_bind].
    rewrite (bool_decide_eq_true_2 (jwt_algorithm _ = _)) by done. cbn [check mbind outcome_bind].
    rewrite (Hb 1 1440) by done. cbn [mbind outcome_bind]. rewrite Hp by done. cbn [mbind outcome_bind]. rewrite Hp by done. cbn [mbind outcome_bind].
    rewrite (Hb 1 4096) by done. cbn [mbind outcome_bind]. rewrite (Hb 1 1024) by done. cbn [mbind outcome_bind].
    rewrite (Hb 1 256) by done. cbn [mbind outcome_bind]. rewrite (Hf 30%Q) by done. cbn [mbind outcome_bind].
    rewrite (Hf 60%Q) by done. cbn [mbind outcome_bind].
    rewrite (Hb 1 1048576) by done. cbn [mbind outcome_bind].
    by rewrite (proj2 (validate_log_level_ok (log_level (raw_base raw)) (str_upper (log_level (raw_base raw))))).
Qed.

(** the comma-separated form of a pattern list yields exactly the
    non-empty stripped fields, in order, and a list is left as it is. *)
Theorem parse_patterns_spec (v : pystr + list pystr) :
  match v with
  | inl s => ∀ p, p ∈ parse_patterns v ↔ p ≠ [] ∧ ∃ q, q ∈ split (chr ",") s ∧ p = strip q
  | inr l => parse_patterns v = l
  end.
Proof.
  destruct v as [s|l]; [|done]. intros p. unfold parse_patterns.
  rewrite list_elem_of_filter, list_elem_of_fmap. naive_solver.
Qed.
End load.

Definition demo_settings : Settings :=
  default_settings (&"0.1.11") (&"gateway") demo_verifier (&"0123456789abcdef0123456789abcdef").

Definition demo_raw : RawSettings :=
  mkRawSettings demo_settings (inl (&"gateway/#, sensors/+/temp")) (inr [&"$SYS/#"; &"$share/#"]) (inr []).

Example load_demo :
  allowed_topic_patterns <$> load_settings (H := ascii_case) demo_raw = Ok [&"gateway/#"; &"sensors/+/temp"].
Proof. vm_compute. reflexivity. Qed.

Lemma load_settings_ok_witness :
  load_settings (H := ascii_case) demo_raw = Ok (loaded (H := ascii_case) demo_raw) ∧ settings_ok (loaded (H := ascii_case) demo_raw).
Proof.
  assert (load_settings (H := ascii_case) demo_raw = Ok (loaded (H := ascii_case) demo_raw)) as Hl by (vm_compute; reflexivity).
  split; [exact Hl|]. exact (proj1 (proj2 (proj1 (load_settings_ok (H := ascii_case) demo_raw _) Hl))).
Defined.
