(* ===== verification/Topics.v ===== *)
(** * Topic access control ([core/topics.py], [fuzz/fuzz_topics.py])

    The four functions of the module, with the [IndexError] that [right[0]]
    raises on an empty string.  [topic_matches_sub] belongs to paho-mqtt and is
    a parameter; [mqtt_match] states the matching of MQTT 4.7, against which the
    containment and overlap tests are proved. *)

From Stdlib Require Import QArith.QArith.
From S2P Require Import Prelude PyStr PyRegex Passwords Config.
#[local] Open Scope Z_scope.

Definition slash : N := chr "/".

Definition http_exception (status_code : Z) (detail : string) : exn := Exn (EHTTP status_code) detail.
Definition invalid_topic : exn := http_exception 400 "Invalid MQTT topic or filter".
Definition forbidden_topic : exn := http_exception 403 "Topic not allowed".

(** [s[0]] *)
Definition first_char (s : pystr) : outcome N :=
  match s with c :: _ => Ok c | [] => Raise (Exn EIndex "string index out of range") end.

(** ** [validate_topic] *)

(** The generator of [all(...)] over [enumerate(levels)]. *)
Fixpoint subscription_levels (n : nat) (index : nat) (levels : list pystr) : bool :=
  match levels with
  | [] => true
  | level :: rest =>
    (negb (has (chr "+") level) || bool_decide (level = &"+"))
    && (negb (has (chr "#") level) || (bool_decide (level = &"#") && (index =? n - 1)%nat))
    && subscription_levels n (S index) rest
  end.

Definition validate_topic (topic : pystr) (subscription : bool) : outcome unit :=
  let valid :=
    match encode topic with
    | Ok b => negb (bool_decide (topic = [])) && (Z.of_nat (length b) <=? 65535) && negb (has 0 topic)
    | Raise _ => false
    end in
  let levels := split slash topic in
  let valid :=
    if subscription then
      valid && subscription_levels (length levels) 0 levels && negb (startswith (&"$share/") topic)
    else valid && negb (has (chr "+") topic) && negb (has (chr "#") topic) in
  if negb valid then Raise invalid_topic else Ok tt.

(** ** [_system_mismatch] *)

Definition is_wildcard_char (c : N) : bool := bool_decide (c = chr "+") || bool_decide (c = chr "#").

Definition system_mismatch (left right : pystr) : outcome bool :=
  o_or (o_and (Ok (startswith (&"$") left)) (c ← first_char right; Ok (is_wildcard_char c)))
       (o_and (Ok (startswith (&"$") right)) (c ← first_char left; Ok (is_wildcard_char c))).

(** ** [filter_contains] *)

(** The loop over [enumerate(a)]: [Some b] for [return b]. *)
Fixpoint contains_loop (r : list pystr) (index : nat) (a : list pystr) : option bool :=
  match a with
  | [] => None
  | level :: a' =>
    if bool_decide (level = &"#") then Some true
    else match r !! index with
         | None => Some false
         | Some x =>
           if bool_decide (x = &"#") then Some false
           else if negb (bool_decide (level = &"+")) && negb (bool_decide (level = x)) then Some false
           else contains_loop r (S index) a'
         end
  end.

Definition filter_contains (allowed requested : pystr) : outcome bool :=
  mismatch ← system_mismatch allowed requested;
  if mismatch : bool then Ok false
  else
    let a := split slash allowed in
    let r := split slash requested in
    Ok match contains_loop r 0 a with
       | Some b => b
       | None => bool_decide (length a = length r)
       end.

(** ** [filters_overlap] *)

(** The loop over [zip(a, b)]: [Some b] for [return b]. *)
Fixpoint overlap_loop (a b : list pystr) : option bool :=
  match a, b with
  | x :: a', y :: b' =>
    if bool_decide (x = &"#") || bool_decide (y = &"#") then Some true
    else if negb (bool_decide (x = &"+")) && negb (bool_decide (y = &"+"))
            && negb (bool_decide (x = y)) then Some false
    else overlap_loop a' b'
  | _, _ => None
  end.

Definition filters_overlap (left right : pystr) : outcome bool :=
  mismatch ← system_mismatch left right;
  if mismatch : bool then Ok false
  else
    let a := split slash left in
    let b := split slash right in
    Ok match overlap_loop a b with
       | Some v => v
       | None =>
         let remaining :=
           if (length b <? length a)%nat then drop (length b) a else drop (length a) b in
         bool_decide (remaining = []) || bool_decide (remaining = [&"#"])
       end.

(** ** [authorize_topic] *)

Section authorize.
Context (topic_matches_sub : pystr → pystr → bool).

Definition authorize_topic (topic : pystr) (settings : Settings) (subscription : bool) : outcome unit :=
  _ ← validate_topic topic subscription;
  allowed ←
    (if subscription then any_of (λ rule, filter_contains rule topic) (allowed_topic_patterns settings)
     else Ok (existsb (λ rule, topic_matches_sub rule topic) (allowed_topic_patterns settings)));
  blocked ←
    (if subscription then any_of (λ rule, filters_overlap rule topic) (blocked_topic_patterns settings)
     else Ok (existsb (λ rule, topic_matches_sub rule topic) (blocked_topic_patterns settings)));
  if negb allowed || blocked then Raise forbidden_topic else Ok tt.
End authorize.

(** ** The fuzz target *)

Definition assertion_error : exn := Exn EOther "AssertionError".

Definition assert (m : outcome bool) : outcome unit := b ← m; check b assertion_error.

(** [fuzz_topics.test_one_input]: an input rejected by [validate_topic] is
    skipped. *)
Definition test_one_input (data : bytes) : outcome unit :=
  let '(lhs, rhs) := partition 10 (decode_replace data) in
  match validate_topic lhs true, validate_topic rhs true with
  | Ok _, Ok _ =>
    _ ← assert (filter_contains lhs lhs);
    _ ← assert (filter_contains rhs rhs);
    _ ← assert (x ← filters_overlap lhs rhs; y ← filters_overlap rhs lhs; Ok (Bool.eqb x y));
    c ← filter_contains lhs rhs;
    if c : bool then assert (filters_overlap lhs rhs) else Ok tt
  | _, _ => Ok tt
  end.

(** ** MQTT matching *)

(** A filter's levels against a topic name's levels: [#] stands for any number
    of levels, the parent included. *)
Fixpoint levels_match (f t : list pystr) : bool :=
  match f with
  | [] => bool_decide (t = [])
  | l :: f' =>
    if bool_decide (l = &"#") then true
    else match t with
         | [] => false
         | x :: t' => (bool_decide (l = &"+") || bool_decide (l = x)) && levels_match f' t'
         end
  end.

(** Filters that start with a wildcard do not match names that start with [$]. *)
Definition mqtt_match (f t : pystr) : bool :=
  negb (startswith (&"$") t && match f with c :: _ => is_wildcard_char c | [] => false end)
  && levels_match (split slash f) (split slash t).

(** The characters of a topic name: no wildcard and no NUL. *)
Definition name_chars_ok (t : pystr) : Prop := (chr "+" ∉ t) ∧ (chr "#" ∉ t) ∧ 0%N ∉ t.

Record topic_ok (t : pystr) : Prop := {
  topic_not_empty : t ≠ [];
  topic_chars : name_chars_ok t;
  topic_encodes : ∃ b, encode t = Ok b ∧ Z.of_nat (length b) ≤ 65535;
}.

(** What the code relies on from paho: on legal filters and names
    [topic_matches_sub] is the matching of the standard. *)
Definition paho_matching (topic_matches_sub : pystr → pystr → bool) : Prop :=
  ∀ f t, filter_ok f → topic_ok t → topic_matches_sub f t = mqtt_match f t.

(** ** Structural forms of the two loops *)

Fixpoint contains_levels (a r : list pystr) : bool :=
  match a with
  | [] => bool_decide (r = [])
  | l :: a' =>
    if bool_decide (l = &"#") then true
    else match r with
         | [] => false
         | x :: r' =>
           negb (bool_decide (x = &"#")) && (bool_decide (l = &"+") || bool_decide (l = x))
           && contains_levels a' r'
         end
  end.

Fixpoint overlap_levels (a b : list pystr) : bool :=
  match a, b with
  | x :: a', y :: b' =>
    if bool_decide (x = &"#") || bool_decide (y = &"#") then true
    else (bool_decide (x = &"+") || bool_decide (y = &"+") || bool_decide (x = y))
         && overlap_levels a' b'
  | [], b => bool_decide (b = []) || bool_decide (b = [&"#"])
  | a, [] => bool_decide (a = []) || bool_decide (a = [&"#"])
  end.

Lemma contains_loop_levels r index a :
  (index ≤ length r)%nat →
  match contains_loop r index a with
  | Some b => b
  | None => bool_decide ((index + length a)%nat = length r)
  end = contains_levels a (drop index r).
Proof.
  revert index. induction a as [|l a IH]; intros index Hi; cbn [contains_loop contains_levels].
  - apply bool_decide_ext. rewrite <-length_zero_iff_nil, length_drop. cbn. lia.
  - case_bool_decide as Hl; [done|]. destruct (r !! index) as [x|] eqn:Hx.
    + rewrite (drop_S _ _ _ Hx). case_bool_decide as Hxh; cbn [negb andb]; [done|].
      destruct (bool_decide (l = &"+")), (bool_decide (l = x)); cbn [negb andb orb]; try done;
        rewrite <-IH by (apply lookup_lt_Some in Hx; lia); cbn [length];
        by rewrite Nat.add_succ_r.
    + apply lookup_ge_None in Hx. by rewrite drop_ge by lia.
Qed.

Lemma overlap_loop_levels a b :
  match overlap_loop a b with
  | Some v => v
  | None =>
    let remaining := if (length b <? length a)%nat then drop (length b) a else drop (length a) b in
    bool_decide (remaining = []) || bool_decide (remaining = [&"#"])
  end = overlap_levels a b.
Proof.
  revert b. induction a as [|x a IH]; intros [|y b]; try done.
  cbn [overlap_loop overlap_levels]. destruct (_ || _); [done|].
  destruct (bool_decide (x = &"+")), (bool_decide (y = &"+")), (bool_decide (x = y));
    cbn [negb andb orb]; try done; apply IH.
Qed.

Lemma first_char_not_empty s : s ≠ [] → ∃ c, first_char s = Ok c ∧ head s = Some c.
Proof. destruct s; simpl; eauto. done. Qed.

(** The head of a filter as the wildcard test sees it. *)
Definition wild_head (s : pystr) : bool :=
  match s with c :: _ => is_wildcard_char c | [] => false end.

Lemma system_mismatch_eq l r :
  l ≠ [] → r ≠ [] →
  system_mismatch l r =
    Ok (startswith (&"$") l && wild_head r || startswith (&"$") r && wild_head l).
Proof.
  intros Hl Hr. destruct l as [|cl l], r as [|cr r]; try done.
  unfold system_mismatch, o_or, o_and. cbn [mbind outcome_bind first_char wild_head].
  destruct (startswith (&"$") (cl :: l)), (startswith (&"$") (cr :: r)); cbn; try done;
    by destruct (is_wildcard_char cr), (is_wildcard_char cl).
Qed.

Lemma filter_contains_eq a r :
  a ≠ [] → r ≠ [] →
  filter_contains a r =
    Ok (negb (startswith (&"$") a && wild_head r || startswith (&"$") r && wild_head a)
        && contains_levels (split slash a) (split slash r)).
Proof.
  intros Ha Hr. unfold filter_contains. rewrite system_mismatch_eq by done.
  cbn [mbind outcome_bind]. destruct (_ || _); [done|]. cbn [negb andb]. f_equal.
  pose proof (contains_loop_levels (split slash r) 0 (split slash a) ltac:(lia)) as H.
  by rewrite drop_0 in H.
Qed.

Lemma filters_overlap_eq l r :
  l ≠ [] → r ≠ [] →
  filters_overlap l r =
    Ok (negb (startswith (&"$") l && wild_head r || startswith (&"$") r && wild_head l)
        && overlap_levels (split slash l) (split slash r)).
Proof.
  intros Hl Hr. unfold filters_overlap. rewrite system_mismatch_eq by done.
  cbn [mbind outcome_bind]. destruct (_ || _); [done|]. cbn [negb andb]. f_equal.
  apply overlap_loop_levels.
Qed.

(** ** Containment and overlap on levels *)

Lemma levels_ok_cons l f :
  filter_levels_ok (l :: f) → l ≠ &"#" → filter_levels_ok f.
Proof. cbn [filter_levels_ok]. naive_solver. Qed.

Lemma levels_ok_hash f : filter_levels_ok (&"#" :: f) → f = [].
Proof. cbn [filter_levels_ok]. intros (_ & H & _). apply H. apply list_elem_of_here. Qed.

Lemma contains_levels_sound a r t :
  contains_levels a r = true → levels_match r t = true → levels_match a t = true.
Proof.
  revert r t. induction a as [|l a IH]; intros r t Hc Hr; cbn [contains_levels levels_match] in *.
  - boolprop. subst. by apply bool_decide_eq_true in Hr.
  - case_bool_decide as Hl; [done|]. destruct r as [|x r]; [done|]. boolprop.
    destruct Hc as [[Hx Hlx] Hc]. cbn [levels_match] in Hr. rewrite bool_decide_eq_false_2 in Hr by done.
    destruct t as [|y t]; [done|]. boolprop. destruct Hr as [Hxy Hr]. split; [|by eapply IH].
    naive_solver.
Qed.

Lemma contains_levels_refl a : filter_levels_ok a → contains_levels a a = true.
Proof.
  induction a as [|l a IH]; intros Ha; [done|]. cbn [contains_levels].
  case_bool_decide as Hl; [done|]. rewrite IH by eauto using levels_ok_cons. cbn [negb andb].
  rewrite (bool_decide_eq_true_2 (l = l)) by done. by rewrite orb_true_r.
Qed.

Lemma contains_overlap_levels a r :
  filter_levels_ok a → contains_levels a r = true → overlap_levels a r = true.
Proof.
  revert r. induction a as [|l a IH]; intros r Ha Hc; cbn [contains_levels] in Hc.
  { boolprop. by subst. }
  case_bool_decide as Hl.
  - subst. apply levels_ok_hash in Ha as ->. destruct r; [done|]. cbn [overlap_levels].
    by rewrite bool_decide_eq_true_2.
  - destruct r as [|x r]; [done|]. cbn [overlap_levels]. rewrite (bool_decide_eq_false_2 (l = &"#")) by done. cbn [orb].
    apply andb_true_iff in Hc as [Hc1 Hc2]. apply andb_true_iff in Hc1 as [Hx Hlx].
    apply negb_true_iff in Hx. rewrite Hx, IH by eauto using levels_ok_cons.
    rewrite andb_true_r. boolprop. naive_solver.
Qed.

Lemma overlap_levels_comm a b : overlap_levels a b = overlap_levels b a.
Proof.
  revert b. induction a as [|x a IH]; intros [|y b]; try done. cbn [overlap_levels].
  rewrite IH. rewrite (orb_comm (bool_decide (x = &"#"))).
  rewrite (orb_comm (bool_decide (x = &"+"))). rewrite (bool_decide_ext (x = y) (y = x)) by done. done.
Qed.

Lemma overlap_levels_sound a b t :
  filter_levels_ok a → filter_levels_ok b →
  levels_match a t = true → levels_match b t = true → overlap_levels a b = true.
Proof.
  revert b t. induction a as [|x a IH]; intros b t Ha Hb Hat Hbt; cbn [levels_match] in Hat.
  - boolprop. subst. destruct b as [|y b]; [done|]. cbn [levels_match] in Hbt.
    case_bool_decide; [|done]. subst. by apply levels_ok_hash in Hb as ->.
  - case_bool_decide as Hx.
    + subst. apply levels_ok_hash in Ha as ->. by destruct b.
    + destruct t as [|z t]; [done|]. destruct b as [|y b]; [done|]. cbn [levels_match overlap_levels] in *.
      rewrite (bool_decide_eq_false_2 (x = &"#")) by done. case_bool_decide as Hy; [done|]. cbn [orb].
      boolprop. destruct Hat as [Hxz Hat], Hbt as [Hyz Hbt].
      split; [|by eauto using levels_ok_cons]. naive_solver.
Qed.

(** A name matched by both of two overlapping filters: literal levels are kept,
    wildcards become ["a"]. *)
Definition instance_of (l : pystr) : pystr :=
  if bool_decide (l = &"+") || bool_decide (l = &"#") then &"a" else l.

Fixpoint common_levels (a b : list pystr) : list pystr :=
  match a, b with
  | x :: a', y :: b' =>
    if bool_decide (x = &"#") then instance_of <$> b
    else if bool_decide (y = &"#") then instance_of <$> a
    else (if bool_decide (x = &"+") then instance_of y else x) :: common_levels a' b'
  | _, _ => []
  end.

Lemma levels_match_instance f : filter_levels_ok f → levels_match f (instance_of <$> f) = true.
Proof.
  induction f as [|l f IH]; intros Hf; [done|]. cbn [levels_match fmap list_fmap].
  case_bool_decide as Hl; [done|]. rewrite IH by eauto using levels_ok_cons.
  rewrite andb_true_r. unfold instance_of. rewrite (bool_decide_eq_false_2 (l = &"#")) by done.
  case_bool_decide; [done|]. cbn. by rewrite bool_decide_eq_true_2.
Qed.

Lemma common_levels_match a b :
  filter_levels_ok a → filter_levels_ok b → overlap_levels a b = true →
  levels_match a (common_levels a b) = true ∧ levels_match b (common_levels a b) = true.
Proof.
  revert b. induction a as [|x a IH]; intros b Ha Hb Ho.
  { destruct b as [|y b]; [done|]. cbn [overlap_levels] in Ho. boolprop.
    destruct Ho as [?|[= -> ->]]; done. }
  destruct b as [|y b].
  { cbn [overlap_levels] in Ho. boolprop. destruct Ho as [?|[= -> ->]]; done. }
  cbn [overlap_levels common_levels] in *.
  destruct (decide (x = &"#")) as [->|Hx].
  { cbn [orb]. split; [done|]. apply (levels_match_instance (y :: b)); done. }
  rewrite (bool_decide_eq_false_2 (x = &"#")) in * by done. cbn [orb] in Ho.
  destruct (decide (y = &"#")) as [->|Hy].
  { split; [|done]. apply (levels_match_instance (x :: a)); done. }
  rewrite (bool_decide_eq_false_2 (y = &"#")) in * by done.
  apply andb_true_iff in Ho as [Hxy Ho].
  destruct (IH b) as [H1 H2]; [eauto using levels_ok_cons..|].
  cbn [levels_match]. rewrite !bool_decide_eq_false_2, H1, H2, !andb_true_r by done.
  unfold instance_of. rewrite (bool_decide_eq_false_2 (y = &"#")) by done.
  destruct (decide (x = &"+")) as [->|]; [|destruct (decide (y = &"+")) as [->|]].
  - rewrite (bool_decide_eq_true_2 (&"+" = &"+")) by done. cbn [orb].
    destruct (decide (y = &"+")) as [->|]; [done|].
    rewrite (bool_decide_eq_false_2 (y = &"+")) by done. cbn [orb].
    by rewrite (bool_decide_eq_true_2 (y = y)) by done.
  - rewrite (bool_decide_eq_false_2 (x = &"+")) by done.
    rewrite (bool_decide_eq_true_2 (x = x)) by done. done.
  - rewrite (bool_decide_eq_false_2 (x = &"+")), (bool_decide_eq_false_2 (y = &"+")) in * by done.
    cbn [orb] in *. boolprop. subst. done.
Qed.

(** ** Validation *)

Lemma subscription_levels_iff n index levels :
  (index + length levels = n)%nat →
  subscription_levels n index levels = true ↔ filter_levels_ok levels.
Proof.
  revert index. induction levels as [|l rest IH]; intros index Hn; [done|].
  cbn [subscription_levels filter_levels_ok length] in *.
  rewrite !andb_true_iff, !orb_true_iff, !negb_true_iff, !andb_true_iff, !has_false, Nat.eqb_eq.
  rewrite IH by lia. rewrite !bool_decide_eq_true.
  assert (index = (n - 1)%nat ↔ rest = []) as ->.
  { rewrite <-length_zero_iff_nil. lia. }
  destruct (decide (chr "+" ∈ l)), (decide (chr "#" ∈ l)); naive_solver.
Qed.

Lemma validate_topic_filter f u :
  validate_topic f true = Ok u ↔ filter_ok f ∧ startswith (&"$share/") f = false.
Proof.
  unfold validate_topic. destruct u.
  pose proof (subscription_levels_iff _ 0 (split slash f) eq_refl) as Hl.
  destruct (encode f) as [b|e] eqn:Hb; cbn [andb].
  - destruct (negb _) eqn:E; split; try done.
    + intros [[H1 H2 (b' & Hb' & H3) H4] H5]. exfalso. apply negb_true_iff in E.
      rewrite Hb' in Hb. injection Hb as ->. apply Hl in H4. cbn in H4. rewrite H4, H5 in E.
      rewrite (proj2 (has_false _ _) H2), (proj2 (Z.leb_le _ _)), bool_decide_eq_false_2 in E by done.
      done.
    + intros _. boolprop. rewrite Z.leb_le, has_false in E.
      destruct E as [[[[H1 H2] H3] H4] H5]. split; [|done]. split; eauto. by apply Hl.
  - split; [done|]. intros [[_ _ (b' & Hb' & _) _] _]. congruence.
Qed.

Lemma validate_topic_name t u : validate_topic t false = Ok u ↔ topic_ok t.
Proof.
  unfold validate_topic. destruct u.
  destruct (encode t) as [b|e] eqn:Hb; cbn [andb].
  - destruct (negb _) eqn:E; split; try done.
    + intros [H1 (H2 & H3 & H4) (b' & Hb' & H5)]. exfalso. apply negb_true_iff in E.
      rewrite Hb' in Hb. injection Hb as ->.
      rewrite !(proj2 (has_false _ _)), (proj2 (Z.leb_le _ _)), bool_decide_eq_false_2 in E by done.
      done.
    + intros _. boolprop. rewrite Z.leb_le, !has_false in E.
      destruct E as [[[[H1 H2] H3] H4] H5]. repeat split; eauto.
  - split; [done|]. intros [_ _ (b' & Hb' & _)]. congruence.
Qed.

Lemma validate_topic_raise t b e : validate_topic t b = Raise e → e = invalid_topic.
Proof. unfold validate_topic. destruct (negb _); congruence. Qed.

(** ** The [$] rule *)

Lemma split_first c s p :
  c ≠ slash → head (split slash s) = Some (c :: p) → head s = Some c.
Proof. intros Hc Hp. apply (split_head slash s c Hc). by exists p. Qed.

Lemma startswith_dollar s : startswith (&"$") s = true ↔ head s = Some (chr "$").
Proof. exact (startswith_char (chr "$") s). Qed.

Lemma dollar_forward f t :
  levels_match (split slash f) (split slash t) = true →
  startswith (&"$") f = true → startswith (&"$") t = true.
Proof.
  rewrite !startswith_dollar. intros Hm [p Hp]%(split_head slash f (chr "$")); [|done].
  destruct (split slash f) as [|l fs]; simplify_eq/=.
  destruct (split slash t) as [|x ts] eqn:Ht; [done|].
  apply (split_first _ t p); [done|]. rewrite Ht. boolprop. destruct Hm as [<- _]. done.
Qed.

Lemma dollar_backward f t :
  f ≠ [] → wild_head f = false →
  levels_match (split slash f) (split slash t) = true →
  startswith (&"$") t = true → startswith (&"$") f = true.
Proof.
  rewrite !startswith_dollar. intros Hf Hw Hm [p Hp]%(split_head slash t (chr "$")); [|done].
  destruct f as [|c f]; [done|]. cbn [wild_head] in Hw. unfold is_wildcard_char in Hw. boolprop.
  destruct Hw as [Hplus Hhash].
  assert (∀ q, c :: q ≠ &"#") as Hh by (intros q; change (c :: q ≠ [chr "#"]); congruence).
  assert (∀ q, c :: q ≠ &"+") as Hp' by (intros q; change (c :: q ≠ [chr "+"]); congruence).
  destruct (split slash t) as [|x ts] eqn:Ht; [done|]. cbn [head] in Hp. injection Hp as ->.
  cbn [split] in Hm. case_decide as Hc; [done|].
  destruct (split slash f) as [|q qs]; cbn [levels_match] in Hm;
    rewrite (bool_decide_eq_false_2 (_ = &"#")), (bool_decide_eq_false_2 (_ = &"+")) in Hm by done;
    cbn [orb] in Hm; boolprop; destruct Hm as [[= ->] _]; done.
Qed.

Lemma mqtt_match_true f t :
  mqtt_match f t = true ↔
  ¬ (startswith (&"$") t = true ∧ wild_head f = true)
  ∧ levels_match (split slash f) (split slash t) = true.
Proof.
  unfold mqtt_match. fold (wild_head f). rewrite andb_true_iff, negb_true_iff, andb_false_iff.
  destruct (startswith _ t), (wild_head f); naive_solver.
Qed.

(** ** Containment *)

Lemma filter_contains_sound a r t :
  a ≠ [] → r ≠ [] → filter_contains a r = Ok true → mqtt_match r t = true → mqtt_match a t = true.
Proof.
  intros Ha Hr. rewrite filter_contains_eq by done. intros [= Hc]. boolprop.
  destruct Hc as [[Hm1 Hm2] Hc]. rewrite !mqtt_match_true. intros [Hd Hl].
  split; [|by eapply contains_levels_sound]. intros [Ht Hw]. apply Hd. split; [done|].
  destruct (wild_head r) eqn:Hwr; [done|].
  pose proof (dollar_backward r t Hr Hwr Hl Ht). naive_solver congruence.
Qed.

Lemma filter_contains_refl f : filter_ok f → filter_contains f f = Ok true.
Proof.
  intros [H1 _ _ H4]. rewrite filter_contains_eq by done. rewrite contains_levels_refl by done.
  f_equal. rewrite andb_true_r, orb_diag. destruct f as [|c f]; [done|].
  cbn. unfold is_wildcard_char. destruct (decide (c = chr "$")) as [->|]; [done|].
  replace (startswith (&"$") (c :: f)) with false; [done|].
  symmetry. apply not_true_iff_false. rewrite startswith_dollar. by intros [= ?].
Qed.

(** ** Overlap *)

Lemma filters_overlap_comm l r : filters_overlap l r = filters_overlap r l ∨ l = [] ∨ r = [].
Proof.
  destruct (decide (l = [])) as [->|Hl]; [tauto|]. destruct (decide (r = [])) as [->|Hr]; [tauto|].
  left. rewrite !filters_overlap_eq by done. by rewrite overlap_levels_comm, orb_comm.
Qed.

Lemma filters_overlap_complete l r t :
  filter_ok l → filter_ok r → mqtt_match l t = true → mqtt_match r t = true →
  filters_overlap l r = Ok true.
Proof.
  intros [Hl _ _ Hll] [Hr _ _ Hlr]. rewrite filters_overlap_eq by done.
  rewrite !mqtt_match_true. intros [H1 Hm1] [H2 Hm2]. f_equal.
  rewrite (overlap_levels_sound _ _ (split slash t)) by done. rewrite andb_true_r, negb_true_iff.
  apply orb_false_iff. split; apply andb_false_iff.
  - destruct (startswith _ l) eqn:Hd; [|by left]. right.
    apply (dollar_forward _ _ Hm1) in Hd. destruct (wild_head r); naive_solver.
  - destruct (startswith _ r) eqn:Hd; [|by left]. right.
    apply (dollar_forward _ _ Hm2) in Hd. destruct (wild_head l); naive_solver.
Qed.

Lemma wild_head_level f :
  filter_levels_ok (split slash f) → wild_head f = true →
  ∃ x ps, split slash f = x :: ps ∧ (x = &"+" ∨ x = &"#").
Proof.
  intros Hok Hw. destruct f as [|c f]; [done|]. cbn [wild_head] in Hw. unfold is_wildcard_char in Hw.
  boolprop. destruct (split_cons_ne slash c f) as (p & ps & _ & Hs).
  { by destruct Hw as [-> | ->]. }
  rewrite Hs in *. exists (c :: p), ps. split; [done|]. destruct Hok as (H1 & H2 & _).
  destruct Hw as [-> | ->].
  - left. apply H1, list_elem_of_here.
  - right. apply H2, list_elem_of_here.
Qed.

Lemma instance_parts (f : list pystr) (q : pystr) :
  q ∈ instance_of <$> f → q = &"a" ∨ q ∈ f ∧ q ≠ &"+" ∧ q ≠ &"#".
Proof.
  intros (l & -> & Hl)%list_elem_of_fmap. unfold instance_of.
  destruct (_ || _) eqn:E; [by left|]. boolprop. by right.
Qed.

Lemma common_levels_parts (a b : list pystr) (p : pystr) :
  p ∈ common_levels a b → p = &"a" ∨ (p ∈ a ∨ p ∈ b) ∧ p ≠ &"+" ∧ p ≠ &"#".
Proof.
  revert b. induction a as [|x a IH]; intros b; [by intros ?%elem_of_nil|].
  destruct b as [|y b]; [by intros ?%elem_of_nil|]. cbn [common_levels].
  destruct (decide (x = &"#")).
  { rewrite bool_decide_eq_true_2 by done. intros ?%instance_parts; tauto. }
  destruct (decide (y = &"#")).
  { rewrite bool_decide_eq_false_2, bool_decide_eq_true_2 by done. intros ?%instance_parts; tauto. }
  rewrite !(bool_decide_eq_false_2 (_ = &"#")) by done. rewrite !elem_of_cons. intros [Hp|Hp].
  - case_bool_decide as Hx.
    + unfold instance_of in Hp. destruct (_ || _) eqn:E; [by left|]. boolprop. subst. tauto.
    + subst. tauto.
  - destruct (IH b Hp); tauto.
Qed.

Lemma common_levels_dollar x a y b p ps :
  common_levels (x :: a) (y :: b) = (chr "$" :: p) :: ps →
  ((x = &"+" ∨ x = &"#") → y = chr "$" :: p) ∧ ((y = &"+" ∨ y = &"#") → x = chr "$" :: p).
Proof.
  cbn [common_levels]. unfold instance_of.
  repeat (case_bool_decide; cbn [orb fmap list_fmap] in *; subst); intros Heq; simplify_eq;
    split; intros [?|?]; simplify_eq; done.
Qed.

(** A literal level of a legal filter holds no wildcard. *)
Lemma literal_level f p :
  filter_levels_ok f → p ∈ f → p ≠ &"+" → p ≠ &"#" → chr "+" ∉ p ∧ chr "#" ∉ p.
Proof.
  induction f as [|q f IH]; intros Hf; [by intros ?%elem_of_nil|].
  cbn [filter_levels_ok] in Hf. intros [->|Hp]%elem_of_cons; naive_solver.
Qed.

(** *** Sizes in UTF-8 *)

Definition utf8_size (s : pystr) : nat := sum_list_with (λ c, length (default [] (utf8_char c))) s.
Definition encodable (s : pystr) : Prop := ∀ c, c ∈ s → is_Some (utf8_char c).

Lemma encode_size s b : encode s = Ok b → length b = utf8_size s.
Proof.
  unfold encode. intros Hs. destruct (utf8_encode_opt s) as [b'|] eqn:E; [injection Hs as ->|discriminate Hs]. revert b E.
  induction s as [|c s IH]; intros b E; cbn in *; [by injection E as <-|].
  destruct (utf8_char c); [|discriminate E]. destruct (utf8_encode_opt s); [|discriminate E]. injection E as <-. rewrite length_app. by rewrite (IH _ eq_refl).
Qed.

Lemma encode_encodable s b : encode s = Ok b → encodable s.
Proof.
  unfold encode. intros Hs. destruct (utf8_encode_opt s) as [b'|] eqn:E; [clear Hs|discriminate Hs]. revert b' E.
  induction s as [|c s IH]; intros b' E x Hx; [by apply elem_of_nil in Hx|]. cbn in E.
  destruct (utf8_char c) eqn:Ec; [|discriminate E]. destruct (utf8_encode_opt s) eqn:Es; [|discriminate E].
  apply elem_of_cons in Hx as [->|Hx]; [by eexists|by eapply IH].
Qed.

Lemma encodable_encode s : encodable s → ∃ b, encode s = Ok b.
Proof.
  unfold encode. intros Hs. enough (∃ b, utf8_encode_opt s = Some b) as [b ->] by by exists b.
  induction s as [|c s IH]; [by eexists|]. cbn. destruct (Hs c) as [bc ->]; [by left|]. destruct IH as [b ->]; [|by eexists].
  intros x Hx. apply Hs. by right.
Qed.

Definition levels_size (ls : list pystr) : nat := sum_list_with (λ p, S (utf8_size p)) ls.

Lemma join_size ls : ls ≠ [] → S (utf8_size (join slash ls)) = levels_size ls.
Proof.
  induction ls as [|p ls IH]; [done|]. intros _. destruct ls as [|q ls]; [cbn [join]; unfold levels_size; cbn [sum_list_with]; lia|].
  rewrite join_cons by done. change (levels_size (p :: q :: ls)) with (S (utf8_size p) + levels_size (q :: ls))%nat. rewrite <-IH by done.
  assert (utf8_size (p ++ slash :: join slash (q :: ls)) = utf8_size p + S (utf8_size (join slash (q :: ls))))%nat as ->; [|lia].
  unfold utf8_size. rewrite sum_list_with_app. done.
Qed.

Lemma instance_size p : utf8_size (instance_of p) = utf8_size p.
Proof. unfold instance_of. destruct (decide (p = &"+")) as [->|]; [done|]. destruct (decide (p = &"#")) as [->|]; [done|]. by rewrite !bool_decide_eq_false_2. Qed.

Lemma instances_size ls : levels_size (instance_of <$> ls) = levels_size ls.
Proof. unfold levels_size. induction ls as [|p ls IH]; [done|]. rewrite fmap_cons. cbn [sum_list_with]. by rewrite instance_size, IH. Qed.

Lemma common_levels_size a b : a ≠ [] → b ≠ [] → (S (levels_size (common_levels a b)) ≤ levels_size a + levels_size b)%nat.
Proof.
  assert (∀ a b, levels_size (common_levels a b) ≤ levels_size a + levels_size b)%nat as Hle.
  { clear a b. induction a as [|x a IH]; intros [|y b]; cbn [common_levels]; [cbn; lia..|].
    case_bool_decide; [rewrite instances_size; lia|]. case_bool_decide; [rewrite instances_size; lia|].
    specialize (IH b). unfold levels_size in *. cbn [sum_list_with]. case_bool_decide; [rewrite instance_size|]; lia. }
  destruct a as [|x a]; [done|]. destruct b as [|y b]; [done|]. intros _ _. cbn [common_levels].
  case_bool_decide; [rewrite instances_size; unfold levels_size; cbn [sum_list_with]; lia|]. case_bool_decide; [rewrite instances_size; unfold levels_size; cbn [sum_list_with]; lia|].
  specialize (Hle a b). unfold levels_size in *. cbn [sum_list_with]. case_bool_decide; [rewrite instance_size|]; lia.
Qed.

Section common_name.
Context (l r : pystr) (Hl : filter_ok l) (Hr : filter_ok r).
Let c := common_levels (split slash l) (split slash r).

Lemma common_levels_split : split slash (join slash c) = c.
Proof.
  apply split_join.
  - unfold c. destruct (split slash l) eqn:El; [by apply split_not_nil in El|].
    destruct (split slash r) eqn:Er; [by apply split_not_nil in Er|].
    cbn [common_levels]. by repeat case_bool_decide.
  - apply Forall_forall. intros p [->|[[Hp|Hp] _]]%common_levels_parts;
      [|by eapply split_parts_free..]. by rewrite <-has_false.
Qed.

Lemma common_name_chars : name_chars_ok (join slash c).
Proof.
  assert (∀ p x, p ∈ c → x ∈ p → x = chr "a" ∨
    ∃ f, filter_ok f ∧ p ∈ split slash f ∧ chr "+" ∉ p ∧ chr "#" ∉ p) as Hp.
  { intros p x [->|(Hp & H1 & H2)]%common_levels_parts Hx; [left; by apply list_elem_of_singleton in Hx|].
    assert (∀ f, filter_ok f → p ∈ split slash f → chr "+" ∉ p ∧ chr "#" ∉ p) as Hlit
      by (intros f [] ?; by eapply literal_level).
    right. destruct Hp as [Hp|Hp]; [exists l; pose proof (Hlit l Hl Hp) | exists r; pose proof (Hlit r Hr Hp)]; tauto. }
  repeat split; intros [Hx|(p & Hp1 & Hx)]%elem_of_join; try done;
    destruct (Hp p _ Hp1 Hx) as [?|(f & Hf & Hpf & H1 & H2)]; try done.
  apply (filter_no_nul f Hf). apply (elem_of_split slash); eauto.
Qed.

Lemma common_name_dollar :
  startswith (&"$") (join slash c) = true →
  (wild_head l = true → startswith (&"$") r = true) ∧ (wild_head r = true → startswith (&"$") l = true).
Proof.
  rewrite !startswith_dollar. intros Hd. apply (split_head slash) in Hd as [p Hp]; [|done].
  rewrite common_levels_split in Hp. unfold c in Hp.
  destruct (split slash l) as [|x a] eqn:El; [by apply split_not_nil in El|].
  destruct (split slash r) as [|y b] eqn:Er; [by apply split_not_nil in Er|].
  destruct (common_levels (x :: a) (y :: b)) as [|q qs] eqn:Ec; [done|]. injection Hp as ->.
  apply common_levels_dollar in Ec as [Hy Hx].
  split; intros (z & zs & Hz & Hw)%wild_head_level; try by apply filter_levels.
  - apply (split_first _ r p); [done|]. rewrite Er. rewrite El in Hz. injection Hz as -> ->. by rewrite (Hy Hw).
  - apply (split_first _ l p); [done|]. rewrite El. rewrite Er in Hz. injection Hz as -> ->. by rewrite (Hx Hw).
Qed.

(** *** A common name that is a topic *)

(** The one name without a character fits only two legal filters at once. *)
Definition only_empty_name : Prop := l = &"+" ∧ r = &"/#" ∨ l = &"/#" ∧ r = &"+".

Lemma single_empty_level f : split slash f = [[]] → f = [].
Proof. intros Hf. rewrite <-(join_split slash f), Hf. done. Qed.

Lemma common_name_empty :
  overlap_levels (split slash l) (split slash r) = true → join slash c = [] → only_empty_name.
Proof.
  intros Ho Hc. pose proof common_levels_split as Hsplit. rewrite Hc in Hsplit. cbn in Hsplit. unfold c in Hsplit.
  pose proof (join_split slash l) as Jl. pose proof (join_split slash r) as Jr.
  pose proof (filter_not_empty l Hl) as Nl. pose proof (filter_not_empty r Hr) as Nr.
  destruct (split slash l) as [|x a] eqn:El; [by apply split_not_nil in El|].
  destruct (split slash r) as [|y b] eqn:Er; [by apply split_not_nil in Er|].
  cbn [common_levels overlap_levels] in Hsplit, Ho.
  assert (∀ z, instance_of z = [] → z = []) as Hinst by (intros z; unfold instance_of; destruct (bool_decide (z = &"+") || bool_decide (z = &"#")); [intros E; vm_compute in E; discriminate E|done]).
  assert (∀ fs, [] = instance_of <$> fs → fs = []) as Hnil by (by intros []).
  destruct (decide (x = &"#")) as [->|Hx].
  { injection Hsplit as Hz Hfs. symmetry in Hz. apply Hinst in Hz as ->. apply Hnil in Hfs as ->. by rewrite <-Jr in Nr. }
  rewrite (bool_decide_eq_false_2 (x = &"#")) in Hsplit, Ho by done.
  destruct (decide (y = &"#")) as [->|Hy].
  { rewrite bool_decide_eq_true_2 in Hsplit by done. injection Hsplit as Hz Hfs. symmetry in Hz. apply Hinst in Hz as ->. apply Hnil in Hfs as ->. by rewrite <-Jl in Nl. }
  rewrite (bool_decide_eq_false_2 (y = &"#")) in Hsplit, Ho by done. cbn [orb] in Ho.
  apply andb_true_iff in Ho as [Hxy Ho]. injection Hsplit as Hz Htail.
  assert (a = [] ∧ b = [] ∨ a = [] ∧ b = [&"#"] ∨ a = [&"#"] ∧ b = []) as Hab.
  { destruct a as [|x' a], b as [|y' b]; cbn [overlap_levels common_levels] in Ho, Htail; [by left|..].
    - right; left. split; [done|]. apply orb_true_iff in Ho as [Ho|Ho]; by apply bool_decide_eq_true in Ho.
    - right; right. split; [|done]. apply orb_true_iff in Ho as [Ho|Ho]; by apply bool_decide_eq_true in Ho.
    - by repeat case_bool_decide. }
  destruct (decide (x = &"+")) as [->|Hx'].
  - rewrite bool_decide_eq_true_2 in Hz by done. symmetry in Hz. apply Hinst in Hz as ->.
    destruct Hab as [[-> ->]|[[-> ->]|[-> ->]]]; [by rewrite <-Jr in Nr|left; split; symmetry; [exact Jl|exact Jr]|by rewrite <-Jr in Nr].
  - rewrite bool_decide_eq_false_2 in Hz by done. subst x.
    destruct Hab as [[-> ->]|[[-> ->]|[-> ->]]]; [by rewrite <-Jl in Nl..|].
    rewrite (bool_decide_eq_false_2 ([] = &"+")) in Hxy by done. cbn [orb] in Hxy. apply orb_true_iff in Hxy as [Hxy|Hxy]; apply bool_decide_eq_true in Hxy.
    + subst y. right. split; symmetry; [exact Jl|exact Jr].
    + subst y. by rewrite <-Jr in Nr.
Qed.

Lemma common_name_encodes : encodable (join slash c).
Proof.
  intros x [->|(p & Hp & Hx)]%elem_of_join; [by eexists|].
  apply common_levels_parts in Hp as [->|[Hp _]]; [apply list_elem_of_singleton in Hx as ->; by eexists|].
  assert (∀ f, filter_ok f → p ∈ split slash f → is_Some (utf8_char x)) as Hf.
  { intros f [_ _ (b & Hb & _) _] Hpf. destruct (decide (x = slash)) as [->|Hne]; [by eexists|].
    apply (encode_encodable f b Hb), (elem_of_split slash); [done|by exists p]. }
  destruct Hp; [by apply (Hf l)|by apply (Hf r)].
Qed.

Lemma common_name_size : (utf8_size (join slash c) ≤ utf8_size l + utf8_size r)%nat.
Proof.
  assert (split slash l ≠ [] ∧ split slash r ≠ []) as [Nl Nr] by (split; apply split_not_nil).
  assert (c ≠ []) as Nc by (rewrite <-common_levels_split; apply split_not_nil).
  pose proof (common_levels_size _ _ Nl Nr) as Hs. fold c in Hs.
  pose proof (join_size c Nc) as H1. pose proof (join_size _ Nl) as H2. pose proof (join_size _ Nr) as H3.
  rewrite !join_split in H2, H3. lia.
Qed.

(** A common topic, when the two filters are short enough that their names are. *)
Lemma filters_overlap_topic :
  filters_overlap l r = Ok true → ¬ only_empty_name → Z.of_nat (utf8_size l + utf8_size r) ≤ 65535 →
  ∃ t, topic_ok t ∧ mqtt_match l t = true ∧ mqtt_match r t = true.
Proof.
  rewrite filters_overlap_eq by (by apply filter_not_empty). intros Ho%(inj Ok) Hne Hsize.
  apply andb_true_iff in Ho as [Hm Ho]. apply negb_true_iff, orb_false_iff in Hm as [Hm1 Hm2].
  destruct (common_levels_match (split slash l) (split slash r)) as [Hcl Hcr]; [by apply filter_levels..|done|].
  exists (join slash c). split; [|rewrite !mqtt_match_true, common_levels_split; split; (split; [|done]); intros [Hd Hw]; apply common_name_dollar in Hd as [H1 H2]].
  - split; [intros Hc; by apply Hne, common_name_empty|apply common_name_chars|].
    destruct (encodable_encode _ common_name_encodes) as [b Hb]. exists b. split; [done|]. rewrite (encode_size _ _ Hb). pose proof common_name_size. lia.
  - by rewrite (H1 Hw), Hw in Hm2.
  - by rewrite (H2 Hw), Hw in Hm1.
Qed.

End common_name.

(** ** Authorization *)

Lemma ok_bool_decide (b : bool) : bool_decide (Ok b = Ok true) = b.
Proof. by destruct b. Qed.

(** The filters [authorize_topic] compares are never empty, so that it always
    reaches a decision. *)
Lemma contains_overlap_total s f :
  settings_ok s → f ≠ [] →
  any_of (λ rule, filter_contains rule f) (allowed_topic_patterns s)
  = Ok (existsb (λ rule, bool_decide (filter_contains rule f = Ok true)) (allowed_topic_patterns s))
  ∧ any_of (λ rule, filters_overlap rule f) (blocked_topic_patterns s)
  = Ok (existsb (λ rule, bool_decide (filters_overlap rule f = Ok true)) (blocked_topic_patterns s)).
Proof.
  intros Hs Hf. split; apply any_of_total; intros rule Hr.
  - pose proof (allowed_ok s Hs) as Ha. rewrite Forall_forall in Ha. destruct (Ha rule Hr).
    rewrite filter_contains_eq by done. by rewrite ok_bool_decide.
  - pose proof (blocked_ok s Hs) as Hb. rewrite Forall_forall in Hb. destruct (Hb rule Hr).
    rewrite filters_overlap_eq by done. by rewrite ok_bool_decide.
Qed.

Lemma existsb_false_iff {A} (g : A → bool) l : existsb g l = false ↔ ∀ x, x ∈ l → g x = false.
Proof.
  rewrite <-not_true_iff_false, existsb_exists_elem. setoid_rewrite <-not_true_iff_false. naive_solver.
Qed.

Lemma decision_ok (allowed blocked : bool) e :
  (if negb allowed || blocked then Raise e else Ok tt) = Ok tt ↔ allowed = true ∧ blocked = false.
Proof. destruct allowed, blocked; naive_solver. Qed.

Section authorize_lemmas.
Context (topic_matches_sub : pystr → pystr → bool).

Lemma authorize_topic_name s t :
  authorize_topic topic_matches_sub t s false = Ok tt ↔
  topic_ok t
  ∧ (∃ rule, rule ∈ allowed_topic_patterns s ∧ topic_matches_sub rule t = true)
  ∧ ∀ rule, rule ∈ blocked_topic_patterns s → topic_matches_sub rule t = false.
Proof.
  unfold authorize_topic. rewrite bind_ok. setoid_rewrite validate_topic_name. cbn [mbind outcome_bind].
  rewrite <-existsb_exists_elem, <-existsb_false_iff.
  setoid_rewrite decision_ok. split; [naive_solver|]. intros (? & ? & ?). by exists tt.
Qed.

Lemma authorize_topic_filter s f :
  settings_ok s →
  authorize_topic topic_matches_sub f s true = Ok tt ↔
  (filter_ok f ∧ startswith (&"$share/") f = false)
  ∧ (∃ rule, rule ∈ allowed_topic_patterns s ∧ filter_contains rule f = Ok true)
  ∧ ∀ rule, rule ∈ blocked_topic_patterns s → filters_overlap rule f ≠ Ok true.
Proof.
  intros Hs. unfold authorize_topic. rewrite bind_ok. setoid_rewrite validate_topic_filter.
  assert (filter_ok f →
    (∃ rule, rule ∈ allowed_topic_patterns s ∧ filter_contains rule f = Ok true)
    ∧ (∀ rule, rule ∈ blocked_topic_patterns s → filters_overlap rule f ≠ Ok true) ↔
    (allowed ← any_of (λ rule, filter_contains rule f) (allowed_topic_patterns s);
     blocked ← any_of (λ rule, filters_overlap rule f) (blocked_topic_patterns s);
     if negb allowed || blocked : bool then Raise forbidden_topic else Ok tt) = Ok tt) as Hd.
  { intros Hf. destruct (contains_overlap_total s f Hs (filter_not_empty f Hf)) as [-> ->].
    cbn [mbind outcome_bind]. rewrite decision_ok, existsb_exists_elem, existsb_false_iff.
    by setoid_rewrite bool_decide_eq_true; setoid_rewrite bool_decide_eq_false. }
  split.
  - intros (_ & Hf & Ha). split; [done|]. apply (Hd (proj1 Hf)). exact Ha.
  - intros (Hf & Ha). exists tt. split; [done|]. apply (Hd (proj1 Hf)). exact Ha.
Qed.

Lemma authorize_topic_cases s t b :
  settings_ok s →
  authorize_topic topic_matches_sub t s b = Ok tt
  ∨ authorize_topic topic_matches_sub t s b = Raise invalid_topic
    ∧ validate_topic t b = Raise invalid_topic
  ∨ authorize_topic topic_matches_sub t s b = Raise forbidden_topic ∧ validate_topic t b = Ok tt.
Proof.
  intros Hs. unfold authorize_topic. destruct (validate_topic t b) as [[]|e] eqn:Hv; cbn [mbind outcome_bind].
  - destruct b.
    + apply validate_topic_filter in Hv as [Hf _].
      destruct (contains_overlap_total s t Hs (filter_not_empty t Hf)) as [-> ->].
      cbn [mbind outcome_bind]. destruct (_ || _); auto.
    + cbn [mbind outcome_bind]. destruct (_ || _); auto.
  - apply validate_topic_raise in Hv as ->. auto.
Qed.
End authorize_lemmas.

(** ** Properties *)

(** C1: least privilege of subscriptions.  If a subscription is authorized,
    then every topic name a broker may deliver on it is itself authorized: it
    matches an allowed pattern and no blocked one. *)
Theorem authorized_subscription_delivers_authorized_topics topic_matches_sub s f t
    (Hpaho : paho_matching topic_matches_sub) (Hs : settings_ok s)
    (Hauth : authorize_topic topic_matches_sub f s true = Ok tt)
    (Ht : validate_topic t false = Ok tt) (Hmatch : mqtt_match f t = true) :
  authorize_topic topic_matches_sub t s false = Ok tt.
Proof.
  apply validate_topic_name in Ht.
  apply (authorize_topic_filter _ _ _ Hs) in Hauth as ([Hf _] & (rule & Hrule & Hc) & Hb).
  pose proof (allowed_ok s Hs) as Ha. pose proof (blocked_ok s Hs) as Hbl.
  rewrite Forall_forall in Ha, Hbl. apply authorize_topic_name. split_and!; [done|..].
  - exists rule. split; [done|]. rewrite Hpaho by auto.
    eapply filter_contains_sound; eauto using filter_not_empty.
  - intros b Hin. rewrite Hpaho by auto. apply not_true_iff_false. intros Hbt.
    apply (Hb b Hin). eapply filters_overlap_complete; eauto.
Qed.

Lemma filters_overlap_answers l r : filter_ok l → filter_ok r → ∃ b, filters_overlap l r = Ok b ∧ filters_overlap r l = Ok b.
Proof.
  intros Hl Hr. destruct (filters_overlap_comm l r) as [Hc | [-> | ->]];
    [|by destruct (filter_not_empty [] Hl)|by destruct (filter_not_empty [] Hr)].
  rewrite <-Hc, filters_overlap_eq by (by apply filter_not_empty). eauto.
Qed.

Lemma no_common_topic l r t : only_empty_name l r → topic_ok t → mqtt_match l t = true → mqtt_match r t = true → False.
Proof.
  assert (∀ t, topic_ok t → mqtt_match (&"+") t = true → mqtt_match (&"/#") t = true → False) as Hno.
  { clear. intros t [Hne _ _] [_ Hp]%mqtt_match_true [_ Hs]%mqtt_match_true. apply Hne, single_empty_level.
    change (split slash (&"+")) with [&"+"] in Hp. change (split slash (&"/#")) with [[]; &"#"] in Hs.
    destruct (split slash t) as [|x ts]; [done|]. cbn in Hp, Hs. apply andb_true_iff in Hs as [Hs _]. apply bool_decide_eq_true in Hs as <-.
    by apply bool_decide_eq_true in Hp as ->. }
  intros [[-> ->]|[-> ->]] Ht H1 H2; by apply (Hno t).
Qed.

(** C21: [filters_overlap] on legal filters always answers, and the same with its
    arguments exchanged.  It never misses an overlap: when some topic matches both
    filters it answers yes.  When it answers yes, some topic matches both, with two
    exceptions: the pair of ["+"] and ["/#"], which only the empty name matches and for which it
    answers yes although no topic matches both; and filters of together more than
    65,535 bytes, whose common names may be longer than a topic.  A topic is what [validate_topic]
    accepts: not empty, without wildcards and NUL, at most 65,535 bytes of UTF-8. *)
Theorem filters_overlap_exact l r (Hl : filter_ok l) (Hr : filter_ok r) :
  ∃ b, filters_overlap l r = Ok b ∧ filters_overlap r l = Ok b
  ∧ ((∃ t, validate_topic t false = Ok tt ∧ mqtt_match l t = true ∧ mqtt_match r t = true) → b = true)
  ∧ (b = true → ¬ only_empty_name l r → Z.of_nat (utf8_size l + utf8_size r) ≤ 65535 →
       ∃ t, validate_topic t false = Ok tt ∧ mqtt_match l t = true ∧ mqtt_match r t = true)
  ∧ (only_empty_name l r → b = true ∧ ¬ ∃ t, validate_topic t false = Ok tt ∧ mqtt_match l t = true ∧ mqtt_match r t = true).
Proof.
  setoid_rewrite validate_topic_name. destruct (filters_overlap_answers l r Hl Hr) as (b & Hb & Hb'). exists b. split_and!; [done|done|..].
  - intros (t & _ & H1 & H2). pose proof (filters_overlap_complete l r t Hl Hr H1 H2). congruence.
  - intros -> Hne Hsize. by apply filters_overlap_topic.
  - intros Hv. split; [|intros (t & Ht & H1 & H2); by eapply no_common_topic].
    enough (filters_overlap l r = Ok true) by congruence. destruct Hv as [[-> ->]|[-> ->]]; vm_compute; reflexivity.
Qed.

(** [filter_contains] is sound: when it accepts, every name the requested
    filter matches is matched by the allowed one, so a request never reaches
    outside its rule; and every legal filter contains itself. *)
Theorem filter_contains_correct a r (Ha : filter_ok a) (Hr : filter_ok r) :
  filter_contains a a = Ok true
  ∧ (filter_contains a r = Ok true → ∀ t, mqtt_match r t = true → mqtt_match a t = true).
Proof.
  split; [by apply filter_contains_refl|].
  intros Hc t. eapply filter_contains_sound; eauto using filter_not_empty.
Qed.

(** with loaded settings [authorize_topic] always decides: it succeeds,
    raises HTTP 400 exactly when the topic or filter is malformed, and HTTP 403
    otherwise; the [IndexError] of an empty rule never happens. *)
Theorem authorize_topic_decides topic_matches_sub s t b (Hs : settings_ok s) :
  let r := authorize_topic topic_matches_sub t s b in
  (r = Raise invalid_topic ↔ validate_topic t b ≠ Ok tt)
  ∧ (validate_topic t b = Ok tt → r = Ok tt ∨ r = Raise forbidden_topic).
Proof.
  destruct (authorize_topic_cases topic_matches_sub s t b Hs) as [H|[[H Hv]|[H Hv]]]; rewrite H.
  - assert (validate_topic t b = Ok tt).
    { unfold authorize_topic in H. apply bind_ok in H as ([] & ? & _). done. }
    split; [|auto]. split; congruence.
  - split; [|congruence]. split; congruence.
  - split; [|auto]. split; [discriminate|]. congruence.
Qed.

Lemma contains_implies_overlap l r :
  filter_ok l → filter_ok r → filter_contains l r = Ok true → filters_overlap l r = Ok true.
Proof.
  intros [Hl _ _ Hll] [Hr _ _ _]. rewrite filter_contains_eq, filters_overlap_eq by done.
  intros [H1 H2]%(inj Ok)%andb_true_iff. by rewrite H1, contains_overlap_levels.
Qed.

(** the fuzz target never fails: for every input its oracles (containment is
    reflexive, overlap is symmetric, containment implies overlap) hold and no
    exception escapes. *)
Theorem test_one_input_never_fails data : test_one_input data = Ok tt.
Proof.
  unfold test_one_input. destruct (partition 10 (decode_replace data)) as [l r].
  destruct (validate_topic l true) as [u|] eqn:Hl; [|done].
  destruct (validate_topic r true) as [v|] eqn:Hr; [|done].
  apply validate_topic_filter in Hl as [Hl _], Hr as [Hr _].
  unfold assert. rewrite !filter_contains_refl by done. cbn [mbind outcome_bind check].
  destruct (filters_overlap_answers l r Hl Hr) as (b & H1 & H2). rewrite H1, H2.
  cbn [mbind outcome_bind]. rewrite Bool.eqb_reflx. cbn [check mbind outcome_bind].
  assert (∃ c, filter_contains l r = Ok c) as [c Hc].
  { rewrite filter_contains_eq by (by apply filter_not_empty). eauto. }
  rewrite Hc. cbn [mbind outcome_bind]. destruct c; [|done].
  apply contains_implies_overlap in Hc; [|done..]. rewrite H1 in Hc. by injection Hc as ->.
Qed.

(** ** Concrete runs *)

Example contains_demo :
  (filter_contains (&"gateway/+/#") (&"gateway/sensors/+"), filter_contains (&"gateway/+") (&"gateway/#"),
   filter_contains (&"#") (&"$SYS/broker"))
  = (Ok true, Ok false, Ok false).
Proof. vm_compute. reflexivity. Qed.

Example overlap_demo :
  (filters_overlap (&"sensors/private/#") (&"sensors/#"), filters_overlap (&"sensors/private/#") (&"sensors/public/#"),
   filters_overlap (&"a/#") (&"a"), filters_overlap (&"+") (&"/#"))
  = (Ok true, Ok false, Ok true, Ok true).
Proof. vm_compute. reflexivity. Qed.

(** The rule of an empty string makes [right[0]] raise. *)
Example overlap_index_error : filters_overlap (&"$SYS") [] = Raise (Exn EIndex "string index out of range").
Proof. vm_compute. reflexivity. Qed.

Definition demo_acl : Settings :=
  mkSettings (&"g") (&"1") false [] 0 [] 0 [] [] [] 0 true false [] [] []
    (&"gateway") demo_verifier (&"0123456789abcdef0123456789abcdef") (&"HS256") 30 7 [] true 100 60 []
    [&"gateway/#"] [&"gateway/private/#"; &"$SYS/#"] 5%Q 256 64 32 5%Q 10%Q 1048576 (&"INFO") (&"json").

Definition filter_okb (f : pystr) : bool := is_ok (validate_acl_pattern f).

Lemma filter_okb_ok f : filter_okb f = true → filter_ok f.
Proof. unfold filter_okb. rewrite is_ok_true. intros [u Hu]. by eapply validate_acl_pattern_ok. Qed.

Lemma demo_acl_ok : settings_ok demo_acl.
Proof.
  split; cbn [allowed_topic_patterns blocked_topic_patterns demo_acl];
    try (apply Forall_forall; intros f Hf; apply filter_okb_ok; revert f Hf; apply Forall_forall;
         repeat constructor; vm_compute; reflexivity);
    cbn [demo_acl mqtt_queue_size websocket_queue_size websocket_max_topics max_message_bytes
      jwt_access_token_expire_minutes api_username jwt_secret_key api_password_hash jwt_algorithm log_level];
    try lia.
  - split; vm_compute; done.
  - split; vm_compute; done.
  - vm_compute. done.
  - vm_compute. done.
  - vm_compute. eauto.
  - done.
  - apply list_elem_of_further, list_elem_of_here.
Qed.

Lemma authorized_subscription_witness :
  authorize_topic mqtt_match (&"gateway/public/+") demo_acl true = Ok tt
  ∧ authorize_topic mqtt_match (&"gateway/public/temp") demo_acl false = Ok tt.
Proof.
  split; [vm_compute; reflexivity|].
  apply (authorized_subscription_delivers_authorized_topics mqtt_match demo_acl (&"gateway/public/+")).
  - intros f t _ _. reflexivity.
  - exact demo_acl_ok.
  - vm_compute. reflexivity.
  - vm_compute. reflexivity.
  - vm_compute. reflexivity.
Defined.

Lemma filters_overlap_exact_witness :
  filters_overlap (&"a/+/c") (&"a/b/#") = Ok true
  ∧ (∃ t, validate_topic t false = Ok tt ∧ mqtt_match (&"a/+/c") t = true ∧ mqtt_match (&"a/b/#") t = true)
  ∧ filters_overlap (&"+") (&"/#") = Ok true
  ∧ ¬ ∃ t, validate_topic t false = Ok tt ∧ mqtt_match (&"+") t = true ∧ mqtt_match (&"/#") t = true.
Proof.
  destruct (filters_overlap_exact (&"a/+/c") (&"a/b/#")) as (b & Hb & _ & _ & Ht & _); [apply filter_okb_ok; vm_compute; reflexivity..|].
  destruct (filters_overlap_exact (&"+") (&"/#")) as (b' & Hb' & _ & _ & _ & He); [apply filter_okb_ok; vm_compute; reflexivity..|].
  assert (b = true) as -> by (vm_compute in Hb; congruence). split; [exact Hb|]. split.
  - apply Ht; [reflexivity| |vm_compute; discriminate]. intros [[E _]|[E _]]; vm_compute in E; discriminate E.
  - split; [vm_compute; reflexivity|]. apply He. left. split; reflexivity.
Defined.

Lemma filter_contains_correct_witness :
  filter_contains (&"a/#") (&"a/#") = Ok true
  ∧ (filter_contains (&"a/#") (&"a/+/c") = Ok true →
     ∀ t, mqtt_match (&"a/+/c") t = true → mqtt_match (&"a/#") t = true).
Proof. apply filter_contains_correct; apply filter_okb_ok; vm_compute; reflexivity. Defined.

Lemma authorize_topic_decides_witness :
  let r := authorize_topic mqtt_match (&"gateway/private/x") demo_acl true in
  (r = Raise invalid_topic ↔ validate_topic (&"gateway/private/x") true ≠ Ok tt)
  ∧ (validate_topic (&"gateway/private/x") true = Ok tt → r = Ok tt ∨ r = Raise forbidden_topic).
Proof. apply (authorize_topic_decides mqtt_match demo_acl). exact demo_acl_ok. Defined.
