(* ===== verification/Models.v ===== *)
(** * Request, response and message types ([models/__init__.py], [mqtt/client.py])

    One record per pydantic model, with the validation pydantic runs on the
    request bodies: lengths count code points, integers have inclusive bounds. *)

From Stdlib Require Import QArith.QArith.
From S2P Require Import Prelude PyStr.
#[local] Open Scope Z_scope.

Record Token : Type := mkToken { access_token : pystr; token_type : pystr; expires_in : Z }.
Record TokenData : Type := mkTokenData { td_username : option pystr; td_scopes : list pystr }.

Record PublishRequest : Type := mkPublishRequest {
  pub_topic : pystr; pub_payload : pystr; pub_qos : Z; pub_retain : bool }.
Record PublishResponse : Type := mkPublishResponse {
  pubr_success : bool; pubr_message_id : option Z; pubr_topic : pystr }.

Record SubscribeRequest : Type := mkSubscribeRequest { sub_topic : pystr; sub_qos : Z }.
Record SubscribeResponse : Type := mkSubscribeResponse {
  subr_success : bool; subr_topic : pystr; subr_qos : Z }.

Record UnsubscribeRequest : Type := mkUnsubscribeRequest { unsub_topic : pystr }.
Record UnsubscribeResponse : Type := mkUnsubscribeResponse {
  unsubr_success : bool; unsubr_topic : pystr }.

Record RetainedQueryRequest : Type := mkRetainedQueryRequest { ret_topic : pystr }.
Record RetainedMessage : Type := mkRetainedMessage {
  rm_topic : pystr; rm_payload : pystr; rm_qos : Z; rm_retain : bool }.
Record RetainedQueryResponse : Type := mkRetainedQueryResponse {
  rqr_success : bool; rqr_message : option RetainedMessage; rqr_error : option string }.

Record MQTTMessage : Type := mkMQTTMessage {
  mm_topic : pystr; mm_payload : pystr; mm_qos : Z; mm_retain : bool; mm_timestamp : Q }.
Record TopicInfo : Type := mkTopicInfo {
  ti_topic : pystr; ti_message_count : Z; ti_last_message : option MQTTMessage }.

Record HealthResponse : Type := mkHealthResponse {
  health_status : pystr; health_version : pystr; health_connected : bool }.
Record ErrorResponse : Type := mkErrorResponse { err_detail : pystr; err_code : option pystr }.

(** [ReceivedMessage] of [mqtt/client.py]: a packet as the broker delivered it. *)
Record ReceivedMessage : Type := mkReceived {
  rx_topic : pystr; rx_payload : bytes; rx_qos : Z; rx_retain : bool }.

#[export] Instance ReceivedMessage_eq_dec : EqDecision ReceivedMessage.
Proof. solve_decision. Defined.

(** ** Field constraints of the request bodies

    A body that fails them is answered with HTTP 422 before the handler runs. *)

Definition unprocessable : exn := Exn (EHTTP 422) "Unprocessable Entity".

Definition length_in (lo hi : Z) (s : pystr) : bool :=
  (lo <=? Z.of_nat (length s)) && (Z.of_nat (length s) <=? hi).
Definition topic_field (s : pystr) : bool := length_in 1 65535 s.
Definition qos_field (q : Z) : bool := (0 <=? q) && (q <=? 2).

Definition validate_publish_request (r : PublishRequest) : outcome PublishRequest :=
  _ ← check (topic_field (pub_topic r) && length_in 0 1048576 (pub_payload r) && qos_field (pub_qos r))
        unprocessable;
  Ok r.
Definition validate_subscribe_request (r : SubscribeRequest) : outcome SubscribeRequest :=
  _ ← check (topic_field (sub_topic r) && qos_field (sub_qos r)) unprocessable; Ok r.
Definition validate_unsubscribe_request (r : UnsubscribeRequest) : outcome UnsubscribeRequest :=
  _ ← check (topic_field (unsub_topic r)) unprocessable; Ok r.
Definition validate_retained_request (r : RetainedQueryRequest) : outcome RetainedQueryRequest :=
  _ ← check (topic_field (ret_topic r)) unprocessable; Ok r.

Lemma validate_publish_ok r r' :
  validate_publish_request r = Ok r' →
  r' = r ∧ pub_topic r ≠ [] ∧ 0 ≤ pub_qos r ≤ 2.
Proof.
  unfold validate_publish_request. intros H. inv_bind. boolprop.
  unfold topic_field, length_in, qos_field in *. boolprop. rewrite !Z.leb_le in *.
  split_and!; [done| |lia|lia]. intros Hnil. rewrite Hnil in *. cbn in *. lia.
Qed.

Lemma validate_subscribe_ok r r' :
  validate_subscribe_request r = Ok r' → r' = r ∧ sub_topic r ≠ [] ∧ 0 ≤ sub_qos r ≤ 2.
Proof.
  unfold validate_subscribe_request. intros H. inv_bind. boolprop.
  unfold topic_field, length_in, qos_field in *. boolprop. rewrite !Z.leb_le in *.
  split_and!; [done| |lia|lia]. intros Hnil. rewrite Hnil in *. cbn in *. lia.
Qed.
