(* ===== verification/Base64.v ===== *)
(** * Base64 ([base64.b64encode], [base64.b64decode] with validation) *)

From Stdlib Require Import Strings.Byte.
From S2P Require Import Prelude PyStr.
#[local] Open Scope Z_scope.

Definition base64_value (c : N) : option Z :=
  if ((65 <=? c) && (c <=? 90))%N then Some (Z.of_N c - 65)
  else if ((97 <=? c) && (c <=? 122))%N then Some (Z.of_N c - 71)
  else if is_digit c then Some (Z.of_N c + 4)
  else if bool_decide (c = chr "+") then Some 62
  else if bool_decide (c = chr "/") then Some 63
  else None.

Definition base64_digit (v : Z) : N :=
  Z.to_N (if v <? 26 then v + 65 else if v <? 52 then v + 71 else if v <? 62 then v - 4 else if v =? 62 then 43 else 47).

Definition byte_value (b : byte) : Z := Z.of_N (Byte.to_N b).
Definition byte_of_value (z : Z) : byte := byte_of (Z.to_N (Z.land z 255)).

(** [b64encode(b).decode()] *)
Fixpoint b64encode (b : bytes) : pystr :=
  match b with
  | [] => []
  | [x] =>
    let n := Z.shiftl (byte_value x) 16 in
    [base64_digit (Z.shiftr n 18); base64_digit (Z.land (Z.shiftr n 12) 63); chr "="; chr "="]
  | [x; y] =>
    let n := Z.lor (Z.shiftl (byte_value x) 16) (Z.shiftl (byte_value y) 8) in
    [base64_digit (Z.shiftr n 18); base64_digit (Z.land (Z.shiftr n 12) 63);
     base64_digit (Z.land (Z.shiftr n 6) 63); chr "="]
  | x :: y :: z :: b =>
    let n := Z.lor (Z.lor (Z.shiftl (byte_value x) 16) (Z.shiftl (byte_value y) 8)) (byte_value z) in
    [base64_digit (Z.shiftr n 18); base64_digit (Z.land (Z.shiftr n 12) 63);
     base64_digit (Z.land (Z.shiftr n 6) 63); base64_digit (Z.land n 63)] ++ b64encode b
  end.

Definition base64_error : exn := Exn EValue "binascii.Error".

(** [b64decode(s, validate=True)]: every character of the alphabet, padding
    exact and last. *)
Fixpoint b64decode (s : pystr) : outcome bytes :=
  match s with
  | [] => Ok []
  | a :: b :: c :: d :: s =>
    match base64_value a, base64_value b with
    | Some va, Some vb =>
      let first := byte_of_value (Z.lor (Z.shiftl va 2) (Z.shiftr vb 4)) in
      if bool_decide (c = chr "=" ∧ d = chr "=" ∧ s = []) then Ok [first]
      else
        match base64_value c with
        | Some vc =>
          let second := byte_of_value (Z.lor (Z.shiftl vb 4) (Z.shiftr vc 2)) in
          if bool_decide (d = chr "=" ∧ s = []) then Ok [first; second]
          else
            match base64_value d with
            | Some vd =>
              rest ← b64decode s;
              Ok (first :: second :: byte_of_value (Z.lor (Z.shiftl vc 6) vd) :: rest)
            | None => Raise base64_error
            end
        | None => Raise base64_error
        end
    | _, _ => Raise base64_error
    end
  | _ => Raise base64_error
  end.

(** ** The round trip *)

Lemma base64_digit_value v : 0 ≤ v < 64 → base64_value (base64_digit v) = Some v.
Proof.
  intros Hv.
  assert (forallb (λ n, bool_decide (base64_value (base64_digit (Z.of_nat n)) = Some (Z.of_nat n))) (seq 0 64) = true)
    as Hall by (vm_compute; reflexivity).
  rewrite forallb_forall in Hall. specialize (Hall (Z.to_nat v)). rewrite Z2Nat.id in Hall by lia.
  eapply bool_decide_eq_true, Hall, in_seq. lia.
Qed.

Lemma base64_digit_not_pad v : 0 ≤ v < 64 → base64_digit v ≠ chr "=".
Proof. intros Hv E. pose proof (base64_digit_value v Hv) as H. by rewrite E in H. Qed.

Lemma byte_value_range b : 0 ≤ byte_value b < 256.
Proof. unfold byte_value. pose proof (Byte.to_N_bounded b). lia. Qed.

Lemma byte_of_byte_value z b : Z.land z 255 = byte_value b → byte_of_value z = b.
Proof.
  unfold byte_of_value, byte_value, byte_of. intros ->. rewrite N2Z.id. by rewrite Byte.of_to_N.
Qed.

(** Bits of words: a byte has none beyond the seventh, so equality of bytes is
    decided on eight bits. *)
Lemma byte_bits_high x i : 0 ≤ x < 256 → 8 ≤ i → Z.testbit x i = false.
Proof. intros Hx Hi. rewrite <-(Z.mod_small x (2 ^ 8)) by lia. apply Z.mod_pow2_bits_high. lia. Qed.

Lemma eq_of_byte_bits u x :
  0 ≤ x < 256 → (∀ i, i ∈ [0; 1; 2; 3; 4; 5; 6; 7] → Z.testbit u i = Z.testbit x i) → Z.land u 255 = x.
Proof.
  intros Hx Hu. apply Z.bits_inj'. intros i Hi. rewrite Z.land_spec. change 255 with (Z.ones 8).
  destruct (Z.lt_ge_cases i 8).
  - rewrite Z.ones_spec_low, andb_true_r by lia. apply Hu. rewrite !elem_of_cons. lia.
  - rewrite Z.ones_spec_high, andb_false_r by lia. by rewrite byte_bits_high.
Qed.

Ltac word_bits :=
  repeat first
    [ rewrite Z.lor_spec | rewrite Z.land_spec
    | rewrite Z.shiftl_spec by lia | rewrite Z.shiftr_spec by lia
    | match goal with
      | |- context [Z.testbit ?x (?a + ?b)] => let j := eval vm_compute in (a + b) in change (Z.testbit x (a + b)) with (Z.testbit x j)
      | |- context [Z.testbit ?x (?a - ?b)] => let j := eval vm_compute in (a - b) in change (Z.testbit x (a - b)) with (Z.testbit x j)
      | |- context [Z.testbit ?x (Z.neg ?p)] => rewrite (Z.testbit_neg_r x (Z.neg p)) by lia
      | |- context [Z.testbit (Z.pos ?c) ?i] => let v := eval vm_compute in (Z.testbit (Z.pos c) i) in change (Z.testbit (Z.pos c) i) with v
      | Hx : 0 ≤ ?x < 256 |- context [Z.testbit ?x ?i] => rewrite (byte_bits_high x i Hx) by lia
      end ].

(** The six-bit groups of three bytes, as numbers. *)
Definition word24 (x y z : Z) : Z := Z.lor (Z.lor (Z.shiftl x 16) (Z.shiftl y 8)) z.

Lemma sextets x y z :
  0 ≤ x < 256 → 0 ≤ y < 256 → 0 ≤ z < 256 →
  let a := Z.shiftr (word24 x y z) 18 in let b := Z.land (Z.shiftr (word24 x y z) 12) 63 in
  let c := Z.land (Z.shiftr (word24 x y z) 6) 63 in let d := Z.land (word24 x y z) 63 in
  Z.land (Z.lor (Z.shiftl a 2) (Z.shiftr b 4)) 255 = x
  ∧ Z.land (Z.lor (Z.shiftl b 4) (Z.shiftr c 2)) 255 = y
  ∧ Z.land (Z.lor (Z.shiftl c 6) d) 255 = z.
Proof.
  intros Hx Hy Hz. cbv zeta. unfold word24.
  split_and!; (apply eq_of_byte_bits; [done|]); intros i Hi; rewrite !elem_of_cons, elem_of_nil in Hi;
    decompose [or] Hi; try done; subst i; word_bits; cbn [orb andb];
    match goal with |- _ = Z.testbit ?v ?i => by destruct (Z.testbit v i) end.
Qed.

Lemma first_sextet x y z :
  0 ≤ x < 256 → 0 ≤ y < 256 → 0 ≤ z < 256 → Z.shiftr (word24 x y z) 18 = Z.shiftr x 2.
Proof.
  intros Hx Hy Hz. apply Z.bits_inj'. intros i Hi. unfold word24.
  rewrite !Z.shiftr_spec, !Z.lor_spec, !Z.shiftl_spec by lia.
  rewrite (byte_bits_high y), (byte_bits_high z) by lia. rewrite !orb_false_r. f_equal. lia.
Qed.

Lemma sextet_range n : 0 ≤ Z.land n 63 < 64.
Proof. change 63 with (Z.ones 6). rewrite Z.land_ones by lia. apply Z.mod_pos_bound. lia. Qed.

Lemma first_sextet_range x y z :
  0 ≤ x < 256 → 0 ≤ y < 256 → 0 ≤ z < 256 → 0 ≤ Z.shiftr (word24 x y z) 18 < 64.
Proof.
  intros Hx Hy Hz. rewrite first_sextet by done. rewrite Z.shiftr_div_pow2 by lia. change (2 ^ 2) with 4.
  split; [apply Z.div_pos; lia|apply Z.div_lt_upper_bound; lia].
Qed.

(** Decoding inverts encoding. *)
Lemma b64decode_encode b : b64decode (b64encode b) = Ok b.
Proof.
  assert (∀ x y z, 0 ≤ x < 256 → 0 ≤ y < 256 → 0 ≤ z < 256 →
    base64_value (base64_digit (Z.shiftr (word24 x y z) 18)) = Some (Z.shiftr (word24 x y z) 18)) as Ha.
  { intros. by apply base64_digit_value, first_sextet_range. }
  assert (∀ n, base64_value (base64_digit (Z.land n 63)) = Some (Z.land n 63)
               ∧ base64_digit (Z.land n 63) ≠ chr "=") as Hd.
  { intros n. split; [apply base64_digit_value|apply base64_digit_not_pad]; apply sextet_range. }
  enough (∀ n b, (length b ≤ n)%nat → b64decode (b64encode b) = Ok b) as Hn by exact (Hn _ b (Nat.le_refl _)).
  clear b. induction n as [|n IH]; intros [|x [|y [|z b]]] Hl; cbn [length] in Hl; try lia; try done.
  - pose proof (byte_value_range x) as Hx. cbn [b64encode].
    replace (Z.shiftl (byte_value x) 16) with (word24 (byte_value x) 0 0)
      by (unfold word24; by rewrite Z.shiftl_0_l, !Z.lor_0_r).
    cbn [b64decode]. rewrite Ha, (proj1 (Hd _)) by lia. rewrite bool_decide_true by done.
    destruct (sextets _ 0 0 Hx ltac:(lia) ltac:(lia)) as (H1 & _ & _). by rewrite (byte_of_byte_value _ _ H1).
  - pose proof (byte_value_range x) as Hx. pose proof (byte_value_range y) as Hy. cbn [b64encode].
    replace (Z.lor (Z.shiftl (byte_value x) 16) (Z.shiftl (byte_value y) 8)) with (word24 (byte_value x) (byte_value y) 0)
      by (unfold word24; by rewrite Z.lor_0_r).
    cbn [b64decode]. rewrite Ha, !(proj1 (Hd _)) by lia. rewrite bool_decide_false by (intros [H _]; by apply Hd in H).
    rewrite bool_decide_true by done. 
    destruct (sextets _ _ 0 Hx Hy ltac:(lia)) as (H1 & H2 & _).
    by rewrite (byte_of_byte_value _ _ H1), (byte_of_byte_value _ _ H2).
  - pose proof (byte_value_range x) as Hx. pose proof (byte_value_range y) as Hy. pose proof (byte_value_range z) as Hz.
    cbn [b64encode app].
    change (Z.lor (Z.lor _ _) (byte_value z)) with (word24 (byte_value x) (byte_value y) (byte_value z)).
    cbn [b64decode]. rewrite Ha, !(proj1 (Hd _)) by lia. rewrite bool_decide_false by (intros [H _]; by apply Hd in H).
    rewrite bool_decide_false by (intros [H _]; by apply Hd in H). rewrite IH by lia. cbn [mbind outcome_bind].
    destruct (sextets _ _ _ Hx Hy Hz) as (H1 & H2 & H3).
    by rewrite (byte_of_byte_value _ _ H1), (byte_of_byte_value _ _ H2), (byte_of_byte_value _ _ H3).
Qed.

(** The characters of an encoding. *)
Lemma base64_chars (f : N → bool) b :
  forallb (λ n, f (base64_digit (Z.of_nat n))) (seq 0 64) = true → f (chr "=") = true → forallb f (b64encode b) = true.
Proof.
  intros Hf Hpad.
  assert (∀ v, 0 ≤ v < 64 → f (base64_digit v) = true) as Hd.
  { intros v Hv. rewrite forallb_forall in Hf. specialize (Hf (Z.to_nat v)). rewrite Z2Nat.id in Hf by lia.
    apply Hf, in_seq. lia. }
  assert (∀ x y z, 0 ≤ x < 256 → 0 ≤ y < 256 → 0 ≤ z < 256 → f (base64_digit (Z.shiftr (word24 x y z) 18)) = true) as Ha.
  { intros. by apply Hd, first_sextet_range. }
  assert (∀ n, f (base64_digit (Z.land n 63)) = true) as Hl by (intros; apply Hd, sextet_range).
  enough (∀ n b, (length b ≤ n)%nat → forallb f (b64encode b) = true) as Hn by exact (Hn _ b (Nat.le_refl _)).
  clear b. induction n as [|n IH]; intros [|x [|y [|z b]]] Hlen; cbn [length] in Hlen; try lia; try done;
    pose proof (byte_value_range x) as Hx; try pose proof (byte_value_range y) as Hy; cbn [b64encode app forallb].
  - replace (Z.shiftl (byte_value x) 16) with (word24 (byte_value x) 0 0)
      by (unfold word24; by rewrite Z.shiftl_0_l, !Z.lor_0_r).
    by rewrite Ha, Hl, Hpad by lia.
  - replace (Z.lor (Z.shiftl (byte_value x) 16) (Z.shiftl (byte_value y) 8)) with (word24 (byte_value x) (byte_value y) 0)
      by (unfold word24; by rewrite Z.lor_0_r).
    by rewrite Ha, !Hl, Hpad by lia.
  - pose proof (byte_value_range z) as Hz.
    change (Z.lor (Z.lor _ _) (byte_value z)) with (word24 (byte_value x) (byte_value y) (byte_value z)).
    rewrite Ha, !Hl by lia. cbn [andb]. apply IH. lia.
Qed.

Example b64_demo :
  b64encode (byte_of <$> &"any carnal pleas") = &"YW55IGNhcm5hbCBwbGVhcw=="
  ∧ b64decode (&"YW55IGNhcm5hbCBwbGVhc3U=") = Ok (byte_of <$> &"any carnal pleasu")
  ∧ b64decode (&"YW=5") = Raise base64_error ∧ b64decode (&"YW5") = Raise base64_error.
Proof. vm_compute. done. Qed.
