(* ===== verification/DarwinCert.v ===== *)
(** * Certificate keys through Apple's Security framework ([_darwin_certificate.py])

    The framework's functions are the record [NativeCalls]; a pointer is an
    integer, null is 0.  What is modelled is the program's side: which checks it
    makes in which order and who releases what.  The log shows every reference
    the framework created for the program and every [CFRelease]. *)

From Stdlib Require Import Strings.Byte.
From S2P Require Import Prelude PyStr.
#[local] Open Scope Z_scope.

Record NativeCalls : Type := mkNativeCalls {
  CFDataCreate : bytes → Z;
  SecCertificateCreateWithData : Z → Z;
  SecCertificateCopyKey : Z → Z;
  SecKeyCopyAttributes : Z → Z;
  CFGetTypeID : Z → Z;
  CFDictionaryGetTypeID : Z;
  CFStringGetTypeID : Z;
  CFNumberGetTypeID : Z;
  CFDictionaryGetValue : Z → Z → Z;
  (** the exact 64-bit value, [None] when the conversion is not exact *)
  CFNumberGetValue : Z → option Z;
  CFEqual : Z → Z → bool;
  in_dll : string → Z;
}.

(** The constants [_Native.__init__] reads. *)
Record Native : Type := mkNative {
  calls : NativeCalls; key_type : Z; key_bits : Z; rsa : Z; ec : Z }.

Inductive cf_event : Type :=
  | Created (reference : Z)
  | Released (reference : Z).

(** The references the [ExitStack] will release, last first, and the log. *)
Record cf_state : Type := mkCf { cf_stack : list Z; cf_log : list cf_event }.

Definition os_error (text : string) : exn := Exn EOS text.

Section native.
Context (framework : NativeCalls).

(** [_Native._constant] *)
Definition constant (name : string) : outcome Z :=
  let value := in_dll framework name in
  if value =? 0 then Raise (os_error "Security framework key metadata constants are unavailable") else Ok value.

(** [_native], [_Native.__init__]: loading the libraries and declaring the
    signatures has no effect here. *)
Definition native (platform : pystr) : outcome Native :=
  if negb (bool_decide (platform = &"darwin")) then Raise (os_error "Native certificate key inspection requires macOS")
  else
    key_type ← constant "kSecAttrKeyType";
    key_bits ← constant "kSecAttrKeySizeInBits";
    rsa ← constant "kSecAttrKeyTypeRSA";
    ec ← constant "kSecAttrKeyTypeECSECPrimeRandom";
    Ok (mkNative framework key_type key_bits rsa ec).
End native.

(** A framework function that returns a new reference. *)
Definition create (value : Z) : M cf_state Z := λ st,
  if value =? 0 then (st, Ok value) else (mkCf (cf_stack st) (cf_log st ++ [Created value]), Ok value).

(** [_Native.own] *)
Definition own (value : Z) : M cf_state Z := λ st,
  if value =? 0 then (st, Raise (os_error "Security framework could not read certificate key metadata"))
  else (mkCf (value :: cf_stack st) (cf_log st), Ok value).

(** [_Native.meets_minimum] *)
Definition meets_minimum (n : Native) (attributes : Z) : outcome bool :=
  let f := calls n in
  if negb (CFGetTypeID f attributes =? CFDictionaryGetTypeID f)
  then Raise (os_error "Security framework returned invalid key attributes")
  else
    let kt := CFDictionaryGetValue f attributes (key_type n) in
    let kb := CFDictionaryGetValue f attributes (key_bits n) in
    if (kt =? 0) || (kb =? 0) then Raise (os_error "Security framework returned incomplete key attributes")
    else if negb (CFGetTypeID f kt =? CFStringGetTypeID f) || negb (CFGetTypeID f kb =? CFNumberGetTypeID f)
    then Raise (os_error "Security framework returned invalid key attribute types")
    else
      match CFNumberGetValue f kb with
      | None => Raise (os_error "Security framework returned an invalid key size")
      | Some bits =>
        if bits <=? 0 then Raise (os_error "Security framework returned an invalid key size")
        else if CFEqual f kt (rsa n) then Ok (2048 <=? bits)
        else if CFEqual f kt (ec n) then Ok (224 <=? bits)
        else Ok false
      end.

(** The body of [with ExitStack() as stack]. *)
Definition inspect (n : Native) (der : bytes) : M cf_state bool :=
  let f := calls n in
  data ← create (CFDataCreate f der);
  data ← own data;
  certificate ← create (SecCertificateCreateWithData f data);
  if certificate =? 0 then raise (Exn EValue "Certificate is not valid DER")
  else
    _ ← own certificate;
    key ← create (SecCertificateCopyKey f certificate);
    key ← own key;
    attributes ← create (SecKeyCopyAttributes f key);
    attributes ← own attributes;
    lift (meets_minimum n attributes).

(** Leaving the [with] block runs the callbacks in reverse order. *)
Definition exit_stack {A} (m : M cf_state A) : M cf_state A := λ st,
  let '(st', r) := m (mkCf [] (cf_log st)) in
  (mkCf (cf_stack st) (cf_log st' ++ (Released <$> cf_stack st')), r).

(** [certificate_key_meets_minimum] *)
Definition certificate_key_meets_minimum (framework : NativeCalls) (platform : pystr) (der : bytes) :
  M cf_state bool :=
  if bool_decide (der = []) then raise (Exn EValue "Certificate must be nonempty DER bytes")
  else
    n ← lift (native framework platform);
    exit_stack (inspect n der).

(** ** What is accepted *)

(** The framework reads the certificate, and its key's attributes are those of an RSA
    key of 2048 bits or of an elliptic-curve key of 224 bits at least. *)
Definition native_strong (f : NativeCalls) (der : bytes) : Prop :=
  let data := CFDataCreate f der in
  let certificate := SecCertificateCreateWithData f data in
  let key := SecCertificateCopyKey f certificate in
  let attributes := SecKeyCopyAttributes f key in
  let kt := CFDictionaryGetValue f attributes (in_dll f "kSecAttrKeyType") in
  let kb := CFDictionaryGetValue f attributes (in_dll f "kSecAttrKeySizeInBits") in
  der ≠ []
  ∧ (in_dll f "kSecAttrKeyType" ≠ 0 ∧ in_dll f "kSecAttrKeySizeInBits" ≠ 0
     ∧ in_dll f "kSecAttrKeyTypeRSA" ≠ 0 ∧ in_dll f "kSecAttrKeyTypeECSECPrimeRandom" ≠ 0)
  ∧ (data ≠ 0 ∧ certificate ≠ 0 ∧ key ≠ 0 ∧ attributes ≠ 0)
  ∧ CFGetTypeID f attributes = CFDictionaryGetTypeID f ∧ kt ≠ 0 ∧ kb ≠ 0
  ∧ CFGetTypeID f kt = CFStringGetTypeID f ∧ CFGetTypeID f kb = CFNumberGetTypeID f
  ∧ ∃ bits, CFNumberGetValue f kb = Some bits
      ∧ (if CFEqual f kt (in_dll f "kSecAttrKeyTypeRSA") then 2048 ≤ bits
         else CFEqual f kt (in_dll f "kSecAttrKeyTypeECSECPrimeRandom") = true ∧ 224 ≤ bits).

Lemma constant_ok f name v : constant f name = Ok v ↔ v = in_dll f name ∧ in_dll f name ≠ 0.
Proof. unfold constant. destruct (Z.eqb_spec (in_dll f name) 0); naive_solver. Qed.

Lemma native_ok f n : native f (&"darwin") = Ok n ↔
  n = mkNative f (in_dll f "kSecAttrKeyType") (in_dll f "kSecAttrKeySizeInBits") (in_dll f "kSecAttrKeyTypeRSA") (in_dll f "kSecAttrKeyTypeECSECPrimeRandom")
  ∧ in_dll f "kSecAttrKeyType" ≠ 0 ∧ in_dll f "kSecAttrKeySizeInBits" ≠ 0
  ∧ in_dll f "kSecAttrKeyTypeRSA" ≠ 0 ∧ in_dll f "kSecAttrKeyTypeECSECPrimeRandom" ≠ 0.
Proof.
  unfold native. rewrite (bool_decide_eq_true_2 (&"darwin" = &"darwin")) by done. cbn [negb]. rewrite !bind_ok.
  setoid_rewrite bind_ok. setoid_rewrite bind_ok. setoid_rewrite bind_ok. setoid_rewrite constant_ok. naive_solver.
Qed.

Lemma meets_minimum_ok n attributes :
  meets_minimum n attributes = Ok true ↔
  let f := calls n in
  let kt := CFDictionaryGetValue f attributes (key_type n) in
  let kb := CFDictionaryGetValue f attributes (key_bits n) in
  CFGetTypeID f attributes = CFDictionaryGetTypeID f ∧ kt ≠ 0 ∧ kb ≠ 0
  ∧ CFGetTypeID f kt = CFStringGetTypeID f ∧ CFGetTypeID f kb = CFNumberGetTypeID f
  ∧ ∃ bits, CFNumberGetValue f kb = Some bits
      ∧ (if CFEqual f kt (rsa n) then 2048 ≤ bits else CFEqual f kt (ec n) = true ∧ 224 ≤ bits).
Proof.
  unfold meets_minimum. cbv zeta. destruct (Z.eqb_spec (CFGetTypeID (calls n) attributes) (CFDictionaryGetTypeID (calls n))) as [Ha|Ha]; cbn [negb]; [|naive_solver].
  set (kt := CFDictionaryGetValue _ _ (key_type n)). set (kb := CFDictionaryGetValue _ _ (key_bits n)).
  destruct (Z.eqb_spec kt 0) as [Ht|Ht]; cbn [orb]; [naive_solver|]. destruct (Z.eqb_spec kb 0) as [Hb|Hb]; [naive_solver|].
  destruct (Z.eqb_spec (CFGetTypeID (calls n) kt) (CFStringGetTypeID (calls n))) as [Hs|Hs]; cbn [negb orb]; [|naive_solver].
  destruct (Z.eqb_spec (CFGetTypeID (calls n) kb) (CFNumberGetTypeID (calls n))) as [Hn|Hn]; cbn [negb]; [|naive_solver].
  destruct (CFNumberGetValue (calls n) kb) as [bits|]; [|naive_solver].
  destruct (Z.leb_spec bits 0) as [Hbits|Hbits].
  { split; [done|]. intros (_ & _ & _ & _ & _ & b & [= <-] & Hb'). destruct (CFEqual _ _ (rsa n)); lia. }
  destruct (CFEqual _ kt (rsa n)); [|destruct (CFEqual _ kt (ec n))].
  - split; [intros [= Hle%Z.leb_le]; eauto 10|]. intros (_ & _ & _ & _ & _ & b & [= <-] & Hle). f_equal. by apply Z.leb_le.
  - split; [intros [= Hle%Z.leb_le]; eauto 10|]. intros (_ & _ & _ & _ & _ & b & [= <-] & _ & Hle). f_equal. by apply Z.leb_le.
  - naive_solver.
Qed.

Lemma inspect_ok n der st :
  snd (inspect n der st) = Ok true ↔
  let f := calls n in
  let data := CFDataCreate f der in
  let certificate := SecCertificateCreateWithData f data in
  let key := SecCertificateCopyKey f certificate in
  let attributes := SecKeyCopyAttributes f key in
  (data ≠ 0 ∧ certificate ≠ 0 ∧ key ≠ 0 ∧ attributes ≠ 0) ∧ meets_minimum n attributes = Ok true.
Proof.
  unfold inspect, mbind, M_bind, create, own, raise, lift. cbv zeta.
  destruct (Z.eqb_spec (CFDataCreate (calls n) der) 0) as [E|E]; [rewrite (proj2 (Z.eqb_eq _ _) E); cbn; naive_solver|rewrite (proj2 (Z.eqb_neq _ _) E)].
  destruct (Z.eqb_spec (SecCertificateCreateWithData (calls n) (CFDataCreate (calls n) der)) 0) as [E1|E1];
    [rewrite (proj2 (Z.eqb_eq _ _) E1); cbn; naive_solver|rewrite !(proj2 (Z.eqb_neq _ _) E1)].
  set (key := SecCertificateCopyKey _ _). destruct (Z.eqb_spec key 0) as [E2|E2]; [rewrite (proj2 (Z.eqb_eq _ _) E2); cbn; naive_solver|rewrite (proj2 (Z.eqb_neq _ _) E2)].
  set (attributes := SecKeyCopyAttributes _ _). destruct (Z.eqb_spec attributes 0) as [E3|E3]; [rewrite (proj2 (Z.eqb_eq _ _) E3); cbn; naive_solver|rewrite (proj2 (Z.eqb_neq _ _) E3)].
  cbn. naive_solver.
Qed.

Lemma certificate_key_ok_native f der st : snd (certificate_key_meets_minimum f (&"darwin") der st) = Ok true ↔ native_strong f der.
Proof.
  unfold certificate_key_meets_minimum, native_strong. cbv zeta. case_bool_decide as Hd; [split; [done|naive_solver]|].
  unfold mbind, M_bind, lift. destruct (native f (&"darwin")) as [n|e] eqn:En.
  - apply native_ok in En as (-> & Hc). unfold exit_stack.
    pose proof (inspect_ok (mkNative f (in_dll f "kSecAttrKeyType") (in_dll f "kSecAttrKeySizeInBits") (in_dll f "kSecAttrKeyTypeRSA")
                             (in_dll f "kSecAttrKeyTypeECSECPrimeRandom")) der (mkCf [] (cf_log st))) as Hi.
    destruct (inspect _ der _) as [st' r]. cbn [snd] in *. rewrite Hi, meets_minimum_ok. cbn. tauto.
  - split; [done|]. intros (_ & Hc & _). assert (native f (&"darwin") = Ok (mkNative f (in_dll f "kSecAttrKeyType") (in_dll f "kSecAttrKeySizeInBits")
      (in_dll f "kSecAttrKeyTypeRSA") (in_dll f "kSecAttrKeyTypeECSECPrimeRandom"))) as Hn by (by apply native_ok). congruence.
Qed.

(** ** Theorems *)

(** Every reference created and not released is on the stack, in order. *)
Definition balanced (log0 : list cf_event) (st : cf_state) : Prop :=
  cf_log st = log0 ++ (Created <$> reverse (cf_stack st)).

Lemma inspect_balanced n der log0 :
  let '(st, r) := inspect n der (mkCf [] log0) in
  balanced log0 st ∧ ∀ e, r = Raise e → exn_kind e = EOS ∨ exn_kind e = EValue.
Proof.
  unfold inspect. 
  assert (balanced log0 (mkCf [] log0)) as H0 by (unfold balanced; cbn; by rewrite app_nil_r).
  unfold mbind, M_bind, create, own, raise, lift. 
  set (data := CFDataCreate (calls n) der).
  destruct (data =? 0) eqn:E1; rewrite ?E1; [by split; [|intros ? [= <-]; left]|].
  set (certificate := SecCertificateCreateWithData (calls n) data).
  destruct (certificate =? 0) eqn:E2; rewrite ?E2; cbn.
  { split; [|intros ? [= <-]; by right]. unfold balanced. cbn. done. }
  set (key := SecCertificateCopyKey (calls n) certificate).
  destruct (key =? 0) eqn:E3; rewrite ?E3; cbn.
  { split; [|intros ? [= <-]; by left]. unfold balanced. cbn. by rewrite <-!app_assoc. }
  set (attributes := SecKeyCopyAttributes (calls n) key).
  destruct (attributes =? 0) eqn:E4; rewrite ?E4; cbn.
  { split; [|intros ? [= <-]; by left]. unfold balanced. cbn. by rewrite <-!app_assoc. }
  split; [unfold balanced; cbn; by rewrite <-!app_assoc|].
  unfold meets_minimum. intros e. repeat case_match; intros [= <-]; by left.
Qed.

(** C26: inspecting a certificate with the native framework leaks nothing and
    releases nothing twice: whatever the framework returns and wherever the
    inspection fails, the references it created for the program are released in
    reverse order, each exactly once, and only [OSError] or [ValueError] is
    raised. *)
Theorem native_references_released framework platform der st :
  let '(st', r) := certificate_key_meets_minimum framework platform der st in
  cf_stack st' = cf_stack st
  ∧ (∃ created, cf_log st' = cf_log st ++ (Created <$> created) ++ (Released <$> reverse created))
  ∧ ∀ e, r = Raise e → exn_kind e = EOS ∨ exn_kind e = EValue.
Proof.
  unfold certificate_key_meets_minimum. unfold mbind, M_bind, raise, lift.
  destruct (bool_decide _).
  { split; [done|]. split; [exists []; by rewrite app_nil_r|]. intros ? [= <-]. by right. }
  destruct (native framework platform) as [n|e] eqn:En.
  - unfold exit_stack. pose proof (inspect_balanced n der (cf_log st)) as Hi.
    destruct (inspect n der _) as [st' r]. destruct Hi as [Hb He]. cbn. split; [done|]. split; [|done].
    exists (reverse (cf_stack st')). by rewrite Hb, reverse_involutive, <-app_assoc.
  - split; [done|]. split; [exists []; by rewrite app_nil_r|]. intros e' [= <-]. left.
    unfold native, constant in En. repeat (case_match; cbn in En); by simplify_eq.
Qed.
