(* ===== verification/Tls.v ===== *)
(** * TLS peer-key policy ([tls_policy.py], [mqtt/tls.py])

    The decision about a certificate's public key, the check of the verified
    chain, the two handshake wrappers and the construction of the MQTT context.
    The parsers of [cryptography] and the operations of OpenSSL are parameters;
    [ssl.PEM_cert_to_DER_cert] is the standard library's and is modelled. *)

From Stdlib Require Import Strings.Byte.
From S2P Require Import Prelude PyStr Base64 DarwinCert.
#[local] Open Scope Z_scope.

Definition ssl_error (text : string) : exn := Exn ESSL text.

(** ** [ssl.PEM_cert_to_DER_cert] *)

Definition byte_of_Z (z : Z) : byte := default Byte.x00 (Byte.of_N (Z.to_N (Z.land z 255))).

(** [binascii.a2b_base64] in its lenient mode: characters outside the alphabet
    are skipped, and complete padding ends the data. *)
Fixpoint a2b_base64 (s : pystr) (quad pads : nat) (left : Z) (out : bytes) : outcome bytes :=
  match s with
  | [] => if (quad =? 0)%nat then Ok out else Raise (Exn EValue "Incorrect padding")
  | c :: s' =>
    if bool_decide (c = chr "=") then
      if (2 <=? quad)%nat then
        if (4 <=? quad + S pads)%nat then Ok out else a2b_base64 s' quad (S pads) left out
      else a2b_base64 s' quad pads left out
    else
      match base64_value c with
      | None => a2b_base64 s' quad pads left out
      | Some v =>
        match quad with
        | 0%nat => a2b_base64 s' 1 0 v out
        | 1%nat => a2b_base64 s' 2 0 (Z.land v 15) (out ++ [byte_of_Z (Z.lor (Z.shiftl left 2) (Z.shiftr v 4))])
        | 2%nat => a2b_base64 s' 3 0 (Z.land v 3) (out ++ [byte_of_Z (Z.lor (Z.shiftl left 4) (Z.shiftr v 2))])
        | _ => a2b_base64 s' 0 0 0 (out ++ [byte_of_Z (Z.lor (Z.shiftl left 6) v)])
        end
      end
  end.

Definition PEM_HEADER : pystr := &"-----BEGIN CERTIFICATE-----".
Definition PEM_FOOTER : pystr := &"-----END CERTIFICATE-----".

Definition PEM_cert_to_DER_cert (pem : pystr) : outcome bytes :=
  if negb (startswith PEM_HEADER pem) then Raise (Exn EValue "Invalid PEM encoding; must start with")
  else if negb (endswith PEM_FOOTER (strip pem)) then Raise (Exn EValue "Invalid PEM encoding; must end with")
  else
    let body := drop (length PEM_HEADER) (strip pem) in
    let d := take (length body - length PEM_FOOTER) body in
    if negb (is_ascii d) then Raise (Exn EUnicode "ordinal not in range(128)")
    else a2b_base64 d 0 0 0 [].

(** ** The key policy *)

(** What [cryptography] parses a public key to. *)
Inductive public_key : Type :=
  | RSAKey (n : Z)
  | ECKey (key_size : Z)
  | DSAKey (p q : Z)
  | Ed25519Key
  | Ed448Key
  | OtherKey.

(** [n.bit_length()] *)
Definition bit_length (n : Z) : Z := if n =? 0 then 0 else Z.log2 (Z.abs n) + 1.

(** The platform the process runs on. *)
Record platform : Type := mkPlatform { sys_platform : pystr; machine : pystr; framework : NativeCalls }.

Section policy.
(** [x509.load_der_x509_certificate(der).public_key()] when the package is
    installed; [None] stands for [ValueError] and [UnsupportedAlgorithm]. *)
Context (cryptography : option (bytes → option public_key)) (host : platform).

Definition key_ok (key : public_key) : bool :=
  match key with
  | RSAKey n => 2048 <=? bit_length n
  | ECKey key_size => 224 <=? key_size
  | DSAKey p q => (2048 <=? bit_length p) && (224 <=? bit_length q)
  | Ed25519Key | Ed448Key => true
  | OtherKey => false
  end.

(** [_certificate_key_ok] *)
Definition certificate_key_ok (der : bytes) : outcome bool :=
  if bool_decide (sys_platform host = &"darwin") && bool_decide (machine host = &"x86_64") then
    catch (snd (certificate_key_meets_minimum (framework host) (sys_platform host) der (mkCf [] [])))
      (λ k, is_os_error k || is_value_error k)
      (λ _, Raise (ssl_error "TLS certificate key could not be verified by macOS"))
  else
    match cryptography with
    | None => Raise (ssl_error "Verified TLS requires the cryptography package")
    | Some public_key_of =>
      match public_key_of der with
      | None => Raise (ssl_error "TLS certificate uses an unsupported public key")
      | Some key => Ok (key_ok key)
      end
    end.

(** A certificate of the verified chain: DER bytes, or an object whose
    [public_bytes()], if it has that method, returns PEM text. *)
Inductive chain_item : Type :=
  | DerItem (der : bytes)
  | ObjectItem (public_bytes : option pystr).

(** What the connection exposes: no such method, or its result ([None]: not a
    list). *)
Notation verified_chain := (option (option (list chain_item))).

Definition item_der (item : chain_item) : outcome bytes :=
  match item with
  | DerItem der => Ok der
  | ObjectItem None => Raise (ssl_error "TLS runtime returned an unsupported certificate format")
  | ObjectItem (Some pem) => PEM_cert_to_DER_cert pem
  end.

(** [_check_verified_keys] *)
Definition check_verified_keys (chain : verified_chain) : outcome unit :=
  match chain with
  | None => Raise (ssl_error "TLS runtime does not expose its verified certificate chain")
  | Some None | Some (Some []) => Raise (ssl_error "TLS peer has no verified certificate chain")
  | Some (Some items) =>
    for_each (λ item,
      der ← item_der item;
      ok ← certificate_key_ok der;
      check ok (ssl_error "TLS certificate key is below the supported security minimum")) items
  end.

(** [_VerifiedObject.do_handshake]: [handshake] is the outcome of the
    inherited method, [chain] what the connection then exposes. *)
Definition object_handshake (handshake : outcome unit) (chain : verified_chain) : outcome unit :=
  _ ← handshake; check_verified_keys chain.

Definition wants_io (k : exn_class) : bool := match k with ESSLWant => true | _ => false end.

(** [_VerifiedSocket.do_handshake]: the state is whether the socket is open. *)
Definition socket_handshake (handshake : outcome unit) (chain : verified_chain) : M bool unit := λ is_open,
  match object_handshake handshake chain with
  | Ok u => (is_open, Ok u)
  | Raise e => if wants_io (exn_kind e) then (is_open, Raise e) else (false, Raise e)
  end.
End policy.

(** ** The context *)

Definition TLSv1_2 : Z := 771.

Record SSLContext : Type := mkContext {
  cx_verify_required : bool;
  cx_check_hostname : bool;
  cx_minimum_version : Z;
  cx_security_level : Z;
  cx_ciphers : list (pystr * pystr);  (* name, protocol *)
  cx_verified_classes : bool;
}.

(** OpenSSL's part of the context. *)
Class OpenSSL := {
  protocol_tls_client : SSLContext;
  load_cert_chain : pystr → option pystr → SSLContext → outcome SSLContext;
  load_verify_locations : pystr → SSLContext → outcome SSLContext;
  load_default_certs : SSLContext → outcome SSLContext;
  set_ciphers : pystr → SSLContext → outcome SSLContext;
}.

(** Loading certificates leaves the protocol settings alone; a cipher string
    that ends with [@SECLEVEL=2] selects that security level and leaves the
    verification settings alone. *)
Class OpenSSLLaws `{OpenSSL} := {
  law_client : cx_verify_required protocol_tls_client = true ∧ cx_check_hostname protocol_tls_client = true;
  law_load_chain c k x x' : load_cert_chain c k x = Ok x' → x' = x;
  law_load_locations l x x' : load_verify_locations l x = Ok x' → x' = x;
  law_load_default x x' : load_default_certs x = Ok x' → x' = x;
  law_set_ciphers names x x' :
    set_ciphers (join (chr ":") (names ++ [&"@SECLEVEL=2"])) x = Ok x' →
    cx_security_level x' = 2 ∧ cx_verify_required x' = cx_verify_required x
    ∧ cx_check_hostname x' = cx_check_hostname x ∧ cx_minimum_version x' = cx_minimum_version x;
}.

Section context.
Context `{OpenSSL}.

Definition set_minimum_version (v : Z) (x : SSLContext) : SSLContext :=
  mkContext (cx_verify_required x) (cx_check_hostname x) v (cx_security_level x) (cx_ciphers x) (cx_verified_classes x).
Definition set_verified_classes (x : SSLContext) : SSLContext :=
  mkContext (cx_verify_required x) (cx_check_hostname x) (cx_minimum_version x) (cx_security_level x) (cx_ciphers x) true.

(** [enforce_peer_key_policy] *)
Definition enforce_peer_key_policy (x : SSLContext) : outcome SSLContext :=
  if negb (cx_verify_required x) || negb (cx_check_hostname x)
  then Raise (Exn EValue "TLS context must verify certificates and hostnames")
  else
    let x := set_minimum_version (Z.max (cx_minimum_version x) TLSv1_2) x in
    x ← (if cx_security_level x <? 2 then
           let selected := (filter (λ c, c.2 ≠ &"TLSv1.3") (cx_ciphers x)).*1 in
           set_ciphers (join (chr ":") (selected ++ [&"@SECLEVEL=2"])) x
         else Ok x);
    Ok (set_verified_classes x).

(** [mqtt_context] *)
Definition mqtt_context (ca_certs certfile keyfile : option pystr) : outcome SSLContext :=
  let x := protocol_tls_client in
  x ← match certfile with Some certfile => load_cert_chain certfile keyfile x | None => Ok x end;
  x ← match ca_certs with Some ca_certs => load_verify_locations ca_certs x | None => load_default_certs x end;
  enforce_peer_key_policy x.
End context.

(** ** Theorems *)

Lemma bit_length_ge n k : 1 ≤ k → k ≤ bit_length n ↔ 2 ^ (k - 1) ≤ Z.abs n.
Proof.
  intros Hk. unfold bit_length. destruct (Z.eqb_spec n 0) as [->|Hn].
  - cbn. pose proof (Z.pow_pos_nonneg 2 (k - 1)). lia.
  - rewrite (Z.log2_le_pow2 (Z.abs n) (k - 1)) by lia. lia.
Qed.

(** The policy in terms of the key material. *)
Definition strong_key (key : public_key) : Prop :=
  match key with
  | RSAKey n => 2 ^ 2047 ≤ Z.abs n
  | ECKey key_size => 224 ≤ key_size
  | DSAKey p q => 2 ^ 2047 ≤ Z.abs p ∧ 2 ^ 223 ≤ Z.abs q
  | Ed25519Key | Ed448Key => True
  | OtherKey => False
  end.

Lemma key_ok_strong key : key_ok key = true ↔ strong_key key.
Proof.
  destruct key; cbn [key_ok strong_key]; rewrite ?andb_true_iff, ?Z.leb_le, ?bit_length_ge by lia; try done.
Qed.

Section facts.
Context (cryptography : option (bytes → option public_key)) (host : platform).
Notation check_chain := (check_verified_keys cryptography host).

(** An Intel Mac asks Apple's framework, every other host the cryptography package. *)
Definition intel_mac : bool := bool_decide (sys_platform host = &"darwin") && bool_decide (machine host = &"x86_64").

Definition strong_der (der : bytes) : Prop :=
  if intel_mac then native_strong (framework host) der
  else ∃ public_key_of key, cryptography = Some public_key_of ∧ public_key_of der = Some key ∧ strong_key key.

Definition strong_certificate (item : chain_item) : Prop := ∃ der, item_der item = Ok der ∧ strong_der der.

Lemma certificate_key_ok_spec der : certificate_key_ok cryptography host der = Ok true ↔ strong_der der.
Proof.
  unfold certificate_key_ok, strong_der. fold intel_mac. destruct intel_mac eqn:Ei.
  - unfold intel_mac in Ei. apply andb_true_iff in Ei as [Ep%bool_decide_eq_true _]. rewrite Ep.
    rewrite <-(certificate_key_ok_native (framework host) der (mkCf [] [])). unfold catch.
    destruct (snd _) as [b|e]; [done|]. split; [|done]. by destruct (_ || _).
  - destruct cryptography as [public_key_of|]; [|naive_solver]. destruct (public_key_of der) as [key|] eqn:E; [|naive_solver].
    split; [intros [= Hk%key_ok_strong]; eauto|]. intros (f & key' & [= <-] & Hf & Hs%key_ok_strong). congruence.
Qed.

Lemma check_item_ok item u :
  (der ← item_der item; ok ← certificate_key_ok cryptography host der;
   check ok (ssl_error "TLS certificate key is below the supported security minimum")) = Ok u
  ↔ strong_certificate item.
Proof.
  unfold strong_certificate. destruct u. rewrite bind_ok. setoid_rewrite bind_ok. setoid_rewrite check_ok.
  setoid_rewrite <-certificate_key_ok_spec. naive_solver.
Qed.

Lemma check_chain_ok chain u :
  check_chain chain = Ok u ↔ ∃ items, chain = Some (Some items) ∧ items ≠ [] ∧ ∀ c, c ∈ items → strong_certificate c.
Proof.
  unfold check_verified_keys. destruct chain as [[[|c items]|]|]; try (split; [done|naive_solver]).
  rewrite for_each_ok. setoid_rewrite check_item_ok. naive_solver.
Qed.

(** C23: on every host, a TLS connection is usable only with a strong chain.  The
    wrapped handshake returns exactly when the inherited one does and the connection exposes a
    non-empty verified chain of which every certificate has a strong key.  What a strong key is
    depends on the host: where the cryptography package decides, the package
    is installed and reads a key of at least 2048 (RSA, DSA with a subgroup of 224) or 224
    (elliptic curve) bits or an Edwards key; on an Intel Mac Apple's framework does,
    and reads an RSA key of at least 2048 or an elliptic-curve key of at least 224
    bits.  On any failure but an unfinished non-blocking handshake the socket is closed. *)
Theorem handshake_requires_strong_chain handshake chain :
  let '(is_open, r) := socket_handshake cryptography host handshake chain true in
  (r = Ok tt ↔ handshake = Ok tt
               ∧ ∃ items, chain = Some (Some items) ∧ items ≠ [] ∧ ∀ c, c ∈ items → strong_certificate c)
  ∧ (is_open = true ↔ r = Ok tt ∨ ∃ e, r = Raise e ∧ exn_kind e = ESSLWant)
  ∧ r = object_handshake cryptography host handshake chain.
Proof.
  unfold socket_handshake. destruct (object_handshake _ _ handshake chain) as [[]|e] eqn:E.
  - split_and!; [|by split; [left|]|done]. unfold object_handshake in E. inv_bind.
    rewrite <-(check_chain_ok chain tt). destruct a. tauto.
  - assert (∀ is_open : bool, (is_open = true ↔ wants_io (exn_kind e) = true) →
      (Raise e = Ok tt ↔ handshake = Ok tt ∧ ∃ items, chain = Some (Some items) ∧ items ≠ []
         ∧ ∀ c, c ∈ items → strong_certificate c)
      ∧ (is_open = true ↔ @Raise unit e = Ok tt ∨ ∃ e', @Raise unit e = Raise e' ∧ exn_kind e' = ESSLWant)
      ∧ @Raise unit e = Raise e) as Hgo.
    { intros is_open Ho. split_and!; [|rewrite Ho|done].
      - rewrite <-(check_chain_ok chain tt). split; [done|]. intros [-> Hc].
        unfold object_handshake in E. cbn in E. congruence.
      - split; [|intros [?|(e' & [= <-] & ->)]; done]. intros Hw. right. exists e. split; [done|].
        by destruct (exn_kind e). }
    destruct (wants_io (exn_kind e)) eqn:Ew; apply Hgo; done.
Qed.
End facts.

Section context_facts.
Context `{OpenSSLLaws}.

(** the MQTT context is built in one way only: it verifies certificates and
    host names, allows no protocol below TLS 1.2, keeps a stricter minimum, has
    security level 2 at least and uses the checked handshakes; a context that
    does not verify is refused before it is changed. *)
Theorem mqtt_context_enforces_policy x :
  (∀ ca certfile keyfile x', mqtt_context ca certfile keyfile = Ok x' →
     cx_verify_required x' = true ∧ cx_check_hostname x' = true ∧ TLSv1_2 ≤ cx_minimum_version x'
     ∧ 2 ≤ cx_security_level x' ∧ cx_verified_classes x' = true)
  ∧ (∀ x', enforce_peer_key_policy x = Ok x' →
       cx_verify_required x = true ∧ cx_check_hostname x = true
       ∧ cx_verify_required x' = true ∧ cx_check_hostname x' = true
       ∧ cx_minimum_version x' = Z.max (cx_minimum_version x) TLSv1_2
       ∧ Z.max (cx_security_level x) 2 = cx_security_level x' ∧ cx_verified_classes x' = true)
  ∧ (cx_verify_required x = false ∨ cx_check_hostname x = false →
       enforce_peer_key_policy x = Raise (Exn EValue "TLS context must verify certificates and hostnames")).
Proof.
  assert (∀ x x', enforce_peer_key_policy x = Ok x' →
       cx_verify_required x = true ∧ cx_check_hostname x = true
       ∧ cx_verify_required x' = true ∧ cx_check_hostname x' = true
       ∧ cx_minimum_version x' = Z.max (cx_minimum_version x) TLSv1_2
       ∧ Z.max (cx_security_level x) 2 = cx_security_level x' ∧ cx_verified_classes x' = true) as He.
  { clear x. intros x x'. unfold enforce_peer_key_policy.
    destruct (cx_verify_required x) eqn:E1, (cx_check_hostname x) eqn:E2; cbn; try done.
    intros Hx. inv_bind. destruct (Z.ltb_spec (cx_security_level x) 2) as [Hl|Hl].
    - match goal with Hs : set_ciphers _ _ = Ok _ |- _ => apply law_set_ciphers in Hs end. deex. cbn in *.
      split_and!; try done; try congruence; lia.
    - inv_bind. cbn in *. split_and!; try done; lia. }
  split_and!; [|apply He|].
  - intros ca certfile keyfile x'. unfold mqtt_context. intros Hx. inv_bind.
    match goal with Hp : enforce_peer_key_policy _ = Ok _ |- _ =>
      destruct (He _ _ Hp) as (_ & _ & ? & ? & ? & ? & ?) end.
    split_and!; try done; lia.
  - unfold enforce_peer_key_policy. by intros [-> | ->]; cbn; rewrite ?orb_true_r.
Qed.
End context_facts.

(** ** Concrete runs *)

(** An OpenSSL whose certificates always load. *)
#[export] Instance plain_openssl : OpenSSL := {
  protocol_tls_client := mkContext true true 769 1 [(&"AES128-SHA", &"TLSv1.2"); (&"TLS_AES_128_GCM_SHA256", &"TLSv1.3")] false;
  load_cert_chain _ _ x := Ok x;
  load_verify_locations _ x := Ok x;
  load_default_certs x := Ok x;
  set_ciphers names x :=
    Ok (mkContext (cx_verify_required x) (cx_check_hostname x) (cx_minimum_version x)
          (if endswith (&"@SECLEVEL=2") names then 2 else cx_security_level x) (cx_ciphers x) (cx_verified_classes x));
}.

Lemma join_snoc c (l : list pystr) (p : pystr) : ∃ s, join c (l ++ [p]) = s ++ p.
Proof.
  induction l as [|q l [s IH]]; [by exists []|]. cbn. destruct (l ++ [p]) as [|r l'] eqn:E.
  - by destruct l.
  - exists (q ++ c :: s). rewrite IH. by rewrite <-app_assoc.
Qed.

#[export] Instance plain_openssl_laws : OpenSSLLaws.
Proof.
  constructor; cbn -[join]; intros; simplify_eq; try done.
  destruct (join_snoc (chr ":") names (&"@SECLEVEL=2")) as [s ->].
  unfold endswith. rewrite !rev_alt, !reverse_app || rewrite rev_app_distr. by rewrite startswith_app.
Qed.

Lemma mqtt_context_enforces_policy_witness :
  ∃ x, mqtt_context None (Some (&"client.pem")) None = Ok x
  ∧ cx_security_level x = 2 ∧ TLSv1_2 ≤ cx_minimum_version x ∧ cx_verified_classes x = true
  ∧ enforce_peer_key_policy (mkContext true false 771 2 [] false) =
      Raise (Exn EValue "TLS context must verify certificates and hostnames").
Proof.
  destruct (mqtt_context_enforces_policy (mkContext true false 771 2 [] false)) as (H1 & _ & H2).
  destruct (mqtt_context None (Some (&"client.pem")) None) as [x|e] eqn:E; [|vm_compute in E; discriminate E].
  destruct (H1 _ _ _ _ E) as (_ & _ & H3 & _ & H5). exists x.
  split; [reflexivity|]. split; [vm_compute in E; injection E as <-; reflexivity|].
  split; [exact H3|]. split; [exact H5|]. apply H2. right. reflexivity.
Defined.

(** Certificates of one byte: a 2048-bit RSA key, a 2047-bit one. *)
Definition demo_keys (der : bytes) : option public_key :=
  match der with
  | [b] => if bool_decide (b = Byte.x01) then Some (RSAKey (2 ^ 2047)) else Some (RSAKey (2 ^ 2047 - 1))
  | _ => None
  end.

Definition demo_framework : NativeCalls :=
  mkNativeCalls (λ _, 1) (λ _, 2) (λ _, 3) (λ _, 4) (λ _, 0) 0 0 0 (λ _ _, 0) (λ _, None) (λ _ _, false) (λ _, 1).
Definition demo_host : platform := mkPlatform (&"linux") (&"x86_64") demo_framework.

(** An Intel Mac whose framework reads every certificate as an RSA key of so many
    bits: 0x10 is its dictionary, 0x20 and 0x30 are the values of its two keys. *)
Definition demo_security (bits : Z) : NativeCalls :=
  mkNativeCalls (λ _, 1) (λ _, 2) (λ _, 3) (λ _, 16) (λ p, p) 16 32 48 (λ _ key, if key =? 5 then 32 else 48) (λ _, Some bits) (λ _ c, c =? 7)
    (λ name, if String.eqb name "kSecAttrKeyType" then 5 else if String.eqb name "kSecAttrKeySizeInBits" then 6
             else if String.eqb name "kSecAttrKeyTypeRSA" then 7 else 8).
Definition demo_mac (bits : Z) : platform := mkPlatform (&"darwin") (&"x86_64") (demo_security bits).

Lemma handshake_requires_strong_chain_witness :
  socket_handshake (Some demo_keys) demo_host (Ok tt) (Some (Some [DerItem [Byte.x01]])) true = (true, Ok tt)
  ∧ fst (socket_handshake (Some demo_keys) demo_host (Ok tt) (Some (Some [DerItem [Byte.x01]; DerItem [Byte.x02]])) true)
    = false
  ∧ socket_handshake None (demo_mac 2048) (Ok tt) (Some (Some [DerItem [Byte.x01]])) true = (true, Ok tt)
  ∧ fst (socket_handshake None (demo_mac 2047) (Ok tt) (Some (Some [DerItem [Byte.x01]])) true) = false.
Proof.
  split.
  - destruct (socket_handshake (Some demo_keys) demo_host (Ok tt) (Some (Some [DerItem [Byte.x01]])) true)
      as [is_open r] eqn:E.
    pose proof (handshake_requires_strong_chain (Some demo_keys) demo_host (Ok tt)
      (Some (Some [DerItem [Byte.x01]]))) as H. rewrite E in H. destruct H as (H1 & H2 & _).
    assert (r = Ok tt) as Hr.
    { apply H1. split; [reflexivity|]. eexists. split; [reflexivity|]. split; [discriminate|].
      intros c Hc. apply list_elem_of_singleton in Hc as ->. exists [Byte.x01]. split; [reflexivity|].
      exists demo_keys, (RSAKey (2 ^ 2047)).
      split; [reflexivity|]. split; [reflexivity|]. apply key_ok_strong. vm_compute. reflexivity. }
    f_equal; [|exact Hr]. apply H2. left. exact Hr.
  - split_and!; vm_compute; reflexivity.
Defined.

Example pem_to_der :
  PEM_cert_to_DER_cert (PEM_HEADER ++ [10%N] ++ &"TWFu" ++ [10%N] ++ &"TQ==" ++ [10%N] ++ PEM_FOOTER ++ [10%N])
  = Ok [Byte.x4d; Byte.x61; Byte.x6e; Byte.x4d].
Proof. vm_compute. reflexivity. Qed.
