(* ===== verification/Auth.v ===== *)
(** * Authentication ([core/auth.py], [login] of [api/__init__.py])

    PyJWT is the class [PyJWT], with its documented behaviour as [PyJWTLaws]:
    what [encode] issues [decode] accepts until its expiry, [decode] enforces the
    required claims and the expiry and reports problems with its own exceptions.
    The clock is an argument: seconds since the epoch, as a rational. *)

From Stdlib Require Import QArith.QArith QArith.Qround.
From S2P Require Import Prelude PyStr PyDict PyVal Passwords Config Topics Models.
#[local] Open Scope Z_scope.

Notation claims := (pydict pystr pyval).

Class PyJWT := {
  jwt_encode : claims → pystr → pystr → outcome pystr;
  jwt_decode : Q → pystr → pystr → list pystr → list pystr → outcome claims;
}.

Definition session_claims (username : pystr) (expire : pyval) : claims :=
  [(&"sub", VStr username); (&"exp", expire)].

Class PyJWTLaws `{PyJWT} := {
  (** HS256 signs any subject and expiry. *)
  law_issue username expire key :
    ∃ token, jwt_encode (session_claims username (VDatetime expire)) key (&"HS256") = Ok token;
  (** A token is accepted while the clock is before its expiry in whole seconds... *)
  law_accept username expire key token now :
    jwt_encode (session_claims username (VDatetime expire)) key (&"HS256") = Ok token →
    (now < inject_Z (Qfloor expire))%Q →
    jwt_decode now token key [&"HS256"] [&"exp"; &"sub"] = Ok (session_claims username (VInt (Qfloor expire)));
  (** ... and refused from then on. *)
  law_expired username expire key token now :
    jwt_encode (session_claims username (VDatetime expire)) key (&"HS256") = Ok token →
    (inject_Z (Qfloor expire) <= now)%Q →
    ∃ text, jwt_decode now token key [&"HS256"] [&"exp"; &"sub"] = Raise (Exn EInvalidToken text);
  law_required now token key algorithms require p k :
    jwt_decode now token key algorithms require = Ok p → k ∈ require → is_Some (dict_get k p);
  law_live now token key algorithms require p v :
    jwt_decode now token key algorithms require = Ok p → dict_get (&"exp") p = Some v →
    ∃ n, py_int v = Ok n ∧ (now < inject_Z n)%Q;
  law_errors now token key algorithms require e :
    jwt_decode now token key algorithms require = Raise e →
    exn_kind e = EInvalidToken ∨ is_value_error (exn_kind e) = true ∨ exn_kind e = EType ∨ exn_kind e = EOverflow;
}.

Record User : Type := mkUser { user_username : pystr; user_scopes : list pystr }.

Definition unauthorized (detail : string) : exn := http_exception 401 detail.

Section auth.
Context `{PyJWT} (settings : Settings).

(** [create_access_token] *)
Definition create_access_token (now : Q) (data : claims) (expires_delta : option Q) : outcome pystr :=
  let expire := match expires_delta with
                | Some delta => (now + delta)%Q
                | None => (now + inject_Z (jwt_access_token_expire_minutes settings * 60))%Q
                end in
  let to_encode := dict_set (&"exp") (VDatetime expire) data in
  jwt_encode to_encode (jwt_secret_key settings) (jwt_algorithm settings).

(** The exceptions [verify_token] turns into [None]. *)
Definition token_error (k : exn_class) : bool :=
  match k with EInvalidToken | EType | EOverflow => true | _ => is_value_error k end.

Definition is_str_list (v : pyval) : bool :=
  match v with VList l => forallb is_str l | _ => false end.

(** [verify_token] *)
Definition verify_token (now : Q) (token : pystr) : outcome (option claims) :=
  catch
    (payload ← jwt_decode now token (jwt_secret_key settings) [jwt_algorithm settings] [&"exp"; &"sub"];
     match dict_get (&"sub") payload with
     | None => Raise (Exn EKey "sub")
     | Some sub =>
       if negb (py_eq sub (VStr (api_username settings))) then Ok None
       else
         let scopes := default (VList []) (dict_get (&"scopes") payload) in
         if negb (is_str_list scopes) then Ok None else Ok (Some payload)
     end)
    token_error (λ _, Ok None).

(** [User(username=payload.get("sub", ""), scopes=payload.get("scopes", []))]:
    pydantic refuses other types. *)
Definition user_of_payload (payload : claims) : outcome User :=
  let username := default (VStr []) (dict_get (&"sub") payload) in
  let scopes := default (VList []) (dict_get (&"scopes") payload) in
  match username, scopes with
  | VStr u, VList l => if forallb is_str l then Ok (mkUser u (str_value <$> l)) else Raise (Exn EValue "validation error")
  | _, _ => Raise (Exn EValue "validation error")
  end.

(** [get_current_user], [get_current_user_optional] *)
Definition get_current_user (now : Q) (credentials : option pystr) : outcome User :=
  match credentials with
  | None => Raise (unauthorized "Not authenticated")
  | Some token =>
    payload ← verify_token now token;
    match payload with
    | None | Some [] => Raise (unauthorized "Invalid token")
    | Some p => user_of_payload p
    end
  end.

Definition get_current_user_optional (now : Q) (credentials : option pystr) : outcome (option User) :=
  match credentials with
  | None => Ok None
  | Some token =>
    payload ← verify_token now token;
    match payload with
    | None | Some [] => Ok None
    | Some p => Some <$> user_of_payload p
    end
  end.

(** [login]: the password is checked whether or not the user name matches. *)
Definition login (pbkdf2_hmac : pystr → bytes → bytes → Z → bytes) (now : Q) (username password : pystr) :
  outcome Token :=
  _ ← check (length_in 1 256 username && length_in 1 1024 password) unprocessable;
  user ← encode username;
  expected ← encode (api_username settings);
  let username_ok := bool_decide (user = expected) in
  password_ok ← verify_password pbkdf2_hmac password (api_password_hash settings);
  if negb (username_ok && password_ok) then Raise (unauthorized "Invalid credentials")
  else
    access_token ← create_access_token now [(&"sub", VStr username)] None;
    Ok (mkToken access_token (&"bearer") (jwt_access_token_expire_minutes settings * 60)).
End auth.

(** ** Theorems *)

Section facts.
Context `{PyJWTLaws} (settings : Settings).
Notation verify := (verify_token settings).

Lemma token_error_of_law e :
  exn_kind e = EInvalidToken ∨ is_value_error (exn_kind e) = true ∨ exn_kind e = EType ∨ exn_kind e = EOverflow →
  token_error (exn_kind e) = true.
Proof. destruct (exn_kind e); cbn; naive_solver. Qed.

(** What an accepted token proves. *)
Lemma verify_token_some now token p :
  verify now token = Ok (Some p) →
  jwt_decode now token (jwt_secret_key settings) [jwt_algorithm settings] [&"exp"; &"sub"] = Ok p
  ∧ dict_get (&"sub") p = Some (VStr (api_username settings))
  ∧ (∃ v n, dict_get (&"exp") p = Some v ∧ py_int v = Ok n ∧ (now < inject_Z n)%Q)
  ∧ (∃ l, default (VList []) (dict_get (&"scopes") p) = VList l ∧ forallb is_str l = true).
Proof.
  unfold verify_token, catch. destruct (jwt_decode _ _ _ _ _) as [p'|e] eqn:E; cbn.
  2: { by destruct (token_error (exn_kind e)). }
  destruct (law_required _ _ _ _ _ _ (&"exp") E) as [v Hv]; [apply list_elem_of_here|].
  destruct (dict_get (&"sub") p') as [sub|] eqn:Es; cbn.
  2: done.
  destruct (py_eq sub _) eqn:Hsub; [|done]. apply py_eq_str in Hsub as ->. cbn.
  destruct (is_str_list _) eqn:Hl; [|done]. cbn. intros [= <-].
  split_and!; [done..| |].
  - destruct (law_live _ _ _ _ _ _ _ E Hv) as (n & H1 & H2). eauto.
  - unfold is_str_list in Hl. destruct (default _ _); try done. eauto.
Qed.

(** [verify_token] always answers: every error of the decoder means [None]. *)
Lemma verify_token_total now token : ∃ r, verify now token = Ok r.
Proof.
  unfold verify_token, catch. destruct (jwt_decode _ _ _ _ _) as [p|e] eqn:E; cbn.
  - destruct (law_required _ _ _ _ _ _ (&"sub") E) as [v ->]; [apply list_elem_of_further, list_elem_of_here|].
    repeat (case_match; cbn; eauto).
  - apply law_errors, token_error_of_law in E. rewrite E. eauto.
Qed.

Lemma user_of_payload_ok p l :
  dict_get (&"sub") p = Some (VStr (api_username settings)) →
  default (VList []) (dict_get (&"scopes") p) = VList l → forallb is_str l = true →
  user_of_payload p = Ok (mkUser (api_username settings) (str_value <$> l)).
Proof. unfold user_of_payload. intros -> -> Hl. cbn. by rewrite Hl. Qed.

(** A request is authenticated only by a token the decoder accepts for the
    configured key and algorithm, whose subject is the configured user and whose
    expiry lies ahead; every other request is refused with HTTP 401, and no other
    exception escapes. *)
Theorem get_current_user_decides now credentials :
  match get_current_user settings now credentials with
  | Ok user =>
    user_username user = api_username settings
    ∧ ∃ token p v n, credentials = Some token
      ∧ jwt_decode now token (jwt_secret_key settings) [jwt_algorithm settings] [&"exp"; &"sub"] = Ok p
      ∧ dict_get (&"exp") p = Some v ∧ py_int v = Ok n ∧ (now < inject_Z n)%Q
  | Raise e => exn_kind e = EHTTP 401
               ∧ ∀ token, credentials = Some token → verify now token = Ok None
  end.
Proof.
  unfold get_current_user. destruct credentials as [token|]; [|done].
  destruct (verify_token_total now token) as [[p|] Hp]; rewrite Hp; cbn; [|by split; [|by intros ? [= <-]]].
  destruct (verify_token_some _ _ _ Hp) as (Hd & Hs & (v & n & Hv & Hn & Hlive) & (l & Hl & Hstr)).
  rewrite (user_of_payload_ok p l) by done. destruct p as [|kv p]; [done|].
  split; [done|]. exists token, (kv :: p), v, n. done.
Qed.

Lemma create_session_token now username :
  jwt_algorithm settings = &"HS256" →
  create_access_token settings now [(&"sub", VStr username)] None =
    jwt_encode (session_claims username
                  (VDatetime (now + inject_Z (jwt_access_token_expire_minutes settings * 60))%Q))
      (jwt_secret_key settings) (&"HS256").
Proof. unfold create_access_token. by intros ->. Qed.

(** C19: logging in succeeds exactly with the configured user name and a password
    that matches the stored verifier, and fails with HTTP 401 otherwise; the
    token it returns authenticates that user until [expires_in] seconds after
    the login, in whole seconds of the clock, and nobody from then on. *)
Theorem login_session kdf now username password verifier_ok
    (Hset : settings_ok settings)
    (Hlen : length_in 1 256 username && length_in 1 1024 password = true)
    (Henc : is_ok (encode username) = true) (Henc' : is_ok (encode (api_username settings)) = true)
    (Hverify : verify_password kdf password (api_password_hash settings) = Ok verifier_ok) :
  if bool_decide (username = api_username settings) && verifier_ok
  then ∃ token,
    login settings kdf now username password =
      Ok (mkToken token (&"bearer") (jwt_access_token_expire_minutes settings * 60))
    ∧ ∀ later,
      let expiry := inject_Z (Qfloor (now + inject_Z (jwt_access_token_expire_minutes settings * 60))) in
      ((later < expiry)%Q → get_current_user settings later (Some token) = Ok (mkUser username []))
      ∧ ((expiry <= later)%Q →
         get_current_user settings later (Some token) = Raise (unauthorized "Invalid token"))
  else login settings kdf now username password = Raise (unauthorized "Invalid credentials").
Proof.
  apply is_ok_true in Henc as [b Hb]. apply is_ok_true in Henc' as [b' Hb'].
  pose proof (algorithm_ok _ Hset) as Halg.
  assert (bool_decide (b = b') = bool_decide (username = api_username settings)) as Heq.
  { apply bool_decide_ext. split; [intros ->; by eapply encode_inj|intros ->; congruence]. }
  unfold login. rewrite Hlen. cbn. rewrite Hb, Hb'. cbn. rewrite Hverify. cbn. rewrite Heq.
  destruct (bool_decide _ && verifier_ok) eqn:Hgo; [|done]. cbn [negb].
  apply andb_true_iff in Hgo as [->%bool_decide_eq_true _].
  rewrite create_session_token by done.
  destruct (law_issue (api_username settings)
    (now + inject_Z (jwt_access_token_expire_minutes settings * 60))%Q (jwt_secret_key settings)) as [token Ht].
  rewrite Ht. cbn. exists token. split; [done|]. intros later. unfold get_current_user, verify_token, catch.
  rewrite Halg. split; intros Hlater.
  - rewrite (law_accept _ _ _ _ _ Ht Hlater). cbn.
    destruct (decide (&"sub" = &"sub")) as [_|]; [|done]. cbn.
    rewrite bool_decide_true by done. cbn. unfold user_of_payload. done.
  - destruct (law_expired _ _ _ _ _ Ht Hlater) as [text ->]. done.
Qed.
End facts.

(** ** A concrete signer

    A token that carries its key and claims in the clear: not a secure signature,
    but one with every law the theorems use. *)

Definition plain_jwt_encode (d : claims) (key algorithm : pystr) : outcome pystr :=
  let stamp v := match v with VDatetime t => VInt (Qfloor t) | _ => v end in
  Ok [Npos (countable.encode (key, prod_map id stamp <$> d))].

Definition live (now : Q) (v : pyval) : bool :=
  match py_int v with Ok n => negb (Qle_bool (inject_Z n) now) | Raise _ => false end.

Definition plain_jwt_decode (now : Q) (token key : pystr) (algorithms require : list pystr) : outcome claims :=
  let refused := Raise (Exn EInvalidToken "refused") in
  match token with
  | [Npos p] =>
    match countable.decode p with
    | Some (k, d) =>
      if bool_decide (k = key) && forallb (λ c, bool_decide (is_Some (dict_get c d))) require
         && match dict_get (&"exp") d with None => true | Some v => live now v end
      then Ok d else refused
    | None => refused
    end
  | _ => refused
  end.

#[export] Instance plain_jwt : PyJWT := { jwt_encode := plain_jwt_encode; jwt_decode := plain_jwt_decode }.

Lemma live_true now v : live now v = true ↔ ∃ n, py_int v = Ok n ∧ (now < inject_Z n)%Q.
Proof.
  unfold live. destruct (py_int v) as [n|e]; [|naive_solver].
  rewrite negb_true_iff, <-not_true_iff_false, Qle_bool_iff.
  split.
  - intros Hn. exists n. split; [done|]. by apply Qnot_le_lt.
  - intros (m & [= <-] & Hm). by apply Qlt_not_le.
Qed.

Lemma plain_jwt_cases now token key algorithms require :
  plain_jwt_decode now token key algorithms require = Raise (Exn EInvalidToken "refused")
  ∨ ∃ d, plain_jwt_decode now token key algorithms require = Ok d
    ∧ (∀ k, k ∈ require → is_Some (dict_get k d))
    ∧ ∀ v, dict_get (&"exp") d = Some v → live now v = true.
Proof.
  unfold plain_jwt_decode. destruct token as [|[|p] [|c token]]; try by left.
  destruct (countable.decode p) as [[k d]|]; [|by left].
  destruct (_ && _) eqn:E; [|by left]. right. exists d. split; [done|]. boolprop.
  destruct E as [[_ Hr] Hl]. rewrite forallb_forall in Hr. split.
  - intros c Hc. specialize (Hr c). rewrite <-list_elem_of_In, bool_decide_eq_true in Hr. auto.
  - intros v Hv. by rewrite Hv in Hl.
Qed.

Lemma plain_jwt_session username expire key token now algorithms :
  plain_jwt_encode (session_claims username (VDatetime expire)) key (&"HS256") = Ok token →
  plain_jwt_decode now token key algorithms [&"exp"; &"sub"] =
    if live now (VInt (Qfloor expire)) then Ok (session_claims username (VInt (Qfloor expire)))
    else Raise (Exn EInvalidToken "refused").
Proof.
  intros [= <-]. unfold plain_jwt_decode. rewrite countable.decode_encode, bool_decide_true by done.
  change (dict_get (&"exp") _) with (Some (VInt (Qfloor expire))).
  change (forallb _ _) with true. done.
Qed.

#[export] Instance plain_jwt_laws : PyJWTLaws.
Proof.
  constructor; cbn -[dict_get py_int plain_jwt_encode plain_jwt_decode].
  - intros. by eexists.
  - intros username expire key token now Ht Hlive. rewrite (plain_jwt_session _ _ _ _ _ _ Ht).
    by rewrite (proj2 (live_true now (VInt (Qfloor expire)))) by (exists (Qfloor expire); done).
  - intros username expire key token now Ht Hdead. rewrite (plain_jwt_session _ _ _ _ _ _ Ht).
    destruct (live now (VInt (Qfloor expire))) eqn:E; [|by eexists].
    apply live_true in E as (n & [= <-] & Hn). exfalso. by apply Qlt_not_le in Hn.
  - intros now token key algorithms require p k.
    destruct (plain_jwt_cases now token key algorithms require) as [-> | (d & -> & Hr & _)]; [done|].
    intros [= <-]. apply Hr.
  - intros now token key algorithms require p v.
    destruct (plain_jwt_cases now token key algorithms require) as [-> | (d & -> & _ & Hl)]; [done|].
    intros [= <-] Hv. by apply live_true, Hl.
  - intros now token key algorithms require e.
    destruct (plain_jwt_cases now token key algorithms require) as [-> | (d & -> & _)]; [|done].
    intros [= <-]. by left.
Qed.

Definition demo_now : Q := inject_Z 1000.

Lemma login_session_witness :
  ∃ token, login demo_acl demo_kdf demo_now (&"gateway") demo_password = Ok (mkToken token (&"bearer") 1800)
  ∧ get_current_user demo_acl (inject_Z 2799) (Some token) = Ok (mkUser (&"gateway") [])
  ∧ get_current_user demo_acl (inject_Z 2800) (Some token) = Raise (unauthorized "Invalid token").
Proof.
  destruct (login_session demo_acl demo_kdf demo_now (&"gateway") demo_password true demo_acl_ok)
    as (token & H1 & H2); [vm_compute; reflexivity..|].
  exists token. split; [exact H1|]. split; apply H2; vm_compute; [reflexivity|discriminate].
Defined.

Lemma get_current_user_decides_witness :
  ∃ e, get_current_user demo_acl demo_now (Some (&"nope")) = Raise e ∧ exn_kind e = EHTTP 401.
Proof.
  pose proof (get_current_user_decides demo_acl demo_now (Some (&"nope"))) as H.
  destruct (get_current_user demo_acl demo_now (Some (&"nope"))) as [u|e] eqn:E; [vm_compute in E; discriminate E|].
  exists e. split; [reflexivity|]. exact (proj1 H).
Defined.
