(* ===== verification/Client.v ===== *)
(** * The MQTT client ([mqtt/client.py])

    [MQTTClient] with its event loop made explicit: [call_soon_threadsafe]
    appends to [c_ready], the queue of callbacks the ASGI loop still has to run.
    paho-mqtt is the class [Paho]; the callbacks registered by the service and
    the WebSocket endpoint act on a world [W] of their own (none of them touches
    the client), so a callback is an identifier interpreted in [M W].

    The network thread and the event loop interleave: [client_step] is the
    transition relation between their atomic sections, the two critical sections
    of [_dispatch_lock] among them. *)

From S2P Require Import Prelude PyStr PyDict Passwords Config Models.
#[local] Open Scope Z_scope.

(** ** paho-mqtt *)

Definition MQTT_ERR_SUCCESS : Z := 0.

Class Paho (P : Type) := {
  paho_new : pystr → P;
  paho_is_connected : P → bool;
  paho_subscribe : P → pystr → Z → P * outcome Z;
  paho_unsubscribe : P → pystr → P * outcome unit;
  paho_publish : P → pystr → bytes → Z → bool → P * outcome (Z * Z);
  paho_username_pw_set : P → pystr → pystr → P;
  paho_tls_set_context : P → P;
  paho_connect_async : P → pystr → Z → Z → P * outcome unit;
  paho_loop_start : P → P;
  paho_loop_stop : P → P * outcome unit;
  paho_disconnect : P → P * outcome unit;
}.

(** ** State *)

(** What [call_soon_threadsafe] schedules. *)
Inductive loop_callback : Type :=
  | LDrain
  | LConnectionChanged (connected : bool)
  | LClearConnected.

#[export] Instance loop_callback_eq_dec : EqDecision loop_callback.
Proof. solve_decision. Defined.

Record MQTTClient (P PCb MCb : Type) : Type := mkClient {
  c_client : option P;
  c_connected : bool;
  c_message_queue : list (pystr * bytes);
  c_event_loop : bool;
  c_pending : list ReceivedMessage;
  c_dispatch_pending : bool;
  c_subscriptions : pydict pystr Z;
  c_message_callbacks : list MCb;
  c_packet_callbacks : list PCb;
  c_shutdown : bool;
  c_ready : list loop_callback;
  c_inflight : list ReceivedMessage;  (* the local [messages] of a running [_drain_messages] *)
}.
Arguments mkClient {P PCb MCb}.
Arguments c_client {P PCb MCb}. Arguments c_connected {P PCb MCb}.
Arguments c_message_queue {P PCb MCb}. Arguments c_event_loop {P PCb MCb}.
Arguments c_pending {P PCb MCb}. Arguments c_dispatch_pending {P PCb MCb}.
Arguments c_subscriptions {P PCb MCb}. Arguments c_message_callbacks {P PCb MCb}.
Arguments c_packet_callbacks {P PCb MCb}. Arguments c_shutdown {P PCb MCb}.
Arguments c_ready {P PCb MCb}. Arguments c_inflight {P PCb MCb}.

Section client.
Context {P PCb MCb W : Type} `{Paho P, EqDecision PCb, EqDecision MCb}.
Context (settings : Settings).
Context (run_packet : PCb → ReceivedMessage → M W unit) (run_message : MCb → pystr → bytes → M W unit).
Notation client := (MQTTClient P PCb MCb).
Implicit Types c : client.

Definition set_client (p : option P) c : client :=
  mkClient p (c_connected c) (c_message_queue c) (c_event_loop c) (c_pending c) (c_dispatch_pending c)
    (c_subscriptions c) (c_message_callbacks c) (c_packet_callbacks c) (c_shutdown c) (c_ready c) (c_inflight c).
Definition set_connected (b : bool) c : client :=
  mkClient (c_client c) b (c_message_queue c) (c_event_loop c) (c_pending c) (c_dispatch_pending c)
    (c_subscriptions c) (c_message_callbacks c) (c_packet_callbacks c) (c_shutdown c) (c_ready c) (c_inflight c).
Definition set_queue (q : list (pystr * bytes)) c : client :=
  mkClient (c_client c) (c_connected c) q (c_event_loop c) (c_pending c) (c_dispatch_pending c)
    (c_subscriptions c) (c_message_callbacks c) (c_packet_callbacks c) (c_shutdown c) (c_ready c) (c_inflight c).
Definition set_event_loop (b : bool) c : client :=
  mkClient (c_client c) (c_connected c) (c_message_queue c) b (c_pending c) (c_dispatch_pending c)
    (c_subscriptions c) (c_message_callbacks c) (c_packet_callbacks c) (c_shutdown c) (c_ready c) (c_inflight c).
Definition set_dispatch (pending : list ReceivedMessage) (flag : bool) (ready : list loop_callback)
    (inflight : list ReceivedMessage) c : client :=
  mkClient (c_client c) (c_connected c) (c_message_queue c) (c_event_loop c) pending flag
    (c_subscriptions c) (c_message_callbacks c) (c_packet_callbacks c) (c_shutdown c) ready inflight.
Definition set_subscriptions (d : pydict pystr Z) c : client :=
  mkClient (c_client c) (c_connected c) (c_message_queue c) (c_event_loop c) (c_pending c) (c_dispatch_pending c)
    d (c_message_callbacks c) (c_packet_callbacks c) (c_shutdown c) (c_ready c) (c_inflight c).
Definition set_callbacks (m : list MCb) (p : list PCb) c : client :=
  mkClient (c_client c) (c_connected c) (c_message_queue c) (c_event_loop c) (c_pending c) (c_dispatch_pending c)
    (c_subscriptions c) m p (c_shutdown c) (c_ready c) (c_inflight c).
Definition set_shutdown (b : bool) c : client :=
  mkClient (c_client c) (c_connected c) (c_message_queue c) (c_event_loop c) (c_pending c) (c_dispatch_pending c)
    (c_subscriptions c) (c_message_callbacks c) (c_packet_callbacks c) b (c_ready c) (c_inflight c).

(** [MQTTClient.__init__] *)
Definition new_client : client := mkClient None false [] false [] false [] [] [] false [] [].

(** [loop.call_soon_threadsafe(f)] *)
Definition call_soon (f : loop_callback) c : client :=
  set_dispatch (c_pending c) (c_dispatch_pending c) (c_ready c ++ [f]) (c_inflight c) c.

(** ** Connection callbacks *)

(** [self._client.subscribe(topic, qos=qos)] of an existing paho client. *)
Definition call_subscribe (topic : pystr) (qos : Z) : M client Z := λ c,
  match c_client c with
  | None => (c, Raise (Exn EOther "'NoneType' object has no attribute 'subscribe'"))
  | Some p => let '(p', r) := paho_subscribe p topic qos in (set_client (Some p') c, r)
  end.

(** [_connection_changed]: a new connection re-subscribes every desired topic. *)
Definition connection_changed (connected : bool) : M client unit :=
  if connected then
    _ ← modify (set_connected true);
    c ← get;
    match c_client c with
    | None => mret tt
    | Some _ => for_each_M (λ '(topic, qos), _ ← call_subscribe topic qos; mret tt) (c_subscriptions c)
    end
  else modify (set_connected false).

(** [_on_connect], [_on_disconnect] *)
Definition on_connect (reason_code : Z) : M client unit := λ c,
  if c_event_loop c then (call_soon (LConnectionChanged (reason_code =? 0)) c, Ok tt)
  else connection_changed (reason_code =? 0) c.

Definition on_disconnect : M client unit := λ c,
  if c_event_loop c then (call_soon LClearConnected c, Ok tt) else (set_connected false c, Ok tt).

(** ** Message dispatch *)

(** [self._message_queue.put_nowait(x)] when the queue is full drops its oldest
    entry first. *)
Definition enqueue {A} (maxsize : Z) (x : A) (q : list A) : list A :=
  if maxsize <=? Z.of_nat (length q) then tail q ++ [x] else q ++ [x].

(** [deque(maxlen=n).append(x)] *)
Definition deque_append {A} (maxlen : Z) (x : A) (q : list A) : list A :=
  if maxlen <=? Z.of_nat (length q) then tail q ++ [x] else q ++ [x].

(** [try: callback(...) except Exception: logger.exception(...)] *)
Definition guarded (m : M W unit) : M W unit := try_except m is_exception (λ _, mret tt).

(** [_deliver_message]: the queue, then the callbacks registered at this moment. *)
Definition deliver_message (msg : ReceivedMessage) : M (client * W) unit := λ '(c, w),
  let c := set_queue (enqueue (mqtt_queue_size settings) (rx_topic msg, rx_payload msg) (c_message_queue c)) c in
  let '(w, r) :=
    (_ ← for_each_M (λ cb, guarded (run_packet cb msg)) (c_packet_callbacks c);
     for_each_M (λ cb, guarded (run_message cb (rx_topic msg) (rx_payload msg))) (c_message_callbacks c)) w in
  ((c, w), r).

(** [_on_message]: oversized payloads are dropped on the network thread. *)
Definition on_message (msg : ReceivedMessage) : M (client * W) unit := λ '(c, w),
  if max_message_bytes settings <? Z.of_nat (length (rx_payload msg)) then ((c, w), Ok tt)
  else if negb (c_event_loop c) then deliver_message msg (c, w)
  else
    let pending := deque_append (mqtt_queue_size settings) msg (c_pending c) in
    let c := set_dispatch pending (c_dispatch_pending c) (c_ready c) (c_inflight c) c in
    if c_dispatch_pending c then ((c, w), Ok tt)
    else ((call_soon LDrain (set_dispatch pending true (c_ready c) (c_inflight c) c), w), Ok tt).

(** The critical section of [_drain_messages]. *)
Definition drain_take c : client := set_dispatch [] false (c_ready c) (c_pending c) c.

(** The loop of [_drain_messages] over its local copy. *)
Definition drain_deliver : M (client * W) unit := λ '(c, w),
  match c_inflight c with
  | [] => ((c, w), Ok tt)
  | msg :: rest =>
    deliver_message msg (set_dispatch (c_pending c) (c_dispatch_pending c) (c_ready c) rest c, w)
  end.

(** ** Callback registration *)

Definition add_message_callback (cb : MCb) c : client :=
  set_callbacks (c_message_callbacks c ++ [cb]) (c_packet_callbacks c) c.
Definition add_packet_callback (cb : PCb) c : client :=
  set_callbacks (c_message_callbacks c) (c_packet_callbacks c ++ [cb]) c.

(** [if callback in l: l.remove(callback)]: the first occurrence. *)
Fixpoint remove_first {A} `{EqDecision A} (x : A) (l : list A) : list A :=
  match l with
  | [] => []
  | y :: l' => if decide (x = y) then l' else y :: remove_first x l'
  end.
Definition remove_message_callback (cb : MCb) c : client :=
  set_callbacks (remove_first cb (c_message_callbacks c)) (c_packet_callbacks c) c.
Definition remove_packet_callback (cb : PCb) c : client :=
  set_callbacks (c_message_callbacks c) (remove_first cb (c_packet_callbacks c)) c.

(** ** Requests *)

Definition not_connected : exn := Exn ERuntime "MQTT client not connected".

Definition is_connected c : bool :=
  match c_client c with
  | None => false
  | Some p => paho_is_connected p && c_connected c
  end.

Definition subscribe (topic : pystr) (qos : Z) : M client unit :=
  c ← get;
  if negb (is_connected c) then raise not_connected
  else
    result ← call_subscribe topic qos;
    if negb (result =? MQTT_ERR_SUCCESS) then raise (Exn ERuntime "MQTT subscription failed")
    else modify (λ c, set_subscriptions (dict_set topic qos (c_subscriptions c)) c).

Definition unsubscribe (topic : pystr) : M client unit :=
  _ ← modify (λ c, set_subscriptions (dict_pop topic (c_subscriptions c)) c);
  c ← get;
  if negb (is_connected c) then mret tt
  else λ c, match c_client c with
            | None => (c, Ok tt)
            | Some p => let '(p', r) := paho_unsubscribe p topic in (set_client (Some p') c, r)
            end.

Definition publish (topic : pystr) (payload : bytes) (qos : Z) (retain : bool) : M client Z :=
  c ← get;
  if negb (is_connected c) then raise not_connected
  else λ c, match c_client c with
            | None => (c, Raise not_connected)
            | Some p =>
              let '(p', r) := paho_publish p topic payload qos retain in
              (set_client (Some p') c,
               '(rc, mid) ← r;
               if negb (rc =? MQTT_ERR_SUCCESS) then Raise (Exn ERuntime "MQTT publish rejected: ")
               else Ok mid)
            end.

(** [get_message] when the queue is not empty, [message_queue_empty]. *)
Definition get_message : M client (option (pystr * bytes)) := λ c,
  match c_message_queue c with
  | [] => (c, Ok None)
  | x :: q => (set_queue q c, Ok (Some x))
  end.
Definition message_queue_empty c : bool := bool_decide (c_message_queue c = []).

(** ** Connecting

    [connect] up to [await asyncio.wait_for(...)]: [true] when a wait follows.
    [tls] is the outcome of building the TLS context. *)
Definition connect_begin (tls : outcome unit) : M client bool := λ c,
  if match c_client c with Some p => paho_is_connected p | None => false end then (c, Ok false)
  else
    let c := set_event_loop true c in
    let p := paho_new (mqtt_client_id settings) in
    let p := if bool_decide (mqtt_username settings = []) then p
             else paho_username_pw_set p (mqtt_username settings) (mqtt_password settings) in
    match (if mqtt_use_tls settings then tls else Ok tt) with
    | Raise e => (set_client (Some p) c, Raise e)
    | Ok _ =>
      let p := if mqtt_use_tls settings then paho_tls_set_context p else p in
      let '(p, r) := paho_connect_async p (mqtt_broker_host settings) (mqtt_broker_port settings)
                       (mqtt_keepalive settings) in
      match r with
      | Raise e => (set_client (Some p) c, Raise e)
      | Ok _ => (set_client (Some (paho_loop_start p)) c, Ok true)
      end
    end.

(** The end of the wait: the event was set within ten seconds, or not. *)
Definition connect_end (in_time : bool) : M client unit :=
  if in_time then mret tt else raise (Exn ETimeout "").

(** [disconnect]; [cancelled] when the task is cancelled while the network
    thread stops. *)
Definition disconnect (cancelled : bool) : M client unit :=
  _ ← modify (set_shutdown true);
  c ← get;
  match c_client c with
  | None => mret tt
  | Some _ =>
    let on_paho (f : P → P * outcome unit) : M client unit := λ c,
      match c_client c with
      | None => (c, Ok tt)
      | Some p => let '(p', r) := f p in (set_client (Some p') c, r)
      end in
    try_finally
      (_ ← on_paho paho_loop_stop;
       if cancelled then raise (Exn ECancelled "") else mret tt)
      (try_finally (on_paho paho_disconnect) (modify (set_connected false)))
  end.

(** ** Interleaving of the network thread and the event loop *)

Inductive client_event : Type :=
  | NetMessage (msg : ReceivedMessage)
  | NetConnect (reason_code : Z)
  | NetDisconnect
  | LoopRun (f : loop_callback)
  | LoopDeliver (msg : ReceivedMessage).

(** The event loop runs one callback at a time: while a drain still has
    messages to deliver, no other callback starts.  The network thread may act
    between any two steps. *)
Inductive client_step : client * W → client_event → client * W → Prop :=
  | step_message c w msg s' r :
      on_message msg (c, w) = (s', r) → client_step (c, w) (NetMessage msg) s'
  | step_connect c w rc c' r :
      on_connect rc c = (c', r) → client_step (c, w) (NetConnect rc) (c', w)
  | step_disconnect c w c' r :
      on_disconnect c = (c', r) → client_step (c, w) NetDisconnect (c', w)
  | step_drain c w ready :
      c_inflight c = [] → c_ready c = LDrain :: ready →
      client_step (c, w) (LoopRun LDrain)
        (drain_take (set_dispatch (c_pending c) (c_dispatch_pending c) ready [] c), w)
  | step_changed c w ready b c' r :
      c_inflight c = [] → c_ready c = LConnectionChanged b :: ready →
      connection_changed b (set_dispatch (c_pending c) (c_dispatch_pending c) ready [] c) = (c', r) →
      client_step (c, w) (LoopRun (LConnectionChanged b)) (c', w)
  | step_clear c w ready :
      c_inflight c = [] → c_ready c = LClearConnected :: ready →
      client_step (c, w) (LoopRun LClearConnected)
        (set_connected false (set_dispatch (c_pending c) (c_dispatch_pending c) ready [] c), w)
  | step_deliver c w msg rest s' r :
      c_inflight c = msg :: rest → drain_deliver (c, w) = (s', r) →
      client_step (c, w) (LoopDeliver msg) s'.
End client.
