(* ===== verification/ClientFacts.v ===== *)
(** * Theorems about the MQTT client

    The dispatch invariant (bounded buffers, exactly one scheduled drain while
    messages are pending), the order of deliveries across every interleaving of
    the network thread and the event loop, and the behaviour of delivery,
    reconnection and disconnection. *)

From S2P Require Import Prelude PyStr PyDict Passwords Config Topics Models Client.
#[local] Open Scope Z_scope.

(** ** Bounded queues *)

Lemma enqueue_length {A} n (x : A) q :
  1 ≤ n → Z.of_nat (length q) ≤ n → Z.of_nat (length (enqueue n x q)) ≤ n.
Proof.
  intros Hn Hq. unfold enqueue. destruct (Z.leb_spec n (Z.of_nat (length q))); rewrite length_app; cbn.
  - destruct q; cbn in *; lia.
  - lia.
Qed.

Lemma enqueue_sublist {A} n (x : A) q : sublist (enqueue n x q) (q ++ [x]).
Proof.
  unfold enqueue. destruct (_ <=? _); [|done].
  apply sublist_app; [|done]. destruct q; [done|]. by apply sublist_cons.
Qed.

(** A full queue loses exactly its oldest entry, an unfilled one nothing. *)
Lemma enqueue_keeps_newest {A} n (x : A) q :
  1 ≤ n → Z.of_nat (length q) ≤ n →
  enqueue n x q = drop (Z.to_nat (Z.of_nat (length q) + 1 - n)) (q ++ [x]).
Proof.
  intros Hn Hq. unfold enqueue. destruct (Z.leb_spec n (Z.of_nat (length q))).
  - replace (Z.to_nat _) with 1%nat by lia. destruct q; [cbn in *; lia | done].
  - by replace (Z.to_nat _) with 0%nat by lia.
Qed.

#[local] Arguments deliver_message : simpl never.
#[local] Arguments drain_deliver : simpl never.
#[local] Arguments on_message : simpl never.

Section facts.
Context {P PCb MCb W : Type} `{Paho P, EqDecision PCb, EqDecision MCb}.
Context (settings : Settings).
Context (run_packet : PCb → ReceivedMessage → M W unit) (run_message : MCb → pystr → bytes → M W unit).
Notation client := (MQTTClient P PCb MCb).
Notation step := (client_step settings run_packet run_message).
Notation deliver := (deliver_message settings run_packet run_message).
Implicit Types c : client.

(** ** Frames *)

(** [c'] differs from [c] in paho's state and the connected flag only. *)
Record only_connection c c' : Prop := {
  oc_queue : c_message_queue c' = c_message_queue c;
  oc_loop : c_event_loop c' = c_event_loop c;
  oc_pending : c_pending c' = c_pending c;
  oc_flag : c_dispatch_pending c' = c_dispatch_pending c;
  oc_subs : c_subscriptions c' = c_subscriptions c;
  oc_mcbs : c_message_callbacks c' = c_message_callbacks c;
  oc_pcbs : c_packet_callbacks c' = c_packet_callbacks c;
  oc_ready : c_ready c' = c_ready c;
  oc_inflight : c_inflight c' = c_inflight c;
}.

Lemma only_connection_refl c : only_connection c c.
Proof. by constructor. Qed.

Lemma only_connection_trans c1 c2 c3 :
  only_connection c1 c2 → only_connection c2 c3 → only_connection c1 c3.
Proof. intros [] []. constructor; congruence. Qed.

Lemma call_subscribe_frame t q c c' r : call_subscribe t q c = (c', r) → only_connection c c'.
Proof.
  unfold call_subscribe. destruct (c_client c) as [p|]; [destruct (paho_subscribe p t q)|];
    intros [= <- _]; by constructor.
Qed.

Lemma for_each_M_frame {S A} (R : S → S → Prop) (f : A → M S unit) l s s' r :
  (∀ s, R s s) → (∀ s1 s2 s3, R s1 s2 → R s2 s3 → R s1 s3) →
  (∀ x s s' r, f x s = (s', r) → R s s') →
  for_each_M f l s = (s', r) → R s s'.
Proof.
  intros Hrefl Htrans Hf. revert s. induction l as [|x l IH]; intros s; cbn.
  { by intros [= <- _]. }
  unfold mbind, M_bind. destruct (f x s) as [s1 [a|e]] eqn:E.
  - intros Hl. eapply Htrans; [by eapply Hf | by eapply IH].
  - intros [= <- _]. by eapply Hf.
Qed.

Lemma connection_changed_frame b c c' r :
  connection_changed b c = (c', r) → only_connection c c' ∧ c_connected c' = b ∨ only_connection c c' ∧ b = true.
Proof.
  unfold connection_changed. destruct b; run_M.
  - destruct (c_client c).
    + intros Hf. right. split; [|done].
      eapply only_connection_trans; [|eapply (for_each_M_frame only_connection);
        [apply only_connection_refl | by apply only_connection_trans | | exact Hf]].
      * by constructor.
      * intros [t q] s s' r'. cbn. unfold mbind, M_bind.
        destruct (call_subscribe t q s) as [s1 [a|e]] eqn:E; intros [= <- _];
          by eapply call_subscribe_frame.
    + intros [= <- _]. right. by split; constructor.
  - intros [= <- _]. left. by split; constructor.
Qed.

(** ** Delivery *)

(** The effects of the callbacks on the world, one after the other: a callback
    that raises keeps the effects it had. *)
Definition callback_effects (msg : ReceivedMessage) (pcbs : list PCb) (mcbs : list MCb) (w : W) : W :=
  fold_left (λ w cb, fst (run_message cb (rx_topic msg) (rx_payload msg) w)) mcbs
    (fold_left (λ w cb, fst (run_packet cb msg w)) pcbs w).

(** Callbacks raise ordinary exceptions only (none cancels the event loop). *)
Definition callbacks_ordinary : Prop :=
  (∀ cb msg w w' e, run_packet cb msg w = (w', Raise e) → is_exception (exn_kind e) = true)
  ∧ (∀ cb t b w w' e, run_message cb t b w = (w', Raise e) → is_exception (exn_kind e) = true).

Lemma guarded_ok (m : M W unit) w :
  (∀ w' e, m w = (w', Raise e) → is_exception (exn_kind e) = true) → guarded m w = (fst (m w), Ok tt).
Proof.
  intros Hm. unfold guarded, try_except. destruct (m w) as [w' [[]|e]] eqn:E; [done|].
  by rewrite (Hm w' e eq_refl).
Qed.

Lemma for_each_guarded {A} (f : A → M W unit) l w :
  (∀ x w w' e, f x w = (w', Raise e) → is_exception (exn_kind e) = true) →
  for_each_M (λ x, guarded (f x)) l w = (fold_left (λ w x, fst (f x w)) l w, Ok tt).
Proof.
  intros Hf. revert w. induction l as [|x l IH]; intros w; [done|].
  cbn [for_each_M fold_left]. unfold mbind, M_bind. rewrite guarded_ok by eauto. apply IH.
Qed.

Lemma deliver_message_eq msg c w :
  callbacks_ordinary →
  deliver msg (c, w) =
    ((set_queue (enqueue (mqtt_queue_size settings) (rx_topic msg, rx_payload msg) (c_message_queue c)) c,
      callback_effects msg (c_packet_callbacks c) (c_message_callbacks c) w), Ok tt).
Proof.
  intros [Hp Hm]. unfold deliver_message. cbn [set_queue c_packet_callbacks c_message_callbacks].
  unfold mbind, M_bind. rewrite for_each_guarded by eauto. by rewrite for_each_guarded by eauto.
Qed.

(** Whatever the callbacks do, a delivery changes the client's queue only. *)
Lemma deliver_message_frame msg c w c' w' r :
  deliver msg (c, w) = ((c', w'), r) →
  c' = set_queue (enqueue (mqtt_queue_size settings) (rx_topic msg, rx_payload msg) (c_message_queue c)) c.
Proof.
  unfold deliver_message. run_M. destruct (for_each_M _ _ w) as [w1 [a|e]]; [|by intros [= <- _ _]].
  destruct (for_each_M _ _ w1) as [w2 r2]. by intros [= <- _ _].
Qed.

(** ** The dispatch invariant *)

Definition drains (l : list loop_callback) : nat := length (filter (λ f, f = LDrain) l).
#[local] Arguments drains : simpl never.

Record dispatch_ok c : Prop := {
  d_loop : c_event_loop c = true;
  d_pending : Z.of_nat (length (c_pending c)) ≤ mqtt_queue_size settings;
  d_queue : Z.of_nat (length (c_message_queue c)) ≤ mqtt_queue_size settings;
  d_inflight : Z.of_nat (length (c_inflight c)) ≤ mqtt_queue_size settings;
  d_one_drain : drains (c_ready c) = if c_dispatch_pending c then 1%nat else 0%nat;
  d_scheduled : c_pending c ≠ [] → c_dispatch_pending c = true;
}.

Lemma drains_app l1 l2 : drains (l1 ++ l2) = (drains l1 + drains l2)%nat.
Proof. unfold drains. by rewrite filter_app, length_app. Qed.

Lemma drains_drain l : drains (LDrain :: l) = S (drains l).
Proof. unfold drains. by rewrite filter_cons_True. Qed.

Lemma drains_other f l : f ≠ LDrain → drains (f :: l) = drains l.
Proof. intros. unfold drains. by rewrite filter_cons_False. Qed.

Lemma dispatch_ok_connection c c' : dispatch_ok c → only_connection c c' → dispatch_ok c'.
Proof.
  intros [] Hoc. constructor;
    rewrite ?(oc_loop _ _ Hoc), ?(oc_pending _ _ Hoc), ?(oc_queue _ _ Hoc), ?(oc_inflight _ _ Hoc),
      ?(oc_ready _ _ Hoc), ?(oc_flag _ _ Hoc); done.
Qed.

Lemma dispatch_ok_deliver msg c w c' w' r :
  1 ≤ mqtt_queue_size settings → dispatch_ok c → deliver msg (c, w) = ((c', w'), r) → dispatch_ok c'.
Proof.
  intros Hn [] ->%deliver_message_frame. constructor; cbn; try done. by apply enqueue_length.
Qed.

Lemma dispatch_ok_message msg c w c' w' r :
  1 ≤ mqtt_queue_size settings → dispatch_ok c →
  on_message settings run_packet run_message msg (c, w) = ((c', w'), r) → dispatch_ok c'.
Proof.
  intros Hn Hc. pose proof Hc as [Hl Hp Hq Hi Hd Hs]. unfold on_message.
  destruct (_ <? _); [by intros [= <- _ _]|]. clear Hc. rewrite Hl. cbn [negb].
  destruct (c_dispatch_pending c) eqn:Hf; cbn; rewrite ?Hf; intros [= <- _ _];
    constructor; cbn; rewrite ?Hf; try done; try by apply enqueue_length.
  rewrite drains_app, Hd. done.
Qed.

Lemma dispatch_ok_step s l s' :
  1 ≤ mqtt_queue_size settings → dispatch_ok (fst s) → step s l s' → dispatch_ok (fst s').
Proof.
  intros Hn Hc Hstep. destruct Hstep as [c w msg [c' w'] r E|c w rc c' r E|c w c' r E|c w ready Hi E
    |c w ready b c' r Hi E Hb|c w ready Hi E|c w msg rest [c' w'] r Hi E]; cbn in *.
  - by eapply dispatch_ok_message.
  - unfold on_connect in E. destruct Hc. rewrite d_loop0 in E. injection E as <- _.
    constructor; cbn; try done. rewrite drains_app, drains_other by done. by rewrite Nat.add_0_r.
  - unfold on_disconnect in E. destruct Hc. rewrite d_loop0 in E. injection E as <- _.
    constructor; cbn; try done. rewrite drains_app, drains_other by done. by rewrite Nat.add_0_r.
  - destruct Hc. rewrite E, drains_drain in d_one_drain0.
    constructor; cbn; try done; destruct (c_dispatch_pending c); lia.
  - eapply dispatch_ok_connection; [|destruct (connection_changed_frame _ _ _ _ Hb) as [[? _]|[? _]]; done].
    destruct Hc. rewrite E, drains_other in d_one_drain0 by done. constructor; cbn; try done. lia.
  - destruct Hc. rewrite E, drains_other in d_one_drain0 by done. constructor; cbn; try done. lia.
  - unfold drain_deliver in E. rewrite Hi in E. eapply dispatch_ok_deliver; [done| |exact E].
    destruct Hc. rewrite Hi in d_inflight0. cbn in d_inflight0. constructor; cbn; try done. lia.
Qed.

(** C20: for every interleaving of the network thread and the event loop, the
    pending deque, the messages being drained and the message queue hold at most
    [MQTT_QUEUE_SIZE] entries, at most one drain is scheduled, and pending
    messages always have a scheduled drain: no wake-up is lost, so an idle loop
    has nothing left to deliver. *)
Theorem dispatch_invariant c w ls c' w' (Hs : settings_ok settings) (Hc : dispatch_ok c)
    (Hrun : steps step (c, w) ls (c', w')) :
  dispatch_ok c'
  ∧ (drains (c_ready c') ≤ 1)%nat
  ∧ (c_pending c' ≠ [] → LDrain ∈ c_ready c')
  ∧ (c_ready c' = [] → c_pending c' = []).
Proof.
  pose proof (mqtt_queue_ok _ Hs) as Hn.
  assert (dispatch_ok c') as Hc'.
  { refine (steps_invariant step (λ s, dispatch_ok (fst s)) (c, w) ls (c', w') _ Hc Hrun).
    intros s1 l s2 H1 Hs2. eapply dispatch_ok_step; eauto. lia. }
  split; [done|]. destruct Hc' as [_ _ _ _ Hd Hp].
  assert (c_pending c' ≠ [] → LDrain ∈ c_ready c') as Hin.
  { intros Hne. rewrite (Hp Hne) in Hd. unfold drains in Hd.
    destruct (filter _ (c_ready c')) as [|f l] eqn:E; [done|].
    assert (f ∈ filter (λ f, f = LDrain) (c_ready c')) as Hf by (rewrite E; apply list_elem_of_here).
    apply list_elem_of_filter in Hf as [-> ?]. done. }
  split_and!; [destruct (c_dispatch_pending c'); lia|done|].
  intros Hr. destruct (c_pending c'); [done|]. rewrite Hr in Hin. by apply elem_of_nil in Hin.
Qed.

(** ** The order of deliveries *)

(** The messages the network thread accepted, and those delivered, in order. *)
Definition accepted (ls : list client_event) : list ReceivedMessage :=
  omap (λ l, match l with
             | NetMessage m =>
               if max_message_bytes settings <? Z.of_nat (length (rx_payload m)) then None else Some m
             | _ => None
             end) ls.
Definition delivered (ls : list client_event) : list ReceivedMessage :=
  omap (λ l, match l with LoopDeliver m => Some m | _ => None end) ls.

Lemma sublist_app_mid {A} (k l1 l2 : list A) : sublist l1 l2 → sublist (k ++ l1) (k ++ l2).
Proof. intros. by apply sublist_app. Qed.

Lemma step_order s l s' :
  c_event_loop (fst s) = true → step s l s' →
  sublist (delivered [l] ++ c_inflight (fst s') ++ c_pending (fst s'))
          (c_inflight (fst s) ++ c_pending (fst s) ++ accepted [l])
  ∧ c_event_loop (fst s') = true.
Proof.
  intros Hl Hstep. destruct Hstep as [c w msg [c' w'] r E|c w rc c' r E|c w c' r E|c w ready Hi E
    |c w ready b c' r Hi E Hb|c w ready Hi E|c w msg rest [c' w'] r Hi E]; cbn in *; rewrite ?app_nil_r.
  - unfold on_message in E. destruct (_ <? _); cbn.
    { injection E as <- _ _. by rewrite app_nil_r. }
    rewrite Hl in E. cbn in E.
    destruct (c_dispatch_pending c) eqn:Hf; cbn in E; rewrite ?Hf in E; injection E as <- _ _; cbn;
      (split; [|done]); apply sublist_app_mid, enqueue_sublist.
  - unfold on_connect in E. rewrite Hl in E. injection E as <- _. by cbn.
  - unfold on_disconnect in E. rewrite Hl in E. injection E as <- _. by cbn.
  - by rewrite Hi.
  - assert (only_connection (set_dispatch (c_pending c) (c_dispatch_pending c) ready [] c) c') as Hoc
      by (destruct (connection_changed_frame _ _ _ _ Hb) as [[? _]|[? _]]; done).
    rewrite (oc_inflight _ _ Hoc), (oc_pending _ _ Hoc), (oc_loop _ _ Hoc). cbn. by rewrite Hi.
  - by rewrite Hi.
  - unfold drain_deliver in E. rewrite Hi in E. apply deliver_message_frame in E as ->. by rewrite Hi.
Qed.

Lemma accepted_cons l ls : accepted (l :: ls) = accepted [l] ++ accepted ls.
Proof. unfold accepted. by rewrite <-omap_app. Qed.

Lemma delivered_cons l ls : delivered (l :: ls) = delivered [l] ++ delivered ls.
Proof. unfold delivered. by rewrite <-omap_app. Qed.

(** messages are delivered in the order they arrived and at most once, over
    every interleaving: what has been delivered, then what is being drained,
    then what is pending, is a subsequence of what was outstanding at the start
    followed by the accepted packets. *)
Theorem deliveries_in_order c w ls c' w' (Hl : c_event_loop c = true)
    (Hrun : steps step (c, w) ls (c', w')) :
  sublist (delivered ls ++ c_inflight c' ++ c_pending c')
          (c_inflight c ++ c_pending c ++ accepted ls).
Proof.
  remember (c, w) as s eqn:Es. remember (c', w') as s' eqn:Es'.
  change (sublist (delivered ls ++ c_inflight (fst (c', w')) ++ c_pending (fst (c', w')))
            (c_inflight (fst (c, w)) ++ c_pending (fst (c, w)) ++ accepted ls)).
  change (c_event_loop (fst (c, w)) = true) in Hl. rewrite <-Es in *. rewrite <-Es' in *. clear Es Es'.
  induction Hrun as [s|s1 l s2 ls s3 Hstep Hrun IH]; [by rewrite app_nil_r|].
  destruct (step_order _ _ _ Hl Hstep) as [Hsub Hl2]. specialize (IH Hl2).
  rewrite delivered_cons, accepted_cons, <-!app_assoc.
  etrans; [apply sublist_app_mid, IH|]. rewrite !app_assoc. apply sublist_app; [|done].
  by rewrite <-!app_assoc.
Qed.

(** Delivery isolates its consumers.  Whatever ordinary exceptions callbacks
    raise, [_deliver_message] returns normally, every registered callback has
    run exactly once in registration order (packet callbacks first), and the
    message queue has kept its newest [MQTT_QUEUE_SIZE] messages, this one last. *)
Theorem deliver_message_isolates msg c w (Hs : settings_ok settings)
    (Hcb : callbacks_ordinary)
    (Hq : Z.of_nat (length (c_message_queue c)) ≤ mqtt_queue_size settings) :
  ∃ q, deliver msg (c, w) =
         ((set_queue q c, callback_effects msg (c_packet_callbacks c) (c_message_callbacks c) w), Ok tt)
  ∧ q = drop (Z.to_nat (Z.of_nat (length (c_message_queue c)) + 1 - mqtt_queue_size settings))
             (c_message_queue c ++ [(rx_topic msg, rx_payload msg)])
  ∧ Z.of_nat (length q) ≤ mqtt_queue_size settings
  ∧ last q = Some (rx_topic msg, rx_payload msg).
Proof.
  pose proof (mqtt_queue_ok _ Hs) as Hn.
  rewrite deliver_message_eq by done. eexists. split; [done|].
  rewrite <-(enqueue_keeps_newest _ _ (c_message_queue c)) by (done || lia).
  split_and!; [done|apply enqueue_length; [lia|done]|].
  unfold enqueue. destruct (_ <=? _); apply last_snoc.
Qed.

(** ** Connection state *)

Lemma is_connected_true c :
  is_connected c = true ↔ ∃ p, c_client c = Some p ∧ paho_is_connected p = true ∧ c_connected c = true.
Proof.
  unfold is_connected. destruct (c_client c) as [p|]; [|split; [done|by intros (? & ? & _)]].
  rewrite andb_true_iff. naive_solver.
Qed.

Lemma disconnect_spec cancelled c :
  let '(c', r) := disconnect cancelled c in
  c_shutdown c' = true ∧ is_connected c' = false
  ∧ c_subscriptions c' = c_subscriptions c ∧ c_packet_callbacks c' = c_packet_callbacks c
  ∧ (cancelled = true → c_client c ≠ None → ∃ e, r = Raise e).
Proof.
  unfold disconnect, try_finally. run_M.
  destruct (c_client c) as [p|] eqn:Ep.
  2: { split_and!; try done. unfold is_connected. cbn. by rewrite Ep. }
  cbn. rewrite Ep. destruct (paho_loop_stop p) as [p1 [[]|e1]]; cbn; [destruct cancelled; cbn|];
    destruct (paho_disconnect p1) as [p2 [[]|e2]]; cbn;
    (split_and!; [done| |done|done|by eauto]);
    unfold is_connected; cbn; by destruct (paho_is_connected p2).
Qed.

(** After [disconnect], however it ends (a cancelled task, a paho call that
    raises), the client reports itself disconnected, so every later publish and
    subscribe is refused, and the desired subscriptions are unchanged. *)
Theorem disconnect_always_disconnects cancelled c c' r
    (Hd : disconnect cancelled c = (c', r)) :
  c_shutdown c' = true ∧ is_connected c' = false
  ∧ c_subscriptions c' = c_subscriptions c
  ∧ (∀ t q, snd (subscribe t q c') = Raise not_connected)
  ∧ (∀ t b q retain, snd (publish t b q retain c') = Raise not_connected)
  ∧ (cancelled = true → c_client c ≠ None → ∃ e, r = Raise e).
Proof.
  pose proof (disconnect_spec cancelled c) as H'. rewrite Hd in H'. destruct H' as (H1 & H2 & H3 & _ & H4).
  split_and!; try done; intros; [unfold subscribe|unfold publish]; unfold mbind, M_bind, get; by rewrite H2.
Qed.

(** What a reconnection asks of paho: one SUBSCRIBE per desired topic, in the
    order they were first subscribed. *)
Fixpoint resubscribe (p : P) (subs : pydict pystr Z) : P * outcome unit :=
  match subs with
  | [] => (p, Ok tt)
  | (t, q) :: rest =>
    match paho_subscribe p t q with
    | (p', Ok _) => resubscribe p' rest
    | (p', Raise e) => (p', Raise e)
    end
  end.

Lemma for_each_subscribe p c subs :
  c_client c = Some p →
  for_each_M (λ '(topic, qos), _ ← call_subscribe topic qos; mret tt) subs c =
    (set_client (Some (fst (resubscribe p subs))) c, snd (resubscribe p subs)).
Proof.
  revert p c. induction subs as [|[t q] subs IH]; intros p c Hp; cbn.
  - destruct c; cbn in *. by subst.
  - run_M. unfold call_subscribe. rewrite Hp.
    destruct (paho_subscribe p t q) as [p' [rc|e]]; cbn; [|done].
    rewrite (IH p') by done. by destruct c.
Qed.

(** A (re)connection marks the client connected and re-subscribes exactly the
    desired topics with their effective QoS, in order; a failed connection or a
    disconnection clears the flag and subscribes nothing. *)
Theorem connection_changed_resubscribes c :
  connection_changed false c = (set_connected false c, Ok tt)
  ∧ connection_changed true c =
      match c_client c with
      | None => (set_connected true c, Ok tt)
      | Some p => (set_client (Some (fst (resubscribe p (c_subscriptions c)))) (set_connected true c),
                   snd (resubscribe p (c_subscriptions c)))
      end.
Proof.
  split; [done|]. unfold connection_changed. run_M. destruct (c_client c) as [p|] eqn:Hp; [|done].
  exact (for_each_subscribe p (set_connected true c) (c_subscriptions c) Hp).
Qed.

(** the size limit is enforced on the network thread: a packet larger than
    [MAX_MESSAGE_BYTES] changes neither the client nor the world, and one within
    the limit, once the event loop runs, is pending with exactly one drain
    scheduled. *)
Theorem on_message_limits msg c w (Hs : settings_ok settings) (Hc : dispatch_ok c) :
  let r := on_message settings run_packet run_message msg (c, w) in
  (max_message_bytes settings < Z.of_nat (length (rx_payload msg)) → r = ((c, w), Ok tt))
  ∧ (Z.of_nat (length (rx_payload msg)) ≤ max_message_bytes settings →
     ∃ c', r = ((c', w), Ok tt) ∧ last (c_pending c') = Some msg ∧ drains (c_ready c') = 1%nat
           ∧ Z.of_nat (length (c_pending c')) ≤ mqtt_queue_size settings).
Proof.
  pose proof (mqtt_queue_ok _ Hs) as Hn. unfold on_message. split; intros Hlen.
  - by rewrite (proj2 (Z.ltb_lt _ _)).
  - rewrite (proj2 (Z.ltb_ge _ _)) by done. destruct Hc. rewrite d_loop0. cbn [negb].
    assert (Z.of_nat (length (deque_append (mqtt_queue_size settings) msg (c_pending c)))
            ≤ mqtt_queue_size settings) as Hlen' by (apply enqueue_length; [lia|done]).
    assert (last (deque_append (mqtt_queue_size settings) msg (c_pending c)) = Some msg) as Hlast
      by (unfold deque_append; destruct (_ <=? _); apply last_snoc).
    destruct (c_dispatch_pending c) eqn:Hf; cbn; rewrite ?Hf; eexists; (split; [done|]); cbn;
      (split_and!; [done| |done]); [done|].
    rewrite drains_app, d_one_drain0. done.
Qed.
End facts.
