(* ===== verification/Interface.v ===== *)
(** * What the service needs from its MQTT client

    [MQTTService] and the WebSocket endpoint use the client through five
    methods.  [MessageClient] names them, [MessageClientLaws] states what the
    client promises about the topics it will (re)subscribe and the callbacks it
    dispatches to.  The service is proved against this interface; the client of
    [Client.v] is shown to implement it in [ClientImpl.v]. *)

From S2P Require Import Prelude PyStr PyDict Models.

(** The packet callbacks of the program: [MQTTService.handle_message], the
    [receive] of a retained query and the [ws_callback] of a WebSocket session,
    the last two named by the owner string of the task that registered them. *)
Inductive packet_callback : Type :=
  | HandleMessage
  | RetainedReceive (owner : pystr)
  | WsCallback (owner : pystr).

#[export] Instance packet_callback_eq_dec : EqDecision packet_callback.
Proof. solve_decision. Defined.

Class MessageClient (C : Type) := {
  cl_subscribe : pystr → Z → M C unit;
  cl_unsubscribe : pystr → M C unit;
  cl_publish : pystr → bytes → Z → bool → M C Z;
  cl_add_callback : packet_callback → C → C;
  cl_remove_callback : packet_callback → C → C;
  (** the topics the client subscribes again on reconnection, and their QoS *)
  cl_desired : C → gmap pystr Z;
  cl_callbacks : C → list packet_callback;
  cl_ok : C → Prop;
}.

(** The state after a call, whatever its outcome. *)
Notation after m s := (fst (m s)).

Class MessageClientLaws (C : Type) `{MessageClient C} := {
  law_subscribe_ok t q c c' u :
    cl_ok c → cl_subscribe t q c = (c', Ok u) → cl_desired c' = <[t:=q]> (cl_desired c);
  law_subscribe_err t q c c' e :
    cl_ok c → cl_subscribe t q c = (c', Raise e) → cl_desired c' = cl_desired c;
  law_unsubscribe t c :
    cl_ok c → cl_desired (after (cl_unsubscribe t) c) = delete t (cl_desired c);
  law_publish t b q r c :
    cl_ok c → cl_desired (after (cl_publish t b q r) c) = cl_desired c;
  law_add cb c : cl_desired (cl_add_callback cb c) = cl_desired c;
  law_remove cb c : cl_desired (cl_remove_callback cb c) = cl_desired c;
  law_callbacks_add cb c : cl_callbacks (cl_add_callback cb c) = cl_callbacks c ++ [cb];
  law_callbacks_remove cb c :
    ∃ l1 l2, cl_callbacks c = l1 ++ l2
      ∧ ((cb ∉ cl_callbacks c ∧ cl_callbacks (cl_remove_callback cb c) = cl_callbacks c)
         ∨ (∃ l3, l2 = cb :: l3 ∧ cb ∉ l1 ∧ cl_callbacks (cl_remove_callback cb c) = l1 ++ l3));
  law_callbacks_subscribe t q c : cl_callbacks (after (cl_subscribe t q) c) = cl_callbacks c;
  law_callbacks_unsubscribe t c : cl_callbacks (after (cl_unsubscribe t) c) = cl_callbacks c;
  law_callbacks_publish t b q r c : cl_callbacks (after (cl_publish t b q r) c) = cl_callbacks c;
  law_ok_subscribe t q c : cl_ok c → cl_ok (after (cl_subscribe t q) c);
  law_ok_unsubscribe t c : cl_ok c → cl_ok (after (cl_unsubscribe t) c);
  law_ok_publish t b q r c : cl_ok c → cl_ok (after (cl_publish t b q r) c);
  law_ok_add cb c : cl_ok c → cl_ok (cl_add_callback cb c);
  law_ok_remove cb c : cl_ok c → cl_ok (cl_remove_callback cb c);
}.

(** A callback registered once is gone after its removal, and the others stay. *)
Lemma callbacks_remove_elem `{MessageClientLaws C} cb (c : C) cb' :
  NoDup (cl_callbacks c) →
  cb' ∈ cl_callbacks (cl_remove_callback cb c) ↔ cb' ∈ cl_callbacks c ∧ cb' ≠ cb.
Proof.
  intros Hnd. destruct (law_callbacks_remove cb c) as (l1 & l2 & E & [[Hn ->]|(l3 & -> & Hn & ->)]).
  - split; [intros; split; [done|congruence]|tauto].
  - rewrite E in *. apply NoDup_app in Hnd as (_ & Hd & Hnd).
    apply NoDup_cons in Hnd as [Hl3 _]. rewrite !elem_of_app, elem_of_cons. split.
    + intros [Hc|Hc]; (split; [tauto|congruence]).
    + intros [[?|[?|?]] ?]; naive_solver.
Qed.

Lemma NoDup_callbacks_remove `{MessageClientLaws C} cb (c : C) :
  NoDup (cl_callbacks c) → NoDup (cl_callbacks (cl_remove_callback cb c)).
Proof.
  intros Hnd. destruct (law_callbacks_remove cb c) as (l1 & l2 & El & [[_ ->]|(l3 & -> & _ & ->)]); [done|].
  rewrite El in Hnd. apply NoDup_app in Hnd as (? & Hd & [_ ?]%NoDup_cons).
  apply NoDup_app. split_and!; [done| |done]. intros x Hx. specialize (Hd x Hx). set_solver.
Qed.
