(* ===== verification/ClientImpl.v ===== *)
(** * The MQTT client implements the interface of the service

    The instance for [MQTTClient] with paho's state underneath, its laws, and a
    paho that records the calls made on it, for concrete runs. *)

From Stdlib Require Import QArith.QArith.
From S2P Require Import Prelude PyStr PyDict Passwords Config Topics Models Client ClientFacts Interface.
#[local] Open Scope Z_scope.

(** The client as the application builds it: packet callbacks are the program's,
    no message callback is ever registered. *)
Notation gateway_client P := (MQTTClient P packet_callback Empty_set).

#[export] Instance client_interface {P} `{Paho P} : MessageClient (gateway_client P) := {
  cl_subscribe := subscribe;
  cl_unsubscribe := unsubscribe;
  cl_publish := publish;
  cl_add_callback := add_packet_callback;
  cl_remove_callback := remove_packet_callback;
  cl_desired c := to_map (c_subscriptions c);
  cl_callbacks c := c_packet_callbacks c;
  cl_ok c := dict_ok (c_subscriptions c);
}.

Section laws.
Context {P : Type} `{Paho P}.
Notation client := (gateway_client P).
Implicit Types c : client.

(** [subscribe] changes paho's state, and the table on success only. *)
Lemma subscribe_cases t q c :
  (∃ p, subscribe t q c = (set_subscriptions (dict_set t q (c_subscriptions c)) (set_client p c), Ok tt))
  ∨ (∃ p e, subscribe t q c = (set_client p c, Raise e)).
Proof.
  unfold subscribe. run_M. destruct (is_connected c) eqn:Hc; cbn.
  - unfold call_subscribe. destruct (c_client c) as [p|] eqn:Ep.
    + destruct (paho_subscribe p t q) as [p' [rc|e]]; cbn.
      * destruct (rc =? MQTT_ERR_SUCCESS); cbn; [left | right]; eauto.
      * right; eauto.
    + right. exists None. rewrite <-Ep. destruct c; eauto.
  - right. exists (c_client c). destruct c; eauto.
Qed.

Lemma unsubscribe_cases t c :
  ∃ p, fst (unsubscribe t c) = set_subscriptions (dict_pop t (c_subscriptions c)) (set_client p c).
Proof.
  unfold unsubscribe. run_M. destruct (negb _).
  - exists (c_client c). by destruct c.
  - cbn. destruct (c_client c) as [p|] eqn:Ep.
    + destruct (paho_unsubscribe p t) as [p' r]. by eexists.
    + exists None. rewrite <-Ep. by destruct c.
Qed.

Lemma publish_cases t b q r c : ∃ p, fst (publish t b q r c) = set_client p c.
Proof.
  unfold publish. run_M. destruct (negb _).
  - exists (c_client c). by destruct c.
  - destruct (c_client c) as [p|] eqn:Ep.
    + destruct (paho_publish p t b q r) as [p' o]. by eexists.
    + exists None. rewrite <-Ep. by destruct c.
Qed.

Lemma remove_first_split {A} `{EqDecision A} (x : A) l :
  ∃ l1 l2, l = l1 ++ l2
    ∧ ((x ∉ l ∧ remove_first x l = l) ∨ (∃ l3, l2 = x :: l3 ∧ x ∉ l1 ∧ remove_first x l = l1 ++ l3)).
Proof.
  induction l as [|y l (l1 & l2 & -> & IH)]; [exists [], []; split; [done|]; left; split; [apply not_elem_of_nil|done]|].
  cbn. case_decide as Hy.
  - subst. exists [], (y :: l1 ++ l2). split; [done|]. right. eexists. split; [done|].
    split; [apply not_elem_of_nil|done].
  - exists (y :: l1), l2. split; [done|]. destruct IH as [[Hn ->]|(l3 & -> & Hn & ->)].
    + left. split; [|done]. by rewrite not_elem_of_cons.
    + right. exists l3. split; [done|]. split; [by rewrite not_elem_of_cons|done].
Qed.

#[export] Instance client_laws : MessageClientLaws client.
Proof.
  constructor; intros; cbn -[subscribe unsubscribe publish] in *.
  - destruct (subscribe_cases t q c) as [[p E]|(p & e & E)]; rewrite E in *; simplify_eq. apply to_map_set.
  - destruct (subscribe_cases t q c) as [[p E]|(p & e' & E)]; rewrite E in *; by simplify_eq.
  - destruct (unsubscribe_cases t c) as [p ->]. by apply to_map_pop.
  - by destruct (publish_cases t b q r c) as [p ->].
  - done.
  - done.
  - done.
  - apply remove_first_split.
  - by destruct (subscribe_cases t q c) as [[p ->]|(p & e & ->)].
  - by destruct (unsubscribe_cases t c) as [p ->].
  - by destruct (publish_cases t b q r c) as [p ->].
  - destruct (subscribe_cases t q c) as [[p ->]|(p & e & ->)]; [by apply dict_ok_set | done].
  - destruct (unsubscribe_cases t c) as [p ->]. by apply dict_ok_pop.
  - by destruct (publish_cases t b q r c) as [p ->].
  - done.
  - done.
Qed.
End laws.

(** ** A recording paho *)

Inductive paho_call : Type :=
  | CSubscribe (topic : pystr) (qos : Z)
  | CUnsubscribe (topic : pystr)
  | CPublish (topic : pystr) (payload : bytes) (qos : Z) (retain : bool)
  | CConnect (host : pystr) (port : Z)
  | CLoopStart | CLoopStop | CDisconnect.

(** [rec_up]: the network connection; [rec_rc]: the return code of the calls. *)
Record recorder : Type := mkRecorder { rec_up : bool; rec_rc : Z; rec_calls : list paho_call }.

Definition record_call (k : paho_call) (p : recorder) : recorder :=
  mkRecorder (rec_up p) (rec_rc p) (rec_calls p ++ [k]).

#[export] Instance recorder_paho : Paho recorder := {
  paho_new _ := mkRecorder false 0 [];
  paho_is_connected := rec_up;
  paho_subscribe p t q := (record_call (CSubscribe t q) p, Ok (rec_rc p));
  paho_unsubscribe p t := (record_call (CUnsubscribe t) p, Ok tt);
  paho_publish p t b q r := (record_call (CPublish t b q r) p, Ok (rec_rc p, 1));
  paho_username_pw_set p _ _ := p;
  paho_tls_set_context p := p;
  paho_connect_async p h n _ := (record_call (CConnect h n) p, Ok tt);
  paho_loop_start p := mkRecorder true (rec_rc p) (rec_calls p ++ [CLoopStart]);
  paho_loop_stop p := (record_call CLoopStop p, Ok tt);
  paho_disconnect p := (mkRecorder false (rec_rc p) (rec_calls p ++ [CDisconnect]), Ok tt);
}.

(** A client connected through the recorder, its calls cleared. *)
Definition demo_client : gateway_client recorder :=
  mkClient (Some (mkRecorder true 0 [])) true [] true [] false [] [] [HandleMessage] false [] [].

Definition demo_run : packet_callback → ReceivedMessage → M unit unit := λ _ _ w, (w, Raise (Exn ERuntime "boom")).
Definition demo_run_message : Empty_set → pystr → bytes → M unit unit := λ cb, match cb with end.
Definition demo_packet : ReceivedMessage := mkReceived (&"gateway/t") [] 0 false.

Lemma demo_dispatch_ok : dispatch_ok demo_acl demo_client.
Proof. constructor; cbn; try done; lia. Qed.

Lemma demo_callbacks_ordinary : callbacks_ordinary demo_run demo_run_message.
Proof. split; [by intros ? ? ? ? ? [= _ <-] | by intros []]. Qed.

(** One message arrives, its drain runs and delivers it. *)
Definition demo_events : list client_event := [NetMessage demo_packet; LoopRun LDrain; LoopDeliver demo_packet].
Definition demo_final : gateway_client recorder :=
  mkClient (Some (mkRecorder true 0 [])) true [(&"gateway/t", [])] true [] false [] [] [HandleMessage] false [] [].

Lemma demo_steps :
  steps (client_step demo_acl demo_run demo_run_message) (demo_client, tt) demo_events (demo_final, tt).
Proof.
  eapply steps_cons; [eapply step_message; vm_compute; reflexivity|].
  eapply steps_cons; [eapply step_drain; reflexivity|].
  eapply steps_cons; [eapply step_deliver; [reflexivity|vm_compute; reflexivity]|].
  apply steps_nil.
Qed.

Lemma dispatch_invariant_witness :
  dispatch_ok demo_acl demo_final ∧ (drains (c_ready demo_final) ≤ 1)%nat
  ∧ (c_pending demo_final ≠ [] → LDrain ∈ c_ready demo_final)
  ∧ (c_ready demo_final = [] → c_pending demo_final = []).
Proof.
  exact (dispatch_invariant demo_acl demo_run demo_run_message demo_client tt demo_events demo_final tt
    demo_acl_ok demo_dispatch_ok demo_steps).
Defined.

Lemma deliveries_in_order_witness :
  sublist (delivered demo_events ++ c_inflight demo_final ++ c_pending demo_final)
    (c_inflight demo_client ++ c_pending demo_client ++ accepted demo_acl demo_events).
Proof.
  exact (deliveries_in_order demo_acl demo_run demo_run_message demo_client tt demo_events demo_final tt
    eq_refl demo_steps).
Defined.

Lemma deliver_message_isolates_witness :
  ∃ q, deliver_message demo_acl demo_run demo_run_message demo_packet (demo_client, tt) =
         ((set_queue q demo_client,
           callback_effects demo_run demo_run_message demo_packet (c_packet_callbacks demo_client) [] tt), Ok tt)
  ∧ last q = Some (&"gateway/t", []).
Proof.
  destruct (deliver_message_isolates demo_acl demo_run demo_run_message demo_packet demo_client tt
    demo_acl_ok demo_callbacks_ordinary) as (q & H1 & _ & _ & H2); [cbn; lia|].
  exists q. split; [exact H1 | exact H2].
Defined.

Lemma disconnect_always_disconnects_witness :
  let c' := fst (disconnect true demo_client) in
  c_shutdown c' = true ∧ is_connected c' = false.
Proof.
  destruct (disconnect true demo_client) as [c' r] eqn:E.
  destruct (disconnect_always_disconnects true demo_client c' r E) as (H1 & H2 & _).
  exact (conj H1 H2).
Defined.

Lemma on_message_limits_witness :
  ∃ c', on_message demo_acl demo_run demo_run_message demo_packet (demo_client, tt) = ((c', tt), Ok tt)
  ∧ last (c_pending c') = Some demo_packet.
Proof.
  destruct (on_message_limits demo_acl demo_run demo_run_message demo_packet demo_client tt
    demo_acl_ok demo_dispatch_ok) as [_ H]. cbn in H.
  destruct H as (c' & H1 & H2 & _); [lia|]. exists c'. split; [exact H1 | exact H2].
Defined.
