(* ===== verification/Service.v ===== *)
(** * The subscription service ([services/mqtt_service.py])

    Every method of [MQTTService], over the state it owns and any client that
    implements [MessageClient].  A method between two suspension points is one
    computation: the body of [async with self._subscription_lock] runs no code
    that suspends (the client's coroutines never wait), so the critical sections
    are atomic.  The only suspension is [await future] of [query_retained], an
    argument of that method: whatever the other tasks do in the meantime. *)

From Stdlib Require Import QArith.QArith.
From S2P Require Import Prelude PyStr PyDict Passwords Config Topics Models Interface.
#[local] Open Scope Z_scope.

Record MQTTService : Type := mkService {
  s_subscriptions : pydict pystr Z;
  s_owners : pydict pystr (pydict pystr Z);
  s_topic_statistics : pydict pystr TopicInfo;
}.

Definition new_service : MQTTService := mkService [] [] [].

(** [max(d.values())] *)
Definition max_value (l : list Z) : outcome Z :=
  match l with
  | [] => Raise (Exn EValue "max() iterable argument is empty")
  | x :: l' => Ok (fold_left Z.max l' x)
  end.

Section service.
Context {C : Type} `{MessageClient C}.
Context (topic_matches_sub : pystr → pystr → bool) (settings : Settings).

Notation world := (MQTTService * C)%type.

Definition set_tables (subs : pydict pystr Z) (owners : pydict pystr (pydict pystr Z)) (s : MQTTService) :
  MQTTService := mkService subs owners (s_topic_statistics s).

(** Run a client method inside the world. *)
Definition on_client {A} (m : M C A) : M world A := zoom snd (λ c w, (fst w, c)) m.

Definition authorize (topic : pystr) (subscription : bool) : M world unit :=
  lift (authorize_topic topic_matches_sub topic settings subscription).

(** [publish]: any exception after the authorization is reported as a failure. *)
Definition publish (request : PublishRequest) : M world PublishResponse :=
  _ ← authorize (pub_topic request) false;
  try_except
    (payload ← lift (encode (pub_payload request));
     message_id ← on_client (cl_publish (pub_topic request) payload (pub_qos request) (pub_retain request));
     mret (mkPublishResponse true (Some message_id) (pub_topic request)))
    is_exception (λ _, mret (mkPublishResponse false None (pub_topic request))).

(** [acquire_subscription]: the broker is asked only when the effective QoS
    changes, and the tables are updated only if it accepted. *)
Definition acquire_subscription (topic : pystr) (qos : Z) (owner : pystr) (refresh : bool) : M world unit :=
  _ ← authorize topic true;
  w ← get;
  let owners := dict_set owner qos (default [] (dict_get topic (s_owners (fst w)))) in
  effective_qos ← lift (max_value (dict_values owners));
  _ ← (if refresh || match dict_get topic (s_subscriptions (fst w)) with
                     | None => true
                     | Some current => negb (effective_qos =? current)
                     end
       then on_client (cl_subscribe topic effective_qos) else mret tt);
  modify (λ w, (set_tables (dict_set topic effective_qos (s_subscriptions (fst w)))
                           (dict_set topic owners (s_owners (fst w))) (fst w), snd w)).

(** [release_subscription]: the last owner unsubscribes, and the tables forget
    the topic even if the broker call fails. *)
Definition release_subscription (topic owner : pystr) : M world unit :=
  w ← get;
  match dict_get topic (s_owners (fst w)) with
  | None => mret tt
  | Some owners =>
    if negb (dict_has owner owners) then mret tt
    else if (1 <? length owners)%nat then
      modify (λ w, (set_tables (s_subscriptions (fst w))
                     (dict_set topic (dict_pop owner owners) (s_owners (fst w))) (fst w), snd w))
    else
      try_finally (on_client (cl_unsubscribe topic))
        (modify (λ w, (set_tables (dict_pop topic (s_subscriptions (fst w)))
                                  (dict_pop topic (s_owners (fst w))) (fst w), snd w)))
  end.

(** [subscribe], [unsubscribe]: the REST interface owns its topics as ["rest"]. *)
Definition subscribe (request : SubscribeRequest) : M world SubscribeResponse :=
  _ ← acquire_subscription (sub_topic request) (sub_qos request) (&"rest") false;
  mret (mkSubscribeResponse true (sub_topic request) (sub_qos request)).

Definition unsubscribe (request : UnsubscribeRequest) : M world UnsubscribeResponse :=
  _ ← authorize (unsub_topic request) true;
  _ ← release_subscription (unsub_topic request) (&"rest");
  mret (mkUnsubscribeResponse true (unsub_topic request)).

(** [receive] of [query_retained]: what a packet does to the future. *)
Definition receive (topic : pystr) (message : ReceivedMessage) (future : option ReceivedMessage) :
  option ReceivedMessage :=
  if bool_decide (rx_topic message = topic) && rx_retain message && bool_decide (future = None)
  then Some message else future.

(** The body of the [async with asyncio.timeout(...)] block and the response
    built from the message; [await_future] is the wait. *)
Definition query_body (topic owner : pystr) (await_future : M world ReceivedMessage) :
  M world RetainedQueryResponse :=
  _ ← acquire_subscription topic 0 owner true;
  message ← await_future;
  payload ← lift (decode (rx_payload message));
  mret (mkRetainedQueryResponse true
          (Some (mkRetainedMessage (rx_topic message) payload (rx_qos message) (rx_retain message))) None).

Definition query_failure (text : string) : RetainedQueryResponse :=
  mkRetainedQueryResponse false None (Some text).

(** [query_retained] with the task's [uuid4()]. *)
Definition query_retained (request : RetainedQueryRequest) (uuid : pystr) (await_future : M world ReceivedMessage) :
  M world RetainedQueryResponse :=
  _ ← authorize (ret_topic request) false;
  let owner := &"retained:" ++ uuid in
  _ ← modify (λ w : world, (fst w, cl_add_callback (RetainedReceive owner) (snd w)));
  try_finally
    (try_except
       (try_except (query_body (ret_topic request) owner await_future)
          (λ k, bool_decide (k = ETimeout)) (λ _, mret (query_failure "Query timeout")))
       is_exception (λ _, mret (query_failure "Retained query failed")))
    (_ ← modify (λ w : world, (fst w, cl_remove_callback (RetainedReceive owner) (snd w)));
     release_subscription (ret_topic request) owner).

(** [get_topic_info] *)
Definition get_topic_info (topic : pystr) : M world TopicInfo :=
  _ ← authorize topic true;
  w ← get;
  mret (default (mkTopicInfo topic 0 None) (dict_get topic (s_topic_statistics (fst w)))).

(** [handle_message]: the packet callback that feeds the statistics cache. *)
Definition handle_message (message : ReceivedMessage) (now : Q) (s : MQTTService) : MQTTService :=
  if max_message_bytes settings <? Z.of_nat (length (rx_payload message)) then s
  else match authorize_topic topic_matches_sub (rx_topic message) settings false with
       | Raise _ => s
       | Ok _ =>
         let msg := mkMQTTMessage (rx_topic message) (decode_replace (rx_payload message)) (rx_qos message)
                      (rx_retain message) now in
         let previous := dict_get (rx_topic message) (s_topic_statistics s) in
         let stats := dict_pop (rx_topic message) (s_topic_statistics s) in
         let stats := match previous with
                      | None => if mqtt_queue_size settings <=? Z.of_nat (length stats)
                                then dict_popitem_first stats else stats
                      | Some _ => stats
                      end in
         let count := match previous with Some p => ti_message_count p + 1 | None => 1 end in
         mkService (s_subscriptions s) (s_owners s)
           (dict_set (rx_topic message) (mkTopicInfo (rx_topic message) count (Some msg)) stats)
       end.

(** [get_subscriptions], [is_subscribed] *)
Definition get_subscriptions (s : MQTTService) : pydict pystr Z := s_subscriptions s.
Definition is_subscribed (topic : pystr) (s : MQTTService) : bool := dict_has topic (s_subscriptions s).
End service.

(** ** The specification: who owns what

    The service promises per-owner subscriptions.  Its abstract state maps each
    topic to the non-empty map from its owners to the QoS they asked for. *)

Notation ownership := (gmap pystr (gmap pystr Z)).

Definition owners_at (a : ownership) (topic : pystr) : gmap pystr Z := default ∅ (a !! topic).

Definition spec_acquire (topic : pystr) (qos : Z) (owner : pystr) (a : ownership) : ownership :=
  <[topic := <[owner := qos]> (owners_at a topic)]> a.

Definition spec_release (topic owner : pystr) (a : ownership) : ownership :=
  let rest := delete owner (owners_at a topic) in
  if decide (rest = ∅) then delete topic a else <[topic := rest]> a.

Definition abstraction (s : MQTTService) : ownership := to_map <$> to_map (s_owners s).

(** The invariant of the pair (service, client): both tables have the same
    topics, no topic is without owners, the subscribed QoS covers every owner,
    and the client will re-subscribe exactly the service's topics. *)
Record service_ok `{MessageClient C} (s : MQTTService) (c : C) : Prop := {
  so_subs : dict_ok (s_subscriptions s);
  so_owners : dict_ok (s_owners s);
  so_topics t : t ∈ dict_keys (s_subscriptions s) ↔ t ∈ dict_keys (s_owners s);
  so_entry t o : dict_get t (s_owners s) = Some o → dict_ok o ∧ o ≠ [];
  so_qos t o q n : dict_get t (s_owners s) = Some o → dict_get t (s_subscriptions s) = Some q →
    n ∈ dict_values o → n ≤ q;
  so_client : cl_ok c;
  so_desired : cl_desired c = to_map (s_subscriptions s);
}.
