(* ===== verification/RetainedQuery.v ===== *)
(** * Retained-message queries ([MQTTService.query_retained])

    The query registers a packet callback, re-subscribes the topic as an owner of
    its own, waits and cleans up.  While it waits every other task may run: the
    wait is an arbitrary computation on the service and the client, constrained
    only by the invariants every method preserves. *)

From Stdlib Require Import QArith.QArith.
From S2P Require Import Prelude PyStr PyDict Passwords Config Topics Models Interface Service ServiceFacts.
#[local] Open Scope Z_scope.

Section query.
Context {C : Type} `{MessageClientLaws C}.
Context (topic_matches_sub : pystr → pystr → bool) (settings : Settings).
Notation world := (MQTTService * C)%type.
Notation query := (query_retained (C := C) topic_matches_sub settings).
Notation release := (release_subscription (C := C)).
Implicit Types (s : MQTTService) (c : C).

Definition query_owner (uuid : pystr) : pystr := &"retained:" ++ uuid.

(** What a waiting task may find when it resumes. *)
Definition consistent (w : world) : Prop :=
  service_ok (fst w) (snd w) ∧ NoDup (cl_callbacks (snd w)).

Definition preserves {A} (m : M world A) : Prop := ∀ w, consistent w → consistent (fst (m w)).

(** The future is resolved by the packet callback only: the message it yields is
    the first acceptable one of the packets delivered while the query waits. *)
Definition resolved_by_receive (topic : pystr) (await : M world ReceivedMessage) : Prop :=
  ∀ w w' message, await w = (w', Ok message) →
  ∃ packets, foldl (λ future p, receive topic p future) None packets = Some message.

Lemma receive_spec topic packets future m :
  foldl (λ f p, receive topic p f) future packets = Some m →
  (∀ m', future = Some m' → rx_topic m' = topic ∧ rx_retain m' = true) →
  rx_topic m = topic ∧ rx_retain m = true.
Proof.
  revert future. induction packets as [|p packets IH]; intros future; cbn; [eauto|].
  intros Hm Hf. apply (IH _ Hm). intros m'. unfold receive.
  destruct (_ && _) eqn:E; [|auto]. intros [= <-]. boolprop. tauto.
Qed.

Lemma preserves_acquire topic qos owner refresh :
  preserves (acquire_subscription (C := C) topic_matches_sub settings topic qos owner refresh).
Proof.
  intros [s c] [Hok Hnd]. pose proof (acquire_ok topic_matches_sub settings topic qos owner refresh s c Hok) as Ho.
  destruct (acquire_cases topic_matches_sub settings topic qos owner refresh s c)
    as [(e & E & _)|(m & _ & _ & [(_ & _ & E)|(c' & r & Hs & E)])]; rewrite E in *; try done.
  pose proof (law_callbacks_subscribe topic m c) as Hcb. rewrite Hs in Hcb. cbn in Hcb.
  destruct r; (split; [done|]); cbn; by rewrite Hcb.
Qed.

Lemma preserves_release topic owner : preserves (release topic owner).
Proof.
  intros [s c] [Hok Hnd]. pose proof (release_ok topic owner s c Hok) as Ho.
  destruct (release_cases topic owner s c) as
    [[E _]|[(o & m & _ & _ & _ & E)|(o & m & _ & _ & _ & E)]]; rewrite E in *; try done.
  split; [done|]. cbn. by rewrite law_callbacks_unsubscribe.
Qed.

Lemma preserves_client_map (f : C → C) w :
  (∀ c, cl_ok c → cl_ok (f c)) → (∀ c, cl_desired (f c) = cl_desired c) → service_ok (fst w) (snd w) →
  service_ok (fst w) (f (snd w)).
Proof. intros Hf1 Hf2 []. constructor; try done; [auto|]. by rewrite Hf2. Qed.

(** The body of the [try]: consistent afterwards, and a response except when
    the wait was cancelled. *)
Lemma query_body_preserves topic owner await :
  preserves await → preserves (query_body topic_matches_sub settings topic owner await).
Proof.
  intros Ha w Hw. unfold query_body. run_M.
  pose proof (preserves_acquire topic 0 owner true w Hw) as H1.
  destruct (acquire_subscription _ _ _ _ _ _ w) as [w1 [[]|e]]; [|done]. cbn in H1.
  pose proof (Ha w1 H1) as H2. destruct (await w1) as [w2 [m|e]]; [|done]. cbn in H2.
  by destruct (decode (rx_payload m)).
Qed.

Definition guarded_body (topic owner : pystr) (await : M world ReceivedMessage) : M world RetainedQueryResponse :=
  try_except
    (try_except (query_body topic_matches_sub settings topic owner await)
       (λ k, bool_decide (k = ETimeout)) (λ _, mret (query_failure "Query timeout")))
    is_exception (λ _, mret (query_failure "Retained query failed")).

Lemma guarded_body_cases topic owner await w :
  guarded_body topic owner await w =
    (fst (query_body topic_matches_sub settings topic owner await w),
     match snd (query_body topic_matches_sub settings topic owner await w) with
     | Ok r => Ok r
     | Raise e => if bool_decide (exn_kind e = ETimeout) then Ok (query_failure "Query timeout")
                  else if is_exception (exn_kind e) then Ok (query_failure "Retained query failed")
                  else Raise e
     end).
Proof.
  unfold guarded_body, try_except. destruct (query_body _ _ _ _ _ w) as [w' [r|e]]; cbn; [done|].
  case_bool_decide; [done|]. by destruct (is_exception _).
Qed.

Lemma release_result topic owner s c s' c' e :
  release topic owner (s, c) = ((s', c'), Raise e) → snd (cl_unsubscribe topic c) = Raise e.
Proof.
  destruct (release_cases topic owner s c) as
    [[E _]|[(o & m & _ & _ & _ & E)|(o & m & _ & _ & _ & E)]]; rewrite E; by intros [= <- <- Hr].
Qed.

(** The cleanup: registered before the call, gone after it. *)
Definition cleanup (topic owner : pystr) : M world unit :=
  _ ← modify (λ w : world, (fst w, cl_remove_callback (RetainedReceive owner) (snd w)));
  release topic owner.

Lemma cleanup_spec topic owner w :
  consistent w →
  let '(w', r) := cleanup topic owner w in
  consistent w'
  ∧ owners_at (abstraction (fst w')) topic !! owner = None
  ∧ abstraction (fst w') = spec_release topic owner (abstraction (fst w))
  ∧ RetainedReceive owner ∉ cl_callbacks (snd w')
  ∧ (∀ e, r = Raise e → ∃ c, snd (cl_unsubscribe topic c) = Raise e).
Proof.
  intros [Hok Hnd]. destruct w as [s c]. cbn in Hok, Hnd.
  unfold cleanup. unfold mbind, M_bind, modify. cbn [fst snd].
  set (c1 := cl_remove_callback (RetainedReceive owner) c).
  assert (consistent (s, c1)) as Hc1.
  { split.
    - apply (preserves_client_map _ (s, c) (law_ok_remove _) (law_remove _) Hok).
    - by apply NoDup_callbacks_remove. }
  pose proof (preserves_release topic owner (s, c1) Hc1) as Hp.
  pose proof (abstraction_release topic owner s c1 (proj1 Hc1)) as Ha.
  destruct (release topic owner (s, c1)) as [[s' c'] r] eqn:E. cbn in Hp, Ha.
  split_and!; [done| |done| |].
  - cbn. rewrite Ha. unfold spec_release, owners_at. destruct (decide _) as [Hd|].
    + rewrite lookup_delete_eq. cbn. apply lookup_empty.
    + rewrite lookup_insert_eq. cbn. by rewrite lookup_delete_eq.
  - assert (RetainedReceive owner ∉ cl_callbacks c1) as Hcb by (subst c1; by rewrite callbacks_remove_elem; [tauto|]).
    destruct (release_cases topic owner s c1) as
      [[E' _]|[(o & m & _ & _ & _ & E')|(o & m & _ & _ & _ & E')]];
      rewrite E in E'; injection E' as -> -> ->; cbn; [done..|].
    by rewrite law_callbacks_unsubscribe.
  - intros e ->. exists c1. by eapply release_result.
Qed.

Lemma query_unfold request uuid await w :
  query request uuid await w =
    match authorize_topic topic_matches_sub (ret_topic request) settings false with
    | Raise e => (w, Raise e)
    | Ok _ =>
      let w1 := (fst w, cl_add_callback (RetainedReceive (query_owner uuid)) (snd w)) in
      let '(w2, r) := guarded_body (ret_topic request) (query_owner uuid) await w1 in
      let '(w3, rc) := cleanup (ret_topic request) (query_owner uuid) w2 in
      (w3, match rc with Ok _ => r | Raise e => Raise e end)
    end.
Proof.
  unfold query_retained, authorize. unfold mbind, M_bind, lift, modify.
  destruct (authorize_topic _ _ _ _) as [[]|e]; [|done]. cbn.
  unfold try_finally. fold (query_owner uuid). fold (guarded_body (ret_topic request) (query_owner uuid) await).
  destruct (guarded_body _ _ _ _) as [w2 r].
  unfold cleanup, modify, mbind, M_bind.
  destruct (release _ _ _) as [w3 [[]|e]]; done.
Qed.

Lemma add_callback_consistent owner s c :
  consistent (s, c) → RetainedReceive owner ∉ cl_callbacks c →
  consistent (s, cl_add_callback (RetainedReceive owner) c).
Proof.
  intros [Hok Hnd] Hfresh. split.
  - apply (preserves_client_map _ (s, c) (law_ok_add _) (law_add _) Hok).
  - cbn. rewrite law_callbacks_add. apply NoDup_app. split_and!; [done| |apply NoDup_singleton].
    intros x Hx ->%list_elem_of_singleton. done.
Qed.

(** C16: whatever the other tasks do while a retained query waits, the query
    leaves no trace of itself on any path - success, failure, timeout or
    cancellation: its owner entry and its packet callback are gone and the
    service is consistent.  It raises only when the topic is not authorized,
    when the task is cancelled, or when the final UNSUBSCRIBE raises. *)
Theorem query_retained_cleans_up request uuid await s c
    (Hok : consistent (s, c)) (Hfresh : RetainedReceive (query_owner uuid) ∉ cl_callbacks c)
    (Hauth : authorize_topic topic_matches_sub (ret_topic request) settings false = Ok tt)
    (Hawait : preserves await) :
  let '((s', c'), r) := query request uuid await (s, c) in
  consistent (s', c')
  ∧ owners_at (abstraction s') (ret_topic request) !! query_owner uuid = None
  ∧ RetainedReceive (query_owner uuid) ∉ cl_callbacks c'
  ∧ (∀ e, r = Raise e →
       is_exception (exn_kind e) = false ∨ ∃ c0, snd (cl_unsubscribe (ret_topic request) c0) = Raise e).
Proof.
  rewrite query_unfold, Hauth. cbn zeta. rewrite guarded_body_cases.
  set (w1 := (fst (s, c), _)).
  assert (consistent w1) as Hw1 by by apply add_callback_consistent.
  pose proof (query_body_preserves (ret_topic request) (query_owner uuid) await Hawait w1 Hw1) as Hb.
  destruct (query_body _ _ _ _ _ w1) as [w2 r]. cbn [fst snd] in *.
  pose proof (cleanup_spec (ret_topic request) (query_owner uuid) w2 Hb) as Hc.
  destruct (cleanup _ _ w2) as [[s' c'] rc]. destruct Hc as (H1 & H2 & _ & H3 & H4).
  split_and!; [done..|]. intros e. destruct rc as [u|e']; [|by intros [= <-]; eauto].
  destruct r as [a|e']; [done|]. case_bool_decide; [done|].
  destruct (is_exception (exn_kind e')) eqn:E; [done|]. intros [= <-]. by left.
Qed.

(** a successful retained query returns a retained message of exactly the
    requested topic, its payload decoded strictly as UTF-8. *)
Theorem query_retained_returns_topic request uuid await s c w' resp
    (Hawait : resolved_by_receive (ret_topic request) await)
    (Hres : query request uuid await (s, c) = (w', Ok resp)) (Hs : rqr_success resp = true) :
  ∃ message payload,
    resp = mkRetainedQueryResponse true
             (Some (mkRetainedMessage (ret_topic request) payload (rx_qos message) true)) None
    ∧ decode (rx_payload message) = Ok payload
    ∧ ∃ w1 w2, await w1 = (w2, Ok message).
Proof.
  rewrite query_unfold in Hres. destruct (authorize_topic _ _ _ _) as [u|]; [|done].
  cbn zeta in Hres. rewrite guarded_body_cases in Hres. unfold query_body in Hres.
  unfold mbind, M_bind, lift in Hres.
  destruct (acquire_subscription _ _ _ _ _ _ _) as [w1 [[]|e]]; cbn [fst snd] in Hres.
  - destruct (await w1) as [w2 [m|e]] eqn:Em; cbn [fst snd] in Hres.
    + destruct (decode (rx_payload m)) as [p|e] eqn:Ep; cbn [fst snd] in Hres.
      * destruct (cleanup _ _ _) as [w3 [u'|e]]; [|done]. injection Hres as _ <-.
        destruct (Hawait _ _ _ Em) as [packets Hp].
        apply receive_spec in Hp as [<- <-]; [|done]. exists m, p. split_and!; [done..|eauto].
      * destruct (cleanup _ _ _) as [w3 [u'|e']]; [|done]. repeat case_match; by simplify_eq.
    + destruct (cleanup _ _ _) as [w3 [u'|e']]; [|done]. repeat case_match; by simplify_eq.
  - destruct (cleanup _ _ _) as [w3 [u'|e']]; [|done]. repeat case_match; by simplify_eq.
Qed.
End query.
