(* ===== verification/Statistics.v ===== *)
(** * The topic statistics cache ([MQTTService.handle_message])

    The [OrderedDict] of topic statistics is a bounded cache ordered by last
    update.  The reference is the list of topics by last occurrence: the cache
    holds its last [mqtt_queue_size] entries. *)

From Stdlib Require Import QArith.QArith.
From S2P Require Import Prelude PyStr PyDict Passwords Config Topics Models Interface Service.
#[local] Open Scope Z_scope.
#[local] Arguments Z.of_nat : simpl never.

(** ** The last elements of a list *)

Definition lastn {A} (n : nat) (l : list A) : list A := drop (length l - n) l.

Lemma lastn_split {A} n (l : list A) :
  ∃ pre, l = pre ++ lastn n l ∧ length (lastn n l) = (length l `min` n)%nat.
Proof.
  exists (take (length l - n) l). unfold lastn. rewrite take_drop, length_drop. split; [done|lia].
Qed.

Lemma lastn_app_short {A} n (l1 l2 : list A) :
  (n ≤ length l2)%nat → lastn n (l1 ++ l2) = lastn n l2.
Proof.
  intros Hn. unfold lastn. rewrite length_app, drop_app_ge by lia. f_equal. lia.
Qed.

Lemma lastn_all {A} n (l : list A) : (length l ≤ n)%nat → lastn n l = l.
Proof. intros. unfold lastn. by replace (length l - n)%nat with 0%nat by lia. Qed.

Section recency.
Context {A : Type} `{EqDecision A}.
Implicit Types l : list A.

(** The reference: a topic moves to the end when it occurs. *)
Definition move_to_end (x : A) l : list A := filter (x ≠.) l ++ [x].
Definition recency l : list A := foldl (λ acc x, move_to_end x acc) [] l.

Lemma NoDup_move_to_end x l : NoDup l → NoDup (move_to_end x l).
Proof.
  intros. apply NoDup_app. split_and!; [by apply NoDup_filter| |apply NoDup_singleton].
  intros y [Hy _]%list_elem_of_filter ->%list_elem_of_singleton. by apply Hy.
Qed.

Lemma recency_snoc l x : recency (l ++ [x]) = move_to_end x (recency l).
Proof. unfold recency. by rewrite foldl_app. Qed.

Lemma NoDup_recency l : NoDup (recency l).
Proof.
  induction l as [|x l IH] using rev_ind; [apply NoDup_nil_2|].
  rewrite recency_snoc. by apply NoDup_move_to_end.
Qed.

Lemma elem_of_recency l x : x ∈ recency l ↔ x ∈ l.
Proof.
  induction l as [|y l IH] using rev_ind; [done|].
  rewrite recency_snoc. unfold move_to_end. rewrite !elem_of_app, list_elem_of_filter, IH, list_elem_of_singleton.
  destruct (decide (x = y)); naive_solver.
Qed.

Lemma filter_length_NoDup x l :
  NoDup l → x ∈ l → S (length (filter (x ≠.) l)) = length l.
Proof.
  induction 1 as [|y l Hy Hnd IH]; [by intros ?%elem_of_nil|]. intros [->|Hx]%elem_of_cons.
  - rewrite filter_cons_False by tauto. cbn. f_equal. f_equal. apply filter_id, Forall_forall. set_solver.
  - rewrite filter_cons_True by set_solver. cbn. f_equal. auto.
Qed.

(** The bounded update of the cache: drop the oldest entry when a new one
    arrives at a full cache. *)
Definition bounded_update (n : nat) (x : A) (k : list A) : list A :=
  let rest := filter (x ≠.) k in
  (if bool_decide (x ∈ k) then rest else if (n <=? length rest)%nat then tail rest else rest) ++ [x].

Lemma bounded_update_lastn n x l :
  NoDup l → (1 ≤ n)%nat → bounded_update n x (lastn n l) = lastn n (move_to_end x l).
Proof.
  intros Hnd Hn. destruct (lastn_split n l) as (pre & El & Hlen).
  set (suf := lastn n l) in *. clearbody suf.
  pose proof (f_equal length El) as Hl. rewrite length_app in Hl. unfold bounded_update, move_to_end. rewrite El in Hnd.
  apply NoDup_app in Hnd as (Hpre & Hdisj & Hsuf).
  rewrite El, filter_app, <-app_assoc. case_bool_decide as Hx.
  - pose proof (filter_length_NoDup x suf Hsuf Hx) as Hf.
    rewrite (filter_id _ pre) by (apply Forall_forall; intros y Hy ->; by apply (Hdisj y)).
    destruct (decide (n ≤ length l)%nat).
    + rewrite lastn_app_short by (rewrite length_app; cbn; lia).
      symmetry. apply lastn_all. rewrite length_app. cbn. lia.
    + destruct pre; [|cbn in Hl; lia].
      symmetry. apply lastn_all. rewrite length_app. cbn. lia.
  - rewrite (filter_id _ suf) by (apply Forall_forall; intros y Hy ->; done).
    destruct (Nat.leb_spec n (length suf)) as [Hle|Hlt].
    + rewrite lastn_app_short by (rewrite length_app; cbn; lia).
      destruct suf as [|y suf]; [cbn in *; lia|]. unfold lastn. cbn in *. rewrite length_app. cbn.
      by replace (S (length suf + 1) - n)%nat with 1%nat by lia.
    + destruct pre; [|cbn in Hl; lia].
      symmetry. apply lastn_all. rewrite length_app. cbn. lia.
Qed.
End recency.

Section statistics.
Context (topic_matches_sub : pystr → pystr → bool) (settings : Settings).
Notation handle := (handle_message topic_matches_sub settings).
Notation capacity := (Z.to_nat (mqtt_queue_size settings)).
Implicit Types (s : MQTTService) (m : ReceivedMessage).

(** The packets that reach the cache. *)
Definition counted m : bool :=
  (Z.of_nat (length (rx_payload m)) <=? max_message_bytes settings)
  && is_ok (authorize_topic topic_matches_sub (rx_topic m) settings false).

Definition handle_all (ms : list (ReceivedMessage * Q)) s : MQTTService :=
  foldl (λ s '(m, now), handle m now s) s ms.

Definition counted_topics (ms : list (ReceivedMessage * Q)) : list pystr :=
  (λ mq, rx_topic mq.1) <$> filter (λ mq, counted mq.1 = true) ms.

(** Everything recorded about a topic: its last packet, and the occurrences. *)
Definition message_of m now : MQTTMessage :=
  mkMQTTMessage (rx_topic m) (decode_replace (rx_payload m)) (rx_qos m) (rx_retain m) now.

Definition last_counted (t : pystr) (ms : list (ReceivedMessage * Q)) : option MQTTMessage :=
  (λ mq, message_of mq.1 mq.2) <$> last (filter (λ mq, counted mq.1 = true ∧ rx_topic mq.1 = t) ms).

Definition occurrences (t : pystr) (ms : list (ReceivedMessage * Q)) : Z :=
  Z.of_nat (length (filter (t =.) (counted_topics ms))).

Lemma handle_message_skip m now s : counted m = false → handle m now s = s.
Proof.
  unfold counted, handle_message. destruct (Z.ltb_spec (max_message_bytes settings)
    (Z.of_nat (length (rx_payload m)))); [done|].
  rewrite (proj2 (Z.leb_le _ _)) by done. cbn. by destruct (authorize_topic _ _ _ _).
Qed.

(** The cache without the topic, one entry below its capacity. *)
Definition stats_rest (t : pystr) (stats : pydict pystr TopicInfo) : pydict pystr TopicInfo :=
  let rest := dict_pop t stats in
  match dict_get t stats with
  | None => if mqtt_queue_size settings <=? Z.of_nat (length rest) then dict_popitem_first rest else rest
  | Some _ => rest
  end.

Definition next_count (t : pystr) (stats : pydict pystr TopicInfo) : Z :=
  match dict_get t stats with Some p => ti_message_count p + 1 | None => 1 end.

Definition stats_after m now (stats : pydict pystr TopicInfo) : pydict pystr TopicInfo :=
  dict_set (rx_topic m)
    (mkTopicInfo (rx_topic m) (next_count (rx_topic m) stats) (Some (message_of m now)))
    (stats_rest (rx_topic m) stats).

Lemma handle_message_counted m now s :
  counted m = true →
  s_topic_statistics (handle m now s) = stats_after m now (s_topic_statistics s)
  ∧ s_subscriptions (handle m now s) = s_subscriptions s ∧ s_owners (handle m now s) = s_owners s.
Proof.
  unfold counted, handle_message. intros Hc. boolprop. destruct Hc as [Hb Ha].
  apply Z.leb_le in Hb. rewrite (proj2 (Z.ltb_ge _ _)) by done.
  apply is_ok_true in Ha as [u ->]. done.
Qed.

Lemma dict_keys_length {K V} (d : pydict K V) : length (dict_keys d) = length d.
Proof. apply length_fmap. Qed.

Lemma stats_rest_keys t stats :
  dict_ok stats → 1 ≤ mqtt_queue_size settings →
  t ∉ dict_keys (stats_rest t stats)
  ∧ dict_keys (stats_rest t stats) ++ [t] = bounded_update capacity t (dict_keys stats).
Proof.
  intros Hd Hq. unfold stats_rest, bounded_update.
  assert (t ∉ dict_keys (dict_pop t stats)) as Hout.
  { rewrite dict_keys_pop by done. rewrite list_elem_of_filter. tauto. }
  destruct (dict_get t stats) as [p|] eqn:E.
  - rewrite bool_decide_true by by eapply dict_get_Some_key. by rewrite <-dict_keys_pop.
  - rewrite bool_decide_false by by apply dict_get_None. rewrite <-dict_keys_pop by done.
    rewrite dict_keys_length.
    destruct (Z.leb_spec (mqtt_queue_size settings) (Z.of_nat (length (dict_pop t stats))));
      destruct (Nat.leb_spec capacity (length (dict_pop t stats))); try lia; [|done].
    destruct (dict_pop t stats) as [|kv d]; [done|]. split; [|done].
    intros Hin. apply Hout. unfold dict_keys. cbn. by right.
Qed.

Lemma stats_after_keys m now stats :
  dict_ok stats → 1 ≤ mqtt_queue_size settings →
  dict_keys (stats_after m now stats) = bounded_update capacity (rx_topic m) (dict_keys stats).
Proof.
  intros Hd Hq. destruct (stats_rest_keys (rx_topic m) stats Hd Hq) as [Hout <-].
  unfold stats_after. by rewrite dict_keys_set, decide_False.
Qed.

Lemma stats_rest_get t t' stats i :
  dict_ok stats → dict_get t' (stats_rest t stats) = Some i → t' ≠ t → dict_get t' stats = Some i.
Proof.
  intros Hd Hg Hne. rewrite <-(dict_get_pop_ne t) by done. revert Hg. unfold stats_rest.
  pose proof (dict_ok_pop t stats Hd) as Hp.
  destruct (dict_get t stats); [done|]. destruct (_ <=? _); [|done].
  destruct (dict_pop t stats) as [|[k v] d]; [done|]. cbn. intros Hg.
  rewrite decide_False; [done|]. intros ->. apply NoDup_cons in Hp as [Hk _]. apply Hk.
  by eapply dict_get_Some_key.
Qed.

(** The invariant of the cache after a sequence of packets. *)
Record stats_ok (ms : list (ReceivedMessage * Q)) (stats : pydict pystr TopicInfo) : Prop := {
  st_keys : dict_keys stats = lastn capacity (recency (counted_topics ms));
  st_entry t i : dict_get t stats = Some i →
    ti_topic i = t ∧ ti_last_message i = last_counted t ms
    ∧ 1 ≤ ti_message_count i ≤ occurrences t ms
    ∧ ((length (recency (counted_topics ms)) ≤ capacity)%nat → ti_message_count i = occurrences t ms);
}.

Lemma counted_topics_snoc ms m now :
  counted_topics (ms ++ [(m, now)]) = counted_topics ms ++ (if counted m then [rx_topic m] else []).
Proof.
  unfold counted_topics. rewrite filter_app, fmap_app. f_equal. rewrite filter_cons. cbn.
  by destruct (counted m); case_decide.
Qed.

Lemma last_counted_snoc t ms m now :
  last_counted t (ms ++ [(m, now)]) =
    if counted m && bool_decide (rx_topic m = t) then Some (message_of m now) else last_counted t ms.
Proof.
  unfold last_counted. rewrite filter_app, filter_cons. cbn.
  destruct (counted m); cbn; [case_bool_decide|]; case_decide; try naive_solver;
    rewrite ?filter_nil, ?last_snoc, ?app_nil_r; done.
Qed.

Lemma occurrences_snoc t ms m now :
  occurrences t (ms ++ [(m, now)]) =
    occurrences t ms + (if counted m && bool_decide (rx_topic m = t) then 1 else 0).
Proof.
  unfold occurrences. rewrite counted_topics_snoc. destruct (counted m); cbn.
  - rewrite filter_app, length_app, filter_cons, filter_nil. case_bool_decide; case_decide; cbn; try congruence; lia.
  - rewrite app_nil_r. lia.
Qed.

Lemma occurrences_nonneg t ms : 0 ≤ occurrences t ms.
Proof. unfold occurrences. lia. Qed.

Lemma occurrences_absent t ms : t ∉ counted_topics ms → occurrences t ms = 0.
Proof.
  intros Ht. unfold occurrences. destruct (filter _ _) as [|y l] eqn:E; [done|].
  exfalso. assert (y ∈ filter (t =.) (counted_topics ms)) as Hy by (rewrite E; apply list_elem_of_here).
  apply list_elem_of_filter in Hy as [<- Hy]. done.
Qed.

Lemma stats_ok_counted ms m now stats :
  1 ≤ mqtt_queue_size settings → counted m = true →
  stats_ok ms stats → stats_ok (ms ++ [(m, now)]) (stats_after m now stats).
Proof.
  intros Hq Hc [Hk He]. set (t := rx_topic m).
  assert (dict_ok stats) as Hd.
  { rewrite Hk. destruct (lastn_split capacity (recency (counted_topics ms))) as (pre & E & _).
    pose proof (NoDup_recency (counted_topics ms)) as Hn. rewrite E in Hn. apply NoDup_app in Hn. tauto. }
  constructor.
  - rewrite stats_after_keys, Hk, counted_topics_snoc, Hc, recency_snoc by done.
    apply bounded_update_lastn; [apply NoDup_recency|lia].
  - intros t' i. rewrite last_counted_snoc, occurrences_snoc, counted_topics_snoc, Hc, recency_snoc.
    fold t. cbn [andb]. unfold stats_after. rewrite dict_get_set.
    assert (length (move_to_end t (recency (counted_topics ms))) ≤ capacity →
            length (recency (counted_topics ms)) ≤ capacity)%nat as Hmono.
    { unfold move_to_end. rewrite length_app. cbn. destruct (decide (t ∈ recency (counted_topics ms))) as [Hin|Hin].
      - pose proof (filter_length_NoDup t _ (NoDup_recency _) Hin). lia.
      - rewrite filter_id; [lia|]. apply Forall_forall. intros y Hy ->. done. }
    fold t. case_decide as Ht.
    + subst t'. intros [= <-]. cbn. rewrite bool_decide_true by done.
      split; [done|]. split; [done|]. unfold next_count. destruct (dict_get t stats) as [p|] eqn:Ep.
      * destruct (He _ _ Ep) as (_ & _ & H1 & H2). split; [lia|]. intros Hlen. rewrite H2; [done|auto].
      * pose proof (occurrences_nonneg t ms). split; [lia|]. intros Hlen. rewrite occurrences_absent; [done|].
        rewrite <-elem_of_recency, <-(lastn_all capacity (recency (counted_topics ms))) by auto. rewrite <-Hk. by apply dict_get_None.
    + intros Hg. rewrite bool_decide_false by done. rewrite Z.add_0_r.
      destruct (He t' i) as (H1 & H2 & H3 & H4); [by eapply stats_rest_get|].
      split_and!; [done|done|lia|lia|auto].
Qed.

(** C22: the statistics cache holds exactly the [mqtt_queue_size] topics updated
    last, in that order, whatever packets arrived; only packets of authorized
    topics within the size limit count.  Each entry shows its topic's last
    packet and counts its packets, all of them while no topic was evicted. *)
Theorem statistics_are_bounded_and_recent ms s
    (Hq : 1 ≤ mqtt_queue_size settings) (Hs : s_topic_statistics s = []) :
  let s' := handle_all ms s in
  stats_ok ms (s_topic_statistics s')
  ∧ Z.of_nat (length (s_topic_statistics s')) ≤ mqtt_queue_size settings
  ∧ s_subscriptions s' = s_subscriptions s ∧ s_owners s' = s_owners s.
Proof.
  cbn zeta. assert (stats_ok ms (s_topic_statistics (handle_all ms s))
    ∧ s_subscriptions (handle_all ms s) = s_subscriptions s ∧ s_owners (handle_all ms s) = s_owners s) as (H1 & H2 & H3).
  { induction ms as [|[m now] ms IH] using rev_ind.
    - cbn. rewrite Hs. split; [|done]. constructor; [done|]. by intros t i.
    - destruct IH as (IH1 & IH2 & IH3). unfold handle_all. rewrite foldl_app. cbn. fold (handle_all ms s).
      destruct (counted m) eqn:Hc.
      + destruct (handle_message_counted m now (handle_all ms s) Hc) as (E1 & E2 & E3).
        rewrite E1, E2, E3. split; [|done]. by apply stats_ok_counted.
      + rewrite handle_message_skip by done. split; [|done]. destruct IH1 as [Hk He]. constructor.
        * by rewrite counted_topics_snoc, Hc, app_nil_r.
        * intros t i. rewrite last_counted_snoc, occurrences_snoc, counted_topics_snoc, Hc, app_nil_r. cbn.
          rewrite Z.add_0_r. apply He. }
  split_and!; [done| |done..].
  rewrite <-dict_keys_length, (st_keys _ _ H1).
  destruct (lastn_split capacity (recency (counted_topics ms))) as (_ & _ & ->). lia.
Qed.
End statistics.
