(* ===== verification/ServiceImpl.v ===== *)
(** * The service on top of the MQTT client

    [MQTTService] with the client of [Client.v] and the recording paho: the
    interface laws hold, so the theorems of the service apply; concrete runs. *)

From Stdlib Require Import QArith.QArith Strings.Byte.
From S2P Require Import Prelude PyStr PyDict Passwords Config Topics Models Client ClientFacts Interface ClientImpl Service ServiceFacts RetainedQuery Statistics.
#[local] Open Scope Z_scope.

Notation demo_world := (MQTTService * gateway_client recorder)%type.

Definition demo_topic : pystr := &"gateway/t".

Lemma new_service_ok : service_ok new_service demo_client.
Proof.
  constructor; try (by vm_compute); try apply NoDup_nil_2.
Qed.

Definition demo_calls : list subscription_call :=
  [CallAcquire demo_topic 1 (&"ws:1") false; CallSubscribe (mkSubscribeRequest demo_topic 0);
   CallRelease demo_topic (&"ws:1")].

Definition demo_owned : demo_world * list (subscription_call * outcome unit) :=
  run_calls mqtt_match demo_acl demo_calls (new_service, demo_client).

Lemma calls_refine_ownership_witness :
  service_ok demo_owned.1.1 demo_owned.1.2
  ∧ owners_at (abstraction demo_owned.1.1) demo_topic !! &"rest" = Some 0
  ∧ is_Some (cl_desired demo_owned.1.2 !! demo_topic).
Proof.
  destruct (calls_refine_ownership mqtt_match demo_acl demo_calls new_service demo_client
    demo_owned.1.1 demo_owned.1.2 demo_owned.2 new_service_ok) as (H1 & _ & H2 & _); [vm_compute; reflexivity|].
  split; [exact H1|]. split; [vm_compute; reflexivity|]. apply H2. vm_compute. eexists. reflexivity.
Defined.

(** Two owners of one topic. *)
Definition demo_shared : demo_world :=
  fst (run_calls mqtt_match demo_acl (take 2 demo_calls) (new_service, demo_client)).

Lemma demo_shared_ok : service_ok demo_shared.1 demo_shared.2.
Proof.
  refine (proj1 (run_calls_refines mqtt_match demo_acl (take 2 demo_calls) new_service demo_client
    demo_shared _ new_service_ok _)). vm_compute. reflexivity.
Qed.

Lemma release_isolates_owners_witness :
  ∃ s', release_subscription demo_topic (&"rest") demo_shared = ((s', demo_shared.2), Ok tt)
    ∧ owners_at (abstraction s') demo_topic !! (&"ws:1") = Some 1
    ∧ owners_at (abstraction s') demo_topic !! (&"rest") = None.
Proof.
  destruct (release_isolates_owners demo_topic (&"rest") (&"ws:1") 1 demo_shared.1 demo_shared.2
    demo_shared_ok) as (s' & H1 & _ & H2 & H3 & _).
  - vm_compute. reflexivity.
  - vm_compute. discriminate.
  - exists s'. split; [|split; [exact H2|exact H3]]. rewrite <-H1. by destruct demo_shared.
Defined.

(** A broker that delivers the retained message as soon as the query waits. *)
Definition demo_retained : ReceivedMessage := mkReceived demo_topic [x6f; x6b] 0 true.
Definition demo_await : M demo_world ReceivedMessage := mret demo_retained.
Definition demo_request : RetainedQueryRequest := mkRetainedQueryRequest demo_topic.
Definition demo_query : demo_world * outcome RetainedQueryResponse :=
  query_retained mqtt_match demo_acl demo_request (&"u") demo_await (new_service, demo_client).

Lemma demo_consistent : consistent (new_service, demo_client).
Proof. split; [exact new_service_ok|]. cbn. apply NoDup_singleton. Qed.

Lemma query_retained_cleans_up_witness :
  consistent demo_query.1
  ∧ owners_at (abstraction demo_query.1.1) demo_topic !! query_owner (&"u") = None
  ∧ is_ok demo_query.2 = true.
Proof.
  pose proof (query_retained_cleans_up mqtt_match demo_acl demo_request (&"u") demo_await
    new_service demo_client demo_consistent) as H. fold demo_query in H.
  destruct demo_query as [[s' c'] r] eqn:E. destruct H as (H1 & H2 & _).
  - cbn. intros Hin. apply list_elem_of_singleton in Hin. discriminate Hin.
  - vm_compute. reflexivity.
  - intros w Hw. exact Hw.
  - split; [exact H1|]. split; [exact H2|]. apply (f_equal (λ q, is_ok q.2)) in E. rewrite <-E.
    vm_compute. reflexivity.
Defined.

Lemma query_retained_returns_topic_witness :
  ∃ message payload,
    demo_query.2 = Ok (mkRetainedQueryResponse true
                         (Some (mkRetainedMessage demo_topic payload (rx_qos message) true)) None)
    ∧ decode (rx_payload message) = Ok payload.
Proof.
  pose proof (query_retained_returns_topic mqtt_match demo_acl demo_request (&"u") demo_await
    new_service demo_client demo_query.1
    (mkRetainedQueryResponse true (Some (mkRetainedMessage demo_topic (&"ok") 0 true)) None)) as H.
  destruct H as (message & payload & H1 & H2 & _).
  - intros w w' m [= <- <-]. exists [demo_retained]. vm_compute. reflexivity.
  - vm_compute. reflexivity.
  - reflexivity.
  - exists message, payload. split; [|exact H2].
    refine (eq_trans _ (f_equal Ok H1)). vm_compute. reflexivity.
Defined.

Definition demo_packets : list (ReceivedMessage * Q) :=
  [(demo_retained, 0%Q); (mkReceived (&"gateway/private/x") [] 0 false, 1%Q); (demo_retained, 2%Q)].

Lemma statistics_are_bounded_and_recent_witness :
  stats_ok mqtt_match demo_acl demo_packets
    (s_topic_statistics (handle_all mqtt_match demo_acl demo_packets new_service))
  ∧ counted_topics mqtt_match demo_acl demo_packets = [demo_topic; demo_topic].
Proof.
  split; [|vm_compute; reflexivity].
  apply (statistics_are_bounded_and_recent mqtt_match demo_acl demo_packets new_service).
  - cbn. lia.
  - reflexivity.
Defined.
