(* ===== verification/Api.v ===== *)
(** * The REST interface ([api/__init__.py])

    Every handler with its dependencies: [UserDep] runs first and refuses the
    request before the service is reached; the body is validated by its model.
    [list_topics] and [get_topic_info] read the subscription table and the
    statistics cache. *)

From Stdlib Require Import QArith.QArith.
From S2P Require Import Prelude PyStr PyDict PyVal Passwords Config Topics Models Auth Client Interface Service ServiceFacts.
#[local] Open Scope Z_scope.

(** One constructor per authenticated route, with the decoded body or path. *)
Inductive rest_request : Type :=
  | PostPublish (body : PublishRequest)
  | PostSubscribe (body : SubscribeRequest)
  | PostUnsubscribe (body : UnsubscribeRequest)
  | PostRetained (body : RetainedQueryRequest)
  | GetTopics
  | GetTopic (topic : pystr).

Inductive rest_response : Type :=
  | RPublish (r : PublishResponse)
  | RSubscribe (r : SubscribeResponse)
  | RUnsubscribe (r : UnsubscribeResponse)
  | RRetained (r : RetainedQueryResponse)
  | RTopics (l : list TopicInfo)
  | RTopic (i : TopicInfo).

Section api.
Context {C : Type} `{MessageClient C} `{PyJWT}.
Context (topic_matches_sub : pystr → pystr → bool) (settings : Settings).
Notation world := (MQTTService * C)%type.

(** [get_user_dep] *)
Definition get_user_dep (now : Q) (credentials : option pystr) : outcome pystr :=
  user_username <$> get_current_user settings now credentials.

(** [list_topics]: a list comprehension over a copy of the table. *)
Fixpoint topic_infos (topics : list pystr) : M world (list TopicInfo) :=
  match topics with
  | [] => mret []
  | topic :: topics =>
    info ← get_topic_info topic_matches_sub settings topic;
    infos ← topic_infos topics;
    mret (info :: infos)
  end.

Definition list_topics : M world (list TopicInfo) :=
  w ← get; topic_infos (dict_keys (get_subscriptions (fst w))).

(** [get_topic_info] of the router *)
Definition get_topic (topic : pystr) : M world TopicInfo :=
  w ← get;
  if negb (is_subscribed topic (fst w)) then raise (http_exception 404 "Topic not subscribed")
  else get_topic_info topic_matches_sub settings topic.

(** [publish_message], [subscribe_topic], [unsubscribe_topic],
    [query_retained_message], [list_topics], [get_topic_info]: [uuid] and
    [await] are those of the retained query. *)
Definition rest (now : Q) (credentials : option pystr) (uuid : pystr) (await : M world ReceivedMessage)
    (request : rest_request) : M world rest_response :=
  _ ← lift (get_user_dep now credentials);
  match request with
  | PostPublish body =>
    body ← lift (validate_publish_request body);
    r ← publish topic_matches_sub settings body; mret (RPublish r)
  | PostSubscribe body =>
    body ← lift (validate_subscribe_request body);
    r ← subscribe topic_matches_sub settings body; mret (RSubscribe r)
  | PostUnsubscribe body =>
    body ← lift (validate_unsubscribe_request body);
    r ← unsubscribe topic_matches_sub settings body; mret (RUnsubscribe r)
  | PostRetained body =>
    body ← lift (validate_retained_request body);
    r ← query_retained topic_matches_sub settings body uuid await; mret (RRetained r)
  | GetTopics => l ← list_topics; mret (RTopics l)
  | GetTopic topic => i ← get_topic topic; mret (RTopic i)
  end.

(** Every subscribed topic passed the authorization that [get_topic_info]
    repeats. *)
Definition tables_authorized (s : MQTTService) : Prop :=
  ∀ topic, topic ∈ dict_keys (s_subscriptions s) →
  authorize_topic topic_matches_sub topic settings true = Ok tt.
End api.

(** [health_check], [readiness_check]; [None]: the application has no client. *)
Definition health_check {P PCb MCb} `{Paho P} (settings : Settings) (client : option (MQTTClient P PCb MCb)) :
  HealthResponse :=
  mkHealthResponse (&"ok") (app_version settings)
    (match client with Some c => is_connected c | None => false end).

Definition readiness_check {P PCb MCb} `{Paho P} (settings : Settings) (client : option (MQTTClient P PCb MCb)) :
  outcome HealthResponse :=
  if negb (match client with Some c => is_connected c | None => false end)
  then Raise (http_exception 503 "MQTT broker is disconnected")
  else Ok (health_check settings client).

(** ** Theorems *)

Section facts.
Context {C : Type} `{MessageClientLaws C} `{PyJWTLaws}.
Context (topic_matches_sub : pystr → pystr → bool) (settings : Settings).
Notation world := (MQTTService * C)%type.
Notation authorized := (tables_authorized topic_matches_sub settings).
Implicit Types (s : MQTTService) (c : C).

Lemma acquire_authorized topic qos owner refresh s c :
  authorized s →
  authorized (fst (fst (acquire_subscription topic_matches_sub settings topic qos owner refresh (s, c)))).
Proof.
  intros Ha. destruct (acquire_cases topic_matches_sub settings topic qos owner refresh s c)
    as [(e & -> & _)|(m & Hauth & _ & [(_ & _ & ->)|(c2 & [u|e] & _ & ->)])]; try done;
    cbn; intros t; cbn; rewrite dict_keys_get, dict_get_set; (case_decide as Ht; [by subst|]);
    rewrite <-dict_keys_get; apply Ha.
Qed.

Lemma dict_keys_pop_subset {V} (k k' : pystr) (d : pydict pystr V) :
  k' ∈ dict_keys (dict_pop k d) → k' ∈ dict_keys d.
Proof.
  unfold dict_keys. induction d as [|[k1 v1] d IH]; cbn; [done|]. case_decide.
  - rewrite elem_of_cons. by right.
  - cbn. rewrite !elem_of_cons. tauto.
Qed.

Lemma release_authorized topic owner s c :
  authorized s → authorized (fst (fst (release_subscription topic owner (s, c)))).
Proof.
  intros Ha. destruct (release_cases topic owner s c) as
    [[-> _]|[(o & n & _ & _ & _ & ->)|(o & n & _ & _ & _ & ->)]]; try done.
  intros t. cbn. intros Ht%dict_keys_pop_subset. by apply Ha.
Qed.

Lemma run_call_authorized k s c :
  authorized s → authorized (fst (fst (run_call topic_matches_sub settings k (s, c)))).
Proof.
  intros Ha. destruct k as [topic qos owner refresh|topic owner|request|request|request]; cbn [run_call].
  - by apply acquire_authorized.
  - by apply release_authorized.
  - unfold forget_result, subscribe. run_M.
    pose proof (acquire_authorized (sub_topic request) (sub_qos request) (&"rest") false s c Ha) as H'.
    by destruct (acquire_subscription _ _ _ _ _ _ _) as [w [u|e]].
  - unfold forget_result, unsubscribe, authorize. run_M.
    destruct (authorize_topic _ _ _ _) as [u|e]; [|done].
    pose proof (release_authorized (unsub_topic request) (&"rest") s c Ha) as H'.
    by destruct (release_subscription _ _ _) as [w [u'|e]].
  - unfold forget_result, publish, authorize, try_except, on_client, zoom. run_M.
    destruct (authorize_topic _ _ _ _) as [u|e]; [|done].
    destruct (PyStr.encode _) as [b|e]; cbn; [|by destruct (is_exception _)].
    destruct (cl_publish _ _ _ _ c) as [c' [mid|e]]; cbn; [done|by destruct (is_exception _)].
Qed.

Lemma run_calls_authorized ks s c :
  authorized s → authorized (fst (fst (run_calls topic_matches_sub settings ks (s, c)))).
Proof.
  revert s c. induction ks as [|k ks IH]; intros s c Ha; cbn [run_calls]; [done|].
  pose proof (run_call_authorized k s c Ha) as Hk.
  destruct (run_call topic_matches_sub settings k (s, c)) as [[s1 c1] r]. cbn in Hk.
  pose proof (IH s1 c1 Hk) as Hks. by destruct (run_calls _ _ ks (s1, c1)).
Qed.

Definition info_of s (topic : pystr) : TopicInfo :=
  default (mkTopicInfo topic 0 None) (dict_get topic (s_topic_statistics s)).

Lemma get_topic_info_run topic s c :
  get_topic_info topic_matches_sub settings topic (s, c) =
    ((s, c), match authorize_topic topic_matches_sub topic settings true with
             | Ok _ => Ok (info_of s topic)
             | Raise e => Raise e
             end).
Proof. unfold get_topic_info, authorize. run_M. by destruct (authorize_topic _ _ _ _). Qed.

Lemma topic_infos_run topics s c :
  (∀ t, t ∈ topics → authorize_topic topic_matches_sub t settings true = Ok tt) →
  topic_infos topic_matches_sub settings topics (s, c) = ((s, c), Ok (info_of s <$> topics)).
Proof.
  induction topics as [|t topics IH]; intros Ha; [done|]. cbn [topic_infos].
  unfold mbind, M_bind. rewrite get_topic_info_run, (Ha t) by apply list_elem_of_here. cbn.
  rewrite IH; [done|]. intros t' Ht'. by apply Ha, list_elem_of_further.
Qed.

(** no route does anything without a valid token: the request is refused
    with HTTP 401 and neither the service nor the MQTT client changes. *)
Theorem rest_requires_token now credentials uuid await request s c
    (Hinvalid : ∀ token, credentials = Some token → verify_token settings now token = Ok None) :
  ∃ e, rest topic_matches_sub settings now credentials uuid await request (s, c) = ((s, c), Raise e)
  ∧ exn_kind e = EHTTP 401.
Proof.
  unfold rest, get_user_dep. run_M. unfold get_current_user. destruct credentials as [token|].
  - rewrite (Hinvalid token) by done. cbn. eauto.
  - cbn. eauto.
Qed.

(** After any sequence of service calls the topic list is the subscription
    table in order, one entry per subscribed topic with its statistics, and the
    request never fails; a topic that is not subscribed is answered with 404. *)
Theorem topic_routes_show_subscriptions ks s0 c0 s c rs
    (Hstart : authorized s0)
    (Hrun : run_calls topic_matches_sub settings ks (s0, c0) = ((s, c), rs)) :
  list_topics topic_matches_sub settings (s, c) = ((s, c), Ok (info_of s <$> dict_keys (s_subscriptions s)))
  ∧ ∀ topic, get_topic topic_matches_sub settings topic (s, c) =
      ((s, c), if decide (topic ∈ dict_keys (s_subscriptions s)) then Ok (info_of s topic)
               else Raise (http_exception 404 "Topic not subscribed")).
Proof.
  pose proof (run_calls_authorized ks s0 c0 Hstart) as Ha. rewrite Hrun in Ha. cbn [fst] in Ha. split.
  - unfold list_topics. unfold mbind, M_bind, get. cbn. by apply topic_infos_run.
  - intros topic. unfold get_topic, is_subscribed. run_M. unfold dict_has.
    case_decide as Ht; rewrite dict_keys_get in Ht.
    + rewrite bool_decide_true by done. cbn. rewrite get_topic_info_run, Ha; [done|]. by apply dict_keys_get.
    + by rewrite bool_decide_false.
Qed.
End facts.

(** readiness is reported exactly while the broker connection is up, with
    the same body as the health check, and is HTTP 503 otherwise; health always
    answers. *)
Theorem readiness_follows_connection {P PCb MCb} `{Paho P} settings (client : option (MQTTClient P PCb MCb)) :
  health_status (health_check settings client) = &"ok"
  ∧ health_version (health_check settings client) = app_version settings
  ∧ ((∃ c p, client = Some c ∧ c_client c = Some p ∧ paho_is_connected p = true ∧ c_connected c = true
      ∧ health_connected (health_check settings client) = true
      ∧ readiness_check settings client = Ok (health_check settings client))
     ∨ (health_connected (health_check settings client) = false
        ∧ readiness_check settings client = Raise (http_exception 503 "MQTT broker is disconnected"))).
Proof.
  split; [done|]. split; [done|]. unfold readiness_check, health_check, is_connected.
  destruct client as [c|]; [|by right]. destruct (c_client c) as [p|] eqn:Ep; [|by right].
  destruct (paho_is_connected p && c_connected c) eqn:E; cbn; [|by right].
  left. apply andb_true_iff in E as [? ?]. exists c, p. split_and!; done.
Qed.
