(* ===== verification/Stream.v ===== *)
(** * The streaming phase of a WebSocket session ([api/__init__.py])

    [ws_callback], [send_messages] and the three tasks of the task group, as a
    transition system: a step is what one task does between two suspension
    points.  [finished] only lets the owner task cancel the group; until it does,
    the other tasks may still run, and after that only the packet callback may,
    until the owner removes it.  The receiver, the overflow task and the owner's
    wait each end once. *)

From Stdlib Require Import QArith.QArith.
From S2P Require Import Prelude PyStr PyDict PyVal Passwords Config Topics Models.
#[local] Open Scope Z_scope.

(** A frame of the stream; [msg.model_dump()] keeps every field. *)
Inductive frame : Type :=
  | FData (msg : MQTTMessage)
  | FPing.

(** Where [send_messages] is suspended.  [checked]: the clock at the last test of
    [remaining]. *)
Inductive sender_state : Type :=
  | SChecking
  | SGetting (checked : Q)
  | SSending (checked : Q) (data : frame)
  | SStopped.

Record Stream : Type := mkStream {
  t_queue : list MQTTMessage;
  t_overflow : bool;
  t_sender : sender_state;
  t_sent : list (Q * frame);
  t_close : option (Z * string);
  t_finished : bool;
  t_receiving : bool;  (** [run_receiver] has not returned *)
  t_watching : bool;   (** [run_overflow] has not returned *)
  t_cancelled : bool;  (** the owner has cancelled the group *)
}.

Definition new_stream : Stream := mkStream [] false SChecking [] None false true true false.

Section stream.
Context (topic_matches_sub : pystr → pystr → bool) (settings : Settings).
Context (requested : list pystr) (exp : Q).

Definition relevant (message : ReceivedMessage) : bool :=
  existsb (λ pattern, topic_matches_sub pattern (rx_topic message)) requested
  && (Z.of_nat (length (rx_payload message)) <=? max_message_bytes settings).

Definition stream_message (message : ReceivedMessage) (now : Q) : MQTTMessage :=
  mkMQTTMessage (rx_topic message) (decode_replace (rx_payload message)) (rx_qos message) (rx_retain message) now.

(** [ws_callback] *)
Definition ws_callback (message : ReceivedMessage) (now : Q) (t : Stream) : Stream :=
  if negb (existsb (λ pattern, topic_matches_sub pattern (rx_topic message)) requested) then t
  else if max_message_bytes settings <? Z.of_nat (length (rx_payload message)) then t
  else if Z.of_nat (length (t_queue t)) <? websocket_queue_size settings
  then mkStream (t_queue t ++ [stream_message message now]) (t_overflow t) (t_sender t) (t_sent t)
         (t_close t) (t_finished t) (t_receiving t) (t_watching t) (t_cancelled t)
  else mkStream (t_queue t) true (t_sender t) (t_sent t) (t_close t) (t_finished t) (t_receiving t) (t_watching t) (t_cancelled t).

Definition set_sender (st : sender_state) (t : Stream) : Stream :=
  mkStream (t_queue t) (t_overflow t) st (t_sent t) (t_close t) (t_finished t) (t_receiving t) (t_watching t) (t_cancelled t).

(** [close_message = await send_messages()] ... [finally: finished.set()] *)
Definition sender_returns (code : Z) (reason : string) (t : Stream) : Stream :=
  mkStream (t_queue t) (t_overflow t) SStopped (t_sent t) (Some (code, reason)) true (t_receiving t) (t_watching t) (t_cancelled t).

(** The head of the loop of [send_messages]. *)
Definition sender_check (now : Q) (t : Stream) : Stream :=
  if Qle_bool (exp - now) 0 then sender_returns 1008 "Token expired" t else set_sender (SGetting now) t.

(** [except TimeoutError] of the wait for a message. *)
Definition sender_idle (checked now : Q) (t : Stream) : Stream :=
  if Qle_bool exp now then set_sender SChecking t else set_sender (SSending checked FPing) t.

Definition sender_sent (checked : Q) (data : frame) (t : Stream) : Stream :=
  mkStream (t_queue t) (t_overflow t) SChecking (t_sent t ++ [(checked, data)]) (t_close t) (t_finished t) (t_receiving t) (t_watching t) (t_cancelled t).

(** [msg = await message_queue.get()] *)
Definition sender_takes (checked : Q) (msg : MQTTMessage) (queue : list MQTTMessage) (t : Stream) : Stream :=
  mkStream queue (t_overflow t) (SSending checked (FData msg)) (t_sent t) (t_close t) (t_finished t)
    (t_receiving t) (t_watching t) (t_cancelled t).

(** [run_receiver]: the client's disconnect ends it. *)
Definition run_receiver (t : Stream) : Stream :=
  mkStream (t_queue t) (t_overflow t) (t_sender t) (t_sent t) (t_close t) true false (t_watching t) (t_cancelled t).

(** [run_overflow], once [overflow.wait()] returns. *)
Definition run_overflow (t : Stream) : Stream :=
  mkStream (t_queue t) (t_overflow t) (t_sender t) (t_sent t) (Some (1013, "Client cannot keep up"%string)) true
    (t_receiving t) false (t_cancelled t).

(** The owner, once [finished.wait()] returns: [group.cancel_scope.cancel()]. *)
Definition cancel_group (t : Stream) : Stream :=
  mkStream (t_queue t) (t_overflow t) (t_sender t) (t_sent t) (t_close t) (t_finished t)
    (t_receiving t) (t_watching t) true.

(** The exceptions [run_sender] turns into a close frame. *)
Definition stream_error (k : exn_class) : bool :=
  match k with EDisconnect | ERuntime | ETimeout => true | _ => false end.

Inductive stream_event : Type :=
  | TPacket (message : ReceivedMessage) (now : Q)
  | TCheck (now : Q)
  | TGet
  | TIdle (now : Q)
  | TSent
  | TSendTimeout
  | TSendError (e : exn)
  | TDisconnect
  | TOverflow
  | TCancel.

Inductive stream_step : Stream → stream_event → Stream → Prop :=
  | step_packet t message now : stream_step t (TPacket message now) (ws_callback message now t)
  | step_check t now :
      t_cancelled t = false → t_sender t = SChecking → stream_step t (TCheck now) (sender_check now t)
  | step_get t checked msg queue :
      t_cancelled t = false → t_sender t = SGetting checked → t_queue t = msg :: queue →
      stream_step t TGet (sender_takes checked msg queue t)
  | step_idle t checked now :
      t_cancelled t = false → t_sender t = SGetting checked → stream_step t (TIdle now) (sender_idle checked now t)
  | step_sent t checked data :
      t_cancelled t = false → t_sender t = SSending checked data → stream_step t TSent (sender_sent checked data t)
  | step_send_timeout t checked data :
      t_cancelled t = false → t_sender t = SSending checked data →
      stream_step t TSendTimeout (sender_returns 1013 "Client cannot keep up" t)
  | step_send_error t checked data e :
      t_cancelled t = false → t_sender t = SSending checked data → stream_error (exn_kind e) = true →
      stream_step t (TSendError e) (sender_returns 1011 "Stream unavailable" t)
  | step_disconnect t :
      t_cancelled t = false → t_receiving t = true → stream_step t TDisconnect (run_receiver t)
  | step_overflow t :
      t_cancelled t = false → t_watching t = true → t_overflow t = true →
      stream_step t TOverflow (run_overflow t)
  | step_cancel t :
      t_cancelled t = false → t_finished t = true → stream_step t TCancel (cancel_group t).

Notation stream_steps := (steps stream_step).

(** ** What was accepted, sent and left *)

Definition data_of (f : frame) : list MQTTMessage := match f with FData m => [m] | FPing => [] end.

Definition arrived (e : stream_event) : list MQTTMessage :=
  match e with
  | TPacket message now => if relevant message then [stream_message message now] else []
  | _ => []
  end.

Definition sent_data (t : Stream) : list MQTTMessage := t_sent t ≫= λ cf, data_of cf.2.

Definition sending (t : Stream) : list MQTTMessage :=
  match t_sender t with SSending _ f => data_of f | _ => [] end.

(** The messages of the stream in order: those sent, the one being sent (or
    abandoned when the sender stopped) and those queued. *)
Record stream_ok (accepted : list MQTTMessage) (t : Stream) : Prop := {
  sk_queue : Z.of_nat (length (t_queue t)) ≤ websocket_queue_size settings;
  sk_order : ∃ lost, (lost = [] ∨ t_sender t = SStopped)
    ∧ sublist (sent_data t ++ sending t ++ lost ++ t_queue t) accepted
    ∧ (t_overflow t = false → accepted = sent_data t ++ sending t ++ lost ++ t_queue t);
  sk_live : ∀ checked data, (checked, data) ∈ t_sent t → (checked < exp)%Q;
  sk_checked : ∀ checked data, t_sender t = SGetting checked ∨ t_sender t = SSending checked data → (checked < exp)%Q;
  sk_close : ∀ code reason, t_close t = Some (code, reason) →
    (code = 1008 ∧ reason = "Token expired"%string) ∨ (code = 1011 ∧ reason = "Stream unavailable"%string)
    ∨ (code = 1013 ∧ reason = "Client cannot keep up"%string);
  sk_finished : is_Some (t_close t) → t_finished t = true;
  sk_stopped : t_sender t = SStopped → is_Some (t_close t);
}.

Lemma relevant_spec message :
  relevant message = true ↔
    existsb (λ pattern, topic_matches_sub pattern (rx_topic message)) requested = true
    ∧ Z.of_nat (length (rx_payload message)) ≤ max_message_bytes settings.
Proof. unfold relevant. by rewrite andb_true_iff, Z.leb_le. Qed.

Lemma ws_callback_cases message now t :
  (relevant message = false ∧ ws_callback message now t = t)
  ∨ (relevant message = true ∧ Z.of_nat (length (t_queue t)) < websocket_queue_size settings
     ∧ ws_callback message now t =
         mkStream (t_queue t ++ [stream_message message now]) (t_overflow t) (t_sender t) (t_sent t)
           (t_close t) (t_finished t) (t_receiving t) (t_watching t) (t_cancelled t))
  ∨ (relevant message = true ∧ websocket_queue_size settings ≤ Z.of_nat (length (t_queue t))
     ∧ ws_callback message now t =
         mkStream (t_queue t) true (t_sender t) (t_sent t) (t_close t) (t_finished t) (t_receiving t) (t_watching t) (t_cancelled t)).
Proof.
  unfold ws_callback, relevant. destruct (existsb _ _); cbn; [|by left].
  rewrite Z.ltb_antisym. destruct (_ <=? max_message_bytes settings); cbn; [|by left].
  destruct (Z.ltb_spec (Z.of_nat (length (t_queue t))) (websocket_queue_size settings)); auto.
Qed.

Lemma sublist_extra {A} (l l' : list A) x : sublist l l' → sublist l (l' ++ [x]).
Proof. intros. rewrite <-(app_nil_r l). apply sublist_app; [done|apply sublist_nil_l]. Qed.

Lemma stream_ok_packet accepted message now t :
  stream_ok accepted t → stream_ok (accepted ++ arrived (TPacket message now)) (ws_callback message now t).
Proof.
  intros [H1 (lost & Hl & H2 & H2') H3 H4 H5 H6 H7]. cbn.
  destruct (ws_callback_cases message now t) as [(-> & ->)|[(-> & Hq & ->)|(-> & Hq & ->)]].
  - rewrite app_nil_r. constructor; eauto.
  - constructor; cbn; [rewrite length_app; cbn; lia| |done..].
    exists lost. split; [done|]. unfold sent_data, sending in *. cbn. rewrite !app_assoc in *. split.
    + by apply sublist_app.
    + intros Hov. by rewrite (H2' Hov).
  - constructor; cbn; [done| |done..]. exists lost. split; [done|]. split; [|done]. by apply sublist_extra.
Qed.

(** The end of the sender keeps what it was sending as lost. *)
Lemma stream_ok_returns accepted t checked data code reason :
  stream_ok accepted t → t_sender t = SSending checked data ∨ t_sender t = SChecking →
  (code = 1008 ∧ reason = "Token expired"%string) ∨ (code = 1011 ∧ reason = "Stream unavailable"%string)
  ∨ (code = 1013 ∧ reason = "Client cannot keep up"%string) →
  stream_ok accepted (sender_returns code reason t).
Proof.
  intros [H1 (lost & Hl & H2 & H2') H3 H4 H5 H6 H7] Hs Hc.
  constructor; cbn; [done| |done|by intros ? ? [?|?]|by intros ? ? [= <- <-]|done|by eauto].
  exists (sending t ++ lost). split; [by right|]. unfold sent_data, sending in *. cbn.
  rewrite <-!app_assoc in *. done.
Qed.

Lemma stream_ok_step accepted t e t' :
  stream_ok accepted t → stream_step t e t' → stream_ok (accepted ++ arrived e) t'.
Proof.
  intros Hok Hstep. destruct Hstep as [t message now|t now _ Hs|t checked msg queue _ Hs Hq|t checked now _ Hs
    |t checked data _ Hs|t checked data _ Hs|t checked data e _ Hs He|t _ _|t _ _ Ho|t _ Hf];
    [by apply stream_ok_packet|..]; cbn [arrived]; rewrite app_nil_r;
    pose proof Hok as [H1 (lost & Hl & H2 & H2') H3 H4 H5 H6 H7].
  - unfold sender_check. destruct (Qle_bool (exp - now) 0) eqn:E.
    + apply (stream_ok_returns _ _ 0%Q FPing); tauto.
    + assert (now < exp)%Q as Hlive.
      { apply Qnot_le_lt. intros Hle. apply not_true_iff_false in E. apply E, Qle_bool_iff.
        apply (Qplus_le_l _ _ now). ring_simplify. done. }
      constructor; cbn; try done; [|by intros ? ? [[= <-]|?]].
      exists lost. unfold sent_data, sending in *. rewrite Hs in *. cbn. by destruct Hl as [->|?]; [eauto|].
  - constructor; cbn; try done; [rewrite Hq in H1; cbn in H1; lia| |intros ? ? [?|[= <- <-]]; [done|apply (H4 _ FPing); auto]].
    exists []. split; [by left|]. unfold sent_data, sending in *. rewrite Hs, Hq in *. cbn in *.
    by destruct Hl as [->|?].
  - unfold sender_idle. destruct (Qle_bool exp now) eqn:E; constructor; cbn; try done;
      try (by intros ? ? [?|?]); try (intros ? ? [?|[= <- <-]]; [done|apply (H4 _ FPing); auto]);
      exists []; (split; [by left|]); unfold sent_data, sending in *; rewrite Hs in *; cbn in *;
      by destruct Hl as [->|?].
  - constructor; cbn; try done; [| |by intros ? ? [?|?]].
    + exists []. split; [by left|]. unfold sent_data, sending in *. rewrite Hs in *. cbn in *.
      rewrite bind_app. cbn. rewrite app_nil_r, <-app_assoc. by destruct Hl as [->|?].
    + intros c d [Hin|[= <- <-]%list_elem_of_singleton]%elem_of_app; eauto.
  - apply (stream_ok_returns _ _ checked data); tauto.
  - apply (stream_ok_returns _ _ checked data); tauto.
  - constructor; cbn; eauto.
  - constructor; cbn; eauto. intros ? ? [= <- <-]. tauto.
  - constructor; cbn; eauto.
Qed.

Lemma stream_ok_steps accepted t es t' :
  stream_ok accepted t → stream_steps t es t' → stream_ok (accepted ++ (es ≫= arrived)) t'.
Proof.
  intros Hok Hs. revert accepted Hok. induction Hs as [t|t e t1 es t2 Hstep Hs IH]; intros accepted Hok; cbn.
  - by rewrite app_nil_r.
  - rewrite app_assoc. apply IH. by eapply stream_ok_step.
Qed.

Lemma new_stream_ok : 1 ≤ websocket_queue_size settings → stream_ok [] new_stream.
Proof.
  intros Hq. constructor; cbn; try done; try lia; try (by intros ? ? [?|?]); try (by intros ? ? ?%elem_of_nil);
    try (by intros [??]).
  exists []. auto.
Qed.

(** C17: in every execution of the streaming phase the session's queue stays
    within [websocket_queue_size]; the messages sent, being sent and queued are
    the accepted packets in their order of arrival, and none is missing unless
    the overflow event is set; only packets that match a requested filter within
    the size limit are accepted. *)
Theorem stream_delivers_in_order es t (Hq : 1 ≤ websocket_queue_size settings)
    (Hrun : stream_steps new_stream es t) :
  Z.of_nat (length (t_queue t)) ≤ websocket_queue_size settings
  ∧ sublist (sent_data t) (es ≫= arrived)
  ∧ (t_sender t ≠ SStopped →
     sublist (sent_data t ++ sending t ++ t_queue t) (es ≫= arrived)
     ∧ (t_overflow t = false → sent_data t ++ sending t ++ t_queue t = es ≫= arrived))
  ∧ (t_overflow t = false → sent_data t `prefix_of` (es ≫= arrived)).
Proof.
  destruct (stream_ok_steps [] _ _ _ (new_stream_ok Hq) Hrun) as [H1 (lost & Hl & H2 & H2') H3 H4 H5 H6 H7].
  cbn [app] in *. split_and!; [done| | |].
  - etrans; [|exact H2]. apply sublist_inserts_r. done.
  - intros Hns. destruct Hl as [->|?]; [|done]. cbn [app] in *. split; [done|]. intros Ho. symmetry. auto.
  - intros Ho. rewrite (H2' Ho). by apply prefix_app_r.
Qed.

(** C18: every frame the session sends was begun after a test that found the
    token unexpired: nothing is sent once a test has seen the expiry, which ends
    the session with code 1008.  The session closes only with 1008, 1011 or 1013
    and the reason that belongs to the code, and once it has a close code the
    owner task is woken to cancel the group. *)
Theorem stream_respects_expiry es t (Hq : 1 ≤ websocket_queue_size settings)
    (Hrun : stream_steps new_stream es t) :
  (∀ checked data, (checked, data) ∈ t_sent t → (checked < exp)%Q)
  ∧ (∀ now t', (exp <= now)%Q → stream_step t (TCheck now) t' →
       t_sender t' = SStopped ∧ t_close t' = Some (1008, "Token expired"%string) ∧ t_finished t' = true
       ∧ t_sent t' = t_sent t)
  ∧ (∀ code reason, t_close t = Some (code, reason) →
       (code, reason) ∈ [(1008, "Token expired"); (1011, "Stream unavailable"); (1013, "Client cannot keep up")]%string
       ∧ t_finished t = true)
  ∧ (t_sender t = SStopped → ∀ e t', stream_step t e t' → t_sent t' = t_sent t).
Proof.
  destruct (stream_ok_steps [] _ _ _ (new_stream_ok Hq) Hrun) as [H1 _ H3 H4 H5 H6 H7].
  split_and!; [done| | |].
  - intros now t' Hnow Hstep. inversion Hstep as [|? ? _ Hs| | | | | | | |]; subst.
    unfold sender_check. assert (Qle_bool (exp - now) 0 = true) as ->; [|done].
    apply Qle_bool_iff. apply (Qplus_le_l _ _ now). ring_simplify. done.
  - intros code reason Hc. split; [|eauto]. destruct (H5 _ _ Hc) as [[-> ->]|[[-> ->]|[-> ->]]]; set_solver.
  - intros Hs e t' Hstep. inversion Hstep; subst; cbn; try congruence.
    unfold ws_callback. repeat case_match; done.
Qed.

(** ** The end of the session *)

(** The turns of the overflow task and of the owner. *)
Definition turn (e : stream_event) : bool := match e with TOverflow | TCancel => true | _ => false end.
Definition turns (es : list stream_event) : nat := length (filter turn es).

(** The turns that these two tasks have left. *)
Definition pending (t : Stream) : nat := if t_cancelled t then 0%nat else if t_watching t then 2%nat else 1%nat.

(** Who ended the stream: the overflow task, the sender or the client. *)
Record ending_ok (t : Stream) : Prop := {
  ek_overflow : t_watching t = false →
    t_finished t = true ∧ (t_close t = Some (1013, "Client cannot keep up"%string) ∨ t_sender t = SStopped);
  ek_finished : t_finished t = true → t_watching t = false ∨ t_sender t = SStopped ∨ t_receiving t = false;
  ek_cancelled : t_cancelled t = true → t_finished t = true;
}.

Lemma ending_ok_step t e t' : ending_ok t → stream_step t e t' → ending_ok t'.
Proof.
  intros [H1 H2 H3] Hstep. destruct Hstep as [t message now|t now Hc Hs|t checked msg queue Hc Hs Hq|t checked now Hc Hs
    |t checked data Hc Hs|t checked data Hc Hs|t checked data e Hc Hs He|t Hc Hr|t Hc Hw Ho|t Hc Hf];
    unfold ws_callback, sender_check, sender_idle; repeat case_match;
    constructor; cbn; try rewrite Hs in *; naive_solver.
Qed.

Lemma new_stream_ending : ending_ok new_stream.
Proof. done. Qed.

(** Every turn uses up one of the pending ones, and no other step adds one. *)
Lemma pending_step t e t' :
  stream_step t e t' → (pending t' + (if turn e then 1 else 0) ≤ pending t)%nat.
Proof.
  intros Hstep. unfold pending.
  destruct Hstep as [t message now|t now Hc Hs|t checked msg queue Hc Hs Hq|t checked now Hc Hs
    |t checked data Hc Hs|t checked data Hc Hs|t checked data e Hc Hs He|t Hc Hr|t Hc Hw Ho|t Hc Hf];
    unfold ws_callback, sender_check, sender_idle; repeat case_match; cbn in *; try congruence; lia.
Qed.

Lemma turns_cons e es : turns (e :: es) = ((if turn e then 1 else 0) + turns es)%nat.
Proof. unfold turns. rewrite filter_cons. destruct (turn e); cbn; [by rewrite decide_True|by rewrite decide_False by auto]. Qed.

Lemma pending_steps t es t' : stream_steps t es t' → (pending t' + turns es ≤ pending t)%nat.
Proof.
  induction 1 as [|t1 e t2 es t3 Hstep Hs IH]; [unfold turns; cbn; lia|]. apply pending_step in Hstep. rewrite turns_cons. lia.
Qed.

Lemma overflow_step t e t' : t_overflow t = true → stream_step t e t' → t_overflow t' = true.
Proof.
  intros Hov Hstep. inversion Hstep; subst; cbn; try done; unfold ws_callback, sender_check, sender_idle; by repeat case_match.
Qed.

(** C27: a session whose client is too slow ends.  A relevant packet that finds
    the queue full is dropped and sets the overflow event, which never clears.
    From then on the group is never left waiting: until the owner has cancelled
    it, the overflow task (which ends once) or the owner can take a turn, at most
    two such turns are left, and two of them, in any interleaving with the other
    tasks, cancel the group, after which nothing more is sent.  Once the overflow
    task has had its turn the close code is 1013 unless the sender has itself
    returned one; a group cancelled before that was ended by the sender or by the
    client. *)
Theorem stream_overflow_closes es0 t message now (Hrun : stream_steps new_stream es0 t)
    (Hrel : relevant message = true) (Hfull : websocket_queue_size settings ≤ Z.of_nat (length (t_queue t))) :
  let t1 := ws_callback message now t in
  t_overflow t1 = true ∧ t_queue t1 = t_queue t ∧ t_sent t1 = t_sent t
  ∧ ∀ es t2, stream_steps t1 es t2 →
      t_overflow t2 = true
      ∧ (t_cancelled t2 = false → ∃ e t3, turn e = true ∧ stream_step t2 e t3)
      ∧ (turns es ≤ 2)%nat
      ∧ (turns es = 2%nat → t_cancelled t2 = true)
      ∧ (t_cancelled t2 = true →
           (t_close t2 = Some (1013, "Client cannot keep up"%string) ∨ t_sender t2 = SStopped ∨ t_receiving t2 = false)
           ∧ ∀ e t3, stream_step t2 e t3 → t_sent t3 = t_sent t2 ∧ t_close t3 = t_close t2)
      ∧ (t_watching t2 = false →
           t_finished t2 = true
           ∧ (t_close t2 = Some (1013, "Client cannot keep up"%string) ∨ t_sender t2 = SStopped)
           ∧ ∀ t3, ¬ stream_step t2 TOverflow t3).
Proof.
  assert (ending_ok t) as Ht.
  { eapply (steps_invariant stream_step ending_ok); [apply ending_ok_step|apply new_stream_ending|exact Hrun]. }
  cbn zeta. destruct (ws_callback_cases message now t) as [(E & _)|[(_ & Hq & _)|(_ & _ & E)]]; [congruence|lia|].
  pose proof (ending_ok_step _ _ _ Ht (step_packet t message now)) as Ht1.
  rewrite E in *. split; [done|]. split; [done|]. split; [done|]. intros es t2 Hs.
  assert (ending_ok t2) as [H1 H2 H3].
  { eapply (steps_invariant stream_step ending_ok); [apply ending_ok_step|exact Ht1|exact Hs]. }
  assert (t_overflow t2 = true) as Ho.
  { by refine (steps_invariant stream_step (λ t, t_overflow t = true) _ _ _ overflow_step _ Hs). }
  apply pending_steps in Hs.
  assert (∀ t', pending t' ≤ 2)%nat as Hle by (intros; unfold pending; repeat case_match; lia).
  specialize (Hle (mkStream (t_queue t) true (t_sender t) (t_sent t) (t_close t) (t_finished t)
    (t_receiving t) (t_watching t) (t_cancelled t))).
  split; [done|]. split; [|split; [lia|split; [|split]]].
  - intros Hc. destruct (t_watching t2) eqn:Hw.
    + exists TOverflow. eexists. split; [done|]. by apply step_overflow.
    + exists TCancel. eexists. split; [done|]. apply step_cancel; [done|]. by apply H1.
  - intros Htwo. assert (pending t2 = 0%nat) as Hz by lia. unfold pending in Hz. by repeat case_match.
  - intros Hc. split; [destruct (H2 (H3 Hc)) as [Hw|Hw]; [destruct (H1 Hw) as [_ [?|?]]; auto|auto]|].
    intros e t3 Hstep. inversion Hstep; subst; try congruence. unfold ws_callback. by repeat case_match.
  - intros Hw. destruct (H1 Hw) as [? Hcl]. split; [done|]. split; [done|].
    intros t3 Hstep. inversion Hstep; subst; congruence.
Qed.
End stream.
