(* ===== verification/WebSocket.v ===== *)
(** * The WebSocket endpoint ([websocket_endpoint] of [api/__init__.py])

    The whole handler: authentication by header or first frame, the requested
    topics, acquisition, the streaming phase of [Stream.v] (here any computation
    that returns a close message) and the cleanup.  The socket's coroutines
    suspend the task, so each of them is a computation on the whole world: the
    other tasks of the server run inside it. *)

From Stdlib Require Import QArith.QArith.
From S2P Require Import Prelude PyStr PyDict PyVal Passwords Config Topics Models Auth Interface Service ServiceFacts RetainedQuery.
#[local] Open Scope Z_scope.

(** starlette's WebSocket: receiving and sending raise [WebSocketDisconnect],
    [RuntimeError] or, under [asyncio.wait_for], [TimeoutError]. *)
Record Socket (W : Type) : Type := mkSocket {
  ws_accept : M W unit;
  ws_receive_json : M W pyval;
  ws_send_json : pyval → M W unit;
  ws_close : Z → string → M W unit;
}.
Arguments ws_accept {W}. Arguments ws_receive_json {W}. Arguments ws_send_json {W}. Arguments ws_close {W}.
Arguments mkSocket {W}.

Definition ready_frame (requested : list pystr) : pyval :=
  VDict [(&"type", VStr (&"ready")); (&"topics", VList (VStr <$> requested))].

(** [list(dict.fromkeys(topic.strip() for topic in topics.split(",") if topic.strip()))] *)
Definition requested_topics (topics : pystr) : list pystr :=
  dict_fromkeys (filter (λ t, t ≠ []) (strip <$> split (chr ",") topics)).

Section endpoint.
Context {C S : Type} `{MessageClient C} `{PyJWT} `{UnicodeCase}.
Context (topic_matches_sub : pystr → pystr → bool) (settings : Settings).
Notation world := ((MQTTService * C) * S)%type.
Context (socket : Socket world).

Definition on_service {A} (m : M (MQTTService * C) A) : M world A := zoom fst (λ x w, (x, snd w)) m.

(** The exceptions of the authentication frame. *)
Definition frame_error (k : exn_class) : bool :=
  match k with ETimeout | EType | EKey | EDisconnect => true | _ => is_value_error k end.

Definition is_runtime (k : exn_class) : bool := match k with ERuntime => true | _ => false end.

Definition frame_token (frame : pyval) : pyval :=
  match frame with
  | VDict d =>
    match dict_get (&"type") d with
    | Some (VStr t) => if bool_decide (t = &"auth") then default (VStr []) (dict_get (&"token") d) else VStr []
    | _ => VStr []
    end
  | _ => VStr []
  end.

(** The token offered and whether the handshake was accepted for it; [None]: the
    socket was closed for want of an authentication frame. *)
Definition offered_token (header : option pystr) : M world (option (pyval * bool)) :=
  match header with
  | Some header =>
    let '(scheme, token) := partition (chr " ") header in
    let token := if bool_decide (str_lower scheme = &"bearer") then token else [] in
    mret (Some (VStr token, false))
  | None =>
    _ ← ws_accept socket;
    try_except (frame ← ws_receive_json socket; mret (Some (frame_token frame, true)))
      frame_error
      (λ _, _ ← suppress is_runtime (ws_close socket 1008 "Authentication required"); mret None)
  end.

Definition check_token (now : Q) (token : pyval) : outcome (option claims) :=
  match token with
  | VStr token => if (length token <=? N.to_nat 8192)%nat then verify_token settings now token else Ok None
  | _ => Ok None
  end.

(** The requested topics, or the 1008 close. *)
Definition check_topics (requested : list pystr) : outcome unit :=
  if bool_decide (requested = []) || (websocket_max_topics settings <? Z.of_nat (length requested))
  then Raise (http_exception 400 "Invalid number of topics")
  else for_each (λ topic, authorize_topic topic_matches_sub topic settings true) requested.

Definition is_http (k : exn_class) : bool := match k with EHTTP _ => true | _ => false end.

(** Everything before the broker is touched: the claims and topics of a session
    that may start, [None] when the handler has returned. *)
Definition admit_session (header : option pystr) (topics : pystr) (now : Q) : M world (option (claims * list pystr)) :=
  offered ← offered_token header;
  match offered with
  | None => mret None
  | Some (token, accepted) =>
    verified ← lift (check_token now token);
    match verified with
    | None | Some [] => _ ← ws_close socket 1008 "Invalid or missing token"; mret None
    | Some claims =>
      let requested := requested_topics topics in
      allowed ← try_except (_ ← lift (check_topics requested); mret true) is_http
        (λ _, _ ← ws_close socket 1008 "Topic not allowed"; mret false);
      if negb allowed then mret None
      else
        _ ← (if accepted : bool then mret tt else ws_accept socket);
        mret (Some (claims, requested))
    end
  end.

(** The loop that acquires the topics; the second component is [acquired]. *)
Definition acquire_one (owner topic : pystr) : M (world * list pystr) unit :=
  _ ← zoom fst (λ w x, (w, snd x)) (on_service (acquire_subscription topic_matches_sub settings topic 0 owner false));
  modify (λ x, (fst x, snd x ++ [topic])).

(** The exceptions that close the stream with 1011. *)
Definition session_error (k : exn_class) : bool :=
  match k with EDisconnect | ERuntime | ETimeout => true | _ => false end.

(** The [try] block of the session. *)
Definition session_body (owner : pystr) (requested : list pystr)
    (stream : claims → list pystr → M world (option (Z * string))) (claims : claims) : M (world * list pystr) unit :=
  let on_world {A} (m : M world A) : M (world * list pystr) A := zoom fst (λ w x, (w, snd x)) m in
  try_except
    (_ ← for_each_M (acquire_one owner) requested;
     on_world
       (_ ← ws_send_json socket (ready_frame requested);
        close_message ← stream claims requested;
        match close_message with
        | None => mret tt
        | Some (code, reason) => ws_close socket code reason
        end))
    session_error
    (λ _, on_world (suppress is_runtime (ws_close socket 1011 "Stream unavailable"))).

(** The [finally] block. *)
Definition session_cleanup (owner : pystr) (acquired : list pystr) : M world unit :=
  _ ← on_service (modify (λ w : MQTTService * C, (fst w, cl_remove_callback (WsCallback owner) (snd w))));
  for_each_M (λ topic, suppress is_runtime (on_service (release_subscription topic owner))) acquired.

Definition session (owner : pystr) (stream : claims → list pystr → M world (option (Z * string)))
    (claims : claims) (requested : list pystr) : M world unit := λ w,
  let w1 := ((fst (fst w), cl_add_callback (WsCallback owner) (snd (fst w))), snd w) in
  let '((w2, acquired), r) := session_body owner requested stream claims (w1, []) in
  let '(w3, rc) := session_cleanup owner acquired w2 in
  (w3, match rc with Ok _ => r | Raise e => Raise e end).

(** [websocket_endpoint] *)
Definition websocket_endpoint (header : option pystr) (topics : pystr) (now : Q) (uuid : pystr)
    (stream : claims → list pystr → M world (option (Z * string))) : M world unit :=
  admitted ← admit_session header topics now;
  match admitted with
  | None => mret tt
  | Some (claims, requested) => session (&"websocket:" ++ uuid) stream claims requested
  end.
End endpoint.
