(* ===== verification/WebSocketFacts.v ===== *)
(** * Theorems about the WebSocket endpoint

    No broker access before authentication and authorization, and no leak: on
    every path the session's subscriptions and its callback are gone at the end,
    under any interference that leaves this owner's entries alone. *)

From Stdlib Require Import QArith.QArith.
From S2P Require Import Prelude PyStr PyDict PyVal Passwords Config Topics Models Auth Interface Service ServiceFacts RetainedQuery WebSocket.
#[local] Open Scope Z_scope.

(** ** The requested topics *)

Lemma requested_topics_spec topics :
  NoDup (requested_topics topics)
  ∧ ∀ t, t ∈ requested_topics topics ↔ t ≠ [] ∧ ∃ field, field ∈ split (chr ",") topics ∧ t = strip field.
Proof.
  unfold requested_topics. destruct (dict_fromkeys_spec (filter (λ t, t ≠ []) (strip <$> split (chr ",") topics)))
    as [H1 H2].
  split; [done|]. intros t. rewrite H2, list_elem_of_filter, list_elem_of_fmap. naive_solver.
Qed.

Section facts.
Context {C S : Type} `{LAWS : MessageClientLaws C} `{JWT : PyJWT} `{CASE : UnicodeCase}.
Context (topic_matches_sub : pystr → pystr → bool) (settings : Settings).
Notation world := ((MQTTService * C) * S)%type.
Context (socket : Socket world).
Implicit Types (w : world).

(** ** Before the broker *)

(** A computation that leaves the service and the client alone. *)
Definition quiet {A} (m : M world A) : Prop := ∀ w, fst (fst (m w)) = fst w.

(** The socket's coroutines when no other task runs meanwhile. *)
Definition quiet_socket : Prop :=
  quiet (ws_accept socket) ∧ quiet (ws_receive_json socket)
  ∧ (∀ v, quiet (ws_send_json socket v)) ∧ (∀ code reason, quiet (ws_close socket code reason)).

Lemma quiet_ret {A} (a : A) : quiet (mret a).
Proof. by intros w. Qed.
Lemma quiet_lift {A} (m : outcome A) : quiet (lift m).
Proof. by intros w. Qed.
Lemma quiet_bind {A B} (m : M world A) (f : A → M world B) : quiet m → (∀ a, quiet (f a)) → quiet (m ≫= f).
Proof.
  intros Hm Hf w. unfold mbind, M_bind. specialize (Hm w). destruct (m w) as [w' [a|e]]; cbn in *; [|done].
  by rewrite (Hf a w').
Qed.
Lemma quiet_try {A} (m : M world A) p h : quiet m → (∀ e, quiet (h e)) → quiet (try_except m p h).
Proof.
  intros Hm Hh w. unfold try_except. specialize (Hm w). destruct (m w) as [w' [a|e]]; cbn in *; [done|].
  destruct (p _); [by rewrite (Hh e w')|done].
Qed.

Hint Resolve quiet_ret quiet_lift quiet_bind quiet_try : quiet.

Lemma quiet_admit header topics now :
  quiet_socket → quiet (admit_session topic_matches_sub settings socket header topics now).
Proof.
  intros (H1 & H2 & H3 & H4). unfold admit_session. apply quiet_bind.
  - unfold offered_token. destruct header as [h|].
    + destruct (partition _ h). apply quiet_ret.
    + apply quiet_bind; [done|]. intros _. apply quiet_try; [by eauto with quiet|]. intros e.
      apply quiet_bind; [|eauto with quiet]. unfold suppress. eauto with quiet.
  - intros [[token accepted]|]; [|apply quiet_ret]. apply quiet_bind; [apply quiet_lift|].
    intros [[|kv claims]|]; [by eauto with quiet| |by eauto with quiet].
    apply quiet_bind; [apply quiet_try; by eauto with quiet|]. intros [|]; [|apply quiet_ret].
    apply quiet_bind; [|intros; apply quiet_ret]. destruct accepted; [apply quiet_ret|done].
Qed.

Lemma close_refuses code reason w w' (p : claims * list pystr) :
  (_ ← ws_close socket code reason; mret None) w ≠ (w', Ok (Some p)).
Proof. unfold mbind, M_bind. by destruct (ws_close _ _ _ w) as [? [?|?]]. Qed.

(** What an admitted session has been checked for. *)
Lemma admit_some header topics now w w' d requested :
  admit_session topic_matches_sub settings socket header topics now w = (w', Ok (Some (d, requested))) →
  (∃ token, verify_token settings now token = Ok (Some d) ∧ (length token ≤ N.to_nat 8192)%nat)
  ∧ requested = requested_topics topics ∧ requested ≠ []
  ∧ Z.of_nat (length requested) ≤ websocket_max_topics settings
  ∧ ∀ t, t ∈ requested → authorize_topic topic_matches_sub t settings true = Ok tt.
Proof.
  unfold admit_session. unfold mbind at 1, M_bind at 1.
  destruct (offered_token socket header w) as [w1 [[[token accepted]|]|e]]; [|done..].
  unfold mbind at 1, M_bind at 1, lift at 1.
  destruct (check_token settings now token) as [v|e] eqn:Ev; [|done].
  destruct v as [[|kv claims]|]; [| |].
  - by intros ?%close_refuses.
  - unfold check_token in Ev. destruct token as [| | | |token| | |]; try done.
    destruct (length token <=? N.to_nat 8192)%nat eqn:Hlen; [|done].
    unfold mbind at 1, M_bind at 1, try_except. unfold mbind at 1, M_bind at 1, lift at 1.
    destruct (check_topics _ _ _) as [u|e] eqn:Ec; cbn -[Nat.leb N.to_nat].
    + unfold mbind, M_bind, mret, M_ret. intros Hend.
      assert (kv :: claims = d ∧ requested_topics topics = requested) as [<- <-].
      { destruct accepted; cbn in Hend; [by simplify_eq|]. by destruct (ws_accept socket w1) as [? [?|?]]; simplify_eq. }
      apply Nat.leb_le in Hlen. split; [by eauto|]. split; [done|].
      unfold check_topics in Ec. destruct (bool_decide _ || _) eqn:Eb; [done|]. boolprop.
      destruct Eb as [Hne Hmax]. apply Z.ltb_ge in Hmax. split_and!; [done..|].
      apply (proj1 (for_each_ok _ _ u)). done.
    + destruct (is_http _); [|done]. unfold mbind, M_bind. by destruct (ws_close _ _ _ w1) as [? [?|?]].
  - by intros ?%close_refuses.
Qed.

(** ** Ownership *)

Notation owned s t o := (owners_at (abstraction s) t !! o).

(** Other tasks may do anything consistent that does not concern this owner. *)
Definition frames {A} (owner : pystr) (m : M world A) : Prop := ∀ w,
  consistent (fst w) →
  consistent (fst (fst (m w)))
  ∧ ∀ t, owned (fst (fst (fst (m w)))) t owner = owned (fst (fst w)) t owner.

Definition socket_frames (owner : pystr) : Prop :=
  frames owner (ws_accept socket) ∧ frames owner (ws_receive_json socket)
  ∧ (∀ v, frames owner (ws_send_json socket v)) ∧ (∀ code reason, frames owner (ws_close socket code reason)).

Lemma frames_ret {A} owner (a : A) : frames owner (mret a).
Proof. by intros w. Qed.
Lemma frames_bind {A B} owner (m : M world A) (f : A → M world B) :
  frames owner m → (∀ a, frames owner (f a)) → frames owner (m ≫= f).
Proof.
  intros Hm Hf w Hw. unfold mbind, M_bind. destruct (Hm w Hw) as [H1 H2].
  destruct (m w) as [w' [a|e]]; cbn in *; [|done]. destruct (Hf a w' H1) as [H3 H4].
  split; [done|]. intros t. by rewrite H4.
Qed.
Lemma frames_try {A} owner (m : M world A) p h :
  frames owner m → (∀ e, frames owner (h e)) → frames owner (try_except m p h).
Proof.
  intros Hm Hh w Hw. unfold try_except. destruct (Hm w Hw) as [H1 H2].
  destruct (m w) as [w' [a|e]]; cbn in *; [done|]. destruct (p _); [|done].
  destruct (Hh e w' H1) as [H3 H4]. split; [done|]. intros t. by rewrite H4.
Qed.

Lemma spec_release_owned (topic owner : pystr) (a : ownership) (t o : pystr) :
  owners_at (spec_release topic owner a) t !! o =
    if decide (t = topic ∧ o = owner) then None else owners_at a t !! o.
Proof.
  unfold spec_release, owners_at. destruct (decide (t = topic)) as [->|Ht].
  - destruct (decide (delete owner (default ∅ (a !! topic)) = ∅)) as [Hd|Hd].
    + rewrite lookup_delete_eq. cbn. rewrite lookup_empty. case_decide as Ho; [done|].
      assert (o ≠ owner) by naive_solver. rewrite <-(lookup_delete_ne _ owner o) by done. by rewrite Hd, lookup_empty.
    + rewrite lookup_insert_eq. cbn. rewrite lookup_delete. repeat case_decide; naive_solver.
  - rewrite (decide_False (P := t = topic ∧ o = owner)) by tauto. case_decide.
    + by rewrite lookup_delete_ne.
    + by rewrite lookup_insert_ne.
Qed.

Lemma spec_acquire_owned (topic : pystr) (qos : Z) (owner : pystr) (a : ownership) (t o : pystr) :
  owners_at (spec_acquire topic qos owner a) t !! o =
    if decide (t = topic ∧ o = owner) then Some qos else owners_at a t !! o.
Proof.
  unfold spec_acquire, owners_at. destruct (decide (t = topic)) as [->|Ht].
  - rewrite lookup_insert_eq. cbn. rewrite lookup_insert. repeat case_decide; naive_solver.
  - rewrite decide_False by tauto. by rewrite lookup_insert_ne.
Qed.

(** This owner holds topics of [l] only. *)
Definition holds_only (owner : pystr) (l : list pystr) (w : world) : Prop :=
  consistent (fst w) ∧ ∀ t, is_Some (owned (fst (fst w)) t owner) → t ∈ l.

Lemma frames_holds {A} owner (m : M world A) l w :
  frames owner m → holds_only owner l w → holds_only owner l (fst (m w)).
Proof.
  intros Hm [Hc Hl]. destruct (Hm w Hc) as [H1 H2]. split; [done|]. intros t. rewrite H2. apply Hl.
Qed.

Lemma acquire_one_holds owner topic w acquired :
  holds_only owner acquired w →
  let '((w', acquired'), r) := acquire_one topic_matches_sub settings owner topic (w, acquired) in
  holds_only owner acquired' w'.
Proof.
  intros [Hc Hl]. unfold acquire_one, on_service, zoom, modify. unfold mbind, M_bind. cbn [fst snd].
  destruct w as [[s c] x]. cbn [fst snd] in *.
  pose proof (preserves_acquire topic_matches_sub settings topic 0 owner false (s, c) Hc) as Hp.
  destruct (acquire_subscription _ _ topic 0 owner false (s, c)) as [[s' c'] r] eqn:E. cbn [fst snd] in *.
  apply acquire_refines in E as [_ Ha]; [|apply Hc]. cbn [fst spec_call] in Ha.
  destruct r as [u|e]; cbn [fst snd]; (split; [done|]); cbn [fst snd]; rewrite Ha; intros t; [|apply Hl].
  rewrite spec_acquire_owned, elem_of_app, list_elem_of_singleton. case_decide; [naive_solver|]. by left; apply Hl.
Qed.

Lemma acquire_all_holds owner topics w acquired :
  holds_only owner acquired w →
  let '((w', acquired'), r) := for_each_M (acquire_one topic_matches_sub settings owner) topics (w, acquired) in
  holds_only owner acquired' w'.
Proof.
  revert w acquired. induction topics as [|topic topics IH]; intros w acquired Hl; cbn [for_each_M]; [done|].
  pose proof (acquire_one_holds owner topic w acquired Hl) as H1. unfold mbind, M_bind.
  destruct (acquire_one _ _ _ _ _) as [[w' acquired'] [u|e]]; [|done]. by apply IH.
Qed.

(** The body keeps [acquired] an upper bound of what the owner holds. *)
Lemma session_body_holds owner requested stream d w acquired :
  socket_frames owner → (∀ requested d, frames owner (stream d requested)) →
  holds_only owner acquired w →
  let '((w', acquired'), r) :=
    session_body topic_matches_sub settings socket owner requested stream d (w, acquired) in
  holds_only owner acquired' w'.
Proof.
  intros (H1 & H2 & H3 & H4) Hs Hl. unfold session_body, try_except. unfold mbind at 1, M_bind at 1.
  pose proof (acquire_all_holds owner requested w acquired Hl) as Ha.
  destruct (for_each_M _ requested (w, acquired)) as [[w1 acquired1] [u|e]].
  - unfold zoom at 1. cbn [fst snd].
    set (m := ws_send_json socket (ready_frame requested) ≫= _).
    assert (frames owner m) as Hm.
    { subst m. apply frames_bind; [done|]. intros _. apply frames_bind; [done|].
      intros [[code reason]|]; [done|apply frames_ret]. }
    pose proof (frames_holds owner m acquired1 w1 Hm Ha) as Hm'.
    destruct (m w1) as [w2 [u'|e]]; cbn [fst snd] in *; [done|].
    destruct (session_error _); [|done]. unfold zoom. cbn [fst snd].
    pose proof (frames_holds owner (suppress is_runtime (ws_close socket 1011 "Stream unavailable")) acquired1 w2
      (frames_try _ _ _ _ (H4 _ _) (λ _, frames_ret _ _)) Hm') as Hx.
    by destruct (suppress _ _ w2).
  - destruct (session_error _); [|done]. unfold zoom. cbn [fst snd].
    pose proof (frames_holds owner (suppress is_runtime (ws_close socket 1011 "Stream unavailable")) acquired1 w1
      (frames_try _ _ _ _ (H4 _ _) (λ _, frames_ret _ _)) Ha) as Hx.
    by destruct (suppress _ _ w1).
Qed.

(** The release loop. *)
Definition release_quietly (owner topic : pystr) : M world unit :=
  suppress is_runtime (on_service (release_subscription topic owner)).

Definition broker_raises_runtime : Prop :=
  ∀ topic (c : C) e, snd (cl_unsubscribe topic c) = Raise e → exn_kind e = ERuntime.

Lemma release_quietly_spec owner topic w :
  broker_raises_runtime → consistent (fst w) →
  let '(w', r) := release_quietly owner topic w in
  r = Ok tt ∧ consistent (fst w')
  ∧ abstraction (fst (fst w')) = spec_release topic owner (abstraction (fst (fst w)))
  ∧ cl_callbacks (snd (fst w')) = cl_callbacks (snd (fst w)).
Proof.
  intros Hb Hc. destruct w as [[s c] x]. unfold release_quietly, suppress, try_except, on_service, zoom. cbn [fst snd] in *.
  pose proof (preserves_release topic owner (s, c) Hc) as Hp.
  pose proof (abstraction_release topic owner s c (proj1 Hc)) as Ha.
  assert (cl_callbacks (snd (fst (release_subscription topic owner (s, c)))) = cl_callbacks c) as Hcb.
  { destruct (release_cases topic owner s c) as
      [[-> _]|[(o & m & _ & _ & _ & ->)|(o & m & _ & _ & _ & ->)]]; try done. apply law_callbacks_unsubscribe. }
  destruct (release_subscription topic owner (s, c)) as [[s' c'] [[]|e]] eqn:E; cbn [fst snd] in *; [done|].
  apply release_result in E. rewrite (Hb _ _ _ E). cbn. done.
Qed.

Lemma release_all_spec owner topics w l :
  broker_raises_runtime → holds_only owner l w →
  let '(w', r) := for_each_M (release_quietly owner) topics w in
  r = Ok tt ∧ holds_only owner (filter (λ t, t ∉ topics) l) w'
  ∧ cl_callbacks (snd (fst w')) = cl_callbacks (snd (fst w)).
Proof.
  intros Hb. revert w l. induction topics as [|topic topics IH]; intros w l [Hc Hl]; cbn [for_each_M].
  - split; [done|]. split; [|done]. split; [done|]. intros t Ht. cbn in *. apply list_elem_of_filter.
    split; [apply not_elem_of_nil|auto].
  - pose proof (release_quietly_spec owner topic w Hb Hc) as Hr. unfold mbind, M_bind.
    destruct (release_quietly owner topic w) as [w1 r]. destruct Hr as (-> & Hc1 & Ha & Hcb).
    specialize (IH w1 (filter (λ t, t ≠ topic) l)).
    destruct (for_each_M (release_quietly owner) topics w1) as [w2 r2].
    destruct IH as (-> & [Hc2 Hl2] & Hcb2).
    { split; [done|]. intros t. rewrite Ha, spec_release_owned, list_elem_of_filter.
      case_decide; [by intros [??]|]. naive_solver. }
    split; [done|]. split; [|congruence]. split; [done|]. intros t Ht. specialize (Hl2 t Ht).
    rewrite !list_elem_of_filter in *. rewrite not_elem_of_cons. tauto.
Qed.

Lemma session_cleanup_spec owner acquired w :
  broker_raises_runtime → holds_only owner acquired w →
  let '(w', r) := session_cleanup owner acquired w in
  r = Ok tt ∧ consistent (fst w') ∧ WsCallback owner ∉ cl_callbacks (snd (fst w'))
  ∧ ∀ t, owned (fst (fst w')) t owner = None.
Proof.
  intros Hb [Hc Hl]. destruct w as [[s c] x]. cbn [fst snd] in *. destruct Hc as [Hok Hnd]. cbn [fst snd] in *.
  set (c1 := cl_remove_callback (WsCallback owner) c).
  change (session_cleanup owner acquired ((s, c), x))
    with (for_each_M (release_quietly owner) acquired ((s, c1), x)).
  assert (consistent (s, c1) ∧ WsCallback owner ∉ cl_callbacks c1) as [Hc1 Hout].
  { split; [split|].
    - apply (preserves_client_map _ (s, c) (law_ok_remove _) (law_remove _) Hok).
    - by apply NoDup_callbacks_remove.
    - subst c1. rewrite callbacks_remove_elem by done. tauto. }
  pose proof (release_all_spec owner acquired ((s, c1), x) acquired Hb (conj Hc1 Hl)) as Hr.
  destruct (for_each_M (release_quietly owner) acquired ((s, c1), x)) as [w' r].
  destruct Hr as (-> & [Hc2 Hl2] & Hcb). split; [done|]. split; [done|]. split.
  - by rewrite Hcb.
  - intros t. apply eq_None_not_Some. intros Ht. specialize (Hl2 t Ht).
    apply list_elem_of_filter in Hl2 as [??]. done.
Qed.

Lemma websocket_endpoint_run header topics now uuid stream w :
  websocket_endpoint topic_matches_sub settings socket header topics now uuid stream w =
    match admit_session topic_matches_sub settings socket header topics now w with
    | (w1, Ok (Some (d, requested))) =>
      session topic_matches_sub settings socket (&"websocket:" ++ uuid) stream d requested w1
    | (w1, Ok None) => (w1, Ok tt)
    | (w1, Raise e) => (w1, Raise e)
    end.
Proof.
  unfold websocket_endpoint, mbind, M_bind. by destruct (admit_session _ _ _ _ _ _ w) as [w1 [[[? ?]|]|e]].
Qed.

(** C15: the broker is not touched for a request that is not authenticated or not
    authorized.  When no session starts - no valid token within 8192
    characters, no topic, too many or a forbidden one - the handler ends with the
    service and the client as they were; a session starts only with verified
    claims and at most [websocket_max_topics] distinct authorized topics. *)
Theorem websocket_requires_authorization header topics now uuid stream w
    (Hquiet : quiet_socket) :
  let admitted := admit_session topic_matches_sub settings socket header topics now w in
  fst (fst admitted) = fst w
  ∧ match snd admitted with
    | Ok (Some (d, requested)) =>
      websocket_endpoint topic_matches_sub settings socket header topics now uuid stream w =
        session topic_matches_sub settings socket (&"websocket:" ++ uuid) stream d requested (fst admitted)
      ∧ (∃ token, verify_token settings now token = Ok (Some d) ∧ (length token ≤ N.to_nat 8192)%nat)
      ∧ requested = requested_topics topics
      ∧ 1 ≤ Z.of_nat (length requested) ≤ websocket_max_topics settings
      ∧ ∀ t, t ∈ requested → authorize_topic topic_matches_sub t settings true = Ok tt
    | _ => fst (fst (websocket_endpoint topic_matches_sub settings socket header topics now uuid stream w)) = fst w
    end.
Proof.
  cbn zeta. pose proof (quiet_admit header topics now Hquiet w) as Hq. split; [done|].
  rewrite websocket_endpoint_run.
  destruct (admit_session _ _ _ _ _ _ w) as [w1 [[[d requested]|]|e]] eqn:E; cbn [fst snd] in *; [|done..].
  apply admit_some in E as (Hv & -> & Hne & Hmax & Hauth). split; [done|]. split; [done|]. split; [done|].
  split; [|done]. split; [|done]. destruct (requested_topics topics); [done|]. cbn. lia.
Qed.

(** C2: a WebSocket session never leaks.  However it ends - refused by the
    broker half-way through its topics, socket errors, a close by any of its
    tasks, cancellation - its callback is unregistered and it owns no
    subscription, provided the other tasks leave its entries alone and the
    client's [unsubscribe] fails with [RuntimeError] only. *)
Theorem websocket_session_releases_everything owner stream d requested w
    (Hcons : consistent (fst w)) (Hnew : WsCallback owner ∉ cl_callbacks (snd (fst w)))
    (Hfresh : ∀ t, owned (fst (fst w)) t owner = None)
    (Hsocket : socket_frames owner) (Hstream : ∀ requested d, frames owner (stream d requested))
    (Hbroker : broker_raises_runtime) :
  let '(w', r) := session topic_matches_sub settings socket owner stream d requested w in
  consistent (fst w')
  ∧ WsCallback owner ∉ cl_callbacks (snd (fst w'))
  ∧ ∀ t, owned (fst (fst w')) t owner = None.
Proof.
  unfold session. destruct w as [[s c] x]. cbn [fst snd] in *.
  set (w1 := ((s, _), x)).
  assert (holds_only owner [] w1) as Hw1.
  { split; [|intros t [? Ht]; cbn in Ht; by rewrite Hfresh in Ht].
    destruct Hcons as [Hok Hnd]. split; cbn.
    - apply (preserves_client_map _ (s, c) (law_ok_add _) (law_add _) Hok).
    - rewrite law_callbacks_add. apply NoDup_app. split_and!; [done| |apply NoDup_singleton].
      intros y Hy ->%list_elem_of_singleton. done. }
  pose proof (session_body_holds owner requested stream d w1 [] Hsocket Hstream Hw1) as Hb.
  destruct (session_body _ _ _ _ _ _ _ _) as [[w2 acquired] r].
  pose proof (session_cleanup_spec owner acquired w2 Hbroker Hb) as Hc.
  destruct (session_cleanup owner acquired w2) as [w3 rc]. tauto.
Qed.
End facts.
