(* ===== verification/WebSocketImpl.v ===== *)
(** * Concrete WebSocket sessions

    A recording socket on the service and client of [ServiceImpl.v], a whole
    session run through it, and an execution of the streaming phase. *)

From Stdlib Require Import QArith.QArith Strings.Byte.
From S2P Require Import Prelude PyStr PyDict PyVal Passwords Config Topics Models Auth Client ClientFacts Interface ClientImpl Service ServiceFacts RetainedQuery ServiceImpl Api Stream WebSocket WebSocketFacts.
#[local] Open Scope Z_scope.
#[local] Existing Instance ascii_case.

Inductive socket_call : Type :=
  | KAccept
  | KSend (v : pyval)
  | KClose (code : Z) (reason : string).

Notation socket_world := (demo_world * list socket_call)%type.

Definition record_socket (k : socket_call) : M socket_world unit := modify (λ w, (fst w, snd w ++ [k])).

(** The client's first frame is [frame]. *)
Definition demo_socket (frame : pyval) : Socket socket_world :=
  mkSocket (record_socket KAccept) (mret frame) (λ v, record_socket (KSend v)) (λ c r, record_socket (KClose c r)).

Lemma demo_socket_quiet frame : quiet_socket (C := gateway_client recorder) (demo_socket frame).
Proof. repeat split. Qed.

Lemma demo_socket_frames frame owner : socket_frames (C := gateway_client recorder) (demo_socket frame) owner.
Proof.
  split; [|split; [|split]]; [| |intros v|intros code reason]; intros w Hw; (split; [exact Hw|reflexivity]).
Qed.

Definition demo_stream : claims → list pystr → M socket_world (option (Z * string)) :=
  λ _ _, mret (Some (1008, "Token expired"%string)).

Definition demo_start : socket_world := ((new_service, demo_client), []).

Definition demo_token : pystr :=
  match plain_jwt_encode (session_claims (&"gateway") (VInt 2800)) (jwt_secret_key demo_acl) (&"HS256") with
  | Ok token => token
  | Raise _ => []
  end.

Lemma websocket_requires_authorization_witness :
  fst (fst (websocket_endpoint mqtt_match demo_acl (demo_socket VNone) (Some (&"Bearer nope")) (&"gateway/t")
    demo_now (&"u") demo_stream demo_start)) = fst demo_start.
Proof.
  pose proof (websocket_requires_authorization mqtt_match demo_acl (demo_socket VNone)
    (Some (&"Bearer nope")) (&"gateway/t") demo_now (&"u") demo_stream demo_start (demo_socket_quiet VNone)) as [_ H].
  assert (snd (admit_session mqtt_match demo_acl (demo_socket VNone) (Some (&"Bearer nope")) (&"gateway/t")
    demo_now demo_start) = Ok None) as E by (vm_compute; reflexivity).
  rewrite E in H. exact H.
Defined.

Definition demo_session : socket_world * outcome unit :=
  session mqtt_match demo_acl (demo_socket VNone) (&"websocket:u") demo_stream [] [demo_topic] demo_start.

Lemma recorder_raises_nothing : broker_raises_runtime (C := gateway_client recorder).
Proof.
  intros topic c e. cbn. unfold Client.unsubscribe. run_M.
  destruct (c_client c); cbn; repeat case_match; simplify_eq/=; try done.
Qed.

Lemma websocket_session_releases_everything_witness :
  (∀ t, owners_at (abstraction (fst (fst (fst demo_session)))) t !! (&"websocket:u") = None)
  ∧ snd (fst demo_session) =
      [KSend (ready_frame [demo_topic]); KClose 1008 "Token expired"].
Proof.
  split; [|vm_compute; reflexivity].
  pose proof (websocket_session_releases_everything mqtt_match demo_acl (demo_socket VNone) (&"websocket:u")
    demo_stream [] [demo_topic] demo_start demo_consistent) as H. fold demo_session in H.
  destruct demo_session as [w r]. apply H.
  - cbn. intros Hin. apply list_elem_of_singleton in Hin. discriminate Hin.
  - intros t. cbn. unfold abstraction, owners_at. cbn. rewrite lookup_fmap. reflexivity.
  - apply demo_socket_frames.
  - intros requested d w0 Hw. split; [exact Hw|reflexivity].
  - exact recorder_raises_nothing.
Defined.

(** ** The streaming phase *)

Definition demo_message : MQTTMessage := stream_message demo_packet 0.
Definition demo_stream_events : list stream_event := [TCheck 0; TPacket demo_packet 0; TGet; TSent].
Definition demo_stream_final : Stream :=
  mkStream [] false SChecking [(0%Q, FData demo_message)] None false true true false.

Notation demo_requested := [demo_topic].
Notation demo_stream_step := (stream_step mqtt_match demo_acl demo_requested 10%Q).

Lemma demo_stream_run : steps demo_stream_step new_stream demo_stream_events demo_stream_final.
Proof.
  eapply steps_cons; [apply step_check; reflexivity|].
  eapply steps_cons; [apply step_packet|].
  eapply steps_cons; [eapply step_get; vm_compute; reflexivity|].
  eapply steps_cons; [eapply step_sent; vm_compute; reflexivity|].
  apply steps_nil.
Qed.

Lemma stream_delivers_in_order_witness :
  sent_data demo_stream_final = [demo_message]
  ∧ sent_data demo_stream_final ++ sending demo_stream_final ++ t_queue demo_stream_final =
      demo_stream_events ≫= arrived mqtt_match demo_acl demo_requested.
Proof.
  split; [reflexivity|].
  apply (stream_delivers_in_order mqtt_match demo_acl demo_requested 10%Q demo_stream_events demo_stream_final).
  - cbn. lia.
  - exact demo_stream_run.
  - discriminate.
  - reflexivity.
Defined.

Lemma stream_respects_expiry_witness :
  (∀ checked data, (checked, data) ∈ t_sent demo_stream_final → (checked < 10)%Q)
  ∧ t_close (sender_check 10%Q 10%Q demo_stream_final) = Some (1008, "Token expired"%string).
Proof.
  destruct (stream_respects_expiry mqtt_match demo_acl demo_requested 10%Q demo_stream_events demo_stream_final)
    as (H1 & H2 & _); [cbn; lia|exact demo_stream_run|].
  split; [exact H1|].
  destruct (H2 10%Q (sender_check 10%Q 10%Q demo_stream_final)) as (_ & H3 & _); [discriminate| |exact H3].
  apply step_check; reflexivity.
Defined.

(** A session whose queue holds its 64 messages. *)
Definition demo_full : Stream := Nat.iter 64 (ws_callback mqtt_match demo_acl demo_requested demo_packet 0) new_stream.

Lemma demo_full_run n t :
  steps demo_stream_step t (replicate n (TPacket demo_packet 0))
    (Nat.iter n (ws_callback mqtt_match demo_acl demo_requested demo_packet 0) t).
Proof.
  revert t. induction n as [|n IH]; intros t; [apply steps_nil|]. rewrite Nat.iter_succ_r. cbn [replicate].
  eapply steps_cons; [apply step_packet|apply IH].
Qed.

(** The next packet overflows the queue; the overflow task and the owner then end
    the session. *)
Definition demo_overflowed : Stream := ws_callback mqtt_match demo_acl demo_requested demo_packet 0 demo_full.
Definition demo_ended : Stream := cancel_group (run_overflow demo_overflowed).

Lemma demo_ended_run : steps demo_stream_step demo_overflowed [TOverflow; TCancel] demo_ended.
Proof.
  eapply steps_cons; [apply step_overflow; vm_compute; reflexivity|].
  eapply steps_cons; [apply step_cancel; vm_compute; reflexivity|]. apply steps_nil.
Qed.

Lemma stream_overflow_closes_witness :
  t_overflow demo_overflowed = true
  ∧ (∃ e t, turn e = true ∧ demo_stream_step demo_overflowed e t)
  ∧ t_cancelled demo_ended = true ∧ t_close demo_ended = Some (1013, "Client cannot keep up"%string).
Proof.
  destruct (stream_overflow_closes mqtt_match demo_acl demo_requested 10%Q _ demo_full demo_packet 0 (demo_full_run 64 _))
    as (H1 & _ & _ & H2); [vm_compute; reflexivity|vm_compute; discriminate|].
  split; [exact H1|]. split; [|split].
  - apply (H2 [] _ (steps_nil _ _)). vm_compute. reflexivity.
  - apply (H2 _ _ demo_ended_run). reflexivity.
  - destruct (H2 _ _ demo_ended_run) as (_ & _ & _ & _ & _ & H3).
    destruct (H3 ltac:(vm_compute; reflexivity)) as (_ & [H4|H4] & _); [exact H4|vm_compute in H4; discriminate H4].
Defined.

(** ** The REST interface *)

Lemma rest_requires_token_witness :
  ∃ e, rest mqtt_match demo_acl demo_now (Some (&"nope")) (&"u") demo_await
         (PostSubscribe (mkSubscribeRequest demo_topic 0)) (new_service, demo_client)
       = ((new_service, demo_client), Raise e) ∧ exn_kind e = EHTTP 401.
Proof.
  apply rest_requires_token. intros token [= <-]. vm_compute. reflexivity.
Defined.

Lemma topic_routes_witness :
  list_topics mqtt_match demo_acl demo_shared = (demo_shared, Ok [mkTopicInfo demo_topic 0 None])
  ∧ get_topic mqtt_match demo_acl (&"gateway/other") demo_shared =
      (demo_shared, Raise (http_exception 404 "Topic not subscribed")).
Proof.
  destruct (topic_routes_show_subscriptions mqtt_match demo_acl (take 2 demo_calls) new_service demo_client
    demo_shared.1 demo_shared.2
    (snd (run_calls mqtt_match demo_acl (take 2 demo_calls) (new_service, demo_client)))) as [H1 H2].
  - intros t Ht. apply elem_of_nil in Ht. destruct Ht.
  - vm_compute. reflexivity.
  - assert (demo_shared = (demo_shared.1, demo_shared.2)) as E by (vm_compute; reflexivity). split.
    + rewrite E, H1. vm_compute. reflexivity.
    + rewrite E, H2. vm_compute. reflexivity.
Defined.
