(* ===== verification/Lifespan.v ===== *)
(** * The application ([main.py])

    [lifespan]: the client and the service are created, connected, served and
    taken down again on every path; [create_app]: the settings that reach the
    framework.  The served requests and the wait for the broker are arbitrary
    computations on the application's state. *)

From Stdlib Require Import QArith.QArith.
From S2P Require Import Prelude PyStr PyDict Passwords Config Topics Models Client ClientFacts Interface ClientImpl Service ServiceFacts.
#[local] Open Scope Z_scope.

(** What [create_app] hands to FastAPI, the CORS middleware and the limiter. *)
Record App : Type := mkApp {
  app_title : pystr;
  app_release : pystr;
  docs_url : option pystr;
  redoc_url : option pystr;
  allow_origins : list pystr;
  allow_credentials : bool;
  limiter_enabled : bool;
}.

Definition create_app (settings : Settings) : App :=
  mkApp (app_name settings) (app_version settings)
    (if debug settings then Some (&"/docs") else None)
    (if debug settings then Some (&"/redoc") else None)
    (cors_allowed_origins settings) true (rate_limit_enabled settings).

Section lifespan.
Context {P : Type} `{Paho P} (settings : Settings).
Notation client := (gateway_client P).

(** The service, the client, and whether [app.state] shows them to handlers. *)
Notation world := (MQTTService * client * bool)%type.

Definition on_mqtt {A} (m : M client A) : M world A :=
  zoom (λ w, snd (fst w)) (λ c w, ((fst (fst w), c), snd w)) m.

(** [MQTTClient.connect]: [wait] is [asyncio.wait_for] on the connected event;
    the network thread acts on the client meanwhile. *)
Definition connect (tls : outcome unit) (wait : M client unit) : M client unit :=
  waits ← connect_begin settings tls;
  if waits : bool then wait else mret tt.

(** [lifespan]: [serve] is the time between start-up and shutdown,
    [cancelled] whether the task is cancelled in [disconnect]. *)
Definition lifespan (tls : outcome unit) (wait : M client unit) (serve : M world unit) (cancelled : bool) :
  M world unit :=
  _ ← modify (λ w, ((new_service, new_client), snd w));
  try_finally
    (_ ← on_mqtt (modify (add_packet_callback HandleMessage));
     _ ← on_mqtt (connect tls wait);
     _ ← modify (λ w : world, (fst w, true));
     serve)
    (_ ← on_mqtt (modify (remove_packet_callback HandleMessage));
     on_mqtt (disconnect cancelled)).

(** ** Theorems *)

(** The callbacks other tasks register and unregister are their own. *)
Definition callbacks_kept (c c' : client) : Prop :=
  count_occ (λ x y : packet_callback, decide (x = y)) (c_packet_callbacks c') HandleMessage =
  count_occ (λ x y : packet_callback, decide (x = y)) (c_packet_callbacks c) HandleMessage.

Notation registrations c := (count_occ (λ x y : packet_callback, decide (x = y)) (c_packet_callbacks c) HandleMessage).

Lemma connect_begin_callbacks tls (c : client) :
  c_packet_callbacks (fst (connect_begin settings tls c)) = c_packet_callbacks c.
Proof.
  unfold connect_begin. repeat (case_match; try done).
Qed.

Lemma remove_first_count (l : list packet_callback) x :
  count_occ (λ x y : packet_callback, decide (x = y)) (remove_first x l) x =
  (count_occ (λ x y : packet_callback, decide (x = y)) l x - 1)%nat.
Proof.
  induction l as [|y l IH]; cbn; [done|]. destruct (decide (x = y)) as [->|Hne].
  - rewrite decide_True by done. lia.
  - cbn. rewrite decide_False by congruence. by rewrite IH, decide_False by congruence.
Qed.

Lemma shutdown_spec cancelled (w : world) :
  let '(w', r) := (_ ← on_mqtt (modify (remove_packet_callback HandleMessage)); on_mqtt (disconnect cancelled)) w in
  c_shutdown (snd (fst w')) = true ∧ is_connected (snd (fst w')) = false
  ∧ registrations (snd (fst w')) = (registrations (snd (fst w)) - 1)%nat
  ∧ snd w' = snd w.
Proof.
  unfold mbind, M_bind, on_mqtt, zoom, modify. cbn [fst snd].
  pose proof (disconnect_spec cancelled (remove_packet_callback HandleMessage (snd (fst w)))) as Hd.
  destruct (disconnect cancelled _) as [c r]. destruct Hd as (H1 & H2 & _ & H3 & _). cbn [fst snd].
  split_and!; [done|done| |done]. rewrite H3. apply remove_first_count.
Qed.

(** The application is taken down on every path - a start-up that fails or
    times out, an exception or the cancellation of the serving task: the client
    is disconnected and refuses further requests, and the statistics callback is
    unregistered.  Requests are served only after a successful connection, and a
    failed start-up reports its own error unless the shutdown raises. *)
Theorem lifespan_shuts_down tls wait serve cancelled w
    (Hwait : ∀ c, callbacks_kept c (fst (wait c)))
    (Hserve : ∀ w, callbacks_kept (snd (fst w)) (snd (fst (fst (serve w))))) :
  let '(w', r) := lifespan tls wait serve cancelled w in
  c_shutdown (snd (fst w')) = true ∧ is_connected (snd (fst w')) = false
  ∧ HandleMessage ∉ c_packet_callbacks (snd (fst w'))
  ∧ (∀ e c, connect tls wait (add_packet_callback HandleMessage new_client) = (c, Raise e) →
       snd w' = snd w
       ∧ (r = Raise e
          ∨ r = snd (disconnect cancelled (remove_packet_callback HandleMessage c)) ∧ is_ok r = false)).
Proof.
  unfold lifespan. unfold mbind at 1, M_bind at 1, modify at 1. unfold try_finally.
  set (start := (_ ← on_mqtt (modify (add_packet_callback HandleMessage)); _)).
  assert (let '(w1, r1) := start ((new_service, new_client), snd w) in
          registrations (snd (fst w1)) = 1%nat
          ∧ ∀ e c, connect tls wait (add_packet_callback HandleMessage new_client) = (c, Raise e) →
              w1 = ((new_service, c), snd w) ∧ r1 = Raise e) as Hstart.
  { subst start. unfold mbind, M_bind, on_mqtt, zoom, modify. cbn [fst snd].
    assert (registrations (fst (connect tls wait (add_packet_callback HandleMessage new_client))) = 1%nat) as Hc.
    { unfold connect. unfold mbind, M_bind.
      pose proof (connect_begin_callbacks tls (add_packet_callback HandleMessage new_client)) as Hcb.
      destruct (connect_begin settings tls _) as [c1 [[|]|e]]; cbn [fst] in *.
      - rewrite Hwait, Hcb. done.
      - cbn. by rewrite Hcb.
      - by rewrite Hcb. }
    destruct (connect tls wait _) as [c1 [u|e]]; cbn [fst snd] in *.
    - specialize (Hserve (new_service, c1, true)). destruct (serve (new_service, c1, true)) as [w1 r1].
      cbn [fst snd] in *. split; [congruence|done].
    - split; [done|]. by intros e' c' [= <- <-]. }
  destruct (start _) as [w1 r1]. destruct Hstart as [Hreg Hfail].
  pose proof (shutdown_spec cancelled w1) as Hs.
  assert (snd ((_ ← on_mqtt (modify (remove_packet_callback HandleMessage)); on_mqtt (disconnect cancelled)) w1)
          = snd (disconnect cancelled (remove_packet_callback HandleMessage (snd (fst w1))))) as Hres.
  { unfold mbind, M_bind, on_mqtt, zoom, modify. cbn [fst snd]. by destruct (disconnect _ _). }
  destruct ((_ ← on_mqtt (modify (remove_packet_callback HandleMessage)); on_mqtt (disconnect cancelled)) w1)
    as [w2 r2]. destruct Hs as (H1 & H2 & H3 & H4). cbn [snd] in Hres.
  assert (HandleMessage ∉ c_packet_callbacks (snd (fst w2))) as Hout.
  { rewrite list_elem_of_In, (count_occ_not_In (λ x y : packet_callback, decide (x = y))). rewrite H3, Hreg. done. }
  destruct r2 as [u|e2]; (split_and!; [done..|]); intros e c Hconn; destruct (Hfail e c Hconn) as [-> ->];
    (split; [done|]); [by left|]. right. split; [done|done].
Qed.

(** the interactive documentation is published in debug mode only, CORS is
    limited to the configured origins, and rate limiting follows its setting. *)
Theorem create_app_exposure s :
  (docs_url (create_app s) = None ↔ debug s = false)
  ∧ (redoc_url (create_app s) = None ↔ debug s = false)
  ∧ allow_origins (create_app s) = cors_allowed_origins s
  ∧ limiter_enabled (create_app s) = rate_limit_enabled s.
Proof. unfold create_app. destruct (debug s); cbn; naive_solver. Qed.
End lifespan.

(** ** A concrete run *)

Definition demo_serve : M (MQTTService * gateway_client recorder * bool) unit := λ w, (w, Raise (Exn ECancelled "")).

Definition demo_wait : M (gateway_client recorder) unit := connect_end true.

Lemma lifespan_shuts_down_witness :
  let '(w', r) := lifespan demo_acl (Ok tt) demo_wait demo_serve false ((new_service, demo_client), false) in
  is_connected (snd (fst w')) = false ∧ HandleMessage ∉ c_packet_callbacks (snd (fst w'))
  ∧ r = Raise (Exn ECancelled "").
Proof.
  pose proof (lifespan_shuts_down demo_acl (Ok tt) demo_wait demo_serve false ((new_service, demo_client), false)
    (λ c, eq_refl) (λ w, eq_refl)) as H.
  destruct (lifespan demo_acl (Ok tt) demo_wait demo_serve false ((new_service, demo_client), false))
    as [w' r] eqn:E. destruct H as (_ & H1 & H2 & _). split; [exact H1|]. split; [exact H2|].
  change r with (snd (w', r)). rewrite <-E. vm_compute. reflexivity.
Defined.
