(* ===== verification/PyJson.v ===== *)
(** * JSON text ([json.dumps], [json_bytes] of [scripts/version_plan.py])

    The canonical serialization the release toolkit hashes: sorted keys, no
    spaces, ASCII escapes; and the indented form of [scripts/release_control.py].
    The text of a float is Python's [repr], a parameter. *)

From Stdlib Require Import QArith.QArith.
From S2P Require Import Prelude PyStr PyDict PyVal Passwords.
#[local] Open Scope Z_scope.

(** Python's order on strings: by code point. *)
Fixpoint str_leb (s t : pystr) : bool :=
  match s, t with
  | [], _ => true
  | _ :: _, [] => false
  | c :: s, d :: t => (c <? d)%N || ((c =? d)%N && str_leb s t)
  end.

Section sorting.
Context {A : Type} (leb : A → A → bool).

Fixpoint insert_sorted (x : A) (l : list A) : list A :=
  match l with
  | [] => [x]
  | y :: l' => if leb x y then x :: l else y :: insert_sorted x l'
  end.

(** [sorted(l)]: stable, from the right. *)
Definition sorted (l : list A) : list A := foldr insert_sorted [] l.

Lemma insert_sorted_perm x l : insert_sorted x l ≡ₚ x :: l.
Proof.
  induction l as [|y l IH]; cbn; [done|]. destruct (leb x y); [done|].
  rewrite IH. apply Permutation_swap.
Qed.

Lemma sorted_perm l : sorted l ≡ₚ l.
Proof. induction l as [|x l IH]; cbn; [done|]. by rewrite insert_sorted_perm, IH. Qed.
End sorting.

Definition hex4 (n : N) : pystr :=
  [hex_digit (n / 4096 mod 16); hex_digit (n / 256 mod 16); hex_digit (n / 16 mod 16); hex_digit (n mod 16)].

(** A character of a JSON string under [ensure_ascii]. *)
Definition json_char (c : N) : pystr :=
  if bool_decide (c = 34%N) then [92; 34]%N
  else if bool_decide (c = 92%N) then [92; 92]%N
  else if ((32 <=? c) && (c <=? 126))%N then [c]
  else if bool_decide (c = 10%N) then &"\n"
  else if bool_decide (c = 13%N) then &"\r"
  else if bool_decide (c = 9%N) then &"\t"
  else if bool_decide (c = 12%N) then &"\f"
  else if bool_decide (c = 8%N) then &"\b"
  else if (c <? 65536)%N then &"\u" ++ hex4 c
  else let d := (c - 65536)%N in &"\u" ++ hex4 (55296 + d / 1024 mod 1024) ++ &"\u" ++ hex4 (56320 + d mod 1024).

Definition json_string (s : pystr) : pystr := 34%N :: (s ≫= json_char) ++ [34%N].

(** The layout of the text: what stands before an item at a nesting level, and
    after the colon of an entry. *)
Record layout : Type := Layout { newline : nat → pystr; after_colon : pystr }.

(** [separators=(",", ":")], and [indent=2]. *)
Definition compact : layout := Layout (λ _, []) [].
Definition indented : layout := Layout (λ level, 10%N :: replicate (2 * level) 32%N) [32%N].

Definition key_leb {A} (a b : pystr * A) : bool := str_leb a.1 b.1.

Section dumps.
Context (float_repr : Q → pystr) (lay : layout).

(** [json.dumps(value, sort_keys=True, ...)] at a nesting level *)
Fixpoint json_text (level : nat) (v : pyval) : outcome pystr :=
  match v with
  | VNone => Ok (&"null")
  | VBool b => Ok (if b then &"true" else &"false")
  | VInt n => Ok (str_of_int n)
  | VFloat q => Ok (float_repr q)
  | VStr s => Ok (json_string s)
  | VDatetime _ => Raise (Exn EType "Object of type datetime is not JSON serializable")
  | VList [] => Ok (&"[]")
  | VList l =>
    items ← collect (json_text (S level)) l;
    Ok (&"[" ++ join (chr ",") (app (newline lay (S level)) <$> items) ++ newline lay level ++ &"]")
  | VDict [] => Ok (&"{}")
  | VDict d =>
    entries ← collect (λ kv, t ← json_text (S level) kv.2; Ok (kv.1, t)) d;
    Ok (&"{" ++ join (chr ",") ((λ kt, newline lay (S level) ++ json_string kt.1 ++ &":" ++ after_colon lay ++ kt.2)
                                   <$> sorted key_leb entries)
        ++ newline lay level ++ &"}")
  end.
End dumps.

Section json_bytes.
Context (float_repr : Q → pystr).

Definition json_dumps : pyval → outcome pystr := json_text float_repr compact 0.

(** [json_bytes] of the version tool: the text is ASCII, so [encode()] cannot
    fail on it; and of the release client, indented and with a final newline. *)
Definition json_bytes (v : pyval) : outcome bytes := text ← json_dumps v; encode text.
Definition json_bytes_indented (v : pyval) : outcome bytes :=
  text ← json_text float_repr indented 0 v; encode (text ++ [10%N]).
End json_bytes.

Example json_dumps_demo :
  json_dumps (λ _, []) (VDict [(&"b", VList [VInt (-5); VNone; VBool true]); (&"a", VStr (&"x" ++ [10; 233; 128512]%N))])
  = Ok (&"{" ++ [34%N] ++ &"a" ++ [34%N] ++ &":" ++ [34%N] ++ &"x\n\u00e9\ud83d\ude00" ++ [34%N] ++ &"," ++ [34%N]
        ++ &"b" ++ [34%N] ++ &":[-5,null,true]}").
Proof. vm_compute. reflexivity. Qed.

Example json_indented_demo :
  json_text (λ _, []) indented 0 (VDict [(&"b", VList [VInt 1; VDict []]); (&"a", VList [])])
  = Ok (&"{" ++ [10%N] ++ &"  " ++ [34%N] ++ &"a" ++ [34%N] ++ &": []," ++ [10%N] ++ &"  " ++ [34%N] ++ &"b" ++ [34%N]
        ++ &": [" ++ [10%N] ++ &"    1," ++ [10%N] ++ &"    {}" ++ [10%N] ++ &"  ]" ++ [10%N] ++ &"}").
Proof. vm_compute. reflexivity. Qed.

(** ** Reading JSON text ([json.loads], [parse_json] of [scripts/release_control.py])

    The scanner and the parser of the standard library on decoded text, the
    detection of the encoding of a byte string, and the release client's reader
    that refuses duplicate fields.  The words [NaN] and [Infinity] name no value
    of the model and are refused; recursion is by fuel, twice the length of the text
    (every bracket costs a value and an item). *)

Definition json_error : exn := Exn EValue "JSONDecodeError".

Definition json_space (c : N) : bool := bool_decide (c ∈ [32; 9; 10; 13]%N).
Definition skip_space (s : pystr) : pystr := drop_while json_space s.

(** ** Strings *)

(** The code unit of [\uXXXX] and the text after its digits. *)
Definition hex4_value (s : pystr) : option (N * pystr) :=
  match s with
  | a :: b :: c :: d :: r =>
    a ← hex_value a; b ← hex_value b; c ← hex_value c; d ← hex_value d;
    Some ((((a * 16 + b) * 16 + c) * 16 + d)%N, r)
  | _ => None
  end.

Definition high_surrogate (c : N) : bool := ((55296 <=? c) && (c <=? 56319))%N.
Definition low_surrogate (c : N) : bool := ((56320 <=? c) && (c <=? 57343))%N.
Definition join_surrogates (h l : N) : N := (65536 + (h - 55296) * 1024 + (l - 56320))%N.

Definition escape (c : N) : option N :=
  if bool_decide (c ∈ [34; 92; 47]%N) then Some c
  else if bool_decide (c = chr "b") then Some 8%N
  else if bool_decide (c = chr "f") then Some 12%N
  else if bool_decide (c = chr "n") then Some 10%N
  else if bool_decide (c = chr "r") then Some 13%N
  else if bool_decide (c = chr "t") then Some 9%N
  else None.

(** The code point of [\u] escapes after the [u]. *)
Definition scan_unicode (r : pystr) : outcome (N * pystr) :=
  match hex4_value r with
  | None => Raise json_error
  | Some (u, r) =>
    if high_surrogate u && startswith (&"\u") r then
      match hex4_value (drop 2 r) with
      | None => Raise json_error
      | Some (v, r') => if low_surrogate v then Ok (join_surrogates u v, r') else Ok (u, r)
      end
    else Ok (u, r)
  end.

(** One character of a string after its opening quote: the end of the string, or
    a code point; and the text after it. *)
Definition scan_char (s : pystr) : outcome (option N * pystr) :=
  match s with
  | [] => Raise json_error
  | c :: r =>
    if bool_decide (c = 34%N) then Ok (None, r)
    else if (c <? 32)%N then Raise json_error
    else if bool_decide (c = 92%N) then
      match r with
      | [] => Raise json_error
      | e :: r =>
        if bool_decide (e = chr "u") then '(u, r) ← scan_unicode r; Ok (Some u, r)
        else match escape e with Some x => Ok (Some x, r) | None => Raise json_error end
      end
    else Ok (Some c, r)
  end.

Definition out_of_fuel : exn := Exn EOther "fuel".

(** [scanstring] *)
Fixpoint scan_string (n : nat) (s : pystr) : outcome (pystr * pystr) :=
  match n with
  | O => Raise out_of_fuel
  | S n =>
    '(x, r) ← scan_char s;
    match x with
    | None => Ok ([], r)
    | Some c => '(t, r) ← scan_string n r; Ok (c :: t, r)
    end
  end.

Definition json_string_at (s : pystr) : outcome (pystr * pystr) := scan_string (S (length s)) s.

(** ** Numbers *)

Definition fraction_text (r : pystr) : pystr :=
  match r with
  | c :: r => if bool_decide (c = chr ".") then
                match take_while is_digit r with [] => [] | ds => c :: ds end
              else []
  | [] => []
  end.

Definition exponent_text (r : pystr) : pystr :=
  match r with
  | c :: r =>
    if bool_decide (c ∈ &"eE") then
      let sign := match r with s :: _ => if bool_decide (s ∈ &"+-") then [s] else [] | [] => [] end in
      match take_while is_digit (drop (length sign) r) with [] => [] | ds => c :: sign ++ ds end
    else []
  | [] => []
  end.

(** The value of the text of a number. *)
Definition number_value (negative : bool) (whole tail : pystr) : outcome pyval :=
  if bool_decide (tail = [])
  then Ok (VInt (if negative then - int_of_digits whole else int_of_digits whole))
  else q ← py_float (VStr ((if negative then [chr "-"] else []) ++ whole ++ tail)); Ok (VFloat q).

(** A match of the scanner's number pattern after its sign. *)
Definition unsigned_number (negative : bool) (s : pystr) : outcome (pyval * pystr) :=
  match s with
  | c :: s' =>
    if is_digit c then
      let whole := if bool_decide (c = chr "0") then [c] else c :: take_while is_digit s' in
      let r := drop (length whole) s in
      let fraction := fraction_text r in
      let exponent := exponent_text (drop (length fraction) r) in
      v ← number_value negative whole (fraction ++ exponent);
      Ok (v, drop (length (fraction ++ exponent)) r)
    else Raise json_error
  | [] => Raise json_error
  end.

Definition json_number (s : pystr) : outcome (pyval * pystr) :=
  match s with
  | c :: s' => if bool_decide (c = chr "-") then unsigned_number true s' else unsigned_number false s
  | [] => Raise json_error
  end.

(** ** Values *)

Section loads.
Context (hook : list (pystr * pyval) → outcome pyobject).

(** [scan_once], with the loops of [JSONArray] and [JSONObject] from their first
    item on. *)
Fixpoint json_value (n : nat) (s : pystr) : outcome (pyval * pystr) :=
  match n with
  | O => Raise out_of_fuel
  | S n =>
    match s with
    | [] => Raise json_error
    | c :: r =>
      if bool_decide (c = 34%N) then '(t, r) ← json_string_at r; Ok (VStr t, r)
      else if bool_decide (c = chr "{") then
        let r := skip_space r in
        if startswith (&"}") r then d ← hook []; Ok (VDict d, tail r)
        else '(entries, r) ← json_members n r; d ← hook entries; Ok (VDict d, r)
      else if bool_decide (c = chr "[") then
        let r := skip_space r in
        if startswith (&"]") r then Ok (VList [], tail r)
        else '(items, r) ← json_elements n r; Ok (VList items, r)
      else if startswith (&"null") s then Ok (VNone, drop 4 s)
      else if startswith (&"true") s then Ok (VBool true, drop 4 s)
      else if startswith (&"false") s then Ok (VBool false, drop 5 s)
      else json_number s
    end
  end
with json_elements (n : nat) (s : pystr) : outcome (list pyval * pystr) :=
  match n with
  | O => Raise out_of_fuel
  | S n =>
    '(v, r) ← json_value n s;
    match skip_space r with
    | c :: r =>
      if bool_decide (c = chr ",") then '(l, r) ← json_elements n (skip_space r); Ok (v :: l, r)
      else if bool_decide (c = chr "]") then Ok ([v], r)
      else Raise json_error
    | [] => Raise json_error
    end
  end
with json_members (n : nat) (s : pystr) : outcome (list (pystr * pyval) * pystr) :=
  match n with
  | O => Raise out_of_fuel
  | S n =>
    match s with
    | q :: s =>
      if bool_decide (q = 34%N) then
        '(k, r) ← json_string_at s;
        match skip_space r with
        | c :: r =>
          if bool_decide (c = chr ":") then
            '(v, r) ← json_value n (skip_space r);
            match skip_space r with
            | c :: r =>
              if bool_decide (c = chr ",") then '(l, r) ← json_members n (skip_space r); Ok ((k, v) :: l, r)
              else if bool_decide (c = chr "}") then Ok ([(k, v)], r)
              else Raise json_error
            | [] => Raise json_error
            end
          else Raise json_error
        | [] => Raise json_error
        end
      else Raise json_error
    | [] => Raise json_error
    end
  end.

(** [json.loads] of a text *)
Definition json_loads (s : pystr) : outcome pyval :=
  let s := skip_space s in
  '(v, r) ← json_value (2 * length s + 2) s;
  match skip_space r with [] => Ok v | _ => Raise json_error end.
End loads.

(** ** Encodings *)

Definition unicode_error : exn := Exn EUnicode "can't decode bytes".

(** A code unit of some bytes, in either byte order. *)
Definition code_unit (big_endian : bool) (b : bytes) : N :=
  fold_left (λ a x, (a * 256 + Byte.to_N x)%N) (if big_endian then b else rev b) 0%N.

Fixpoint units_of_2 (big_endian : bool) (b : bytes) : outcome (list N) :=
  match b with
  | [] => Ok []
  | a :: c :: b => l ← units_of_2 big_endian b; Ok (code_unit big_endian [a; c] :: l)
  | _ => Raise unicode_error
  end.

Fixpoint units_of_4 (big_endian : bool) (b : bytes) : outcome (list N) :=
  match b with
  | [] => Ok []
  | a :: c :: d :: e :: b =>
    let u := code_unit big_endian [a; c; d; e] in
    if (u <? 1114112)%N then l ← units_of_4 big_endian b; Ok (u :: l) else Raise unicode_error
  | _ => Raise unicode_error
  end.

(** UTF-16 code units to code points; a lone surrogate stands for itself. *)
Fixpoint join_units (l : list N) : pystr :=
  match l with
  | [] => []
  | u :: l' =>
    match l' with
    | v :: l'' => if high_surrogate u && low_surrogate v then join_surrogates u v :: join_units l'' else u :: join_units l'
    | [] => [u]
    end
  end.

(** [b.decode("utf-8", "surrogatepass")] *)
Fixpoint decode_utf8_pass (b : bytes) : outcome pystr :=
  match b with
  | [] => Ok []
  | b0 :: r0 =>
    let n0 := Byte.to_N b0 in
    let low x := (Byte.to_N x - 128)%N in
    if (n0 <? 128)%N then s ← decode_utf8_pass r0; Ok (n0 :: s)
    else
      match r0 with
      | b1 :: r1 =>
        if (194 <=? n0)%N && (n0 <? 224)%N && cont b1
        then s ← decode_utf8_pass r1; Ok (((n0 - 192) * 64 + low b1)%N :: s)
        else
          match r1 with
          | b2 :: r2 =>
            if (224 <=? n0)%N && (n0 <? 240)%N && (second_of_3 b0 b1 || (n0 =? 237)%N && cont b1) && cont b2
            then s ← decode_utf8_pass r2; Ok (((n0 - 224) * 4096 + low b1 * 64 + low b2)%N :: s)
            else
              match r2 with
              | b3 :: r3 =>
                if (240 <=? n0)%N && (n0 <? 245)%N && second_of_4 b0 b1 && cont b2 && cont b3
                then s ← decode_utf8_pass r3;
                     Ok (((n0 - 240) * 262144 + low b1 * 4096 + low b2 * 64 + low b3)%N :: s)
                else Raise unicode_error
              | [] => Raise unicode_error
              end
          | [] => Raise unicode_error
          end
      | [] => Raise unicode_error
      end
  end.

Inductive json_encoding : Type :=
  | UTF8 (skip : nat)
  | UTF16 (big_endian : bool) (skip : nat)
  | UTF32 (big_endian : bool) (skip : nat).

(** [json.detect_encoding], with the length of the byte order mark the decoder
    drops. *)
Definition detect_encoding (b : bytes) : json_encoding :=
  let starts := λ l : list N, startswith (byte_of <$> l) b in
  let zero := λ i : nat, bool_decide (b !! i = Some Byte.x00) in
  if starts [0; 0; 254; 255]%N then UTF32 true 4
  else if starts [255; 254; 0; 0]%N then UTF32 false 4
  else if starts [254; 255]%N then UTF16 true 2
  else if starts [255; 254]%N then UTF16 false 2
  else if starts [239; 187; 191]%N then UTF8 3
  else if (4 <=? length b)%nat then
    if zero 0%nat then (if zero 1%nat then UTF32 true 0 else UTF16 true 0)
    else if zero 1%nat then (if zero 2%nat && zero 3%nat then UTF32 false 0 else UTF16 false 0)
    else UTF8 0
  else if (length b =? 2)%nat then
    if zero 0%nat then UTF16 true 0 else if zero 1%nat then UTF16 false 0 else UTF8 0
  else UTF8 0.

Definition decode_json (b : bytes) : outcome pystr :=
  match detect_encoding b with
  | UTF8 skip => decode_utf8_pass (drop skip b)
  | UTF16 be skip => l ← units_of_2 be (drop skip b); Ok (join_units l)
  | UTF32 be skip => units_of_4 be (drop skip b)
  end.

(** ** The release client's reader *)

Definition release_error (text : string) : exn := Exn ERelease text.

(** [require] *)
Definition release_require (condition : bool) (message : string) : outcome unit :=
  check condition (release_error message).

Lemma release_require_ok c m u : release_require c m = Ok u ↔ c = true.
Proof. apply check_ok. Qed.

(** [no_duplicates] *)
Fixpoint no_duplicates (pairs : list (pystr * pyval)) (result : pyobject) : outcome pyobject :=
  match pairs with
  | [] => Ok result
  | (k, v) :: pairs =>
    _ ← release_require (negb (dict_has k result)) "Duplicate JSON field in";
    no_duplicates pairs (dict_set k v result)
  end.

(** [parse_json] *)
Definition parse_json (data : bytes) : outcome pyval :=
  catch (text ← decode_json data; json_loads (λ pairs, no_duplicates pairs []) text)
    is_value_error (λ _, Raise (release_error "Invalid JSON in")).

Example parse_json_demo :
  parse_json (byte_of <$> &"{" ++ [34%N] ++ &"a" ++ [34%N] ++ &" : [1, -0, null, {}],"
              ++ [34%N] ++ &"b" ++ [34%N] ++ &":2.5e1}" ++ [10%N])
  = Ok (VDict [(&"a", VList [VInt 1; VInt 0; VNone; VDict []]); (&"b", VFloat (250 # 10))])
  ∧ parse_json (byte_of <$> &"{" ++ [34; 34]%N ++ &":1," ++ [34; 34]%N ++ &":2}")
    = Raise (release_error "Duplicate JSON field in")
  ∧ parse_json (byte_of <$> &"[1,]") = Raise (release_error "Invalid JSON in")
  ∧ parse_json (byte_of <$> &"01") = Raise (release_error "Invalid JSON in")
  ∧ parse_json (byte_of <$> [34%N] ++ &"\ud83d\ude00\ud83dx" ++ [34%N])
    = Ok (VStr [128512; 55357; 120]%N)
  ∧ parse_json (byte_of <$> [255; 254; 91; 0; 93; 0]%N) = Ok (VList []).
Proof. vm_compute. done. Qed.
