(* ===== verification/JsonFacts.v ===== *)
(** * JSON text read back

    Parsing the text of a value gives the value with its keys in order, for any
    layout; and the release client's reader gives it back from the bytes. *)

From Stdlib Require Import QArith.QArith Sorting.Sorted.
From S2P Require Import Prelude PyStr PyDict PyRegex PyVal Passwords PyJson.
#[local] Open Scope Z_scope.

(** ** The values with a faithful text *)

Definition scalar_char (c : N) : bool := (c <? 1114112)%N && negb (surrogate c).

(** No floats or times, no surrogates, distinct keys. *)
Fixpoint plain (v : pyval) : bool :=
  match v with
  | VNone | VBool _ | VInt _ => true
  | VFloat _ | VDatetime _ => false
  | VStr s => forallb scalar_char s
  | VList l => forallb plain l
  | VDict d => bool_decide (NoDup (dict_keys d)) && forallb (λ kv, forallb scalar_char kv.1 && plain kv.2) d
  end.

(** The value with every dictionary in the order of its keys. *)
Fixpoint canonical (v : pyval) : pyval :=
  match v with
  | VList l => VList (canonical <$> l)
  | VDict d => VDict (sorted key_leb ((λ kv, (kv.1, canonical kv.2)) <$> d))
  | _ => v
  end.

(** ** Sorting *)

Lemma insert_sorted_Forall2 {A B} (f : A → A → bool) (g : B → B → bool) (R : A → B → Prop) a b l l' :
  (∀ a b a' b', R a b → R a' b' → f a a' = g b b') →
  R a b → Forall2 R l l' → Forall2 R (insert_sorted f a l) (insert_sorted g b l').
Proof.
  intros Hfg Hab. induction 1 as [|x y l l' Hxy Hl IH]; cbn; [by repeat constructor|].
  rewrite (Hfg _ _ _ _ Hab Hxy). destruct (g b y); repeat (constructor; try done).
Qed.

Lemma sorted_Forall2 {A B} (f : A → A → bool) (g : B → B → bool) (R : A → B → Prop) l l' :
  (∀ a b a' b', R a b → R a' b' → f a a' = g b b') → Forall2 R l l' → Forall2 R (sorted f l) (sorted g l').
Proof.
  intros Hfg. induction 1; cbn; [constructor|]. by eapply insert_sorted_Forall2.
Qed.

(** ** Characters *)

Lemma hex4_hex_value n r : (n < 65536)%N → hex4_value (hex4 n ++ r) = Some (n, r).
Proof.
  intros Hn. unfold hex4, hex4_value. cbn [app].
  assert (n / 4096 < 16)%N as H3 by (apply N.Div0.div_lt_upper_bound; lia).
  rewrite (N.mod_small (n / 4096)) by done.
  assert (∀ m, (m < 16)%N → hex_value (hex_digit m) = Some m) as Hx by (intros m Hm; by apply hex_digit_value).
  rewrite !Hx by (try done; apply N.mod_lt; done). cbn [mbind option_bind].
  do 2 f_equal.
  pose proof (N.div_mod n 16 ltac:(done)). pose proof (N.div_mod (n / 16) 16 ltac:(done)) as H1.
  pose proof (N.div_mod (n / 256) 16 ltac:(done)) as H2.
  rewrite N.Div0.div_div in H1, H2. change (16 * 16)%N with 256%N in H1. change (256 * 16)%N with 4096%N in H2. lia.
Qed.

Lemma scalar_char_spec c : scalar_char c = true → (c < 1114112)%N ∧ ¬ (55296 ≤ c ≤ 57343)%N.
Proof.
  unfold scalar_char, surrogate. rewrite andb_true_iff, negb_true_iff, andb_false_iff, N.ltb_lt, !N.leb_gt. lia.
Qed.

Lemma not_high c : ¬ (55296 ≤ c ≤ 57343)%N → high_surrogate c = false.
Proof. intros Hc. unfold high_surrogate. rewrite andb_false_iff, !N.leb_gt. lia. Qed.

Lemma surrogate_ranges q : (q < 1024)%N →
  high_surrogate (55296 + q) = true ∧ low_surrogate (56320 + q) = true ∧ (55296 + q < 65536)%N ∧ (56320 + q < 65536)%N.
Proof. intros Hq. unfold high_surrogate, low_surrogate. rewrite !andb_true_iff, !N.leb_le. lia. Qed.

Lemma scan_unicode_pair c r :
  (65536 ≤ c < 1114112)%N →
  scan_unicode (hex4 (55296 + (c - 65536) / 1024 mod 1024) ++ &"\u" ++ hex4 (56320 + (c - 65536) mod 1024) ++ r) = Ok (c, r).
Proof.
  intros Hc. assert (c = 65536 + (c - 65536))%N as Hd by lia. assert (c - 65536 < 1048576)%N as Hlt by lia.
  revert Hd Hlt. generalize (c - 65536)%N as d. intros d -> Hlt.
  assert (d / 1024 < 1024)%N as Hq by (apply N.Div0.div_lt_upper_bound; lia).
  pose proof (N.mod_lt d 1024 ltac:(done)) as Hm. rewrite (N.mod_small (d / 1024)) by done.
  pose proof (N.div_mod d 1024 ltac:(done)) as Hdm.
  revert Hq Hm Hdm. generalize (d / 1024)%N as q, (d mod 1024)%N as m. intros q m Hq Hm ->.
  destruct (surrogate_ranges q Hq) as (H1 & _ & H2 & _), (surrogate_ranges m Hm) as (_ & H3 & _ & H4).
  unfold scan_unicode. rewrite hex4_hex_value, H1, startswith_app by done. cbn [andb].
  change (drop 2 (&"\u" ++ ?x)) with x. rewrite hex4_hex_value, H3 by done.
  do 2 f_equal. unfold join_surrogates. lia.
Qed.

Lemma scan_char_json c r : scalar_char c = true → scan_char (json_char c ++ r) = Ok (Some c, r).
Proof.
  intros [Hc Hs]%scalar_char_spec. unfold json_char.
  destruct (bool_decide_reflect (c = 34%N)) as [->|H1]; [done|].
  destruct (bool_decide_reflect (c = 92%N)) as [->|H2]; [done|].
  destruct (N.leb_spec 32 c) as [H3|H3]; [destruct (N.leb_spec c 126) as [H4|H4]|]; cbn [andb].
  { cbn. rewrite !bool_decide_false by done. by rewrite (proj2 (N.ltb_ge _ _)). }
  all: do 5 (case_bool_decide; [by subst; vm_compute|]).
  all: destruct (N.ltb_spec c 65536).
  all: rewrite <-?app_assoc; cbn [app]; change (&"\u") with [92; 117]%N; cbn [app scan_char].
  all: change (bool_decide (92%N = 34%N)) with false; change (92 <? 32)%N with false;
    change (bool_decide (92%N = 92%N)) with true; change (bool_decide (117%N = chr "u")) with true; cbv iota.
  all: try (by unfold scan_unicode; rewrite hex4_hex_value, not_high by done).
  all: change (92%N :: 117%N :: ?x) with (&"\u" ++ x); by rewrite scan_unicode_pair by lia.
Qed.

Lemma length_json_char c : (0 < length (json_char c))%nat.
Proof.
  unfold json_char. repeat case_match; exact (Nat.lt_0_succ _).
Qed.

(** A string whose characters are written by [f], when the scanner undoes [f]. *)
Lemma json_string_at_coded (f : N → pystr) s r :
  (∀ c, c ∈ s → ∀ r, scan_char (f c ++ r) = Ok (Some c, r)) → json_string_at ((s ≫= f) ++ 34%N :: r) = Ok (s, r).
Proof.
  intros Hs. unfold json_string_at.
  assert (length s < S (length ((s ≫= f) ++ 34%N :: r)))%nat as Hn.
  { rewrite length_app. enough (length s ≤ length (s ≫= f))%nat by lia.
    induction s as [|c s IH]; cbn; [lia|]. rewrite length_app.
    assert (0 < length (f c))%nat.
    { specialize (Hs c (list_elem_of_here _ _) []). destruct (f c); [done|cbn; lia]. }
    enough (length s ≤ length (s ≫= f))%nat by (unfold mbind in *; lia). apply IH. intros c' Hc'. apply Hs. by apply list_elem_of_further. }
  revert Hn. generalize (S (length ((s ≫= f) ++ 34%N :: r))) as n.
  induction s as [|c s IH]; intros n Hn; (destruct n as [|n]; [lia|]); cbn [scan_string]; [done|].
  cbn [mbind list_bind]. rewrite <-app_assoc, Hs by apply list_elem_of_here. cbn [mbind outcome_bind]. cbn [length] in Hn.
  change (list_bind _ _ f s) with (s ≫= f). rewrite IH; [done| |lia]. intros c' Hc'. apply Hs. by apply list_elem_of_further.
Qed.

Lemma json_string_at_json s r :
  forallb scalar_char s = true → json_string_at ((s ≫= json_char) ++ 34%N :: r) = Ok (s, r).
Proof.
  intros Hs. apply json_string_at_coded. intros c Hc r'. apply scan_char_json. rewrite forallb_forall in Hs.
  by apply Hs, list_elem_of_In.
Qed.

(** ** Numbers *)

(** A text after which a number ends. *)
Definition delimited (rest : pystr) : Prop :=
  match rest with [] => True | c :: _ => is_digit c = false ∧ c ∉ &".eE" end.

Lemma delimited_space w rest : forallb json_space w = true → delimited rest → delimited (w ++ rest).
Proof.
  destruct w as [|c w]; [done|]. cbn [forallb]. rewrite andb_true_iff. intros [Hc _] _.
  unfold json_space in Hc. apply bool_decide_eq_true in Hc. cbn [app delimited].
  rewrite !elem_of_cons, elem_of_nil in Hc.
  destruct Hc as [-> | [-> | [-> | [-> | []]]]]; (split; [done|]); by apply (has_false _ (&".eE")); vm_compute.
Qed.

Lemma take_while_delimited s rest :
  forallb is_digit s = true → delimited rest → take_while is_digit (s ++ rest) = s.
Proof.
  intros Hs Hr. induction s as [|c s IH]; cbn [app take_while].
  - destruct rest as [|c rest]; [done|]. destruct Hr as [Hc _]. cbn. by rewrite Hc.
  - cbn [forallb] in Hs. apply andb_true_iff in Hs as [Hc Hs]. rewrite Hc. by rewrite IH.
Qed.

Lemma no_number_tail rest : delimited rest → fraction_text rest = [] ∧ exponent_text rest = [].
Proof.
  destruct rest as [|c rest]; [done|]. intros [_ Hc]. unfold fraction_text, exponent_text.
  change (&".eE") with (chr "." :: &"eE") in Hc. apply not_elem_of_cons in Hc as [H1 H2].
  by rewrite !bool_decide_false.
Qed.

Lemma digits_fuel_head fuel n acc : 0 < n < 2 ^ Z.of_nat fuel → ∃ c s, digits_fuel fuel n acc = c :: s ∧ c ≠ chr "0".
Proof.
  revert n acc. induction fuel as [|fuel IH]; intros n acc Hn; [change (2 ^ Z.of_nat 0) with 1 in Hn; lia|].
  cbn [digits_fuel]. case_decide as Hlt.
  - eexists _, _. split; [done|]. rewrite Z.mod_small by lia. change (chr "0") with 48%N. lia.
  - rewrite Nat2Z.inj_succ, Z.pow_succ_r in Hn by lia. apply IH.
    split; [apply Z.div_str_pos; lia|]. apply Z.div_lt_upper_bound; lia.
Qed.

Lemma forallb_digits n : 0 ≤ n → forallb is_digit (str_of_nonneg n) = true.
Proof.
  intros Hn. apply forallb_forall. intros c Hc%list_elem_of_In.
  pose proof (str_of_nonneg_digits n Hn) as Hd. rewrite Forall_forall in Hd. auto.
Qed.

Lemma unsigned_number_str negative n rest :
  0 ≤ n → delimited rest →
  unsigned_number negative (str_of_nonneg n ++ rest) = Ok (VInt (if negative then - n else n), rest).
Proof.
  intros Hn Hr. destruct (no_number_tail rest Hr) as [Hf He]. pose proof (int_of_str_of_nonneg n Hn) as Hv.
  pose proof (forallb_digits n Hn) as Hd.
  destruct (str_of_nonneg n) as [|c s] eqn:E; [by destruct (str_of_nonneg_not_nil n)|].
  cbn [forallb] in Hd. apply andb_true_iff in Hd as [Hc Hs]. unfold unsigned_number. cbn [app]. rewrite Hc.
  assert ((if bool_decide (c = chr "0") then [c] else c :: take_while is_digit (s ++ rest)) = c :: s) as ->.
  { rewrite take_while_delimited by done. case_bool_decide as H0; [|done]. f_equal.
    destruct (Z.eq_dec n 0) as [->|Hn0].
    - by injection E.
    - destruct (digits_fuel_head (S (Z.to_nat (Z.log2 n))) n []) as (c' & s' & E' & Hc').
      { pose proof (nonneg_fuel n Hn). lia. }
      unfold str_of_nonneg in E. rewrite E in E'. by injection E' as -> ->. }
  change (c :: s ++ rest) with ((c :: s) ++ rest). rewrite drop_app_length.
  cbv zeta. rewrite Hf. change (drop (length []) rest) with rest. rewrite He.
  unfold number_value. rewrite bool_decide_true by done. cbn [mbind outcome_bind]. rewrite Hv. by destruct negative.
Qed.

Lemma json_number_int n rest : delimited rest → json_number (str_of_int n ++ rest) = Ok (VInt n, rest).
Proof.
  intros Hr. unfold str_of_int. case_decide as Hn; cbn [app json_number].
  - rewrite bool_decide_true by done. rewrite unsigned_number_str by (done || lia). do 3 f_equal. lia.
  - pose proof (forallb_digits n ltac:(lia)) as Hd. pose proof (unsigned_number_str false n rest ltac:(lia) Hr) as Hu.
    destruct (str_of_nonneg n) as [|c s] eqn:E; [by destruct (str_of_nonneg_not_nil n)|].
    cbn [forallb app] in *. apply andb_true_iff in Hd as [Hc _].
    unfold json_number. rewrite bool_decide_false by (intros ->; done). done.
Qed.

(** ** Values *)

(** The head of the text of a value begins a value. *)
Definition value_head (t : pystr) : Prop := ∃ c r, t = c :: r ∧ json_space c = false ∧ c ≠ chr "]" ∧ c ≠ chr "}".

Definition layout_ok (lay : layout) : Prop :=
  (∀ level, forallb json_space (newline lay level) = true) ∧ forallb json_space (after_colon lay) = true.

Lemma compact_ok : layout_ok compact.
Proof. done. Qed.

Lemma indented_ok : layout_ok indented.
Proof.
  split; [|done]. intros level.
  change (forallb json_space (replicate (2 * level) 32%N) = true). by induction (2 * level)%nat.
Qed.

Lemma skip_space_app w s : forallb json_space w = true → skip_space (w ++ s) = skip_space s.
Proof.
  induction w as [|c w IH]; [done|]. cbn [forallb app]. rewrite andb_true_iff. intros [Hc Hw].
  unfold skip_space in *. cbn [drop_while]. rewrite Hc. auto.
Qed.

Lemma skip_space_head w t s : forallb json_space w = true → value_head t → skip_space (w ++ t ++ s) = t ++ s.
Proof.
  intros Hw (c & r & -> & Hc & _). rewrite skip_space_app by done. unfold skip_space. cbn. by rewrite Hc.
Qed.

Lemma skip_space_char w c s :
  forallb json_space w = true → json_space c = false → skip_space (w ++ c :: s) = c :: s.
Proof. intros Hw Hc. rewrite skip_space_app by done. unfold skip_space. cbn. by rewrite Hc. Qed.

Lemma skip_space_here c s : json_space c = false → skip_space (c :: s) = c :: s.
Proof. exact (skip_space_char [] c s eq_refl). Qed.

(** The items after the first one, each after a comma and the layout, and what
    closes the sequence. *)
Fixpoint chain (w : pystr) (ts : list pystr) (close : pystr) : pystr :=
  match ts with [] => close | t :: ts => chr "," :: w ++ t ++ chain w ts close end.

Lemma join_chain w t ts close :
  join (chr ",") (app w <$> t :: ts) ++ close = w ++ t ++ chain w ts close.
Proof.
  revert t. induction ts as [|t' ts IH]; intros t.
  { change (app w <$> [t]) with [w ++ t]. cbn [join chain]. by rewrite <-app_assoc. }
  change (app w <$> t :: t' :: ts) with ((w ++ t) :: (app w <$> t' :: ts)).
  rewrite join_cons by done. cbn [chain]. rewrite <-!app_assoc. do 2 f_equal. cbn [app]. f_equal. apply IH.
Qed.

Lemma chain_app w ts close rest : chain w ts close ++ rest = chain w ts (close ++ rest).
Proof. induction ts as [|t ts IH]; [done|]. cbn. by rewrite <-!app_assoc, IH. Qed.

Lemma chain_delimited w ts w' c rest :
  forallb json_space w' = true → c ∈ &",]}" → delimited (chain w ts (w' ++ c :: rest)).
Proof.
  intros Hw Hc.
  assert (is_digit c = false ∧ c ∉ &".eE") as Hd.
  { change (&",]}") with [44; 93; 125]%N in Hc. rewrite !elem_of_cons, elem_of_nil in Hc.
    destruct Hc as [-> | [-> | [-> | []]]]; (split; [done|]); by apply (has_false _ (&".eE")); vm_compute. }
  destruct ts; cbn [chain]; [by apply delimited_space|].
  split; [done|]. by apply (has_false _ (&".eE")); vm_compute.
Qed.

Section parsing.
Context (hook : list (pystr * pyval) → outcome pyobject).
Context (Hhook : ∀ entries, NoDup entries.*1 → hook entries = Ok entries).

(** The parser reads the text [t] as the value [v]. *)
Definition reads (v : pyval) (t : pystr) : Prop :=
  value_head t
  ∧ ∀ n rest, (length t ≤ n)%nat → delimited rest → json_value hook n (t ++ rest) = Ok (v, rest).

Lemma json_elements_text w w' vs ts v t n rest :
  forallb json_space w = true → forallb json_space w' = true →
  Forall2 reads vs ts → reads v t → (length (t ++ chain w ts (w' ++ &"]")) ≤ n)%nat →
  json_elements hook n (t ++ chain w ts (w' ++ &"]" ++ rest)) = Ok (v :: vs, rest).
Proof.
  intros Hw Hw' Hvs. revert v t n. induction Hvs as [|v' t' vs ts Hv' Hvs IH]; intros v t n [Hh Hv] Hn;
    rewrite length_app in Hn; (destruct n as [|n]; [destruct Hh as (? & ? & -> & _); cbn in Hn; lia|]);
    cbn [json_elements]; change (&"]") with [chr "]"] in *; cbn [app].
  - rewrite Hv; [|cbn [chain] in Hn; rewrite length_app in Hn; cbn [length] in Hn; lia|apply chain_delimited; [done|by apply (has_true _ (&",]}")); vm_compute]].
    cbn [mbind outcome_bind chain]. rewrite skip_space_char by done. done.
  - rewrite Hv; [|cbn [chain length] in Hn; lia|apply chain_delimited; [done|by apply (has_true _ (&",]}")); vm_compute]].
    cbn [mbind outcome_bind chain]. rewrite skip_space_here by done. rewrite bool_decide_true by done.
    rewrite skip_space_head by (done || apply Hv'). rewrite (IH v' t'); [done|done|].
    cbn [chain length] in Hn. rewrite !length_app in Hn. rewrite length_app. cbn [app length] in *. lia.
Qed.

Definition entry_text (ac : pystr) (kt : pystr * pystr) : pystr := json_string kt.1 ++ &":" ++ ac ++ kt.2.

Lemma entry_lines w ac (l : list (pystr * pystr)) :
  (λ kt, w ++ json_string kt.1 ++ &":" ++ ac ++ kt.2) <$> l = app w <$> (entry_text ac <$> l).
Proof. by rewrite <-list_fmap_compose. Qed.

(** The parser reads the entry [kt] as the binding [kv]. *)
Definition reads_entry (kv : pystr * pyval) (kt : pystr * pystr) : Prop :=
  kv.1 = kt.1 ∧ forallb scalar_char kt.1 = true ∧ reads kv.2 kt.2.

Lemma entry_head ac kt : value_head (entry_text ac kt).
Proof. eexists 34%N, _. split; [done|]. done. Qed.

Lemma json_entry_text ac kv kt n rest :
  forallb json_space ac = true → reads_entry kv kt → delimited rest → (length (entry_text ac kt) ≤ S n)%nat →
  json_members hook (S n) (entry_text ac kt ++ rest) =
    match skip_space rest with
    | c :: r => if bool_decide (c = chr ",")
                then '(l, r) ← json_members hook n (skip_space r); Ok (kv :: l, r)
                else if bool_decide (c = chr "}") then Ok ([kv], r) else Raise json_error
    | [] => Raise json_error
    end.
Proof.
  intros Hac (Hk & Hs & Hh & Hv) Hr Hn. destruct kv as [k' v], kt as [k t]; cbn [fst snd] in *; subst k'.
  unfold entry_text, json_string in *. cbn [fst snd] in *. change (&":") with [chr ":"] in *.
  rewrite !length_app in Hn. cbn [length] in Hn. cbn [app json_members]. rewrite bool_decide_true by done.
  rewrite <-!app_assoc. cbn [app]. rewrite json_string_at_json by done. cbn [mbind outcome_bind].
  rewrite skip_space_here by done. rewrite bool_decide_true by done.
  rewrite <-app_assoc, skip_space_head by done. rewrite Hv by (done || lia). done.
Qed.

Lemma json_members_text ac w w' kvs kts kv kt n rest :
  forallb json_space ac = true → forallb json_space w = true → forallb json_space w' = true →
  Forall2 reads_entry kvs kts → reads_entry kv kt →
  (length (entry_text ac kt ++ chain w (entry_text ac <$> kts) (w' ++ &"}")) ≤ n)%nat →
  json_members hook n (entry_text ac kt ++ chain w (entry_text ac <$> kts) (w' ++ &"}" ++ rest)) = Ok (kv :: kvs, rest).
Proof.
  intros Hac Hw Hw' Hvs. revert kv kt n. induction Hvs as [|kv' kt' kvs kts Hv' Hvs IH]; intros kv kt n Hv Hn;
    rewrite length_app in Hn; (destruct n as [|n]; [unfold entry_text, json_string in Hn; cbn in Hn; lia|]); change (&"}") with [chr "}"] in *; cbn [app];
    rewrite (json_entry_text ac kv)
      by (done || lia || (apply chain_delimited; [done|by apply (has_true _ (&",]}")); vm_compute])).
  - cbn [fmap list_fmap chain]. by rewrite skip_space_char.
  - cbn [fmap list_fmap chain]. rewrite skip_space_here by done. rewrite bool_decide_true by done.
    rewrite skip_space_head by (done || apply entry_head). rewrite (IH kv' kt'); [done|done|].
    cbn [fmap list_fmap chain length] in Hn. rewrite !length_app in Hn. rewrite length_app. cbn [length] in Hn. lia.
Qed.

Context (float_repr : Q → pystr) (lay : layout) (Hlay : layout_ok lay).

Lemma reads_scalar v t :
  value_head t → (∀ c, head t = Some c → c ∉ &"{[") → head t ≠ Some 34%N →
  (∀ rest, delimited rest →
   (if startswith (&"null") (t ++ rest) then Ok (VNone, drop 4 (t ++ rest))
    else if startswith (&"true") (t ++ rest) then Ok (VBool true, drop 4 (t ++ rest))
    else if startswith (&"false") (t ++ rest) then Ok (VBool false, drop 5 (t ++ rest))
    else json_number (t ++ rest)) = Ok (v, rest)) →
  reads v t.
Proof.
  intros Hh Hc Hq Hv. split; [done|]. intros n rest Hn Hr. destruct Hh as (c & r & -> & _).
  destruct n as [|n]; [cbn in Hn; lia|]. specialize (Hc c eq_refl). specialize (Hv rest Hr).
  cbn [app json_value head] in *.
  rewrite !bool_decide_false by (intros ->; first [by apply Hq|by apply Hc, (has_true _ (&"{[")); vm_compute]).
  exact Hv.
Qed.

Lemma reads_int n : reads (VInt n) (str_of_int n).
Proof.
  assert (∃ c r, str_of_int n = c :: r ∧ (is_digit c = true ∨ c = chr "-")) as (c & r & E & Hc).
  { unfold str_of_int. case_decide as Hn; [by eauto|]. pose proof (forallb_digits n ltac:(lia)) as Hd.
    destruct (str_of_nonneg n) as [|c s] eqn:E; [by destruct (str_of_nonneg_not_nil n)|].
    cbn [forallb] in Hd. apply andb_true_iff in Hd as [Hd _]. eauto 10. }
  assert (∀ x, is_digit x = false → x ≠ chr "-" → c ≠ x) as Hne by (intros x Hx Hx' ->; destruct Hc; congruence).
  apply reads_scalar; rewrite ?E.
  - exists c, r. split; [done|]. split; [|by split; apply Hne].
    unfold json_space. apply bool_decide_eq_false. rewrite !elem_of_cons, elem_of_nil.
    intros [H|[H|[H|[H|[]]]]]; revert H; by apply Hne.
  - intros x [= <-]. change (&"{[") with [123; 91]%N. rewrite !elem_of_cons, elem_of_nil.
    intros [H|[H|[]]]; revert H; by apply Hne.
  - intros [= H]. revert H. by apply Hne.
  - intros rest Hr. rewrite <-E.
    assert (∀ x p, is_digit x = false → x ≠ chr "-" → startswith (x :: p) (str_of_int n ++ rest) = false) as Hs.
    { intros x p Hx Hx'. rewrite E. cbn. rewrite bool_decide_false; [done|]. intros Hxc. by apply (Hne x Hx Hx'). }
    change (&"null") with (chr "n" :: &"ull"). change (&"true") with (chr "t" :: &"rue").
    change (&"false") with (chr "f" :: &"alse"). rewrite !Hs by done. by apply json_number_int.
Qed.

Lemma reads_word v (w : pystr) :
  w ∈ [&"null"; &"true"; &"false"] →
  (∀ rest, (if startswith (&"null") (w ++ rest) then Ok (VNone, drop 4 (w ++ rest))
    else if startswith (&"true") (w ++ rest) then Ok (VBool true, drop 4 (w ++ rest))
    else if startswith (&"false") (w ++ rest) then Ok (VBool false, drop 5 (w ++ rest))
    else json_number (w ++ rest)) = Ok (v, rest)) → reads v w.
Proof.
  rewrite !elem_of_cons, elem_of_nil. intros Hw Hv.
  apply reads_scalar; [..|auto]; destruct Hw as [-> | [-> | [-> | []]]]; try done;
    try (by eexists _, _); by intros c [= <-]; apply (has_false _ (&"{[")); vm_compute.
Qed.

Lemma reads_string s : forallb scalar_char s = true → reads (VStr s) (json_string s).
Proof.
  intros Hs. split; [by eexists 34%N, _|]. intros [|n] rest Hn Hr; [cbn in Hn; lia|].
  unfold json_string. cbn [app json_value]. rewrite bool_decide_true by done. rewrite <-app_assoc. cbn [app].
  by rewrite json_string_at_json.
Qed.

Lemma reads_list level v vs t ts :
  reads v t → Forall2 reads vs ts →
  reads (VList (v :: vs))
    (&"[" ++ join (chr ",") (app (newline lay (S level)) <$> t :: ts) ++ newline lay level ++ &"]").
Proof.
  intros Hv Hvs. destruct Hlay as [Hnl _]. rewrite join_chain. split; [by eexists _, _|].
  intros n rest Hn Hr. change (&"[") with [chr "["] in *. cbn [app] in *.
  destruct n as [|n]; [cbn in Hn; lia|]. cbn [json_value].
  do 2 (rewrite bool_decide_false by done). rewrite bool_decide_true by done.
  rewrite <-!app_assoc, chain_app, <-app_assoc. rewrite skip_space_head by (apply Hnl || apply Hv).
  assert (startswith (&"]") (t ++ chain (newline lay (S level)) ts (newline lay level ++ &"]" ++ rest)) = false) as ->.
  { destruct Hv as [(c & r & -> & _ & Hc & _) _]. change (&"]") with [chr "]"]. cbn. by rewrite bool_decide_false. }
  rewrite (json_elements_text _ _ vs ts v); [done|by try apply Hnl..|].
  cbn [length] in Hn. rewrite length_app in Hn. lia.
Qed.

Lemma reads_dict level kv kvs kt kts :
  reads_entry kv kt → Forall2 reads_entry kvs kts → NoDup (kv :: kvs).*1 →
  reads (VDict (kv :: kvs))
    (&"{" ++ join (chr ",") (app (newline lay (S level)) <$> (entry_text (after_colon lay) <$> kt :: kts))
     ++ newline lay level ++ &"}").
Proof.
  intros Hv Hvs Hnd. destruct Hlay as [Hnl Hac].
  change (entry_text (after_colon lay) <$> kt :: kts)
    with (entry_text (after_colon lay) kt :: (entry_text (after_colon lay) <$> kts)).
  rewrite join_chain. split; [by eexists _, _|].
  intros n rest Hn Hr. change (&"{") with [chr "{"] in *. cbn [app] in *.
  destruct n as [|n]; [cbn in Hn; lia|]. cbn [json_value].
  rewrite bool_decide_false by done. rewrite bool_decide_true by done.
  rewrite <-!app_assoc, chain_app, <-app_assoc. rewrite skip_space_head by (apply Hnl || apply entry_head).
  change (startswith (&"}") (entry_text (after_colon lay) kt ++ ?x)) with false. cbv iota.
  rewrite (json_members_text _ _ _ kvs kts kv); [cbn [mbind outcome_bind]; by rewrite Hhook|by try apply Hnl..|].
  cbn [length] in Hn. rewrite length_app in Hn. lia.
Qed.

Lemma json_entries_read level d entries :
  Forall (λ kv, ∀ level t, plain kv.2 = true → json_text float_repr lay level kv.2 = Ok t → reads (canonical kv.2) t) d →
  forallb (λ kv, forallb scalar_char kv.1 && plain kv.2) d = true →
  Forall2 (λ kv kt, (t ← json_text float_repr lay level kv.2; Ok (kv.1, t)) = Ok kt) d entries →
  Forall2 (λ kv kt, reads_entry (kv.1, canonical kv.2) kt) d entries.
Proof.
  intros IH Hp Hall. induction Hall as [|kv kt d entries Hkt Hall IHd]; [constructor|].
  cbn [forallb] in Hp. rewrite !andb_true_iff in Hp. destruct Hp as [[Hs Hp] Hps]. inversion IH; subst.
  constructor; [|auto]. inv_bind. split; [done|]. cbn [fst snd]. eauto.
Qed.

Lemma json_text_reads v level t :
  plain v = true → json_text float_repr lay level v = Ok t → reads (canonical v) t.
Proof.
  revert level t. induction v as [|b|n|q|s|q|l IH|d IH] using pyval_rect_nested; intros level t Hp; cbn [json_text]; try done.
  - intros [= <-]. by apply reads_word; [apply list_elem_of_here|].
  - intros [= <-]. destruct b; (apply reads_word; [rewrite !elem_of_cons; tauto|done]).
  - intros [= <-]. apply reads_int.
  - intros [= <-]. by apply reads_string.
  - destruct l as [|v l].
    { intros [= <-]. split; [by eexists _, _|]. intros [|n] rest Hn Hr; [by inversion Hn|done]. }
    intros Ht. inv_bind. match goal with H : collect _ _ = Ok _ |- _ => apply collect_ok in H as Hall end.
    cbn [plain] in Hp. rewrite forallb_forall in Hp.
    assert (Forall2 reads (canonical <$> v :: l) a) as Hr.
    { rewrite Forall2_fmap_l. eapply Forall2_impl; [|by intros].
      rewrite Forall_forall in IH. clear -IH Hall Hp. induction Hall as [|x y l' ys Hxy Hall IHl]; constructor.
      - eapply IH; [apply list_elem_of_here|apply Hp; by left|done].
      - apply IHl; [|intros; apply Hp; by right]. intros z Hz. apply IH. by right. }
    inversion Hr; subst. by apply reads_list.
  - destruct d as [|kv d].
    { intros [= <-]. split; [by eexists _, _|]. intros [|n] rest Hn Hr; [by inversion Hn|].
      change ((d ← hook []; Ok (VDict d, rest)) = Ok (VDict [], rest)). by rewrite Hhook by constructor. }
    intros Ht. inv_bind. match goal with H : collect _ _ = Ok _ |- _ => apply collect_ok in H as Hall end.
    cbn [plain] in Hp. apply andb_true_iff in Hp as [Hnd Hp]. apply bool_decide_eq_true in Hnd.
    set (d' := kv :: d) in *. cbn [canonical]. set (cd := (λ kv, (kv.1, canonical kv.2)) <$> d').
    assert (Forall2 reads_entry cd a) as Hr.
    { unfold cd. rewrite Forall2_fmap_l. eapply json_entries_read; eauto. }
    assert (NoDup cd.*1) as Hcd.
    { unfold cd. by rewrite <-list_fmap_compose. }
    apply (sorted_Forall2 key_leb key_leb) in Hr; [|by intros ?? ?? (E1 & _) (E2 & _); unfold key_leb; rewrite E1, E2].
    rewrite <-(sorted_perm key_leb cd) in Hcd.
    assert (sorted key_leb cd ≠ []) as Hne.
    { intros E. pose proof (sorted_perm key_leb cd) as Hperm. rewrite E in Hperm. by apply Permutation_nil in Hperm. }
    change (reads (VDict (sorted key_leb cd)) (&"{" ++ join (chr ",")
      ((λ kt, newline lay (S level) ++ json_string kt.1 ++ &":" ++ after_colon lay ++ kt.2) <$> sorted key_leb a)
      ++ newline lay level ++ &"}")).
    rewrite entry_lines.
    revert Hr Hcd Hne. generalize (sorted key_leb cd) as kvs, (sorted key_leb a) as kts. intros kvs kts Hr Hcd Hne.
    destruct Hr; [done|]. by apply reads_dict.
Qed.
End parsing.

(** ** The bytes *)

Definition ascii_text (s : pystr) : bool := forallb (λ c, (0 <? c) && (c <? 128))%N s.

Lemma ascii_text_app s t : ascii_text (s ++ t) = ascii_text s && ascii_text t.
Proof. apply forallb_app. Qed.

Lemma ascii_text_incl (f : N → bool) s :
  (∀ c, f c = true → (0 < c < 128)%N) → forallb f s = true → ascii_text s = true.
Proof.
  intros Hf. unfold ascii_text. rewrite !forallb_forall. intros Hs c Hc. specialize (Hf c (Hs c Hc)).
  apply andb_true_iff. rewrite !N.ltb_lt. lia.
Qed.

Lemma ascii_digits s : forallb is_digit s = true → ascii_text s = true.
Proof. apply ascii_text_incl. intros c. unfold is_digit. rewrite andb_true_iff, !N.leb_le. lia. Qed.

Lemma ascii_space s : forallb json_space s = true → ascii_text s = true.
Proof.
  apply ascii_text_incl. intros c Hc%bool_decide_eq_true. rewrite !elem_of_cons, elem_of_nil in Hc. lia.
Qed.

Lemma ascii_hex4 n : ascii_text (hex4 n) = true.
Proof.
  apply (ascii_text_incl lower_hex).
  { intros c. unfold lower_hex, is_digit, in_range. rewrite orb_true_iff, !andb_true_iff, !N.leb_le. lia. }
  assert (∀ m, lower_hex (hex_digit (m mod 16)) = true) as Hm by (intros m; apply hex_digit_value, N.mod_lt; done).
  unfold hex4. cbn [forallb]. by rewrite !Hm.
Qed.

Lemma ascii_json_char c : ascii_text (json_char c) = true.
Proof.
  unfold json_char. repeat (case_bool_decide; [done|]).
  destruct ((32 <=? c) && (c <=? 126))%N eqn:E.
  { cbn. rewrite andb_true_iff, !N.leb_le in E. destruct E. rewrite andb_true_r, andb_true_iff, !N.ltb_lt. lia. }
  repeat (case_bool_decide; [done|]). destruct (c <? 65536)%N; cbv zeta; by rewrite !ascii_text_app, !ascii_hex4.
Qed.

Lemma ascii_json_string s : ascii_text (json_string s) = true.
Proof.
  unfold json_string. change (34%N :: ?x) with ([34%N] ++ x). rewrite !ascii_text_app, andb_true_r. cbn [andb].
  change (ascii_text [34%N]) with true. cbn [andb].
  induction s as [|c s IH]; [done|]. cbn. by rewrite ascii_text_app, ascii_json_char, IH.
Qed.

Lemma ascii_join ts : Forall (λ t, ascii_text t = true) ts → ascii_text (join (chr ",") ts) = true.
Proof.
  induction ts as [|t [|t' ts] IH]; [done|by inversion 1|].
  intros [Ht Hts]%Forall_cons. rewrite join_cons by done. change (chr "," :: ?x) with ([chr ","] ++ x).
  by rewrite !ascii_text_app, Ht, IH.
Qed.

Lemma ascii_json_text float_repr lay level v t :
  layout_ok lay → plain v = true → json_text float_repr lay level v = Ok t → ascii_text t = true.
Proof.
  intros [Hnl Hac]. assert (∀ level, ascii_text (newline lay level) = true) as Hw by (intros; by apply ascii_space).
  apply ascii_space in Hac. revert level t.
  induction v as [|b|n|q|s|q|l IH|d IH] using pyval_rect_nested; intros level t Hp; cbn [json_text]; try done.
  - by intros [= <-].
  - intros [= <-]. by destruct b.
  - intros [= <-]. unfold str_of_int. case_decide.
    + change (45%N :: ?x) with ([45%N] ++ x). rewrite ascii_text_app. by rewrite (ascii_digits (str_of_nonneg _)) by (apply forallb_digits; lia).
    + apply ascii_digits, forallb_digits. lia.
  - intros [= <-]. apply ascii_json_string.
  - destruct l as [|v l]; [by intros [= <-]|]. cbn [plain] in Hp. rewrite forallb_forall in Hp.
    set (vs := v :: l) in *. clearbody vs. intros (ts & Hts & E)%bind_ok. apply (inj Ok) in E. subst t.
    rewrite !ascii_text_app, Hw, ascii_join; [done|]. apply Forall_fmap. eapply collect_Forall; [exact Hts| |].
    + eapply Forall_and. split; [exact IH|]. apply Forall_forall. intros x Hx%list_elem_of_In. exact (Hp x Hx).
    + intros x y [Hx Hpx] Hy. cbn. rewrite ascii_text_app, Hw. eauto.
  - destruct d as [|kv d]; [by intros [= <-]|]. cbn [plain] in Hp. apply andb_true_iff in Hp as [_ Hp].
    rewrite forallb_forall in Hp.
    set (vs := kv :: d) in *. clearbody vs. intros (ts & Hts & E)%bind_ok. apply (inj Ok) in E. subst t.
    rewrite !ascii_text_app, Hw, ascii_join; [done|]. apply Forall_fmap. rewrite sorted_perm.
    eapply collect_Forall; [exact Hts| |].
    + eapply Forall_and. split; [exact IH|]. apply Forall_forall. intros x Hx%list_elem_of_In. exact (Hp x Hx).
    + intros x y [Hx [_ Hpx]%andb_true_iff] (z & Hz & E)%bind_ok. apply (inj Ok) in E. subst y. unfold compose. cbn [fst snd].
      rewrite !ascii_text_app, Hw, ascii_json_string, Hac. cbn [andb]. change (ascii_text (&":")) with true. eauto.
Qed.

(** [encode] and [decode_json] of ASCII text. *)
Lemma encode_ascii s : ascii_text s = true → encode s = Ok (byte_of <$> s).
Proof.
  intros Hs. unfold encode. enough (utf8_encode_opt s = Some (byte_of <$> s)) as -> by done.
  induction s as [|c s IH]; [done|]. cbn [ascii_text forallb] in Hs. apply andb_true_iff in Hs as [Hc Hs].
  apply andb_true_iff in Hc as [_ Hc]. cbn [utf8_encode_opt]. unfold utf8_char. rewrite Hc. by rewrite IH.
Qed.

Lemma ascii_byte c : ((0 <? c) && (c <? 128))%N = true → Byte.to_N (byte_of c) = c ∧ (0 < c < 128)%N.
Proof. rewrite andb_true_iff, !N.ltb_lt. intros Hc. split; [apply byte_of_to_N; lia|lia]. Qed.

Lemma decode_utf8_ascii s : ascii_text s = true → decode_utf8_pass (byte_of <$> s) = Ok s.
Proof.
  induction s as [|c s IH]; [done|]. cbn [ascii_text forallb]. rewrite andb_true_iff. intros [Hc Hs].
  destruct (ascii_byte c Hc) as [Hb Hr]. cbn [fmap list_fmap decode_utf8_pass]. rewrite Hb.
  rewrite (proj2 (N.ltb_lt c 128)) by lia. change (list_fmap _ _ byte_of s) with (byte_of <$> s). by rewrite IH.
Qed.

Lemma detect_ascii s : ascii_text s = true → detect_encoding (byte_of <$> s) = UTF8 0.
Proof.
  intros Hs.
  assert (∀ i x, (byte_of <$> s) !! i = Some x → (0 < Byte.to_N x < 128)%N) as Hb.
  { intros i x. rewrite list_lookup_fmap. destruct (s !! i) as [c|] eqn:E; [|done]. intros [= <-].
    unfold ascii_text in Hs. rewrite forallb_forall in Hs. apply list_elem_of_lookup_2, list_elem_of_In, Hs in E.
    destruct (ascii_byte c E) as [-> Hc]. done. }
  assert (∀ i, bool_decide ((byte_of <$> s) !! i = Some Byte.x00) = false) as Hz.
  { intros i. apply bool_decide_eq_false. intros E%Hb. cbn in E. lia. }
  assert (∀ n l, (n = 0 ∨ 128 ≤ n < 256)%N → startswith (byte_of <$> n :: l) (byte_of <$> s) = false) as Hm.
  { intros n l Hn. destruct (byte_of <$> s) as [|b bs] eqn:E; [done|]. cbn [fmap list_fmap startswith].
    rewrite bool_decide_false; [done|]. intros Eb. rewrite <-Eb in Hb. specialize (Hb 0%nat _ eq_refl).
    rewrite byte_of_to_N in Hb by lia. lia. }
  unfold detect_encoding. cbv zeta. rewrite !Hm by lia. rewrite !Hz. by repeat case_match.
Qed.

(** ** The round trip *)

Lemma no_duplicates_fresh pairs result :
  NoDup (dict_keys result ++ pairs.*1) → no_duplicates pairs result = Ok (result ++ pairs).
Proof.
  revert result. induction pairs as [|[k v] pairs IH]; intros result Hnd; cbn [no_duplicates].
  { by rewrite app_nil_r. }
  cbn [fmap list_fmap fst] in Hnd.
  assert (k ∉ dict_keys result) as Hk.
  { apply NoDup_app in Hnd as (_ & Hd & _). intros Hin. apply (Hd k Hin), list_elem_of_here. }
  unfold dict_has. rewrite (bool_decide_false (is_Some _)) by (by rewrite <-dict_keys_get).
  unfold release_require. cbn [negb check mbind outcome_bind]. rewrite dict_set_absent by done. rewrite IH.
  - by rewrite <-app_assoc.
  - unfold dict_keys in *. rewrite fmap_app. cbn. by rewrite <-app_assoc.
Qed.

Lemma no_duplicates_ok pairs : NoDup pairs.*1 → no_duplicates pairs [] = Ok pairs.
Proof. intros Hnd. by rewrite no_duplicates_fresh. Qed.

Lemma json_loads_text hook float_repr lay v t w :
  (∀ entries, NoDup entries.*1 → hook entries = Ok entries) → layout_ok lay →
  plain v = true → json_text float_repr lay 0 v = Ok t → forallb json_space w = true →
  json_loads hook (t ++ w) = Ok (canonical v).
Proof.
  intros Hhook Hlay Hp Ht Hw. destruct (json_text_reads hook Hhook float_repr lay Hlay v 0 t Hp Ht) as [Hh Hv].
  unfold json_loads. pose proof (skip_space_head [] t w eq_refl Hh) as Hs. cbn [app] in Hs. rewrite Hs.
  rewrite Hv; [|rewrite length_app; lia|].
  - cbn [mbind outcome_bind]. rewrite <-(app_nil_r w), skip_space_app by done. done.
  - rewrite <-(app_nil_r w). by apply delimited_space.
Qed.

(** The bytes of a document in some layout, with final white space. *)
Lemma parse_json_text float_repr lay v t w b :
  layout_ok lay → plain v = true → json_text float_repr lay 0 v = Ok t → forallb json_space w = true →
  encode (t ++ w) = Ok b → parse_json b = Ok (canonical v).
Proof.
  intros Hlay Hp Ht Hw.
  assert (ascii_text (t ++ w) = true) as Ha.
  { rewrite ascii_text_app, (ascii_space w) by done. by rewrite (ascii_json_text _ _ _ _ _ Hlay Hp Ht). }
  rewrite encode_ascii by done. intros [= <-]. unfold parse_json, decode_json.
  rewrite detect_ascii by done. change (drop 0 (byte_of <$> t ++ w)) with (byte_of <$> t ++ w).
  rewrite decode_utf8_ascii by done. cbn [mbind outcome_bind].
  rewrite (json_loads_text _ float_repr lay v t w) by (done || apply no_duplicates_ok). done.
Qed.

Lemma parse_json_bytes float_repr v b :
  plain v = true → json_bytes float_repr v = Ok b → parse_json b = Ok (canonical v).
Proof.
  unfold json_bytes, json_dumps. intros Hp (t & Ht & Hb)%bind_ok.
  apply (parse_json_text float_repr compact v t [] b); [apply compact_ok|done..|]. by rewrite app_nil_r.
Qed.

Lemma parse_json_bytes_indented float_repr v b :
  plain v = true → json_bytes_indented float_repr v = Ok b → parse_json b = Ok (canonical v).
Proof.
  unfold json_bytes_indented. intros Hp (t & Ht & Hb)%bind_ok.
  by apply (parse_json_text float_repr indented v t [10%N] b); [apply indented_ok|..].
Qed.

(** The serialization of a plain value is defined. *)
Lemma collect_total {A B} (f : A → outcome B) l :
  Forall (λ x, ∃ y, f x = Ok y) l → ∃ ys, collect f l = Ok ys.
Proof.
  induction 1 as [|x l [y Hy] _ [ys Hys]]; [by exists []|]. exists (y :: ys). cbn. by rewrite Hy; cbn; rewrite Hys.
Qed.

Lemma json_text_total float_repr lay level v : plain v = true → ∃ t, json_text float_repr lay level v = Ok t.
Proof.
  revert level. induction v as [|b|n|q|s|q|l IH|d IH] using pyval_rect_nested; intros level Hp; cbn [json_text]; eauto; try done.
  - destruct l as [|v l]; [eauto|]. cbn [plain] in Hp. rewrite forallb_forall in Hp.
    set (vs := v :: l) in *. clearbody vs. rewrite Forall_forall in IH.
    destruct (collect_total (json_text float_repr lay (S level)) vs) as [ts ->]; [|eauto].
    apply Forall_forall. intros x Hx. apply IH; [done|]. by apply Hp, list_elem_of_In.
  - destruct d as [|kv d]; [eauto|]. cbn [plain] in Hp. apply andb_true_iff in Hp as [_ Hp].
    rewrite forallb_forall in Hp. set (vs := kv :: d) in *. clearbody vs. rewrite Forall_forall in IH.
    destruct (collect_total (λ kv, t ← json_text float_repr lay (S level) kv.2; Ok (kv.1, t)) vs) as [ts ->]; [|eauto].
    apply Forall_forall. intros x Hx. specialize (Hp x (proj1 (list_elem_of_In _ _) Hx)).
    apply andb_true_iff in Hp as [_ Hp]. destruct (IH x Hx (S level) Hp) as [t ->]. by eexists.
Qed.

(** ** Canonical values are equal values *)

Lemma canonical_keys d : dict_keys (sorted key_leb ((λ kv, (kv.1, canonical kv.2)) <$> d)) ≡ₚ dict_keys d.
Proof. unfold dict_keys. rewrite sorted_perm, <-list_fmap_compose. done. Qed.

Lemma canonical_get k d :
  NoDup (dict_keys d) →
  dict_get k (sorted key_leb ((λ kv, (kv.1, canonical kv.2)) <$> d)) = canonical <$> dict_get k d.
Proof.
  intros Hnd. pose proof (canonical_keys d) as Hk. destruct (dict_get k d) as [v|] eqn:E; cbn.
  - apply dict_elem_get; [by rewrite Hk|]. rewrite sorted_perm. apply dict_get_elem in E.
    apply list_elem_of_fmap. by exists (k, v).
  - apply dict_get_None. rewrite Hk. by apply dict_get_None.
Qed.

Lemma py_eq_canonical v : plain v = true → py_eq v (canonical v) = true.
Proof.
  induction v as [|b|n|q|s|q|l IH|d IH] using pyval_rect_nested; cbn [plain]; intros Hp; try done.
  - cbn. apply Qeq_bool_iff. reflexivity.
  - cbn. apply Qeq_bool_iff. reflexivity.
  - cbn. by apply bool_decide_eq_true.
  - induction IH as [|v l Hv _ IHl]; [done|]. cbn [forallb] in Hp. apply andb_true_iff in Hp as [Hpv Hpl].
    change (py_eq v (canonical v) && py_eq (VList l) (canonical (VList l)) = true). by rewrite Hv, IHl.
  - apply andb_true_iff in Hp as [Hnd%bool_decide_eq_true Hp]. cbn [canonical py_eq]. apply andb_true_iff. split.
    { apply Nat.eqb_eq. rewrite sorted_perm, length_fmap. done. }
    assert (∀ d0, d0 ⊆ d →
      (fix eq_entries d0 := match d0 with
        | [] => true
        | (k, a) :: d0 =>
          match dict_get k (sorted key_leb ((λ kv, (kv.1, canonical kv.2)) <$> d)) with
          | Some b => py_eq a b && eq_entries d0
          | None => false
          end
        end) d0 = true) as Hsub; [|by apply Hsub].
    rewrite forallb_forall in Hp. rewrite Forall_forall in IH.
    induction d0 as [|[k a] d0 IHd]; intros Hd; [done|].
    assert ((k, a) ∈ d) as Hka by apply Hd, list_elem_of_here.
    rewrite canonical_get, (dict_elem_get k a d) by done. cbn [fmap option_fmap option_map].
    specialize (Hp (k, a) (proj1 (list_elem_of_In _ _) Hka)). apply andb_true_iff in Hp as [_ Hp].
    rewrite (IH (k, a) Hka Hp : py_eq a (canonical a) = true). apply IHd. intros x Hx. apply Hd. by right.
Qed.

(** Sorting sorted entries changes nothing, so a canonical value is canonical. *)
Lemma str_leb_total s t : str_leb s t = false → str_leb t s = true.
Proof.
  revert t. induction s as [|c s IH]; intros [|d t]; cbn; try done.
  rewrite !orb_false_iff, andb_false_iff, orb_true_iff, andb_true_iff, N.ltb_ge, N.ltb_lt, N.eqb_neq, N.eqb_eq.
  intros [Hc [Hd|Hs]]; [left; lia|]. destruct (N.eq_dec d c); [right; auto|left; lia].
Qed.

Lemma insert_sorted_Sorted {A} (x : pystr * A) l :
  Sorted (λ a b, key_leb a b = true) l → Sorted (λ a b, key_leb a b = true) (insert_sorted key_leb x l).
Proof.
  induction 1 as [|y l Hl IH Hy]; cbn; [by repeat constructor|]. destruct (key_leb x y) eqn:E.
  - repeat constructor; done.
  - constructor; [done|]. apply str_leb_total in E.
    destruct l as [|z l]; cbn; [by constructor|]. destruct (key_leb x z); constructor; [done|].
    by inversion Hy.
Qed.

Lemma sorted_Sorted {A} (l : list (pystr * A)) : Sorted (λ a b, key_leb a b = true) (sorted key_leb l).
Proof. induction l; cbn; [constructor|]. by apply insert_sorted_Sorted. Qed.

Lemma sorted_id {A} (l : list (pystr * A)) : Sorted (λ a b, key_leb a b = true) l → sorted key_leb l = l.
Proof.
  induction 1 as [|x l _ IH Hx]; [done|]. change (insert_sorted key_leb x (sorted key_leb l) = x :: l).
  rewrite IH. destruct Hx as [|y l Hxy]; cbn; [done|]. by rewrite Hxy.
Qed.

Lemma canonical_idem v : canonical (canonical v) = canonical v.
Proof.
  induction v as [| | | | | |l IH|d IH] using pyval_rect_nested; cbn [canonical]; try done.
  - f_equal. rewrite <-list_fmap_compose. by apply Forall_fmap_ext_1.
  - f_equal. set (cd := (λ kv, (kv.1, canonical kv.2)) <$> d).
    assert ((λ kv, (kv.1, canonical kv.2)) <$> sorted key_leb cd = sorted key_leb cd) as ->;
      [|apply sorted_id, sorted_Sorted].
    rewrite <-(list_fmap_id (sorted key_leb cd)) at 2. apply Forall_fmap_ext_1.
    rewrite sorted_perm. unfold cd. apply Forall_fmap. eapply Forall_impl; [done|].
    intros [k v] Hv. cbn in *. by rewrite Hv.
Qed.

Lemma plain_dict d :
  plain (VDict d) = true ↔ NoDup (dict_keys d) ∧ ∀ k v, (k, v) ∈ d → forallb scalar_char k = true ∧ plain v = true.
Proof.
  cbn [plain]. rewrite andb_true_iff, bool_decide_eq_true, forallb_forall. f_equiv. split.
  - intros Hd k v Hkv%list_elem_of_In. by apply Hd, andb_true_iff in Hkv.
  - intros Hd [k v] Hkv%list_elem_of_In. by apply andb_true_iff, Hd.
Qed.

Lemma plain_get d k v : plain (VDict d) = true → dict_get k d = Some v → plain v = true.
Proof. intros [_ Hd]%plain_dict Hk%dict_get_elem. by apply (Hd k v). Qed.

Lemma plain_canonical v : plain v = true → plain (canonical v) = true.
Proof.
  induction v as [| | | | | |l IH|d IH] using pyval_rect_nested; try done.
  - cbn [plain canonical]. rewrite !forallb_forall. intros Hl x Hx%list_elem_of_In.
    apply list_elem_of_fmap in Hx as (y & -> & Hy). rewrite Forall_forall in IH. apply IH; [done|].
    by apply Hl, list_elem_of_In.
  - intros [Hnd Hd]%plain_dict. cbn [canonical]. apply plain_dict. split; [by rewrite canonical_keys|].
    intros k v. rewrite sorted_perm. intros ([k' w] & E & Hkw)%list_elem_of_fmap. injection E as -> ->.
    destruct (Hd _ _ Hkw). split; [done|]. rewrite Forall_forall in IH. by apply (IH (k', w)).
Qed.

Lemma elem_of_dict_set {V} (k k' : pystr) (v w : V) d : (k', w) ∈ dict_set k v d → (k' = k ∧ w = v) ∨ (k', w) ∈ d.
Proof.
  induction d as [|[k0 v0] d IH]; cbn.
  - intros [= -> ->]%list_elem_of_singleton. by left.
  - case_decide as Hk; rewrite !elem_of_cons.
    + intros [[= -> ->]|?]; [left; by subst|by right; right].
    + intros [?|?]; [right; by left|]. destruct (IH ltac:(done)); auto.
Qed.

Lemma plain_dict_set k v d :
  plain (VDict d) = true → forallb scalar_char k = true → plain v = true → plain (VDict (dict_set k v d)) = true.
Proof.
  rewrite !plain_dict. intros [Hnd Hd] Hk Hv. split; [by apply dict_ok_set|].
  intros k' w [[-> ->]|Hw]%elem_of_dict_set; [done|by apply Hd].
Qed.

Lemma ascii_scalar s : is_ascii s = true → forallb scalar_char s = true.
Proof.
  unfold is_ascii. rewrite !forallb_forall. intros Hs c Hc. specialize (Hs c Hc). apply N.ltb_lt in Hs.
  unfold scalar_char, surrogate. rewrite andb_true_iff, negb_true_iff, andb_false_iff, N.ltb_lt, !N.leb_gt. lia.
Qed.

(** C33: JSON documents survive writing and reading.  A document without floats,
    surrogates and repeated keys has a compact and an indented text; the release
    client's strict reader gives the document back from either, equal for Python
    up to the order of keys; and two documents with the same compact bytes (the
    bytes every digest is taken of) are the same document. *)
Theorem json_documents_roundtrip float_repr v (Hp : plain v = true) :
  ∃ b b', json_bytes float_repr v = Ok b ∧ json_bytes_indented float_repr v = Ok b'
  ∧ parse_json b = Ok (canonical v) ∧ parse_json b' = Ok (canonical v)
  ∧ py_eq v (canonical v) = true
  ∧ ∀ v', plain v' = true → json_bytes float_repr v' = Ok b → canonical v' = canonical v.
Proof.
  destruct (json_text_total float_repr compact 0 v Hp) as [t Ht].
  destruct (json_text_total float_repr indented 0 v Hp) as [t' Ht'].
  assert (json_bytes float_repr v = Ok (byte_of <$> t)) as Hb.
  { unfold json_bytes, json_dumps. rewrite Ht. cbn [mbind outcome_bind].
    apply encode_ascii, (ascii_json_text _ _ _ _ _ compact_ok Hp Ht). }
  assert (json_bytes_indented float_repr v = Ok (byte_of <$> t' ++ [10%N])) as Hb'.
  { unfold json_bytes_indented. rewrite Ht'. cbn [mbind outcome_bind].
    apply encode_ascii. by rewrite ascii_text_app, (ascii_json_text _ _ _ _ _ indented_ok Hp Ht'). }
  pose proof (parse_json_bytes _ _ _ Hp Hb) as Hr.
  eexists _, _. split_and!; [done|done|done|by eapply parse_json_bytes_indented|by apply py_eq_canonical|].
  intros v' Hp' Hv'. rewrite (parse_json_bytes _ _ _ Hp' Hv') in Hr. by injection Hr.
Qed.

Lemma json_documents_roundtrip_witness :
  let v := VDict [(&"b", VList [VInt (-12); VDict []; VList []]); (&"a", VStr (&"x" ++ [34; 10; 233; 128512]%N))] in
  ∃ b, json_bytes (λ _, []) v = Ok b ∧ parse_json b = Ok (canonical v) ∧ canonical v ≠ v.
Proof.
  intros v. destruct (json_documents_roundtrip (λ _, []) v eq_refl) as (b & b' & H1 & _ & H2 & _).
  exists b. split; [exact H1|]. split; [exact H2|]. vm_compute. discriminate.
Defined.
