(* ===== verification/JsonTotal.v ===== *)
(** * The JSON reader terminates

    The fuel of the parser is enough for every text: reading a document gives a
    value, a [ValueError] or the error of the object hook, and never runs out. *)

From S2P Require Import Prelude PyStr PyDict PyVal Passwords PyJson.
#[local] Open Scope Z_scope.

Lemma length_drop_while {A} (f : A → bool) l : (length (drop_while f l) ≤ length l)%nat.
Proof. induction l as [|x l IH]; cbn; [lia|]. destruct (f x); cbn; lia. Qed.

Lemma length_skip_space s : (length (skip_space s) ≤ length s)%nat.
Proof. apply length_drop_while. Qed.

(** A scanner consumes at least one of [l] characters, or fails with an allowed
    error. *)
Definition consumes {A} (allowed : exn → Prop) (l : nat) (r : outcome (A * pystr)) : Prop :=
  match r with Ok (_, rest) => (length rest < l)%nat | Raise e => allowed e end.

Definition value_error (e : exn) : Prop := exn_kind e = EValue.

Lemma consumes_bind {A B} (allowed : exn → Prop) l l' (m : outcome (A * pystr)) (f : A * pystr → outcome (B * pystr)) :
  consumes allowed l' m →
  (∀ a r, (length r < l')%nat → consumes allowed l (f (a, r))) →
  consumes allowed l (m ≫= f).
Proof. destruct m as [[a r]|e]; cbn; auto. Qed.

Lemma consumes_weaken {A} (allowed : exn → Prop) l l' (m : outcome (A * pystr)) :
  (l ≤ l')%nat → consumes allowed l m → consumes allowed l' m.
Proof. destruct m as [[a r]|e]; cbn; [lia|done]. Qed.

Lemma hex4_value_length s u r : hex4_value s = Some (u, r) → (length r < length s)%nat.
Proof.
  unfold hex4_value. destruct s as [|a [|b [|c [|d s]]]]; try done.
  destruct (hex_value a), (hex_value b), (hex_value c), (hex_value d); cbn; try done. intros [= _ <-]. lia.
Qed.

Lemma scan_unicode_consumes s : consumes value_error (length s) (scan_unicode s).
Proof.
  unfold scan_unicode. destruct (hex4_value s) as [[u r]|] eqn:E; [|done]. apply hex4_value_length in E.
  destruct (_ && _); [|done]. destruct (hex4_value (drop 2 r)) as [[v r']|] eqn:E'; [|done].
  apply hex4_value_length in E'. rewrite length_drop in E'. destruct (low_surrogate v); cbn; lia.
Qed.

Lemma scan_char_consumes s : consumes value_error (length s) (scan_char s).
Proof.
  destruct s as [|c r]; [done|]. cbn [scan_char].
  case_bool_decide; [cbn; lia|]. destruct (c <? 32)%N; [done|].
  case_bool_decide; [|cbn; lia]. destruct r as [|e r]; [done|].
  case_bool_decide; [|destruct (escape e); cbn; [lia|done]].
  eapply consumes_bind; [apply scan_unicode_consumes|]. intros u r' Hr. cbn in *. lia.
Qed.

Lemma scan_string_consumes n s : (length s < n)%nat → consumes value_error (length s) (scan_string n s).
Proof.
  revert s. induction n as [|n IH]; intros s Hn; [lia|]. cbn [scan_string].
  eapply consumes_bind; [apply scan_char_consumes|]. intros [c|] r Hr; [|done].
  eapply consumes_bind; [apply IH; lia|]. intros t r' Hr'. cbn. lia.
Qed.

Lemma json_string_consumes s : consumes value_error (length s) (json_string_at s).
Proof. apply scan_string_consumes. lia. Qed.

Lemma unsigned_number_consumes negative s : consumes value_error (length s) (unsigned_number negative s).
Proof.
  destruct s as [|c s]; [done|]. cbn [unsigned_number]. destruct (is_digit c); [|done]. cbv zeta.
  set (whole := if bool_decide (c = chr "0") then [c] else c :: take_while is_digit s).
  assert (1 ≤ length whole)%nat as Hw by (subst whole; case_bool_decide; cbn; lia). clearbody whole.
  set (tail := fraction_text _ ++ exponent_text _). clearbody tail.
  unfold number_value. case_bool_decide; cbn [mbind outcome_bind consumes].
  - rewrite !length_drop. cbn [length]. lia.
  - cbn [py_float mbind outcome_bind]. destruct (float_literal _); cbn; [|done]. rewrite !length_drop. cbn [length]. lia.
Qed.

Lemma json_number_consumes s : consumes value_error (length s) (json_number s).
Proof.
  destruct s as [|c s]; [done|]. cbn [json_number]. case_bool_decide; [|apply unsigned_number_consumes].
  eapply consumes_weaken, unsigned_number_consumes. cbn. lia.
Qed.

Section hook.
Context (hook : list (pystr * pyval) → outcome pyobject).

(** The errors of reading. *)
Definition reading_error (e : exn) : Prop := value_error e ∨ ∃ entries, hook entries = Raise e.

Lemma consumes_value {A} l (m : outcome (A * pystr)) : consumes value_error l m → consumes reading_error l m.
Proof. destruct m as [[a r]|e]; cbn; [done|by left]. Qed.

Lemma hook_consumes entries l rest :
  (length rest < l)%nat → consumes reading_error l (d ← hook entries; Ok (VDict d, rest)).
Proof. intros Hl. destruct (hook entries) as [d|e] eqn:E; cbn; [done|]. right. by exists entries. Qed.

Lemma json_fuel n :
  (∀ s, (2 * length s + 1 ≤ n)%nat → consumes reading_error (length s) (json_value hook n s))
  ∧ (∀ s, (2 * length s + 2 ≤ n)%nat → consumes reading_error (length s) (json_elements hook n s))
  ∧ (∀ s, (2 * length s + 2 ≤ n)%nat → consumes reading_error (length s) (json_members hook n s)).
Proof.
  assert (consumes (A:=pyval) reading_error 0 (Raise json_error)) as Herr by by left.
  induction n as [|n (IHv & IHe & IHm)]; [split_and!; intros; lia|]. split_and!; intros s Hn.
  - destruct s as [|c r]; [by left|]. cbn [json_value]. cbn [length] in Hn.
    pose proof (length_skip_space r) as Hs.
    case_bool_decide.
    { eapply consumes_bind; [apply consumes_value, json_string_consumes|]. intros t r' Hr'. cbn. lia. }
    case_bool_decide.
    { destruct (startswith (&"}") (skip_space r)).
      - apply hook_consumes. cbn [length]. destruct (skip_space r); cbn in *; lia.
      - eapply consumes_bind; [apply IHm; lia|]. intros l r' Hr'. apply hook_consumes. cbn [length]. lia. }
    case_bool_decide.
    { destruct (startswith (&"]") (skip_space r)).
      - cbn. destruct (skip_space r); cbn in *; lia.
      - eapply consumes_bind; [apply IHe; lia|]. intros l r' Hr'. cbn. lia. }
    repeat (destruct (startswith _ (c :: r)); [cbn; rewrite ?length_drop; lia|]).
    apply consumes_value, json_number_consumes.
  - cbn [json_elements]. eapply consumes_bind; [apply IHv; lia|]. intros v r Hr.
    pose proof (length_skip_space r) as Hs. destruct (skip_space r) as [|c r']; [by left|]. cbn [length] in Hs.
    case_bool_decide; [|case_bool_decide; [cbn; lia|by left]].
    pose proof (length_skip_space r') as Hs'. eapply consumes_bind; [apply IHe; lia|]. intros l r'' Hr''. cbn. lia.
  - cbn [json_members]. destruct s as [|q s]; [by left|]. cbn [length] in Hn. case_bool_decide; [|by left].
    eapply consumes_bind; [apply consumes_value, json_string_consumes|]. intros k r Hr.
    pose proof (length_skip_space r) as Hs. destruct (skip_space r) as [|c r']; [by left|]. cbn [length] in Hs.
    case_bool_decide; [|by left]. pose proof (length_skip_space r') as Hs'.
    eapply consumes_bind; [apply IHv; lia|]. intros v r2 Hr2.
    pose proof (length_skip_space r2) as Hs2. destruct (skip_space r2) as [|c2 r3]; [by left|]. cbn [length] in Hs2.
    case_bool_decide; [|case_bool_decide; [cbn; lia|by left]].
    pose proof (length_skip_space r3) as Hs3. eapply consumes_bind; [apply IHm; lia|]. intros l r4 Hr4. cbn. lia.
Qed.

Lemma json_loads_total s : match json_loads hook s with Ok _ => True | Raise e => reading_error e end.
Proof.
  unfold json_loads. destruct (json_fuel (2 * length (skip_space s) + 2)) as [Hv _].
  specialize (Hv (skip_space s) ltac:(lia)).
  destruct (json_value hook _ _) as [[v r]|e]; [|done]. cbn [mbind outcome_bind]. destruct (skip_space r); [done|by left].
Qed.
End hook.

Lemma no_duplicates_error pairs result e : no_duplicates pairs result = Raise e → exn_kind e = ERelease.
Proof.
  revert result. induction pairs as [|[k v] pairs IH]; intros result; cbn [no_duplicates]; [done|].
  unfold release_require, check. destruct (negb _); cbn; [apply IH|]. by intros [= <-].
Qed.

Lemma decode_utf8_error b e : decode_utf8_pass b = Raise e → exn_kind e = EUnicode.
Proof.
  enough (∀ n b e, (length b ≤ n)%nat → decode_utf8_pass b = Raise e → exn_kind e = EUnicode) as H by by apply (H (length b)).
  clear. induction n as [|n IH]; intros [|b0 b] e Hn; cbn [length] in Hn; try lia; try done.
  cbn [decode_utf8_pass]. cbv zeta.
  assert (∀ c r e, (length r ≤ n)%nat → (s ← decode_utf8_pass r; Ok ((c : N) :: s)) = Raise e → exn_kind e = EUnicode) as Hb.
  { intros c r e' Hr. destruct (decode_utf8_pass r) as [s|e''] eqn:E; [done|]. intros [= <-]. by eapply IH. }
  repeat case_match; try (by intros [= <-]); intros He; eapply Hb in He; try done; cbn [length] in Hn; lia.
Qed.

Lemma units_of_2_error be b e : units_of_2 be b = Raise e → exn_kind e = EUnicode.
Proof.
  enough (∀ n b e, (length b ≤ n)%nat → units_of_2 be b = Raise e → exn_kind e = EUnicode) as H by by apply (H (length b)).
  clear. induction n as [|n IH]; intros [|b0 [|b1 b]] e Hn; cbn [length] in Hn; try lia; try done; cbn [units_of_2];
    try (by intros [= <-]). destruct (units_of_2 be b) eqn:E; [done|]. intros [= <-]. eapply IH; [|done]. lia.
Qed.

Lemma units_of_4_error be b e : units_of_4 be b = Raise e → exn_kind e = EUnicode.
Proof.
  enough (∀ n b e, (length b ≤ n)%nat → units_of_4 be b = Raise e → exn_kind e = EUnicode) as H by by apply (H (length b)).
  clear. induction n as [|n IH]; intros [|b0 [|b1 [|b2 [|b3 b]]]] e Hn; cbn [length] in Hn; try lia; try done;
    cbn [units_of_4]; try (by intros [= <-]). cbv zeta. destruct (_ <? _)%N; [|by intros [= <-]].
  destruct (units_of_4 be b) eqn:E; [done|]. intros [= <-]. eapply IH; [|done]. lia.
Qed.

Lemma decode_json_error b e : decode_json b = Raise e → exn_kind e = EUnicode.
Proof.
  unfold decode_json. destruct (detect_encoding b) as [k|be k|be k].
  - apply decode_utf8_error.
  - destruct (units_of_2 be (drop k b)) eqn:E; [done|]. intros [= <-]. by eapply units_of_2_error.
  - apply units_of_4_error.
Qed.

Lemma parse_json_fails data e : parse_json data = Raise e → exn_kind e = ERelease.
Proof.
  unfold parse_json. destruct (decode_json data) as [text|e'] eqn:E; cbn [mbind outcome_bind].
  - pose proof (json_loads_total (λ pairs, no_duplicates pairs []) text) as Ht. unfold catch.
    destruct (json_loads _ text) as [v|e']; [done|]. destruct Ht as [Hv|[entries He]].
    + rewrite Hv. by intros [= <-].
    + apply no_duplicates_error in He. rewrite He. by intros [= <-].
  - apply decode_json_error in E. unfold catch. rewrite E. by intros [= <-].
Qed.

(** reading JSON always ends.  For every byte string the strict reader returns a
    document or raises the release error, whatever its encoding and nesting: the
    fuel of the model is never used up, and no other exception escapes. *)
Theorem parse_json_total data :
  match parse_json data with Ok _ => True | Raise e => exn_kind e = ERelease end.
Proof. destruct (parse_json data) as [v|e] eqn:E; [done|]. by eapply parse_json_fails. Qed.
