(* ===== verification/VersionPlan.v ===== *)
(** * Release identities ([scripts/version_plan.py])

    The pure part of the module: declarations, the policy extension, identities,
    frozen plans and their projections.  JSON objects are [pyval]s as the code
    has them, so every type test of the source is a test here.  SHA-256 and the
    text of floats are parameters. *)

From Stdlib Require Import QArith.QArith.
From S2P Require Import Prelude PyStr PyDict PyRegex PyVal PyJson.
#[local] Open Scope Z_scope.


Definition version_error (text : string) : exn := Exn EVersion text.

(** [require] *)
Definition require (condition : bool) (message : string) : outcome unit := check condition (version_error message).

(** ** Patterns *)

Definition digits : regex := Star (Char is_digit).
Definition numeral : regex := (chars (&"0") ⊹ Char one_to_nine ⋅ digits)%re.
Definition dot : regex := chars (&".").

Definition BASE : regex := (numeral ⋅ dot ⋅ numeral ⋅ dot ⋅ numeral)%re.
Definition SHA : regex := rep 40 (Char lower_hex).
Definition SHA256 : regex := rep 64 (Char lower_hex).
Definition positive_numeral : regex := (Char one_to_nine ⋅ digits)%re.
Definition NIGHTLY : regex := (rep 14 (Char is_digit) ⋅ dot ⋅ positive_numeral ⋅ dot ⋅ positive_numeral)%re.

Definition str_match (r : regex) (v : pyval) : bool := match v with VStr s => fullmatch r s | _ => false end.

Definition FORMATS : list pystr :=
  [&"json"; &"toml"; &"cargo-lock"; &"uv-lock"; &"npm-lock"; &"text"; &"python"; &"plist"; &"pbxproj"].
Definition VALUES : list pystr := [&"base"; &"full"; &"package"; &"build"; &"apple-build"].
Definition ARTIFACT_FORMATS : list pystr :=
  [&"oci"; &"json"; &"wheel"; &"sdist"; &"npm-tar"; &"ipa"; &"plist"; &"tar-text"; &"tar-toml"; &"tar-json"; &"zip-json"].
Definition MAX_METADATA : Z := 2000000.
Definition CHANNELS : list pystr := [&"nightly"; &"beta"; &"rc"; &"stable"].
Definition PROMOTIONS : list pystr := [&"promote-bytes"; &"final-build"].

(** ** Declarations *)

Definition in_dict (k : pystr) (d : pyobject) : bool := dict_has k d.

(** [_field] *)
Definition field (value : pyval) : outcome (list pystr) :=
  match value with
  | VStr s =>
    let result := split (chr ".") s in
    _ ← require (forallb (λ p, negb (bool_decide (p = []))) result)
          "Dotted fields cannot contain empty segments; use a string array";
    Ok result
  | VList l =>
    _ ← require (negb (bool_decide (l = [])) && forallb is_str l)
          "Field must be a dotted string or a nonempty string array";
    Ok (str_value <$> l)
  | _ => Raise (version_error "Field must be a dotted string or a nonempty string array")
  end.

(** [_relative]: the path is returned as it was written. *)
Definition relative (value : pyval) : outcome pystr :=
  match value with
  | VStr s =>
    _ ← require (negb (bool_decide (s = [])) && negb (has (chr "\") s) && negb (has 0%N s))
          "Path must be a relative POSIX path";
    _ ← require (negb (startswith (&"/") s)
                 && forallb (λ part, negb (bool_decide (part ∈ [[]; &"."; &".."; &".git"]))) (split (chr "/") s))
          "Unsafe version path";
    Ok s
  | _ => Raise (version_error "Path must be a relative POSIX path")
  end.

Definition control_free (s : pystr) : bool := negb (existsb (λ c, bool_decide (c ∈ [13; 10; 0]%N)) s).

(** [_artifact_declaration] *)
Definition artifact_declaration (kind : pystr) (d : pyobject) : outcome unit :=
  _ ← (if bool_decide (kind = &"oci")
       then require (in_dict (&"field") d && negb (in_dict (&"package") d))
              "OCI artifact requires an exact config field and no package selector"
       else Ok tt);
  _ ← (if bool_decide (kind ∈ [&"tar-text"; &"tar-toml"; &"tar-json"; &"zip-json"])
       then _ ← require (in_dict (&"member") d) "Archive field verification requires an exact member";
            m ← item (&"member") d; _ ← relative m; Ok tt
       else require (negb (in_dict (&"member") d)) "does not accept member");
  if bool_decide (kind = &"tar-text")
  then require (negb (in_dict (&"field") d) && negb (in_dict (&"package") d))
         "Text artifact has no field or package selector"
  else Ok tt.

(** [_input_declaration] *)
Definition input_declaration (kind : pystr) (d : pyobject) : outcome unit :=
  let needs (kinds : list pystr) (key : pystr) (message : string) : outcome unit :=
    if bool_decide (kind ∈ kinds) then require (in_dict key d) message else Ok tt in
  let refuses (kinds : list pystr) (key : pystr) (message : string) : outcome unit :=
    if bool_decide (kind ∈ kinds) then require (negb (in_dict key d)) message else Ok tt in
  _ ← needs [&"json"; &"toml"; &"python"; &"plist"; &"pbxproj"] (&"field") "requires an explicit field";
  _ ← needs [&"cargo-lock"; &"uv-lock"; &"npm-lock"; &"pbxproj"] (&"package")
        "requires an explicit owned package selector";
  _ ← refuses [&"text"; &"cargo-lock"; &"uv-lock"; &"npm-lock"] (&"field") "does not accept field";
  refuses [&"text"; &"python"; &"plist"] (&"package") "does not accept package".

(** [_declaration] *)
Definition declaration_keys (artifact : bool) : list pystr :=
  [&"path"; &"format"; &"field"; &"package"; &"value"; &"prefix"; &"ecosystem"]
  ++ (if artifact then [&"member"] else []).

Definition declaration (v : pyval) (artifact : bool) : outcome pyobject :=
  match v with
  | VDict d =>
    _ ← require (forallb (λ k, bool_decide (k ∈ declaration_keys artifact)) (dict_keys d))
          "Unsupported version declaration fields";
    known ← py_in (get_default (&"format") VNone d) (if artifact then ARTIFACT_FORMATS else FORMATS);
    _ ← require known "Unsupported version format";
    _ ← match dict_get (&"path") d with
        | Some path => _ ← relative path; Ok tt
        | None => if artifact then Ok tt else Raise (version_error "Version input requires path")
        end;
    projection ← py_in (get_default (&"value") (VStr (&"package")) d) VALUES;
    _ ← require projection "Unsupported version projection";
    ecosystem ← py_in (get_default (&"ecosystem") (VStr (&"semver")) d) [&"semver"; &"pep440"];
    _ ← require ecosystem "Unsupported package version ecosystem";
    let prefix := get_default (&"prefix") (VStr []) d in
    _ ← require (is_str prefix && control_free (str_value prefix)) "Invalid version prefix";
    _ ← match dict_get (&"field") d with Some f => _ ← field f; Ok tt | None => Ok tt end;
    _ ← match dict_get (&"package") d with
        | Some p => require (is_str p && truthy p && control_free (str_value p)) "Invalid owned package selector"
        | None => Ok tt
        end;
    let kind := str_value (get_default (&"format") VNone d) in
    _ ← (if artifact then artifact_declaration kind d else input_declaration kind d);
    Ok d
  | _ => Raise (version_error "Version declarations must be objects")
  end.

(** ** The policy extension *)

(** [required_build_receipts] *)
Definition receipt_name : regex :=
  (chars (&"release-inputs-")
   ⋅ plus (Char (λ c, ascii_alnum c || one_of "._-" c))
   ⋅ chars (&".json"))%re.

Definition required_build_receipts (config : pyobject) : outcome (option (list pystr)) :=
  match dict_get (&"required_build_receipts") config with
  | None => Ok None
  | Some names =>
    let ok := match names with
              | VList l => negb (bool_decide (l = []))
                           && forallb (λ n, str_match receipt_name n
                                            && negb (py_eq n (VStr (&"release-inputs-fuzz.json")))) l
              | _ => false
              end in
    if negb ok then Raise (version_error "required_build_receipts must be nonempty ASCII package receipt filenames")
    else
      let names := match names with VList l => str_value <$> l | _ => [] end in
      _ ← require (bool_decide (NoDup names)) "required_build_receipts contains duplicate filenames";
      Ok (Some names)
  end.

Notation selector := (pystr * pystr * list pystr * option pystr)%type.

(** The selector of one declaration of [config["files"]]. *)
Definition file_selector (d : pyobject) : outcome selector :=
  path ← item (&"path") d;
  format ← item (&"format") d;
  names ← match dict_get (&"field") d with Some f => field f | None => Ok [] end;
  Ok (str_value path, str_value format, names, str_value <$> dict_get (&"package") d).

Fixpoint check_files (files : list pyval) (selectors : list selector) : outcome unit :=
  match files with
  | [] => Ok tt
  | v :: files =>
    d ← declaration v false;
    s ← file_selector d;
    _ ← require (negb (bool_decide (s ∈ selectors))) "Duplicate version selector";
    check_files files (s :: selectors)
  end.

Definition config_keys : list pystr :=
  [&"schema"; &"promotion"; &"files"; &"artifacts"; &"required_build_receipts"; &"build_number_floor";
   &"toolkit_revision"].

Definition int_value (v : pyval) : Z := match v with VInt n => n | _ => 0 end.
Definition list_value (v : pyval) : list pyval := match v with VList l => l | _ => [] end.

(** [validate_policy] *)
Definition validate_policy (policy : pyval) : outcome pyobject :=
  match policy with
  | VDict p =>
    match dict_get (&"versioning") p with
    | Some (VDict config) =>
      _ ← require (forallb (λ k, bool_decide (k ∈ config_keys)) (dict_keys config)) "Unsupported versioning fields";
      let schema := get_default (&"schema") VNone config in
      _ ← require (type_is_int schema && (int_value schema =? 1)) "Unsupported versioning schema";
      promotion ← py_in (get_default (&"promotion") VNone config) PROMOTIONS;
      _ ← require promotion "Unsupported promotion profile";
      _ ← match dict_get (&"build_number_floor") config with
          | Some floor => require (type_is_int floor && (0 <=? int_value floor) && (int_value floor <? 2100000000))
                            "Native build number floor must be an integer in 0..2099999999"
          | None => Ok tt
          end;
      let files := get_default (&"files") VNone config in
      _ ← require (is_list files && truthy files) "Policy requires explicit version files";
      _ ← required_build_receipts config;
      _ ← check_files (list_value files) [];
      let artifacts := get_default (&"artifacts") (VList []) config in
      _ ← require (is_list artifacts) "Artifact declarations must be an array";
      _ ← for_each (λ v, _ ← declaration v true; Ok tt) (list_value artifacts);
      _ ← match dict_get (&"toolkit_revision") config with
          | Some revision => require (str_match SHA revision) "Toolkit revision must be a pinned SHA"
          | None => Ok tt
          end;
      Ok config
    | _ => Raise (version_error "Policy requires versioning")
    end
  | _ => Raise (version_error "Policy must be an object")
  end.

(** ** Identities *)

(** [datetime.strptime(s, "%Y%m%d%H%M%S")] of fourteen digits. *)
Definition leap (y : Z) : bool := (y mod 4 =? 0) && (negb (y mod 100 =? 0) || (y mod 400 =? 0)).
Definition days_in_month (y m : Z) : Z :=
  if m =? 2 then (if leap y then 29 else 28)
  else if (m =? 4) || (m =? 6) || (m =? 9) || (m =? 11) then 30 else 31.

Definition valid_timestamp (s : pystr) : bool :=
  let part i n := int_of_digits (take n (drop i s)) in
  let y := part 0%nat 4%nat in let m := part 4%nat 2%nat in let d := part 6%nat 2%nat in
  (1 <=? y) && (1 <=? m) && (m <=? 12) && (1 <=? d) && (d <=? days_in_month y m)
  && (part 8%nat 2%nat <=? 23) && (part 10%nat 2%nat <=? 59) && (part 12%nat 2%nat <=? 59).

(** [_identity] *)
Definition identity (base channel sequence : pyval) : outcome pystr :=
  _ ← require (str_match BASE base) "Base version must be strict X.Y.Z without prefix or suffix";
  known ← py_in channel CHANNELS;
  _ ← require known "Unsupported release channel";
  let version := str_value base ++ &"-" ++ str_value channel ++ &"." ++ py_str sequence in
  if bool_decide (channel = VStr (&"stable")) then
    _ ← require (bool_decide (sequence = VNone)) "Stable must not have a sequence";
    Ok (str_value base)
  else if bool_decide (channel = VStr (&"nightly")) then
    _ ← require (str_match NIGHTLY sequence) "Nightly requires frozen UTCtimestamp.run.attempt suffix";
    _ ← require (valid_timestamp (fst (partition (chr ".") (str_value sequence)))) "Invalid nightly UTC timestamp";
    Ok version
  else
    _ ← require (type_is_int sequence && (0 <? int_value sequence)) "Beta/RC sequence must be a positive integer";
    Ok version.

(** ** Projections *)

Definition optional_int (v : pyval) : outcome (option Z) :=
  match v with VNone => Ok None | VInt n => Ok (Some n) | _ => Raise (type_error_of "") end.

(** The marketing triple of an Apple build number. *)
Definition apple_build (build : Z) : pystr :=
  let n := build - 1 in
  str_of_int (n / 10000 + 1) ++ &"." ++ str_of_int (n / 100 mod 100) ++ &"." ++ str_of_int (n mod 100).

(** The PEP 440 development number of a nightly sequence. *)
Definition nightly_number (sequence : pystr) : outcome Z :=
  match split (chr ".") sequence with
  | [_; run; attempt] =>
    r ← py_int (VStr run);
    a ← py_int (VStr attempt);
    let number := r * 1000000 + a in
    _ ← require ((a <? 1000000) && (number <=? 2 ^ 64 - 2))
          "Nightly run or attempt is too large for PEP 440 projection";
    Ok number
  | _ => Raise (Exn EValue "not enough values to unpack")
  end.

(** [projections] of a plan that was validated. *)
Definition projections (plan : pyobject) (ecosystem : pystr) : outcome pyobject :=
  _ ← require (bool_decide (ecosystem ∈ [&"semver"; &"pep440"])) "Unsupported package ecosystem";
  version ← item (&"version") plan;
  channel ← item (&"channel") plan;
  promotion ← item (&"promotion") plan;
  base ← item (&"base_version") plan;
  sequence ← item (&"sequence") plan;
  package ←
    (if py_eq channel (VStr (&"rc")) && py_eq promotion (VStr (&"promote-bytes")) then Ok base
     else if bool_decide (ecosystem = &"pep440") then
       if py_eq channel (VStr (&"beta")) then Ok (VStr (str_value base ++ &"b" ++ py_str sequence))
       else if py_eq channel (VStr (&"rc")) then Ok (VStr (str_value base ++ &"rc" ++ py_str sequence))
       else if py_eq channel (VStr (&"nightly")) then
         number ← nightly_number (str_value sequence);
         Ok (VStr (str_value base ++ &".dev" ++ str_of_int number))
       else Ok version
     else Ok version);
  build ← item (&"build_number") plan;
  number ← optional_int build;
  let apple := match number with
               | Some n => if (0 <? n) && (n <=? 99990000) then VStr (apple_build n) else VNone
               | None => VNone
               end in
  Ok [(&"base", base); (&"full", version); (&"package", package); (&"build", build); (&"apple-build", apple)].

(** [projected_value] *)
Definition projected_value (plan d : pyobject) : outcome pyval :=
  let kind := get_default (&"value") (VStr (&"package")) d in
  values ← projections plan (str_value (get_default (&"ecosystem") (VStr (&"semver")) d));
  result ← item (str_value kind) values;
  _ ← require (negb (bool_decide (result = VNone))) "Projection requires a valid allocated native build number";
  let prefix := str_value (get_default (&"prefix") (VStr []) d) in
  if bool_decide (prefix = []) then Ok result else Ok (VStr (prefix ++ py_str result)).

(** ** Plans *)

Section plans.
Context (float_repr : Q → pystr) (sha256_hex : bytes → pystr).

(** [digest(json_bytes(policy))] *)
Definition policy_digest (policy : pyval) : outcome pystr :=
  b ← json_bytes float_repr policy; Ok (sha256_hex b).

Definition build_number_ok (build : pyval) : bool :=
  match build with VNone => true | VInt n => (0 <? n) && (n <=? 2100000000) | _ => false end.

(** [build is None or build > config.get("build_number_floor", 0)] *)
Definition above_floor (build : pyval) (config : pyobject) : bool :=
  match build with
  | VInt n => int_value (get_default (&"build_number_floor") (VInt 0) config) <? n
  | _ => true
  end.

Definition check_projections (plan : pyobject) (config : pyobject) : outcome unit :=
  files ← item (&"files") config;
  for_each (λ v, match v with
                 | VDict d => _ ← projected_value plan d; Ok tt
                 | _ => Raise (type_error_of "")
                 end) (list_value files).

(** The dictionary [create_plan] freezes. *)
Definition plan_dict (base : pyval) (version : pystr) (channel sequence source_sha build_number : pyval)
    (digest : pystr) (promotion : pyval) : pyobject :=
  [(&"schema_version", VInt 1); (&"base_version", base); (&"version", VStr version); (&"channel", channel);
   (&"sequence", sequence); (&"tag", VStr (&"v" ++ version)); (&"source_sha", source_sha);
   (&"build_number", build_number); (&"policy_sha256", VStr digest); (&"promotion", promotion)].

(** [create_plan] *)
Definition create_plan (base channel sequence source_sha policy build_number : pyval) : outcome pyobject :=
  config ← validate_policy policy;
  version ← identity base channel sequence;
  _ ← require (str_match SHA source_sha) "Source SHA must be a full lowercase commit SHA";
  _ ← require (build_number_ok build_number)
        "Build number must be a positive integer no greater than 2100000000";
  _ ← require (above_floor build_number config) "Build number must exceed the declared migration floor";
  digest ← policy_digest policy;
  promotion ← item (&"promotion") config;
  let plan := plan_dict base version channel sequence source_sha build_number digest promotion in
  _ ← check_projections plan config;
  Ok plan.

Definition plan_keys : list pystr :=
  [&"schema_version"; &"base_version"; &"version"; &"channel"; &"sequence"; &"tag"; &"source_sha";
   &"build_number"; &"policy_sha256"; &"promotion"].

Definition same_keys (l l' : list pystr) : bool :=
  forallb (λ k, bool_decide (k ∈ l')) l && forallb (λ k, bool_decide (k ∈ l)) l'.

(** [validate_plan] *)
Definition validate_plan (plan : pyval) (policy source_sha : option pyval) : outcome pyobject :=
  match plan with
  | VDict p =>
    _ ← require (same_keys (dict_keys p) plan_keys) "Unexpected or missing release-plan fields";
    schema ← item (&"schema_version") p;
    _ ← require (type_is_int schema && (int_value schema =? 1)) "Unsupported release-plan schema";
    base ← item (&"base_version") p;
    channel ← item (&"channel") p;
    sequence ← item (&"sequence") p;
    version ← identity base channel sequence;
    v ← item (&"version") p;
    tag ← item (&"tag") p;
    _ ← require (py_eq v (VStr version) && py_eq tag (VStr (&"v" ++ version)))
          "Release version/tag/sequence disagree";
    source ← item (&"source_sha") p;
    _ ← require (str_match SHA source) "Invalid plan source SHA";
    sha ← item (&"policy_sha256") p;
    _ ← require (str_match SHA256 sha) "Invalid policy digest";
    promotion ← item (&"promotion") p;
    known ← py_in promotion PROMOTIONS;
    _ ← require known "Invalid plan promotion profile";
    build ← item (&"build_number") p;
    _ ← require (build_number_ok build) "Invalid native build number";
    _ ← match policy with
        | None => Ok tt
        | Some policy =>
          config ← validate_policy policy;
          digest ← policy_digest policy;
          _ ← require (py_eq sha (VStr digest)) "Release plan policy digest mismatch";
          declared ← item (&"promotion") config;
          _ ← require (py_eq promotion declared) "Release plan promotion policy mismatch";
          _ ← require (above_floor build config) "Plan build number does not exceed the declared migration floor";
          check_projections p config
        end;
    _ ← match source_sha with
        | None => Ok tt
        | Some s => require (py_eq source s) "Release plan source SHA mismatch"
        end;
    Ok p
  | _ => Raise (version_error "Release plan must be an object")
  end.

(** [plan_digest] *)
Definition plan_digest (plan : pyval) : outcome pystr :=
  _ ← validate_plan plan None None;
  b ← json_bytes float_repr plan; Ok (sha256_hex b).

(** The entries of [effective_inputs_digest]. *)
Fixpoint input_entries (evidence : list pyobject) (seen : list pystr) : outcome (list (pystr * pystr)) :=
  match evidence with
  | [] => Ok []
  | e :: evidence =>
    path ← item (&"path") e;
    name ← relative path;
    _ ← require (negb (bool_decide (name ∈ seen))) "Duplicate effective input path";
    sha ← item (&"after_sha256") e;
    _ ← match sha with
        | VStr s => require (fullmatch SHA256 s) "Invalid effective input digest"
        | _ => Raise (type_error_of "expected string or bytes-like object")
        end;
    rest ← input_entries evidence (name :: seen);
    Ok ((name, str_value sha) :: rest)
  end.

(** [effective_inputs_digest] *)
Definition effective_inputs_digest (evidence : list pyobject) : outcome pystr :=
  entries ← input_entries evidence [];
  b ← json_bytes float_repr
        (VList ((λ e, VDict [(&"path", VStr e.1); (&"sha256", VStr e.2)]) <$> sorted (λ a b, str_leb a.1 b.1) entries));
  Ok (sha256_hex b).
End plans.
