(* ===== verification/VersionPlanFacts.v ===== *)
(** * Theorems about release identities

    A dictionary validates exactly when it is a plan that creation makes; a version names one release; the
    numeric projections keep the order of the counters within the platforms'
    limits. *)

From Stdlib Require Import QArith.QArith.
From S2P Require Import Prelude PyStr PyDict PyRegex PyVal PyJson VersionPlan.
#[local] Open Scope Z_scope.

#[export] Instance VStr_inj : Inj (=) (=) VStr.
Proof. by intros ?? [= ->]. Qed.

Lemma require_ok c m u : require c m = Ok u ↔ c = true.
Proof. apply check_ok. Qed.

Lemma validate_policy_ok policy config :
  validate_policy policy = Ok config →
  ∃ promotion, item (&"promotion") config = Ok (VStr promotion) ∧ promotion ∈ PROMOTIONS.
Proof.
  unfold validate_policy. destruct policy as [| | | | | | |p]; try done.
  destruct (dict_get _ p) as [[| | | | | | |cfg]|]; try done. intros Hp. inv_bind.
  match goal with H : require _ "Unsupported promotion profile" = Ok _ |- _ => apply require_ok in H; subst end.
  match goal with H : py_in _ PROMOTIONS = Ok true |- _ => apply py_in_true in H as (s & Hs & Hin) end.
  exists s. split; [|done]. unfold item, get_default in *.
  destruct (dict_get (&"promotion") config); cbn in Hs; by subst.
Qed.

Lemma py_eq_str_refl s : py_eq (VStr s) (VStr s) = true.
Proof. by apply py_eq_str. Qed.

(** ** Plans with the same entries *)

(** Dictionaries that hold the same entries, in any order. *)
Definition same_entries (p q : pyobject) : Prop := ∀ k, dict_get k p = dict_get k q.

Lemma item_same p q k : same_entries p q → item k p = item k q.
Proof. intros He. unfold item. by rewrite (He k). Qed.

Lemma get_default_same p q k v : same_entries p q → get_default k v p = get_default k v q.
Proof. intros He. unfold get_default. by rewrite (He k). Qed.

Lemma check_projections_same p q config : same_entries p q → check_projections p config = check_projections q config.
Proof.
  intros He. unfold check_projections. destruct (item _ config) as [files|]; [|done]. cbn [mbind outcome_bind].
  induction (list_value files) as [|v l IH]; [done|]. cbn [for_each]. rewrite IH. destruct v as [| | | | | | |d]; try done.
  assert (projected_value p d = projected_value q d) as ->; [|done].
  unfold projected_value, projections. by rewrite !(item_same p q _ He).
Qed.

Lemma same_keys_iff (l l' : list pystr) : same_keys l l' = true ↔ ∀ k, k ∈ l ↔ k ∈ l'.
Proof.
  unfold same_keys. rewrite andb_true_iff, !forallb_forall. split.
  - intros [H1 H2] k. split; intros Hk%list_elem_of_In; [apply H1 in Hk|apply H2 in Hk]; by apply bool_decide_eq_true in Hk.
  - intros H. split; intros k Hk%list_elem_of_In; apply bool_decide_eq_true; by apply H.
Qed.

Section plan_items.
Context (base : pyval) (version : pystr) (channel sequence source build : pyval) (digest : pystr) (promotion : pyval).
Notation plan := (plan_dict base version channel sequence source build digest promotion).

Lemma plan_items p :
  same_entries p plan →
  item (&"schema_version") p = Ok (VInt 1) ∧ item (&"base_version") p = Ok base
  ∧ item (&"version") p = Ok (VStr version) ∧ item (&"channel") p = Ok channel
  ∧ item (&"sequence") p = Ok sequence ∧ item (&"tag") p = Ok (VStr (&"v" ++ version))
  ∧ item (&"source_sha") p = Ok source ∧ item (&"build_number") p = Ok build
  ∧ item (&"policy_sha256") p = Ok (VStr digest) ∧ item (&"promotion") p = Ok promotion
  ∧ same_keys (dict_keys p) plan_keys = true.
Proof.
  intros He. rewrite !(item_same p plan _ He). do 10 (split; [done|]).
  apply same_keys_iff. intros k. rewrite dict_keys_get, (He k), <-dict_keys_get. done.
Qed.

(** A dictionary with these items and no other key. *)
Lemma plan_entries p :
  item (&"schema_version") p = Ok (VInt 1) → item (&"base_version") p = Ok base →
  item (&"version") p = Ok (VStr version) → item (&"channel") p = Ok channel →
  item (&"sequence") p = Ok sequence → item (&"tag") p = Ok (VStr (&"v" ++ version)) →
  item (&"source_sha") p = Ok source → item (&"build_number") p = Ok build →
  item (&"policy_sha256") p = Ok (VStr digest) → item (&"promotion") p = Ok promotion →
  same_keys (dict_keys p) plan_keys = true → same_entries p plan.
Proof.
  intros H1 H2 H3 H4 H5 H6 H7 H8 H9 H10 Hk k. pose proof (proj1 (same_keys_iff _ _) Hk k) as Hin.
  assert (∀ v, item k p = Ok v → dict_get k p = Some v) as Hget by (unfold item; intros v; destruct (dict_get k p); [by intros [= ->]|done]).
  destruct (decide (k ∈ plan_keys)) as [Hp|Hp].
  - unfold plan_keys in Hp. rewrite !elem_of_cons in Hp.
    destruct Hp as [->|[->|[->|[->|[->|[->|[->|[->|[->|[->|Hp]]]]]]]]]]; [by apply Hget..|by apply elem_of_nil in Hp].
  - transitivity (@None pyval); [apply dict_get_None; tauto|symmetry; by apply dict_get_None].
Qed.

(** Validation of a plan with these items. *)
Lemma validate_plan_dict float_repr sha256_hex policy source_sha p :
  same_entries p plan →
  identity base channel sequence = Ok version → str_match SHA source = true → fullmatch SHA256 digest = true →
  py_in promotion PROMOTIONS = Ok true → build_number_ok build = true →
  validate_plan float_repr sha256_hex (VDict p) policy source_sha =
    (_ ← match policy with
         | None => Ok tt
         | Some policy =>
           config ← validate_policy policy;
           expected ← policy_digest float_repr sha256_hex policy;
           _ ← require (py_eq (VStr digest) (VStr expected)) "Release plan policy digest mismatch";
           declared ← item (&"promotion") config;
           _ ← require (py_eq promotion declared) "Release plan promotion policy mismatch";
           _ ← require (above_floor build config) "Plan build number does not exceed the declared migration floor";
           check_projections p config
         end;
     _ ← match source_sha with
         | None => Ok tt
         | Some s => require (py_eq source s) "Release plan source SHA mismatch"
         end;
     Ok p).
Proof.
  intros He Hid Hsha Hd Hp Hb.
  destruct (plan_items p He) as (H1 & H2 & H3 & H4 & H5 & H6 & H7 & H8 & H9 & H10 & H11).
  unfold validate_plan. rewrite H1, H2, H3, H4, H5, H6, H7, H8, H9, H10, H11. clear H1 H2 H3 H4 H5 H6 H7 H8 H9 H10 H11.
  cbn [mbind outcome_bind].
  rewrite Hid. cbn [mbind outcome_bind]. rewrite !py_eq_str_refl.
  unfold require at 1 2 3 4 5. change (type_is_int (VInt 1) && (int_value (VInt 1) =? 1)) with true.
  cbn [check andb mbind outcome_bind]. rewrite Hsha. cbn [check mbind outcome_bind]. unfold str_match. rewrite Hd.
  cbn [check mbind outcome_bind]. rewrite Hp. cbn [mbind outcome_bind]. rewrite Hb. done.
Qed.
End plan_items.

(** What creation has checked. *)
Lemma create_plan_inv float_repr sha256_hex base channel sequence source policy build plan :
  create_plan float_repr sha256_hex base channel sequence source policy build = Ok plan →
  ∃ config version digest promotion,
    plan = plan_dict base version channel sequence source build digest (VStr promotion)
    ∧ validate_policy policy = Ok config ∧ identity base channel sequence = Ok version ∧ str_match SHA source = true
    ∧ build_number_ok build = true ∧ above_floor build config = true ∧ policy_digest float_repr sha256_hex policy = Ok digest
    ∧ item (&"promotion") config = Ok (VStr promotion) ∧ promotion ∈ PROMOTIONS ∧ check_projections plan config = Ok tt.
Proof.
  unfold create_plan. intros Hplan. inv_bind.
  repeat match goal with H : require _ _ = Ok _ |- _ => apply require_ok in H end.
  match goal with H : validate_policy policy = Ok ?c |- _ =>
    rename c into config; pose proof H as Hpolicy; destruct (validate_policy_ok _ _ H) as (promotion & Hi & Hin) end.
  match goal with H : item _ config = Ok ?v |- _ => rewrite Hi in H; injection H as <- end.
  match goal with H : check_projections _ _ = Ok ?u |- _ => destruct u end.
  eexists config, _, _, promotion. by split_and!.
Qed.

Lemma policy_digest_ok float_repr sha256_hex policy digest :
  (∀ b, fullmatch SHA256 (sha256_hex b) = true) → policy_digest float_repr sha256_hex policy = Ok digest → fullmatch SHA256 digest = true.
Proof. unfold policy_digest. intros Hsha Hd. inv_bind. apply Hsha. Qed.

(** A created plan passes every check of the validation, and so does every
    dictionary with its entries. *)
Lemma create_plan_entries_validate float_repr sha256_hex base channel sequence source policy build plan p
    (Hsha : ∀ b, fullmatch SHA256 (sha256_hex b) = true)
    (Hplan : create_plan float_repr sha256_hex base channel sequence source policy build = Ok plan) (Hp : same_entries p plan) :
  validate_plan float_repr sha256_hex (VDict p) (Some policy) (Some source) = Ok p
  ∧ validate_plan float_repr sha256_hex (VDict p) None None = Ok p.
Proof.
  apply create_plan_inv in Hplan as (config & version & digest & promotion & -> & Hpolicy & Hid & Hsrc & Hb & Hf & Hd & Hi & Hin & Hc).
  pose proof (policy_digest_ok _ _ _ _ Hsha Hd) as Hdok.
  assert (py_in (VStr promotion) PROMOTIONS = Ok true) as Hprom by (apply py_in_true; eauto).
  assert (∃ s, source = VStr s) as [s ->] by (destruct source; try done; eauto).
  rewrite !(validate_plan_dict _ _ _ _ _ _ _ _ _ _ _ _ p Hp) by done. split; [|done].
  rewrite Hpolicy. cbn [mbind outcome_bind]. rewrite Hd. cbn [mbind outcome_bind].
  rewrite !py_eq_str_refl, Hi. unfold require at 1 2 3 4. cbn [check mbind outcome_bind].
  rewrite py_eq_str_refl. cbn [check mbind outcome_bind]. rewrite Hf. cbn [check mbind outcome_bind].
  by rewrite (check_projections_same _ _ _ Hp), Hc.
Qed.

Lemma create_plan_validates float_repr sha256_hex base channel sequence source policy build plan
    (Hsha : ∀ b, fullmatch SHA256 (sha256_hex b) = true)
    (Hplan : create_plan float_repr sha256_hex base channel sequence source policy build = Ok plan) :
  validate_plan float_repr sha256_hex (VDict plan) (Some policy) (Some source) = Ok plan
  ∧ validate_plan float_repr sha256_hex (VDict plan) None None = Ok plan
  ∧ dict_keys plan = plan_keys.
Proof.
  destruct (create_plan_entries_validate _ _ _ _ _ _ _ _ _ plan Hsha Hplan) as [H1 H2]; [done|].
  split; [done|]. split; [done|]. by apply create_plan_inv in Hplan as (? & ? & ? & ? & -> & _).
Qed.

Lemma py_eq_source s v : py_eq (VStr s) v = true → v = VStr s.
Proof. destruct v as [| | | |s'| | |]; try done. intros ->%py_eq_str. done. Qed.

(** A plan that validates has the entries of the plan that creation makes of its
    own decisions. *)
Lemma validate_plan_created float_repr sha256_hex p policy source q
    (Hv : validate_plan float_repr sha256_hex (VDict p) (Some policy) (Some source) = Ok q) :
  q = p ∧ ∃ plan, create_plan float_repr sha256_hex (get_default (&"base_version") VNone p) (get_default (&"channel") VNone p)
      (get_default (&"sequence") VNone p) source policy (get_default (&"build_number") VNone p) = Ok plan ∧ same_entries p plan.
Proof.
  unfold validate_plan in Hv. inv_bind.
  repeat match goal with H : require _ _ = Ok _ |- _ => apply require_ok in H end. boolprop.
  match goal with H : validate_policy policy = Ok ?c |- _ =>
    rename c into config; pose proof H as Hpolicy; destruct (validate_policy_ok _ _ H) as (promotion & Hi & Hin) end.
  match goal with H : item _ config = Ok ?v |- _ => rewrite Hi in H; injection H as <- end.
  repeat match goal with H : py_eq ?v (VStr _) = true |- _ => apply py_eq_str in H as -> end.
  match goal with H : type_is_int ?v = true ∧ _ |- _ => destruct v as [| |n| | | | |]; try (by destruct H); destruct H as [_ H]; apply Z.eqb_eq in H; cbn in H; subst n end.
  match goal with H : _ ∧ _ |- _ => destruct H as [->%py_eq_str ->%py_eq_str] end.
  match goal with H : str_match SHA ?v = true, H' : py_eq ?v source = true |- _ =>
    destruct v as [| | | |s| | |]; try done; apply py_eq_source in H' as -> end.
  match goal with |- _ ∧ ∃ plan, create_plan _ _ (get_default _ _ ?d) _ _ _ _ _ = _ ∧ _ => assert (∀ k v, item k d = Ok v → get_default k VNone d = v) as Hget
    by (unfold item, get_default; intros k v; destruct (dict_get k d); [by intros [= ->]|done]) end.
  split; [done|].
  match goal with
  | Hb : item (&"base_version") _ = Ok ?base, Hc : item (&"channel") _ = Ok ?channel, Hs : item (&"sequence") _ = Ok ?sequence,
    Hn : item (&"build_number") _ = Ok ?build, Hid : identity ?base ?channel ?sequence = Ok ?version,
    Hd : policy_digest _ _ policy = Ok ?digest |- _ =>
    rewrite (Hget _ _ Hb), (Hget _ _ Hc), (Hget _ _ Hs), (Hget _ _ Hn);
    exists (plan_dict base version channel sequence (VStr s) build digest (VStr promotion))
  end.
  match goal with |- _ ∧ same_entries ?d ?plan => assert (same_entries d plan) as He by by apply plan_entries end.
  split; [|done]. unfold create_plan. rewrite Hpolicy. cbn [mbind outcome_bind].
  repeat match goal with
  | H : identity _ _ _ = Ok _ |- _ => rewrite H; clear H
  | H : policy_digest _ _ _ = Ok _ |- _ => rewrite H; clear H
  | H : check_projections _ _ = Ok ?u |- _ => rewrite (check_projections_same _ _ _ He) in H; destruct u
  | H : ?c = true |- context [require ?c _] => rewrite H
  end.
  cbn [require check mbind outcome_bind].
  rewrite Hi. cbn [mbind outcome_bind]. match goal with H : check_projections _ _ = _ |- _ => by rewrite H end.
Qed.

Lemma create_plan_items float_repr sha256_hex base channel sequence source policy build plan :
  create_plan float_repr sha256_hex base channel sequence source policy build = Ok plan →
  get_default (&"base_version") VNone plan = base ∧ get_default (&"channel") VNone plan = channel.
Proof. unfold create_plan. intros Hplan. inv_bind. done. Qed.

(** C31: creation and validation agree on every check.  A created plan validates,
    alone and against its policy and source revision; and a dictionary validates
    against a policy and a source revision exactly when it has the entries of the
    plan that creation makes, from that policy and revision, of the decisions it
    records (base version, channel, sequence, build number), so its version, tag,
    digest, promotion profile and source are the computed ones, its build number
    is above the floor, and it has no other entry. *)
Theorem created_plan_validates float_repr sha256_hex source policy
    (Hsha : ∀ b, fullmatch SHA256 (sha256_hex b) = true) :
  (∀ base channel sequence build plan,
     create_plan float_repr sha256_hex base channel sequence source policy build = Ok plan →
     validate_plan float_repr sha256_hex (VDict plan) (Some policy) (Some source) = Ok plan
     ∧ validate_plan float_repr sha256_hex (VDict plan) None None = Ok plan)
  ∧ ∀ p q,
     validate_plan float_repr sha256_hex (VDict p) (Some policy) (Some source) = Ok q ↔
     q = p ∧ ∃ plan,
       create_plan float_repr sha256_hex (get_default (&"base_version") VNone p) (get_default (&"channel") VNone p)
         (get_default (&"sequence") VNone p) source policy (get_default (&"build_number") VNone p) = Ok plan
       ∧ ∀ k, dict_get k p = dict_get k plan.
Proof.
  split.
  - intros base channel sequence build plan Hplan. by destruct (create_plan_validates _ _ _ _ _ _ _ _ _ Hsha Hplan) as (? & ? & _).
  - intros p q. split; [apply validate_plan_created|]. intros (-> & plan & Hplan & Hp).
    exact (proj1 (create_plan_entries_validate _ _ _ _ _ _ _ _ _ p Hsha Hplan Hp)).
Qed.

(** ** A version names one release *)

Definition base_char (c : N) : bool := is_digit c || (c =? 46)%N.

Lemma base_alphabet : alphabet base_char BASE.
Proof.
  assert (alphabet base_char numeral) as Hn.
  { unfold numeral, digits. cbn [alphabet].
    split_and!; [by apply alphabet_chars| |]; intros c; unfold base_char, one_to_nine, is_digit, in_range;
      rewrite orb_true_iff, !andb_true_iff, !N.leb_le; lia. }
  assert (alphabet base_char dot) as Hd by by apply alphabet_chars.
  unfold BASE. cbn [alphabet]. tauto.
Qed.

Lemma base_no_dash s : fullmatch BASE s = true → chr "-" ∉ s.
Proof. intros Hs. eapply forallb_not_elem; [by eapply fullmatch_alphabet, Hs; apply base_alphabet|done]. Qed.

Lemma identity_cases base channel sequence version :
  identity base channel sequence = Ok version →
  ∃ b, base = VStr b ∧ fullmatch BASE b = true
  ∧ ((channel = VStr (&"stable") ∧ sequence = VNone ∧ version = b)
     ∨ ∃ c q, channel = VStr c ∧ c ∈ [&"nightly"; &"beta"; &"rc"] ∧ version = b ++ &"-" ++ c ++ &"." ++ q
       ∧ ((c = &"nightly" ∧ sequence = VStr q ∧ fullmatch NIGHTLY q = true)
          ∨ (c ≠ &"nightly" ∧ ∃ n, sequence = VInt n ∧ 0 < n ∧ q = str_of_int n))).
Proof.
  unfold identity. intros Hid. inv_bind.
  repeat match goal with H : require _ _ = Ok _ |- _ => apply require_ok in H end.
  destruct base as [| | | |b| | |]; try done. exists b. split; [done|]. split; [done|]. subst.
  match goal with H : py_in _ CHANNELS = Ok true |- _ => apply py_in_true in H as (c & -> & Hc) end.
  destruct (bool_decide (VStr c = VStr (&"stable"))) eqn:E1.
  - apply bool_decide_eq_true in E1. left. inv_bind.
    match goal with H : require _ _ = Ok _ |- _ => apply require_ok, bool_decide_eq_true in H end. by subst.
  - apply bool_decide_eq_false in E1. right. exists c.
    assert (c ∈ [&"nightly"; &"beta"; &"rc"]) as Hc'.
    { unfold CHANNELS in Hc. rewrite !elem_of_cons in Hc |- *.
      destruct Hc as [?|[?|[?|Hc]]]; [tauto..|]. apply list_elem_of_singleton in Hc. by subst. }
    destruct (bool_decide (VStr c = VStr (&"nightly"))) eqn:E2.
    + apply bool_decide_eq_true in E2. apply (inj VStr) in E2. inv_bind.
      repeat match goal with H : require _ _ = Ok _ |- _ => apply require_ok in H end.
      destruct sequence as [| | | |q| | |]; try done. exists q. cbn [str_value py_str].
      split; [done|]. split; [done|]. split; [done|]. left. done.
    + apply bool_decide_eq_false in E2. inv_bind.
      repeat match goal with H : require _ _ = Ok _ |- _ => apply require_ok, andb_true_iff in H as [H ?] end.
      destruct sequence as [| |n| | | | |]; try done. exists (str_of_int n). cbn [str_value py_str].
      split; [done|]. split; [done|]. split; [done|]. right. split; [congruence|].
      exists n. split; [done|]. split; [|done]. by apply Z.ltb_lt.
Qed.

Lemma identity_inj base channel sequence base' channel' sequence' version :
  identity base channel sequence = Ok version → identity base' channel' sequence' = Ok version →
  base = base' ∧ channel = channel' ∧ sequence = sequence'.
Proof.
  intros (b & -> & Hb & H1)%identity_cases (b' & -> & Hb' & H2)%identity_cases.
  pose proof (base_no_dash _ Hb) as Hd. pose proof (base_no_dash _ Hb') as Hd'.
  assert (∀ c, c ∈ [&"nightly"; &"beta"; &"rc"] → chr "." ∉ c) as Hdot.
  { intros c Hc. rewrite !elem_of_cons, elem_of_nil in Hc.
    destruct Hc as [-> | [-> | [-> | []]]]; apply has_false; by vm_compute. }
  destruct H1 as [(-> & -> & ->)|(c & q & -> & Hc & -> & Hq)].
  - destruct H2 as [(-> & -> & ->)|(c & q & -> & Hc & E & Hq)]; [done|]. exfalso. apply Hd.
    rewrite E. change (&"-") with [chr "-"]. apply elem_of_app. right. apply list_elem_of_here.
  - destruct H2 as [(-> & -> & E)|(c' & q' & -> & Hc' & E & Hq')].
    { exfalso. apply Hd'. rewrite <-E. change (&"-") with [chr "-"]. apply elem_of_app. right. apply list_elem_of_here. }
    change (&"-") with [chr "-"] in E. change (&".") with [chr "."] in E. cbn [app] in E.
    assert (b = b' ∧ c ++ chr "." :: q = c' ++ chr "." :: q') as [-> E'].
    { apply (f_equal (partition (chr "-"))) in E. rewrite !partition_app in E by done. by injection E. }
    assert (c = c' ∧ q = q') as [-> ->].
    { apply (f_equal (partition (chr "."))) in E'. rewrite !partition_app in E' by auto. by injection E'. }
    split; [done|]. split; [done|].
    destruct Hq as [(Hn & -> & _)|(Hn & n & -> & Hpos & ->)], Hq' as [(Hn' & -> & _)|(Hn' & n' & -> & Hpos' & Hs)];
      try done. f_equal. rewrite !str_of_int_nonneg in Hs by lia.
    apply str_of_nonneg_inj in Hs; lia.
Qed.

Lemma validate_plan_items float_repr sha256_hex plan policy source p :
  validate_plan float_repr sha256_hex plan policy source = Ok p →
  plan = VDict p
  ∧ ∃ base channel sequence version, item (&"base_version") p = Ok base ∧ item (&"channel") p = Ok channel
    ∧ item (&"sequence") p = Ok sequence ∧ identity base channel sequence = Ok version
    ∧ item (&"version") p = Ok (VStr version) ∧ item (&"tag") p = Ok (VStr (&"v" ++ version))
    ∧ ∃ build, item (&"build_number") p = Ok build ∧ build_number_ok build = true.
Proof.
  unfold validate_plan. destruct plan as [| | | | | | |d]; try done. intros Hv. inv_bind. split; [done|].
  repeat match goal with H : require _ _ = Ok _ |- _ => apply require_ok in H end.
  match goal with H : py_eq ?v _ && py_eq ?t _ = true |- _ =>
    apply andb_true_iff in H as [Hev Het]; apply py_eq_str in Hev; apply py_eq_str in Het; subst end.
  eauto 20.
Qed.

(** a release tag identifies one release: two valid plans with the same tag,
    or the same version, have the same base version, channel and sequence. *)
Theorem tag_identifies_release float_repr sha256_hex plan plan' p p'
    (Hp : validate_plan float_repr sha256_hex plan None None = Ok p)
    (Hp' : validate_plan float_repr sha256_hex plan' None None = Ok p')
    (Htag : item (&"tag") p = item (&"tag") p') :
  item (&"version") p = item (&"version") p' ∧ item (&"base_version") p = item (&"base_version") p'
  ∧ item (&"channel") p = item (&"channel") p' ∧ item (&"sequence") p = item (&"sequence") p'.
Proof.
  destruct (validate_plan_items _ _ _ _ _ _ Hp) as (_ & b & c & q & v & Hb & Hc & Hq & Hid & Hv & Ht & _).
  destruct (validate_plan_items _ _ _ _ _ _ Hp') as (_ & b' & c' & q' & v' & Hb' & Hc' & Hq' & Hid' & Hv' & Ht' & _).
  rewrite Ht, Ht' in Htag. apply (inj Ok), (inj VStr), (inj (app _)) in Htag. subst v'.
  destruct (identity_inj _ _ _ _ _ _ _ Hid Hid') as (-> & -> & ->). by rewrite Hv, Hv', Hb, Hb', Hc, Hc', Hq, Hq'.
Qed.

(** ** Numeric projections *)

(** The three components of [apple_build n], for the order on versions. *)
Definition apple_triple (n : Z) : Z * Z * Z := ((n - 1) / 10000 + 1, (n - 1) / 100 mod 100, (n - 1) mod 100).

Definition triple_lt (a b : Z * Z * Z) : Prop :=
  let '(a1, a2, a3) := a in let '(b1, b2, b3) := b in
  a1 < b1 ∨ (a1 = b1 ∧ (a2 < b2 ∨ (a2 = b2 ∧ a3 < b3))).

Lemma apple_triple_value n :
  let '(a, b, c) := apple_triple n in
  (a - 1) * 10000 + b * 100 + c = n - 1 ∧ 0 ≤ b < 100 ∧ 0 ≤ c < 100.
Proof.
  unfold apple_triple. set (m := n - 1). clearbody m.
  assert (m / 10000 = m / 100 / 100) as -> by by rewrite Z.div_div by lia.
  pose proof (Z.div_mod m 100 ltac:(lia)). pose proof (Z.mod_pos_bound m 100 ltac:(lia)).
  pose proof (Z.div_mod (m / 100) 100 ltac:(lia)). pose proof (Z.mod_pos_bound (m / 100) 100 ltac:(lia)). lia.
Qed.

Lemma digit_run_digits s acc n after_digit :
  forallb is_digit s = true →
  digit_run s acc n after_digit =
    if bool_decide (s = []) && negb after_digit then None
    else Some (fold_left (λ a c, 10 * a + digit_value c) s acc, (n + length s)%nat).
Proof.
  revert acc n after_digit. induction s as [|c s IH]; intros acc n b; cbn [digit_run forallb].
  - intros _. destruct b; cbn; [|done]. by rewrite Nat.add_0_r.
  - rewrite andb_true_iff. intros [-> Hs]. rewrite IH by done. rewrite andb_false_r. cbn.
    do 2 f_equal. lia.
Qed.

Lemma digit_not_space c : is_digit c = true → is_space c = false ∧ c ≠ chr "-" ∧ c ≠ chr "+".
Proof.
  unfold is_digit. rewrite andb_true_iff, !N.leb_le. intros Hc. change (chr "-") with 45%N. change (chr "+") with 43%N. split; [|lia].
  unfold is_space. rewrite !orb_false_iff, !andb_false_iff, !N.leb_gt, !N.eqb_neq. lia.
Qed.

Lemma drop_while_none {A} (f : A → bool) l : (∀ x, x ∈ l → f x = false) → drop_while f l = l.
Proof. destruct l as [|x l]; intros Hl; cbn; [done|]. by rewrite Hl by apply list_elem_of_here. Qed.

Lemma strip_digits s : forallb is_digit s = true → strip s = s.
Proof.
  rewrite forallb_forall. intros Hs. unfold strip, lstrip, rstrip.
  assert (∀ x, x ∈ s → is_space x = false) as Hn.
  { intros x Hx%list_elem_of_In. by apply digit_not_space, Hs. }
  rewrite (drop_while_none _ s Hn), drop_while_none, rev_involutive; [done|].
  intros x. rewrite list_elem_of_In, <-in_rev, <-list_elem_of_In. apply Hn.
Qed.

Lemma py_int_str_of_int n : 0 ≤ n → py_int (VStr (str_of_int n)) = Ok n.
Proof.
  intros Hn. rewrite str_of_int_nonneg by done. cbn [py_int].
  pose proof (str_of_nonneg_digits n Hn) as Hd. pose proof (str_of_nonneg_not_nil n) as Hne.
  assert (forallb is_digit (str_of_nonneg n) = true) as Hs.
  { apply forallb_forall. intros c Hc%list_elem_of_In. rewrite Forall_forall in Hd. auto. }
  unfold int_literal. rewrite strip_digits by done. unfold signed.
  pose proof (int_of_str_of_nonneg n Hn) as Hv. unfold int_of_digits in Hv.
  destruct (str_of_nonneg n) as [|c s] eqn:E; [done|].
  assert (is_digit c = true) as Hc by (rewrite Forall_forall in Hd; apply Hd, list_elem_of_here).
  destruct (digit_not_space c Hc) as (_ & H1 & H2). rewrite !bool_decide_false by done.
  rewrite digit_run_digits by done. cbn. cbn in Hv. by rewrite Hv.
Qed.

Lemma str_of_int_no_dot n : 0 ≤ n → chr "." ∉ str_of_int n.
Proof.
  intros Hn. rewrite str_of_int_nonneg by done. intros Hin.
  pose proof (str_of_nonneg_digits n Hn) as Hd. rewrite Forall_forall in Hd. by apply Hd in Hin.
Qed.

Lemma nightly_number_value t r a :
  chr "." ∉ t → 0 ≤ r → 0 ≤ a →
  nightly_number (t ++ &"." ++ str_of_int r ++ &"." ++ str_of_int a) =
    if (a <? 1000000) && (r * 1000000 + a <=? 2 ^ 64 - 2) then Ok (r * 1000000 + a)
    else Raise (version_error "Nightly run or attempt is too large for PEP 440 projection").
Proof.
  intros Ht Hr Ha. unfold nightly_number. change (&".") with [chr "."]. cbn [app].
  rewrite split_app_sep, split_app_sep, split_free by (try done; by apply str_of_int_no_dot).
  rewrite !py_int_str_of_int by done. cbn [mbind outcome_bind]. unfold require, check.
  destruct (_ && _); done.
Qed.

(** C32: the platform build numbers keep the order of the allocated counter.
    Every counter up to 99 990 000 has an Apple version of three components
    within 9999, 99 and 99, later counters compare greater component by
    component; and nightly runs that are accepted have PEP 440 numbers below
    2^64 - 1 ordered by run and then attempt. *)
Theorem numeric_projections_ordered n m t r a t' r' a' x y
    (Ht : chr "." ∉ t) (Ht' : chr "." ∉ t') (Hr : 0 ≤ r) (Ha : 0 ≤ a) (Hr' : 0 ≤ r') (Ha' : 0 ≤ a')
    (Hx : nightly_number (t ++ &"." ++ str_of_int r ++ &"." ++ str_of_int a) = Ok x)
    (Hy : nightly_number (t' ++ &"." ++ str_of_int r' ++ &"." ++ str_of_int a') = Ok y) :
  (let '(a, b, c) := apple_triple n in
   apple_build n = str_of_int a ++ &"." ++ str_of_int b ++ &"." ++ str_of_int c
   ∧ (0 < n ≤ 99990000 → 1 ≤ a ≤ 9999 ∧ 0 ≤ b ≤ 99 ∧ 0 ≤ c ≤ 99))
  ∧ (n < m ↔ triple_lt (apple_triple n) (apple_triple m))
  ∧ x < 2 ^ 64 - 1 ∧ (x < y ↔ r < r' ∨ (r = r' ∧ a < a')).
Proof.
  rewrite nightly_number_value in Hx, Hy by done.
  destruct ((a <? 1000000) && _) eqn:E1; [|done]. destruct ((a' <? 1000000) && _) eqn:E2; [|done].
  injection Hx as <-. injection Hy as <-.
  apply andb_true_iff in E1 as [E1%Z.ltb_lt E1'%Z.leb_le]. apply andb_true_iff in E2 as [E2%Z.ltb_lt E2'%Z.leb_le].
  pose proof (apple_triple_value n) as Hn. pose proof (apple_triple_value m) as Hm.
  split_and!; [|unfold triple_lt|lia|lia].
  - unfold apple_triple in *. split; [done|]. lia.
  - destruct (apple_triple n) as [[a1 b1] c1], (apple_triple m) as [[a2 b2] c2]. lia.
Qed.

(** ** A concrete policy *)

Definition demo_policy : pyval :=
  VDict [(&"versioning",
    VDict [(&"schema", VInt 1); (&"promotion", VStr (&"promote-bytes"));
           (&"files", VList [VDict [(&"path", VStr (&"package.json")); (&"format", VStr (&"json"));
                                    (&"field", VStr (&"version"))];
                             VDict [(&"path", VStr (&"build.txt")); (&"format", VStr (&"text"));
                                    (&"value", VStr (&"build"))]])])].

Definition demo_float (q : Q) : pystr := &"0.5".
Definition demo_sha (b : bytes) : pystr := replicate 64 (chr "0").
Definition demo_source : pyval := VStr (replicate 40 (chr "a")).

Lemma demo_sha_ok b : fullmatch SHA256 (demo_sha b) = true.
Proof. vm_compute. reflexivity. Qed.

Definition demo_plan_of (channel : pystr) (sequence : pyval) (build : Z) : outcome pyobject :=
  create_plan demo_float demo_sha (VStr (&"1.2.3")) (VStr channel) sequence demo_source demo_policy (VInt build).

Definition demo_plan : pyobject :=
  match demo_plan_of (&"rc") (VInt 2) 7 with Ok p => p | Raise _ => [] end.

Example demo_plan_package :
  projected_value demo_plan [(&"ecosystem", VStr (&"pep440")); (&"prefix", VStr (&"v"))] = Ok (VStr (&"v1.2.3"))
  ∧ (p ← demo_plan_of (&"nightly") (VStr (&"20240229235959.12.3")) 7;
     projected_value p [(&"ecosystem", VStr (&"pep440"))]) = Ok (VStr (&"1.2.3.dev12000003"))
  ∧ is_ok (demo_plan_of (&"nightly") (VStr (&"20230229235959.12.3")) 7) = false.
Proof. vm_compute. done. Qed.

(** The plan validates, whatever the order of its entries. *)
Lemma created_plan_validates_witness :
  validate_plan demo_float demo_sha (VDict demo_plan) (Some demo_policy) (Some demo_source) = Ok demo_plan
  ∧ validate_plan demo_float demo_sha (VDict (rev demo_plan)) (Some demo_policy) (Some demo_source) = Ok (rev demo_plan).
Proof.
  assert (create_plan demo_float demo_sha (VStr (&"1.2.3")) (VStr (&"rc")) (VInt 2) demo_source demo_policy (VInt 7) = Ok demo_plan) as Hplan
    by (vm_compute; reflexivity).
  destruct (created_plan_validates demo_float demo_sha demo_source demo_policy demo_sha_ok) as [H1 H2].
  split; [exact (proj1 (H1 _ _ _ _ _ Hplan))|].
  assert (match validate_plan demo_float demo_sha (VDict (rev demo_plan)) (Some demo_policy) (Some demo_source) with
          | Ok q => bool_decide (dict_keys q = dict_keys (rev demo_plan)) | Raise _ => false end = true) as Hv by (vm_compute; reflexivity).
  destruct (validate_plan demo_float demo_sha (VDict (rev demo_plan)) _ _) as [q|] eqn:E; [|discriminate Hv].
  by destruct (proj1 (H2 _ _) E) as [-> _].
Defined.

Lemma tag_identifies_release_witness :
  item (&"sequence") demo_plan = item (&"sequence") demo_plan ∧ item (&"sequence") demo_plan = Ok (VInt 2).
Proof.
  split; [|vm_compute; reflexivity].
  assert (validate_plan demo_float demo_sha (VDict demo_plan) None None = Ok demo_plan) as H
    by (vm_compute; reflexivity).
  apply (tag_identifies_release demo_float demo_sha (VDict demo_plan) (VDict demo_plan) demo_plan demo_plan H H eq_refl).
Defined.

Lemma numeric_projections_ordered_witness :
  apple_build 12345 = &"2.23.44" ∧ 1012000003 < 1012000004.
Proof.
  destruct (numeric_projections_ordered 12345 12346 (&"20240101000000") 1012 3 (&"20240101000000") 1012 4
    1012000003 1012000004) as (H1 & _ & _ & H2);
    [apply has_false; vm_compute; reflexivity|apply has_false; vm_compute; reflexivity|lia|lia|lia|lia|
     vm_compute; reflexivity|vm_compute; reflexivity|].
  split; [|apply H2; right; split; [reflexivity|lia]].
  refine (eq_trans (proj1 H1) _). vm_compute. reflexivity.
Defined.
