(* ===== verification/Release.v ===== *)
(** * The release client ([scripts/release_control.py])

    The requests of the release tools and the questions they ask about versions,
    tags and sequences.  The transport ([GitHub.request], a call of [gh]) is an
    interface; what the client makes of its answers is modelled. *)

From Stdlib Require Import Strings.Byte.
From S2P Require Import Prelude PyStr PyDict PyRegex PyVal PyJson VersionPlan.
#[local] Open Scope Z_scope.

(** ** Identifiers *)

Definition VERSION_RE : regex := BASE.

(** [version] *)
Definition release_version (value : pystr) : outcome pystr :=
  _ ← release_require (fullmatch VERSION_RE value) "Version must be strict X.Y.Z without leading zeros";
  Ok value.

(** [positive] *)
Definition positive (value : pyval) (name : string) : outcome Z :=
  match value with
  | VStr _ | VInt _ =>
    _ ← release_require (fullmatch positive_numeral (py_str value)) name;
    Ok (match value with VInt n => n | _ => int_of_digits (str_value value) end)
  | _ => Raise (release_error name)
  end.

Definition SHA_RE : regex := SHA.

(** [SHA_RE.fullmatch(v)] of any object *)
Definition match_object (r : regex) (v : pyval) : outcome bool :=
  match v with VStr s => Ok (fullmatch r s) | _ => Raise (type_error_of "expected string or bytes-like object") end.

(** [urllib.parse.quote(s, safe="")] *)
Definition unreserved (c : N) : bool := ascii_alnum c || one_of "_.-~" c.
Definition quote_byte (b : byte) : pystr :=
  let c := Byte.to_N b in
  if unreserved c then [c]
  else [chr "%"; ascii_upper_char (Passwords.hex_digit (c / 16)); ascii_upper_char (Passwords.hex_digit (c mod 16))].
Definition quote (s : pystr) : outcome pystr := b ← encode s; Ok (b ≫= quote_byte).

(** A [datetime] in UTC, as [strftime("%Y%m%d%H%M%S")] shows it. *)
Record datetime : Type := Datetime { year : Z; month : Z; day : Z; hour : Z; minute : Z; second : Z }.

Definition padded (width : nat) (n : Z) : pystr :=
  let s := str_of_int n in replicate (width - length s) (chr "0") ++ s.

Definition timestamp (t : datetime) : pystr :=
  padded 4 (year t) ++ padded 2 (month t) ++ padded 2 (day t)
  ++ padded 2 (hour t) ++ padded 2 (minute t) ++ padded 2 (second t).

(** ** Requests *)

Inductive api_mode : Type := JsonMode | PagesMode | AssetMode.
#[export] Instance api_mode_eq_dec : EqDecision api_mode.
Proof. solve_decision. Defined.

(** [GitHub.request(path, method, body, mode)]: the bytes of an answer, or an
    error with its HTTP status. *)
Class GitHub (G : Type) : Type :=
  gh_request : pystr → pystr → option pyobject → api_mode → M G bytes.

Definition attribute_error : exn := Exn EAttribute "".

(** The entries of an object that the code takes for a dictionary. *)
Definition as_dict (v : pyval) : outcome pyobject :=
  match v with VDict d => Ok d | _ => Raise attribute_error end.

Definition ascii_blank (b : byte) : bool := bool_decide (Byte.to_N b ∈ [32; 9; 10; 13; 11; 12]%N).

Section client.
Context {G : Type} `{GitHub G}.

(** [GitHub.api] *)
Definition gh_api (path method : pystr) (body : option pyobject) : M G pyval :=
  raw ← gh_request path method body JsonMode;
  lift (if forallb ascii_blank raw then Ok VNone else parse_json raw).

Definition not_found (c : exn_class) : bool :=
  match c with EGitHub (Some status) => status =? 404 | _ => false end.

(** [GitHub.optional] *)
Definition gh_optional (path : pystr) : M G pyval :=
  try_except (gh_api path (&"GET") None) not_found (λ _, mret VNone).

(** The records of one page. *)
Definition page_values (field : option pystr) (page : pyval) : outcome (list pyval) :=
  let values := match field, page with
                | Some f, VDict d => if bool_decide (f = []) then page else get_default f VNone d
                | _, _ => page
                end in
  _ ← release_require (is_list values) "Invalid paginated records";
  Ok (list_value values).

Fixpoint flatten_pages (field : option pystr) (pages : list pyval) : outcome (list pyval) :=
  match pages with
  | [] => Ok []
  | page :: pages =>
    values ← page_values field page;
    rest ← flatten_pages field pages;
    Ok (values ++ rest)
  end.

(** [GitHub.pages] *)
Definition gh_pages (path : pystr) (field : option pystr) : M G (list pyval) :=
  raw ← gh_request path (&"GET") None PagesMode;
  lift (pages ← parse_json raw;
        _ ← release_require (is_list pages) "Invalid pagination response";
        flatten_pages field (list_value pages)).

(** ** Tags *)

(** [item.get(key)] of each record *)
Definition values_of (key : pystr) (none : pyval) (records : list pyval) : outcome (list pyval) :=
  collect (λ r, d ← as_dict r; Ok (get_default key none d)) records.

(** [ensure_absent] *)
Definition ensure_absent (tag : pystr) : M G unit :=
  quoted ← lift (quote tag);
  reference ← gh_optional (&"git/ref/tags/" ++ quoted);
  _ ← lift (release_require (bool_decide (reference = VNone)) "Tag already exists");
  release ← gh_optional (&"releases/tags/" ++ quoted);
  _ ← lift (release_require (bool_decide (release = VNone)) "Release already exists");
  releases ← gh_pages (&"releases") None;
  lift (used ← any_of (λ r, d ← as_dict r; Ok (py_eq (get_default (&"tag_name") VNone d) (VStr tag))) releases;
        release_require (negb used) "Draft release already exists").

(** The number of a tag with a prefix. *)
Definition tag_number (prefix : pystr) (tag : pyval) : outcome (option Z) :=
  match tag with
  | VStr s =>
    let suffix := drop (length prefix) s in
    Ok (if startswith prefix s && fullmatch positive_numeral suffix then Some (int_of_digits suffix) else None)
  | _ => Raise attribute_error
  end.

(** [max(numbers, default=0)] *)
Definition max_default (numbers : list Z) : Z := match numbers with [] => 0 | n :: ns => fold_left Z.max ns n end.

(** [next_sequence] *)
Definition next_sequence (base_version channel : pystr) : M G Z :=
  _ ← lift (release_require (bool_decide (channel ∈ [&"beta"; &"rc"])) "Sequence only applies to beta and rc");
  base ← lift (release_version base_version);
  let prefix := &"v" ++ base ++ &"-" ++ channel ++ &"." in
  tags ← gh_pages (&"tags") None;
  names ← lift (values_of (&"name") (VStr []) tags);
  releases ← gh_pages (&"releases") None;
  names' ← lift (values_of (&"tag_name") (VStr []) releases);
  numbers ← lift (collect (tag_number prefix) (names ++ names'));
  mret (max_default (omap id numbers) + 1).

(** [candidate_tag] *)
Definition candidate_tag (channel base_version : pystr) (run_id attempt : Z) (sequence : pyval) (now : datetime) : M G pystr :=
  base ← lift (release_version base_version);
  let prefix := &"v" ++ base ++ &"-" ++ channel ++ &"." in
  if bool_decide (channel = &"nightly") then
    _ ← lift (release_require (bool_decide (sequence = VNone)) "Nightly tags do not accept a sequence");
    mret (prefix ++ timestamp now ++ &"." ++ str_of_int run_id ++ &"." ++ str_of_int attempt)
  else
    _ ← lift (release_require (bool_decide (channel ∈ [&"beta"; &"rc"])) "Invalid candidate channel");
    number ← (if bool_decide (sequence = VNone) then next_sequence base_version channel
              else lift (positive sequence "Invalid sequence"));
    mret (prefix ++ str_of_int number).
End client.
