(* ===== verification/ReleaseState.v ===== *)
(** * The version ledger ([scripts/release_state.py])

    Release plans are reserved in one JSON file of a dedicated branch.  A write
    names the blob it replaces, and GitHub refuses it when another run was faster:
    compare and swap.  The operations below are the code's, over the release
    client's requests. *)

From Stdlib Require Import QArith.QArith.
From S2P Require Import Prelude PyStr PyDict PyRegex PyVal PyJson Base64 VersionPlan Release.
#[local] Open Scope Z_scope.

Definition BRANCH : pystr := &"release-version-state".
Definition FILE : pystr := &"release-version-state.json".
Definition READ_PATH : pystr := &"contents/" ++ FILE ++ &"?ref=" ++ BRANCH.
Definition WRITE_PATH : pystr := &"contents/" ++ FILE.
Definition REF_PATH : pystr := &"git/ref/heads/" ++ BRANCH.

Definition empty_ledger : pyobject :=
  [(&"schema", VInt 1); (&"counter", VInt 0); (&"publication_floor", VInt 0); (&"plans", VDict [])].

(** [d[k]] where the code computes with the integer or enters the object. *)
Definition int_item (k : pystr) (d : pyobject) : outcome Z :=
  v ← item k d; match v with VInt n => Ok n | _ => Raise (type_error_of "not an integer") end.
Definition dict_item (k : pystr) (d : pyobject) : outcome pyobject := v ← item k d; as_dict v.

(** [record["plan"]] *)
Definition record_plan (record : pyval) : outcome pyobject := d ← as_dict record; dict_item (&"plan") d.

Section ledger.
Context (float_repr : Q → pystr) (sha256_hex : bytes → pystr).
Notation validate_plan := (validate_plan float_repr sha256_hex).

(** One entry of [state["plans"]]. *)
Definition check_reservation (counter : Z) (entry : pystr * pyval) : outcome unit :=
  _ ← positive (VStr entry.1) "Invalid ledger run ID";
  _ ← release_require (is_dict entry.2) "Invalid version reservation";
  record ← as_dict entry.2;
  plan ← validate_plan (get_default (&"plan") VNone record) None None;
  number ← int_item (&"build_number") plan;
  release_require (number <=? counter) "Ledger counter moved backwards".

(** The checks of [read_state] on the decoded document. *)
Definition check_ledger (state : pyval) : outcome pyobject :=
  let d := match state with VDict d => d | _ => [] end in
  _ ← release_require (is_dict state && bool_decide (get_default (&"schema") VNone d = VInt 1))
        "Unsupported version ledger schema";
  let counter := get_default (&"counter") VNone d in
  _ ← release_require (type_is_int counter && (0 <=? int_value counter)) "Invalid ledger counter";
  let floor := get_default (&"publication_floor") VNone d in
  _ ← release_require (type_is_int floor && (0 <=? int_value floor) && (int_value floor <=? int_value counter))
        "Invalid ledger publication floor";
  _ ← release_require (is_dict (get_default (&"plans") VNone d)) "Invalid ledger plans";
  plans ← dict_item (&"plans") d;
  _ ← for_each (check_reservation (int_value counter)) plans;
  Ok d.

Definition MAX_LEDGER : nat := Z.to_nat 4000000.

(** The ledger in the answer of the contents API, and its blob. *)
Definition decode_ledger (content : pyval) : outcome (pyobject * option pystr) :=
  c ← as_dict content;
  _ ← release_require (py_eq (get_default (&"type") VNone c) (VStr (&"file"))
                       && py_eq (get_default (&"encoding") VNone c) (VStr (&"base64")))
        "Ledger must be a regular JSON file";
  text ← item (&"content") c;
  raw ← match text with
        | VStr s => b64decode (filter (λ c, is_space c = false) s)
        | _ => Raise attribute_error
        end;
  _ ← release_require (length raw <=? MAX_LEDGER)%nat "Ledger requires compaction before another allocation";
  document ← parse_json raw;
  state ← check_ledger document;
  let sha := get_default (&"sha") (VStr []) c in
  valid ← match_object SHA_RE sha;
  _ ← release_require valid "Invalid ledger blob SHA";
  Ok (state, Some (str_value sha)).

Context {G : Type} `{GitHub G}.

(** [read_state] *)
Definition read_state : M G (pyobject * option pystr) :=
  content ← gh_optional READ_PATH;
  if bool_decide (content = VNone) then
    reference ← gh_optional REF_PATH;
    _ ← lift (release_require (bool_decide (reference = VNone))
                "Version ledger is missing from its existing branch; restore it from history");
    mret (empty_ledger, None)
  else lift (decode_ledger content).

(** The body of a write. *)
Definition write_body (raw : bytes) (previous : option pystr) : pyobject :=
  let body := [(&"branch", VStr BRANCH); (&"message", VStr (&"Reserve release version plan"));
               (&"content", VStr (b64encode raw))] in
  match previous with
  | Some sha => if bool_decide (sha = []) then body else body ++ [(&"sha", VStr sha)]
  | None => body
  end.

(** [write_state] *)
Definition write_state (state : pyobject) (previous : option pystr) : M G unit :=
  raw ← lift (json_bytes_indented float_repr (VDict state));
  _ ← gh_api WRITE_PATH (&"PUT") (Some (write_body raw previous));
  mret tt.

(** The reserved sequences of a version line. *)
Definition reserved_sequence (base channel : pystr) (record : pyval) : outcome (option Z) :=
  plan ← record_plan record;
  b ← item (&"base_version") plan;
  c ← item (&"channel") plan;
  if py_eq b (VStr base) && py_eq c (VStr channel)
  then n ← int_item (&"sequence") plan; Ok (Some n)
  else Ok None.

(** The sequence of a new plan. *)
Definition new_sequence (state : pyobject) (base channel : pystr) (run_id attempt : Z) (now : datetime) : M G pyval :=
  if bool_decide (channel ∈ [&"beta"; &"rc"]) then
    sequence ← next_sequence base channel;
    plans ← lift (dict_item (&"plans") state);
    reserved ← lift (collect (reserved_sequence base channel) (dict_values plans));
    mret (VInt (Z.max sequence (max_default (omap id reserved) + 1)))
  else if bool_decide (channel = &"nightly") then
    mret (VStr (timestamp now ++ &"." ++ str_of_int run_id ++ &"." ++ str_of_int attempt))
  else mret VNone.

(** The state a new reservation leaves. *)
Definition reserve_state (state plans : pyobject) (run_key : pystr) (number : Z) (plan : pyobject) (parent : pyval) : pyobject :=
  dict_set (&"plans") (VDict (dict_set run_key (VDict [(&"plan", VDict plan); (&"parent", parent)]) plans))
    (dict_set (&"counter") (VInt number) state).

(** The reservation a run finds again. *)
Definition reserved_plan (policy : pyobject) (base channel source_sha : pystr) (parent record : pyval) : outcome pyobject :=
  d ← as_dict record;
  recorded ← item (&"plan") d;
  plan ← validate_plan recorded (Some (VDict policy)) (Some (VStr source_sha));
  b ← item (&"base_version") plan;
  c ← item (&"channel") plan;
  _ ← release_require (py_eq b (VStr base) && py_eq c (VStr channel)) "Run already reserved a different release identity";
  _ ← release_require (py_eq (get_default (&"parent") VNone d) parent) "Run already reserved a different RC";
  Ok plan.

(** The plan of a fresh number: everything [reserve_plan] does before it
    publishes the new ledger. *)
Definition allocate_plan (state policy : pyobject) (base channel source_sha : pystr) (run_id attempt : Z) (now : datetime)
    : M G (Z * pyobject) :=
  sequence ← new_sequence state base channel run_id attempt now;
  versioning ← lift (dict_item (&"versioning") policy);
  let floor := get_default (&"build_number_floor") (VInt 0) versioning in
  _ ← lift (release_require (type_is_int floor && (0 <=? int_value floor)) "Invalid native build counter floor");
  counter ← lift (int_item (&"counter") state);
  let number := Z.max counter (int_value floor) + 1 in
  plan ← lift (create_plan float_repr sha256_hex (VStr base) (VStr channel) sequence (VStr source_sha)
                 (VDict policy) (VInt number));
  tag ← lift (item (&"tag") plan);
  _ ← ensure_absent (str_value tag);
  reference ← gh_optional REF_PATH;
  _ ← (if bool_decide (reference = VNone)
       then gh_api (&"git/refs") (&"POST")
              (Some [(&"ref", VStr (&"refs/heads/" ++ BRANCH)); (&"sha", VStr source_sha)])
       else mret VNone);
  mret (number, plan).

(** [reserve_plan] *)
Definition reserve_plan (policy : pyobject) (base channel source_sha : pystr) (run_id attempt : Z) (now : datetime)
    (parent : pyval) : M G pyobject :=
  run ← lift (positive (VInt run_id) "Invalid run ID");
  let run_key := str_of_int run in
  '(state, previous) ← read_state;
  plans ← lift (dict_item (&"plans") state);
  match dict_get run_key plans with
  | Some record => lift (reserved_plan policy base channel source_sha parent record)
  | None =>
    '(number, plan) ← allocate_plan state policy base channel source_sha run_id attempt now;
    _ ← write_state (reserve_state state plans run_key number plan parent) previous;
    mret plan
  end.

(** The tags of the published releases: a set, so they must be hashable. *)
Definition published_tag (release : pyval) : outcome (option pyval) :=
  d ← as_dict release;
  if bool_decide (get_default (&"draft") VNone d = VBool false) then
    let tag := get_default (&"tag_name") VNone d in
    _ ← py_in tag [];
    Ok (Some tag)
  else Ok None.

Definition published_tags : M G (list pyval) :=
  releases ← gh_pages (&"releases") None;
  tags ← lift (collect published_tag releases);
  mret (omap id tags).

(** A published plan whose number satisfies a test. *)
Definition published_plan (published : list pyval) (other : pyobject → outcome bool) (record : pyval) : outcome bool :=
  plan ← record_plan record;
  tag ← item (&"tag") plan;
  if existsb (py_eq tag) published then other plan else Ok false.

(** [_verify_reservation] *)
Definition verify_reservation_in (state plan : pyobject) (run_id : Z) (parent : pyval) : M G unit :=
  _ ← lift (validate_plan (VDict plan) None None);
  plans ← lift (dict_item (&"plans") state);
  run ← lift (positive (VInt run_id) "Invalid run ID");
  _ ← lift (release_require (py_eq (get_default (str_of_int run) VNone plans)
                                   (VDict [(&"plan", VDict plan); (&"parent", parent)]))
              "Version reservation differs from build plan");
  number ← lift (int_item (&"build_number") plan);
  floor ← lift (int_item (&"publication_floor") state);
  _ ← lift (release_require (floor <? number)
              "Build number has already reached or fallen below the publication floor");
  published ← published_tags;
  newer ← lift (collect (published_plan published (λ p, n ← int_item (&"build_number") p; Ok (number <=? n)))
                  (dict_values plans));
  lift (release_require (negb (existsb id newer)) "A package with this or a newer build number was already published").

(** [verify_reservation] *)
Definition verify_reservation (plan : pyobject) (run_id : Z) (parent : pyval) : M G unit :=
  '(state, _) ← read_state;
  verify_reservation_in state plan run_id parent.

(** [_verify_promotion_order] *)
Definition verify_promotion_order_in (state plan : pyobject) : M G unit :=
  _ ← lift (validate_plan (VDict plan) None None);
  channel ← lift (item (&"channel") plan);
  promotion ← lift (item (&"promotion") plan);
  _ ← lift (release_require (py_eq channel (VStr (&"rc")) && py_eq promotion (VStr (&"promote-bytes")))
              "Byte promotion requires a promote-bytes RC plan");
  plans ← lift (dict_item (&"plans") state);
  matching ← lift (collect (λ r, d ← as_dict r; p ← item (&"plan") d; Ok (py_eq p (VDict plan))) (dict_values plans));
  _ ← lift (release_require (bool_decide (length (filter (λ b, b = true) matching) = 1%nat))
              "Accepted RC has no unique durable version reservation");
  number ← lift (int_item (&"build_number") plan);
  floor ← lift (int_item (&"publication_floor") state);
  _ ← lift (release_require (floor <=? number) "Accepted RC build number is below the publication floor");
  published ← published_tags;
  tag ← lift (item (&"tag") plan);
  _ ← lift (release_require (existsb (py_eq tag) published) "Accepted RC is no longer published");
  newer ← lift (collect (λ r, p ← record_plan r;
                              t ← item (&"tag") p;
                              if py_eq t tag then Ok false
                              else published_plan published (λ p, n ← int_item (&"build_number") p; Ok (number <? n)) r)
                  (dict_values plans));
  lift (release_require (negb (existsb id newer)) "A newer native build was published after the accepted RC").

(** [verify_promotion_order] *)
Definition verify_promotion_order (plan : pyobject) : M G unit :=
  '(state, _) ← read_state;
  verify_promotion_order_in state plan.

(** [begin_publication] *)
Definition begin_publication (plan : pyobject) (run_id : Z) (parent promotion : pyval) : M G bytes :=
  _ ← lift (positive (VInt run_id) "Invalid run ID");
  _ ← lift (release_require (match promotion with VBool _ => true | _ => false end) "Invalid publication promotion flag");
  '(state, previous) ← read_state;
  _ ← (if truthy promotion then verify_promotion_order_in state plan
       else verify_reservation_in state plan run_id parent);
  number ← lift (item (&"build_number") plan);
  let state := dict_set (&"publication_floor") number state in
  _ ← write_state state previous;
  lift (json_bytes_indented float_repr (VDict state)).
End ledger.
