(* ===== verification/LedgerFacts.v ===== *)
(** * The history of the version ledger

    The file of the ledger branch as the list of its versions.  A version is
    followed by another one only by a ledger step: the reservation of a fresh build
    number, or a publication.  The interface [LedgerHistory] is what GitHub and the
    other runs promise to one run: the answers of the contents API show a version
    of the file, a write replaces exactly the blob it names, and everybody else
    appends ledger steps.  The theorems show that a run of this code appends
    nothing but ledger steps either, under every interleaving. *)

From Stdlib Require Import QArith.QArith.
From S2P Require Import Prelude PyStr PyDict PyRegex PyVal PyJson JsonFacts Base64 VersionPlan VersionPlanFacts Release ReleaseState.
#[local] Open Scope Z_scope.

(** ** The abstract ledger *)

Record view : Type := View { v_counter : Z; v_floor : Z; v_plans : gmap pystr pyval }.

Definition empty_view : view := View 0 0 ∅.

Definition record_number (record : pyval) : option Z :=
  match record with
  | VDict d => match dict_get (&"plan") d with
               | Some (VDict p) => match dict_get (&"build_number") p with Some (VInt n) => Some n | _ => None end
               | _ => None
               end
  | _ => None
  end.

Inductive ledger_label : Type :=
  | Reserved (run : pystr) (number : Z)
  | Published (number : Z)
  | Promoted (number : Z).

Inductive ledger_step : view → ledger_label → view → Prop :=
  | step_reserve v run record number :
      v_plans v !! run = None → v_counter v < number → record_number record = Some number →
      ledger_step v (Reserved run number) (View number (v_floor v) (<[run:=record]> (v_plans v)))
  | step_publish v run record number :
      v_plans v !! run = Some record → record_number record = Some number → v_floor v < number →
      ledger_step v (Published number) (View (v_counter v) number (v_plans v))
  | step_promote v run record number :
      v_plans v !! run = Some record → record_number record = Some number → v_floor v ≤ number →
      ledger_step v (Promoted number) (View (v_counter v) number (v_plans v)).

(** Every reservation has a positive number up to the counter, no two have the
    same, and the publication floor stays below the counter. *)
Record view_ok (v : view) : Prop := {
  floor_bounds : 0 ≤ v_floor v ≤ v_counter v;
  number_bound run record number :
    v_plans v !! run = Some record → record_number record = Some number → number ≤ v_counter v;
  number_unique run run' record record' number :
    v_plans v !! run = Some record → v_plans v !! run' = Some record' →
    record_number record = Some number → record_number record' = Some number → run = run';
}.

Lemma empty_view_ok : view_ok empty_view.
Proof. split; cbn; [lia|by intros ???; rewrite lookup_empty|by intros ?????; rewrite lookup_empty]. Qed.

Lemma ledger_step_ok v l v' : view_ok v → ledger_step v l v' → view_ok v'.
Proof.
  intros [Hf Hb Hu]. destruct 1 as [v run r n Hr Hn Hrn|v run r n Hr Hrn Hn|v run r n Hr Hrn Hn].
  - split; cbn; [lia| |].
    + intros run' r' m. rewrite lookup_insert_Some. intros [[<- <-]|[_ Hr']] Hm; [rewrite Hrn in Hm; injection Hm; lia|].
      specialize (Hb _ _ _ Hr' Hm). lia.
    + intros run1 run2 r1 r2 m. rewrite !lookup_insert_Some.
      intros [[<- <-]|[H1 Hr1]] [[<- <-]|[H2 Hr2]] Hm1 Hm2; [done| | |by eapply Hu].
      * rewrite Hrn in Hm1. injection Hm1 as ->. specialize (Hb _ _ _ Hr2 Hm2). lia.
      * rewrite Hrn in Hm2. injection Hm2 as ->. specialize (Hb _ _ _ Hr1 Hm1). lia.
  - split; cbn; [|done|done]. specialize (Hb _ _ _ Hr Hrn). lia.
  - split; cbn; [|done|done]. specialize (Hb _ _ _ Hr Hrn). lia.
Qed.

(** What later versions of the ledger keep of an earlier one. *)
Definition view_le (v v' : view) : Prop :=
  v_counter v ≤ v_counter v' ∧ v_floor v ≤ v_floor v' ∧ v_plans v ⊆ v_plans v'.

#[export] Instance view_le_preorder : PreOrder view_le.
Proof.
  split; [by intros v|]. intros v1 v2 v3 (H1 & H2 & H3) (H4 & H5 & H6). split_and!; [lia|lia|by etrans].
Qed.

Lemma ledger_step_le v l v' : ledger_step v l v' → view_le v v'.
Proof.
  destruct 1; split_and!; cbn; try lia; try done. by apply insert_subseteq.
Qed.

(** ** Documents *)

Definition ledger_view (document : pyval) : option view :=
  match document with
  | VDict d =>
    if plain document then
      match dict_get (&"counter") d, dict_get (&"publication_floor") d, dict_get (&"plans") d with
      | Some (VInt c), Some (VInt f), Some (VDict p) => Some (View c f (canonical <$> to_map p))
      | _, _, _ => None
      end
    else None
  | _ => None
  end.

Notation history := (list (bytes * pystr)).

Definition version_view (e : bytes * pystr) : option view :=
  match parse_json e.1 with Ok document => ledger_view document | Raise _ => None end.

Definition current (h : history) : option view :=
  match last h with None => Some empty_view | Some e => version_view e end.

(** A new version of the file after a ledger step. *)
Definition appends (h h' : history) : Prop :=
  ∃ e v l v', h' = h ++ [e] ∧ current h = Some v ∧ ledger_step v l v' ∧ version_view e = Some v'.

Definition grows : history → history → Prop := rtc appends.

Lemma grows_extends h h' : grows h h' → ∃ l, h' = h ++ l.
Proof.
  induction 1 as [h|h1 h2 h3 (e & _ & _ & _ & -> & _) _ [l ->]]; [exists []; by rewrite app_nil_r|].
  exists (e :: l). by rewrite <-app_assoc.
Qed.

Lemma current_snoc h e : current (h ++ [e]) = version_view e.
Proof. unfold current. by rewrite last_snoc. Qed.

Lemma grows_view h h' v :
  grows h h' → current h = Some v → ∃ v', current h' = Some v' ∧ view_le v v' ∧ (view_ok v → view_ok v').
Proof.
  intros Hg. revert v. induction Hg as [h|h1 h2 h3 (e & v1 & l & v2 & -> & Hv1 & Hs & Hv2) _ IH]; intros v Hv.
  { by exists v. }
  rewrite Hv1 in Hv. injection Hv as ->. destruct (IH v2) as (v3 & H3 & Hle & Hok); [by rewrite current_snoc|].
  exists v3. split; [done|]. split; [etrans; [by eapply ledger_step_le|done]|].
  intros Hok1. apply Hok. by eapply ledger_step_ok.
Qed.

(** No two versions with different bytes have the same blob name. *)
Definition collision_free (h : history) : Prop := ∀ e e', e ∈ h → e' ∈ h → e.2 = e'.2 → e.1 = e'.1.

Lemma collision_free_grows h h' : grows h h' → collision_free h' → collision_free h.
Proof.
  intros [l ->]%grows_extends Hc e e' He He'. apply Hc; apply elem_of_app; by left.
Qed.

(** What a reader knows about the blob it has read. *)
Definition snapshot (h : history) (previous : option pystr) : Prop :=
  match previous with
  | None => h = []
  | Some sha => sha ≠ [] ∧ ∃ b, last h = Some (b, sha)
  end.

(** The condition of the contents API on the blob a write names. *)
Definition replaces (body : pyobject) (h : history) : Prop :=
  match dict_get (&"sha") body with
  | None => h = []
  | Some v => ∃ b sha, v = VStr sha ∧ last h = Some (b, sha)
  end.

Lemma current_snapshot h1 h2 h3 previous body :
  snapshot h1 previous → grows h1 h2 → replaces body h2 → dict_get (&"sha") body = VStr <$> previous →
  h2 `prefix_of` h3 → collision_free h3 → current h2 = current h1.
Proof.
  intros Hs H12 Hr Hb H23 Hc. unfold replaces in Hr. rewrite Hb in Hr.
  destruct previous as [sha|]; cbn in Hs, Hr; [|by subst].
  destruct Hs as (_ & b & Hb1). destruct Hr as (b2 & s & [= <-] & Hb2).
  unfold current. rewrite Hb1, Hb2. unfold version_view.
  assert (∀ h x, last h = Some x → h `prefix_of` h3 → x ∈ h3) as Hin.
  { intros h x Hx [l ->]. apply elem_of_app. left. rewrite last_lookup in Hx. by eapply list_elem_of_lookup_2. }
  assert (b2 = b) as ->; [|done].
  destruct (grows_extends _ _ H12) as [l ->].
  apply (Hc (b2, sha) (b, sha)); [by eapply Hin|eapply Hin; [done|]|done]. etrans; [by apply prefix_app_r|done].
Qed.

(** ** What GitHub and the other runs promise *)

Definition is_write (path method : pystr) : bool := bool_decide (path = WRITE_PATH) && bool_decide (method = &"PUT").

(** A version of the file in an answer of the contents API. *)
Definition shows (document : pyval) (h : history) : Prop :=
  document ≠ VNone
  ∧ ∀ d text b sha, document = VDict d →
    dict_get (&"type") d = Some (VStr (&"file")) → dict_get (&"encoding") d = Some (VStr (&"base64")) →
    dict_get (&"content") d = Some (VStr text) → dict_get (&"sha") d = Some (VStr sha) →
    b64decode (filter (λ c, is_space c = false) text) = Ok b → last h = Some (b, sha).

Class LedgerHistory (G : Type) `{GitHub G} : Type := {
  ledger : G → history;
  request_others path method body mode g g' r :
    is_write path method = false → gh_request path method body mode g = (g', r) → grows (ledger g) (ledger g');
  request_read g g' r :
    gh_request READ_PATH (&"GET") None JsonMode g = (g', r) →
    ∃ h, grows (ledger g) h ∧ grows h (ledger g')
    ∧ match r with
      | Ok raw => forallb ascii_blank raw = false ∧ ∃ document, parse_json raw = Ok document ∧ shows document h
      | Raise e => not_found (exn_kind e) = true → h = []
      end;
  request_write body g g' r :
    gh_request WRITE_PATH (&"PUT") (Some body) JsonMode g = (g', r) →
    (∃ h e text, grows (ledger g) h ∧ replaces body h ∧ dict_get (&"content") body = Some (VStr text)
      ∧ b64decode text = Ok e.1 ∧ grows (h ++ [e]) (ledger g'))
    ∨ (is_ok r = false ∧ grows (ledger g) (ledger g'));
}.

Create HintDb passive.

Section passive.
Context {G : Type} `{LH : LedgerHistory G}.

(** Computations that write nothing themselves. *)
Definition passive {A} (m : M G A) : Prop := ∀ g g' r, m g = (g', r) → grows (ledger g) (ledger g').

Lemma passive_ret {A} (a : A) : passive (mret a).
Proof. intros g g' r [= <- <-]. apply rtc_refl. Qed.

Lemma passive_lift {A} (m : outcome A) : passive (lift m).
Proof. intros g g' r [= <- <-]. apply rtc_refl. Qed.

Lemma passive_bind {A B} (m : M G A) (f : A → M G B) : passive m → (∀ a, passive (f a)) → passive (m ≫= f).
Proof.
  intros Hm Hf g g' r E. unfold mbind, M_bind in E. destruct (m g) as [g1 [a|e]] eqn:Em.
  - etrans; [by eapply Hm|by eapply Hf].
  - injection E as <- <-. by eapply Hm.
Qed.

Lemma passive_if {A} (b : bool) (m m' : M G A) : passive m → passive m' → passive (if b then m else m').
Proof. by destruct b. Qed.

Lemma passive_api path method body : is_write path method = false → passive (gh_api path method body).
Proof.
  intros Hw. apply passive_bind; [|intros; apply passive_lift]. intros g g' r. by apply request_others.
Qed.

Lemma passive_try {A} (m : M G A) p (h : exn → M G A) : passive m → (∀ e, passive (h e)) → passive (try_except m p h).
Proof.
  intros Hm Hh g g' r. unfold try_except. destruct (m g) as [g1 [a|e]] eqn:E.
  - intros [= <- <-]. by eapply Hm.
  - destruct (p (exn_kind e)); [|intros [= <- <-]; by eapply Hm]. intros E'. etrans; [by eapply Hm|by eapply Hh].
Qed.

Lemma get_not_put : &"GET" ≠ &"PUT".
Proof. done. Qed.

Lemma passive_optional path : passive (gh_optional path).
Proof.
  apply passive_try; [|intros; apply passive_ret]. apply passive_api. unfold is_write.
  by rewrite (bool_decide_false (&"GET" = &"PUT")), andb_false_r.
Qed.

Lemma passive_pages path field : passive (gh_pages path field).
Proof.
  apply passive_bind; [|intros; apply passive_lift]. intros g g' r. apply request_others. unfold is_write.
  by rewrite (bool_decide_false (&"GET" = &"PUT")), andb_false_r.
Qed.

End passive.

#[export] Hint Resolve passive_ret passive_lift passive_if passive_optional passive_pages passive_api : passive.

(** A sequence of computations that write nothing. *)
Ltac solve_passive :=
  repeat first [solve [auto with passive] | apply passive_if | apply passive_bind; [|intros]].

Section passive_client.
Context {G : Type} `{LH : LedgerHistory G}.

Lemma passive_ensure_absent tag : passive (ensure_absent tag).
Proof. unfold ensure_absent. solve_passive. Qed.

Lemma passive_next_sequence base channel : passive (next_sequence base channel).
Proof. unfold next_sequence. solve_passive. Qed.

Hint Resolve passive_ensure_absent passive_next_sequence : passive.

Lemma passive_new_sequence state base channel run attempt now : passive (new_sequence state base channel run attempt now).
Proof. unfold new_sequence. solve_passive. Qed.

Lemma passive_published_tags : passive published_tags.
Proof. unfold published_tags. solve_passive. Qed.

End passive_client.

#[export] Hint Resolve passive_ensure_absent passive_next_sequence passive_new_sequence passive_published_tags : passive.

(** ** Reading *)

Lemma get_default_some k d v w : get_default k w d = v → v ≠ w → dict_get k d = Some v.
Proof. unfold get_default. destruct (dict_get k d); cbn; congruence. Qed.

Section reading.
Context (float_repr : Q → pystr) (sha256_hex : bytes → pystr).

Lemma check_ledger_ok document state :
  check_ledger float_repr sha256_hex document = Ok state →
  document = VDict state
  ∧ ∃ c f p, dict_get (&"counter") state = Some (VInt c) ∧ dict_get (&"publication_floor") state = Some (VInt f)
    ∧ dict_get (&"plans") state = Some (VDict p) ∧ 0 ≤ f ≤ c
    ∧ ∀ k r, (k, r) ∈ p → check_reservation float_repr sha256_hex c (k, r) = Ok tt.
Proof.
  unfold check_ledger. destruct document as [| | | | | | |d]; try done. intros Hc. inv_bind.
  rename state into d || idtac. rename d into state.
  repeat match goal with H : release_require _ _ = Ok _ |- _ => apply release_require_ok in H end.
  cbn [is_dict andb] in *. split; [done|].
  unfold dict_item, item in *. destruct (dict_get (&"plans") state) as [pv|] eqn:Ep; [|done]. cbn [mbind outcome_bind] in *.
  destruct pv as [| | | | | | |p]; try done. inv_bind.
  unfold get_default in *.
  destruct (dict_get (&"counter") state) as [[| |c| | | | |]|] eqn:Ec; try done.
  destruct (dict_get (&"publication_floor") state) as [[| |f| | | | |]|] eqn:Ef; try done.
  cbn [default int_value type_is_int andb] in *. exists c, f, p. boolprop. rewrite !Z.leb_le in *.
  split_and!; try done; try tauto. intros k r Hkr.
  match goal with H : as_dict _ = Ok ?x |- _ => injection H as <- end.
  match goal with H : for_each _ _ = Ok _ |- _ => rewrite for_each_ok in H; by apply (H (k, r)) end.
Qed.

Lemma decode_ledger_ok document h state previous :
  shows document h → decode_ledger float_repr sha256_hex document = Ok (state, previous) →
  ∃ sha b, previous = Some sha ∧ sha ≠ [] ∧ last h = Some (b, sha) ∧ parse_json b = Ok (VDict state)
  ∧ check_ledger float_repr sha256_hex (VDict state) = Ok state.
Proof.
  intros [_ Hs] Hd. unfold decode_ledger in Hd. inv_bind.
  repeat match goal with H : release_require _ _ = Ok _ |- _ => apply release_require_ok in H end. subst.
  boolprop. deex. destruct document as [| | | | | | |d]; try done.
  match goal with H : as_dict _ = Ok _ |- _ => injection H as <- end.
  repeat match goal with H : py_eq _ (VStr _) = true |- _ => apply py_eq_str in H; eapply get_default_some in H; [|done] end.
  match goal with H : match ?t with VNone => _ | _ => _ end = Ok _ |- _ => destruct t; try done end.
  match goal with H : check_ledger _ _ _ = Ok _ |- _ => pose proof H as Hc; apply check_ledger_ok in H as [-> _] end.
  match goal with H : match_object _ ?v = Ok true |- _ => destruct v as [| | | |sha| | |] eqn:Esha; try done; cbn [match_object] in H; injection H as Hm end.
  assert (sha ≠ []) as Hne by (by intros ->).
  eapply get_default_some in Esha; [|by intros [= ->]].
  unfold item in *. destruct (dict_get (&"content") d) as [[]|] eqn:Et; try done. inv_bind.
  eexists sha, _. split; [done|]. split; [done|]. split; [by eapply Hs|]. done.
Qed.

Context {G : Type} `{LH : LedgerHistory G}.

(** The ledger as a run has read it. *)
Definition has_read (h : history) (state : pyobject) (previous : option pystr) : Prop :=
  snapshot h previous
  ∧ match previous with
    | None => state = empty_ledger
    | Some sha => ∃ b, last h = Some (b, sha) ∧ parse_json b = Ok (VDict state)
    end
  ∧ check_ledger float_repr sha256_hex (VDict state) = Ok state.

Lemma optional_read g g' r :
  gh_optional READ_PATH g = (g', r) →
  ∃ h, grows (ledger g) h ∧ grows h (ledger g')
  ∧ ∀ content, r = Ok content → (content = VNone ∧ h = []) ∨ shows content h.
Proof.
  unfold gh_optional, try_except, gh_api, mbind, M_bind.
  destruct (gh_request READ_PATH (&"GET") None JsonMode g) as [g1 [raw|e]] eqn:E;
    destruct (request_read _ _ _ E) as (h & H1 & H2 & Hr).
  - destruct Hr as (Hb & doc & Hdoc & Hs). unfold lift. rewrite Hb, Hdoc. intros [= <- <-].
    exists h. split_and!; [done..|]. intros content [= <-]. by right.
  - destruct (not_found (exn_kind e)) eqn:Hn; intros [= <- <-]; exists h; (split_and!; [done..|]); [|done].
    intros content [= <-]. left. auto.
Qed.

Lemma read_state_ledger g g' r :
  read_state float_repr sha256_hex g = (g', r) →
  ∃ h, grows (ledger g) h ∧ grows h (ledger g')
  ∧ ∀ state previous, r = Ok (state, previous) → has_read h state previous.
Proof.
  unfold read_state. intros Hr. unfold mbind at 1, M_bind in Hr.
  destruct (gh_optional READ_PATH g) as [g1 [content|e]] eqn:E;
    destruct (optional_read _ _ _ E) as (h & H1 & H2 & Hc); [|injection Hr as <- <-; by exists h].
  specialize (Hc content eq_refl). case_bool_decide as Hn.
  - destruct Hc as [[_ ->]|[Hc _]]; [|done].
    exists []. split_and!; [done| |].
    + etrans; [done|]. revert Hr. apply passive_bind; [apply passive_optional|]. intros. apply passive_bind; [apply passive_lift|].
      intros. apply passive_ret.
    + intros state previous ->. apply bind_M_ok in Hr as (g2 & ref & _ & Hr). apply bind_M_ok in Hr as (g3 & u & _ & [= _ <- <-]).
      split_and!; [done|done|]. vm_compute. done.
  - destruct Hc as [[? _]|Hs]; [done|]. injection Hr as <- <-. exists h. split_and!; [done..|].
    intros state previous Hd. destruct (decode_ledger_ok _ _ _ _ Hs Hd) as (sha & b & -> & Hne & Hl & Hp & Hck).
    split_and!; [|by exists b|done]. cbn. eauto.
Qed.
End reading.

(** ** Writing *)

Section writing.
Context (float_repr : Q → pystr) (sha256_hex : bytes → pystr).
Context {G : Type} `{LH : LedgerHistory G}.

Lemma write_request body g g' r :
  gh_api WRITE_PATH (&"PUT") (Some body) g = (g', r) →
  (∃ h e text, grows (ledger g) h ∧ replaces body h ∧ dict_get (&"content") body = Some (VStr text)
    ∧ b64decode text = Ok e.1 ∧ grows (h ++ [e]) (ledger g'))
  ∨ (is_ok r = false ∧ grows (ledger g) (ledger g')).
Proof.
  unfold gh_api, mbind, M_bind. destruct (gh_request _ _ _ _ g) as [g1 [raw|e]] eqn:E; intros Hr.
  - injection Hr as <- <-. destruct (request_write _ _ _ _ E) as [Hl|[? ?]]; [by left|done].
  - injection Hr as <- <-. by apply (request_write _ _ _ _ E).
Qed.

(** A write of the successor of what was read is one step of the history. *)
Lemma write_state_ledger h state previous state' v l v' g g' r :
  has_read float_repr sha256_hex h state previous → grows h (ledger g) → collision_free (ledger g') →
  current h = Some v → plain (VDict state') = true → ledger_view (canonical (VDict state')) = Some v' →
  ledger_step v l v' → write_state float_repr state' previous g = (g', r) →
  grows (ledger g) (ledger g')
  ∧ (is_ok r = true → ∃ h2 e, grows h h2 ∧ current h2 = Some v ∧ version_view e = Some v' ∧ grows (h2 ++ [e]) (ledger g')).
Proof.
  intros (Hsnap & _) Hg Hfree Hv Hp Hv' Hstep Hw. unfold write_state in Hw.
  unfold mbind at 1, M_bind, lift in Hw.
  destruct (json_bytes_indented float_repr (VDict state')) as [raw|e] eqn:Eraw; cycle 1.
  { injection Hw as <- <-. split; [apply rtc_refl|done]. }
  set (body := write_body raw previous).
  assert (dict_get (&"sha") body = VStr <$> previous ∧ dict_get (&"content") body = Some (VStr (b64encode raw)))
    as [Hsha Hcontent].
  { subst body. unfold write_body. destruct previous as [sha|]; [|done]. destruct Hsnap as [Hne _].
    by rewrite bool_decide_false. }
  change ((gh_api WRITE_PATH (&"PUT") (Some body) ≫= λ _, mret ()) g = (g', r)) in Hw. clearbody body.
  destruct (gh_api WRITE_PATH (&"PUT") (Some body) g) as [g1 r1] eqn:E.
  assert (g1 = g' ∧ is_ok r1 = is_ok r) as [-> Hok].
  { unfold mbind, M_bind in Hw. rewrite E in Hw. destruct r1; by injection Hw as <- <-. }
  destruct (write_request _ _ _ _ E) as [(h2 & e & text & H2 & Hrep & Htext & Hdec & Hend)|[Hr Hpassive]].
  - rewrite Hcontent in Htext. injection Htext as <-. rewrite b64decode_encode in Hdec. injection Hdec as Hraw.
    assert (version_view e = Some v') as He.
    { unfold version_view. rewrite <-Hraw, (parse_json_bytes_indented float_repr (VDict state')) by done. done. }
    destruct (grows_extends _ _ Hend) as [l' Hl'].
    assert (current h2 = current h) as Hcur.
    { eapply current_snapshot; [done|by etrans|done|done| |done]. rewrite Hl', <-app_assoc. by apply prefix_app_r. }
    assert (appends h2 (h2 ++ [e])) as Happ by (exists e, v, l, v'; by rewrite Hcur).
    split.
    + etrans; [done|]. by eapply rtc_l.
    + intros _. exists h2, e. split_and!; [by etrans|by rewrite Hcur|done|done].
  - split; [done|]. rewrite <-Hok, Hr. done.
Qed.
End writing.
