(* ===== verification/ReservationFacts.v ===== *)
(** * Reservations and publications are ledger steps

    The operations of the ledger against the interface [LedgerHistory]: they
    append ledger steps only, two runs never get the same build number, a run gets
    the same plan again, and a number is published at most once. *)

From Stdlib Require Import QArith.QArith.
From S2P Require Import Prelude PyStr PyDict PyRegex PyVal PyJson JsonFacts Base64 VersionPlan VersionPlanFacts Release ReleaseState LedgerFacts.
#[local] Open Scope Z_scope.

(** ** Documents and views *)

Lemma ledger_view_inv d v :
  ledger_view (VDict d) = Some v →
  plain (VDict d) = true
  ∧ ∃ p, dict_get (&"counter") d = Some (VInt (v_counter v)) ∧ dict_get (&"publication_floor") d = Some (VInt (v_floor v))
    ∧ dict_get (&"plans") d = Some (VDict p) ∧ v_plans v = canonical <$> to_map p.
Proof.
  unfold ledger_view. destruct (plain (VDict d)) eqn:Hp; [|done]. intros Hv. split; [done|].
  destruct (dict_get (&"counter") d) as [[| |c| | | | |]|]; try done.
  destruct (dict_get (&"publication_floor") d) as [[| |f| | | | |]|]; try done.
  destruct (dict_get (&"plans") d) as [[| | | | | | |p]|]; try done. injection Hv as <-. by exists p.
Qed.

Lemma ledger_view_canonical d c f p :
  plain (VDict d) = true → dict_get (&"counter") d = Some (VInt c) →
  dict_get (&"publication_floor") d = Some (VInt f) → dict_get (&"plans") d = Some (VDict p) →
  ledger_view (canonical (VDict d)) = Some (View c f (canonical <$> to_map p)).
Proof.
  intros Hp Hc Hf Hpl. pose proof (plain_canonical _ Hp) as Hpc.
  pose proof (plain_get _ _ _ Hp Hpl) as Hpp. apply plain_dict in Hp as [Hnd _]. apply plain_dict in Hpp as [Hndp _].
  unfold ledger_view. cbn [canonical] in *. rewrite Hpc, !canonical_get, Hc, Hf, Hpl by done.
  cbn [fmap option_fmap option_map canonical]. do 2 f_equal.
  apply map_eq. intros k. rewrite !lookup_fmap, !lookup_to_map, canonical_get by done.
  destruct (dict_get k p); cbn; [|done]. by rewrite canonical_idem.
Qed.

(** ** The new states *)

Lemma scalar_digits s : forallb is_digit s = true → forallb scalar_char s = true.
Proof.
  intros Hs. apply ascii_scalar. unfold is_ascii. rewrite !forallb_forall in *. intros c Hc.
  specialize (Hs c Hc). unfold is_digit in Hs. rewrite andb_true_iff, !N.leb_le in Hs. apply N.ltb_lt. lia.
Qed.

Lemma scalar_str_of_int n : 0 ≤ n → forallb scalar_char (str_of_int n) = true.
Proof. intros Hn. rewrite str_of_int_nonneg by done. by apply scalar_digits, forallb_digits. Qed.

Lemma reserve_state_view state plans run number plan parent f :
  plain (VDict state) = true → plain (VDict plan) = true → plain parent = true → forallb scalar_char run = true →
  dict_get (&"plans") state = Some (VDict plans) → dict_get (&"publication_floor") state = Some (VInt f) →
  let record := VDict [(&"plan", VDict plan); (&"parent", parent)] in
  plain (VDict (reserve_state state plans run number plan parent)) = true
  ∧ ledger_view (canonical (VDict (reserve_state state plans run number plan parent)))
    = Some (View number f (<[run := canonical record]> (canonical <$> to_map plans))).
Proof.
  intros Hs Hp Hpar Hrun Hplans Hf record.
  assert (plain record = true) as Hrec.
  { apply plain_dict. split.
    - change (NoDup [&"plan"; &"parent"]). apply NoDup_cons. split; [|apply NoDup_singleton].
      by intros ?%list_elem_of_singleton.
    - intros k v. rewrite !elem_of_cons, elem_of_nil. by intros [[= -> ->]|[[= -> ->]|[]]]. }
  pose proof (plain_get _ _ _ Hs Hplans) as Hpl.
  assert (plain (VDict (reserve_state state plans run number plan parent)) = true) as Hplain.
  { unfold reserve_state. apply plain_dict_set; [by apply plain_dict_set|done|by apply plain_dict_set]. }
  split; [done|]. rewrite (ledger_view_canonical _ number f (dict_set run record plans)).
  - by rewrite to_map_set, fmap_insert.
  - done.
  - unfold reserve_state. rewrite dict_get_set_ne by done. apply dict_get_set_eq.
  - unfold reserve_state. by rewrite !dict_get_set_ne by done.
  - unfold reserve_state. apply dict_get_set_eq.
Qed.

Lemma floor_state_view state plans c n :
  plain (VDict state) = true → dict_get (&"counter") state = Some (VInt c) → dict_get (&"plans") state = Some (VDict plans) →
  plain (VDict (dict_set (&"publication_floor") (VInt n) state)) = true
  ∧ ledger_view (canonical (VDict (dict_set (&"publication_floor") (VInt n) state)))
    = Some (View c n (canonical <$> to_map plans)).
Proof.
  intros Hs Hc Hp.
  assert (plain (VDict (dict_set (&"publication_floor") (VInt n) state)) = true) as Hplain by by apply plain_dict_set.
  split; [done|]. apply ledger_view_canonical; [done| |apply dict_get_set_eq|]; by rewrite dict_get_set_ne by done.
Qed.

(** ** Records *)

(** The plan of a record, as the ledger keeps it. *)
Definition recorded_plan (record : pyval) : option pyval :=
  match record with VDict d => dict_get (&"plan") d | _ => None end.

Lemma recorded_plan_canonical d p :
  plain (VDict d) = true → dict_get (&"plan") d = Some p →
  recorded_plan (canonical (VDict d)) = Some (canonical p).
Proof.
  intros [Hnd _]%plain_dict Hp. cbn [recorded_plan canonical]. by rewrite canonical_get, Hp by done.
Qed.

Lemma record_number_canonical d p n :
  plain (VDict d) = true → dict_get (&"plan") d = Some (VDict p) → dict_get (&"build_number") p = Some (VInt n) →
  record_number (canonical (VDict d)) = Some n.
Proof.
  intros Hd Hp Hn. pose proof (plain_get _ _ _ Hd Hp) as [Hndp _]%plain_dict. apply plain_dict in Hd as [Hnd _].
  cbn [record_number canonical]. rewrite canonical_get, Hp by done. cbn [fmap option_fmap option_map canonical].
  by rewrite canonical_get, Hn.
Qed.

Lemma item_ok k d v : item k d = Ok v ↔ dict_get k d = Some v.
Proof. unfold item. destruct (dict_get k d); split; by intros [= <-]. Qed.

Lemma int_item_ok k d n : int_item k d = Ok n ↔ dict_get k d = Some (VInt n).
Proof.
  unfold int_item. rewrite bind_ok. setoid_rewrite item_ok. split.
  - intros (v & -> & Hv). destruct v; try done. by injection Hv as ->.
  - intros ->. by exists (VInt n).
Qed.

Lemma dict_item_ok k d p : dict_item k d = Ok p ↔ dict_get k d = Some (VDict p).
Proof.
  unfold dict_item. rewrite bind_ok. setoid_rewrite item_ok. split.
  - intros (v & -> & Hv). destruct v; try done. by injection Hv as ->.
  - intros ->. by exists (VDict p).
Qed.

(** Python's equality of dictionaries, entry by entry. *)
Lemma py_eq_dict_entry d d' k a :
  py_eq (VDict d) (VDict d') = true → dict_get k d = Some a → ∃ b, dict_get k d' = Some b ∧ py_eq a b = true.
Proof.
  cbn [py_eq]. rewrite andb_true_iff. intros [_ H]. revert H.
  induction d as [|[k0 a0] d IH]; [done|]. destruct (dict_get k0 d') as [b|] eqn:E; [|done].
  rewrite andb_true_iff. intros [Hab Hd]. cbn [dict_get]. case_decide as Hk; [|by apply IH].
  intros [= <-]. exists b. by subst.
Qed.

Lemma py_eq_dict_inv v d : py_eq v (VDict d) = true → ∃ d', v = VDict d'.
Proof. destruct v; cbn; try done. eauto. Qed.

(** ** Created plans *)

Lemma scalar_of_regex r s :
  alphabet (λ c, c <? 128)%N r → fullmatch r s = true → forallb scalar_char s = true.
Proof. intros Hr Hs. apply ascii_scalar. by eapply fullmatch_alphabet. Qed.

Lemma ascii_digit_class c : is_digit c = true → (c <? 128)%N = true.
Proof. unfold is_digit. rewrite andb_true_iff, !N.leb_le, N.ltb_lt. lia. Qed.

Lemma ascii_hex_class c : lower_hex c = true → (c <? 128)%N = true.
Proof. unfold lower_hex, is_digit, in_range. rewrite orb_true_iff, !andb_true_iff, !N.leb_le, N.ltb_lt. lia. Qed.

Lemma ascii_nine_class c : one_to_nine c = true → (c <? 128)%N = true.
Proof. unfold one_to_nine, in_range. rewrite andb_true_iff, !N.leb_le, N.ltb_lt. lia. Qed.

Lemma ascii_numeral : alphabet (λ c, c <? 128)%N numeral.
Proof.
  unfold numeral, digits. cbn [alphabet].
  split_and!; [by apply alphabet_chars|apply ascii_nine_class|apply ascii_digit_class].
Qed.

Lemma ascii_base : alphabet (λ c, c <? 128)%N BASE.
Proof.
  assert (alphabet (λ c, c <? 128)%N dot) as Hd by by apply alphabet_chars. pose proof ascii_numeral.
  unfold BASE. cbn [alphabet]. tauto.
Qed.

Lemma ascii_positive : alphabet (λ c, c <? 128)%N positive_numeral.
Proof. unfold positive_numeral, digits. split; [exact ascii_nine_class|exact ascii_digit_class]. Qed.

Lemma ascii_nightly : alphabet (λ c, c <? 128)%N NIGHTLY.
Proof.
  assert (alphabet (λ c, c <? 128)%N dot) as Hd by by apply alphabet_chars. pose proof ascii_positive.
  unfold NIGHTLY. cbn [alphabet]. split_and!; try done. apply alphabet_rep. exact ascii_digit_class.
Qed.

Lemma scalar_app s t : forallb scalar_char (s ++ t) = forallb scalar_char s && forallb scalar_char t.
Proof. apply forallb_app. Qed.

(** The texts of a release identity have no surrogates. *)
Lemma identity_plain base channel sequence version :
  identity base channel sequence = Ok version →
  plain base = true ∧ plain channel = true ∧ plain sequence = true ∧ forallb scalar_char version = true.
Proof.
  intros (b & -> & Hb & Hcases)%identity_cases.
  pose proof (scalar_of_regex _ _ ascii_base Hb) as Hbs.
  destruct Hcases as [(-> & -> & ->)|(c & q & -> & Hc & -> & Hq)]; [done|].
  assert (forallb scalar_char c = true) as Hcs.
  { rewrite !elem_of_cons, elem_of_nil in Hc. by destruct Hc as [-> | [-> | [-> | []]]]. }
  assert (plain sequence = true ∧ forallb scalar_char q = true) as [Hs Hqs].
  { destruct Hq as [(_ & -> & Hn)|(_ & n & -> & Hn & ->)].
    - cbn [plain]. split; by apply (scalar_of_regex _ _ ascii_nightly).
    - split; [done|]. apply scalar_str_of_int. lia. }
  split_and!; [done..|]. rewrite !scalar_app, Hbs, Hcs, Hqs. done.
Qed.

Section plans.
Context (float_repr : Q → pystr) (sha256_hex : bytes → pystr).
Context (Hsha : ∀ b, fullmatch SHA256 (sha256_hex b) = true).

Lemma create_plan_ok base channel sequence source policy number plan :
  create_plan float_repr sha256_hex base channel sequence source policy (VInt number) = Ok plan →
  plain (VDict plan) = true ∧ dict_get (&"build_number") plan = Some (VInt number)
  ∧ ∃ version, identity base channel sequence = Ok version ∧ dict_get (&"tag") plan = Some (VStr (&"v" ++ version)).
Proof.
  unfold create_plan. intros Hplan. inv_bind.
  repeat match goal with H : require _ _ = Ok _ |- _ => apply require_ok in H end.
  match goal with H : validate_policy policy = Ok _ |- _ => destruct (validate_policy_ok _ _ H) as (promotion & Hi & Hin) end.
  match goal with H : item _ _ = Ok _ |- _ => rewrite Hi in H; injection H as <- end.
  match goal with H : policy_digest _ _ policy = Ok ?d |- _ => unfold policy_digest in H end. inv_bind.
  match goal with H : identity _ _ _ = Ok ?v |- _ => pose proof H as Hid; apply identity_plain in H as (Hb & Hc & Hq & Hv) end.
  split; [|by eauto].
  destruct source as [| | | |source| | |]; try done.
  assert (forallb scalar_char source = true) as Hsource.
  { apply (scalar_of_regex SHA); [|done]. unfold SHA. apply alphabet_rep. exact ascii_hex_class. }
  match goal with |- context [sha256_hex ?b] =>
    assert (forallb scalar_char (sha256_hex b) = true) as Hdigest
      by (apply (scalar_of_regex SHA256); [unfold SHA256; apply alphabet_rep; exact ascii_hex_class|apply Hsha]) end.
  assert (forallb scalar_char promotion = true) as Hprom.
  { unfold PROMOTIONS in Hin. rewrite !elem_of_cons, elem_of_nil in Hin. by destruct Hin as [-> | [-> | []]]. }
  apply plain_dict. split.
  - match goal with |- NoDup (dict_keys ?p) => change (NoDup plan_keys) end. by apply (bool_decide_unpack _).
  - intros k w. unfold plan_dict. rewrite !elem_of_cons, elem_of_nil. intros Hkw.
    destruct_or?; try done; injection Hkw as -> ->; (split; [done|]); try done;
      cbn [plain]; by rewrite scalar_app, Hv.
Qed.
End plans.

Lemma positive_int n m name : positive (VInt n) name = Ok m → m = n ∧ 0 < n.
Proof.
  unfold positive. intros (u & Hm%release_require_ok & [= <-])%bind_ok. split; [done|]. destruct (Z.lt_ge_cases 0 n) as [|Hn]; [done|]. exfalso. cbn [py_str] in Hm.
  unfold str_of_int in Hm. case_decide as Hneg.
  - apply (fullmatch_alphabet is_digit) in Hm; [done|]. unfold positive_numeral, digits. split; [|by intros c].
    intros c. unfold one_to_nine, in_range, is_digit. rewrite !andb_true_iff, !N.leb_le. lia.
  - assert (n = 0) as -> by lia. by vm_compute in Hm.
Qed.

(** ** The operations *)

Section operations.
Context (float_repr : Q → pystr) (sha256_hex : bytes → pystr).
Context (Hsha : ∀ b, fullmatch SHA256 (sha256_hex b) = true).
Context {G : Type} `{LH : LedgerHistory G}.
Notation reserve_plan := (reserve_plan float_repr sha256_hex).
Notation begin_publication := (begin_publication float_repr sha256_hex).

(** What was read, as a view. *)
Lemma has_read_view h state previous v :
  has_read float_repr sha256_hex h state previous → current h = Some v → ledger_view (VDict state) = Some v.
Proof.
  intros (Hsnap & Hs & _) Hv. destruct previous as [sha|].
  - destruct Hs as (b & Hl & Hp). unfold current in Hv. rewrite Hl in Hv. unfold version_view in Hv. cbn in Hv.
    by rewrite Hp in Hv.
  - cbn in Hsnap. subst. exact Hv.
Qed.

(** A number that a run holds in the ledger, and the plan it is frozen in. *)
Definition holds (h : history) (run_id number : Z) (plan : pyobject) : Prop :=
  ∃ v record, current h = Some v ∧ v_plans v !! str_of_int run_id = Some record
  ∧ record_number record = Some number ∧ recorded_plan record = Some (canonical (VDict plan))
  ∧ dict_get (&"build_number") plan = Some (VInt number).

Lemma holds_grows h h' run_id number plan : grows h h' → holds h run_id number plan → holds h' run_id number plan.
Proof.
  intros Hg (v & r & Hv & Hr & Hrest). destruct (grows_view _ _ _ Hg Hv) as (v' & Hv' & (_ & _ & Hsub) & _).
  exists v', r. split; [done|]. split; [by eapply lookup_weaken|done].
Qed.

(** The part of [reserve_plan] after the ledger was read. *)
Lemma validate_plan_object plan policy source p :
  validate_plan float_repr sha256_hex plan policy source = Ok p → plan = VDict p.
Proof. intros Hp. by destruct (validate_plan_items _ _ _ _ _ _ Hp). Qed.

(** The record of a valid ledger. *)
Lemma check_reservation_ok c k r :
  check_reservation float_repr sha256_hex c (k, r) = Ok tt →
  ∃ d p n, r = VDict d ∧ dict_get (&"plan") d = Some (VDict p) ∧ dict_get (&"build_number") p = Some (VInt n)
  ∧ n ≤ c ∧ validate_plan float_repr sha256_hex (VDict p) None None = Ok p.
Proof.
  unfold check_reservation. cbn [fst snd]. intros Hc. inv_bind.
  repeat match goal with H : release_require _ _ = Ok _ |- _ => apply release_require_ok in H end.
  destruct r as [| | | | | | |d]; try done. match goal with H : as_dict _ = Ok _ |- _ => injection H as <- end.
  match goal with H : validate_plan _ _ _ _ _ = Ok ?p |- _ => pose proof H as Hp; apply validate_plan_object in H as Hd; rewrite Hd in Hp; rename p into plan end.
  eapply get_default_some in Hd; [|done].
  match goal with H : int_item _ _ = Ok ?n |- _ => apply int_item_ok in H; rename n into number end.
  exists d, plan, number. split_and!; try done. by apply Z.leb_le.
Qed.

(** A record of the document that was read, in the view. *)
Lemma record_in_view state v plans run r :
  ledger_view (VDict state) = Some v → check_ledger float_repr sha256_hex (VDict state) = Ok state →
  dict_get (&"plans") state = Some (VDict plans) → (run, r) ∈ plans →
  ∃ d p n, r = VDict d ∧ dict_get (&"plan") d = Some (VDict p) ∧ dict_get (&"build_number") p = Some (VInt n)
  ∧ v_plans v !! run = Some (canonical r) ∧ record_number (canonical r) = Some n
  ∧ recorded_plan (canonical r) = Some (canonical (VDict p)).
Proof.
  intros Hv (_ & c & f & p' & Hc & Hf & Hp' & Hfc & Hr)%check_ledger_ok Hplans Hin.
  rewrite Hplans in Hp'. injection Hp' as <-.
  destruct (ledger_view_inv _ _ Hv) as (Hplain & p' & _ & _ & Hp' & Hvp). rewrite Hplans in Hp'. injection Hp' as <-.
  destruct (check_reservation_ok _ _ _ (Hr _ _ Hin)) as (d & p & n & -> & Hd & Hn & _).
  pose proof (plain_get _ _ _ Hplain Hplans) as Hpl. apply plain_dict in Hpl as [Hnd Hpl].
  destruct (Hpl _ _ Hin) as [_ Hpd].
  exists d, p, n. split_and!; [done..| | |].
  - rewrite Hvp, lookup_fmap, lookup_to_map. by rewrite (dict_elem_get run (VDict d)).
  - by eapply record_number_canonical.
  - by eapply recorded_plan_canonical.
Qed.

(** Peeling a passive computation off a sequence. *)
Lemma passive_step {A B} (m : M G A) (f : A → M G B) g g' r :
  (m ≫= f) g = (g', r) → passive m →
  (∃ e, r = Raise e ∧ grows (ledger g) (ledger g'))
  ∨ ∃ g2 a, grows (ledger g) (ledger g2) ∧ m g = (g2, Ok a) ∧ f a g2 = (g', r).
Proof.
  intros E Hm. unfold mbind, M_bind in E. destruct (m g) as [g2 [a|e]] eqn:Em.
  - right. exists g2, a. split_and!; [by eapply Hm|done|done].
  - left. injection E as <- <-. exists e. split; [done|by eapply Hm].
Qed.

Lemma passive_allocate state policy base channel source run_id attempt now :
  passive (allocate_plan float_repr sha256_hex state policy base channel source run_id attempt now).
Proof. unfold allocate_plan. solve_passive. Qed.

Lemma allocate_plan_ok state policy base channel source run_id attempt now g g' number plan c :
  allocate_plan float_repr sha256_hex state policy base channel source run_id attempt now g = (g', Ok (number, plan)) →
  dict_get (&"counter") state = Some (VInt c) →
  c < number ∧ plain (VDict plan) = true ∧ dict_get (&"build_number") plan = Some (VInt number).
Proof.
  unfold allocate_plan. intros Ha Hc.
  repeat match goal with
  | H : (_ ≫= _) _ = (_, Ok _) |- _ => apply bind_M_ok in H as (? & ? & ? & H)
  | H : lift _ _ = (_, Ok _) |- _ => apply lift_M_ok in H as [-> H]
  | H : mret _ _ = (_, Ok _) |- _ => injection H as -> <- <-
  end.
  match goal with H : int_item _ _ = Ok _ |- _ => apply int_item_ok in H; rewrite Hc in H; injection H as <- end.
  match goal with H : create_plan _ _ _ _ _ _ _ _ = Ok _ |- _ => apply create_plan_ok in H as (Hp & Hn & _); [|done] end.
  split_and!; [lia|done|done].
Qed.

(** A reservation that is found again. *)
Lemma reserved_plan_holds h state previous v plans run_id policy base channel source parent record plan :
  has_read float_repr sha256_hex h state previous → current h = Some v →
  dict_get (&"plans") state = Some (VDict plans) → dict_get (str_of_int run_id) plans = Some record →
  reserved_plan float_repr sha256_hex policy base channel source parent record = Ok plan →
  ∃ n, holds h run_id n plan.
Proof.
  intros Hread Hv Hplans Hrec Hr.
  destruct (record_in_view state v plans (str_of_int run_id) record) as (d & p & n & -> & Hd & Hn & Hl & Hnum & Hrp);
    [by eapply has_read_view|apply Hread|done|by apply dict_get_elem|].
  unfold reserved_plan in Hr. cbn [as_dict] in Hr. apply bind_ok in Hr as (d' & [= <-] & Hr).
  apply bind_ok in Hr as (recorded & Hi%item_ok & Hr). rewrite Hd in Hi. injection Hi as <-.
  apply bind_ok in Hr as (plan' & Hp%validate_plan_object & Hr). injection Hp as <-. inv_bind.
  exists n, v, (canonical (VDict d)). done.
Qed.

Lemma reserve_plan_history policy base channel source run_id attempt now parent g g' r v :
  current (ledger g) = Some v → collision_free (ledger g') → plain parent = true →
  reserve_plan policy base channel source run_id attempt now parent g = (g', r) →
  grows (ledger g) (ledger g') ∧ ∀ plan, r = Ok plan → 0 < run_id ∧ ∃ n, holds (ledger g') run_id n plan.
Proof.
  intros Hv Hfree Hpar Hr. unfold ReleaseState.reserve_plan in Hr.
  apply passive_step in Hr as [(e & -> & Hq)|(g0 & run & H0 & Hrun & Hr)]; [done| |apply passive_lift].
  apply lift_M_ok in Hrun as [-> [-> Hpos]%positive_int]. unfold mbind at 1, M_bind in Hr.
  destruct (read_state float_repr sha256_hex g) as [g1 [[state previous]|e]] eqn:Eread;
    destruct (read_state_ledger _ _ _ _ _ Eread) as (h & H1 & H2 & Hread); cycle 1.
  { injection Hr as <- <-. split; [by etrans|done]. }
  specialize (Hread _ _ eq_refl). destruct (grows_view _ _ _ H1 Hv) as (vh & Hvh & _).
  pose proof (has_read_view _ _ _ _ Hread Hvh) as Hview.
  destruct (ledger_view_inv _ _ Hview) as (Hplain & plans & Hc & Hf & Hplans & Hvp).
  apply passive_step in Hr as [(e & -> & Hq)|(g2 & plans' & H3 & Hp & Hr)]; [split; [by etrans; [|etrans]|done]| |apply passive_lift].
  apply lift_M_ok in Hp as [-> Hp%dict_item_ok]. rewrite Hplans in Hp. injection Hp as <-.
  destruct (dict_get (str_of_int run_id) plans) as [record|] eqn:Erec.
  { injection Hr as <- Hr. split; [by etrans|]. intros plan ->. split; [done|].
    destruct (reserved_plan_holds _ _ _ _ _ _ _ _ _ _ _ _ _ Hread Hvh Hplans Erec Hr) as [n Hn].
    exists n. by eapply holds_grows. }
  apply passive_step in Hr as [(e & -> & Hq)|(g2 & [number plan] & H4 & Ha & Hr)];
    [split; [by etrans; [|etrans]|done]| |apply passive_allocate].
  destruct (allocate_plan_ok _ _ _ _ _ _ _ _ _ _ _ _ _ Ha Hc) as (Hlt & Hpp & Hn).
  destruct (reserve_state_view state plans (str_of_int run_id) number plan parent (v_floor vh)) as [Hplain' Hview'];
    [done..|apply scalar_str_of_int; lia|done|done|].
  set (record := VDict [(&"plan", VDict plan); (&"parent", parent)]) in Hview'.
  assert (plain record = true) as Hrecp.
  { eapply (plain_get (dict_set (str_of_int run_id) record plans)); [|apply dict_get_set_eq].
    eapply plain_get; [exact Hplain'|]. unfold reserve_state. apply dict_get_set_eq. }
  assert (record_number (canonical record) = Some number) as Hrn by by eapply record_number_canonical.
  assert (ledger_step vh (Reserved (str_of_int run_id) number)
            (View number (v_floor vh) (<[str_of_int run_id:=canonical record]> (canonical <$> to_map plans)))) as Hstep.
  { rewrite <-Hvp. constructor; [|done|done]. by rewrite Hvp, lookup_fmap, lookup_to_map, Erec. }
  unfold mbind at 1, M_bind in Hr.
  destruct (write_state float_repr _ previous g2) as [g3 r3] eqn:Ew.
  assert (g3 = g') as -> by (destruct r3; by injection Hr).
  destruct (write_state_ledger _ _ h _ _ _ _ _ _ _ _ _ Hread ltac:(by etrans) Hfree Hvh Hplain' Hview' Hstep Ew) as [Hg Hok].
  split; [by etrans; [|etrans; [|etrans]]|]. intros plan' ->. destruct r3 as [u|e]; [|done]. injection Hr as <-.
  split; [done|]. destruct (Hok eq_refl) as (h2 & e & _ & _ & He & Hend). exists number.
  eapply holds_grows; [done|]. exists (View number (v_floor vh) (<[str_of_int run_id:=canonical record]> (canonical <$> to_map plans))), (canonical record).
  split_and!; [by rewrite current_snoc|by apply lookup_insert_eq|done|by eapply recorded_plan_canonical|done].
Qed.

Lemma passive_verify_reservation state plan run_id parent :
  passive (verify_reservation_in float_repr sha256_hex state plan run_id parent).
Proof. unfold verify_reservation_in. solve_passive. Qed.

Lemma passive_verify_promotion state plan : passive (verify_promotion_order_in float_repr sha256_hex state plan).
Proof. unfold verify_promotion_order_in. solve_passive. Qed.

Ltac inv_M :=
  repeat match goal with
  | H : (_ ≫= _) _ = (_, Ok _) |- _ => apply bind_M_ok in H as (? & ? & ? & H)
  | H : lift _ _ = (_, Ok _) |- _ => apply lift_M_ok in H as [-> H]
  | H : release_require _ _ = Ok _ |- _ => apply release_require_ok in H
  | H : int_item _ _ = Ok _ |- _ => apply int_item_ok in H
  | H : dict_item _ _ = Ok _ |- _ => apply dict_item_ok in H
  | H : item _ _ = Ok _ |- _ => apply item_ok in H
  end.

(** A record equal to a plan holds the plan's number. *)
Lemma equal_record_number d p n plan m :
  py_eq (VDict p) (VDict plan) = true → dict_get (&"plan") d = Some (VDict p) →
  dict_get (&"build_number") p = Some (VInt n) → dict_get (&"build_number") plan = Some (VInt m) → n = m.
Proof.
  intros He _ Hn Hm. destruct (py_eq_dict_entry _ _ _ _ He Hn) as (b & Hb & Heq). rewrite Hm in Hb. injection Hb as <-.
  apply py_eq_int in Heq; [|done]. by injection Heq.
Qed.

(** A number that the ledger holds for some run. *)
Definition held (v : view) (n : Z) : Prop := ∃ run record, v_plans v !! run = Some record ∧ record_number record = Some n.

(** A plan that is equal to one the ledger has recorded. *)
Definition recorded_equal (recorded : pyval) (plan : pyobject) : Prop :=
  ∃ p, recorded = canonical (VDict p) ∧ py_eq (VDict p) (VDict plan) = true.

(** A plan that the ledger holds for some run, with its number. *)
Definition reserved_in (v : view) (plan : pyobject) (n : Z) : Prop :=
  ∃ run record recorded, v_plans v !! run = Some record ∧ record_number record = Some n
    ∧ recorded_plan record = Some recorded ∧ recorded_equal recorded plan.

(** What the publication of a number asks of its plan: a number above the floor, or
    a promote-bytes candidate at the floor or above. *)
Definition publishable (v : view) (promotion : bool) (plan : pyobject) (n : Z) : Prop :=
  reserved_in v plan n
  ∧ if promotion
    then v_floor v ≤ n ∧ dict_get (&"channel") plan = Some (VStr (&"rc"))
         ∧ dict_get (&"promotion") plan = Some (VStr (&"promote-bytes"))
    else v_floor v < n.

Lemma reserved_held v plan n : reserved_in v plan n → held v n.
Proof. intros (run & record & _ & Hl & Hn & _). by exists run, record. Qed.

Section verified.
Context (h : history) (state : pyobject) (previous : option pystr) (v : view).
Context (Hread : has_read float_repr sha256_hex h state previous) (Hv : current h = Some v).

Lemma verify_reservation_ok plan run_id parent g g' u :
  verify_reservation_in float_repr sha256_hex state plan run_id parent g = (g', Ok u) →
  ∃ n, dict_get (&"build_number") plan = Some (VInt n) ∧ publishable v false plan n.
Proof.
  pose proof (has_read_view _ _ _ _ Hread Hv) as Hview.
  destruct (ledger_view_inv _ _ Hview) as (_ & plans & _ & Hf & Hplans & _).
  unfold verify_reservation_in. intros Hok. inv_M.
  match goal with H : dict_get (&"plans") state = Some (VDict ?p) |- _ => rewrite Hplans in H; injection H as <- end.
  match goal with H : dict_get (&"publication_floor") state = Some (VInt ?f) |- _ => rewrite Hf in H; injection H as <- end.
  match goal with H : py_eq _ _ = true |- _ => rename H into He end.
  destruct (py_eq_dict_inv _ _ He) as [d Hd]. rewrite Hd in He. eapply get_default_some in Hd; [|done].
  destruct (record_in_view state v plans _ (VDict d) Hview (proj2 (proj2 Hread)) Hplans (dict_get_elem _ _ _ Hd))
    as (d' & p & n & [= <-] & Hp & Hn & Hl & Hrn & Hrec).
  destruct (py_eq_dict_entry _ _ _ _ He Hp) as (b & [= <-] & Heq).
  match goal with H : dict_get (&"build_number") plan = Some (VInt ?m) |- _ =>
    rewrite (equal_record_number d p n plan m Heq Hp Hn H) in *; exists m; split; [done|] end.
  split; [eexists _, _, _; split; [done|]; split; [done|]; split; [done|]; by exists p|]. by apply Z.ltb_lt.
Qed.

Lemma verify_promotion_ok plan g g' u :
  verify_promotion_order_in float_repr sha256_hex state plan g = (g', Ok u) →
  ∃ n, dict_get (&"build_number") plan = Some (VInt n) ∧ publishable v true plan n.
Proof.
  pose proof (has_read_view _ _ _ _ Hread Hv) as Hview.
  destruct (ledger_view_inv _ _ Hview) as (_ & plans & _ & Hf & Hplans & _).
  unfold verify_promotion_order_in. intros Hok. inv_M.
  match goal with H : dict_get (&"plans") state = Some (VDict ?p) |- _ => rewrite Hplans in H; injection H as <- end.
  match goal with H : dict_get (&"publication_floor") state = Some (VInt ?f) |- _ => rewrite Hf in H; injection H as <- end.
  match goal with H : bool_decide (length (filter _ ?bs) = 1%nat) = true |- _ => apply bool_decide_eq_true in H as Hone; rename bs into matching end.
  assert (true ∈ matching) as Hin.
  { destruct (filter (λ b, b = true) matching) as [|b l] eqn:E; [done|].
    assert (b ∈ filter (λ b, b = true) matching) as Hb by (rewrite E; apply list_elem_of_here).
    apply list_elem_of_filter in Hb as [-> Hb]. done. }
  match goal with H : collect _ _ = Ok matching |- _ => apply collect_ok in H as Hmatch end.
  apply list_elem_of_lookup in Hin as [i Hi]. eapply Forall2_lookup_r in Hmatch as (r & Hr & Hmatch); [|exact Hi].
  apply list_elem_of_lookup_2 in Hr. unfold dict_values in Hr. apply list_elem_of_fmap in Hr as ([run r'] & -> & Hr).
  cbn [snd] in Hmatch.
  destruct (record_in_view state v plans run r' Hview (proj2 (proj2 Hread)) Hplans Hr)
    as (d & p & n & -> & Hp & Hn & Hl & Hrn & Hrec).
  cbn [as_dict] in Hmatch. apply bind_ok in Hmatch as (d' & [= <-] & Hmatch).
  apply bind_ok in Hmatch as (p' & Hp'%item_ok & [= Heq]). rewrite Hp in Hp'. injection Hp' as <-.
  match goal with H : dict_get (&"build_number") plan = Some (VInt ?m) |- _ =>
    rewrite (equal_record_number d p n plan m Heq Hp Hn H) in *; exists m; split; [done|] end.
  split; [eexists _, _, _; split; [done|]; split; [done|]; split; [done|]; by exists p|].
  match goal with H : _ && _ = true |- _ => apply andb_true_iff in H as [Hc%py_eq_str Hpr%py_eq_str]; subst end.
  split; [by apply Z.leb_le|]. done.
Qed.
End verified.

(** What a successful verification establishes: the number may be published. *)
Lemma verification_ok h state previous v plan run_id parent promotion g g' u :
  has_read float_repr sha256_hex h state previous → current h = Some v →
  (if truthy promotion then verify_promotion_order_in float_repr sha256_hex state plan
   else verify_reservation_in float_repr sha256_hex state plan run_id parent) g = (g', Ok u) →
  ∃ n, dict_get (&"build_number") plan = Some (VInt n) ∧ publishable v (truthy promotion) plan n.
Proof.
  intros Hread Hv. destruct (truthy promotion); [by eapply verify_promotion_ok|by eapply verify_reservation_ok].
Qed.

Lemma publication_step v plan n (promotion : bool) :
  publishable v promotion plan n →
  ledger_step v (if promotion then Promoted n else Published n) (View (v_counter v) n (v_plans v)).
Proof.
  intros [(run & record & Hl & Hn)%reserved_held Hf]. destruct promotion; [destruct Hf|]; by econstructor.
Qed.

(** A publication of a plan with number [n] began between two states of the ledger. *)
Definition began (h h' : history) (promotion : bool) (plan : pyobject) (n : Z) : Prop :=
  ∃ h2 e v, grows h h2 ∧ current h2 = Some v ∧ grows (h2 ++ [e]) h'
  ∧ publishable v promotion plan n
  ∧ version_view e = Some (View (v_counter v) n (v_plans v)).

Lemma begin_publication_history plan run_id parent promotion g g' r v :
  current (ledger g) = Some v → collision_free (ledger g') →
  begin_publication plan run_id parent promotion g = (g', r) →
  grows (ledger g) (ledger g')
  ∧ (is_ok r = true → ∃ n, dict_get (&"build_number") plan = Some (VInt n) ∧ began (ledger g) (ledger g') (truthy promotion) plan n).
Proof.
  intros Hv Hfree Hr. unfold ReleaseState.begin_publication in Hr.
  apply passive_step in Hr as [(e & -> & Hq)|(g0 & run & H0 & Hrun & Hr)]; [done| |apply passive_lift].
  apply lift_M_ok in Hrun as [-> [-> Hpos]%positive_int].
  apply passive_step in Hr as [(e & -> & Hq)|(g0 & u0 & H0' & Hflag & Hr)]; [done| |apply passive_lift].
  apply lift_M_ok in Hflag as [-> _]. unfold mbind at 1, M_bind in Hr.
  destruct (read_state float_repr sha256_hex g) as [g1 [[state previous]|e]] eqn:Eread;
    destruct (read_state_ledger _ _ _ _ _ Eread) as (h & H1 & H2 & Hread); cycle 1.
  { injection Hr as <- <-. split; [by etrans|done]. }
  specialize (Hread _ _ eq_refl). destruct (grows_view _ _ _ H1 Hv) as (vh & Hvh & _).
  pose proof (has_read_view _ _ _ _ Hread Hvh) as Hview.
  destruct (ledger_view_inv _ _ Hview) as (Hplain & plans & Hc & Hf & Hplans & Hvp).
  apply passive_step in Hr as [(e & -> & Hq)|(g2 & u & H3 & Hver & Hr)]; [split; [by etrans; [|etrans]|done]| |].
  2: { apply passive_if; [apply passive_verify_promotion|apply passive_verify_reservation]. }
  destruct (verification_ok _ _ _ _ _ _ _ _ _ _ _ Hread Hvh Hver) as (n & Hn & Hpub).
  apply passive_step in Hr as [(e & -> & Hq)|(g3 & number & H4 & Hi & Hr)];
    [split; [by etrans; [|etrans; [|etrans]]|done]| |apply passive_lift].
  apply lift_M_ok in Hi as [-> Hi%item_ok]. rewrite Hn in Hi. injection Hi as <-.
  destruct (floor_state_view state plans (v_counter vh) n Hplain Hc Hplans) as [Hplain' Hview']. rewrite <-Hvp in Hview'.
  unfold mbind at 1, M_bind in Hr. destruct (write_state float_repr _ previous g2) as [g3 r3] eqn:Ew.
  assert (g3 = g') as -> by (destruct r3; by injection Hr).
  destruct (write_state_ledger _ _ h _ _ _ _ _ _ _ _ _ Hread ltac:(by etrans) Hfree Hvh Hplain' Hview'
    (publication_step _ _ _ _ Hpub) Ew) as [Hg Hok].
  split; [by etrans; [|etrans; [|etrans]]|]. destruct r3 as [u3|e]; [|by injection Hr as <-].
  intros _. exists n. split; [done|]. destruct (Hok eq_refl) as (h2 & e & Hh2 & Hcur & He & Hend).
  exists h2, e, vh. split_and!; try done. by etrans.
Qed.

Lemma number_of_holds h run n plan m : holds h run n plan → dict_get (&"build_number") plan = Some (VInt m) → m = n.
Proof. intros (_ & _ & _ & _ & _ & _ & Hn) Hm. rewrite Hn in Hm. by injection Hm. Qed.

(** Once it has begun, the floor is at least its number and its plan stays. *)
Lemma reserved_in_le v v' plan n : view_le v v' → reserved_in v plan n → reserved_in v' plan n.
Proof.
  intros (_ & _ & Hsub) (run & record & recorded & Hl & Hrest). exists run, record, recorded. split; [by eapply lookup_weaken|done].
Qed.

Lemma began_floor h h' promotion plan n v' :
  began h h' promotion plan n → current h' = Some v' → n ≤ v_floor v' ∧ reserved_in v' plan n.
Proof.
  intros (h2 & e & v & _ & _ & Hg & [Hres _] & He) Hv'.
  destruct (grows_view _ _ (View (v_counter v) n (v_plans v)) Hg) as (v2 & Hv2 & Hle & _);
    [by rewrite current_snoc|]. rewrite Hv' in Hv2. injection Hv2 as ->. split; [apply Hle|].
  eapply reserved_in_le; [exact Hle|exact Hres].
Qed.

(** The ledger records one plan for a number. *)
Lemma reserved_unique v plan plan' n :
  view_ok v → reserved_in v plan n → reserved_in v plan' n → ∃ recorded, recorded_equal recorded plan ∧ recorded_equal recorded plan'.
Proof.
  intros Hok (run & record & recorded & Hl & Hn & Hr & He) (run' & record' & recorded' & Hl' & Hn' & Hr' & He').
  pose proof (number_unique v Hok _ _ _ _ _ Hl Hl' Hn Hn') as <-. rewrite Hl in Hl'. injection Hl' as <-.
  rewrite Hr in Hr'. injection Hr' as <-. by exists recorded.
Qed.

(** ** Properties *)

(** C34: the release tools serialize on the ledger.  Whatever other runs do at the
    same time, and wherever a request fails or its answer is lost, a reservation
    and the beginning of a publication append nothing but ledger steps: a fresh
    number above the counter with its plan, or a publication of a reserved number
    that the floor permits.  So plans are never changed or dropped, and counter and
    floor never decrease. *)
Theorem ledger_operations_serialize policy base channel source run_id attempt now parent plan promotion g g1 g2 r r' v
    (Hv : current (ledger g) = Some v) (Hok : view_ok v)
    (Hfree1 : collision_free (ledger g1)) (Hfree2 : collision_free (ledger g2)) (Hparent : plain parent = true)
    (Hreserve : reserve_plan policy base channel source run_id attempt now parent g = (g1, r))
    (Hbegin : begin_publication plan run_id parent promotion g1 = (g2, r')) :
  grows (ledger g) (ledger g1) ∧ grows (ledger g1) (ledger g2)
  ∧ ∃ v1 v2, current (ledger g1) = Some v1 ∧ current (ledger g2) = Some v2
    ∧ view_ok v1 ∧ view_ok v2 ∧ view_le v v1 ∧ view_le v1 v2.
Proof.
  destruct (reserve_plan_history _ _ _ _ _ _ _ _ _ _ _ _ Hv Hfree1 Hparent Hreserve) as [H1 _].
  destruct (grows_view _ _ _ H1 Hv) as (v1 & Hv1 & Hle1 & Hok1).
  destruct (begin_publication_history _ _ _ _ _ _ _ _ Hv1 Hfree2 Hbegin) as [H2 _].
  destruct (grows_view _ _ _ H2 Hv1) as (v2 & Hv2 & Hle2 & Hok2).
  split_and!; [done..|]. exists v1, v2. split_and!; auto.
Qed.

(** C35: build numbers are never shared.  Of two successful reservations, in any
    order and with anything in between, different runs get different build numbers,
    and the same run gets the same plan again. *)
Theorem build_numbers_are_unique policy base channel source run_id attempt now parent
    policy' base' channel' source' run_id' attempt' now' parent' g1 g1' g2 g2' plan plan' v
    (Hv : current (ledger g1) = Some v) (Hok : view_ok v)
    (Hfree1 : collision_free (ledger g1')) (Hfree2 : collision_free (ledger g2'))
    (Hparent : plain parent = true) (Hparent' : plain parent' = true)
    (Hfirst : reserve_plan policy base channel source run_id attempt now parent g1 = (g1', Ok plan))
    (Hbetween : grows (ledger g1') (ledger g2))
    (Hsecond : reserve_plan policy' base' channel' source' run_id' attempt' now' parent' g2 = (g2', Ok plan')) :
  ∃ n n', dict_get (&"build_number") plan = Some (VInt n) ∧ dict_get (&"build_number") plan' = Some (VInt n')
  ∧ (run_id ≠ run_id' → n ≠ n')
  ∧ (run_id = run_id' → n = n' ∧ canonical (VDict plan) = canonical (VDict plan')).
Proof.
  destruct (reserve_plan_history _ _ _ _ _ _ _ _ _ _ _ _ Hv Hfree1 Hparent Hfirst) as [H1 Hp1].
  destruct (Hp1 _ eq_refl) as (Hpos & n & Hn). destruct (grows_view _ _ _ H1 Hv) as (v1 & Hv1 & _ & Hok1).
  destruct (grows_view _ _ _ Hbetween Hv1) as (v2 & Hv2 & _ & Hok2).
  destruct (reserve_plan_history _ _ _ _ _ _ _ _ _ _ _ _ Hv2 Hfree2 Hparent' Hsecond) as [H2 Hp2].
  destruct (Hp2 _ eq_refl) as (Hpos' & n' & Hn'). destruct (grows_view _ _ _ H2 Hv2) as (v3 & Hv3 & _ & Hok3).
  apply (holds_grows _ (ledger g2')) in Hn; [|by etrans].
  destruct Hn as (w & rec & Hw & Hl & Hrn & Hrp & Hb), Hn' as (w' & rec' & Hw' & Hl' & Hrn' & Hrp' & Hb').
  rewrite Hv3 in Hw, Hw'. injection Hw as <-. injection Hw' as <-.
  exists n, n'. split_and!; [done..| |].
  - intros Hne Heq. apply Hne. rewrite <-Heq in Hrn'.
    pose proof (number_unique v3 (Hok3 (Hok2 (Hok1 Hok))) _ _ _ _ _ Hl Hl' Hrn Hrn') as Hruns.
    rewrite !str_of_int_nonneg in Hruns by lia. apply str_of_nonneg_inj in Hruns; lia.
  - intros Heq. rewrite <-Heq, Hl in Hl'. injection Hl' as <-. rewrite Hrn in Hrn'. rewrite Hrp in Hrp'.
    split; congruence.
Qed.

(** C36: when the publication of a build number has begun, however it ended, no
    later publication begins with that number or a smaller one, except a byte
    promotion: a publication that is no promotion needs a greater number, and a
    promotion needs a promote-bytes release candidate with at least that number.
    A promotion of that very number keeps the candidate's plan: both plans are equal
    to the one the ledger has recorded for the number. *)
Theorem publication_begins_once plan run_id parent promotion plan' run_id' parent' promotion' g1 g1' g2 g2' raw raw' v n n'
    (Hv : current (ledger g1) = Some v) (Hok : view_ok v)
    (Hfree1 : collision_free (ledger g1')) (Hfree2 : collision_free (ledger g2'))
    (Hfirst : begin_publication plan run_id parent promotion g1 = (g1', Ok raw))
    (Hbetween : grows (ledger g1') (ledger g2))
    (Hsecond : begin_publication plan' run_id' parent' promotion' g2 = (g2', Ok raw'))
    (Hn : dict_get (&"build_number") plan = Some (VInt n)) (Hn' : dict_get (&"build_number") plan' = Some (VInt n')) :
  if truthy promotion'
  then n ≤ n' ∧ dict_get (&"channel") plan' = Some (VStr (&"rc"))
       ∧ dict_get (&"promotion") plan' = Some (VStr (&"promote-bytes"))
       ∧ (n = n' → ∃ recorded, recorded_equal recorded plan ∧ recorded_equal recorded plan')
  else n < n'.
Proof.
  destruct (begin_publication_history _ _ _ _ _ _ _ _ Hv Hfree1 Hfirst) as [H1 Hb1].
  destruct (Hb1 eq_refl) as (m & Hm & Hbegan). rewrite Hn in Hm. injection Hm as <-.
  destruct (grows_view _ _ _ H1 Hv) as (v1 & Hv1 & _ & Hok1). destruct (began_floor _ _ _ _ _ _ Hbegan Hv1) as [Hfloor Hres].
  destruct (grows_view _ _ _ Hbetween Hv1) as (v2 & Hv2 & Hle2 & Hok2).
  destruct (begin_publication_history _ _ _ _ _ _ _ _ Hv2 Hfree2 Hsecond) as [_ Hb2].
  destruct (Hb2 eq_refl) as (m & Hm & (h2 & e & w & Hh2 & Hw & _ & [Hres' Hcond] & _)). rewrite Hn' in Hm. injection Hm as <-.
  destruct (grows_view _ _ _ Hh2 Hv2) as (w' & Hw' & Hle3 & Hok3). rewrite Hw in Hw'. injection Hw' as <-.
  pose proof (proj1 (proj2 Hle2)) as Hf2. pose proof (proj1 (proj2 Hle3)) as Hf3.
  destruct (truthy promotion'); [|lia]. destruct Hcond as (Hcond & Hc & Hp). split; [lia|]. split; [done|]. split; [done|].
  intros <-. apply (reserved_unique w _ _ n); [auto| |done]. eapply reserved_in_le; [exact Hle3|]. by eapply reserved_in_le.
Qed.
End operations.
