(* ===== verification/LedgerDemo.v ===== *)
(** * A concrete ledger server

    The interface [LedgerHistory] is satisfied by a server that keeps the versions
    of the file and answers as the contents API does; the ledger theorems run on
    it. *)

From Stdlib Require Import QArith.QArith Strings.Byte.
From S2P Require Import Prelude PyStr PyDict PyRegex PyVal PyJson JsonFacts Base64 VersionPlan VersionPlanFacts Release ReleaseState LedgerFacts ReservationFacts.
#[local] Open Scope Z_scope.

(** The server's state is the list of versions; a blob is named by its number. *)
Definition blob_name (n : nat) : pystr := padded 40 (Z.of_nat n).

Definition contents_answer (b : bytes) (sha : pystr) : pyobject :=
  [(&"type", VStr (&"file")); (&"encoding", VStr (&"base64")); (&"content", VStr (b64encode b)); (&"sha", VStr sha)].

Definition status_error (status : Z) : exn := Exn (EGitHub (Some status)) "".
Definition answer (v : pyval) : outcome bytes := json_bytes (λ _, []) v.

Definition put_file (body : pyobject) (h : history) : history * outcome bytes :=
  let expected := match last h with None => None | Some e => Some (VStr e.2) end in
  if bool_decide (dict_get (&"sha") body = expected) then
    match dict_get (&"content") body with
    | Some (VStr text) =>
      match b64decode text with
      | Ok b => (h ++ [(b, blob_name (length h))], answer (VDict []))
      | Raise _ => (h, Raise (status_error 422))
      end
    | _ => (h, Raise (status_error 422))
    end
  else (h, Raise (status_error 409)).

(** The releases that exist: the first candidate, once its publication has begun. *)
Definition demo_releases (h : history) : list pyval :=
  if (2 <=? length h)%nat then [VDict [(&"draft", VBool false); (&"tag_name", VStr (&"v1.2.3-rc.1"))]] else [].

#[export] Instance demo_github : GitHub history := λ path method body mode h,
  if is_write path method then
    match body with Some body => put_file body h | None => (h, Raise (status_error 422)) end
  else if bool_decide (path = READ_PATH) then
    match last h with
    | None => (h, Raise (status_error 404))
    | Some (b, sha) => (h, if forallb scalar_char sha then answer (VDict (contents_answer b sha)) else Raise (status_error 500))
    end
  else match mode with
       | PagesMode => (h, answer (VList [VList (demo_releases h)]))
       | _ => if bool_decide (method = &"GET") then (h, Raise (status_error 404)) else (h, answer (VDict []))
       end.

(** *** The laws *)

Lemma scalar_base64 b : forallb scalar_char (b64encode b) = true.
Proof. apply base64_chars; [|done]. by vm_compute. Qed.

Lemma answer_document v : plain v = true → ∃ raw, answer v = Ok raw ∧ parse_json raw = Ok (canonical v).
Proof.
  intros Hp. destruct (json_text_total (λ _, []) compact 0 v Hp) as [t Ht].
  assert (answer v = Ok (byte_of <$> t)) as Ha.
  { unfold answer, json_bytes, json_dumps. rewrite Ht. cbn [mbind outcome_bind].
    apply encode_ascii, (ascii_json_text _ _ _ _ _ compact_ok Hp Ht). }
  exists (byte_of <$> t). split; [done|]. by eapply parse_json_bytes.
Qed.

Lemma answer_not_blank d raw : d ≠ [] → answer (VDict d) = Ok raw → forallb ascii_blank raw = false.
Proof.
  intros Hd Ha. destruct d as [|kv d]; [done|]. unfold answer, json_bytes, json_dumps in Ha. cbn [json_text] in Ha.
  apply bind_ok in Ha as (t & Ht & Ha). apply bind_ok in Ht as (entries & _ & [= <-]).
  unfold encode in Ha. change (&"{") with [chr "{"] in Ha. cbn [app utf8_encode_opt] in Ha.
  destruct (utf8_char (chr "{")) as [b|] eqn:Eb; [|done]. vm_compute in Eb. injection Eb as <-.
  destruct (utf8_encode_opt _) as [bs|]; [|done]. by injection Ha as <-.
Qed.

Lemma contents_plain b sha : forallb scalar_char sha = true → plain (VDict (contents_answer b sha)) = true.
Proof.
  intros Hs. apply plain_dict. split.
  - change (NoDup [&"type"; &"encoding"; &"content"; &"sha"]). by apply (bool_decide_unpack _).
  - intros k v. unfold contents_answer. rewrite !elem_of_cons, elem_of_nil. intros Hkv.
    destruct_or?; try done; injection Hkv as -> ->; split; try done. apply scalar_base64.
Qed.

Lemma base64_no_space b : filter (λ c, is_space c = false) (b64encode b) = b64encode b.
Proof.
  apply filter_id, Forall_forall. intros c Hc%list_elem_of_In.
  assert (forallb (λ c, negb (is_space c)) (b64encode b) = true) as Hs by (by apply base64_chars; vm_compute).
  rewrite forallb_forall in Hs. by apply negb_true_iff, Hs.
Qed.

#[export] Program Instance demo_history : LedgerHistory history := {| ledger := id |}.
Next Obligation.
  intros path method body mode h h' r Hw. unfold gh_request, demo_github. rewrite Hw. intros Hr.
  assert (h' = h) as -> by (repeat case_match; by injection Hr). apply rtc_refl.
Qed.
Next Obligation.
  intros h h' r Hr. unfold gh_request, demo_github in Hr.
  change (is_write READ_PATH (&"GET")) with false in Hr. rewrite bool_decide_true in Hr by done.
  exists h. destruct (last h) as [[b sha]|] eqn:E.
  - destruct (forallb scalar_char sha) eqn:Hs; [|injection Hr as <- <-; by split_and!; try apply rtc_refl].
    injection Hr as <- <-. split_and!; [apply rtc_refl..|].
    pose proof (contents_plain b sha Hs) as Hp. destruct (answer_document _ Hp) as (raw & Ha & Hraw). rewrite Ha.
    split; [by eapply answer_not_blank; [|exact Ha]|]. eexists. split; [done|]. split; [done|].
    intros d text b' sha' Hd _ _ Ht Hsha Hdec. 
    assert (d = sorted key_leb ((λ kv, (kv.1, canonical kv.2)) <$> contents_answer b sha)) as ->
      by (cbn [canonical] in Hd; congruence).
    apply plain_dict in Hp as [Hnd _]. rewrite canonical_get in Ht, Hsha by done.
    injection Ht as <-. injection Hsha as <-. rewrite base64_no_space, b64decode_encode in Hdec. injection Hdec as <-. exact E.
  - injection Hr as <- <-. split_and!; [apply rtc_refl..|]. intros _. by apply last_None.
Qed.
Next Obligation.
  intros body h h' r Hr. unfold gh_request, demo_github in Hr. change (is_write WRITE_PATH (&"PUT")) with true in Hr.
  cbv iota in Hr. unfold put_file in Hr.
  case_bool_decide as Hsha; [|injection Hr as <- <-; right; by split; [|apply rtc_refl]].
  destruct (dict_get (&"content") body) as [[| | | |text| | |]|] eqn:Et;
    try (injection Hr as <- <-; right; by split; [|apply rtc_refl]).
  destruct (b64decode text) as [b|e] eqn:Eb; [|injection Hr as <- <-; right; by split; [|apply rtc_refl]].
  injection Hr as <- <-. left. exists h, (b, blob_name (length h)), text. split_and!; [apply rtc_refl| |done|done|apply rtc_refl].
  unfold replaces. rewrite Hsha. destruct (last h) as [[b0 s0]|] eqn:El; [by exists b0, s0|by apply last_None].
Qed.

(** ** Runs on the server *)

Definition demo_policy_object : pyobject := match demo_policy with VDict d => d | _ => [] end.
Definition demo_noon : datetime := Datetime 2024 2 29 12 0 0.

Definition demo_reserve (run_id : Z) : M history pyobject :=
  reserve_plan demo_float demo_sha demo_policy_object (&"1.2.3") (&"rc") (str_value demo_source) run_id 1 demo_noon VNone.
Definition demo_begin (plan : pyobject) (run_id : Z) : M history bytes :=
  begin_publication demo_float demo_sha plan run_id VNone (VBool false).

Definition result_of {A} (d : A) (m : history * outcome A) : A := match m.2 with Ok a => a | Raise _ => d end.

(** Two runs reserve and publish, one after the other. *)
Definition ledger1 : history := (demo_reserve 41 []).1.
Definition plan1 : pyobject := result_of [] (demo_reserve 41 []).
Definition ledger2 : history := (demo_begin plan1 41 ledger1).1.
Definition ledger3 : history := (demo_reserve 42 ledger2).1.
Definition plan2 : pyobject := result_of [] (demo_reserve 42 ledger2).
Definition ledger4 : history := (demo_begin plan2 42 ledger3).1.

(** The first candidate is promoted before the second run. *)
Definition demo_promote : history * outcome bytes :=
  begin_publication demo_float demo_sha plan1 41 VNone (VBool true) ledger2.
Definition ledger5 : history := demo_promote.1.
Definition raw3 : bytes := result_of [] demo_promote.

Lemma collision_free_check h :
  forallb (λ e, forallb (λ e', implb (bool_decide (e.2 = e'.2)) (bool_decide (e.1 = e'.1))) h) h = true → collision_free h.
Proof.
  rewrite forallb_forall. intros H e e' He He' Heq. specialize (H e (proj1 (list_elem_of_In _ _) He)).
  rewrite forallb_forall in H. specialize (H e' (proj1 (list_elem_of_In _ _) He')).
  rewrite bool_decide_true in H by done. cbn in H. by apply bool_decide_eq_true in H.
Qed.

Example demo_runs :
  (demo_reserve 41 []).2 = Ok plan1 ∧ is_ok (demo_begin plan1 41 ledger1).2 = true
  ∧ (demo_reserve 42 ledger2).2 = Ok plan2 ∧ is_ok (demo_begin plan2 42 ledger3).2 = true
  ∧ length ledger4 = 4%nat ∧ canonical (VDict (result_of [] (demo_reserve 41 ledger4))) = canonical (VDict plan1)
  ∧ (demo_begin plan1 41 ledger2).2
    = Raise (release_error "Build number has already reached or fallen below the publication floor").
Proof. vm_compute. repeat split. Qed.

(** The four runs, and the histories between them. *)
Definition raw1 : bytes := result_of [] (demo_begin plan1 41 ledger1).
Definition raw2 : bytes := result_of [] (demo_begin plan2 42 ledger3).

Lemma run1 : demo_reserve 41 [] = (ledger1, Ok plan1).
Proof. vm_compute. reflexivity. Qed.
Lemma run2 : demo_begin plan1 41 ledger1 = (ledger2, Ok raw1).
Proof. vm_compute. reflexivity. Qed.
Lemma run3 : demo_reserve 42 ledger2 = (ledger3, Ok plan2).
Proof. vm_compute. reflexivity. Qed.
Lemma run4 : demo_begin plan2 42 ledger3 = (ledger4, Ok raw2).
Proof. vm_compute. reflexivity. Qed.

Lemma run5 : begin_publication demo_float demo_sha plan1 41 VNone (VBool true) ledger2 = (ledger5, Ok raw3).
Proof. vm_compute. reflexivity. Qed.

Lemma free1 : collision_free ledger1.
Proof. apply collision_free_check. vm_compute. reflexivity. Qed.
Lemma free2 : collision_free ledger2.
Proof. apply collision_free_check. vm_compute. reflexivity. Qed.
Lemma free3 : collision_free ledger3.
Proof. apply collision_free_check. vm_compute. reflexivity. Qed.
Lemma free4 : collision_free ledger4.
Proof. apply collision_free_check. vm_compute. reflexivity. Qed.
Lemma free5 : collision_free ledger5.
Proof. apply collision_free_check. vm_compute. reflexivity. Qed.

Definition view1 : view := default empty_view (current ledger1).
Definition view2 : view := default empty_view (current ledger2).
Lemma current1 : current ledger1 = Some view1.
Proof. vm_compute. reflexivity. Qed.
Lemma current2 : current ledger2 = Some view2.
Proof. vm_compute. reflexivity. Qed.

Lemma number1 : dict_get (&"build_number") plan1 = Some (VInt 1).
Proof. vm_compute. reflexivity. Qed.
Lemma number2 : dict_get (&"build_number") plan2 = Some (VInt 2).
Proof. vm_compute. reflexivity. Qed.

#[local] Opaque ledger1 ledger2 ledger3 ledger4 ledger5 plan1 plan2 raw1 raw2 raw3 view1 view2.

Lemma one_view (o : option view) v v' : o = Some v → o = Some v' → v = v'.
Proof. congruence. Qed.

Lemma view1_ok : view_ok view1.
Proof.
  destruct (reserve_plan_history (G:=history) (LH:=demo_history) demo_float demo_sha demo_sha_ok demo_policy_object
    (&"1.2.3") (&"rc") (str_value demo_source) 41 1 demo_noon VNone [] ledger1 (Ok plan1) empty_view
    eq_refl free1 eq_refl run1) as [Hg _].
  destruct (grows_view _ _ _ Hg eq_refl) as (v & Hv & _ & Hok).
  rewrite (one_view (current ledger1) view1 v current1 Hv). exact (Hok empty_view_ok).
Qed.

Lemma grows12 : grows ledger1 ledger2.
Proof.
  exact (proj1 (begin_publication_history (G:=history) (LH:=demo_history) demo_float demo_sha plan1 41 VNone (VBool false)
    ledger1 ledger2 (Ok raw1) view1 current1 free2 run2)).
Qed.

Lemma grows23 : grows ledger2 ledger3.
Proof.
  exact (proj1 (reserve_plan_history (G:=history) (LH:=demo_history) demo_float demo_sha demo_sha_ok demo_policy_object
    (&"1.2.3") (&"rc") (str_value demo_source) 42 1 demo_noon VNone ledger2 ledger3 (Ok plan2) view2
    current2 free3 eq_refl run3)).
Qed.

Lemma ledger_operations_serialize_witness :
  grows [] ledger1 ∧ grows ledger1 ledger2 ∧ ∃ v1 v2, current ledger1 = Some v1 ∧ current ledger2 = Some v2 ∧ view_le v1 v2.
Proof.
  destruct (ledger_operations_serialize (G:=history) (LH:=demo_history) demo_float demo_sha demo_sha_ok
    demo_policy_object (&"1.2.3") (&"rc") (str_value demo_source) 41 1 demo_noon VNone plan1 (VBool false)
    [] ledger1 ledger2 (Ok plan1) (Ok raw1) empty_view eq_refl empty_view_ok free1 free2 eq_refl run1 run2)
    as (H1 & H2 & v1 & v2 & Hv1 & Hv2 & _ & _ & _ & Hle).
  split; [exact H1|]. split; [exact H2|]. exists v1, v2. split; [exact Hv1|]. split; [exact Hv2|exact Hle].
Defined.

Lemma build_numbers_are_unique_witness :
  ∃ n n', dict_get (&"build_number") plan1 = Some (VInt n) ∧ dict_get (&"build_number") plan2 = Some (VInt n') ∧ n ≠ n'.
Proof.
  destruct (build_numbers_are_unique (G:=history) (LH:=demo_history) demo_float demo_sha demo_sha_ok
    demo_policy_object (&"1.2.3") (&"rc") (str_value demo_source) 41 1 demo_noon VNone
    demo_policy_object (&"1.2.3") (&"rc") (str_value demo_source) 42 1 demo_noon VNone
    [] ledger1 ledger2 ledger3 plan1 plan2 empty_view eq_refl empty_view_ok free1 free3 eq_refl eq_refl run1 grows12 run3)
    as (n & n' & Hn & Hn' & Hne & _).
  exists n, n'. split; [exact Hn|]. split; [exact Hn'|]. apply Hne. discriminate.
Defined.

(** The second run needs the greater number 2; the promotion of the first candidate
    keeps number 1 and its plan. *)
Lemma publication_begins_once_witness :
  1 < 2
  ∧ dict_get (&"channel") plan1 = Some (VStr (&"rc")) ∧ ∃ recorded, recorded_equal recorded plan1.
Proof.
  split.
  - exact (publication_begins_once (G:=history) (LH:=demo_history) demo_float demo_sha plan1 41 VNone (VBool false) plan2 42 VNone (VBool false)
      ledger1 ledger2 ledger3 ledger4 raw1 raw2 view1 1 2 current1 view1_ok free2 free4 run2 grows23 run4 number1 number2).
  - destruct (publication_begins_once (G:=history) (LH:=demo_history) demo_float demo_sha plan1 41 VNone (VBool false) plan1 41 VNone (VBool true)
      ledger1 ledger2 ledger2 ledger5 raw1 raw3 view1 1 1 current1 view1_ok free2 free5 run2 (rtc_refl _ _) run5 number1 number1)
      as (_ & Hc & _ & Hr).
    split; [exact Hc|]. destruct (Hr eq_refl) as (recorded & Hrec & _). exists recorded. exact Hrec.
Defined.
