(* ===== verification/ChangeScope.v ===== *)
(** * Change classification ([scripts/change_scope.py])

    Which pushes and pull requests may skip the heavy jobs.  Git is a parameter:
    the output of a command in the checkout, or an error. *)

From Stdlib Require Import Strings.Byte.
From S2P Require Import Prelude PyStr PyDict PyRegex PyVal PyPath VersionPlan PyJson.
#[local] Open Scope Z_scope.

Definition REVISION : regex := SHA.

Definition DOCUMENT_NAMES : list pystr :=
  [&"readme"; &"changelog"; &"contributing"; &"security"; &"releasing"; &"code_of_conduct"].

Definition PROTECTED_PARTS : list pystr :=
  [&"src"; &"source"; &"sources"; &"test"; &"tests"; &"testdata"; &"fixtures"; &"__tests__"; &"snapshots";
   &"resources"; &"assets"; &"templates"; &"scripts"; &"script"; &"tools"; &"ci"; &"workflows"; &"actions";
   &"hooks"; &"bin"; &"lib"; &"app"; &"apps"; &"build"; &"dist"; &"target"; &"config"; &"configs";
   &"configuration"; &"dependencies"; &"deps"; &"packages"; &"package"; &"packaging"; &"node_modules";
   &"gradle"; &"cmake"; &"docker"; &"deploy"; &"deployment"; &"migrations"; &"charts"; &"helm"; &"k8s";
   &"vendor-bin"].

Definition MAX_DIFF_BYTES : Z := 8 * 1024 * 1024.

(** [decision] *)
Record decision : Type := Decision { run : bool; reason : string }.
#[export] Instance decision_eq_dec : EqDecision decision.
Proof. solve_decision. Defined.

(** ** Paths *)

(** [literal_path] *)
Definition literal_path (v : pyval) : bool :=
  match v with
  | VStr s =>
    let parsed := path_of s in
    negb (bool_decide (s = [])) && negb (has (chr "\") s) && negb (has 0%N s)
    && negb (is_absolute parsed) && bool_decide (path_str parsed = s) && negb (bool_decide (path_parts parsed = []))
    && negb (bool_decide (&".." ∈ path_parts parsed)) && negb (existsb (λ c, bool_decide (c ∈ s)) (&"*?["))
  | _ => false
  end.

Section paths.
Context `{UnicodeCase}.

(** [document_name] *)
Definition document_name (v : pyval) : bool :=
  literal_path v && bool_decide (str_lower (path_suffix (path_of (str_value v))) ∈ [&".md"; &".rst"]).

Definition hidden (part : pystr) : bool := startswith (&".") part.

(** [documentation_path] *)
Definition documentation_path (path : pystr) (explicit : list pystr) : bool :=
  if negb (document_name (VStr path)) then false
  else
    let parsed := path_of path in
    let parts := str_lower <$> path_parts parsed in
    if existsb (λ part, hidden part || bool_decide (part ∈ PROTECTED_PARTS)) (removelast parts) then false
    else if hidden (List.last parts []) then false
    else bool_decide (path ∈ explicit)
         || (length parts =? 1)%nat && bool_decide (str_lower (path_stem parsed) ∈ DOCUMENT_NAMES)
         || (1 <? length parts)%nat && bool_decide (head parts = Some (&"docs")).

(** ** Revisions *)

(** [v[k]] *)
Definition subscript (v : pyval) (k : pystr) : outcome pyval :=
  match v with VDict d => item k d | _ => Raise (type_error_of "indices") end.

Definition revision_ok (v : pyval) : bool :=
  str_match REVISION v && negb (bool_decide (v = VStr (replicate 40 (chr "0")))).

(** [event_revisions] *)
Definition event_revisions (event_name : pystr) (event : pyval) : outcome (pystr * pystr * pystr) :=
  _ ← check (is_dict event) (type_error_of "Invalid event object");
  '(base, head, separator) ←
    (if bool_decide (event_name = &"pull_request") then
       pull ← subscript event (&"pull_request");
       b ← subscript pull (&"base"); base ← subscript b (&"sha");
       h ← subscript pull (&"head"); head ← subscript h (&"sha");
       Ok (base, head, &"...")
     else if bool_decide (event_name = &"merge_group") then
       group ← subscript event (&"merge_group");
       base ← subscript group (&"base_sha");
       head ← subscript group (&"head_sha");
       Ok (base, head, &"..")
     else
       base ← subscript event (&"before");
       head ← subscript event (&"after");
       Ok (base, head, &".."));
  _ ← check (revision_ok base && revision_ok head) (Exn EValue "Expected nonzero full commit SHA");
  Ok (str_value base, str_value head, separator).

(** ** Git *)

Section git.
Context (directory : outcome bool) (run_git : list pystr → outcome bytes).

Definition range_re : regex := (SHA ⋅ rep 2 (chars (&".")) ⋅ opt (chars (&".")) ⋅ SHA)%re.

(** [git]: the three read operations, their arguments checked. *)
Definition git (operation revision : pystr) : outcome bytes :=
  is_directory ← directory;
  _ ← check is_directory (Exn EValue "Expected a repository directory");
  arguments ←
    (if bool_decide (operation = &"shallow") && bool_decide (revision = []) then
       Ok [&"git"; &"rev-parse"; &"--is-shallow-repository"]
     else if bool_decide (operation = &"commit-type") then
       _ ← check (fullmatch SHA revision) (Exn EValue "Expected one exact object ID");
       Ok [&"git"; &"cat-file"; &"-t"; &"--"; revision]
     else if bool_decide (operation = &"diff") then
       _ ← check (fullmatch range_re revision) (Exn EValue "Expected an exact two-commit range");
       Ok [&"git"; &"diff"; &"--raw"; &"--no-abbrev"; &"-z"; &"--no-renames"; &"--no-ext-diff"; &"--no-textconv";
           &"--no-relative"; &"--ignore-submodules=none"; &"--end-of-options"; revision; &"--"]
     else Raise (Exn EValue "Unsupported Git read operation"));
  run_git arguments.

(** ** The diff *)

Definition blank (c : N) : bool := bool_decide (c ∈ [32; 9; 10; 13; 11; 12]%N).

(** [b.split()], and [b.strip()], of bytes as their values. *)
Fixpoint words_from (s word : pystr) : list pystr :=
  match s with
  | [] => match word with [] => [] | _ => [word] end
  | c :: s => if blank c then match word with [] => words_from s [] | _ => word :: words_from s [] end
              else words_from s (word ++ [c])
  end.
Definition words (s : pystr) : list pystr := words_from s [].
Definition byte_strip (s : pystr) : pystr := rev (drop_while blank (rev (drop_while blank s))).
Definition byte_values (b : bytes) : pystr := Byte.to_N <$> b.

(** The modes of an ordinary file added, deleted or modified. *)
Definition expected_modes (status : pystr) : option (pystr * pystr) :=
  if bool_decide (status = &"A") then Some (&"000000", &"100644")
  else if bool_decide (status = &"D") then Some (&"100644", &"000000")
  else if bool_decide (status = &"M") then Some (&"100644", &"100644")
  else None.

(** [value.decode("ascii")] *)
Definition decode_ascii (s : pystr) : outcome pystr :=
  if is_ascii s then Ok s else Raise (Exn EUnicode "'ascii' codec can't decode byte").

Definition revision_bytes (s : pystr) : outcome bool := t ← decode_ascii s; Ok (fullmatch REVISION t).

(** [classify_record] *)
Definition classify_record (header path : pystr) (explicit required : list pystr) : outcome (option decision) :=
  match words header with
  | [before; after; old_hash; new_hash; status] =>
    if negb (startswith (&":") before) then Ok (Some (Decision true "invalid-diff"))
    else
      hashes ← o_and (revision_bytes old_hash) (revision_bytes new_hash);
      if negb hashes then Ok (Some (Decision true "invalid-diff"))
      else if negb (bool_decide (expected_modes status = Some (drop 1 before, after)))
      then Ok (Some (Decision true "non-regular-or-mode-change"))
      else
        name ← decode (byte_of <$> path);
        if bool_decide (name ∈ required) then Ok (Some (Decision true "required-path-change"))
        else if negb (documentation_path name explicit) then Ok (Some (Decision true "non-documentation-change"))
        else Ok None
  | _ => Ok (Some (Decision true "invalid-diff"))
  end.

(** The loop of [classify_diff]. *)
Fixpoint classify_records (records : list pystr) (explicit required : list pystr) : outcome decision :=
  match records with
  | header :: path :: records =>
    result ← classify_record header path explicit required;
    match result with
    | Some d => Ok d
    | None => classify_records records explicit required
    end
  | _ => Ok (Decision false "documentation-only")
  end.

(** [classify_diff] *)
Definition classify_diff (raw : bytes) (explicit required : list pystr) : outcome decision :=
  let s := byte_values raw in
  if bool_decide (s = []) then Ok (Decision true "empty-diff")
  else if (MAX_DIFF_BYTES <? Z.of_nat (length s)) || negb (endswith [0%N] s) then Ok (Decision true "invalid-diff")
  else
    let records := split 0%N (removelast s) in
    if Nat.odd (length records) then Ok (Decision true "invalid-diff")
    else classify_records records explicit required.

(** ** The decision *)

Definition is_revision_error (c : exn_class) : bool :=
  match c with EKey | EType => true | _ => is_value_error c end.
Definition is_git_error (c : exn_class) : bool :=
  match c with ESubprocess => true | _ => is_os_error c || is_value_error c end.

(** [except (TypeError, ValueError)], [except (OSError, ValueError)] *)
Definition is_path_error (c : exn_class) : bool := match c with EType => true | _ => is_value_error c end.
Definition is_file_error (c : exn_class) : bool := is_os_error c || is_value_error c.

Definition EVENTS : list pystr := [&"pull_request"; &"merge_group"; &"push"].

Fixpoint commits_ok (revisions : list pystr) : outcome bool :=
  match revisions with
  | [] => Ok true
  | r :: revisions =>
    kind ← git (&"commit-type") r;
    if bool_decide (byte_strip (byte_values kind) = &"commit") then commits_ok revisions else Ok false
  end.

(** The last part of [classify], which reads the repository. *)
Definition classify_repository (base head separator : pystr) (explicit required : list pystr) : outcome decision :=
  shallow ← git (&"shallow") [];
  if negb (bool_decide (byte_strip (byte_values shallow) = &"false")) then Ok (Decision true "incomplete-history")
  else
    commits ← commits_ok [base; head];
    if negb commits then Ok (Decision true "invalid-revisions")
    else
      raw ← git (&"diff") (base ++ separator ++ head);
      classify_diff raw explicit required.

(** [classify] *)
Definition classify (event_name : pystr) (event documentation_paths required_paths : pyval) (force : bool) : outcome decision :=
  if force then Ok (Decision true "forced")
  else if negb (bool_decide (event_name ∈ EVENTS)) then Ok (Decision true "unsupported-event")
  else if negb (is_list documentation_paths && forallb document_name (list_value documentation_paths))
  then Ok (Decision true "invalid-documentation-paths")
  else if negb (is_list required_paths && forallb literal_path (list_value required_paths))
  then Ok (Decision true "invalid-required-paths")
  else
    match event_revisions event_name event with
    | Raise e => if is_revision_error (exn_kind e) then Ok (Decision true "invalid-revisions") else Raise e
    | Ok (base, head, separator) =>
      catch (classify_repository base head separator
               (str_value <$> list_value documentation_paths) (str_value <$> list_value required_paths))
        is_git_error (λ _, Ok (Decision true "git-error"))
    end.

(** [json_paths]: a repeated key of an object keeps the last value. *)
Definition last_wins (pairs : list (pystr * pyval)) : outcome pyobject :=
  Ok (fold_left (λ d kv, dict_set kv.1 kv.2 d) pairs []).

Definition json_paths (value : pystr) (repeated : list pyval) : outcome pyval :=
  paths ← json_loads last_wins value;
  match paths with
  | VList l => Ok (VList (repeated ++ l))
  | _ => Raise (type_error_of "Expected an array of exact paths")
  end.

Record arguments : Type := Arguments_ {
  event_name : pystr; documentation_paths : list pyval; documentation_paths_json : pystr;
  require_paths : list pyval; required_paths_json : pystr; forced : bool }.

(** [from_arguments]; the event file is the text read, or the error of reading. *)
Definition from_arguments (args : arguments) (event_file : outcome pystr) : outcome decision :=
  if forced args || negb (bool_decide (event_name args ∈ EVENTS))
  then classify (event_name args) VNone (VList []) (VList []) (forced args)
  else
    match json_paths (documentation_paths_json args) (documentation_paths args) with
    | Raise e => if is_path_error (exn_kind e) then Ok (Decision true "invalid-documentation-paths") else Raise e
    | Ok documentation =>
      match json_paths (required_paths_json args) (require_paths args) with
      | Raise e => if is_path_error (exn_kind e) then Ok (Decision true "invalid-required-paths") else Raise e
      | Ok required =>
        match (text ← event_file; json_loads last_wins text) with
        | Raise e => if is_file_error (exn_kind e) then Ok (Decision true "invalid-event-file") else Raise e
        | Ok event => classify (event_name args) event documentation required false
        end
      end
    end.

(** The two lines [main] appends for the job. *)
Definition job_outputs (d : decision) : pystr :=
  &"run=" ++ (if run d then &"true" else &"false") ++ [10%N] ++ &"reason=" ++ lit (reason d) ++ [10%N].
End git.
End paths.
