(* ===== verification/ChangeScopeFacts.v ===== *)
(** * Skipping the heavy jobs is safe

    A change is skipped exactly when its complete diff is ordinary changes of
    documentation files; everything else, and every failure, runs the jobs. *)

From S2P Require Import Prelude PyStr PyDict PyRegex PyVal PyPath Config VersionPlan PyJson JsonTotal ChangeScope.
#[local] Open Scope Z_scope.

(** ** Lists of records *)

Definition flatten (entries : list (pystr * pystr)) : list pystr := entries ≫= λ e, [e.1; e.2].

(** The text of the records of a diff. *)
Definition render (entries : list (pystr * pystr)) : pystr := entries ≫= λ e, e.1 ++ 0%N :: e.2 ++ [0%N].

Lemma even_flatten {A} (l : list A) (f : list (A * A) → list A) :
  (∀ a b es, f ((a, b) :: es) = a :: b :: f es) → f [] = [] → Nat.odd (length l) = false → ∃ es, l = f es.
Proof.
  intros Hcons Hnil. enough (∀ n l, (length l ≤ n)%nat → Nat.odd (length l) = false → ∃ es, l = f es) as H by by apply (H (length l)).
  clear l. induction n as [|n IH]; intros [|a [|b l]] Hl Ho; cbn [length] in *; try lia; try done; try by exists [].
  destruct (IH l) as [es ->]; [lia|exact Ho|]. by exists ((a, b) :: es).
Qed.

Lemma flatten_even entries : Nat.odd (length (flatten entries)) = false.
Proof. induction entries as [|e entries IH]; [done|]. exact IH. Qed.

Lemma join_flatten entries : entries ≠ [] → join 0%N (flatten entries) ++ [0%N] = render entries.
Proof.
  induction entries as [|[h p] entries IH]; [done|]. intros _.
  change (flatten ((h, p) :: entries)) with (h :: p :: flatten entries).
  change (render ((h, p) :: entries)) with ((h ++ 0%N :: p ++ [0%N]) ++ render entries).
  rewrite join_cons by done. destruct entries as [|e entries]; [cbn; by rewrite <-!app_assoc, app_nil_r|].
  rewrite join_cons by done. rewrite <-IH by done. rewrite <-!app_assoc. cbn [app]. by rewrite <-!app_assoc.
Qed.

(** ** Records *)

(** A record of an ordinary file. *)
Definition ordinary (header : pystr) : Prop :=
  ∃ before after old_hash new_hash status, words header = [before; after; old_hash; new_hash; status]
  ∧ startswith (&":") before = true ∧ fullmatch SHA old_hash = true ∧ fullmatch SHA new_hash = true
  ∧ expected_modes status = Some (drop 1 before, after).

Section scope.
Context `{UnicodeCase}.

(** A change that needs no heavy job. *)
Definition harmless (explicit required : list pystr) (e : pystr * pystr) : Prop :=
  0%N ∉ e.1 ∧ 0%N ∉ e.2 ∧ ordinary e.1
  ∧ ∃ name, decode (byte_of <$> e.2) = Ok name ∧ name ∉ required ∧ documentation_path name explicit = true.

Lemma revision_bytes_ok s : revision_bytes s = Ok true ↔ fullmatch SHA s = true.
Proof.
  unfold revision_bytes, decode_ascii, REVISION. destruct (is_ascii s) eqn:E; cbn [mbind outcome_bind].
  - split; [by intros [= ->]|by intros ->].
  - split; [done|]. intros Hs. apply (fullmatch_alphabet (λ c, c <? 128)%N) in Hs.
    + by unfold is_ascii in E; rewrite Hs in E.
    + unfold SHA. apply alphabet_rep. intros c. unfold lower_hex, is_digit, in_range.
      rewrite orb_true_iff, !andb_true_iff, !N.leb_le, N.ltb_lt. lia.
Qed.

Lemma classify_record_none header path explicit required :
  classify_record header path explicit required = Ok None ↔
  ordinary header
  ∧ ∃ name, decode (byte_of <$> path) = Ok name ∧ name ∉ required ∧ documentation_path name explicit = true.
Proof.
  unfold classify_record, ordinary. split.
  - destruct (words header) as [|before [|after [|old [|new [|status [|]]]]]]; try done.
    destruct (startswith _ before) eqn:Eb; [|done]. cbn [negb]. intros (hashes & Hh & Hr)%bind_ok.
    destruct hashes; [|done]. cbn [negb] in Hr. unfold o_and in Hh. apply bind_ok in Hh as (o & Ho & Hn).
    destruct o; [|done]. apply revision_bytes_ok in Ho. apply revision_bytes_ok in Hn.
    case_bool_decide as Hm; cbn [negb] in Hr; [|done]. apply bind_ok in Hr as (name & Hname & Hr).
    case_bool_decide as Hreq; [done|]. destruct (documentation_path name explicit) eqn:Hd; [|done].
    split; [by exists before, after, old, new, status|]. by exists name.
  - intros ((before & after & old & new & status & Hw & Hb & Ho & Hn & Hm) & name & Hname & Hreq & Hd).
    rewrite Hw, Hb. cbn [negb]. apply revision_bytes_ok in Ho. apply revision_bytes_ok in Hn.
    unfold o_and. rewrite Ho. cbn [mbind outcome_bind]. rewrite Hn. cbn [mbind outcome_bind negb].
    rewrite bool_decide_true by done. cbn [negb]. rewrite Hname. cbn [mbind outcome_bind].
    rewrite bool_decide_false, Hd by done. done.
Qed.

Lemma classify_record_some header path explicit required d :
  classify_record header path explicit required = Ok (Some d) → run d = true.
Proof.
  unfold classify_record.
  destruct (words header) as [|before [|after [|old [|new [|status [|]]]]]]; try (by intros [= <-]).
  destruct (negb _); [by intros [= <-]|]. intros (hashes & _ & Hr)%bind_ok.
  destruct (negb hashes); [by injection Hr as <-|]. destruct (negb _); [by injection Hr as <-|].
  apply bind_ok in Hr as (name & _ & Hr). case_bool_decide; [by injection Hr as <-|].
  destruct (negb _); [by injection Hr as <-|done].
Qed.

Lemma classify_records_skip entries explicit required :
  (∃ d, classify_records (flatten entries) explicit required = Ok d ∧ run d = false) ↔
  Forall (λ e, classify_record e.1 e.2 explicit required = Ok None) entries.
Proof.
  induction entries as [|[h p] entries IH].
  { split; [constructor|]. intros _. by eexists. }
  change (flatten ((h, p) :: entries)) with (h :: p :: flatten entries). cbn [classify_records].
  rewrite Forall_cons, <-IH. cbn [fst snd]. split.
  - intros (d & (r & Hr & Hd)%bind_ok & Hrun). destruct r as [d'|].
    + apply classify_record_some in Hr. injection Hd as ->. congruence.
    + eauto.
  - intros (Hr & d & Hd & Hrun). rewrite Hr. cbn [mbind outcome_bind]. eauto.
Qed.

(** The diff is skipped exactly when it is complete, bounded and harmless. *)
Lemma classify_diff_skip raw explicit required :
  (∃ d, classify_diff raw explicit required = Ok d ∧ run d = false) ↔
  Z.of_nat (length raw) ≤ MAX_DIFF_BYTES
  ∧ ∃ entries, entries ≠ [] ∧ byte_values raw = render entries ∧ Forall (harmless explicit required) entries.
Proof.
  unfold classify_diff. rewrite <-(length_fmap Byte.to_N raw). change (Byte.to_N <$> raw) with (byte_values raw).
  set (s := byte_values raw). clearbody s. split.
  - intros (d & Hd & Hrun). case_bool_decide as Hs; [by injection Hd as <-|].
    destruct (MAX_DIFF_BYTES <? Z.of_nat (length s)) eqn:El; [by injection Hd as <-|]. apply Z.ltb_ge in El.
    destruct (endswith [0%N] s) eqn:Ee; [|by injection Hd as <-]. cbn [orb negb] in Hd.
    destruct (Nat.odd _) eqn:Eo; [by injection Hd as <-|]. split; [done|].
    destruct (even_flatten _ flatten ltac:(done) eq_refl Eo) as [entries He]. rewrite He in Hd.
    assert (entries ≠ []) as Hne.
    { intros ->. by destruct (split_not_nil 0%N (removelast s)). }
    assert (s = render entries) as ->.
    { rewrite <-join_flatten, <-He, join_split by done.
      unfold endswith in Ee. cbn [rev app] in Ee. apply startswith_char in Ee.
      destruct s as [|c s _] using rev_ind; [done|]. rewrite rev_app_distr in Ee. injection Ee as ->.
      by rewrite removelast_last. }
    exists entries. split_and!; [done..|].
    assert (Forall (λ e, classify_record e.1 e.2 explicit required = Ok None) entries) as Hall
      by (apply classify_records_skip; eauto).
    apply Forall_forall. intros e Hin. rewrite Forall_forall in Hall. specialize (Hall e Hin).
    apply classify_record_none in Hall as [Ho Hname].
    assert (∀ x, x ∈ [e.1; e.2] → 0%N ∉ x) as Hfree.
    { intros x Hx. apply (split_parts_free 0%N (removelast (render entries))). rewrite He.
      unfold flatten. apply list_elem_of_bind. by exists e. }
    split_and!; [apply Hfree, list_elem_of_here|apply Hfree; right; apply list_elem_of_here|done|done].
  - intros (Hl & entries & Hne & -> & Hall).
    assert (Forall (λ e, classify_record e.1 e.2 explicit required = Ok None) entries) as Hrec.
    { eapply Forall_impl; [exact Hall|]. intros e (_ & _ & Ho & Hn). apply classify_record_none. done. }
    apply classify_records_skip in Hrec as (d & Hd & Hrun). exists d. split; [|done].
    rewrite <-join_flatten in Hl |- * by done. rewrite bool_decide_false by (by destruct (join _ _)).
    rewrite (proj2 (Z.ltb_ge _ _)) by done. unfold endswith. rewrite rev_app_distr. cbn [rev app startswith].
    rewrite bool_decide_true by done. cbn [andb orb negb]. rewrite removelast_last.
    rewrite split_join; [|by destruct entries as [|[]]|].
    + by rewrite flatten_even.
    + unfold flatten. apply Forall_forall. intros x (e & Hx & He)%list_elem_of_bind.
      rewrite Forall_forall in Hall. destruct (Hall e He) as (H1 & H2 & _).
      apply elem_of_cons in Hx as [->|Hx]; [done|]. by apply list_elem_of_singleton in Hx as ->.
Qed.

(** A documentation file that hides no code: a literal relative path to Markdown or
    reStructuredText, outside every hidden or protected directory. *)
Definition safe_document (name : pystr) : Prop :=
  let parts := path_parts (path_of name) in
  is_absolute (path_of name) = false ∧ &".." ∉ parts ∧ chr "\" ∉ name
  ∧ str_lower (path_suffix (path_of name)) ∈ [&".md"; &".rst"]
  ∧ ∀ directory, directory ∈ removelast parts → hidden (str_lower directory) = false ∧ str_lower directory ∉ PROTECTED_PARTS.

Lemma removelast_fmap {A B} (f : A → B) l : removelast (f <$> l) = f <$> removelast l.
Proof. induction l as [|x [|y l] IH]; [done..|]. cbn in *. by f_equal. Qed.

Lemma documentation_path_safe name explicit : documentation_path name explicit = true → safe_document name.
Proof.
  unfold documentation_path. destruct (document_name (VStr name)) eqn:E; [|done]. cbn [negb].
  unfold document_name in E. apply andb_true_iff in E as [E Hs]. apply bool_decide_eq_true in Hs. cbn [str_value] in Hs.
  unfold literal_path in E. boolprop. intros Hp.
  destruct (existsb _ (removelast _)) eqn:Ex; [done|]. clear Hp. destruct_and?. unfold safe_document.
  split_and!; try done; [by apply has_false|].
  intros directory Hd.
  assert ((hidden (str_lower directory) || bool_decide (str_lower directory ∈ PROTECTED_PARTS)) = false) as Hf.
  { apply not_true_is_false. intros Ht. apply not_true_iff_false in Ex. apply Ex, existsb_exists_elem.
    exists (str_lower directory). split; [|done]. rewrite removelast_fmap. by apply list_elem_of_fmap_2. }
  apply orb_false_iff in Hf as [Hh Hf]. split; [done|]. by apply bool_decide_eq_false in Hf.
Qed.

(** ** Every failure is a decision *)

Lemma raises_subscript v k : raises is_revision_error (subscript v k).
Proof. destruct v; cbn; try by apply raises_error. unfold item. by destruct (dict_get k d); solve_raises. Qed.

Lemma event_revisions_raises name event : raises is_revision_error (event_revisions name event).
Proof.
  unfold event_revisions. apply raises_bind; [by apply raises_check|]. intros _. apply raises_bind.
  - repeat first [apply raises_subscript | apply raises_ok | apply raises_if | apply raises_bind; [|intros]].
  - intros [[base head] separator]. solve_raises.
Qed.

Lemma decode_raises b : raises is_git_error (decode b).
Proof. unfold decode. destruct (mapM id _); solve_raises. Qed.

Lemma revision_bytes_raises s : raises is_git_error (revision_bytes s).
Proof. unfold revision_bytes, decode_ascii. solve_raises. Qed.

Lemma classify_record_raises header path explicit required :
  raises is_git_error (classify_record header path explicit required).
Proof.
  unfold classify_record, o_and.
  destruct (words header) as [|before [|after [|old [|new [|status [|]]]]]]; try apply raises_ok.
  repeat first [ apply raises_ok | apply revision_bytes_raises | apply decode_raises
               | apply raises_if | apply raises_bind; [|intros] ].
Qed.

Lemma classify_records_raises records explicit required : raises is_git_error (classify_records records explicit required).
Proof.
  enough (∀ n l, (length l ≤ n)%nat → raises is_git_error (classify_records l explicit required)) as H1 by by apply (H1 (length records)).
  induction n as [|n IH]; intros [|h [|p l]] Hl; cbn [length] in Hl; try lia; try apply raises_ok.
  cbn [classify_records]. apply raises_bind; [apply classify_record_raises|]. intros [d|]; [apply raises_ok|]. apply IH. lia.
Qed.

Section git.
Context (directory : outcome bool) (run_git : list pystr → outcome bytes).
Context (Hdirectory : raises is_git_error directory) (Hgit : ∀ arguments, raises is_git_error (run_git arguments)).

Lemma git_raises operation revision : raises is_git_error (git directory run_git operation revision).
Proof. unfold git. apply raises_bind; [done|intros]. solve_raises; apply Hgit. Qed.

Lemma classify_repository_raises base head separator explicit required :
  raises is_git_error (classify_repository directory run_git base head separator explicit required).
Proof.
  unfold classify_repository, classify_diff.
  assert (∀ l, raises is_git_error (commits_ok directory run_git l)) as Hcommits.
  { induction l as [|r l IH]; [apply raises_ok|]. cbn [commits_ok].
    apply raises_bind; [apply git_raises|]. intros. apply raises_if; [done|apply raises_ok]. }
  repeat first [ apply raises_ok | apply git_raises | apply Hcommits | apply classify_records_raises
               | apply raises_if | apply raises_bind; [|intros] ].
Qed.

(** What a skipped change has been checked for. *)
Definition checked_skip (event_name : pystr) (event required : pyval) : Prop :=
  ∃ base head separator raw entries,
    event_revisions event_name event = Ok (base, head, separator)
    ∧ git directory run_git (&"diff") (base ++ separator ++ head) = Ok raw
    ∧ (∃ shallow, git directory run_git (&"shallow") [] = Ok shallow ∧ byte_strip (byte_values shallow) = &"false")
    ∧ (∀ r, r ∈ [base; head] → ∃ kind, git directory run_git (&"commit-type") r = Ok kind ∧ byte_strip (byte_values kind) = &"commit")
    ∧ entries ≠ [] ∧ byte_values raw = render entries
    ∧ ∀ e, e ∈ entries → ordinary e.1 ∧ ∃ name, decode (byte_of <$> e.2) = Ok name
        ∧ VStr name ∉ list_value required ∧ safe_document name.

Lemma commits_ok_true l :
  commits_ok directory run_git l = Ok true →
  ∀ r, r ∈ l → ∃ kind, git directory run_git (&"commit-type") r = Ok kind ∧ byte_strip (byte_values kind) = &"commit".
Proof.
  induction l as [|r0 l IH]; [by intros _ r ?%elem_of_nil|]. cbn [commits_ok]. intros (kind & Hk & Hl)%bind_ok.
  case_bool_decide; [|done]. intros r [->|Hr]%elem_of_cons; [by exists kind|auto].
Qed.

Lemma classify_skip event_name event documentation required :
  ∃ d, classify directory run_git event_name event documentation required false = Ok d
  ∧ (run d = false → checked_skip event_name event required).
Proof.
  unfold classify. destruct (bool_decide (event_name ∈ EVENTS)); cbn [negb]; [|by eexists].
  destruct (is_list documentation && _); cbn [negb]; [|by eexists].
  destruct (is_list required && forallb literal_path _) eqn:Ereq; cbn [negb]; [|by eexists].
  destruct (event_revisions event_name event) as [[[base head] separator]|e] eqn:Erev; cycle 1.
  { rewrite (event_revisions_raises _ _ _ Erev). by eexists. }
  set (explicit := str_value <$> list_value documentation).
  destruct (classify_repository _ _ _ _ _ _ _) as [d|e] eqn:Er; cycle 1.
  { unfold catch. rewrite (classify_repository_raises _ _ _ _ _ _ Er). by eexists. }
  exists d. split; [done|]. intros Hrun. unfold classify_repository in Er.
  apply bind_ok in Er as (shallow & Hs & Er). case_bool_decide as Hshallow; cbn [negb] in Er; [|by injection Er as <-].
  apply bind_ok in Er as (commits & Hc & Er). destruct commits; cbn [negb] in Er; [|by injection Er as <-].
  apply bind_ok in Er as (raw & Hraw & Er).
  destruct (proj1 (classify_diff_skip raw explicit (str_value <$> list_value required))) as (_ & entries & Hne & Hrender & Hall);
    [by exists d|].
  exists base, head, separator, raw, entries. split_and!; [done..|by exists shallow|by apply commits_ok_true|done|done|].
  intros e He. rewrite Forall_forall in Hall. destruct (Hall e He) as (_ & _ & Ho & name & Hname & Hreq & Hdoc).
  split; [done|]. exists name. split_and!; [done| |by eapply documentation_path_safe].
  intros Hin. apply Hreq. by apply (list_elem_of_fmap_2 str_value) in Hin.
Qed.
End git.

Lemma json_paths_raises value repeated e :
  json_paths value repeated = Raise e → is_path_error (exn_kind e) = true.
Proof.
  unfold json_paths. pose proof (json_loads_total last_wins value) as Ht.
  destruct (json_loads last_wins value) as [v|e'].
  - cbn [mbind outcome_bind]. destruct v; by intros [= <-].
  - intros [= <-]. destruct Ht as [Hv|[entries [=]]]. by rewrite Hv.
Qed.

Lemma json_paths_repeated value repeated v : json_paths value repeated = Ok v → ∀ x, x ∈ repeated → x ∈ list_value v.
Proof.
  unfold json_paths. intros (l & _ & Hl)%bind_ok. destruct l; try done. injection Hl as <-. intros x Hx.
  cbn. apply elem_of_app. by left.
Qed.
End scope.

(** heavy jobs are skipped only for documentation.  Whatever the arguments, the
    event file and Git answer, the classification is a decision; and it is to skip
    only when the checkout is complete, both revisions are commits, and every
    record of their whole diff is an ordinary file added, deleted or modified whose
    path is not a required one and is a documentation file outside every hidden or
    protected directory. *)
Theorem skip_only_documentation `{UnicodeCase} directory run_git args event_file
    (Hdirectory : raises is_git_error directory) (Hgit : ∀ arguments, raises is_git_error (run_git arguments))
    (Hfile : raises is_file_error event_file) :
  ∃ d, from_arguments directory run_git args event_file = Ok d
  ∧ (run d = false →
     forced args = false
     ∧ ∃ event required, checked_skip directory run_git (event_name args) event required
       ∧ ∀ path, path ∈ require_paths args → path ∈ list_value required).
Proof.
  unfold from_arguments. destruct (forced args || _) eqn:Ef.
  { unfold classify. destruct (forced args); [by eexists|]. cbn [orb] in Ef. rewrite Ef. by eexists. }
  apply orb_false_iff in Ef as [Ef _].
  destruct (json_paths (documentation_paths_json args) _) as [documentation|e] eqn:Ed; cycle 1.
  { rewrite (json_paths_raises _ _ _ Ed). by eexists. }
  destruct (json_paths (required_paths_json args) _) as [required|e] eqn:Er; cycle 1.
  { rewrite (json_paths_raises _ _ _ Er). by eexists. }
  destruct (text ← event_file; json_loads last_wins text) as [event|e] eqn:Ee; cycle 1.
  { enough (is_file_error (exn_kind e) = true) as -> by by eexists.
    destruct event_file as [text|e']; [|injection Ee as <-; by apply Hfile]. cbn [mbind outcome_bind] in Ee.
    pose proof (json_loads_total last_wins text) as Ht. rewrite Ee in Ht.
    destruct Ht as [Hv|[entries [=]]]. by rewrite Hv. }
  destruct (classify_skip directory run_git Hdirectory Hgit (event_name args) event documentation required) as (d & Hd & Hskip).
  exists d. split; [done|]. intros Hrun. split; [done|]. exists event, required. split; [auto|].
  by eapply json_paths_repeated.
Qed.

(** ** A concrete repository *)

Definition demo_revision (c : string) : pystr := replicate 40 (chr c).
Definition demo_record (path : pystr) : bytes :=
  byte_of <$> (&":100644 100644 " ++ demo_revision "1" ++ &" " ++ demo_revision "2" ++ &" M" ++ [0%N] ++ path ++ [0%N]).
Definition demo_git (diff : bytes) (arguments : list pystr) : outcome bytes :=
  Ok (if bool_decide (&"rev-parse" ∈ arguments) then byte_of <$> &"false" ++ [10%N]
      else if bool_decide (&"cat-file" ∈ arguments) then byte_of <$> &"commit" ++ [10%N]
      else diff).
Definition quoted (s : pystr) : pystr := [34%N] ++ s ++ [34%N].
Definition demo_push : pystr :=
  &"{" ++ quoted (&"before") ++ &":" ++ quoted (demo_revision "a") ++ &"," ++ quoted (&"after") ++ &":"
  ++ quoted (demo_revision "b") ++ &"}".
Definition demo_arguments : arguments := Arguments_ (&"push") [] (&"[]") [VStr (&"docs/api.md")] (&"[]") false.

Example demo_scopes :
  let scope path := from_arguments (H := ascii_case) (Ok true) (demo_git (demo_record path)) demo_arguments (Ok demo_push) in
  (scope (&"docs/guide.md"), scope (&"README.rst"), scope (&"docs/api.md"), scope (&"docs/Tests/x.md"), scope (&"src/x.md"))
  = (Ok (Decision false "documentation-only"), Ok (Decision false "documentation-only"),
     Ok (Decision true "required-path-change"), Ok (Decision true "non-documentation-change"),
     Ok (Decision true "non-documentation-change")).
Proof. vm_compute. reflexivity. Qed.

Lemma skip_only_documentation_witness :
  let git := demo_git (demo_record (&"docs/guide.md")) in
  from_arguments (H := ascii_case) (Ok true) git demo_arguments (Ok demo_push) = Ok (Decision false "documentation-only")
  ∧ ∃ event required, checked_skip (H := ascii_case) (Ok true) git (&"push") event required.
Proof.
  intros git.
  assert (from_arguments (H := ascii_case) (Ok true) git demo_arguments (Ok demo_push) = Ok (Decision false "documentation-only"))
    as Hrun by (vm_compute; reflexivity).
  split; [exact Hrun|].
  destruct (skip_only_documentation (H := ascii_case) (Ok true) git demo_arguments (Ok demo_push)
    (raises_ok is_git_error true) (λ _, raises_ok is_git_error _) (raises_ok is_file_error demo_push)) as (d & Hd & Hskip).
  rewrite Hrun in Hd. injection Hd as <-. destruct (Hskip eq_refl) as (_ & event & required & Hc & _).
  exists event, required. exact Hc.
Defined.
