(* ===== verification/ReleaseValidation.v ===== *)
(** * Release validation gates ([scripts/release_validation.py])

    The workflow policy of a repository, the classification of the event that
    started a run, and the gate over the results of its jobs.  The policy, the event
    and the results are the parsed documents, as dynamic values. *)

From S2P Require Import Prelude PyStr PyDict PyRegex PyVal PyJson VersionPlan Release ChangeScope.
#[local] Open Scope Z_scope.

Definition value_error_of (text : string) : exn := Exn EValue text.

(** [for x in v] *)
Definition iterate (v : pyval) : outcome (list pyval) :=
  match v with
  | VList l => Ok l
  | VStr s => Ok ((λ c, VStr [c]) <$> s)
  | VDict d => Ok (VStr <$> dict_keys d)
  | _ => Raise (type_error_of "object is not iterable")
  end.

Definition WORKFLOW : pystr := &"release-quality-gate.yml".
Definition reserved_workflows : list pystr :=
  [WORKFLOW; &"quality-gate.yml"; &"release-pipeline.yml"; &"release-build.yml"].
Definition workflow_name : regex :=
  (plus (Char (λ c, ascii_alnum c || one_of "_-" c)) ⋅ chars (&".y") ⋅ opt (chars (&"a")) ⋅ chars (&"ml"))%re.

(** One entry of the beta validators. *)
Definition validator_ok (v : pyval) : bool :=
  str_match workflow_name v && negb (bool_decide (str_value v ∈ reserved_workflows)).

(** [channel_workflows] *)
Definition channel_workflows (policy : pyobject) : outcome (option (list pystr)) :=
  match dict_get (&"channel_validation_workflows") policy with
  | None => Ok None
  | Some config =>
    let d := match config with VDict d => d | _ => [] end in
    _ ← check (is_dict config && same_keys (dict_keys d) [&"beta"]
               && py_eq (get_default (&"mode") (VStr (&"release")) policy) (VStr (&"release"))
               && py_eq (get_default (&"ci_execution") (VStr (&"github")) policy) (VStr (&"github"))
               && bool_decide (get_default (&"single_entry_ci") VNone policy = VBool true)
               && is_dict (get_default (&"versioning") VNone policy))
          (value_error_of "channel_validation_workflows requires versioned single-entry releases and only beta");
    names ← item (&"beta") d;
    let l := list_value names in
    _ ← check (is_list names && negb (bool_decide (l = [])) && forallb validator_ok l
               && bool_decide (NoDup (str_value <$> l)))
          (value_error_of "Beta validation requires unique, nonempty local validator filenames");
    Ok (Some (str_value <$> l))
  end.

(** [profile] *)
Definition profile (policy : pyobject) (channel : pystr) : outcome (option pyobject) :=
  beta ← channel_workflows policy;
  match beta with
  | None => Ok None
  | Some beta =>
    _ ← check (bool_decide (channel ∈ CHANNELS)) (value_error_of "Unknown release validation channel");
    workflows ← (if bool_decide (channel = &"beta") then Ok (VList (VStr <$> beta))
                 else item (&"validation_workflows") policy);
    Ok (Some [(&"schema", VInt 1); (&"channel", VStr channel); (&"workflows", workflows)])
  end.

(** The jobs of a list of workflows, numbered. *)
Definition numbered (prefix : pystr) {A} (l : list A) : list pystr := imap (λ i _, prefix ++ str_of_int (Z.of_nat i)) l.

Definition set_all (names : list pystr) (result : pystr) (results : pydict pystr pystr) : pydict pystr pystr :=
  fold_left (λ d name, dict_set name result d) names results.

Definition gate_jobs : list pystr := [&"scope"; &"workflow-contracts"; &"release-contracts"].

Definition coverage_job (report : pyval) : outcome pystr :=
  name ← subscript report (&"name");
  match name with
  | VStr s => Ok (&"coverage-" ++ s)
  | _ => Raise (type_error_of "can only concatenate str")
  end.

(** [expected_results] *)
Definition expected_results (policy : pyobject) (channel : pystr) : outcome (pydict pystr pystr) :=
  beta ← channel_workflows policy;
  match beta with
  | Some beta =>
    _ ← check (bool_decide (channel ∈ CHANNELS))
          (value_error_of "Release validation needs an explicit policy and known channel");
    let is_beta := bool_decide (channel = &"beta") in
    let ordinary := if is_beta then &"skipped" else &"success" in
    let selected := if is_beta then &"success" else &"skipped" in
    workflows ← item (&"validation_workflows") policy;
    checks ← iterate workflows;
    coverage ← as_dict (get_default (&"coverage") (VDict []) policy);
    reports ← iterate (get_default (&"reports") (VList []) coverage);
    covered ← collect coverage_job reports;
    Ok (set_all covered ordinary
          (set_all (numbered (&"beta-check-") beta) selected
             (set_all (numbered (&"check-") checks) ordinary (set_all gate_jobs (&"success") []))))
  | None => Raise (value_error_of "Release validation needs an explicit policy and known channel")
  end.

(** A job whose result differs from the expected one. *)
Definition job_failed (expected : pydict pystr pystr) (job : pystr * pyval) : outcome bool :=
  result ← as_dict job.2;
  match dict_get job.1 expected with
  | Some r => Ok (negb (py_eq (get_default (&"result") VNone result) (VStr r)))
  | None => Raise (Exn EKey "")
  end.

(** [check_results] *)
Definition check_results (policy : pyobject) (channel : pystr) (results : pyobject) : outcome unit :=
  expected ← expected_results policy channel;
  _ ← check (same_keys (dict_keys results) (dict_keys expected)) (value_error_of "Release validation job inventory differs");
  v ← item (&"scope") results;
  scope ← as_dict v;
  outputs ← as_dict (get_default (&"outputs") (VDict []) scope);
  _ ← check (py_eq (get_default (&"run") VNone outputs) (VStr (&"true")))
        (value_error_of "Release validation scope must run real checks");
  failed ← collect (job_failed expected) results;
  check (negb (existsb id failed)) (value_error_of "Release validation did not pass").

(** [check_event]; the payload is the parsed event file. *)
Definition check_event (event : option pystr) (payload : outcome pyval) (channel : pystr) : outcome unit :=
  expected ←
    (if bool_decide (event = Some (&"workflow_dispatch")) then
       v ← payload;
       d ← as_dict v;
       inputs ← as_dict (get_default (&"inputs") (VDict []) d);
       Ok (get_default (&"channel") VNone inputs)
     else if bool_decide (event = Some (&"push")) then Ok (VStr (&"beta"))
     else if bool_decide (event = Some (&"schedule")) then Ok (VStr (&"nightly"))
     else Ok VNone);
  check (bool_decide (channel ∈ CHANNELS) && py_eq expected (VStr channel))
    (value_error_of "Validation channel differs from the release event").

(** [check_run_jobs] *)
Definition profile_marker (job : pyobject) : bool :=
  startswith (&"checks / Validation profile (") (py_str (get_default (&"name") (VStr []) job)).

Definition job_passed (sha : pystr) (job : pyobject) : bool :=
  py_eq (get_default (&"head_sha") VNone job) (VStr sha)
  && py_eq (get_default (&"status") VNone job) (VStr (&"completed"))
  && py_eq (get_default (&"conclusion") VNone job) (VStr (&"success")).

Definition required_job (jobs : list pyobject) (sha name : pystr) : outcome unit :=
  match filter (λ job, py_eq (get_default (&"name") VNone job) (VStr name) = true) jobs with
  | [job] => check (job_passed sha job)
               (value_error_of "Release validation profile and CI gate must succeed at the source SHA")
  | _ => Raise (value_error_of "Release validation profile and CI gate must succeed at the source SHA")
  end.

Definition check_run_jobs (jobs : list pyobject) (channel sha : pystr) : outcome unit :=
  _ ← check (length (filter (λ job, profile_marker job = true) jobs) =? 1)%nat
        (value_error_of "Release validation must have exactly one channel profile");
  for_each (required_job jobs sha) [&"checks / CI gate"; &"checks / Validation profile (" ++ channel ++ &")"].

(** [main]; the policy, the event and the results as read. *)
Definition validation_main (policy : pyobject) (action channel : pystr) (event : option pystr) (payload : outcome pyval)
    (results : outcome pyobject) : outcome pystr :=
  _ ← profile policy channel;
  _ ← check_event event payload channel;
  _ ← (if bool_decide (action = &"gate") then r ← results; check_results policy channel r else Ok tt);
  Ok (&"Release validation profile: " ++ channel).

(** ** The release gate fails closed

    A gate that passes has seen every job of the selected profile succeed. *)

Lemma set_all_get names result results k :
  dict_get k (set_all names result results) = if bool_decide (k ∈ names) then Some result else dict_get k results.
Proof.
  unfold set_all. revert results. induction names as [|n names IH]; intros results; cbn [fold_left].
  { by rewrite bool_decide_false by apply not_elem_of_nil. }
  rewrite IH, dict_get_set. destruct (decide (k ∈ names)) as [Hk|Hk].
  - rewrite !bool_decide_true; [done|by apply list_elem_of_further|done].
  - rewrite (bool_decide_false (k ∈ names)) by done. destruct (decide (k = n)) as [->|Hn].
    + rewrite bool_decide_true; [done|]. apply list_elem_of_here.
    + rewrite bool_decide_false; [done|]. by intros [?|?]%elem_of_cons.
Qed.

Lemma elem_of_numbered {A} prefix (l : list A) k :
  k ∈ numbered prefix l ↔ ∃ i, (i < length l)%nat ∧ k = prefix ++ str_of_int (Z.of_nat i).
Proof.
  unfold numbered. rewrite list_elem_of_lookup. setoid_rewrite list_lookup_imap. split.
  - intros [i Hi]. destruct (l !! i) eqn:E; [|done]. injection Hi as <-. exists i. split; [by eapply lookup_lt_Some|done].
  - intros (i & Hi & ->). exists i. destruct (lookup_lt_is_Some_2 l i Hi) as [x ->]. done.
Qed.

(** The jobs a profile selects and those it leaves out. *)
Definition selected_jobs (channel : pystr) (beta : list pystr) (checks : list pyval) (covered : list pystr) : list pystr :=
  gate_jobs ++ (if bool_decide (channel = &"beta") then numbered (&"beta-check-") beta
                else numbered (&"check-") checks ++ covered).
Definition skipped_jobs (channel : pystr) (beta : list pystr) (checks : list pyval) (covered : list pystr) : list pystr :=
  if bool_decide (channel = &"beta") then numbered (&"check-") checks ++ covered else numbered (&"beta-check-") beta.

Definition has_result (results : pyobject) (result job : pystr) : Prop :=
  ∃ d, dict_get job results = Some (VDict d) ∧ get_default (&"result") VNone d = VStr result.

(** The four families of job names are told apart by their first letters. *)
Definition family (k : pystr) : N :=
  match k with
  | a :: b :: _ => if bool_decide (a = chr "c" ∧ b = chr "h") then 1
                   else if bool_decide (a = chr "b") then 2
                   else if bool_decide (a = chr "c" ∧ b = chr "o") then 3 else 0
  | _ => 0
  end.

Lemma family_numbered {A} (l : list A) k :
  (k ∈ numbered (&"check-") l → family k = 1%N) ∧ (k ∈ numbered (&"beta-check-") l → family k = 2%N).
Proof. split; rewrite elem_of_numbered; intros (i & _ & ->); vm_compute; reflexivity. Qed.

Lemma family_covered reports covered k : collect coverage_job reports = Ok covered → k ∈ covered → family k = 3%N.
Proof.
  intros Hc%collect_ok Hk. apply list_elem_of_lookup in Hk as [i Hi].
  destruct (Forall2_lookup_r _ _ _ _ _ Hc Hi) as (x & _ & Hx). unfold coverage_job in Hx.
  apply bind_ok in Hx as (name & _ & Hx). destruct name; try done. injection Hx as <-. vm_compute. reflexivity.
Qed.

Lemma family_gate k : k ∈ gate_jobs → family k = 0%N.
Proof. unfold gate_jobs. rewrite !elem_of_cons. intros [->|[->|[->|?%elem_of_nil]]]; done. Qed.

Lemma families k (checks : list pyval) (beta : list pystr) reports covered :
  collect coverage_job reports = Ok covered →
  (k ∈ numbered (&"check-") checks → family k = 1%N) ∧ (k ∈ numbered (&"beta-check-") beta → family k = 2%N)
  ∧ (k ∈ covered → family k = 3%N) ∧ (k ∈ gate_jobs → family k = 0%N).
Proof.
  intros Hc. split_and!; [apply family_numbered|apply family_numbered|by eapply family_covered|apply family_gate].
Qed.

(** A job of two families. *)
Ltac by_family :=
  repeat match goal with F : ?k ∈ ?X → family ?k = _, H : ?k ∈ ?X |- _ => specialize (F H) end; congruence.

(** The coverage jobs of the policy: one for each of its reports, by name. *)
Definition coverage_jobs (policy : pyobject) (covered : list pystr) : Prop :=
  ∃ coverage reports, get_default (&"coverage") (VDict []) policy = VDict coverage
    ∧ iterate (get_default (&"reports") (VList []) coverage) = Ok reports
    ∧ Forall2 (λ report job, ∃ s, subscript report (&"name") = Ok (VStr s) ∧ job = &"coverage-" ++ s) reports covered.

Lemma coverage_jobs_ok reports covered :
  collect coverage_job reports = Ok covered →
  Forall2 (λ report job, ∃ s, subscript report (&"name") = Ok (VStr s) ∧ job = &"coverage-" ++ s) reports covered.
Proof.
  intros Hc%collect_ok. eapply Forall2_impl; [exact Hc|]. intros report job Hj. cbn in Hj. unfold coverage_job in Hj.
  apply bind_ok in Hj as (name & Hn & Hj). destruct name as [| | | |s| | |]; try done. exists s. split; [done|]. by injection Hj as <-.
Qed.

(** What [expected_results] asks of each job. *)
Lemma expected_results_ok policy channel expected :
  expected_results policy channel = Ok expected →
  ∃ beta workflows checks covered,
    channel_workflows policy = Ok (Some beta) ∧ channel ∈ CHANNELS
    ∧ item (&"validation_workflows") policy = Ok workflows ∧ iterate workflows = Ok checks
    ∧ coverage_jobs policy covered
    ∧ (∀ k, k ∈ selected_jobs channel beta checks covered → dict_get k expected = Some (&"success"))
    ∧ (∀ k, k ∈ skipped_jobs channel beta checks covered → dict_get k expected = Some (&"skipped"))
    ∧ (∀ k, is_Some (dict_get k expected) →
         k ∈ selected_jobs channel beta checks covered ++ skipped_jobs channel beta checks covered).
Proof.
  intros H. unfold expected_results in H. apply bind_ok in H as ([beta|] & Hbeta & H); [|done].
  apply bind_ok in H as ([] & Hch%check_ok%bool_decide_eq_true & H). cbv zeta in H.
  apply bind_ok in H as (workflows & Hw & H). apply bind_ok in H as (checks & Hchecks & H).
  apply bind_ok in H as (coverage & Hcd & H). apply bind_ok in H as (reports & Hrep & H).
  apply bind_ok in H as (covered & Hcov & H). apply (inj Ok) in H as <-.
  exists beta, workflows, checks, covered. do 4 (split; [done|]).
  split; [exists coverage, reports; split; [by destruct (get_default (&"coverage") _ policy); try done; injection Hcd as ->|split; [done|by apply coverage_jobs_ok]]|].
  split_and!; intros k Hk; unfold selected_jobs, skipped_jobs in *.
  - destruct (families k checks beta reports covered Hcov) as (H1 & H2 & H3 & H0). rewrite !set_all_get.
    rewrite elem_of_app in Hk. destruct (bool_decide (channel = _)); rewrite ?elem_of_app in Hk;
      destruct_or? Hk; repeat (case_bool_decide; try done); by_family.
  - destruct (families k checks beta reports covered Hcov) as (H1 & H2 & H3 & H0). rewrite !set_all_get.
    destruct (bool_decide (channel = _)); rewrite ?elem_of_app in Hk;
      destruct_or? Hk; repeat (case_bool_decide; try done); by_family.
  - rewrite !set_all_get in Hk. rewrite !elem_of_app. destruct (bool_decide (channel = _)); rewrite ?elem_of_app;
      repeat (case_bool_decide; [tauto|]); by destruct Hk.
Qed.

Lemma as_dict_ok v d : as_dict v = Ok d → v = VDict d.
Proof. destruct v; cbn; try done. by intros [= ->]. Qed.

Lemma get_default_str k s d : get_default k VNone d = VStr s → dict_get k d = Some (VStr s).
Proof. unfold get_default. destruct (dict_get k d); cbn; [by intros ->|done]. Qed.

(** The jobs of the inventory have the results expected of them. *)
Lemma inventory_ok results expected failed :
  same_keys (dict_keys results) (dict_keys expected) = true →
  collect (job_failed expected) results = Ok failed → existsb id failed = false →
  (∀ job, job ∈ dict_keys results ↔ is_Some (dict_get job expected))
  ∧ ∀ job result, dict_get job expected = Some result → has_result results result job.
Proof.
  intros [H1 H2]%andb_true_iff Hf%collect_ok Hno. rewrite forallb_forall in H1, H2.
  assert (∀ job, job ∈ dict_keys results ↔ is_Some (dict_get job expected)) as Hkeys.
  { intros job. rewrite <-dict_keys_get. split; intros Hj%list_elem_of_In.
    - by apply H1, bool_decide_eq_true in Hj.
    - by apply H2, bool_decide_eq_true in Hj. }
  split; [done|]. intros job result Hr.
  assert (job ∈ dict_keys results) as [v Hv]%dict_keys_get by (apply Hkeys; by eexists).
  pose proof (dict_get_elem _ _ _ Hv) as Hin. apply list_elem_of_lookup in Hin as [i Hi].
  destruct (Forall2_lookup_l _ _ _ _ _ Hf Hi) as (b & Hb & Hj). unfold job_failed in Hj.
  apply bind_ok in Hj as (d & Hd%as_dict_ok & Hj). cbn [fst snd] in *. rewrite Hr in Hj. apply (inj Ok) in Hj. subst v.
  exists d. split; [done|]. apply py_eq_str.
  destruct (py_eq _ _); [done|]. cbn in Hj. subst b. apply list_elem_of_lookup_2 in Hb.
  assert (existsb id failed = true) by (apply existsb_exists; exists true; by rewrite <-list_elem_of_In). congruence.
Qed.

(** C40: a release gate that passes has seen the whole selected profile succeed.  The
    jobs reported are exactly the gate jobs and the ones the policy names: a check for
    each of its validation workflows, a beta check for each of its beta workflows and a
    coverage job for each of its coverage reports; every job of
    the selected profile and every gate job has the result success, every job of the
    other profile was skipped, and the scope really ran the checks: a missing, failed,
    cancelled or unexpectedly skipped job stops the release. *)
Theorem release_gate_fails_closed policy channel results :
  check_results policy channel results = Ok tt →
  ∃ beta workflows checks covered,
    channel_workflows policy = Ok (Some beta) ∧ channel ∈ CHANNELS
    ∧ item (&"validation_workflows") policy = Ok workflows ∧ iterate workflows = Ok checks
    ∧ coverage_jobs policy covered
    ∧ (∀ job, job ∈ dict_keys results ↔
         job ∈ selected_jobs channel beta checks covered ++ skipped_jobs channel beta checks covered)
    ∧ (∀ job, job ∈ selected_jobs channel beta checks covered → has_result results (&"success") job)
    ∧ (∀ job, job ∈ skipped_jobs channel beta checks covered → has_result results (&"skipped") job)
    ∧ ∃ scope outputs, dict_get (&"scope") results = Some (VDict scope)
        ∧ dict_get (&"outputs") scope = Some (VDict outputs) ∧ dict_get (&"run") outputs = Some (VStr (&"true")).
Proof.
  intros H. unfold check_results in H. apply bind_ok in H as (expected & Hexp & H).
  apply bind_ok in H as ([] & Hkeys%check_ok & H). apply bind_ok in H as (v & Hv & H).
  apply bind_ok in H as (scope & Hscope & H). apply bind_ok in H as (outputs & Hout & H).
  apply bind_ok in H as ([] & Hrun%check_ok%py_eq_str & H). apply bind_ok in H as (failed & Hfailed & H%check_ok).
  destruct (expected_results_ok _ _ _ Hexp) as (beta & workflows & checks & covered & Hb & Hch & Hw & Hc & Hcov & Hsel & Hskip & Hall).
  apply negb_true_iff in H. destruct (inventory_ok _ _ _ Hkeys Hfailed H) as [Hinv Hres].
  exists beta, workflows, checks, covered. do 5 (split; [done|]). split; [|split; [|split]].
  - intros job. rewrite Hinv. split; [apply Hall|]. rewrite elem_of_app. intros [Hj|Hj]; [by rewrite Hsel|by rewrite Hskip].
  - intros job Hj. by apply Hres, Hsel.
  - intros job Hj. by apply Hres, Hskip.
  - apply as_dict_ok in Hscope as ->. apply as_dict_ok in Hout. apply get_default_str in Hrun.
    exists scope, outputs. split_and!; [|..|done].
    + unfold item in Hv. by destruct (dict_get (&"scope") results); [injection Hv as ->|].
    + unfold get_default in Hout. destruct (dict_get (&"outputs") scope); cbn in Hout; [by rewrite Hout|].
      injection Hout as <-. done.
Qed.

(** A policy with one ordinary and one beta validator, and the results of a stable
    release. *)
Definition demo_gate_policy : pyobject :=
  [(&"single_entry_ci", VBool true); (&"versioning", VDict []); (&"validation_workflows", VList [VStr (&"ci.yml")]);
   (&"coverage", VDict [(&"reports", VList [VDict [(&"name", VStr (&"unit"))]])]);
   (&"channel_validation_workflows", VDict [(&"beta", VList [VStr (&"beta.yml")])])].

Definition demo_job (result : string) : pyval := VDict [(&"result", VStr (lit result))].
Definition demo_gate_results : pyobject :=
  [(&"scope", VDict [(&"result", VStr (&"success")); (&"outputs", VDict [(&"run", VStr (&"true"))])]);
   (&"workflow-contracts", demo_job "success"); (&"release-contracts", demo_job "success");
   (&"check-0", demo_job "success"); (&"beta-check-0", demo_job "skipped"); (&"coverage-unit", demo_job "success")].

Lemma release_gate_fails_closed_witness :
  check_results demo_gate_policy (&"stable") demo_gate_results = Ok tt
  ∧ ∃ beta workflows checks covered,
      channel_workflows demo_gate_policy = Ok (Some beta)
      ∧ item (&"validation_workflows") demo_gate_policy = Ok workflows ∧ iterate workflows = Ok checks
      ∧ coverage_jobs demo_gate_policy covered
      ∧ ∀ job, job ∈ selected_jobs (&"stable") beta checks covered → has_result demo_gate_results (&"success") job.
Proof.
  assert (check_results demo_gate_policy (&"stable") demo_gate_results = Ok tt) as H by (vm_compute; reflexivity).
  split; [exact H|].
  destruct (release_gate_fails_closed demo_gate_policy (&"stable") demo_gate_results H)
    as (beta & workflows & checks & covered & Hb & _ & Hw & Hc & Hcov & _ & Hs & _).
  by exists beta, workflows, checks, covered.
Defined.
