(* ===== verification/PyMatch.v ===== *)
(** * Searching with regular expressions ([re.match], [re.finditer])

    A backtracking matcher that lists the texts a pattern can leave unread in the
    order Python tries them, so the first one ends Python's match; [runs_sound]
    and [runs_complete] relate it to the language of the pattern.  A search walks
    the start positions from left to right and goes on after each match. *)

From S2P Require Import Prelude PyStr PyRegex.

Inductive pattern : Type :=
  | PEps
  | PChar (f : N → bool)
  | PSeq (p q : pattern)
  | PAlt (p q : pattern)
  | PStar (p : pattern)
  | PLazy (p : pattern).

Definition pchars (s : pystr) : pattern := foldr (λ c p, PSeq (PChar (N.eqb c)) p) PEps s.
Definition popt (p : pattern) : pattern := PAlt p PEps.
Definition pplus (p : pattern) : pattern := PSeq p (PStar p).
Fixpoint pseq (l : list pattern) : pattern := match l with [] => PEps | [p] => p | p :: l => PSeq p (pseq l) end.

(** The rests after any number of rounds of [f], more rounds first. *)
Section rounds.
Context (f : pystr → list pystr) (greedy : bool).
Fixpoint rounds (n : nat) (s : pystr) : list pystr :=
  match n with
  | O => [s]
  | S n =>
    let more := f s ≫= λ r, if length r <? length s then rounds n r else [] in
    if greedy then more ++ [s] else s :: more
  end.
End rounds.

Fixpoint runs (p : pattern) (s : pystr) : list pystr :=
  match p with
  | PEps => [s]
  | PChar f => match s with c :: r => if f c then [r] else [] | [] => [] end
  | PSeq p q => runs p s ≫= runs q
  | PAlt p q => runs p s ++ runs q s
  | PStar p => rounds (runs p) true (length s) s
  | PLazy p => rounds (runs p) false (length s) s
  end.

(** The language of a pattern: laziness does not matter to it. *)
Fixpoint language (p : pattern) : regex :=
  match p with
  | PEps => Eps
  | PChar f => Char f
  | PSeq p q => Seq (language p) (language q)
  | PAlt p q => Alt (language p) (language q)
  | PStar p | PLazy p => Star (language p)
  end.

Lemma rounds_sound f greedy r n s t :
  (∀ s t, t ∈ f s → ∃ w, s = w ++ t ∧ matches r w) →
  t ∈ rounds f greedy n s → ∃ w, s = w ++ t ∧ matches (Star r) w.
Proof.
  intros Hf. revert s. induction n as [|n IH]; intros s; cbn [rounds].
  { intros ->%list_elem_of_singleton. exists []. split; [done|constructor]. }
  assert (t ∈ (f s ≫= λ r, if length r <? length s then rounds f greedy n r else []) ∨ t = s →
          ∃ w, s = w ++ t ∧ matches (Star r) w) as H.
  { intros [(u & Ht & Hu)%list_elem_of_bind| ->]; [|exists []; split; [done|constructor]].
    destruct (_ <? _); [|by apply elem_of_nil in Ht].
    destruct (Hf _ _ Hu) as (w & -> & Hw). destruct (IH _ Ht) as (w' & -> & Hw').
    exists (w ++ w'). split; [by rewrite app_assoc|]. by constructor. }
  destruct greedy; [rewrite elem_of_app, list_elem_of_singleton|rewrite elem_of_cons]; naive_solver.
Qed.

Lemma runs_sound p s t : t ∈ runs p s → ∃ w, s = w ++ t ∧ matches (language p) w.
Proof.
  revert s t. induction p as [|f|p IHp q IHq|p IHp q IHq|p IHp|p IHp]; intros s t; cbn [runs language].
  - intros ->%list_elem_of_singleton. exists []. split; [done|constructor].
  - destruct s as [|c s]; [by intros ?%elem_of_nil|]. destruct (f c) eqn:E; [|by intros ?%elem_of_nil].
    intros ->%list_elem_of_singleton. exists [c]. split; [done|by constructor].
  - intros (u & Ht & Hu)%list_elem_of_bind. destruct (IHp _ _ Hu) as (w & -> & Hw).
    destruct (IHq _ _ Ht) as (w' & -> & Hw'). exists (w ++ w'). split; [by rewrite app_assoc|by constructor].
  - intros [Ht|Ht]%elem_of_app.
    + destruct (IHp _ _ Ht) as (w & -> & Hw). exists w. split; [done|]. by apply matches_alt_iff; left.
    + destruct (IHq _ _ Ht) as (w & -> & Hw). exists w. split; [done|]. by apply matches_alt_iff; right.
  - by apply rounds_sound.
  - by apply rounds_sound.
Qed.

Lemma matches_star_cut r w : matches (Star r) w → w = [] ∨ ∃ u v, w = u ++ v ∧ u ≠ [] ∧ matches r u ∧ matches (Star r) v.
Proof.
  destruct w as [|c w]; [by left|]. intros (u & v & -> & Hu & Hv)%matches_star_split.
  right. exists (c :: u), v. done.
Qed.

Lemma rounds_complete f greedy r :
  (∀ w t, matches r w → t ∈ f (w ++ t)) →
  ∀ n w t, matches (Star r) w → length w ≤ n → t ∈ rounds f greedy n (w ++ t).
Proof.
  intros Hf n. induction n as [|n IH]; intros w t Hw Hn; cbn [rounds].
  { destruct w; [|cbn in Hn; lia]. by apply list_elem_of_singleton. }
  assert (t = w ++ t ∨ t ∈ (f (w ++ t) ≫= λ r, if length r <? length (w ++ t) then rounds f greedy n r else [])) as H.
  { destruct (matches_star_cut _ _ Hw) as [-> |(u & v & -> & Hu & Hr & Hv)]; [by left|right].
    assert (1 ≤ length u) by (destruct u; [done|cbn; lia]). rewrite length_app in Hn.
    apply list_elem_of_bind. exists (v ++ t). rewrite <-app_assoc. split; [|by apply Hf].
    rewrite !length_app. replace (_ <? _) with true by (symmetry; apply Nat.ltb_lt; lia). apply IH; [done|lia]. }
  destruct greedy; [rewrite elem_of_app, list_elem_of_singleton|rewrite elem_of_cons]; naive_solver.
Qed.

Lemma runs_complete p w t : matches (language p) w → t ∈ runs p (w ++ t).
Proof.
  revert w t. induction p as [|f|p IHp q IHq|p IHp q IHq|p IHp|p IHp]; intros w t; cbn [runs language].
  - intros ->%matches_eps_iff. by apply list_elem_of_singleton.
  - intros (c & -> & Hc)%matches_char_iff. cbn. rewrite Hc. by apply list_elem_of_singleton.
  - intros (u & v & -> & Hu & Hv)%matches_seq_iff. apply list_elem_of_bind. exists (v ++ t). rewrite <-app_assoc.
    split; [by apply IHq|by apply IHp].
  - intros [Hw|Hw]%matches_alt_iff; apply elem_of_app; [left|right]; auto.
  - intros Hw. apply (rounds_complete _ _ (language p)); [done..|]. rewrite length_app. lia.
  - intros Hw. apply (rounds_complete _ _ (language p)); [done..|]. rewrite length_app. lia.
Qed.

(** ** Matching groups, and searching *)

(** The rests after each group of a match at the start of [s]. *)
Fixpoint group_runs (groups : list pattern) (s : pystr) : list (list pystr) :=
  match groups with
  | [] => [[]]
  | p :: groups => runs p s ≫= λ r, (r ::.) <$> group_runs groups r
  end.

(** [re.match]: the ends of the groups of the first match at [index]. *)
Definition match_at (groups : list pattern) (text : pystr) (index : nat) : option (list nat) :=
  head (map (map (λ r : pystr, length text - length r)) (group_runs groups (drop index text))).

(** [re.finditer]: the starts and group ends, for start positions with [anchor]. *)
Fixpoint find_from (n : nat) (anchor : nat → bool) (groups : list pattern) (text : pystr) (index : nat)
    : list (nat * list nat) :=
  match n with
  | O => []
  | S n =>
    if length text <? index then []
    else
      match (if anchor index then match_at groups text index else None) with
      | Some ends => (index, ends) :: find_from n anchor groups text (Nat.max (List.last ends index) (S index))
      | None => find_from n anchor groups text (S index)
      end
  end.
Definition find_all (anchor : nat → bool) (groups : list pattern) (text : pystr) (index : nat) : list (nat * list nat) :=
  find_from (S (length text)) anchor groups text index.

(** [^] under [re.MULTILINE], and [\b] before a word character. *)
Definition line_start (text : pystr) (index : nat) : bool :=
  match index with O => true | S i => bool_decide (text !! i = Some 10%N) end.
Definition word_char (c : N) : bool := ascii_alnum c || bool_decide (c = chr "_").
Definition word_start (word : N → bool) (text : pystr) (index : nat) : bool :=
  match index with O => true | S i => match text !! i with Some c => negb (word c) | None => true end end.

Example find_all_demo :
  find_all (λ _, true) [pchars (&"a"); PLazy (PChar (λ _, true)); pchars (&"b")] (&"xaabbab") 0
  = [(1, [2; 3; 4]); (5, [6; 6; 7])]
  ∧ find_all (λ _, true) [pchars (&"a"); PStar (PChar (λ _, true)); pchars (&"b")] (&"xaabbab") 0 = [(1, [2; 6; 7])].
Proof. vm_compute. done. Qed.
