(* ===== verification/JsonDocument.v ===== *)
(** * JSON with the places of its scalars ([_JsonDocument], [_json_edit] of
    [scripts/version_plan.py])

    The parser that keeps, for every scalar of a document, where its text stands,
    and the edit of a version field that replaces only that text.  Positions are
    indices into the decoded text; recursion is by fuel, as in PyJson. *)

From S2P Require Import Prelude PyStr PyDict PyRegex PyVal Passwords PyJson VersionPlan.

(** ** Paths into a document *)

Inductive path_key : Type := KName (s : pystr) | KIndex (i : nat).
Notation doc_path := (list path_key).

#[export] Instance path_key_eq_dec : EqDecision path_key.
Proof. solve_decision. Defined.
#[export] Instance path_key_countable : Countable path_key.
Proof.
  refine (inj_countable' (λ k, match k with KName s => inl s | KIndex i => inr i end)
                         (λ x, match x with inl s => KName s | inr i => KIndex i end) _). by intros [].
Defined.

(** [current[key]]; every failing access is the same error. *)
Definition child (v : pyval) (k : path_key) : option pyval :=
  match v, k with
  | VDict d, KName s => dict_get s d
  | VList l, KIndex i => l !! i
  | _, _ => None
  end.

(** [_get] *)
Fixpoint get_path (v : pyval) (path : doc_path) : outcome pyval :=
  match path with
  | [] => Ok v
  | k :: path =>
    _ ← require (is_dict v || is_list v) "Missing version field";
    match child v k with
    | Some w => get_path w path
    | None => Raise (version_error "Missing version field")
    end
  end.

(** ** The parser *)

(** [json.loads] keeps the last value of a repeated key. *)
Definition keep_last (pairs : list (pystr * pyval)) : outcome pyobject :=
  Ok (fold_left (λ d kv, dict_set kv.1 kv.2 d) pairs []).

Notation span_map := (pydict doc_path (nat * nat)).

Section document.
Context (text : pystr).

(** [whitespace] *)
Definition whitespace (index : nat) : nat := index + length (take_while json_space (drop index text)).

(** [self.decoder.raw_decode(self.text, index)] *)
Definition raw_decode (index : nat) : outcome (pyval * nat) :=
  let s := drop index text in
  '(v, r) ← json_value keep_last (2 * length s + 2) s;
  Ok (v, length text - length r).

Definition char_is (index : nat) (c : N) : bool := bool_decide (text !! index = Some c).
Definition inside (index : nat) : bool := index <? length text.

(** [parse], with the loops of [object] and [array] from their first entry on. *)
Fixpoint parse (n index : nat) (path : doc_path) (spans : span_map) : outcome (pyval * nat * span_map) :=
  match n with
  | O => Raise out_of_fuel
  | S n =>
    let index := whitespace index in
    _ ← require (inside index) "Truncated JSON input";
    if char_is index (chr "{") then
      let index := whitespace (index + 1) in
      if char_is index (chr "}") then Ok (VDict [], index + 1, spans)
      else '(entries, index, spans) ← object_entries n index path [] spans; Ok (VDict entries, index, spans)
    else if char_is index (chr "[") then
      let index := whitespace (index + 1) in
      if char_is index (chr "]") then Ok (VList [], index + 1, spans)
      else '(items, index, spans) ← array_items n index path [] spans; Ok (VList items, index, spans)
    else
      '(v, stop) ← raw_decode index;
      Ok (v, stop, dict_set path (index, stop) spans)
  end
with object_entries (n index : nat) (path : doc_path) (result : pyobject) (spans : span_map)
    : outcome (pyobject * nat * span_map) :=
  match n with
  | O => Raise out_of_fuel
  | S n =>
    '(key, stop) ← raw_decode index;
    _ ← require (is_str key && negb (dict_has (str_value key) result)) "Duplicate or invalid JSON key";
    let index := whitespace stop in
    _ ← require (char_is index (chr ":")) "Malformed JSON object";
    '(v, index, spans) ← parse n (index + 1) (path ++ [KName (str_value key)]) spans;
    let result := dict_set (str_value key) v result in
    let index := whitespace index in
    _ ← require (inside index) "Truncated JSON object";
    if char_is index (chr "}") then Ok (result, index + 1, spans)
    else
      _ ← require (char_is index (chr ",")) "Malformed JSON object delimiter";
      object_entries n (whitespace (index + 1)) path result spans
  end
with array_items (n index : nat) (path : doc_path) (result : list pyval) (spans : span_map)
    : outcome (list pyval * nat * span_map) :=
  match n with
  | O => Raise out_of_fuel
  | S n =>
    '(v, index, spans) ← parse n index (path ++ [KIndex (length result)]) spans;
    let result := result ++ [v] in
    let index := whitespace index in
    _ ← require (inside index) "Truncated JSON array";
    if char_is index (chr "]") then Ok (result, index + 1, spans)
    else
      _ ← require (char_is index (chr ",")) "Malformed JSON array delimiter";
      array_items n (whitespace (index + 1)) path result spans
  end.
End document.

(** [_json_document] *)
Definition json_document (raw : bytes) : outcome (pystr * pyval * span_map) :=
  text ← decode raw;
  '(data, stop, spans) ← parse text (2 * length text + 2) 0 [] [];
  _ ← require (bool_decide (whitespace text stop = length text)) "Unexpected content after JSON document";
  Ok (text, data, spans).

(** ** The edit *)

(** [_scalar] *)
Definition new_scalar (value old : pyval) : outcome pyval :=
  _ ← require (is_str old || type_is_int old) "Owned version field must be a string or integer";
  if type_is_int old then
    _ ← require (type_is_int value) "A numeric version field requires a numeric build projection";
    Ok value
  else Ok (VStr (py_str value)).

(** A character of a JSON string without [ensure_ascii]. *)
Definition json_char_unicode (c : N) : pystr := if (126 <? c)%N then [c] else json_char c.

(** [json.dumps(value, ensure_ascii=False)] of a string or an integer. *)
Definition json_scalar (v : pyval) : pystr :=
  match v with
  | VStr s => 34%N :: (s ≫= json_char_unicode) ++ [34%N]
  | VInt n => str_of_int n
  | _ => []
  end.

(** [data.get("name") == declaration["package"]] of an object. *)
Definition owns_package (data : pyval) (d : pyobject) : outcome bool :=
  match data with
  | VDict o => package ← item (&"package") d; Ok (py_eq (get_default (&"name") VNone o) package)
  | _ => Ok false
  end.

(** The root package of a lock file has the name of the lock, or none. *)
Definition lock_root_owned (data own : pyval) (d : pyobject) : outcome bool :=
  match data, own with
  | VDict o, VDict p =>
    name ← item (&"name") o;
    package ← item (&"package") d;
    Ok (py_eq (get_default (&"name") name p) package)
  | _, _ => Ok false
  end.

(** The fields of the document the declaration owns. *)
Definition owned_fields (data : pyval) (d : pyobject) : outcome (list doc_path) :=
  format ← item (&"format") d;
  if bool_decide (format = VStr (&"npm-lock")) then
    named ← owns_package data d;
    _ ← require named "npm lock does not own the selected package";
    if match data with VDict o => dict_has (&"packages") o | _ => false end then
      own ← get_path data [KName (&"packages"); KName []];
      owned ← lock_root_owned data own d;
      _ ← require owned "npm lock root package identity mismatch";
      Ok [[KName (&"version")]; [KName (&"packages"); KName []; KName (&"version")]]
    else Ok [[KName (&"version")]]
  else
    f ← item (&"field") d;
    names ← field f;
    _ ← (if in_dict (&"package") d then
           named ← owns_package data d;
           require named "JSON manifest does not own the selected package"
         else Ok tt);
    Ok [map KName names].

Notation text_edit := (nat * nat * pystr)%type.

(** One field: its old value, and the edit it needs. *)
Definition field_edit (data : pyval) (spans : span_map) (value : pyval) (path : doc_path)
    : outcome (pyval * list text_edit) :=
  old ← get_path data path;
  match dict_get path spans with
  | None => Raise (version_error "JSON version field is not a scalar")
  | Some (start, stop) =>
    replacement ← new_scalar value old;
    Ok (old, if py_eq old replacement then [] else [(start, stop, json_scalar replacement)])
  end.

(** [sorted(edits, reverse=True)] *)
Definition edit_geb (a b : text_edit) : bool :=
  let '(s, e, t) := a in let '(s', e', t') := b in
  (s' <? s) || ((s' =? s) && ((e' <? e) || ((e' =? e) && str_leb t' t))).

Definition splice (text : pystr) (e : text_edit) : pystr :=
  let '(start, stop, replacement) := e in take start text ++ replacement ++ drop stop text.

Definition apply_edits (text : pystr) (edits : list text_edit) : pystr :=
  fold_left splice (sorted edit_geb edits) text.

(** [_json_edit] *)
Definition json_edit (raw : bytes) (d : pyobject) (value : pyval) : outcome (bytes * list pyval) :=
  '(text, data, spans) ← json_document raw;
  fields ← owned_fields data d;
  results ← collect (field_edit data spans value) fields;
  out ← encode (apply_edits text (mjoin results.*2));
  Ok (out, results.*1).

(** ** Examples *)

Definition quote (s : pystr) : pystr := [34%N] ++ s ++ [34%N].

Definition demo_package_json : pystr :=
  &"{ " ++ quote (&"name") ++ &": " ++ quote (&"gw") ++ &"," ++ [10%N] ++ &"  " ++ quote (&"version") ++ &" : "
  ++ quote (&"1.0.0") ++ &", " ++ quote (&"files") ++ &": [1, {" ++ quote (&"x") ++ &": null}] }" ++ [10%N].

Definition demo_declaration : pyobject :=
  [(&"format", VStr (&"json")); (&"path", VStr (&"package.json")); (&"field", VStr (&"version"));
   (&"package", VStr (&"gw"))].

Example json_document_demo :
  match json_document (byte_of <$> demo_package_json) with
  | Ok (_, data, spans) =>
    get_path data [KName (&"files"); KIndex 1; KName (&"x")] = Ok VNone
    ∧ (λ k, take (k.2.2 - k.2.1) (drop k.2.1 demo_package_json)) <$> spans
      = [quote (&"gw"); quote (&"1.0.0"); &"1"; &"null"]
  | Raise _ => False
  end.
Proof. vm_compute. done. Qed.

Example json_edit_demo :
  json_edit (byte_of <$> demo_package_json) demo_declaration (VStr (&"1.1.0"))
  = Ok (byte_of <$> (&"{ " ++ quote (&"name") ++ &": " ++ quote (&"gw") ++ &"," ++ [10%N] ++ &"  " ++ quote (&"version") ++ &" : "
        ++ quote (&"1.1.0") ++ &", " ++ quote (&"files") ++ &": [1, {" ++ quote (&"x") ++ &": null}] }" ++ [10%N]),
        [VStr (&"1.0.0")])
  ∧ json_edit (byte_of <$> &"{" ++ quote (&"a") ++ &":1," ++ quote (&"a") ++ &":2}") demo_declaration (VStr [])
    = Raise (version_error "Duplicate or invalid JSON key").
Proof. vm_compute. done. Qed.
