(* ===== verification/JsonDocumentFacts.v ===== *)
(** * The document reader agrees with the JSON reader

    What [_JsonDocument] reads is what [json.loads] reads with duplicate fields
    refused, and every recorded place holds the text of the scalar at its path. *)

From S2P Require Import Prelude PyStr PyDict PyRegex PyVal Passwords PyJson JsonFacts JsonTotal VersionPlan JsonDocument.

Definition strict (pairs : list (pystr * pyval)) : outcome pyobject := no_duplicates pairs [].

(** ** A scanner leaves an end of its text *)

Lemma suffix_rest (r s : pystr) : r `suffix_of` s → r = drop (length s - length r) s.
Proof.
  intros [k ->]. rewrite length_app. replace (length k + length r - length r) with (length k) by lia.
  by rewrite drop_app_length.
Qed.

Lemma hex4_value_suffix s u r : hex4_value s = Some (u, r) → r `suffix_of` s.
Proof.
  unfold hex4_value. destruct s as [|a [|b [|c [|d s]]]]; try done.
  destruct (hex_value a), (hex_value b), (hex_value c), (hex_value d); cbn; try done. intros [= _ <-].
  by exists [a; b; c; d].
Qed.

Lemma scan_unicode_suffix s u r : scan_unicode s = Ok (u, r) → r `suffix_of` s.
Proof.
  unfold scan_unicode. destruct (hex4_value s) as [[v t]|] eqn:E; [|done]. apply hex4_value_suffix in E.
  destruct (_ && _); [|by intros [= _ <-]]. destruct (hex4_value (drop 2 t)) as [[w t']|] eqn:E'; [|done].
  apply hex4_value_suffix in E'. destruct (low_surrogate w); intros [= _ <-]; [|done].
  etrans; [done|]. etrans; [apply suffix_drop|done].
Qed.

Lemma scan_char_suffix s x r : scan_char s = Ok (x, r) → r `suffix_of` s.
Proof.
  destruct s as [|c s]; [done|]. cbn [scan_char]. case_bool_decide; [intros [= _ <-]; by exists [c]|].
  destruct (c <? 32)%N; [done|]. case_bool_decide; [|intros [= _ <-]; by exists [c]].
  destruct s as [|e s]; [done|]. case_bool_decide.
  - intros H2. apply bind_ok in H2 as ([u r'] & Hu & H2). injection H2 as _ <-. apply scan_unicode_suffix in Hu.
    etrans; [done|]. by exists [c; e].
  - destruct (escape e); [|done]. intros [= _ <-]. by exists [c; e].
Qed.

Lemma scan_string_suffix n s t r : scan_string n s = Ok (t, r) → r `suffix_of` s.
Proof.
  revert s t. induction n as [|n IH]; intros s t Hs; [done|]. cbn [scan_string] in Hs.
  apply bind_ok in Hs as ([x r'] & Hx & Hs). apply scan_char_suffix in Hx. destruct x as [c|].
  - apply bind_ok in Hs as ([t' r''] & Ht & Hs). injection Hs as <- <-. etrans; [by eapply IH|done].
  - by injection Hs as <- <-.
Qed.

Lemma json_number_suffix s v r : json_number s = Ok (v, r) → r `suffix_of` s.
Proof.
  assert (∀ negative s, unsigned_number negative s = Ok (v, r) → r `suffix_of` s) as Hu.
  { intros negative [|c s']; [done|]. cbn [unsigned_number]. destruct (is_digit c); [|done]. cbv zeta.
    intros H. apply bind_ok in H as (w & _ & H). injection H as _ <-. etrans; apply suffix_drop. }
  destruct s as [|c s]; [done|]. cbn [json_number]. case_bool_decide; [|apply Hu].
  intros H2%Hu. etrans; [done|]. by exists [c].
Qed.

(** ** Scalars *)

Definition is_scalar (v : pyval) : Prop := match v with VList _ | VDict _ => False | _ => True end.

(** A text that opens no bracket. *)
Definition opens_scalar (s : pystr) : Prop := head s ≠ Some (chr "{") ∧ head s ≠ Some (chr "[").

(** What [scan_once] does of such a text, without hook or recursion. *)
Definition scan_scalar (s : pystr) : outcome (pyval * pystr) :=
  match s with
  | [] => Raise json_error
  | c :: r =>
    if bool_decide (c = 34%N) then '(t, r) ← json_string_at r; Ok (VStr t, r)
    else if startswith (&"null") s then Ok (VNone, drop 4 s)
    else if startswith (&"true") s then Ok (VBool true, drop 4 s)
    else if startswith (&"false") s then Ok (VBool false, drop 5 s)
    else json_number s
  end.

Lemma json_value_scalar hook m s : opens_scalar s → 0 < m → json_value hook m s = scan_scalar s.
Proof.
  intros [Hb Hl] Hm. destruct m as [|m]; [lia|]. destruct s as [|c s]; [done|]. cbn [head] in *. cbn [json_value scan_scalar].
  rewrite (bool_decide_false (c = chr "{")), (bool_decide_false (c = chr "[")) by congruence. done.
Qed.

Lemma scan_scalar_suffix s v r : scan_scalar s = Ok (v, r) → r `suffix_of` s.
Proof.
  destruct s as [|c s]; [done|]. cbn [scan_scalar]. destruct (bool_decide (c = 34%N)).
  { intros H. apply bind_ok in H as ([t r'] & Ht & H). injection H as _ <-. apply scan_string_suffix in Ht.
    etrans; [done|]. by exists [c]. }
  repeat (destruct (startswith _ (c :: s));
    [intros Hx; match type of Hx with Ok (_, ?t) = _ => assert (r = t) as -> by congruence end; apply suffix_drop|]).
  apply json_number_suffix.
Qed.

Lemma number_value_scalar negative whole tail v : number_value negative whole tail = Ok v → is_scalar v.
Proof.
  unfold number_value. case_bool_decide; [by intros [= <-]|]. intros H2. apply bind_ok in H2 as (q & _ & H2). by injection H2 as <-.
Qed.

Lemma scan_scalar_is_scalar s v r : scan_scalar s = Ok (v, r) → is_scalar v.
Proof.
  destruct s as [|c s]; [done|]. cbn [scan_scalar]. destruct (bool_decide (c = 34%N)).
  { intros H. apply bind_ok in H as ([t r'] & _ & H). by injection H as <- _. }
  repeat (destruct (startswith _ (c :: s)); [intros Hx; by assert (is_scalar v) by (injection Hx as <- _; exact I)|]).
  assert (∀ negative s, unsigned_number negative s = Ok (v, r) → is_scalar v) as Hu.
  { intros negative [|d s']; [done|]. cbn [unsigned_number]. destruct (is_digit d); [|done]. cbv zeta.
    intros H. apply bind_ok in H as (w & Hw & H). injection H as <- _. by eapply number_value_scalar. }
  cbn [json_number]. case_bool_decide; apply Hu.
Qed.

Lemma scan_scalar_length s v r : opens_scalar s → scan_scalar s = Ok (v, r) → length r < length s.
Proof.
  intros Ho Hs. set (n := 2 * length s + 1). destruct (json_fuel keep_last n) as [Hv _]. specialize (Hv s ltac:(lia)).
  rewrite json_value_scalar, Hs in Hv by (done || lia). done.
Qed.

(** A string is read only from its opening quote. *)
Lemma json_value_string hook n s t r :
  json_value hook n s = Ok (VStr t, r) → ∃ s', s = 34%N :: s' ∧ json_string_at s' = Ok (t, r).
Proof.
  destruct n as [|n]; [done|]. destruct s as [|c s]; [done|]. cbn [json_value]. case_bool_decide as Hc.
  { intros H. apply bind_ok in H as ([t' r'] & Ht & H). injection H as <- <-. subst c. by exists s. }
  case_bool_decide.
  { destruct (startswith _ (skip_space s)); intros H2; [by apply bind_ok in H2 as (? & _ & [=])|].
    apply bind_ok in H2 as ([l r'] & _ & H2). by apply bind_ok in H2 as (? & _ & [=]). }
  case_bool_decide.
  { destruct (startswith _ (skip_space s)); intros H3; [done|]. by apply bind_ok in H3 as ([l r'] & _ & [=]). }
  repeat (destruct (startswith _ (c :: s)); [done|]).
  assert (∀ negative s, unsigned_number negative s = Ok (VStr t, r) → False) as Hu.
  { intros negative [|d s']; [done|]. cbn [unsigned_number]. destruct (is_digit d); [|done]. cbv zeta.
    intros H'. apply bind_ok in H' as (w & Hw & H'). injection H' as -> _. unfold number_value in Hw.
    destruct (bool_decide _); [done|]. by apply bind_ok in Hw as (q & _ & [=]). }
  cbn [json_number]. case_bool_decide; intros H4; by apply Hu in H4.
Qed.

(** The brackets of [scan_once]. *)
Lemma json_value_brace hook m r :
  json_value hook (S m) (chr "{" :: r)
  = if startswith (&"}") (skip_space r) then d ← hook []; Ok (VDict d, tail (skip_space r))
    else '(entries, r) ← json_members hook m (skip_space r); d ← hook entries; Ok (VDict d, r).
Proof. reflexivity. Qed.

Lemma json_value_bracket hook m r :
  json_value hook (S m) (chr "[" :: r)
  = if startswith (&"]") (skip_space r) then Ok (VList [], tail (skip_space r))
    else '(items, r) ← json_elements hook m (skip_space r); Ok (VList items, r).
Proof. reflexivity. Qed.

Lemma startswith_brace s : startswith (&"}") s = bool_decide (head s = Some (chr "}")).
Proof.
  change (&"}") with [chr "}"]. destruct s as [|c s]; [done|]. cbn [startswith head]. rewrite andb_true_r.
  apply bool_decide_ext. split; [by intros <-|by intros [= ->]].
Qed.

Lemma startswith_bracket s : startswith (&"]") s = bool_decide (head s = Some (chr "]")).
Proof.
  change (&"]") with [chr "]"]. destruct s as [|c s]; [done|]. cbn [startswith head]. rewrite andb_true_r.
  apply bool_decide_ext. split; [by intros <-|by intros [= ->]].
Qed.

(** ** Positions *)

Section document.
Context (text : pystr).
Notation at_ i := (drop i text).

Lemma drop_while_length {A} (f : A → bool) l : drop_while f l = drop (length (take_while f l)) l.
Proof. induction l as [|x l IH]; cbn; [done|]. by destruct (f x). Qed.

Lemma at_whitespace i : at_ (whitespace text i) = skip_space (at_ i).
Proof. unfold whitespace, skip_space. by rewrite drop_while_length, drop_drop. Qed.

Lemma whitespace_here i : head (at_ i) = None ∨ (∃ c, head (at_ i) = Some c ∧ json_space c = false) → whitespace text i = i.
Proof.
  unfold whitespace. intros [H|(c & H & Hc)]; destruct (at_ i) as [|d s]; cbn in *; try lia; try done.
  injection H as ->. rewrite Hc. cbn. lia.
Qed.

Lemma skip_space_idem s : skip_space (skip_space s) = skip_space s.
Proof.
  unfold skip_space. induction s as [|c s IH]; [done|]. cbn [drop_while]. destruct (json_space c) eqn:E; [done|].
  cbn [drop_while]. by rewrite E.
Qed.

Lemma char_at i c : char_is text i c = true → at_ i = c :: at_ (i + 1).
Proof.
  unfold char_is. intros H%bool_decide_eq_true. rewrite (drop_S text c i) by done. f_equal. f_equal. lia.
Qed.

Lemma char_not_at i c : char_is text i c = false → head (at_ i) ≠ Some c.
Proof.
  unfold char_is. intros H%bool_decide_eq_false Hh. apply H. rewrite <-(Nat.add_0_r i), <-lookup_drop.
  by destruct (at_ i); cbn in *.
Qed.

Lemma length_at i : length (at_ i) = length text - i.
Proof. apply length_drop. Qed.

Lemma suffix_at (r : pystr) i : r `suffix_of` at_ i → r = at_ (length text - length r).
Proof. intros Hr. apply suffix_rest. etrans; [exact Hr|apply suffix_drop]. Qed.

Lemma raw_decode_scalar i v stop :
  opens_scalar (at_ i) → raw_decode text i = Ok (v, stop) →
  is_scalar v ∧ i < stop ≤ length text ∧ scan_scalar (at_ i) = Ok (v, at_ stop).
Proof.
  intros Ho Hd. unfold raw_decode in Hd. cbv zeta in Hd. apply bind_ok in Hd as ([w r] & Hv & Hd). injection Hd as -> <-.
  rewrite json_value_scalar in Hv by (done || lia).
  pose proof (scan_scalar_length _ _ _ Ho Hv) as Hlen. rewrite length_at in Hlen.
  pose proof (scan_scalar_suffix _ _ _ Hv) as Hsuf. rewrite <-(suffix_at _ _ Hsuf).
  split_and!; [by eapply scan_scalar_is_scalar|lia|lia|done].
Qed.

Lemma raw_decode_string i t stop :
  raw_decode text i = Ok (VStr t, stop) →
  ∃ s, at_ i = 34%N :: s ∧ json_string_at s = Ok (t, at_ stop) ∧ length (at_ stop) < length (at_ i).
Proof.
  unfold raw_decode. cbv zeta. intros Hd. apply bind_ok in Hd as ([w r] & Hv & Hd). injection Hd as -> <-.
  apply json_value_string in Hv as (s & Hs & Ht). pose proof (scan_string_suffix _ _ _ _ Ht) as Hsuf.
  assert (r `suffix_of` at_ i) as Hr by (rewrite Hs; etrans; [done|]; by exists [34%N]).
  rewrite <-(suffix_at _ _ Hr). exists s. split_and!; [done..|]. apply suffix_length in Hsuf. rewrite Hs. cbn. lia.
Qed.

(** The scalar of a place, and the places a parse adds. *)
Definition reads_at (w : pyval) (place : nat * nat) : Prop :=
  is_scalar w ∧ place.1 < place.2 ≤ length text ∧ opens_scalar (at_ place.1)
  ∧ scan_scalar (at_ place.1) = Ok (w, at_ place.2).

Definition described (v : pyval) (path : doc_path) (spans spans' : span_map) : Prop :=
  ∀ q place, dict_get q spans' = Some place →
    dict_get q spans = Some place ∨ ∃ rel w, q = path ++ rel ∧ get_path v rel = Ok w ∧ reads_at w place.

Lemma described_trans v path s1 s2 s3 : described v path s1 s2 → described v path s2 s3 → described v path s1 s3.
Proof. intros H12 H23 q place Hq. destruct (H23 q place Hq) as [H'|H']; [by apply H12|by right]. Qed.

Lemma described_child v k x path s1 s2 :
  child v k = Some x → is_dict v || is_list v = true → described x (path ++ [k]) s1 s2 → described v path s1 s2.
Proof.
  intros Hc Hv Hd q place Hq. destruct (Hd q place Hq) as [H'|(rel & w & -> & Hw & Hr)]; [by left|right].
  exists (k :: rel), w. rewrite <-app_assoc. split_and!; [done| |done]. cbn [get_path]. rewrite Hv, Hc. done.
Qed.

Notation len i := (length (drop i text)).

Lemma parse_reads n :
  (∀ index path spans v stop spans', parse text n index path spans = Ok (v, stop, spans') →
     len stop < len index ∧ (∀ m, 2 * length (skip_space (at_ index)) + 1 ≤ m → json_value strict m (skip_space (at_ index)) = Ok (v, at_ stop))
     ∧ described v path spans spans')
  ∧ (∀ index path result spans entries stop spans',
     object_entries text n index path result spans = Ok (entries, stop, spans') →
     len stop < len index ∧ (∃ pairs, (∀ m, 2 * len index + 2 ≤ m → json_members strict m (at_ index) = Ok (pairs, at_ stop))
        ∧ no_duplicates pairs result = Ok entries)
     ∧ (∀ k x, dict_get k result = Some x → dict_get k entries = Some x)
     ∧ described (VDict entries) path spans spans')
  ∧ (∀ index path result spans items stop spans',
     array_items text n index path result spans = Ok (items, stop, spans') →
     len stop < len index ∧ (∃ more, items = result ++ more
        ∧ ∀ m, 2 * len index + 2 ≤ m → json_elements strict m (skip_space (at_ index)) = Ok (more, at_ stop))
     ∧ described (VList items) path spans spans').
Proof.
  induction n as [|n (IHv & IHo & IHa)]; [done|]. split_and!.
  - intros index path spans v stop spans' Hp. cbn [parse] in Hp. cbv zeta in Hp. rewrite <-at_whitespace.
    assert (len (whitespace text index) ≤ len index) as Hlen by (rewrite at_whitespace; apply length_skip_space).
    set (i := whitespace text index) in *. apply bind_ok in Hp as ([] & _ & Hp).
    destruct (char_is text i (chr "{")) eqn:Eb.
    { rewrite (char_at _ _ Eb) in Hlen |- *. cbn [length] in Hlen. set (j := whitespace text (i + 1)) in *.
      assert (len j ≤ len (i + 1)) as Hj by (unfold j; rewrite at_whitespace; apply length_skip_space).
      destruct (char_is text j (chr "}")) eqn:Ec.
      - injection Hp as <- <- <-. apply char_at in Ec. rewrite Ec in Hj. cbn [length] in Hj. split; [lia|split; [|by left]].
        intros [|m] Hm; [lia|]. rewrite json_value_brace, <-at_whitespace. fold j. by rewrite Ec, startswith_brace.
      - apply bind_ok in Hp as ([[entries stop'] spans1] & He & Hp). injection Hp as <- <- <-.
        destruct (IHo _ _ _ _ _ _ _ He) as (Hstop & (pairs & Hm & Hd) & _ & Hdesc). split; [lia|split; [|done]].
        intros [|m] Hmm; [lia|]. cbn [length] in Hmm. rewrite json_value_brace, <-at_whitespace. fold j.
        rewrite startswith_brace, bool_decide_false by (by apply char_not_at). rewrite Hm by lia.
        cbn [mbind outcome_bind]. unfold strict. by rewrite Hd. }
    destruct (char_is text i (chr "[")) eqn:El.
    { rewrite (char_at _ _ El) in Hlen |- *. cbn [length] in Hlen. set (j := whitespace text (i + 1)) in *.
      assert (len j ≤ len (i + 1)) as Hj by (unfold j; rewrite at_whitespace; apply length_skip_space).
      destruct (char_is text j (chr "]")) eqn:Ec.
      - injection Hp as <- <- <-. apply char_at in Ec. rewrite Ec in Hj. cbn [length] in Hj. split; [lia|split; [|by left]].
        intros [|m] Hm; [lia|]. rewrite json_value_bracket, <-at_whitespace. fold j. by rewrite Ec, startswith_bracket.
      - apply bind_ok in Hp as ([[items stop'] spans1] & He & Hp). injection Hp as <- <- <-.
        destruct (IHa _ _ _ _ _ _ _ He) as (Hstop & (more & -> & Hm) & Hdesc). split; [lia|split; [|done]].
        intros [|m] Hmm; [lia|]. cbn [length] in Hmm. rewrite json_value_bracket, <-at_whitespace. fold j.
        rewrite startswith_bracket, bool_decide_false by (by apply char_not_at).
        unfold j in Hm. rewrite at_whitespace, skip_space_idem, <-at_whitespace in Hm. fold j in Hm. by rewrite Hm by lia. }
    apply bind_ok in Hp as ([w stop'] & Hd & Hp). injection Hp as <- <- <-.
    assert (opens_scalar (at_ i)) as Ho by (split; by apply char_not_at).
    destruct (raw_decode_scalar _ _ _ Ho Hd) as (Hsc & Hstop & Hs). split; [|split].
    + rewrite !length_at in *. lia.
    + intros m Hm. rewrite json_value_scalar; [done..|lia].
    + intros q place. rewrite dict_get_set. case_decide as Hq; [|by left]. intros [= <-]. right. exists [], w.
      subst q. rewrite app_nil_r. split_and!; try done.
  - intros index path result spans entries stop spans' Hp. cbn [object_entries] in Hp. cbv zeta in Hp.
    apply bind_ok in Hp as ([key stop1] & Hkey & Hp). apply bind_ok in Hp as ([] & Hnew%check_ok & Hp).
    apply andb_true_iff in Hnew as [Hstr Hnew%negb_true_iff]. destruct key as [| | | |k| | |]; try done. cbn [str_value] in *.
    apply raw_decode_string in Hkey as (s & Hs & Hk & Hl1).
    apply bind_ok in Hp as ([] & Hcolon%check_ok%char_at & Hp).
    assert (len (whitespace text stop1) ≤ len stop1) as Hlj by (rewrite at_whitespace; apply length_skip_space).
    set (j := whitespace text stop1) in *. rewrite Hcolon in Hlj. cbn [length] in Hlj.
    apply bind_ok in Hp as ([[v i2] spans1] & Hv & Hp). destruct (IHv _ _ _ _ _ _ Hv) as (Hl2 & Hread & Hdesc).
    match type of Hread with context [skip_space ?s] => pose proof (length_skip_space s) end.
    apply bind_ok in Hp as ([] & _ & Hp).
    assert (len (whitespace text i2) ≤ len i2) as Hlw by (rewrite at_whitespace; apply length_skip_space).
    set (w := whitespace text i2) in *.
    assert (dict_get k result = None) as Hnone.
    { destruct (dict_get k result) eqn:E; [|done]. unfold dict_has in Hnew. by rewrite E in Hnew. }
    assert (∀ m, 2 * len index + 2 ≤ m → ∃ m', m = S m' ∧ 2 * len j + 2 ≤ m' ∧
      json_members strict m (at_ index)
      = match at_ w with
        | c :: r => if bool_decide (c = chr ",") then '(l, r) ← json_members strict m' (skip_space r); Ok ((k, v) :: l, r)
                    else if bool_decide (c = chr "}") then Ok ([(k, v)], r) else Raise json_error
        | [] => Raise json_error
        end) as Hmembers.
    { intros [|m] Hm; [lia|]. exists m. split; [done|]. split; [rewrite Hcolon; cbn [length]; lia|].
      rewrite Hs. cbn [json_members]. rewrite bool_decide_true by done. rewrite Hk. cbn [mbind outcome_bind].
      rewrite <-at_whitespace. fold j. rewrite Hcolon, bool_decide_true by done. rewrite Hread by lia.
      cbn [mbind outcome_bind]. rewrite <-at_whitespace. done. }
    destruct (char_is text w (chr "}")) eqn:Ec.
    + injection Hp as <- <- <-. apply char_at in Ec. rewrite Ec in Hlw, Hmembers. cbn [length] in Hlw.
      split; [lia|split; [|split]].
      * exists [(k, v)]. split; [intros m Hm; by destruct (Hmembers m Hm) as (m' & _ & _ & ->)|].
        cbn [no_duplicates]. by rewrite Hnew.
      * intros k' x Hx. rewrite dict_get_set_ne; [done|]. intros ->. congruence.
      * eapply described_child; [|done|exact Hdesc]. cbn [child]. apply dict_get_set_eq.
    + apply bind_ok in Hp as ([] & Hcomma%check_ok%char_at & Hp). rewrite Hcomma in Hlw, Hmembers. cbn [length] in Hlw.
      assert (len (whitespace text (w + 1)) ≤ len (w + 1)) as Hln by (rewrite at_whitespace; apply length_skip_space).
      destruct (IHo _ _ _ _ _ _ _ Hp) as (Hl3 & (pairs & Hm3 & Hdup) & Hext & Hdesc3). split; [lia|split; [|split]].
      * exists ((k, v) :: pairs). split.
        -- intros m Hm. destruct (Hmembers m Hm) as (m' & _ & Hm' & ->). rewrite bool_decide_true by done.
           rewrite <-at_whitespace, Hm3 by (rewrite Hcolon in Hm'; cbn [length] in Hm'; lia). done.
        -- cbn [no_duplicates]. by rewrite Hnew.
      * intros k' x Hx. apply Hext. rewrite dict_get_set_ne; [done|]. intros ->. congruence.
      * eapply described_trans; [|exact Hdesc3]. eapply described_child; [|done|exact Hdesc]. cbn [child].
        apply Hext, dict_get_set_eq.
  - intros index path result spans items stop spans' Hp. cbn [array_items] in Hp. cbv zeta in Hp.
    apply bind_ok in Hp as ([[v i2] spans1] & Hv & Hp). destruct (IHv _ _ _ _ _ _ Hv) as (Hl2 & Hread & Hdesc).
    match type of Hread with context [skip_space ?s] => pose proof (length_skip_space s) end.
    apply bind_ok in Hp as ([] & _ & Hp).
    assert (len (whitespace text i2) ≤ len i2) as Hlw by (rewrite at_whitespace; apply length_skip_space).
    set (w := whitespace text i2) in *.
    assert (∀ m, 2 * len index + 2 ≤ m → ∃ m', m = S m' ∧
      json_elements strict m (skip_space (at_ index))
      = match at_ w with
        | c :: r => if bool_decide (c = chr ",") then '(l, r) ← json_elements strict m' (skip_space r); Ok (v :: l, r)
                    else if bool_decide (c = chr "]") then Ok ([v], r) else Raise json_error
        | [] => Raise json_error
        end) as Helements.
    { intros [|m] Hm; [lia|]. exists m. split; [done|]. cbn [json_elements]. rewrite Hread by lia.
      cbn [mbind outcome_bind]. by rewrite <-at_whitespace. }
    destruct (char_is text w (chr "]")) eqn:Ec.
    + injection Hp as <- <- <-. apply char_at in Ec. rewrite Ec in Hlw, Helements. cbn [length] in Hlw.
      split; [lia|split].
      * exists [v]. split; [done|]. intros m Hm. by destruct (Helements m Hm) as (m' & _ & ->).
      * eapply described_child; [|done|exact Hdesc]. cbn [child]. by rewrite lookup_app_r, Nat.sub_diag by done.
    + apply bind_ok in Hp as ([] & Hcomma%check_ok%char_at & Hp). rewrite Hcomma in Hlw, Helements. cbn [length] in Hlw.
      assert (len (whitespace text (w + 1)) ≤ len (w + 1)) as Hln by (rewrite at_whitespace; apply length_skip_space).
      destruct (IHa _ _ _ _ _ _ _ Hp) as (Hl3 & (more & -> & Hm3) & Hdesc3). split; [lia|split].
      * exists (v :: more). split; [by rewrite <-app_assoc|]. intros m Hm. destruct (Helements m Hm) as (m' & -> & ->).
        rewrite bool_decide_true by done. specialize (Hm3 m' ltac:(lia)).
        rewrite at_whitespace, skip_space_idem in Hm3. by rewrite Hm3.
      * eapply described_trans; [|exact Hdesc3]. eapply described_child; [|done|exact Hdesc]. cbn [child].
        by rewrite <-app_assoc, lookup_app_r, Nat.sub_diag by done.
Qed.
End document.

(** ** The fuel of the document reader is enough *)

Section fuel.
Context (text : pystr).
Notation len i := (length (drop i text)).

Definition data_error (e : exn) : Prop := is_value_error (exn_kind e) = true.
Definition well {A} (m : outcome A) : Prop := match m with Ok _ => True | Raise e => data_error e end.

Lemma well_bind {A B} (m : outcome A) (f : A → outcome B) : well m → (∀ a, m = Ok a → well (f a)) → well (m ≫= f).
Proof. intros Hm Hf. destruct m as [a|e]; [by apply Hf|done]. Qed.

Lemma well_require b message : well (require b message).
Proof. by destruct b. Qed.

Lemma raw_decode_well i : well (raw_decode text i).
Proof.
  unfold raw_decode. cbv zeta. apply well_bind; [|by intros [v r] _].
  destruct (json_fuel keep_last (2 * len i + 2)) as [Hv _]. specialize (Hv (drop i text) ltac:(lia)).
  destruct (json_value keep_last _ _) as [[v r]|e]; [done|]. unfold well, data_error.
  destruct Hv as [Hv|[entries Hv]]; [by rewrite Hv|done].
Qed.

Lemma ws_len i : len (whitespace text i) ≤ len i.
Proof. rewrite at_whitespace. apply length_skip_space. Qed.

Lemma char_len i c : char_is text i c = true → len i = S (len (i + 1)).
Proof. intros ->%char_at. done. Qed.

Lemma parse_fuel n :
  (∀ index path spans, 2 * len index + 1 ≤ n → well (parse text n index path spans))
  ∧ (∀ index path result spans, 2 * len index + 2 ≤ n → well (object_entries text n index path result spans))
  ∧ (∀ index path result spans, 2 * len index + 2 ≤ n → well (array_items text n index path result spans)).
Proof.
  induction n as [|n (IHv & IHo & IHa)]; [split_and!; intros; lia|]. split_and!.
  - intros index path spans Hn. cbn [parse]. cbv zeta. pose proof (ws_len index) as Hw. set (i := whitespace text index) in *.
    apply well_bind; [apply well_require|intros [] _]. pose proof (ws_len (i + 1)) as Hj.
    destruct (char_is text i (chr "{")) eqn:Eb.
    { apply char_len in Eb. destruct (char_is text (whitespace text (i + 1)) _); [done|].
      apply well_bind; [apply IHo; lia|by intros [[? ?] ?] _]. }
    destruct (char_is text i (chr "[")) eqn:El.
    { apply char_len in El. destruct (char_is text (whitespace text (i + 1)) _); [done|].
      apply well_bind; [apply IHa; lia|by intros [[? ?] ?] _]. }
    apply well_bind; [apply raw_decode_well|by intros [? ?] _].
  - intros index path result spans Hn. cbn [object_entries]. cbv zeta.
    apply well_bind; [apply raw_decode_well|intros [key stop] Hkey]. apply well_bind; [apply well_require|intros [] Hk%check_ok].
    apply andb_true_iff in Hk as [Hk _]. destruct key; try done. apply raw_decode_string in Hkey as (_ & _ & _ & Hl).
    pose proof (ws_len stop) as Hw. apply well_bind; [apply well_require|intros [] Hc%check_ok%char_len].
    apply well_bind; [apply IHv; lia|intros [[v i2] spans1] Hp]. apply (proj1 (parse_reads text n)) in Hp as (Hl2 & _ & _).
    pose proof (ws_len i2) as Hw2. apply well_bind; [apply well_require|intros [] _]. destruct (char_is _ _ (chr "}")); [done|].
    apply well_bind; [apply well_require|intros [] Hcc%check_ok%char_len].
    pose proof (ws_len (whitespace text i2 + 1)). apply IHo. lia.
  - intros index path result spans Hn. cbn [array_items]. cbv zeta.
    apply well_bind; [apply IHv; lia|intros [[v i2] spans1] Hp]. apply (proj1 (parse_reads text n)) in Hp as (Hl2 & _ & _).
    pose proof (ws_len i2) as Hw2. apply well_bind; [apply well_require|intros [] _]. destruct (char_is _ _ (chr "]")); [done|].
    apply well_bind; [apply well_require|intros [] Hcc%check_ok%char_len].
    pose proof (ws_len (whitespace text i2 + 1)). apply IHa. lia.
Qed.
End fuel.

(** Reading a document gives one, or a [ValueError]. *)
Lemma json_document_total raw : well (json_document raw).
Proof.
  unfold json_document. apply well_bind.
  { unfold decode. by destruct (mapM id (utf8_scan raw)). }
  intros text _. apply well_bind; [apply (proj1 (parse_fuel text _)); rewrite drop_0; lia|]. intros [[data stop] spans] _.
  apply well_bind; [apply well_require|done].
Qed.

Lemma json_document_parse raw text data spans :
  json_document raw = Ok (text, data, spans) →
  decode raw = Ok text ∧ ∃ stop, parse text (2 * length text + 2) 0 [] [] = Ok (data, stop, spans) ∧ skip_space (drop stop text) = [].
Proof.
  intros Hdoc. unfold json_document in Hdoc. apply bind_ok in Hdoc as (text' & Htext & Hdoc).
  apply bind_ok in Hdoc as ([[data' stop] spans'] & Hp & Hdoc).
  apply bind_ok in Hdoc as ([] & Hend%check_ok%bool_decide_eq_true & Hdoc). injection Hdoc as -> -> ->.
  split; [done|]. exists stop. split; [done|]. by rewrite <-at_whitespace, Hend, drop_all.
Qed.

Lemma json_document_loads raw text data spans :
  json_document raw = Ok (text, data, spans) → json_loads strict text = Ok data.
Proof.
  intros (_ & stop & Hp & Hend)%json_document_parse.
  destruct (proj1 (parse_reads text _) _ _ _ _ _ _ Hp) as (_ & Hread & _).
  unfold json_loads. cbv zeta. rewrite drop_0 in Hread. rewrite Hread by lia. cbn [mbind outcome_bind]. by rewrite Hend.
Qed.

Lemma json_document_places raw text data spans path start stop :
  json_document raw = Ok (text, data, spans) → dict_get path spans = Some (start, stop) →
  ∃ w, get_path data path = Ok w ∧ reads_at text w (start, stop).
Proof.
  intros (_ & e & Hp & _)%json_document_parse Hq.
  destruct (proj1 (parse_reads text _) _ _ _ _ _ _ Hp) as (_ & _ & Hdesc).
  destruct (Hdesc path (start, stop) Hq) as [H|(rel & w & -> & Hw & Hr)]; [done|]. by exists w.
Qed.

(** the document reader is the JSON reader with duplicate fields refused, and
    knows where its scalars are.  A document it accepts is what [json.loads] reads of
    the text, no more and no less; and every recorded place is the non-empty text of
    a scalar, which read on its own gives the value found at the path in the data. *)
Theorem json_document_reads raw text data spans :
  json_document raw = Ok (text, data, spans) →
  decode raw = Ok text ∧ json_loads strict text = Ok data
  ∧ ∀ path start stop, dict_get path spans = Some (start, stop) →
      ∃ w, get_path data path = Ok w ∧ is_scalar w ∧ start < stop ≤ length text
           ∧ json_value strict 1 (drop start text) = Ok (w, drop stop text).
Proof.
  intros Hdoc. destruct (json_document_parse _ _ _ _ Hdoc) as [Htext _].
  split; [done|]. split; [by eapply json_document_loads|]. intros path start stop Hq.
  destruct (json_document_places _ _ _ _ _ _ _ Hdoc Hq) as (w & Hw & Hs & Hb & Ho & Hscan). cbn [fst snd] in *.
  exists w. split_and!; try done; try lia. by rewrite json_value_scalar by (done || lia).
Qed.

Lemma json_document_reads_witness :
  ∃ text data spans, json_document (byte_of <$> demo_package_json) = Ok (text, data, spans)
    ∧ json_loads strict text = Ok data.
Proof.
  destruct (json_document (byte_of <$> demo_package_json)) as [[[text data] spans]|e] eqn:E.
  - exists text, data, spans. split; [done|].
    by destruct (json_document_reads (byte_of <$> demo_package_json) text data spans E) as (_ & H & _).
  - assert (is_ok (json_document (byte_of <$> demo_package_json)) = true) as H by (vm_compute; reflexivity).
    by rewrite E in H.
Defined.

(** ** The edit of a field *)

Lemma scan_char_unicode c r : scan_char (json_char_unicode c ++ r) = Ok (Some c, r).
Proof.
  unfold json_char_unicode. destruct (N.ltb_spec 126 c) as [Hc|Hc].
  - cbn [app scan_char]. rewrite (bool_decide_false (c = 34%N)), (bool_decide_false (c = 92%N)) by lia.
    by rewrite (proj2 (N.ltb_ge _ _)) by lia.
  - apply scan_char_json. unfold scalar_char, surrogate. rewrite andb_true_iff, negb_true_iff, andb_false_iff, N.ltb_lt, !N.leb_gt. lia.
Qed.

(** The text of a new string reads as that string, whatever follows. *)
Lemma json_scalar_string hook s rest : json_value hook 1 (json_scalar (VStr s) ++ rest) = Ok (VStr s, rest).
Proof.
  cbn [json_scalar app json_value]. rewrite bool_decide_true by done. rewrite <-app_assoc. cbn [app].
  rewrite json_string_at_coded; [done|]. intros c _ r. apply scan_char_unicode.
Qed.

(** The edit puts the token of the new value in the place of the field. *)
Lemma json_edit_splices raw d value out previous :
  item (&"format") d = Ok (VStr (&"json")) → json_edit raw d value = Ok (out, previous) →
  ∃ text data spans f names old new start stop,
    json_document raw = Ok (text, data, spans) ∧ item (&"field") d = Ok f ∧ field f = Ok names
    ∧ get_path data (map KName names) = Ok old ∧ previous = [old] ∧ new_scalar value old = Ok new
    ∧ dict_get (map KName names) spans = Some (start, stop)
    ∧ encode (if py_eq old new then text else take start text ++ json_scalar new ++ drop stop text) = Ok out.
Proof.
  intros Hformat Hedit. unfold json_edit in Hedit. apply bind_ok in Hedit as ([[text data] spans] & Hdoc & Hedit).
  apply bind_ok in Hedit as (fields & Hfields & Hedit). unfold owned_fields in Hfields. rewrite Hformat in Hfields.
  cbn [mbind outcome_bind] in Hfields. rewrite bool_decide_false in Hfields by (by vm_compute).
  apply bind_ok in Hfields as (f & Hf & Hfields). apply bind_ok in Hfields as (names & Hnames & Hfields).
  apply bind_ok in Hfields as ([] & _ & Hfields). apply (inj Ok) in Hfields as <-.
  cbn [collect] in Hedit. apply bind_ok in Hedit as (results & Hresults & Hedit).
  apply bind_ok in Hresults as ([old edits] & Hone & Hresults). cbn in Hresults. apply (inj Ok) in Hresults as <-.
  apply bind_ok in Hedit as (out' & Hout & Hedit). cbn in Hedit. injection Hedit as <- <-.
  unfold field_edit in Hone. apply bind_ok in Hone as (old' & Hold & Hone).
  destruct (dict_get _ spans) as [[start stop]|] eqn:Espan; [|done].
  apply bind_ok in Hone as (new & Hnew & Hone). injection Hone as <- Hedits.
  exists text, data, spans, f, names, old', new, start, stop. split_and!; try done.
  cbn in Hout. rewrite app_nil_r in Hout. by destruct (py_eq old' new); subst edits.
Qed.
