(* ===== verification/JsonFrame.v ===== *)
(** * What a JSON value leaves unread does not matter

    The reader takes a text off its input: the same text in front of anything that
    cannot continue a number gives the same value, and twice its length is fuel
    enough.  Two documents that differ in one value are read alike elsewhere. *)

From S2P Require Import Prelude PyStr PyDict PyVal Passwords PyJson JsonFacts JsonTotal VersionPlan JsonDocument JsonDocumentFacts.

(** ** Strings *)

(** What an escaped high surrogate sees of the text after it. *)
Definition low_after (s : pystr) : option (option N) :=
  if startswith (&"\u") s then Some (fst <$> hex4_value (drop 2 s)) else None.

Lemma hex4_value_cut s u r : hex4_value s = Some (u, r) → ∃ w, length w = 4 ∧ s = w ++ r ∧ ∀ r', hex4_value (w ++ r') = Some (u, r').
Proof.
  destruct s as [|a [|b [|c [|d s]]]]; try done. unfold hex4_value.
  destruct (hex_value a) eqn:Ea, (hex_value b) eqn:Eb, (hex_value c) eqn:Ec, (hex_value d) eqn:Ed; cbn; try done.
  intros [= <- <-]. exists [a; b; c; d]. split_and!; [done|done|]. intros r'. cbn. by rewrite Ea, Eb, Ec, Ed.
Qed.

Lemma startswith_u s : startswith (&"\u") s = true → ∃ r, s = chr "\" :: chr "u" :: r.
Proof. intros [r ->]%startswith_true. by exists r. Qed.

Lemma low_after_escape w r r' :
  length w = 4 → low_after (chr "\" :: chr "u" :: w ++ r) = low_after (chr "\" :: chr "u" :: w ++ r').
Proof.
  intros Hw. unfold low_after. change (chr "\" :: chr "u" :: w ++ ?x) with (&"\u" ++ (w ++ x)). rewrite !startswith_app.
  change (drop 2 (&"\u" ++ ?x)) with x. destruct w as [|a [|b [|c [|d [|]]]]]; try done. cbn.
  by destruct (hex_value a), (hex_value b), (hex_value c), (hex_value d).
Qed.

Lemma low_after_other c s : c ≠ chr "\" → low_after (c :: s) = None.
Proof. intros Hc. unfold low_after. cbn [startswith]. change (&"\u") with [chr "\"; chr "u"]. cbn [startswith]. by rewrite bool_decide_false. Qed.

Lemma low_after_plain e s : e ≠ chr "u" → low_after (chr "\" :: e :: s) = None.
Proof.
  intros He. unfold low_after. change (&"\u") with [chr "\"; chr "u"]. cbn [startswith].
  by rewrite (bool_decide_false (chr "u" = e)), andb_false_r by congruence.
Qed.

Lemma scan_unicode_cut s x r :
  scan_unicode s = Ok (x, r) →
  ∃ w, s = w ++ r ∧ 4 ≤ length w ∧ (∀ r', low_after (chr "\" :: chr "u" :: w ++ r') = low_after (chr "\" :: chr "u" :: s))
       ∧ ∀ r', low_after r' = low_after r → scan_unicode (w ++ r') = Ok (x, r').
Proof.
  unfold scan_unicode. destruct (hex4_value s) as [[u t]|] eqn:E; [|done].
  apply hex4_value_cut in E as (w & Hw & -> & Hu). destruct (high_surrogate u) eqn:Eh; cbn [andb].
  2:{ intros [= <- <-]. exists w. split_and!; [done|lia|intros; by apply low_after_escape|]. intros r' _. by rewrite Hu, Eh. }
  destruct (startswith (&"\u") t) eqn:Es.
  2:{ intros [= <- <-]. exists w. split_and!; [done|lia|intros; by apply low_after_escape|]. intros r' Hr'. rewrite Hu, Eh. cbn [andb].
      unfold low_after in Hr'. rewrite Es in Hr'. by destruct (startswith (&"\u") r'). }
  apply startswith_u in Es as [t' ->]. change (drop 2 (chr "\" :: chr "u" :: t')) with t'. destruct (hex4_value t') as [[v t2]|] eqn:E2; [|done].
  apply hex4_value_cut in E2 as (w2 & Hw2 & -> & Hv). destruct (low_surrogate v) eqn:El; intros [= <- <-].
  - exists (w ++ chr "\" :: chr "u" :: w2). split_and!.
    + by rewrite <-app_assoc.
    + rewrite length_app. lia.
    + intros r'. rewrite <-app_assoc. by apply low_after_escape.
    + intros r' _. rewrite <-app_assoc, Hu, Eh. cbn [app andb]. change (startswith _ _) with true. cbn [andb].
      change (drop 2 (chr "\" :: chr "u" :: ?y)) with y. by rewrite Hv, El.
  - exists w. split_and!; [done|lia|intros; by apply low_after_escape|]. intros r' Hr'. rewrite Hu, Eh. cbn [andb].
    unfold low_after in Hr'. change (startswith (&"\u") (chr "\" :: chr "u" :: w2 ++ t2)) with true in Hr'.
    change (drop 2 (chr "\" :: chr "u" :: ?y)) with y in Hr'.
    rewrite Hv in Hr'. destruct (startswith (&"\u") r'); [|done].
    destruct (hex4_value (drop 2 r')) as [[v' t3]|]; [|done]. cbn in Hr'. injection Hr' as ->. by rewrite El.
Qed.

Lemma scan_char_cut s x r :
  scan_char s = Ok (x, r) →
  ∃ w, s = w ++ r ∧ w ≠ [] ∧ (∀ r', low_after (w ++ r') = low_after s)
       ∧ (∀ r', low_after r' = low_after r → scan_char (w ++ r') = Ok (x, r'))
       ∧ (x = None → ∀ r', scan_char (w ++ r') = Ok (x, r')).
Proof.
  destruct s as [|c s]; [done|]. cbn [scan_char]. case_bool_decide as Hq.
  { intros [= <- <-]. exists [c]. split_and!; [done..| | |].
    - intros r'. cbn [app]. by rewrite !low_after_other by (subst; done).
    - intros r' _. cbn. by rewrite bool_decide_true.
    - intros _ r'. cbn. by rewrite bool_decide_true. }
  destruct (c <? 32)%N eqn:Ec; [done|]. case_bool_decide as Hb.
  2:{ intros [= <- <-]. exists [c]. split_and!; [done..| | |done].
      - intros r'. cbn [app]. by rewrite !low_after_other.
      - intros r' _. cbn. by rewrite (bool_decide_false (c = 34%N)), Ec, bool_decide_false. }
  destruct s as [|e s]; [done|]. case_bool_decide as He.
  - intros H. apply bind_ok in H as ([u r0] & Hu & H). injection H as <- <-.
    apply scan_unicode_cut in Hu as (w & -> & Hw & Hlow & Hscan). exists (c :: e :: w). subst c e. split_and!; [done..| |done].
    intros r' Hr'. cbn [app scan_char]. rewrite bool_decide_false, Ec, !bool_decide_true by done. by rewrite Hscan.
  - destruct (escape e) as [y|] eqn:Ee; [|done]. intros [= <- <-]. exists [c; e]. subst c. split_and!; [done..| | |done].
    + intros r'. cbn [app]. by rewrite !(low_after_plain e).
    + intros r' _. cbn [app scan_char]. rewrite bool_decide_false, Ec, bool_decide_true, bool_decide_false by done. by rewrite Ee.
Qed.

Lemma scan_string_cut n s t r :
  scan_string n s = Ok (t, r) →
  ∃ w, s = w ++ r ∧ w ≠ [] ∧ (∀ r', low_after (w ++ r') = low_after s)
       ∧ ∀ m r', length w ≤ m → scan_string m (w ++ r') = Ok (t, r').
Proof.
  revert s t. induction n as [|n IH]; intros s t Hs; [done|]. cbn [scan_string] in Hs.
  apply bind_ok in Hs as ([x r1] & Hx & Hs). apply scan_char_cut in Hx as (w & -> & Hw & Hlow & Hc & Hnone).
  destruct x as [c|].
  - apply bind_ok in Hs as ([t' r'] & Ht & Hs). injection Hs as <- <-.
    apply IH in Ht as (w' & -> & Hw' & Hlow' & Hs'). exists (w ++ w'). split_and!.
    + by rewrite app_assoc.
    + by destruct w.
    + intros r''. rewrite <-app_assoc. apply Hlow.
    + intros [|m] r'' Hm; rewrite length_app in Hm; [destruct w; [done|cbn in Hm; lia]|]. rewrite <-app_assoc. cbn [scan_string].
      rewrite Hc by apply Hlow'. cbn [mbind outcome_bind]. rewrite Hs'; [done|]. destruct w; [done|cbn in Hm; lia].
  - injection Hs as <- <-. exists w. split_and!; [done..|]. intros [|m] r' Hm; [destruct w; [done|cbn in Hm; lia]|]. cbn [scan_string]. by rewrite Hnone.
Qed.

Lemma json_string_cut s t r :
  json_string_at s = Ok (t, r) → ∃ w, s = w ++ r ∧ w ≠ [] ∧ ∀ r', json_string_at (w ++ r') = Ok (t, r').
Proof.
  intros (w & -> & Hw & _ & Hs)%scan_string_cut. exists w. split_and!; [done..|]. intros r'. apply Hs. rewrite length_app. lia.
Qed.

(** ** Numbers *)

Definition digit_head (s : pystr) : bool := match s with c :: _ => is_digit c | [] => false end.

Lemma take_while_cut s x : digit_head x = false → take_while is_digit (take_while is_digit s ++ x) = take_while is_digit s.
Proof.
  intros Hx. induction s as [|c s IH]; cbn [take_while].
  - destruct x as [|d x]; [done|]. cbn in *. by rewrite Hx.
  - destruct (is_digit c) eqn:E; cbn [app take_while]; [by rewrite E, IH|]. destruct x as [|d x]; [done|]. cbn in *. by rewrite Hx.
Qed.

Lemma take_while_prefix {A} (f : A → bool) s : s = take_while f s ++ drop (length (take_while f s)) s.
Proof. induction s as [|c s IH]; cbn [take_while]; [done|]. destruct (f c); cbn; by f_equal. Qed.

Lemma delimited_head r : delimited r → digit_head r = false ∧ head r ≠ Some (chr ".") ∧ head r ≠ Some (chr "e") ∧ head r ≠ Some (chr "E").
Proof.
  destruct r as [|c r]; [done|]. intros [Hd Hc]. cbn. split; [done|].
  split_and!; intros [= ->]; apply Hc; apply (has_true _ (&".eE")); by vm_compute.
Qed.

Lemma fraction_text_cut s : s = fraction_text s ++ drop (length (fraction_text s)) s
  ∧ ∀ x, digit_head x = false → head x ≠ Some (chr ".") → fraction_text (fraction_text s ++ x) = fraction_text s.
Proof.
  assert (∀ x, head x ≠ Some (chr ".") → fraction_text x = []) as Hnone.
  { intros [|c x] Hx; [done|]. cbn in *. by rewrite bool_decide_false by congruence. }
  destruct s as [|c s]; [split; [done|intros; by apply Hnone]|]. cbn [fraction_text]. case_bool_decide as Hc.
  2:{ split; [done|intros; by apply Hnone]. }
  pose proof (take_while_prefix is_digit s) as Hs. pose proof (take_while_cut s) as Ht.
  destruct (take_while is_digit s) as [|d ds] eqn:E; [split; [done|intros; by apply Hnone]|].
  split; [cbn; by f_equal|]. intros x Hx _. specialize (Ht x Hx).
  cbn [app fraction_text]. rewrite bool_decide_true by done. cbn [app] in Ht. by rewrite Ht.
Qed.

Lemma fraction_head s : digit_head (fraction_text s) = false.
Proof.
  destruct s as [|c s]; [done|]. cbn [fraction_text]. case_bool_decide as Hc; [|done].
  destruct (take_while is_digit s); [done|]. by subst c.
Qed.

Lemma exponent_text_cut s : s = exponent_text s ++ drop (length (exponent_text s)) s
  ∧ (∀ x, delimited x → exponent_text (exponent_text s ++ x) = exponent_text s)
  ∧ (exponent_text s = [] ∨ head (exponent_text s) = Some (chr "e") ∨ head (exponent_text s) = Some (chr "E")).
Proof.
  destruct s as [|c s]; [split_and!; [done|by intros x [_ ?]%no_number_tail|by left]|]. cbn [exponent_text]. case_bool_decide as Hc.
  2:{ split_and!; [done|by intros x [_ ?]%no_number_tail|by left]. }
  set (sign := match s with d :: _ => if bool_decide (d ∈ &"+-") then [d] else [] | [] => [] end).
  assert (s = sign ++ drop (length sign) s ∧ ∀ x, digit_head x = true →
    match sign ++ x with d :: _ => if bool_decide (d ∈ &"+-") then [d] else [] | [] => [] end = sign) as [Hs Hsign].
  { assert (∀ d, is_digit d = true → d ∉ &"+-") as Hd.
    { intros d Hd Hin%(has_true _ (&"+-")). unfold has in Hin. apply bool_decide_eq_true in Hin.
      change (&"+-") with [43%N; 45%N] in Hin. rewrite !elem_of_cons, elem_of_nil in Hin.
      destruct Hin as [-> | [-> | []]]; done. }
    subst sign. destruct s as [|d s]; [split; [done|]|case_bool_decide; (split; [done|])];
      try (intros [|y x] Hx; [done|]; cbn in *; by rewrite bool_decide_false by (by apply Hd)).
    intros x _. cbn. by rewrite bool_decide_true. }
  clearbody sign. pose proof (take_while_prefix is_digit (drop (length sign) s)) as Hp.
  pose proof (take_while_cut (drop (length sign) s)) as Ht.
  assert (∀ y ys, take_while is_digit (drop (length sign) s) = y :: ys → is_digit y = true) as Hy.
  { destruct (drop (length sign) s) as [|y0 s0]; [done|]. cbn. destruct (is_digit y0) eqn:E0; [by intros ? ? [= <- _]|done]. }
  destruct (take_while is_digit (drop (length sign) s)) as [|d ds] eqn:E; [split_and!; [done|by intros x [_ ?]%no_number_tail|by left]|].
  assert (is_digit d = true) as Hd by (by eapply Hy).
  split_and!.
  - cbn [app length drop]. f_equal. rewrite length_app, <-drop_drop, <-app_assoc, <-Hp. done.
  - intros x Hx. cbn [app exponent_text]. rewrite bool_decide_true by done. cbv zeta. rewrite <-app_assoc.
    rewrite Hsign by done. rewrite drop_app_length. rewrite Ht by (by apply delimited_head). done.
  - right. change (&"eE") with [chr "e"; chr "E"] in Hc. rewrite !elem_of_cons, elem_of_nil in Hc. cbn. naive_solver.
Qed.

Lemma unsigned_number_cut negative s v r :
  unsigned_number negative s = Ok (v, r) →
  ∃ w, s = w ++ r ∧ w ≠ [] ∧ ∀ r', delimited r' → unsigned_number negative (w ++ r') = Ok (v, r').
Proof.
  destruct s as [|c s]; [done|]. cbn [unsigned_number]. destruct (is_digit c) eqn:Ec; [|done]. cbv zeta.
  set (whole := if bool_decide (c = chr "0") then [c] else c :: take_while is_digit s).
  assert (c :: s = whole ++ drop (length whole) (c :: s) ∧ (∃ w, whole = c :: w)
          ∧ ∀ x, digit_head x = false → (if bool_decide (c = chr "0") then [c] else c :: take_while is_digit (tail (whole ++ x))) = whole)
    as (Hsplit & [w Hw] & Hwhole).
  { subst whole. case_bool_decide; [split_and!; [done|by eexists|done]|]. split_and!; [|by eexists|].
    - cbn. by rewrite <-take_while_prefix.
    - intros x Hx. cbn [app tail]. by rewrite take_while_cut. }
  clearbody whole. set (r0 := drop (length whole) (c :: s)) in *. clearbody r0. rewrite Hsplit. clear Hsplit s.
  destruct (fraction_text_cut r0) as [Hf Hfx]. set (fr := fraction_text r0) in *. set (r1 := drop (length fr) r0) in *.
  destruct (exponent_text_cut r1) as (He & Hex & Hhead). set (ex := exponent_text r1) in *.
  intros H. apply bind_ok in H as (n & Hn & H). injection H as <- <-.
  exists (whole ++ fr ++ ex). split_and!.
  - rewrite length_app, <-drop_drop. fold r1. rewrite <-!app_assoc, <-He, <-Hf. done.
  - by rewrite Hw.
  - intros r' Hr'. rewrite <-!app_assoc.
    assert (digit_head (ex ++ r') = false ∧ head (ex ++ r') ≠ Some (chr ".")) as [Hd1 Hd2].
    { destruct (delimited_head _ Hr') as (? & ? & _). destruct ex as [|y ex]; [done|].
      destruct Hhead as [? | [Hh | Hh]]; [done|injection Hh as ->; by vm_compute..]. }
    assert (digit_head (fr ++ ex ++ r') = false) as Hd3.
    { assert (digit_head fr = false) as Hfr.
      { apply fraction_head. }
      destruct fr; [done|exact Hfr]. }
    specialize (Hwhole _ Hd3). rewrite Hw in Hwhole, Hn |- *. cbn [app unsigned_number]. rewrite Ec. cbv zeta. cbn [app tail] in Hwhole.
    rewrite Hwhole. change (c :: w ++ ?x) with ((c :: w) ++ x). rewrite drop_app_length.
    rewrite Hfx by done. rewrite drop_app_length, Hex by done. rewrite Hn. cbn [mbind outcome_bind].
    by rewrite app_assoc, drop_app_length.
Qed.

Lemma json_number_cut s v r :
  json_number s = Ok (v, r) → ∃ w, s = w ++ r ∧ w ≠ [] ∧ ∀ r', delimited r' → json_number (w ++ r') = Ok (v, r').
Proof.
  destruct s as [|c s]; [done|]. cbn [json_number]. case_bool_decide as Hc.
  - intros (w & -> & Hw & H)%unsigned_number_cut. exists (c :: w). split_and!; [done..|]. intros r' Hr'.
    cbn [app json_number]. rewrite bool_decide_true by done. by apply H.
  - intros (w & Hs & Hw & H)%unsigned_number_cut. exists w. split_and!; [done..|]. intros r' Hr'.
    destruct w as [|d w]; [done|]. injection Hs as <- ->. cbn [app json_number]. rewrite bool_decide_false by done. by apply H.
Qed.

(** ** Values *)

Lemma json_space_not c : json_space c = true → is_digit c = false ∧ c ∉ &".eE".
Proof. intros Hc. by apply (delimited_space [c] []); cbn; rewrite ?Hc. Qed.

Lemma skip_space_split s : ∃ w, s = w ++ skip_space s ∧ forallb json_space w = true.
Proof.
  induction s as [|c s (w & Hw & Hs)]; [by exists []|]. unfold skip_space. cbn [drop_while]. destruct (json_space c) eqn:E.
  - exists (c :: w). cbn. rewrite E. split; [by f_equal|done].
  - by exists [].
Qed.

(** The text before [c], from spaces on, ends a number. *)
Lemma delimited_before w c x : forallb json_space w = true → c ∈ &",]}" → delimited (w ++ c :: x).
Proof.
  intros Hw Hc. apply delimited_space; [done|]. change (&",]}") with [44%N; 93%N; 125%N] in Hc.
  rewrite !elem_of_cons, elem_of_nil in Hc. destruct Hc as [-> | [-> | [-> | []]]]; (split; [done|]); by apply (has_false _ (&".eE")); vm_compute.
Qed.

Lemma startswith_drop (p s : pystr) : startswith p s = true → s = p ++ drop (length p) s.
Proof. intros [r ->]%startswith_true. by rewrite drop_app_length. Qed.

Definition number_head (c : N) : bool := is_digit c || (c =? chr "-")%N.

Lemma json_number_head c s v r : json_number (c :: s) = Ok (v, r) → number_head c = true.
Proof.
  unfold number_head. cbn [json_number]. case_bool_decide as Hc; [subst; done|]. cbn [unsigned_number]. by destruct (is_digit c).
Qed.

Lemma json_value_number hook m c s : number_head c = true → json_value hook (S m) (c :: s) = json_number (c :: s).
Proof.
  intros Hc. assert (∀ d, number_head d = false → c ≠ d) as Hne by (intros d Hd ->; congruence). cbn [json_value].
  rewrite !bool_decide_false by (by apply Hne).
  change (&"null") with (chr "n" :: &"ull"). change (&"true") with (chr "t" :: &"rue"). change (&"false") with (chr "f" :: &"alse").
  cbn [startswith]. by rewrite !bool_decide_false by (apply not_eq_sym; by apply Hne).
Qed.

Lemma comma_delimits : chr "," ∈ &",]}".
Proof. apply (has_true _ (&",]}")). by vm_compute. Qed.
Lemma bracket_delimits : chr "]" ∈ &",]}".
Proof. apply (has_true _ (&",]}")). by vm_compute. Qed.
Lemma brace_delimits : chr "}" ∈ &",]}".
Proof. apply (has_true _ (&",]}")). by vm_compute. Qed.

Section values.
Context (hook : list (pystr * pyval) → outcome pyobject).

(** [p] takes the text [x], after spaces, off its input for [v]. *)
Definition takes {A} (p : nat → pystr → outcome (A * pystr)) (x : pystr) (v : A) : Prop :=
  ∀ m r, delimited r → 2 * length x ≤ m → p m (skip_space (x ++ r)) = Ok (v, r).

Notation value := (json_value hook).
Notation elements := (json_elements hook).
Notation members := (json_members hook).

Lemma skip_to w c x : forallb json_space w = true → json_space c = false → skip_space (w ++ c :: x) = c :: x.
Proof. intros. by apply skip_space_char. Qed.

Lemma takes_spaces {A} (p : nat → pystr → outcome (A * pystr)) w x v : forallb json_space w = true → takes p x v → takes p (w ++ x) v.
Proof. intros Hw Hx m r Hr Hm. rewrite length_app in Hm. rewrite <-app_assoc, skip_space_app by done. apply Hx; [done|lia]. Qed.

(** A word whose reading does not depend on what follows. *)
Lemma takes_word c x v :
  json_space c = false → (∀ m r, delimited r → value (S m) (c :: x ++ r) = Ok (v, r)) → takes value (c :: x) v.
Proof. intros Hc Hv [|m] r Hr Hm; [cbn in Hm; lia|]. cbn [app]. rewrite skip_space_here by done. by apply Hv. Qed.

(** ** Building texts *)

Lemma takes_empty_list w : forallb json_space w = true → takes value (chr "[" :: w ++ [chr "]"]) (VList []).
Proof. intros Hw. apply takes_word; [done|]. intros m r _. rewrite <-app_assoc, json_value_bracket. cbn [app]. by rewrite skip_to. Qed.

Lemma takes_empty_dict w d : forallb json_space w = true → hook [] = Ok d → takes value (chr "{" :: w ++ [chr "}"]) (VDict d).
Proof. intros Hw Hd. apply takes_word; [done|]. intros m r _. rewrite <-app_assoc, json_value_brace. cbn [app]. rewrite skip_to by done. cbn. by rewrite Hd. Qed.

Lemma takes_list x l : takes elements x l → takes value (chr "[" :: x) (VList l).
Proof.
  intros Hx [|m] r Hr Hm; cbn [length] in Hm; [lia|]. cbn [app]. rewrite skip_space_here, json_value_bracket by done.
  pose proof (Hx m r Hr ltac:(lia)) as Hl. rewrite Hl. destruct (skip_space (x ++ r)) as [|c s] eqn:E; [by destruct m|].
  change (&"]") with [chr "]"]. cbn [startswith]. rewrite andb_true_r, bool_decide_false; [done|].
  intros <-. destruct m as [|[|m]]; by vm_compute in Hl.
Qed.

Lemma takes_dict x l d : takes members x l → hook l = Ok d → takes value (chr "{" :: x) (VDict d).
Proof.
  intros Hx Hd [|m] r Hr Hm; cbn [length] in Hm; [lia|]. cbn [app]. rewrite skip_space_here, json_value_brace by done.
  pose proof (Hx m r Hr ltac:(lia)) as Hl. rewrite Hl. destruct (skip_space (x ++ r)) as [|c s] eqn:E; [by destruct m|].
  change (&"}") with [chr "}"]. cbn [startswith]. rewrite andb_true_r, bool_decide_false; [cbn; by rewrite Hd|].
  intros <-. by destruct m.
Qed.

Lemma takes_last x v w : takes value x v → forallb json_space w = true → takes elements (x ++ w ++ [chr "]"]) [v].
Proof.
  intros Hx Hw [|m] r Hr Hm; rewrite !length_app in Hm; cbn [length] in Hm; [lia|]. rewrite <-!app_assoc. cbn [app json_elements].
  rewrite Hx by (lia || by apply delimited_before, bracket_delimits). cbn [mbind outcome_bind]. by rewrite skip_to.
Qed.

Lemma takes_cons x v w y l :
  takes value x v → forallb json_space w = true → takes elements y l → takes elements (x ++ w ++ chr "," :: y) (v :: l).
Proof.
  intros Hx Hw Hy [|m] r Hr Hm; rewrite !length_app in Hm; cbn [length] in Hm; [lia|]. rewrite <-!app_assoc. cbn [app json_elements].
  rewrite Hx by (lia || by apply delimited_before, comma_delimits). cbn [mbind outcome_bind]. rewrite skip_to, bool_decide_true by done.
  by rewrite Hy by (done || lia).
Qed.

(** The text of a field's name up to its colon. *)
Definition field_name (w : pystr) (k : pystr) : Prop :=
  ∀ m x, members (S m) (34%N :: w ++ x)
    = ('(v, r) ← value m (skip_space x);
       match skip_space r with
       | c :: r => if bool_decide (c = chr ",") then '(l, r) ← members m (skip_space r); Ok ((k, v) :: l, r)
                   else if bool_decide (c = chr "}") then Ok ([(k, v)], r) else Raise json_error
       | [] => Raise json_error
       end).

Lemma takes_last_field wk k x v w :
  field_name wk k → takes value x v → forallb json_space w = true → takes members (34%N :: wk ++ x ++ w ++ [chr "}"]) [(k, v)].
Proof.
  intros Hk Hx Hw [|m] r Hr Hm; cbn [length] in Hm; rewrite !length_app in Hm; cbn [length] in Hm; [lia|].
  cbn [app]. rewrite skip_space_here, <-!app_assoc, Hk by done. cbn [app].
  rewrite Hx by (lia || by apply delimited_before, brace_delimits). cbn [mbind outcome_bind]. by rewrite skip_to.
Qed.

Lemma takes_field wk k x v w y l :
  field_name wk k → takes value x v → forallb json_space w = true → takes members y l →
  takes members (34%N :: wk ++ x ++ w ++ chr "," :: y) ((k, v) :: l).
Proof.
  intros Hk Hx Hw Hy [|m] r Hr Hm; cbn [length] in Hm; rewrite !length_app in Hm; cbn [length] in Hm; [lia|].
  cbn [app]. rewrite skip_space_here, <-!app_assoc, Hk by done. cbn [app].
  rewrite Hx by (lia || by apply delimited_before, comma_delimits). cbn [mbind outcome_bind]. rewrite skip_to, bool_decide_true by done.
  by rewrite Hy by (done || lia).
Qed.

(** ** Taking texts apart *)

Notation taken p s v r := (∃ x, s = x ++ r ∧ takes p x v).

Lemma taken_after {A} (p : nat → pystr → outcome (A * pystr)) w s v r :
  forallb json_space w = true → taken p s v r → taken p (w ++ s) v r.
Proof. intros Hw (x & -> & Hx). exists (w ++ x). split; [by rewrite app_assoc|by apply takes_spaces]. Qed.

Lemma taken_scalar n c s v r :
  json_space c = false → opens_scalar (c :: s) → value (S n) (c :: s) = Ok (v, r) → taken value (c :: s) v r.
Proof.
  intros Hsp [Hb Hl] Hv. cbn [head] in *. cbn [json_value] in Hv.
  rewrite (bool_decide_false (c = chr "{")), (bool_decide_false (c = chr "[")) in Hv by congruence. revert Hv.
  case_bool_decide as Hq.
  { intros Hs. apply bind_ok in Hs as ([t r'] & Ht & Hs). injection Hs as <- <-.
    apply json_string_cut in Ht as (w & -> & Hw & Ht). exists (c :: w). split; [done|]. apply takes_word; [done|].
    intros m r _. cbn [json_value]. rewrite bool_decide_true by done. by rewrite Ht. }
  repeat match goal with
  | |- (if startswith ?p (c :: s) then _ else _) = _ → _ => destruct (startswith p (c :: s)) eqn:Es;
      [intros Hx; apply startswith_drop in Es; exists p; assert (r = drop (length p) (c :: s)) as -> by (by injection Hx);
       split; [exact Es|]; apply takes_word; [done|intros m r' _; by injection Hx as <-]|clear Es]
  end.
  intros Hn. pose proof (json_number_head _ _ _ _ Hn) as Hc. apply json_number_cut in Hn as (w & Hw & Hne & Ht).
  destruct w as [|d w]; [done|]. injection Hw as <- ->. exists (c :: w). split; [done|]. apply takes_word; [done|].
  intros m r' Hr. rewrite json_value_number by done. by apply Ht.
Qed.

Lemma taken_value n s v r :
  (∀ s l r, elements n (skip_space s) = Ok (l, r) → taken elements s l r) →
  (∀ s l r, members n (skip_space s) = Ok (l, r) → taken members s l r) →
  value (S n) (skip_space s) = Ok (v, r) → taken value s v r.
Proof.
  intros IHe IHm. destruct (skip_space_split s) as (w0 & Hs & Hw0).
  assert (value (S n) (skip_space s) = Ok (v, r) → taken value (skip_space s) v r) as H;
    [|intros Hv; rewrite Hs; by apply taken_after, H]. clear Hw0.
  destruct (skip_space s) as [|c t] eqn:E; [done|]. clear w0 Hs.
  assert (json_space c = false) as Hc.
  { clear -E. revert E. induction s as [|d s IH]; [done|]. unfold skip_space in *. cbn [drop_while]. destruct (json_space d) eqn:Ed; [done|].
    by intros [= <- _]. }
  destruct (skip_space_split t) as (w & Hw & Hsp).
  destruct (decide (c = chr "{")) as [->|Hb]; [|destruct (decide (c = chr "[")) as [->|Hl]].
  - rewrite json_value_brace. destruct (startswith _ (skip_space t)) eqn:Es; intros Hd; apply bind_ok in Hd.
    + destruct Hd as (d & Hd & H). apply startswith_true in Es as [t' Ht]. rewrite Ht in H, Hw. cbn in H. injection H as <- <-.
      exists (chr "{" :: w ++ [chr "}"]). rewrite Hw at 1. split; [cbn; by rewrite <-app_assoc|by apply takes_empty_dict].
    + destruct Hd as ([l r'] & Hl & Hd). apply bind_ok in Hd as (d & Hd & H). injection H as <- <-.
      apply IHm in Hl as (x & -> & Hx). exists (chr "{" :: x). split; [done|by eapply takes_dict].
  - rewrite json_value_bracket. destruct (startswith _ (skip_space t)) eqn:Es; intros Hd.
    + apply startswith_true in Es as [t' Ht]. rewrite Ht in Hd, Hw. cbn in Hd. injection Hd as <- <-.
      exists (chr "[" :: w ++ [chr "]"]). rewrite Hw at 1. split; [cbn; by rewrite <-app_assoc|by apply takes_empty_list].
    + apply bind_ok in Hd as ([l r'] & Hl & Hd). injection Hd as <- <-.
      apply IHe in Hl as (x & -> & Hx). exists (chr "[" :: x). split; [done|by apply takes_list].
  - apply taken_scalar; [done|by split; cbn; congruence].
Qed.

Lemma taken_item n s v c s' r :
  (∀ s v r, value n (skip_space s) = Ok (v, r) → taken value s v r) →
  value n (skip_space s) = Ok (v, r) → skip_space r = c :: s' →
  ∃ x w, s = x ++ w ++ c :: s' ∧ takes value x v ∧ forallb json_space w = true.
Proof.
  intros IH (x & -> & Hx)%IH Hr. destruct (skip_space_split r) as (w & Hw & Hsp). rewrite Hr in Hw.
  exists x, w. by rewrite <-Hw.
Qed.

Lemma taken_elements n s l r :
  (∀ s v r, value n (skip_space s) = Ok (v, r) → taken value s v r) →
  (∀ s l r, elements n (skip_space s) = Ok (l, r) → taken elements s l r) →
  elements (S n) (skip_space s) = Ok (l, r) → taken elements s l r.
Proof.
  intros IHv IHe Hs. cbn [json_elements] in Hs. apply bind_ok in Hs as ([v r1] & Hv & Hs).
  destruct (skip_space r1) as [|c r2] eqn:Er; [done|].
  destruct (taken_item _ _ _ _ _ _ IHv Hv Er) as (x & w & -> & Hx & Hw). case_bool_decide as Hc.
  - apply bind_ok in Hs as ([l' r'] & Hl & Hs). injection Hs as <- <-. subst c.
    apply IHe in Hl as (y & -> & Hy). exists (x ++ w ++ chr "," :: y). split; [by rewrite <-!app_assoc|by apply takes_cons].
  - destruct (bool_decide (c = chr "]")) eqn:Hc'; [|done]. apply bool_decide_eq_true in Hc' as ->. injection Hs as <- <-.
    exists (x ++ w ++ [chr "]"]). split; [by rewrite <-!app_assoc|by apply takes_last].
Qed.

Lemma field_name_cut wk k w :
  (∀ r, json_string_at (wk ++ r) = Ok (k, r)) → forallb json_space w = true → field_name (wk ++ w ++ [chr ":"]) k.
Proof.
  intros Hk Hw m x. cbn [json_members]. rewrite bool_decide_true by done. rewrite <-!app_assoc. cbn [app]. rewrite Hk.
  cbn [mbind outcome_bind]. rewrite skip_to by done. by rewrite bool_decide_true.
Qed.

Lemma taken_members n s l r :
  (∀ s v r, value n (skip_space s) = Ok (v, r) → taken value s v r) →
  (∀ s l r, members n (skip_space s) = Ok (l, r) → taken members s l r) →
  members (S n) (skip_space s) = Ok (l, r) → taken members s l r.
Proof.
  intros IHv IHm. destruct (skip_space_split s) as (w0 & Hs & Hw0). intros H. rewrite Hs. apply taken_after; [done|].
  revert H. clear Hs Hw0. cbn [json_members]. destruct (skip_space s) as [|q t]; [done|]. clear s w0.
  case_bool_decide as Hq; [|done]. subst q. intros Hs.
  apply bind_ok in Hs as ([k r0] & Hk & Hs). apply json_string_cut in Hk as (wk & -> & Hwk & Hk).
  destruct (skip_space r0) as [|c r1] eqn:Er0; [done|]. destruct (bool_decide (c = chr ":")) eqn:Hc; [|done].
  apply bool_decide_eq_true in Hc as ->. destruct (skip_space_split r0) as (w1 & Hw1 & Hsp1). rewrite Er0 in Hw1.
  assert (field_name (wk ++ w1 ++ [chr ":"]) k) as Hfield by (by apply field_name_cut). subst r0.
  apply bind_ok in Hs as ([v r2] & Hv & Hs). destruct (skip_space r2) as [|c r3] eqn:Er; [done|].
  destruct (taken_item _ _ _ _ _ _ IHv Hv Er) as (x & w & -> & Hx & Hw). case_bool_decide as Hc.
  - apply bind_ok in Hs as ([l' r'] & Hl & Hs). injection Hs as <- <-. subst c. apply IHm in Hl as (y & -> & Hy).
    exists (34%N :: (wk ++ w1 ++ [chr ":"]) ++ x ++ w ++ chr "," :: y). split; [|by apply (takes_field (wk ++ w1 ++ [chr ":"]) k x v w y l')].
    cbn. do 3 (rewrite <-?app_assoc; cbn [app]). done.
  - destruct (bool_decide (c = chr "}")) eqn:Hc'; [|done]. apply bool_decide_eq_true in Hc' as ->. injection Hs as <- <-.
    exists (34%N :: (wk ++ w1 ++ [chr ":"]) ++ x ++ w ++ [chr "}"]). split; [|by apply (takes_last_field (wk ++ w1 ++ [chr ":"]) k x v w)].
    cbn. do 3 (rewrite <-?app_assoc; cbn [app]). done.
Qed.

Lemma json_taken n :
  (∀ s v r, value n (skip_space s) = Ok (v, r) → taken value s v r)
  ∧ (∀ s l r, elements n (skip_space s) = Ok (l, r) → taken elements s l r)
  ∧ (∀ s l r, members n (skip_space s) = Ok (l, r) → taken members s l r).
Proof.
  induction n as [|n (IHv & IHe & IHm)]; [done|]. split_and!; intros s l r.
  - by apply taken_value.
  - by apply taken_elements.
  - by apply taken_members.
Qed.
End values.
