(* ===== verification/JsonEditFacts.v ===== *)
(** * Reading an edited document

    Replacing the text of one scalar of a document by the text of another value
    gives a document that reads as the old one with that value in its place. *)

From Stdlib Require Import QArith.QArith.
From S2P Require Import Prelude PyStr PyDict PyRegex PyVal Passwords PyJson JsonFacts JsonTotal VersionPlan JsonDocument JsonDocumentFacts JsonFrame.

(** [v] with the value at a path replaced. *)
Fixpoint set_path (v : pyval) (path : doc_path) (new : pyval) : pyval :=
  match path with
  | [] => new
  | k :: path =>
    match v, k with
    | VDict d, KName s => match dict_get s d with Some w => VDict (dict_set s (set_path w path new) d) | None => v end
    | VList l, KIndex i => match l !! i with Some w => VList (<[i := set_path w path new]> l) | None => v end
    | _, _ => v
    end
  end.

Lemma dict_set_comm {V} (k k' : pystr) (v v' w : V) d :
  dict_get k d = Some w → dict_get k' d = None → dict_set k' v' (dict_set k v d) = dict_set k v (dict_set k' v' d).
Proof.
  induction d as [|[j x] d IH]; [done|]. cbn [dict_get dict_set]. intros Hk Hk'.
  destruct (decide (k' = j)) as [->|Hj']; [done|]. destruct (decide (k = j)) as [->|Hj]; cbn [dict_set].
  - rewrite decide_False, decide_True by done. done.
  - rewrite !decide_False by done. f_equal. by apply IH.
Qed.

Lemma dict_set_set {V} (k : pystr) (v v' : V) d : dict_set k v' (dict_set k v d) = dict_set k v' d.
Proof.
  induction d as [|[j x] d IH]; cbn [dict_set]; [by rewrite decide_True|].
  destruct (decide (k = j)); cbn [dict_set]; [by rewrite decide_True|]. rewrite decide_False by done. by f_equal.
Qed.

Lemma no_duplicates_get pairs result entries k w :
  no_duplicates pairs result = Ok entries → dict_get k result = Some w → dict_get k entries = Some w.
Proof.
  revert result. induction pairs as [|[j x] pairs IH]; intros result Hd Hk; cbn [no_duplicates] in *; [by injection Hd as <-|].
  apply bind_ok in Hd as ([] & Hj%check_ok%negb_true_iff & Hd). apply (IH _ Hd). unfold dict_has in Hj.
  rewrite dict_get_set_ne; [done|]. intros ->. by rewrite Hk in Hj.
Qed.

(** Changing a field before the others are read changes it in the result. *)
Lemma no_duplicates_set pairs result entries k w w' :
  no_duplicates pairs result = Ok entries → dict_get k result = Some w →
  no_duplicates pairs (dict_set k w' result) = Ok (dict_set k w' entries).
Proof.
  revert result. induction pairs as [|[j x] pairs IH]; intros result Hd Hk; cbn [no_duplicates] in *.
  - by injection Hd as ->.
  - apply bind_ok in Hd as ([] & Hj%check_ok%negb_true_iff & Hd). unfold dict_has in Hj.
    destruct (dict_get j result) eqn:Ej; [done|]. assert (j ≠ k) as Hne by (intros ->; congruence).
    unfold dict_has. rewrite dict_get_set_ne, Ej by done. cbn [release_require check mbind outcome_bind negb].
    rewrite (dict_set_comm k j w' x w) by done. apply IH; [done|]. by rewrite dict_get_set_ne.
Qed.

Lemma takes_loads hook x v r : takes (json_value hook) x v → skip_space r = [] → json_loads hook (x ++ r) = Ok v.
Proof.
  intros Hx Hr. destruct (skip_space_split r) as (w & Hw & Hs). rewrite Hr, app_nil_r in Hw. subst w.
  assert (delimited r) as Hd by (rewrite <-(app_nil_r r); by apply delimited_space).
  pose proof (Hx (2 * length x) r Hd ltac:(lia)) as Hv. unfold json_loads. cbv zeta.
  assert (skip_space (skip_space (x ++ r)) = skip_space (x ++ r)) as Hi by apply skip_space_idem.
  set (s := skip_space (x ++ r)) in *. clearbody s. rewrite <-Hi in Hv. apply json_taken in Hv as (y & Hy & Hv).
  specialize (Hv (2 * length s + 2) r Hd). rewrite <-Hy, Hi in Hv. rewrite Hv by (rewrite Hy, length_app; lia).
  cbn [mbind outcome_bind]. by rewrite Hr.
Qed.

Section edit.
Context (text : pystr).
Notation at_ i := (drop i text).
Notation value := (json_value strict).
Notation elements := (json_elements strict).
Notation members := (json_members strict).

(** [x] takes the place's part of the text at [i] up to [stop], once the text
    [tok] stands in it. *)
Definition edited (i : nat) (place : nat * nat) (stop : nat) (good : pystr → pyval → pystr → Prop) : Prop :=
  ∃ pre, at_ i = pre ++ at_ place.1 ∧
    ∀ tok new, takes value tok new → ∃ x, pre ++ tok ++ at_ place.2 = x ++ at_ stop ∧ good tok new x.

Lemma edited_after w i j place stop (good good' : pystr → pyval → pystr → Prop) :
  at_ i = w ++ at_ j → (∀ tok new x, good tok new x → good' tok new (w ++ x)) →
  edited j place stop good → edited i place stop good'.
Proof.
  intros Hi Hgood (pre & Hpre & Hx). exists (w ++ pre). split; [by rewrite Hi, Hpre, app_assoc|].
  intros tok new Htok. destruct (Hx tok new Htok) as (x & Hex & Hg). exists (w ++ x). rewrite <-!app_assoc, Hex. auto.
Qed.

Lemma edited_before w i j k place (good good' : pystr → pyval → pystr → Prop) :
  at_ j = w ++ at_ k → (∀ tok new x, good tok new x → good' tok new (x ++ w)) →
  edited i place j good → edited i place k good'.
Proof.
  intros Hi Hgood (pre & Hpre & Hx). exists pre. split; [done|].
  intros tok new Htok. destruct (Hx tok new Htok) as (x & Hex & Hg). exists (x ++ w). rewrite <-!app_assoc, Hex, Hi. auto.
Qed.

Lemma at_spaces i : ∃ w, at_ i = w ++ at_ (whitespace text i) ∧ forallb json_space w = true.
Proof. rewrite at_whitespace. apply skip_space_split. Qed.

Lemma edited_spaces {A} (p : nat → pystr → outcome (A * pystr)) i place stop (v : pyval → A) :
  edited (whitespace text i) place stop (λ _ new x, takes p x (v new)) → edited i place stop (λ _ new x, takes p x (v new)).
Proof. destruct (at_spaces i) as (w & Hw & Hs). apply (edited_after w); [done|]. intros tok new x. by apply takes_spaces. Qed.

(** What one call of the parser says of the places it adds. *)
Definition value_edits (i stop : nat) (v : pyval) (path : doc_path) (spans spans' : span_map) : Prop :=
  ∀ q place, dict_get q spans' = Some place → dict_get q spans = Some place
    ∨ ∃ rel, q = path ++ rel ∧ edited i place stop (λ _ new x, takes value x (set_path v rel new)).

Definition list_edits (i stop : nat) (items : list pyval) (n : nat) (path : doc_path) (spans spans' : span_map) : Prop :=
  ∀ q place, dict_get q spans' = Some place → dict_get q spans = Some place
    ∨ ∃ j rel w, q = path ++ KIndex j :: rel ∧ n ≤ j ∧ items !! j = Some w
       ∧ edited i place stop (λ _ new x, takes elements x (drop n (<[j := set_path w rel new]> items))).

Definition dict_edits (i stop : nat) (entries result : pyobject) (path : doc_path) (spans spans' : span_map) : Prop :=
  ∀ q place, dict_get q spans' = Some place → dict_get q spans = Some place
    ∨ ∃ k rel w, q = path ++ KName k :: rel ∧ dict_get k entries = Some w ∧ dict_get k result = None
       ∧ edited i place stop (λ _ new x, ∃ pairs, takes members x pairs
            ∧ no_duplicates pairs result = Ok (dict_set k (set_path w rel new) entries)).

Lemma list_value_edits i j stop items path spans spans' :
  at_ i = chr "[" :: at_ (i + 1) → j = whitespace text (i + 1) →
  list_edits j stop items 0 path spans spans' → value_edits i stop (VList items) path spans spans'.
Proof.
  intros Hi -> Hl q place Hq. destruct (Hl q place Hq) as [H|(k & rel & w & -> & _ & Hw & He)]; [by left|right].
  exists (KIndex k :: rel). split; [done|]. cbn [set_path]. rewrite Hw. cbn [drop] in He.
  apply edited_spaces in He. revert He. apply (edited_after [chr "["]); [done|]. intros tok new x. apply takes_list.
Qed.

Lemma dict_value_edits i j stop entries path spans spans' :
  at_ i = chr "{" :: at_ (i + 1) → j = whitespace text (i + 1) →
  dict_edits j stop entries [] path spans spans' → value_edits i stop (VDict entries) path spans spans'.
Proof.
  intros Hi -> Hd q place Hq. destruct (Hd q place Hq) as [H|(k & rel & w & -> & Hw & _ & He)]; [by left|right].
  exists (KName k :: rel). split; [done|]. cbn [set_path]. rewrite Hw.
  destruct (at_spaces (i + 1)) as (sp & Hsp & Hsps). revert He. apply (edited_after (chr "{" :: sp)); [by rewrite Hi, Hsp|].
  intros tok new x (pairs & Hx & Hp). cbn [app]. eapply takes_dict; [by apply takes_spaces|done].
Qed.
Lemma list_edits_last i i2 stop w v result path spans spans' :
  value_edits i i2 v (path ++ [KIndex (length result)]) spans spans' →
  at_ i2 = (w ++ [chr "]"]) ++ at_ stop → forallb json_space w = true →
  list_edits i stop (result ++ [v]) (length result) path spans spans'.
Proof.
  intros Hv Hi2 Hw q place Hq. destruct (Hv q place Hq) as [H|(rel & -> & He)]; [by left|right].
  exists (length result), rel, v. rewrite <-app_assoc. split_and!; [done|done|by rewrite lookup_app_r, Nat.sub_diag|].
  revert He. apply (edited_before (w ++ [chr "]"])); [done|]. intros tok new x Hx.
  rewrite insert_app_r_alt, Nat.sub_diag, drop_app_length by done. by apply takes_last.
Qed.

Lemma list_edits_cons i i2 j stop w x v y more result path spans spans1 spans2 :
  value_edits i i2 v (path ++ [KIndex (length result)]) spans spans1 →
  at_ i = x ++ at_ i2 → takes value x v → at_ i2 = (w ++ [chr ","]) ++ at_ j → forallb json_space w = true →
  at_ j = y ++ at_ stop → takes elements y more →
  list_edits (whitespace text j) stop (result ++ v :: more) (S (length result)) path spans1 spans2 →
  list_edits i stop (result ++ v :: more) (length result) path spans spans2.
Proof.
  intros Hv Hi Hx Hi2 Hw Hj Hy Hl q place Hq. destruct (Hl q place Hq) as [H|(k & rel & u & -> & Hk & Hu & He)].
  - destruct (Hv q place H) as [H'|(rel & -> & He)]; [by left|right].
    exists (length result), rel, v. rewrite <-app_assoc. split_and!; [done|done|by rewrite lookup_app_r, Nat.sub_diag|].
    revert He. apply (edited_before ((w ++ [chr ","]) ++ y)); [by rewrite Hi2, Hj, app_assoc|]. intros tok new z Hz.
    rewrite insert_app_r_alt, Nat.sub_diag, drop_app_length by done. rewrite <-!app_assoc. cbn [app]. by apply takes_cons.
  - right. exists k, rel, u. split_and!; [done|lia|done|]. apply edited_spaces in He. revert He.
    apply (edited_after (x ++ w ++ [chr ","])); [by rewrite Hi, Hi2, <-!app_assoc|]. intros tok new z Hz.
    assert (length result ≤ k) as Hle by lia. rewrite insert_app_r_alt in Hz |- * by done.
    destruct (k - length result) as [|k'] eqn:Ek; [lia|]. cbn [insert list_insert] in Hz |- *.
    rewrite drop_app_length. rewrite cons_middle, app_assoc, drop_app_length' in Hz by (rewrite length_app; cbn; lia).
    rewrite <-!app_assoc. cbn [app]. by apply takes_cons.
Qed.

Lemma dict_edits_last i i1 i2 stop wk k w v result path spans spans' :
  value_edits i1 i2 v (path ++ [KName k]) spans spans' →
  at_ i = (34%N :: wk) ++ at_ i1 → field_name strict wk k → at_ i2 = (w ++ [chr "}"]) ++ at_ stop → forallb json_space w = true →
  dict_get k result = None → dict_edits i stop (dict_set k v result) result path spans spans'.
Proof.
  intros Hv Hi Hk Hi2 Hw Hnone q place Hq. destruct (Hv q place Hq) as [H|(rel & -> & He)]; [by left|right].
  exists k, rel, v. rewrite <-app_assoc. split_and!; [done|by rewrite dict_get_set_eq|done|]. revert He. intros He.
  apply (edited_before (w ++ [chr "}"]) i1 i2 stop place _ (λ _ new x, ∃ y, x = y ++ w ++ [chr "}"] ∧ takes value y (set_path v rel new))) in He;
    [|done|by intros tok new x Hx; exists x].
  revert He. apply (edited_after (34%N :: wk)); [done|]. intros tok new x (y & -> & Hy).
  exists [(k, set_path v rel new)]. split; [by apply takes_last_field|]. cbn [no_duplicates].
  unfold dict_has. rewrite Hnone. cbn. by rewrite dict_set_set.
Qed.

Lemma dict_edits_cons i i1 i2 j stop wk k w x v y pairs result entries path spans spans1 spans2 :
  value_edits i1 i2 v (path ++ [KName k]) spans spans1 →
  at_ i = (34%N :: wk) ++ at_ i1 → field_name strict wk k → at_ i1 = x ++ at_ i2 → takes value x v →
  at_ i2 = (w ++ [chr ","]) ++ at_ j → forallb json_space w = true →
  at_ j = y ++ at_ stop → takes members y pairs → no_duplicates pairs (dict_set k v result) = Ok entries →
  dict_get k result = None →
  dict_edits (whitespace text j) stop entries (dict_set k v result) path spans1 spans2 →
  dict_edits i stop entries result path spans spans2.
Proof.
  intros Hv Hi Hk Hi1 Hx Hi2 Hw Hj Hy Hdup Hnone Hd q place Hq.
  destruct (Hd q place Hq) as [H|(k' & rel & u & -> & Hk' & Hk'' & He)].
  - destruct (Hv q place H) as [H'|(rel & -> & He)]; [by left|right].
    exists k, rel, v. rewrite <-app_assoc. split_and!; [done|by eapply no_duplicates_get; [done|apply dict_get_set_eq]|done|].
    apply (edited_before ((w ++ [chr ","]) ++ y) i1 i2 stop place _
      (λ _ new x, ∃ z, x = z ++ w ++ chr "," :: y ∧ takes value z (set_path v rel new))) in He;
      [|by rewrite Hi2, Hj, app_assoc|intros tok new z Hz; exists z; by rewrite <-!app_assoc].
    revert He. apply (edited_after (34%N :: wk)); [done|]. intros tok new z0 (z & -> & Hz).
    exists ((k, set_path v rel new) :: pairs). split; [by apply takes_field|]. cbn [no_duplicates].
    unfold dict_has. rewrite Hnone. cbn. rewrite <-(dict_set_set k v (set_path v rel new) result).
    by eapply no_duplicates_set; [done|apply dict_get_set_eq].
  - right. rewrite dict_get_set in Hk''. case_decide as Hne; [done|]. exists k', rel, u. split_and!; [done..|].
    destruct (at_spaces j) as (sp & Hsp & Hsps). revert He.
    apply (edited_after ((34%N :: wk) ++ x ++ w ++ [chr ","] ++ sp)); [rewrite Hi, Hi1, Hi2, Hsp; by rewrite <-!app_assoc|].
    intros tok new z (more & Hz & Hmore). exists ((k, v) :: more). split.
    + cbn [app]. rewrite <-!app_assoc. cbn [app]. apply takes_field; [done..|by apply takes_spaces].
    + cbn [no_duplicates]. unfold dict_has. by rewrite Hnone.
Qed.

(** What stands in the text, by the calls of the parser. *)
Lemma parse_takes n i path spans v stop spans' :
  parse text n i path spans = Ok (v, stop, spans') → ∃ x, at_ i = x ++ at_ stop ∧ takes value x v.
Proof. intros (_ & Hm & _)%(proj1 (parse_reads text n)). eapply json_taken, Hm, le_n. Qed.

Lemma array_takes n j path result spans items stop spans' :
  array_items text n (whitespace text j) path result spans = Ok (items, stop, spans') →
  ∃ more x, items = result ++ more ∧ at_ j = x ++ at_ stop ∧ takes elements x more.
Proof.
  intros (_ & (more & -> & Hm) & _)%(proj2 (proj2 (parse_reads text n))). specialize (Hm _ (le_n _)).
  rewrite !at_whitespace, skip_space_idem in Hm. apply json_taken in Hm as (x & Hx & Ht). by exists more, x.
Qed.

Lemma object_takes n j path result spans entries stop spans' :
  object_entries text n (whitespace text j) path result spans = Ok (entries, stop, spans') →
  ∃ pairs x, no_duplicates pairs result = Ok entries ∧ at_ j = x ++ at_ stop ∧ takes members x pairs.
Proof.
  intros (_ & (pairs & Hm & Hd) & _)%(proj1 (proj2 (parse_reads text n))). specialize (Hm _ (le_n _)).
  rewrite at_whitespace in Hm at 2. apply json_taken in Hm as (x & Hx & Ht). by exists pairs, x.
Qed.

Lemma spaces_then i c : char_is text (whitespace text i) c = true →
  ∃ w, at_ i = (w ++ [c]) ++ at_ (whitespace text i + 1) ∧ forallb json_space w = true.
Proof.
  intros Hc%char_at. destruct (at_spaces i) as (w & Hw & Hs). exists w. split; [|done]. rewrite Hw, Hc, <-app_assoc. done.
Qed.

Lemma parse_edits n :
  (∀ i path spans v stop spans', parse text n i path spans = Ok (v, stop, spans') → value_edits i stop v path spans spans')
  ∧ (∀ i path result spans entries stop spans', object_entries text n i path result spans = Ok (entries, stop, spans') →
       dict_edits i stop entries result path spans spans')
  ∧ (∀ i path result spans items stop spans', array_items text n i path result spans = Ok (items, stop, spans') →
       list_edits i stop items (length result) path spans spans').
Proof.
  induction n as [|n (IHv & IHo & IHa)]; [done|]. split_and!.
  - intros i path spans v stop spans' Hp.
    assert (value_edits (whitespace text i) stop v path spans spans') as Hgo.
    { cbn [parse] in Hp. cbv zeta in Hp. set (j := whitespace text i) in *. apply bind_ok in Hp as ([] & _ & Hp).
      destruct (char_is text j (chr "{")) eqn:Eb; [|destruct (char_is text j (chr "[")) eqn:El].
      - destruct (char_is text _ (chr "}")); [injection Hp as <- <- <-; by left|].
        apply bind_ok in Hp as ([[entries stop'] spans1] & He & Hp). injection Hp as <- <- <-.
        eapply dict_value_edits; [by apply char_at|done|by apply IHo in He].
      - destruct (char_is text _ (chr "]")); [injection Hp as <- <- <-; by left|].
        apply bind_ok in Hp as ([[items stop'] spans1] & He & Hp). injection Hp as <- <- <-.
        eapply list_value_edits; [by apply char_at|done|by apply IHa in He].
      - apply bind_ok in Hp as ([w stop'] & Hd & Hp). injection Hp as <- <- <-. intros q place. rewrite dict_get_set.
        case_decide as Hq; [|by left]. intros [= <-]. right. exists []. rewrite app_nil_r. split; [done|].
        exists []. split; [done|]. intros tok new Htok. exists tok. done. }
    intros q place Hq. destruct (Hgo q place Hq) as [H|(rel & -> & He)]; [by left|right]. exists rel. split; [done|].
    by apply edited_spaces.
  - intros i path result spans entries stop spans' Hp. cbn [object_entries] in Hp. cbv zeta in Hp.
    apply bind_ok in Hp as ([key stop1] & Hkey & Hp). apply bind_ok in Hp as ([] & Hnew%check_ok & Hp).
    apply andb_true_iff in Hnew as [Hstr Hnew%negb_true_iff]. destruct key as [| | | |k| | |]; try done. cbn [str_value] in *.
    assert (dict_get k result = None) as Hnone.
    { unfold dict_has in Hnew. apply bool_decide_eq_false in Hnew. by destruct (dict_get k result) as [w|]; [destruct Hnew; exists w|]. }
    apply raw_decode_string in Hkey as (s & Hs & Hk & _). apply json_string_cut in Hk as (wk & -> & _ & Hk).
    apply bind_ok in Hp as ([] & Hcolon%check_ok & Hp). apply spaces_then in Hcolon as (w1 & Hw1 & Hs1).
    set (i1 := whitespace text stop1 + 1) in *. rewrite Hw1, app_assoc in Hs. change (34%N :: ?a ++ ?b) with ((34%N :: a) ++ b) in Hs.
    assert (field_name strict (wk ++ w1 ++ [chr ":"]) k) as Hfield by (by apply field_name_cut).
    apply bind_ok in Hp as ([[v i2] spans1] & Hv & Hp). destruct (parse_takes _ _ _ _ _ _ _ Hv) as (x & Hx & Htx). apply IHv in Hv.
    apply bind_ok in Hp as ([] & _ & Hp). destruct (char_is text (whitespace text i2) (chr "}")) eqn:Ec.
    + injection Hp as <- <- <-. apply spaces_then in Ec as (w & Hw & Hsw). by eapply dict_edits_last.
    + apply bind_ok in Hp as ([] & Hcomma%check_ok & Hp). apply spaces_then in Hcomma as (w & Hw & Hsw).
      destruct (object_takes _ _ _ _ _ _ _ _ Hp) as (pairs & y & Hdup & Hy & Hty). apply IHo in Hp. by eapply dict_edits_cons.
  - intros i path result spans items stop spans' Hp. cbn [array_items] in Hp. cbv zeta in Hp.
    apply bind_ok in Hp as ([[v i2] spans1] & Hv & Hp). destruct (parse_takes _ _ _ _ _ _ _ Hv) as (x & Hx & Htx). apply IHv in Hv.
    apply bind_ok in Hp as ([] & _ & Hp). destruct (char_is text (whitespace text i2) (chr "]")) eqn:Ec.
    + injection Hp as <- <- <-. apply spaces_then in Ec as (w & Hw & Hsw). by eapply list_edits_last.
    + apply bind_ok in Hp as ([] & Hcomma%check_ok & Hp). apply spaces_then in Hcomma as (w & Hw & Hsw).
      destruct (array_takes _ _ _ _ _ _ _ _ Hp) as (more & y & -> & Hy & Hty). apply IHa in Hp.
      replace (length (result ++ [v])) with (S (length result)) in Hp by (rewrite length_app; cbn; lia).
      rewrite <-app_assoc in Hp |- *. cbn [app] in *.
      by eapply list_edits_cons.
Qed.
End edit.

(** Replacing the text of a recorded place by the text of a value. *)
Lemma document_edit raw text data spans path start stop tok new :
  json_document raw = Ok (text, data, spans) → dict_get path spans = Some (start, stop) →
  takes (json_value strict) tok new →
  json_loads strict (take start text ++ tok ++ drop stop text) = Ok (set_path data path new).
Proof.
  intros Hdoc Hq Htok. destruct (json_document_places _ _ _ _ _ _ _ Hdoc Hq) as (_ & _ & _ & Hb & _). cbn [fst snd] in Hb.
  apply json_document_parse in Hdoc as (_ & e & Hp & Hend).
  destruct (proj1 (parse_edits text _) _ _ _ _ _ _ Hp path (start, stop) Hq) as [H|(rel & Hrel & pre & Hpre & Hx)]; [done|].
  cbn [app fst snd] in *. subst rel. destruct (Hx tok new Htok) as (x & Hxe & Hgood). rewrite drop_0 in Hpre.
  assert (pre = take start text) as ->.
  { rewrite Hpre at 1. rewrite take_app_length'; [done|]. apply (f_equal length) in Hpre. rewrite length_app, length_drop in Hpre. lia. }
  rewrite Hxe. by apply takes_loads.
Qed.

Lemma takes_int n : takes (json_value strict) (str_of_int n) (VInt n).
Proof.
  intros m r Hr Hm. destruct (reads_int strict n) as [Hh Hn]. rewrite <-(app_nil_l (str_of_int n ++ r)), skip_space_head by done.
  apply Hn; [lia|done].
Qed.

Lemma takes_string s : takes (json_value strict) (json_scalar (VStr s)) (VStr s).
Proof. apply takes_word; [done|]. intros m r _. exact (json_scalar_string strict s r). Qed.

Lemma set_path_same data path old : get_path data path = Ok old → set_path data path old = data.
Proof.
  revert data. induction path as [|k path IH]; intros data Hg; cbn [get_path set_path] in *; [by injection Hg as ->|].
  apply bind_ok in Hg as ([] & _ & Hg). destruct data, k; try done; cbn [child] in Hg.
  - destruct (l !! i) as [w|] eqn:E; [|done]. rewrite IH by done. by rewrite list_insert_id.
  - destruct (dict_get s d) as [w|] eqn:E; [|done]. rewrite IH by done. f_equal. clear -E.
    induction d as [|[j x] d IHd]; [done|]. cbn [dict_get dict_set] in *. case_decide as Hj; [by simplify_eq|]. f_equal. by apply IHd.
Qed.

(** The new value has the type of the old one. *)
Lemma new_scalar_eq value old new : new_scalar value old = Ok new → py_eq old new = true → new = old.
Proof.
  unfold new_scalar. intros H. apply bind_ok in H as ([] & Hold%check_ok & H). destruct old as [| |n| |s| | |]; try done.
  - cbn in H. destruct value as [| |m| | | | |]; try done. injection H as <-. unfold py_eq. cbn. rewrite Qeq_bool_iff. intros Hq.
    unfold Qeq in Hq. cbn in Hq. f_equal. lia.
  - cbn in H. injection H as <-. by intros ->%py_eq_str.
Qed.

Lemma new_scalar_takes value old new : new_scalar value old = Ok new → takes (json_value strict) (json_scalar new) new.
Proof.
  unfold new_scalar. intros H. apply bind_ok in H as ([] & _ & H). destruct (type_is_int old).
  - destruct value; try done. injection H as <-. apply takes_int.
  - injection H as <-. apply takes_string.
Qed.

(** A JSON version field is edited in place and nothing else changes.  The file
    before the edit is a document whose declared field holds a string or an integer.
    When that value is already the new one the bytes stay; otherwise exactly the
    token of the field is replaced.  Either way the file that is written reads, with
    duplicate fields refused, as the old data with the new value at that field. *)
Theorem json_edit_sets_field raw d value out previous :
  item (&"format") d = Ok (VStr (&"json")) → json_edit raw d value = Ok (out, previous) →
  ∃ text data f names old new text',
    decode raw = Ok text ∧ json_loads strict text = Ok data
    ∧ item (&"field") d = Ok f ∧ field f = Ok names ∧ get_path data (map KName names) = Ok old ∧ previous = [old]
    ∧ new_scalar value old = Ok new
    ∧ decode out = Ok text' ∧ json_loads strict text' = Ok (set_path data (map KName names) new)
    ∧ (if py_eq old new then text' = text
       else ∃ before token after, text = before ++ token ++ after ∧ token ≠ [] ∧ text' = before ++ json_scalar new ++ after
            ∧ json_value strict 1 (token ++ after) = Ok (old, after)).
Proof.
  intros Hformat Hedit. destruct (json_edit_splices _ _ _ _ _ Hformat Hedit)
    as (text & data & spans & f & names & old & new & start & stop & Hdoc & Hf & Hnames & Hold & -> & Hnew & Hspan & Hout).
  destruct (json_document_parse _ _ _ _ Hdoc) as [Htext _]. pose proof (json_document_loads _ _ _ _ Hdoc) as Hdata.
  eexists text, data, f, names, old, new, _. split_and!; [done..|by apply decode_encode| |].
  - destruct (py_eq old new) eqn:Heq.
    + rewrite (new_scalar_eq _ _ _ Hnew Heq). by rewrite set_path_same.
    + eapply document_edit; [done..|]. by eapply new_scalar_takes.
  - destruct (py_eq old new); [done|].
    destruct (json_document_places _ _ _ _ _ _ _ Hdoc Hspan) as (w & Hw & _ & Hb & Ho & Hscan). cbn [fst snd] in *.
    assert (w = old) as -> by congruence. rewrite <-(json_value_scalar strict 1) in Hscan by (done || lia).
    assert (take (stop - start) (drop start text) ++ drop stop text = drop start text) as E.
    { rewrite <-(take_drop (stop - start) (drop start text)) at 2. rewrite drop_drop. do 2 f_equal. lia. }
    exists (take start text), (take (stop - start) (drop start text)), (drop stop text). rewrite E. split_and!; [|..|done|done].
    + by rewrite take_drop.
    + intros Hnil%(f_equal length). rewrite length_take, length_drop in Hnil. cbn in Hnil. lia.
Qed.

Lemma json_edit_sets_field_witness :
  ∃ out old, json_edit (byte_of <$> demo_package_json) demo_declaration (VStr (&"1.1.0")) = Ok (out, [old])
    ∧ ∃ text', decode out = Ok text'.
Proof.
  destruct (json_edit (byte_of <$> demo_package_json) demo_declaration (VStr (&"1.1.0"))) as [[out previous]|e] eqn:E.
  - destruct (json_edit_sets_field (byte_of <$> demo_package_json) demo_declaration (VStr (&"1.1.0")) out previous eq_refl E)
      as (text & data & f & names & old & new & text' & _ & _ & _ & _ & _ & -> & _ & Ht & _).
    exists out, old. split; [done|by exists text'].
  - assert (is_ok (json_edit (byte_of <$> demo_package_json) demo_declaration (VStr (&"1.1.0"))) = true) as H
      by (vm_compute; reflexivity). by rewrite E in H.
Defined.
