(* ===== verification/TomlEdit.v ===== *)
(** * TOML version fields ([_toml_edit] of [scripts/version_plan.py])

    The scanner that finds the one assignment of a version field in a TOML text
    without losing its comments and layout, and the edit that replaces its token.
    [tomllib.loads] is a parameter: every decision about the document's data is
    its answer.  Bare digits are ASCII, as in every text it accepts. *)

From S2P Require Import Prelude PyStr PyDict PyRegex PyVal Passwords PyJson JsonFacts VersionPlan Release JsonDocument.
(** [text.splitlines(keepends=True)] *)
Definition line_break (c : N) : bool :=
  bool_decide (c ∈ [10; 11; 12; 13; 28; 29; 30; 133; 8232; 8233]%N).

Fixpoint lines_from (s line : pystr) : list pystr :=
  match s with
  | [] => match line with [] => [] | _ => [line] end
  | c :: s =>
    if line_break c && negb (bool_decide (c = 13%N) && startswith [10%N] s)
    then (line ++ [c]) :: lines_from s []
    else lines_from s (line ++ [c])
  end.
Definition splitlines_keep (s : pystr) : list pystr := lines_from s [].

Definition DQUOTE : N := 34%N.
Definition SQUOTE : N := 39%N.
Definition is_quote (c : N) : bool := bool_decide (c = DQUOTE) || bool_decide (c = SQUOTE).

(** ** Scanning a line *)

Definition found_at (line : pystr) (index : nat) (p : pystr) : bool := startswith p (drop index line).

(** [_toml_quote_step] *)
Definition toml_quote_step (line : pystr) (index : nat) (quote : pystr) : nat * option pystr :=
  if startswith [DQUOTE] quote && found_at line index (&"\") then (index + 2, Some quote)
  else if found_at line index quote then (index + length quote, None)
  else (index + 1, Some quote).

(** One turn of the loop of [_toml_lexical_state]; [None] at a comment. *)
Definition lexical_step (line : pystr) (index : nat) (c : N) (quote : option pystr) (depth : Z)
    : option (nat * option pystr * Z) :=
  match quote with
  | Some q => let '(index, quote) := toml_quote_step line index q in Some (index, quote, depth)
  | None =>
    if bool_decide (c = chr "#") then None
    else if found_at line index [DQUOTE; DQUOTE; DQUOTE] || found_at line index [SQUOTE; SQUOTE; SQUOTE]
    then Some (index + 3, Some [c; c; c], depth)
    else if is_quote c then Some (index + 1, Some [c], depth)
    else
      let depth := if bool_decide (c ∈ &"[{") then (depth + 1)%Z
                   else if bool_decide (c ∈ &"]}") then (depth - 1)%Z else depth in
      Some (index + 1, None, depth)
  end.

Fixpoint lexical_loop (n : nat) (line : pystr) (index : nat) (quote : option pystr) (depth : Z) : option pystr * Z :=
  match n with
  | O => (quote, depth)
  | S n =>
    match line !! index with
    | None => (quote, depth)
    | Some c =>
      match lexical_step line index c quote depth with
      | None => (quote, depth)
      | Some (index, quote, depth) => lexical_loop n line index quote depth
      end
    end
  end.

(** [_toml_lexical_state]: every turn moves the index, so the length of the line
    bounds the turns. *)
Definition toml_lexical_state (line : pystr) (quote : option pystr) (depth : Z) : option pystr * Z :=
  lexical_loop (length line) line 0 quote depth.

(** [_toml_assignment_separator] *)
Fixpoint separator_loop (n : nat) (line : pystr) (index : nat) (quote : option pystr) : option nat :=
  match n with
  | O => None
  | S n =>
    match line !! index with
    | None => None
    | Some c =>
      match quote with
      | Some q => let '(index, quote) := toml_quote_step line index q in separator_loop n line index quote
      | None =>
        if is_quote c then separator_loop n line (index + 1) (Some [c])
        else if bool_decide (c ∈ [chr "#"; 13; 10]%N) then None
        else if bool_decide (c = chr "=") then Some index
        else separator_loop n line (index + 1) None
      end
    end
  end.
Definition toml_assignment_separator (line : pystr) : option nat := separator_loop (length line) line 0 None.

(** ** Keys and headers *)

(** The nested single keys of the table [key = 0] denotes, and its value. *)
Fixpoint key_names (v : pyval) : list pystr * pyval :=
  match v with
  | VDict [(k, w)] => let '(names, w) := key_names w in (k :: names, w)
  | _ => ([], v)
  end.

Definition is_toml_error (c : exn_class) : bool := match c with EToml => true | _ => false end.

Section toml.
Context (toml_loads : pystr → outcome pyobject).

(** [_toml_key] *)
Definition toml_key (key : pystr) : outcome (list pystr) :=
  catch (data ← toml_loads (key ++ &" = 0");
         let '(names, v) := key_names (VDict data) in
         _ ← require (py_eq v (VInt 0) && negb (bool_decide (names = []))) "Unsupported TOML key";
         Ok names)
    is_toml_error (λ _, Raise (version_error "Unsupported TOML key")).

(** [_toml_header_end]: the number of opening brackets, and the key. *)
Definition toml_header_end (line : pystr) (opening index : nat) : outcome (option (nat * pystr)) :=
  let closing := if found_at line index (&"]]") then 2 else 1 in
  let suffix := strip (drop (index + closing) line) in
  if negb (bool_decide (suffix = [])) && negb (startswith (&"#") suffix) then Ok None
  else
    _ ← require (opening =? closing) "Malformed TOML table header";
    Ok (Some (opening, drop opening (take index line))).

(** [_toml_header] *)
Fixpoint header_loop (n : nat) (line : pystr) (opening index : nat) (quote : option pystr)
    : outcome (option (nat * pystr)) :=
  match n with
  | O => Ok None
  | S n =>
    match line !! index with
    | None => Ok None
    | Some c =>
      match quote with
      | Some q => let '(index, quote) := toml_quote_step line index q in header_loop n line opening index quote
      | None =>
        if is_quote c then header_loop n line opening (index + 1) (Some [c])
        else if bool_decide (c = chr "]") then toml_header_end line opening index
        else header_loop n line opening (index + 1) None
      end
    end
  end.

Definition toml_header (line : pystr) : outcome (option (nat * pystr)) :=
  let line := lstrip line in
  if negb (startswith (&"[") line) then Ok None
  else
    let opening := if startswith (&"[[") line then 2 else 1 in
    header_loop (length line) line opening opening None.

(** ** The assignment *)

(** The length of the rest of a basic string, its closing quote included. *)
Fixpoint basic_string_end (s : pystr) : option nat :=
  match s with
  | [] => None
  | c :: s' =>
    if bool_decide (c = DQUOTE) then Some 1
    else if bool_decide (c = chr "\") then
      match s' with
      | e :: s'' => if bool_decide (e = 10%N) then None else (λ n, n + 2) <$> basic_string_end s''
      | [] => None
      end
    else if bool_decide (c ∈ [13; 10]%N) then None
    else S <$> basic_string_end s'
  end.

Fixpoint literal_string_end (s : pystr) : option nat :=
  match s with
  | [] => None
  | c :: s => if bool_decide (c = SQUOTE) then Some 1
              else if bool_decide (c ∈ [13; 10]%N) then None
              else S <$> literal_string_end s
  end.

Definition number_token (s : pystr) : pystr :=
  match s with
  | c :: _ => if is_digit c then take_while (λ c, is_digit c || bool_decide (c = chr "_")) s else []
  | [] => []
  end.

(** The length of the match of the scalar pattern. *)
Definition scalar_token (s : pystr) : option nat :=
  match s with
  | [] => None
  | c :: r =>
    if bool_decide (c = DQUOTE) then S <$> basic_string_end r
    else if bool_decide (c = SQUOTE) then S <$> literal_string_end r
    else
      let sign := if bool_decide (c ∈ &"+-") then 1 else 0 in
      match number_token (drop sign s) with [] => None | ds => Some (sign + length ds) end
  end.

(** [_toml_token]: [json.dumps] of a string is ASCII. *)
Definition toml_token (replacement : pyval) (original : pystr) : pystr :=
  match replacement with
  | VStr s =>
    if startswith [SQUOTE] original && negb (has SQUOTE s) then SQUOTE :: s ++ [SQUOTE] else json_string s
  | _ => py_str replacement
  end.

(** [_toml_assignment] *)
Definition toml_assignment (line : pystr) (current target : doc_path) (replacement : pyval)
    : outcome (option (nat * nat * pystr)) :=
  match toml_assignment_separator line with
  | None => Ok None
  | Some separator =>
    let name := strip (take separator line) in
    if bool_decide (name = []) then Ok None
    else
      key ← toml_key name;
      if negb (bool_decide (current ++ map KName key = target)) then Ok None
      else
        let after := drop (separator + 1) line in
        let start := separator + 1 + length (take_while is_space after) in
        match scalar_token (drop start line) with
        | None => Raise (version_error "Owned TOML value must be a single-line scalar")
        | Some n =>
          let stop := start + n in
          let suffix := lstrip (drop stop line) in
          _ ← require (bool_decide (suffix = []) || startswith (&"#") suffix)
                "Unsupported TOML expression after version value";
          Ok (Some (start, stop, toml_token replacement (take n (drop start line))))
        end
  end.

(** The variables of the loop of [_toml_assignments]. *)
Record toml_scan : Type := TomlScan {
  scan_table : doc_path; scan_arrays : pydict doc_path Z; scan_offset : nat; scan_found : list (nat * nat * pystr);
  scan_quote : option pystr; scan_depth : Z }.

Definition toml_start : toml_scan := TomlScan [] [] 0 [] None 0.

(** [current] and [arrays] after a header. *)
Definition enter_table (opening : nat) (table : doc_path) (arrays : pydict doc_path Z) : doc_path * pydict doc_path Z :=
  if opening =? 2 then
    let i := (default (-1) (dict_get table arrays) + 1)%Z in
    (table ++ [KIndex (Z.to_nat i)], dict_set table i arrays)
  else (table, arrays).

(** A line that is not a continuation. *)
Definition toml_line (target : doc_path) (replacement : pyval) (line : pystr) (s : toml_scan)
    : outcome (doc_path * pydict doc_path Z * list (nat * nat * pystr)) :=
  header ← toml_header line;
  match header with
  | Some (opening, key) =>
    names ← toml_key key;
    let '(table, arrays) := enter_table opening (map KName names) (scan_arrays s) in
    Ok (table, arrays, scan_found s)
  | None =>
    assignment ← toml_assignment line (scan_table s) target replacement;
    Ok (scan_table s, scan_arrays s,
        match assignment with
        | Some (start, stop, token) => scan_found s ++ [(scan_offset s + start, scan_offset s + stop, token)]
        | None => scan_found s
        end)
  end.

(** One turn of the loop. *)
Definition toml_turn (target : doc_path) (replacement : pyval) (line : pystr) (s : toml_scan) : outcome toml_scan :=
  let continuation := bool_decide (is_Some (scan_quote s)) || (0 <? scan_depth s)%Z in
  let '(quote, depth) := toml_lexical_state line (scan_quote s) (scan_depth s) in
  '(table, arrays, found) ←
    (if continuation then Ok (scan_table s, scan_arrays s, scan_found s) else toml_line target replacement line s);
  Ok (TomlScan table arrays (scan_offset s + length line) found quote depth).

Fixpoint toml_lines (target : doc_path) (replacement : pyval) (lines : list pystr) (s : toml_scan) : outcome toml_scan :=
  match lines with
  | [] => Ok s
  | line :: lines => s ← toml_turn target replacement line s; toml_lines target replacement lines s
  end.

(** [_toml_assignments] *)
Definition toml_assignments (text : pystr) (target : doc_path) (replacement : pyval)
    : outcome (list (nat * nat * pystr)) :=
  s ← toml_lines target replacement (splitlines_keep text) toml_start;
  Ok (scan_found s).

(** ** The target and the edit *)

(** [_local_lock_package] *)
Definition local_lock_package (entry : pyobject) (kind : pystr) : bool :=
  if bool_decide (kind = &"cargo-lock") then negb (in_dict (&"source") entry)
  else
    match get_default (&"source") (VDict []) entry with
    | VDict [(name, _)] => bool_decide (name ∈ [&"editable"; &"virtual"; &"directory"])
    | _ => false
    end.

(** The indices of the owned local packages of a lock file. *)
Fixpoint lock_matches (entries : list pyval) (package : pyval) (kind : pystr) (index : nat) : outcome (list nat) :=
  match entries with
  | [] => Ok []
  | v :: entries =>
    entry ← as_dict v;
    rest ← lock_matches entries package kind (S index);
    Ok (if py_eq (get_default (&"name") VNone entry) package && local_lock_package entry kind
        then index :: rest else rest)
  end.

(** [_toml_target] *)
Definition toml_target (data : pyobject) (d : pyobject) : outcome doc_path :=
  kind ← item (&"format") d;
  if bool_decide (kind ∈ [VStr (&"cargo-lock"); VStr (&"uv-lock")]) then
    let entries := get_default (&"package") (VList []) data in
    _ ← require (is_list entries) "Lock file requires package array";
    package ← (if truthy entries then item (&"package") d else Ok VNone);
    matches ← lock_matches (list_value entries) package (str_value kind) 0;
    match matches with
    | [index] => Ok [KName (&"package"); KIndex index; KName (&"version")]
    | _ => Raise (version_error "Lock selector must identify exactly one owned local package")
    end
  else
    f ← item (&"field") d;
    names ← field f;
    _ ← (if in_dict (&"package") d then
           name ← get_path (VDict data) (map KName (removelast names ++ [&"name"]));
           package ← item (&"package") d;
           require (py_eq name package) "TOML manifest package identity mismatch"
         else Ok tt);
    Ok (map KName names).

(** [_toml_edit] *)
Definition toml_edit (raw : bytes) (d : pyobject) (value : pyval) : outcome (bytes * list pyval) :=
  text ← decode raw;
  data ← toml_loads text;
  target ← toml_target data d;
  old ← get_path (VDict data) target;
  replacement ← new_scalar value old;
  _ ← require (is_str replacement || type_is_int replacement) "Unsupported TOML value";
  found ← toml_assignments text target replacement;
  match found with
  | [edit] =>
    let result := splice text edit in
    data ← toml_loads result;
    new ← get_path (VDict data) target;
    _ ← require (py_eq new replacement) "TOML replacement did not update selected field";
    out ← encode result;
    Ok (out, [old])
  | _ => Raise (version_error "TOML selector must identify exactly one explicit scalar assignment")
  end.
End toml.

(** ** Examples *)

Definition demo_toml : pystr :=
  &"# v = " ++ [34%N] ++ &"0" ++ [34%N] ++ [13; 10]%N ++ &"[project] # here" ++ [10%N] ++ &"deps = [ " ++ [10%N]
  ++ &"  'version = 1', ]" ++ [10%N] ++ &"version = '1.0.0' # now" ++ [10%N] ++ &"[[tool.x]]" ++ [10%N] ++ &"version=7" ++ [10%N].

(** A reader of the keys in use: [name = 0]. *)
Definition demo_key_reader (s : pystr) : outcome pyobject :=
  match split (chr "=") s with
  | [k; _] => Ok (foldr (λ name inner, [(strip name, VDict inner)]) [(strip (List.last (split (chr ".") k) []), VInt 0)]
                    (removelast (split (chr ".") k)))
  | _ => Raise (Exn EToml "")
  end.

Example toml_assignments_demo :
  match toml_assignments demo_key_reader demo_toml [KName (&"project"); KName (&"version")] (VStr (&"2.0.0")) with
  | Ok [(start, stop, token)] => take (stop - start) (drop start demo_toml) = &"'1.0.0'" ∧ token = &"'2.0.0'"
  | _ => False
  end
  ∧ match toml_assignments demo_key_reader demo_toml
            [KName (&"tool"); KName (&"x"); KIndex 0; KName (&"version")] (VInt 8) with
    | Ok [(start, stop, token)] => take (stop - start) (drop start demo_toml) = &"7" ∧ token = &"8"
    | _ => False
    end.
Proof. vm_compute. done. Qed.

(** A comment with a line separator is taken apart: what follows U+2028 counts as an
    assignment, although TOML reads it as part of the comment. *)
Example comment_separator_splits :
  match toml_assignments demo_key_reader (&"# old" ++ [8232%N] ++ &"version = '1'" ++ [10%N] ++ &"version = '2'" ++ [10%N])
          [KName (&"version")] (VStr (&"3")) with
  | Ok found => length found = 2
  | Raise _ => False
  end.
Proof. vm_compute. done. Qed.

(** ** The TOML scanner terminates

    Every turn of the scanning loops moves the index, so the length of a line bounds
    their turns: more fuel changes nothing.  The tokens it writes are single ones. *)

(** An open quote is not empty. *)
Definition quote_ok (quote : option pystr) : Prop := match quote with Some q => q ≠ [] | None => True end.

Lemma quote_step_moves line index q i quote :
  q ≠ [] → toml_quote_step line index q = (i, quote) → index < i ∧ quote_ok quote.
Proof.
  intros Hq. unfold toml_quote_step. destruct (_ && _); [intros [= <- <-]; split; [lia|done]|].
  destruct (found_at line index q); intros [= <- <-]; (split; [|done]); destruct q; cbn; try done; lia.
Qed.

Lemma lexical_step_moves line index c quote depth i quote' depth' :
  quote_ok quote → lexical_step line index c quote depth = Some (i, quote', depth') → index < i ∧ quote_ok quote'.
Proof.
  intros Hq. unfold lexical_step. destruct quote as [q|].
  - destruct (toml_quote_step line index q) as [j quote] eqn:E. intros [= <- <- _]. by eapply quote_step_moves.
  - case_bool_decide; [done|]. destruct (_ || _); [intros [= <- <- _]; split; [lia|done]|].
    destruct (is_quote c); intros [= <- <- _]; (split; [lia|done]).
Qed.

Lemma lexical_fuel n line index quote depth :
  quote_ok quote → length line - index ≤ n →
  lexical_loop n line index quote depth = lexical_loop (S n) line index quote depth.
Proof.
  revert index quote depth. induction n as [|n IH]; intros index quote depth Hq Hn.
  { cbn. by rewrite lookup_ge_None_2 by lia. }
  cbn [lexical_loop]. destruct (line !! index) as [c|] eqn:E; [|done].
  destruct (lexical_step line index c quote depth) as [[[i quote'] depth']|] eqn:Es; [|done].
  apply lexical_step_moves in Es as [Hi Hq']; [|done]. apply IH; [done|lia].
Qed.

Lemma separator_fuel n line index quote :
  quote_ok quote → length line - index ≤ n → separator_loop n line index quote = separator_loop (S n) line index quote.
Proof.
  revert index quote. induction n as [|n IH]; intros index quote Hq Hn.
  { cbn. by rewrite lookup_ge_None_2 by lia. }
  cbn [separator_loop]. destruct (line !! index) as [c|] eqn:E; [|done]. apply lookup_lt_Some in E.
  destruct quote as [q|].
  - destruct (toml_quote_step line index q) as [j quote'] eqn:Es. apply quote_step_moves in Es as [Hj Hq']; [|done].
    apply IH; [done|lia].
  - destruct (is_quote c); [apply IH; [done|lia]|]. case_bool_decide; [done|]. case_bool_decide; [done|]. apply IH; [done|lia].
Qed.

Lemma header_fuel n line opening index quote :
  quote_ok quote → length line - index ≤ n →
  header_loop n line opening index quote = header_loop (S n) line opening index quote.
Proof.
  revert index quote. induction n as [|n IH]; intros index quote Hq Hn.
  { cbn. by rewrite lookup_ge_None_2 by lia. }
  cbn [header_loop]. destruct (line !! index) as [c|] eqn:E; [|done]. apply lookup_lt_Some in E.
  destruct quote as [q|].
  - destruct (toml_quote_step line index q) as [j quote'] eqn:Es. apply quote_step_moves in Es as [Hj Hq']; [|done].
    apply IH; [done|lia].
  - destruct (is_quote c); [apply IH; [done|lia]|]. case_bool_decide; [done|]. apply IH; [done|lia].
Qed.

(** Any amount of fuel above the length of the line gives the result of the loop. *)
Lemma toml_loops_terminate k line opening :
  (∀ quote depth, quote_ok quote → lexical_loop (length line + k) line 0 quote depth = toml_lexical_state line quote depth)
  ∧ separator_loop (length line + k) line 0 None = toml_assignment_separator line
  ∧ header_loop (length line + k) line opening opening None = header_loop (length line) line opening opening None.
Proof.
  induction k as [|k (IH1 & IH2 & IH3)]; [rewrite Nat.add_0_r; by split_and!|].
  rewrite <-plus_n_Sm. split_and!.
  - intros quote depth Hq. rewrite <-lexical_fuel by (done || lia). by apply IH1.
  - rewrite <-separator_fuel by (done || lia). done.
  - rewrite <-header_fuel by (done || lia). done.
Qed.

(** The lines of a text are the text. *)
Lemma lines_from_concat s line : mjoin (lines_from s line) = line ++ s.
Proof.
  revert line. induction s as [|c s IH]; intros line; cbn [lines_from].
  { destruct line; cbn; by rewrite ?app_nil_r. }
  destruct (_ && _); cbn; rewrite IH; cbn; by rewrite <-app_assoc.
Qed.

Lemma splitlines_concat s : mjoin (splitlines_keep s) = s.
Proof. apply lines_from_concat. Qed.
