(* ===== verification/VersionEdit.v ===== *)
(** * Version fields of the other formats ([_edit] of [scripts/version_plan.py])

    Python constants, property lists, Xcode projects and plain text, and the
    dispatch over the formats.  The parsers of Python source ([ast.parse]) and of
    property lists ([plistlib]), the reader of TOML and the character tables of the
    runtime are parameters. *)

From Stdlib Require Import Strings.Byte.
From S2P Require Import Prelude PyStr PyDict PyRegex PyMatch PyVal Passwords PyJson VersionPlan JsonDocument TomlEdit.

(** A module-level assignment: its targets ([None] for one that is not a plain
    name) and, when its value is a literal, the value and its place. *)
Record literal : Type := Literal {
  literal_value : pyval; lineno : nat; col_offset : nat; end_lineno : nat; end_col_offset : nat }.
Record assignment : Type := Assignment { targets : list (option pystr); constant : option literal }.

(** What the edits use of Python's libraries. *)
Class EditLibrary := {
  toml_loads : pystr → outcome pyobject;
  ast_parse : bytes → outcome (list assignment);
  plist_loads : bytes → outcome pyval;
  plist_dumps : bool → pyval → outcome bytes;
  isidentifier : pystr → bool;
  isprintable : N → bool;
  unicode_word : N → bool;
}.

(** ** Python literals *)

Definition hex2 (c : N) : pystr := [hex_digit (c / 16 mod 16); hex_digit (c mod 16)]%N.

(** [b.splitlines(keepends=True)]: a carriage return before a line feed goes with it. *)
Fixpoint byte_lines_from (b line : bytes) : list bytes :=
  match b with
  | [] => match line with [] => [] | _ => [line] end
  | c :: b =>
    if bool_decide (c = Byte.x0a) || bool_decide (c = Byte.x0d) && negb (startswith [Byte.x0a] b)
    then (line ++ [c]) :: byte_lines_from b []
    else byte_lines_from b (line ++ [c])
  end.
Definition byte_lines (b : bytes) : list bytes := byte_lines_from b [].

(** The position of a line and column. *)
Definition byte_position (raw : bytes) (line column : nat) : nat :=
  sum_list (length <$> take (line - 1) (byte_lines raw)) + column.

Section edit.
Context `{EditLibrary}.

Definition repr_char (q c : N) : pystr :=
  if bool_decide (c = q) || bool_decide (c = chr "\") then [chr "\"; c]
  else if bool_decide (c = 9%N) then &"\t"
  else if bool_decide (c = 10%N) then &"\n"
  else if bool_decide (c = 13%N) then &"\r"
  else if ((c <? 32) || (c =? 127))%N then &"\x" ++ hex2 c
  else if (c <? 127)%N || isprintable c then [c]
  else if (c <? 256)%N then &"\x" ++ hex2 c
  else if (c <? 65536)%N then &"\u" ++ hex4 c
  else &"\U" ++ hex4 (c / 65536) ++ hex4 (c mod 65536).

(** [repr] of a string or an integer *)
Definition py_repr (v : pyval) : pystr :=
  match v with
  | VStr s =>
    let q := if has SQUOTE s && negb (has DQUOTE s) then DQUOTE else SQUOTE in
    q :: (s ≫= repr_char q) ++ [q]
  | _ => py_str v
  end.

(** The literals assigned to the name by the statements of a module. *)
Fixpoint constants_of (name : pystr) (statements : list assignment) : outcome (list literal) :=
  match statements with
  | [] => Ok []
  | a :: statements =>
    if bool_decide (Some name ∈ targets a) then
      match targets a, constant a with
      | [_], Some l => rest ← constants_of name statements; Ok (l :: rest)
      | _, _ => Raise (version_error "Version constant must be an unshared literal assignment")
      end
    else constants_of name statements
  end.

(** [_python_edit] *)
Definition python_edit (raw : bytes) (d : pyobject) (value : pyval) : outcome (bytes * list pyval) :=
  name ← item (&"field") d;
  _ ← require (is_str name && isidentifier (str_value name)) "Python selector must be a module-level constant name";
  _ ← decode raw;
  tree ← ast_parse raw;
  matches ← constants_of (str_value name) tree;
  match matches with
  | [node] =>
    replacement ← new_scalar value (literal_value node);
    if py_eq replacement (literal_value node) then Ok (raw, [literal_value node])
    else
      let start := byte_position raw (lineno node) (col_offset node) in
      let stop := byte_position raw (end_lineno node) (end_col_offset node) in
      text ← encode (py_repr replacement);
      text ← (if is_str replacement && startswith [byte_of DQUOTE] (take (stop - start) (drop start raw))
              then encode (json_scalar replacement) else Ok text);
      let result := take start raw ++ text ++ drop stop raw in
      _ ← ast_parse result;
      Ok (result, [literal_value node])
  | _ => Raise (version_error "Python selector must identify exactly one module-level constant")
  end.

(** ** Property lists *)

(** [parent[key] = value] inside a document. *)
Fixpoint set_field (v : pyval) (path : list pystr) (new : pyval) : pyval :=
  match path, v with
  | [], _ => new
  | k :: path, VDict d => VDict (dict_set k (set_field (default VNone (dict_get k d)) path new) d)
  | _, _ => v
  end.

(** [[1-9]\d{0,3}(?:\.\d{1,2}){0,2}], of a projection's ASCII digits. *)
Definition APPLE_BUILD : regex :=
  (Char one_to_nine ⋅ rep_upto 3 (Char is_digit)
   ⋅ rep_upto 2 (dot ⋅ Char is_digit ⋅ opt (Char is_digit)))%re.

(** The numeric limits of the two Apple fields. *)
Definition check_apple (name : pystr) (replacement : pyval) : outcome unit :=
  _ ← require (negb (bool_decide (name = &"CFBundleShortVersionString")) || str_match BASE replacement)
        "Apple marketing version requires numeric X.Y.Z";
  require (negb (bool_decide (name = &"CFBundleVersion")) || str_match APPLE_BUILD replacement)
    "Apple bundle version exceeds numeric component limits".

(** [_plist_edit] *)
Definition plist_edit (raw : bytes) (d : pyobject) (value : pyval) : outcome (bytes * list pyval) :=
  f ← item (&"field") d;
  names ← field f;
  data ← plist_loads raw;
  old ← get_path data (map KName names);
  parent ← (if 1 <? length names then get_path data (map KName (removelast names)) else Ok data);
  _ ← require (is_dict parent) "Plist version parent must be a dictionary";
  replacement ← new_scalar value old;
  _ ← check_apple (List.last names []) replacement;
  if py_eq old replacement then Ok (raw, [old])
  else
    out ← plist_dumps (startswith (byte_of <$> &"bplist") raw) (set_field data names replacement);
    Ok (out, [old]).

(** ** Xcode projects *)

Definition spaces : pattern := PStar (PChar is_space).
Definition not_newline (c : N) : bool := negb (bool_decide (c = 10%N)).

(** [^\s*OWNER(?:\s*/\*[^\n]*?\*/)?\s*=\s*\{] *)
Definition owner_pattern (owner : pystr) : list pattern :=
  [spaces; pchars owner;
   popt (pseq [spaces; pchars (&"/*"); PLazy (PChar not_newline); pchars (&"*/")]);
   spaces; pchars (&"="); spaces; pchars (&"{")].

(** Strings, comments and braces. *)
Definition token_pattern : pattern :=
  PAlt (pseq [PChar (N.eqb DQUOTE);
              PStar (PAlt (PChar (λ c, negb (bool_decide (c ∈ [DQUOTE; chr "\"]))))
                          (PSeq (pchars (&"\")) (PChar (λ _, true))));
              PChar (N.eqb DQUOTE)])
  (PAlt (pseq [pchars (&"/*"); PLazy (PChar (λ _, true)); pchars (&"*/")])
  (PAlt (PSeq (pchars (&"//")) (PStar (PChar not_newline)))
        (PChar (λ c, bool_decide (c ∈ &"{}"))))).

(** The end of the block: the brace that takes the depth back to zero. *)
Fixpoint block_end (text : pystr) (tokens : list (nat * list nat)) (depth : Z) : option nat :=
  match tokens with
  | [] => None
  | (start, ends) :: tokens =>
    let stop := List.last ends start in
    let token := take (stop - start) (drop start text) in
    if bool_decide (token = &"{") then block_end text tokens (depth + 1)
    else if bool_decide (token = &"}") then
      if (depth - 1 =? 0)%Z then Some stop else block_end text tokens (depth - 1)
    else block_end text tokens depth
  end.

Definition isa_pattern : list pattern :=
  [pchars (&"isa"); spaces; pchars (&"="); spaces; pchars (&"XCBuildConfiguration"); spaces; pchars (&";")].

Definition field_pattern (name : pystr) : list pattern :=
  let quote := popt (PChar (N.eqb DQUOTE)) in
  [pseq [spaces; pchars name; spaces; pchars (&"="); spaces];
   pseq [quote; pplus (PChar (λ c, is_digit c || bool_decide (c = chr "."))); quote];
   PSeq spaces (pchars (&";"))].

Definition uuid : regex := rep 24 (Char (λ c, lower_hex c || in_range 65 70 c)).

(** [s.strip] of double quotes *)
Definition strip_quotes (s : pystr) : pystr :=
  let f c := bool_decide (c = DQUOTE) in rev (drop_while f (rev (drop_while f s))).

(** The configuration block of an owner. *)
Definition pbx_block (text owner : pystr) : outcome (nat * nat) :=
  match find_all (line_start text) (owner_pattern owner) text 0 with
  | [(begin, ends)] =>
    let start := List.last ends begin - 1 in
    match block_end text (find_all (λ _, true) [token_pattern] text start) 0 with
    | Some stop => Ok (start, stop)
    | None => Raise (version_error "Unterminated PBX configuration")
    end
  | _ => Raise (version_error "PBX owner UUID must identify one configuration")
  end.

(** [_pbx_edit] *)
Definition pbx_edit (raw : bytes) (d : pyobject) (value : pyval) : outcome (bytes * list pyval) :=
  text ← decode raw;
  owner ← item (&"package") d;
  _ ← require (str_match uuid owner) "PBX selector requires an exact configuration UUID";
  f ← item (&"field") d;
  known ← py_in f [&"MARKETING_VERSION"; &"CURRENT_PROJECT_VERSION"];
  _ ← require known "Unsupported PBX numeric version field";
  '(start, stop) ← pbx_block text (str_value owner);
  let block := take (stop - start) (drop start text) in
  _ ← require (negb (bool_decide (find_all (word_start unicode_word block) isa_pattern block 0 = [])))
        "PBX owner is not a build configuration";
  match find_all (line_start block) (field_pattern (str_value f)) block 0 with
  | [(_, [begin; finish; _])] =>
    let replacement := py_str value in
    let limits := if bool_decide (f = VStr (&"MARKETING_VERSION")) then BASE else APPLE_BUILD in
    _ ← require (fullmatch limits replacement) "PBX numeric version is outside platform limits";
    let token := take (finish - begin) (drop begin block) in
    let replacement := if startswith [DQUOTE] token then DQUOTE :: replacement ++ [DQUOTE] else replacement in
    out ← encode (splice text (start + begin, start + finish, replacement));
    Ok (out, [VStr (strip_quotes token)])
  | _ => Raise (version_error "PBX field must have one numeric assignment in selected configuration")
  end.

(** ** Dispatch *)

(** A text file that holds one value. *)
Definition text_edit (raw : bytes) (value : pyval) : outcome (bytes * list pyval) :=
  text ← decode raw;
  let before := take_while is_space text in
  let rest := drop (length before) text in
  let word := take_while (λ c, negb (is_space c)) rest in
  let after := drop (length word) rest in
  _ ← require (negb (bool_decide (word = [])) && forallb is_space after)
        "Text version must contain exactly one non-whitespace value";
  out ← encode (before ++ py_str value ++ after);
  Ok (out, [VStr word]).

(** [_edit] *)
Definition edit (raw : bytes) (d : pyobject) (value : pyval) : outcome (bytes * list pyval) :=
  kind ← item (&"format") d;
  let among (names : list pystr) := bool_decide (kind ∈ VStr <$> names) in
  if among [&"json"; &"npm-lock"] then json_edit raw d value
  else if among [&"toml"; &"cargo-lock"; &"uv-lock"] then toml_edit toml_loads raw d value
  else if among [&"python"] then python_edit raw d value
  else if among [&"plist"] then plist_edit raw d value
  else if among [&"pbxproj"] then pbx_edit raw d value
  else if among [&"text"] then text_edit raw value
  else Raise (version_error "Unsupported version format").
End edit.

(** ** Examples *)

Definition demo_library : EditLibrary := {|
  toml_loads := demo_key_reader;
  ast_parse := λ raw, Ok (if startswith (byte_of <$> &"VERSION") raw
                          then [Assignment [Some (&"VERSION")] (Some (Literal (VStr (&"1.0.0")) 1 10 1 17))] else []);
  plist_loads := λ _, Ok (VDict [(&"CFBundleVersion", VStr (&"7"))]);
  plist_dumps := λ _ v, match v with VDict [(k, VStr s)] => encode (k ++ s) | _ => Ok [] end;
  isidentifier := λ _, true;
  isprintable := λ _, false;
  unicode_word := word_char;
|}.

Definition demo_owner : pystr := replicate 24 (chr "A").

Definition demo_pbx (version : pystr) : pystr :=
  &"{" ++ [10%N] ++ &"  " ++ demo_owner ++ &" /* Release */ = {" ++ [10%N] ++ &" isa = XCBuildConfiguration;" ++ [10%N]
  ++ &" name = " ++ quote (&"}") ++ &"; /* } */" ++ [10%N] ++ &" MARKETING_VERSION = " ++ version ++ &";" ++ [10%N]
  ++ &"}; x = {" ++ [10%N] ++ &" MARKETING_VERSION = 9.9.9;" ++ [10%N] ++ &"} }".

Example version_edits_demo :
  let edited d raw v := edit (H:=demo_library) (byte_of <$> raw) (map (λ kv : string * string, (lit kv.1, VStr (lit kv.2))) d) v in
  edited [("format", "text")] ([10%N] ++ &"1.0.0" ++ [10%N]) (VStr (&"2.0.0"))
  = Ok (byte_of <$> [10%N] ++ &"2.0.0" ++ [10%N], [VStr (&"1.0.0")])
  ∧ edited [("format", "python"); ("field", "VERSION")] (&"VERSION = " ++ quote (&"1.0.0") ++ [10%N]) (VStr (&"2.0.0"))
    = Ok (byte_of <$> &"VERSION = " ++ quote (&"2.0.0") ++ [10%N], [VStr (&"1.0.0")])
  ∧ edited [("format", "plist"); ("field", "CFBundleVersion")] [] (VStr (&"8.1"))
    = Ok (byte_of <$> &"CFBundleVersion8.1", [VStr (&"7")])
  ∧ edit (H:=demo_library) (byte_of <$> demo_pbx (&"1.0.0"))
      [(&"format", VStr (&"pbxproj")); (&"package", VStr demo_owner); (&"field", VStr (&"MARKETING_VERSION"))]
      (VStr (&"2.0.0"))
    = Ok (byte_of <$> demo_pbx (&"2.0.0"), [VStr (&"1.0.0")]).
Proof. vm_compute. done. Qed.
