(* ===== verification/SyncVersions.v ===== *)
(** * Applying a plan to the version inputs ([sync_versions] of [scripts/version_plan.py])

    The checkout is a map from the parts of a path below its root to what stands
    there.  Temporary names, the failures of the file operations and Git are
    parameters.  Every edit is computed and checked before the first write. *)

From Stdlib Require Import QArith.QArith.
From S2P Require Import Prelude PyStr PyDict PyRegex PyVal PyJson VersionPlan Release ChangeScope ReleaseValidation JsonDocument VersionEdit.
#[local] Open Scope Z_scope.

Record file : Type := File { content : bytes; mode : Z; links : Z }.
Inductive node : Type := Regular (f : file) | Directory | Symlink.
#[export] Instance file_eq_dec : EqDecision file.
Proof. solve_decision. Defined.
#[export] Instance node_eq_dec : EqDecision node.
Proof. solve_decision. Defined.
Notation path := (list pystr).
Notation checkout := (gmap path node).

(** The operations of the file system that can fail. *)
Inductive file_operation : Type := Create (p : path) | Write (p : path) | Replace (p : path).

Definition file_missing : exn := Exn EOS "FileNotFoundError".

(** ** Confined inputs *)

Definition is_symlink (s : checkout) (p : path) : bool :=
  match s !! p with Some Symlink => true | _ => false end.

Definition prefixes (parts : path) : list path := (λ n, take (S n) parts) <$> seq 0 (length parts).

(** [_path] *)
Definition locate (s : checkout) (name : pyval) : outcome path :=
  name ← relative name;
  let parts := split (chr "/") name in
  _ ← require (forallb (λ p, negb (is_symlink s p)) (prefixes parts)) "Symlink version input is forbidden";
  match s !! parts with
  | Some (Regular f) =>
    _ ← require (links f =? 1) "Hard-linked version input is forbidden";
    _ ← require (Z.of_nat (length (content f)) <=? MAX_METADATA) "Version input is too large";
    Ok parts
  | _ => Raise (version_error "Version input is not a confined regular file")
  end.

(** [path.read_bytes()] *)
Definition read_bytes (s : checkout) (p : path) : outcome bytes :=
  match s !! p with Some (Regular f) => Ok (content f) | _ => Raise file_missing end.

(** [policy["versioning"]["files"]] *)
Definition version_files (policy : pyval) : outcome (list pyobject) :=
  versioning ← subscript policy (&"versioning");
  files ← subscript versioning (&"files");
  l ← iterate files;
  collect as_dict l.

Section sync.
Context `{EditLibrary} (float_repr : Q → pystr) (sha256_hex : bytes → pystr).
Context (temporary : checkout → path → pystr) (io : file_operation → outcome unit).

(** ** Preparing the edits *)

(** The four dictionaries of [sync_versions]. *)
Record prepared : Type := Prepared {
  originals : pydict pystr bytes; edited : pydict pystr bytes;
  paths : pydict pystr path; changes : pydict pystr (list pyval) }.

Definition nothing_prepared : prepared := Prepared [] [] [] [].

(** [d[name]] of a dictionary that has the name. *)
Definition of_name {A} (name : pystr) (d : pydict pystr A) : outcome A :=
  match dict_get name d with Some x => Ok x | None => Raise (Exn EKey "") end.

(** The entry of one declaration in [changes]. *)
Definition change (d : pyobject) (format value : pyval) (old : list pyval) : pyval :=
  VDict [(&"format", format); (&"field", get_default (&"field") VNone d);
         (&"package", get_default (&"package") VNone d);
         (&"projection", get_default (&"value") (VStr (&"package")) d);
         (&"value", value); (&"previous", VList old)].

(** One turn of the first loop. *)
Definition prepare_one (s : checkout) (plan d : pyobject) (st : prepared) : outcome prepared :=
  v ← item (&"path") d;
  p ← locate s v;
  let name := str_value v in
  st ← (if dict_has name (originals st) then Ok st
        else raw ← read_bytes s p;
             Ok (Prepared (dict_set name raw (originals st)) (dict_set name raw (edited st))
                          (dict_set name p (paths st)) (dict_set name [] (changes st))));
  value ← projected_value plan d;
  raw ← of_name name (edited st);
  '(updated, old) ← edit raw d value;
  format ← item (&"format") d;
  made ← of_name name (changes st);
  Ok (Prepared (originals st) (dict_set name updated (edited st)) (paths st)
               (dict_set name (made ++ [change d format value old]) (changes st))).

Fixpoint prepare (s : checkout) (plan : pyobject) (files : list pyobject) (st : prepared) : outcome prepared :=
  match files with
  | [] => Ok st
  | d :: files => st ← prepare_one s plan d st; prepare s plan files st
  end.

(** One turn of the second loop: the declaration holds after all edits. *)
Definition still_holds (plan : pyobject) (st : prepared) (d : pyobject) : outcome unit :=
  v ← item (&"path") d;
  raw ← of_name (str_value v) (edited st);
  value ← projected_value plan d;
  '(checked, _) ← edit raw d value;
  require (bool_decide (checked = raw)) "Conflicting version selectors in".

(** The evidence of one input. *)
Definition is_changed (st : prepared) (name : pystr) : bool :=
  negb (bool_decide (dict_get name (originals st) = dict_get name (edited st))).

Definition evidence_of (st : prepared) (name : pystr) : outcome pyval :=
  before ← of_name name (originals st);
  after ← of_name name (edited st);
  made ← of_name name (changes st);
  Ok (VDict [(&"path", VStr name); (&"before_sha256", VStr (sha256_hex before));
             (&"after_sha256", VStr (sha256_hex after)); (&"changed", VBool (is_changed st name));
             (&"fields", VList made)]).

Definition input_names (st : prepared) : list pystr := sorted str_leb (dict_keys (originals st)).
Definition drift (st : prepared) : list pystr := filter (λ name, is_changed st name = true) (input_names st).

(** ** Writing *)

Definition recheck (st : prepared) (message : string) (name : pystr) (s : checkout) : outcome unit :=
  p ← locate s (VStr name);
  expected ← of_name name (paths st);
  raw ← read_bytes s expected;
  original ← of_name name (originals st);
  require (bool_decide (p = expected) && bool_decide (raw = original)) message.

(** The files written aside, by the name of their input. *)
Notation staged := (pydict pystr path).
Notation W := (M (checkout * staged)).

Definition put_file (p : path) (f : file) : W unit := modify (λ st, (<[p := Regular f]> st.1, st.2)).
Definition set_staged (f : staged → staged) : W unit := modify (λ st, (st.1, f st.2)).

(** Write one edited input beside its file. *)
Definition stage (st : prepared) (name : pystr) : W unit :=
  p ← lift (of_name name (paths st));
  let dir := removelast p in
  _ ← lift (io (Create dir));
  '(s, _) ← get;
  let tmp := dir ++ [temporary s dir] in
  _ ← put_file tmp (File [] 384 1);
  _ ← set_staged (dict_set name tmp);
  raw ← lift (of_name name (edited st));
  _ ← put_file tmp (File raw 384 1);
  _ ← lift (io (Write tmp));
  '(s, _) ← get;
  match s !! p with
  | Some (Regular f) => put_file tmp (File raw (mode f) 1)
  | _ => raise file_missing
  end.

(** [os.replace(staged.pop(name), paths[name])] after the last check. *)
Definition commit (st : prepared) (name : pystr) : W unit :=
  '(s, files) ← get;
  _ ← lift (recheck st "Version input changed before replace" name s);
  p ← lift (of_name name (paths st));
  tmp ← lift (of_name name files);
  _ ← set_staged (dict_pop name);
  _ ← lift (io (Replace p));
  match s !! tmp with
  | Some n => modify (λ st, (<[p := n]> (delete tmp st.1), st.2))
  | None => raise file_missing
  end.

(** [path.unlink(missing_ok=True)] of what is still staged. *)
Definition unlink_staged : W unit :=
  modify (λ st, (foldr delete st.1 (dict_values st.2), st.2)).

Definition with_staged (m : W unit) : M checkout unit :=
  λ s, let '(st, r) := m (s, []) in (st.1, r).

(** [_apply_version_edits] *)
Definition apply_version_edits (st : prepared) : M checkout unit :=
  s ← get;
  _ ← lift (for_each (λ name, recheck st "Version input changed during sync" name s) (dict_keys (originals st)));
  with_staged (try_finally (_ ← for_each_M (stage st) (drift st); for_each_M (commit st) (drift st)) unlink_staged).

(** ** The command *)

(** The part of [sync_versions] before any write. *)
Definition prepare_all (s : checkout) (policy plan : pyval) : outcome (prepared * list pyval) :=
  p ← validate_plan float_repr sha256_hex plan (Some policy) None;
  files ← version_files policy;
  st ← prepare s p files nothing_prepared;
  _ ← for_each (still_holds p st) files;
  evidence ← collect (evidence_of st) (input_names st);
  Ok (st, evidence).

(** [sync_versions] *)
Definition sync_versions (policy plan : pyval) (only_check : bool) : M checkout (list pyval) :=
  s ← get;
  '(st, evidence) ← lift (prepare_all s policy plan);
  _ ← (if only_check
       then lift (require (bool_decide (drift st = [])) "Version inputs do not match release plan: ")
       else apply_version_edits st);
  mret evidence.

(** ** The committed base *)

(** [item.get("value", "package") in names] *)
Definition projects (names : list pystr) (d : pyobject) : outcome bool :=
  py_in (get_default (&"value") (VStr (&"package")) d) names.

Definition base_candidate (name : pyval) (d : pyobject) : outcome bool :=
  p ← item (&"path") d;
  o_and (Ok (py_eq p name)) (projects [&"base"; &"full"; &"package"] d).

(** [read_base_version] *)
Definition read_base_version (s : checkout) (policy : pyval) : outcome pystr :=
  config ← validate_policy policy;
  p ← as_dict policy;
  let name := get_default (&"version_file") VNone p in
  _ ← require (is_str name) "Committed version checks require version_file";
  files ← item (&"files") config;
  l ← iterate files;
  l ← collect as_dict l;
  candidates ← select (base_candidate name) l;
  match candidates with
  | [d] =>
    parts ← locate s name;
    raw ← read_bytes s parts;
    '(_, old) ← edit raw d (VStr (&"0.0.0"));
    match old with
    | value :: _ =>
      _ ← require (forallb (λ v, py_eq v value) old) "Base source version fields disagree";
      _ ← require (is_str value) "Base version source must be a string";
      let prefix := str_value (get_default (&"prefix") (VStr []) d) in
      _ ← require (startswith prefix (str_value value)) "Base version source prefix mismatch";
      let value := drop (length prefix) (str_value value) in
      _ ← require (fullmatch BASE value) "Committed base source must contain strict X.Y.Z";
      Ok value
    | [] => Raise (version_error "Base source version fields disagree")
    end
  | _ => Raise (version_error "version_file must have one explicit version selector")
  end.

Definition native_builds : list pystr := [&"build"; &"apple-build"].
Definition base_field (d : pyobject) : outcome bool := b ← projects native_builds d; Ok (negb b).

(** [check_base_versions]; [json.loads(json.dumps(policy))] copies the policy. *)
Definition check_base_versions (policy : pyval) (base : option pystr) : M checkout (list pyval) :=
  _ ← lift (validate_policy policy);
  s ← get;
  base ← lift (match base with Some (c :: b) => Ok (c :: b) | _ => read_base_version s policy end);
  files ← lift (version_files policy);
  kept ← lift (select base_field files);
  let filtered := set_field policy [&"versioning"; &"files"] (VList (VDict <$> kept)) in
  _ ← lift (require (negb (bool_decide (kept = []))) "No committed base version fields are declared");
  plan ← lift (create_plan float_repr sha256_hex (VStr base) (VStr (&"stable")) VNone
                 (VStr (replicate 40 (chr "0"))) filtered VNone);
  sync_versions filtered (VDict plan) true.

(** ** The checkout and its commit *)

Section git.
Context (root : pystr) (git_directory : bool) (git_output : list pystr → outcome bytes).

(** [grouped.setdefault(item["path"], []).append(item)] *)
Fixpoint group_files (files : list pyobject) (grouped : pydict pystr (list pyobject)) : outcome (pydict pystr (list pyobject)) :=
  match files with
  | [] => Ok grouped
  | d :: files =>
    v ← item (&"path") d;
    let name := str_value v in
    group_files files (dict_set name (default [] (dict_get name grouped) ++ [d]) grouped)
  end.

(** The declarations of one input: each holds in the commit, and all of them
    together give the text the checkout may have instead. *)
Fixpoint expected_input (base_plan plan : pyobject) (original : bytes) (declarations : list pyobject) (expected : bytes)
    : outcome bytes :=
  match declarations with
  | [] => Ok expected
  | d :: declarations =>
    based ← base_field d;
    _ ← (if based : bool then
           value ← projected_value base_plan d;
           '(checked, _) ← edit original d value;
           require (bool_decide (checked = original)) "Committed version input differs from planned base"
         else Ok tt);
    value ← projected_value plan d;
    '(expected, _) ← edit expected d value;
    expected_input base_plan plan original declarations expected
  end.

Definition verify_input (s : checkout) (head : pystr) (base_plan plan : pyobject) (input : pystr * list pyobject) : outcome unit :=
  let '(name, declarations) := input in
  _ ← relative (VStr name);
  original ← git_output [&"git"; &"-C"; root; &"cat-file"; &"--filters"; &"--path=" ++ name; head ++ &":" ++ name];
  expected ← expected_input base_plan plan original declarations original;
  p ← locate s (VStr name);
  current ← read_bytes s p;
  require (bool_decide (current ∈ [original; expected])) "Undeclared changes in version input".

(** The plan of the committed base. *)
Definition base_plan_of (plan : pyobject) : outcome pyobject :=
  base ← item (&"base_version") plan;
  match base with
  | VStr b => Ok (dict_set (&"tag") (VStr (&"v" ++ b)) (dict_set (&"version") base
                    (dict_set (&"sequence") VNone (dict_set (&"channel") (VStr (&"stable")) plan))))
  | _ => Raise (type_error_of "can only concatenate str")
  end.

(** [verify_checkout] *)
Definition verify_checkout (s : checkout) (policy : pyval) (plan : pyobject) : outcome unit :=
  if negb git_directory then Ok tt
  else
    raw ← git_output [&"git"; &"-C"; root; &"rev-parse"; &"HEAD"];
    text ← decode raw;
    let head := strip text in
    source ← item (&"source_sha") plan;
    _ ← require (py_eq (VStr head) source) "Checkout HEAD differs from release plan source SHA";
    files ← version_files policy;
    grouped ← group_files files [];
    base_plan ← base_plan_of plan;
    for_each (verify_input s head base_plan plan) grouped.
End git.
End sync.
