(* ===== verification/SyncFacts.v ===== *)
(** * What applying a plan does to the checkout

    [committed] is the specification of one replaced input.  A synchronisation
    leaves the checkout with a prefix of the prepared edits committed and nothing
    else, whatever fails; when it succeeds, all of them, and checking again
    succeeds without a change. *)

From Stdlib Require Import QArith.QArith.
From S2P Require Import Prelude PyStr PyDict PyRegex PyVal PyJson JsonFacts VersionPlan VersionPlanFacts Release ChangeScope ReleaseValidation JsonDocument VersionEdit SyncVersions.
#[local] Open Scope Z_scope.

(** The checkout after one input is replaced: its new text, its old mode. *)
Definition committed (st : prepared) (s : checkout) (name : pystr) : checkout :=
  match dict_get name (paths st), dict_get name (edited st) with
  | Some p, Some raw => match s !! p with Some (Regular f) => <[p := Regular (File raw (mode f) 1)]> s | _ => s end
  | _, _ => s
  end.

Lemma lookup_foldr_delete (l : list path) (s : checkout) q :
  foldr delete s l !! q = if bool_decide (q ∈ l) then None else s !! q.
Proof.
  induction l as [|p l IH]; cbn; [by rewrite bool_decide_false by apply not_elem_of_nil|].
  destruct (decide (q = p)) as [->|Hne].
  - rewrite lookup_delete_eq, bool_decide_true; [done|]. apply list_elem_of_here.
  - rewrite lookup_delete_ne, IH by done.
    destruct (decide (q ∈ l)); [rewrite !bool_decide_true|rewrite !bool_decide_false]; rewrite ?elem_of_cons; tauto.
Qed.

(** ** Confined inputs *)

Lemma relative_ok v name : relative v = Ok name → v = VStr name.
Proof. destruct v; cbn; try done. intros H. by inv_bind. Qed.

Lemma locate_ok s v p :
  locate s v = Ok p →
  ∃ name f, v = VStr name ∧ p = split (chr "/") name ∧ relative v = Ok name
    ∧ forallb (λ q, negb (is_symlink s q)) (prefixes p) = true
    ∧ s !! p = Some (Regular f) ∧ links f = 1 ∧ Z.of_nat (length (content f)) <= MAX_METADATA.
Proof.
  intros H. unfold locate in H. apply bind_ok in H as (name & Hr & H).
  apply bind_ok in H as ([] & Hs%check_ok & H).
  destruct (s !! _) as [[f| |]|] eqn:E; try done.
  apply bind_ok in H as ([] & Hl%check_ok & H). apply bind_ok in H as ([] & Hz%check_ok & H).
  apply (inj Ok) in H as <-. exists name, f. split_and!; try done; [by apply relative_ok|lia|lia].
Qed.

Lemma locate_intro s name f :
  relative (VStr name) = Ok name →
  forallb (λ q, negb (is_symlink s q)) (prefixes (split (chr "/") name)) = true →
  s !! split (chr "/") name = Some (Regular f) → links f = 1 → Z.of_nat (length (content f)) <= MAX_METADATA →
  locate s (VStr name) = Ok (split (chr "/") name).
Proof.
  intros Hr Hs Hf Hl Hz. unfold locate. rewrite Hr. cbn [mbind outcome_bind]. rewrite Hs. cbn.
  rewrite Hf. unfold require, check. rewrite (proj2 (Z.eqb_eq _ _) Hl), (proj2 (Z.leb_le _ _) Hz). done.
Qed.

Section sync.
Context `{EditLibrary}.
Context (temporary : checkout → path → pystr) (io : file_operation → outcome unit).

(** ** The prepared dictionaries *)

(** An input is in all four dictionaries or in none, located and read in [s]. *)
Definition input_ok (s : checkout) (st : prepared) (name : pystr) : Prop :=
  match dict_get name (originals st), dict_get name (edited st), dict_get name (paths st), dict_get name (changes st) with
  | Some raw, Some _, Some p, Some _ => locate s (VStr name) = Ok p ∧ read_bytes s p = Ok raw
  | None, None, None, None => True
  | _, _, _, _ => False
  end.

Definition prepared_ok (s : checkout) (st : prepared) : Prop :=
  dict_ok (originals st) ∧ ∀ name, input_ok s st name.

Lemma nothing_ok s : prepared_ok s nothing_prepared.
Proof. split; [constructor|done]. Qed.

Lemma of_name_ok {A} name (d : pydict pystr A) x : of_name name d = Ok x ↔ dict_get name d = Some x.
Proof. unfold of_name. destruct (dict_get name d); naive_solver. Qed.

(** One turn, taken apart. *)
Lemma prepare_one_ok s plan d st st' :
  prepare_one s plan d st = Ok st' → prepared_ok s st →
  prepared_ok s st' ∧
  (∀ name, is_Some (dict_get name (edited st)) → is_Some (dict_get name (edited st'))) ∧
  ∃ name, item (&"path") d = Ok (VStr name) ∧ is_Some (dict_get name (edited st')).
Proof.
  intros Hp [Hd Hi]. unfold prepare_one in Hp.
  apply bind_ok in Hp as (v & Hv & Hp). apply bind_ok in Hp as (p & Hl & Hp).
  destruct (locate_ok _ _ _ Hl) as (name & f & -> & Hsplit & _ & _ & Hf & _).
  cbn [str_value] in Hp. cbv zeta in Hp.
  apply bind_ok in Hp as (st1 & H1 & Hp). apply bind_ok in Hp as (value & Hvalue & Hp).
  apply bind_ok in Hp as (raw & Hraw%of_name_ok & Hp). apply bind_ok in Hp as ([updated old] & He & Hp).
  apply bind_ok in Hp as (format & Hformat & Hp). apply bind_ok in Hp as (made & Hmade%of_name_ok & Hp).
  apply (inj Ok) in Hp as <-.
  assert (dict_ok (originals st1) ∧ ∀ name, input_ok s st1 name) as [Hd1 Hi1].
  { destruct (dict_has name (originals st)) eqn:Eh.
    - apply (inj Ok) in H1 as <-. done.
    - apply bind_ok in H1 as (raw0 & Hr0 & H1). apply (inj Ok) in H1 as <-. split; [by apply dict_ok_set|].
      intros name'. unfold input_ok. cbn [originals edited paths changes]. rewrite !dict_get_set.
      destruct (decide (name' = name)) as [->|]; [done|]. apply Hi. }
  assert (∀ name', is_Some (dict_get name' (edited st)) → is_Some (dict_get name' (edited st1))) as Hgrow.
  { destruct (dict_has name (originals st)); [by apply (inj Ok) in H1 as <-|].
    apply bind_ok in H1 as (raw0 & Hr0 & H1). apply (inj Ok) in H1 as <-. intros name'. cbn [edited].
    rewrite dict_get_set. by case_decide. }
  assert (∀ name', is_Some (dict_get name' (edited st1)) → is_Some (dict_get name' (dict_set name updated (edited st1)))) as Hset.
  { intros name'. rewrite dict_get_set. by case_decide. }
  split_and!.
  - split; [done|]. intros name'. specialize (Hi1 name'). unfold input_ok in *. cbn [originals edited paths changes].
    rewrite !dict_get_set. destruct (decide (name' = name)) as [->|]; [|done].
    rewrite Hraw, Hmade in Hi1. destruct (dict_get name (originals st1)), (dict_get name (paths st1)); done.
  - intros name' Hn. apply Hset. auto.
  - exists name. split; [done|]. cbn [edited]. rewrite dict_get_set_eq. by eexists.
Qed.

Lemma prepare_ok s plan files st st' :
  prepare s plan files st = Ok st' → prepared_ok s st →
  prepared_ok s st' ∧
  (∀ name, is_Some (dict_get name (edited st)) → is_Some (dict_get name (edited st'))) ∧
  ∀ d, d ∈ files → ∃ name, item (&"path") d = Ok (VStr name) ∧ is_Some (dict_get name (edited st')).
Proof.
  revert st. induction files as [|d files IH]; intros st Hp Hst; cbn [prepare] in Hp.
  { apply (inj Ok) in Hp as <-. split_and!; [done..|]. intros d Hd. by apply elem_of_nil in Hd. }
  apply bind_ok in Hp as (st1 & H1 & Hp). destruct (prepare_one_ok _ _ _ _ _ H1 Hst) as (Hst1 & Hg1 & name & Hn & Hs).
  destruct (IH _ Hp Hst1) as (Hst' & Hg & Hall). split_and!; [done|auto|].
  intros d' [->|Hd']%elem_of_cons; [|auto]. exists name. auto.
Qed.

(** Every input that is prepared is the path of a declaration, and every
    declaration that is prepared has been located. *)
Lemma prepare_one_names s plan d st st' name :
  prepare_one s plan d st = Ok st' → is_Some (dict_get name (edited st')) →
  is_Some (dict_get name (edited st)) ∨ item (&"path") d = Ok (VStr name) ∧ ∃ p, locate s (VStr name) = Ok p.
Proof.
  intros Hp Hn. unfold prepare_one in Hp. apply bind_ok in Hp as (v & Hv & Hp). apply bind_ok in Hp as (p & Hl & Hp).
  destruct (locate_ok _ _ _ Hl) as (n & f & -> & _). cbn [str_value] in Hp. cbv zeta in Hp.
  apply bind_ok in Hp as (st1 & H1 & Hp). apply bind_ok in Hp as (value & _ & Hp).
  apply bind_ok in Hp as (raw & _ & Hp). apply bind_ok in Hp as ([updated old] & _ & Hp).
  apply bind_ok in Hp as (format & _ & Hp). apply bind_ok in Hp as (made & _ & Hp). apply (inj Ok) in Hp as <-.
  cbn [edited] in Hn. rewrite dict_get_set in Hn. destruct (decide (name = n)) as [->|Hne]; [right; split; [done|by eexists]|].
  left. destruct (dict_has n (originals st)); [by apply (inj Ok) in H1 as <-|].
  apply bind_ok in H1 as (raw0 & _ & H1). apply (inj Ok) in H1 as <-. cbn [edited] in Hn. by rewrite dict_get_set_ne in Hn.
Qed.

Lemma prepare_names s plan files st st' name :
  prepare s plan files st = Ok st' → is_Some (dict_get name (edited st')) →
  is_Some (dict_get name (edited st)) ∨ ∃ d, d ∈ files ∧ item (&"path") d = Ok (VStr name).
Proof.
  revert st. induction files as [|d files IH]; intros st Hp Hn; cbn [prepare] in Hp; [apply (inj Ok) in Hp as <-; by left|].
  apply bind_ok in Hp as (st1 & H1 & Hp). destruct (IH _ Hp Hn) as [Hs|(d' & Hd & Hi)].
  - destruct (prepare_one_names _ _ _ _ _ _ H1 Hs) as [?|[Hi _]]; [by left|right]. exists d. split; [by left|done].
  - right. exists d'. split; [by right|done].
Qed.

Lemma prepare_located s plan files st st' d :
  prepare s plan files st = Ok st' → d ∈ files → ∃ v p, item (&"path") d = Ok v ∧ locate s v = Ok p.
Proof.
  revert st. induction files as [|d' files IH]; intros st Hp Hd; cbn [prepare] in Hp; [by apply elem_of_nil in Hd|].
  apply bind_ok in Hp as (st1 & H1 & Hp). apply elem_of_cons in Hd as [<-|Hd]; [|by eapply IH].
  unfold prepare_one in H1. apply bind_ok in H1 as (v & Hv & H1). apply bind_ok in H1 as (p & Hl & H1). by exists v, p.
Qed.

(** The paths of different inputs differ, and hold regular files. *)
Lemma prepared_path s st name p :
  prepared_ok s st → dict_get name (paths st) = Some p →
  p = split (chr "/") name ∧ (∃ f, s !! p = Some (Regular f)) ∧ is_Some (dict_get name (edited st))
  ∧ is_Some (dict_get name (originals st)).
Proof.
  intros [_ Hi] Hp. specialize (Hi name). unfold input_ok in Hi. rewrite Hp in Hi.
  destruct (dict_get name (originals st)), (dict_get name (edited st)), (dict_get name (changes st)); try done.
  destruct Hi as [Hl _]. destruct (locate_ok _ _ _ Hl) as (n & f & [= <-] & -> & _ & _ & Hf & _).
  split_and!; [done|by eexists|by eexists|by eexists].
Qed.

Lemma prepared_inj s st name name' p :
  prepared_ok s st → dict_get name (paths st) = Some p → dict_get name' (paths st) = Some p → name = name'.
Proof.
  intros Hok Hn Hn'. destruct (prepared_path _ _ _ _ Hok Hn) as (E & _). destruct (prepared_path _ _ _ _ Hok Hn') as (E' & _).
  rewrite E in E'. by apply split_inj in E'.
Qed.

(** ** Committing *)

Context (st : prepared) (s0 : checkout) (Hst : prepared_ok s0 st).

Lemma committed_lookup s name q :
  (∀ p, dict_get name (paths st) = Some p → ∃ f, s !! p = Some (Regular f)) →
  committed st s name !! q =
    match dict_get name (paths st), dict_get name (edited st) with
    | Some p, Some raw =>
      if decide (q = p) then
        match s !! p with Some (Regular f) => Some (Regular (File raw (mode f) 1)) | x => x end
      else s !! q
    | _, _ => s !! q
    end.
Proof.
  intros Hp. unfold committed. destruct (dict_get name (paths st)) as [p|]; [|done].
  destruct (dict_get name (edited st)) as [raw|]; [|done]. destruct (Hp p eq_refl) as [f Hf]. rewrite Hf.
  destruct (decide (q = p)) as [->|]; [by rewrite lookup_insert_eq|by rewrite lookup_insert_ne].
Qed.

(** The checkout after the inputs [done] are committed. *)
Definition base (finished : list pystr) : checkout := foldl (committed st) s0 finished.

Lemma base_snoc finished name : base (finished ++ [name]) = committed st (base finished) name.
Proof. unfold base. by rewrite foldl_app. Qed.

Lemma base_regular finished q : (∃ f, s0 !! q = Some (Regular f)) ↔ ∃ f, base finished !! q = Some (Regular f).
Proof.
  induction finished as [|name l IH] using rev_ind; [done|]. rewrite base_snoc, IH. unfold committed.
  destruct (dict_get name (paths st)) as [p|]; [|done]. destruct (dict_get name (edited st)) as [raw|]; [|done].
  destruct (base l !! p) as [[f| |]|] eqn:E; try done.
  destruct (decide (q = p)) as [->|]; [rewrite lookup_insert_eq|by rewrite lookup_insert_ne].
  rewrite E. split; intros _; by eexists.
Qed.

Lemma base_symlink finished q : is_symlink (base finished) q = is_symlink s0 q.
Proof.
  unfold is_symlink. induction finished as [|name l IH] using rev_ind; [done|]. rewrite base_snoc, <-IH. unfold committed.
  destruct (dict_get name (paths st)) as [p|]; [|done]. destruct (dict_get name (edited st)) as [raw|]; [|done].
  destruct (base l !! p) as [[f| |]|] eqn:E; try done.
  destruct (decide (q = p)) as [->|]; [|by rewrite lookup_insert_ne]. by rewrite lookup_insert_eq, E.
Qed.

Lemma base_links finished q f0 f :
  s0 !! q = Some (Regular f0) → base finished !! q = Some (Regular f) → links f = links f0 ∨ links f = 1.
Proof.
  intros H0. revert f. induction finished as [|name l IH] using rev_ind; intros f.
  { unfold base. cbn. rewrite H0. intros [= ->]. by left. }
  rewrite base_snoc. unfold committed. destruct (dict_get name (paths st)) as [p|]; [|apply IH].
  destruct (dict_get name (edited st)) as [raw|]; [|apply IH]. destruct (base l !! p) as [[g| |]|]; try apply IH.
  destruct (decide (q = p)) as [->|]; [|rewrite lookup_insert_ne by done; apply IH].
  rewrite lookup_insert_eq. intros [= <-]. by right.
Qed.

(** An input that is not committed yet stands as it was. *)
Lemma base_pending finished name p :
  name ∉ finished → dict_get name (paths st) = Some p → base finished !! p = s0 !! p.
Proof.
  intros Hn Hp. induction finished as [|n l IH] using rev_ind; [done|].
  rewrite not_elem_of_app, list_elem_of_singleton in Hn. destruct Hn as [Hn Hne].
  rewrite base_snoc, <-(IH Hn). unfold committed.
  destruct (dict_get n (paths st)) as [p'|] eqn:E; [|done]. destruct (dict_get n (edited st)) as [raw|]; [|done].
  destruct (base l !! p') as [[f| |]|]; try done. rewrite lookup_insert_ne; [done|]. intros ->.
  apply Hne. by eapply prepared_inj.
Qed.

Lemma base_done finished name :
  name ∈ finished →
  ∀ p raw f, dict_get name (paths st) = Some p → dict_get name (edited st) = Some raw → s0 !! p = Some (Regular f) →
  base finished !! p = Some (Regular (File raw (mode f) 1)).
Proof.
  intros Hin p raw f Hp Hraw Hf. induction finished as [|n l IH] using rev_ind; [by apply elem_of_nil in Hin|].
  rewrite base_snoc. unfold committed. destruct (decide (name = n)) as [<-|Hne].
  - rewrite Hp, Hraw. destruct (decide (name ∈ l)) as [Hl|Hl].
    + rewrite (IH Hl). by rewrite lookup_insert_eq.
    + rewrite (base_pending _ _ _ Hl Hp), Hf. by rewrite lookup_insert_eq.
  - apply elem_of_app in Hin as [Hin|Hin%list_elem_of_singleton]; [|done]. rewrite <-(IH Hin).
    destruct (dict_get n (paths st)) as [p'|] eqn:E; [|done]. destruct (dict_get n (edited st)) as [raw'|]; [|done].
    destruct (base l !! p') as [[f'| |]|]; try done. rewrite lookup_insert_ne; [done|]. intros ->.
    apply Hne. symmetry. by eapply prepared_inj.
Qed.

(** What is not an input does not change. *)
Lemma base_frame finished q : q ∉ dict_values (paths st) → base finished !! q = s0 !! q.
Proof.
  intros Hq. induction finished as [|n l IH] using rev_ind; [done|]. rewrite base_snoc, <-IH. unfold committed.
  destruct (dict_get n (paths st)) as [p'|] eqn:E; [|done]. destruct (dict_get n (edited st)) as [raw|]; [|done].
  destruct (base l !! p') as [[f| |]|]; try done. rewrite lookup_insert_ne; [done|]. intros ->. apply Hq.
  apply dict_get_elem in E. apply list_elem_of_fmap. by exists (n, q).
Qed.

(** ** Staging *)

Notation staged := (pydict pystr path).

(** Apart from the staged files the checkout is [base finished]. *)
Definition aside (finished : list pystr) (w : checkout * staged) : Prop :=
  dict_ok w.2 ∧ NoDup (dict_values w.2)
  ∧ (∀ q, q ∈ dict_values w.2 → base finished !! q = None ∧ is_Some (w.1 !! q))
  ∧ (∀ q, q ∉ dict_values w.2 → w.1 !! q = base finished !! q).

Lemma aside_unlink finished w : aside finished w → foldr delete w.1 (dict_values w.2) = base finished.
Proof.
  intros (_ & _ & Hin & Hout). apply map_eq. intros q. rewrite lookup_foldr_delete.
  case_bool_decide as Hq; [by destruct (Hin q Hq) as [-> _]|by apply Hout].
Qed.

(** The staged file of an input holds its new text and its mode. *)
Definition ready (w : checkout * staged) (name : pystr) : Prop :=
  ∃ p raw f tmp, dict_get name (paths st) = Some p ∧ dict_get name (edited st) = Some raw
    ∧ s0 !! p = Some (Regular f) ∧ dict_get name w.2 = Some tmp
    ∧ w.1 !! tmp = Some (Regular (File raw (mode f) 1)).

Context (Hfresh : ∀ s dir, s !! (dir ++ [temporary s dir]) = None).
Context (Hreplace : ∀ p, io (Replace p) = Ok tt).

Lemma aside_path finished w name p :
  aside finished w → name ∉ finished → dict_get name (paths st) = Some p → p ∉ dict_values w.2 ∧ w.1 !! p = s0 !! p.
Proof.
  intros (_ & _ & Hin & Hout) Hn Hp. pose proof (base_pending _ _ _ Hn Hp) as Hb.
  assert (p ∉ dict_values w.2) as Hq; [|by rewrite Hout, Hb].
  intros Hq. destruct (prepared_path _ _ _ _ Hst Hp) as (_ & [f Hf] & _). destruct (Hin _ Hq) as [Hx _]. congruence.
Qed.

Lemma dict_values_fresh (name : pystr) (tmp : path) (d : staged) :
  name ∉ dict_keys d → dict_values (dict_set name tmp d) = dict_values d ++ [tmp].
Proof. intros Hn. unfold dict_values. rewrite dict_set_absent by done. by rewrite fmap_app. Qed.

Lemma stage_ok name w w' r :
  name ∉ dict_keys w.2 → aside [] w → stage temporary io st name w = (w', r) →
  aside [] w' ∧ dict_keys w'.2 ⊆ name :: dict_keys w.2
  ∧ (∀ n, n ≠ name → ready w n → ready w' n) ∧ (r = Ok tt → ready w' name).
Proof.
  destruct w as [s d]. intros Hn Ha Hrun. cbn [snd] in Hn. unfold stage in Hrun.
  unfold mbind, M_bind, lift, get, put_file, set_staged, modify, raise in Hrun.
  assert (∀ w' r, w' = (s, d) → (∃ e, r = Raise e) →
    aside [] w' ∧ dict_keys w'.2 ⊆ name :: dict_keys d ∧ (∀ n, n ≠ name → ready (s, d) n → ready w' n)
    ∧ (r = Ok tt → ready w' name)) as Hfail.
  { intros ?? -> [e ->]. split_and!; [done| |done|done]. intros n. rewrite elem_of_cons. auto. }
  destruct (of_name name (paths st)) as [p|e] eqn:Ep; [apply of_name_ok in Ep|]; cbn in Hrun;
    [|injection Hrun as <- <-; by eauto].
  destruct (io (Create (removelast p))) as [[]|e]; [|injection Hrun as <- <-; by eauto].
  set (dir := removelast p) in *. set (tmp := dir ++ [temporary s dir]) in *.
  pose proof (Hfresh s dir) as Htmp. fold tmp in Htmp.
  destruct (prepared_path _ _ _ _ Hst Ep) as (_ & [f Hf] & _).
  destruct (aside_path _ _ _ _ Ha ltac:(apply not_elem_of_nil) Ep) as [Hpd Hsp]. cbn [fst snd] in Hpd, Hsp.
  assert (p ≠ tmp) as Hne by congruence.
  assert (∀ s2, (∃ g, s2 !! tmp = Some (Regular g)) → (∀ q, q ≠ tmp → s2 !! q = s !! q) →
    aside [] (s2, dict_set name tmp d) ∧ dict_keys (dict_set name tmp d) ⊆ name :: dict_keys d
    ∧ (∀ n, n ≠ name → ready (s, d) n → ready (s2, dict_set name tmp d) n)) as Hstep.
  { intros s2 [g Hg] Hframe. destruct Ha as (Hd & Hv & Hin & Hout). cbn [fst snd] in *.
    assert (tmp ∉ dict_values d) as Hnt by (intros Hq; destruct (Hin _ Hq) as [_ [x Hx]]; congruence).
    split_and!; cbn [fst snd].
    - split_and!; cbn [fst snd]; rewrite ?dict_values_fresh by done.
      + by apply dict_ok_set.
      + apply NoDup_app. split_and!; [done|by intros q Hq ->%list_elem_of_singleton|apply NoDup_singleton].
      + intros q [Hq| ->%list_elem_of_singleton]%elem_of_app.
        * destruct (Hin q Hq) as [Hb Hs]. split; [done|]. rewrite Hframe by congruence. done.
        * split; [by rewrite <-Hout|by rewrite Hg].
      + intros q [Hq Hqt]%not_elem_of_app. rewrite list_elem_of_singleton in Hqt. rewrite Hframe by done. by apply Hout.
    - rewrite dict_keys_set. case_decide; set_solver.
    - intros n Hnn (p' & raw & f' & tmp' & ? & ? & ? & Hgt & Hst'). cbn [fst snd] in *.
      exists p', raw, f', tmp'. split_and!; try done; cbn [fst snd].
      + by rewrite dict_get_set_ne.
      + rewrite Hframe by congruence. done. }
  assert (∀ g, aside [] (<[tmp:=Regular g]> s, dict_set name tmp d)
    ∧ dict_keys (dict_set name tmp d) ⊆ name :: dict_keys d
    ∧ ∀ n, n ≠ name → ready (s, d) n → ready (<[tmp:=Regular g]> s, dict_set name tmp d) n) as Hput.
  { intros g. apply Hstep; [rewrite lookup_insert_eq; by eexists|]. intros q Hq. by rewrite lookup_insert_ne. }
  destruct (of_name name (edited st)) as [raw|e] eqn:Er; [apply of_name_ok in Er|]; cbn in Hrun.
  2: { injection Hrun as <- <-. destruct (Hput (File [] 384 1)) as (? & ? & ?). by split_and!. }
  rewrite insert_insert_eq in Hrun. destruct (io (Write tmp)) as [[]|e]; cbn in Hrun.
  2: { injection Hrun as <- <-. destruct (Hput (File raw 384 1)) as (? & ? & ?). by split_and!. }
  rewrite lookup_insert_ne, Hsp, Hf in Hrun by done. cbn in Hrun. rewrite insert_insert_eq in Hrun.
  injection Hrun as <- <-. destruct (Hput (File raw (mode f) 1)) as (? & ? & ?). split_and!; [done..|].
  intros _. exists p, raw, f, tmp. cbn [fst snd]. by rewrite dict_get_set_eq, lookup_insert_eq.
Qed.

Lemma for_each_M_cons {S A} (f : A → M S unit) x l s :
  for_each_M f (x :: l) s = match f x s with (s', Ok _) => for_each_M f l s' | (s', Raise e) => (s', Raise e) end.
Proof. cbn. unfold mbind, M_bind. by destruct (f x s) as [s' [[]|e]]. Qed.

Lemma stage_all l w w' r :
  NoDup l → (∀ n, n ∈ l → n ∉ dict_keys w.2) → aside [] w → for_each_M (stage temporary io st) l w = (w', r) →
  aside [] w' ∧ (∀ n, n ∉ l → ready w n → ready w' n) ∧ (r = Ok tt → ∀ n, n ∈ l → ready w' n).
Proof.
  revert w. induction l as [|name l IH]; intros w Hnd Hl Ha Hrun.
  { injection Hrun as <- <-. split_and!; [done..|]. intros _ n Hn. by apply elem_of_nil in Hn. }
  apply NoDup_cons in Hnd as [Hnl Hnd]. rewrite for_each_M_cons in Hrun.
  destruct (stage temporary io st name w) as [w1 r1] eqn:E1.
  destruct (stage_ok _ _ _ _ (Hl _ (list_elem_of_here _ _)) Ha E1) as (Ha1 & Hk & Hr & Hdone).
  destruct r1 as [[]|e]; [|injection Hrun as <- <-; split_and!; [done| |done]; intros n; rewrite elem_of_cons; auto].
  edestruct IH as (Ha' & Hr' & Hl'); [done| |done..|].
  - intros n Hin [->|Hin']%Hk%elem_of_cons; [done|]. by eapply Hl; [apply list_elem_of_further|].
  - split; [done|]. split; [intros m [? ?]%not_elem_of_cons ?; auto|].
    intros Hok m [->|Hin]%elem_of_cons; auto.
Qed.

Lemma dict_pop_values (name : pystr) tmp (d : staged) :
  dict_ok d → dict_get name d = Some tmp → dict_values d ≡ₚ tmp :: dict_values (dict_pop name d).
Proof.
  unfold dict_values. induction d as [|[k x] d IH]; cbn; [done|]. intros [Hk Hd]%NoDup_cons.
  destruct (decide (name = k)) as [->|Hne]; [by intros [= ->]|]. intros Hg. cbn. rewrite (IH Hd Hg).
  apply Permutation_swap.
Qed.

Lemma commit_ok finished name w w' r :
  name ∉ finished → aside finished w → ready w name → commit io st name w = (w', r) →
  match r with
  | Ok _ => aside (finished ++ [name]) w' ∧ ∀ n, n ≠ name → ready w n → ready w' n
  | Raise _ => aside finished w'
  end.
Proof.
  destruct w as [s d]. intros Hn Ha (p & raw & f & tmp & Hp & Hraw & Hf & Htmp & Hs) Hrun. cbn [fst snd] in *.
  unfold commit in Hrun. unfold mbind, M_bind, lift, get, set_staged, modify, raise in Hrun. cbv beta iota in Hrun.
  destruct (recheck st _ name s) as [[]|e]; [|by injection Hrun as <- <-].
  rewrite (proj2 (of_name_ok _ _ _) Hp), (proj2 (of_name_ok _ _ _) Htmp), Hreplace in Hrun. cbn in Hrun.
  rewrite Hs in Hrun. injection Hrun as <- <-.
  destruct (aside_path _ _ _ _ Ha Hn Hp) as [Hpd Hsp]. destruct Ha as (Hd & Hv & Hin & Hout). cbn [fst snd] in *.
  pose proof (dict_pop_values _ _ _ Hd Htmp) as Hperm. rewrite Hperm in Hv. apply NoDup_cons in Hv as [Htv Hv].
  assert (∀ q, q ∈ dict_values d ↔ q = tmp ∨ q ∈ dict_values (dict_pop name d)) as Hvals
    by (intros q; by rewrite Hperm, elem_of_cons).
  assert (p ≠ tmp) as Hne by (intros ->; apply Hpd, Hvals; by left).
  assert (base (finished ++ [name]) = <[p := Regular (File raw (mode f) 1)]> (base finished)) as Hbase.
  { rewrite base_snoc. unfold committed. by rewrite Hp, Hraw, (base_pending _ _ _ Hn Hp), Hf. }
  split.
  - unfold aside. rewrite Hbase. cbn [fst snd]. split_and!; [by apply dict_ok_pop|done| |].
    + intros q Hq. assert (q ∈ dict_values d) as Hq' by (apply Hvals; by right).
      assert (q ≠ p) by congruence. assert (q ≠ tmp) by congruence.
      rewrite !lookup_insert_ne, lookup_delete_ne by done. by apply Hin.
    + intros q Hq. destruct (decide (q = p)) as [->|Hqp]; [by rewrite !lookup_insert_eq|].
      rewrite !lookup_insert_ne by done. destruct (decide (q = tmp)) as [->|Hqt].
      * rewrite lookup_delete_eq. symmetry. apply Hin, Hvals. by left.
      * rewrite lookup_delete_ne by done. apply Hout. rewrite Hvals. tauto.
  - intros n Hnn (p' & raw' & f' & tmp' & ? & ? & ? & Ht' & Hs'). cbn [fst snd] in *.
    exists p', raw', f', tmp'. split_and!; try done; cbn [fst snd].
    + by rewrite dict_get_pop_ne.
    + assert (tmp' ∈ dict_values (dict_pop name d)) as Hq.
      { apply list_elem_of_fmap. exists (n, tmp'). split; [done|]. apply dict_get_elem. by rewrite dict_get_pop_ne. }
      assert (tmp' ≠ p) by (intros ->; apply Hpd, Hvals; by right). assert (tmp' ≠ tmp) by congruence.
      by rewrite lookup_insert_ne, lookup_delete_ne.
Qed.

Lemma commit_all l finished w w' r :
  NoDup l → (∀ n, n ∈ l → n ∉ finished) → aside finished w → (∀ n, n ∈ l → ready w n) →
  for_each_M (commit io st) l w = (w', r) →
  ∃ l1, l1 `prefix_of` l ∧ aside (finished ++ l1) w' ∧ (r = Ok tt → l1 = l).
Proof.
  revert finished w. induction l as [|name l IH]; intros finished w Hnd Hl Ha Hr Hrun.
  { injection Hrun as <- <-. exists []. by rewrite app_nil_r. }
  apply NoDup_cons in Hnd as [Hnl Hnd]. rewrite for_each_M_cons in Hrun.
  destruct (commit io st name w) as [w1 r1] eqn:E1.
  pose proof (commit_ok _ _ _ _ _ (Hl _ (list_elem_of_here _ _)) Ha (Hr _ (list_elem_of_here _ _)) E1) as H1.
  destruct r1 as [[]|e].
  - destruct H1 as [Ha1 Hr1]. edestruct (IH (finished ++ [name]) w1) as (l1 & Hpre & Ha' & Hall); [done| |done| |done|].
    + intros n Hin. rewrite elem_of_app, list_elem_of_singleton.
      intros [Hf|Heq]; [by eapply Hl; [apply list_elem_of_further|]|by subst].
    + intros n Hin. apply Hr1; [by intros ->|]. apply Hr. by apply list_elem_of_further.
    + exists (name :: l1). rewrite <-app_assoc in Ha'. split_and!; [by apply prefix_cons|done|].
      intros Hok. f_equal. auto.
  - injection Hrun as <- <-. exists []. rewrite app_nil_r. split_and!; [apply prefix_nil|done|done].
Qed.

(** The whole application: a prefix of the drift is committed, and nothing else
    has changed. *)
Lemma apply_ok s' r :
  NoDup (drift st) → apply_version_edits temporary io st s0 = (s', r) →
  ∃ l1, l1 `prefix_of` drift st ∧ s' = base l1 ∧ (r = Ok tt → l1 = drift st).
Proof.
  intros Hnd Hrun. unfold apply_version_edits in Hrun. unfold mbind, M_bind, lift, get, with_staged, try_finally in Hrun.
  destruct (for_each _ _) as [[]|e].
  2: { injection Hrun as <- <-. exists []. split_and!; [apply prefix_nil|done|done]. }
  assert (aside [] (s0, [])) as Ha0.
  { split_and!; cbn; [constructor|constructor|intros q Hq; by apply elem_of_nil in Hq|done]. }
  destruct (for_each_M (stage temporary io st) (drift st) (s0, [])) as [w1 r1] eqn:E1.
  destruct (stage_all (drift st) (s0, []) w1 r1 Hnd ltac:(intros n _; apply not_elem_of_nil) Ha0 E1) as (Ha1 & _ & Hr1).
  unfold unlink_staged, modify in Hrun.
  destruct r1 as [[]|e].
  2: { injection Hrun as <- <-. exists []. split_and!; [apply prefix_nil|by apply (aside_unlink [])|done]. }
  destruct (for_each_M (commit io st) (drift st) w1) as [w2 r2] eqn:E2.
  edestruct (commit_all (drift st) [] w1 w2 r2) as (l1 & Hpre & Ha2 & Hall);
    [done|intros n _; apply not_elem_of_nil|done|by apply Hr1|done|].
  injection Hrun as <- <-. exists l1. cbn [app] in Ha2. split_and!; [done|by apply (aside_unlink l1)|done].
Qed.
End sync.

Section theorems.
Context `{EditLibrary} (float_repr : Q → pystr) (sha256_hex : bytes → pystr).
Context (temporary : checkout → path → pystr) (io : file_operation → outcome unit).

Lemma prepare_all_ok s policy plan st evidence :
  prepare_all float_repr sha256_hex s policy plan = Ok (st, evidence) →
  ∃ p files, validate_plan float_repr sha256_hex plan (Some policy) None = Ok p ∧ version_files policy = Ok files
    ∧ prepare s p files nothing_prepared = Ok st ∧ for_each (still_holds p st) files = Ok tt.
Proof.
  intros Hp. unfold prepare_all in Hp. apply bind_ok in Hp as (p & Hv & Hp). apply bind_ok in Hp as (files & Hf & Hp).
  apply bind_ok in Hp as (st' & Hs & Hp). apply bind_ok in Hp as ([] & Hh & Hp).
  apply bind_ok in Hp as (evidence' & He & Hp). apply (inj Ok) in Hp. injection Hp as <- <-. eauto 10.
Qed.

Lemma prepare_all_prepared s policy plan st evidence :
  prepare_all float_repr sha256_hex s policy plan = Ok (st, evidence) → prepared_ok s st.
Proof.
  intros (p & files & _ & _ & Hs & _)%prepare_all_ok. eapply prepare_ok in Hs; [by destruct Hs|apply nothing_ok].
Qed.

Lemma drift_NoDup s st : prepared_ok s st → NoDup (drift st).
Proof. intros [Hd _]. apply NoDup_filter. unfold input_names. by rewrite sorted_perm. Qed.

(** C37: a synchronisation never leaves the checkout half edited without saying so.
    When the edits cannot be prepared, or only a check is asked, nothing is written.
    Otherwise the inputs that drifted are replaced one after the other in the order of
    their names, each with its prepared text and its old mode: success means all of
    them, a failure a prefix of them; no other file changes and no temporary file
    stays behind (provided [os.replace] itself does not fail). *)
Theorem sync_commits_prefix policy plan only_check s s' r
    (Hfresh : ∀ s dir, s !! (dir ++ [temporary s dir]) = None) (Hreplace : ∀ p, io (Replace p) = Ok tt) :
  sync_versions float_repr sha256_hex temporary io policy plan only_check s = (s', r) →
  match prepare_all float_repr sha256_hex s policy plan with
  | Raise e => s' = s ∧ r = Raise e
  | Ok (st, evidence) =>
    if only_check then s' = s ∧ (r = Ok evidence ↔ drift st = [])
    else ∃ finished, finished `prefix_of` drift st ∧ s' = foldl (committed st) s finished
         ∧ (∀ q, q ∉ dict_values (paths st) → s' !! q = s !! q)
         ∧ (r = Ok evidence ∧ finished = drift st ∨ ∃ e, r = Raise e)
  end.
Proof.
  unfold sync_versions. intros Hrun. unfold mbind, M_bind, get, lift, mret, M_ret in Hrun. cbv beta iota in Hrun.
  destruct (prepare_all _ _ _ _ _) as [[st evidence]|e] eqn:Ep; [|by injection Hrun as <- <-].
  pose proof (prepare_all_prepared _ _ _ _ _ Ep) as Hok. destruct only_check.
  - unfold require, check in Hrun. case_bool_decide as Hd; by injection Hrun as <- <-.
  - destruct (apply_version_edits _ _ _ _) as [s1 r1] eqn:Ea.
    destruct (apply_ok temporary io st s Hok Hfresh Hreplace s1 r1 (drift_NoDup _ _ Hok) Ea) as (l & Hpre & -> & Hall).
    assert (∀ q, q ∉ dict_values (paths st) → base st s l !! q = s !! q) as Hframe by apply base_frame.
    exists l. destruct r1 as [[]|e]; injection Hrun as <- <-; split_and!; try done; [left|right; by eexists].
    split; [done|]. by apply Hall.
Qed.

(** ** Checking again *)

Context (s : checkout) (st : prepared) (Hst : prepared_ok s st).

Definition synced : checkout := foldl (committed st) s (drift st).

Lemma input_entries_ok name raw :
  dict_get name (edited st) = Some raw →
  ∃ original p f, dict_get name (originals st) = Some original ∧ dict_get name (paths st) = Some p
    ∧ locate s (VStr name) = Ok p ∧ s !! p = Some (Regular f) ∧ content f = original.
Proof.
  intros Hr. destruct Hst as [_ Hi]. specialize (Hi name). unfold input_ok in Hi. rewrite Hr in Hi.
  destruct (dict_get name (originals st)) as [original|]; [|by destruct (dict_get name (paths st)), (dict_get name (changes st))].
  destruct (dict_get name (paths st)) as [p|]; [|done]. destruct (dict_get name (changes st)); [|done].
  destruct Hi as [Hl Hread]. destruct (locate_ok _ _ _ Hl) as (n & f & _ & _ & _ & _ & Hf & _).
  exists original, p, f. split_and!; try done. unfold read_bytes in Hread. rewrite Hf in Hread. by apply (inj Ok) in Hread.
Qed.

(** Every input of the synchronised checkout holds its edited text. *)
Lemma synced_input name raw :
  dict_get name (edited st) = Some raw →
  ∃ p f, locate s (VStr name) = Ok p ∧ synced !! p = Some (Regular f) ∧ content f = raw.
Proof.
  intros Hr. destruct (input_entries_ok _ _ Hr) as (original & p & f & Ho & Hp & Hl & Hf & Hc). exists p.
  destruct (decide (name ∈ drift st)) as [Hd|Hd].
  - eexists. split_and!; [done|by eapply (base_done st s Hst (drift st) name Hd p raw f)|done].
  - exists f. split_and!; [done| |].
    + etransitivity; [apply (base_pending st s Hst (drift st) name p Hd Hp)|done].
    + unfold drift in Hd. rewrite list_elem_of_filter in Hd. unfold is_changed in Hd. rewrite Ho, Hr, negb_true_iff in Hd.
      destruct (decide (original = raw)) as [->|Hne]; [done|]. exfalso. apply Hd. split.
      * apply bool_decide_eq_false. congruence.
      * unfold input_names. rewrite sorted_perm. by eapply dict_get_Some_key.
Qed.

Lemma synced_locate name raw :
  dict_get name (edited st) = Some raw → Z.of_nat (length raw) <= MAX_METADATA →
  ∃ p, locate synced (VStr name) = Ok p ∧ read_bytes synced p = Ok raw.
Proof.
  intros Hr Hz. destruct (synced_input _ _ Hr) as (p & f & Hl & Hf & Hc). exists p. subst raw. split.
  - destruct (locate_ok _ _ _ Hl) as (n & f0 & [= <-] & -> & Hrel & Hsym & Hf0 & Hlinks & _).
    apply (locate_intro _ _ f); try done.
    + rewrite forallb_forall in Hsym |- *. intros q Hq. unfold synced.
      change (foldl (committed st) s (drift st)) with (base st s (drift st)). rewrite base_symlink. by apply Hsym.
    + destruct (base_links st s (drift st) (split (chr "/") name) f0 f Hf0 Hf) as [E|E]; congruence.
  - unfold read_bytes. by rewrite Hf.
Qed.

(** A preparation of the synchronised checkout finds every input as it should be. *)
Definition settled (st' : prepared) : Prop :=
  prepared_ok synced st' ∧ ∀ name, match dict_get name (originals st'), dict_get name (edited st') with
                                  | Some a, Some b => a = b ∧ dict_get name (edited st) = Some b
                                  | None, None => True
                                  | _, _ => False
                                  end.

Context (Hsize : ∀ name raw, dict_get name (edited st) = Some raw → Z.of_nat (length raw) <= MAX_METADATA).

Lemma settled_one plan d st' name :
  item (&"path") d = Ok (VStr name) → is_Some (dict_get name (edited st)) → still_holds plan st d = Ok tt →
  settled st' → ∃ st'', prepare_one synced plan d st' = Ok st'' ∧ settled st''.
Proof.
  intros Hname [raw Hraw] Hholds [Hok Hset].
  unfold still_holds in Hholds. rewrite Hname in Hholds. cbn [mbind outcome_bind str_value] in Hholds.
  apply bind_ok in Hholds as (raw' & Hr%of_name_ok & Hholds). rewrite Hraw in Hr. injection Hr as <-.
  apply bind_ok in Hholds as (value & Hvalue & Hholds). apply bind_ok in Hholds as ([checked old] & Hedit & Hholds).
  apply check_ok, bool_decide_eq_true in Hholds as ->.
  destruct (synced_locate _ _ Hraw (Hsize _ _ Hraw)) as (p & Hl & Hread).
  assert (∃ st1, (if dict_has name (originals st') then Ok st'
                  else x ← read_bytes synced p;
                       Ok (Prepared (dict_set name x (originals st')) (dict_set name x (edited st'))
                             (dict_set name p (paths st')) (dict_set name [] (changes st')))) = Ok st1
            ∧ dict_get name (originals st1) = Some raw ∧ dict_get name (edited st1) = Some raw
            ∧ is_Some (dict_get name (changes st1))
            ∧ (∀ n, n ≠ name → dict_get n (originals st1) = dict_get n (originals st')
                    ∧ dict_get n (edited st1) = dict_get n (edited st'))) as (st1 & E1 & Ho1 & He1 & Hc1 & Hother).
  { specialize (Hset name) as Hn. destruct Hok as [_ Hi]. specialize (Hi name). unfold input_ok in Hi.
    unfold dict_has. destruct (dict_get name (originals st')) as [a|] eqn:Eo.
    - destruct (dict_get name (edited st')) as [b|] eqn:Ee; [|done]. destruct Hn as [<- Hb]. rewrite Hraw in Hb.
      injection Hb as <-. exists st'. rewrite bool_decide_true by by eexists. split_and!; try done.
      destruct (dict_get name (paths st')), (dict_get name (changes st')); done.
    - rewrite bool_decide_false by by intros [? ?]. rewrite Hread. eexists. split; [done|]. cbn [originals edited changes].
      rewrite !dict_get_set_eq. split_and!; try done. intros n Hne. by rewrite !dict_get_set_ne. }
  destruct Hc1 as [made Hmade].
  assert (∃ format, item (&"format") d = Ok format) as [format Hformat].
  { unfold edit in Hedit. apply bind_ok in Hedit as (format & Hf & _). by exists format. }
  eexists. assert (prepare_one synced plan d st' =
    Ok (Prepared (originals st1) (dict_set name raw (edited st1)) (paths st1)
          (dict_set name (made ++ [change d format value old]) (changes st1)))) as Hone.
  { unfold prepare_one. rewrite Hname. cbn [mbind outcome_bind]. rewrite Hl. cbn [mbind outcome_bind str_value]. cbv zeta.
    rewrite E1. cbn [mbind outcome_bind]. rewrite Hvalue. cbn [mbind outcome_bind].
    rewrite (proj2 (of_name_ok _ _ _) He1). cbn [mbind outcome_bind]. rewrite Hedit. cbn [mbind outcome_bind].
    rewrite Hformat. cbn [mbind outcome_bind]. by rewrite (proj2 (of_name_ok _ _ _) Hmade). }
  split; [exact Hone|]. destruct (prepare_one_ok _ _ _ _ _ Hone Hok) as (Hok' & _). split; [done|].
  intros n. cbn [originals edited]. rewrite dict_get_set. destruct (decide (n = name)) as [->|Hne]; [by rewrite Ho1|].
  destruct (Hother n Hne) as [-> ->]. apply Hset.
Qed.

Lemma settled_all plan files st' :
  (∀ d, d ∈ files → ∃ name, item (&"path") d = Ok (VStr name) ∧ is_Some (dict_get name (edited st))) →
  for_each (still_holds plan st) files = Ok tt → settled st' →
  ∃ st'', prepare synced plan files st' = Ok st'' ∧ settled st''.
Proof.
  revert st'. induction files as [|d files IH]; intros st' Hnames Hholds Hset; [by exists st'|].
  cbn [for_each] in Hholds. apply bind_ok in Hholds as ([] & Hd & Hholds).
  destruct (Hnames d (list_elem_of_here _ _)) as (name & Hname & Hsome).
  destruct (settled_one _ _ _ _ Hname Hsome Hd Hset) as (st1 & H1 & Hset1).
  destruct (IH st1) as (st2 & H2 & Hset2); [intros d' Hd'; apply Hnames; by apply list_elem_of_further|done..|].
  exists st2. split; [|done]. cbn [prepare]. by rewrite H1.
Qed.

(** Its checks hold as they did. *)
Lemma settled_holds plan st' d name :
  item (&"path") d = Ok (VStr name) → is_Some (dict_get name (edited st')) → still_holds plan st d = Ok tt →
  settled st' → still_holds plan st' d = Ok tt.
Proof.
  intros Hname [raw Hraw] Hholds [_ Hset]. specialize (Hset name). rewrite Hraw in Hset.
  destruct (dict_get name (originals st')); [|done]. destruct Hset as [_ Hst'].
  unfold still_holds in *. rewrite Hname in Hholds |- *. cbn [mbind outcome_bind str_value] in *.
  rewrite (proj2 (of_name_ok _ _ _) Hst') in Hholds. by rewrite (proj2 (of_name_ok _ _ _) Hraw).
Qed.

Lemma settled_drift st' : settled st' → drift st' = [].
Proof.
  intros [_ Hset]. destruct (drift st') as [|name l] eqn:E; [done|]. exfalso.
  assert (name ∈ drift st') as [Hc _]%list_elem_of_filter by (rewrite E; apply list_elem_of_here).
  unfold is_changed in Hc. rewrite negb_true_iff, bool_decide_eq_false in Hc. specialize (Hset name). apply Hc.
  destruct (dict_get name (originals st')), (dict_get name (edited st')); try done. by destruct Hset as [-> _].
Qed.

Lemma evidence_total s' st' : prepared_ok s' st' → ∃ evidence, collect (evidence_of sha256_hex st') (input_names st') = Ok evidence.
Proof.
  intros [_ Hi]. apply collect_total, Forall_forall. intros name Hn. unfold input_names in Hn. rewrite sorted_perm in Hn.
  apply dict_keys_get in Hn as [a Ha]. specialize (Hi name). unfold input_ok in Hi. rewrite Ha in Hi.
  destruct (dict_get name (edited st')) as [b|] eqn:Eb; [|done]. destruct (dict_get name (paths st')); [|done].
  destruct (dict_get name (changes st')) as [c|] eqn:Ec; [|done]. unfold evidence_of.
  rewrite (proj2 (of_name_ok _ _ _) Ha), (proj2 (of_name_ok _ _ _) Eb), (proj2 (of_name_ok _ _ _) Ec). by eexists.
Qed.

Lemma settled_start : settled nothing_prepared.
Proof. split; [apply nothing_ok|done]. Qed.
End theorems.

(** C38: after a successful synchronisation every declared input holds its edited
    text and every declaration still projects to the text that is there (no selector
    overwrote another).  A check of the same plan then succeeds, and writes nothing,
    exactly when no edited text has grown beyond the size limit of an input
    ([MAX_METADATA], 2,000,000 bytes), which the synchronisation itself does not
    compare with the edited texts. *)
Theorem sync_then_check `{EditLibrary} float_repr sha256_hex temporary io policy plan s s' st evidence
    (Hfresh : ∀ s dir, s !! (dir ++ [temporary s dir]) = None) (Hreplace : ∀ p, io (Replace p) = Ok tt)
    (Hprepared : prepare_all float_repr sha256_hex s policy plan = Ok (st, evidence)) :
  sync_versions float_repr sha256_hex temporary io policy plan false s = (s', Ok evidence) →
  (∀ name raw, dict_get name (edited st) = Some raw → read_bytes s' (split (chr "/") name) = Ok raw)
  ∧ (∃ p files, validate_plan float_repr sha256_hex plan (Some policy) None = Ok p ∧ version_files policy = Ok files
       ∧ for_each (still_holds p st) files = Ok tt)
  ∧ ((∀ name raw, dict_get name (edited st) = Some raw → Z.of_nat (length raw) <= MAX_METADATA) ↔
     ∃ evidence', sync_versions float_repr sha256_hex temporary io policy plan true s' = (s', Ok evidence')).
Proof.
  intros Hrun. pose proof (prepare_all_prepared _ _ _ _ _ _ _ Hprepared) as Hok.
  destruct (prepare_all_ok _ _ _ _ _ _ _ Hprepared) as (p & files & Hv & Hf & Hp & Hh).
  assert (s' = synced s st) as ->.
  { unfold sync_versions, mbind, M_bind, get, lift, mret, M_ret in Hrun. rewrite Hprepared in Hrun.
    destruct (apply_version_edits _ _ _ _) as [s1 r1] eqn:Ea.
    destruct (apply_ok temporary io st s Hok Hfresh Hreplace s1 r1 (drift_NoDup _ _ Hok) Ea) as (l & _ & -> & Hall).
    destruct r1 as [[]|e]; [|done]. injection Hrun as <-. by rewrite (Hall eq_refl). }
  destruct (prepare_ok _ _ _ _ _ Hp (nothing_ok s)) as (_ & _ & Hnames).
  assert (∀ name raw, dict_get name (edited st) = Some raw →
    ∃ f, synced s st !! split (chr "/") name = Some (Regular f) ∧ content f = raw) as Hheld.
  { intros name raw Hr. destruct (synced_input s st Hok _ _ Hr) as (q & f & Hl & Hq & Hc).
    destruct (locate_ok _ _ _ Hl) as (n & _ & [= <-] & -> & _). by exists f. }
  split; [intros name raw (f & Hq & <-)%Hheld; unfold read_bytes; by rewrite Hq|]. split; [by exists p, files|]. split.
  - intros Hsize.
    destruct (settled_all s st Hok Hsize p files nothing_prepared Hnames Hh (settled_start s st)) as (st' & Hp' & Hset).
    destruct (evidence_total sha256_hex (synced s st) st' (proj1 Hset)) as [evidence' He].
    destruct (prepare_ok _ _ _ _ _ Hp' (nothing_ok _)) as (_ & _ & Hnames').
    assert (for_each (still_holds p st') files = Ok tt) as Hh'.
    { rewrite for_each_ok in Hh |- *. intros d Hd. destruct (Hnames' d Hd) as (name & Hn & Hs). by eapply settled_holds; eauto. }
    exists evidence'. unfold sync_versions, prepare_all, mbind, M_bind, get, lift, mret, M_ret.
    rewrite Hv, Hf. cbn [mbind outcome_bind]. rewrite Hp'. cbn [mbind outcome_bind]. rewrite Hh'. cbn [mbind outcome_bind].
    rewrite He. cbn. by rewrite (settled_drift _ _ _ Hset).
  - intros (evidence' & Hcheck) name raw Hr.
    destruct (prepare_names _ _ _ _ _ name Hp ltac:(by eexists)) as [[? ?]|(d & Hd & Hi)]; [done|].
    assert (∃ st', prepare (synced s st) p files nothing_prepared = Ok st') as [st' Hp'].
    { unfold sync_versions, mbind, M_bind, get, lift in Hcheck.
      destruct (prepare_all float_repr sha256_hex (synced s st) policy plan) as [[st' e']|] eqn:E; [|done].
      apply prepare_all_ok in E as (p' & files' & Hv' & Hf' & Hp' & _). rewrite Hv in Hv'. injection Hv' as <-.
      rewrite Hf in Hf'. injection Hf' as <-. by exists st'. }
    destruct (prepare_located _ _ _ _ _ _ Hp' Hd) as (v & q & Hv' & Hl). rewrite Hi in Hv'. injection Hv' as <-.
    destruct (locate_ok _ _ _ Hl) as (n & f & [= <-] & -> & _ & _ & Hq & _ & Hz). destruct (Hheld _ _ Hr) as (f' & Hf' & <-).
    rewrite Hf' in Hq. by injection Hq as <-.
Qed.

(** ** A concrete synchronisation

    The premises of the theorems above hold of a checkout with a JSON
    manifest and a counter file. *)

(** A name no file of the checkout has as its last part. *)
Definition new_name (s : checkout) (dir : path) : pystr :=
  fresh ((λ kv : path * node, List.last kv.1 []) <$> map_to_list s).

Lemma new_name_fresh s dir : s !! (dir ++ [new_name s dir]) = None.
Proof.
  destruct (s !! (dir ++ [new_name s dir])) as [n|] eqn:E; [|done]. exfalso.
  apply elem_of_map_to_list in E. eapply (infinite_is_fresh ((λ kv : path * node, List.last kv.1 []) <$> map_to_list s)).
  apply list_elem_of_fmap. eexists. split; [|exact E]. cbn. by rewrite List.last_last.
Qed.

Definition no_failure (op : file_operation) : outcome unit := Ok tt.

Definition demo_checkout (version build : pystr) : checkout :=
  {[ [&"package.json"] := Regular (File (byte_of <$> (&"{ " ++ quote (&"version") ++ &": " ++ quote version ++ &" }")) 420 1);
     [&"build.txt"] := Regular (File (byte_of <$> build) 420 1);
     [&"src"] := Directory ]}.

Definition before_sync : checkout := demo_checkout (&"1.2.2") (&"6").
Definition demo_sync (only_check : bool) (s : checkout) : checkout * outcome (list pyval) :=
  sync_versions (H:=demo_library) demo_float demo_sha new_name no_failure demo_policy (VDict demo_plan) only_check s.

Example demo_sync_result :
  bool_decide ((demo_sync false before_sync).1 = demo_checkout (&"1.2.3") (&"7"))
  && is_ok (demo_sync false before_sync).2
  && bool_decide (demo_sync true before_sync
                  = (before_sync, Raise (version_error "Version inputs do not match release plan: "))) = true.
Proof. vm_compute. reflexivity. Qed.

Definition demo_prepared : outcome (prepared * list pyval) :=
  prepare_all (H:=demo_library) demo_float demo_sha before_sync demo_policy (VDict demo_plan).

Lemma demo_prepared_ok : ∃ st evidence, demo_prepared = Ok (st, evidence)
  ∧ (demo_sync false before_sync).2 = Ok evidence
  ∧ forallb (λ kv : pystr * bytes, Z.of_nat (length kv.2) <=? MAX_METADATA) (edited st) = true
  ∧ drift st = [&"build.txt"; &"package.json"] ∧ [&"src"] ∉ dict_values (paths st).
Proof.
  assert (match demo_prepared, (demo_sync false before_sync).2 with
          | Ok (st, evidence), Ok evidence' =>
            bool_decide (evidence = evidence') &&
            forallb (λ kv : pystr * bytes, Z.of_nat (length kv.2) <=? MAX_METADATA) (edited st)
            && bool_decide (drift st = [&"build.txt"; &"package.json"])
            && negb (bool_decide ([&"src"] ∈ dict_values (paths st)))
          | _, _ => false end = true) as H by (vm_compute; reflexivity).
  destruct demo_prepared as [[st evidence]|]; [|done]. destruct (demo_sync false before_sync).2 as [evidence'|]; [|done].
  rewrite !andb_true_iff in H. destruct H as [[[->%bool_decide_eq_true H] Hd%bool_decide_eq_true] Hn].
  exists st, evidence'. split_and!; try done. by apply negb_true_iff, bool_decide_eq_false in Hn.
Qed.

(** When [os.replace] fails, the temporary file was already taken out of [staged]
    and stays in the checkout. *)
Definition replace_fails (op : file_operation) : outcome unit :=
  match op with Replace _ => Raise (Exn EOS "PermissionError") | _ => Ok tt end.

Example failed_replace_leaves_temporary :
  let '(s', r) := sync_versions (H:=demo_library) demo_float demo_sha new_name replace_fails demo_policy (VDict demo_plan)
                    false before_sync in
  r = Raise (Exn EOS "PermissionError") ∧ (size before_sync < size s')%nat.
Proof. vm_compute. split; [done|lia]. Qed.

Lemma sync_commits_prefix_witness :
  ∃ finished, (demo_sync false before_sync).1 !! [&"src"] = Some Directory
    ∧ finished `prefix_of` [&"build.txt"; &"package.json"].
Proof.
  destruct (demo_sync false before_sync) as [s' r] eqn:E.
  pose proof (sync_commits_prefix (H:=demo_library) demo_float demo_sha new_name no_failure demo_policy (VDict demo_plan)
    false before_sync s' r new_name_fresh (λ _, eq_refl) E) as Hs.
  destruct demo_prepared_ok as (st & evidence & Ep & _ & _ & Hd & Hn). unfold demo_prepared in Ep.
  rewrite Ep, Hd in Hs. destruct Hs as (finished & Hpre & _ & Hframe & _).
  exists finished. split; [|done]. cbn [fst]. rewrite Hframe by done. by vm_compute.
Defined.

Lemma sync_then_check_witness :
  ∃ evidence', demo_sync true (demo_sync false before_sync).1 = ((demo_sync false before_sync).1, Ok evidence').
Proof.
  destruct demo_prepared_ok as (st & evidence & Hp & Hr & Hz & _).
  destruct (sync_then_check (H:=demo_library) demo_float demo_sha new_name no_failure demo_policy (VDict demo_plan)
    before_sync (demo_sync false before_sync).1 st evidence new_name_fresh (λ _, eq_refl) Hp) as (_ & _ & [Hcheck _]).
  - rewrite <-Hr. symmetry. apply surjective_pairing.
  - apply Hcheck. intros name raw Hraw%dict_get_elem. rewrite forallb_forall in Hz. apply Z.leb_le.
    apply (Hz (name, raw)). by apply list_elem_of_In.
Defined.
