(* ===== verification/OciMetadata.v ===== *)
(** * The metadata graph of a container archive ([_OciMetadata] of [scripts/version_plan.py])

    The verification of every image an OCI archive holds: descriptors are checked
    against the digests of the blobs they name, down from the root index, and each
    image's version against the plan.  An archive is the sequence of its members
    with what reading one answers. *)

From Stdlib Require Import QArith.QArith.
From S2P Require Import Prelude PyStr PyDict PyRegex PyVal PyJson VersionPlan Release JsonDocument.
#[local] Open Scope Z_scope.

(** A member of a tar archive; [entry_read] is what
    [extractfile(entry).read(MAX_METADATA + 1)] answers. *)
Record entry : Type := Entry {
  entry_name : pystr; isdir : bool; isfile : bool; entry_size : Z; entry_read : outcome bytes }.

(** [_archive_name] *)
Fixpoint strip_dots (s : pystr) : pystr :=
  match s with
  | a :: b :: s' => if bool_decide (a = chr "." ∧ b = chr "/") then strip_dots s' else s
  | _ => s
  end.
Definition archive_name (name : pystr) : option pystr :=
  match relative (VStr (strip_dots name)) with Ok s => Some s | Raise _ => None end.

(** The members by name, directories left out. *)
Fixpoint archive_members (entries : list entry) (count : Z) (members : pydict pystr entry) : outcome (pydict pystr entry) :=
  match entries with
  | [] => Ok members
  | e :: entries =>
    _ ← require (count <? 100000) "OCI archive has too many members";
    if isdir e then archive_members entries (count + 1) members
    else
      match archive_name (entry_name e) with
      | Some name =>
        _ ← require (negb (dict_has name members)) "Unsafe or duplicate OCI archive member";
        archive_members entries (count + 1) (dict_set name e members)
      | None => Raise (version_error "Unsafe or duplicate OCI archive member")
      end
  end.

Definition index_types : list pystr :=
  [&"application/vnd.oci.image.index.v1+json"; &"application/vnd.docker.distribution.manifest.list.v2+json"].
Definition oci_manifest_type : pystr := &"application/vnd.oci.image.manifest.v1+json".
Definition manifest_types : list pystr :=
  [oci_manifest_type; &"application/vnd.docker.distribution.manifest.v2+json"].
Definition config_types : list pystr :=
  [&"application/vnd.oci.image.config.v1+json"; &"application/vnd.docker.container.image.v1+json"].
Definition attestation_type : pystr := &"application/vnd.docker.attestation.manifest.v1+json".
Definition empty_config_type : pystr := &"application/vnd.oci.empty.v1+json".

Definition sha256_ref : regex := (chars (&"sha256:") ⋅ SHA256)%re.

(** [descriptor_key]: media type, digest and size. *)
Notation key := (pyval * pyval * pyval)%type.
Definition descriptor_key (d : pyobject) : key :=
  (get_default (&"mediaType") VNone d, get_default (&"digest") VNone d, get_default (&"size") VNone d).

(** The state of one verification. *)
Record oci : Type := Oci {
  images : list pyval; verified : list pystr;
  runnable_manifests : pydict key (pystr * pystr);
  attestation_subjects : list (key * pyval); legacy_references : list pystr;
  visited : Z; metadata_bytes : Z }.

Definition oci_start : oci := Oci [] [] [] [] [] 0 0.

Definition set_visited (n : Z) (s : oci) : oci :=
  Oci (images s) (verified s) (runnable_manifests s) (attestation_subjects s) (legacy_references s) n (metadata_bytes s).
Definition set_metadata_bytes (n : Z) (s : oci) : oci :=
  Oci (images s) (verified s) (runnable_manifests s) (attestation_subjects s) (legacy_references s) (visited s) n.
Definition add_verified (d : pystr) (s : oci) : oci :=
  Oci (images s) (verified s ++ (if bool_decide (d ∈ verified s) then [] else [d])) (runnable_manifests s)
      (attestation_subjects s) (legacy_references s) (visited s) (metadata_bytes s).
Definition add_subject (x : key * pyval) (s : oci) : oci :=
  Oci (images s) (verified s) (runnable_manifests s) (attestation_subjects s ++ [x]) (legacy_references s) (visited s)
      (metadata_bytes s).
Definition add_reference (x : pystr) (s : oci) : oci :=
  Oci (images s) (verified s) (runnable_manifests s) (attestation_subjects s) (legacy_references s ++ [x]) (visited s)
      (metadata_bytes s).
Definition add_image (k : key) (platform : pystr * pystr) (image : pyval) (s : oci) : oci :=
  Oci (images s ++ [image]) (verified s) (dict_set k platform (runnable_manifests s)) (attestation_subjects s)
      (legacy_references s) (visited s) (metadata_bytes s).

(** [v or {}], and an object. *)
Definition or_empty (v : pyval) (message : string) : outcome pyobject :=
  match (if truthy v then v else VDict []) with
  | VDict d => Ok d
  | _ => Raise (version_error message)
  end.

(** [v in {None, name}] *)
Definition absent_or (v : pyval) (name : pystr) : outcome bool :=
  match v with VNone => Ok true | _ => py_in v [name] end.

Definition as_object (v : pyval) (message : string) : outcome pyobject :=
  match v with VDict d => Ok d | _ => Raise (version_error message) end.
Definition bounded_list (v : pyval) (least most : Z) (message : string) : outcome (list pyval) :=
  _ ← require (is_list v && (least <=? Z.of_nat (length (list_value v))) && (Z.of_nat (length (list_value v)) <=? most)) message;
  Ok (list_value v).

Definition get_key (name : string) (d : pyobject) : pyval := get_default (lit name) VNone d.
Definition text_is (v : pyval) (s : pystr) : bool := py_eq v (VStr s).

Section verification.
Context (float_repr : Q → pystr) (sha256_hex : bytes → pystr) (py_text : pyval → pystr).
Context (members : pydict pystr entry) (version_field : list pystr) (expected : pystr).

(** [str(v)]: the text of a float, list or object is the runtime's. *)
Definition value_text (v : pyval) : pystr :=
  match v with
  | VStr s => s
  | VInt n => str_of_int n
  | VBool b => if b then &"True" else &"False"
  | VNone => &"None"
  | _ => py_text v
  end.

Notation V := (M oci).

(** ** Blobs *)

(** [read] *)
Definition read (name : pystr) : V bytes :=
  match dict_get name members with
  | Some e =>
    _ ← lift (require (isfile e && (0 <? entry_size e) && (entry_size e <=? MAX_METADATA)) "Missing or oversized OCI metadata");
    raw ← lift (entry_read e);
    _ ← lift (require (Z.of_nat (length raw) =? entry_size e) "Truncated OCI metadata");
    s ← get;
    let total := metadata_bytes s + Z.of_nat (length raw) in
    _ ← modify (set_metadata_bytes total);
    _ ← lift (require (total <=? 32000000) "OCI metadata exceeds aggregate limit");
    mret raw
  | None => raise (version_error "Missing or oversized OCI metadata")
  end.

(** The member a descriptor names: its digest is well formed and its size the
    descriptor's. *)
Definition blob_member (d : pyobject) : outcome pystr :=
  let identity := get_default (&"digest") (VStr []) d in
  _ ← require (str_match sha256_ref identity) "OCI descriptor requires a sha256 digest";
  let size := get_key "size" d in
  _ ← require (type_is_int size && (0 <=? int_value size)) "Invalid OCI descriptor size";
  let name := &"blobs/sha256/" ++ drop 7 (str_value identity) in
  match dict_get name members with
  | Some e =>
    _ ← require (isfile e && (entry_size e =? int_value size)) "OCI descriptor blob is missing or has a different size";
    Ok name
  | None => Raise (version_error "OCI descriptor blob is missing or has a different size")
  end.

(** [blob(descriptor, metadata=False)] *)
Definition blob_present (descriptor : pyval) : outcome unit :=
  d ← as_object descriptor "OCI descriptor must be an object";
  _ ← blob_member d; Ok tt.

(** [blob] *)
Definition blob (descriptor : pyval) : V pyobject :=
  d ← lift (as_object descriptor "OCI descriptor must be an object");
  name ← lift (blob_member d);
  raw ← read name;
  let identity := str_value (get_key "digest" d) in
  _ ← lift (require (bool_decide (sha256_hex raw = drop 7 identity)) "OCI metadata digest mismatch");
  _ ← modify (add_verified identity);
  '(_, data, _) ← lift (json_document raw);
  lift (as_object data "OCI metadata must be an object").

(** ** Attestations *)

Definition empty_config_digest : pystr := &"sha256:" ++ sha256_hex (byte_of <$> &"{}").

(** The fixed empty configuration of an attestation artifact. *)
Definition empty_config (v : pyval) : bool :=
  match v with
  | VDict c =>
    text_is (get_key "mediaType" c) empty_config_type && text_is (get_key "digest" c) empty_config_digest
    && py_eq (get_key "size" c) (VInt 2)
    && (negb (dict_has (&"data") c) || text_is (get_key "data" c) (&"e30="))
  | _ => false
  end.

(** [artifact_attestation] *)
Definition artifact_attestation (descriptor data : pyobject) (config reference_digest : pyval) : V unit :=
  artifact ← lift (o_and (Ok (text_is (get_key "artifactType" data) attestation_type
                              && text_is (get_key "mediaType" descriptor) oci_manifest_type))
                     (absent_or (get_key "artifactType" descriptor) attestation_type));
  _ ← lift (require artifact "Invalid OCI attestation artifact type");
  _ ← lift (require (empty_config config) "Invalid OCI attestation config");
  contents ← blob config;
  _ ← lift (require (bool_decide (contents = [])) "Invalid OCI attestation config contents");
  let subject := get_key "subject" data in
  d ← lift (as_object subject "Invalid OCI attestation subject");
  _ ← lift (require (text_is (get_key "mediaType" d) oci_manifest_type && negb (dict_has (&"artifactType") d))
              "Invalid OCI attestation subject");
  _ ← lift (blob_present subject);
  let platform := get_key "platform" d in
  _ ← lift (require (bool_decide (platform = VNone) || is_dict platform) "Invalid OCI attestation subject platform");
  _ ← lift (require (bool_decide (reference_digest = VNone) || py_eq reference_digest (get_key "digest" d))
              "OCI attestation reference differs from subject");
  modify (add_subject (descriptor_key d, platform)).

(** [legacy_attestation] *)
Definition legacy_attestation (descriptor : pyobject) (config reference_digest : pyval) : V unit :=
  let d := match config with VDict d => d | _ => [] end in
  legacy ← lift (o_and (Ok (bool_decide (get_key "artifactType" descriptor = VNone) && is_dict config))
                   (py_in (get_key "mediaType" d) config_types));
  _ ← lift (require legacy "Invalid OCI attestation config");
  details ← blob config;
  _ ← lift (require (text_is (get_key "os" details) (&"unknown") && text_is (get_key "architecture" details) (&"unknown"))
              "OCI attestation contains a runnable image");
  match reference_digest with
  | VNone => mret tt
  | v => modify (add_reference (str_value v))
  end.

Definition attestation_layer (layer : pyval) : outcome unit :=
  _ ← require (match layer with VDict d => text_is (get_key "mediaType" d) (&"application/vnd.in-toto+json") | _ => false end)
        "Unsupported OCI attestation layer";
  blob_present layer.

(** [attestation] *)
Definition attestation (descriptor data platform annotations : pyobject) : V unit :=
  let reference_type := get_key "vnd.docker.reference.type" annotations in
  known ← lift (o_and (py_in (get_key "mediaType" descriptor) manifest_types)
                  (o_and (Ok (text_is (get_key "os" platform) (&"unknown")
                              && text_is (get_key "architecture" platform) (&"unknown")))
                     (absent_or reference_type (&"attestation-manifest"))));
  _ ← lift (require known "Ambiguous OCI attestation descriptor");
  let config := get_key "config" data in
  let reference_digest := get_key "vnd.docker.reference.digest" annotations in
  _ ← lift (require (bool_decide (reference_digest = VNone) || str_match sha256_ref reference_digest)
              "Invalid OCI attestation reference digest");
  _ ← (if bool_decide (get_key "artifactType" data = VNone)
       then legacy_attestation descriptor config reference_digest
       else artifact_attestation descriptor data config reference_digest);
  layers ← lift (bounded_list (get_key "layers" data) 1 4096 "Invalid OCI attestation layers");
  lift (for_each attestation_layer layers).

(** ** Images *)

(** A platform field of the configuration, not contradicted by the descriptor. *)
Definition platform_field (details platform : pyobject) (name : string) : outcome pystr :=
  let v := get_key name details in
  _ ← require (is_str v && negb (bool_decide (str_value v ∈ [[]; &"unknown"]))) "OCI runnable image has no platform identity";
  _ ← require (match dict_get (lit name) platform with Some p => py_eq p v | None => true end)
        "OCI platform descriptor differs from config";
  Ok (str_value v).

(** [runnable] *)
Definition runnable (descriptor data platform : pyobject) : V unit :=
  known ← lift (py_in (get_key "mediaType" descriptor) manifest_types);
  _ ← lift (require known "Unsupported OCI descriptor media type");
  let config := get_key "config" data in
  let c := match config with VDict c => c | _ => [] end in
  supported ← lift (o_and (Ok (is_dict config)) (py_in (get_key "mediaType" c) config_types));
  _ ← lift (require supported "OCI image requires a supported config descriptor");
  details ← blob config;
  os ← lift (platform_field details platform "os");
  architecture ← lift (platform_field details platform "architecture");
  actual ← lift (get_path (VDict details) (KName <$> version_field));
  _ ← lift (require (bool_decide (value_text actual = expected)) "OCI image version mismatch");
  layers ← lift (bounded_list (get_key "layers" data) 0 4096 "Invalid OCI layer inventory");
  _ ← lift (for_each blob_present layers);
  modify (add_image (descriptor_key descriptor) (os, architecture)
            (VDict [(&"config_sha256", VStr (drop 7 (str_value (get_key "digest" c)))); (&"os", VStr os);
                    (&"architecture", VStr architecture); (&"version", VStr (value_text actual))])).

(** ** The graph *)

(** One descriptor; [children] walks those an index lists. *)
Definition walk_node (children : pyval → V unit) (depth : Z) (descriptor : pyval) : V unit :=
  s ← get;
  _ ← modify (set_visited (visited s + 1));
  _ ← lift (require ((depth <=? 8) && (visited s + 1 <=? 1024)) "OCI metadata graph exceeds limits");
  data ← blob descriptor;
  let d := match descriptor with VDict d => d | _ => [] end in
  let media := get_key "mediaType" d in
  _ ← lift (require (py_eq (get_key "schemaVersion" data) (VInt 2)
                     && py_eq (get_default (&"mediaType") media data) media)
              "OCI manifest schema or media type mismatch");
  platform ← lift (or_empty (get_key "platform" d) "Invalid OCI platform descriptor");
  annotations ← lift (or_empty (get_key "annotations" d) "Invalid OCI annotations");
  if text_is (get_key "vnd.docker.reference.type" annotations) (&"attestation-manifest")
     || text_is (get_key "artifactType" data) attestation_type
  then attestation d data platform annotations
  else
    is_index ← lift (py_in media index_types);
    if is_index : bool then
      manifests ← lift (bounded_list (get_key "manifests" data) 1 1024 "OCI index requires a bounded manifest list");
      for_each_M children manifests
    else runnable d data platform.

(** [walk]: at depth nine it fails at once, so ten levels are enough. *)
Fixpoint walk (n : nat) (depth : Z) (descriptor : pyval) : V unit :=
  match n with
  | O => raise (Exn EOther "fuel")
  | S n => walk_node (walk n (depth + 1)) depth descriptor
  end.

(** ** The archive *)

Definition subject_matches (runnables : pydict key (pystr * pystr)) (x : key * pyval) : outcome unit :=
  match dict_get x.1 runnables with
  | None => Raise (version_error "OCI attestation subject is not a runnable image")
  | Some (os, architecture) =>
    match x.2 with
    | VDict p =>
      let agrees name text := match dict_get (lit name) p with Some v => text_is v text | None => true end in
      require (agrees "os" os && agrees "architecture" architecture)
        "OCI attestation subject platform differs from image"
    | _ => Ok tt
    end
  end.

(** [verify]: the bytes that identify what was verified, and the images. *)
Definition verify : V (bytes * list pyval) :=
  raw ← read (&"oci-layout");
  '(_, layout, _) ← lift (json_document raw);
  _ ← lift (require (match layout with VDict d => text_is (get_key "imageLayoutVersion" d) (&"1.0.0") | _ => false end)
              "Unsupported OCI image layout");
  root_raw ← read (&"index.json");
  '(_, index, _) ← lift (json_document root_raw);
  let d := match index with VDict d => d | _ => [] end in
  is_index ← lift (o_and (Ok (is_dict index && py_eq (get_key "schemaVersion" d) (VInt 2)))
                     (py_in (get_default (&"mediaType") (VStr (&"application/vnd.oci.image.index.v1+json")) d) index_types));
  _ ← lift (require is_index "Invalid OCI root index");
  manifests ← lift (bounded_list (get_key "manifests" d) 1 1024 "OCI root index requires a bounded manifest list");
  _ ← for_each_M (walk 10 0) manifests;
  s ← get;
  _ ← lift (for_each (subject_matches (runnable_manifests s)) (attestation_subjects s));
  let digests := (λ k : key, k.1.2) <$> dict_keys (runnable_manifests s) in
  _ ← lift (require (forallb (λ r, bool_decide (VStr r ∈ digests)) (legacy_references s))
              "OCI attestation reference is not a runnable image");
  _ ← lift (require (negb (bool_decide (images s = []))) "OCI archive has no runnable images");
  raw ← lift (json_bytes float_repr
                (VDict [(&"index_sha256", VStr (sha256_hex root_raw));
                        (&"metadata", VList (VStr <$> sorted str_leb (verified s)))]));
  mret (raw, images s).
End verification.

(** [_oci_metadata] *)
Definition oci_metadata (float_repr : Q → pystr) (sha256_hex : bytes → pystr) (py_text : pyval → pystr)
    (entries : list entry) (version_field : list pystr) (expected : pystr) : outcome (bytes * list pyval) :=
  members ← archive_members entries 0 [];
  snd (verify float_repr sha256_hex py_text members version_field expected oci_start).

(** [_oci_artifact] *)
Definition oci_artifact (float_repr : Q → pystr) (sha256_hex : bytes → pystr) (py_text : pyval → pystr)
    (entries : list entry) (d : pyobject) (expected : pystr) : outcome (bytes * pyobject) :=
  _ ← require (in_dict (&"field") d && negb (in_dict (&"package") d))
        "OCI artifact requires an exact config field and no package selector";
  f ← item (&"field") d;
  names ← field f;
  '(raw, images) ← oci_metadata float_repr sha256_hex py_text entries names expected;
  Ok (raw, [(&"field", f); (&"version", VStr expected); (&"images", VList images)]).
