(* ===== verification/OciFacts.v ===== *)
(** * What a verified container archive guarantees

    A descriptor [resolves] to the data of the blob its digest names.  The graph of
    an archive is what its root index reaches through indexes; a verification that
    succeeds has looked at all of it. *)

From Stdlib Require Import QArith.QArith.
From S2P Require Import Prelude PyStr PyDict PyRegex PyVal PyJson VersionPlan Release JsonDocument OciMetadata.
#[local] Open Scope Z_scope.

Lemma lift_state {S A} (m : outcome A) (s s' : S) a : lift m s = (s', Ok a) → s' = s ∧ m = Ok a.
Proof. unfold lift. intros [= <- ->]. done. Qed.

Lemma ret_state {S A} (a b : A) (s s' : S) : (mret a : M S A) s = (s', Ok b) → s' = s ∧ a = b.
Proof. by intros [= -> ->]. Qed.

Lemma modify_state {S} (f : S → S) s s' u : modify f s = (s', Ok u) → s' = f s.
Proof. by intros [= ->]. Qed.

Lemma get_state {S} (s s' a : S) : get s = (s', Ok a) → s' = s ∧ a = s.
Proof. by intros [= -> ->]. Qed.

Lemma bind_state {S A B} (m : M S A) (f : A → M S B) s s' b :
  (m ≫= f) s = (s', Ok b) → ∃ s1 a, m s = (s1, Ok a) ∧ f a s1 = (s', Ok b).
Proof. unfold mbind, M_bind. destruct (m s) as [s1 [a|e]]; [eauto|done]. Qed.

Lemma for_each_M_state {S A} (f : A → M S unit) (P : S → A → Prop) (R : S → S → Prop) l s s' :
  (∀ s, R s s) → (∀ s1 s2 s3, R s1 s2 → R s2 s3 → R s1 s3) → (∀ s1 s2 x, R s1 s2 → P s1 x → P s2 x) →
  (∀ x s s', x ∈ l → f x s = (s', Ok tt) → R s s' ∧ P s' x) →
  for_each_M f l s = (s', Ok tt) → R s s' ∧ ∀ x, x ∈ l → P s' x.
Proof.
  intros Hrefl Htrans Hmono. revert s. induction l as [|x l IH]; intros s Hf Hrun; cbn [for_each_M] in Hrun.
  { injection Hrun as <-. split; [done|]. intros y Hy. by apply elem_of_nil in Hy. }
  apply bind_state in Hrun as (s1 & [] & H1 & Hrun). destruct (Hf x s s1 (list_elem_of_here _ _) H1) as [HR HP].
  destruct (IH s1) as [HR' HP']; [intros y t t' Hy; apply Hf; by apply list_elem_of_further|done|].
  split; [by eapply Htrans|]. intros y [->|Hy]%elem_of_cons; eauto.
Qed.

(** Take a successful run apart. *)
Ltac run_steps :=
  repeat match goal with
  | H : lift _ _ = (_, Ok _) |- _ => apply lift_state in H as [? H]; subst
  | H : mbind _ _ _ = (_, Ok _) |- _ => apply bind_state in H as (? & ? & ? & H)
  | H : modify _ _ = (_, Ok _) |- _ => apply modify_state in H; subst
  | H : mret _ _ = (_, Ok _) |- _ => apply ret_state in H as [? ?]; subst
  | H : get _ = (_, Ok _) |- _ => apply get_state in H as [? ?]; subst
  | H : require _ _ = Ok _ |- _ => apply check_ok in H
  | x : () |- _ => destruct x
  | x : _ * _ |- _ => destruct x; cbv beta iota in *
  end.

Section graph.
Context (float_repr : Q → pystr) (sha256_hex : bytes → pystr) (py_text : pyval → pystr).
Context (members : pydict pystr entry) (version_field : list pystr) (expected : pystr).

Notation blob := (blob sha256_hex members).
Notation value_text := (value_text py_text).

(** The blob a descriptor names has its digest, and is a JSON object. *)
Definition resolves (descriptor : pyval) (data : pyobject) : Prop :=
  ∃ d name e raw text spans, descriptor = VDict d ∧ blob_member members d = Ok name ∧ dict_get name members = Some e
    ∧ entry_read e = Ok raw ∧ sha256_hex raw = drop 7 (str_value (get_key "digest" d))
    ∧ json_document raw = Ok (text, VDict data, spans).

Lemma resolves_unique descriptor data data' : resolves descriptor data → resolves descriptor data' → data = data'.
Proof. intros (d & ? & ? & ? & ? & ? & ? & ?) (d' & ? & ? & ? & ? & ? & ? & ?). naive_solver congruence. Qed.

(** Whether a descriptor is an attestation, as [walk] decides. *)
Definition is_attestation (descriptor : pyval) (data : pyobject) : bool :=
  let annotations := match descriptor with VDict d => get_key "annotations" d | _ => VNone end in
  let a := match annotations with VDict a => a | _ => [] end in
  text_is (get_key "vnd.docker.reference.type" a) (&"attestation-manifest")
  || text_is (get_key "artifactType" data) attestation_type.

Definition media_in (descriptor : pyval) (types : list pystr) : Prop :=
  match descriptor with VDict d => py_in (get_key "mediaType" d) types = Ok true | _ => False end.

(** The entry of an image whose configuration blob has the expected version. *)
Definition image_of (data : pyobject) (image : pyval) : Prop :=
  ∃ c details actual os architecture,
    get_key "config" data = VDict c ∧ resolves (VDict c) details
    ∧ get_path (VDict details) (KName <$> version_field) = Ok actual ∧ value_text actual = expected
    ∧ get_key "os" details = VStr os ∧ get_key "architecture" details = VStr architecture
    ∧ (∀ l, get_key "layers" data = VList l → ∀ layer, layer ∈ l → blob_present members layer = Ok tt)
    ∧ image = VDict [(&"config_sha256", VStr (drop 7 (str_value (get_key "digest" c)))); (&"os", VStr os);
                     (&"architecture", VStr architecture); (&"version", VStr expected)].

(** ** The steps of a verification *)

Lemma read_state name s s' raw :
  read members name s = (s', Ok raw) →
  images s' = images s ∧ ∃ e, dict_get name members = Some e ∧ entry_read e = Ok raw.
Proof.
  unfold read. destruct (dict_get name members) as [e|]; [|done]. intros Hrun.
  apply bind_state in Hrun as (s1 & [] & H1 & Hrun). apply lift_state in H1 as [-> _].
  apply bind_state in Hrun as (s2 & raw' & H2 & Hrun). apply lift_state in H2 as [-> Hread].
  apply bind_state in Hrun as (s3 & [] & H3 & Hrun). apply lift_state in H3 as [-> _].
  apply bind_state in Hrun as (s4 & x & [= <- <-] & Hrun). apply bind_state in Hrun as (s5 & [] & [= <-] & Hrun).
  apply bind_state in Hrun as (s6 & [] & H6 & Hrun). apply lift_state in H6 as [-> _].
  injection Hrun as <- <-. split; [done|]. by exists e.
Qed.

Lemma blob_state descriptor s s' data :
  blob descriptor s = (s', Ok data) → images s' = images s ∧ resolves descriptor data.
Proof.
  unfold OciMetadata.blob. intros Hrun.
  apply bind_state in Hrun as (s1 & d & H1 & Hrun). apply lift_state in H1 as [-> Hd].
  apply bind_state in Hrun as (s2 & name & H2 & Hrun). apply lift_state in H2 as [-> Hname].
  apply bind_state in Hrun as (s3 & raw & H3 & Hrun). apply read_state in H3 as (Himg & e & He & Hread).
  apply bind_state in Hrun as (s4 & [] & H4 & Hrun). apply lift_state in H4 as [-> Hsha%check_ok%bool_decide_eq_true].
  apply bind_state in Hrun as (s5 & [] & [= <-] & Hrun).
  apply bind_state in Hrun as (s6 & [[text v] spans] & H6 & Hrun). apply lift_state in H6 as [-> Hjson].
  apply lift_state in Hrun as [-> Hdata]. split; [by rewrite <-Himg|].
  destruct descriptor; try done. apply (inj Ok) in Hd as ->. destruct v; try done. apply (inj Ok) in Hdata as ->.
  by exists d, name, e, raw, text, spans.
Qed.

Lemma attestation_state descriptor data platform annotations s s' :
  attestation sha256_hex members descriptor data platform annotations s = (s', Ok tt) → images s' = images s.
Proof.
  unfold attestation. intros Hrun. run_steps.
  match goal with H : (if _ then _ else _) _ = _ |- _ => rename H into Hkind end.
  case_bool_decide; [unfold legacy_attestation in Hkind|unfold artifact_attestation in Hkind]; run_steps.
  - match goal with H : OciMetadata.blob _ _ _ _ = _ |- _ => apply blob_state in H as [<- _] end.
    destruct (get_key "vnd.docker.reference.digest" annotations); cbv iota in Hkind; run_steps; done.
  - match goal with H : OciMetadata.blob _ _ _ _ = _ |- _ => apply blob_state in H as [<- _] end. done.
Qed.

Lemma platform_field_ok details platform name os :
  platform_field details platform name = Ok os → get_key name details = VStr os.
Proof.
  unfold platform_field. intros H. apply bind_ok in H as ([] & Hs%check_ok & H). apply bind_ok in H as ([] & _ & H).
  apply (inj Ok) in H as <-. apply andb_true_iff in Hs as [Hs _]. by destruct (get_key name details).
Qed.

Lemma bounded_list_ok v least most message l : bounded_list v least most message = Ok l → v = VList l.
Proof.
  unfold bounded_list. intros H. apply bind_ok in H as ([] & Hb%check_ok & H). apply (inj Ok) in H as <-.
  rewrite !andb_true_iff in Hb. destruct Hb as [[Hl _] _]. by destruct v.
Qed.

Lemma runnable_state descriptor data platform s s' :
  runnable sha256_hex py_text members version_field expected descriptor data platform s = (s', Ok tt) →
  py_in (get_key "mediaType" descriptor) manifest_types = Ok true
  ∧ ∃ image, images s' = images s ++ [image] ∧ image_of data image.
Proof.
  unfold runnable. cbv zeta. intros Hrun. run_steps.
  match goal with H : OciMetadata.blob _ _ _ _ = _ |- _ => apply blob_state in H as [Himg Hres] end.
  match goal with H : platform_field _ _ "os" = _ |- _ => apply platform_field_ok in H as Hos end.
  match goal with H : platform_field _ _ "architecture" = _ |- _ => apply platform_field_ok in H as Harch end.
  match goal with H : bounded_list _ _ _ _ = _ |- _ => apply bounded_list_ok in H as Hlayers end.
  match goal with H : for_each _ _ = _ |- _ => rename H into Hpresent end.
  match goal with H : get_path _ _ = _ |- _ => rename H into Hpath end.
  match goal with H : bool_decide _ = true |- _ => apply bool_decide_eq_true in H as Hversion end.
  split; [congruence|]. rewrite <-Himg. cbn [images add_image]. eexists. split; [reflexivity|].
  destruct (get_key "config" data) eqn:Ec; try (by destruct Hres as (? & ? & ? & ? & ? & ? & [=] & _)).
  rewrite Hversion. eexists _, _, _, _, _. split_and!; try done.
  intros l Hl layer Hin. rewrite Hlayers in Hl. injection Hl as <-. rewrite for_each_ok in Hpresent. by apply Hpresent.
Qed.

(** ** The graph *)

Lemma or_empty_ok v message a : or_empty v message = Ok a → a = match v with VDict a => a | _ => [] end.
Proof.
  unfold or_empty. destruct (truthy v) eqn:E; intros Ha.
  - destruct v; congruence.
  - apply (inj Ok) in Ha as <-. destruct v as [| | | | | | |[|]]; cbn in E; congruence.
Qed.

(** What a successful walk has established of a descriptor, given the images found. *)
Inductive good (found : list pyval) : pyval → Prop :=
  | good_attestation d data : resolves d data → is_attestation d data = true → good found d
  | good_index d data l : resolves d data → is_attestation d data = false → media_in d index_types →
      get_key "manifests" data = VList l → (∀ c, c ∈ l → good found c) → good found d
  | good_image d data image : resolves d data → media_in d manifest_types → image_of data image → image ∈ found →
      good found d.

Lemma good_mono found found' d : found ⊆ found' → good found d → good found' d.
Proof.
  intros Hf. induction 1 as [| |]; [by eapply good_attestation|eapply good_index; eauto|eapply good_image; eauto].
Qed.

Definition grows (s s' : oci) : Prop := images s ⊆ images s' ∧ ∀ image, image ∈ images s' →
  image ∈ images s ∨ ∃ data, image_of data image.

Lemma grows_refl s : grows s s.
Proof. split; [done|auto]. Qed.

Lemma grows_trans s1 s2 s3 : grows s1 s2 → grows s2 s3 → grows s1 s3.
Proof. intros [H1 H1'] [H2 H2']. split; [set_solver|]. intros i Hi. destruct (H2' i Hi) as [Hi'|Hi']; auto. Qed.

Lemma grows_same s s' : images s' = images s → grows s s'.
Proof. intros E. unfold grows. rewrite E. split; [done|auto]. Qed.

Lemma walk_state n depth d s s' :
  walk sha256_hex py_text members version_field expected n depth d s = (s', Ok tt) → grows s s' ∧ good (images s') d.
Proof.
  revert depth d s s'. induction n as [|n IH]; intros depth d s s' Hrun; [done|]. cbn [walk] in Hrun. unfold walk_node in Hrun. run_steps.
  match goal with H : OciMetadata.blob _ _ _ _ = _ |- _ => apply blob_state in H as [Himg Hres] end.
  cbn [images set_visited] in Himg. apply grows_same in Himg.
  assert (∃ o, d = VDict o) as [o ->] by (destruct Hres as (o & ? & ? & ? & ? & ? & ? & _); by exists o).
  match goal with H : or_empty (get_key "annotations" _) _ = Ok ?x |- _ => apply or_empty_ok in H as Ha end.
  match goal with H : context [text_is (get_key "artifactType" ?x) attestation_type] |- _ => rename x into data end.
  match type of Hrun with (if ?b then _ else _) _ = _ =>
    assert (is_attestation (VDict o) data = b) as Eb by (unfold is_attestation; by rewrite Ha); destruct b end.
  { apply attestation_state in Hrun as Hi. apply grows_same in Hi. split; [by eapply grows_trans|].
    by eapply good_attestation. }
  run_steps.
  match goal with H : py_in _ index_types = Ok ?b |- _ => destruct b end; run_steps.
  - match goal with H : bounded_list _ _ _ _ = Ok ?l |- _ => apply bounded_list_ok in H as Hl end.
    apply (for_each_M_state _ (λ s c, good (images s) c) grows) in Hrun as [Hg Hc]; [|apply grows_refl|apply grows_trans| |].
    + split; [by eapply grows_trans|]. by eapply good_index.
    + intros s1 s2 c [Hs _]. by apply good_mono.
    + intros c s1 s2 _. apply IH.
  - apply runnable_state in Hrun as (Hm & image & Hi & Hof). split.
    + eapply grows_trans; [done|]. unfold grows. rewrite Hi. split; [set_solver|].
      intros i [Hin|Hin%list_elem_of_singleton]%elem_of_app; [by left|right; subst; by eexists].
    + eapply good_image; [done..|]. rewrite Hi. set_solver.
Qed.

(** What the root index reaches. *)
Inductive in_graph (root : list pyval) : pyval → Prop :=
  | in_root d : d ∈ root → in_graph root d
  | in_index d data l c : in_graph root d → resolves d data → is_attestation d data = false → media_in d index_types →
      get_key "manifests" data = VList l → c ∈ l → in_graph root c.

Lemma media_exclusive d : media_in d index_types → ¬ media_in d manifest_types.
Proof.
  destruct d; try done. cbn. intros (s & Hs & H1)%py_in_true (s' & Hs' & H2)%py_in_true. rewrite Hs in Hs'.
  injection Hs' as <-. revert H1 H2. unfold index_types, manifest_types, oci_manifest_type.
  rewrite !elem_of_cons. intros [->|[->|H1]] [H2|[H2|H2]]; try (by apply elem_of_nil in H1); try (by apply elem_of_nil in H2);
    by vm_compute in H2.
Qed.

Lemma good_graph found root d : (∀ c, c ∈ root → good found c) → in_graph root d → good found d.
Proof.
  intros Hroot. induction 1 as [|d data l c _ IH Hres Hatt Hmedia Hl Hc]; [auto|].
  inversion IH as [d' data' Hres' Hatt'|d' data' l' Hres' _ _ Hl' Hall|d' data' image Hres' Hmedia']; subst;
    pose proof (resolves_unique _ _ _ Hres Hres') as <-; [congruence| |by apply media_exclusive in Hmedia].
  apply Hall. congruence.
Qed.
End graph.

(** C39: a verified container holds images of the expected version only.  When the
    verification of an archive succeeds, every descriptor the root index reaches
    through indexes names a blob of the archive with its digest that is a document;
    unless it is an index or an attestation, it is an image whose configuration blob
    has the expected version and whose layers are all there, and it is among the
    images reported; at least one image is, and every image reported is such a one. *)
Theorem verified_images_have_version float_repr sha256_hex py_text entries version_field expected out found :
  oci_metadata float_repr sha256_hex py_text entries version_field expected = Ok (out, found) →
  found ≠ [] ∧
  ∃ members e raw text index root spans,
    archive_members entries 0 [] = Ok members ∧ dict_get (&"index.json") members = Some e ∧ entry_read e = Ok raw
    ∧ json_document raw = Ok (text, VDict index, spans) ∧ get_key "manifests" index = VList root
    ∧ (∀ d, in_graph sha256_hex members root d → ∃ data, resolves sha256_hex members d data ∧
         (is_attestation d data = true ∨ media_in d index_types
          ∨ ∃ image, image_of sha256_hex py_text members version_field expected data image ∧ image ∈ found))
    ∧ ∀ image, image ∈ found → ∃ data, image_of sha256_hex py_text members version_field expected data image.
Proof.
  unfold oci_metadata. intros H. apply bind_ok in H as (members & Hm & H).
  destruct (verify _ _ _ _ _ _ _) as [s' r] eqn:Hrun. cbn [snd] in H. subst r. unfold verify in Hrun. run_steps.
  match goal with H : (_, images ?s) = (out, found) |- _ => injection H as <- <-; rename s into final end.
  match goal with H : read _ (&"oci-layout") _ = _ |- _ => apply read_state in H as [Hlayout _] end.
  match goal with H : read _ (&"index.json") _ = _ |- _ => apply read_state in H as (Hindex & e & He & Hread) end.
  match goal with H : negb (bool_decide (images final = [])) = true |- _ => apply negb_true_iff, bool_decide_eq_false in H as Hne end.
  match goal with H : o_and (Ok (is_dict ?v && _)) _ = Ok ?b |- _ =>
    assert (∃ index, v = VDict index) as [index ->] by (destruct v; cbn in H; try congruence; by eexists) end.
  match goal with H : bounded_list _ _ _ _ = Ok ?l |- _ => apply bounded_list_ok in H as Hl; rename l into root end.
  match goal with H : for_each_M _ root _ = _ |- _ => rename H into Hwalk end.
  split; [done|]. do 6 eexists. eexists. do 5 (split; [done|]).
  apply (for_each_M_state _ (λ s c, good sha256_hex py_text members version_field expected (images s) c)
           (grows sha256_hex py_text members version_field expected)) in Hwalk as [[_ Hfrom] Hgood];
    [|apply grows_refl|apply grows_trans|intros s1 s2 c [Hs _]; by apply good_mono|intros c s1 s2 _; apply walk_state].
  split.
  - intros d Hd. pose proof (good_graph _ _ _ _ _ _ _ _ Hgood Hd) as Hg.
    inversion Hg as [? dt|? dt|? dt im]; subst; exists dt; (split; [done|]);
      [by left|by right; left|right; right; by exists im].
  - intros image Hi. destruct (Hfrom image Hi) as [Hi'|?]; [|done]. rewrite Hindex, Hlayout in Hi'. by apply elem_of_nil in Hi'.
Qed.

(** ** Bounds *)

Section bounds.
Context (sha256_hex : bytes → pystr) (py_text : pyval → pystr).
Context (members : pydict pystr entry) (version_field : list pystr) (expected : pystr).

(** The counters after a run: at the limits when it succeeded, at most one
    descriptor and one file above them when it was stopped there. *)
Definition counters_ok (s : oci) : Prop := visited s <= 1024 ∧ metadata_bytes s <= 32000000.
Definition within_bounds {A} (m : M oci A) : Prop :=
  ∀ s, counters_ok s → match m s with
                       | (s', Ok _) => counters_ok s'
                       | (s', Raise _) => visited s' <= 1025 ∧ metadata_bytes s' <= 34000000
                       end.

Lemma bounded_bind {A B} (m : M oci A) (f : A → M oci B) : within_bounds m → (∀ a, within_bounds (f a)) → within_bounds (m ≫= f).
Proof.
  intros Hm Hf s Hs. specialize (Hm s Hs). unfold mbind, M_bind. destruct (m s) as [s' [a|e]]; [|done]. by apply Hf.
Qed.

Lemma bounded_lift {A} (m : outcome A) : within_bounds (lift m).
Proof. intros s [? ?]. unfold lift. destruct m; [done|lia]. Qed.

Lemma bounded_ret {A} (a : A) : within_bounds (mret a).
Proof. by intros s. Qed.

Lemma bounded_modify f : (∀ s, visited (f s) = visited s ∧ metadata_bytes (f s) = metadata_bytes s) → within_bounds (modify f).
Proof. intros Hf s [? ?]. unfold modify, counters_ok. destruct (Hf s) as [-> ->]. done. Qed.

Lemma bounded_for_each {A} (f : A → M oci unit) l : (∀ x, within_bounds (f x)) → within_bounds (for_each_M f l).
Proof. intros Hf. induction l as [|x l IH]; cbn; [apply bounded_ret|by apply bounded_bind]. Qed.

Lemma bounded_read name : within_bounds (read members name).
Proof.
  intros s [Hv Hb]. unfold read. destruct (dict_get name members) as [e|]; [|cbn; lia].
  unfold mbind, M_bind, lift, get, modify. unfold require, check.
  destruct (_ && _) eqn:E; [|lia]. destruct (entry_read e) as [raw|]; [|lia].
  destruct (Z.of_nat (length raw) =? entry_size e) eqn:El; [|lia].
  rewrite !andb_true_iff in E. unfold MAX_METADATA in E.
  destruct (_ <=? 32000000) eqn:Ez; cbn; [split; cbn; lia|split; cbn; lia].
Qed.

Ltac bounded_step :=
  first
    [ apply bounded_lift | apply bounded_ret | apply bounded_read
    | apply bounded_modify; done
    | apply bounded_bind; [|intros ?] | apply bounded_for_each; intros ?
    | case_match ].
Ltac bounded_steps := repeat bounded_step.

Lemma bounded_blob d : within_bounds (blob sha256_hex members d).
Proof. unfold blob. bounded_steps. Qed.

Lemma bounded_attestation d data platform annotations : within_bounds (attestation sha256_hex members d data platform annotations).
Proof.
  unfold attestation, legacy_attestation, artifact_attestation. cbv zeta.
  repeat first [apply bounded_blob | progress bounded_steps].
Qed.

Lemma bounded_runnable d data platform :
  within_bounds (runnable sha256_hex py_text members version_field expected d data platform).
Proof. unfold runnable. cbv zeta. repeat first [apply bounded_blob | progress bounded_steps]. Qed.

Lemma bounded_node children depth d :
  (∀ c, within_bounds (children c)) →
  within_bounds (walk_node sha256_hex py_text members version_field expected children depth d).
Proof.
  intros Hc s [Hv Hb]. unfold walk_node at 1.
  unfold mbind at 1, M_bind at 1, get, modify at 1. unfold mbind at 1, M_bind at 1. unfold mbind at 1, M_bind at 1, lift at 1.
  unfold require at 1, check at 1. destruct (_ && _) eqn:E; [|cbn; lia].
  match goal with |- context [?m (set_visited ?n s)] => assert (within_bounds m) as Hm; [|apply (Hm (set_visited n s))] end.
  - repeat first [apply bounded_blob | apply bounded_attestation | apply bounded_runnable | progress bounded_steps
                 | apply Hc].
  - split; cbn; lia.
Qed.

Lemma bounded_walk n depth d : within_bounds (walk sha256_hex py_text members version_field expected n depth d).
Proof.
  revert depth d. induction n as [|n IH]; intros depth d; [intros s [? ?]; cbn; lia|].
  apply bounded_node. intros c. apply IH.
Qed.

Lemma for_each_M_ext {S A} (f g : A → M S unit) l s : (∀ x s, f x s = g x s) → for_each_M f l s = for_each_M g l s.
Proof.
  intros Hfg. revert s. induction l as [|x l IH]; intros s; [done|]. cbn. unfold mbind, M_bind. rewrite Hfg.
  by destruct (g x s) as [s' [[]|e]].
Qed.

Lemma node_ext f g depth d s :
  (depth <= 8 → ∀ c s, f c s = g c s) →
  walk_node sha256_hex py_text members version_field expected f depth d s
  = walk_node sha256_hex py_text members version_field expected g depth d s.
Proof.
  intros Hfg. unfold walk_node, mbind, M_bind, get, modify, lift. unfold require at 1 3, check.
  destruct (depth <=? 8) eqn:E; [|done]. apply Z.leb_le in E. specialize (Hfg E).
  repeat (case_match; try done). by apply for_each_M_ext.
Qed.

(** Ten levels are enough: a deeper one is never entered. *)
Lemma walk_fuel n depth d s :
  10 - depth <= Z.of_nat n → (0 < n)%nat →
  walk sha256_hex py_text members version_field expected n depth d s
  = walk sha256_hex py_text members version_field expected (S n) depth d s.
Proof.
  revert depth d s. induction n as [|n IH]; intros depth d s Hn Hpos; [lia|].
  apply node_ext. intros Hd c s'. apply IH; lia.
Qed.

Lemma bounded_verify float_repr :
  within_bounds (verify float_repr sha256_hex py_text members version_field expected).
Proof.
  unfold verify. repeat first [apply bounded_walk | bounded_step].
Qed.
End bounds.

(** the verification of an archive is within_bounds, whatever the archive says.  The
    ten levels of the model are enough for every graph, cyclic ones included; a
    verification that succeeds has visited at most 1024 descriptors and read at most
    32 MB of metadata, and one that fails was stopped by the next descriptor or file. *)
Theorem oci_verification_is_bounded float_repr sha256_hex py_text members version_field expected :
  (∀ k d s, walk sha256_hex py_text members version_field expected (10 + k) 0 d s
            = walk sha256_hex py_text members version_field expected 10 0 d s)
  ∧ match verify float_repr sha256_hex py_text members version_field expected oci_start with
    | (s, Ok _) => visited s <= 1024 ∧ metadata_bytes s <= 32000000
    | (s, Raise _) => visited s <= 1025 ∧ metadata_bytes s <= 34000000
    end.
Proof.
  split.
  - intros k d s. induction k as [|k IH]; [by rewrite Nat.add_0_r|].
    rewrite <-IH, <-plus_n_Sm. symmetry. apply walk_fuel; lia.
  - apply (bounded_verify sha256_hex py_text members version_field expected float_repr oci_start). split; cbn; lia.
Qed.

(** ** An archive with one image *)

(** Different lengths give the digests of the demonstration. *)
Definition demo_digest (b : bytes) : pystr := take 64 (str_of_int (Z.of_nat (length b)) ++ replicate 64 (chr "0")).
Definition demo_no_float (q : Q) : pystr := &"0.5".
Definition demo_text (v : pyval) : pystr := [].
Definition demo_blob (v : pyval) : bytes := match json_bytes demo_no_float v with Ok b => b | Raise _ => [] end.

Definition demo_member (name : pystr) (b : bytes) : entry := Entry name false true (Z.of_nat (length b)) (Ok b).
Definition demo_descriptor (media : pystr) (b : bytes) : pyval :=
  VDict [(&"mediaType", VStr media); (&"digest", VStr (&"sha256:" ++ demo_digest b)); (&"size", VInt (Z.of_nat (length b)))].
Definition demo_blob_member (b : bytes) : entry := demo_member (&"./blobs/sha256/" ++ demo_digest b) b.

Definition demo_config (version : pystr) : bytes :=
  demo_blob (VDict [(&"os", VStr (&"linux")); (&"architecture", VStr (&"arm64")); (&"version", VStr version)]).
Definition demo_manifest (version : pystr) : bytes :=
  demo_blob (VDict [(&"schemaVersion", VInt 2); (&"layers", VList []);
                    (&"config", demo_descriptor (&"application/vnd.oci.image.config.v1+json") (demo_config version))]).
Definition demo_archive (version : pystr) : list entry :=
  [demo_member (&"oci-layout") (demo_blob (VDict [(&"imageLayoutVersion", VStr (&"1.0.0"))]));
   demo_member (&"index.json")
     (demo_blob (VDict [(&"schemaVersion", VInt 2);
                        (&"manifests", VList [demo_descriptor oci_manifest_type (demo_manifest version)])]));
   demo_blob_member (demo_manifest version); demo_blob_member (demo_config version)].

Definition demo_verify (version : pystr) : outcome (bytes * list pyval) :=
  oci_metadata demo_no_float demo_digest demo_text (demo_archive version) [&"version"] (&"1.2.3").

Example demo_versions :
  is_ok (demo_verify (&"1.2.3")) = true ∧ demo_verify (&"1.2.4") = Raise (version_error "OCI image version mismatch").
Proof. vm_compute. done. Qed.

Lemma verified_images_have_version_witness :
  ∃ out found, demo_verify (&"1.2.3") = Ok (out, found) ∧ found ≠ [].
Proof.
  destruct (demo_verify (&"1.2.3")) as [[out found]|e] eqn:E.
  - exists out, found. split; [done|].
    by destruct (verified_images_have_version demo_no_float demo_digest demo_text (demo_archive (&"1.2.3"))
                   [&"version"] (&"1.2.3") out found E).
  - assert (is_ok (demo_verify (&"1.2.3")) = true) as H by (vm_compute; reflexivity). by rewrite E in H.
Defined.
