(* ===== verification/Transport.v ===== *)
(** * The transport of the release client ([GitHub.request] of [scripts/release_control.py])

    One call of [gh] per attempt: the fixed command line of a request, the answer's
    HTTP heads and pages, and the retries of reads.  Starting a process and waiting
    between attempts are the class [Shell]; everything the client decides about
    their results is modelled. *)

From Stdlib Require Import QArith.QArith Strings.Byte.
From S2P Require Import Prelude PyStr PyDict PyRegex PyVal Passwords PyJson VersionPlan Release JsonDocument.
#[local] Open Scope Z_scope.
#[local] Open Scope regex_scope.

(** ** Processes *)

Record completed : Type := Completed { returncode : Z; stdout : bytes; stderr : bytes }.

(** [subprocess.run]: the process ended, or [TimeoutExpired] with what it had
    written. *)
Inductive process : Type := Finished (result : completed) | TimedOut (stdout stderr : bytes).

(** [run_process command input timeout]; [pause n] is
    [time.sleep(random.uniform(1, n))]. *)
Class Shell (P : Type) : Type := {
  run_process : list pystr → option bytes → option Q → M P process;
  pause : Z → M P unit;
}.

Definition github_error (not_found : bool) (text : string) : exn := Exn (EGitHub (if not_found then Some 404 else None)) text.

(** ** Bytes as text *)

Definition latin (b : bytes) : pystr := Byte.to_N <$> b.

(** [re.search(r, s)] as a test; [tail] says what must follow the match. *)
Definition anything : regex := Star (Char (λ _, true)).
Definition search (r tail : regex) (s : pystr) : bool := fullmatch (anything ⋅ r ⋅ tail) s.

Definition word_choice (l : list pystr) : regex := foldr (λ w r, chars w ⊹ r) Empty l.
Definition byte_space (c : N) : bool := one_of " " c || in_range 9 13 c.

(** [(?:f|$)] at the end of a pattern, for a class [f] that has the line feed. *)
Definition then_end (f : N → bool) : regex := Char f ⋅ anything ⊹ Eps.

(** [\r?\n] at the front. *)
Definition newline (s : pystr) : option pystr :=
  match s with
  | c :: r =>
    if (c =? 10)%N then Some r
    else match r with d :: r => if (c =? 13)%N && (d =? 10)%N then Some r else None | [] => None end
  | [] => None
  end.

(** The first match of [\r?\n\r?\n]: the text before and after it. *)
Fixpoint blank_line (s : pystr) : option (pystr * pystr) :=
  match newline s ≫= newline with
  | Some r => Some ([], r)
  | None => match s with [] => None | c :: s => '(h, r) ← blank_line s; Some (c :: h, r) end
  end.

(** [bytes.splitlines], with the current line reversed. *)
Fixpoint http_lines (line s : pystr) : list pystr :=
  match s with
  | [] => match line with [] => [] | _ => [rev line] end
  | c :: s =>
    if (c =? 10)%N then rev line :: http_lines [] s
    else if (c =? 13)%N then
      rev line :: match s with d :: s' => if (d =? 10)%N then http_lines [] s' else http_lines [] s | [] => [] end
    else http_lines (c :: line) s
  end.

(** ** HTTP heads *)

Definition header_char (c : N) : bool := negb ((c =? 10) || (c =? 13))%N.
Definition http_version : regex := chars (&"HTTP/") ⋅ (chars (&"1.") ⋅ Char (one_of "01") ⊹ chars (&"2") ⋅ opt (chars (&".0"))).
Definition status_line : regex :=
  http_version ⋅ chars (&" ") ⋅ Char (in_range 49 53) ⋅ Char is_digit ⋅ Char is_digit
  ⋅ opt (chars (&" ") ⋅ Star (Char header_char)).
Definition header_name (c : N) : bool := ascii_alnum c || one_of "!#$%&'*+.^_`|~-" c.
Definition header_line : regex := plus (Char header_name) ⋅ chars (&":") ⋅ Star (Char header_char).

(** [_github_http_head]: the status, and the text after the head. *)
Definition http_head (data : pystr) : outcome (Z * pystr) :=
  match blank_line data with
  | None => Raise (github_error false "GitHub response headers are missing or truncated")
  | Some (head, body) =>
    match http_lines [] head with
    | line :: lines =>
      if fullmatch status_line line && forallb (fullmatch header_line) lines
      then Ok (int_of_digits (take 3 (partition (chr " ") line).2), body)
      else Raise (github_error false "GitHub response headers are invalid")
    | [] => Raise (github_error false "GitHub response headers are invalid")
    end
  end.

(** ** UTF-8 with surrogate escapes *)

(** The well-formed sequence at the front, with its length. *)
Definition utf8_at (b : bytes) : option (N * nat) :=
  let low x := (Byte.to_N x - 128)%N in
  match b with
  | [] => None
  | b0 :: r0 =>
    let n0 := Byte.to_N b0 in
    if (n0 <? 128)%N then Some (n0, 1%nat)
    else
      match r0 with
      | [] => None
      | b1 :: r1 =>
        if (194 <=? n0)%N && (n0 <? 224)%N && cont b1 then Some (((n0 - 192) * 64 + low b1)%N, 2%nat)
        else
          match r1 with
          | [] => None
          | b2 :: r2 =>
            if (224 <=? n0)%N && (n0 <? 240)%N && second_of_3 b0 b1 && cont b2
            then Some (((n0 - 224) * 4096 + low b1 * 64 + low b2)%N, 3%nat)
            else
              match r2 with
              | b3 :: _ =>
                if (240 <=? n0)%N && (n0 <? 245)%N && second_of_4 b0 b1 && cont b2 && cont b3
                then Some (((n0 - 240) * 262144 + low b1 * 4096 + low b2 * 64 + low b3)%N, 4%nat)
                else None
              | [] => None
              end
          end
      end
  end.

(** [b.decode("utf-8", "surrogateescape")]; [skip] bytes belong to the last
    character. *)
Fixpoint decode_escape (skip : nat) (b : bytes) : pystr :=
  match b with
  | [] => []
  | x :: b' =>
    match skip with
    | S skip => decode_escape skip b'
    | O =>
      match utf8_at b with
      | Some (c, n) => c :: decode_escape (pred n) b'
      | None => (56320 + Byte.to_N x)%N :: decode_escape 0 b'
      end
    end
  end.

(** [s.encode("utf-8", "surrogateescape")] *)
Fixpoint encode_escape (s : pystr) : outcome bytes :=
  match s with
  | [] => Ok []
  | c :: s =>
    head ← (if in_range 56448 56575 c then Ok [byte_of (c - 56320)]
            else match utf8_char c with Some b => Ok b | None => Raise unicode_encode_error end);
    rest ← encode_escape s;
    Ok (head ++ rest)
  end.

(** ** Answers *)

Definition success (status : Z) : bool := (200 <=? status) && (status <? 300).

(** The value at the front of the text, and the text after it. *)
Definition page_at (text : pystr) : outcome (pyval * pystr) :=
  catch ('(_, rest) ← json_value keep_last (2 * length text + 2) text;
         raw ← encode_escape (take (length text - length rest) text);
         page ← parse_json raw;
         Ok (page, rest))
    (λ c, is_value_error c || is_release_error c)
    (λ _, Raise (github_error false "GitHub response page is invalid or truncated")).

Section pages.
Context (float_repr : Q → pystr).

(** The loop over the pages of an answer, from the text after a head. *)
Fixpoint page_loop (n : nat) (status : Z) (text : pystr) (pages : list pyval) : outcome (Z * bytes) :=
  if negb (success status) then Ok (status, [])
  else
    match n with
    | O => Raise out_of_fuel
    | S n =>
      '(page, rest) ← page_at (skip_space text);
      let pages := pages ++ [page] in
      let rest := skip_space rest in
      match rest with
      | [] => b ← json_bytes_indented float_repr (VList pages); Ok (status, b)
      | _ =>
        match blank_line rest with
        | None => Raise (github_error false "GitHub response headers are missing or truncated")
        | Some (_, text) =>
          header ← encode_escape (take (length rest - length text) rest);
          '(status, _) ← http_head (latin header);
          page_loop n status text pages
        end
      end
    end.

(** [github_http_response] *)
Definition github_http_response (out : bytes) (paginated : bool) : outcome (Z * bytes) :=
  '(status, body) ← http_head (latin out);
  let body := drop (length out - length body) out in
  if negb paginated then Ok (status, body)
  else let text := decode_escape 0 body in page_loop (S (length text)) status text [].
End pages.

(** [GitHub.response] of an answer that was decoded *)
Definition response (result : completed) (http : Z * bytes) : outcome bytes :=
  let '(status, body) := http in
  if negb (Bool.eqb (returncode result =? 0) (success status))
  then Raise (github_error false "GitHub HTTP status and CLI result disagree")
  else if returncode result =? 0 then Ok body
  else Raise (github_error (status =? 404) "").

(** ** Which failed reads may be tried again *)

Definition lower_text (b : bytes) : pystr := ascii_lower_char <$> latin b.

Definition denial_words : list pystr :=
  [&"authentication"; &"authenticate"; &"authorization"; &"unauthorised"; &"unauthorized"; &"credentials"; &"forbidden";
   &"permission denied"; &"access denied"; &"rate limit"; &"not found"; &"x509"; &"certificate"].
Definition denial_status : regex := word_choice [&"401"; &"403"; &"404"; &"429"].
Definition not_digit (c : N) : bool := negb (is_digit c).

(** [_denied_read_diagnostic] *)
Definition denied_read_diagnostic (err : bytes) (include_status : bool) : bool :=
  let text := lower_text err in
  search (word_choice denial_words) anything text
  || (include_status && search (chars (&"http") ⋅ Star (Char (one_of " /:")) ⋅ denial_status) (then_end not_digit) text).

Definition transport_words : list pystr :=
  [&"connection reset by peer"; &"i/o timeout"; &"tls handshake timeout"; &"context deadline exceeded";
   &"client.timeout exceeded"; &"server closed idle connection"; &"use of closed network connection"].
Definition byte_word (c : N) : bool := ascii_alnum c || (c =? chr "_")%N.

(** [_transient_read_failure]; the [eof] must begin a word. *)
Definition transient_read_failure (result : completed) : bool :=
  let text := lower_text (stderr result) in
  (returncode result =? 1) && negb (denied_read_diagnostic (stderr result) true)
  && (fullmatch ((anything ⋅ Char (λ c, negb (byte_word c)) ⊹ Eps) ⋅ opt (chars (&"unexpected ")) ⋅ chars (&"eof") ⋅ then_end byte_space) text
      || search (word_choice transport_words) anything text).

(** [_denied_partial_read] *)
Definition denied_partial_read (out err : bytes) (paginated : bool) : bool :=
  let text := latin out in
  let text :=
    if paginated then text
    else match blank_line text with
         | Some (_, rest) => let header := take (length text - length rest) text in if is_ok (http_head header) then header else text
         | None => text
         end in
  denied_read_diagnostic err true
  || fullmatch ((anything ⋅ chars [10%N] ⊹ Eps) ⋅ http_version ⋅ chars (&" ") ⋅ denial_status ⋅ then_end byte_space) text.

(** [_completed_read]: [None] when another attempt is allowed. *)
Definition completed_read (float_repr : Q → pystr) (result : completed) (paginated final_attempt : bool) : outcome (option bytes) :=
  let transport := transient_read_failure result in
  match github_http_response float_repr (stdout result) paginated with
  | Raise e =>
    match exn_kind e with
    | EGitHub _ =>
      if negb transport || denied_partial_read (stdout result) (stderr result) paginated || final_attempt then Raise e else Ok None
    | _ => Raise e
    end
  | Ok http =>
    let transient := (returncode result =? 1)
      && (bool_decide (http.1 ∈ [500; 502; 503; 504]) && negb (denied_read_diagnostic (stderr result) false)
          || (success http.1 && transport)) in
    if transient && negb final_attempt then Ok None
    else b ← response result http; Ok (Some b)
  end.

(** ** The routes *)

Definition REPO_RE : regex :=
  let part := Char ascii_alnum ⋅ Star (Char (λ c, ascii_alnum c || one_of "_.-" c)) in part ⋅ chars (&"/") ⋅ part.

Definition TAG_RE : regex :=
  chars (&"v") ⋅ BASE
  ⋅ opt (chars (&"-") ⋅ (chars (&"beta") ⊹ chars (&"rc")) ⋅ dot ⋅ positive_numeral
         ⊹ chars (&"-nightly.") ⋅ NIGHTLY).

(** [(?:[A-Za-z0-9_.~-]|%[0-9A-F]{2})+] *)
Definition upper_hex (c : N) : bool := is_digit c || in_range 65 70 c.
Definition quoted_name : regex :=
  plus (Char unreserved ⊹ chars (&"%") ⋅ Char upper_hex ⋅ Char upper_hex).

Definition GET_PATHS : list regex :=
  [word_choice [[]; &"tags"; &"releases"; &"environments/release"];
   chars (&"releases/") ⋅ (positive_numeral ⋅ opt (chars (&"/assets")) ⊹ chars (&"assets/") ⋅ positive_numeral);
   chars (&"releases/tags/") ⋅ TAG_RE;
   chars (&"git/ref/tags/") ⋅ TAG_RE;
   chars (&"actions/runs/") ⋅ positive_numeral ⋅ opt (chars (&"/artifacts") ⊹ chars (&"/attempts/") ⋅ positive_numeral ⋅ chars (&"/jobs"));
   chars (&"actions/runs/") ⋅ positive_numeral ⋅ chars (&"/attempts/") ⋅ positive_numeral;
   chars (&"actions/artifacts/") ⋅ positive_numeral ⋅ chars (&"/zip");
   chars (&"contents/.release-policy.json?ref=") ⋅ SHA;
   chars (&"contents/CHANGELOG.md?ref=") ⋅ SHA;
   chars (&"contents/.github?ref=") ⋅ SHA;
   chars (&"contents/release-version-state.json?ref=release-version-state");
   chars (&"git/ref/heads/release-version-state");
   chars (&"git/ref/heads/") ⋅ quoted_name;
   chars (&"actions/workflows/release-pipeline.yml/runs?branch=") ⋅ quoted_name ⋅ chars (&"&event=push&head_sha=") ⋅ SHA
     ⋅ chars (&"&per_page=100");
   chars (&"compare/") ⋅ SHA ⋅ chars (&"...") ⋅ quoted_name].

(** [API_PATHS] *)
Definition API_PATHS : pydict pystr (list regex) :=
  [(&"GET", GET_PATHS);
   (&"POST", [word_choice [&"git/refs"; &"releases"]]);
   (&"PATCH", [chars (&"releases/") ⋅ positive_numeral]);
   (&"PUT", [chars (&"contents/release-version-state.json")])].

(** [urllib.parse.unquote] of an ASCII text *)
Fixpoint unquote_bytes (skip : nat) (s : pystr) : bytes :=
  match s with
  | [] => []
  | c :: s' =>
    match skip with
    | S skip => unquote_bytes skip s'
    | O =>
      match s' with
      | h :: l :: _ =>
        match hex_value h, hex_value l with
        | Some x, Some y => if (c =? chr "%")%N then byte_of (x * 16 + y) :: unquote_bytes 2 s' else byte_of c :: unquote_bytes 0 s'
        | _, _ => byte_of c :: unquote_bytes 0 s'
        end
      | _ => byte_of c :: unquote_bytes 0 s'
      end
    end
  end.
Definition unquote (s : pystr) : pystr := decode_replace (unquote_bytes 0 s).

Definition LEDGER_KEYS : list pystr := [&"branch"; &"content"; &"message"; &"sha"].

(** The checks of [request], before anything runs. *)
Definition check_request (path method : pystr) (body : option pyobject) (mode : api_mode) : outcome unit :=
  match dict_get method API_PATHS with
  | None => Raise (release_error "Unsupported API method")
  | Some patterns =>
    _ ← release_require (existsb (λ r, fullmatch r path) patterns) "Unsupported API endpoint";
    _ ← release_require (forallb (λ part, negb (bool_decide (part ∈ [&"."; &".."]))) (split (chr "/") (unquote path)))
          "API endpoint cannot traverse repository paths";
    _ ← release_require (match body with None => bool_decide (method = &"GET") | Some _ => bool_decide (method ∈ [&"POST"; &"PATCH"; &"PUT"]) end)
          "API body does not match its method";
    _ ← (if bool_decide (method = &"PUT") then
           let fields := default [] body in
           release_require (py_eq (get_default (&"branch") VNone fields) (VStr (&"release-version-state"))
                            && forallb (λ k, bool_decide (k ∈ LEDGER_KEYS)) (dict_keys fields))
             "Ledger writes must target the dedicated state branch"
         else Ok tt);
    release_require (match mode with JsonMode => true | _ => bool_decide (method = &"GET") end) "Invalid API mode"
  end.

Definition rstrip_slash (s : pystr) : pystr := rev (drop_while (λ c, (c =? chr "/")%N) (rev s)).

(** The [endpoint] of a request. *)
Definition endpoint_of (repo path : pystr) (mode : api_mode) : pystr :=
  let endpoint := rstrip_slash (&"repos/" ++ repo ++ &"/" ++ path) in
  match mode with
  | PagesMode =>
    endpoint ++ (if has (chr "?") endpoint then &"&" else &"?") ++ &"per_page="
    ++ str_of_int (if endswith (&"/jobs") path then 20 else 100)
  | _ => endpoint
  end.

Definition mode_args (mode : api_mode) : list pystr :=
  match mode with
  | JsonMode => []
  | PagesMode => [&"--paginate"; &"--jq"; &"tojson"]
  | AssetMode => [&"-H"; &"Accept: application/octet-stream"]
  end.

Definition command_of (endpoint method : pystr) (with_body : bool) (mode : api_mode) : list pystr :=
  [&"gh"; &"api"; &"--hostname"; &"github.com"; &"--include"; &"--method"; method]
  ++ mode_args mode ++ (if with_body then [&"--input"; &"-"] else []) ++ [&"--"; endpoint].

Definition API_READ_TIMEOUT : Q := 30.
Definition API_BINARY_READ_TIMEOUT : Q := 120.
Definition API_READ_ATTEMPTS : nat := 3.

(** [command.index(x)], [command.count(x)] *)
Definition count_of (x : pystr) (l : list pystr) : nat := length (filter (x =.) l).
Definition after_index (x : pystr) (l : list pystr) : option pystr := i ← list_find (x =.) l; l !! S i.1.

Section transport.
Context {P : Type} `{Shell P} (float_repr : Q → pystr) (repo : pystr).

(** The attempts of a read; [more] counts those that remain after this one. *)
Fixpoint read_attempts (command : list pystr) (paginated : bool) (timeout : Q) (more : nat) (attempt : Z) : M P bytes :=
  result ← run_process command None (Some timeout);
  content ← lift match result with
                 | Finished result => completed_read float_repr result paginated (bool_decide (more = 0%nat))
                 | TimedOut out err =>
                   if denied_partial_read out err paginated || bool_decide (more = 0%nat)
                   then Raise (github_error false "read timed out after attempts") else Ok None
                 end;
  match content with
  | Some content => mret content
  | None =>
    _ ← pause (2 ^ (attempt + 1));
    match more with
    | O => raise (Exn EOther "GET retry loop must return or raise")
    | S more => read_attempts command paginated timeout more (attempt + 1)
    end
  end.

(** [_read_get] *)
Definition read_get (command : list pystr) (paginated : bool) (timeout : Q) : M P bytes :=
  _ ← lift (release_require (bool_decide (take 2 command = [&"gh"; &"api"]) && bool_decide (count_of (&"--method") command = 1%nat)
                             && bool_decide (after_index (&"--method") command = Some (&"GET"))
                             && bool_decide (&"--input" ∉ command)) "Retries require a read-only GET");
  read_attempts command paginated timeout (pred API_READ_ATTEMPTS) 0.

(** [GitHub.request] *)
Definition request (path method : pystr) (body : option pyobject) (mode : api_mode) : M P bytes :=
  _ ← lift (check_request path method body mode);
  let endpoint := endpoint_of repo path mode in
  let command := command_of endpoint method (match body with Some _ => true | None => false end) mode in
  if bool_decide (method = &"GET") then
    if bool_decide (mode = AssetMode) || endswith (&"/zip") path
    then read_get command false API_BINARY_READ_TIMEOUT
    else read_get command (bool_decide (mode = PagesMode)) API_READ_TIMEOUT
  else
    input ← lift (match body with Some b => Some <$> json_bytes_indented float_repr (VDict b) | None => Ok None end);
    result ← run_process command input None;
    match result with
    | Finished result => lift (http ← github_http_response float_repr (stdout result) false; response result http)
    | TimedOut _ _ => raise (Exn ESubprocess "TimeoutExpired")
    end.

(** The client of Release.v, on this transport. *)
Definition github_transport : GitHub P := request.

(** [GitHub.binary] *)
Definition binary (path : pystr) : M P bytes :=
  if fullmatch (chars (&"actions/artifacts/") ⋅ positive_numeral ⋅ chars (&"/zip")) path then request path (&"GET") None JsonMode
  else
    _ ← lift (release_require (fullmatch (chars (&"releases/assets/") ⋅ positive_numeral) path) "Unsupported binary download endpoint");
    request path (&"GET") None AssetMode.
End transport.

(** ** Examples *)

Definition crlf : pystr := [13; 10]%N.
Definition demo_head (status : string) : pystr := &"HTTP/2.0 " ++ lit status ++ crlf ++ &"Link: x" ++ crlf ++ crlf.

Example http_head_demo :
  http_head (demo_head "200 OK" ++ &"{}") = Ok (200, &"{}")
  ∧ is_ok (http_head (&"HTTP/2.0 200" ++ crlf ++ &"bad header" ++ crlf ++ crlf)) = false
  ∧ is_ok (http_head (&"HTTP/3 200" ++ crlf ++ crlf)) = false.
Proof. vm_compute. done. Qed.

Example pages_demo :
  let out := byte_of <$> (demo_head "200 OK" ++ &"[1]" ++ [10%N] ++ demo_head "200 OK" ++ &"[2,3]" ++ [10%N]) in
  ('(s, b) ← github_http_response (λ _, []) out true; v ← parse_json b; Ok (s, v))
    = Ok (200, VList [VList [VInt 1]; VList [VInt 2; VInt 3]])
  ∧ github_http_response (λ _, []) (byte_of <$> (demo_head "200 OK" ++ &"[1]" ++ [10%N] ++ demo_head "502 Bad" ++ &"x")) true
    = Ok (502, []).
Proof. vm_compute. done. Qed.

Example paths_demo :
  let ok path := is_ok (check_request path (&"GET") None JsonMode) in
  ok (&"git/ref/tags/v1.2.3-rc.4") = true ∧ ok (&"actions/runs/12/attempts/3/jobs") = true
  ∧ ok (&"git/ref/heads/a%2Fb") = true ∧ ok (&"git/ref/heads/..") = false ∧ ok (&"git/ref/heads/%2e%2E%2Fx") = false
  ∧ ok (&"user") = false.
Proof. vm_compute. done. Qed.

Example retry_demo :
  denied_read_diagnostic (byte_of <$> &"HTTP 403: no") true = true
  ∧ denied_read_diagnostic (byte_of <$> &"HTTP 4031") true = false
  ∧ transient_read_failure (Completed 1 [] (byte_of <$> &"Post: unexpected EOF")) = true
  ∧ transient_read_failure (Completed 1 [] (byte_of <$> &"geofence")) = false
  ∧ transient_read_failure (Completed 1 [] (byte_of <$> &"i/o timeout: HTTP 404 ")) = false.
Proof. vm_compute. done. Qed.
