(* ===== verification/TransportFacts.v ===== *)
(** * What the transport of the release client guarantees

    Requests run against a shell that records every process it starts and whose
    answers are arbitrary.  A request starts only the one command of its route, a
    read at most three times and a write at most once; a resource counts as missing
    only on the word of the server; and a paginated read that succeeds has seen
    every page of the answer. *)

From Stdlib Require Import QArith.QArith Strings.Byte.
From S2P Require Import Prelude PyStr PyDict PyRegex PyVal Passwords PyJson JsonFacts JsonTotal VersionPlan Release JsonDocument JsonDocumentFacts JsonFrame Transport.
#[local] Open Scope Z_scope.

(** ** A recording shell *)

Inductive action : Type :=
  | Run (command : list pystr) (input : option bytes) (timeout : option Q)
  | Wait (n : Z).

Section recorded.
Context (answer : list action → outcome process).

Definition recorded : Shell (list action) := {|
  run_process command input timeout := λ l, let l := l ++ [Run command input timeout] in (l, answer l);
  pause n := λ l, (l ++ [Wait n], Ok tt);
|}.
#[local] Existing Instance recorded.

Context (float_repr : Q → pystr) (repo : pystr).

(** A read that is tried [k] more times. *)
Fixpoint reads (command : list pystr) (timeout : Q) (attempt : Z) (k : nat) : list action :=
  Run command None (Some timeout) ::
  match k with O => [] | S k => Wait (2 ^ (attempt + 1)) :: reads command timeout (attempt + 1) k end.

(** How the last attempt of a read ends it. *)
Definition last_answer (paginated : bool) (l : list action) (r : outcome bytes) : Prop :=
  match answer l with
  | Raise e => r = Raise e
  | Ok (TimedOut _ _) => r = Raise (github_error false "read timed out after attempts")
  | Ok (Finished result) => ∃ final, completed_read float_repr result paginated final = (b ← r; Ok (Some b))
  end.

Lemma response_some result http b : response result http = Ok b → success http.1 = true ∧ returncode result = 0 ∧ b = http.2.
Proof.
  destruct http as [status body]. cbn [response fst snd]. destruct (Bool.eqb _ _) eqn:E; [|done]. cbn [negb].
  apply Bool.eqb_prop in E. destruct (returncode result =? 0) eqn:Er; [|done]. intros [= <-]. apply Z.eqb_eq in Er. done.
Qed.

Lemma completed_read_final result paginated : completed_read float_repr result paginated true ≠ Ok None.
Proof.
  unfold completed_read. cbv zeta. destruct (github_http_response _ _ _) as [http|e].
  - rewrite andb_false_r. destruct (response _ _); done.
  - destruct (exn_kind e); try done. by rewrite orb_true_r.
Qed.

Lemma read_attempts_trace command paginated timeout more attempt l l' r :
  read_attempts float_repr command paginated timeout more attempt l = (l', r) →
  ∃ k, (k ≤ more)%nat ∧ l' = l ++ reads command timeout attempt k ∧ last_answer paginated l' r.
Proof.
  revert attempt l. induction more as [|more IH]; intros attempt l Hr; cbn [read_attempts] in Hr;
    unfold mbind, M_bind in Hr; cbn [run_process recorded] in Hr.
  all: destruct (answer (l ++ [Run command None (Some timeout)])) as [[result|out err]|e] eqn:Ea; cbn [lift] in Hr;
    [| |injection Hr as <- <-; exists 0%nat; split_and!; [lia|done|by (unfold last_answer; rewrite Ea)]].
  - destruct (completed_read _ _ _ _) as [[b|]|e] eqn:Ec; unfold mret, M_ret in Hr.
    + injection Hr as <- <-. exists 0%nat. split_and!; [lia|done|]. unfold last_answer. rewrite Ea. by eexists.
    + by apply completed_read_final in Ec.
    + injection Hr as <- <-. exists 0%nat. split_and!; [lia|done|]. unfold last_answer. rewrite Ea. by eexists.
  - rewrite bool_decide_true, orb_true_r in Hr by done. injection Hr as <- <-.
    exists 0%nat. split_and!; [lia|done|by (unfold last_answer; rewrite Ea)].
  - destruct (completed_read _ _ _ _) as [[b|]|e] eqn:Ec; unfold mret, M_ret in Hr.
    + injection Hr as <- <-. exists 0%nat. split_and!; [lia|done|]. unfold last_answer. rewrite Ea. by eexists.
    + cbn [pause recorded] in Hr. apply IH in Hr as (k & Hk & -> & Hl). exists (S k). split_and!; [lia| |done].
      cbn [reads]. by rewrite <-!app_assoc.
    + injection Hr as <- <-. exists 0%nat. split_and!; [lia|done|]. unfold last_answer. rewrite Ea. by eexists.
  - destruct (denied_partial_read out err paginated) eqn:Ed; cbn [orb] in Hr.
    + injection Hr as <- <-. exists 0%nat. split_and!; [lia|done|by (unfold last_answer; rewrite Ea)].
    + rewrite bool_decide_false in Hr by done. cbn [pause recorded] in Hr. apply IH in Hr as (k & Hk & -> & Hl).
      exists (S k). split_and!; [lia| |done]. cbn [reads]. by rewrite <-!app_assoc.
Qed.

Lemma read_get_trace command paginated timeout l l' r :
  read_get float_repr command paginated timeout l = (l', r) →
  (l' = l ∧ ∃ e, r = Raise e ∧ exn_kind e = ERelease) ∨
  ∃ k, (k < 3)%nat ∧ l' = l ++ reads command timeout 0 k ∧ last_answer paginated l' r.
Proof.
  unfold read_get, mbind at 1, M_bind, lift at 1. destruct (release_require _ _) as [[]|e] eqn:E.
  - intros (k & Hk & H)%read_attempts_trace. right. exists k. cbn in Hk. split; [lia|done].
  - intros [= <- <-]. left. split; [done|]. exists e. split; [done|]. unfold release_require, check in E.
    destruct (_ && _) in E; [done|]. by injection E as <-.
Qed.

(** *** Confinement *)

Lemma check_request_ok path method body mode :
  check_request path method body mode = Ok tt →
  (∃ patterns p, dict_get method API_PATHS = Some patterns ∧ p ∈ patterns ∧ matches p path)
  ∧ (∀ part, part ∈ split (chr "/") (unquote path) → part ≠ &"." ∧ part ≠ &"..")
  ∧ (method = &"GET" ↔ body = None)
  ∧ (method = &"PUT" → ∃ fields, body = Some fields ∧ dict_get (&"branch") fields = Some (VStr (&"release-version-state"))
       ∧ ∀ k, k ∈ dict_keys fields → k ∈ LEDGER_KEYS).
Proof.
  unfold check_request. destruct (dict_get method API_PATHS) as [patterns|] eqn:Em; [|done]. intros H.
  apply bind_ok in H as ([] & Hp%check_ok & H). apply bind_ok in H as ([] & Hd%check_ok & H).
  apply bind_ok in H as ([] & Hb%check_ok & H). apply bind_ok in H as ([] & Hput & _).
  apply existsb_exists_elem in Hp as (p & Hin & Hm%fullmatch_iff). split; [by exists patterns, p|].
  assert (method = &"GET" ↔ body = None) as Hbody.
  { destruct body; apply bool_decide_eq_true in Hb; split; try done. intros ->. rewrite !elem_of_cons, elem_of_nil in Hb. naive_solver. }
  split_and!; [|done|].
  - intros part Hpart. rewrite forallb_forall in Hd. specialize (Hd part). rewrite <-list_elem_of_In in Hd. specialize (Hd Hpart).
    apply negb_true_iff, bool_decide_eq_false in Hd. rewrite !elem_of_cons in Hd. naive_solver.
  - intros ->. rewrite bool_decide_true in Hput by done. apply check_ok, andb_true_iff in Hput as [Hbr Hkeys].
    destruct body as [fields|]; [|by destruct Hbody as [_ Hx]; specialize (Hx eq_refl)]. exists fields. split; [done|]. cbn [default] in *.
    apply py_eq_str in Hbr. split.
    + unfold get_default in Hbr. cbn in Hbr. by destruct (dict_get (&"branch") fields); cbn in Hbr; [subst|].
    + intros k Hk. rewrite forallb_forall in Hkeys. specialize (Hkeys k). rewrite <-list_elem_of_In in Hkeys. by specialize (Hkeys Hk); apply bool_decide_eq_true in Hkeys.
Qed.

Lemma rstrip_slash_app a b : last a ≠ Some (chr "/") → a ≠ [] → rstrip_slash (a ++ b) = a ++ rstrip_slash b.
Proof.
  intros Ha Hne. unfold rstrip_slash. rewrite rev_app_distr.
  assert (∀ f (l k : pystr) c, head k = Some c → f c = false → drop_while f (l ++ k) = drop_while f l ++ k) as Hdrop.
  { intros f l k c Hk Hc. induction l as [|x l IH]; cbn [app drop_while]; [|by destruct (f x)].
    destruct k as [|y k]; [done|]. injection Hk as ->. cbn. by rewrite Hc. }
  destruct (last a) as [c|] eqn:El; [|by apply last_None in El]. rewrite (Hdrop _ _ _ c).
  - by rewrite rev_app_distr, rev_involutive.
  - rewrite rev_alt. change (rev_append a []) with (reverse a). by rewrite head_reverse.
  - apply N.eqb_neq. congruence.
Qed.

Lemma repo_end : fullmatch REPO_RE repo = true → repo ≠ [] ∧ last repo ≠ Some (chr "/").
Proof.
  intros H%fullmatch_iff. unfold REPO_RE in H. cbv zeta in H. apply matches_seq_iff in H as (s1 & s2 & -> & _ & H).
  apply matches_seq_iff in H as (s3 & s4 & -> & _ & H).
  assert (forallb (λ c, ascii_alnum c || one_of "_.-" c) s4 = true) as Hf.
  { apply (matches_alphabet _ _ _ H). split; intros c Hc; [by rewrite Hc|exact Hc]. }
  apply matches_seq_iff in H as (s5 & s6 & -> & H & _). apply matches_char_iff in H as (c & -> & _).
  split; [by destruct s1, s3|]. rewrite app_assoc. rewrite last_app. cbn [app]. destruct (last (c :: s6)) as [d|] eqn:El; [|by apply last_None in El].
  intros [= ->]. apply last_Some_elem_of in El. rewrite forallb_forall in Hf. specialize (Hf (chr "/")). rewrite <-list_elem_of_In in Hf.
  specialize (Hf El). by vm_compute in Hf.
Qed.

Lemma rstrip_prefix s : ∃ k, s = rstrip_slash s ++ k.
Proof.
  unfold rstrip_slash. exists (rev (take_while (λ c, (c =? chr "/")%N) (rev s))).
  rewrite <-rev_app_distr. rewrite <-(rev_involutive s) at 1. f_equal. generalize (rev s). intros l.
  induction l as [|c l IH]; [done|]. cbn [take_while drop_while]. destruct (c =? chr "/")%N; cbn; by f_equal.
Qed.

(** The endpoint belongs to the repository. *)
Lemma endpoint_confined path mode :
  fullmatch REPO_RE repo = true →
  ∃ rest, endpoint_of repo path mode = &"repos/" ++ repo ++ rest ∧ ∀ c, head rest = Some c → c ∈ &"/?&".
Proof.
  intros [Hne Hlast]%repo_end.
  assert (∀ c, has c (&"/?&") = true → c ∈ &"/?&") as Hin by (intros c; apply (has_true c)).
  set (route := rstrip_slash (&"/" ++ path)).
  assert (rstrip_slash (&"repos/" ++ repo ++ &"/" ++ path) = &"repos/" ++ repo ++ route) as Hrest.
  { rewrite app_assoc, rstrip_slash_app; [by rewrite <-app_assoc| |by destruct repo].
    rewrite last_app. by destruct (last repo) eqn:El; [|apply last_None in El]. }
  assert (∀ c, head route = Some c → c ∈ &"/?&") as Hhead.
  { destruct (rstrip_prefix (&"/" ++ path)) as [k Hk]. fold route in Hk. intros c Hc. destruct route as [|d route']; [done|].
    injection Hc as ->. injection Hk as <- _. by apply Hin. }
  unfold endpoint_of. rewrite Hrest. destruct mode; [by exists route| |by exists route].
  exists (route ++ (if has (chr "?") (&"repos/" ++ repo ++ route) then &"&" else &"?") ++ &"per_page="
          ++ str_of_int (if endswith (&"/jobs") path then 20 else 100)). split; [by rewrite <-!app_assoc|].
  intros c Hc. destruct route as [|d route']; [|by apply Hhead]. cbn [app] in Hc.
  destruct (has _ _); injection Hc as <-; by apply Hin.
Qed.

(** C7: a request runs nothing but its own command.  Whatever the processes answer,
    a request that starts one has passed the checks: its path is one of the routes
    of its method, no part of the path traverses directories, a body goes with a
    write and a ledger write names the dedicated branch.  All processes are the same
    [gh api] command on an endpoint of the repository; a read runs it at most three
    times with its time limit, and a write exactly once. *)
Theorem request_is_confined path method body mode l l' r :
  fullmatch REPO_RE repo = true → request float_repr repo path method body mode l = (l', r) →
  let command := command_of (endpoint_of repo path mode) method (match body with Some _ => true | None => false end) mode in
  (l' = l ∧ is_ok r = false) ∨
  (check_request path method body mode = Ok tt
   ∧ (∃ patterns p, dict_get method API_PATHS = Some patterns ∧ p ∈ patterns ∧ matches p path)
   ∧ (∀ part, part ∈ split (chr "/") (unquote path) → part ≠ &"." ∧ part ≠ &"..")
   ∧ (∃ rest, endpoint_of repo path mode = &"repos/" ++ repo ++ rest ∧ ∀ c, head rest = Some c → c ∈ &"/?&")
   ∧ ((method = &"GET" ∧ body = None ∧ ∃ timeout k, timeout ∈ [API_READ_TIMEOUT; API_BINARY_READ_TIMEOUT] ∧ (k < 3)%nat
         ∧ l' = l ++ reads command timeout 0 k)
      ∨ (method ≠ &"GET" ∧ ∃ fields input, body = Some fields ∧ json_bytes_indented float_repr (VDict fields) = Ok input
         ∧ l' = l ++ [Run command (Some input) None]
         ∧ (method = &"PUT" → dict_get (&"branch") fields = Some (VStr (&"release-version-state")))))).
Proof.
  intros Hrepo Hr command. unfold request in Hr. rewrite lift_bind_M in Hr.
  destruct (check_request path method body mode) as [[]|e] eqn:Hc; [|injection Hr as <- <-; by left].
  destruct (check_request_ok _ _ _ _ Hc) as (Hp & Hd & Hb & Hput). fold command in Hr.
  case_bool_decide as Hget.
  - assert (∃ timeout paginated, timeout ∈ [API_READ_TIMEOUT; API_BINARY_READ_TIMEOUT]
      ∧ read_get float_repr command paginated timeout l = (l', r)) as (timeout & paginated & Ht & Hrun).
    { destruct (_ || _); eexists _, _; (split; [|exact Hr]); rewrite !elem_of_cons; auto. }
    apply read_get_trace in Hrun as [(-> & e & -> & _)|(k & Hk & -> & _)]; [by left|right].
    split_and!; [done..|by apply endpoint_confined|]. left. split_and!; [done|by apply Hb|]. by exists timeout, k.
  - destruct body as [fields|]; [|by destruct Hb as [_ Hb]; specialize (Hb eq_refl)]. rewrite lift_bind_M in Hr.
    destruct (json_bytes_indented float_repr (VDict fields)) as [input|e] eqn:Ej; [|injection Hr as <- <-; by left].
    cbn [fmap outcome_fmap] in Hr. right. split_and!; [done..|by apply endpoint_confined|]. right. split; [done|].
    exists fields, input. split_and!; [done|done| |].
    + unfold mbind, M_bind in Hr. cbn [run_process recorded] in Hr. destruct (answer _) as [[result|out err]|e]; by injection Hr as <- _.
    + intros Hm. destruct (Hput Hm) as (fields' & [= <-] & Hbr & _). done.
Qed.
(** *** Missing resources *)

Lemma http_head_raise s e : http_head s = Raise e → not_found (exn_kind e) = false.
Proof.
  unfold http_head. destruct (blank_line s) as [[h b]|]; [|by intros [= <-]].
  destruct (http_lines [] h) as [|line lines]; [by intros [= <-]|]. by destruct (_ && _); [|intros [= <-]].
Qed.

Lemma unpaginated_raise out e : github_http_response float_repr out false = Raise e → not_found (exn_kind e) = false.
Proof.
  unfold github_http_response. intros H. apply bind_raise in H as [H|([status body] & _ & H)]; [by eapply http_head_raise|done].
Qed.

Lemma completed_read_missing result final e :
  completed_read float_repr result false final = Raise e → not_found (exn_kind e) = true →
  ∃ body, github_http_response float_repr (stdout result) false = Ok (404, body) ∧ returncode result ≠ 0.
Proof.
  unfold completed_read. cbv zeta. destruct (github_http_response _ _ _) as [[status body]|e'] eqn:E; cbn [fst].
  - destruct (_ && negb final); [done|]. intros H. apply bind_raise in H as [H|(b & _ & H)]; [|done]. intros Hn.
    exists body. unfold response in H. destruct (negb _); [by injection H as <-|].
    destruct (returncode result =? 0) eqn:Er; [done|]. apply Z.eqb_neq in Er. injection H as <-.
    destruct (status =? 404) eqn:Es; [|done]. apply Z.eqb_eq in Es. by subst.
  - intros H Hn. apply unpaginated_raise in E. destruct (exn_kind e') eqn:Ek; try (injection H as <-; congruence).
    destruct (_ || final); [|done]. injection H as <-. congruence.
Qed.

Lemma completed_read_body result paginated final b :
  completed_read float_repr result paginated final = Ok (Some b) →
  ∃ status, github_http_response float_repr (stdout result) paginated = Ok (status, b) ∧ success status = true ∧ returncode result = 0.
Proof.
  unfold completed_read. cbv zeta. destruct (github_http_response _ _ _) as [[status body]|e'] eqn:E; cbn [fst].
  - destruct (_ && negb final); [done|]. intros H. apply bind_ok in H as (b' & H & [= ->]).
    apply response_some in H as (Hs & Hr & ->). by exists status.
  - destruct (exn_kind e'); try done. by destruct (_ || final).
Qed.

Lemma check_request_raises path method body mode : raises (λ c, negb (not_found c)) (check_request path method body mode).
Proof.
  unfold check_request, release_require. destruct (dict_get _ _); [|by apply raises_error].
  repeat first [by apply raises_check | apply raises_if | apply raises_ok | apply raises_bind; [|intros]].
Qed.

(** A read by its last process. *)
Lemma request_read path mode l l' r :
  request float_repr repo path (&"GET") None mode l = (l', r) →
  (∃ e, r = Raise e ∧ not_found (exn_kind e) = false)
  ∨ last_answer (bool_decide (mode = PagesMode) && negb (endswith (&"/zip") path)) l' r.
Proof.
  unfold request. rewrite lift_bind_M. destruct (check_request _ _ _ _) as [[]|e] eqn:E.
  2:{ intros [= <- <-]. left. exists e. split; [done|]. apply check_request_raises in E. by apply negb_true_iff in E. }
  rewrite bool_decide_true by done. intros Hr.
  assert (∃ command timeout, read_get float_repr command (bool_decide (mode = PagesMode) && negb (endswith (&"/zip") path)) timeout l = (l', r))
    as (command & timeout & Hrun).
  { destruct (bool_decide (mode = AssetMode)) eqn:Ha; [apply bool_decide_eq_true in Ha as ->|]; destruct (endswith (&"/zip") path);
      rewrite ?andb_true_r, ?andb_false_r; eexists _, _; exact Hr. }
  apply read_get_trace in Hrun as [(_ & e & -> & He)|(k & _ & _ & Hl)]; [left|by right].
  exists e. split; [done|]. by rewrite He.
Qed.

(** C8: a resource counts as missing only on the word of the server.  When
    [optional] gives [None], whatever happened before, the last process answered
    with a well-formed HTTP head: either its status is 404 and [gh] failed, or the
    request succeeded and its body is blank or the JSON text [null].  No time-out,
    no broken answer and no text of [gh] counts as an absence.  (Starting a process
    raises errors of the operating system, never one of the client's own.) *)
Theorem absence_is_explicit path l l' :
  (∀ k e, answer k = Raise e → is_release_error (exn_kind e) = false) →
  @gh_optional _ (github_transport float_repr repo) path l = (l', Ok VNone) →
  ∃ result status body, answer l' = Ok (Finished result)
    ∧ github_http_response float_repr (stdout result) false = Ok (status, body)
    ∧ (status = 404 ∧ returncode result ≠ 0
       ∨ success status = true ∧ returncode result = 0 ∧ (forallb ascii_blank body = true ∨ parse_json body = Ok VNone)).
Proof.
  unfold gh_optional, try_except, gh_api, gh_request, github_transport. intros Hshell Hr. unfold mbind, M_bind in Hr.
  destruct (request float_repr repo path (&"GET") None JsonMode l) as [l1 [raw|e]] eqn:E;
    (apply request_read in E as [(e' & He & Hn)|Hlast]; [try done|]);
    try (rewrite bool_decide_false in Hlast by done; cbn [andb] in Hlast); unfold last_answer in *.
  - unfold lift in Hr. destruct (answer l1) as [[result|out err]|e] eqn:Ea; [|done..]. destruct Hlast as [final Hc].
    apply completed_read_body in Hc as (status & Hhttp & Hs & Hcode).
    destruct (forallb ascii_blank raw) eqn:Eb.
    + injection Hr as <-. exists result, status, raw. split_and!; [done..|]. right. by split_and!; [..|left].
    + destruct (parse_json raw) as [v|e] eqn:Ev; [injection Hr as <- ->|].
      * exists result, status, raw. split_and!; [done..|]. right. by split_and!; [..|right].
      * apply parse_json_fails in Ev. by rewrite Ev in Hr.
  - injection He as <-. by rewrite Hn in Hr.
  - destruct (not_found (exn_kind e)) eqn:Hn; [|done]. injection Hr as <-.
    destruct (answer l1) as [[result|out err]|e'] eqn:Ea; [|by injection Hlast as ->|].
    + destruct Hlast as [final Hc]. destruct (completed_read_missing _ _ _ Hc Hn) as (body & Hhttp & Hcode).
      exists result, 404, body. split_and!; [done..|]. by left.
    + injection Hlast as ->. apply Hshell in Ea. by destruct (exn_kind e').
Qed.

(** *** Pages *)

(** The text of a page, and an HTTP head of a successful answer. *)
Definition page_text (t : pystr) (page : pyval) : Prop := ∃ raw, encode_escape t = Ok raw ∧ parse_json raw = Ok page.
Definition success_head (t : pystr) : Prop :=
  ∃ raw status rest, encode_escape t = Ok raw ∧ http_head (latin raw) = Ok (status, rest) ∧ success status = true.
Notation spaces w := (forallb json_space w = true).

(** What follows the first head of a complete answer: pages with a successful head
    between them, to the very end. *)
Inductive framed : pystr → list pyval → Prop :=
  | framed_last w t w' page : spaces w → spaces w' → page_text t page → framed (w ++ t ++ w') [page]
  | framed_next w t w' page header rest pages :
      spaces w → spaces w' → page_text t page → success_head header → framed rest pages →
      framed (w ++ t ++ w' ++ header ++ rest) (page :: pages).

Lemma page_at_text s page rest :
  page_at (skip_space s) = Ok (page, rest) → ∃ w t, s = w ++ t ++ rest ∧ spaces w ∧ page_text t page.
Proof.
  destruct (skip_space_split s) as (w & Hs & Hw). unfold page_at, catch. intros H.
  destruct (json_value keep_last _ _) as [[v r]|e] eqn:E; cbn [mbind outcome_bind] in H; [|by destruct (_ || _)].
  rewrite <-(skip_space_idem s) in E. apply json_taken in E as (t & Ht & _). rewrite Ht in Hs, H.
  replace (length (t ++ r) - length r)%nat with (length t) in H by (rewrite length_app; lia). rewrite take_app_length in H.
  destruct (encode_escape t) as [raw|e] eqn:Er; cbn [mbind outcome_bind] in H; [|by destruct (_ || _)].
  destruct (parse_json raw) as [p|e] eqn:Ep; cbn [mbind outcome_bind] in H; [|by destruct (_ || _)]. injection H as <- <-.
  exists w, t. split_and!; [done..|]. by exists raw.
Qed.

Lemma blank_line_suffix s h r : blank_line s = Some (h, r) → r `suffix_of` s.
Proof.
  assert (∀ s r, newline s = Some r → r `suffix_of` s) as Hn.
  { intros [|c s'] r'; [done|]. cbn [newline]. destruct (c =? 10)%N; [intros [= <-]; by exists [c]|].
    destruct s' as [|d s']; [done|]. destruct (_ && _); [|done]. intros [= <-]. by exists [c; d]. }
  revert h. induction s as [|c s IH]; intros h; [done|]. cbn [blank_line].
  destruct (newline (c :: s) ≫= newline) as [r'|] eqn:E.
  - intros [= _ <-]. apply bind_Some in E as (s' & H1 & H2). etrans; by apply Hn.
  - intros H. apply bind_Some in H as ([h' r'] & H & [= _ <-]). etrans; [by eapply IH|]. by exists [c].
Qed.

(** *** The loop over the pages ends *)

(** Not the error of exhausted fuel. *)
Definition not_fuel (c : exn_class) : bool := negb (bool_decide (c = EOther)).

Lemma collect_raises {A B} P (f : A → outcome B) l : Forall (λ x, raises P (f x)) l → raises P (collect f l).
Proof.
  induction 1 as [|x l Hx Hl IH]; [apply raises_ok|]. cbn [collect]. apply raises_bind; [done|]. intros y.
  apply raises_bind; [done|]. intros ys. apply raises_ok.
Qed.

Lemma json_text_raises lay v : ∀ level, raises not_fuel (json_text float_repr lay level v).
Proof.
  induction v as [|b|n|q|s|t|vs IH|d IH] using pyval_rect_nested; intros level; try apply raises_ok; [by apply raises_error| |].
  - destruct vs as [|v vs]; [apply raises_ok|]. cbn [json_text]. apply raises_bind; [|intros; apply raises_ok].
    apply collect_raises. eapply Forall_impl; [exact IH|]. intros x Hx. apply Hx.
  - destruct d as [|kv d]; [apply raises_ok|]. cbn [json_text]. apply raises_bind; [|intros; apply raises_ok].
    apply collect_raises. eapply Forall_impl; [exact IH|]. intros x Hx. apply raises_bind; [apply Hx|intros; apply raises_ok].
Qed.

Lemma encode_escape_raises s : raises not_fuel (encode_escape s).
Proof.
  induction s as [|c s IH]; [apply raises_ok|]. cbn [encode_escape]. apply raises_bind.
  - apply raises_if; [apply raises_ok|]. destruct (utf8_char c); [apply raises_ok|by apply raises_error].
  - intros h. apply raises_bind; [done|]. intros; apply raises_ok.
Qed.

Lemma http_head_raises s : raises not_fuel (http_head s).
Proof.
  unfold http_head. destruct (blank_line s) as [[h b]|]; [|by apply raises_error].
  destruct (http_lines [] h); [by apply raises_error|]. apply raises_if; [apply raises_ok|by apply raises_error].
Qed.

Lemma page_at_raises s : raises not_fuel (page_at s).
Proof.
  unfold page_at. destruct (json_fuel keep_last (2 * length s + 2)) as [Hv _]. specialize (Hv s ltac:(lia)).
  assert (∀ (m : outcome (pyval * pystr)), raises not_fuel m → raises not_fuel
    (catch m (λ c, is_value_error c || is_release_error c) (λ _, Raise (github_error false "GitHub response page is invalid or truncated")))) as Hcatch.
  { intros [a|e] Hm; [apply raises_ok|]. cbn [catch]. destruct (_ || _); [by apply raises_error|done]. }
  apply Hcatch, raises_bind.
  - destruct (json_value _ _ _) as [[v r]|e]; [apply raises_ok|]. destruct Hv as [Hv|(entries & Hv)]; [|done].
    apply raises_error. by rewrite Hv.
  - intros [v r]. apply raises_bind; [apply encode_escape_raises|]. intros raw. apply raises_bind; [|intros; apply raises_ok].
    intros e He%parse_json_fails. by rewrite He.
Qed.

Lemma page_at_shorter s page rest : page_at s = Ok (page, rest) → (length rest < length s)%nat.
Proof.
  unfold page_at, catch. destruct (json_fuel keep_last (2 * length s + 2)) as [Hv _]. specialize (Hv s ltac:(lia)).
  destruct (json_value _ _ _) as [[v r]|e]; cbn [mbind outcome_bind]; [|by destruct (_ || _)].
  destruct (encode_escape _); cbn [mbind outcome_bind]; [|by destruct (_ || _)].
  destruct (parse_json _); cbn [mbind outcome_bind]; [|by destruct (_ || _)]. by intros [= _ <-].
Qed.

(** The length of the text is fuel enough: each page takes some of it. *)
Lemma page_loop_ends n status text seen : (length text < n)%nat → raises not_fuel (page_loop float_repr n status text seen).
Proof.
  revert status text seen. induction n as [|n IH]; intros status text seen Hn; [lia|]. cbn [page_loop].
  apply raises_if; [apply raises_ok|]. destruct (page_at (skip_space text)) as [[page rest]|e] eqn:Ep;
    [|apply page_at_raises in Ep; by apply raises_error]. cbn [mbind outcome_bind].
  apply page_at_shorter in Ep. pose proof (length_skip_space text). pose proof (length_skip_space rest) as Hr.
  destruct (skip_space rest) as [|c more].
  { apply raises_bind; [|intros; apply raises_ok]. unfold json_bytes_indented. apply raises_bind; [apply json_text_raises|].
    intros t. unfold encode. destruct (utf8_encode_opt _); [apply raises_ok|by apply raises_error]. }
  destruct (blank_line (c :: more)) as [[h rest']|] eqn:Eb; [|by apply raises_error].
  apply blank_line_suffix, suffix_length in Eb. apply raises_bind; [apply encode_escape_raises|]. intros header.
  apply raises_bind; [apply http_head_raises|]. intros [st r2]. apply IH. lia.
Qed.

Lemma page_loop_framed n status text seen status' b :
  page_loop float_repr n status text seen = Ok (status', b) → success status' = true →
  success status = true ∧ ∃ pages, framed text pages ∧ json_bytes_indented float_repr (VList (seen ++ pages)) = Ok b.
Proof.
  revert status text seen. induction n as [|n IH]; intros status text seen H Hs; cbn [page_loop] in H;
    (destruct (success status) eqn:Est; cbn [negb] in H; [|injection H as -> <-; congruence]); [done|]. split; [done|].
  apply bind_ok in H as ([page rest] & Hp & H). apply page_at_text in Hp as (w & t & -> & Hw & Ht).
  destruct (skip_space_split rest) as (w' & Hrest & Hw'). destruct (skip_space rest) as [|c more] eqn:Em.
  - apply bind_ok in H as (b' & Hb & [= -> ->]). exists [page]. split; [|done]. rewrite Hrest, app_nil_r. by apply framed_last.
  - destruct (blank_line (c :: more)) as [[h rest']|] eqn:Eb; [|done]. apply blank_line_suffix in Eb as [header Hh].
    rewrite Hh in *. replace (length (header ++ rest') - length rest')%nat with (length header) in H by (rewrite length_app; lia).
    rewrite take_app_length in H. apply bind_ok in H as (raw & Hraw & H). apply bind_ok in H as ([st rest2] & Hhead & H).
    destruct (IH _ _ _ H Hs) as (Hst & pages & Hf & Hb). exists (page :: pages). split; [|by rewrite cons_middle, app_assoc].
    rewrite Hrest. apply framed_next; [done..| |done]. by exists raw, st, rest2.
Qed.

(** A list read from the pages of an answer misses no page.  When [pages]
    gives records, the last process succeeded and everything it wrote is a sequence
    of pages, each behind an HTTP head of a successful answer and each a JSON
    document without duplicate fields; the records are those of all the pages, in
    order. *)
Theorem pages_are_complete path wanted l l' records :
  endswith (&"/zip") path = false →
  @gh_pages _ (github_transport float_repr repo) path wanted l = (l', Ok records) →
  ∃ result status body pages, answer l' = Ok (Finished result) ∧ returncode result = 0
    ∧ http_head (latin (stdout result)) = Ok (status, body) ∧ success status = true
    ∧ framed (decode_escape 0 (drop (length (stdout result) - length body) (stdout result))) pages
    ∧ (forallb plain pages = true → flatten_pages wanted (canonical <$> pages) = Ok records).
Proof.
  intros Hzip Hr. unfold gh_pages, gh_request, github_transport, mbind, M_bind in Hr.
  destruct (request float_repr repo path (&"GET") None PagesMode l) as [l1 [raw|e]] eqn:E; [|done].
  apply request_read in E as [(e' & He & Hn)|Hlast]; [done|]. rewrite bool_decide_true, Hzip in Hlast by done. cbn [andb negb] in Hlast.
  unfold lift in Hr. injection Hr as <- Hrec. unfold last_answer in Hlast.
  destruct (answer l1) as [[result|out err]|e] eqn:Ea; [|done..]. destruct Hlast as [final Hc].
  apply completed_read_body in Hc as (status & Hhttp & Hs & Hcode). unfold github_http_response in Hhttp.
  apply bind_ok in Hhttp as ([status0 body] & Hhead & Hhttp). cbn [negb] in Hhttp.
  apply page_loop_framed in Hhttp as (Hs0 & pages & Hf & Hb); [|done]. cbn [app] in Hb.
  exists result, status0, body, pages. split_and!; [done..|]. intros Hplain.
  apply parse_json_bytes_indented in Hb; [|done]. rewrite Hb in Hrec. exact Hrec.
Qed.
End recorded.

(** ** Concrete runs *)

(** A server that is too slow twice and then answers [text]. *)
Definition slow_server (status : string) (code : Z) (text : pystr) (k : list action) : outcome process :=
  if (length k <? 5)%nat then Ok (TimedOut [] []) else Ok (Finished (Completed code (byte_of <$> demo_head status ++ text) [])).

Definition no_floats (_ : Q) : pystr := [].

Definition slow_run : list action * outcome bytes :=
  @request _ (recorded (slow_server "200 OK" 0 (&"null"))) no_floats (&"o/r") (&"tags") (&"GET") None JsonMode [].

Lemma request_is_confined_witness :
  snd slow_run = Ok (byte_of <$> &"null")
  ∧ ∃ timeout k, (k < 3)%nat
      ∧ fst slow_run = reads (command_of (endpoint_of (&"o/r") (&"tags") JsonMode) (&"GET") false JsonMode) timeout 0 k.
Proof.
  assert (snd slow_run = Ok (byte_of <$> &"null")) as Hok by (vm_compute; reflexivity). split; [exact Hok|].
  destruct (request_is_confined (slow_server "200 OK" 0 (&"null")) no_floats (&"o/r") (&"tags") (&"GET") None JsonMode []
              (fst slow_run) (snd slow_run) eq_refl ltac:(by destruct slow_run eqn:E))
    as [[_ H]|(_ & _ & _ & _ & [(_ & _ & timeout & k & _ & Hk & Hl)|[H _]])].
  - by rewrite Hok in H.
  - exists timeout, k. split; [exact Hk|exact Hl].
  - by destruct H.
Defined.

Definition missing_run : list action * outcome pyval :=
  @gh_optional _ (@github_transport _ (recorded (slow_server "404 Not Found" 1 [])) no_floats (&"o/r")) (&"tags") [].

Lemma absence_is_explicit_witness :
  snd missing_run = Ok VNone ∧ ∃ result, slow_server "404 Not Found" 1 [] (fst missing_run) = Ok (Finished result).
Proof.
  assert (snd missing_run = Ok VNone) as Hok by (vm_compute; reflexivity). split; [exact Hok|].
  destruct (absence_is_explicit (slow_server "404 Not Found" 1 []) no_floats (&"o/r") (&"tags") [] (fst missing_run))
    as (result & status & body & Ha & _).
  - intros k e. unfold slow_server. by destruct (_ <? _)%nat.
  - change (missing_run = (fst missing_run, Ok VNone)). rewrite <-Hok. by destruct missing_run.
  - exists result. exact Ha.
Defined.

(** A success with an empty body is taken for an absence, too. *)
Example empty_answer_is_absence :
  snd (@gh_optional _ (@github_transport _ (recorded (slow_server "200 OK" 0 [])) no_floats (&"o/r")) (&"tags") []) = Ok VNone.
Proof. vm_compute. reflexivity. Qed.

Definition paged_text : pystr := &"[1]" ++ [10%N] ++ demo_head "200 OK" ++ &"[2,3]" ++ [10%N].
Definition paged_run : list action * outcome (list pyval) :=
  @gh_pages _ (@github_transport _ (recorded (slow_server "200 OK" 0 paged_text)) no_floats (&"o/r")) (&"tags") None [].

Lemma pages_are_complete_witness :
  snd paged_run = Ok [VInt 1; VInt 2; VInt 3] ∧ ∃ text pages, framed text pages.
Proof.
  assert (snd paged_run = Ok [VInt 1; VInt 2; VInt 3]) as Hok by (vm_compute; reflexivity). split; [exact Hok|].
  destruct (pages_are_complete (slow_server "200 OK" 0 paged_text) no_floats (&"o/r") (&"tags") None [] (fst paged_run)
              [VInt 1; VInt 2; VInt 3] eq_refl) as (result & status & body & pages & _ & _ & _ & _ & Hf & _).
  - change (paged_run = (fst paged_run, Ok [VInt 1; VInt 2; VInt 3])). rewrite <-Hok. by destruct paged_run.
  - eexists _, pages. exact Hf.
Defined.
