(* ===== verification/Fuzz.v ===== *)
(** * Fuzzing policy and evidence ([scripts/release_fuzz.py])

    The manifest of the fuzz targets, the event that may run them and the report
    that a release candidate carries.  The checkout is the parameters [confined]
    (does a path stay below the root) and [plain_file]; running the targets is not
    modelled. *)

From S2P Require Import Prelude PyStr PyDict PyRegex PyVal PyJson VersionPlan Release ReleaseValidation PyMatch JsonDocument OciMetadata.
#[local] Open Scope Z_scope.
#[local] Open Scope regex_scope.

Definition JOB : pystr := &"fuzz / RC fuzzing".
Definition FUZZ_MANIFEST : pystr := &".github/fuzz.json".
Definition REPORT : pystr := &"fuzz-report.json".

(** ** The policy *)

(** [configuration] *)
Definition configuration (policy : pyobject) : outcome (option pyobject) :=
  match get_key "fuzzing" policy with
  | VNone => Ok None
  | value =>
    let d := match value with VDict d => d | _ => [] end in
    _ ← check (is_dict value && same_keys (dict_keys d) [&"toolkit_ref"] && str_match SHA (get_key "toolkit_ref" d)
               && text_is (get_default (&"visibility") (VStr (&"public")) policy) (&"public")
               && text_is (get_key "mode" policy) (&"release")
               && text_is (get_default (&"ci_execution") (VStr (&"github")) policy) (&"github")
               && is_dict (get_key "versioning" policy))
          (value_error_of "Fuzzing requires public versioned hosted releases and a pinned toolkit_ref");
    Ok (Some d)
  end.

(** [profile] *)
Definition fuzz_profile (policy : pyobject) (channel : pystr) : outcome pyval :=
  config ← configuration policy;
  Ok match config with
     | Some config =>
       if bool_decide (channel = &"rc")
       then VDict (fold_left (λ d kv, dict_set kv.1 kv.2 d) config
                     [(&"schema", VInt 1); (&"channel", VStr (&"rc")); (&"manifest", VStr FUZZ_MANIFEST)])
       else VNone
     | None => VNone
     end.

(** ** The event and the job *)

(** [event_contract]; [py_text] is [str] of a JSON value. *)
Definition event_contract (py_text : pyval → pystr) (event : pyobject) (event_name ref repository sha : pystr) : outcome unit :=
  repo ← as_dict (get_default (&"repository") (VDict []) event);
  let refused := Raise (value_error_of "Fuzz campaigns require a public default-branch RC dispatch") in
  if negb (bool_decide (event_name = &"workflow_dispatch")) then refused
  else
    inputs ← as_dict (get_default (&"inputs") (VDict []) event);
    if text_is (get_key "channel" inputs) (&"rc") && bool_decide (get_key "private" repo = VBool false)
       && text_is (get_key "full_name" repo) repository
       && bool_decide (ref = &"refs/heads/" ++ py_text (get_key "default_branch" repo))
       && fullmatch SHA sha
    then Ok tt else refused.

(** [check_run_jobs] *)
Definition check_fuzz_jobs (jobs : list pyobject) (channel sha : pystr) : outcome unit :=
  let found := filter (λ job, text_is (get_key "name" job) JOB = true) jobs in
  if bool_decide (channel = &"rc") then
    match found with
    | [job] => check (job_passed sha job) (value_error_of "RC requires one successful fuzz job at the exact source SHA")
    | _ => Raise (value_error_of "RC requires one successful fuzz job at the exact source SHA")
    end
  else check (forallb (λ job, text_is (get_key "conclusion" job) (&"skipped")) found)
         (value_error_of "Fuzzing must not run outside RC").

(** ** The manifest *)

(** [relative] *)
Definition fuzz_path : regex := plus (Char (λ c, ascii_alnum c || one_of "_./-" c)).
Definition fuzz_relative (value : pyval) : outcome pystr :=
  match value with
  | VStr s =>
    _ ← check (fullmatch fuzz_path s) (value_error_of "Fuzz paths must be literal relative paths");
    _ ← check (bool_decide (s = &".")
               || negb (startswith (&"/") s || existsb (λ p, bool_decide (p ∈ [[]; &"."; &".."])) (split (chr "/") s)))
          (value_error_of "Fuzz path escapes the source tree");
    Ok s
  | _ => Raise (value_error_of "Fuzz paths must be literal relative paths")
  end.

(** [argv] *)
Definition argument_ok (v : pyval) : bool :=
  match v with
  | VStr s => negb (bool_decide (s = [])) && (Z.of_nat (length s) <=? 2048) && forallb (λ c, 32 <=? c)%N s
  | _ => false
  end.
Definition argv (value : pyval) : outcome (list pystr) :=
  let l := list_value value in
  _ ← check (is_list value && (1 <=? Z.of_nat (length l)) && (Z.of_nat (length l) <=? 64) && forallb argument_ok l)
        (value_error_of "Fuzz commands must be nonempty bounded argument arrays");
  Ok (str_value <$> l).

Definition keys_within (d : pyobject) (names : list pystr) : bool := forallb (λ k, bool_decide (k ∈ names)) (dict_keys d).

(** A list with a bound on its length. *)
Definition list_within (least most : Z) (v : pyval) : bool :=
  is_list v && (least <=? Z.of_nat (length (list_value v))) && (Z.of_nat (length (list_value v)) <=? most).

Definition int_within (least most : Z) (v : pyval) : bool :=
  match v with VInt n => (least <=? n) && (n <=? most) | _ => false end.

(** [validate_manifest_shape] *)
Definition validate_manifest_shape (data : pyval) : outcome pyobject :=
  let invalid := value_error_of "Invalid fuzz manifest" in
  match data with
  | VDict d =>
    _ ← check (keys_within d [&"schema"; &"language"; &"setup"; &"targets"; &"go-version-file"; &"preflight"; &"preflight-paths"]
               && int_within 1 1 (get_key "schema" d)) invalid;
    known ← py_in (get_key "language" d) [&"go"; &"rust"; &"python"; &"javascript"; &"c"; &"jvm"];
    _ ← check ((known : bool) && list_within 0 16 (get_key "setup" d) && list_within 1 12 (get_key "targets" d)) invalid;
    Ok d
  | _ => Raise invalid
  end.

Definition letter (c : N) : bool := in_range 65 90 c || in_range 97 122 c || one_of "_" c.
Definition module_name : regex := Char letter ⋅ Star (Char (λ c, letter c || is_digit c || one_of ".-" c)).
Definition function_name : regex := Char letter ⋅ Star (Char (λ c, letter c || is_digit c || one_of "." c)).
Definition target_name : regex :=
  Char (in_range 97 122) ⋅ rep_upto 49 (Char (λ c, in_range 97 122 c || is_digit c || one_of "-" c)).

Definition declaration_ok (v : pyval) : bool :=
  match v with
  | VDict d => same_keys (dict_keys d) [&"module"; &"functions"] && str_match module_name (get_key "module" d)
               && list_within 1 32 (get_key "functions" d)
               && forallb (str_match function_name) (list_value (get_key "functions" d))
  | _ => false
  end.

Definition runner_options : list pystr :=
  [&"-fuzztime"; &"-fuzzminimizetime"; &"-parallel"; &"-timeout"; &"-max_total_time"; &"-rss_limit_mb"; &"-artifact_prefix";
   &"-runs"; &"-jobs"; &"-workers"].

Section manifest.
Context (confined : pystr → outcome unit) (plain_file : pystr → bool).

Definition confined_path (v : pyval) : outcome unit := p ← fuzz_relative v; confined p.

(** [validate_target]: the target, and the names seen so far. *)
Definition validate_target (target : pyval) (names : list pystr) : outcome (list pystr) :=
  let invalid := value_error_of "Invalid, duplicated or unbounded fuzz target" in
  match target with
  | VDict d =>
    let name := get_key "name" d in
    _ ← check (keys_within d [&"name"; &"engine"; &"command"; &"seconds"; &"cwd"; &"corpus"; &"instrumentation"]
               && str_match target_name name && negb (bool_decide (str_value name ∈ names))) invalid;
    known ← py_in (get_key "engine" d) [&"go"; &"libfuzzer"; &"atheris"];
    _ ← check ((known : bool) && int_within 1 120 (get_key "seconds" d)) invalid;
    command ← argv (get_key "command" d);
    _ ← confined_path (get_default (&"cwd") (VStr (&".")) d);
    _ ← (if dict_has (&"corpus") d then confined_path (get_key "corpus" d) else Ok tt);
    _ ← (if dict_has (&"instrumentation") d then
           _ ← check (text_is (get_key "engine" d) (&"atheris") && list_within 1 32 (get_key "instrumentation" d))
                 (value_error_of "Instrumentation declarations require bounded Atheris functions");
           check (forallb declaration_ok (list_value (get_key "instrumentation" d)))
             (value_error_of "Invalid production instrumentation declaration")
         else Ok tt);
    _ ← check (negb (existsb (λ a, bool_decide ((partition (chr "=") a).1 ∈ runner_options)) command))
          (value_error_of "Fuzz target cannot override runner limits");
    Ok (names ++ [str_value name])
  | _ => Raise invalid
  end.

Fixpoint validate_targets (targets : list pyval) (names : list pystr) : outcome (list pystr) :=
  match targets with
  | [] => Ok names
  | t :: targets => names ← validate_target t names; validate_targets targets names
  end.

Definition target_seconds (v : pyval) : Z :=
  match v with VDict d => match get_key "seconds" d with VInt n => n | _ => 0 end | _ => 0 end.
Definition total_seconds (targets : list pyval) : Z := foldr (λ t n, target_seconds t + n) 0 targets.

(** [go_module_directory] *)
Definition go_module_directory (v : pyval) : outcome unit :=
  p ← fuzz_relative v;
  _ ← confined p;
  check (plain_file p) (value_error_of "go-version-file must be an existing regular file without symlinks").

(** [manifest] of the file's bytes *)
Definition fuzz_manifest (raw : bytes) : outcome pyobject :=
  _ ← check (Z.of_nat (length raw) <=? 65536) (value_error_of "Fuzz manifest is too large");
  text ← decode_json raw;
  data ← json_loads keep_last text;
  d ← validate_manifest_shape data;
  _ ← for_each (λ c, _ ← argv c; Ok tt) (list_value (get_key "setup" d));
  let preflight := get_default (&"preflight") (VList []) d in
  _ ← check (list_within 0 16 preflight) (value_error_of "Preflight commands must be a bounded list");
  _ ← for_each (λ c, _ ← argv c; Ok tt) (list_value preflight);
  let paths := get_default (&"preflight-paths") (VList []) d in
  _ ← check (list_within 0 128 paths) (value_error_of "Preflight paths must be a bounded list");
  _ ← for_each confined_path (list_value paths);
  _ ← (if dict_has (&"go-version-file") d then
         _ ← check (text_is (get_key "language" d) (&"go")) (value_error_of "go-version-file is only valid for Go");
         go_module_directory (get_key "go-version-file" d)
       else Ok tt);
  let targets := list_value (get_key "targets" d) in
  _ ← validate_targets targets [];
  _ ← check (total_seconds targets <=? 600) (value_error_of "Fuzz campaign budget exceeds ten minutes");
  Ok d.
End manifest.

(** ** The report *)

Definition report_error (text : string) : exn := value_error_of text.

(** [type(d.get(k)) is type(v) and d.get(k) == v] for strings, integers and booleans *)
Definition typed_items (expected : pyobject) (d : pyobject) : bool :=
  forallb (λ kv, bool_decide (get_default kv.1 VNone d = kv.2)) expected.

Definition dict_of (v : pyval) : pyobject := match v with VDict d => d | _ => [] end.

(** One reported target against its configuration. *)
Definition target_agrees (t c : pyval) : bool :=
  py_eq (get_key "name" (dict_of t)) (get_key "name" (dict_of c))
  && py_eq (get_key "seconds" (dict_of t)) (get_key "seconds" (dict_of c))
  && py_eq (get_key "exit_code" (dict_of t)) (VInt 0).

Fixpoint all_pairs {A B} (f : A → B → bool) (l : list A) (k : list B) : bool :=
  match l, k with
  | x :: l, y :: k => f x y && all_pairs f l k
  | [], [] => true
  | _, _ => false
  end.

(** [verify_target_inventory] *)
Definition verify_target_inventory (targets : pyval) (configured : list pyval) : outcome unit :=
  check (is_list targets
         && forallb (λ t, is_dict t && type_is_int (get_key "seconds" (dict_of t)) && type_is_int (get_key "exit_code" (dict_of t)))
              (list_value targets)
         && all_pairs target_agrees (list_value targets) configured)
    (report_error "Fuzz report target inventory mismatch").

(** The declared functions of a target, by module. *)
Definition declared_functions (target : pyobject) : list (pyval * pyval) :=
  list_value (get_default (&"instrumentation") (VList []) target) ≫= λ item,
    (λ f, (get_key "module" (dict_of item), f)) <$> list_value (get_key "functions" (dict_of item)).

Definition positive_int (v : pyval) : bool := match v with VInt n => 0 <? n | _ => false end.

(** [verify_python_proof] *)
Definition verify_python_proof (proof : pyval) (target : pyobject) : outcome unit :=
  let expected := declared_functions target in
  _ ← check (is_dict proof && py_eq (get_key "target" (dict_of proof)) (get_key "name" target) && negb (bool_decide (expected = [])))
        (report_error "Python instrumentation evidence differs from declared functions");
  let d := dict_of proof in
  _ ← check (text_is (get_key "engine" d) (&"atheris") && positive_int (get_key "executions" d))
        (report_error "Python preflight evidence requires positive engine execution metrics");
  let actual := get_key "instrumentation" d in
  _ ← check (is_list actual && forallb is_dict (list_value actual)) (report_error "Malformed Python instrumentation evidence");
  check (all_pairs (λ item e, py_eq (get_key "module" (dict_of item)) e.1 && py_eq (get_key "function" (dict_of item)) e.2)
           (list_value actual) expected)
    (report_error "Python instrumentation evidence differs from declared functions").

Definition metrics_ok (t c : pyval) : bool :=
  py_eq (get_key "engine" (dict_of t)) (get_key "engine" (dict_of c)) && positive_int (get_key "executions" (dict_of t)).

(** [for x, y in zip(l, k)] with a check that may fail. *)
Fixpoint for_pairs {A B} (f : A → B → outcome unit) (l : list A) (k : list B) : outcome unit :=
  match l, k with
  | x :: l, y :: k => _ ← f x y; for_pairs f l k
  | _, _ => Ok tt
  end.

(** [verify_preflight_evidence] *)
Definition verify_preflight_evidence (data config : pyobject) : outcome unit :=
  let configured := list_value (get_key "targets" config) in
  if py_eq (get_key "schema" data) (VInt 1) then
    check (negb (truthy (get_key "preflight" config) || existsb (λ t, truthy (get_key "instrumentation" (dict_of t))) configured))
      (report_error "Declared preflight evidence requires a schema-2 fuzz report")
  else
    let evidence := get_key "preflight" data in
    let d := dict_of evidence in
    _ ← check (is_dict evidence
               && py_eq (get_key "commands" d)
                    (VInt (Z.of_nat (length (list_value (get_default (&"preflight") (VList []) config))))))
          (report_error "Fuzz report preflight command inventory mismatch");
    _ ← check (forallb (λ tc, metrics_ok tc.1 tc.2) (zip (list_value (get_key "targets" data)) configured))
          (report_error "Fuzz report requires positive engine execution metrics");
    if negb (text_is (get_key "language" config) (&"python")) then Ok tt
    else
      let proofs := get_key "python_targets" d in
      _ ← check (is_list proofs && (length (list_value proofs) =? length configured)%nat)
            (report_error "Fuzz report requires Python instrumentation evidence");
      for_pairs (λ proof target, verify_python_proof proof (dict_of target)) (list_value proofs) configured.

(** What a report must say of its run. *)
Definition report_identity (repository sha : pystr) (run attempt : Z) (manifest_sha256 : pystr) : pyobject :=
  [(&"repository", VStr repository); (&"source_sha", VStr sha); (&"run_id", VInt run); (&"run_attempt", VInt attempt);
   (&"channel", VStr (&"rc")); (&"private", VBool false); (&"manifest_sha256", VStr manifest_sha256);
   (&"status", VStr (&"passed")); (&"network", VStr (&"isolated"))].

(** [verify_report]; the report and the manifest are the bytes of the files. *)
Definition verify_report (confined : pystr → outcome unit) (plain_file : pystr → bool) (sha256_hex : bytes → pystr)
    (report manifest : bytes) (repository sha : pystr) (run attempt : Z) : outcome unit :=
  text ← decode_json report;
  v ← json_loads keep_last text;
  config ← fuzz_manifest confined plain_file manifest;
  data ← as_dict v;
  _ ← check (int_within 1 2 (get_key "schema" data)
             && typed_items (report_identity repository sha run attempt (sha256_hex manifest)) data)
        (report_error "Fuzz report identity or outcome mismatch");
  _ ← verify_target_inventory (get_default (&"targets") (VList []) data) (list_value (get_key "targets" config));
  verify_preflight_evidence data config.

(** ** Engine logs *)

(** The numbers a pattern finds in a log; the last group is the number. *)
Definition found_numbers (groups : list pattern) (log : pystr) : list Z :=
  (λ m : nat * list nat,
     let stop := List.last m.2 m.1 in
     let start := List.last (removelast m.2) m.1 in
     int_of_digits (take (stop - start) (drop start log))) <$> find_all (λ _, true) (groups ++ [pplus (PChar is_digit)]) log 0.

Definition executions_pattern (engine : pystr) : list pattern :=
  if bool_decide (engine = &"go")
  then [pchars (&"fuzz:"); PLazy (PChar (λ c, negb (c =? 10)%N)); pchars (&"execs:"); PStar (PChar is_space)]
  else [pchars (&"Done ")].

(** The matches of a pattern for numbers that must be followed by [after]. *)
Definition execution_counts (engine log : pystr) : list Z :=
  if bool_decide (engine = &"go") then found_numbers (executions_pattern engine) log
  else (λ m : nat * list nat,
          let stop := nth 1 m.2 0%nat in let start := nth 0 m.2 0%nat in
          int_of_digits (take (stop - start) (drop start log)))
       <$> find_all (λ _, true) (executions_pattern engine ++ [pplus (PChar is_digit); pchars (&" runs in")]) log 0.

(** [exercised] *)
Definition exercised (engine log : pystr) : bool := existsb (λ n, 0 <? n) (execution_counts engine log).

(** ** Receipts *)

(** [split_receipts] *)
Definition receipt_field (r : pyval) : outcome pyval := d ← as_dict r; item (&"name") d.
Definition is_fuzz_receipt (r : pyval) : outcome bool := n ← receipt_field r; Ok (text_is n (&"release-inputs-fuzz.json")).
Definition split_receipts (receipts : list pyval) : outcome (list pyval * list pyval) :=
  validation ← select is_fuzz_receipt receipts;
  let refused := value_error_of "Fuzz validation receipt must cover exactly the RC report" in
  match validation with
  | [r] =>
    d ← as_dict r;
    v ← item (&"inputs") d;
    inputs ← as_dict v;
    artifacts ← iterate (get_default (&"artifacts") (VList []) inputs);
    names ← collect (λ a, a ← as_dict a; Ok (get_key "name" a)) artifacts;
    _ ← check (all_pairs text_is names [REPORT]) refused;
    Ok (filter (λ x, py_eq x r = false) receipts, validation)
  | _ => Raise refused
  end.

(** ** What an accepted fuzzing report shows

    The targets of the reviewed manifest, all of them and no others, ran to their
    declared time and exited cleanly, within the budget of the campaign. *)

Lemma int_within_spec a b v : int_within a b v = true → ∃ n, v = VInt n ∧ a ≤ n ≤ b.
Proof. destruct v as [| |n| | | | |]; try done. cbn. intros H. exists n. split; [done|]. lia. Qed.

Lemma list_within_spec a b v : list_within a b v = true → ∃ l, v = VList l ∧ a ≤ Z.of_nat (length l) ≤ b.
Proof. unfold list_within. destruct v as [| | | | | |l|]; try done. cbn. intros H. exists l. split; [done|]. lia. Qed.

Lemma all_pairs_Forall2 {A B} (f : A → B → bool) l k : all_pairs f l k = true ↔ Forall2 (λ x y, f x y = true) l k.
Proof.
  revert k. induction l as [|x l IH]; intros [|y k]; cbn; split; intros H; try done; try by inversion H.
  - apply andb_true_iff in H as [H1 H2]. constructor; [done|by apply IH].
  - inversion H; subst. apply andb_true_iff. split; [done|by apply IH].
Qed.

Lemma for_pairs_ok {A B} (f : A → B → outcome unit) l k :
  for_pairs f l k = Ok tt → length l = length k → Forall2 (λ x y, f x y = Ok tt) l k.
Proof.
  revert k. induction l as [|x l IH]; intros [|y k] H Hl; cbn in *; try done. apply bind_ok in H as ([] & Hx & H).
  constructor; [done|]. apply IH; [done|]. by injection Hl.
Qed.

Lemma typed_items_ok expected d k v : typed_items expected d = true → (k, v) ∈ expected → v ≠ VNone → dict_get k d = Some v.
Proof.
  unfold typed_items. rewrite forallb_forall. intros H Hin Hv. specialize (H (k, v)). rewrite <-list_elem_of_In in H.
  specialize (H Hin). apply bool_decide_eq_true in H. cbn in H. unfold get_default in H. by destruct (dict_get k d); cbn in H; [subst|].
Qed.

(** ** The manifest *)

(** A reviewed target: its name is not in [names], its engine known, its time
    bounded, and its options leave the limits to the runner. *)
Definition reviewed_target (names : list pystr) (target : pyval) : Prop :=
  ∃ d name engine seconds command,
    target = VDict d ∧ get_key "name" d = VStr name ∧ fullmatch target_name name = true ∧ name ∉ names
    ∧ get_key "engine" d = VStr engine ∧ engine ∈ [&"go"; &"libfuzzer"; &"atheris"]
    ∧ get_key "seconds" d = VInt seconds ∧ 1 ≤ seconds ≤ 120
    ∧ get_key "command" d = VList (VStr <$> command)
    ∧ ∀ a, a ∈ command → (partition (chr "=") a).1 ∉ runner_options.

Definition name_of (target : pyval) : pystr := str_value (get_key "name" (dict_of target)).

Section manifest.
Context (confined : pystr → outcome unit) (plain_file : pystr → bool).

Lemma argv_ok v l : argv v = Ok l → v = VList (VStr <$> l).
Proof.
  unfold argv. cbv zeta. intros H. apply bind_ok in H as ([] & Hc%check_ok & [= <-]). destruct v as [| | | | | |vs|]; try done.
  cbn [list_value] in *. apply andb_true_iff in Hc as [_ Hc]. f_equal. induction vs as [|x vs IH]; [done|].
  cbn [forallb] in Hc. apply andb_true_iff in Hc as [Hx Hc]. destruct x; try done. cbn. f_equal. by apply IH.
Qed.

Lemma validate_target_ok target names names' :
  validate_target confined target names = Ok names' → reviewed_target names target ∧ names' = names ++ [name_of target].
Proof.
  destruct target as [| | | | | | |d]; try done. cbn [validate_target]. cbv zeta. intros H.
  apply bind_ok in H as ([] & H1%check_ok & H). apply andb_true_iff in H1 as [H1 Hnew%negb_true_iff]. apply andb_true_iff in H1 as [_ Hname].
  apply bind_ok in H as (known & Hk & H). apply bind_ok in H as ([] & H2%check_ok & H). apply andb_true_iff in H2 as [-> Hsec].
  apply py_in_true in Hk as (engine & He & Hin). apply int_within_spec in Hsec as (seconds & Hsec & Hb).
  apply bind_ok in H as (command & Hcmd%argv_ok & H). apply bind_ok in H as ([] & _ & H). apply bind_ok in H as ([] & _ & H).
  apply bind_ok in H as ([] & _ & H). apply bind_ok in H as ([] & Hres%check_ok%negb_true_iff & [= <-]).
  apply bool_decide_eq_false in Hnew. destruct (get_key "name" d) as [| | | |name| | |] eqn:En; try done. cbn [str_value str_match] in *.
  split; [|by unfold name_of; cbn [dict_of]; rewrite En]. exists d, name, engine, seconds, command. split_and!; try done; try lia.
  intros a Ha Hopt. apply not_true_iff_false in Hres. apply Hres, existsb_exists_elem. exists a. split; [done|]. by apply bool_decide_eq_true.
Qed.

Lemma validate_targets_ok targets names names' :
  validate_targets confined targets names = Ok names' → NoDup names →
  Forall (reviewed_target []) targets ∧ names' = names ++ (name_of <$> targets) ∧ NoDup names'.
Proof.
  revert names. induction targets as [|t targets IH]; intros names H Hnd; cbn [validate_targets] in H.
  { injection H as <-. split_and!; [constructor|by rewrite app_nil_r|done]. }
  apply bind_ok in H as (names1 & Ht & H). apply validate_target_ok in Ht as [Ht ->].
  assert (name_of t ∉ names) as Hnew.
  { destruct Ht as (d & name & ? & ? & ? & -> & Hn & _ & Hnew & _). unfold name_of. cbn [dict_of]. by rewrite Hn. }
  destruct (IH _ H) as (Hall & -> & Hnd').
  { apply NoDup_app. split_and!; [done| |apply NoDup_singleton]. intros x Hx ->%list_elem_of_singleton. done. }
  split_and!; [|by rewrite <-app_assoc|done]. constructor; [|done].
  destruct Ht as (d & name & engine & seconds & command & ? & ? & ? & _ & ?). exists d, name, engine, seconds, command.
  split_and!; try tauto. apply not_elem_of_nil.
Qed.

Lemma fuzz_manifest_ok raw config :
  fuzz_manifest confined plain_file raw = Ok config →
  ∃ targets, get_key "targets" config = VList targets ∧ 1 ≤ Z.of_nat (length targets) ≤ 12
    ∧ Forall (reviewed_target []) targets ∧ NoDup (name_of <$> targets) ∧ total_seconds targets ≤ 600.
Proof.
  unfold fuzz_manifest. intros H. apply bind_ok in H as ([] & _ & H). apply bind_ok in H as (text & _ & H).
  apply bind_ok in H as (data & _ & H). apply bind_ok in H as (d & Hshape & H).
  do 5 apply bind_ok in H as ([] & _ & H). apply bind_ok in H as ([] & _ & H).
  apply bind_ok in H as (names & Hn & H). apply bind_ok in H as ([] & Hsum%check_ok & [= ->]).
  destruct data as [| | | | | | |d']; try done. cbn [validate_manifest_shape] in Hshape.
  apply bind_ok in Hshape as ([] & _ & Hshape). apply bind_ok in Hshape as (known & _ & Hshape).
  apply bind_ok in Hshape as ([] & Hl%check_ok & [= ->]). apply andb_true_iff in Hl as [_ Hl].
  apply list_within_spec in Hl as (targets & Ht & Hlen). rewrite Ht in *. cbn [list_value] in *.
  apply validate_targets_ok in Hn as (Hall & -> & Hnd); [|constructor]. exists targets. cbn [app] in Hnd.
  split_and!; try done; try lia.
Qed.
End manifest.

(** ** The report *)

(** A reported run of a configured target. *)
Definition target_run (reported target : pyval) : Prop :=
  ∃ r c name seconds, reported = VDict r ∧ target = VDict c
    ∧ get_key "name" r = VStr name ∧ get_key "name" c = VStr name
    ∧ get_key "seconds" r = VInt seconds ∧ get_key "seconds" c = VInt seconds ∧ get_key "exit_code" r = VInt 0.

Lemma target_agrees_ok r c :
  reviewed_target [] c → is_dict r && type_is_int (get_key "seconds" (dict_of r)) && type_is_int (get_key "exit_code" (dict_of r)) = true →
  target_agrees r c = true → target_run r c.
Proof.
  intros (d & name & engine & seconds & command & -> & Hn & _ & _ & _ & _ & Hs & _) Hr Ha.
  apply andb_true_iff in Hr as [Hr He]. apply andb_true_iff in Hr as [Hd Hsec]. destruct r as [| | | | | | |r]; try done.
  unfold target_agrees in Ha. cbn [dict_of] in *. rewrite Hn, Hs in Ha. apply andb_true_iff in Ha as [Ha Hx].
  apply andb_true_iff in Ha as [Hna Hse]. exists r, d, name, seconds. split_and!; try done.
  - by apply py_eq_str.
  - by apply py_eq_int.
  - by apply py_eq_int.
Qed.

Lemma target_inventory_ok v configured :
  verify_target_inventory v configured = Ok tt → Forall (reviewed_target []) configured →
  ∃ reported, v = VList reported ∧ Forall2 target_run reported configured.
Proof.
  intros H%check_ok Hc. apply andb_true_iff in H as [H Hp]. apply andb_true_iff in H as [Hl Ht].
  destruct v as [| | | | | |reported|]; try done. cbn [list_value] in *. exists reported. split; [done|].
  apply all_pairs_Forall2 in Hp. induction Hp as [|r c reported configured Hrc Hp IH]; [constructor|].
  cbn [forallb] in Ht. apply andb_true_iff in Ht as [Hr Ht]. inversion Hc; subst. constructor; [by apply target_agrees_ok|by apply IH].
Qed.

(** The evidence of a schema-2 report: every engine counted executions, and in a
    Python project every declared function of a target was seen instrumented. *)
Definition proven_target (proof target : pyval) : Prop :=
  ∃ p n, proof = VDict p ∧ py_eq (get_key "target" p) (get_key "name" (dict_of target)) = true
    ∧ get_key "executions" p = VInt n ∧ 0 < n ∧ declared_functions (dict_of target) ≠ []
    ∧ Forall2 (λ item e, py_eq (get_key "module" (dict_of item)) e.1 = true ∧ py_eq (get_key "function" (dict_of item)) e.2 = true)
        (list_value (get_key "instrumentation" p)) (declared_functions (dict_of target)).

Lemma positive_int_spec v : positive_int v = true → ∃ n, v = VInt n ∧ 0 < n.
Proof. destruct v; try done. cbn. intros H%Z.ltb_lt. eauto. Qed.

Lemma python_proof_ok proof target : verify_python_proof proof (dict_of target) = Ok tt → proven_target proof target.
Proof.
  unfold verify_python_proof. cbv zeta. intros H. apply bind_ok in H as ([] & H1%check_ok & H).
  apply bind_ok in H as ([] & H2%check_ok & H). apply bind_ok in H as ([] & H3%check_ok & H4%check_ok).
  apply andb_true_iff in H1 as [H1 Hne%negb_true_iff]. apply bool_decide_eq_false in Hne. apply andb_true_iff in H1 as [Hd Ht].
  apply andb_true_iff in H2 as [_ (n & Hn & Hpos)%positive_int_spec]. destruct proof as [| | | | | | |p]; try done. cbn [dict_of] in *.
  exists p, n. split_and!; try done. apply all_pairs_Forall2 in H4. eapply Forall2_impl; [exact H4|].
  intros item e. by rewrite andb_true_iff.
Qed.

Lemma preflight_evidence_ok data config reported configured :
  verify_preflight_evidence data config = Ok tt → get_key "schema" data = VInt 2 →
  get_key "targets" data = VList reported → get_key "targets" config = VList configured → length reported = length configured →
  Forall2 (λ r _, ∃ n, get_key "executions" (dict_of r) = VInt n ∧ 0 < n) reported configured
  ∧ (get_key "language" config = VStr (&"python") →
     ∃ evidence proofs, get_key "preflight" data = VDict evidence ∧ get_key "python_targets" evidence = VList proofs
       ∧ Forall2 proven_target proofs configured).
Proof.
  unfold verify_preflight_evidence. intros H Hs Hr Hc Hlen. rewrite Hs, Hr, Hc in H. cbv zeta in H. cbn [list_value] in H.
  change (py_eq (VInt 2) (VInt 1)) with false in H. cbn iota in H. apply bind_ok in H as ([] & H1%check_ok & H).
  apply bind_ok in H as ([] & H2%check_ok & H). split.
  - clear -H2 Hlen. revert configured Hlen H2. induction reported as [|r reported IH]; intros [|c configured] Hlen H2; try done.
    cbn in H2. apply andb_true_iff in H2 as [Hm H2]. unfold metrics_ok in Hm. cbn in Hm.
    apply andb_true_iff in Hm as [_ Hm%positive_int_spec]. constructor; [done|]. apply IH; [by injection Hlen|done].
  - intros Hpy. rewrite Hpy in H. unfold text_is in H. rewrite (proj2 (py_eq_str _ _) eq_refl) in H. cbn [negb] in H.
    apply bind_ok in H as ([] & H3%check_ok & H). apply andb_true_iff in H1 as [Hd _]. apply andb_true_iff in H3 as [Hl Hn%Nat.eqb_eq].
    destruct (get_key "preflight" data) as [| | | | | | |evidence]; try done. cbn [dict_of] in *.
    destruct (get_key "python_targets" evidence) as [| | | | | |proofs|] eqn:Ep; try done. cbn [list_value] in *.
    exists evidence, proofs. split_and!; [done..|]. apply for_pairs_ok in H; [|done]. eapply Forall2_impl; [exact H|].
    intros proof target. apply python_proof_ok.
Qed.

(** an accepted fuzzing report covers the reviewed campaign.  The manifest whose
    digest the report carries holds between one and twelve targets with distinct
    names, known engines, at most two minutes each and ten minutes together, and no
    option that overrides the runner's limits.  The report belongs to this
    repository, commit, run and attempt, says that the campaign passed without
    network, and lists exactly these targets in order, each run for its full time
    with exit code zero; by its second schema also with executions counted and, for
    Python, every declared function instrumented. *)
Theorem report_covers_campaign confined plain_file sha256_hex report manifest repository sha run attempt :
  verify_report confined plain_file sha256_hex report manifest repository sha run attempt = Ok tt →
  ∃ config data targets reported,
    fuzz_manifest confined plain_file manifest = Ok config ∧ get_key "targets" config = VList targets
    ∧ 1 ≤ Z.of_nat (length targets) ≤ 12 ∧ Forall (reviewed_target []) targets ∧ NoDup (name_of <$> targets)
    ∧ total_seconds targets ≤ 600
    ∧ (∀ k v, (k, v) ∈ report_identity repository sha run attempt (sha256_hex manifest) → dict_get k data = Some v)
    ∧ dict_get (&"targets") data = Some (VList reported) ∧ Forall2 target_run reported targets
    ∧ (get_key "schema" data = VInt 1 ∨
       get_key "schema" data = VInt 2
       ∧ Forall2 (λ r _, ∃ n, get_key "executions" (dict_of r) = VInt n ∧ 0 < n) reported targets
       ∧ (get_key "language" config = VStr (&"python") →
          ∃ evidence proofs, get_key "preflight" data = VDict evidence ∧ get_key "python_targets" evidence = VList proofs
            ∧ Forall2 proven_target proofs targets)).
Proof.
  unfold verify_report. intros H. apply bind_ok in H as (text & _ & H). apply bind_ok in H as (v & _ & H).
  apply bind_ok in H as (config & Hm & H). apply bind_ok in H as (data & _ & H). apply bind_ok in H as ([] & Hid%check_ok & H).
  apply andb_true_iff in Hid as [(schema & Hschema & Hb)%int_within_spec Hid].
  apply bind_ok in H as ([] & Hinv & Hpre). destruct (fuzz_manifest_ok _ _ _ _ Hm) as (targets & Ht & Hlen & Hall & Hnd & Hsum).
  rewrite Ht in Hinv. cbn [list_value] in Hinv. apply target_inventory_ok in Hinv as (reported & Hr & Hruns); [|done].
  assert (dict_get (&"targets") data = Some (VList reported)) as Hrep.
  { unfold get_default in Hr. destruct (dict_get (&"targets") data); cbn in Hr; [by subst|]. injection Hr as <-.
    inversion Hruns; subst. cbn in Hlen. lia. }
  exists config, data, targets, reported. split_and!; try done; try lia.
  - intros k w Hin. eapply typed_items_ok; [done..|]. unfold report_identity in Hin. rewrite !elem_of_cons, elem_of_nil in Hin.
    naive_solver.
  - assert (schema = 1 ∨ schema = 2) as [->| ->] by lia; [by left|right]. split; [done|].
    eapply preflight_evidence_ok; [done..| | |].
    + unfold get_key, get_default. change (lit "targets") with (&"targets"). by rewrite Hrep.
    + done.
    + by eapply Forall2_length.
Qed.

(** ** A concrete report *)

Definition document_bytes (v : pyval) : bytes := match json_bytes (λ _, []) v with Ok b => b | Raise _ => [] end.

Definition demo_target : pyval :=
  VDict [(&"name", VStr (&"topics")); (&"engine", VStr (&"atheris")); (&"seconds", VInt 60);
         (&"command", VList [VStr (&"python"); VStr (&"fuzz/fuzz_topics.py")]);
         (&"instrumentation", VList [VDict [(&"module", VStr (&"core.topics")); (&"functions", VList [VStr (&"authorize")])]])].

Definition demo_fuzz_manifest : bytes :=
  document_bytes (VDict [(&"schema", VInt 1); (&"language", VStr (&"python")); (&"setup", VList []);
                         (&"targets", VList [demo_target])]).

Definition demo_report : bytes :=
  document_bytes (VDict (report_identity (&"o/r") (replicate 40 (chr "a")) 7 1 (&"digest") ++
    [(&"schema", VInt 2);
     (&"targets", VList [VDict [(&"name", VStr (&"topics")); (&"seconds", VInt 60); (&"exit_code", VInt 0);
                                (&"engine", VStr (&"atheris")); (&"executions", VInt 12)]]);
     (&"preflight", VDict [(&"commands", VInt 0);
       (&"python_targets", VList [VDict [(&"target", VStr (&"topics")); (&"engine", VStr (&"atheris")); (&"executions", VInt 3);
         (&"instrumentation", VList [VDict [(&"module", VStr (&"core.topics")); (&"function", VStr (&"authorize"))]])]])])])).

Definition demo_verify : outcome unit :=
  verify_report (λ _, Ok tt) (λ _, true) (λ _, &"digest") demo_report demo_fuzz_manifest (&"o/r") (replicate 40 (chr "a")) 7 1.

Lemma report_covers_campaign_witness :
  demo_verify = Ok tt ∧ ∃ config targets, fuzz_manifest (λ _, Ok tt) (λ _, true) demo_fuzz_manifest = Ok config
    ∧ get_key "targets" config = VList targets ∧ total_seconds targets ≤ 600.
Proof.
  assert (demo_verify = Ok tt) as Hok by (vm_compute; reflexivity). split; [exact Hok|].
  destruct (report_covers_campaign _ _ _ _ _ _ _ _ _ Hok) as (config & data & targets & reported & Hm & Ht & _ & _ & _ & Hsum & _).
  exists config, targets. split_and!; [exact Hm|exact Ht|exact Hsum].
Defined.
