(* ===== verification/ReleasePolicy.v ===== *)
(** * The release policy of a source commit ([scripts/release_control.py])

    The policy file at the commit of a candidate, its checks, and the validation
    profiles that follow from it.  SHA-1 (Git's object identifier) and SHA-256 are
    parameters. *)

From Stdlib Require Import QArith.QArith Strings.Byte.
From S2P Require Import Prelude PyStr PyDict PyRegex PyVal PyJson Base64 VersionPlan Release ReleaseValidation OciMetadata Fuzz.
#[local] Open Scope Z_scope.

Definition POLICY : pystr := &".release-policy.json".

(** [except ValueError as error: raise ReleaseError(str(error))] *)
Definition as_release {A} (m : outcome A) : outcome A := catch m is_value_error (λ e, Raise (release_error (exn_text e))).

(** [v.lower()] *)
Definition lower_of `{UnicodeCase} (v : pyval) : outcome pystr :=
  match v with VStr s => Ok (str_lower s) | _ => Raise attribute_error end.

(** [v in (a, b)] for strings: equality, not hashing *)
Definition among (v : pyval) (names : list pystr) : bool := existsb (text_is v) names.

Section policy.
Context `{UnicodeCase} (repo : pystr).

(** [require_fuzzing_policy] *)
Definition require_fuzzing_policy (policy : pyobject) : outcome unit :=
  if in_dict (&"fuzzing") policy then _ ← as_release (configuration policy); Ok tt else Ok tt.

(** The blockers of one field. *)
Definition check_blockers (policy : pyobject) (qualified : bool) (name : pystr) : outcome unit :=
  let blockers := get_default name (VList []) policy in
  _ ← release_require (is_list blockers
                       && forallb (λ v, is_str v && negb (bool_decide (strip (str_value v) = []))) (list_value blockers))
        "Source policy blockers must be a list of nonempty strings";
  if qualified then release_require (bool_decide (list_value blockers = [])) "Source policy has unresolved blockers" else Ok tt.

(** [require_release_policy] *)
Definition require_release_policy (policy : pyval) (qualified : bool) : outcome unit :=
  match policy with
  | VDict d =>
    let repository := get_key "repository" d in
    _ ← release_require (is_str repository && bool_decide (str_lower (str_value repository) = str_lower repo))
          "Source policy repository mismatch";
    _ ← release_require (text_is (get_key "mode" d) (&"release")) "Source policy mode must be release";
    _ ← require_fuzzing_policy d;
    _ ← (if in_dict (&"channel_validation_workflows") d then _ ← as_release (channel_workflows d); Ok tt else Ok tt);
    for_each (check_blockers d qualified) [&"release_blockers"; &"stable_blockers"]
  | _ => Raise (release_error "Source release policy must be an object")
  end.

(** [validation_profile] *)
Definition validation_profile (policy : pyobject) (channel : pystr) : outcome pyval :=
  if in_dict (&"channel_validation_workflows") policy
  then p ← as_release (profile policy channel); Ok match p with Some d => VDict d | None => VNone end
  else Ok VNone.

(** [validate_policy_snapshot] *)
Definition validate_policy_snapshot (snapshot : pyval) : outcome unit :=
  let d := dict_of snapshot in
  _ ← release_require (is_dict snapshot && bool_decide (get_key "schema" d = VInt 1) && text_is (get_key "path" d) POLICY)
        "Manifest requires a versioned source policy snapshot";
  _ ← release_require (str_match SHA_RE (get_key "git_blob_sha" d) && str_match SHA256 (get_key "sha256" d))
        "Invalid source policy snapshot hashes";
  require_release_policy (get_key "data" d) true.

(** *** At a commit *)

Context {G : Type} `{GitHub G} (sha1_hex sha256_hex : bytes → pystr).

(** [repository_info] *)
Definition repository_info : M G pyobject :=
  v ← gh_api [] (&"GET") None;
  lift (_ ← release_require (is_dict v) "Invalid repository response";
        let info := dict_of v in
        name ← lower_of (get_default (&"full_name") (VStr []) info);
        _ ← release_require (bool_decide (name = str_lower repo)) "Repository identity mismatch";
        _ ← release_require (truthy (get_key "default_branch" info)) "Repository has no default branch";
        Ok info).

(** The identifier of a blob. *)
Definition blob_sha (raw : bytes) : pystr :=
  sha1_hex ((byte_of <$> &"blob " ++ str_of_int (Z.of_nat (length raw)) ++ [0%N]) ++ raw).

(** The base64 text of the file in an answer of the contents API. *)
Definition contents_text (name : pystr) (irregular oversized : string) (v : pyval) : outcome pystr :=
  let d := dict_of v in
  _ ← release_require (is_dict v && text_is (get_key "type" d) (&"file") && text_is (get_key "path" d) name
                       && text_is (get_key "encoding" d) (&"base64")) irregular;
  let encoded := get_key "content" d in
  _ ← release_require (is_str encoded && (Z.of_nat (length (str_value encoded)) <=? 400000)) oversized;
  Ok (filter (λ c, is_space c = false) (str_value encoded)).

(** The size and the blob an answer claims. *)
Definition check_blob (raw : bytes) (size identity : string) (v : pyval) : outcome unit :=
  let d := dict_of v in
  _ ← release_require ((Z.of_nat (length raw) <=? 250000) && py_eq (get_key "size" d) (VInt (Z.of_nat (length raw)))) size;
  release_require (text_is (get_key "sha" d) (blob_sha raw)) identity.

(** [source_policy_snapshot] *)
Definition source_policy_snapshot (sha : pystr) : M G pyobject :=
  _ ← lift (release_require (fullmatch SHA_RE sha) "Invalid source policy commit SHA");
  v ← gh_api (&"contents/" ++ POLICY ++ &"?ref=" ++ sha) (&"GET") None;
  lift (text ← contents_text POLICY "Source commit must contain a regular release policy file"
                 "Invalid or oversized source policy content" v;
        raw ← catch (b64decode text) is_value_error (λ _, Raise (release_error "Invalid source policy base64 content"));
        _ ← check_blob raw "Source policy size mismatch" "Source policy Git blob identity mismatch" v;
        data ← parse_json raw;
        _ ← require_release_policy data false;
        Ok [(&"schema", VInt 1); (&"path", VStr POLICY); (&"git_blob_sha", VStr (blob_sha raw));
            (&"sha256", VStr (sha256_hex raw)); (&"data", data)]).

(** [require_current_fuzzing] *)
Definition require_current_fuzzing (candidate_policy : pyobject) (current_sha : pystr) : M G unit :=
  snapshot ← source_policy_snapshot current_sha;
  lift (v ← item (&"data") snapshot;
        current ← as_dict v;
        if in_dict (&"fuzzing") current then
          config ← configuration candidate_policy;
          release_require (match config with Some _ => true | None => false end)
            "Current release policy requires fuzzing; create a new RC after adoption"
        else Ok tt).

(** The path of the jobs of a run's attempt. *)
Definition jobs_path (run_id : Z) (attempt : pyval) : pystr :=
  &"actions/runs/" ++ str_of_int run_id ++ &"/attempts/" ++ py_str attempt ++ &"/jobs".

(** [validate_validation_run] *)
Definition validate_validation_run (run policy : pyobject) (channel : pystr) : M G unit :=
  expected ← lift (validation_profile policy channel);
  let has_profile := negb (bool_decide (expected = VNone)) in
  let has_fuzzing := in_dict (&"fuzzing") policy in
  if negb has_profile && negb has_fuzzing then mret tt
  else
    run_id ← lift (positive (get_key "id" run) "Invalid run ID");
    attempt ← lift (positive (get_key "run_attempt" run) "Invalid run attempt");
    values ← gh_pages (jobs_path run_id (VInt attempt)) (Some (&"jobs"));
    lift (as_release (
      jobs ← collect as_dict values;
      sha ← (if has_profile || has_fuzzing then item (&"head_sha") run else Ok VNone);
      _ ← (if has_profile then check_run_jobs jobs channel (str_value sha) else Ok tt);
      if has_fuzzing then check_fuzz_jobs jobs channel (str_value sha) else Ok tt)).
End policy.

Section manifest_profiles.
Context (float_repr : Q → pystr).

(** [json_bytes(v) == json_bytes(w)] *)
Definition same_document (v w : pyval) : outcome bool :=
  b ← json_bytes_indented float_repr v;
  c ← json_bytes_indented float_repr w;
  Ok (bool_decide (b = c)).

(** [{item["name"]: item for item in assets}]; only names that are strings can be
    looked up. *)
Fixpoint asset_index (assets : list pyval) (index : pydict pystr pyval) : outcome (pydict pystr pyval) :=
  match assets with
  | [] => Ok index
  | a :: assets =>
    d ← match a with VDict d => Ok d | _ => Raise (type_error_of "object is not subscriptable") end;
    name ← item (&"name") d;
    match name with
    | VStr s => asset_index assets (dict_set s a index)
    | VList _ | VDict _ => Raise (type_error_of "unhashable type")
    | _ => asset_index assets index
    end
  end.

(** [validate_fuzz_manifest] *)
Definition validate_fuzz_manifest (manifest policy : pyobject) : outcome unit :=
  if negb (in_dict (&"fuzzing") policy) then Ok tt
  else
    channel ← item (&"channel") manifest;
    expected ← fuzz_profile policy (str_value channel);
    same ← same_document (get_key "fuzzing_profile" manifest) expected;
    _ ← release_require same "Manifest fuzzing profile differs from its source policy/channel";
    if text_is channel (&"rc") then
      v ← item (&"assets") manifest;
      l ← iterate v;
      assets ← asset_index l [];
      let receipt := default (VDict []) (dict_get (&"release-inputs-fuzz.json") assets) in
      release_require (dict_has (&"fuzz-report.json") assets && truthy receipt
                       && py_eq (get_key "validation_receipts" manifest)
                            (VList [VDict [(&"name", VStr (&"release-inputs-fuzz.json")); (&"sha256", get_key "sha256" (dict_of receipt))]]))
        "RC fuzz validation evidence is absent from the immutable asset inventory"
    else Ok tt.

(** [validate_validation_manifest] *)
Definition validate_validation_manifest (manifest : pyobject) : outcome unit :=
  v ← item (&"source_policy") manifest;
  snapshot ← as_dict v;
  w ← item (&"data") snapshot;
  policy ← as_dict w;
  channel ← item (&"channel") manifest;
  expected ← validation_profile policy (str_value channel);
  same ← same_document (get_key "validation_profile" manifest) expected;
  _ ← release_require same "Manifest validation profile differs from its source policy/channel";
  validate_fuzz_manifest manifest policy.
End manifest_profiles.
