(* ===== verification/ReleaseRuns.v ===== *)
(** * Actions runs and their gate ([scripts/release_control.py])

    Which workflow run may publish: its provenance, the release gate among its
    jobs, the freshness of what a rerun claims to have executed, and the wait for
    GitHub's own bookkeeping.  The environment of the process, its event file and
    the checked-out commit are inputs; the clock is an interface. *)

From Stdlib Require Import QArith.QArith Strings.Byte.
From S2P Require Import Prelude PyStr PyDict PyRegex PyVal PyJson VersionPlan Release ReleaseValidation OciMetadata Fuzz ReleasePolicy.
#[local] Open Scope Z_scope.
#[local] Open Scope regex_scope.

Definition WORKFLOW_PATH : pystr := &".github/workflows/release-pipeline.yml".

(** ** Timestamps *)

(** The days before a year, and before a month of it. *)
Definition days_before_year (y : Z) : Z := let y := y - 1 in y * 365 + y / 4 - y / 100 + y / 400.
Definition days_before_month (y m : Z) : Z :=
  foldr (λ k n, days_in_month y k + n) 0 (Z.of_nat <$> seq 1 (Z.to_nat (m - 1))).

(** The number in [n] characters of a text from a position on. *)
Definition digits_at (text : pystr) (start n : nat) : Z := int_of_digits (take n (drop start text)).

Definition SECOND_US : Z := 1000000.
Definition DAY_US : Z := 86400 * SECOND_US.

(** The first microsecond after the year 9999, counted from the year 1. *)
Definition MAX_US : Z := days_before_year 10000 * DAY_US.

Definition local_time_re : regex :=
  rep 4 (Char is_digit) ⋅ chars (&"-") ⋅ rep 2 (Char is_digit) ⋅ chars (&"-") ⋅ rep 2 (Char is_digit) ⋅ chars (&"T")
  ⋅ rep 2 (Char is_digit) ⋅ chars (&":") ⋅ rep 2 (Char is_digit) ⋅ chars (&":") ⋅ rep 2 (Char is_digit)
  ⋅ opt (chars (&".") ⋅ Char is_digit ⋅ rep_upto 5 (Char is_digit)).

Definition offset_re : regex :=
  Char (one_of "+-") ⋅ (Char (one_of "01") ⋅ Char is_digit ⊹ chars (&"2") ⋅ Char (in_range 48 51)) ⋅ chars (&":")
  ⋅ Char (in_range 48 53) ⋅ Char is_digit.

(** [datetime.fromisoformat] of a local time of this form: microseconds. *)
Definition local_micros (text : pystr) : outcome Z :=
  let y := digits_at text 0 4 in let mo := digits_at text 5 2 in let d := digits_at text 8 2 in
  let h := digits_at text 11 2 in let mi := digits_at text 14 2 in let s := digits_at text 17 2 in
  let fraction := drop 20 text in
  let us := int_of_digits (fraction ++ replicate (6 - length fraction) (chr "0")) in
  _ ← check ((1 <=? y) && (1 <=? mo) && (mo <=? 12) && (1 <=? d) && (d <=? days_in_month y mo)
             && (h <=? 23) && (mi <=? 59) && (s <=? 59)) (value_error_of "Invalid isoformat string");
  Ok ((((days_before_year y + days_before_month y mo + (d - 1)) * 24 + h) * 60 + mi) * 60 * SECOND_US + s * SECOND_US + us).

Definition offset_micros (text : pystr) : Z :=
  let magnitude := (digits_at text 1 2 * 60 + digits_at text 4 2) * 60 * SECOND_US in
  if startswith (&"-") text then - magnitude else magnitude.

(** [_execution_timestamp] *)
Definition execution_timestamp (value : pyval) : outcome Z :=
  let malformed := "Missing or malformed timestamp"%string in
  match value with
  | VStr text =>
    let utc := endswith (&"Z") text in
    let local_time := take (length text - (if utc then 1 else 6)) text in
    let offset := drop (length text - 6) text in
    _ ← release_require (utc || fullmatch offset_re offset) malformed;
    _ ← release_require (fullmatch local_time_re local_time) malformed;
    local ← catch (local_micros local_time) is_value_error (λ _, Raise (release_error malformed));
    let us := if utc then local else local - offset_micros offset in
    _ ← check ((0 <=? us) && (us <? MAX_US)) (Exn EOverflow "date value out of range");
    Ok us
  | _ => Raise (release_error malformed)
  end.

Example execution_timestamp_demo :
  execution_timestamp (VStr (&"1970-01-01T00:00:00Z")) = Ok (719162 * DAY_US)
  ∧ execution_timestamp (VStr (&"2024-02-29T23:59:60Z")) = Raise (release_error "Missing or malformed timestamp")
  ∧ execution_timestamp (VStr (&"2024-03-01T01:00:00.25+01:00")) = execution_timestamp (VStr (&"2024-03-01T00:00:00.250000Z"))
  ∧ is_ok (execution_timestamp (VStr (&"2023-02-29T00:00:00Z"))) = false
  ∧ is_ok (execution_timestamp (VStr (&"2023-02-28T00:00:00"))) = false
  ∧ is_ok (execution_timestamp (VStr (&"Z"))) = false.
Proof. vm_compute. done. Qed.

(** ** What a rerun executed *)

Definition succeeded (d : pyobject) : bool := text_is (get_key "conclusion" d) (&"success").

(** One successful step of a job that ran from [start] to [finish]. *)
Definition check_step (start finish : Z) (step : pyobject) : outcome unit :=
  _ ← release_require (text_is (get_key "status" step) (&"completed")) "Successful job has incomplete execution steps";
  step_start ← execution_timestamp (get_key "started_at" step);
  step_end ← execution_timestamp (get_key "completed_at" step);
  release_require ((start <=? step_start) && (step_start <=? step_end) && (step_end <=? finish))
    "Executed step lies outside the current job interval".

(** [_require_fresh_job_timing] *)
Definition require_fresh_job_timing (job : pyobject) (boundary : Z) : outcome unit :=
  start ← execution_timestamp (get_key "started_at" job);
  finish ← execution_timestamp (get_key "completed_at" job);
  _ ← release_require ((boundary <=? start) && (start <=? finish)) "Successful job predates the current release attempt";
  let steps := get_key "steps" job in
  _ ← release_require (is_list steps && negb (bool_decide (list_value steps = []))) "Successful job lacks execution steps";
  _ ← release_require (forallb is_dict (list_value steps)) "Malformed job execution step";
  let successful := filter (λ s, succeeded s = true) (dict_of <$> list_value steps) in
  _ ← release_require (negb (bool_decide (successful = []))) "Successful job lacks successful execution steps";
  for_each (check_step start finish) successful.

(** One job of the current attempt. *)
Definition check_fresh_job (sha : pystr) (attempt : pyval) (boundary : Z) (job : pyobject) : outcome unit :=
  if negb (text_is (get_key "status" job) (&"completed")) || negb (succeeded job) then Ok tt
  else
    _ ← release_require (text_is (get_key "head_sha" job) sha && py_eq (get_key "run_attempt" job) attempt)
          "Successful job differs from the current release attempt";
    require_fresh_job_timing job boundary.

(** ** Provenance *)

Definition executing_states : list pystr := [&"queued"; &"requested"; &"pending"; &"waiting"; &"in_progress"].

Section runs.
Context `{UnicodeCase} (repo : pystr).

Definition full_name_of (key : pystr) (run : pyobject) : outcome pystr :=
  d ← as_dict (get_default key (VDict []) run); lower_of (get_default (&"full_name") (VStr []) d).

(** [validate_run_provenance] *)
Definition validate_run_provenance (run info : pyobject) (sha : pystr) (attempt : pyval) : outcome unit :=
  name ← full_name_of (&"repository") run;
  _ ← release_require (bool_decide (name = str_lower repo)) "Source run belongs to another repository";
  head_name ← full_name_of (&"head_repository") run;
  _ ← release_require (bool_decide (head_name = str_lower repo)) "Source run comes from another repository";
  _ ← release_require (text_is (get_key "head_sha" run) sha && fullmatch SHA_RE sha) "Source run SHA mismatch";
  _ ← release_require (text_is (get_key "path" run) WORKFLOW_PATH) "Source run uses an unexpected workflow path";
  branch ← item (&"default_branch") info;
  _ ← release_require (py_eq (get_key "head_branch" run) branch) "Source run does not target the default branch";
  _ ← release_require (among (get_key "event" run) [&"push"; &"schedule"; &"workflow_dispatch"]) "Untrusted source run event";
  release_require (py_eq (get_key "run_attempt" run) attempt)
    "Source run was rerun; evidence is not from its latest attempt".

Context {G : Type} `{GitHub G}.

(** [require_current_attempt_jobs] *)
Definition require_current_attempt_jobs (run_id : Z) (sha : pystr) (attempt : pyval) (jobs : list pyobject) : M G unit :=
  if py_eq attempt (VInt 1) then mret tt
  else
    detail ← gh_api (&"actions/runs/" ++ str_of_int run_id ++ &"/attempts/" ++ py_str attempt) (&"GET") None;
    lift (_ ← release_require (is_dict detail) "Malformed release attempt metadata";
          let d := dict_of detail in
          _ ← release_require (py_eq (get_key "id" d) (VInt run_id) && py_eq (get_key "run_attempt" d) attempt
                               && text_is (get_key "head_sha" d) sha && text_is (get_key "path" d) WORKFLOW_PATH)
                "Release attempt metadata identity mismatch";
          boundary ← execution_timestamp (get_key "run_started_at" d);
          for_each (check_fresh_job sha attempt boundary) jobs).

(** [release_gate_ready] *)
Definition gate_failure : string := "Exactly one successful, completed Release gate is required; skipped is not a pass".

Definition release_gate_ready (run_id : Z) (sha : pystr) (attempt : pyval) (allow_pending : bool) : M G bool :=
  values ← gh_pages (jobs_path run_id attempt) (Some (&"jobs"));
  jobs ← lift (collect as_dict values);
  match filter (λ job, text_is (get_key "name" job) (&"Release gate") = true) jobs with
  | [] => if allow_pending then mret false else raise (release_error gate_failure)
  | [gate] =>
    _ ← lift (release_require (text_is (get_key "head_sha" gate) sha) "Release gate SHA mismatch");
    pending ← lift (if allow_pending then py_in (get_key "status" gate) executing_states else Ok false);
    if pending : bool then
      _ ← lift (release_require (bool_decide (get_key "conclusion" gate = VNone)) gate_failure); mret false
    else
      _ ← lift (release_require (text_is (get_key "status" gate) (&"completed") && succeeded gate) gate_failure);
      _ ← require_current_attempt_jobs run_id sha attempt jobs;
      mret true
  | _ => raise (release_error gate_failure)
  end.

(** [validate_run] *)
Definition validate_run (run info : pyobject) (sha : pystr) (attempt : pyval) (completed gate : bool) : M G unit :=
  _ ← lift (validate_run_provenance run info sha attempt);
  _ ← lift (if completed
            then release_require (text_is (get_key "status" run) (&"completed") && succeeded run) "Source run has not completed successfully"
            else release_require (text_is (get_key "status" run) (&"in_progress")) "Publication run is not in progress");
  if gate then
    run_id ← lift (positive (get_key "id" run) "Invalid run ID");
    _ ← release_gate_ready run_id sha attempt false;
    mret tt
  else mret tt.

(** ** The default branch *)

(** [check_ancestry] *)
Definition check_ancestry (sha default_branch : pystr) : M G unit :=
  quoted ← lift (quote default_branch);
  v ← gh_api (&"compare/" ++ sha ++ &"..." ++ quoted) (&"GET") None;
  lift (d ← as_dict v;
        _ ← release_require (among (get_key "status" d) [&"ahead"; &"identical"])
              "Source commit is not an ancestor of the current default branch";
        base ← as_dict (get_default (&"merge_base_commit") (VDict []) d);
        release_require (text_is (get_key "sha" base) sha) "Source/default branch ancestry could not be verified").

(** The head of a branch in an answer about its reference. *)
Definition branch_head (ref : pyval) (branch : pystr) (message : string) : outcome pystr :=
  let d := dict_of ref in
  let object := get_key "object" d in
  let sha := get_key "sha" (dict_of object) in
  _ ← release_require (is_dict ref && text_is (get_key "ref" d) (&"refs/heads/" ++ branch) && is_dict object
                       && text_is (get_key "type" (dict_of object)) (&"commit") && str_match SHA_RE sha) message;
  Ok (str_value sha).

(** [workflow_tree] *)
Definition workflow_tree (sha : pystr) : M G pystr :=
  v ← gh_api (&"contents/.github?ref=" ++ sha) (&"GET") None;
  lift (_ ← release_require (is_list v && (Z.of_nat (length (list_value v)) <? 1000) && forallb is_dict (list_value v))
              "Cannot verify the complete source .github directory";
        match filter (λ d, text_is (get_key "name" d) (&"workflows") || text_is (get_key "path" d) (&".github/workflows") = true)
                     (dict_of <$> list_value v) with
        | [d] =>
          _ ← release_require (text_is (get_key "name" d) (&"workflows") && text_is (get_key "path" d) (&".github/workflows")
                               && text_is (get_key "type" d) (&"dir") && str_match SHA_RE (get_key "sha" d))
                "Cannot verify a regular source .github/workflows directory";
          Ok (str_value (get_key "sha" d))
        | _ => Raise (release_error "Cannot verify a regular source .github/workflows directory")
        end).

(** [info["default_branch"]] *)
Definition default_branch (info : pyobject) : outcome pystr :=
  v ← item (&"default_branch") info;
  match v with VStr s => Ok s | _ => Raise (type_error_of "quote_from_bytes() expected bytes") end.

(** [check_workflow_publication] *)
Definition check_workflow_publication (scope_verified : bool) (sha : pystr) : M G unit :=
  _ ← lift (release_require (fullmatch SHA_RE sha) "Invalid release source SHA");
  if scope_verified then mret tt
  else
    info ← repository_info repo;
    branch ← lift (default_branch info);
    quoted ← lift (quote branch);
    let path := &"git/ref/heads/" ++ quoted in
    ref ← gh_api path (&"GET") None;
    head ← lift (branch_head ref branch "Cannot verify default HEAD before release publication");
    if bool_decide (sha = head) then mret tt
    else
      source_tree ← workflow_tree sha;
      head_tree ← workflow_tree head;
      _ ← lift (release_require (bool_decide (source_tree = head_tree))
                  "Release source workflows differ from current default HEAD; create and accept a new candidate before publication");
      again ← repository_info repo;
      branch' ← lift (item (&"default_branch") again);
      if text_is branch' branch then
        ref' ← gh_api path (&"GET") None;
        lift (release_require (py_eq ref' ref) "Default branch changed during publication preflight; retry at current HEAD")
      else raise (release_error "Default branch changed during publication preflight; retry at current HEAD").
End runs.

(** ** What a passed release gate proves

    A ready gate is the one job of that name in the run's attempt, successful at
    the commit; and in a rerun every job that claims success, the gate included,
    executed its successful steps within the attempt. *)

(** A job that succeeded, as the API reports it. *)
Definition is_success (d : pyobject) : Prop := get_key "status" d = VStr (&"completed") ∧ get_key "conclusion" d = VStr (&"success").

(** A step ran between two instants. *)
Definition step_within (start finish : Z) (step : pyobject) : Prop :=
  ∃ step_start step_end, execution_timestamp (get_key "started_at" step) = Ok step_start
    ∧ execution_timestamp (get_key "completed_at" step) = Ok step_end
    ∧ start ≤ step_start ∧ step_start ≤ step_end ∧ step_end ≤ finish.

(** A job of the attempt executed at the commit, not before [boundary]. *)
Definition executed (sha : pystr) (attempt : pyval) (boundary : Z) (job : pyobject) : Prop :=
  get_key "head_sha" job = VStr sha ∧ py_eq (get_key "run_attempt" job) attempt = true
  ∧ ∃ start finish steps, execution_timestamp (get_key "started_at" job) = Ok start
    ∧ execution_timestamp (get_key "completed_at" job) = Ok finish
    ∧ boundary ≤ start ∧ start ≤ finish
    ∧ get_key "steps" job = VList steps
    ∧ (∃ step, VDict step ∈ steps ∧ is_success step)
    ∧ ∀ step, VDict step ∈ steps → get_key "conclusion" step = VStr (&"success") → is_success step ∧ step_within start finish step.

Lemma text_is_iff v s : text_is v s = true ↔ v = VStr s.
Proof. apply py_eq_str. Qed.

Lemma succeeded_iff d : succeeded d = true ↔ get_key "conclusion" d = VStr (&"success").
Proof. apply py_eq_str. Qed.

Lemma item_key n d v : item (lit n) d = Ok v → get_key n d = v.
Proof. unfold item, get_key, get_default. destruct (dict_get _ _); by intros [= ->]. Qed.

Ltac inv_gate := repeat (inv_M; match goal with H : release_require _ _ = Ok _ |- _ => apply release_require_ok in H end); inv_M; boolprop.

Lemma is_list_inv v : is_list v = true → v = VList (list_value v).
Proof. by destruct v. Qed.

Lemma check_step_ok start finish step :
  check_step start finish step = Ok tt →
  get_key "status" step = VStr (&"completed") ∧ step_within start finish step.
Proof.
  unfold check_step. intros H. inv_gate. deex. split; [by apply text_is_iff|].
  do 2 eexists. split_and!; [done|done|lia..].
Qed.

Lemma dict_steps steps : forallb is_dict steps = true → ∀ d, d ∈ dict_of <$> steps ↔ VDict d ∈ steps.
Proof.
  rewrite forallb_forall. intros Hd d. rewrite list_elem_of_fmap. split; [|by exists (VDict d)].
  intros (v & -> & Hv). specialize (Hd v). rewrite <-list_elem_of_In in Hd. specialize (Hd Hv). by destruct v.
Qed.

Lemma require_fresh_job_timing_ok job boundary :
  require_fresh_job_timing job boundary = Ok tt →
  ∃ start finish steps, execution_timestamp (get_key "started_at" job) = Ok start
    ∧ execution_timestamp (get_key "completed_at" job) = Ok finish
    ∧ boundary ≤ start ∧ start ≤ finish
    ∧ get_key "steps" job = VList steps
    ∧ (∃ step, VDict step ∈ steps ∧ is_success step)
    ∧ ∀ step, VDict step ∈ steps → get_key "conclusion" step = VStr (&"success") → is_success step ∧ step_within start finish step.
Proof.
  unfold require_fresh_job_timing. cbv zeta. intros H. inv_gate. deex.
  do 2 eexists. exists (list_value (get_key "steps" job)). split_and!; [done|done|lia|lia|by apply is_list_inv|..].
  all: assert (∀ step, VDict step ∈ list_value (get_key "steps" job) → get_key "conclusion" step = VStr (&"success") →
         is_success step ∧ step_within a a0 step) as Hall.
  1, 3: intros step Hs Hc; match goal with H : for_each _ _ = Ok _ |- _ => rewrite for_each_ok in H; specialize (H step) end;
        destruct (check_step_ok a a0 step) as [? ?];
        [by match goal with H : _ → check_step _ _ _ = Ok _ |- _ => apply H; rewrite list_elem_of_filter, succeeded_iff, dict_steps end|done].
  - match goal with H : filter _ _ ≠ [] |- _ => destruct (filter _ _) as [|step l] eqn:E in H; [done|] end.
    assert (step ∈ filter (λ s, succeeded s = true) (dict_of <$> list_value (get_key "steps" job))) as Hs
      by (rewrite E; apply list_elem_of_here).
    rewrite list_elem_of_filter, succeeded_iff, dict_steps in Hs by done. destruct Hs as [Hc Hs].
    exists step. split; [done|]. by apply Hall.
  - done.
Qed.

Lemma check_fresh_job_ok sha attempt boundary job :
  check_fresh_job sha attempt boundary job = Ok tt → is_success job → executed sha attempt boundary job.
Proof.
  unfold check_fresh_job. intros H [Hs Hc]. rewrite (proj2 (text_is_iff _ _) Hs), (proj2 (succeeded_iff _) Hc) in H. cbn [negb orb] in H.
  inv_gate. deex. split_and!; [by apply text_is_iff|done|]. by apply require_fresh_job_timing_ok.
Qed.

Section gate.
Context `{UnicodeCase} {G : Type} `{GitHub G}.

Lemma require_current_attempt_jobs_ok run_id sha attempt jobs (s s' : G) :
  require_current_attempt_jobs run_id sha attempt jobs s = (s', Ok tt) → py_eq attempt (VInt 1) = false →
  ∃ detail boundary, gh_api (&"actions/runs/" ++ str_of_int run_id ++ &"/attempts/" ++ py_str attempt) (&"GET") None s = (s', Ok (VDict detail))
    ∧ py_eq (get_key "id" detail) (VInt run_id) = true ∧ get_key "head_sha" detail = VStr sha
    ∧ execution_timestamp (get_key "run_started_at" detail) = Ok boundary
    ∧ ∀ job, job ∈ jobs → is_success job → executed sha attempt boundary job.
Proof.
  unfold require_current_attempt_jobs. intros Hrun Ha. rewrite Ha in Hrun. cbv zeta in Hrun. inv_gate. deex.
  destruct a as [| | | | | | |detail]; try done. cbn [dict_of] in *.
  exists detail. eexists. split_and!; [done|done|by apply text_is_iff|done|].
  intros job Hj. apply check_fresh_job_ok. by match goal with H : for_each _ _ = Ok _ |- _ => rewrite for_each_ok in H; apply H end.
Qed.

(** What a gate that is ready says of its run's attempt. *)
Definition gate_passed (run_id : Z) (sha : pystr) (attempt : pyval) (s s' : G) : Prop :=
  ∃ s1 values jobs gate,
    gh_pages (jobs_path run_id attempt) (Some (&"jobs")) s = (s1, Ok values) ∧ values = VDict <$> jobs
    ∧ filter (λ job, get_key "name" job = VStr (&"Release gate")) jobs = [gate]
    ∧ is_success gate ∧ get_key "head_sha" gate = VStr sha
    ∧ (py_eq attempt (VInt 1) = false → ∃ detail boundary,
         gh_api (&"actions/runs/" ++ str_of_int run_id ++ &"/attempts/" ++ py_str attempt) (&"GET") None s1 = (s', Ok (VDict detail))
         ∧ execution_timestamp (get_key "run_started_at" detail) = Ok boundary
         ∧ executed sha attempt boundary gate
         ∧ ∀ job, job ∈ jobs → is_success job → executed sha attempt boundary job).

Lemma collect_dicts values jobs : collect as_dict values = Ok jobs → values = VDict <$> jobs.
Proof.
  rewrite collect_ok. induction 1 as [|v d vs ds Hv _ IH]; [done|]. cbn. rewrite <-IH. by destruct v; try done; injection Hv as ->.
Qed.

Lemma release_gate_ready_ok run_id sha attempt allow_pending s s' :
  release_gate_ready run_id sha attempt allow_pending s = (s', Ok true) → gate_passed run_id sha attempt s s'.
Proof.
  unfold release_gate_ready. intros Hrun. apply bind_M_ok in Hrun as (s1 & values & Hp & Hrun).
  apply bind_M_ok in Hrun as (? & jobs & [-> Hj]%lift_M_ok & Hrun). exists s1, values, jobs.
  rewrite (list_filter_iff _ (λ job, get_key "name" job = VStr (&"Release gate"))) in Hrun by (intros; apply text_is_iff).
  destruct (filter _ _) as [|gate [|]] eqn:Eg.
  - destruct allow_pending; [by injection Hrun|done].
  - exists gate. apply bind_M_ok in Hrun as (? & [] & [-> Hsha%release_require_ok]%lift_M_ok & Hrun).
    apply bind_M_ok in Hrun as (? & pending & [-> Hpe]%lift_M_ok & Hrun). destruct pending.
    { apply bind_M_ok in Hrun as (? & [] & _ & Hrun). by injection Hrun. }
    inv_gate. deex. repeat match goal with u : () |- _ => destruct u end.
    assert (is_success gate) as Hs by (split; [by apply text_is_iff|by apply succeeded_iff]).
    split_and!; [done|by apply collect_dicts|done|done|by apply text_is_iff|].
    intros Ha. match goal with H : require_current_attempt_jobs _ _ _ _ _ = _ |- _ =>
      destruct (require_current_attempt_jobs_ok _ _ _ _ _ _ H Ha) as (detail & boundary & ? & _ & _ & ? & Hall) end.
    exists detail, boundary. split; [done|split; [done|split; [|done]]]. apply Hall; [|done].
    assert (gate ∈ filter (λ job, get_key "name" job = VStr (&"Release gate")) jobs) as Hin by (rewrite Eg; apply list_elem_of_here).
    by apply list_elem_of_filter in Hin as [_ Hin].
  - done.
Qed.
End gate.
