(* ===== verification/ReleaseExecution.v ===== *)
(** * The executing run ([scripts/release_control.py])

    What binds a publication to the process that performs it: the Actions
    environment, the checked-out commit, the run's own metadata (polled until a
    deadline) and the default branch it may be superseded on.  The environment,
    the file system, Git and the clock of the process are the class [Host]. *)

From Stdlib Require Import QArith.QArith QArith.Qminmax Strings.Byte.
From S2P Require Import Prelude PyStr PyDict PyRegex PyVal PyJson VersionPlan Release ReleaseValidation OciMetadata Fuzz ReleasePolicy ReleaseRuns.
#[local] Open Scope Z_scope.

(** The process: [os.environ], [Path(p).read_bytes()], [git rev-parse HEAD] (its
    exit code and text), [time.monotonic()], [time.sleep(d)], and the line on
    standard error that a wait prints for a status. *)
Class Host (G : Type) : Type := {
  environ : pydict pystr pystr;
  read_file : pystr → M G bytes;
  rev_parse_head : M G (Z * pystr);
  monotonic : M G Q;
  sleep : Q → M G unit;
  announce : pyval → Q → M G unit;
}.

Definition EXECUTING_RUN_WAIT_SECONDS : Q := 300.

Definition Qlt_bool (a b : Q) : bool := negb (Qle_bool b a).

(** The events that may publish a channel. *)
Definition channel_events : pydict pystr (list pystr) :=
  [(&"nightly", [&"schedule"; &"workflow_dispatch"]); (&"beta", [&"push"; &"workflow_dispatch"]);
   (&"rc", [&"workflow_dispatch"]); (&"stable", [&"workflow_dispatch"])].

(** [v.get(k, {}).get(l)] *)
Definition nested_get (k l : string) (d : pyobject) : outcome pyval :=
  inner ← as_dict (get_default (lit k) (VDict []) d); Ok (get_key l inner).

Section execution.
Context `{UnicodeCase} {G : Type} `{GitHub G} `{Host G} (py_text : pyval → pystr) (repo : pystr).

Definition env (name : string) : option pystr := dict_get (lit name) environ.
Definition env_is (name : string) (text : pystr) : bool := bool_decide (env name = Some text).

(** [checked_out_sha] *)
Definition checked_out_sha : M G pystr :=
  result ← rev_parse_head;
  lift (_ ← release_require (result.1 =? 0) "Must run from the checked-out release repository"; Ok (strip result.2)).

(** The environment of the process against the run. *)
Definition check_environment (run_id : Z) (info run : pyobject) : outcome unit :=
  _ ← release_require (env_is "GITHUB_ACTIONS" (&"true")) "Publication must run inside GitHub Actions";
  _ ← release_require (bool_decide (str_lower (default [] (env "GITHUB_REPOSITORY")) = str_lower repo)) "Execution repository mismatch";
  _ ← release_require (env_is "GITHUB_RUN_ID" (str_of_int run_id)) "Execution run ID mismatch";
  _ ← release_require (env_is "GITHUB_RUN_ATTEMPT" (value_text py_text (get_key "run_attempt" run))) "Execution run attempt mismatch";
  branch ← item (&"default_branch") info;
  let ref := &"refs/heads/" ++ value_text py_text branch in
  _ ← release_require (env_is "GITHUB_REF" ref) "Dispatch must target the default branch";
  name ← item (&"full_name") info;
  release_require (env_is "GITHUB_WORKFLOW_REF" (value_text py_text name ++ &"/" ++ WORKFLOW_PATH ++ &"@" ++ ref))
    "Execution workflow mismatch".

(** [check_execution] *)
Definition check_execution (run_id : Z) (channel : pystr) (info run : pyobject) : M G unit :=
  _ ← lift (check_environment run_id info run);
  head ← checked_out_sha;
  _ ← lift (release_require (text_is (get_key "head_sha" run) head) "Checkout does not match the source run SHA");
  let event := env "GITHUB_EVENT_NAME" in
  _ ← lift (release_require (py_eq (match event with Some e => VStr e | None => VNone end) (get_key "event" run))
              "Execution event mismatch");
  allowed ← lift (match dict_get channel channel_events with Some l => Ok l | None => Raise (Exn EKey "") end);
  _ ← lift (release_require (match event with Some e => bool_decide (e ∈ allowed) | None => false end) "Event cannot publish channel");
  if bool_decide (event = Some (&"workflow_dispatch")) then
    let file := default [] (env "GITHUB_EVENT_PATH") in
    _ ← lift (release_require (negb (bool_decide (file = []))) "Missing workflow dispatch event");
    raw ← read_file file;
    lift (payload ← parse_json raw;
          ok ← o_and (Ok (is_dict payload)) (v ← nested_get "inputs" "channel" (dict_of payload); Ok (text_is v channel));
          release_require ok "Workflow dispatch input channel must match")
  else mret tt.

(** ** Waiting for the run's metadata *)

(** [status == "in_progress" and (not gate or release_gate_ready(...))] *)
Definition publication_ready (run_id : Z) (sha : pystr) (attempt : Z) (gate : bool) (status : pyval) : M G bool :=
  if text_is status (&"in_progress") then
    if gate then release_gate_ready run_id sha (VInt attempt) true else mret true
  else mret false.

(** One reading of the run, with everything that binds it. *)
Definition bound_run (run_id : Z) (channel : pystr) (info : pyobject) (sha : pystr) (attempt : Z) : M G pyobject :=
  v ← gh_api (&"actions/runs/" ++ str_of_int run_id) (&"GET") None;
  run ← lift (as_dict v);
  _ ← lift (release_require (py_eq (get_key "id" run) (VInt run_id)) "Execution run identity mismatch");
  _ ← check_execution run_id channel info run;
  _ ← lift (validate_run_provenance repo run info sha (VInt attempt));
  _ ← lift (release_require (bool_decide (get_key "conclusion" run = VNone)) "Publication run already has a conclusion");
  mret run.

(** The loop; [reported] is the status announced last, and [None] says that the
    rounds were used up. *)
Fixpoint wait_loop (n : nat) (run_id : Z) (channel : pystr) (info : pyobject) (sha : pystr) (attempt : Z) (gate : bool)
    (deadline : Q) (reported : option pyval) : M G (option pyobject) :=
  match n with
  | O => mret None
  | S n =>
    run ← bound_run run_id channel info sha attempt;
    let status := get_key "status" run in
    ready ← publication_ready run_id sha attempt gate status;
    if ready : bool then
      t ← monotonic;
      _ ← lift (release_require (Qlt_bool t deadline) "Publication metadata was not ready within 300 seconds");
      mret (Some run)
    else
      active ← lift (py_in status executing_states);
      _ ← lift (release_require active "Publication run is not active");
      t ← monotonic;
      let remaining := (deadline - t)%Q in
      _ ← lift (release_require (Qlt_bool 0 remaining) "Publication run or Release gate was not ready within 300 seconds");
      _ ← (if bool_decide (reported = Some status) then mret tt else announce status remaining);
      _ ← sleep (Qmin 2 remaining);
      wait_loop n run_id channel info sha attempt gate deadline (Some status)
  end.

(** The rounds of two seconds before the deadline, and the one that meets it. *)
Definition WAIT_ROUNDS : nat := 151.

(** [wait_for_executing_run] *)
Definition wait_for_executing_run (run_id : Z) (channel : pystr) (info : pyobject) (sha : pystr) (attempt : Z) (gate : bool) : M G pyobject :=
  t ← monotonic;
  run ← wait_loop WAIT_ROUNDS run_id channel info sha attempt gate (t + EXECUTING_RUN_WAIT_SECONDS) None;
  match run with Some run => mret run | None => raise (Exn EOther "more rounds than the deadline allows") end.

(** ** Supersession *)

(** The one run that an answer about the runs of a commit lists. *)
Definition single_successor (replacement : pyval) : outcome pyobject :=
  let d := dict_of replacement in
  let runs := get_key "workflow_runs" d in
  _ ← release_require (is_dict replacement && bool_decide (get_key "total_count" d = VInt 1) && is_list runs
                       && bool_decide (length (list_value runs) = 1%nat))
        "Default branch advanced without one proven replacement release run";
  match list_value runs with
  | [VDict successor] => Ok successor
  | _ => Raise (release_error "Invalid replacement release run")
  end.

(** [a.get(k) > b.get(k)] of two identifiers *)
Definition newer (name : string) (successor run : pyobject) : outcome bool :=
  a ← positive (get_key name successor) name; b ← positive (get_key name run) name; Ok (b <? a).

Definition successor_states : list pystr := executing_states ++ [&"completed"].

Definition check_successor (successor run : pyobject) : outcome unit :=
  ok ← o_and (Ok (text_is (get_key "event" successor) (&"push")))
         (o_and (newer "id" successor run)
            (o_and (newer "run_number" successor run) (py_in (get_key "status" successor) successor_states)));
  release_require ok "Replacement must be a newer automatic run of the default-branch release workflow".

(** The comparison of the run's commit with the head. *)
Definition check_advanced (comparison source : pyval) : outcome unit :=
  ok ← o_and (Ok (is_dict comparison && text_is (get_key "status" (dict_of comparison)) (&"ahead")))
         (v ← nested_get "merge_base_commit" "sha" (dict_of comparison); Ok (py_eq v source));
  release_require ok "Automatic release source is not a verified ancestor of current default HEAD".

(** [(run["event"], channel) in {("push", "beta"), ("schedule", "nightly")}] *)
Definition automatic (event : pyval) (channel : pystr) : outcome bool :=
  pushed ← py_in event [&"push"]; scheduled ← py_in event [&"schedule"];
  Ok (pushed && bool_decide (channel = &"beta") || scheduled && bool_decide (channel = &"nightly")).

Definition superseded_outcome (source : pyval) (head : pystr) (successor : pyobject) : outcome pyobject :=
  id ← item (&"id") successor;
  Ok [(&"status", VStr (&"superseded")); (&"source_sha", source); (&"superseded_by", VStr head);
      (&"successor_run_id", VStr (value_text py_text id));
      (&"successor_run_url", VStr (&"https://github.com/" ++ repo ++ &"/actions/runs/" ++ value_text py_text id))].

Definition successor_path (branch head : pystr) : pystr :=
  &"actions/workflows/release-pipeline.yml/runs?branch=" ++ branch ++ &"&event=push&head_sha=" ++ head ++ &"&per_page=100".

(** [superseded_candidate] *)
Definition superseded_candidate (info run : pyobject) (channel : pystr) : M G (option pyobject) :=
  event ← lift (item (&"event") run);
  auto ← lift (automatic event channel);
  if negb auto then mret None
  else
    v ← lift (item (&"default_branch") info);
    again ← repository_info repo;
    v' ← lift (item (&"default_branch") again);
    _ ← lift (release_require (py_eq v' v) "Default branch changed during this run; dispatch a fresh release");
    branch ← lift (default_branch info);
    quoted ← lift (quote branch);
    let path := &"git/ref/heads/" ++ quoted in
    ref ← gh_api path (&"GET") None;
    head ← lift (branch_head ref branch "Cannot verify current default branch for automatic publication");
    source ← lift (item (&"head_sha") run);
    if text_is source head then mret None
    else
      comparison ← gh_api (&"compare/" ++ value_text py_text source ++ &"..." ++ head) (&"GET") None;
      _ ← lift (check_advanced comparison source);
      replacement ← gh_api (successor_path quoted head) (&"GET") None;
      successor ← lift (single_successor replacement);
      attempt ← lift (positive (get_key "run_attempt" successor) "Invalid run attempt");
      _ ← lift (validate_run_provenance repo successor info head (VInt attempt));
      _ ← lift (check_successor successor run);
      ref' ← gh_api path (&"GET") None;
      _ ← lift (release_require (py_eq ref' ref) "Default branch changed while verifying replacement; retry at current HEAD");
      result ← lift (superseded_outcome source head successor);
      mret (Some result).

(** ** A closed cycle *)

(** [closed_push_cycle] *)
Definition closed_push_cycle (base kind : pystr) : M G (option pyobject) :=
  if negb (bool_decide (kind = &"push")) then mret None
  else
    base ← lift (release_version base);
    let tag := &"v" ++ base in
    quoted ← lift (quote tag);
    found ← try_except (v ← gh_api (&"git/ref/tags/" ++ quoted) (&"GET") None; mret (Some v)) not_found (λ _, mret None);
    match found with
    | None => mret None
    | Some ref =>
      let d := dict_of ref in
      let object := dict_of (get_key "object" d) in
      known ← lift (o_and (Ok (is_dict ref && text_is (get_key "ref" d) (&"refs/tags/" ++ tag) && is_dict (get_key "object" d)))
                      (py_in (get_key "type" object) [&"commit"; &"tag"]));
      _ ← lift (release_require (known && str_match SHA_RE (get_key "sha" object)) "Invalid stable tag response during automatic beta preparation");
      mret (Some [(&"status", VStr (&"version-required")); (&"channel", VStr (&"beta")); (&"version", VStr base);
                  (&"build", VStr (&"false")); (&"plan_artifact", VStr []);
                  (&"reason", VStr (&"Stable tag " ++ tag ++ &" already exists; prepare and merge the next "
                                    ++ &"committed base version before creating another beta."))])
    end.
End execution.
