(* ===== verification/ReleaseExecutionFacts.v ===== *)
(** * What binds a publication to its run

    The wait for a run's metadata ends within its rounds, on every clock that never
    runs backwards and sleeps at least as long as it is told; a run it returns is
    the one of the process, at the commit that is checked out, on the default
    branch, with its release gate passed, before the deadline.  A candidate counts
    as superseded only on a proven newer run of the advanced branch. *)

From Stdlib Require Import QArith.QArith QArith.Qminmax micromega.Lqa Strings.Byte.
From S2P Require Import Prelude PyStr PyDict PyRegex PyVal PyJson VersionPlan Release ReleaseValidation OciMetadata Fuzz ReleasePolicy ReleaseRuns ReleaseExecution.
#[local] Open Scope Z_scope.

(** ** The clock *)

(** The time of a state: no operation turns it back, the clock reads it, and a
    sleep lasts at least as long as asked. *)
Class HostClock (G : Type) `{GitHub G} `{Host G} : Type := {
  now : G → Q;
  monotonic_now : ∀ s s' r, monotonic s = (s', r) → (now s <= now s')%Q ∧ ∀ t, r = Ok t → t = now s';
  sleep_advances : ∀ d s s' r, (0 <= d)%Q → sleep d s = (s', r) → (now s + d <= now s')%Q;
  request_forward : ∀ path method body mode s s' r, gh_request path method body mode s = (s', r) → (now s <= now s')%Q;
  read_forward : ∀ p s s' r, read_file p s = (s', r) → (now s <= now s')%Q;
  head_forward : ∀ s s' r, rev_parse_head s = (s', r) → (now s <= now s')%Q;
  announce_forward : ∀ v d s s' r, announce v d s = (s', r) → (now s <= now s')%Q;
}.

Lemma Qlt_bool_iff a b : Qlt_bool a b = true ↔ (a < b)%Q.
Proof. unfold Qlt_bool. rewrite negb_true_iff, <-not_true_iff_false, Qle_bool_iff. split; [apply Qnot_le_lt|apply Qlt_not_le]. Qed.

Lemma bind_M_ext {S A B} (m : M S A) (f g : A → M S B) (s : S) :
  (∀ s1 a, m s = (s1, Ok a) → f a s1 = g a s1) → (m ≫= f) s = (m ≫= g) s.
Proof. unfold mbind, M_bind. intros H. destruct (m s) as [s1 [a|e]]; auto. Qed.

Section clock.
Context `{UnicodeCase} {G : Type} `{GitHub G} `{Host G} `{!HostClock G} (py_text : pyval → pystr) (repo : pystr).

Definition forward {A} (m : M G A) : Prop := ∀ s s' r, m s = (s', r) → (now s <= now s')%Q.

Lemma forward_bind {A B} (m : M G A) (f : A → M G B) : forward m → (∀ a, forward (f a)) → forward (m ≫= f).
Proof.
  intros Hm Hf s s' r. unfold mbind, M_bind. destruct (m s) as [s1 [a|e]] eqn:E.
  - intros Ha. eapply Qle_trans; [by eapply Hm|by eapply Hf].
  - intros [= <- <-]. by eapply Hm.
Qed.
Lemma forward_lift {A} (m : outcome A) : forward (lift m).
Proof. intros s s' r [= <- _]. apply Qle_refl. Qed.
Lemma forward_ret {A} (a : A) : forward (mret a).
Proof. apply (forward_lift (Ok a)). Qed.
Lemma forward_raise {A} e : forward (raise e : M G A).
Proof. apply (forward_lift (Raise e)). Qed.
Lemma forward_monotonic : forward monotonic.
Proof. intros s s' r Hm. by eapply monotonic_now. Qed.
Lemma forward_api path method body : forward (gh_api path method body).
Proof. apply forward_bind; [intros s s' r; apply request_forward|intros; apply forward_lift]. Qed.
Lemma forward_pages path field : forward (gh_pages path field).
Proof. apply forward_bind; [intros s s' r; apply request_forward|intros; apply forward_lift]. Qed.
Lemma forward_announce v d : forward (announce v d).
Proof. intros s s' r. apply announce_forward. Qed.
Lemma forward_read p : forward (read_file p).
Proof. intros s s' r. apply read_forward. Qed.
Lemma forward_head : forward rev_parse_head.
Proof. intros s s' r. apply head_forward. Qed.

#[local] Hint Resolve forward_lift forward_ret forward_raise forward_monotonic forward_api forward_pages forward_announce forward_read forward_head : core.

Ltac solve_forward :=
  repeat first [ solve [auto] | apply forward_bind; [|intros] | progress cbv zeta
               | match goal with |- forward (if ?b then _ else _) => destruct b end
               | match goal with |- forward (match ?x with _ => _ end) => destruct x end ].

Lemma forward_gate run_id sha attempt allow_pending : forward (release_gate_ready run_id sha attempt allow_pending).
Proof. unfold release_gate_ready, require_current_attempt_jobs. solve_forward. Qed.

Lemma forward_ready run_id sha attempt gate status : forward (publication_ready run_id sha attempt gate status).
Proof. unfold publication_ready. pose proof forward_gate. solve_forward. Qed.

Lemma forward_bound_run run_id channel info sha attempt : forward (bound_run py_text repo run_id channel info sha attempt).
Proof. unfold bound_run, check_execution, checked_out_sha. solve_forward. Qed.

(** *** The rounds *)

Section rounds.
Context (run_id : Z) (channel : pystr) (info : pyobject) (sha : pystr) (attempt : Z) (gate : bool) (deadline : Q).
Notation loop := (λ n, wait_loop py_text repo n run_id channel info sha attempt gate deadline).

(** After one round in which the run is not ready, the loop goes on with two
    seconds less, or with no time left. *)
Lemma round n reported s s' r :
  loop (S n) reported s = (s', r) →
  (∃ e, r = Raise e) ∨
  (∃ run s1 s2, r = Ok (Some run) ∧ bound_run py_text repo run_id channel info sha attempt s = (s1, Ok run)
     ∧ publication_ready run_id sha attempt gate (get_key "status" run) s1 = (s2, Ok true) ∧ (now s' < deadline)%Q) ∨
  ∃ s1 reported', loop n reported' s1 = (s', r) ∧ (now s < deadline)%Q
     ∧ (now s1 >= deadline ∨ now s1 >= now s + 2)%Q.
Proof.
  intros Hl. destruct r as [r|e]; [|by left; eexists]. right. cbn [wait_loop] in Hl. cbv zeta in Hl.
  apply bind_M_ok in Hl as (s1 & run & Hb & Hl). apply bind_M_ok in Hl as (s2 & ready & Hr & Hl).
  pose proof (forward_bound_run _ _ _ _ _ _ _ _ Hb) as F1. pose proof (forward_ready _ _ _ _ _ _ _ _ Hr) as F2.
  destruct ready.
  - left. apply bind_M_ok in Hl as (s3 & t & Ht & Hl). apply bind_M_ok in Hl as (? & ? & [-> Hlt%release_require_ok]%lift_M_ok & Hl).
    apply mret_M_ok in Hl as [-> <-]. apply Qlt_bool_iff in Hlt. destruct (monotonic_now _ _ _ Ht) as [_ Hn]. rewrite (Hn t eq_refl) in Hlt.
    by exists run, s1, s2.
  - right. apply bind_M_ok in Hl as (? & active & [-> _]%lift_M_ok & Hl). apply bind_M_ok in Hl as (? & ? & [-> _]%lift_M_ok & Hl).
    apply bind_M_ok in Hl as (s3 & t & Ht & Hl). apply bind_M_ok in Hl as (? & ? & [-> Hlt%release_require_ok]%lift_M_ok & Hl).
    apply bind_M_ok in Hl as (s4 & ? & Ha & Hl). apply bind_M_ok in Hl as (s5 & ? & Hs & Hl).
    apply Qlt_bool_iff in Hlt. destruct (monotonic_now _ _ _ Ht) as [F3 Hn]. rewrite (Hn t eq_refl) in *.
    assert (now s3 <= now s4)%Q as F4 by (revert Ha; case_bool_decide; [apply forward_ret|apply forward_announce]).
    apply sleep_advances in Hs; [|apply Q.min_glb; lra].
    exists s5, (Some (get_key "status" run)). split; [done|]. split; [lra|].
    destruct (Q.min_spec 2 (deadline - now s3)) as [[_ Hm]|[_ Hm]]; rewrite Hm in Hs; lra.
Qed.

Lemma rounds_end k reported s s' r :
  (deadline - now s <= 2 * inject_Z (Z.of_nat k))%Q → loop (S k) reported s = (s', r) → r ≠ Ok None.
Proof.
  revert reported s. induction k as [|k IH]; intros reported s Hk Hl;
    destruct (round _ _ _ _ _ Hl) as [[e ->]|[(run & ? & ? & -> & _)|(s1 & reported' & Hl1 & Hd & Hs)]]; try done.
  - change (inject_Z (Z.of_nat 0)) with 0%Q in Hk. lra.
  - apply (IH reported' s1); [|done]. rewrite Nat2Z.inj_succ in Hk. unfold Z.succ in Hk. rewrite inject_Z_plus in Hk.
    change (inject_Z 1) with 1%Q in Hk. assert (0 <= inject_Z (Z.of_nat k))%Q by (change 0%Q with (inject_Z 0); rewrite <-Zle_Qle; lia).
    destruct Hs; lra.
Qed.

Lemma rounds_more n m reported s s' r : loop n reported s = (s', r) → r ≠ Ok None → loop (n + m)%nat reported s = (s', r).
Proof.
  revert reported s s' r. induction n as [|n IH]; intros reported s s' r Hl Hr; [by injection Hl as <- <-|].
  cbn [Nat.add wait_loop] in *. cbv zeta in *. revert Hl. unfold mbind, M_bind.
  destruct (bound_run _ _ _ _ _ _ _ s) as [s1 [run|e]]; [|done].
  destruct (publication_ready _ _ _ _ _ s1) as [s2 [[|]|e]]; [done| |done].
  destruct (lift (py_in _ _) s2) as [s3 [active|e]]; [|done]. destruct (lift _ s3) as [s4 [u|e]]; [|done].
  destruct (monotonic s4) as [s5 [t|e]]; [|done]. destruct (lift _ s5) as [s6 [u1|e]]; [|done].
  destruct ((if bool_decide (reported = Some (get_key "status" run)) then mret tt else announce (get_key "status" run) (deadline - t)%Q : M G ()) s6) as [s7 [u2|e]]; [|done]. destruct (sleep _ s7) as [s8 [u3|e]]; [|done].
  intros Hl. by apply IH.
Qed.

Lemma loop_bound n reported s s' run :
  loop n reported s = (s', Ok (Some run)) →
  ∃ s0 s1 s2, bound_run py_text repo run_id channel info sha attempt s0 = (s1, Ok run)
    ∧ publication_ready run_id sha attempt gate (get_key "status" run) s1 = (s2, Ok true) ∧ (now s' < deadline)%Q.
Proof.
  revert reported s. induction n as [|n IH]; intros reported s Hl; [done|].
  destruct (round _ _ _ _ _ Hl) as [[e [=]]|[(run' & s1 & s2 & [= <-] & ?)|(s1 & reported' & Hl1 & _)]]; [by exists s, s1, s2|].
  by apply (IH reported' s1).
Qed.
End rounds.

(** *** A bound run *)

(** The run is the process's own, at a commit that is checked out. *)
Definition bound (run_id : Z) (channel sha : pystr) (attempt : Z) (run : pyobject) : Prop :=
  py_eq (get_key "id" run) (VInt run_id) = true ∧ py_eq (get_key "run_attempt" run) (VInt attempt) = true
  ∧ get_key "head_sha" run = VStr sha ∧ fullmatch SHA_RE sha = true ∧ get_key "path" run = VStr WORKFLOW_PATH
  ∧ env "GITHUB_ACTIONS" = Some (&"true") ∧ env "GITHUB_RUN_ID" = Some (str_of_int run_id)
  ∧ (∃ s s', checked_out_sha s = (s', Ok sha))
  ∧ ∃ event allowed, env "GITHUB_EVENT_NAME" = Some event ∧ get_key "event" run = VStr event
      ∧ dict_get channel channel_events = Some allowed ∧ event ∈ allowed.

Lemma provenance_ok run info sha attempt :
  validate_run_provenance repo run info sha attempt = Ok tt →
  get_key "head_sha" run = VStr sha ∧ fullmatch SHA_RE sha = true ∧ get_key "path" run = VStr WORKFLOW_PATH
  ∧ py_eq (get_key "run_attempt" run) attempt = true.
Proof. unfold validate_run_provenance. intros Hp. inv_gate. deex. split_and!; by try apply text_is_iff. Qed.

Lemma check_environment_ok run_id info run :
  check_environment py_text repo run_id info run = Ok tt →
  env "GITHUB_ACTIONS" = Some (&"true") ∧ env "GITHUB_RUN_ID" = Some (str_of_int run_id).
Proof. unfold check_environment, env_is. intros Hp. cbv zeta in Hp. inv_gate. done. Qed.

Lemma check_execution_ok run_id channel info run s s' :
  check_execution py_text repo run_id channel info run s = (s', Ok tt) →
  check_environment py_text repo run_id info run = Ok tt
  ∧ (∃ head s1 s2, checked_out_sha s1 = (s2, Ok head) ∧ get_key "head_sha" run = VStr head)
  ∧ ∃ event allowed, env "GITHUB_EVENT_NAME" = Some event ∧ get_key "event" run = VStr event
      ∧ dict_get channel channel_events = Some allowed ∧ event ∈ allowed.
Proof.
  unfold check_execution. intros Hc. apply bind_M_ok in Hc as (? & [] & [-> He]%lift_M_ok & Hc).
  apply bind_M_ok in Hc as (s1 & head & Hh & Hc). apply bind_M_ok in Hc as (? & ? & [-> Hsha%release_require_ok%text_is_iff]%lift_M_ok & Hc).
  cbv zeta in Hc. apply bind_M_ok in Hc as (? & ? & [-> Hev%release_require_ok]%lift_M_ok & Hc).
  apply bind_M_ok in Hc as (? & allowed & [-> Hal]%lift_M_ok & Hc). apply bind_M_ok in Hc as (? & ? & [-> Hin%release_require_ok]%lift_M_ok & _).
  destruct (env "GITHUB_EVENT_NAME") as [event|]; [|done]. destruct (dict_get channel channel_events) as [allowed'|]; [|done].
  injection Hal as ->. apply bool_decide_eq_true in Hin. split_and!; [done|by exists head, s, s1|]. exists event, allowed. split_and!; try done.
  destruct (get_key "event" run); try done. cbn in Hev. by apply bool_decide_eq_true in Hev as ->.
Qed.

Lemma bound_run_ok run_id channel info sha attempt s s' run :
  bound_run py_text repo run_id channel info sha attempt s = (s', Ok run) →
  bound run_id channel sha attempt run ∧ get_key "conclusion" run = VNone.
Proof.
  unfold bound_run. intros Hb. apply bind_M_ok in Hb as (s1 & v & Hv & Hb). apply bind_M_ok in Hb as (? & run' & [-> _]%lift_M_ok & Hb).
  apply bind_M_ok in Hb as (? & ? & [-> Hid%release_require_ok]%lift_M_ok & Hb). apply bind_M_ok in Hb as (s2 & [] & He & Hb).
  apply bind_M_ok in Hb as (? & [] & [-> Hp%provenance_ok]%lift_M_ok & Hb). apply bind_M_ok in Hb as (? & ? & [-> Hc%release_require_ok]%lift_M_ok & Hb).
  apply mret_M_ok in Hb as [-> ->]. apply bool_decide_eq_true in Hc. split; [|done].
  apply check_execution_ok in He as (Hen%check_environment_ok & (head & s3 & s4 & Hh & Heq) & Hev).
  destruct Hp as (Hsha & ? & ? & ?), Hen. rewrite Hsha in Heq. injection Heq as <-. unfold bound. split_and!; try done. by exists s3, s4.
Qed.

(** A run that the wait returns may publish: it is the process's own run and
    attempt, at the checked-out commit, for an event that may publish the channel;
    it is in progress without a conclusion, its release gate passed in this
    attempt, and all of that was seen before the deadline. *)
Theorem executing_run_is_bound run_id channel info sha attempt s s' run :
  wait_for_executing_run py_text repo run_id channel info sha attempt true s = (s', Ok run) →
  bound run_id channel sha attempt run
  ∧ get_key "status" run = VStr (&"in_progress") ∧ get_key "conclusion" run = VNone
  ∧ (∃ s1 s2, gate_passed run_id sha (VInt attempt) s1 s2)
  ∧ ∃ s0 t, monotonic s = (s0, Ok t) ∧ (now s' < t + EXECUTING_RUN_WAIT_SECONDS)%Q.
Proof.
  unfold wait_for_executing_run. intros Hw. apply bind_M_ok in Hw as (s0 & t & Ht & Hw). apply bind_M_ok in Hw as (s1 & [run'|] & Hl & Hw); [|done].
  apply mret_M_ok in Hw as [-> ->]. apply loop_bound in Hl as (s2 & s3 & s4 & [Hb Hc]%bound_run_ok & Hr & Hd).
  unfold publication_ready in Hr. destruct (text_is _ _) eqn:Es; [|done]. apply text_is_iff in Es. apply release_gate_ready_ok in Hr.
  split; [done|]. split; [done|]. split; [done|]. split; [by exists s3, s4|by exists s0, t].
Qed.

(** C28: Within its 151 rounds the wait for a run always ends with an answer or an
    error, whatever the answers it polls: more rounds never change the result. *)
Theorem executing_run_wait_ends run_id channel info sha attempt gate s s0 t :
  monotonic s = (s0, Ok t) →
  ∃ s' r, r ≠ Ok None ∧ ∀ n, (WAIT_ROUNDS ≤ n)%nat →
    wait_loop py_text repo n run_id channel info sha attempt gate (t + EXECUTING_RUN_WAIT_SECONDS) None s0 = (s', r).
Proof.
  intros Ht. destruct (wait_loop py_text repo WAIT_ROUNDS run_id channel info sha attempt gate (t + EXECUTING_RUN_WAIT_SECONDS) None s0) as [s' r] eqn:El.
  destruct (monotonic_now _ _ _ Ht) as [_ Hn]. specialize (Hn t eq_refl).
  assert (r ≠ Ok None) as Hr.
  { eapply rounds_end, El. unfold EXECUTING_RUN_WAIT_SECONDS. change (inject_Z (Z.of_nat 150)) with 150%Q. subst t. lra. }
  exists s', r. split; [done|]. intros n Hn'. replace n with (WAIT_ROUNDS + (n - WAIT_ROUNDS))%nat by lia.
  by apply rounds_more.
Qed.
End clock.

(** ** Supersession *)

Section supersession.
Context `{UnicodeCase} {G : Type} `{GitHub G} `{Host G} (py_text : pyval → pystr) (repo : pystr).

(** A run whose candidate may be superseded at all. *)
Definition automatic_run (run : pyobject) (channel : pystr) : Prop :=
  dict_get (&"event") run = Some (VStr (&"push")) ∧ channel = &"beta"
  ∨ dict_get (&"event") run = Some (VStr (&"schedule")) ∧ channel = &"nightly".

(** A run is later than another. *)
Definition later (name : string) (successor run : pyobject) : Prop :=
  ∃ a b, positive (get_key name successor) name = Ok a ∧ positive (get_key name run) name = Ok b ∧ b < a.

Lemma py_in_single v s : py_in v [s] = Ok true → v = VStr s.
Proof. rewrite py_in_true. intros (t & -> & Ht%list_elem_of_singleton). by subst. Qed.

Lemma automatic_ok run event channel :
  item (&"event") run = Ok event → automatic event channel = Ok true → automatic_run run channel.
Proof.
  unfold automatic, item, automatic_run. destruct (dict_get _ run); [|done]. intros [= ->] Ha. inv_bind.
  match goal with Hx : _ || _ = true |- _ => apply orb_true_iff in Hx as [[-> Hc]%andb_true_iff|[-> Hc]%andb_true_iff] end;
    apply bool_decide_eq_true in Hc;
    match goal with Hx : py_in _ _ = Ok true |- _ => apply py_in_single in Hx as -> end; [by left|by right].
Qed.

Lemma newer_ok name successor run : newer name successor run = Ok true → later name successor run.
Proof. unfold newer. intros Hn. inv_bind. do 2 eexists. split_and!; [done|done|]. by apply Z.ltb_lt. Qed.

Lemma check_successor_ok successor run :
  check_successor successor run = Ok tt →
  get_key "event" successor = VStr (&"push") ∧ later "id" successor run ∧ later "run_number" successor run.
Proof.
  unfold check_successor. intros Hc. inv_gate. deex. subst.
  match goal with Hx : o_and _ _ = Ok true |- _ => rewrite !o_and_true in Hx; destruct Hx as ([= He] & Hi & Hn & _) end.
  split_and!; [by apply text_is_iff|by apply newer_ok..].
Qed.

Lemma check_advanced_ok comparison source :
  check_advanced comparison source = Ok tt →
  ∃ d, comparison = VDict d ∧ get_key "status" d = VStr (&"ahead")
    ∧ ∃ base, nested_get "merge_base_commit" "sha" d = Ok base ∧ py_eq base source = true.
Proof.
  unfold check_advanced. intros Hc. inv_gate. deex. subst.
  match goal with Hx : o_and _ _ = Ok true |- _ => rewrite o_and_true in Hx; destruct Hx as [[= Ha] Hb] end.
  destruct comparison as [| | | | | | |d]; try done. cbn [dict_of is_dict andb] in *. exists d. split; [done|]. split; [by apply text_is_iff|].
  inv_bind. by eexists.
Qed.

(** A candidate is reported as superseded only for an automatic run whose branch
    has advanced: its commit is behind the head of the default branch, the only
    release run of that head is a later push run of the same workflow, and the
    branch had the same head before and after that was verified. *)
Theorem supersession_is_proven info run channel s s' result :
  superseded_candidate py_text repo info run channel s = (s', Ok (Some result)) →
  automatic_run run channel
  ∧ ∃ source head successor comparison branch quoted s1 s2 s3 ref ref',
      dict_get (&"head_sha") run = Some source ∧ source ≠ VStr head ∧ fullmatch SHA_RE head = true
      ∧ get_key "status" comparison = VStr (&"ahead")
      ∧ (∃ base, nested_get "merge_base_commit" "sha" comparison = Ok base ∧ py_eq base source = true)
      ∧ get_key "event" successor = VStr (&"push") ∧ get_key "head_sha" successor = VStr head
      ∧ get_key "path" successor = VStr WORKFLOW_PATH
      ∧ later "id" successor run ∧ later "run_number" successor run
      ∧ gh_api (&"git/ref/heads/" ++ quoted) (&"GET") None s1 = (s2, Ok ref) ∧ branch_head ref branch "" = Ok head
      ∧ gh_api (&"git/ref/heads/" ++ quoted) (&"GET") None s3 = (s', Ok ref') ∧ py_eq ref' ref = true
      ∧ get_key "status" result = VStr (&"superseded") ∧ get_key "superseded_by" result = VStr head.
Proof.
  unfold superseded_candidate. intros Hs. apply bind_M_ok in Hs as (? & event & [-> He]%lift_M_ok & Hs).
  apply bind_M_ok in Hs as (? & auto & [-> Hauto]%lift_M_ok & Hs). destruct auto; [|done]. cbn [negb] in Hs.
  split; [by eapply automatic_ok|]. apply bind_M_ok in Hs as (? & v & [-> _]%lift_M_ok & Hs).
  apply bind_M_ok in Hs as (s1 & again & _ & Hs). apply bind_M_ok in Hs as (? & v' & [-> _]%lift_M_ok & Hs).
  apply bind_M_ok in Hs as (? & _ & [-> _]%lift_M_ok & Hs). apply bind_M_ok in Hs as (? & branch & [-> _]%lift_M_ok & Hs).
  apply bind_M_ok in Hs as (? & quoted & [-> _]%lift_M_ok & Hs). cbv zeta in Hs. apply bind_M_ok in Hs as (s2 & ref & Hr & Hs).
  apply bind_M_ok in Hs as (? & head & [-> Hh]%lift_M_ok & Hs). apply bind_M_ok in Hs as (? & source & [-> Hsrc]%lift_M_ok & Hs).
  destruct (text_is source head) eqn:Et; [done|]. apply bind_M_ok in Hs as (s3 & comparison & _ & Hs).
  apply bind_M_ok in Hs as (? & [] & [-> (d & -> & Hd & Hb)%check_advanced_ok]%lift_M_ok & Hs).
  apply bind_M_ok in Hs as (s4 & replacement & _ & Hs). apply bind_M_ok in Hs as (? & successor & [-> _]%lift_M_ok & Hs).
  apply bind_M_ok in Hs as (? & attempt & [-> _]%lift_M_ok & Hs). apply bind_M_ok in Hs as (? & [] & [-> Hp%provenance_ok]%lift_M_ok & Hs).
  apply bind_M_ok in Hs as (? & [] & [-> Hc%check_successor_ok]%lift_M_ok & Hs). apply bind_M_ok in Hs as (s5 & ref' & Hr' & Hs).
  apply bind_M_ok in Hs as (? & _ & [-> Heq%release_require_ok]%lift_M_ok & Hs). apply bind_M_ok in Hs as (? & result' & [-> Hres]%lift_M_ok & Hs).
  apply mret_M_ok in Hs as [-> [= ->]]. destruct Hp as (? & ? & ? & _), Hc as (? & ? & ?).
  exists source, head, successor, d, branch, quoted, s1, s2, s4, ref, ref'.
  assert (branch_head ref branch "" = Ok head) as Hh' by (revert Hh; unfold branch_head; cbv zeta; unfold release_require, check; by destruct (_ && _)).
  assert (get_key "status" result = VStr (&"superseded") ∧ get_key "superseded_by" result = VStr head) as [? ?].
  { unfold superseded_outcome in Hres. inv_bind. done. }
  split_and!; try done. { unfold item in Hsrc. by destruct (dict_get _ run); [injection Hsrc as ->|]. } intros ->. by rewrite (proj2 (text_is_iff _ _) eq_refl) in Et.
Qed.
End supersession.

(** ** A concrete run

    A world that is only its clock: requests take half a second, the run is
    reported as queued for five seconds, and the branch has advanced to a commit
    with one release run. *)

Section demo.
Let no_floats (_ : Q) : pystr := [].

Definition demo_sha : pystr := replicate 40 (chr "a").
Definition demo_head : pystr := replicate 40 (chr "b").
Definition demo_repository : pyval := VDict [(&"full_name", VStr (&"o/r"))].
Definition demo_info : pyobject := [(&"full_name", VStr (&"o/r")); (&"default_branch", VStr (&"main"))].

Definition demo_run (id : Z) (sha event status : pystr) : pyobject :=
  [(&"id", VInt id); (&"run_number", VInt id); (&"run_attempt", VInt 1); (&"repository", demo_repository); (&"head_repository", demo_repository);
   (&"head_sha", VStr sha); (&"path", VStr WORKFLOW_PATH); (&"head_branch", VStr (&"main")); (&"event", VStr event);
   (&"status", VStr status); (&"conclusion", VNone)].

Definition demo_gate : pyobject :=
  [(&"name", VStr (&"Release gate")); (&"head_sha", VStr demo_sha); (&"status", VStr (&"completed")); (&"conclusion", VStr (&"success"))].

Definition demo_reply (path : pystr) (t : Q) : option pyval :=
  if bool_decide (path = []) then Some (VDict demo_info)
  else if bool_decide (path = &"actions/runs/7") then
    Some (VDict (demo_run 7 demo_sha (&"push") (if Qlt_bool t 5 then &"queued" else &"in_progress")))
  else if bool_decide (path = jobs_path 7 (VInt 1)) then Some (VList [VDict [(&"jobs", VList [VDict demo_gate])]])
  else if bool_decide (path = &"git/ref/heads/main") then
    Some (VDict [(&"ref", VStr (&"refs/heads/main")); (&"object", VDict [(&"type", VStr (&"commit")); (&"sha", VStr demo_head)])])
  else if startswith (&"compare/") path then
    Some (VDict [(&"status", VStr (&"ahead")); (&"merge_base_commit", VDict [(&"sha", VStr demo_sha)])])
  else if startswith (&"actions/workflows/") path then
    Some (VDict [(&"total_count", VInt 1); (&"workflow_runs", VList [VDict (demo_run 8 demo_head (&"push") (&"queued"))])])
  else None.

#[local] Instance clock_github : GitHub Q := λ path _ _ _ t,
  ((t + (1 # 2))%Q, match demo_reply path t with Some v => json_bytes no_floats v | None => Raise (Exn (EGitHub (Some 404)) "") end).

#[local] Instance clock_host : Host Q := {|
  environ := [(&"GITHUB_ACTIONS", &"true"); (&"GITHUB_REPOSITORY", &"O/r"); (&"GITHUB_RUN_ID", &"7"); (&"GITHUB_RUN_ATTEMPT", &"1");
              (&"GITHUB_REF", &"refs/heads/main"); (&"GITHUB_WORKFLOW_REF", &"o/r/" ++ WORKFLOW_PATH ++ &"@refs/heads/main");
              (&"GITHUB_EVENT_NAME", &"push")];
  read_file _ t := (t, Raise (Exn EOS "")); rev_parse_head t := (t, Ok (0, demo_sha ++ [10%N]));
  monotonic t := (t, Ok t); sleep d t := ((t + d)%Q, Ok tt); announce _ _ t := (t, Ok tt);
|}.

#[local] Instance clock_laws : HostClock Q.
Proof.
  refine {| now t := t |}.
  - intros s s' r [= <- <-]. split; [apply Qle_refl|]. by intros t [= ->].
  - intros d s s' r _ [= <- <-]. apply Qle_refl.
  - intros path method body mode s s' r [= <- _]. lra.
  - intros p s s' r [= <- _]. apply Qle_refl.
  - intros s s' r [= <- _]. apply Qle_refl.
  - intros v d s s' r [= <- _]. apply Qle_refl.
Defined.

#[local] Existing Instance ascii_case.

Definition demo_wait : Q * outcome pyobject :=
  wait_for_executing_run (λ _, []) (&"o/r") 7 (&"beta") demo_info demo_sha 1 true 0%Q.

Lemma executing_run_is_bound_witness :
  is_ok (snd demo_wait) = true ∧ Qlt_bool 5 (fst demo_wait) = true ∧ (fst demo_wait < 0 + EXECUTING_RUN_WAIT_SECONDS)%Q
  ∧ ∃ run, snd demo_wait = Ok run ∧ bound 7 (&"beta") demo_sha 1 run.
Proof.
  assert (is_ok (snd demo_wait) = true) as Hok by (vm_compute; reflexivity). split; [exact Hok|].
  split; [vm_compute; reflexivity|]. destruct (snd demo_wait) as [run|e] eqn:E; [|done].
  destruct (executing_run_is_bound (λ _, []) (&"o/r") 7 (&"beta") demo_info demo_sha 1 0%Q (fst demo_wait) run) as (Hb & _ & _ & _ & s0 & t & Ht & Hn).
  { change (demo_wait = (fst demo_wait, Ok run)). rewrite <-E. by destruct demo_wait. }
  injection Ht as <- <-. split; [exact Hn|]. exists run. split; [done|exact Hb].
Defined.

(** A run that stays queued: the wait ends, with an error, near the deadline. *)
Definition stuck_wait : Q * outcome pyobject :=
  wait_for_executing_run (λ _, []) (&"o/r") 7 (&"beta") demo_info demo_sha 1 true (-1000)%Q.

Lemma executing_run_wait_ends_witness :
  snd stuck_wait = Raise (release_error "Publication run or Release gate was not ready within 300 seconds")
  ∧ ∃ s' r, r ≠ Ok None
      ∧ wait_loop (λ _, []) (&"o/r") 1000 7 (&"beta") demo_info demo_sha 1 true (-1000 + EXECUTING_RUN_WAIT_SECONDS) None (-1000)%Q = (s', r).
Proof.
  split; [vm_compute; reflexivity|].
  destruct (executing_run_wait_ends (λ _, []) (&"o/r") 7 (&"beta") demo_info demo_sha 1 true (-1000)%Q (-1000)%Q (-1000)%Q)
    as (s' & r & Hr & Hall); [reflexivity|].
  exists s', r. split; [exact Hr|]. apply Hall. unfold WAIT_ROUNDS. lia.
Defined.

Definition demo_superseded : Q * outcome (option pyobject) :=
  superseded_candidate (λ _, []) (&"o/r") demo_info (demo_run 7 demo_sha (&"push") (&"in_progress")) (&"beta") 0%Q.

Lemma supersession_is_proven_witness :
  ∃ result, snd demo_superseded = Ok (Some result) ∧ get_key "superseded_by" result = VStr demo_head
    ∧ automatic_run (demo_run 7 demo_sha (&"push") (&"in_progress")) (&"beta").
Proof.
  assert (match snd demo_superseded with Ok (Some r) => bool_decide (get_key "superseded_by" r = VStr demo_head) | _ => false end = true) as Hok
    by (vm_compute; reflexivity).
  destruct (snd demo_superseded) as [[result|]|e] eqn:E; [|done|done]. exists result. split; [done|]. split; [by apply bool_decide_eq_true in Hok|].
  refine (proj1 (supersession_is_proven (λ _, []) (&"o/r") demo_info (demo_run 7 demo_sha (&"push") (&"in_progress")) (&"beta") 0%Q
                   (fst demo_superseded) result _)).
  change (demo_superseded = (fst demo_superseded, Ok (Some result))). rewrite <-E. by destruct demo_superseded.
Defined.
End demo.
