(* ===== verification/ReleaseNotes.v ===== *)
(** * Release notes ([scripts/release_control.py])

    The reviewed changelog section of a release: a line-by-line reading of Markdown
    that masks comments without moving anything, the headings and sections it
    finds, the guidance they must hold, and the notes that are published. *)

From Stdlib Require Import QArith.QArith Strings.Byte.
From S2P Require Import Prelude PyStr PyDict PyRegex PyVal PyJson Base64 VersionPlan Release ReleaseValidation OciMetadata Fuzz ReleasePolicy Transport.
#[local] Open Scope nat_scope.
#[local] Open Scope regex_scope.

(** ** Text *)

(** [io.StringIO(text)]: the lines with their line feeds. *)
Fixpoint text_lines_from (s line : pystr) : list pystr :=
  match s with
  | [] => match line with [] => [] | _ => [line] end
  | c :: s => if (c =? 10)%N then (line ++ [c]) :: text_lines_from s [] else text_lines_from s (line ++ [c])
  end.
Definition text_lines (s : pystr) : list pystr := text_lines_from s [].

(** [s.lstrip(cs)], [s.rstrip(cs)], [s.strip(cs)] *)
Definition lstrip_of (f : N → bool) (s : pystr) : pystr := drop_while f s.
Definition rstrip_of (f : N → bool) (s : pystr) : pystr := rev (drop_while f (rev s)).
Definition strip_of (f : N → bool) (s : pystr) : pystr := rstrip_of f (lstrip_of f s).

Definition blank_chars (c : N) : bool := bool_decide (c ∈ [32; 9; 13; 10]%N).
Definition space_tab (c : N) : bool := bool_decide (c ∈ [32; 9]%N).
Definition line_end (c : N) : bool := bool_decide (c ∈ [13; 10]%N).

Fixpoint find_sub (p s : pystr) : option nat :=
  if startswith p s then Some 0 else match s with [] => None | _ :: s => S <$> find_sub p s end.

(** [s.find(p, position)] *)
Definition find_at (p s : pystr) (position : nat) : option nat := Nat.add position <$> find_sub p (drop position s).

(** [s[start:stop]] *)
Definition slice (start stop : nat) (s : pystr) : pystr := take (stop - start) (drop start s).

(** [s.expandtabs(4)] *)
Fixpoint expand_tabs (column : nat) (s : pystr) : pystr :=
  match s with
  | [] => []
  | c :: s =>
    if (c =? 9)%N then replicate (4 - column mod 4) 32%N ++ expand_tabs (column + (4 - column mod 4)) s
    else if line_end c then c :: expand_tabs 0 s
    else c :: expand_tabs (S column) s
  end.

(** ** Lines *)

(** [_release_fence]: the marker, its length and what follows. *)
Definition release_fence (line : pystr) : option (N * nat * pystr) :=
  let content := lstrip_of (N.eqb 32) line in
  match content with
  | marker :: _ =>
    if (3 <? length line - length content) || negb (one_of "`~" marker) then None
    else
      let n := length content - length (lstrip_of (N.eqb marker) content) in
      if n <? 3 then None else Some (marker, n, drop n content)
  | [] => None
  end.

(** The runs of backticks of a line. *)
Fixpoint backtick_runs (s : pystr) (position : nat) (start : option nat) : list (nat * nat) :=
  let closed := match start with Some a => [(a, position)] | None => [] end in
  match s with
  | [] => closed
  | c :: s =>
    if (c =? chr "`")%N then backtick_runs s (S position) (Some (default position start))
    else closed ++ backtick_runs s (S position) None
  end.

(** One run, read from the end of the line: the run after it of each length, and
    the code spans known so far. *)
Definition span_end (run : nat * nat) (st : pydict nat nat * pydict nat nat) : pydict nat nat * pydict nat nat :=
  let n := run.2 - run.1 in
  (dict_set n run.2 st.1, match dict_get n st.1 with Some stop => dict_set run.1 stop st.2 | None => st.2 end).

(** [_release_code_span_ends] *)
Definition release_code_span_ends (line : pystr) : pydict nat nat := (foldr span_end ([], []) (backtick_runs line 0 None)).2.

Definition blank_out (s : pystr) : pystr := (λ c, if line_end c then c else 32%N) <$> s.

Definition COMMENT_START : pystr := &"<!--".
Definition COMMENT_END : pystr := &"-->".

(** The loop of [_release_comment_line]. *)
Fixpoint mask_loop (fuel : nat) (line : pystr) (ends : pydict nat nat) (position : nat) (comment : bool) (visible : pystr) : pystr * bool :=
  match fuel, line !! position with
  | S fuel, Some c =>
    if comment then
      let found := find_at COMMENT_END line position in
      let stop := match found with None => length line | Some i => i + 3 end in
      mask_loop fuel line ends stop (bool_decide (found = None))
        (take position visible ++ blank_out (slice position stop line) ++ drop stop visible)
    else if (c =? chr "\")%N then mask_loop fuel line ends (position + 2) comment visible
    else match dict_get position ends with
         | Some stop => mask_loop fuel line ends stop comment visible
         | None =>
           if startswith COMMENT_START (drop position line) then mask_loop fuel line ends position true visible
           else mask_loop fuel line ends (S position) comment visible
         end
  | _, _ => (visible, comment)
  end.

(** Every position is met at most twice. *)
Definition mask_fuel (line : pystr) : nat := S (2 * length line).

(** [_release_comment_line] *)
Definition release_comment_line (line : pystr) (comment : bool) : pystr * bool :=
  mask_loop (mask_fuel line) line (release_code_span_ends line) 0 comment line.

(** [_release_fence_closes] *)
Definition release_fence_closes (candidate : option (N * nat * pystr)) (fence : N * nat) : bool :=
  match candidate with
  | Some (marker, n, rest) => (marker =? fence.1)%N && (fence.2 <=? n) && bool_decide (strip_of blank_chars rest = [])
  | None => false
  end.

(** What a line shows: its text with the offsets kept, whether it can be a heading,
    and whether it can be guidance. *)
Record md_line : Type := Line { shown : pystr; heading_allowed : bool; guidance : bool }.

(** Inside a fence, or a comment, at the start of a line. *)
Record md_state : Type := State { fence : option (N * nat); in_comment : bool }.

(** One turn of [_release_lines]. *)
Definition release_line (st : md_state) (line : pystr) : md_line * md_state :=
  let candidate := release_fence line in
  match fence st with
  | Some f =>
    let closes := release_fence_closes candidate f in
    (Line line false (negb closes), if closes then State None (in_comment st) else st)
  | None =>
    match (if in_comment st then None
           else match candidate with
                | Some (marker, n, rest) =>
                  if (marker =? chr "~")%N || negb (has (chr "`") rest) then Some (marker, n) else None
                | None => None
                end) with
    | Some f => (Line line false false, State (Some f) (in_comment st))
    | None =>
      if negb (in_comment st) && (startswith (&"    ") line || startswith [9%N] line) then (Line line false true, st)
      else let '(visible, comment) := release_comment_line line (in_comment st) in
           (Line visible true true, State (fence st) comment)
    end
  end.

Fixpoint release_lines_from (st : md_state) (lines : list pystr) : list md_line :=
  match lines with
  | [] => []
  | line :: lines => let '(l, st) := release_line st line in l :: release_lines_from st lines
  end.

(** [_release_lines] *)
Definition release_lines (text : pystr) : list md_line := release_lines_from (State None false) (text_lines text).

(** ** Headings and sections *)

Definition hash_char : N → bool := N.eqb (chr "#").

(** [_release_heading_title] *)
Definition release_heading_title (content : pystr) : pystr :=
  let title := strip_of blank_chars content in
  let before_hashes := rstrip_of hash_char title in
  if bool_decide (before_hashes = []) || endswith [32%N] before_hashes || endswith [9%N] before_hashes
  then rstrip_of space_tab before_hashes
  else title.

(** A heading: its level, title, and where its line starts and ends. *)
Record heading : Type := Heading { level : nat; title : pystr; line_from : nat; line_to : nat }.

(** The heading of a line at an offset. *)
Definition line_heading (offset : nat) (l : md_line) : option heading :=
  let line := shown l in
  let indentation := length line - length (lstrip_of (N.eqb 32) line) in
  let text := if indentation <=? 3 then drop indentation line else line in
  let n := length text - length (lstrip_of hash_char text) in
  if heading_allowed l && (1 <=? n) && (n <=? 6) && match text !! n with None => true | Some c => blank_chars c end
  then Some (Heading n (release_heading_title (drop n text)) offset (offset + length line))
  else None.

Fixpoint headings_from (offset : nat) (lines : list md_line) : list heading :=
  match lines with
  | [] => []
  | l :: lines => option_list (line_heading offset l) ++ headings_from (offset + length (shown l)) lines
  end.

(** [_release_headings] *)
Definition release_headings (text : pystr) : list heading := headings_from 0 (release_lines text).

(** The sections of a level among headings, each up to the next heading. *)
Fixpoint sections_of (text visible : pystr) (n : nat) (headings : list heading) : list (pystr * pystr * pystr) :=
  match headings with
  | [] => []
  | h :: rest =>
    let stop := match rest with h' :: _ => line_from h' | [] => length text end in
    (if level h =? n then [(title h, strip (slice (line_to h) stop text), slice (line_to h) stop visible)] else [])
    ++ sections_of text visible n rest
  end.

Definition visible_text (text : pystr) : pystr := concat (shown <$> release_lines text).

(** [_release_sections] *)
Definition release_sections (text : pystr) (n : nat) : list (pystr * pystr * pystr) :=
  sections_of text (visible_text text) n (filter (λ h, level h ≤ n) (release_headings text)).

(** ** Guidance *)

(** A container marker at the start of a text: whether it is a list item, and its
    length. *)
Definition container_marker (s : pystr) : option (bool * nat) :=
  let ends rest := match rest with [] => true | c :: _ => space_tab c end in
  match s with
  | c :: rest =>
    if (c =? chr ">")%N then Some (false, 1)
    else if one_of "-+*" c && ends rest then Some (true, 1)
    else
      let n := length s - length (lstrip_of is_digit s) in
      match drop n s with
      | d :: rest => if (1 <=? n) && (n <=? 9) && one_of ".)" d && ends rest then Some (true, S n) else None
      | [] => None
      end
  | [] => None
  end.

(** The loop of [_release_container_content]; every turn passes a marker. *)
Fixpoint container_loop (fuel : nat) (line : pystr) (list_item : bool) : pystr :=
  match fuel, container_marker line with
  | S fuel, Some (item, n) =>
    let after := drop n line in
    let rest := lstrip_of space_tab after in
    if 5 <=? length after - length rest then after else container_loop fuel rest item
  | _, _ =>
    if list_item && bool_decide (line ∈ [&"[ ]"; &"[x]"; &"[X]"]) then [] else line
  end.

(** [_release_container_content] *)
Definition release_container_content (line : pystr) : pystr :=
  let line := strip (expand_tabs 0 line) in container_loop (length line) line false.

(** [ {0,3}#{1,6}(?:[ \t\r\n]|$)] at the start of a line *)
Definition atx_start : regex :=
  rep_upto 3 (Char (N.eqb 32)) ⋅ Char hash_char ⋅ rep_upto 5 (Char hash_char) ⋅ (Char blank_chars ⋅ anything ⊹ Eps).

(** Three or more of one separator character. *)
Definition separator_line (line : pystr) : bool :=
  let markers := filter (λ c, space_tab c = false) (strip line) in
  match markers with
  | c :: _ => (3 <=? length markers) && one_of "-*_" c && bool_decide (strip_of (N.eqb c) markers = [])
  | [] => false
  end.

(** Whether a line is guidance. *)
Definition line_guides (l : md_line) : bool :=
  if negb (guidance l) || bool_decide (strip (shown l) = []) then false
  else if negb (heading_allowed l) then true
  else
    let line := release_container_content (shown l) in
    if startswith (&"    ") line || startswith [9%N] line then true
    else if bool_decide (line = []) || fullmatch atx_start line then false
    else negb (separator_line line).

(** [_release_has_guidance] *)
Definition release_has_guidance (text : pystr) : bool := existsb line_guides (release_lines text).

(** [ {0,3}(?:=+|-+)[ \t]*(?:\r?\n)?] *)
Definition underline : regex :=
  rep_upto 3 (Char (N.eqb 32)) ⋅ (plus (Char (N.eqb (chr "="))) ⊹ plus (Char (N.eqb (chr "-")))) ⋅ Star (Char space_tab)
  ⋅ opt (opt (Char (N.eqb 13)) ⋅ Char (N.eqb 10)).

(** The loop of [_release_has_setext_heading], over the raw and the shown lines. *)
Fixpoint setext_loop (paragraph : bool) (lines : list (pystr * md_line)) : bool :=
  match lines with
  | [] => false
  | (raw, l) :: lines =>
    let line := shown l in
    let blank := bool_decide (strip line = []) in
    if negb (heading_allowed l) then setext_loop false lines
    else if blank && negb (bool_decide (strip raw = [])) then setext_loop paragraph lines
    else if fullmatch underline line then if paragraph then true else setext_loop false lines
    else setext_loop (negb blank && negb (fullmatch atx_start line)) lines
  end.

(** [_release_has_setext_heading] *)
Definition release_has_setext_heading (text : pystr) : bool :=
  setext_loop false (zip (text_lines text) (release_lines text)).

(** ** The notes of a release *)

Definition CHANGELOG : pystr := &"CHANGELOG.md".

(** [\[X.Y.Z\](?:[ \t]+-[ \t]+[^\n]+)?[ \t]*] *)
Definition version_title (base : pystr) : regex :=
  chars (&"[" ++ base ++ &"]")
  ⋅ opt (plus (Char space_tab) ⋅ chars (&"-") ⋅ plus (Char space_tab) ⋅ plus (Char (λ c, negb (c =? 10)%N)))
  ⋅ Star (Char space_tab).

(** [s.replace("\r\n", "\n")] *)
Fixpoint unix_lines (s : pystr) : pystr :=
  match s with
  | [] => []
  | c :: s => if (c =? 13)%N && startswith [10%N] s then unix_lines s else c :: unix_lines s
  end.

(** The base version of a release tag: [VERSION_RE.match(tag[1:]).group(0)]. *)
Definition tag_base (tag : pystr) : pystr := take_while (λ c, negb (c =? chr "-")%N) (drop 1 tag).

(** The shown text of the first section with a title. *)
Definition titled (name : pystr) (sections : list (pystr * pystr * pystr)) : option pystr :=
  (λ x, x.2.2) <$> list_find (λ s, s.1.1 = name) sections.

(** The body of the release from a changelog. *)
Definition notes_body (changelog base provenance : pystr) : outcome pystr :=
  match filter (λ s, fullmatch (version_title base) s.1.1 = true) (release_sections changelog 2) with
  | [(_, notes, visible_notes)] =>
    _ ← release_require (negb (bool_decide (notes = []))) "Release needs one nonempty changelog section";
    _ ← release_require (negb (release_has_setext_heading notes))
          "Release note sections must use ATX headings, not Setext underlines";
    let sections := release_sections visible_notes 3 in
    _ ← for_each (λ name, release_require (match titled name sections with
                                           | Some section => negb (bool_decide (section = [])) && release_has_guidance section
                                           | None => false
                                           end) "Release notes need guidance") [&"Upgrade"; &"Security"];
    let body := &"## Changes in " ++ base ++ [10; 10]%N ++ notes ++ [10; 10]%N ++ &"## Build provenance" ++ [10; 10]%N ++ provenance in
    raw ← encode body;
    _ ← release_require (Z.of_nat (length raw) <=? 125000)%Z "Release notes are too large";
    Ok body
  | _ => Raise (release_error "Release needs one nonempty changelog section")
  end.

Section notes.
Context `{UnicodeCase} {G : Type} `{GitHub G} (sha1_hex sha256_hex : bytes → pystr) (repo : pystr).

(** [release_notes] *)
Definition release_notes (tag sha provenance : pystr) : M G pystr :=
  snapshot ← source_policy_snapshot repo sha1_hex sha256_hex sha;
  v ← lift (item (&"data") snapshot);
  policy ← lift (as_dict v);
  let source := get_key "release_notes" policy in
  if bool_decide (source = VNone) then mret provenance
  else
    _ ← lift (release_require (text_is source CHANGELOG) "Unsupported release notes source");
    _ ← lift (release_require (fullmatch TAG_RE tag) "Invalid release notes tag");
    answer ← gh_api (&"contents/CHANGELOG.md?ref=" ++ sha) (&"GET") None;
    lift (text ← contents_text CHANGELOG "Release notes must be a regular CHANGELOG.md at the source commit"
                   "Invalid or oversized release notes content" answer;
          p ← catch (raw ← b64decode text; changelog ← decode raw; Ok (raw, unix_lines changelog)) is_value_error
                (λ _, Raise (release_error "Invalid release notes encoding"));
          _ ← check_blob sha1_hex p.1 "Release notes size mismatch" "Release notes Git blob identity mismatch" answer;
          notes_body p.2 (tag_base tag) provenance).
End notes.

(** ** Examples *)

Definition lf : pystr := [10%N].

Definition demo_changelog : pystr :=
  &"# Changelog" ++ lf ++ &"<!-- ## [9.9.9]" ++ lf ++ &"hidden -->" ++ lf
  ++ &"## [1.2.3] - today" ++ lf ++ &"Faster." ++ lf
  ++ &"```" ++ lf ++ &"## [1.2.3]" ++ lf ++ &"```" ++ lf
  ++ &"### Upgrade ###" ++ lf ++ &"- run `<!--` twice" ++ lf ++ &"### Security" ++ lf ++ &"> nothing <!-- yet" ++ lf ++ &"--> new" ++ lf
  ++ &"## [1.2.2]" ++ lf ++ &"Old." ++ lf.

Example headings_demo :
  (λ h, (level h, title h)) <$> release_headings demo_changelog =
  [(1, &"Changelog"); (2, &"[1.2.3] - today"); (3, &"Upgrade"); (3, &"Security"); (2, &"[1.2.2]")].
Proof. vm_compute. reflexivity. Qed.

Example notes_demo :
  is_ok (notes_body demo_changelog (&"1.2.3") (&"run 7")) = true
  ∧ is_ok (notes_body demo_changelog (&"1.2.2") (&"run 7")) = false
  ∧ is_ok (notes_body demo_changelog (&"9.9.9") (&"run 7")) = false
  ∧ release_has_guidance (&"- [ ]" ++ lf ++ &"---" ++ lf ++ &"<!-- text -->" ++ lf ++ &"1. > *" ++ lf) = false
  ∧ release_has_guidance (&"- none") = true
  ∧ release_has_setext_heading (&"Title" ++ lf ++ &"=====" ++ lf) = true
  ∧ release_has_setext_heading (&"- item" ++ lf ++ lf ++ &"---" ++ lf) = false
  ∧ tag_base (&"v1.2.3-rc.4") = &"1.2.3".
Proof. vm_compute. done. Qed.
