(* ===== verification/ReleaseNotesFacts.v ===== *)
(** * What the published notes are

    Masking comments moves nothing: the shown text has a character for each
    character of the changelog, the same one or a blank, and blanks exactly the
    comments that a declarative reading of a line finds.  So the section that is
    checked for headings and guidance is the section that is published, and a
    comment can contribute neither. *)

From Stdlib Require Import QArith.QArith Strings.Byte Sorting.Sorted.
From S2P Require Import Prelude PyStr PyDict PyRegex PyVal PyJson Base64 VersionPlan Release ReleaseValidation OciMetadata Fuzz ReleasePolicy Transport ReleaseRuns ReleaseNotes.
#[local] Open Scope nat_scope.

(** ** Masking *)

(** A shown character: the original, or a blank for one that ends no line. *)
Definition shown_char (c d : N) : Prop := d = c ∨ d = 32%N ∧ line_end c = false.

#[local] Instance shown_char_refl : Reflexive shown_char.
Proof. by left. Qed.

Lemma shown_refl s : Forall2 shown_char s s.
Proof. induction s; by constructor. Qed.

Lemma shown_blank s : Forall2 shown_char s (blank_out s).
Proof. induction s as [|c s IH]; constructor; [|done]. unfold shown_char. destruct (line_end c); auto. Qed.

Lemma find_sub_bound p s i : find_sub p s = Some i → i + length p ≤ length s.
Proof.
  revert i. induction s as [|c s IH]; intros i; cbn [find_sub]; destruct (startswith p _) eqn:E.
  1, 3: intros [= <-]; apply startswith_true in E as [k ->]; rewrite length_app; lia.
  - done.
  - destruct (find_sub p s) as [j|]; [|done]. intros [= <-]. specialize (IH j eq_refl). cbn. lia.
Qed.

Lemma find_at_bound p s position i : find_at p s position = Some i → position ≤ length s → position ≤ i ∧ i + length p ≤ length s.
Proof.
  unfold find_at. destruct (find_sub p (drop position s)) as [j|] eqn:E; [|done]. intros [= <-] Hp.
  apply find_sub_bound in E. rewrite length_drop in E. lia.
Qed.

Lemma slice_split start stop (s : pystr) : start ≤ stop → stop ≤ length s → s = take start s ++ slice start stop s ++ drop stop s.
Proof.
  intros H1 H2. unfold slice. rewrite <-(take_drop start s) at 1. f_equal.
  rewrite <-(take_drop (stop - start) (drop start s)) at 1. f_equal. rewrite drop_drop. f_equal. lia.
Qed.

Lemma mask_loop_shown fuel line ends position comment visible visible' comment' :
  Forall2 shown_char line visible → mask_loop fuel line ends position comment visible = (visible', comment') →
  Forall2 shown_char line visible'.
Proof.
  revert position comment visible. induction fuel as [|fuel IH]; intros position comment visible Hv; cbn [mask_loop]; [by intros [= <- _]|].
  destruct (line !! position) as [c|] eqn:Hc; [|by intros [= <- _]]. apply lookup_lt_Some in Hc. destruct comment.
  - cbv zeta. apply IH. set (stop := match find_at COMMENT_END line position with None => length line | Some i => i + 3 end).
    assert (position ≤ stop ∧ stop ≤ length line) as [H1 H2].
    { unfold stop. destruct (find_at COMMENT_END line position) as [i|] eqn:E; [|lia]. apply find_at_bound in E; [|lia]. change (length COMMENT_END) with 3 in E. lia. }
    rewrite (slice_split position stop line) at 1 by lia.
    apply Forall2_app; [by apply Forall2_take|]. apply Forall2_app; [apply shown_blank|by apply Forall2_drop].
  - destruct (c =? chr "\")%N; [by apply IH|]. destruct (dict_get position ends); [by apply IH|].
    destruct (startswith COMMENT_START _); by apply IH.
Qed.

Lemma release_comment_line_shown line comment visible comment' :
  release_comment_line line comment = (visible, comment') → Forall2 shown_char line visible.
Proof. apply mask_loop_shown, shown_refl. Qed.

(** *** The fuel *)

(** Code spans end after they start. *)
Definition spans_forward (ends : pydict nat nat) : Prop := ∀ start stop, dict_get start ends = Some stop → start < stop.

Lemma mask_loop_fuel fuel line ends position comment visible k :
  spans_forward ends → 2 * (length line - position) + (if comment : bool then 0 else 1) ≤ fuel →
  mask_loop (fuel + k) line ends position comment visible = mask_loop fuel line ends position comment visible.
Proof.
  intros Hends. revert position comment visible. induction fuel as [|fuel IH]; intros position comment visible Hf.
  - destruct comment; [|lia]. destruct k; cbn [Nat.add mask_loop]; [done|]. rewrite lookup_ge_None_2 by lia. done.
  - cbn [Nat.add mask_loop]. destruct (line !! position) as [c|] eqn:Hc; [|done]. apply lookup_lt_Some in Hc. destruct comment.
    + cbv zeta. apply IH. case_bool_decide; destruct (find_at COMMENT_END line position) as [i|] eqn:E; try done; try lia.
      apply find_at_bound in E; [|lia]. change (length COMMENT_END) with 3 in E. lia.
    + destruct (c =? chr "\")%N; [apply IH; lia|]. destruct (dict_get position ends) as [stop|] eqn:E; [apply Hends in E; apply IH; lia|].
      destruct (startswith COMMENT_START _); apply IH; lia.
Qed.

Lemma backtick_runs_forward s position start run :
  match start with Some a => a < position | None => True end → run ∈ backtick_runs s position start → run.1 < run.2.
Proof.
  revert position start. induction s as [|c s IH]; intros position start Hs; cbn [backtick_runs].
  - destruct start as [a|]; [|by rewrite elem_of_nil]. rewrite list_elem_of_singleton. by intros ->.
  - destruct (c =? chr "`")%N.
    + apply IH. destruct start; cbn; lia.
    + rewrite elem_of_app. intros [Hin|Hin]; [|by apply (IH (S position) None)].
      destruct start as [a|]; [|by apply elem_of_nil in Hin]. apply list_elem_of_singleton in Hin as ->. done.
Qed.

(** Ordered runs of a line. *)
Lemma backtick_runs_ordered s position start :
  match start with Some a => a < position | None => True end →
  StronglySorted (λ r r', r.2 ≤ r'.1) (backtick_runs s position start)
  ∧ ∀ run, run ∈ backtick_runs s position start → match start with Some a => a ≤ run.1 | None => position ≤ run.1 end.
Proof.
  revert position start. induction s as [|c s IH]; intros position start Hs; cbn [backtick_runs].
  - destruct start as [a|]; (split; [repeat constructor|]); intros run Hr; [|by apply elem_of_nil in Hr]. apply list_elem_of_singleton in Hr as ->. done.
  - destruct (c =? chr "`")%N.
    + destruct (IH (S position) (Some (default position start))) as [H1 H2]; [destruct start; cbn; lia|]. split; [done|].
      intros run Hr%H2. destruct start; cbn in *; lia.
    + destruct (IH (S position) None I) as [H1 H2]. destruct start as [a|]; cbn [app].
      * split; [constructor; [done|]|].
        { apply Forall_forall. intros run Hr%H2. cbn in *. lia. }
        intros run [->|Hr%H2]%elem_of_cons; cbn in *; lia.
      * split; [done|]. intros run Hr%H2. cbn in *. lia.
Qed.

Lemma code_spans_forward line : spans_forward (release_code_span_ends line).
Proof.
  unfold release_code_span_ends. assert (∀ run, run ∈ backtick_runs line 0 None → run.1 < run.2) as Hlt
    by (intros run; by apply backtick_runs_forward).
  destruct (backtick_runs_ordered line 0 None I) as [Hs _].
  enough (spans_forward (foldr span_end ([], []) (backtick_runs line 0 None)).2
          ∧ ∀ n stop, dict_get n (foldr span_end ([], []) (backtick_runs line 0 None)).1 = Some stop →
              ∃ run, run ∈ backtick_runs line 0 None ∧ stop = run.2) as [? _] by done.
  induction Hs as [|run runs Hs IH Hfirst]; [done|]. destruct IH as [IH1 IH2]; [intros r Hr; apply Hlt; by right|].
  cbn [foldr]. unfold span_end at 1 3. cbn [fst snd]. assert (run.1 < run.2) as Hrun by (apply Hlt; by left). split.
  - destruct (dict_get (run.2 - run.1) _) as [stop|] eqn:E; [|done]. intros a b. rewrite dict_get_set. destruct (decide (a = run.1)) as [->|].
    + intros [= <-]. apply IH2 in E as (r & Hr & ->). rewrite Forall_forall in Hfirst. specialize (Hfirst r Hr).
      assert (r.1 < r.2) by (apply Hlt; by right). lia.
    + apply IH1.
  - intros n stop. rewrite dict_get_set. destruct (decide _); [intros [= <-]; exists run; split; [by left|done]|].
    intros (r & Hr & ->)%IH2. exists r. split; [by right|done].
Qed.

(** More fuel than a line's never changes what it shows: the loop ends. *)
Lemma release_comment_line_ends line comment k :
  mask_loop (mask_fuel line + k) line (release_code_span_ends line) 0 comment line = release_comment_line line comment.
Proof. apply mask_loop_fuel; [apply code_spans_forward|]. unfold mask_fuel. destruct comment; lia. Qed.

(** ** Comments, exactly *)

(** A maximal run of backticks. *)
Definition backtick_run (line : pystr) (i j : nat) : Prop :=
  i < j ∧ (∀ k, i ≤ k → k < j → line !! k = Some (chr "`")) ∧ line !! j ≠ Some (chr "`")
  ∧ ∀ k, i = S k → line !! k ≠ Some (chr "`").

(** Inline code: a run of backticks up to the first later run of its length. *)
Definition code_span (line : pystr) (i j : nat) : Prop :=
  ∃ n k, backtick_run line i (i + n) ∧ i + n ≤ k ∧ j = k + n ∧ backtick_run line k j
    ∧ ∀ k', i + n ≤ k' → k' < k → ¬ backtick_run line k' (k' + n).

Definition occurs (p line : pystr) (i : nat) : Prop := startswith p (drop i line) = true.

(** Hidden text keeps its length and its line ends. *)
Definition blanked (s : pystr) : pystr := (λ c, if bool_decide (c = 13%N ∨ c = 10%N) then c else 32%N) <$> s.

(** What a line shows from a position on, and whether it ends in a comment:
    a comment hides everything up to its first end marker, and a start marker
    counts unless it is escaped or in inline code. *)
Inductive masks (line : pystr) : nat → bool → pystr → bool → Prop :=
  | masks_end p c : length line ≤ p → masks line p c [] c
  | masks_hidden p :
      p < length line → (∀ i, p ≤ i → ¬ occurs COMMENT_END line i) →
      masks line p true (blanked (drop p line)) true
  | masks_close p i vis c :
      p < length line → p ≤ i → occurs COMMENT_END line i → (∀ j, p ≤ j → j < i → ¬ occurs COMMENT_END line j) →
      masks line (i + 3) false vis c → masks line p true (blanked (slice p (i + 3) line) ++ vis) c
  | masks_escape p vis c :
      line !! p = Some (chr "\") → masks line (p + 2) false vis c → masks line p false (slice p (p + 2) line ++ vis) c
  | masks_code p stop vis c :
      code_span line p stop → masks line stop false vis c → masks line p false (slice p stop line ++ vis) c
  | masks_open p vis c :
      occurs COMMENT_START line p → masks line p true vis c → masks line p false vis c
  | masks_char p d vis c :
      line !! p = Some d → d ≠ chr "\" → (∀ stop, ¬ code_span line p stop) → ¬ occurs COMMENT_START line p →
      masks line (S p) false vis c → masks line p false (d :: vis) c.

Lemma find_sub_spec p s :
  match find_sub p s with
  | Some i => occurs p s i ∧ ∀ j, j < i → ¬ occurs p s j
  | None => p ≠ [] → ∀ j, ¬ occurs p s j
  end.
Proof.
  unfold occurs. induction s as [|c s IH]; cbn [find_sub]; destruct (startswith p _) eqn:E.
  - split; [done|lia].
  - intros _ j. rewrite drop_nil. by rewrite E.
  - split; [done|lia].
  - destruct (find_sub p s) as [i|]; cbn [fmap option_fmap option_map].
    + destruct IH as [H1 H2]. split; [done|]. intros [|j] Hj; cbn [drop]; [by rewrite E|]. apply H2. lia.
    + intros Hp [|j]; cbn [drop]; [by rewrite E|by apply IH].
Qed.

Lemma find_at_spec p s position :
  p ≠ [] →
  match find_at p s position with
  | Some i => position ≤ i ∧ occurs p s i ∧ ∀ j, position ≤ j → j < i → ¬ occurs p s j
  | None => ∀ j, position ≤ j → ¬ occurs p s j
  end.
Proof.
  intros Hp. unfold find_at. pose proof (find_sub_spec p (drop position s)) as H. unfold occurs in *.
  destruct (find_sub p (drop position s)) as [i|]; cbn [fmap option_fmap option_map].
  - destruct H as [H1 H2]. rewrite drop_drop in H1. split; [lia|]. split; [done|]. intros j Hj1 Hj2.
    specialize (H2 (j - position) ltac:(lia)). rewrite drop_drop in H2. by replace (position + (j - position)) with j in H2 by lia.
  - intros j Hj. specialize (H Hp (j - position)). rewrite drop_drop in H. by replace (position + (j - position)) with j in H by lia.
Qed.

(** The scan finds the maximal runs. *)
Lemma backtick_runs_spec line s position start run :
  s = drop position line → position ≤ length line →
  match start with
  | Some a => a < position ∧ (∀ k, a ≤ k → k < position → line !! k = Some (chr "`")) ∧ ∀ k, a = S k → line !! k ≠ Some (chr "`")
  | None => ∀ k, position = S k → line !! k ≠ Some (chr "`")
  end →
  run ∈ backtick_runs s position start ↔ backtick_run line run.1 run.2 ∧ default position start ≤ run.1.
Proof.
  revert position start. induction s as [|c s IH]; intros position start Hs Hp Hst; cbn [backtick_runs].
  - assert (line !! position = None) as Hend.
    { apply lookup_ge_None_2. apply (f_equal length) in Hs. rewrite length_drop in Hs. cbn in Hs. lia. }
    apply lookup_ge_None_1 in Hend. destruct start as [a|]; cbn [default from_option id].
    + destruct Hst as (H1 & H2 & H3). rewrite list_elem_of_singleton. split.
      * intros ->. cbn. split; [|done]. split; [done|]. split; [done|]. split; [|done]. by rewrite lookup_ge_None_2.
      * destruct run as [i j]. cbn. intros ((R1 & R2 & R3 & R4) & Hi).
        assert (j ≤ length line) as Hj by (destruct (decide (j ≤ length line)); [done|]; specialize (R2 (j - 1) ltac:(lia) ltac:(lia)); apply lookup_lt_Some in R2; lia).
        assert (i = a) as -> by (destruct i as [|i]; [lia|]; destruct (decide (S i = a)); [done|]; destruct (R4 i eq_refl); apply H2; lia).
        f_equal. destruct (decide (j = position)) as [->|Hne]; [done|]. destruct R3. apply H2; lia.
    + rewrite elem_of_nil. split; [done|]. intros ((R1 & R2 & _) & Hi). specialize (R2 (run.1) ltac:(lia) ltac:(lia)). apply lookup_lt_Some in R2. lia.
  - assert (line !! position = Some c) as Hc by (rewrite <-(Nat.add_0_r position), <-lookup_drop, <-Hs; done).
    assert (s = drop (S position) line) as Hs' by (rewrite <-Nat.add_1_r, <-drop_drop, <-Hs; done).
    pose proof (lookup_lt_Some _ _ _ Hc) as Hlt. destruct (N.eqb_spec c (chr "`")) as [->|Hne].
    + rewrite IH; [|done|lia|].
      * destruct start as [a|]; cbn [default from_option id]; [done|]. split; [done|]. intros [Hr Hi]. split; [done|]. done.
      * destruct start as [a|]; cbn [default from_option id].
        { destruct Hst as (H1 & H2 & H3). split; [lia|]. split; [|done]. intros k Hk1 Hk2. destruct (decide (k = position)) as [->|]; [done|]. apply H2; lia. }
        split; [lia|]. split; [|done]. intros k Hk1 Hk2. by replace k with position by lia.
    + assert (∀ x, run ∈ backtick_runs s (S position) None ↔ backtick_run line run.1 run.2 ∧ x ≤ run.1 ∧ S position ≤ run.1 ∨ backtick_run line run.1 run.2 ∧ run.1 < x ∧ S position ≤ run.1) as Hrest.
      { intros x. rewrite IH; [|done|lia|]. { cbn [default from_option id]. destruct (decide (x ≤ run.1)); intuition lia. } intros k [= <-]. rewrite Hc. congruence. }
      rewrite elem_of_app. destruct start as [a|]; cbn [default from_option id].
      * destruct Hst as (H1 & H2 & H3). rewrite list_elem_of_singleton, (Hrest a). split.
        { intros [->|[(Hr & ? & ?)|(Hr & ? & ?)]]; [|done|lia]. cbn. split; [|done]. split; [done|]. split; [done|]. split; [congruence|done]. }
        destruct run as [i j]. cbn. intros (Hr & Hi). pose proof Hr as (R1 & R2 & R3 & R4).
        destruct (decide (S position ≤ i)) as [|Hip]; [by right; left|]. left.
        assert (i = a) as ->.
        { destruct i as [|i]; [lia|]. destruct (decide (S i = a)); [done|]. destruct (R4 i eq_refl). apply H2; lia. }
        assert (a ≠ position) by lia. f_equal. destruct (decide (j = position)) as [->|Hne']; [done|].
        destruct (decide (j < position)) as [|]; [destruct R3; apply H2; lia|]. specialize (R2 position ltac:(lia) ltac:(lia)). congruence.
      * rewrite elem_of_nil, (Hrest 0). split; [intros [[]|[(Hr & _ & ?)|(Hr & ? & _)]]; [split; [done|lia]|]; lia|].
        intros (Hr & Hi). right. left. split; [done|]. split; [lia|]. destruct (decide (run.1 = position)) as [E|]; [|lia].
        destruct Hr as (R1 & R2 & _). specialize (R2 (run.1) ltac:(lia) ltac:(lia)). rewrite E in R2. congruence.
Qed.

Definition run_length (r : nat * nat) : nat := r.2 - r.1.

(** The first run of a length, and for each start the first later run of its length. *)
Definition first_of (runs : list (nat * nat)) (from n stop : nat) : Prop :=
  ∃ r, r ∈ runs ∧ run_length r = n ∧ from ≤ r.1 ∧ stop = r.2 ∧ ∀ r', r' ∈ runs → run_length r' = n → from ≤ r'.1 → r.1 ≤ r'.1.

Lemma span_ends_spec runs :
  StronglySorted (λ r r', r.2 ≤ r'.1) runs → (∀ r, r ∈ runs → r.1 < r.2) →
  (∀ n stop, dict_get n (foldr span_end ([], []) runs).1 = Some stop ↔ first_of runs 0 n stop)
  ∧ (∀ i stop, dict_get i (foldr span_end ([], []) runs).2 = Some stop ↔
       ∃ r, r ∈ runs ∧ r.1 = i ∧ first_of runs r.2 (run_length r) stop).
Proof.
  induction 1 as [|run runs Hs IH Hfirst]; intros Hlt.
  { split; intros n stop; cbn; (split; [done|]); by intros (r & []%elem_of_nil & _). }
  destruct IH as [IH1 IH2]; [intros r Hr; apply Hlt; by right|]. rewrite Forall_forall in Hfirst.
  pose proof (Hlt run ltac:(by left)) as Hrun. assert (∀ r, r ∈ runs → run.2 ≤ r.1 ∧ r.1 < r.2) as Hrest
    by (intros r Hr; split; [by apply Hfirst|apply Hlt; by right]).
  assert (∀ m n stop, run.1 < m → m ≤ run.2 ∨ (∃ r, r ∈ runs ∧ m = r.2) → first_of (run :: runs) m n stop ↔ first_of runs m n stop) as Htail.
  { intros m n stop Hm _. unfold first_of. split; intros (r & Hr & Hn & Hi & He & Hmin); exists r.
    - apply elem_of_cons in Hr as [->|Hr]; [lia|]. do 4 (split; [done|]). intros r' Hr'. apply Hmin. by right.
    - split; [by right|]. do 3 (split; [done|]). intros r' [->|Hr']%elem_of_cons; [lia|by apply Hmin]. }
  cbn [foldr]. unfold span_end at 1 3. cbn [fst snd]. fold (run_length run). split.
  - intros n stop. rewrite dict_get_set. case_decide as Hn; [subst n|rewrite IH1].
    + split; [intros [= <-]; exists run; split; [by left|]; do 3 (split; [done || lia|]); intros r' [->|Hr'%Hrest]%elem_of_cons; lia|].
      intros (r & [->|Hr]%elem_of_cons & _ & _ & -> & Hmin); [done|]. specialize (Hmin run ltac:(by left) eq_refl ltac:(lia)).
      apply Hrest in Hr. lia.
    + unfold first_of. split; intros (r & Hr & Hl & Hi & He & Hmin); exists r.
      * split; [by right|]. do 3 (split; [done|]). intros r' [->|Hr']%elem_of_cons; [congruence|by apply Hmin].
      * apply elem_of_cons in Hr as [->|Hr]; [congruence|]. do 4 (split; [done|]). intros r' Hr'. apply Hmin. by right.
  - intros i stop.
    assert ((∃ r, r ∈ run :: runs ∧ r.1 = i ∧ first_of (run :: runs) r.2 (run_length r) stop) ↔
            i = run.1 ∧ first_of runs 0 (run_length run) stop ∨ i ≠ run.1 ∧ ∃ r, r ∈ runs ∧ r.1 = i ∧ first_of runs r.2 (run_length r) stop) as ->.
    { assert (∀ n e, first_of runs run.2 n e ↔ first_of runs 0 n e) as Hzero.
      { intros n e. unfold first_of. split; intros (r & Hr & Hl & Hi & He & Hmin); exists r; do 2 (split; [done|]);
          (split; [apply Hrest in Hr; lia|]); (split; [done|]); intros r' Hr' Hl' _; apply Hmin; first [done | by apply Hrest | lia]. }
      split.
      - intros (r & [->|Hr]%elem_of_cons & <- & Hf).
        + left. split; [done|]. apply Hzero. apply Htail in Hf; [done|lia|auto].
        + right. pose proof (Hrest r Hr). split; [lia|]. exists r. do 2 (split; [done|]). apply Htail in Hf; [done|lia|eauto].
      - intros [[-> Hf]|(Hi & r & Hr & <- & Hf)].
        + exists run. split; [by left|]. split; [done|]. apply Htail; [lia|auto|by apply Hzero].
        + exists r. split; [by right|]. split; [done|]. pose proof (Hrest r Hr). apply Htail; [lia|eauto|done]. }
    rewrite <-IH1, <-IH2. destruct (dict_get (run_length run) _) as [e|] eqn:E.
    + rewrite dict_get_set. case_decide; naive_solver.
    + split; [|naive_solver]. intros Hd. right. split; [|done]. intros ->. apply IH2 in Hd as (r & Hr%Hrest & Hi & _). lia.
Qed.

(** The reverse pass finds the inline code of a line. *)
Lemma code_span_ends_spec line i j : dict_get i (release_code_span_ends line) = Some j ↔ code_span line i j.
Proof.
  assert (∀ r, r ∈ backtick_runs line 0 None ↔ backtick_run line r.1 r.2) as Hruns.
  { intros r. rewrite (backtick_runs_spec line) by (done || lia). cbn. intuition lia. }
  unfold release_code_span_ends. destruct (span_ends_spec (backtick_runs line 0 None)) as [_ ->].
  { apply (backtick_runs_ordered line 0 None I). } { intros r Hr%Hruns. apply Hr. }
  unfold first_of, code_span, run_length. split.
  - intros ([a b] & Hr%Hruns & <- & [c d] & Hd%Hruns & Hl & Hbc & -> & Hmin). cbn in *.
    assert (a < b ∧ c < d) as [? ?] by (split; [apply Hr|apply Hd]).
    exists (b - a), c. replace (a + (b - a)) with b by lia. do 2 (split; [done|]). split; [lia|]. split; [done|].
    intros k Hk1 Hk2 Hk. specialize (Hmin (k, k + (b - a)) ltac:(by apply Hruns)). cbn in Hmin. specialize (Hmin ltac:(lia) Hk1). lia.
  - intros (n & k & Hr & Hk & -> & Hd & Hmin). exists (i, i + n). split; [by apply Hruns|]. split; [done|].
    exists (k, k + n). cbn. split; [by apply Hruns|]. split; [lia|]. split; [done|]. split; [done|].
    intros [c d] Hc%Hruns. cbn in *. intros Hl Hi. destruct (decide (k ≤ c)); [done|]. destruct (Hmin c Hi ltac:(lia)).
    assert (c < d) by apply Hc. by replace (c + n) with d by lia.
Qed.

Lemma slice_app p q (line : pystr) : p ≤ q → slice p q line ++ drop q line = drop p line.
Proof.
  intros Hpq. unfold slice. rewrite <-(take_drop (q - p) (drop p line)) at 2. rewrite drop_drop. do 2 f_equal. lia.
Qed.

Lemma occurs_bound p line i : occurs p line i → p ≠ [] → i + length p ≤ length line.
Proof.
  unfold occurs. intros (k & Hk)%startswith_true Hp. apply (f_equal length) in Hk. rewrite length_app, length_drop in Hk.
  destruct p; [done|]. cbn in *. lia.
Qed.

Lemma code_span_start line i j : code_span line i j → line !! i = Some (chr "`") ∧ i < j.
Proof. intros (n & k & (H1 & H2 & _) & Hk & -> & _). split; [apply H2; lia|lia]. Qed.

Lemma blank_out_blanked s : blank_out s = blanked s.
Proof.
  unfold blank_out, blanked. apply list_fmap_ext. intros i c _. unfold line_end.
  rewrite (bool_decide_ext (c ∈ [13; 10]%N) (c = 13%N ∨ c = 10%N)) by set_solver. done.
Qed.

(** The loop computes what a line shows, the text before the position kept. *)
Lemma mask_loop_masks line p c vis c' :
  masks line p c vis c' → ∀ fuel pre, length pre = p `min` length line → 2 * (length line - p) + (if c : bool then 0 else 1) ≤ fuel →
  mask_loop fuel line (release_code_span_ends line) p c (pre ++ drop p line) = (pre ++ vis, c').
Proof.
  assert (∀ p q, p ≤ q → length (slice p q line) + p `min` length line = q `min` length line) as Hlen
    by (intros i j Hij; unfold slice; rewrite length_take, length_drop; lia).
  induction 1 as [p c Hp|p Hp Hno|p i vis c Hp Hi Hocc Hno Hm IH|p vis c Hc Hm IH|p stop vis c Hs Hm IH|p vis c Hocc Hm IH|p d vis c Hc Hd Hs Hocc Hm IH];
    intros fuel pre Hpre Hf.
  - rewrite drop_ge by done. destruct fuel; cbn [mask_loop]; [done|]. by rewrite lookup_ge_None_2.
  - destruct fuel as [|fuel]; [lia|]. destruct (lookup_lt_is_Some_2 line p Hp) as [d Hd]. cbn [mask_loop]. rewrite Hd. cbv zeta.
    pose proof (find_at_spec COMMENT_END line p ltac:(done)) as Hfind. destruct (find_at COMMENT_END line p) as [i|]; [destruct Hfind as (? & ? & _); by destruct (Hno i)|].
    rewrite bool_decide_true by done. rewrite blank_out_blanked, take_app_length' by lia. unfold slice. rewrite (drop_ge (pre ++ _)), app_nil_r by (rewrite length_app, length_drop; lia).
    rewrite (firstn_all2 (drop p line)) by (rewrite length_drop; lia). destruct fuel; cbn [mask_loop]; [done|]. by rewrite lookup_ge_None_2.
  - destruct fuel as [|fuel]; [lia|]. destruct (lookup_lt_is_Some_2 line p Hp) as [d Hd]. cbn [mask_loop]. rewrite Hd. cbv zeta.
    pose proof (occurs_bound _ _ _ Hocc ltac:(done)) as Hb. change (length COMMENT_END) with 3 in Hb.
    pose proof (find_at_spec COMMENT_END line p ltac:(done)) as Hfind.
    destruct (find_at COMMENT_END line p) as [j|]; [|by destruct (Hfind i)]. destruct Hfind as (F1 & F2 & F3).
    assert (j = i) as -> by (destruct (Nat.lt_trichotomy i j) as [?|[?|?]]; [by destruct (F3 i)|done|by destruct (Hno j)]).
    rewrite bool_decide_false by done. rewrite blank_out_blanked, take_app_length' by lia. rewrite drop_app_ge by lia.
    rewrite drop_drop. replace (p + (i + 3 - length pre)) with (i + 3) by lia. rewrite app_assoc, (app_assoc pre). apply IH; [|lia].
    unfold blanked. rewrite length_app, length_fmap. specialize (Hlen p (i + 3) ltac:(lia)). lia.
  - pose proof (lookup_lt_Some _ _ _ Hc). destruct fuel as [|fuel]; [lia|]. cbn [mask_loop]. rewrite Hc, N.eqb_refl.
    rewrite <-(slice_app p (p + 2) line), !app_assoc by lia. apply IH; [rewrite length_app; specialize (Hlen p (p + 2) ltac:(lia)); lia|lia].
  - destruct (code_span_start _ _ _ Hs) as [Hc Hlt]. pose proof (lookup_lt_Some _ _ _ Hc). destruct fuel as [|fuel]; [lia|].
    cbn [mask_loop]. rewrite Hc. change (chr "`" =? chr "\")%N with false. cbv iota.
    apply code_span_ends_spec in Hs. rewrite Hs. rewrite <-(slice_app p stop line), !app_assoc by lia.
    apply IH; [rewrite length_app; specialize (Hlen p stop ltac:(lia)); lia|lia].
  - pose proof (occurs_bound _ _ _ Hocc ltac:(done)) as Hb. change (length COMMENT_START) with 4 in Hb.
    destruct fuel as [|fuel]; [lia|]. destruct (lookup_lt_is_Some_2 line p ltac:(lia)) as [d Hd].
    assert (d = chr "<") as ->.
    { unfold occurs in Hocc. apply startswith_true in Hocc as [k Hk]. rewrite <-(Nat.add_0_r p), <-lookup_drop, Hk in Hd. by injection Hd. }
    cbn [mask_loop]. rewrite Hd. change (chr "<" =? chr "\")%N with false. cbv iota.
    destruct (dict_get p _) as [stop|] eqn:E; [apply code_span_ends_spec, code_span_start in E as [E _]; rewrite Hd in E; vm_compute in E; discriminate E|].
    rewrite Hocc. apply IH; [done|lia].
  - pose proof (lookup_lt_Some _ _ _ Hc). destruct fuel as [|fuel]; [lia|]. cbn [mask_loop]. rewrite Hc.
    apply N.eqb_neq in Hd. rewrite Hd. destruct (dict_get p _) as [stop|] eqn:E; [apply code_span_ends_spec in E; by destruct (Hs stop)|].
    unfold occurs in Hocc. apply not_true_is_false in Hocc. rewrite Hocc. rewrite (drop_S _ _ _ Hc).
    change (d :: drop (S p) line) with ([d] ++ drop (S p) line). change (d :: vis) with ([d] ++ vis). rewrite !app_assoc.
    apply IH; [rewrite length_app; change (length [d]) with 1; lia|lia].
Qed.

(** Every line shows something from every position. *)
Lemma masks_total line p c : ∃ vis c', masks line p c vis c'.
Proof.
  remember (2 * (length line - p) + (if c : bool then 0 else 1)) as n eqn:En. revert p c En.
  induction (lt_wf n) as [n _ IH]. intros p c En.
  assert (∀ q c, 2 * (length line - q) + (if c : bool then 0 else 1) < n → ∃ vis c', masks line q c vis c') as Hnext by eauto.
  destruct (decide (length line ≤ p)) as [|Hp]; [by eexists _, _; apply masks_end|]. destruct c.
  - pose proof (find_at_spec COMMENT_END line p ltac:(done)) as Hfind. destruct (find_at COMMENT_END line p) as [i|].
    + destruct Hfind as (F1 & F2 & F3). destruct (Hnext (i + 3) false) as (vis & c' & Hm); [lia|]. eexists _, _. eapply masks_close; [lia|done..].
    + eexists _, _. apply masks_hidden; [lia|done].
  - destruct (lookup_lt_is_Some_2 line p ltac:(lia)) as [d Hd]. destruct (decide (d = chr "\")) as [->|Hne].
    { destruct (Hnext (p + 2) false) as (vis & c' & Hm); [lia|]. eexists _, _. by eapply masks_escape. }
    destruct (dict_get p (release_code_span_ends line)) as [stop|] eqn:E.
    { apply code_span_ends_spec in E. destruct (code_span_start _ _ _ E). destruct (Hnext stop false) as (vis & c' & Hm); [lia|]. eexists _, _. by eapply masks_code. }
    destruct (startswith COMMENT_START (drop p line)) eqn:Eo.
    { destruct (Hnext p true) as (vis & c' & Hm); [lia|]. eexists _, _. by eapply masks_open. }
    destruct (Hnext (S p) false) as (vis & c' & Hm); [lia|]. eexists _, _. eapply masks_char; [done|done| |unfold occurs; by rewrite Eo|done].
    intros stop Hs%code_span_ends_spec. congruence.
Qed.

(** C30: a line of the changelog shows exactly its characters with the comments
    blanked: a comment runs from a start marker that is neither escaped nor in
    inline code (a run of backticks up to the first later run of its length) to
    the first end marker, across lines; every hidden character but a line end is
    a space, everything else is unchanged, and the next line starts in a comment
    exactly when this one ends in one.  In particular offsets and line ends never
    move, so a section checked as it is shown is the section that is published. *)
Theorem comments_are_masked line comment visible comment' :
  (release_comment_line line comment = (visible, comment') ↔ masks line 0 comment visible comment')
  ∧ (release_comment_line line comment = (visible, comment') → Forall2 shown_char line visible).
Proof.
  split; [|by apply release_comment_line_shown].
  assert (∀ vis c', masks line 0 comment vis c' → release_comment_line line comment = (vis, c')) as Hrun.
  { intros vis c' Hm. apply (mask_loop_masks _ _ _ _ _ Hm _ []); [done|]. unfold mask_fuel. destruct comment; lia. }
  split; [|apply Hrun]. intros E. destruct (masks_total line 0 comment) as (vis & c' & Hm).
  pose proof (Hrun _ _ Hm) as E'. rewrite E in E'. by injection E' as -> ->.
Qed.

(** A comment that starts in a line hides the rest of it, and a marker in inline
    code or after a backslash does not. *)
Lemma comments_are_masked_witness :
  Forall2 shown_char (&"a <!-- b") (&"a       ")
  ∧ masks (&"a <!-- b") 0 false (&"a       ") true ∧ masks (&"b --> `<!--` \<!--") 0 true (&"      `<!--` \<!--") false.
Proof.
  assert (release_comment_line (&"a <!-- b") false = (&"a       ", true)) as E by (vm_compute; reflexivity).
  split; [exact (proj2 (comments_are_masked _ _ _ _) E)|].
  split; apply (proj1 (comments_are_masked _ _ _ _)); [exact E|vm_compute; reflexivity].
Defined.

(** ** Lines *)

Lemma text_lines_concat s : concat (text_lines s) = s.
Proof.
  unfold text_lines. enough (∀ line, concat (text_lines_from s line) = line ++ s) as H by apply H.
  induction s as [|c s IH]; intros line; cbn [text_lines_from].
  - destruct line; cbn; by rewrite ?app_nil_r.
  - destruct (c =? 10)%N; cbn [concat]; rewrite IH, <-app_assoc; done.
Qed.

Lemma release_line_shown st line l st' : release_line st line = (l, st') → Forall2 shown_char line (shown l).
Proof.
  unfold release_line. cbv zeta. destruct (fence st); [intros [= <- _]; apply shown_refl|].
  destruct (if in_comment st then _ else _); [intros [= <- _]; apply shown_refl|].
  destruct (_ && _); [intros [= <- _]; apply shown_refl|].
  destruct (release_comment_line _ _) as [visible comment] eqn:E. intros [= <- _]. by eapply release_comment_line_shown.
Qed.

Lemma visible_text_shown text : Forall2 shown_char text (visible_text text).
Proof.
  unfold visible_text, release_lines. rewrite <-(text_lines_concat text) at 1. generalize (State None false).
  induction (text_lines text) as [|line lines IH]; intros st; cbn [release_lines_from concat]; [constructor|].
  destruct (release_line st line) as [l st'] eqn:E. cbn [fmap list_fmap concat]. apply Forall2_app; [by eapply release_line_shown|apply IH].
Qed.

(** A line that a comment covers whole shows blanks: no heading and no guidance. *)
Lemma hidden_line st line :
  in_comment st = true → fence st = None → find_sub COMMENT_END line = None → line ≠ [] →
  release_line st line = (Line (blank_out line) true true, st).
Proof.
  destruct st as [f c]. cbn [in_comment fence]. intros -> -> Hf Hl. unfold release_line. cbn [fence in_comment negb andb].
  unfold release_comment_line, mask_fuel. destruct line as [|d line]; [done|]. cbn [mask_loop lookup list_lookup].
  unfold find_at. cbn [drop]. rewrite Hf. cbn [fmap option_fmap option_map take app]. rewrite bool_decide_true by done.
  rewrite (drop_ge (d :: line)), app_nil_r by done. unfold slice. rewrite Nat.sub_0_r, drop_0, firstn_all.
  replace (2 * length (d :: line)) with (S (S (2 * length line))) by (cbn; lia). cbn [mask_loop].
  rewrite lookup_ge_None_2 by done. done.
Qed.

Lemma strip_blanks s : (∀ c, c ∈ s → is_space c = true) → strip s = [].
Proof.
  intros Hs. unfold strip. assert (lstrip s = []) as ->; [|done]. unfold lstrip.
  induction s as [|c s IH]; [done|]. cbn [drop_while]. rewrite Hs by left. apply IH. intros d Hd. apply Hs. by right.
Qed.

Lemma hidden_no_guidance line : line_guides (Line (blank_out line) true true) = false.
Proof.
  unfold line_guides. cbn [guidance shown negb orb]. rewrite bool_decide_true; [done|]. apply strip_blanks.
  intros c. unfold blank_out. rewrite list_elem_of_fmap. intros (d & -> & _). destruct (line_end d) eqn:E; [|done].
  unfold line_end in E. apply bool_decide_eq_true in E. by repeat (apply elem_of_cons in E as [->|E]; [done|]); apply elem_of_nil in E.
Qed.

(** ** Sections *)

Lemma line_heading_at offset l h : line_heading offset l = Some h → line_from h = offset ∧ line_to h = offset + length (shown l).
Proof. unfold line_heading. cbv zeta. destruct (_ && _); [|done]. by intros [= <-]. Qed.

Lemma headings_bounds offset lines h :
  h ∈ headings_from offset lines →
  offset ≤ line_from h ∧ line_from h ≤ line_to h ∧ line_to h ≤ offset + length (concat (shown <$> lines)).
Proof.
  revert offset. induction lines as [|l lines IH]; intros offset; cbn [headings_from]; [by rewrite elem_of_nil|].
  cbn [fmap list_fmap concat]. rewrite length_app. destruct (line_heading offset l) as [h'|] eqn:E; cbn [option_list app].
  - intros [->|Hh%IH]%elem_of_cons; [apply line_heading_at in E as [-> ->]|]; lia.
  - intros Hh%IH. lia.
Qed.

Lemma headings_ordered offset lines : StronglySorted (λ h h', line_to h ≤ line_from h') (headings_from offset lines).
Proof.
  revert offset. induction lines as [|l lines IH]; intros offset; cbn [headings_from]; [constructor|].
  destruct (line_heading offset l) as [h|] eqn:E; [|apply IH]. cbn [option_list app]. constructor; [apply IH|].
  apply Forall_forall. intros h' Hh'%headings_bounds. apply line_heading_at in E as [_ ->]. lia.
Qed.

Lemma sorted_filter {A} (R : A → A → Prop) (P : A → Prop) `{∀ x, Decision (P x)} l : StronglySorted R l → StronglySorted R (filter P l).
Proof.
  induction 1 as [|x l Hl IH Hx]; [constructor|]. rewrite filter_cons. case_decide; [|done]. constructor; [done|].
  rewrite !Forall_forall in *. intros y [_ Hy]%list_elem_of_filter. by apply Hx.
Qed.

Lemma sections_spec text visible n hs t body vis :
  StronglySorted (λ h h', line_to h ≤ line_from h') hs → (∀ h, h ∈ hs → line_from h ≤ line_to h ∧ line_to h ≤ length text) →
  (t, body, vis) ∈ sections_of text visible n hs →
  ∃ h stop, h ∈ hs ∧ level h = n ∧ title h = t ∧ line_to h ≤ stop ∧ stop ≤ length text
    ∧ body = strip (slice (line_to h) stop text) ∧ vis = slice (line_to h) stop visible
    ∧ ∀ h', h' ∈ hs → line_from h' ≤ line_from h ∨ stop ≤ line_from h'.
Proof.
  induction 1 as [|h hs Hs IH Hfirst]; intros Hb; cbn [sections_of]; [by rewrite elem_of_nil|]. cbv zeta.
  rewrite Forall_forall in Hfirst. rewrite elem_of_app. intros [Hin|Hin].
  - destruct (level h =? n) eqn:El; [|by apply elem_of_nil in Hin]. apply list_elem_of_singleton in Hin as [= -> -> ->].
    apply Nat.eqb_eq in El. exists h, (match hs with h' :: _ => line_from h' | [] => length text end). split; [by left|]. split; [done|]. split; [done|].
    destruct (Hb h ltac:(by left)) as [Hb1 Hb2]. destruct hs as [|h1 hs].
    { split; [done|]. split; [done|]. split; [done|]. split; [done|]. intros h' [->|[]%elem_of_nil]%elem_of_cons. by left. }
    specialize (Hfirst h1 ltac:(by left)) as H1. destruct (Hb h1 ltac:(by right; left)) as [Hb3 Hb4].
    split; [done|]. split; [lia|]. split; [done|]. split; [done|]. intros h' [->|[->|Hh']%elem_of_cons]%elem_of_cons; [by left|by right|].
    right. inversion Hs as [|? ? _ Hall]; subst. rewrite Forall_forall in Hall. specialize (Hall h' Hh'). lia.
  - destruct IH as (h' & stop & Hh' & Hl & Ht & H1 & H2 & Hbody & Hvis & Hrest); [intros h' Hh'; apply Hb; by right|done|].
    exists h', stop. split; [by right|]. do 6 (split; [done|]). intros h'' [->|Hh'']%elem_of_cons; [|by apply Hrest].
    left. specialize (Hfirst h' Hh'). destruct (Hb h ltac:(by left)). lia.
Qed.

(** A section of a changelog: the text from its heading to the next one of its
    level or above, as it is and as it is shown. *)
Definition section_at (text t body vis : pystr) (n : nat) : Prop :=
  ∃ h stop, h ∈ release_headings text ∧ level h = n ∧ title h = t ∧ line_to h ≤ stop ∧ stop ≤ length text
    ∧ body = strip (slice (line_to h) stop text)
    ∧ Forall2 shown_char (slice (line_to h) stop text) vis
    ∧ ∀ h', h' ∈ release_headings text → level h' ≤ n → line_from h' ≤ line_from h ∨ stop ≤ line_from h'.

Lemma release_section_at text n t body vis : (t, body, vis) ∈ release_sections text n → section_at text t body vis n.
Proof.
  unfold release_sections, section_at. intros Hin. apply sections_spec in Hin as (h & stop & Hh & Hl & Ht & H1 & H2 & Hb & -> & Hrest).
  - apply list_elem_of_filter in Hh as [_ Hh]. exists h, stop. do 6 (split; [done|]). split.
    + unfold slice. apply Forall2_take, Forall2_drop, visible_text_shown.
    + intros h' Hh' Hl'. apply Hrest. by apply list_elem_of_filter.
  - apply sorted_filter, headings_ordered.
  - intros h [_ Hh]%list_elem_of_filter. apply headings_bounds in Hh. fold (visible_text text) in Hh.
    rewrite <-(Forall2_length _ _ _ (visible_text_shown text)) in Hh. cbn in Hh. lia.
Qed.

(** The notes of a release are the one changelog section of its version, from
    its heading to the next of its level, and what is checked is what is
    published: the checked text has the characters of that section with comments
    blanked, it holds guidance under both required headings, and the body fits. *)
Theorem notes_are_the_reviewed_section changelog base provenance body :
  notes_body changelog base provenance = Ok body →
  ∃ t notes vis, section_at changelog t notes vis 2 ∧ fullmatch (version_title base) t = true ∧ notes ≠ []
    ∧ (∀ t' notes' vis', (t', notes', vis') ∈ release_sections changelog 2 → fullmatch (version_title base) t' = true → (t', notes', vis') = (t, notes, vis))
    ∧ (∀ name, name ∈ [&"Upgrade"; &"Security"] →
         ∃ guided shown, section_at vis name guided shown 3 ∧ release_has_guidance shown = true)
    ∧ body = &"## Changes in " ++ base ++ [10; 10]%N ++ notes ++ [10; 10]%N ++ &"## Build provenance" ++ [10; 10]%N ++ provenance
    ∧ ∃ raw, encode body = Ok raw ∧ (Z.of_nat (length raw) <= 125000)%Z.
Proof.
  unfold notes_body. destruct (filter _ _) as [|[[t notes] vis] [|]] eqn:Ef; [done| |done]. intros Hn.
  apply bind_ok in Hn as ([] & Hne%release_require_ok & Hn). apply bind_ok in Hn as ([] & _ & Hn). cbv zeta in Hn.
  apply bind_ok in Hn as ([] & Hg & Hn). apply bind_ok in Hn as (raw & Hraw & Hn). apply bind_ok in Hn as ([] & Hlen%release_require_ok & [= Hbody]).
  assert (∀ x, x ∈ release_sections changelog 2 ∧ fullmatch (version_title base) x.1.1 = true ↔ x = (t, notes, vis)) as Hall.
  { intros x. transitivity (x ∈ [(t, notes, vis)]); [rewrite <-Ef, list_elem_of_filter; tauto|apply list_elem_of_singleton]. }
  destruct (proj2 (Hall (t, notes, vis)) eq_refl) as [Hin Ht]. exists t, notes, vis.
  split; [by apply release_section_at|]. split; [done|]. split; [by boolprop|]. split; [intros t' notes' vis' H1 H2; by apply Hall|].
  split; [|split; [by rewrite <-Hbody|]].
  - intros name Hname. rewrite for_each_ok in Hg. specialize (Hg name Hname). apply release_require_ok in Hg. unfold titled in Hg.
    destruct (list_find _ _) as [[i [[t' guided] shown]]|] eqn:El; [|done]. apply list_find_Some in El as (Hi & Hname' & _). cbn in Hname', Hg. subst t'.
    apply andb_true_iff in Hg as [_ Hg]. exists guided, shown. split; [|done]. by eapply release_section_at, list_elem_of_lookup_2.
  - exists raw. rewrite <-Hbody. split; [done|]. by apply Z.leb_le.
Qed.

Lemma notes_are_the_reviewed_section_witness :
  ∃ body, notes_body demo_changelog (&"1.2.3") (&"run 7") = Ok body
    ∧ ∃ t notes vis, section_at demo_changelog t notes vis 2 ∧ t = &"[1.2.3] - today".
Proof.
  assert (match notes_body demo_changelog (&"1.2.3") (&"run 7") with Ok b => true | Raise _ => false end = true) as Hok by (vm_compute; reflexivity).
  destruct (notes_body demo_changelog (&"1.2.3") (&"run 7")) as [body|e] eqn:E; [|done]. exists body. split; [done|].
  destruct (notes_are_the_reviewed_section _ _ _ _ E) as (t & notes & vis & Hs & Ht & _). exists t, notes, vis. split; [exact Hs|].
  destruct Hs as (h & stop & Hh & Hl & <- & _).
  assert (forallb (λ h, negb (level h =? 2) || negb (fullmatch (version_title (&"1.2.3")) (title h)) || bool_decide (title h = &"[1.2.3] - today"))
            (release_headings demo_changelog) = true) as Hall by (vm_compute; reflexivity).
  rewrite forallb_forall in Hall. specialize (Hall h). rewrite <-list_elem_of_In in Hall. specialize (Hall Hh).
  apply Nat.eqb_eq in Hl. rewrite Hl, Ht in Hall. by apply bool_decide_eq_true in Hall.
Defined.
