(* ===== verification/ReleaseManifest.v ===== *)
(** * Release manifests ([scripts/release_control.py])

    The snapshot of the assets of a candidate, the manifest that lists them, and
    the checks a manifest must pass before a release is promoted from it.  SHA-256
    and the full case folding of Unicode are parameters. *)

From Stdlib Require Import QArith.QArith Strings.Byte.
From S2P Require Import Prelude PyStr PyDict PyRegex PyVal PyJson JsonFacts JsonTotal VersionPlan Release ReservationFacts ReleaseValidation OciMetadata Fuzz ReleasePolicy ReleaseRuns.
#[local] Open Scope Z_scope.
#[local] Open Scope regex_scope.

Definition MANIFEST : pystr := &"release-manifest.json".
Definition NAME_RE : regex := Char ascii_alnum ⋅ rep_upto 199 (Char (λ c, ascii_alnum c || one_of "._+-" c)).
Definition ASSET_CHUNK_SIZE : Z := 1024 * 1024.

(** The retired package types: suffixes and a reason each; none at this commit. *)
Definition ASSET_RESTRICTIONS : list (list pystr * string) := [].

(** An entry of a directory: [regular] says that it is a file and no link. *)
Record file_entry : Type := FileEntry { entry_name : pystr; regular : bool; contents : bytes }.

(** [sorted(directory.iterdir())] *)
Definition by_name (l : list file_entry) : list file_entry := sorted (λ a b, str_leb (entry_name a) (entry_name b)) l.

Section manifests.
Context `{UnicodeCase} (casefold : pystr → pystr) (float_repr : Q → pystr) (sha256_hex : bytes → pystr) (repo : pystr).

(** ** Assets *)

(** [reject_restricted_assets] *)
Definition reject_restricted_assets (names : list pystr) : outcome unit :=
  for_each (λ name, for_each (λ r : list pystr * string,
    check (negb (existsb (λ suffix, endswith suffix (casefold name)) r.1)) (release_error r.2)) ASSET_RESTRICTIONS) names.

(** The loop of [stream_identity]: the bytes that were read, in chunks. *)
Fixpoint stream_loop (fuel : nat) (source : bytes) (size : Z) (seen : bytes) : Z * bytes :=
  let chunk := take (Z.to_nat ASSET_CHUNK_SIZE) source in
  match fuel, chunk with
  | S fuel, _ :: _ => stream_loop fuel (drop (Z.to_nat ASSET_CHUNK_SIZE) source) (size + Z.of_nat (length chunk)) (seen ++ chunk)
  | _, _ => (size, seen)
  end.

(** [stream_identity] *)
Definition stream_identity (source : bytes) : Z * pystr :=
  let '(size, seen) := stream_loop (length source) source 0 [] in (size, sha256_hex seen).

Definition reserved_name (name : pystr) : bool := bool_decide (casefold name = casefold MANIFEST).

Definition asset_of (name : pystr) (identity : Z * pystr) : pyobject :=
  [(&"name", VStr name); (&"size", VInt identity.1); (&"sha256", VStr identity.2)].

(** The entries of [stage_assets]; [folded] are the names so far. *)
Fixpoint stage_entries (entries : list file_entry) (folded : list pystr) : outcome (list pyobject) :=
  match entries with
  | [] => Ok []
  | e :: entries =>
    let name := entry_name e in
    _ ← release_require (regular e) "Assets must be flat regular files";
    _ ← release_require (fullmatch NAME_RE name && negb (reserved_name name)) "Unsafe or reserved asset name";
    _ ← release_require (negb (bool_decide (casefold name ∈ folded))) "Asset name collision";
    rest ← stage_entries entries (casefold name :: folded);
    Ok (asset_of name (stream_identity (contents e)) :: rest)
  end.

(** [stage_assets]; [source] is [None] when the path is no regular directory. *)
Definition stage_assets (source : option (list file_entry)) : outcome (list pyobject) :=
  match source with
  | None => Raise (release_error "Assets must be a regular directory")
  | Some entries =>
    let entries := by_name entries in
    _ ← reject_restricted_assets (entry_name <$> entries);
    assets ← stage_entries entries [];
    _ ← release_require (negb (bool_decide (assets = []))) "Cannot publish an empty assets directory";
    Ok assets
  end.

(** The manifest of [candidate]. *)
Definition candidate_manifest (full_name base channel tag sha : pystr) (snapshot : pyobject) (run_id attempt : Z)
    (created_at : pystr) (assets : list pyobject) : pyobject :=
  [(&"schema", VInt 1); (&"repository", VStr full_name); (&"version", VStr base); (&"channel", VStr channel); (&"tag", VStr tag);
   (&"source_sha", VStr sha); (&"source_policy", VDict snapshot); (&"workflow_path", VStr WORKFLOW_PATH);
   (&"run_id", VInt run_id); (&"run_attempt", VInt attempt); (&"created_at", VStr created_at); (&"assets", VList (VDict <$> assets))].

(** ** Acceptance *)

(** The items of [_validate_manifest_assets]; [names] are the folded names so far. *)
Fixpoint manifest_items (items : list pyval) (names : list pystr) : outcome unit :=
  match items with
  | [] => Ok tt
  | item :: items =>
    _ ← release_require (is_dict item) "Invalid manifest asset";
    let d := dict_of item in
    let name := str_value (get_key "name" d) in
    _ ← release_require (str_match NAME_RE (get_key "name" d) && negb (reserved_name name)) "Unsafe manifest asset name";
    _ ← release_require (negb (bool_decide (casefold name ∈ names))) "Duplicate manifest asset name";
    _ ← release_require (match get_key "size" d with VInt n => 0 <=? n | _ => false end) "Invalid manifest asset size";
    _ ← release_require (str_match SHA256 (get_key "sha256" d)) "Invalid asset checksum";
    manifest_items items (casefold name :: names)
  end.

(** [_validate_manifest_assets] *)
Definition validate_manifest_assets (manifest : pyobject) : outcome unit :=
  let assets := get_key "assets" manifest in
  _ ← release_require (is_list assets && negb (bool_decide (list_value assets = []))) "Manifest contains no assets";
  manifest_items (list_value assets) [].

(** [manifest["source_policy"]["data"]] *)
Definition manifest_policy (manifest : pyobject) : outcome pyval :=
  v ← item (&"source_policy") manifest; d ← as_dict v; item (&"data") d.

(** [_validate_manifest_plan] *)
Definition validate_manifest_plan (manifest : pyobject) (base : pystr) : outcome unit :=
  policy ← manifest_policy manifest;
  source ← item (&"source_sha") manifest;
  plan ← validate_plan float_repr sha256_hex (get_key "version_plan" manifest) (Some policy) (Some source);
  let same key := (v ← item key plan; w ← item key manifest; Ok (py_eq v w)) in
  ok ← o_and (same (&"tag")) (o_and (same (&"channel")) (o_and (v ← item (&"base_version") plan; Ok (text_is v base))
         (digest ← plan_digest float_repr sha256_hex (VDict plan); Ok (text_is (get_key "plan_sha256" manifest) digest))));
  release_require ok "Manifest differs from the frozen version plan".

Definition rc_tag_re (base : pystr) (decimal : N → bool) : regex :=
  chars (&"v" ++ base ++ &"-rc.") ⋅ Char one_to_nine ⋅ Star (Char decimal).

Definition parent_keys : list pystr := [&"tag"; &"manifest_sha256"; &"source_sha"; &"run_id"].

(** A run identifier that differs from another. *)
Definition new_run (parent_run run : pyval) : outcome bool := n ← positive parent_run "parent RC run ID"; Ok (negb (py_eq (VInt n) run)).

(** The provenance of a final build; [unicode_digit] is [\d] without [re.ASCII]. *)
Definition check_final (unicode_digit : N → bool) (manifest : pyobject) (base : pystr) (versioning : pyval) : outcome unit :=
  config ← (if truthy versioning then as_dict versioning else Ok []);
  _ ← release_require (text_is (get_key "promotion" config) (&"final-build")) "Final package policy is missing";
  let parent := get_key "derived_from_rc" manifest in
  let p := dict_of parent in
  _ ← release_require (is_dict parent && same_keys (dict_keys p) parent_keys) "Final manifest needs accepted RC provenance";
  _ ← release_require (str_match (rc_tag_re base unicode_digit) (get_key "tag" p)
                       && py_eq (get_key "source_sha" p) (get_key "source_sha" manifest)
                       && str_match SHA256 (get_key "manifest_sha256" p)) "Invalid final RC provenance";
  fresh ← new_run (get_key "run_id" p) (get_key "run_id" manifest);
  release_require fresh "Final build must use a new run".

(** [validate_manifest] *)
Definition validate_manifest (unicode_digit : N → bool) (raw : bytes) (rc_tag : pystr) (allow_final : bool) : outcome pyobject :=
  _ ← release_require (Z.of_nat (length raw) <=? 2000000) "Manifest is unreasonably large";
  v ← parse_json raw;
  let m := dict_of v in
  _ ← release_require (is_dict v && bool_decide (get_key "schema" m = VInt 1)) "Unsupported manifest schema";
  let repository := get_key "repository" m in
  _ ← release_require (is_str repository && bool_decide (str_lower (str_value repository) = str_lower repo)) "Manifest repository mismatch";
  _ ← release_require (is_str (get_key "version" m)) "Missing manifest version";
  base ← release_version (str_value (get_key "version" m));
  let final := allow_final && text_is (get_key "channel" m) (&"stable") in
  _ ← (if final then
         release_require (text_is (get_key "tag" m) rc_tag && bool_decide (rc_tag = &"v" ++ base)) "Final tag/version mismatch"
       else
         _ ← release_require (text_is (get_key "channel" m) (&"rc")) "Only release candidates can be promoted";
         release_require (text_is (get_key "tag" m) rc_tag && fullmatch (rc_tag_re base is_digit) rc_tag) "Manifest RC tag/version mismatch");
  _ ← release_require (str_match SHA_RE (get_key "source_sha" m)) "Invalid manifest source SHA";
  _ ← release_require (text_is (get_key "workflow_path" m) WORKFLOW_PATH) "Manifest workflow path mismatch";
  _ ← positive (get_key "run_id" m) "Invalid manifest run ID";
  _ ← positive (get_key "run_attempt" m) "Invalid manifest run attempt";
  _ ← validate_policy_snapshot repo (get_key "source_policy" m);
  _ ← validate_validation_manifest float_repr m;
  policy ← manifest_policy m;
  d ← as_dict policy;
  let versioning := get_key "versioning" d in
  _ ← (if truthy versioning then validate_manifest_plan m base else Ok tt);
  _ ← (if final then check_final unicode_digit m base versioning else Ok tt);
  _ ← validate_manifest_assets m;
  Ok m.
End manifests.

(** ** What an accepted manifest says, and that candidates write accepted ones

    A manifest that promotion accepts names a release candidate of its own
    repository and commit, with a policy that blocks nothing and a list of safe,
    distinct, fully identified assets.  And the manifest that a candidate writes
    for its staged assets is such a manifest: its bytes read back as accepted. *)

(** ** Canonical values *)

Definition canonical_dict (d : pyobject) : pyobject := dict_of (canonical (VDict d)).

Lemma canonical_dict_eq d : canonical (VDict d) = VDict (canonical_dict d).
Proof. done. Qed.

Lemma canonical_default k v d : NoDup (dict_keys d) → get_default k (canonical v) (canonical_dict d) = canonical (get_default k v d).
Proof. intros Hd. unfold get_default. cbn [canonical_dict dict_of canonical]. unfold canonical_dict. cbn. rewrite canonical_get by done. by destruct (dict_get k d). Qed.

Lemma canonical_key n d : NoDup (dict_keys d) → get_key n (canonical_dict d) = canonical (get_key n d).
Proof. intros Hd. by apply (canonical_default (lit n) VNone). Qed.

Lemma canonical_item k d v : NoDup (dict_keys d) → item k d = Ok v → item k (canonical_dict d) = Ok (canonical v).
Proof. intros Hd. unfold item, canonical_dict. cbn. rewrite canonical_get by done. destruct (dict_get k d); [|done]. by intros [= ->]. Qed.

Lemma canonical_in k d : NoDup (dict_keys d) → in_dict k (canonical_dict d) = in_dict k d.
Proof.
  intros Hd. unfold in_dict, dict_has, canonical_dict. cbn. rewrite canonical_get by done. apply bool_decide_ext. by rewrite fmap_is_Some.
Qed.

Lemma plain_keys d : plain (VDict d) = true → NoDup (dict_keys d).
Proof. by intros [? _]%plain_dict. Qed.

(** ** Staged assets *)

Section manifests.
Context `{UnicodeCase} (casefold : pystr → pystr) (float_repr : Q → pystr) (sha1_hex sha256_hex : bytes → pystr) (repo : pystr).

Lemma stream_loop_spec fuel source size seen :
  (length source ≤ fuel)%nat → stream_loop fuel source size seen = (size + Z.of_nat (length source), seen ++ source).
Proof.
  remember (Z.to_nat ASSET_CHUNK_SIZE) as n eqn:En. assert (0 < n)%nat as Hn by (subst n; unfold ASSET_CHUNK_SIZE; lia).
  revert source size seen. induction fuel as [|fuel IH]; intros source size seen Hf; cbn [stream_loop]; cbv zeta; rewrite <-?En.
  - destruct source; [|cbn in Hf; lia]. rewrite app_nil_r. f_equal. cbn. lia.
  - destruct (take n source) as [|b chunk] eqn:Et.
    + destruct source; [|by destruct n; [lia|]]. rewrite app_nil_r. f_equal. cbn. lia.
    + rewrite <-Et. rewrite IH.
      * rewrite <-app_assoc, take_drop. f_equal. rewrite <-(take_drop n source) at 3. rewrite length_app, Nat2Z.inj_add. lia.
      * rewrite length_drop. assert (0 < length source)%nat by (destruct source; [by destruct n|cbn; lia]). lia.
Qed.

(** The identity of a stream is that of its bytes, whatever the chunks. *)
Lemma stream_identity_spec source : stream_identity sha256_hex source = (Z.of_nat (length source), sha256_hex source).
Proof. unfold stream_identity. by rewrite stream_loop_spec. Qed.

(** One asset that a manifest may list. *)
Definition asset_ok (d : pyobject) : Prop :=
  ∃ name size sha, get_key "name" d = VStr name ∧ get_key "size" d = VInt size ∧ get_key "sha256" d = VStr sha
    ∧ fullmatch NAME_RE name = true ∧ casefold name ≠ casefold MANIFEST ∧ 0 ≤ size ∧ fullmatch SHA256 sha = true.

Definition folded_name (v : pyval) : pystr := casefold (str_value (get_key "name" (dict_of v))).

(** The items of a manifest are assets with names that differ in more than case. *)
Lemma manifest_items_iff items names :
  manifest_items casefold items names = Ok tt ↔
  Forall (λ v, ∃ d, v = VDict d ∧ asset_ok d) items ∧ NoDup (folded_name <$> items) ∧ ∀ v, v ∈ items → folded_name v ∉ names.
Proof.
  revert names. induction items as [|v items IH]; intros names; cbn [manifest_items].
  { split; [|done]. intros _. split_and!; [constructor|constructor|]. intros v []%elem_of_nil. }
  cbv zeta. rewrite Forall_cons, fmap_cons, NoDup_cons. setoid_rewrite elem_of_cons. split.
  - intros Hm. inv_gate. deex. repeat match goal with u : () |- _ => destruct u end.
    match goal with Hi : manifest_items _ _ _ = Ok tt |- _ => apply IH in Hi as (Hf & Hnd & Hn) end.
    destruct v as [| | | | | | |d]; try done. cbn [dict_of] in *. unfold str_match in *.
    destruct (get_key "name" d) as [| | | |name| | |] eqn:En; try done. destruct (get_key "size" d) as [| |size| | | | |] eqn:Es; try done.
    destruct (get_key "sha256" d) as [| | | |sha| | |] eqn:Eh; try done. cbn [str_value] in *. unfold reserved_name in *. boolprop.
    assert (folded_name (VDict d) = casefold name) as Hfn by (unfold folded_name; cbn [dict_of]; by rewrite En).
    split_and!; [|done| |done|].
    + exists d. split; [done|]. exists name, size, sha. split_and!; try done. by apply Z.leb_le.
    + rewrite Hfn, list_elem_of_fmap. intros (w & Hw & Hin). apply (Hn w Hin). rewrite <-Hw. by left.
    + intros w [->|Hw]; [by rewrite Hfn|]. intros Hin. apply (Hn w Hw). by right.
  - intros ((( d & -> & name & size & sha & En & Es & Eh & Hname & Hres & Hsize & Hsha) & Hf) & (Hnew & Hnd) & Hn).
    cbn [dict_of is_dict]. rewrite En, Es, Eh. cbn [str_value str_match]. rewrite Hname, Hsha. unfold reserved_name.
    assert (folded_name (VDict d) = casefold name) as Hfn by (unfold folded_name; cbn [dict_of]; by rewrite En).
    rewrite (bool_decide_false (_ = _)) by done. rewrite (bool_decide_false (_ ∈ _)) by (rewrite <-Hfn; apply Hn; by left).
    rewrite (proj2 (Z.leb_le 0 size)) by done. cbn [negb andb release_require check mbind outcome_bind].
    apply IH. split_and!; [done|done|]. intros v Hv [Heq|Hin]%elem_of_cons; [|by apply (Hn v); auto].
    apply Hnew. rewrite list_elem_of_fmap. exists v. split; [by rewrite Hfn|done].
Qed.

(** Hexadecimal digests. *)
Definition digests_ok : Prop := (∀ b, fullmatch SHA256 (sha256_hex b) = true) ∧ ∀ b, fullmatch SHA_RE (sha1_hex b) = true.

Lemma stage_entries_ok entries folded assets :
  digests_ok → stage_entries casefold sha256_hex entries folded = Ok assets →
  manifest_items casefold (VDict <$> assets) folded = Ok tt ∧ (∀ d, d ∈ assets → ∃ name size sha, d = asset_of name (size, sha)).
Proof.
  intros [Hsha _]. revert folded assets. induction entries as [|e entries IH]; intros folded assets; cbn [stage_entries].
  { intros [= <-]. split; [done|]. intros d []%elem_of_nil. }
  cbv zeta. intros Hs. inv_gate. deex. match goal with Hx : stage_entries _ _ _ _ = Ok _ |- _ => apply IH in Hx as [Hi Hd] end.
  rewrite stream_identity_spec. split; [|intros d [->|Hin]%elem_of_cons; [by do 3 eexists|by apply Hd]].
  apply manifest_items_iff in Hi as (Hf & Hnd & Hn). apply manifest_items_iff. cbn [fmap list_fmap].
  set (d := asset_of _ _). assert (folded_name (VDict d) = casefold (entry_name e)) as Hfn by done.
  split_and!.
  - constructor; [|done]. exists d. split; [done|]. exists (entry_name e), (Z.of_nat (length (contents e))), (sha256_hex (contents e)). do 3 (split; [done|]). split; [done|]. split; [|split; [lia|apply Hsha]].
    unfold reserved_name in *. by boolprop.
  - constructor; [|done]. rewrite Hfn, list_elem_of_fmap. intros (v & Hv & Hin). apply (Hn v Hin). rewrite <-Hv. by left.
  - intros v [->|Hin]%elem_of_cons; [by rewrite Hfn|]. intros Hv. apply (Hn v Hin). by right.
Qed.
(** ** The policy *)

(** A policy of a project that has adopted neither versioning nor the profiles that
    require it. *)
Definition legacy (policy : pyobject) : Prop :=
  in_dict (&"versioning") policy = false ∧ in_dict (&"channel_validation_workflows") policy = false ∧ in_dict (&"fuzzing") policy = false.

Lemma get_key_absent n d : in_dict (lit n) d = false → get_key n d = VNone.
Proof.
  unfold in_dict, dict_has, get_key, get_default. rewrite bool_decide_eq_false. destruct (dict_get _ d); [|done]. intros Hn. by destruct Hn.
Qed.

(** A policy blocks nothing. *)
Definition unblocked (policy : pyobject) : Prop :=
  ∀ name, name ∈ [&"release_blockers"; &"stable_blockers"] → get_default name (VList []) policy = VList [].

Lemma check_blockers_qualified policy name :
  check_blockers policy true name = Ok tt ↔ get_default name (VList []) policy = VList [].
Proof.
  unfold check_blockers. cbv zeta. split; [|by intros ->]. intros Hb. inv_gate. deex.
  destruct (get_default name _ policy); try done. by cbn in *; subst.
Qed.

(** What a qualified policy says. *)
Lemma require_release_policy_ok data :
  require_release_policy repo data true = Ok tt →
  ∃ policy, data = VDict policy ∧ unblocked policy
    ∧ (∃ name, get_key "repository" policy = VStr name ∧ str_lower name = str_lower repo) ∧ get_key "mode" policy = VStr (&"release").
Proof.
  unfold require_release_policy. destruct data as [| | | | | | |policy]; try done. cbv zeta. intros Hp.
  apply bind_ok in Hp as ([] & Hrepo%release_require_ok & Hp). apply bind_ok in Hp as ([] & Hmode%release_require_ok%text_is_iff & Hp).
  apply bind_ok in Hp as (_ & _ & Hp). apply bind_ok in Hp as (_ & _ & Hp). rewrite for_each_ok in Hp.
  exists policy. split; [done|]. split; [intros name Hname; by apply check_blockers_qualified, Hp|]. split; [|done].
  destruct (get_key "repository" policy); try done. boolprop. eexists. split; [done|]. by destruct Hrepo.
Qed.

Lemma require_release_policy_canonical policy :
  NoDup (dict_keys policy) → legacy policy → require_release_policy repo (VDict policy) true = Ok tt →
  require_release_policy repo (VDict (canonical_dict policy)) true = Ok tt.
Proof.
  intros Hk (Hv & Hc & Hf) Hp. destruct (require_release_policy_ok _ Hp) as (p & [= <-] & Hb & (name & Hn & Hlow) & Hm).
  unfold require_release_policy. cbv zeta. unfold require_fuzzing_policy. rewrite !canonical_key, Hn, Hm, !canonical_in, Hc, Hf by done.
  cbn [canonical is_str str_value andb]. rewrite Hlow, bool_decide_true by done. cbn [release_require check mbind outcome_bind].
  rewrite (proj2 (text_is_iff _ _) eq_refl). apply for_each_ok. intros n Hin. apply check_blockers_qualified.
  change (VList []) with (canonical (VList [])) at 1. rewrite canonical_default by done. by rewrite Hb.
Qed.

(** The snapshot that [source_policy_snapshot] takes of a policy. *)
Definition snapshot_of (blob sha : pystr) (policy : pyobject) : pyobject :=
  [(&"schema", VInt 1); (&"path", VStr POLICY); (&"git_blob_sha", VStr blob); (&"sha256", VStr sha); (&"data", VDict policy)].

Lemma validate_policy_snapshot_canonical blob sha policy :
  plain (VDict policy) = true → legacy policy → require_release_policy repo (VDict policy) true = Ok tt →
  fullmatch SHA_RE blob = true → fullmatch SHA256 sha = true →
  validate_policy_snapshot repo (VDict (canonical_dict (snapshot_of blob sha policy))) = Ok tt.
Proof.
  intros Hp Hl Hr Hb Hs. unfold validate_policy_snapshot. cbv zeta. cbn [dict_of is_dict].
  assert (NoDup (dict_keys (snapshot_of blob sha policy))) as Hk by by apply (bool_decide_unpack _).
  rewrite !canonical_key by done.
  change (get_key "schema" (snapshot_of blob sha policy)) with (VInt 1). change (get_key "path" (snapshot_of blob sha policy)) with (VStr POLICY).
  change (get_key "git_blob_sha" (snapshot_of blob sha policy)) with (VStr blob). change (get_key "sha256" (snapshot_of blob sha policy)) with (VStr sha).
  change (get_key "data" (snapshot_of blob sha policy)) with (VDict policy). cbn [canonical str_match].
  rewrite Hb, Hs. rewrite bool_decide_true, (proj2 (text_is_iff _ _) eq_refl) by done. cbn [andb release_require check mbind outcome_bind].
  apply require_release_policy_canonical; [by apply plain_keys|done..].
Qed.

(** ** Acceptance *)

(** A manifest of a release candidate that may be promoted. *)
Definition promotable (rc_tag : pystr) (m : pyobject) : Prop :=
  ∃ base sha policy assets,
    get_key "schema" m = VInt 1 ∧ get_key "version" m = VStr base ∧ fullmatch VERSION_RE base = true
    ∧ get_key "channel" m = VStr (&"rc") ∧ get_key "tag" m = VStr rc_tag ∧ fullmatch (rc_tag_re base is_digit) rc_tag = true
    ∧ get_key "source_sha" m = VStr sha ∧ fullmatch SHA_RE sha = true ∧ get_key "workflow_path" m = VStr WORKFLOW_PATH
    ∧ (∃ name, get_key "repository" m = VStr name ∧ str_lower name = str_lower repo)
    ∧ manifest_policy m = Ok (VDict policy) ∧ unblocked policy
    ∧ get_key "assets" m = VList assets ∧ assets ≠ []
    ∧ Forall (λ v, ∃ d, v = VDict d ∧ asset_ok d) assets ∧ NoDup (folded_name <$> assets).

Lemma validate_policy_snapshot_ok v :
  validate_policy_snapshot repo v = Ok tt →
  ∃ snapshot policy, v = VDict snapshot ∧ get_key "data" snapshot = VDict policy ∧ unblocked policy.
Proof.
  unfold validate_policy_snapshot. cbv zeta. intros Hv. apply bind_ok in Hv as ([] & Hd%release_require_ok & Hv).
  apply bind_ok in Hv as ([] & _ & (policy & Hp & Hb & _)%require_release_policy_ok). boolprop.
  destruct v; try done; [by destruct Hd as [[] _]..|]. by eexists _, policy.
Qed.

Lemma validate_manifest_assets_ok m :
  validate_manifest_assets casefold m = Ok tt →
  ∃ assets, get_key "assets" m = VList assets ∧ assets ≠ [] ∧ Forall (λ v, ∃ d, v = VDict d ∧ asset_ok d) assets ∧ NoDup (folded_name <$> assets).
Proof.
  unfold validate_manifest_assets. cbv zeta. intros Hv. apply bind_ok in Hv as ([] & Hl%release_require_ok & Hv). boolprop. destruct Hl as [Hl Hne].
  apply manifest_items_iff in Hv as (Hf & Hnd & _). exists (list_value (get_key "assets" m)). split_and!; try done. by apply is_list_inv.
Qed.

(** A manifest that promotion accepts for a tag is the JSON object of the bytes it
    read, and describes a release candidate of that tag in this repository: built
    from a full commit by the release workflow, under a policy without blockers,
    with a nonempty list of safely named assets, no two of which differ in case
    only, each with a size and a SHA-256 digest. *)
Lemma validate_manifest_ok unicode_digit raw rc_tag m :
  validate_manifest casefold float_repr sha256_hex repo unicode_digit raw rc_tag false = Ok m →
  parse_json raw = Ok (VDict m) ∧ promotable rc_tag m.
Proof.
  unfold validate_manifest. intros Hv. apply bind_ok in Hv as ([] & _ & Hv). apply bind_ok in Hv as (v & Hraw & Hv). cbv zeta in Hv.
  apply bind_ok in Hv as ([] & Hd%release_require_ok & Hv). destruct v as [| | | | | | |d]; try done. cbn [is_dict dict_of andb] in *. boolprop.
  apply bind_ok in Hv as ([] & Hrepo%release_require_ok & Hv). apply bind_ok in Hv as ([] & Hver%release_require_ok & Hv).
  apply bind_ok in Hv as (base & Hbase & Hv). unfold release_version in Hbase. apply bind_ok in Hbase as ([] & Hbase%release_require_ok & [= <-]).
  apply bind_ok in Hv as ([] & Htag & Hv). apply bind_ok in Htag as ([] & Hch%release_require_ok%text_is_iff & Htag%release_require_ok).
  apply bind_ok in Hv as ([] & Hsha%release_require_ok & Hv). apply bind_ok in Hv as ([] & Hwf%release_require_ok%text_is_iff & Hv).
  apply bind_ok in Hv as (? & _ & Hv). apply bind_ok in Hv as (? & _ & Hv). apply bind_ok in Hv as ([] & Hsnap%validate_policy_snapshot_ok & Hv).
  apply bind_ok in Hv as ([] & _ & Hv). apply bind_ok in Hv as (data & Hdata & Hv). apply bind_ok in Hv as (? & _ & Hv).
  apply bind_ok in Hv as ([] & _ & Hv). apply bind_ok in Hv as ([] & _ & Hv). apply bind_ok in Hv as ([] & Has%validate_manifest_assets_ok & [= <-]).
  split; [done|]. destruct Hsnap as (snapshot & policy & Hs & Hpol & Hub), Has as (assets & ? & ? & ? & ?).
  destruct (get_key "version" d) as [| | | |base| | |] eqn:Eb; try done. destruct (get_key "source_sha" d) as [| | | |sha| | |] eqn:Es; try done.
  destruct (get_key "repository" d) as [| | | |name| | |] eqn:En; try done. cbn [str_value is_str str_match andb] in *.
  apply andb_true_iff in Htag as [Htag%text_is_iff Hre]. boolprop.
  exists base, sha, policy, assets. split_and!; try done; [by exists name|]. unfold manifest_policy in *.
  apply bind_ok in Hdata as (v & Hv & Hdata). apply bind_ok in Hdata as (d' & Hd' & Hdata). rewrite Hv. cbn. rewrite Hd'. cbn. rewrite Hdata. f_equal.
  assert (v = VDict snapshot) as -> by (unfold item in Hv; revert Hs; unfold get_key, get_default; destruct (dict_get _ d); [injection Hv as ->; done|done]).
  injection Hd' as <-. revert Hpol Hdata. unfold item, get_key, get_default. destruct (dict_get _ snapshot); [|done]. cbn. by intros -> [= <-].
Qed.
(** ** What a candidate writes *)

Lemma alphabet_rep_upto f n r : alphabet f r → alphabet f (rep_upto n r).
Proof. intros Hr. induction n; cbn; auto. Qed.

Lemma ascii_name_char c : ascii_alnum c || one_of "._+-" c = true → (c <? 128)%N = true.
Proof.
  unfold ascii_alnum, is_digit, in_range, one_of. rewrite !orb_true_iff, !andb_true_iff, !N.leb_le, bool_decide_eq_true, N.ltb_lt.
  intros [[[?|?]|?]|Hc]; try lia. change (lit "._+-") with [46; 95; 43; 45]%N in Hc. rewrite !elem_of_cons, elem_of_nil in Hc. by destruct_or?; subst.
Qed.

Lemma scalar_asset_name s : fullmatch NAME_RE s = true → forallb scalar_char s = true.
Proof.
  apply scalar_of_regex. unfold NAME_RE. cbn [alphabet]. split; [|apply alphabet_rep_upto; exact ascii_name_char].
  intros c Hc. apply ascii_name_char. by rewrite Hc.
Qed.

Lemma scalar_hex n s : fullmatch (rep n (Char lower_hex)) s = true → forallb scalar_char s = true.
Proof. apply scalar_of_regex, alphabet_rep. exact ascii_hex_class. Qed.

Lemma plain_assets assets :
  (∀ d, d ∈ assets → ∃ name size sha, d = asset_of name (size, sha)) → Forall (λ v, ∃ d, v = VDict d ∧ asset_ok d) (VDict <$> assets) →
  plain (VList (VDict <$> assets)) = true ∧ Forall (λ v, ∃ d, v = VDict d ∧ asset_ok d) (canonical <$> (VDict <$> assets))
  ∧ folded_name <$> (canonical <$> (VDict <$> assets)) = folded_name <$> (VDict <$> assets).
Proof.
  induction assets as [|d assets IH]; intros Hd Hok; [by split_and!|]. rewrite !fmap_cons in *. apply Forall_cons in Hok as [(d' & [= <-] & Hok) Hrest].
  destruct IH as (IH1 & IH2 & IH3); [intros d' Hd'; apply Hd; by right|done|].
  destruct (Hd d ltac:(by left)) as (name & size & sha & ->). destruct Hok as (name' & size' & sha' & [= <-] & [= <-] & [= <-] & Hname & Hres & Hsize & Hsha).
  assert (plain (VDict (asset_of name (size, sha))) = true) as Hp.
  { apply plain_dict. split; [by apply (bool_decide_unpack _)|]. intros k v. unfold asset_of. rewrite !elem_of_cons, elem_of_nil.
    intros Hkv. destruct_or?; try done; injection Hkv as -> ->; (split; [done|]); cbn [plain fst snd]; try done; [by apply scalar_asset_name|by eapply scalar_hex]. }
  split_and!.
  - cbn [plain forallb] in *. by rewrite Hp, IH1.
  - constructor; [|done]. exists (canonical_dict (asset_of name (size, sha))). split; [done|]. exists name, size, sha.
    rewrite !canonical_key by by apply (bool_decide_unpack _). split_and!; done.
  - by f_equal.
Qed.

Lemma rc_tag_matches base n : 0 < n → fullmatch (rc_tag_re base is_digit) (&"v" ++ base ++ &"-rc." ++ str_of_int n) = true.
Proof.
  intros Hn. unfold rc_tag_re. apply fullmatch_iff. unfold str_of_int. rewrite decide_False by lia.
  destruct (digits_fuel_head (S (Z.to_nat (Z.log2 n))) n []) as (c & s & Hc & Hne).
  { split; [done|]. rewrite Nat2Z.inj_succ, Z2Nat.id by apply Z.log2_nonneg. by apply Z.log2_spec. }
  pose proof (forallb_digits n ltac:(lia)) as Hd. unfold str_of_nonneg in *. rewrite Hc in *. cbn [forallb] in Hd. apply andb_true_iff in Hd as [Hd Hs].
  replace (&"v" ++ base ++ &"-rc." ++ c :: s) with ((&"v" ++ base ++ &"-rc.") ++ [c] ++ s) by by rewrite <-!app_assoc.
  constructor; [by apply matches_chars|]. constructor; [|by apply matches_star_char]. constructor.
  unfold is_digit, one_to_nine, in_range in *. rewrite andb_true_iff, !N.leb_le in *. change (chr "0") with 48%N in Hne. lia.
Qed.

Lemma positive_id n name : 0 < n → positive (VInt n) name = Ok n.
Proof.
  intros Hn. unfold positive. cbn [py_str]. pose proof (rc_tag_matches [] n Hn) as Hm.
  assert (fullmatch positive_numeral (str_of_int n) = true) as ->; [|done].
  apply fullmatch_iff in Hm. apply fullmatch_iff. unfold rc_tag_re in Hm. apply matches_seq_iff in Hm as (s1 & s2 & Heq & ->%matches_chars & Hm).
  change (&"v" ++ [] ++ &"-rc." ++ str_of_int n) with ((&"v" ++ [] ++ &"-rc.") ++ str_of_int n) in Heq. by apply app_inv_head in Heq as <-.
Qed.

Lemma validation_legacy m policy channel :
  manifest_policy m = Ok (VDict policy) → in_dict (&"channel_validation_workflows") policy = false → in_dict (&"fuzzing") policy = false →
  get_key "validation_profile" m = VNone → item (&"channel") m = Ok channel → validate_validation_manifest float_repr m = Ok tt.
Proof.
  unfold manifest_policy, validate_validation_manifest. intros Hp Hc Hf Hv Hch.
  apply bind_ok in Hp as (v & -> & Hp). apply bind_ok in Hp as (d & Hd & Hp). cbn [mbind outcome_bind]. rewrite Hd. cbn [mbind outcome_bind].
  rewrite Hp. cbn [mbind outcome_bind as_dict]. rewrite Hch. cbn [mbind outcome_bind]. unfold validation_profile. rewrite Hc, Hv.
  cbn [mbind outcome_bind]. unfold validate_fuzz_manifest. rewrite Hf. done.
Qed.

Section candidates.
Context (full_name base sha blob digest created_at : pystr) (n run_id attempt : Z) (policy : pyobject) (source : option (list file_entry)) (assets : list pyobject).

Definition written : pyobject :=
  candidate_manifest full_name base (&"rc") (&"v" ++ base ++ &"-rc." ++ str_of_int n) sha (snapshot_of blob digest policy) run_id attempt created_at assets.

Context (Hbase : fullmatch VERSION_RE base = true) (Hsha : fullmatch SHA_RE sha = true) (Hblob : fullmatch SHA_RE blob = true)
  (Hdigest : fullmatch SHA256 digest = true) (Hname : forallb scalar_char full_name = true) (Hcreated : forallb scalar_char created_at = true)
  (Hpolicy : plain (VDict policy) = true) (Hn : 0 < n).

Lemma written_plain : plain (VList (VDict <$> assets)) = true → plain (VDict written) = true.
Proof.
  intros Ha. assert (plain (VDict (snapshot_of blob digest policy)) = true) as Hs.
  { apply plain_dict. split; [by apply (bool_decide_unpack _)|]. intros k v. unfold snapshot_of. rewrite !elem_of_cons, elem_of_nil.
    intros Hkv. destruct_or?; try done; injection Hkv as -> ->; (split; [done|]); try done; cbn [plain]; by eapply scalar_hex. }
  assert (forallb scalar_char base = true) as Hb by (by eapply scalar_of_regex; [apply ascii_base|]).
  assert (forallb scalar_char (str_of_int n) = true) as Hstr.
  { apply ascii_scalar. apply forallb_forall. intros c Hc. unfold str_of_int in Hc. rewrite decide_False in Hc by lia.
    pose proof (forallb_digits n ltac:(lia)) as Hd. rewrite forallb_forall in Hd. by apply ascii_digit_class, Hd. }
  assert (forallb scalar_char (&"v" ++ base ++ &"-rc." ++ str_of_int n) = true) as Htag by by rewrite !scalar_app, Hb, Hstr.
  apply plain_dict. split; [by apply (bool_decide_unpack _)|]. intros k v. unfold written, candidate_manifest. rewrite !elem_of_cons, elem_of_nil.
  intros Hkv. destruct_or?; try done; injection Hkv as -> ->; (split; [done|]); try done; cbn [plain]; try done; try by eapply scalar_hex.
Qed.

Lemma written_policy : manifest_policy (canonical_dict written) = Ok (VDict (canonical_dict policy)).
Proof.
  unfold manifest_policy. rewrite (canonical_item _ _ (VDict (snapshot_of blob digest policy))) by (done || by apply (bool_decide_unpack _)).
  rewrite canonical_dict_eq. cbn [mbind outcome_bind as_dict].
  by rewrite (canonical_item _ _ (VDict policy)) by (done || by apply (bool_decide_unpack _)).
Qed.

(** C9: The manifest of a release candidate is one that promotion accepts: for staged
    assets, a full commit, a qualified legacy policy at that commit, and the run that
    built them, the bytes that are written for the tag of an rc read back as an accepted
    manifest, when they stay within the 2,000,000 bytes that a reader takes. *)
Theorem candidate_manifest_is_accepted unicode_digit raw
    (Hdigests : digests_ok) (Hrepo : str_lower full_name = str_lower repo) (Hrun : 0 < run_id) (Hattempt : 0 < attempt)
    (Hlegacy : legacy policy) (Hqualified : require_release_policy repo (VDict policy) true = Ok tt)
    (Hassets : stage_assets casefold sha256_hex source = Ok assets)
    (Hraw : json_bytes_indented float_repr (VDict written) = Ok raw) (Hsize : Z.of_nat (length raw) <= 2000000) :
  validate_manifest casefold float_repr sha256_hex repo unicode_digit raw (&"v" ++ base ++ &"-rc." ++ str_of_int n) false = Ok (canonical_dict written).
Proof.
  assert (assets ≠ [] ∧ manifest_items casefold (VDict <$> assets) [] = Ok tt ∧ ∀ d, d ∈ assets → ∃ name size sha, d = asset_of name (size, sha)) as (Hne & Hi & Hd).
  { unfold stage_assets in Hassets. destruct source as [entries|]; [|done]. apply bind_ok in Hassets as ([] & _ & Hst).
    apply bind_ok in Hst as (l & Hst & Hl). apply bind_ok in Hl as ([] & Hne%release_require_ok & [= ->]).
    boolprop. split; [done|]. by eapply stage_entries_ok. }
  apply manifest_items_iff in Hi as (Hf & Hnd & _). destruct (plain_assets assets Hd Hf) as (Hpa & Hca & Hfold).
  pose proof (written_plain Hpa) as Hp. assert (NoDup (dict_keys written)) as Hk by by apply plain_keys.
  unfold validate_manifest. rewrite (proj2 (Z.leb_le _ _) Hsize). cbn [release_require check mbind outcome_bind].
  rewrite (parse_json_bytes_indented _ _ _ Hp Hraw), canonical_dict_eq. cbv zeta. cbn [mbind outcome_bind dict_of is_dict andb].
  rewrite !canonical_key by done.
  change (get_key "schema" written) with (VInt 1). change (get_key "repository" written) with (VStr full_name).
  change (get_key "version" written) with (VStr base). change (get_key "channel" written) with (VStr (&"rc")).
  change (get_key "tag" written) with (VStr (&"v" ++ base ++ &"-rc." ++ str_of_int n)). change (get_key "source_sha" written) with (VStr sha).
  change (get_key "workflow_path" written) with (VStr WORKFLOW_PATH). change (get_key "run_id" written) with (VInt run_id).
  change (get_key "run_attempt" written) with (VInt attempt). change (get_key "source_policy" written) with (VDict (snapshot_of blob digest policy)).
  rewrite (canonical_dict_eq (snapshot_of blob digest policy)). cbn [canonical is_str str_value str_match]. rewrite (bool_decide_true (VInt 1 = VInt 1)), (bool_decide_true (str_lower full_name = _)) by done.
  cbn [andb release_require check mbind outcome_bind]. unfold release_version. rewrite Hbase. cbn [release_require check mbind outcome_bind].
  rewrite !(proj2 (text_is_iff _ _) eq_refl), rc_tag_matches, Hsha, !positive_id by done. cbn [andb release_require check mbind outcome_bind].
  rewrite (validate_policy_snapshot_canonical blob digest policy) by done. cbn [mbind outcome_bind].
  destruct Hlegacy as (Hv & Hc & Hfz). rewrite (validation_legacy _ _ _ written_policy), written_policy
    by (rewrite ?canonical_in, ?canonical_key by (done || by apply plain_keys); done).
  cbn [mbind outcome_bind as_dict]. rewrite get_key_absent by by rewrite canonical_in by by apply plain_keys.
  cbn [truthy mbind outcome_bind]. unfold validate_manifest_assets. rewrite canonical_key by done.
  change (get_key "assets" written) with (VList (VDict <$> assets)). cbn [canonical is_list list_value andb].
  rewrite bool_decide_false by by destruct assets. cbn [negb release_require check mbind outcome_bind].
  rewrite (proj2 (manifest_items_iff _ _)); [done|]. split_and!; [done|by rewrite Hfold|]. intros v _ []%elem_of_nil.
Qed.
End candidates.
End manifests.

(** ** A concrete candidate *)

Section demo.
#[local] Existing Instance ascii_case.

Definition demo_fold (s : pystr) : pystr := ascii_lower_char <$> s.
Definition demo_no_floats (_ : Q) : pystr := [].
Definition demo_sha256 (_ : bytes) : pystr := replicate 64 (chr "a").
Definition demo_sha1 (_ : bytes) : pystr := replicate 40 (chr "b").
Definition demo_policy : pyobject := [(&"repository", VStr (&"O/r")); (&"mode", VStr (&"release"))].
Definition demo_files : option (list file_entry) := Some [FileEntry (&"b.whl") true [Byte.x00]; FileEntry (&"A.tar.gz") true []].

Definition demo_staged : list pyobject :=
  match stage_assets demo_fold demo_sha256 demo_files with Ok l => l | Raise _ => [] end.

Definition demo_written : pyobject :=
  written (&"o/r") (&"1.2.3") (demo_sha1 []) (demo_sha1 []) (demo_sha256 []) (&"2024-01-01T00:00:00+00:00") 4 7 1 demo_policy demo_staged.

Definition demo_raw : bytes := match json_bytes_indented demo_no_floats (VDict demo_written) with Ok b => b | Raise _ => [] end.

Lemma candidate_manifest_is_accepted_witness :
  length demo_staged = 2%nat
  ∧ validate_manifest demo_fold demo_no_floats demo_sha256 (&"O/R") is_digit demo_raw (&"v1.2.3-rc.4") false = Ok (canonical_dict demo_written).
Proof.
  split; [vm_compute; reflexivity|].
  apply (candidate_manifest_is_accepted demo_fold demo_no_floats demo_sha1 demo_sha256 (&"O/R") (&"o/r") (&"1.2.3") (demo_sha1 []) (demo_sha1 [])
           (demo_sha256 []) (&"2024-01-01T00:00:00+00:00") 4 7 1 demo_policy demo_files demo_staged).
  9: by split; intros b; vm_compute.
  16: vm_compute; done.
  all: first [vm_compute; reflexivity|lia|done].
Defined.

(** A refused manifest: two names that differ in case only. *)
Example case_collision :
  stage_assets demo_fold demo_sha256 (Some [FileEntry (&"a.whl") true []; FileEntry (&"A.whl") true []]) = Raise (release_error "Asset name collision").
Proof. vm_compute. reflexivity. Qed.

(** A run recorded as text differs from the same run recorded as a number. *)
Example recorded_text_run_is_new : new_run (VInt 7) (VStr (&"7")) = Ok true ∧ new_run (VInt 7) (VInt 7) = Ok false.
Proof. vm_compute. done. Qed.
End demo.
