(* ===== verification/Publication.v ===== *)
(** * Publishing a release ([scripts/release_control.py])

    The transaction that makes a candidate public: the tag and the draft, one
    upload per staged file, the download of every uploaded byte, and only then the
    request that publishes.  Uploads and downloads are processes of the class
    [Shell]; the transaction itself runs on any client that offers them. *)

From Stdlib Require Import QArith.QArith Strings.Byte.
From S2P Require Import Prelude PyStr PyDict PyRegex PyVal PyJson PyPath VersionPlan Release ReleaseValidation OciMetadata Fuzz ReleasePolicy ReleaseRuns ReleaseExecution Transport ReleaseNotes ReleaseManifest.
#[local] Open Scope Z_scope.
#[local] Open Scope regex_scope.

Definition ASSET_DOWNLOAD_TIMEOUT : Q := 900.
Definition ASSET_UPLOAD_TIMEOUT : Q := 900.
Definition RELEASE_SIGNATURES_REQUIRED : bool := false.

(** A staging directory: its resolved path and its entries. *)
Record staging : Type := Staging { stage_dir : pystr; stage_files : list file_entry }.

(** ** Transfers *)

Definition is_github_error (c : exn_class) : bool := match c with EGitHub _ => true | _ => false end.

Definition stage_prefixes : list pystr := [&"release-candidate-"; &"release-promote-"; &"release-versioned-"].

(** The directory directly below the temporary directory. *)
Definition private_stage (tempdir dir : pystr) : bool :=
  let p := path_of dir in
  is_absolute p
  && bool_decide (path_root p = path_root (path_of tempdir)) && bool_decide (removelast (path_parts p) = path_parts (path_of tempdir))
  && negb (bool_decide (path_parts p = []))
  && existsb (λ prefix, startswith prefix (path_name p)) stage_prefixes.

Section transfers.
Context {P : Type} `{Shell P} (float_repr : Q → pystr) (tempdir repo : pystr).

(** [GitHub.upload] of one file of a staging directory *)
Definition upload (dir tag : pystr) (file : file_entry) (release_id : Z) : M P unit :=
  let name := entry_name file in
  let path := dir ++ &"/" ++ name in
  _ ← lift (_ ← release_require (fullmatch TAG_RE tag) "Unsupported release upload tag";
            _ ← positive (VInt release_id) "Invalid release ID";
            _ ← release_require (is_absolute (path_of path) && fullmatch NAME_RE name) "Unsafe upload path";
            _ ← release_require (regular file) "Upload must be a regular file";
            release_require (private_stage tempdir dir && negb (has (chr "#") path))
              "Upload must come from the private release staging directory");
  quoted ← lift (quote name);
  let endpoint := &"https://uploads.github.com/repos/" ++ repo ++ &"/releases/" ++ str_of_int release_id ++ &"/assets?name=" ++ quoted in
  result ← run_process [&"gh"; &"api"; &"--hostname"; &"github.com"; &"--include"; &"--method"; &"POST"; &"-H";
                        &"Content-Type: application/octet-stream"; &"--input"; path; &"--"; endpoint] None (Some ASSET_UPLOAD_TIMEOUT);
  lift match result with
       | TimedOut _ _ => Raise (github_error false "asset upload exceeded 900 seconds")
       | Finished result =>
         http ← catch (github_http_response float_repr (stdout result) false) is_github_error (λ e, Raise (github_error false (exn_text e)));
         body ← response result http;
         _ ← release_require (http.1 =? 201) "upload was not confirmed as created";
         v ← parse_json body;
         _ ← release_require (is_dict v) "invalid asset response";
         let asset := dict_of v in
         _ ← positive (get_key "id" asset) "Invalid uploaded asset ID";
         release_require (text_is (get_key "name" asset) name && text_is (get_key "state" asset) (&"uploaded")
                          && bool_decide (get_key "size" asset = VInt (Z.of_nat (length (contents file)))))
           "upload response did not confirm the staged asset"
       end.

(** [GitHub.download_asset]: what the process writes to the file. *)
Definition download (path : pystr) : M P bytes :=
  _ ← lift (release_require (fullmatch (chars (&"releases/assets/") ⋅ positive_numeral) path) "Unsupported binary download endpoint");
  result ← run_process [&"gh"; &"api"; &"--hostname"; &"github.com"; &"--method"; &"GET"; &"-H"; &"Accept: application/octet-stream";
                        &"--"; &"repos/" ++ repo ++ &"/" ++ path] None (Some ASSET_DOWNLOAD_TIMEOUT);
  lift match result with
       | TimedOut _ _ => Raise (github_error false "asset download exceeded 900 seconds")
       | Finished result => if returncode result =? 0 then Ok (stdout result) else Raise (github_error false "download failed")
       end.
End transfers.

(** The transfers a publication uses ([GitHub.binary] keeps the bytes in memory),
    and the file that records its evidence. *)
Class Assets (G : Type) : Type := {
  gh_binary : pystr → M G bytes;
  gh_upload : pystr → pystr → file_entry → Z → M G unit;
  gh_download : pystr → M G bytes;
  write_evidence : bytes → M G unit;
}.

(** The transfers on processes. *)
Definition shell_assets {P} `{Shell P} (float_repr : Q → pystr) (tempdir repo : pystr) (write : bytes → M P unit) : Assets P :=
  {| gh_binary := binary float_repr repo; gh_upload := upload float_repr tempdir repo; gh_download := download repo; write_evidence := write |}.

(** ** The transaction *)

Section publication.
Context `{UnicodeCase} {G : Type} `{GitHub G} `{Assets G}.
Context (casefold : pystr → pystr) (sha256_hex : bytes → pystr) (repo : pystr) (scope_verified : bool).

(** [verify_uploaded_asset] *)
Definition verify_uploaded_asset (item : pyobject) (file : file_entry) : M G unit :=
  let local := stream_identity sha256_hex (contents file) in
  id ← lift (_ ← release_require (text_is (get_key "state" item) (&"uploaded") && py_eq (get_key "size" item) (VInt local.1))
                   "Incomplete asset upload; draft left unpublished";
             positive (get_key "id" item) "Invalid asset ID");
  downloaded ← gh_download (&"releases/assets/" ++ str_of_int id);
  lift (release_require (bool_decide (stream_identity sha256_hex downloaded = local)) "Uploaded bytes differ; draft left unpublished").

(** [verify_required_signatures]; the verifier is a module of signing projects. *)
Definition verify_required_signatures (verify : outcome unit) : outcome unit := if RELEASE_SIGNATURES_REQUIRED then verify else Ok tt.

Definition release_payload (tag sha body : pystr) (prerelease : bool) : pyobject :=
  [(&"tag_name", VStr tag); (&"target_commitish", VStr sha); (&"name", VStr tag); (&"body", VStr body); (&"draft", VBool true);
   (&"prerelease", VBool prerelease); (&"make_latest", VStr (&"false"))].

Definition tag_payload (tag sha : pystr) : pyobject := [(&"ref", VStr (&"refs/tags/" ++ tag)); (&"sha", VStr sha)].

Definition publish_payload (prerelease : bool) : pyobject :=
  [(&"draft", VBool false); (&"prerelease", VBool prerelease); (&"make_latest", VStr (if prerelease then &"false" else &"true"))].

(** [item.get("name")] as a member of a set *)
Definition hashable_name (v : pyval) : outcome pyval :=
  d ← as_dict v;
  match get_key "name" d with VList _ | VDict _ => Raise (type_error_of "unhashable type") | name => Ok name end.

(** [len(uploaded) == len(expected) and {names of uploaded} == set(expected)] *)
Definition same_inventory (uploaded : list pyval) (expected : pydict pystr file_entry) : outcome bool :=
  if bool_decide (length uploaded = length expected) then
    names ← collect hashable_name uploaded;
    Ok (forallb (λ v, is_str v && dict_has (str_value v) expected) names
        && forallb (λ name, bool_decide (VStr name ∈ names)) (dict_keys expected))
  else Ok false.

(** The file of an uploaded asset. *)
Definition verify_item (expected : pydict pystr file_entry) (v : pyval) : M G unit :=
  item ← lift (as_dict v);
  file ← lift match dict_get (str_value (get_key "name" item)) expected with Some f => Ok f | None => Raise (Exn EKey "") end;
  verify_uploaded_asset item file.

Definition files_by_name (files : list file_entry) : pydict pystr file_entry :=
  fold_left (λ d f, dict_set (entry_name f) f d) files [].

(** The tag still points at the commit. *)
Definition check_tag (tag sha : pystr) (ref : pyval) : outcome unit :=
  let d := dict_of ref in
  let object := get_key "object" d in
  release_require (is_dict ref && text_is (get_key "ref" d) (&"refs/tags/" ++ tag) && is_dict object
                   && text_is (get_key "type" (dict_of object)) (&"commit") && text_is (get_key "sha" (dict_of object)) sha)
    "Tag moved before publication; draft left unpublished".

(** The tag and the draft: its identifier. *)
Definition open_draft (create : pyobject → M G pyval) (tag sha : pystr) (prerelease : bool) (body : pystr) : M G Z :=
  _ ← ensure_absent tag;
  _ ← check_workflow_publication repo scope_verified sha;
  _ ← gh_api (&"git/refs") (&"POST") (Some (tag_payload tag sha));
  v ← create (release_payload tag sha body prerelease);
  lift (release ← as_dict v;
        _ ← release_require (bool_decide (get_key "draft" release = VBool true) && text_is (get_key "tag_name" release) tag)
              "Unexpected draft release response";
        positive (get_key "id" release) "Invalid release ID").

(** The uploaded assets against the staged files, and the tag against the commit. *)
Definition verify_draft (tag sha : pystr) (files : list file_entry) (release_id : Z) : M G unit :=
  uploaded ← gh_pages (&"releases/" ++ str_of_int release_id ++ &"/assets") None;
  let expected := files_by_name files in
  _ ← lift (same ← same_inventory uploaded expected;
            release_require same "Uploaded asset inventory mismatch; draft left unpublished");
  _ ← for_each_M (verify_item expected) uploaded;
  quoted ← lift (quote tag);
  ref ← gh_api (&"git/ref/tags/" ++ quoted) (&"GET") None;
  lift (check_tag tag sha ref).

(** The request that makes the draft public. *)
Definition make_public (tag : pystr) (prerelease : bool) (release_id : Z) : M G pyobject :=
  v ← gh_api (&"releases/" ++ str_of_int release_id) (&"PATCH") (Some (publish_payload prerelease));
  lift (result ← as_dict v;
        _ ← release_require (bool_decide (get_key "draft" result = VBool false) && text_is (get_key "tag_name" result) tag
                             && bool_decide (get_key "prerelease" result = VBool prerelease))
              "Publication response did not confirm the requested state";
        Ok result).

(** The rest of the transaction: [confirm] is asked before the draft becomes public. *)
Definition complete_draft (confirm : M G unit) (tag sha : pystr) (directory : staging) (prerelease : bool) (release_id : Z) : M G pyobject :=
  _ ← for_each_M (λ f, gh_upload (stage_dir directory) tag f release_id) (by_name (stage_files directory));
  _ ← verify_draft tag sha (stage_files directory) release_id;
  _ ← confirm;
  make_public tag prerelease release_id.

(** [_publish_prepared]: [create] sends the draft. *)
Definition publish_prepared (signatures : outcome unit) (create : pyobject → M G pyval) (confirm : M G unit)
    (tag sha : pystr) (directory : staging) (prerelease : bool) (body : pystr) : M G pyobject :=
  let files := stage_files directory in
  _ ← lift (verify_required_signatures signatures);
  _ ← lift (reject_restricted_assets casefold (entry_name <$> files));
  release_id ← open_draft create tag sha prerelease body;
  complete_draft confirm tag sha directory prerelease release_id.

(** The draft of a publication that does not reconcile. *)
Definition create_draft (payload : pyobject) : M G pyval := gh_api (&"releases") (&"POST") (Some payload).

(** [publish] *)
Definition publish_release (sha1_hex : bytes → pystr) (signatures : outcome unit) (tag sha : pystr) (directory : staging)
    (prerelease : bool) (provenance : pystr) : M G pyobject :=
  _ ← lift (reject_restricted_assets casefold (entry_name <$> stage_files directory));
  body ← release_notes sha1_hex sha256_hex repo tag sha provenance;
  publish_prepared signatures create_draft (mret tt) tag sha directory prerelease body.

(** ** Candidates *)

(** The arguments of [candidate], the current time and its [isoformat()], and the
    directory that is created for the staged files. *)
Record candidate_args : Type := CandidateArgs {
  arg_version : pystr; arg_sha : pystr; arg_channel : pystr; arg_run_id : pyval; arg_run_attempt : pyval; arg_sequence : pyval;
  arg_assets : option (list file_entry);
  now : datetime; isoformat : pystr; temporary : pystr
}.

Definition EVIDENCE : pystr := &".release-evidence/release-manifest.json".

(** The files of the staging directory: the assets, and their manifest. *)
Definition staged_files (entries : list file_entry) (content : bytes) : list file_entry :=
  ((λ e, FileEntry (entry_name e) true (contents e)) <$> by_name entries) ++ [FileEntry MANIFEST true content].

Definition candidate_provenance (channel sha : pystr) (run_id : Z) : pystr :=
  channel ++ &" candidate from `" ++ sha ++ &"`." ++ [10; 10]%N
  ++ &"Validation: https://github.com/" ++ repo ++ &"/actions/runs/" ++ str_of_int run_id ++ [10; 10]%N
  ++ &"See `" ++ MANIFEST ++ &"` for checksums and immutable Actions evidence provenance.".

Context `{Host G} (float_repr : Q → pystr) (py_text : pyval → pystr).

(** The checks of [candidate] before anything is staged: the run, the policy and
    the branch. *)
Definition admit_candidate (sha1_hex : bytes → pystr) (a : candidate_args) (run_id attempt : Z) : M G (pyobject * pyobject * pyobject) :=
  info ← repository_info repo;
  run ← wait_for_executing_run py_text repo run_id (arg_channel a) info (arg_sha a) attempt true;
  snapshot ← source_policy_snapshot repo sha1_hex sha256_hex (arg_sha a);
  _ ← lift (data ← item (&"data") snapshot;
            _ ← require_release_policy repo data (bool_decide (arg_channel a = &"rc"));
            policy ← as_dict data;
            release_require (negb (truthy (get_key "versioning" policy)))
              "Versioned policies require the frozen-plan publisher, not post-build allocation");
  branch ← lift (default_branch info);
  _ ← check_ancestry (arg_sha a) branch;
  mret (info, run, snapshot).

(** [candidate] *)
Definition candidate (sha1_hex : bytes → pystr) (signatures : outcome unit) (a : candidate_args) : M G pyobject :=
  base ← lift (release_version (arg_version a));
  _ ← lift (release_require (fullmatch SHA_RE (arg_sha a)) "Source SHA must be a full lowercase 40-character commit SHA");
  run_id ← lift (positive (arg_run_id a) "Invalid run ID");
  attempt ← lift (positive (arg_run_attempt a) "Invalid run attempt");
  admitted ← admit_candidate sha1_hex a run_id attempt;
  let '(info, run, snapshot) := admitted in
  superseded ← superseded_candidate py_text repo info run (arg_channel a);
  match superseded with
  | Some result => mret result
  | None =>
    _ ← (if bool_decide (arg_channel a ∈ [&"beta"; &"rc"]) then ensure_absent (&"v" ++ base) else mret tt);
    tag ← candidate_tag (arg_channel a) base run_id attempt (arg_sequence a) (now a);
    assets ← lift (stage_assets casefold sha256_hex (arg_assets a));
    content ← lift (name ← item (&"full_name") info;
                    json_bytes_indented float_repr (VDict (candidate_manifest (str_value name) base (arg_channel a) tag (arg_sha a) snapshot
                                                             run_id attempt (isoformat a) assets)));
    again ← superseded_candidate py_text repo info run (arg_channel a);
    match again with
    | Some result => mret result
    | None =>
      body ← release_notes sha1_hex sha256_hex repo tag (arg_sha a) (candidate_provenance (arg_channel a) (arg_sha a) run_id);
      _ ← write_evidence content;
      release ← publish_prepared signatures create_draft (mret tt) tag (arg_sha a)
                  (Staging (temporary a) (staged_files (default [] (arg_assets a)) content)) true body;
      lift (url ← item (&"html_url") release;
            Ok [(&"status", VStr (&"published")); (&"tag", VStr tag); (&"release_url", url); (&"manifest_path", VStr EVIDENCE)])
    end
  end.
End publication.
