(* ===== verification/Recorded.v ===== *)
(** * A recording client

    The environment of the theorems about a publication and a promotion: a client
    that records every request, upload and download in a log, and whose answers,
    like those of the process it runs in, are arbitrary functions of that log.  A
    computation that appends no write to the log only reads. *)

From Stdlib Require Import QArith.QArith Strings.Byte.
From S2P Require Import Prelude PyStr PyDict PyVal PyJson Release ReleasePolicy ReleaseRuns ReleaseExecution ReleaseNotes ReleaseManifest Publication.
#[local] Open Scope Z_scope.

Inductive event : Type :=
  | Asked (path method : pystr) (body : option pyobject) (mode : api_mode)
  | Uploaded (dir tag : pystr) (file : file_entry) (release_id : Z)
  | Fetched (path : pystr)
  | Downloaded (path : pystr)
  | Recorded (content : bytes).

(** A request that changes the repository, or an upload. *)
Definition is_write (e : event) : Prop := match e with Asked _ method _ _ => method ≠ &"GET" | Uploaded _ _ _ _ => True | _ => False end.
#[export] Instance is_write_dec e : Decision (is_write e).
Proof. destruct e; apply _. Defined.

Definition writes (l : list event) : list event := filter is_write l.

Lemma writes_app l k : writes (l ++ k) = writes l ++ writes k.
Proof. apply filter_app. Qed.

Definition recorded_github (reply : list event → outcome bytes) : GitHub (list event) := λ path method body mode l,
  let l := l ++ [Asked path method body mode] in (l, reply l).
Definition recorded_assets (reply : list event → outcome bytes) : Assets (list event) := {|
  gh_binary path := λ l, let l := l ++ [Fetched path] in (l, reply l);
  gh_upload dir tag file id := λ l, let l := l ++ [Uploaded dir tag file id] in (l, _ ← reply l; Ok tt);
  gh_download path := λ l, let l := l ++ [Downloaded path] in (l, reply l);
  write_evidence content := λ l, (l ++ [Recorded content], Ok tt);
|}.

(** The process: its environment, its files, Git and its clock at a moment of the
    log. *)
Record process : Type := Process {
  p_environ : pydict pystr pystr; p_file : pystr → list event → outcome bytes;
  p_head : list event → outcome (Z * pystr); p_clock : list event → outcome Q
}.
Definition recorded_host (p : process) : Host (list event) := {|
  environ := p_environ p;
  read_file path := λ l, (l, p_file p path l);
  rev_parse_head := λ l, (l, p_head p l);
  monotonic := λ l, (l, p_clock p l);
  sleep _ := mret tt;
  announce _ _ := mret tt;
|}.

(** ** Computations that only read *)

(** A computation only appends to the log, and appends no write. *)
Definition reads_only {A} (m : M (list event) A) : Prop := ∀ l l' r, m l = (l', r) → ∃ k, l' = l ++ k ∧ writes k = [].

Lemma reads_bind {A B} (m : M (list event) A) (f : A → M (list event) B) : reads_only m → (∀ a, reads_only (f a)) → reads_only (m ≫= f).
Proof.
  intros Hm Hf l l' r. unfold mbind, M_bind. destruct (m l) as [l1 [a|e]] eqn:E.
  - intros Ha. apply Hm in E as (k & -> & Hk). apply Hf in Ha as (k' & -> & Hk'). exists (k ++ k').
    rewrite app_assoc. split; [done|]. by rewrite writes_app, Hk, Hk'.
  - intros [= <- <-]. by eapply Hm.
Qed.
Lemma reads_prefix {A} (m : M (list event) A) l l' r : reads_only m → m l = (l', r) → l `prefix_of` l'.
Proof. intros Hm Hr. destruct (Hm _ _ _ Hr) as (k & -> & _). by eexists. Qed.
Lemma reads_lift {A} (m : outcome A) : reads_only (lift m).
Proof. intros l l' r [= <- _]. exists []. by rewrite app_nil_r. Qed.
Lemma reads_ret {A} (a : A) : reads_only (mret a).
Proof. apply (reads_lift (Ok a)). Qed.
Lemma reads_raise {A} e : reads_only (raise e : M (list event) A).
Proof. apply (reads_lift (Raise e)). Qed.
Lemma reads_answer {A} (f : list event → outcome A) : reads_only (λ l, (l, f l)).
Proof. intros l l' r [= <- _]. exists []. by rewrite app_nil_r. Qed.
Lemma reads_try {A} (m : M (list event) A) p h : reads_only m → (∀ e, reads_only (h e)) → reads_only (try_except m p h).
Proof.
  intros Hm Hh l l' r. unfold try_except. destruct (m l) as [l1 [a|e]] eqn:E; [intros [= <- <-]; by eapply Hm|].
  destruct (p (exn_kind e)); [|intros [= <- <-]; by eapply Hm]. intros Ha. apply Hm in E as (k & -> & Hk). apply Hh in Ha as (k' & -> & Hk').
  exists (k ++ k'). rewrite app_assoc. split; [done|]. by rewrite writes_app, Hk, Hk'.
Qed.
Lemma reads_each {A} (f : A → M (list event) unit) l : (∀ x, reads_only (f x)) → reads_only (for_each_M f l).
Proof. intros Hf. induction l as [|x l IH]; cbn [for_each_M]; [apply reads_ret|]. by apply reads_bind. Qed.

Section client.
Context (reply : list event → outcome bytes) (p : process).
#[local] Hint Extern 0 (GitHub (list event)) => exact (recorded_github reply) : typeclass_instances.
#[local] Hint Extern 0 (Assets (list event)) => exact (recorded_assets reply) : typeclass_instances.
#[local] Hint Extern 0 (Host (list event)) => exact (recorded_host p) : typeclass_instances.

Lemma reads_request path mode : reads_only (gh_request path (&"GET") None mode).
Proof. intros l l' r [= <- _]. eexists. split; [done|]. by vm_compute. Qed.
Lemma reads_api path : reads_only (gh_api path (&"GET") None).
Proof. apply reads_bind; [apply reads_request|intros; apply reads_lift]. Qed.
Lemma reads_pages path field : reads_only (gh_pages path field).
Proof. apply reads_bind; [apply reads_request|intros; apply reads_lift]. Qed.
Lemma reads_optional path : reads_only (gh_optional path).
Proof. apply reads_try; [apply reads_api|intros; apply reads_ret]. Qed.
Lemma reads_download path : reads_only (gh_download path).
Proof. intros l l' r [= <- _]. eexists. split; [done|]. by vm_compute. Qed.
Lemma reads_binary path : reads_only (gh_binary path).
Proof. intros l l' r [= <- _]. eexists. split; [done|]. by vm_compute. Qed.
Lemma reads_file path : reads_only (read_file path).
Proof. apply reads_answer. Qed.
Lemma reads_head : reads_only rev_parse_head.
Proof. apply reads_answer. Qed.
Lemma reads_clock : reads_only monotonic.
Proof. apply reads_answer. Qed.
Lemma reads_sleep d : reads_only (sleep d).
Proof. apply reads_ret. Qed.
Lemma reads_announce v d : reads_only (announce v d).
Proof. apply reads_ret. Qed.

Lemma api_trace path method body l l' r : gh_api path method body l = (l', r) → l' = l ++ [Asked path method body JsonMode].
Proof. unfold gh_api. intros [(e & [= <- _] & _)|(l1 & b & [= <- _] & [= <- _])]%bind_trace; done. Qed.

(** The last request of the log read a path, and its answer is this value. *)
Definition read_last (l : list event) (path : pystr) (v : pyval) : Prop :=
  ∃ k raw, l = k ++ [Asked path (&"GET") None JsonMode] ∧ reply l = Ok raw
    ∧ (if forallb ascii_blank raw then Ok VNone else parse_json raw) = Ok v.

Lemma api_answered path l l' v : gh_api path (&"GET") None l = (l', Ok v) → l' = l ++ [Asked path (&"GET") None JsonMode] ∧ read_last l' path v.
Proof.
  intros Ha. pose proof (api_trace _ _ _ _ _ _ Ha) as ->. split; [done|]. unfold gh_api in Ha.
  apply bind_M_ok in Ha as (l1 & raw & Hraw & [_ Hv]%lift_M_ok). exists l, raw. split_and!; [done| |done]. by injection Hraw.
Qed.

Lemma upload_trace dir tag file id l l' r : gh_upload dir tag file id l = (l', r) → l' = l ++ [Uploaded dir tag file id].
Proof. intros Hu. apply (f_equal fst) in Hu. symmetry. exact Hu. Qed.
End client.

Create HintDb reads discriminated.
#[export] Hint Resolve reads_lift reads_ret reads_raise reads_api reads_pages reads_optional reads_download reads_binary reads_file reads_head
  reads_clock reads_sleep reads_announce reads_each : reads.

(** Follow a computation's definition down to its requests. *)
Ltac solve_reads :=
  repeat first [ solve [auto with reads] | apply reads_bind; [|intros] | apply reads_try; [|intros] | apply reads_each; intros | progress cbv zeta
               | match goal with |- reads_only (if ?b then _ else _) => destruct b end
               | match goal with |- reads_only (match ?x with _ => _ end) => destruct x end ].

(** ** Programs of the release client that only read *)

Section readers.
Context `{UnicodeCase} (reply : list event → outcome bytes) (p : process) (py_text : pyval → pystr).
Context (sha1_hex sha256_hex : bytes → pystr) (repo : pystr) (scope_verified : bool).
#[local] Hint Extern 0 (GitHub (list event)) => exact (recorded_github reply) : typeclass_instances.
#[local] Hint Extern 0 (Assets (list event)) => exact (recorded_assets reply) : typeclass_instances.
#[local] Hint Extern 0 (Host (list event)) => exact (recorded_host p) : typeclass_instances.

Lemma reads_ensure_absent tag : reads_only (ensure_absent tag).
Proof. unfold ensure_absent. solve_reads. Qed.

Lemma reads_repository : reads_only (repository_info repo).
Proof. unfold repository_info. solve_reads. Qed.

Lemma reads_workflow sha : reads_only (check_workflow_publication repo scope_verified sha).
Proof. unfold check_workflow_publication, repository_info, workflow_tree. solve_reads. Qed.

Lemma reads_policy sha : reads_only (source_policy_snapshot repo sha1_hex sha256_hex sha).
Proof. unfold source_policy_snapshot. solve_reads. Qed.

Lemma reads_current_fuzzing policy sha : reads_only (require_current_fuzzing repo sha1_hex sha256_hex policy sha).
Proof. unfold require_current_fuzzing, source_policy_snapshot. solve_reads. Qed.

Lemma reads_validation_run run policy channel : reads_only (validate_validation_run run policy channel).
Proof. unfold validate_validation_run. solve_reads. Qed.

Lemma reads_gate run_id sha attempt pending : reads_only (release_gate_ready run_id sha attempt pending).
Proof. unfold release_gate_ready, require_current_attempt_jobs. solve_reads. Qed.

Lemma reads_run run info sha attempt completed gate : reads_only (validate_run repo run info sha attempt completed gate).
Proof. unfold validate_run. pose proof reads_gate. solve_reads. Qed.

Lemma reads_ancestry sha branch : reads_only (check_ancestry sha branch).
Proof. unfold check_ancestry. solve_reads. Qed.

Lemma reads_notes tag sha provenance : reads_only (release_notes sha1_hex sha256_hex repo tag sha provenance).
Proof. unfold release_notes, source_policy_snapshot. solve_reads. Qed.

Lemma reads_checked_out : reads_only checked_out_sha.
Proof. unfold checked_out_sha. solve_reads. Qed.

Lemma reads_bound_run run_id channel info sha attempt : reads_only (bound_run py_text repo run_id channel info sha attempt).
Proof. unfold bound_run, check_execution, checked_out_sha. solve_reads. Qed.

Lemma reads_wait run_id channel info sha attempt gate : reads_only (wait_for_executing_run py_text repo run_id channel info sha attempt gate).
Proof.
  assert (∀ n deadline reported, reads_only (wait_loop py_text repo n run_id channel info sha attempt gate deadline reported)) as Hloop.
  { pose proof reads_bound_run. pose proof reads_gate. induction n as [|n IH]; intros; cbn [wait_loop]; unfold publication_ready; solve_reads. }
  unfold wait_for_executing_run. solve_reads.
Qed.
End readers.
#[export] Hint Resolve reads_ensure_absent reads_repository reads_workflow reads_policy reads_current_fuzzing reads_validation_run reads_gate
  reads_run reads_ancestry reads_notes reads_checked_out reads_wait : reads.
