(* ===== verification/PublicationFacts.v ===== *)
(** * What a publication guarantees

    The transaction runs against a client that records every request, upload and
    download, and whose answers are arbitrary.  Its writes always are an initial
    part of the one sequence tag, draft, uploads in name order, publication; and the
    request that makes the release public is sent only after every staged file was
    downloaded again with the same size and digest, and the tag was seen at its
    commit.  Whatever fails before leaves the draft unpublished. *)

From Stdlib Require Import QArith.QArith Strings.Byte.
From S2P Require Import Prelude PyStr PyDict PyRegex PyVal PyJson PyPath VersionPlan Release ReleaseValidation OciMetadata Fuzz ReleasePolicy ReleaseRuns ReleaseExecution Transport ReleaseNotes ReleaseManifest Publication Recorded.
#[local] Open Scope Z_scope.

Section recorded.
Context (reply : list event → outcome bytes).

#[local] Hint Extern 0 (GitHub (list event)) => exact (recorded_github reply) : typeclass_instances.
#[local] Hint Extern 0 (Assets (list event)) => exact (recorded_assets reply) : typeclass_instances.

Context `{UnicodeCase} (casefold : pystr → pystr) (sha256_hex : bytes → pystr) (repo : pystr) (scope_verified : bool).

Lemma reads_verify_item expected v : reads_only (verify_item sha256_hex expected v).
Proof. unfold verify_item, verify_uploaded_asset. solve_reads. Qed.

(** *** Verified files *)

(** A file was downloaded again from the log's release, byte for byte as its
    digest tells. *)
Definition verified (l : list event) (file : file_entry) : Prop :=
  ∃ k id b, k ++ [Downloaded (&"releases/assets/" ++ str_of_int id)] `prefix_of` l
    ∧ reply (k ++ [Downloaded (&"releases/assets/" ++ str_of_int id)]) = Ok b
    ∧ length b = length (contents file) ∧ sha256_hex b = sha256_hex (contents file).

Lemma verified_more l k file : verified l file → verified (l ++ k) file.
Proof. intros (j & id & b & Hj & ?). exists j, id, b. split; [by apply prefix_app_r|done]. Qed.

Lemma verify_item_ok expected v l l' :
  verify_item sha256_hex expected v l = (l', Ok tt) →
  ∃ file, dict_get (str_value (get_key "name" (dict_of v))) expected = Some file ∧ verified l' file.
Proof.
  unfold verify_item, verify_uploaded_asset. intros Hv. apply bind_M_ok in Hv as (? & d & [-> Hd]%lift_M_ok & Hv).
  apply bind_M_ok in Hv as (? & file & [-> Hf]%lift_M_ok & Hv). cbv zeta in Hv. apply bind_M_ok in Hv as (? & id & [-> _]%lift_M_ok & Hv).
  apply bind_M_ok in Hv as (l1 & b & Hb & Hv). apply lift_M_ok in Hv as [-> Hb'%release_require_ok]. injection Hb as <- Hb.
  destruct v; try done. injection Hd as ->. cbn [dict_of]. destruct (dict_get _ expected) as [f|]; [|done]. injection Hf as ->.
  exists file. split; [done|]. exists l, id, b. split; [done|]. split; [done|]. rewrite !stream_identity_spec in Hb'.
  apply bool_decide_eq_true in Hb'. injection Hb' as Hlen Hsha. split; [lia|done].
Qed.

Lemma verify_items_ok expected items l l' :
  for_each_M (verify_item sha256_hex expected) items l = (l', Ok tt) →
  ∀ v, v ∈ items → ∃ file, dict_get (str_value (get_key "name" (dict_of v))) expected = Some file ∧ verified l' file.
Proof.
  revert l. induction items as [|v items IH]; intros l Hv w; [by intros []%elem_of_nil|].
  cbn [for_each_M] in Hv. apply bind_M_ok in Hv as (l1 & [] & Hf & Hv). intros [->|Hw]%elem_of_cons; [|by eapply IH].
  apply verify_item_ok in Hf as (file & Hg & Hver). exists file. split; [done|].
  destruct (reads_each _ items (reads_verify_item expected) _ _ _ Hv) as (k & -> & _). by apply verified_more.
Qed.

(** The same names: every expected file is among the uploaded assets. *)
Lemma same_inventory_ok uploaded expected :
  same_inventory uploaded expected = Ok true →
  ∀ name, name ∈ dict_keys expected → ∃ v, v ∈ uploaded ∧ get_key "name" (dict_of v) = VStr name.
Proof.
  unfold same_inventory. case_bool_decide; [|done]. intros Hs name Hname. apply bind_ok in Hs as (names & Hn & [= Hs]).
  apply andb_true_iff in Hs as [_ Hs]. rewrite forallb_forall in Hs. specialize (Hs name). rewrite <-list_elem_of_In in Hs.
  specialize (Hs Hname). apply bool_decide_eq_true in Hs as Hin. rewrite collect_ok in Hn. clear -Hn Hin.
  induction Hn as [|v n uploaded names Hv Hn IH]; [by apply elem_of_nil in Hin|]. apply elem_of_cons in Hin as [Heq|Hin].
  - exists v. split; [by left|]. unfold hashable_name in Hv. destruct v; try done. cbn in Hv. cbn [dict_of].
    destruct (get_key "name" d); try done; congruence.
  - destruct (IH Hin) as (w & Hw & ?). exists w. split; [by right|done].
Qed.

Lemma files_by_name_get files file :
  NoDup (entry_name <$> files) → file ∈ files → dict_get (entry_name file) (files_by_name files) = Some file.
Proof.
  unfold files_by_name. enough (∀ d, NoDup (entry_name <$> files) →
    (file ∈ files → dict_get (entry_name file) (fold_left (λ d f, dict_set (entry_name f) f d) files d) = Some file)
    ∧ (entry_name file ∉ entry_name <$> files → dict_get (entry_name file) (fold_left (λ d f, dict_set (entry_name f) f d) files d) = dict_get (entry_name file) d)).
  { intros Hnd Hin. by apply (H0 [] Hnd). }
  induction files as [|f files IH]; intros d Hnd; [by split; [intros []%elem_of_nil|]|]. cbn [fold_left]. rewrite fmap_cons in *.
  apply NoDup_cons in Hnd as [Hf Hnd]. destruct (IH (dict_set (entry_name f) f d) Hnd) as [IH1 IH2]. split.
  - intros [->|Hin]%elem_of_cons; [|by apply IH1]. rewrite IH2 by done. apply dict_get_set_eq.
  - rewrite not_elem_of_cons. intros [Hne Hni]. rewrite IH2 by done. by apply dict_get_set_ne.
Qed.
(** *** The transaction *)

(** A public release is asked for with one request. *)
Definition publishing (prerelease : bool) (id : Z) : event :=
  Asked (&"releases/" ++ str_of_int id) (&"PATCH") (Some (publish_payload prerelease)) JsonMode.

Definition drafting (tag sha body : pystr) (prerelease : bool) : list event :=
  [Asked (&"git/refs") (&"POST") (Some (tag_payload tag sha)) JsonMode;
   Asked (&"releases") (&"POST") (Some (release_payload tag sha body prerelease)) JsonMode].

Definition uploading (directory : staging) (tag : pystr) (id : Z) (files : list file_entry) : list event :=
  (λ f, Uploaded (stage_dir directory) tag f id) <$> files.

Definition is_public (e : event) : Prop := match e with Asked _ method _ _ => method = &"PATCH" | _ => False end.

(** A creation sends the one request for the draft, at most once. *)
Definition creates_once (create : pyobject → M (list event) pyval) : Prop :=
  ∀ payload l l' r (sent := [Asked (&"releases") (&"POST") (Some payload) JsonMode]),
    create payload l = (l', r) → ∃ k, l' = l ++ k ∧ writes k `prefix_of` sent ∧ (is_ok r = true → writes k = sent).

Lemma create_draft_once : creates_once create_draft.
Proof. intros payload l l' r sent ->%api_trace. by exists sent. Qed.

Lemma open_draft_trace create tag sha prerelease body l l' r :
  creates_once create →
  open_draft repo scope_verified create tag sha prerelease body l = (l', r) →
  ∃ k, l' = l ++ k ∧ writes k `prefix_of` drafting tag sha body prerelease ∧ (is_ok r = true → writes k = drafting tag sha body prerelease).
Proof.
  unfold open_draft. intros Hcreate [(e & (k & -> & Hk)%reads_ensure_absent & ->)|(l1 & [] & (k & -> & Hk)%reads_ensure_absent & Ho)]%bind_trace.
  { exists k. rewrite Hk. split; [done|]. split; [apply prefix_nil|done]. }
  apply bind_trace in Ho as [(e & (k' & -> & Hk')%reads_workflow & ->)|(l2 & [] & (k' & -> & Hk')%reads_workflow & Ho)].
  { exists (k ++ k'). rewrite app_assoc, writes_app, Hk, Hk'. split; [done|]. split; [apply prefix_nil|done]. }
  apply bind_trace in Ho as [(e & ->%api_trace & ->)|(l3 & v & ->%api_trace & Ho)].
  { exists (k ++ k' ++ take 1 (drafting tag sha body prerelease)). rewrite <-!app_assoc, !writes_app, Hk, Hk'. split; [done|]. split; [|done]. by eexists. }
  apply bind_trace in Ho as [(e & (j & -> & Hj & _)%Hcreate & ->)|(l4 & w & (j & -> & Hj & Hsent)%Hcreate & [= <- _])].
  all: exists (k ++ k' ++ Asked (&"git/refs") (&"POST") (Some (tag_payload tag sha)) JsonMode :: j).
  all: split; [by rewrite <-!app_assoc|]; rewrite !writes_app, Hk, Hk'; split; [by apply (prefix_cons (Asked _ _ _ _))|].
  - done.
  - intros _. pose proof (Hsent eq_refl) as Hs. unfold drafting. by rewrite <-Hs.
Qed.

Lemma uploads_trace directory tag id files l l' r :
  for_each_M (λ f, gh_upload (stage_dir directory) tag f id) files l = (l', r) →
  ∃ j, l' = l ++ uploading directory tag id (take j files) ∧ (is_ok r = true → take j files = files).
Proof.
  revert l. induction files as [|f files IH]; intros l; cbn [for_each_M].
  - intros [= <- <-]. exists 0%nat. by rewrite app_nil_r.
  - intros [(e & ->%upload_trace & ->)|(l1 & [] & ->%upload_trace & Hu)]%bind_trace; [by exists 1%nat|].
    apply IH in Hu as (j & -> & Hj). exists (S j). rewrite <-app_assoc. split; [done|]. intros Hr. cbn [take]. by rewrite Hj.
Qed.

Lemma writes_uploading directory tag id files : writes (uploading directory tag id files) = uploading directory tag id files.
Proof. unfold writes. apply filter_id. apply Forall_forall. intros e (f & -> & _)%list_elem_of_fmap. done. Qed.

(** A reference that is this tag, and names this commit. *)
Definition tag_at (tag sha : pystr) (ref : pyval) : Prop :=
  ∃ d object, ref = VDict d ∧ get_key "ref" d = VStr (&"refs/tags/" ++ tag) ∧ get_key "object" d = VDict object
    ∧ get_key "type" object = VStr (&"commit") ∧ get_key "sha" object = VStr sha.

Lemma check_tag_ok tag sha ref : check_tag tag sha ref = Ok tt → tag_at tag sha ref.
Proof.
  unfold check_tag. cbv zeta. intros Hc%release_require_ok. rewrite !andb_true_iff in Hc. destruct Hc as [[[[Hd Href] Ho] Htype] Hsha].
  destruct ref as [| | | | | | |d]; try discriminate Hd. cbn [dict_of] in *. destruct (get_key "object" d) as [| | | | | | |object] eqn:E; try discriminate Ho.
  apply py_eq_str in Href, Htype, Hsha. by exists d, object.
Qed.

(** A draft that passes the verification holds every staged file, and the server's
    last answer is the reference of the tag, at the commit. *)
Definition draft_verified (tag sha : pystr) (files : list file_entry) (l : list event) : Prop :=
  (∀ file, file ∈ files → verified l file)
  ∧ ∃ quoted ref, quote tag = Ok quoted ∧ read_last reply l (&"git/ref/tags/" ++ quoted) ref ∧ tag_at tag sha ref.

Lemma reads_verify_draft tag sha files id : reads_only (verify_draft sha256_hex tag sha files id).
Proof. unfold verify_draft. pose proof reads_verify_item. solve_reads. Qed.

Lemma verify_draft_ok tag sha files id l l' :
  NoDup (entry_name <$> files) → verify_draft sha256_hex tag sha files id l = (l', Ok tt) → draft_verified tag sha files l'.
Proof.
  unfold verify_draft. intros Hnd Hv. apply bind_M_ok in Hv as (l1 & uploaded & _ & Hv). cbv zeta in Hv.
  apply bind_M_ok in Hv as (? & [] & [-> Hs]%lift_M_ok & Hv). apply bind_ok in Hs as (same & Hs & Hsame%release_require_ok). subst same.
  apply bind_M_ok in Hv as (l2 & [] & Hi & Hv). apply bind_M_ok in Hv as (? & quoted & [-> Hq]%lift_M_ok & Hv).
  apply bind_M_ok in Hv as (l3 & ref & [Hl Hr]%api_answered & [-> Hc%check_tag_ok]%lift_M_ok). split; [|by exists quoted, ref]. rewrite Hl.
  intros file Hfile. pose proof (files_by_name_get _ _ Hnd Hfile) as Hget.
  destruct (same_inventory_ok _ _ Hs (entry_name file)) as (v & Hin & Hname); [by apply list_elem_of_fmap; exists (entry_name file, file); apply dict_get_elem in Hget|].
  destruct (verify_items_ok _ _ _ _ Hi v Hin) as (file' & Hget' & Hver). rewrite Hname in Hget'. cbn [str_value] in Hget'.
  rewrite Hget in Hget'. injection Hget' as <-. by apply verified_more.
Qed.

Lemma make_public_trace tag prerelease id l l' r : make_public tag prerelease id l = (l', r) → l' = l ++ [publishing prerelease id].
Proof. unfold make_public. intros [(e & ->%api_trace & _)|(l1 & v & ->%api_trace & [= <- _])]%bind_trace; done. Qed.

(** What a run of the transaction leaves in the log. *)
Definition publication_log (tag sha body : pystr) (directory : staging) (prerelease : bool) (l l' : list event) (succeeded : bool) : Prop :=
  ∃ id k, l' = l ++ k
    ∧ writes k `prefix_of` drafting tag sha body prerelease ++ uploading directory tag id (by_name (stage_files directory)) ++ [publishing prerelease id]
    ∧ (∀ e, e ∈ k → is_public e →
         e = publishing prerelease id ∧ (∃ before, k = before ++ [e] ∧ ∀ e', e' ∈ before → ¬ is_public e')
         ∧ ∃ before, before `prefix_of` l' ∧ draft_verified tag sha (stage_files directory) before)
    ∧ (succeeded = true → publishing prerelease id ∈ k).

Lemma not_public tag sha body prerelease directory id files k :
  writes k `prefix_of` drafting tag sha body prerelease ++ uploading directory tag id files → ∀ e, e ∈ k → ¬ is_public e.
Proof.
  intros Hk e He Hp. assert (e ∈ writes k) as Hw.
  { apply list_elem_of_filter. split; [|done]. destruct e; try done. cbn in *. by subst. }
  eapply elem_of_prefix in Hw; [|done]. apply elem_of_app in Hw as [Hw|(f & -> & _)%list_elem_of_fmap]; [|done].
  unfold drafting in Hw. rewrite !elem_of_cons, elem_of_nil in Hw. by destruct_or?; subst.
Qed.

(** A run that stops before the publishing request. *)
Lemma stopped tag sha body directory prerelease id l k :
  writes k `prefix_of` drafting tag sha body prerelease ++ uploading directory tag id (by_name (stage_files directory)) →
  publication_log tag sha body directory prerelease l (l ++ k) false.
Proof.
  intros Hk. exists id, k. split; [done|]. split; [rewrite app_assoc; by apply prefix_app_r|]. split; [|done].
  intros e He Hp. by destruct (not_public _ _ _ _ _ _ _ _ Hk e He).
Qed.

Lemma uploading_take directory tag id files j : uploading directory tag id (take j files) `prefix_of` uploading directory tag id files.
Proof. exists (uploading directory tag id (drop j files)). unfold uploading. by rewrite <-fmap_app, take_drop. Qed.

(** The part of the transaction after the draft exists. *)
Lemma completed_trace confirm tag sha directory prerelease body id l k l' r :
  NoDup (entry_name <$> stage_files directory) → reads_only confirm → writes k = drafting tag sha body prerelease →
  complete_draft sha256_hex confirm tag sha directory prerelease id (l ++ k) = (l', r) →
  publication_log tag sha body directory prerelease l l' (is_ok r).
Proof.
  unfold complete_draft. intros Hnd Hconf Hk. set (ups := uploading directory tag id (by_name (stage_files directory))).
  assert (∀ k', writes k' = [] → writes (k ++ ups ++ k') = drafting tag sha body prerelease ++ ups) as Hw.
  { intros k' Hk'. unfold ups. by rewrite !writes_app, Hk, Hk', writes_uploading, app_nil_r. }
  intros [(e & (j & -> & _)%uploads_trace & ->)|(l1 & [] & (j & -> & Hj)%uploads_trace & Hp)]%bind_trace.
  { rewrite <-app_assoc. apply (stopped _ _ _ _ _ id). rewrite writes_app, Hk, writes_uploading. apply prefix_app, uploading_take. }
  rewrite Hj in Hp by done. fold ups in Hp. rewrite <-app_assoc in Hp.
  apply bind_trace in Hp as [(e & Hv & ->)|(l2 & [] & Hv & Hp)].
  { apply reads_verify_draft in Hv as (k' & -> & Hk'). rewrite <-!app_assoc. apply (stopped _ _ _ _ _ id). by rewrite Hw. }
  pose proof (verify_draft_ok _ _ _ _ _ _ Hnd Hv) as Hver. apply reads_verify_draft in Hv as (k1 & -> & Hk1).
  apply bind_trace in Hp as [(e & (k2 & -> & Hk2)%Hconf & ->)|(l3 & [] & (k2 & -> & Hk2)%Hconf & Hp)].
  { rewrite <-!app_assoc. apply (stopped _ _ _ _ _ id). rewrite Hw; [done|]. by rewrite writes_app, Hk1, Hk2. }
  apply make_public_trace in Hp as ->. assert (writes (k1 ++ k2) = []) as Hk12 by by rewrite writes_app, Hk1, Hk2.
  exists id, ((k ++ ups ++ k1 ++ k2) ++ [publishing prerelease id]). split_and!.
  - by rewrite <-!app_assoc.
  - rewrite writes_app, Hw by done. by rewrite <-app_assoc.
  - assert (∀ e', e' ∈ k ++ ups ++ k1 ++ k2 → ¬ is_public e') as Hnp by (eapply (not_public tag sha body prerelease directory id (by_name (stage_files directory))); by rewrite Hw).
    intros e [He| ->%list_elem_of_singleton]%elem_of_app Hp; [by destruct (Hnp e He)|]. split; [done|]. split; [by eexists|].
    eexists. split; [|exact Hver]. rewrite <-!app_assoc. do 3 apply prefix_app. by eexists.
  - intros _. apply elem_of_app. right. by left.
Qed.

(** The whole transaction. *)
Lemma publication_logged signatures create confirm tag sha directory prerelease body l l' r :
  NoDup (entry_name <$> stage_files directory) → creates_once create → reads_only confirm →
  publish_prepared casefold sha256_hex repo scope_verified signatures create confirm tag sha directory prerelease body l = (l', r) →
  publication_log tag sha body directory prerelease l l' (is_ok r).
Proof.
  unfold publish_prepared. cbv zeta. intros Hnd Hcreate Hconf Hp.
  assert (publication_log tag sha body directory prerelease l l false) as Hnothing.
  { rewrite <-(app_nil_r l) at 2. apply (stopped _ _ _ _ _ 0). apply prefix_nil. }
  apply bind_trace in Hp as [(e & He & ->)|(? & [] & [-> _]%lift_M_ok & Hp)]; [by injection He as <-|].
  apply bind_trace in Hp as [(e & He & ->)|(? & [] & [-> _]%lift_M_ok & Hp)]; [by injection He as <-|].
  pose proof (λ l l' r, open_draft_trace create tag sha prerelease body l l' r Hcreate) as Hopen.
  apply bind_trace in Hp as [(e & (k & -> & Hk & _)%Hopen & ->)|(l1 & id & (k & -> & _ & Hk)%Hopen & Hp)].
  - apply (stopped _ _ _ _ _ 0). by apply prefix_app_r.
  - eapply completed_trace; [done|done|by apply Hk|exact Hp].
Qed.
(** C3: However the servers answer, and for any creation that sends its one request
    at most once, the writes of a publication are an initial part
    of tag, draft, one upload per file in name order, and one publishing request;
    that request is the last of the log and sent only after each staged file was
    downloaded again with its size and digest, and after the server's answer for the
    reference of the tag named this tag and this commit;
    and a publication that succeeds has sent it. *)
Theorem publication_is_verified signatures create confirm tag sha directory prerelease body l l' r :
  NoDup (entry_name <$> stage_files directory) → creates_once create → reads_only confirm →
  publish_prepared casefold sha256_hex repo scope_verified signatures create confirm tag sha directory prerelease body l = (l', r) →
  publication_log tag sha body directory prerelease l l' (is_ok r).
Proof. intros Hnd Hcreate Hconf Hp. exact (publication_logged _ _ _ _ _ _ _ _ _ _ _ Hnd Hcreate Hconf Hp). Qed.
End recorded.

(** ** A concrete publication *)

Section demo.
#[local] Existing Instance ascii_case.

Definition demo_tag : pystr := &"v1.2.3".
Definition demo_commit : pystr := replicate 40 (chr "c").
Definition demo_file : file_entry := FileEntry (&"a.whl") true [Byte.x61].
Definition demo_stage : staging := Staging (&"/tmp/release-candidate-1") [demo_file].

Definition demo_reply (intact : bool) (l : list event) : outcome bytes :=
  let answer v := json_bytes demo_no_floats v in
  match last l with
  | Some (Asked path method _ mode) =>
    if bool_decide (mode = PagesMode) then
      answer (VList (if bool_decide (path = &"releases") then []
                     else [VList [VDict [(&"name", VStr (&"a.whl")); (&"id", VInt 9); (&"state", VStr (&"uploaded")); (&"size", VInt 1)]]]))
    else if bool_decide (method = &"PATCH") then
      answer (VDict [(&"draft", VBool false); (&"tag_name", VStr demo_tag); (&"prerelease", VBool true)])
    else if bool_decide (path = &"git/refs") then answer (VDict [])
    else if bool_decide (method = &"POST") then answer (VDict [(&"id", VInt 5); (&"draft", VBool true); (&"tag_name", VStr demo_tag)])
    else if bool_decide (path = &"git/ref/tags/" ++ demo_tag) && (3 <? length l)%nat then
      answer (VDict [(&"ref", VStr (&"refs/tags/" ++ demo_tag)); (&"object", VDict [(&"type", VStr (&"commit")); (&"sha", VStr demo_commit)])])
    else Raise (Exn (EGitHub (Some 404)) "")
  | Some (Downloaded _) => Ok (if intact then [Byte.x61] else [Byte.x62])
  | _ => Ok []
  end.

(** A digest that tells single bytes apart. *)
Definition byte_digest (b : bytes) : pystr := Byte.to_N <$> b.

Definition demo_publication (intact : bool) : list event * outcome pyobject :=
  @publish_prepared _ (list event) (recorded_github (demo_reply intact)) (recorded_assets (demo_reply intact)) demo_fold byte_digest (&"o/r") true
    (Ok tt) (@create_draft _ (recorded_github (demo_reply intact))) (mret tt) demo_tag demo_commit demo_stage true (&"notes") [].

Lemma publication_is_verified_witness :
  is_ok (snd (demo_publication true)) = true ∧ last (fst (demo_publication true)) = Some (publishing true 5)
  ∧ is_ok (snd (demo_publication false)) = false ∧ length (writes (fst (demo_publication false))) = 3%nat
  ∧ publication_log (demo_reply true) byte_digest demo_tag demo_commit (&"notes") demo_stage true [] (fst (demo_publication true)) true.
Proof.
  assert (is_ok (snd (demo_publication true)) = true) as Hok by (vm_compute; reflexivity).
  split; [exact Hok|]. do 3 (split; [vm_compute; reflexivity|]). rewrite <-Hok.
  apply (publication_is_verified (demo_reply true) demo_fold byte_digest (&"o/r") true (Ok tt)
           (@create_draft _ (recorded_github (demo_reply true))) (mret tt) demo_tag demo_commit demo_stage true (&"notes") []).
  - by apply (bool_decide_unpack _).
  - apply create_draft_once.
  - apply reads_ret.
  - unfold demo_publication. by destruct (publish_prepared _ _ _ _ _ _ _ _ _ _ _ _ _).
Defined.
End demo.
