(* ===== verification/Promotion.v ===== *)
(** * Promoting a candidate ([scripts/release_control.py])

    An accepted release candidate becomes a stable release without a new build: its
    tag, its release and its whole inventory of assets are read, its manifest is
    compared with the evidence of the run that built it, every byte is downloaded
    and compared with the manifest, everything that can change is read a second
    time, and only then the same bytes are published under the stable tag.  The
    reader of ZIP archives is a parameter. *)

From Stdlib Require Import QArith.QArith Strings.Byte.
From S2P Require Import Prelude PyStr PyDict PyRegex PyVal PyJson VersionPlan Release ReleaseState ReleaseValidation OciMetadata Fuzz ReleasePolicy ReleaseRuns ReleaseExecution ReleaseNotes ReleaseManifest Publication.
#[local] Open Scope Z_scope.
#[local] Open Scope regex_scope.

(** ** Order on dynamic values

    [v < w] of JSON values: numbers by value, strings by code points, lists by their first
    difference; anything else does not compare. *)

Definition number_of (v : pyval) : option Q :=
  match v with
  | VInt n => Some (inject_Z n)
  | VBool b => Some (inject_Z (if b : bool then 1 else 0))
  | VFloat q => Some q
  | _ => None
  end.

Definition unordered {A} : outcome A := Raise (type_error_of "'<' not supported between instances").

Fixpoint py_less (v w : pyval) : outcome bool :=
  match number_of v, number_of w with
  | Some a, Some b => Ok (Qlt_bool a b)
  | _, _ =>
    match v, w with
    | VStr s, VStr t => Ok (negb (str_leb t s))
    | VList l, VList k =>
      (fix list_less (l k : list pyval) : outcome bool :=
         match l, k with
         | v :: l, w :: k => if py_eq v w then list_less l k else py_less v w
         | _, _ => Ok (bool_decide (length l < length k)%nat)
         end) l k
    | _, _ => unordered
    end
  end.

(** [sorted(l, key=...)] of elements with their keys; equal keys keep their order. *)
Fixpoint insert_keyed {A} (k : pyval) (x : A) (l : list (pyval * A)) : outcome (list (pyval * A)) :=
  match l with
  | [] => Ok [(k, x)]
  | y :: l' => less ← py_less y.1 k; if less : bool then rest ← insert_keyed k x l'; Ok (y :: rest) else Ok ((k, x) :: l)
  end.

Fixpoint sort_keyed {A} (l : list (pyval * A)) : outcome (list (pyval * A)) :=
  match l with
  | [] => Ok []
  | y :: l => l ← sort_keyed l; insert_keyed y.1 y.2 l
  end.

(** ** A candidate's release *)

(** [ReleaseSnapshot]: the reference of the tag, the release and its assets. *)
Record rc_snapshot : Type := Snapshot { snap_ref : pyobject; snap_release : pyobject; snap_assets : list pyobject }.

(** An entry of a ZIP archive: its name, whether it is a directory, its size and
    what reading it gives. *)
Record zip_entry : Type := ZipEntry { zip_name : pystr; zip_is_dir : bool; file_size : Z; zip_read : outcome bytes }.

(** [zipfile.BadZipFile] *)
Definition is_archive_error (c : exn_class) : bool := match c with EArchive => true | _ => false end.

Definition RC_TAG : regex := chars (&"v") ⋅ VERSION_RE ⋅ chars (&"-rc.") ⋅ positive_numeral.

Definition RELEASE_IDENTITY : list pystr :=
  [&"id"; &"tag_name"; &"target_commitish"; &"draft"; &"prerelease"; &"updated_at"].

Section promotion.
Context `{UnicodeCase} {G : Type} `{GitHub G} `{Host G} `{Assets G}.
Context (casefold : pystr → pystr) (unicode_digit : N → bool) (float_repr : Q → pystr) (py_text : pyval → pystr).
Context (sha1_hex sha256_hex : bytes → pystr) (open_zip : bytes → outcome (list zip_entry)) (repo : pystr) (scope_verified : bool).

(** The tag of a candidate. *)
Definition candidate_ref (tag : pystr) (v : pyval) : outcome pyobject :=
  ref ← as_dict v;
  ok ← o_and (Ok (text_is (get_key "ref" ref) (&"refs/tags/" ++ tag))) (t ← nested_get "object" "type" ref; Ok (text_is t (&"commit")));
  _ ← release_require ok "Candidate must have a lightweight commit tag";
  Ok ref.

(** Its release. *)
Definition published_prerelease (tag : pystr) (v : pyval) : outcome pyobject :=
  release ← as_dict v;
  _ ← release_require (text_is (get_key "tag_name" release) tag && bool_decide (get_key "draft" release = VBool false)
                       && bool_decide (get_key "prerelease" release = VBool true))
        "Candidate is not a published prerelease";
  Ok release.

(** Its assets. *)
Definition complete_assets (values : list pyval) : outcome (list pyobject) :=
  complete ← all_of (λ v, d ← as_dict v; Ok (text_is (get_key "state" d) (&"uploaded"))) values;
  _ ← release_require complete "Candidate has incomplete uploads";
  assets ← collect as_dict values;
  let names := get_key "name" <$> assets in
  _ ← release_require (forallb (str_match NAME_RE) names) "Unsafe release asset name";
  _ ← release_require (bool_decide (NoDup ((λ v, casefold (str_value v)) <$> names))) "Duplicate release assets";
  Ok assets.

(** [release_snapshot] *)
Definition release_snapshot (tag : pystr) : M G rc_snapshot :=
  quoted ← lift (quote tag);
  v ← gh_api (&"git/ref/tags/" ++ quoted) (&"GET") None;
  ref ← lift (candidate_ref tag v);
  w ← gh_api (&"releases/tags/" ++ quoted) (&"GET") None;
  release ← lift (published_prerelease tag w);
  id ← lift (positive (get_key "id" release) "Invalid release ID");
  values ← gh_pages (&"releases/" ++ str_of_int id ++ &"/assets") None;
  assets ← lift (complete_assets values);
  mret (Snapshot ref release assets).

(** An asset without the counter that a verifier's own downloads increment. *)
Definition without_downloads (asset : pyobject) : pyobject := filter (λ p, p.1 ≠ &"download_count") asset.

(** [snapshot_identity] *)
Definition snapshot_identity (s : rc_snapshot) : outcome bytes :=
  keyed ← collect (λ a, id ← item (&"id") (without_downloads a); Ok (id, VDict (without_downloads a))) (snap_assets s);
  assets ← sort_keyed keyed;
  json_bytes_indented float_repr
    (VDict [(&"ref", VDict (snap_ref s));
            (&"release", VDict ((λ key, (key, get_default key VNone (snap_release s))) <$> RELEASE_IDENTITY));
            (&"assets", VList assets.*2)]).

(** ** Evidence *)

(** The one file of an evidence archive. *)
Definition check_evidence_archive (raw archive : bytes) : outcome unit :=
  catch (entries ← open_zip archive;
         match filter (λ e, zip_is_dir e = false) entries with
         | [entry] =>
           _ ← release_require (bool_decide (zip_name entry ∈ [MANIFEST; EVIDENCE])) "Evidence artifact has unexpected contents";
           _ ← release_require (file_size entry <=? 2000000) "Evidence artifact manifest is too large";
           content ← zip_read entry;
           release_require (bool_decide (content = raw)) "Release manifest differs from immutable Actions evidence"
         | _ => Raise (release_error "Evidence artifact has unexpected contents")
         end) is_archive_error (λ _, Raise (release_error "Cannot read release evidence archive")).

(** The evidence artifact of the run that wrote the manifest. *)
Definition evidence_artifact (manifest : pyobject) (artifacts : list pyval) : outcome pyobject :=
  matching ← select (λ v, d ← as_dict v;
                          Ok (text_is (get_key "name" d) (&"release-evidence") && negb (truthy (get_key "expired" d)))) artifacts;
  _ ← release_require (bool_decide (length matching = 1%nat)) "Exactly one unexpired immutable release-evidence artifact is required";
  artifact ← as_dict (default VNone (head matching));
  ok ← o_and (id ← nested_get "workflow_run" "id" artifact; run ← item (&"run_id") manifest; Ok (py_eq id run))
             (sha ← nested_get "workflow_run" "head_sha" artifact; source ← item (&"source_sha") manifest; Ok (py_eq sha source));
  _ ← release_require ok "Evidence artifact provenance mismatch";
  Ok artifact.

(** [verify_evidence] *)
Definition verify_evidence (manifest : pyobject) (raw : bytes) : M G unit :=
  run ← lift (item (&"run_id") manifest);
  artifacts ← gh_pages (&"actions/runs/" ++ py_str run ++ &"/artifacts") (Some (&"artifacts"));
  artifact ← lift (evidence_artifact manifest artifacts);
  id ← lift (positive (get_key "id" artifact) "Invalid artifact ID");
  archive ← gh_binary (&"actions/artifacts/" ++ str_of_int id ++ &"/zip");
  lift (_ ← release_require (text_is (get_key "digest" artifact) (&"sha256:" ++ sha256_hex archive))
              "Evidence must have a matching immutable v4 artifact digest";
        check_evidence_archive raw archive).

(** [require_reviewers] *)
Definition require_reviewers : M G unit :=
  v ← gh_api (&"environments/release") (&"GET") None;
  lift (environment ← as_dict v;
        _ ← release_require (text_is (get_key "name" environment) (&"release")) "Protected release environment is missing";
        rules ← iterate (get_default (&"protection_rules") (VList []) environment);
        reviewed ← any_of (λ rule, d ← as_dict rule;
                                   Ok (text_is (get_key "type" d) (&"required_reviewers") && truthy (get_key "reviewers" d))) rules;
        release_require reviewed "The release environment must have required reviewers configured").

(** ** The candidate that is promoted *)

(** What was read of a candidate: its snapshot, the bytes of its manifest, the
    manifest, and the policy at its commit. *)
Record accepted_rc : Type := Accepted {
  acc_initial : rc_snapshot; acc_raw : bytes; acc_manifest : pyobject; acc_sha : pystr; acc_policy : pyobject
}.

(** [verify_promotion_order] of the plan a manifest records. *)
Definition promotion_order (plan : pyval) : M G unit :=
  match plan with
  | VDict plan => verify_promotion_order float_repr sha256_hex plan
  | _ => _ ← read_state float_repr sha256_hex; lift (_ ← validate_plan float_repr sha256_hex plan None None; Ok tt)
  end.

Definition has_plan (a : accepted_rc) : bool := truthy (get_key "version_plan" (acc_manifest a)).
Definition check_order (a : accepted_rc) : M G unit :=
  if has_plan a then promotion_order (get_key "version_plan" (acc_manifest a)) else mret tt.

(** The promotion's own run: its number, and the repository. *)
Definition admit_promotion (rc : pystr) (run_id : pyval) : M G (Z * pyobject) :=
  _ ← lift (release_require (fullmatch RC_TAG rc) "Promotion requires a strict vX.Y.Z-rc.N tag");
  current ← lift (positive run_id "Invalid run ID");
  info ← repository_info repo;
  head ← checked_out_sha;
  attempt ← lift (positive (match env "GITHUB_RUN_ATTEMPT" with Some s => VStr s | None => VNone end) "Invalid current run attempt");
  _ ← wait_for_executing_run py_text repo current (&"stable") info head attempt false;
  _ ← require_reviewers;
  mret (current, info).

(** The candidate's manifest, read from its release. *)
Definition read_manifest (rc : pystr) (initial : rc_snapshot) : M G (bytes * pyobject) :=
  match filter (λ a, text_is (get_key "name" a) MANIFEST = true) (snap_assets initial) with
  | [asset] =>
    id ← lift (positive (get_key "id" asset) "Invalid manifest asset ID");
    raw ← gh_binary (&"releases/assets/" ++ str_of_int id);
    manifest ← lift (validate_manifest casefold float_repr sha256_hex repo unicode_digit raw rc false);
    mret (raw, manifest)
  | _ => raise (release_error "Candidate manifest is missing")
  end.

(** The policy of the candidate's commit: it must allow a promotion. *)
Definition promotable_policy (sha : pystr) : M G (pyobject * pyobject) :=
  snapshot ← source_policy_snapshot repo sha1_hex sha256_hex sha;
  data ← lift (item (&"data") snapshot);
  _ ← lift (require_release_policy repo data true);
  policy ← lift (as_dict data);
  head ← checked_out_sha;
  _ ← require_current_fuzzing repo sha1_hex sha256_hex policy head;
  _ ← lift (promotion ← nested_get "versioning" "promotion" policy;
            release_require (negb (text_is promotion (&"final-build")))
              "This RC requires a separately validated final build; byte promotion is disabled");
  mret (snapshot, policy).

(** The run that built the candidate, against the validation its policy asks for. *)
Definition check_source_run (a : accepted_rc) (info : pyobject) (identified : pyval → pyobject → outcome unit) : M G pyobject :=
  run_id ← lift (item (&"run_id") (acc_manifest a));
  v ← gh_api (&"actions/runs/" ++ py_str run_id) (&"GET") None;
  run ← lift (as_dict v);
  _ ← validate_validation_run run (acc_policy a) (&"rc");
  _ ← lift (identified run_id run);
  attempt ← lift (item (&"run_attempt") (acc_manifest a));
  _ ← validate_run repo run info (acc_sha a) attempt true true;
  mret run.

(** The first reading also asks who the run is. *)
Definition same_run (run_id : pyval) (run : pyobject) : outcome unit :=
  release_require (py_eq (get_key "id" run) run_id) "Source run identity mismatch".
Definition any_run (run_id : pyval) (run : pyobject) : outcome unit := Ok tt.

(** The names of the manifest's assets, with the manifest itself. *)
Definition check_inventory (expected : pydict pystr pyval) (assets : list pyobject) : outcome unit :=
  release_require (same_keys ((λ a, str_value (get_key "name" a)) <$> assets) (dict_keys expected ++ [MANIFEST]))
    "Candidate assets differ from manifest inventory".

(** The tag of the stable release. *)
Definition stable_tag (a : accepted_rc) : outcome pystr :=
  version ← item (&"version") (acc_manifest a); Ok (&"v" ++ value_text py_text version).

(** The checks of the manifest against the policy, the tag and this run. *)
Definition check_manifest_source (a : accepted_rc) (source_policy : pyobject) (current : Z) : outcome unit :=
  recorded ← item (&"source_policy") (acc_manifest a);
  _ ← release_require (py_eq (VDict source_policy) recorded)
        "Manifest policy snapshot differs from the policy at the candidate source commit";
  v ← item (&"object") (snap_ref (acc_initial a));
  object ← as_dict v;
  _ ← release_require (text_is (get_key "sha" object) (acc_sha a)) "Candidate tag SHA differs from manifest";
  run_id ← item (&"run_id") (acc_manifest a);
  release_require (negb (py_eq run_id (VInt current))) "Candidate and promotion must use separate runs".

(** Everything [promote] reads before it downloads the assets. *)
Definition accept_candidate (rc : pystr) (current : Z) (info : pyobject) : M G accepted_rc :=
  initial ← release_snapshot rc;
  '(raw, manifest) ← read_manifest rc initial;
  source ← lift (item (&"source_sha") manifest);
  let sha := str_value source in
  '(source_policy, policy) ← promotable_policy sha;
  let a := Accepted initial raw manifest sha policy in
  _ ← check_order a;
  _ ← lift (check_manifest_source a source_policy current);
  run ← check_source_run a info same_run;
  _ ← lift (release_require (text_is (get_key "event" run) (&"workflow_dispatch")) "RC must originate from a manual workflow dispatch");
  branch ← lift (default_branch info);
  _ ← check_ancestry sha branch;
  _ ← verify_evidence manifest raw;
  tag ← lift (stable_tag a);
  _ ← ensure_absent tag;
  _ ← lift (v ← item (&"assets") manifest;
            assets ← iterate v;
            expected ← asset_index assets [];
            check_inventory expected (snap_assets initial));
  _ ← check_workflow_publication repo scope_verified sha;
  mret a.

(** The size and the digest of a staged file against the release and the manifest. *)
Definition check_staged (expected : pydict pystr pyval) (asset : pyobject) (name : pystr) (identity : Z * pystr) : outcome unit :=
  _ ← release_require (py_eq (get_key "size" asset) (VInt identity.1)) "Release asset size mismatch";
  if bool_decide (name = MANIFEST) then Ok tt
  else
    v ← match dict_get name expected with Some v => Ok v | None => Raise (Exn EKey "") end;
    e ← as_dict v;
    ok ← o_and (size ← item (&"size") e; Ok (py_eq (VInt identity.1) size))
               (sha256 ← item (&"sha256") e; Ok (py_eq (VStr identity.2) sha256));
    release_require ok "Candidate checksum mismatch".

(** The staged files: the manifest that was read, and a download of every other
    asset. *)
Fixpoint stage_candidate (raw : bytes) (expected : pydict pystr pyval) (assets : list pyobject) : M G (list file_entry) :=
  match assets with
  | [] => mret []
  | asset :: assets =>
    name ← lift (item (&"name") asset);
    let name := str_value name in
    content ← (if bool_decide (name = MANIFEST) then mret raw
               else id ← lift (positive (get_key "id" asset) "Invalid asset ID");
                    gh_download (&"releases/assets/" ++ str_of_int id));
    let identity := if bool_decide (name = MANIFEST) then (Z.of_nat (length raw), sha256_hex raw) else stream_identity sha256_hex content in
    _ ← lift (check_staged expected asset name identity);
    files ← stage_candidate raw expected assets;
    mret (FileEntry name true content :: files)
  end.

(** The candidate is what it was before the downloads. *)
Definition check_unchanged (rc : pystr) (a : accepted_rc) : M G unit :=
  again ← release_snapshot rc;
  lift (now ← snapshot_identity again;
        before ← snapshot_identity (acc_initial a);
        release_require (bool_decide (now = before)) "Candidate changed during verification").

(** The second reading of what can change, just before the first write. *)
Definition recheck_candidate (a : accepted_rc) (info : pyobject) : M G unit :=
  _ ← check_source_run a info any_run;
  _ ← require_reviewers;
  check_workflow_publication repo scope_verified (acc_sha a).

Definition promotion_provenance (rc : pystr) (a : accepted_rc) (current : Z) : outcome pystr :=
  url ← item (&"html_url") (snap_release (acc_initial a));
  run_id ← item (&"run_id") (acc_manifest a);
  let runs := &"https://github.com/" ++ repo ++ &"/actions/runs/" in
  Ok (&"Promoted unchanged from [" ++ rc ++ &"](" ++ value_text py_text url ++ &")." ++ [10; 10]%N
      ++ &"Source: `" ++ acc_sha a ++ &"`" ++ [10; 10]%N
      ++ &"Validation: " ++ runs ++ py_str run_id ++ [10; 10]%N
      ++ &"Promotion: " ++ runs ++ str_of_int current ++ [10; 10]%N
      ++ &"Assets and `" ++ MANIFEST ++ &"` are byte-for-byte copies of the verified release candidate.").

(** The stable release, its staged files, its notes and the candidate, verified
    without a write; [temporary] is the directory of the staged files. *)
Definition verify_candidate (signatures : outcome unit) (temporary rc : pystr) (run_id : pyval) : M G (Z * accepted_rc * pystr * staging * pystr) :=
  '(current, info) ← admit_promotion rc run_id;
  a ← accept_candidate rc current info;
  tag ← lift (stable_tag a);
  expected ← lift (v ← item (&"assets") (acc_manifest a); assets ← iterate v; asset_index assets []);
  files ← stage_candidate (acc_raw a) expected (snap_assets (acc_initial a));
  _ ← check_unchanged rc a;
  _ ← lift (verify_required_signatures signatures);
  _ ← recheck_candidate a info;
  provenance ← lift (promotion_provenance rc a current);
  body ← release_notes sha1_hex sha256_hex repo tag (acc_sha a) provenance;
  _ ← check_order a;
  mret (current, a, tag, Staging temporary files, body).

(** The writes of a promotion: the ledger, and the release. *)
Definition publish_candidate (signatures : outcome unit) (current : Z) (a : accepted_rc) (tag : pystr) (directory : staging) (body : pystr) : M G pyobject :=
  _ ← (if has_plan a
       then plan ← lift (as_dict (get_key "version_plan" (acc_manifest a)));
            _ ← begin_publication float_repr sha256_hex plan current VNone (VBool true);
            mret tt
       else mret tt);
  publish_prepared casefold sha256_hex repo scope_verified signatures create_draft (mret tt) tag (acc_sha a) directory false body.

(** [promote] *)
Definition promote (signatures : outcome unit) (temporary rc : pystr) (run_id : pyval) : M G pyobject :=
  '(current, a, tag, directory, body) ← verify_candidate signatures temporary rc run_id;
  release ← publish_candidate signatures current a tag directory body;
  lift (url ← item (&"html_url") release; Ok [(&"tag", VStr tag); (&"release_url", url)]).
End promotion.
