(* ===== verification/PromotionFacts.v ===== *)
(** * What a promotion guarantees

    However the servers and the process answer, a promotion writes nothing before
    it verified the candidate twice; what it then publishes is the manifest that
    the evidence of the building run holds and, for every asset the manifest lists,
    the downloaded bytes with the recorded size and digest. *)

From Stdlib Require Import QArith.QArith Strings.Byte.
From S2P Require Import Prelude PyStr PyDict PyRegex PyVal Config Base64 PyJson VersionPlan Release ReleaseState ReleaseValidation OciMetadata Fuzz ReleasePolicy ReleaseRuns ReleaseExecution ReleaseNotes ReleaseManifest Publication Recorded PublicationFacts Promotion.
#[local] Open Scope Z_scope.

Section promoted.
Context `{UnicodeCase} (reply : list event → outcome bytes) (p : process).
#[local] Hint Extern 0 (GitHub (list event)) => exact (recorded_github reply) : typeclass_instances.
#[local] Hint Extern 0 (Assets (list event)) => exact (recorded_assets reply) : typeclass_instances.
#[local] Hint Extern 0 (Host (list event)) => exact (recorded_host p) : typeclass_instances.
Context (casefold : pystr → pystr) (unicode_digit : N → bool) (float_repr : Q → pystr) (py_text : pyval → pystr).
Context (sha1_hex sha256_hex : bytes → pystr) (open_zip : bytes → outcome (list zip_entry)) (repo : pystr) (scope_verified : bool).

(** ** Nothing is written before the candidate is verified *)

Lemma reads_snapshot tag : reads_only (release_snapshot casefold tag).
Proof. unfold release_snapshot. solve_reads. Qed.

Lemma reads_reviewers : reads_only require_reviewers.
Proof. unfold require_reviewers. solve_reads. Qed.

Lemma reads_evidence manifest raw : reads_only (verify_evidence sha256_hex open_zip manifest raw).
Proof. unfold verify_evidence. solve_reads. Qed.

Lemma reads_state : reads_only (read_state float_repr sha256_hex).
Proof. unfold read_state. solve_reads. Qed.

Lemma reads_order_in state plan : reads_only (verify_promotion_order_in float_repr sha256_hex state plan).
Proof. unfold verify_promotion_order_in, published_tags. solve_reads. Qed.

Lemma reads_order a : reads_only (check_order float_repr sha256_hex a).
Proof. unfold check_order, promotion_order, verify_promotion_order. pose proof reads_state. pose proof reads_order_in. solve_reads. Qed.

Lemma reads_admit rc run_id : reads_only (admit_promotion py_text repo rc run_id).
Proof. unfold admit_promotion. pose proof reads_reviewers. solve_reads. Qed.

Lemma reads_source_run a info identified : reads_only (check_source_run repo a info identified).
Proof. unfold check_source_run. solve_reads. Qed.

Lemma reads_manifest rc initial : reads_only (read_manifest casefold unicode_digit float_repr sha256_hex repo rc initial).
Proof. unfold read_manifest. solve_reads. Qed.

Lemma reads_promotable sha : reads_only (promotable_policy sha1_hex sha256_hex repo sha).
Proof. unfold promotable_policy. solve_reads. Qed.

#[local] Hint Resolve reads_snapshot reads_reviewers reads_evidence reads_order reads_admit reads_source_run reads_manifest reads_promotable : reads.

Notation accept := (accept_candidate casefold unicode_digit float_repr py_text sha1_hex sha256_hex open_zip repo scope_verified).
Notation verify := (verify_candidate casefold unicode_digit float_repr py_text sha1_hex sha256_hex open_zip repo scope_verified).

Lemma reads_accept rc current info : reads_only (accept rc current info).
Proof. unfold accept_candidate. solve_reads. Qed.

Lemma reads_stage raw expected assets : reads_only (stage_candidate sha256_hex raw expected assets).
Proof. induction assets as [|asset assets IH]; cbn [stage_candidate]; solve_reads. Qed.

Lemma reads_verify signatures temporary rc run_id : reads_only (verify signatures temporary rc run_id).
Proof.
  unfold verify_candidate, check_unchanged, recheck_candidate. pose proof reads_accept. pose proof reads_stage. solve_reads.
Qed.

(** ** What was verified *)

(** An event of the log, and its answer. *)
Definition answered (l : list event) (e : event) (b : bytes) : Prop := ∃ k, k ++ [e] `prefix_of` l ∧ reply (k ++ [e]) = Ok b.

Lemma answered_more l k e b : answered l e b → answered (l ++ k) e b.
Proof. intros (j & Hj & ?). exists j. split; [by apply prefix_app_r|done]. Qed.

Lemma answered_reads {A} (m : M (list event) A) l l' r e b : reads_only m → m l = (l', r) → answered l e b → answered l' e b.
Proof. intros Hm Hr. destruct (Hm _ _ _ Hr) as (k & -> & _). apply answered_more. Qed.

(** *** The manifest's assets by name *)

Lemma asset_index_get assets index index' name :
  asset_index assets index = Ok index' →
  (∀ v, dict_get name index' = Some v → dict_get name index = Some v ∨ (v ∈ assets ∧ get_key "name" (dict_of v) = VStr name))
  ∧ (∀ v, v ∈ assets → get_key "name" (dict_of v) = VStr name → name ∈ dict_keys index')
  ∧ (name ∈ dict_keys index → name ∈ dict_keys index').
Proof.
  revert index. induction assets as [|a assets IH]; intros index Ha; cbn [asset_index] in Ha.
  { injection Ha as <-. split_and!; [by left|by intros v []%elem_of_nil|done]. }
  apply bind_ok in Ha as (d & Hd & Ha). destruct a; try done. injection Hd as ->. apply bind_ok in Ha as (v & Hv & Ha).
  apply item_key in Hv. destruct v as [| | | |s| | |]; try done.
  5: { destruct (IH _ Ha) as (IH1 & IH2 & IH3). split_and!.
    - intros w [Hw|[Hw ?]]%IH1; [|right; split; [by right|done]]. destruct (decide (name = s)) as [->|Hne].
      + rewrite dict_get_set_eq in Hw. injection Hw as <-. right. split; [by left|done].
      + rewrite dict_get_set_ne in Hw by done. by left.
    - intros w [->|Hw]%elem_of_cons Hn; [|by eapply IH2]. cbn [dict_of] in Hn. rewrite Hv in Hn. injection Hn as ->.
      apply IH3, elem_of_dict_keys_set. by left.
    - intros Hin. apply IH3, elem_of_dict_keys_set. by right. }
  all: destruct (IH _ Ha) as (IH1 & IH2 & IH3); split_and!;
    [intros w [Hw|[Hw ?]]%IH1; [by left|right; split; [by right|done]]
    |intros w [->|Hw]%elem_of_cons Hn; [cbn [dict_of] in Hn; congruence|by eapply IH2]|done].
Qed.

(** *** The staged files *)

(** A staged file is the manifest that was read, or the answer to a download with
    the size and the digest of its entry. *)
Definition staged_as (raw : bytes) (expected : pydict pystr pyval) (l : list event) (f : file_entry) : Prop :=
  (entry_name f = MANIFEST ∧ contents f = raw) ∨
  (entry_name f ≠ MANIFEST
   ∧ (∃ id, answered l (Downloaded (&"releases/assets/" ++ str_of_int id)) (contents f))
   ∧ ∃ e, dict_get (entry_name f) expected = Some (VDict e)
       ∧ py_eq (VInt (Z.of_nat (length (contents f)))) (get_key "size" e) = true
       ∧ get_key "sha256" e = VStr (sha256_hex (contents f))).

Definition asset_name (a : pyobject) : pystr := str_value (get_key "name" a).

Lemma check_staged_ok expected asset name n sha :
  check_staged expected asset name (n, sha) = Ok tt → name ≠ MANIFEST →
  ∃ e, dict_get name expected = Some (VDict e) ∧ py_eq (VInt n) (get_key "size" e) = true ∧ get_key "sha256" e = VStr sha.
Proof.
  unfold check_staged. intros Hc Hn. apply bind_ok in Hc as ([] & _ & Hc). rewrite bool_decide_false in Hc by done.
  apply bind_ok in Hc as (v & Hv & Hc). destruct (dict_get name expected) as [w|]; [injection Hv as ->|done].
  apply bind_ok in Hc as (e & He & Hc). destruct v; try done. injection He as ->.
  apply bind_ok in Hc as (ok & [= Hok] & Hc%release_require_ok). subst ok. exists e. split; [done|].
  apply o_and_true in Hok as [Hsize Hsha]. apply bind_ok in Hsize as (? & <-%item_key & [= Hsize]). apply bind_ok in Hsha as (? & <-%item_key & [= Hsha]).
  split; [done|]. cbn in Hsha. destruct (get_key "sha256" e); try done. by apply bool_decide_eq_true in Hsha as ->.
Qed.

Lemma stage_candidate_ok raw expected assets l l' files :
  stage_candidate sha256_hex raw expected assets l = (l', Ok files) →
  entry_name <$> files = asset_name <$> assets ∧ ∀ f, f ∈ files → staged_as raw expected l' f.
Proof.
  revert l files. induction assets as [|asset assets IH]; intros l files Hs; cbn [stage_candidate] in Hs.
  { apply mret_M_ok in Hs as [-> <-]. split; [done|]. by intros f []%elem_of_nil. }
  apply bind_M_ok in Hs as (? & v & [-> <-%item_key]%lift_M_ok & Hs). cbv zeta in Hs. fold (asset_name asset) in Hs.
  apply bind_M_ok in Hs as (l1 & content & Hcont & Hs). apply bind_M_ok in Hs as (? & [] & [-> Hchk]%lift_M_ok & Hs).
  apply bind_M_ok in Hs as (l2 & rest & Hrest & [-> <-]%mret_M_ok). pose proof (reads_stage _ _ _ _ _ _ Hrest) as (k & -> & _).
  apply IH in Hrest as [Hnames Hfiles]. split; [rewrite !fmap_cons; cbn [entry_name]; by rewrite Hnames|].
  intros f [->|Hf]%elem_of_cons; [|by apply Hfiles]. unfold staged_as. cbn [entry_name contents].
  case_bool_decide as Hm; [left; split; [done|by apply mret_M_ok in Hcont as [_ <-]]|]. right. split; [done|].
  rewrite stream_identity_spec in Hchk. apply check_staged_ok in Hchk as Hentry; [|done]. split; [|done].
  apply bind_M_ok in Hcont as (? & id & [-> _]%lift_M_ok & Hcont). exists id. injection Hcont as <- Hr.
  apply answered_more. by exists l.
Qed.

(** *** The candidate *)

(** An artifact that the server listed for a run of the log: evidence that has not
    expired, of that run and of this commit. *)
Definition listed_evidence (l : list event) (run source : pyval) (artifact : pyobject) : Prop :=
  ∃ before after artifacts id sha,
    after `prefix_of` l ∧ gh_pages (&"actions/runs/" ++ py_str run ++ &"/artifacts") (Some (&"artifacts")) before = (after, Ok artifacts)
    ∧ VDict artifact ∈ artifacts
    ∧ get_key "name" artifact = VStr (&"release-evidence") ∧ truthy (get_key "expired" artifact) = false
    ∧ nested_get "workflow_run" "id" artifact = Ok id ∧ py_eq id run = true
    ∧ nested_get "workflow_run" "head_sha" artifact = Ok sha ∧ py_eq sha source = true.

(** The archive of the evidence that the building run lists was fetched, has the
    listed digest and holds exactly the manifest. *)
Definition evident (l : list event) (a : accepted_rc) : Prop :=
  ∃ artifact id archive entries entry,
    listed_evidence l (get_key "run_id" (acc_manifest a)) (get_key "source_sha" (acc_manifest a)) artifact
    ∧ positive (get_key "id" artifact) "Invalid artifact ID" = Ok id
    ∧ answered l (Fetched (&"actions/artifacts/" ++ str_of_int id ++ &"/zip")) archive
    ∧ get_key "digest" artifact = VStr (&"sha256:" ++ sha256_hex archive)
    ∧ open_zip archive = Ok entries ∧ filter (λ e, zip_is_dir e = false) entries = [entry] ∧ zip_read entry = Ok (acc_raw a).

(** The release of the candidate was read in the log. *)
Definition snapshot_read (rc : pystr) (l : list event) (a : accepted_rc) : Prop :=
  ∃ before after, after `prefix_of` l ∧ release_snapshot casefold rc before = (after, Ok (acc_initial a)).

(** The release was read a second time, after the first reading and after [P] had
    come to hold, and was the same. *)
Definition unchanged (rc : pystr) (l : list event) (a : accepted_rc) (P : list event → Prop) : Prop :=
  ∃ before after again b, snapshot_read rc before a ∧ P before ∧ after `prefix_of` l ∧ release_snapshot casefold rc before = (after, Ok again)
    ∧ snapshot_identity float_repr again = Ok b ∧ snapshot_identity float_repr (acc_initial a) = Ok b.

Notation validate := (validate_manifest casefold float_repr sha256_hex repo unicode_digit).

(** An accepted candidate: its manifest passed, its tag is at the manifest's commit
    and it was built by another run, whose evidence holds the manifest. *)
Definition candidate_accepted (rc : pystr) (current : Z) (l : list event) (a : accepted_rc) : Prop :=
  validate (acc_raw a) rc false = Ok (acc_manifest a)
  ∧ str_value (get_key "source_sha" (acc_manifest a)) = acc_sha a
  ∧ (∃ object, get_key "object" (snap_ref (acc_initial a)) = VDict object ∧ get_key "sha" object = VStr (acc_sha a))
  ∧ py_eq (get_key "run_id" (acc_manifest a)) (VInt current) = false
  ∧ evident l a ∧ snapshot_read rc l a
  ∧ NoDup (asset_name <$> snap_assets (acc_initial a))
  ∧ ∃ assets expected, iterate (get_key "assets" (acc_manifest a)) = Ok assets ∧ asset_index assets [] = Ok expected
      ∧ same_keys (asset_name <$> snap_assets (acc_initial a)) (dict_keys expected ++ [MANIFEST]) = true.

Lemma evident_more l k a : evident l a → evident (l ++ k) a.
Proof.
  intros (artifact & id & archive & entries & entry & (before & after & artifacts & run & sha & ? & ?) & ? & ? & ?).
  exists artifact, id, archive, entries, entry. split; [|split; [done|split; [by apply answered_more|done]]].
  exists before, after, artifacts, run, sha. split; [by apply prefix_app_r|done].
Qed.

Lemma snapshot_read_more rc l k a : snapshot_read rc l a → snapshot_read rc (l ++ k) a.
Proof. intros (before & after & ? & ?). exists before, after. split; [by apply prefix_app_r|done]. Qed.

Lemma evidence_artifact_ok manifest artifacts artifact :
  evidence_artifact manifest artifacts = Ok artifact →
  ∃ id sha, VDict artifact ∈ artifacts ∧ get_key "name" artifact = VStr (&"release-evidence") ∧ truthy (get_key "expired" artifact) = false
    ∧ nested_get "workflow_run" "id" artifact = Ok id ∧ py_eq id (get_key "run_id" manifest) = true
    ∧ nested_get "workflow_run" "head_sha" artifact = Ok sha ∧ py_eq sha (get_key "source_sha" manifest) = true.
Proof.
  unfold evidence_artifact. intros (matching & Hm & Ha)%bind_ok. apply bind_ok in Ha as ([] & Hlen%release_require_ok%bool_decide_eq_true & Ha).
  destruct matching as [|v []]; try discriminate Hlen. apply bind_ok in Ha as (d & Hd & Ha). cbn in Hd.
  apply bind_ok in Ha as (ok & Hok & Ha). apply bind_ok in Ha as ([] & ->%release_require_ok & [= ->]).
  destruct v as [| | | | | | |d']; try discriminate Hd. injection Hd as ->.
  destruct (select_elem _ _ _ (VDict artifact) Hm) as [Hin Hsel]; [by left|]. cbn [as_dict mbind outcome_bind] in Hsel. injection Hsel as Hsel.
  apply andb_true_iff in Hsel as [Hname%text_is_iff Hexp%negb_true_iff]. apply o_and_true in Hok as [Hid Hsha].
  apply bind_ok in Hid as (id & Hid & (run & <-%item_key & [= Hrun])%bind_ok). apply bind_ok in Hsha as (sha & Hsha & (source & <-%item_key & [= Hs])%bind_ok).
  by exists id, sha.
Qed.

Lemma verify_evidence_ok a l l' :
  verify_evidence sha256_hex open_zip (acc_manifest a) (acc_raw a) l = (l', Ok tt) → evident l' a.
Proof.
  unfold verify_evidence. intros He. apply bind_M_ok in He as (? & run & [-> Hrun]%lift_M_ok & He).
  apply item_key in Hrun. apply bind_M_ok in He as (l1 & artifacts & Hpages & He).
  apply bind_M_ok in He as (? & artifact & [-> (run' & sha & Ha)%evidence_artifact_ok]%lift_M_ok & He).
  apply bind_M_ok in He as (? & id & [-> Hid]%lift_M_ok & He). apply bind_M_ok in He as (l2 & archive & Har & He).
  apply lift_M_ok in He as [-> He]. apply bind_ok in He as ([] & Hd%release_require_ok%text_is_iff & He).
  unfold check_evidence_archive, catch in He. destruct (_ ≫= _) as [[]|e] eqn:Ez in He; [|by destruct (is_archive_error _)].
  apply bind_ok in Ez as (entries & Hz & Ez). destruct (filter _ entries) as [|entry []] eqn:Ef; [done| |done].
  apply bind_ok in Ez as (? & _ & Ez). apply bind_ok in Ez as (? & _ & Ez). apply bind_ok in Ez as (content & Hread & Ez%release_require_ok%bool_decide_eq_true).
  subst content. injection Har as <- Har. exists artifact, id, archive, entries, entry.
  split; [|split; [done|split; [by exists l1|done]]]. exists l, l1, artifacts, run', sha. rewrite Hrun in Ha |- *.
  split; [by eexists|]. by split.
Qed.

Lemma snapshot_names_ok tag (l l' : list event) snap : release_snapshot casefold tag l = (l', Ok snap) → NoDup (asset_name <$> snap_assets snap).
Proof.
  unfold release_snapshot. intros Hs. inv_M. unfold complete_assets in *. inv_bind. cbn [snap_assets].
  match goal with Hn : release_require _ "Duplicate release assets" = _ |- _ => apply release_require_ok, bool_decide_eq_true in Hn; rename Hn into Hnd end.
  rewrite <-!list_fmap_compose in Hnd. apply (NoDup_fmap_1 casefold). by rewrite <-list_fmap_compose.
Qed.

Lemma read_manifest_ok rc initial (l l' : list event) raw manifest :
  read_manifest casefold unicode_digit float_repr sha256_hex repo rc initial l = (l', Ok (raw, manifest)) →
  validate raw rc false = Ok manifest.
Proof.
  unfold read_manifest. destruct (filter _ _) as [|asset []]; [done| |done]. intros Hr. inv_M.
  match goal with Hp : (_, _) = (_, _) |- _ => by injection Hp as -> -> end.
Qed.

Lemma accept_candidate_ok rc current info l l' a : accept rc current info l = (l', Ok a) → candidate_accepted rc current l' a.
Proof.
  unfold accept_candidate. intros Ha. apply bind_M_ok in Ha as (l1 & initial & Hread & Ha). pose proof (snapshot_names_ok _ _ _ _ Hread) as Hi.
  assert (l1 `prefix_of` l') as Hpre by (eapply reads_prefix; [|exact Ha]; solve_reads).
  apply bind_M_ok in Ha as (l2 & [raw manifest] & Hm%read_manifest_ok & Ha). apply bind_M_ok in Ha as (? & source & [-> <-%item_key]%lift_M_ok & Ha).
  apply bind_M_ok in Ha as (l3 & [source_policy policy] & _ & Ha). set (a' := Accepted _ _ _ _ _) in Ha.
  apply bind_M_ok in Ha as (l4 & ? & _ & Ha). apply bind_M_ok in Ha as (? & [] & [-> Hc]%lift_M_ok & Ha).
  apply bind_M_ok in Ha as (l5 & ? & _ & Ha). apply bind_M_ok in Ha as (? & ? & [-> _]%lift_M_ok & Ha).
  apply bind_M_ok in Ha as (? & ? & [-> _]%lift_M_ok & Ha). apply bind_M_ok in Ha as (l6 & ? & _ & Ha).
  apply bind_M_ok in Ha as (l7 & [] & He & Ha). apply (verify_evidence_ok a') in He.
  apply bind_M_ok in Ha as (? & tag & [-> _]%lift_M_ok & Ha). apply bind_M_ok in Ha as (l8 & [] & (k1 & -> & _)%reads_ensure_absent & Ha).
  apply bind_M_ok in Ha as (? & [] & [-> Hinv]%lift_M_ok & Ha). apply bind_M_ok in Ha as (l9 & [] & (k2 & -> & _)%reads_workflow & Ha).
  apply mret_M_ok in Ha as [-> <-]. unfold check_manifest_source in Hc. unfold check_inventory in Hinv. inv_bind. unfold candidate_accepted.
  repeat match goal with Hr : release_require _ _ = Ok _ |- _ => apply release_require_ok in Hr | Hr : item _ _ = Ok _ |- _ => apply item_key in Hr end.
  boolprop. subst. split_and!; try done.
  - match goal with Hd : as_dict (get_key "object" _) = Ok ?d |- _ => exists d; destruct (get_key "object" _); try done; injection Hd as -> end.
    split; [done|]. by apply text_is_iff.
  - by do 2 apply evident_more.
  - by exists l, l1.
  - do 2 eexists. by split_and!.
Qed.

Lemma reads_check_unchanged rc a : reads_only (check_unchanged casefold float_repr rc a).
Proof. unfold check_unchanged. solve_reads. Qed.

Lemma check_unchanged_ok rc a l l' (P : list event → Prop) :
  check_unchanged casefold float_repr rc a l = (l', Ok tt) → snapshot_read rc l a → P l → unchanged rc l' a P.
Proof.
  unfold check_unchanged. intros Hc Hread HP. apply bind_M_ok in Hc as (l1 & again & Hs & Hc). apply lift_M_ok in Hc as [-> Hc].
  apply bind_ok in Hc as (now & Hn & Hc). apply bind_ok in Hc as (before & Hb & Hc%release_require_ok%bool_decide_eq_true). subst now.
  by exists l, l1, again, before.
Qed.

Lemma unchanged_more rc l k a P : unchanged rc l a P → unchanged rc (l ++ k) a P.
Proof. intros (before & after & again & b & ? & ? & ? & ?). exists before, after, again, b. split; [done|split; [done|split; [by apply prefix_app_r|done]]]. Qed.

Lemma unchanged_impl rc l a (P Q : list event → Prop) : (∀ l, P l → Q l) → unchanged rc l a P → unchanged rc l a Q.
Proof. intros HPQ (before & after & again & b & ? & ? & ? & ?). exists before, after, again, b. split; [done|split; [by apply HPQ|done]]. Qed.

Lemma candidate_accepted_more rc current l k a : candidate_accepted rc current l a → candidate_accepted rc current (l ++ k) a.
Proof. intros (? & ? & ? & ? & ? & ? & ? & ?). split_and!; try done; [by apply evident_more|by apply snapshot_read_more]. Qed.

(** The files that were staged for an accepted candidate. *)
Definition candidate_staged (l : list event) (a : accepted_rc) (files : list file_entry) : Prop :=
  entry_name <$> files = asset_name <$> snap_assets (acc_initial a)
  ∧ ∃ assets expected, iterate (get_key "assets" (acc_manifest a)) = Ok assets ∧ asset_index assets [] = Ok expected
      ∧ ∀ f, f ∈ files → staged_as (acc_raw a) expected l f.

Lemma staged_as_more raw expected l k f : staged_as raw expected l f → staged_as raw expected (l ++ k) f.
Proof. intros [?|(? & (id & Ha) & ?)]; [by left|right]. split; [done|]. split; [|done]. exists id. by apply answered_more. Qed.

Lemma candidate_staged_more l k a files : candidate_staged l a files → candidate_staged (l ++ k) a files.
Proof.
  intros (Hn & assets & expected & ? & ? & Hf). split; [done|]. exists assets, expected. split_and!; try done.
  intros f ?. by apply staged_as_more, Hf.
Qed.

Lemma verify_candidate_ok signatures temporary rc run_id l l' current a tag directory body :
  verify signatures temporary rc run_id l = (l', Ok (current, a, tag, directory, body)) →
  positive run_id "Invalid run ID" = Ok current ∧ stable_tag py_text a = Ok tag
  ∧ candidate_accepted rc current l' a ∧ unchanged rc l' a (λ l, candidate_staged l a (stage_files directory))
  ∧ candidate_staged l' a (stage_files directory).
Proof.
  unfold verify_candidate. intros Hv. apply bind_M_ok in Hv as (l1 & [current' info] & Had & Hv).
  apply bind_M_ok in Hv as (l2 & a' & Ha%accept_candidate_ok & Hv). apply bind_M_ok in Hv as (? & tag' & [-> Ht]%lift_M_ok & Hv).
  apply bind_M_ok in Hv as (? & expected & [-> He]%lift_M_ok & Hv). apply bind_M_ok in Hv as (l3 & files & Hs & Hv).
  pose proof (reads_stage _ _ _ _ _ _ Hs) as (k1 & -> & _). apply stage_candidate_ok in Hs as [Hn Hf].
  apply bind_M_ok in Hv as (l4 & [] & Hu & Hv). pose proof (reads_check_unchanged _ _ _ _ _ Hu) as (k2 & -> & _). 
  assert (candidate_staged (l2 ++ k1) a' files) as Hstaged.
  { split; [done|]. apply bind_ok in He as (v & <-%item_key & He). apply bind_ok in He as (assets & ? & He). exists assets, expected. by split_and!. }
  apply (check_unchanged_ok _ _ _ _ (λ l, candidate_staged l a' files)) in Hu; [|by apply snapshot_read_more; destruct Ha as (_ & _ & _ & _ & _ & ? & _)|done].
  assert (∃ k3, l' = ((l2 ++ k1) ++ k2) ++ k3 ∧ (current', a', tag', files) = (current, a, tag, stage_files directory)) as (k3 & -> & [= -> -> -> ->]).
  { assert (reads_only (recheck_candidate repo scope_verified a' info)) as Hr by (unfold recheck_candidate; solve_reads).
    apply bind_M_ok in Hv as (? & [] & [-> _]%lift_M_ok & Hv). apply bind_M_ok in Hv as (l5 & ? & (k3 & -> & _)%Hr & Hv).
    apply bind_M_ok in Hv as (? & prov & [-> _]%lift_M_ok & Hv). apply bind_M_ok in Hv as (l6 & b & (k4 & -> & _)%reads_notes & Hv).
    apply bind_M_ok in Hv as (l7 & ? & (k5 & -> & _)%reads_order & [-> [= -> -> -> <- _]]%mret_M_ok). exists (k3 ++ k4 ++ k5). by rewrite <-!app_assoc. }
  split_and!; try done.
  - unfold admit_promotion in Had. inv_M. by match goal with Hp : (_, _) = (_, _) |- _ => injection Hp as -> -> end.
  - by do 3 apply candidate_accepted_more.
  - by apply unchanged_more.
  - by do 2 apply candidate_staged_more.
Qed.

(** ** The promotion *)

(** A file of the stable release: the manifest of the candidate, or bytes that were
    downloaded and have the size and the digest that the manifest records. *)
Definition promoted_file (l : list event) (a : accepted_rc) (assets : list pyval) (f : file_entry) : Prop :=
  (entry_name f = MANIFEST ∧ contents f = acc_raw a) ∨
  ((∃ id, answered l (Downloaded (&"releases/assets/" ++ str_of_int id)) (contents f))
   ∧ ∃ e, VDict e ∈ assets ∧ get_key "name" e = VStr (entry_name f)
       ∧ get_key "size" e = VInt (Z.of_nat (length (contents f))) ∧ get_key "sha256" e = VStr (sha256_hex (contents f))).

(** A candidate that was verified: an acceptable manifest that the evidence of
    another run holds, a tag at the manifest's commit, a release that did not
    change while it was read, and its files. *)
Definition promotion_verified (rc : pystr) (current : Z) (l : list event) (a : accepted_rc) (tag : pystr) (files : list file_entry) : Prop :=
  ∃ base assets,
    parse_json (acc_raw a) = Ok (VDict (acc_manifest a)) ∧ promotable casefold repo rc (acc_manifest a)
    ∧ get_key "source_sha" (acc_manifest a) = VStr (acc_sha a)
    ∧ get_key "version" (acc_manifest a) = VStr base ∧ tag = &"v" ++ base
    ∧ get_key "assets" (acc_manifest a) = VList assets
    ∧ (∃ object, get_key "object" (snap_ref (acc_initial a)) = VDict object ∧ get_key "sha" object = VStr (acc_sha a))
    ∧ py_eq (get_key "run_id" (acc_manifest a)) (VInt current) = false
    ∧ evident l a ∧ unchanged rc l a (λ l, ∀ f, f ∈ files → promoted_file l a assets f)
    ∧ NoDup (entry_name <$> files) ∧ (∀ f, f ∈ files → promoted_file l a assets f)
    ∧ MANIFEST ∈ entry_name <$> files ∧ ∀ e name, VDict e ∈ assets → get_key "name" e = VStr name → name ∈ entry_name <$> files.

Lemma promoted_files l a assets expected (files : list file_entry) :
  asset_index assets [] = Ok expected → Forall (λ v, ∃ d, v = VDict d ∧ asset_ok casefold d) assets →
  (∀ f, f ∈ files → staged_as (acc_raw a) expected l f) → ∀ f, f ∈ files → promoted_file l a assets f.
Proof.
  intros Hi Hok Hf f [?|(Hm & Hd & e & He & Hsize & Hsha)]%Hf; [by left|right]. split; [done|].
  destruct (asset_index_get _ _ _ (entry_name f) Hi) as (Hget & _ & _). apply Hget in He as [|[Hin Hname]]; [done|].
  exists e. split_and!; try done. rewrite Forall_forall in Hok. destruct (Hok _ Hin) as (d & [= <-] & name & size & sha & _ & Hs & _).
  rewrite Hs in Hsize |- *. apply Qeq_bool_iff in Hsize. unfold Qeq in Hsize. cbn in Hsize. f_equal. lia.
Qed.

Lemma same_keys_in l k name : same_keys l k = true → name ∈ k → name ∈ l.
Proof.
  unfold same_keys. rewrite andb_true_iff, !forallb_forall. intros [_ Hk] Hin. apply list_elem_of_In, Hk in Hin. by apply bool_decide_eq_true in Hin.
Qed.

Lemma verified_candidate rc current l a tag files :
  stable_tag py_text a = Ok tag → candidate_accepted rc current l a →
  unchanged rc l a (λ l, candidate_staged l a files) → candidate_staged l a files →
  promotion_verified rc current l a tag files.
Proof.
  intros Ht (Hm & Hsha & Hobj & Hrun & Hev & _ & Hnd & assets & expected & Hit & Hidx & Hkeys) Hu (Hn & assets' & expected' & Hit' & Hidx' & Hf).
  apply validate_manifest_ok in Hm as [Hparse Hprom]. destruct Hprom as (base & sha & policy & items & Hp). pose proof Hp as Hp'. revert Hp'.
  intros (_ & Hver & _ & _ & _ & _ & Hsrc & _ & _ & _ & _ & _ & Has & _ & Hok & _). rewrite Hsrc in Hsha. cbn [str_value] in Hsha. subst sha.
  rewrite Has in Hit, Hit'. injection Hit as <-. injection Hit' as <-. rewrite Hidx in Hidx'. injection Hidx' as <-.
  unfold stable_tag in Ht. apply bind_ok in Ht as (v & <-%item_key & [= Ht]). rewrite Hver in Ht. cbn [value_text] in Ht.
  exists base, items. split_and!; try done.
  - by exists base, (acc_sha a), policy, items.
  - eapply unchanged_impl; [|exact Hu]. intros l0 (_ & assets' & expected' & Hit & Hidx' & Hf').
    rewrite Has in Hit. injection Hit as <-. by eapply promoted_files.
  - by rewrite Hn.
  - by eapply promoted_files.
  - rewrite Hn. eapply same_keys_in; [done|]. apply elem_of_app. right. by left.
  - intros e name He Hname. rewrite Hn. eapply same_keys_in; [done|]. apply elem_of_app. left.
    destruct (asset_index_get _ _ _ name Hidx) as (_ & Hkey & _). by apply (Hkey (VDict e)).
Qed.

(** The ledger's part of the writes: at most one, to the ledger. *)
Definition ledger_write (k : list event) : Prop := writes k = [] ∨ ∃ body, writes k = [Asked WRITE_PATH (&"PUT") (Some body) JsonMode].

Lemma reads_published : reads_only published_tags.
Proof. unfold published_tags. solve_reads. Qed.

Lemma reads_reserved state plan run_id parent : reads_only (verify_reservation_in float_repr sha256_hex state plan run_id parent).
Proof. unfold verify_reservation_in. pose proof reads_published. solve_reads. Qed.

Lemma write_state_trace state previous (l l' : list event) r :
  write_state float_repr state previous l = (l', r) → l' = l ∨ ∃ body, l' = l ++ [Asked WRITE_PATH (&"PUT") (Some body) JsonMode].
Proof.
  unfold write_state. intros [(e & [= <- _] & _)|(? & raw & [-> _]%lift_M_ok & Hw)]%bind_trace; [by left|right].
  apply bind_trace in Hw as [(e & ->%api_trace & _)|(l1 & v & ->%api_trace & [= <- _])]; by eexists.
Qed.

Lemma begin_publication_writes plan run_id parent (promotion : bool) l l' r :
  begin_publication float_repr sha256_hex plan run_id parent (VBool promotion) l = (l', r) → ∃ k, l' = l ++ k ∧ ledger_write k.
Proof.
  unfold begin_publication. intros Hb.
  apply bind_trace in Hb as [(e & (k & -> & ?)%reads_lift & _)|(? & ? & [-> _]%lift_M_ok & Hb)]; [exists k; by split; [|left]|].
  apply bind_trace in Hb as [(e & (k & -> & ?)%reads_lift & _)|(? & ? & [-> _]%lift_M_ok & Hb)]; [exists k; by split; [|left]|].
  apply bind_trace in Hb as [(e & (k & -> & ?)%reads_state & _)|(l1 & [state previous] & (k & -> & Hk)%reads_state & Hb)]; [exists k; by split; [|left]|].
  cbn [truthy] in Hb. assert (reads_only (if promotion then verify_promotion_order_in float_repr sha256_hex state plan
                                           else verify_reservation_in float_repr sha256_hex state plan run_id parent)) as Hverify.
  { destruct promotion; [apply reads_order_in|apply reads_reserved]. }
  apply bind_trace in Hb as [(e & (k' & -> & Hk')%Hverify & _)|(l2 & [] & (k' & -> & Hk')%Hverify & Hb)].
  { exists (k ++ k'). rewrite app_assoc. split; [done|]. left. by rewrite writes_app, Hk, Hk'. }
  apply bind_trace in Hb as [(e & (k2 & -> & Hk2)%reads_lift & _)|(? & number & [-> _]%lift_M_ok & Hb)].
  { exists (k ++ k' ++ k2). rewrite !app_assoc. split; [done|]. left. by rewrite !writes_app, Hk, Hk', Hk2. }
  cbv zeta in Hb. pose proof write_state_trace as Hwrite.
  assert (l' = ((l ++ k) ++ k') ∨ ∃ body, l' = ((l ++ k) ++ k') ++ [Asked WRITE_PATH (&"PUT") (Some body) JsonMode]) as Hl'.
  { apply bind_trace in Hb as [(e & Hw & _)|(l3 & [] & Hw & [= <- _])]; by apply Hwrite in Hw. }
  destruct Hl' as [->|[body ->]]; [exists (k ++ k')|exists (k ++ k' ++ [Asked WRITE_PATH (&"PUT") (Some body) JsonMode])]; (split; [by rewrite <-!app_assoc|]);
    [left; by rewrite writes_app, Hk, Hk'|right; exists body; by rewrite !writes_app, Hk, Hk'].
Qed.

Lemma publish_candidate_trace signatures current a tag directory body l l' r :
  NoDup (entry_name <$> stage_files directory) →
  publish_candidate casefold float_repr sha256_hex repo scope_verified signatures current a tag directory body l = (l', r) →
  ∃ k, ledger_write k ∧ publication_log reply sha256_hex tag (acc_sha a) body directory false (l ++ k) l' (is_ok r).
Proof.
  unfold publish_candidate. intros Hnd Hp.
  assert (∀ l, publication_log reply sha256_hex tag (acc_sha a) body directory false l l false) as Hnothing.
  { intros k. rewrite <-(app_nil_r k) at 2. apply (stopped _ _ _ _ _ _ _ 0). apply prefix_nil. }
  assert (∃ k l1, l1 = l ++ k ∧ ledger_write k ∧ (l' = l1 ∧ is_ok r = false
    ∨ publish_prepared casefold sha256_hex repo scope_verified signatures create_draft (mret tt) tag (acc_sha a) directory false body l1 = (l', r)))
    as (k & l1 & -> & Hk & Hend).
  { destruct (has_plan a).
    - apply bind_trace in Hp as [(e & Hp & ->)|(l1 & [] & Hp & Hpub)].
      + apply bind_trace in Hp as [(e' & (k & -> & Hk)%reads_lift & _)|(? & plan & [-> _]%lift_M_ok & Hp)]; [by exists k; eexists; split_and!; [done|left|left]|].
        apply bind_trace in Hp as [(e' & (k & -> & Hk)%begin_publication_writes & _)|(l2 & b & _ & [=])]. exists k; eexists; split_and!; [done|done|by left].
      + apply bind_M_ok in Hp as (? & plan & [-> _]%lift_M_ok & Hp). apply bind_M_ok in Hp as (l2 & b & (k & -> & Hk)%begin_publication_writes & [-> _]%mret_M_ok).
        exists k; eexists; split_and!; [done|done|by right].
    - exists [], l. rewrite app_nil_r. split_and!; [done|by left|right]. exact Hp. }
  exists k. split; [done|]. destruct Hend as [[-> ->]|Hend]; [apply Hnothing|]. eapply publication_logged; [done|apply create_draft_once|apply reads_ret|exact Hend].
Qed.

(** C4: However the servers and the process answer, a promotion either stops without
    a write or first verified the candidate: the evidence of the run that built it
    lists unexpired evidence of its commit whose archive, of the listed digest, holds its
    manifest, its tag is at the manifest's commit, its release was read again after
    every download and had not changed, and the files it stages are that manifest and,
    for each asset in it, downloaded bytes of the recorded size and digest.  After
    that it writes at most the ledger once and then the publication of these files,
    at that commit, under the stable tag of the manifest's version. *)
Theorem promotion_publishes_verified_bytes signatures temporary rc run_id l l' r :
  promote casefold unicode_digit float_repr py_text sha1_hex sha256_hex open_zip repo scope_verified signatures temporary rc run_id l = (l', r) →
  (is_ok r = false ∧ ∃ k, l' = l ++ k ∧ writes k = [])
  ∨ ∃ k j current a tag directory body,
      writes k = [] ∧ positive run_id "Invalid run ID" = Ok current ∧ promotion_verified rc current (l ++ k) a tag (stage_files directory)
      ∧ ledger_write j ∧ publication_log reply sha256_hex tag (acc_sha a) body directory false ((l ++ k) ++ j) l' (is_ok r).
Proof.
  unfold promote. intros [(e & Hv & ->)|(l1 & [[[[current a] tag] directory] body] & Hv & Hp)]%bind_trace.
  { left. split; [done|]. by apply reads_verify in Hv. }
  right. pose proof Hv as (Hcurrent & Ht & Ha & Hu & Hs)%verify_candidate_ok. apply reads_verify in Hv as (k & -> & Hk).
  pose proof (verified_candidate _ _ _ _ _ _ Ht Ha Hu Hs) as Hver. pose proof Hver as (? & ? & _ & _ & _ & _ & _ & _ & _ & _ & _ & _ & Hnd & _).
  assert (∃ r' : outcome pyobject, publish_candidate casefold float_repr sha256_hex repo scope_verified signatures current a tag directory body (l ++ k) = (l', r')
    ∧ (is_ok r = true → is_ok r' = true)) as (r' & Hpub & Hr).
  { apply bind_trace in Hp as [(e & Hp & ->)|(l2 & release & Hp & [= <- _])]; eauto. }
  apply publish_candidate_trace in Hpub as (j & Hj & Hlog); [|done]. exists k, j, current, a, tag, directory, body. split_and!; try done.
  destruct Hlog as (id & k' & ? & ? & ? & Hok). exists id, k'. split_and!; try done. auto.
Qed.
End promoted.

(** ** A concrete promotion

    A server that holds one release candidate, with the run that built it and its
    evidence: its promotion succeeds, and a promotion whose download is not what
    the manifest records writes nothing. *)

#[local] Existing Instance ascii_case.

Definition rc_tag : pystr := &"v1.2.3-rc.4".
Definition rc_sha : pystr := demo_sha1 [].
Definition stable_sha : pystr := replicate 40 (chr "d").
Definition rc_contents : list (pystr * bytes) := [(&"A.tar.gz", []); (&"b.whl", [Byte.x00]); (MANIFEST, demo_raw)].

Definition json (v : pyval) : outcome bytes := json_bytes demo_no_floats v.
Definition missing : outcome bytes := Raise (Exn (EGitHub (Some 404)) "").
Definition object_of (type : string) (sha : pystr) : pyval := VDict [(&"type", VStr (lit type)); (&"sha", VStr sha)].

(** The assets of a release; their identifiers count from [first]. *)
Fixpoint assets_from (first : Z) (l : list (pystr * bytes)) : list pyval :=
  match l with
  | [] => []
  | (name, b) :: l => VDict [(&"name", VStr name); (&"id", VInt first); (&"state", VStr (&"uploaded")); (&"size", VInt (Z.of_nat (length b)))]
                      :: assets_from (first + 1) l
  end.

Definition actions_run (id : Z) (sha status : pystr) (conclusion : pyval) : pyval :=
  let repository := VDict [(&"full_name", VStr (&"o/r"))] in
  VDict [(&"id", VInt id); (&"run_attempt", VInt 1); (&"repository", repository); (&"head_repository", repository); (&"head_sha", VStr sha);
         (&"path", VStr WORKFLOW_PATH); (&"head_branch", VStr (&"main")); (&"event", VStr (&"workflow_dispatch"));
         (&"status", VStr status); (&"conclusion", conclusion)].

Definition policy_bytes : bytes := match json (VDict demo_policy) with Ok b => b | Raise _ => [] end.
Definition policy_file : pyval :=
  VDict [(&"type", VStr (&"file")); (&"path", VStr POLICY); (&"encoding", VStr (&"base64")); (&"content", VStr (b64encode policy_bytes));
         (&"size", VInt (Z.of_nat (length policy_bytes))); (&"sha", VStr (demo_sha1 []))].

(** What can be read before and after the tag was created. *)
Definition read_reply (tagged : bool) (path : pystr) : outcome bytes :=
  if bool_decide (path = []) then json (VDict [(&"full_name", VStr (&"o/r")); (&"default_branch", VStr (&"main"))])
  else if bool_decide (path = &"actions/runs/9") then json (actions_run 9 stable_sha (&"in_progress") VNone)
  else if bool_decide (path = &"actions/runs/7") then json (actions_run 7 rc_sha (&"completed") (VStr (&"success")))
  else if bool_decide (path = &"environments/release") then
    json (VDict [(&"name", VStr (&"release"));
                 (&"protection_rules", VList [VDict [(&"type", VStr (&"required_reviewers")); (&"reviewers", VList [VDict [(&"id", VInt 1)]])]])])
  else if bool_decide (path = &"git/ref/tags/" ++ rc_tag) then
    json (VDict [(&"ref", VStr (&"refs/tags/" ++ rc_tag)); (&"object", object_of "commit" rc_sha)])
  else if bool_decide (path = &"releases/tags/" ++ rc_tag) then
    json (VDict [(&"id", VInt 3); (&"tag_name", VStr rc_tag); (&"draft", VBool false); (&"prerelease", VBool true);
                 (&"html_url", VStr (&"https://github.com/o/r/releases/tag/" ++ rc_tag))])
  else if startswith (&"contents/" ++ POLICY) path then json policy_file
  else if startswith (&"compare/") path then
    json (VDict [(&"status", VStr (&"ahead")); (&"merge_base_commit", VDict [(&"sha", VStr rc_sha)])])
  else if tagged && bool_decide (path = &"git/ref/tags/v1.2.3") then
    json (VDict [(&"ref", VStr (&"refs/tags/v1.2.3")); (&"object", object_of "commit" rc_sha)])
  else missing.

Definition pages_reply (path : pystr) : outcome bytes :=
  if bool_decide (path = &"releases/3/assets") then json (VList [VList (assets_from 20 rc_contents)])
  else if bool_decide (path = &"releases/5/assets") then json (VList [VList (assets_from 20 rc_contents)])
  else if bool_decide (path = jobs_path 7 (VInt 1)) then
    json (VList [VDict [(&"jobs", VList [VDict [(&"name", VStr (&"Release gate")); (&"head_sha", VStr rc_sha); (&"status", VStr (&"completed"));
                                                  (&"conclusion", VStr (&"success"))]])]])
  else if bool_decide (path = &"actions/runs/7/artifacts") then
    json (VList [VDict [(&"artifacts", VList [VDict [(&"name", VStr (&"release-evidence")); (&"expired", VBool false); (&"id", VInt 30);
                                                       (&"digest", VStr (&"sha256:" ++ demo_sha256 []));
                                                       (&"workflow_run", VDict [(&"id", VInt 7); (&"head_sha", VStr rc_sha)])]])]])
  else json (VList []).

Definition write_reply (path method : pystr) : outcome bytes :=
  if bool_decide (method = &"PATCH") then
    json (VDict [(&"draft", VBool false); (&"tag_name", VStr (&"v1.2.3")); (&"prerelease", VBool false); (&"html_url", VStr (&"https://github.com/o/r"))])
  else if bool_decide (path = &"git/refs") then json (VDict [])
  else json (VDict [(&"id", VInt 5); (&"draft", VBool true); (&"tag_name", VStr (&"v1.2.3"))]).

(** The server: the bytes of the asset 21 are intact, or longer than recorded. *)
Definition promotion_reply (intact : bool) (l : list event) : outcome bytes :=
  match last l with
  | Some (Asked path method _ mode) =>
    if bool_decide (mode = PagesMode) then pages_reply path
    else if bool_decide (method = &"GET") then read_reply (negb (bool_decide (writes l = []))) path
    else write_reply path method
  | Some (Fetched path) => Ok (if bool_decide (path = &"releases/assets/22") then demo_raw else [])
  | Some (Downloaded path) =>
    Ok (if bool_decide (path = &"releases/assets/20") then [] else if bool_decide (path = &"releases/assets/22") then demo_raw
        else if intact then [Byte.x00] else [Byte.x00; Byte.x01])
  | _ => Ok []
  end.

Definition promotion_process : process := {|
  p_environ := [(&"GITHUB_ACTIONS", &"true"); (&"GITHUB_REPOSITORY", &"O/R"); (&"GITHUB_RUN_ID", &"9"); (&"GITHUB_RUN_ATTEMPT", &"1");
                (&"GITHUB_REF", &"refs/heads/main"); (&"GITHUB_WORKFLOW_REF", &"o/r/" ++ WORKFLOW_PATH ++ &"@refs/heads/main");
                (&"GITHUB_EVENT_NAME", &"workflow_dispatch"); (&"GITHUB_EVENT_PATH", &"event.json")];
  p_file _ _ := json (VDict [(&"inputs", VDict [(&"channel", VStr (&"stable"))])]);
  p_head _ := Ok (0, stable_sha ++ [10%N]);
  p_clock l := Ok (inject_Z (Z.of_nat (length l)));
|}.

(** The evidence archive: its one file is the manifest. *)
Definition demo_zip (_ : bytes) : outcome (list zip_entry) := Ok [ZipEntry MANIFEST false 100 (Ok demo_raw)].

Definition demo_promotion (intact : bool) : list event * outcome pyobject :=
  @promote _ _ (recorded_github (promotion_reply intact)) (recorded_host promotion_process) (recorded_assets (promotion_reply intact))
    demo_fold is_digit demo_no_floats (λ _, []) demo_sha1 demo_sha256 demo_zip (&"O/R") true (Ok tt) (&"/tmp/release-promote-1") rc_tag (VStr (&"9")) [].

Lemma promotion_publishes_verified_bytes_witness :
  is_ok (snd (demo_promotion true)) = true ∧ is_ok (snd (demo_promotion false)) = false ∧ length (writes (fst (demo_promotion false))) = 0%nat
  ∧ ∃ k j a tag directory body,
      writes k = [] ∧ ledger_write j
      ∧ promotion_verified (promotion_reply true) demo_fold demo_no_floats demo_sha256 demo_zip (&"O/R") rc_tag 9 k a tag (stage_files directory)
      ∧ publication_log (promotion_reply true) demo_sha256 tag (acc_sha a) body directory false (k ++ j) (fst (demo_promotion true)) true.
Proof.
  assert (is_ok (snd (demo_promotion true)) = true) as Hok by (vm_compute; reflexivity).
  split; [exact Hok|]. split; [vm_compute; reflexivity|]. split; [vm_compute; reflexivity|].
  destruct (promotion_publishes_verified_bytes (promotion_reply true) promotion_process demo_fold is_digit demo_no_floats (λ _, []) demo_sha1 demo_sha256
              demo_zip (&"O/R") true (Ok tt) (&"/tmp/release-promote-1") rc_tag (VStr (&"9")) [] (fst (demo_promotion true)) (snd (demo_promotion true)))
    as [[Hno _]|(k & j & current & a & tag & directory & body & Hk & Hc & Hver & Hj & Hlog)].
  - unfold demo_promotion. by destruct (promote _ _ _ _ _ _ _ _ _ _ _ _ _ _).
  - by rewrite Hok in Hno.
  - injection Hc as <-. rewrite Hok in Hlog. exists k, j, a, tag, directory, body. by split_and!.
Defined.
