(* ===== verification/VersionReceipt.v ===== *)
(** * Build receipts ([scripts/version_receipt.py])

    A platform build writes one receipt for its packages: the frozen plan, the
    version inputs, the toolchain, the producing run and the identity of every
    payload.  The publisher accepts a set of receipts only when together they cover
    the staged payloads exactly.  The processes that report the toolchain and the
    verification of detached provenance are arguments. *)

From Stdlib Require Import QArith.QArith Strings.Byte.
From S2P Require Import Prelude PyStr PyDict PyRegex PyVal PyJson VersionPlan JsonDocument Release ReleaseValidation OciMetadata Fuzz Transport ReleaseManifest.
#[local] Open Scope Z_scope.
#[local] Open Scope regex_scope.

Definition DETACHED_PROVENANCE_REQUIRED : bool := false.
Definition MAX_RECEIPT_BYTES : Z := 2000000.

(** ** The producing run *)

Definition repository_re : regex :=
  let part := plus (Char (λ c, ascii_alnum c || one_of "_.-" c)) in part ⋅ chars (&"/") ⋅ part.

(** [producer_identity] *)
Definition producer_identity (repository run_id run_attempt source_sha : pyval) : outcome pyobject :=
  _ ← check (str_match repository_re repository
             && forallb (λ part, negb (bool_decide (part ∈ [&"."; &".."]))) (split (chr "/") (str_value repository))
             && positive_int run_id && positive_int run_attempt && str_match SHA source_sha)
        (value_error_of "Invalid package producer identity");
  Ok [(&"repository", repository); (&"run_id", run_id); (&"run_attempt", run_attempt); (&"source_sha", source_sha)].

(** [current_producer] of an environment *)
Definition current_producer (environ : pydict pystr pystr) (source_sha : pyval) : outcome (option pyobject) :=
  let env name := default [] (dict_get (lit name) environ) in
  if negb (bool_decide (dict_get (&"GITHUB_ACTIONS") environ = Some (&"true"))) then Ok None
  else
    let values := [env "GITHUB_RUN_ID"; env "GITHUB_RUN_ATTEMPT"] in
    _ ← check (forallb (λ v, fullmatch positive_numeral v) values) (value_error_of "Missing or invalid Actions package producer identity");
    p ← producer_identity (VStr (env "GITHUB_REPOSITORY")) (VInt (int_of_digits (env "GITHUB_RUN_ID")))
          (VInt (int_of_digits (env "GITHUB_RUN_ATTEMPT"))) source_sha;
    Ok (Some p).

(** [verify_producer_identity] *)
Definition verify_producer_identity (receipt expected : pyobject) : outcome unit :=
  let v := get_key "producer" receipt in
  let producer := dict_of v in
  _ ← check (is_dict v && same_keys (dict_keys producer) (dict_keys expected)) (value_error_of "Receipt lacks current package producer identity");
  repository ← item (&"repository") producer;
  run_id ← item (&"run_id") producer;
  run_attempt ← item (&"run_attempt") producer;
  source_sha ← item (&"source_sha") producer;
  checked ← producer_identity repository run_id run_attempt source_sha;
  check (py_eq (VDict checked) (VDict expected)) (value_error_of "Receipt belongs to a different package producer attempt").

(** ** Packages *)

(** [value[key]] of an element *)
Definition subscripted (v : pyval) : outcome pyobject :=
  match v with VDict d => Ok d | _ => Raise (type_error_of "object is not subscriptable") end.

Section receipts.
Context (casefold : pystr → pystr) (float_repr : Q → pystr) (sha256_hex : bytes → pystr).

(** [canonical] *)
Definition canonical_json (v : pyval) : outcome bytes := json_bytes_indented float_repr v.

(** The packages of a sorted directory; [seen] are their folded names so far. *)
Fixpoint package_entries (entries : list file_entry) (seen : list pystr) : outcome (list pyobject) :=
  match entries with
  | [] => Ok []
  | e :: entries =>
    let name := entry_name e in
    _ ← check (negb (startswith (&"release-inputs-") name && endswith (&".json") name))
          (value_error_of "Package directory already contains a version receipt");
    _ ← check (regular e) (value_error_of "Package must be a flat regular file");
    _ ← check (negb (bool_decide (casefold name ∈ seen)) && fullmatch NAME_RE name) (value_error_of "Unsafe or duplicate package name");
    rest ← package_entries entries (casefold name :: seen);
    Ok (asset_of name (stream_identity sha256_hex (contents e)) :: rest)
  end.

(** [receipt_packages] *)
Definition receipt_packages (assets : list file_entry) : outcome (list pyobject) :=
  packages ← package_entries (by_name assets) [];
  _ ← check (negb (bool_decide (packages = []))) (value_error_of "Cannot attest an empty package directory");
  Ok packages.

(** ** The evidence of a receipt *)

(** The leading objects of a list. *)
Definition dict_prefix (l : list pyval) : list pyobject := dict_of <$> take_while is_dict l.

(** [version_plan.effective_inputs_digest] of any value. *)
Definition inputs_digest (v : pyval) : outcome pystr :=
  l ← iterate v;
  match collect subscripted l with
  | Ok entries => effective_inputs_digest float_repr sha256_hex entries
  | Raise e => _ ← input_entries (dict_prefix l) []; Raise e
  end.

(** [policy["versioning"]["files"]] *)
Definition declared_files (policy : pyobject) : outcome (list pyobject) :=
  v ← item (&"versioning") policy;
  config ← subscripted v;
  files ← item (&"files") config;
  l ← iterate files;
  collect subscripted l.

(** [{item["path"] for item in files}] *)
Definition path_set (files : list pyobject) : outcome (list pyval) :=
  collect (λ d, v ← item (&"path") d;
                match v with VList _ | VDict _ => Raise (type_error_of "unhashable type") | _ => Ok v end) files.
Definition same_set (l k : list pyval) : bool := forallb (λ v, existsb (py_eq v) k) l && forallb (λ v, existsb (py_eq v) l) k.

Definition FIELD_KEYS : list pystr := [&"format"; &"field"; &"package"; &"projection"; &"value"].

(** The projection that a declaration asks for. *)
Definition declared_field (plan declaration : pyobject) : outcome pyval :=
  format ← item (&"format") declaration;
  value ← projected_value plan declaration;
  Ok (VDict [(&"format", format); (&"field", get_key "field" declaration); (&"package", get_key "package" declaration);
             (&"projection", get_default (&"value") (VStr (&"package")) declaration); (&"value", value)]).

(** The declared projections by path. *)
Fixpoint expected_fields (plan : pyobject) (declarations : list pyobject) (expected : pydict pystr (list pyval)) : outcome (pydict pystr (list pyval)) :=
  match declarations with
  | [] => Ok expected
  | d :: declarations =>
    value ← declared_field plan d;
    path ← item (&"path") d;
    let path := str_value path in
    expected_fields plan declarations (dict_set path (default [] (dict_get path expected) ++ [value]) expected)
  end.

(** [sorted(map(canonical, values))] *)
Definition sorted_texts (values : list pyval) : outcome (list pystr) :=
  texts ← collect (λ v, b ← canonical_json v; Ok (latin b)) values;
  Ok (sorted str_leb texts).

(** The fields of one file of a receipt. *)
Definition check_fields (expected : pydict pystr (list pyval)) (file : pyobject) : outcome unit :=
  let fields := get_key "fields" file in
  _ ← check (is_list fields) (type_error_of "Missing receipt version field projections");
  actual ← collect (λ v, d ← as_dict v; Ok (VDict ((λ k, (k, get_default k VNone d)) <$> FIELD_KEYS))) (list_value fields);
  texts ← sorted_texts actual;
  path ← item (&"path") file;
  wanted ← match dict_get (str_value path) expected with Some l => Ok l | None => Raise (Exn EKey "") end;
  texts' ← sorted_texts wanted;
  check (bool_decide (texts = texts')) (value_error_of "Receipt field values do not match the frozen plan").

(** [validate_input_fields] *)
Definition validate_input_fields (files : list pyobject) (policy plan : pyobject) : outcome unit :=
  declarations ← declared_files policy;
  expected ← expected_fields plan declarations [];
  for_each (check_fields expected) files.

(** The files of a receipt against the declared ones. *)
Definition check_coverage (receipt policy plan : pyobject) : outcome unit :=
  v ← item (&"files") receipt;
  l ← iterate v;
  files ← collect subscripted l;
  paths ← path_set files;
  declarations ← declared_files policy;
  declared ← path_set declarations;
  _ ← check (same_set paths declared) (value_error_of "Receipt does not cover every declared version source");
  validate_input_fields files policy plan.

(** [verify_receipt_evidence] *)
Definition verify_receipt_evidence (receipt plan : pyobject) (policy expected_producer : option pyobject) : outcome unit :=
  digest ← plan_digest float_repr sha256_hex (VDict plan);
  _ ← check (text_is (get_key "plan_sha256" receipt) digest) (value_error_of "Build used a different release plan");
  source ← item (&"source_sha") plan;
  _ ← check (py_eq (get_key "source_sha" receipt) source && truthy (get_key "files" receipt))
        (value_error_of "Receipt lacks source-bound version input evidence");
  _ ← match expected_producer with Some expected => verify_producer_identity receipt expected | None => Ok tt end;
  let toolchain := get_key "toolchain" receipt in
  _ ← check (is_dict toolchain && truthy (get_key "python" (dict_of toolchain))) (value_error_of "Receipt lacks actual build toolchain versions");
  files ← item (&"files") receipt;
  effective ← inputs_digest files;
  _ ← check (text_is (get_key "effective_inputs_sha256" receipt) effective) (value_error_of "Receipt version input digest mismatch");
  match policy with Some policy => check_coverage receipt policy plan | None => Ok tt end.

(** ** Coverage *)

(** The artifacts of a receipt; [covered] are the payloads covered so far. *)
Fixpoint cover_artifacts (artifacts : list pyval) (expected : pydict pystr pyobject) (receipts covered : list pystr) : outcome (list pystr) :=
  match artifacts with
  | [] => Ok covered
  | artifact :: artifacts =>
    d ← as_dict artifact;
    name ← match get_key "name" d with VList _ | VDict _ => Raise (type_error_of "unhashable type") | v => Ok v end;
    _ ← check (negb (is_str name && bool_decide (str_value name ∈ covered ++ receipts)))
          (value_error_of "Payload has duplicate or recursive build coverage");
    _ ← check (is_str name && match dict_get (str_value name) expected with Some e => py_eq (VDict e) artifact | None => false end)
          (value_error_of "Receipt does not match staged payload");
    cover_artifacts artifacts expected receipts (covered ++ [str_value name])
  end.

(** [cover_receipt_artifacts] *)
Definition cover_receipt_artifacts (receipt : pyobject) (expected : pydict pystr pyobject) (receipts covered : list pystr) : outcome (list pystr) :=
  let artifacts := get_key "artifacts" receipt in
  _ ← check (is_list artifacts && negb (bool_decide (list_value artifacts = []))) (value_error_of "Empty receipt artifact inventory");
  cover_artifacts (list_value artifacts) expected receipts covered.

(** One receipt of the staged files. *)
Definition read_receipt (directory : pydict pystr bytes) (name : pystr) : outcome (bytes * pyobject) :=
  raw ← match dict_get name directory with Some b => Ok b | None => Raise (Exn EOS "") end;
  _ ← check (Z.of_nat (length raw) <=? MAX_RECEIPT_BYTES) (value_error_of "Oversized build receipt");
  text ← decode_json raw;
  v ← json_loads keep_last text;
  receipt ← as_dict v;
  Ok (raw, receipt).

Definition receipt_result (name : pystr) (raw : bytes) (receipt : pyobject) : pyval :=
  VDict [(&"name", VStr name); (&"sha256", VStr (sha256_hex raw)); (&"inputs", VDict receipt)].

Fixpoint check_receipts (directory : pydict pystr bytes) (plan : pyobject) (policy expected_producer : option pyobject)
    (expected : pydict pystr pyobject) (receipts names covered : list pystr) : outcome (list pyval * list pystr) :=
  match names with
  | [] => Ok ([], covered)
  | name :: names =>
    '(raw, receipt) ← read_receipt directory name;
    _ ← verify_receipt_evidence receipt plan policy expected_producer;
    covered ← cover_receipt_artifacts receipt expected receipts covered;
    '(results, covered) ← check_receipts directory plan policy expected_producer expected receipts names covered;
    Ok (receipt_result name raw receipt :: results, covered)
  end.

(** [{entry["name"]: entry for entry in payloads}] *)
Fixpoint payloads_by_name (payloads : list pyobject) (index : pydict pystr pyobject) : outcome (pydict pystr pyobject) :=
  match payloads with
  | [] => Ok index
  | e :: payloads => name ← item (&"name") e; payloads_by_name payloads (dict_set (str_value name) e index)
  end.

(** [verify_receipts]; [verify_all] verifies detached provenance. *)
Definition verify_receipts (verify_all : outcome unit) (directory : pydict pystr bytes) (plan : pyobject) (payloads : list pyobject)
    (policy expected_producer : option pyobject) : outcome (list pyval) :=
  expected ← payloads_by_name payloads [];
  let receipts := filter (λ name, fullmatch receipt_name name = true) (dict_keys expected) in
  _ ← check (negb (bool_decide (receipts = []))) (value_error_of "Versioned release has no build receipts");
  '(results, covered) ← check_receipts directory plan policy expected_producer expected receipts (sorted str_leb receipts) [];
  _ ← check (same_keys covered (filter (λ name, name ∉ receipts) (dict_keys expected)))
        (value_error_of "Some release payloads lack version input evidence");
  _ ← match policy with
      | Some policy => if DETACHED_PROVENANCE_REQUIRED || truthy (get_key "detached_provenance" policy) then verify_all else Ok tt
      | None => Ok tt
      end;
  Ok results.

(** [verify_required_build_receipts] *)
Definition verify_required_build_receipts (receipts : list pyval) (policy : pyobject) : outcome unit :=
  v ← item (&"versioning") policy;
  config ← as_dict v;
  required ← required_build_receipts config;
  match required with
  | None => Ok tt
  | Some required =>
    names ← collect (λ r, d ← subscripted r; v ← item (&"name") d; Ok (str_value v)) receipts;
    _ ← check (bool_decide (NoDup names)) (value_error_of "Duplicate authenticated build receipts");
    check (same_keys names required) (value_error_of "Build receipt inventory differs from source policy")
  end.
End receipts.

(** ** Declared artifacts

    [fnmatch.fnmatchcase]: a star stands for any text, a question mark for one
    character, and brackets for a set of characters and ranges; a bracket that is not
    closed stands for itself. *)

(** The ranges of a set. *)
Fixpoint set_ranges (s : pystr) : list (N * N) :=
  match s with
  | c :: ((h :: d :: rest) as tail) => if bool_decide (h = chr "-") then (c, d) :: set_ranges rest else (c, c) :: set_ranges tail
  | c :: tail => (c, c) :: set_ranges tail
  | [] => []
  end.
Definition in_ranges (ranges : list (N * N)) (c : N) : bool := existsb (λ r, in_range r.1 r.2 c) ranges.

(** The characters of a set, with a leading exclamation mark its complement. *)
Definition glob_set (body : pystr) : N → bool :=
  match body with
  | c :: rest => if bool_decide (c = chr "!") then λ d, negb (in_ranges (set_ranges rest) d) else in_ranges (set_ranges body)
  | [] => λ _, false
  end.

(** The length of the body of a set that begins here: the first closing bracket
    that is not its first character. *)
Definition set_length (s : pystr) : option nat :=
  let skip := (if startswith (&"!") s then 1 else 0)%nat in
  let skip := (skip + if startswith (&"]") (drop skip s) then 1 else 0)%nat in
  if has (chr "]") (drop skip s) then Some (skip + length (take_while (λ c, negb (c =? chr "]")%N) (drop skip s)))%nat else None.

Fixpoint glob_regex (n : nat) (pattern : pystr) : regex :=
  match n, pattern with
  | S n, c :: rest =>
    if bool_decide (c = chr "*") then Star (Char (λ _, true)) ⋅ glob_regex n rest
    else if bool_decide (c = chr "?") then Char (λ _, true) ⋅ glob_regex n rest
    else if bool_decide (c = chr "[") then
      match set_length rest with
      | Some k => Char (glob_set (take k rest)) ⋅ glob_regex n (drop (S k) rest)
      | None => Char (N.eqb c) ⋅ glob_regex n rest
      end
    else Char (N.eqb c) ⋅ glob_regex n rest
  | _, _ => Eps
  end.
Definition fnmatchcase (name pattern : pystr) : bool := fullmatch (glob_regex (length pattern) pattern) name.

Example fnmatch_demo :
  forallb id [fnmatchcase (&"app-1.2.whl") (&"*.whl"); fnmatchcase (&"a.b") (&"?[!a-b]b"); fnmatchcase (&"a]b") (&"a[]x]b");
              fnmatchcase (&"[x") (&"[x"); fnmatchcase (&"-") (&"[a-]"); fnmatchcase [] (&"*")] = true
  ∧ existsb id [fnmatchcase (&"app.whl.txt") (&"*.whl"); fnmatchcase (&"c") (&"[a-b]"); fnmatchcase (&"b") (&"[z-a]"); fnmatchcase (&"A") (&"a")] = false.
Proof. vm_compute. done. Qed.

Section artifacts.
(** [version_plan.verify_artifact]: what is found in one file. *)
Context (verify_artifact : file_entry → pyobject → pyobject → outcome pyobject).

(** The files that one declaration selects, inspected. *)
Definition declared_artifact (files : list file_entry) (plan : pyobject) (v : pyval) : outcome (list pyval) :=
  declaration ← as_dict v;
  let pattern := get_key "path" declaration in
  _ ← check (is_str pattern && negb (has (chr "/") (str_value pattern)) && negb (has (chr "\") (str_value pattern)))
        (value_error_of "Published artifact selectors must match flat asset names");
  let matches := by_name (filter (λ f, fnmatchcase (entry_name f) (str_value pattern) = true) files) in
  _ ← check (negb (bool_decide (matches = []))) (value_error_of "Declared package metadata target is missing");
  collect (λ f, inspected ← verify_artifact f declaration plan; Ok (VDict (dict_set (&"path") (VStr (entry_name f)) inspected))) matches.

(** [verify_declared_artifacts] *)
Definition verify_declared_artifacts (files : list file_entry) (policy plan : pyobject) : outcome (list pyval) :=
  v ← item (&"versioning") policy;
  config ← as_dict v;
  declarations ← iterate (get_default (&"artifacts") (VList []) config);
  results ← collect (declared_artifact files plan) declarations;
  Ok (concat results).
End artifacts.
