(* ===== verification/VersionReceiptFacts.v ===== *)
(** * What the receipts of a release guarantee

    A set of receipts that the publisher accepts is an exact cover: every payload
    that is no receipt is attested by exactly one receipt, with its size and
    digest, and every receipt belongs to the frozen plan and its source. *)

From Stdlib Require Import QArith.QArith Strings.Byte.
From S2P Require Import Prelude PyStr PyDict PyRegex PyVal PyJson VersionPlan JsonDocument VersionPlanFacts Release ReleaseValidation OciMetadata Fuzz ReleaseRuns Transport ReleaseManifest VersionReceipt.
#[local] Open Scope Z_scope.

Section receipts.
Context (float_repr : Q → pystr) (sha256_hex : bytes → pystr).

Definition artifacts_of (inputs : pyobject) : list pyval := list_value (get_key "artifacts" inputs).
Definition artifact_name (v : pyval) : pystr := str_value (get_key "name" (dict_of v)).

(** An artifact is an entry of the payloads. *)
Definition attested (expected : pydict pystr pyobject) (artifact : pyval) : Prop :=
  ∃ e, get_key "name" (dict_of artifact) = VStr (artifact_name artifact) ∧ dict_get (artifact_name artifact) expected = Some e
    ∧ py_eq (VDict e) artifact = true.

Lemma cover_artifacts_ok artifacts expected receipts covered covered' :
  cover_artifacts artifacts expected receipts covered = Ok covered' →
  covered' = covered ++ (artifact_name <$> artifacts) ∧ Forall (attested expected) artifacts
  ∧ (NoDup covered → NoDup covered') ∧ ∀ name, name ∈ artifact_name <$> artifacts → name ∉ receipts.
Proof.
  revert covered. induction artifacts as [|artifact artifacts IH]; intros covered Hc; cbn [cover_artifacts] in Hc.
  { injection Hc as <-. rewrite app_nil_r. split_and!; [done|constructor|done|by intros ? []%elem_of_nil]. }
  apply bind_ok in Hc as (d & Hd & Hc). apply bind_ok in Hc as (v & Hv & Hc). apply bind_ok in Hc as ([] & Hnew%check_ok & Hc).
  apply bind_ok in Hc as ([] & Hsame%check_ok & Hc). destruct artifact as [| | | | | | |d']; try done. injection Hd as ->.
  assert (get_key "name" d = v) as Hn by (destruct (get_key "name" d); try discriminate Hv; by injection Hv as ->).
  boolprop. destruct v as [| | | |name| | |]; try (by destruct Hsame). destruct Hsame as [_ Hsame]. cbn [is_str str_value andb] in *.
  destruct Hnew as [Hnew|Hnew]; [done|]. apply IH in Hc as (-> & Hf & Hnd & Hrec).
  assert (artifact_name (VDict d) = name) as Hname by (unfold artifact_name; cbn [dict_of]; by rewrite Hn).
  rewrite fmap_cons, Hname. split_and!.
  - by rewrite <-app_assoc.
  - constructor; [|done]. destruct (dict_get name expected) as [e|] eqn:E; [|done]. exists e. rewrite Hname. cbn [dict_of]. by rewrite Hn.
  - intros Hcov. apply Hnd. apply NoDup_app. split_and!; [done| |apply NoDup_singleton].
    intros x Hx ->%list_elem_of_singleton. apply Hnew, elem_of_app. by left.
  - intros x [->|Hx]%elem_of_cons; [|by apply Hrec]. intros Hin. apply Hnew, elem_of_app. by right.
Qed.

(** ** Receipts *)

(** The version inputs that an accepted receipt carries. *)
Definition inputs_of (result : pyval) : pyobject := dict_of (get_key "inputs" (dict_of result)).
Definition covered_by (result : pyval) : list pyval := artifacts_of (inputs_of result).

(** A receipt names the producing run: repository, run, attempt and source. *)
Definition produced_by (producer receipt : pyobject) : Prop :=
  ∀ k, k ∈ [&"repository"; &"run_id"; &"run_attempt"; &"source_sha"] → py_eq (get_default k VNone (dict_of (get_key "producer" receipt))) (get_default k VNone producer) = true.

(** A receipt carries the digest of the plan, its source, a digest of its own
    version inputs, and the producing run where one is expected. *)
Definition bound_to (plan : pyobject) (producer : option pyobject) (receipt : pyobject) : Prop :=
  (∃ digest, plan_digest float_repr sha256_hex (VDict plan) = Ok digest ∧ get_key "plan_sha256" receipt = VStr digest)
  ∧ py_eq (get_key "source_sha" receipt) (get_key "source_sha" plan) = true
  ∧ (∃ digest, inputs_digest float_repr sha256_hex (get_key "files" receipt) = Ok digest ∧ get_key "effective_inputs_sha256" receipt = VStr digest)
  ∧ ∀ expected, producer = Some expected → produced_by expected receipt.

Lemma item_get_key name d v : item (lit name) d = Ok v → get_key name d = v.
Proof. unfold item, get_key, get_default. destruct (dict_get _ d); [by injection 1 as ->|done]. Qed.

Lemma py_eq_entry d d' k v : py_eq (VDict d) (VDict d') = true → (k, v) ∈ d → ∃ w, dict_get k d' = Some w ∧ py_eq v w = true.
Proof.
  intros H. cbn [py_eq] in H. apply andb_prop in H as [_ H]. induction d as [|[k' a] d IH]; intros Hin; [by apply elem_of_nil in Hin|].
  destruct (dict_get k' d') as [b|] eqn:E; [|done]. apply andb_prop in H as [Hab H].
  apply elem_of_cons in Hin as [[= -> ->]|Hin]; [by exists b|by apply IH].
Qed.

Lemma producer_ok receipt expected : verify_producer_identity receipt expected = Ok () → produced_by expected receipt.
Proof.
  intros H. unfold verify_producer_identity in H. apply bind_ok in H as ([] & _ & H).
  apply bind_ok in H as (v1 & H1%item_get_key & H). apply bind_ok in H as (v2 & H2%item_get_key & H).
  apply bind_ok in H as (v3 & H3%item_get_key & H). apply bind_ok in H as (v4 & H4%item_get_key & H).
  apply bind_ok in H as (checked & Hc & Heq%check_ok). unfold producer_identity in Hc. apply bind_ok in Hc as ([] & _ & Hc). injection Hc as <-.
  assert (∀ k v, In (k, v) [(&"repository", v1); (&"run_id", v2); (&"run_attempt", v3); (&"source_sha", v4)] →
            py_eq v (get_default k VNone expected) = true) as Hall.
  { intros k v Hin%list_elem_of_In. eapply py_eq_entry in Heq as (w & Hw & Heq); [|done]. unfold get_default. by rewrite Hw. }
  clear Heq. subst. intros k Hk%list_elem_of_In. apply Hall. cbn in Hk |- *. intuition (subst; auto).
Qed.

Lemma evidence_ok receipt plan policy producer :
  verify_receipt_evidence float_repr sha256_hex receipt plan policy producer = Ok () → bound_to plan producer receipt.
Proof.
  intros H. unfold verify_receipt_evidence in H. apply bind_ok in H as (digest & Hd & H). apply bind_ok in H as ([] & Hp%check_ok & H).
  apply bind_ok in H as (source & Hs%item_get_key & H). apply bind_ok in H as ([] & Hsrc%check_ok & H).
  apply bind_ok in H as ([] & Hprod & H). apply bind_ok in H as ([] & _ & H).
  apply bind_ok in H as (files & Hf%item_get_key & H). apply bind_ok in H as (effective & He & H). apply bind_ok in H as ([] & Heq%check_ok & _).
  apply py_eq_str in Hp, Heq. apply andb_prop in Hsrc as [Hsrc _]. subst files source. split_and!; [by exists digest|done|by exists effective|].
  intros expected ->. by apply producer_ok.
Qed.

(** ** The payloads *)

Definition payload_name (e : pyobject) : pystr := str_value (get_key "name" e).

Lemma payloads_by_name_ok payloads index expected :
  payloads_by_name payloads index = Ok expected →
  (∀ name, name ∈ dict_keys expected ↔ name ∈ payload_name <$> payloads ∨ name ∈ dict_keys index)
  ∧ ∀ name e, dict_get name expected = Some e → (e ∈ payloads ∧ payload_name e = name) ∨ dict_get name index = Some e.
Proof.
  revert index. induction payloads as [|e payloads IH]; intros index H; cbn [payloads_by_name] in H.
  { injection H as <-. split; [set_solver|by right]. }
  apply bind_ok in H as (v & Hv%item_get_key & H). apply IH in H as [Hk Hg].
  assert (str_value v = payload_name e) as Hn by (unfold payload_name; by rewrite Hv). rewrite Hn in Hk, Hg. split.
  - intros name. rewrite Hk, elem_of_dict_keys_set, fmap_cons, elem_of_cons. tauto.
  - intros name e' He. destruct (Hg _ _ He) as [[Hin Hname]|He']; [left; set_solver|].
    rewrite dict_get_set in He'. case_decide; [injection He' as <-; left; set_solver|by right].
Qed.

Definition one_receipt (plan : pyobject) (producer : option pyobject) (directory : pydict pystr bytes) (name : pystr) (result : pyval) : Prop :=
  ∃ raw, dict_get name directory = Some raw ∧ (Z.of_nat (length raw) ≤ MAX_RECEIPT_BYTES)%Z
    ∧ result = receipt_result sha256_hex name raw (inputs_of result) ∧ bound_to plan producer (inputs_of result).

Lemma check_receipts_ok directory plan policy producer expected receipts names covered results covered' :
  check_receipts float_repr sha256_hex directory plan policy producer expected receipts names covered = Ok (results, covered') →
  Forall2 (one_receipt plan producer directory) names results
  ∧ covered' = covered ++ (artifact_name <$> mjoin (covered_by <$> results))
  ∧ Forall (attested expected) (mjoin (covered_by <$> results))
  ∧ (NoDup covered → NoDup covered') ∧ ∀ name, name ∈ artifact_name <$> mjoin (covered_by <$> results) → name ∉ receipts.
Proof.
  revert covered results. induction names as [|name names IH]; intros covered results H; cbn [check_receipts] in H.
  { injection H as <- <-. cbn. rewrite app_nil_r. split_and!; [constructor|done|constructor|done|by intros ? []%elem_of_nil]. }
  apply bind_ok in H as ([raw receipt] & Hr & H). apply bind_ok in H as ([] & He%evidence_ok & H). apply bind_ok in H as (covered1 & Hc & H).
  apply bind_ok in H as ([results' covered2] & H & Hok). injection Hok as <- <-. apply IH in H as (Hf2 & -> & Hat & Hnd & Hrec).
  unfold cover_receipt_artifacts in Hc. apply bind_ok in Hc as ([] & _ & Hc). apply cover_artifacts_ok in Hc as (-> & Hat' & Hnd' & Hrec').
  set (r := receipt_result sha256_hex name raw receipt). rewrite fmap_cons. cbn [mjoin list_join].
  change (covered_by r) with (list_value (get_key "artifacts" receipt)). rewrite fmap_app. split_and!.
  - constructor; [|done]. unfold read_receipt in Hr. apply bind_ok in Hr as (raw' & Hraw & Hr). apply bind_ok in Hr as ([] & Hsize%check_ok & Hr).
    apply bind_ok in Hr as (text & _ & Hr). apply bind_ok in Hr as (v & _ & Hr). apply bind_ok in Hr as (receipt' & _ & Hr). injection Hr as -> ->.
    apply Z.leb_le in Hsize. exists raw. split_and!; [by destruct (dict_get name directory); [injection Hraw as ->|]|done|done|done].
  - by rewrite app_assoc.
  - by apply Forall_app.
  - tauto.
  - intros x [Hx|Hx]%elem_of_app; [by apply Hrec'|by apply Hrec].
Qed.

Lemma payloads_by_name_nodup payloads index expected :
  payloads_by_name payloads index = Ok expected → NoDup (dict_keys index) → NoDup (dict_keys expected).
Proof.
  revert index. induction payloads as [|e payloads IH]; intros index H Hnd; cbn [payloads_by_name] in H; [by injection H as <-|].
  apply bind_ok in H as (v & _ & H). apply IH in H; [done|by apply dict_ok_set].
Qed.

(** Together, accepted receipts cover the payloads exactly. *)
Definition covers_exactly (directory : pydict pystr bytes) (plan : pyobject) (payloads : list pyobject) (producer : option pyobject) (results : list pyval) : Prop :=
  let staged := payload_name <$> payloads in
  let artifacts := mjoin (covered_by <$> results) in
  (∃ receipts, NoDup receipts ∧ (∀ name, name ∈ receipts ↔ name ∈ staged ∧ fullmatch receipt_name name = true)
     ∧ Forall2 (one_receipt plan producer directory) receipts results)
  ∧ NoDup (artifact_name <$> artifacts)
  ∧ (∀ name, name ∈ artifact_name <$> artifacts ↔ name ∈ staged ∧ fullmatch receipt_name name = false)
  ∧ ∀ artifact, artifact ∈ artifacts → ∃ e, e ∈ payloads ∧ payload_name e = artifact_name artifact ∧ py_eq (VDict e) artifact = true.

Lemma verify_receipts_ok verify_all directory plan payloads policy producer results :
  verify_receipts float_repr sha256_hex verify_all directory plan payloads policy producer = Ok results →
  covers_exactly directory plan payloads producer results.
Proof.
  intros H. unfold covers_exactly. set (staged := payload_name <$> payloads). set (artifacts := mjoin (covered_by <$> results)). unfold verify_receipts in H. apply bind_ok in H as (expected & Hx & H).
  apply bind_ok in H as ([] & _ & H). apply bind_ok in H as ([results' covered] & Hc & H).
  apply bind_ok in H as ([] & Hsame%check_ok & H). apply bind_ok in H as ([] & _ & H). injection H as ->.
  set (receipts := filter (λ name, fullmatch receipt_name name = true) (dict_keys expected)) in *.
  destruct (payloads_by_name_ok _ _ _ Hx) as [Hkeys Hget]. pose proof (payloads_by_name_nodup _ _ _ Hx (NoDup_nil_2)) as Hnd.
  apply check_receipts_ok in Hc as (Hf2 & -> & Hat & Hcov & Hrec). cbn [app] in *.
  assert (∀ name, name ∈ dict_keys expected ↔ name ∈ staged) as Hstaged by (intros name; rewrite Hkeys; set_solver).
  split_and!.
  - exists (sorted str_leb receipts). split_and!; [rewrite sorted_perm; by apply NoDup_filter| |done].
    intros name. rewrite sorted_perm. unfold receipts. rewrite list_elem_of_filter, Hstaged. tauto.
  - by apply Hcov, NoDup_nil_2.
  - intros name. split.
    + intros Hin. pose proof (Hrec _ Hin) as Hno. apply list_elem_of_fmap in Hin as (a & -> & Ha).
      rewrite Forall_forall in Hat. destruct (Hat _ Ha) as (e & _ & He & _). apply dict_get_Some_key in He.
      split; [by apply Hstaged|]. apply not_true_is_false. intros Hm. apply Hno. unfold receipts. by apply list_elem_of_filter.
    + intros [Hin Hm]. unfold same_keys in Hsame. apply andb_prop in Hsame as [_ Hsame]. rewrite forallb_forall in Hsame.
      eapply bool_decide_eq_true, Hsame, list_elem_of_In, list_elem_of_filter. split; [|by apply Hstaged].
      unfold receipts. rewrite list_elem_of_filter. rewrite Hm. naive_solver.
  - intros a Ha. rewrite Forall_forall in Hat. destruct (Hat _ Ha) as (e & _ & He & Heq).
    destruct (Hget _ _ He) as [[Hin Hname]|]; [|done]. by exists e.
Qed.

(** C11: Receipts that the publisher accepts cover a release exactly.  There is one
    accepted receipt per staged receipt file, read from that file, within the size
    bound, carrying the digest of the frozen plan, its source, a digest of its own
    version inputs and the expected producing run.  The artifacts they attest have
    distinct names, are exactly the staged payloads that are no receipts, and each
    equals the staged entry of its name. *)
Theorem receipts_cover_payloads (verify_all : outcome unit) (directory : pydict pystr bytes) (plan : pyobject) (payloads : list pyobject)
    (policy producer : option pyobject) (results : list pyval) :
  verify_receipts float_repr sha256_hex verify_all directory plan payloads policy producer = Ok results →
  let staged := payload_name <$> payloads in
  let artifacts := mjoin (covered_by <$> results) in
  (∃ receipts, NoDup receipts ∧ (∀ name, name ∈ receipts ↔ name ∈ staged ∧ fullmatch receipt_name name = true)
     ∧ Forall2 (one_receipt plan producer directory) receipts results)
  ∧ NoDup (artifact_name <$> artifacts)
  ∧ (∀ name, name ∈ artifact_name <$> artifacts ↔ name ∈ staged ∧ fullmatch receipt_name name = false)
  ∧ ∀ artifact, artifact ∈ artifacts → ∃ e, e ∈ payloads ∧ payload_name e = artifact_name artifact ∧ py_eq (VDict e) artifact = true.
Proof. intros H. exact (verify_receipts_ok _ _ _ _ _ _ _ H). Qed.
End receipts.

(** ** A release with one receipt *)

Definition digest64 : pystr := replicate 64 (chr "0").
Definition app_entry (size : Z) : pyval := VDict [(&"name", VStr (&"app.zip")); (&"size", VInt size); (&"sha256", VStr digest64)].
Definition linux_receipt : pystr := &"release-inputs-linux.json".
Definition demo_producer (attempt : Z) : pyobject :=
  [(&"repository", VStr (&"o/r")); (&"run_id", VInt 7); (&"run_attempt", VInt attempt); (&"source_sha", demo_source)].
Definition input_file (path : string) (format : string) (field : pyval) (projection : string) (value : pyval) : pyval :=
  VDict [(&"path", VStr (lit path)); (&"after_sha256", VStr digest64);
         (&"fields", VList [VDict [(&"format", VStr (lit format)); (&"field", field); (&"package", VNone);
                                   (&"projection", VStr (lit projection)); (&"value", value)]])].

Definition demo_receipt (version : string) (artifacts : list pyval) : pyobject :=
  [(&"plan_sha256", VStr digest64); (&"source_sha", demo_source); (&"effective_inputs_sha256", VStr digest64);
   (&"files", VList [input_file "package.json" "json" (VStr (&"version")) "package" (VStr (lit version));
                     input_file "build.txt" "text" VNone "build" (VInt 7)]);
   (&"toolchain", VDict [(&"python", VStr (&"3.13"))]); (&"producer", VDict (demo_producer 1)); (&"artifacts", VList artifacts)].

Definition receipts_of (receipt : pyobject) (attempt : Z) : outcome (list pyval) :=
  raw ← canonical_json demo_float (VDict receipt);
  verify_receipts demo_float demo_sha (Ok tt) [(linux_receipt, raw)] demo_plan
    [dict_of (app_entry 3); [(&"name", VStr linux_receipt)]] (Some (dict_of VersionPlanFacts.demo_policy)) (Some (demo_producer attempt)).

(** The receipt of version 1.2.3 is accepted; one of another version, one that
    attests a payload twice or with another size, and one of another attempt are not. *)
Lemma receipts_cover_payloads_witness :
  is_ok (receipts_of (demo_receipt "1.2.4" [app_entry 3]) 1) = false
  ∧ is_ok (receipts_of (demo_receipt "1.2.3" [app_entry 3; app_entry 3]) 1) = false
  ∧ is_ok (receipts_of (demo_receipt "1.2.3" [app_entry 4]) 1) = false
  ∧ is_ok (receipts_of (demo_receipt "1.2.3" [app_entry 3]) 2) = false
  ∧ ∃ results, receipts_of (demo_receipt "1.2.3" [app_entry 3]) 1 = Ok results
      ∧ (∀ name, name ∈ artifact_name <$> mjoin (covered_by <$> results)
                 ↔ name ∈ [&"app.zip"; linux_receipt] ∧ fullmatch receipt_name name = false)
      ∧ artifact_name <$> mjoin (covered_by <$> results) = [&"app.zip"].
Proof.
  do 4 (split; [vm_compute; reflexivity|]).
  destruct (receipts_of (demo_receipt "1.2.3" [app_entry 3]) 1) as [results|e] eqn:E; [|vm_compute in E; discriminate E].
  exists results. split; [reflexivity|]. split.
  - unfold receipts_of in E. destruct (canonical_json _ _) as [raw|] eqn:Hraw; [|discriminate E].
    exact (proj1 (proj2 (proj2 (receipts_cover_payloads demo_float demo_sha (Ok tt) _ _ _ _ _ _ E)))).
  - vm_compute in E. injection E as <-. vm_compute. reflexivity.
Defined.
