(* ===== verification/Toolchain.v ===== *)
(** * Toolchain diagnostics ([scripts/release_versioned.py])

    A final build must use exactly the toolchain of its accepted candidate.  When it
    does not, the differing fields are named without their values: an iterative,
    depth-first comparison of two JSON values with a work list. *)

From Stdlib Require Import QArith.QArith Strings.Byte Strings.Ascii.
From S2P Require Import Prelude PyStr PyDict PyRegex PyVal PyJson VersionPlan VersionPlanFacts Release ReleaseValidation OciMetadata Fuzz ReleaseExecution ReleaseManifest Publication Promotion VersionReceiptFacts.
#[local] Open Scope Z_scope.
#[local] Open Scope regex_scope.

Definition MAX_TOOLCHAIN_DIAGNOSTICS : nat := 100.

(** [type(v).__name__] *)
Definition type_name (v : pyval) : string :=
  match v with
  | VNone => "NoneType" | VBool _ => "bool" | VInt _ => "int" | VFloat _ => "float"
  | VStr _ => "str" | VDatetime _ => "datetime" | VList _ => "list" | VDict _ => "dict"
  end.

(** A field: its path, and its value on both sides, where it is not missing. *)
Record field_item : Type := FieldItem { field_path : pystr; field_before : option pyval; field_after : option pyval }.

(** [s.encode("utf-8", "surrogatepass")] *)
Definition surrogate_bytes (c : N) : bytes := [byte_of (224 + c / 4096); byte_of (128 + c / 64 mod 64); byte_of (128 + c mod 64)].
Definition encode_surrogatepass (s : pystr) : bytes := s ≫= λ c, default (surrogate_bytes c) (utf8_char c).

(** [s.replace(c, text)] *)
Definition replace_char (c : N) (text s : pystr) : pystr := s ≫= λ d, if bool_decide (d = c) then text else [d].

Definition label_char (c : N) : bool := ascii_alnum c || one_of "_./~-" c.
Definition label_re : regex := Char label_char ⋅ rep_upto 199 (Char label_char).

(** A message of the diagnostics as text: its characters are ASCII. *)
Definition text_of (s : pystr) : string := String.string_of_list_ascii (ascii_of_N <$> s).

Section diagnostics.
Context (sha256_hex : bytes → pystr).

(** [diagnostic_label] *)
Definition diagnostic_label (value : pystr) : pystr :=
  if fullmatch label_re value then value
  else &"redacted-sha256-" ++ sha256_hex (encode_surrogatepass value).

(** [pending.append] of each item in turn; the end of the list is the head here. *)
Definition push (items pending : list field_item) : list field_item := fold_left (λ pending i, i :: pending) items pending.

(** The keys of both mappings, in order. *)
Definition all_keys (before after : pyobject) : list pystr := sorted str_leb (remove_dups (dict_keys before ++ dict_keys after)).

(** [_queue_toolchain_mapping]: the items it appends *)
Definition queue_toolchain_mapping (path : pystr) (before after : pyobject) : list field_item :=
  (λ key, FieldItem (diagnostic_label (path ++ &"/" ++ replace_char (chr "/") (&"~1") (replace_char (chr "~") (&"~0") key)))
            (dict_get key before) (dict_get key after))
  <$> rev (all_keys before after).

(** [_queue_toolchain_list] *)
Definition queue_toolchain_list (path : pystr) (before after : list pyval) : list field_item :=
  (λ index : nat, FieldItem (diagnostic_label (path ++ &"/" ++ str_of_int (Z.of_nat index))) (before !! index) (after !! index))
  <$> rev (seq 0 (length before `max` length after)).

(** One round of the loop: what is yielded, and the items it appends. *)
Definition change_step (item : field_item) : list (pystr * pystr) * list field_item :=
  let path := field_path item in
  match field_before item, field_after item with
  | None, _ => ([(path, &"missing in accepted RC")], [])
  | _, None => ([(path, &"missing in final build")], [])
  | Some before, Some after =>
    if py_eq before after then ([], [])
    else if negb (bool_decide (type_name before = type_name after)) then
      ([(path, &"type changed (" ++ lit (type_name before) ++ &" -> " ++ lit (type_name after) ++ &")")], [])
    else
      match before, after with
      | VDict before, VDict after => ([], queue_toolchain_mapping path before after)
      | VList before, VList after => ([], queue_toolchain_list path before after)
      | _, _ => ([(path, &"value changed")], [])
      end
  end.

(** The loop of [toolchain_changes]; [None] says that the rounds were used up. *)
Fixpoint changes_loop (n : nat) (pending : list field_item) : option (list (pystr * pystr)) :=
  match pending, n with
  | [], _ => Some []
  | _, O => None
  | item :: pending, S n =>
    let '(yielded, items) := change_step item in
    rest ← changes_loop n (push items pending);
    Some (yielded ++ rest)
  end.

(** The values that a value consists of: each round takes one of them away. *)
Fixpoint value_size (v : pyval) : nat :=
  S match v with
    | VList l => sum_list_with value_size l
    | VDict d => sum_list_with (λ kv, value_size kv.2) d
    | _ => 0
    end.

(** [toolchain_changes] *)
Definition toolchain_changes (original current : pyval) : outcome (list (pystr * pystr)) :=
  match changes_loop (value_size original + value_size current) [FieldItem (&"toolchain") (Some original) (Some current)] with
  | Some changes => Ok changes
  | None => Raise (Exn EOther "more fields than values")
  end.

(** ** The receipts of a final build *)

(** The counters and the lines of [verify_final_toolchains]. *)
Record drift_report : Type := DriftReport { drift_fields : Z; drift_platforms : Z; drift_lines : list pystr }.

Definition add_change (name : pystr) (r : drift_report) (change : pystr * pystr) : drift_report :=
  DriftReport (drift_fields r + 1) (drift_platforms r)
    (if (length (drift_lines r) <? MAX_TOOLCHAIN_DIAGNOSTICS)%nat
     then drift_lines r ++ [&"  " ++ diagnostic_label name ++ &": " ++ change.1 ++ &": " ++ change.2] else drift_lines r).

Definition lf_text : pystr := [10%N].

(** The exception that names every difference, up to the limit. *)
Definition drift_error (r : drift_report) : exn :=
  let omitted := drift_fields r - Z.of_nat (length (drift_lines r)) in
  let lines := if omitted =? 0 then drift_lines r
               else drift_lines r ++ [&"  " ++ str_of_int omitted ++ &" further field differences omitted (log limit)"] in
  release_error (text_of
    (&"Build toolchain differs from accepted RC: " ++ str_of_int (drift_platforms r) ++ &" platform receipt(s), "
     ++ str_of_int (drift_fields r) ++ &" field difference(s)." ++ lf_text ++ join 10%N lines ++ lf_text
     ++ &"Values are withheld; inspect the verified RC/final receipts. Floating runner image rollouts can give successive jobs different ImageVersion values. Investigate runner/toolchain availability before another RC/final cycle; a new RC alone does not guarantee matching inputs. Exact equality is still required for publication.")).

(** [{item["name"]: item for item in l}] of names that are text *)
Fixpoint index_by_name (l : list pyval) (index : pydict pystr pyobject) : outcome (pydict pystr pyobject) :=
  match l with
  | [] => Ok index
  | v :: l => d ← as_dict v; name ← item (&"name") d; index_by_name l (dict_set (str_value name) d index)
  end.

Definition receipt_name_of (receipt : pyobject) : pystr := str_value (get_key "name" receipt).

(** The toolchains of one receipt: of the candidate's bytes, and of this build. *)
Definition receipt_toolchains (expected : pydict pystr pyobject) (current : pyobject) (raw : bytes) : outcome (pyval * pyval) :=
  e ← match dict_get (receipt_name_of current) expected with Some e => Ok e | None => Raise (Exn EKey "") end;
  sha256 ← item (&"sha256") e;
  _ ← release_require (py_eq (VStr (sha256_hex raw)) sha256) "RC toolchain receipt changed";
  original ← catch (parse_json raw) is_release_error (λ _, Raise (release_error "Invalid JSON in RC toolchain receipt"));
  let inputs := get_key "inputs" current in
  _ ← release_require (is_dict original && is_dict inputs) "Invalid toolchain receipt object";
  Ok (get_key "toolchain" (dict_of original), get_key "toolchain" (dict_of inputs)).

(** The report after one more receipt. *)
Definition compare_toolchains (name : pystr) (before after : pyval) (r : drift_report) : outcome drift_report :=
  if py_eq before after then Ok r
  else
    changes ← toolchain_changes before after;
    Ok (fold_left (add_change name) changes (DriftReport (drift_fields r) (drift_platforms r + 1) (drift_lines r))).

Context `{UnicodeCase} {G : Type} `{GitHub G} `{Assets G} (casefold : pystr → pystr).

(** The receipts in the order of their names, each compared with the candidate's. *)
Fixpoint compare_receipts (inventory expected : pydict pystr pyobject) (receipts : list pyobject) (r : drift_report) : M G drift_report :=
  match receipts with
  | [] => mret r
  | current :: receipts =>
    let name := receipt_name_of current in
    asset ← lift match dict_get name inventory with
                 | Some a => Ok a
                 | None => Raise (release_error "RC platform receipt is missing")
                 end;
    id ← lift (v ← item (&"id") asset; positive v "Invalid receipt asset ID");
    raw ← gh_binary (&"releases/assets/" ++ str_of_int id);
    toolchains ← lift (receipt_toolchains expected current raw);
    r ← lift (compare_toolchains name toolchains.1 toolchains.2 r);
    compare_receipts inventory expected receipts r
  end.

(** [verify_final_toolchains] *)
Definition verify_final_toolchains (candidate : pyobject) (receipts : list pyval) : M G unit :=
  tag ← lift (item (&"tag") candidate);
  snapshot ← release_snapshot casefold (str_value tag);
  let inventory := fold_left (λ d a, dict_set (receipt_name_of a) a d) (snap_assets snapshot) [] in
  expected ← lift (l ← iterate (get_default (&"build_receipts") (VList []) candidate); index_by_name l []);
  receipts ← lift (collect as_dict receipts);
  _ ← lift (release_require (same_keys (dict_keys expected) (receipt_name_of <$> receipts)) "Final platform receipt inventory differs from RC");
  r ← compare_receipts inventory expected (sorted (λ a b, str_leb (receipt_name_of a) (receipt_name_of b)) receipts) (DriftReport 0 0 []);
  lift (if drift_platforms r =? 0 then Ok tt else Raise (drift_error r)).
End diagnostics.

(** ** The toolchain comparison is complete and ends

    The work list of [toolchain_changes] is used up within the rounds given; it
    names no field exactly when the two values are equal, and every name it gives is
    a short label of harmless characters. *)

(** Every object of a value has distinct keys, as the objects of a parsed text. *)
Fixpoint distinct_keys (v : pyval) : bool :=
  match v with
  | VList l => forallb distinct_keys l
  | VDict d => bool_decide (NoDup (dict_keys d)) && forallb (λ kv, distinct_keys kv.2) d
  | _ => true
  end.

Definition size_of (v : option pyval) : nat := from_option value_size 0%nat v.
Definition item_size (i : field_item) : nat := size_of (field_before i) + size_of (field_after i).
Definition pending_size (l : list field_item) : nat := sum_list_with item_size l.
Definition present (i : field_item) : Prop := is_Some (field_before i) ∨ is_Some (field_after i).

Section facts.
Context (sha256_hex : bytes → pystr).
Notation step := (change_step sha256_hex).
Notation loop := (changes_loop sha256_hex).

Lemma push_spec items pending : push items pending = rev items ++ pending.
Proof. unfold push. revert pending. induction items as [|i items IH]; intros pending; [done|]. cbn [fold_left rev]. by rewrite IH, <-app_assoc. Qed.

Lemma present_size i : present i → (0 < item_size i)%nat.
Proof. intros [[v E]|[v E]]; unfold item_size; rewrite E; cbn; destruct v; cbn; lia. Qed.

(** ** Every round takes away a value *)

Lemma sum_update (ks : list pystr) (k : pystr) (a : nat) (f : pystr → nat) :
  NoDup ks → (sum_list_with (λ x, if decide (x = k) then a else f x) ks ≤ a + sum_list_with f ks)%nat.
Proof.
  induction 1 as [|x ks Hx Hnd IH]; cbn; [lia|]. case_decide as E; [|lia]. subst.
  enough (sum_list_with (λ x, if decide (x = k) then a else f x) ks = sum_list_with f ks) by lia.
  clear -Hx. induction ks as [|y ks IH]; cbn; [done|]. apply not_elem_of_cons in Hx as [Hne Hx].
  rewrite decide_False by done. by rewrite IH.
Qed.

Lemma sum_ext {A} (f g : A → nat) l : (∀ x, f x = g x) → sum_list_with f l = sum_list_with g l.
Proof. intros Hfg. induction l; cbn; [done|]. by rewrite Hfg, IHl. Qed.

Lemma sum_keys (d : pyobject) (ks : list pystr) :
  NoDup ks → (sum_list_with (λ k, size_of (dict_get k d)) ks ≤ sum_list_with (λ kv, value_size kv.2) d)%nat.
Proof.
  intros Hnd. induction d as [|[k v] d IH]; [clear; by induction ks; cbn in *|].
  etransitivity; [|cbn [sum_list_with snd]; by apply Nat.add_le_mono_l, IH].
  etransitivity; [|by apply (sum_update ks k)]. apply Nat.eq_le_incl, sum_ext. intros x. cbn [dict_get]. by case_decide.
Qed.

Lemma sum_fmap {A B} (g : A → B) (f : B → nat) l : sum_list_with f (g <$> l) = sum_list_with (λ x, f (g x)) l.
Proof. induction l as [|x l IH]; [done|]. rewrite fmap_cons. cbn. by rewrite IH. Qed.

Lemma sum_positions (l : list pyval) (n : nat) :
  (sum_list_with (λ i : nat, size_of (l !! i)) (seq 0 n) ≤ sum_list_with value_size l)%nat.
Proof.
  revert l. induction n as [|n IH]; intros l; [cbn; lia|]. cbn [seq sum_list_with]. rewrite <-fmap_S_seq, sum_fmap.
  destruct l as [|v l]; [apply (IH [])|]. specialize (IH l). change (sum_list_with value_size (v :: l)) with (value_size v + sum_list_with value_size l)%nat.
  change (size_of ((v :: l) !! 0)) with (value_size v). apply Nat.add_le_mono_l. exact IH.
Qed.

Lemma sum_add {A} (f g : A → nat) l : sum_list_with (λ x, f x + g x)%nat l = (sum_list_with f l + sum_list_with g l)%nat.
Proof. induction l; cbn; lia. Qed.

Lemma sum_rev {A} (f : A → nat) l : sum_list_with f (rev l) = sum_list_with f l.
Proof. induction l as [|x l IH]; cbn; [done|]. rewrite sum_list_with_app, IH. cbn. lia. Qed.

Lemma all_keys_spec before after k : k ∈ all_keys before after ↔ k ∈ dict_keys before ∨ k ∈ dict_keys after.
Proof. unfold all_keys. rewrite sorted_perm, elem_of_remove_dups. apply elem_of_app. Qed.

Lemma all_keys_nodup before after : NoDup (all_keys before after).
Proof. unfold all_keys. rewrite sorted_perm. apply NoDup_remove_dups. Qed.

(** The items of a round are present on one side, and together smaller. *)
Lemma step_smaller i : present i → Forall present (step i).2 ∧ (pending_size (step i).2 < item_size i)%nat.
Proof.
  intros Hp. pose proof (present_size _ Hp) as Hpos. destruct i as [path [before|] [after|]]; unfold change_step; cbn [field_path field_before field_after];
    [|cbn; by split..]. destruct (py_eq before after); [cbn; by split|]. case_bool_decide as Ht; [|cbn; by split]. cbn [negb].
  destruct before as [| | | | | |l|d]; try (cbn; by split).
  - destruct after as [| | | | | |l'|d']; try (cbn; by split). cbn [snd]. split.
    + apply Forall_forall. intros i (n & -> & Hn)%list_elem_of_fmap. unfold present. cbn.
      apply list_elem_of_In, in_rev, list_elem_of_In, elem_of_seq in Hn. destruct (Nat.lt_ge_cases n (length l)) as [Hl|Hl].
      * left. by apply lookup_lt_is_Some.
      * right. apply lookup_lt_is_Some. lia.
    + unfold pending_size, queue_toolchain_list. rewrite sum_fmap, sum_rev. unfold item_size at 1. cbn [field_before field_after].
      rewrite sum_add. pose proof (sum_positions l (length l `max` length l')). pose proof (sum_positions l' (length l `max` length l')).
      unfold item_size. cbn. lia.
  - destruct after as [| | | | | |l'|d']; try (cbn; by split). cbn [snd]. split.
    + apply Forall_forall. intros i (k & -> & Hk)%list_elem_of_fmap. unfold present. cbn.
      apply list_elem_of_In, in_rev, list_elem_of_In, all_keys_spec in Hk. by rewrite !dict_keys_get in Hk.
    + unfold pending_size, queue_toolchain_mapping. rewrite sum_fmap, sum_rev. unfold item_size at 1. cbn [field_before field_after].
      rewrite sum_add. pose proof (sum_keys d _ (all_keys_nodup d d')). pose proof (sum_keys d' _ (all_keys_nodup d d')).
      unfold item_size. cbn. lia.
Qed.

(** As many rounds as values are enough, and more make no difference. *)
Lemma loop_total n pending : Forall present pending → (pending_size pending ≤ n)%nat → ∃ out, ∀ m, (n ≤ m)%nat → loop m pending = Some out.
Proof.
  revert pending. induction n as [|n IH]; intros pending Hp Hn.
  - destruct pending as [|i pending]; [exists []; by intros []|]. apply Forall_cons in Hp as [Hi _]. apply present_size in Hi. unfold pending_size in Hn. cbn in Hn. lia.
  - destruct pending as [|i pending]; [exists []; by intros []|]. apply Forall_cons in Hp as [Hi Hp].
    destruct (step_smaller _ Hi) as [Hitems Hsize]. destruct (step i) as [yielded items] eqn:E.
    destruct (IH (push items pending)) as (out & Hout).
    + rewrite push_spec. apply Forall_app. split; [|done]. by apply Forall_rev.
    + rewrite push_spec. unfold pending_size in *. rewrite sum_list_with_app, sum_rev. cbn in Hn, Hsize. lia.
    + exists (yielded ++ out). intros [|m] Hm; [lia|]. cbn [changes_loop]. rewrite E, Hout by lia. done.
Qed.

(** ** No field is named exactly when nothing differs *)

Definition equal_sides (i : field_item) : Prop :=
  ∃ before after, field_before i = Some before ∧ field_after i = Some after
    ∧ (distinct_keys before = true → distinct_keys after = true → py_eq before after = true).

Lemma py_eq_dict (d d' : pyobject) :
  NoDup (dict_keys d) → NoDup (dict_keys d') →
  (∀ k, k ∈ dict_keys d ∨ k ∈ dict_keys d' → ∃ v w, dict_get k d = Some v ∧ dict_get k d' = Some w ∧ py_eq v w = true) →
  py_eq (VDict d) (VDict d') = true.
Proof.
  intros Hd Hd' Hk. cbn [py_eq]. apply andb_true_iff. split.
  - apply Nat.eqb_eq. rewrite <-(length_fmap fst d), <-(length_fmap fst d'). apply Permutation_length, NoDup_Permutation; [done..|].
    intros k. split; intros Hin.
    + destruct (Hk k) as (v & w & _ & Hw & _); [by left|]. by eapply dict_get_Some_key.
    + destruct (Hk k) as (v & w & Hv & _); [by right|]. by eapply dict_get_Some_key.
  - assert (∀ k v, (k, v) ∈ d → ∃ w, dict_get k d' = Some w ∧ py_eq v w = true) as Hall.
    { intros k v Hin. apply dict_elem_get in Hin as Hv; [|done]. destruct (Hk k) as (v' & w & Hv' & Hw & He); [left; by eapply dict_get_Some_key|].
      rewrite Hv in Hv'. injection Hv' as <-. by exists w. }
    clear -Hall. induction d as [|[k v] d IH]; [done|]. destruct (Hall k v) as (w & -> & ->); [by left|].
    apply IH. intros k' v' Hin. apply Hall. by right.
Qed.

Lemma py_eq_list l l' :
  (∀ n, (n < length l `max` length l')%nat → ∃ v w, l !! n = Some v ∧ l' !! n = Some w ∧ py_eq v w = true) → py_eq (VList l) (VList l') = true.
Proof.
  revert l'. cbn [py_eq]. induction l as [|v l IH]; intros l' Hl.
  - destruct l' as [|w l']; [done|]. destruct (Hl 0%nat) as (? & ? & ? & _); [cbn; lia|done].
  - destruct l' as [|w l']; [by destruct (Hl 0%nat) as (? & ? & _ & ? & _); [cbn; lia|]|].
    destruct (Hl 0%nat) as (? & ? & [= <-] & [= <-] & ->); [cbn; lia|]. apply IH. intros n Hn. apply (Hl (S n)). cbn. lia.
Qed.

Lemma step_equal i : (step i).1 = [] → Forall equal_sides (step i).2 → equal_sides i.
Proof.
  destruct i as [path [before|] [after|]]; unfold change_step; cbn [field_path field_before field_after]; try done.
  unfold equal_sides at 2. cbn [field_before field_after]. destruct (py_eq before after) eqn:Heq; [intros _ _; by exists before, after|].
  case_bool_decide as Ht; [|done]. cbn [negb]. destruct before as [| | | | | |l|d]; try done.
  - destruct after as [| | | | | |l'|d']; try done. cbn [snd]. intros _ Hf. exists (VList l), (VList l'). split_and!; [done..|].
    intros Hl Hl'. apply py_eq_list. intros n Hn. cbn in Hl, Hl'. rewrite forallb_forall in Hl, Hl'.
    rewrite Forall_forall in Hf. set (item := FieldItem (diagnostic_label sha256_hex (path ++ &"/" ++ str_of_int (Z.of_nat n))) (l !! n) (l' !! n)).
    destruct (Hf item) as (v & w & Hv & Hw & He).
    + apply list_elem_of_fmap. exists n. split; [done|]. apply list_elem_of_In, in_rev. rewrite rev_involutive. apply list_elem_of_In, elem_of_seq. lia.
    + cbn in Hv, Hw. exists v, w. split_and!; [done..|]. apply He; [apply Hl|apply Hl']; apply list_elem_of_In; by eapply list_elem_of_lookup_2.
  - destruct after as [| | | | | |l'|d']; try done. cbn [snd]. intros _ Hf. exists (VDict d), (VDict d'). split_and!; [done..|].
    intros Hd Hd'. cbn [distinct_keys] in Hd, Hd'. apply andb_true_iff in Hd as [Hd%bool_decide_eq_true Hds], Hd' as [Hd'%bool_decide_eq_true Hds'].
    rewrite forallb_forall in Hds, Hds'. apply py_eq_dict; [done..|]. intros k Hk. rewrite Forall_forall in Hf.
    edestruct Hf as (v & w & Hv & Hw & He).
    + apply list_elem_of_fmap. exists k. split; [reflexivity|]. apply list_elem_of_In, in_rev. rewrite rev_involutive. by apply list_elem_of_In, all_keys_spec.
    + cbn in Hv, Hw. exists v, w. split_and!; [done..|].
      apply He; [apply (Hds (k, v))|apply (Hds' (k, w))]; apply list_elem_of_In; by apply dict_get_elem.
Qed.

Lemma loop_nil n pending : loop n pending = Some [] → Forall equal_sides pending.
Proof.
  revert pending. induction n as [|n IH]; intros [|i pending]; cbn [changes_loop]; try done.
  destruct (step i) as [yielded items] eqn:E. destruct (loop n _) as [rest|] eqn:El; [|done]. intros [= Hnil].
  apply app_eq_nil in Hnil as [-> ->]. apply IH in El. rewrite push_spec in El. apply Forall_app in El as [Hitems Hp].
  constructor; [|done]. apply step_equal; rewrite E; [done|]. cbn [snd]. by rewrite <-(rev_involutive items); apply Forall_rev.
Qed.

(** ** What a report contains *)

Definition label_ok (s : pystr) : Prop := (0 < length s ≤ 200)%nat ∧ forallb label_char s = true.

(** The text of a change: fixed, up to the names of types. *)
Definition change_text (s : pystr) : Prop :=
  s = &"missing in accepted RC" ∨ s = &"missing in final build" ∨ s = &"value changed"
  ∨ ∃ v w, s = &"type changed (" ++ lit (type_name v) ++ &" -> " ++ lit (type_name w) ++ &")".

Lemma matches_rep_upto_char f n s : matches (rep_upto n (Char f)) s ↔ (length s ≤ n)%nat ∧ forallb f s = true.
Proof.
  revert s. induction n as [|n IH]; intros s; cbn [rep_upto].
  - rewrite matches_eps_iff. destruct s; cbn; [naive_solver|]. split; [done|lia].
  - unfold opt. rewrite matches_alt_iff, matches_seq_iff, matches_eps_iff. split.
    + intros [->|(s1 & s2 & -> & (c & -> & Hc)%matches_char_iff & [Hl Hf]%IH)]; cbn; [split; [lia|done]|rewrite Hc; split; [lia|done]].
    + destruct s as [|c s]; [by left|]. cbn. rewrite andb_true_iff. intros [Hl [Hc Hf]]. right. exists [c], s.
      rewrite matches_char_iff, IH. split_and!; eauto. lia.
Qed.

Lemma label_re_ok s : fullmatch label_re s = true ↔ label_ok s.
Proof.
  unfold label_re, label_ok. rewrite fullmatch_iff, matches_seq_iff. setoid_rewrite matches_char_iff. setoid_rewrite matches_rep_upto_char. split.
  - intros (s1 & s2 & -> & (c & -> & Hc) & Hl & Hf). cbn [length forallb app]. rewrite Hc. split; [lia|done].
  - destruct s as [|c s]; [cbn; lia|]. cbn [length forallb]. rewrite andb_true_iff. intros [Hl [Hc Hf]]. exists [c], s. split_and!; [done|by exists c|exact (le_S_n _ _ (proj2 Hl))|done].
Qed.

Context (sha256_digest : ∀ b, fullmatch SHA256 (sha256_hex b) = true).

Lemma diagnostic_label_ok s : label_ok (diagnostic_label sha256_hex s).
Proof.
  unfold diagnostic_label. destruct (fullmatch label_re s) eqn:E; [by apply label_re_ok|].
  pose proof (sha256_digest (encode_surrogatepass s)) as [Hl Hf]%fullmatch_rep_char. split; [rewrite length_app, Hl; change (length (&"redacted-sha256-")) with 16%nat; lia|].
  rewrite forallb_app, andb_true_iff. split; [done|]. rewrite forallb_forall in Hf |- *. intros c Hc. apply Hf in Hc.
  unfold lower_hex, label_char, ascii_alnum, is_digit, in_range in *. rewrite !orb_true_iff, !andb_true_iff, !N.leb_le in *. lia.
Qed.

(** A reported field: its label, and its change. *)
Definition reported (c : pystr * pystr) : Prop := label_ok c.1 ∧ change_text c.2.

Lemma step_reports i : label_ok (field_path i) → Forall reported (step i).1 ∧ Forall (λ j, label_ok (field_path j)) (step i).2.
Proof.
  destruct i as [path [before|] [after|]]; unfold change_step; cbn [field_path field_before field_after]; intros Hp.
  2-4: split; [|done]; constructor; [|done]; split; [done|]; unfold change_text; cbn; tauto.
  destruct (py_eq before after); [done|]. case_bool_decide; cbn [negb].
  2: { split; [|done]. constructor; [|done]. split; [done|]. do 3 right. by exists before, after. }
  assert (reported (path, &"value changed")) as Hv by (split; [done|unfold change_text; tauto]).
  assert (∀ (A : Type) (f : A → field_item) l, (∀ x, ∃ s, field_path (f x) = diagnostic_label sha256_hex s) → Forall (λ j, label_ok (field_path j)) (f <$> l)) as Hq.
  { intros A f l Hf. apply Forall_fmap, Forall_forall. intros x _. destruct (Hf x) as [s Hs]. cbn. rewrite Hs. apply diagnostic_label_ok. }
  destruct before, after; cbn [fst snd]; (split; [first [by apply Forall_singleton|by apply Forall_nil]|first [apply Hq; intros; by eexists|by constructor]]).
Qed.

Lemma loop_reports n pending out : Forall (λ j, label_ok (field_path j)) pending → loop n pending = Some out → Forall reported out.
Proof.
  revert pending out. induction n as [|n IH]; intros [|i pending] out Hp; cbn [changes_loop]; try done; try (intros [= <-]; by apply Forall_nil).
  apply Forall_cons in Hp as [Hi Hp]. destruct (step_reports _ Hi) as [Hy Hitems]. destruct (step i) as [yielded items].
  destruct (loop n _) as [rest|] eqn:El; [|done]. intros [= <-]. apply Forall_app. split; [done|].
  eapply IH, El. rewrite push_spec. apply Forall_app. split; [by apply Forall_rev|done].
Qed.

(** C29: The comparison of two toolchains ends within its rounds, names no field
    exactly when the toolchains are equal, and what it names is safe to log: every
    path is a short label of harmless characters, and every change is a fixed text
    up to the names of types, so that no compared value is shown. *)
Theorem toolchain_changes_complete original current :
  ∃ changes, toolchain_changes sha256_hex original current = Ok changes ∧ Forall reported changes
    ∧ (distinct_keys original = true → distinct_keys current = true → changes = [] ↔ py_eq original current = true).
Proof.
  unfold toolchain_changes. set (root := FieldItem (&"toolchain") (Some original) (Some current)).
  destruct (loop_total (value_size original + value_size current) [root]) as (out & Hout).
  { constructor; [by left|done]. }
  { unfold pending_size, item_size. cbn. lia. }
  specialize (Hout _ (le_n _)). rewrite Hout. exists out. split; [done|]. split.
  - eapply loop_reports, Hout. constructor; [|done]. apply label_re_ok. vm_compute. reflexivity.
  - intros Ho Hc. split.
    + intros ->. apply loop_nil, Forall_cons in Hout as [(b & a & [= <-] & [= <-] & He) _]. by apply He.
    + intros He. destruct (value_size original + value_size current)%nat as [|n]; [done|]. cbn [changes_loop] in Hout.
      unfold change_step in Hout. cbn [root field_path field_before field_after] in Hout. rewrite He in Hout. cbn in Hout.
      destruct n; by injection Hout as <-.
Qed.
End facts.

(** ** Two toolchains *)

Definition old_toolchain : pyval :=
  VDict [(&"python", VStr (&"3.13.1")); (&"RUNNER_OS", VStr (&"Linux")); (&"go", VInt 1); (&"a b", VList [VInt 1; VInt 2])].
Definition new_toolchain : pyval :=
  VDict [(&"RUNNER_OS", VStr (&"Linux")); (&"python", VStr (&"3.13.2")); (&"go", VStr (&"1")); (&"a b", VList [VInt 1])].

Lemma toolchain_changes_complete_witness :
  toolchain_changes demo_sha old_toolchain new_toolchain
    = Ok [(&"redacted-sha256-" ++ demo_sha [] ++ &"/1", &"missing in final build"); (&"toolchain/go", &"type changed (int -> str)"); (&"toolchain/python", &"value changed")]
  ∧ ∃ changes, toolchain_changes demo_sha old_toolchain old_toolchain = Ok changes ∧ changes = [].
Proof.
  split; [vm_compute; reflexivity|]. destruct (toolchain_changes_complete demo_sha demo_sha_ok old_toolchain old_toolchain) as (changes & Hc & _ & Hiff).
  exists changes. split; [exact Hc|]. apply Hiff; vm_compute; reflexivity.
Defined.
