(* ===== verification/ReleaseVersion.v ===== *)
(** * The base version of a release ([scripts/release.py])

    Where a version comes from when the caller names none: the policy itself, a
    metadata file of the repository, or, when the policy says so, the stable tags.
    The file system, Git and [tomllib] are arguments. *)

From Stdlib Require Import QArith.QArith Strings.Byte.
From S2P Require Import Prelude PyStr PyDict PyRegex PyMatch PyVal PyJson PyPath VersionPlan JsonDocument TomlEdit VersionEdit Release ReleaseValidation OciMetadata Fuzz.
#[local] Open Scope Z_scope.

(** [value.strip().removeprefix("v").split("-", 1)[0]], a strict version *)
Definition base_version (value : pyval) : outcome pystr :=
  match value with
  | VStr s =>
    let s := strip s in
    let s := (partition (chr "-") (if startswith (&"v") s then drop 1 s else s)).1 in
    _ ← check (fullmatch BASE s) (value_error_of "Expected X.Y.Z version");
    Ok s
  | _ => Raise attribute_error
  end.

(** A letter under [re.IGNORECASE]: besides its two cases, the long s, the dotless i
    and the dotted capital i. *)
Definition any_case (c d : N) : bool :=
  bool_decide (d = c) || (ascii_lower_char d =? c)%N
  || bool_decide (c = chr "s" ∧ d = 383%N) || bool_decide (c = chr "i" ∧ d ∈ [304; 305]%N).
Definition word_any_case (s : pystr) : pattern := foldr (λ c p, PSeq (PChar (any_case c)) p) PEps s.

Section metadata.
Context `{EditLibrary}.

(** [^\s*(?:__version__|VERSION|version)\s*[:=]\s*Q?], where Q is a quotation mark *)
Definition version_line : pattern :=
  pseq [spaces; PAlt (word_any_case (&"__version__")) (word_any_case (&"version")); spaces; PChar (one_of ":=");
        spaces; popt (PChar (λ c, bool_decide (c ∈ [34; 39]%N)))].

(** [[0-9]+\.[0-9]+\.[0-9]+(?:-[\w.]+)?] *)
Definition version_number : pattern :=
  let number := pplus (PChar is_digit) in
  pseq [number; pchars (&"."); number; pchars (&"."); number;
        popt (PSeq (pchars (&"-")) (pplus (PChar (λ c, unicode_word c || (c =? chr ".")%N))))].

(** [re.search] of both, in lines *)
Definition find_version (data : pystr) : option pystr :=
  match find_all (line_start data) [version_line; version_number] data 0 with
  | (_, [start; stop]) :: _ => Some (take (stop - start) (drop start data))
  | _ => None
  end.

(** The first section of a TOML document that has a version. *)
Fixpoint section_version (sections : list pyval) : outcome (option pystr) :=
  match sections with
  | [] => Ok None
  | section :: sections =>
    d ← as_dict section;
    match get_key "version" d with
    | VStr s => v ← base_version (VStr s); Ok (Some v)
    | _ => section_version sections
    end
  end.

Definition toml_sections (parsed : pyobject) : outcome (list pyval) :=
  workspace ← as_dict (get_default (&"workspace") (VDict []) parsed);
  Ok [get_default (&"project") (VDict []) parsed; get_default (&"package") (VDict []) parsed;
      get_default (&"package") (VDict []) workspace].

(** [metadata_version]; [inside] says whether the resolved path is in the
    repository, and [data] is the text of the file. *)
Definition metadata_version (name : pystr) (inside : bool) (data : outcome pystr) : outcome pystr :=
  _ ← check inside (value_error_of "version_file must stay inside the repository");
  data ← data;
  let suffix := path_suffix (path_of name) in
  if bool_decide (suffix = &".json") then
    v ← json_loads keep_last data;
    d ← match v with VDict d => Ok d | _ => Raise (type_error_of "indices must be integers") end;
    version ← item (&"version") d;
    base_version version
  else
    found ← (if bool_decide (suffix = &".toml") then parsed ← toml_loads data; sections ← toml_sections parsed; section_version sections else Ok None);
    match found with
    | Some v => Ok v
    | None => base_version (VStr (default data (find_version data)))
    end.
End metadata.

(** ** Tags *)

(** [tuple(map(int, tag[1:].split(".")))] of a stable tag *)
Definition tag_triple (tag : pystr) : option (Z * Z * Z) :=
  if startswith (&"v") tag && fullmatch BASE (drop 1 tag) then
    match split (chr ".") (drop 1 tag) with
    | [a; b; c] => Some (int_of_digits a, int_of_digits b, int_of_digits c)
    | _ => None
    end
  else None.

(** [a <= b] of two triples *)
Definition triple_leb (a b : Z * Z * Z) : bool :=
  let '(a1, a2, a3) := a in let '(b1, b2, b3) := b in
  (a1 <? b1) || (a1 =? b1) && ((a2 <? b2) || (a2 =? b2) && (a3 <=? b3)).

Definition max_triple (a b : Z * Z * Z) : Z * Z * Z := if triple_leb b a then a else b.

(** [next_tag_version] of the lines that Git lists *)
Definition next_tag_version (tags : list pystr) : outcome pystr :=
  match omap tag_triple tags with
  | [] => Raise (value_error_of "No stable version tags exist; configure a committed version source")
  | t :: ts =>
    let '(major, minor, patch) := fold_left max_triple ts t in
    Ok (str_of_int major ++ &"." ++ str_of_int minor ++ &"." ++ str_of_int (patch + 1))
  end.

(** The repository: whether the path of a metadata file stays inside and the text it
    holds, and the tags merged into the commit. *)
Record sources : Type := Sources { metadata : pystr → bool * outcome pystr; merged_tags : outcome (list pystr) }.

Section resolution.
Context `{EditLibrary} (root : sources).

(** [resolve_version] *)
Definition resolve_version (config : pyobject) (requested : pyval) : outcome pystr :=
  if truthy requested then
    ok ← match_object BASE requested;
    _ ← check ok (value_error_of "Requested version must be X.Y.Z without a prefix or suffix");
    Ok (str_value requested)
  else if truthy (get_key "version" config) then base_version (get_key "version" config)
  else if truthy (get_key "version_file" config) then
    match get_key "version_file" config with
    | VStr name => metadata_version name (metadata root name).1 (metadata root name).2
    | _ => Raise (type_error_of "unsupported operand type(s)")
    end
  else if truthy (get_key "version_from_tags" config) then
    tags ← merged_tags root; next_tag_version tags
  else Raise (value_error_of "Set version_file in .release-policy.json or pass --version X.Y.Z").
End resolution.

Example resolve_version_demo :
  let root := Sources (λ _, (true, Ok (&"name: x" ++ [10%N] ++ &"  Version = '1.2.3-beta'" ++ [10%N]))) (Ok [&"v1.9.0"; &"v1.10.0"; &"v2.0.0-rc.1"; &"x"]) in
  resolve_version (H:=demo_library) root [] (VStr (&"1.2.3")) = Ok (&"1.2.3")
  ∧ is_ok (resolve_version (H:=demo_library) root [] (VStr (&"v1.2.3"))) = false
  ∧ resolve_version (H:=demo_library) root [(&"version_file", VStr (&"setup.cfg"))] (VStr []) = Ok (&"1.2.3")
  ∧ resolve_version (H:=demo_library) root [(&"version_from_tags", VBool true)] VNone = Ok (&"1.10.1").
Proof. vm_compute. done. Qed.
