(* ===== verification/Readback.v ===== *)
(** * The creation of a release, and its readback ([scripts/release_control.py])

    A versioned release is created by one request that is never repeated.  When its
    answer is lost, one bounded, read-only observation decides: the inventory is
    read twice, and only this call's own empty draft goes on to the upload. *)

From Stdlib Require Import QArith.QArith QArith.Qminmax Strings.Byte.
From S2P Require Import Prelude PyStr PyDict PyRegex PyVal PyJson VersionPlan JsonDocument TomlEdit VersionEdit Release ReleaseValidation OciMetadata Fuzz ReleaseExecution Transport ReleaseNotes.
#[local] Open Scope Z_scope.
#[local] Open Scope regex_scope.

(** ** URLs ([urllib.parse], of ASCII text) *)

Record url_parts : Type := UrlParts { url_scheme : pystr; url_netloc : pystr; url_path : pystr; url_query : pystr; url_fragment : pystr }.

Definition scheme_char (c : N) : bool := ascii_alnum c || one_of "+-." c.
Definition ascii_alpha (c : N) : bool := in_range 65 90 c || in_range 97 122 c.

(** The scheme and the rest. *)
Definition split_scheme (url : pystr) : pystr * pystr :=
  let '(scheme, rest) := partition (chr ":") url in
  if has (chr ":") url && match scheme with c :: _ => ascii_alpha c && forallb scheme_char scheme | [] => false end
  then (ascii_lower_char <$> scheme, rest) else ([], url).

Definition netloc_char (c : N) : bool := negb (one_of "/?#" c).

(** [urlsplit]; a host in brackets is refused here, where the standard library
    refuses the malformed ones. *)
Definition urlsplit (url : pystr) : outcome url_parts :=
  let url := filter (λ c, c ∉ [9; 10; 13]%N) (drop_while (λ c, c <=? 32)%N url) in
  let '(scheme, url) := split_scheme url in
  let '(netloc, url) := if startswith (&"//") url then (take_while netloc_char (drop 2 url), drop_while netloc_char (drop 2 url)) else ([], url) in
  _ ← check (negb (has (chr "[") netloc || has (chr "]") netloc)) (Exn EValue "Invalid IPv6 URL");
  let '(url, fragment) := partition (chr "#") url in
  let '(path, query) := partition (chr "?") url in
  Ok (UrlParts scheme netloc path query fragment).

(** [parse_qs(query, strict_parsing=True, keep_blank_values=True)] *)
Definition query_text (s : pystr) : pystr := unquote ((λ c, if (c =? chr "+")%N then 32%N else c) <$> s).
Fixpoint query_pairs (pairs : list pystr) (d : pydict pystr (list pystr)) : outcome (pydict pystr (list pystr)) :=
  match pairs with
  | [] => Ok d
  | field :: pairs =>
    _ ← check (has (chr "=") field) (Exn EValue "bad query field");
    let '(name, value) := partition (chr "=") field in
    let name := query_text name in
    query_pairs pairs (dict_set name (default [] (dict_get name d) ++ [query_text value]) d)
  end.
Definition parse_qs (query : pystr) : outcome (pydict pystr (list pystr)) :=
  if bool_decide (query = []) then Ok [] else query_pairs (split (chr "&") query) [].

(** ** The observation *)

(** [CreateReadback]: its deadline, the bytes it may still read, its calls, and the
    repository's number once it was asked for. *)
Record readback : Type := Readback { rb_deadline : Q; rb_remaining : Z; rb_calls : Z; rb_repository : option Z }.

Definition READBACK_SECONDS : Q := 180.
Definition READBACK_BYTES : Z := 64 * 1024 * 1024.
Definition READBACK_CALLS : Z := 100.
Definition READBACK_PAGE : Z := 100.

Section readback.
Context `{UnicodeCase} {P : Type} `{Shell P} `{Host P}.
Context (casefold : pystr → pystr) (unicode_digit : N → bool) (float_repr : Q → pystr) (repo : pystr).

Notation R := (M (P * readback)).
Definition on_process {A} (m : M P A) : R A := zoom fst (λ s t, (s, t.2)) m.
Definition set_readback (f : readback → readback) : R unit := modify (λ t, (t.1, f t.2)).

(** [CreateReadback(repository)] *)
Definition new_readback : M P readback :=
  _ ← lift (release_require (fullmatch REPO_RE repo) "Invalid readback repository");
  t ← monotonic;
  mret (Readback (t + READBACK_SECONDS) READBACK_BYTES 0 None).

(** [check] *)
Definition readback_check : R Q :=
  t ← on_process monotonic;
  state ← get;
  let remaining := (rb_deadline state.2 - t)%Q in
  _ ← lift (release_require (Qlt_bool 0 remaining) "Create readback deadline exceeded");
  mret remaining.

(** An explicit page of an inventory. *)
Definition page_path : regex :=
  chars (&"releases") ⋅ opt (chars (&"/") ⋅ Char one_to_nine ⋅ Star (Char unicode_digit) ⋅ chars (&"/assets"))
  ⋅ chars (&"?per_page=100&page=") ⋅ Char one_to_nine ⋅ Star (Char unicode_digit).

Definition check_path (path : pystr) : outcome unit :=
  _ ← release_require (existsb (λ r, fullmatch r path) GET_PATHS || fullmatch page_path path) "Invalid create readback path";
  release_require (forallb (λ part, negb (bool_decide (part ∈ [&"."; &".."]))) (split (chr "/") (unquote path))) "Invalid create readback path".

Definition readback_command (path : pystr) : list pystr :=
  [&"gh"; &"api"; &"--hostname"; &"github.com"; &"--include"; &"--method"; &"GET"; &"--";
   &"repos/" ++ repo ++ (if bool_decide (path = []) then [] else &"/" ++ path)].

(** What a finished read gives: the value and the bytes of the head. *)
Definition readback_answer (result : completed) : outcome (pyval * bytes) :=
  '(status, body) ← github_http_response float_repr (stdout result) false;
  _ ← release_require ((returncode result =? 0) && (status =? 200)) "Create readback GET failed";
  value ← parse_json body;
  Ok (value, take (length (stdout result) - length body) (stdout result)).

(** [get] *)
Definition readback_get (path : pystr) : R (pyval * bytes) :=
  _ ← lift (check_path path);
  _ ← set_readback (λ b, Readback (rb_deadline b) (rb_remaining b) (rb_calls b + 1) (rb_repository b));
  state ← get;
  _ ← lift (release_require (rb_calls state.2 <=? READBACK_CALLS) "Create readback request limit exceeded");
  left ← readback_check;
  result ← on_process (run_process (readback_command path) None (Some (Qmin API_READ_TIMEOUT left)));
  match result with
  | TimedOut _ _ => raise (github_error false "Create readback GET timed out")
  | Finished result =>
    _ ← readback_check;
    let read := Z.of_nat (length (stdout result) + length (stderr result)) in
    _ ← set_readback (λ b, Readback (rb_deadline b) (rb_remaining b - read) (rb_calls b) (rb_repository b));
    state ← get;
    _ ← lift (release_require (0 <=? rb_remaining state.2) "Create readback response limit exceeded");
    lift (readback_answer result)
  end.

(** [json] *)
Definition readback_json (path : pystr) : R pyval := p ← readback_get path; mret p.1.

(** *** Inventories *)

(** The records of a page; [seen] are the numbers so far. *)
Fixpoint page_records (values : list pyval) (seen : list Z) : outcome (list pyobject * list Z) :=
  match values with
  | [] => Ok ([], seen)
  | value :: values =>
    _ ← release_require (is_dict value) "Invalid create inventory record";
    let record := dict_of value in
    identity ← positive (get_key "id" record) "Invalid inventory ID";
    _ ← release_require (negb (bool_decide (identity ∈ seen))) "Duplicate create inventory ID";
    '(records, seen) ← page_records values (identity :: seen);
    Ok (record :: records, seen)
  end.

(** [line.split(b":", 1)[1].strip()] of the lines that name a link. *)
Definition link_values (header : bytes) : list pystr :=
  (λ line, strip_of byte_space (partition (chr ":") line).2)
  <$> filter (λ line, startswith (&"link:") (ascii_lower_char <$> line) = true) (latin <$> byte_lines header).

(** The target and the relation of one link of a header. *)
Definition link_parts (link : pystr) : option (pystr * pystr) :=
  let link := lstrip link in
  let target := take_while (λ c, negb (one_of "<>" c)) (drop 1 link) in
  let rest := drop (1 + length target) link in
  let relation := lstrip (drop 2 rest) in
  let word := take_while ascii_alpha (drop 5 relation) in
  if startswith (&"<") link && negb (bool_decide (target = [])) && startswith (&">;") rest
     && startswith (&"rel=" ++ [34%N]) relation && bool_decide (word ∈ [&"next"; &"prev"; &"first"; &"last"])
     && bool_decide (rstrip (drop (5 + length word) relation) = [34%N])
  then Some (target, word) else None.

(** The host and the query of the next page; the path is judged by the caller. *)
Definition next_target (page : Z) (target : pystr) : outcome pystr :=
  url ← urlsplit target;
  expected ← (if bool_decide (url_scheme url = &"https" ∧ url_netloc url = &"api.github.com" ∧ url_fragment url = []) then
                query ← parse_qs (url_query url);
                Ok (bool_decide (length query = 2%nat ∧ dict_get (&"per_page") query = Some [&"100"]
                                 ∧ dict_get (&"page") query = Some [str_of_int (page + 1)]))
              else Ok false);
  _ ← release_require expected "Unexpected create pagination target";
  Ok (url_path url).

Definition REPOSITORIES : pystr := &"/repositories/".

(** The repository's number, asked for once. *)
Definition repository_id : R Z :=
  state ← get;
  match rb_repository state.2 with
  | Some id => mret id
  | None =>
    info ← readback_json [];
    id ← lift (_ ← release_require (is_dict info) "Invalid readback repository metadata";
               let name := get_key "full_name" (dict_of info) in
               let id := get_key "id" (dict_of info) in
               _ ← release_require (str_match REPO_RE name && bool_decide (casefold (str_value name) = casefold repo)
                                    && type_is_int id && (0 <? int_value id))
                     "Create readback repository identity changed";
               Ok (int_value id));
    _ ← set_readback (λ b, Readback (rb_deadline b) (rb_remaining b) (rb_calls b) (Some id));
    mret id
  end.

(** The path of the next page: by the name of the repository, or by its number. *)
Definition check_target (path target : pystr) : R unit :=
  if bool_decide (target = &"/repos/" ++ repo ++ &"/" ++ path) then mret tt
  else
    _ ← lift (release_require (fullmatch (chars REPOSITORIES ⋅ positive_numeral ⋅ chars (&"/" ++ path)) target) "Unexpected create pagination path");
    id ← repository_id;
    lift (release_require (int_of_digits (take_while is_digit (drop (length REPOSITORIES) target)) =? id) "Create pagination repository ID changed").

(** How many links of a header lead to the next page. *)
Fixpoint next_links (path : pystr) (page : Z) (links : list pystr) : R nat :=
  match links with
  | [] => mret 0%nat
  | link :: links =>
    parts ← lift match link_parts link with Some p => Ok p | None => Raise (release_error "Invalid create pagination link") end;
    next ← (if bool_decide (parts.2 = &"next") then
              target ← lift (next_target page parts.1);
              _ ← check_target path target;
              mret 1%nat
            else mret 0%nat);
    rest ← next_links path page links;
    mret (next + rest)%nat
  end.

(** [links[0].decode("ascii")] *)
Definition link_text (s : pystr) : outcome pystr := if is_ascii s then Ok s else Raise (Exn EUnicode "").

(** One page: its records, the numbers seen, and whether it is the last. *)
Definition inventory_page (path : pystr) (page : Z) (seen : list Z) : R (list pyobject * list Z * bool) :=
  p ← readback_get (path ++ &"?per_page=100&page=" ++ str_of_int page);
  let '(values, header) := p in
  _ ← lift (release_require (is_list values && (Z.of_nat (length (list_value values)) <=? READBACK_PAGE)) "Invalid create inventory page");
  '(records, seen) ← lift (page_records (list_value values) seen);
  let links := link_values header in
  _ ← lift (release_require (bool_decide (length links <= 1)%nat) "Duplicate pagination header");
  next ← match links with
         | link :: _ => text ← lift (link_text link); next_links path page (split (chr ",") text)
         | [] => mret 0%nat
         end;
  _ ← lift (release_require (bool_decide (next <= 1)%nat) "Duplicate next-page link");
  if bool_decide (next = 0%nat) && (Z.of_nat (length (list_value values)) <? READBACK_PAGE) then mret (records, seen, true)
  else
    _ ← lift (release_require (negb (bool_decide (list_value values = []))) "Empty create inventory page has a successor");
    mret (records, seen, false).

(** The loop over the pages; [None] says that the rounds were used up. *)
Fixpoint inventory_loop (n : nat) (path : pystr) (page : Z) (seen : list Z) (records : list pyobject) : R (option (list pyobject)) :=
  match n with
  | O => mret None
  | S n =>
    '(more, seen, final) ← inventory_page path page seen;
    if final : bool then mret (Some (records ++ more))
    else inventory_loop n path (page + 1) seen (records ++ more)
  end.

(** One round more than the calls that are allowed. *)
Definition READBACK_ROUNDS : nat := 101.

(** [pages] *)
Definition readback_pages (path : pystr) : R (list pyobject) :=
  records ← inventory_loop READBACK_ROUNDS path 1 [] [];
  match records with Some l => mret l | None => raise (Exn EOther "more pages than calls") end.

(** ** Reconciliation *)

(** [{row["id"]: row.get("tag_name") for row in rows}] against another inventory's;
    the numbers of an inventory are distinct. *)
Definition inventory (rows : list pyobject) : list (pyval * pyval) := (λ row, (get_key "id" row, get_key "tag_name" row)) <$> rows.
Definition same_rows (l k : list (pyval * pyval)) : bool :=
  bool_decide (length l = length k) && forallb (λ r, existsb (λ q, py_eq r.1 q.1 && py_eq r.2 q.2) k) l.

(** The rows of the requested tag. *)
Definition tagged (tag : pyval) (rows : list pyobject) : list pyobject := filter (λ row, py_eq (get_key "tag_name" row) tag = true) rows.

(** The fields of a draft against the request: the same types, the same values. *)
Definition requested (payload value : pyobject) : bool :=
  forallb (λ f, bool_decide (f.1 = &"make_latest") || bool_decide (get_default f.1 VNone value = f.2)) payload.

(** [checked_release] *)
Definition checked_release (payload : pyobject) (release_id : Z) (v : pyval) : outcome pyobject :=
  _ ← release_require (is_dict v) "Invalid create readback release";
  let value := dict_of v in
  let author := get_key "author" value in
  _ ← release_require (bool_decide (get_key "id" value = VInt release_id)
                       && text_is (get_key "url" value) (&"https://api.github.com/repos/" ++ repo ++ &"/releases/" ++ str_of_int release_id)
                       && in_dict (&"published_at") value && bool_decide (get_key "published_at" value = VNone)
                       && bool_decide (get_key "assets" value = VList []) && is_dict author && requested payload value)
        "Create readback release differs from the exact request";
  _ ← positive (get_key "id" (dict_of author)) "Invalid release author ID";
  Ok value.

Definition same_author (a b : pyobject) : bool := py_eq (get_key "author" a) (get_key "author" b).

(** The tag is at the requested commit. *)
Definition check_created_tag (tag sha : pyval) (ref : pyval) : outcome unit :=
  let d := dict_of ref in
  let object := get_key "object" d in
  release_require (is_dict ref && text_is (get_key "ref" d) (&"refs/tags/" ++ str_value tag) && is_dict object
                   && text_is (get_key "type" (dict_of object)) (&"commit") && py_eq (get_key "sha" (dict_of object)) sha)
    "Create readback tag source changed".

(** What the two inventories say: the number of the one release of the tag, and its
    row. *)
Definition single_draft (payload : pyobject) (first second : list pyobject) : outcome (Z * pyobject) :=
  _ ← release_require (same_rows (inventory first) (inventory second)) "Release inventory changed during readback";
  tag ← item (&"tag_name") payload;
  match tagged tag second with
  | [listed] =>
    release_id ← positive (get_key "id" listed) "Invalid release ID";
    match tagged tag first with
    | [original] =>
      listed ← checked_release payload release_id (VDict listed);
      original ← checked_release payload release_id (VDict original);
      _ ← release_require (same_author original listed) "Create readback listed author changed";
      Ok (release_id, listed)
    | _ => Raise (release_error "Create readback original inventory is contradictory")
    end
  | _ => Raise (release_error "Create readback requires one matching release")
  end.

Definition no_assets (release_id : Z) (message : string) : R unit :=
  assets ← readback_pages (&"releases/" ++ str_of_int release_id ++ &"/assets");
  lift (release_require (bool_decide (assets = [])) message).

Definition read_draft (payload : pyobject) (release_id : Z) : R pyobject :=
  v ← readback_json (&"releases/" ++ str_of_int release_id);
  lift (checked_release payload release_id v).

(** The observation, in a readback of its own; [confirm] is the caller's. *)
Definition observe (payload : pyobject) (confirm : R unit) : R pyobject :=
  _ ← confirm;
  first ← readback_pages (&"releases");
  second ← readback_pages (&"releases");
  '(release_id, listed) ← lift (single_draft payload first second);
  release ← read_draft payload release_id;
  _ ← lift (release_require (same_author release listed) "Create readback author differs from inventory");
  _ ← no_assets release_id "Create readback draft is not empty";
  tag ← lift (item (&"tag_name") payload);
  ref ← readback_json (&"git/ref/tags/" ++ str_value tag);
  _ ← lift (sha ← item (&"target_commitish") payload; check_created_tag tag sha ref);
  _ ← confirm;
  final ← read_draft payload release_id;
  _ ← lift (release_require (same_author final release) "Create readback author changed");
  _ ← no_assets release_id "Create readback draft gained assets";
  _ ← readback_check;
  mret final.

(** [_reconcile_created_release] *)
Definition reconcile_created_release (payload : pyobject) (confirm : R unit) : M P pyobject :=
  state ← new_readback;
  (λ s, let '(t, r) := observe payload confirm (s, state) in (t.1, r)) : M P pyobject.

(** ** The one request that creates a release *)

(** An answer whose status line says that the request was refused. *)
Definition rejected (out : bytes) : bool :=
  fullmatch (http_version ⋅ chars (&" 4") ⋅ Char is_digit ⋅ Char is_digit ⋅ then_end byte_space) (latin out).

(** A body that ended too early. *)
Definition decode_failure (result : completed) : bool :=
  (returncode result =? 1)
  && fullmatch ((anything ⋅ chars (&":") ⋅ Star (Char byte_space) ⊹ Eps) ⋅ chars (&"unexpected end of JSON input") ⋅ Star (Char byte_space))
       (latin (stderr result)).

(** Text that is no JSON, as opposed to JSON with a duplicate field. *)
Definition json_lost (data : bytes) : bool :=
  match (text ← decode_json data; json_loads (λ pairs, no_duplicates pairs []) text) with
  | Raise e => is_value_error (exn_kind e)
  | Ok _ => false
  end.

Definition create_command : list pystr :=
  [&"gh"; &"api"; &"--hostname"; &"github.com"; &"--include"; &"--method"; &"POST"; &"--input"; &"-"; &"--"; &"repos/" ++ repo ++ &"/releases"].

(** What the answer to the request means; [None] is [AmbiguousCreate]. *)
Definition create_outcome (answer : process) : outcome (option pyval) :=
  match answer with
  | TimedOut out err =>
    if denied_partial_read out err false || rejected out then Raise (github_error false "Release create timed out with a denial") else Ok None
  | Finished result =>
    let denied := denied_partial_read (stdout result) (stderr result) false || rejected (stdout result) in
    let transport := transient_read_failure result || decode_failure result in
    match github_http_response float_repr (stdout result) false with
    | Raise e =>
      match exn_kind e with
      | EGitHub _ => if transport && negb denied then Ok None else Raise (github_error false "Release create response framing failed")
      | _ => Raise e
      end
    | Ok (status, raw) =>
      if denied || (400 <=? status) && (status <? 500) then Raise (github_error false "Release create was rejected")
      else if bool_decide (status ∈ [500; 502; 503; 504]) && bool_decide (returncode result ∈ [0; 1]) || success status && transport then Ok None
      else
        _ ← release_require ((returncode result =? 0) && (status =? 201)) "Unexpected release create outcome";
        if json_lost raw then Ok None
        else v ← parse_json raw; _ ← release_require (is_dict v) "Invalid release create response"; Ok (Some v)
    end
  end.

Definition CREATE_TIMEOUT : Q := 120.

(** [create_release_once] *)
Definition create_release_once (body : pyobject) : M P (option pyval) :=
  input ← lift (json_bytes_indented float_repr (VDict body));
  answer ← run_process create_command (Some input) (Some CREATE_TIMEOUT);
  lift (create_outcome answer).

(** The creation of [_publish_prepared] with a confirmation. *)
Definition create_or_reconcile (confirm : R unit) (payload : pyobject) : M P pyval :=
  created ← create_release_once payload;
  match created with
  | Some release => mret release
  | None => release ← reconcile_created_release payload confirm; mret (VDict release)
  end.

(** ** The permissions of a publication *)

(** The scopes in the heads of an answer. *)
Definition oauth_scopes (headers : bytes) : list pystr :=
  (splitlines_keep (decode_replace headers)) ≫= λ line,
    let '(key, value) := partition (chr ":") line in
    if has (chr ":") line && bool_decide (str_lower key = &"x-oauth-scopes") then strip <$> split (chr ",") value else [].

(** [bytes.partition] at a blank line, after [CRLF] became [LF]. *)
Fixpoint unix_bytes (b : bytes) : bytes :=
  match b with
  | Byte.x0d :: ((Byte.x0a :: _) as rest) => unix_bytes rest
  | c :: rest => c :: unix_bytes rest
  | [] => []
  end.
Fixpoint blank_split (b : bytes) : option (bytes * bytes) :=
  match b with
  | Byte.x0a :: Byte.x0a :: rest => Some ([], rest)
  | c :: rest => p ← blank_split rest; Some (c :: p.1, p.2)
  | [] => None
  end.

Definition probe_command : list pystr :=
  [&"gh"; &"api"; &"--hostname"; &"github.com"; &"--method"; &"GET"; &"--include"; &"--"; &"repos/" ++ repo].

Definition check_scopes (scopes : list pystr) (repository : pyobject) : outcome unit :=
  release_require (bool_decide (&"workflow" ∈ scopes)
                   && (bool_decide (&"repo" ∈ scopes)
                       || bool_decide (get_key "private" repository = VBool false) && bool_decide (&"public_repo" ∈ scopes)))
    "Publication token requires verified workflow and repo/public_repo OAuth scopes".

(** [verify_publication_permissions]; the flag it sets is [scope_verified] of the
    client that goes on. *)
Definition verify_publication_permissions : M P unit :=
  _ ← lift (release_require (env_is "RELEASE_REQUIRE_WORKFLOW_SCOPE" (&"true") && negb (bool_decide (default [] (env "GH_TOKEN") = [])))
              "Publication token is missing or its permission probe is not enabled");
  answer ← run_process probe_command None None;
  match answer with
  | TimedOut _ _ => raise (Exn EOther "TimeoutExpired")
  | Finished result =>
    lift (_ ← release_require (returncode result =? 0) "Publication token permission probe failed";
          match blank_split (unix_bytes (stdout result)) with
          | None => Raise (release_error "Publication token permission headers are missing")
          | Some (headers, body) =>
            v ← parse_json body;
            let repository := dict_of v in
            let name := get_key "full_name" repository in
            _ ← release_require (is_dict v && is_str name && bool_decide (str_lower (str_value name) = str_lower repo)
                                 && match get_key "private" repository with VBool _ => true | _ => false end
                                 && is_dict (get_key "permissions" repository)
                                 && bool_decide (get_key "push" (dict_of (get_key "permissions" repository)) = VBool true))
                  "Publication token cannot write the expected repository";
            check_scopes (oauth_scopes headers) repository
          end)
  end.
End readback.
