(* ===== verification/ReadbackFacts.v ===== *)
(** * What the creation of a release guarantees

    However the processes it starts answer, a creation sends its request once; after
    an answer that was lost it only reads, within its bounds, and goes on with a
    draft of exactly the requested fields, without assets, that two inventories show
    as the only release of its tag. *)

From Stdlib Require Import QArith.QArith QArith.Qminmax Strings.Byte.
From S2P Require Import Prelude PyStr PyDict PyRegex PyVal PyJson VersionPlan Release OciMetadata Fuzz ReleaseRuns ReleaseExecution Transport TransportFacts ReleaseNotes Readback.
#[local] Open Scope Z_scope.

(** The process around the shell: every answer is a function of the actions so far. *)
Definition shell_host (environ : pydict pystr pystr) (clock : list action → outcome Q) : Host (list action) := {|
  ReleaseExecution.environ := environ;
  read_file _ := raise (Exn EOS "");
  rev_parse_head := raise (Exn EOS "");
  monotonic := λ l, (l, clock l);
  sleep _ := mret tt;
  announce _ _ := mret tt;
|}.

Section observed.
Context `{UnicodeCase} (answer : list action → outcome process) (environ : pydict pystr pystr) (clock : list action → outcome Q).
#[local] Hint Extern 0 (Shell (list action)) => exact (recorded answer) : typeclass_instances.
#[local] Hint Extern 0 (Host (list action)) => exact (shell_host environ clock) : typeclass_instances.
Context (casefold : pystr → pystr) (unicode_digit : N → bool) (float_repr : Q → pystr) (repo : pystr).

(** ** Bounded reading *)

(** A read of the observation: an allowed path, no input, at most 30 seconds. *)
Definition is_readback (a : action) : Prop :=
  ∃ path timeout, a = Run (readback_command repo path) None (Some timeout) ∧ check_path unicode_digit path = Ok tt ∧ (timeout <= API_READ_TIMEOUT)%Q.

(** A computation that only reads, counts each read, and stops at the limit. *)
Definition observes {A} (m : M (list action * readback) A) : Prop := ∀ t t' r, m t = (t', r) →
  ∃ k, t'.1 = t.1 ++ k ∧ Forall is_readback k ∧ (k = [] ∨ rb_calls t.2 + Z.of_nat (length k) <= READBACK_CALLS)
    ∧ rb_calls t.2 + Z.of_nat (length k) <= rb_calls t'.2.

Lemma observes_nothing {A} (m : M (list action * readback) A) :
  (∀ t, (m t).1.1 = t.1 ∧ rb_calls (m t).1.2 = rb_calls t.2) → observes m.
Proof.
  intros Hm t t' r Ht. specialize (Hm t). rewrite Ht in Hm. cbn in Hm. destruct Hm as [-> ->]. exists []. rewrite app_nil_r.
  split_and!; [done|constructor|by left|cbn; lia].
Qed.
Lemma observes_lift {A} (m : outcome A) : observes (lift m).
Proof. by apply observes_nothing. Qed.
Lemma observes_ret {A} (a : A) : observes (mret a).
Proof. by apply observes_nothing. Qed.
Lemma observes_raise {A} e : observes (raise e : M (list action * readback) A).
Proof. by apply observes_nothing. Qed.
Lemma observes_get : observes get.
Proof. by apply observes_nothing. Qed.
Lemma observes_set f : (∀ b, rb_calls (f b) = rb_calls b) → observes (set_readback f).
Proof. intros Hf. apply observes_nothing. intros [l b]. cbn. by rewrite Hf. Qed.
Lemma observes_bind {A B} (m : M (list action * readback) A) (f : A → M (list action * readback) B) :
  observes m → (∀ a, observes (f a)) → observes (m ≫= f).
Proof.
  intros Hm Hf t t' r. unfold mbind, M_bind. destruct (m t) as [t1 [a|e]] eqn:E; [|intros [= <- <-]; by eapply Hm].
  intros Ha. apply Hm in E as (k & E1 & Hk & Hlim & Hcount). apply Hf in Ha as (k' & E2 & Hk' & Hlim' & Hcount').
  exists (k ++ k'). rewrite E2, E1, app_assoc, length_app. split_and!; [done|by apply Forall_app| |lia].
  destruct Hlim' as [->|Hlim']; [rewrite app_nil_r; cbn; rewrite Nat.add_0_r; done|right; lia].
Qed.

Lemma observes_check : observes readback_check.
Proof.
  unfold readback_check. apply observes_bind; [apply observes_nothing; done|intros a].
  apply observes_bind; [apply observes_get|intros state]. cbv zeta. apply observes_bind; [apply observes_lift|intros; apply observes_ret].
Qed.
#[local] Hint Resolve observes_lift observes_ret observes_raise observes_get observes_check : reads.

Ltac solve_observes :=
  repeat first [ solve [auto with reads] | apply observes_bind; [|intros] | progress cbv zeta
               | match goal with |- observes (if ?b then _ else _) => destruct b end
               | match goal with |- observes (match ?x with _ => _ end) => destruct x end ].

Lemma readback_check_state (t t' : list action * readback) r : readback_check t = (t', r) → t' = t.
Proof.
  unfold readback_check, on_process, zoom. destruct t as [l b]. run_M. destruct (clock l) as [now|e]; [|by intros [= <- _]].
  destruct (release_require _ _); by intros [= <- _].
Qed.

Lemma observes_read path : observes (readback_get unicode_digit float_repr repo path).
Proof.
  unfold readback_get. intros [l b] t' r Hg. cbv zeta in Hg.
  assert (∀ k, k = [] ∨ (∃ timeout, k = [Run (readback_command repo path) None (Some timeout)] ∧ (timeout <= API_READ_TIMEOUT)%Q
      ∧ check_path unicode_digit path = Ok tt ∧ rb_calls b + 1 <= READBACK_CALLS) →
    ∀ b', t' = (l ++ k, b') → rb_calls b + Z.of_nat (length k) <= rb_calls b' → ∃ k, t'.1 = l ++ k ∧ Forall is_readback k
      ∧ (k = [] ∨ rb_calls b + Z.of_nat (length k) <= READBACK_CALLS) ∧ rb_calls b + Z.of_nat (length k) <= rb_calls t'.2) as Hend.
  { intros k Hk b' -> Hb. exists k. split_and!; [done| | |done].
    - destruct Hk as [->|(timeout & -> & ? & ? & _)]; constructor; [by exists path, timeout|constructor].
    - destruct Hk as [->|(timeout & -> & _ & _ & ?)]; [by left|right; cbn; lia]. }
  apply bind_trace in Hg as [(e & [= <- _] & _)|(? & [] & [-> Hpath]%lift_M_ok & Hg)].
  { apply (Hend [] ltac:(by left) b); [by rewrite app_nil_r|cbn; lia]. }
  apply bind_trace in Hg as [(e & [=] & _)|(? & [] & [= <-] & Hg)]. apply bind_trace in Hg as [(e & [=] & _)|(? & ? & [= <- <-] & Hg)].
  cbn [snd rb_calls] in Hg. set (b1 := Readback _ _ _ _) in Hg.
  assert (∀ b' , rb_calls b' = rb_calls b + 1 → t' = (l, b') → ∃ k, t'.1 = l ++ k ∧ Forall is_readback k
      ∧ (k = [] ∨ rb_calls b + Z.of_nat (length k) <= READBACK_CALLS) ∧ rb_calls b + Z.of_nat (length k) <= rb_calls t'.2) as Hstop.
  { intros b' Hb' ->. apply (Hend [] ltac:(by left) b'); [by rewrite app_nil_r|cbn; lia]. }
  apply bind_trace in Hg as [(e & [= <- _] & _)|(? & [] & [-> Hcalls%release_require_ok]%lift_M_ok & Hg)]; [by apply (Hstop b1)|].
  apply bind_trace in Hg as [(e & ->%readback_check_state & _)|(? & left & ->%readback_check_state & Hg)]; [by apply (Hstop b1)|].
  set (run := Run (readback_command repo path) None (Some (Qmin API_READ_TIMEOUT left))).
  assert (∀ b', rb_calls b' = rb_calls b + 1 → t' = (l ++ [run], b') → ∃ k, t'.1 = l ++ k ∧ Forall is_readback k
      ∧ (k = [] ∨ rb_calls b + Z.of_nat (length k) <= READBACK_CALLS) ∧ rb_calls b + Z.of_nat (length k) <= rb_calls t'.2) as Hran.
  { intros b' Hb' ->. apply (Hend [run]) with b'; [right|done|cbn; lia]. eexists. split_and!; [done|apply Q.le_min_l|done|lia]. }
  apply bind_trace in Hg as [(e & [= <- _] & _)|(? & result & [= <- _] & Hg)]; [by apply (Hran b1)|].
  destruct result as [result|]; [|injection Hg as <- _; by apply (Hran b1)].
  apply bind_trace in Hg as [(e & ->%readback_check_state & _)|(? & ? & ->%readback_check_state & Hg)]; [by apply (Hran b1)|].
  apply bind_trace in Hg as [(e & [=] & _)|(? & [] & [= <-] & Hg)]. apply bind_trace in Hg as [(e & [=] & _)|(? & ? & [= <- <-] & Hg)].
  set (b2 := Readback _ _ _ _) in Hg.
  apply bind_trace in Hg as [(e & [= <- _] & _)|(? & [] & [-> _]%lift_M_ok & [= <- _])]; by apply (Hran b2).
Qed.
#[local] Hint Resolve observes_read : reads.

Notation pages := (readback_pages casefold unicode_digit float_repr repo).

Lemma observes_json path : observes (readback_json unicode_digit float_repr repo path).
Proof. unfold readback_json. solve_observes. Qed.
#[local] Hint Resolve observes_json : reads.

Lemma observes_repository : observes (repository_id casefold unicode_digit float_repr repo).
Proof. unfold repository_id. pose proof observes_set. solve_observes. Qed.

Lemma observes_links path page links : observes (next_links casefold unicode_digit float_repr repo path page links).
Proof.
  pose proof observes_repository. induction links as [|link links IH]; cbn [next_links]; unfold check_target; solve_observes.
Qed.

Lemma observes_page path page seen : observes (inventory_page casefold unicode_digit float_repr repo path page seen).
Proof. unfold inventory_page. pose proof observes_links. solve_observes. Qed.

Lemma observes_loop n path page seen records : observes (inventory_loop casefold unicode_digit float_repr repo n path page seen records).
Proof. revert page seen records. pose proof observes_page. induction n as [|n IH]; intros; cbn [inventory_loop]; solve_observes. Qed.

Lemma observes_pages path : observes (pages path).
Proof. unfold readback_pages. pose proof observes_loop. solve_observes. Qed.
#[local] Hint Resolve observes_pages : reads.

Lemma observes_observe payload confirm : observes confirm → observes (observe casefold unicode_digit float_repr repo payload confirm).
Proof. intros Hc. unfold observe, read_draft, no_assets. solve_observes. Qed.

(** *** The rounds of an inventory *)

Lemma read_counts path (t t' : list action * readback) p :
  readback_get unicode_digit float_repr repo path t = (t', Ok p) → rb_calls t.2 + 1 <= READBACK_CALLS ∧ rb_calls t'.2 = rb_calls t.2 + 1.
Proof.
  unfold readback_get. destruct t as [l b]. intros Hg. cbv zeta in Hg. apply bind_M_ok in Hg as (? & [] & [-> _]%lift_M_ok & Hg).
  apply bind_M_ok in Hg as (? & [] & [= <-] & Hg). apply bind_M_ok in Hg as (? & ? & [= <- <-] & Hg).
  apply bind_M_ok in Hg as (? & [] & [-> Hcalls%release_require_ok]%lift_M_ok & Hg). apply bind_M_ok in Hg as (? & ? & ->%readback_check_state & Hg).
  apply bind_M_ok in Hg as (? & result & Hrun & Hg). destruct result as [result|]; [|done].
  apply bind_M_ok in Hg as (? & ? & ->%readback_check_state & Hg). apply bind_M_ok in Hg as (? & [] & [= <-] & Hg).
  apply bind_M_ok in Hg as (? & ? & [= <- <-] & Hg). apply bind_M_ok in Hg as (? & [] & [-> _]%lift_M_ok & Hg). apply lift_M_ok in Hg as [-> _].
  injection Hrun as <- _. cbn in *. lia.
Qed.

Notation page_of := (inventory_page casefold unicode_digit float_repr repo).
Notation loop := (inventory_loop casefold unicode_digit float_repr repo).

Lemma page_counts path page seen (t t' : list action * readback) r :
  page_of path page seen t = (t', Ok r) → rb_calls t.2 + 1 <= READBACK_CALLS ∧ rb_calls t.2 + 1 <= rb_calls t'.2.
Proof.
  unfold inventory_page. intros Hp. apply bind_M_ok in Hp as (t1 & [values header] & [Hlim Hc]%read_counts & Hp).
  split; [done|]. match type of Hp with ?m t1 = _ => assert (observes m) as Hm by (pose proof observes_links; solve_observes) end.
  destruct (Hm _ _ _ Hp) as (k & _ & _ & _ & Hk). lia.
Qed.

(** Rounds that are left for every call that is left are enough. *)
Lemma inventory_rounds n m path page seen records (t : list action * readback) :
  (1 ≤ n ≤ m)%nat → READBACK_CALLS + 1 - Z.of_nat n <= rb_calls t.2 →
  loop m path page seen records t = loop n path page seen records t ∧ ∀ t', loop n path page seen records t ≠ (t', Ok None).
Proof.
  revert m page seen records t. induction n as [|n IH]; intros m page seen records t Hn Hc; [lia|]. destruct m as [|m]; [lia|].
  cbn [inventory_loop]. unfold mbind, M_bind. destruct (page_of path page seen t) as [t1 [[[more seen'] final]|e]] eqn:E; [|by split].
  apply page_counts in E as [Hlim Hc1]. destruct final; [by split|]. apply IH; lia.
Qed.

(** ** The draft that was observed *)

(** A draft of exactly the requested fields: unpublished, without assets, at its own
    address. *)
Definition own_draft (payload : pyobject) (id : Z) (d : pyobject) : Prop :=
  get_key "id" d = VInt id
  ∧ get_key "url" d = VStr (&"https://api.github.com/repos/" ++ repo ++ &"/releases/" ++ str_of_int id)
  ∧ get_key "published_at" d = VNone ∧ get_key "assets" d = VList []
  ∧ ∀ k v, (k, v) ∈ payload → k ≠ &"make_latest" → get_default k VNone d = v.

(** A read that gave an answer at some point of the observation. *)
Definition gave {A} (m : M (list action * readback) A) (a : A) : Prop := ∃ t t', m t = (t', Ok a).

(** Two inventories of the releases in which the draft is the only one of its tag,
    the tag at the requested commit, and no assets in the end. *)
Definition reconciled (payload d : pyobject) : Prop :=
  ∃ id tag sha first second a b ref, own_draft payload id d
    ∧ get_key "tag_name" payload = tag ∧ get_key "target_commitish" payload = sha
    ∧ gave (pages (&"releases")) first ∧ gave (pages (&"releases")) second
    ∧ same_rows (inventory first) (inventory second) = true
    ∧ tagged tag first = [a] ∧ own_draft payload id a ∧ tagged tag second = [b] ∧ own_draft payload id b
    ∧ gave (readback_json unicode_digit float_repr repo (&"git/ref/tags/" ++ str_value tag)) ref
    ∧ check_created_tag tag sha ref = Ok tt
    ∧ gave (pages (&"releases/" ++ str_of_int id ++ &"/assets")) [].

Lemma checked_release_ok payload id v d : checked_release repo payload id v = Ok d → v = VDict d ∧ own_draft payload id d.
Proof.
  unfold checked_release. intros Hc. inv_gate. deex. subst. destruct v as [| | | | | | |d]; try done. cbn [dict_of] in *. split; [done|].
  unfold own_draft. split_and!; try done; [by apply text_is_iff|].
  intros k v Hin Hk. match goal with Hr : requested _ _ = true |- _ => unfold requested in Hr; rewrite forallb_forall in Hr; rename Hr into Hreq end.
  apply list_elem_of_In in Hin. apply Hreq in Hin. cbn [fst snd] in Hin. boolprop. by destruct Hin.
Qed.

Lemma single_draft_ok payload first second id listed :
  single_draft repo payload first second = Ok (id, listed) →
  same_rows (inventory first) (inventory second) = true
  ∧ ∃ a, tagged (get_key "tag_name" payload) first = [a] ∧ own_draft payload id a
      ∧ tagged (get_key "tag_name" payload) second = [listed] ∧ own_draft payload id listed.
Proof.
  unfold single_draft. intros Hs. apply bind_ok in Hs as ([] & Hrows%release_require_ok & Hs). apply bind_ok in Hs as (tag & Htag & Hs).
  apply item_key in Htag as ->.
  destruct (tagged tag second) as [|b []]; [done| |done]. apply bind_ok in Hs as (id' & _ & Hs).
  destruct (tagged tag first) as [|a []]; [done| |done]. apply bind_ok in Hs as (b' & [[= ->] Hb]%checked_release_ok & Hs).
  apply bind_ok in Hs as (a' & [[= ->] Ha]%checked_release_ok & Hs). apply bind_ok in Hs as ([] & _ & [= -> ->]).
  split; [done|]. by exists a'.
Qed.

Lemma observe_ok payload confirm (t t' : list action * readback) d :
  observe casefold unicode_digit float_repr repo payload confirm t = (t', Ok d) → reconciled payload d.
Proof.
  unfold observe, read_draft, no_assets. intros Ho. apply bind_M_ok in Ho as (t1 & ? & _ & Ho).
  apply bind_M_ok in Ho as (t2 & first & Hfirst & Ho). apply bind_M_ok in Ho as (t3 & second & Hsecond & Ho).
  apply bind_M_ok in Ho as (? & [id listed] & [-> Hsingle%single_draft_ok]%lift_M_ok & Ho).
  apply bind_M_ok in Ho as (t4 & release & _ & Ho). apply bind_M_ok in Ho as (? & [] & [-> _]%lift_M_ok & Ho).
  apply bind_M_ok in Ho as (t5 & [] & _ & Ho). apply bind_M_ok in Ho as (? & tag & [-> Htag]%lift_M_ok & Ho).
  apply bind_M_ok in Ho as (t6 & ref & Href & Ho). apply bind_M_ok in Ho as (? & [] & [-> Hat]%lift_M_ok & Ho).
  apply bind_M_ok in Ho as (t7 & ? & _ & Ho). apply bind_M_ok in Ho as (t8 & final & Hfinal & Ho).
  apply bind_M_ok in Ho as (? & [] & [-> _]%lift_M_ok & Ho). apply bind_M_ok in Ho as (t9 & [] & Hempty & Ho).
  apply bind_M_ok in Ho as (t10 & ? & _ & [_ <-]%mret_M_ok).
  apply bind_M_ok in Hfinal as (t11 & v & _ & [_ [-> Hown]%checked_release_ok]%lift_M_ok).
  apply bind_M_ok in Hempty as (t12 & assets & Hassets & [_ Hnone%release_require_ok%bool_decide_eq_true]%lift_M_ok). subst assets.
  apply bind_ok in Hat as (sha & Hsha & Hat). destruct Hsingle as (Hrows & a & Ha & Hoa & Hb & Hob).
  apply item_key in Htag. apply item_key in Hsha. rewrite Htag in Ha, Hb.
  exists id, tag, sha, first, second, a, listed, ref. unfold gave. split_and!; eauto.
Qed.

(** What the answer to the one request means. *)
Definition creation_outcome (a : outcome process) : outcome (option pyval) := a ≫= create_outcome float_repr.

Lemma reconcile_trace payload confirm (l l' : list action) r :
  observes confirm → reconcile_created_release casefold unicode_digit float_repr repo payload confirm l = (l', r) →
  ∃ k, l' = l ++ k ∧ Forall is_readback k ∧ Z.of_nat (length k) <= READBACK_CALLS ∧ ∀ d, r = Ok d → reconciled payload d.
Proof.
  unfold reconcile_created_release. intros Hconf Hr.
  assert (∀ l1 r', new_readback repo l = (l1, r') → l1 = l ∧ ∀ b, r' = Ok b → rb_calls b = 0) as Hnew.
  { intros l1 r'. unfold new_readback. run_M. destruct (release_require _ _); [|by intros [= <- <-]].
    destruct (clock l); intros [= <- <-]; (split; [done|]); by intros b [= <-]. }
  apply bind_trace in Hr as [(e & [-> _]%Hnew & ->)|(l1 & b & [-> Hb]%Hnew & Hr)].
  { exists []. rewrite app_nil_r. by split_and!. }
  specialize (Hb b eq_refl). destruct (observe _ _ _ _ _ _ _) as [t r'] eqn:Eo in Hr. injection Hr as <- <-.
  pose proof (observes_observe _ _ Hconf _ _ _ Eo) as (k & Ek & Hk & Hlim & _). cbn [fst snd] in *. rewrite Hb in Hlim.
  exists k. split_and!; [done|done|destruct Hlim as [->|]; [done|lia]|]. intros d ->. by eapply observe_ok.
Qed.

(** C10: However the processes answer, a creation that runs sends its request once and
    first; only when that answer was lost it goes on, and then with at most a
    hundred reads of allowed paths of at most thirty seconds each.  A release that
    it returns is the server's answer or, after a loss, a draft of exactly the
    requested fields: alone with its tag in two equal inventories, unpublished,
    without assets, its tag at the requested commit. *)
Theorem release_is_created_once confirm payload l l' r :
  observes confirm →
  create_or_reconcile casefold unicode_digit float_repr repo confirm payload l = (l', r) →
  (l' = l ∧ is_ok r = false) ∨
  ∃ input k (sent := Run (create_command repo) (Some input) (Some CREATE_TIMEOUT)),
    json_bytes_indented float_repr (VDict payload) = Ok input
    ∧ l' = l ++ sent :: k ∧ Forall is_readback k ∧ Z.of_nat (length k) <= READBACK_CALLS
    ∧ (k = [] ∨ creation_outcome (answer (l ++ [sent])) = Ok None)
    ∧ ∀ v, r = Ok v → creation_outcome (answer (l ++ [sent])) = Ok (Some v)
        ∨ creation_outcome (answer (l ++ [sent])) = Ok None ∧ ∃ d, v = VDict d ∧ reconciled payload d.
Proof.
  unfold create_or_reconcile, create_release_once. intros Hconf Hc.
  apply bind_trace in Hc as [(e & Hc & ->)|(l1 & created & Hc & Hr)].
  - apply bind_trace in Hc as [(e' & [= <- _] & _)|(? & input & [-> Hin]%lift_M_ok & Hc)]; [by left|right].
    exists input, []. cbv zeta. set (sent := Run (create_command repo) (Some input) (Some CREATE_TIMEOUT)) in *.
    assert (l' = l ++ [sent]) as -> by (apply bind_trace in Hc as [(e' & [= <- _] & _)|(? & a & [= <- _] & [= <- _])]; done).
    split_and!; try done. by left.
  - right. apply bind_M_ok in Hc as (? & input & [-> Hin]%lift_M_ok & Hc). apply bind_M_ok in Hc as (? & a & Ha & [-> Hout]%lift_M_ok).
    exists input. set (sent := Run (create_command repo) (Some input) (Some CREATE_TIMEOUT)) in *. injection Ha as <- Ha.
    assert (creation_outcome (answer (l ++ [sent])) = Ok created) as Hcr by (unfold creation_outcome; change (answer (l ++ [sent]) = Ok a) in Ha; by rewrite Ha).
    destruct created as [release|].
    { exists []. injection Hr as <- <-. cbv zeta. split_and!; try done; [by left|]. intros v [= <-]. by left. }
    assert (∃ r', reconcile_created_release casefold unicode_digit float_repr repo payload confirm (l ++ [sent]) = (l', r')
      ∧ ∀ v, r = Ok v → ∃ d, r' = Ok d ∧ v = VDict d) as (r' & Hrec & Hv).
    { apply bind_trace in Hr as [(e & Hr & ->)|(l2 & d & Hr & [= <- <-])]; eexists; (split; [done|]); [done|]. intros v [= <-]. eauto. }
    apply reconcile_trace in Hrec as (k & -> & Hk & Hlen & Hrec); [|done]. exists k. cbv zeta. split_and!; try done.
    + by rewrite <-app_assoc.
    + by right.
    + intros v Hr'. right. split; [done|]. apply Hv in Hr' as (d & -> & ->). exists d. split; [done|]. by apply Hrec.
Qed.
End observed.

(** ** A lost answer

    The request times out; the server did create the draft, and the observation
    finds it.  Had another release of the tag appeared, it would be refused. *)

Section demo.
#[local] Existing Instance ascii_case.

Let no_floats (_ : Q) : pystr := [].
Definition created_payload : pyobject :=
  [(&"tag_name", VStr (&"v1.2.3")); (&"target_commitish", VStr (replicate 40 (chr "c"))); (&"name", VStr (&"v1.2.3")); (&"body", VStr (&"notes"));
   (&"draft", VBool true); (&"prerelease", VBool false); (&"make_latest", VStr (&"false"))].

Definition created_draft (id : Z) : pyval :=
  VDict ([(&"id", VInt id); (&"url", VStr (&"https://api.github.com/repos/o/r/releases/" ++ str_of_int id)); (&"published_at", VNone);
          (&"assets", VList []); (&"author", VDict [(&"id", VInt 1)])] ++ removelast created_payload).

Definition created_ref : pyval :=
  VDict [(&"ref", VStr (&"refs/tags/v1.2.3")); (&"object", VDict [(&"type", VStr (&"commit")); (&"sha", VStr (replicate 40 (chr "c")))])].

Definition http_answer (v : pyval) : outcome process :=
  b ← json_bytes_indented no_floats v; Ok (Finished (Completed 0 ((byte_of <$> &"HTTP/2.0 200 OK" ++ crlf ++ crlf) ++ b) [])).

(** The answers; [others] are further releases of the inventory. *)
Definition lost_answer (others : list pyval) (l : list action) : outcome process :=
  match last l with
  | Some (Run command _ _) =>
    let path := last command in
    if bool_decide (path = Some (&"repos/o/r/releases")) then Ok (TimedOut [] [])
    else if bool_decide (path = Some (&"repos/o/r/releases?per_page=100&page=1")) then http_answer (VList (created_draft 5 :: others))
    else if bool_decide (path = Some (&"repos/o/r/releases/5/assets?per_page=100&page=1")) then http_answer (VList [])
    else if bool_decide (path = Some (&"repos/o/r/git/ref/tags/v1.2.3")) then http_answer created_ref
    else http_answer (created_draft 5)
  | _ => Raise (Exn EOS "")
  end.

Definition demo_creation (others : list pyval) : list action * outcome pyval :=
  @create_or_reconcile (list action) (recorded (lost_answer others)) (shell_host [] (λ l, Ok (inject_Z (Z.of_nat (length l)))))
    (λ s, ascii_lower_char <$> s) is_digit no_floats (&"o/r") (mret tt) created_payload [].

Lemma release_is_created_once_witness :
  is_ok (snd (demo_creation [])) = true ∧ length (fst (demo_creation [])) = 8%nat ∧ is_ok (snd (demo_creation [created_draft 6])) = false
  ∧ ∃ d, snd (demo_creation []) = Ok (VDict d)
      ∧ reconciled (lost_answer []) [] (λ l, Ok (inject_Z (Z.of_nat (length l)))) (λ s, ascii_lower_char <$> s) is_digit no_floats (&"o/r") created_payload d.
Proof.
  assert (is_ok (snd (demo_creation [])) = true) as Hok by (vm_compute; reflexivity). split; [exact Hok|].
  split; [vm_compute; reflexivity|]. split; [vm_compute; reflexivity|].
  remember (snd (demo_creation [])) as r eqn:Er. destruct (release_is_created_once (lost_answer []) [] (λ l, Ok (inject_Z (Z.of_nat (length l)))) (λ s, ascii_lower_char <$> s) is_digit no_floats (&"o/r")
              (mret tt) created_payload [] (fst (demo_creation [])) r)
    as [[_ Hno]|(input & k & _ & Hlog & _ & _ & _ & Hv)].
  - apply observes_ret.
  - rewrite Er. exact (surjective_pairing (demo_creation [])).
  - by rewrite Hok in Hno.
  - destruct r as [v|e]; [|discriminate Hok]. destruct (Hv v eq_refl) as [Hlost|(_ & d & -> & Hd)].
    + exfalso. revert Hlost. vm_compute. discriminate.
    + exists d. split; [reflexivity|exact Hd].
Defined.

Definition quoted_next : pystr := &"rel=" ++ [34%N] ++ &"next" ++ [34%N].

Example link_demo :
  link_parts (&" <https://api.github.com/repositories/7/releases?per_page=100&page=2>; " ++ quoted_next)
    = Some (&"https://api.github.com/repositories/7/releases?per_page=100&page=2", &"next")
  ∧ link_parts (&"<a>" ++ quoted_next) = None
  ∧ next_target 1 (&"https://api.github.com/repositories/7/releases?per_page=100&page=2") = Ok (&"/repositories/7/releases")
  ∧ is_ok (next_target 2 (&"https://api.github.com/repositories/7/releases?per_page=100&page=2")) = false
  ∧ is_ok (next_target 1 (&"https://api.github.com.evil.org/repositories/7/releases?per_page=100&page=2")) = false
  ∧ is_ok (next_target 1 (&"https://api.github.com/x?per_page=100&page=2&page=2")) = false.
Proof. vm_compute. done. Qed.
End demo.
