(* ===== verification/Versioned.v ===== *)
(** * Versioned releases: the checks ([scripts/release_versioned.py])

    What a versioned release verifies before it plans or publishes: the executing
    run and its policy, the accepted candidate that a final build comes from, and an
    earlier qualified release that a scheduled build may reuse. *)

From Stdlib Require Import QArith.QArith QArith.Qminmax Strings.Byte.
From S2P Require Import Prelude PyStr PyDict PyRegex PyVal PyJson Base64 VersionPlan JsonDocument Release ReleaseState ReleaseValidation OciMetadata Fuzz ReleasePolicy ReleaseRuns ReleaseExecution Transport ReleaseNotes ReleaseManifest Publication Promotion Readback Toolchain.
#[local] Open Scope Z_scope.

Definition PLAN : pystr := &".release-plan.json".
Definition qualified_channels : list pystr := [&"rc"; &"stable"].
Definition published_channels : list pystr := [&"beta"; &"rc"; &"stable"].
Definition channels : list pystr := [&"nightly"; &"beta"; &"rc"; &"stable"].

(** [os.environ.get(name)] as a value *)
Definition env_value {G} `{Host G} (name : string) : pyval := match env name with Some s => VStr s | None => VNone end.

(** [info['default_branch']] in the path of a reference *)
Definition head_path (info : pyobject) : outcome pystr :=
  branch ← default_branch info; quoted ← quote branch; Ok (&"git/ref/heads/" ++ quoted).

(** ** The confirmation of a creation *)

(** [type(current.get(key)) is type(run[key]) and current[key] == run[key]] *)
Definition same_entry (current run : pyobject) (key : pystr) : outcome bool :=
  w ← item key run;
  if bool_decide (type_name (get_default key VNone current) = type_name w)
  then v ← item key current; Ok (py_eq v w) else Ok false.

Definition run_identity : list pystr := [&"id"; &"run_attempt"; &"head_sha"; &"path"; &"event"].

(** The run of the publication, as it is read again. *)
Definition check_current_run (run : pyobject) (current : pyval) : outcome unit :=
  ok ← o_and (Ok (is_dict current && text_is (get_key "status" (dict_of current)) (&"in_progress")
                  && bool_decide (get_key "conclusion" (dict_of current) = VNone)))
             (all_of (same_entry (dict_of current) run) run_identity);
  release_require ok "Create readback run identity changed".

Definition check_default_branch (source_path : pystr) (info : pyval) : outcome unit :=
  ok ← o_and (Ok (is_dict info && is_str (get_key "default_branch" (dict_of info))))
             (path ← head_path (dict_of info); Ok (bool_decide (path = source_path)));
  release_require ok "Create readback default branch changed".

(** The ledger as it was written. *)
Definition check_consumed (consumed : bytes) (content : pyval) : outcome unit :=
  let d := dict_of content in
  _ ← release_require (is_dict content && text_is (get_key "type" d) (&"file") && text_is (get_key "encoding" d) (&"base64")
                       && is_str (get_key "content" d))
        "Invalid create readback ledger";
  raw ← b64decode (filter (λ c, is_space c = false) (str_value (get_key "content" d)));
  release_require (bool_decide (raw = consumed)) "Create readback publication ledger changed".

Section confirmation.
Context `{UnicodeCase} {P : Type} `{Shell P} `{Host P} (unicode_digit : N → bool) (float_repr : Q → pystr) (repo : pystr).

(** [create_confirmation]: one reading of the run, the default branch, its head and
    the ledger. *)
Definition create_confirmation (run : pyobject) (source_ref : pystr * pyval) (consumed : bytes) : M (P * readback) unit :=
  let json := readback_json unicode_digit float_repr repo in
  run_id ← lift (item (&"id") run);
  attempt ← lift (item (&"run_attempt") run);
  current ← json (&"actions/runs/" ++ py_str run_id ++ &"/attempts/" ++ py_str attempt);
  _ ← lift (check_current_run run current);
  info ← json [];
  _ ← lift (check_default_branch source_ref.1 info);
  head ← json source_ref.1;
  _ ← lift (release_require (py_eq head source_ref.2) "Create readback default source changed");
  content ← json READ_PATH;
  lift (check_consumed consumed content).
End confirmation.

Section versioned.
Context `{UnicodeCase} {G : Type} `{GitHub G} `{Host G} `{Assets G}.
Context (casefold : pystr → pystr) (unicode_digit : N → bool) (float_repr : Q → pystr) (py_text : pyval → pystr).
Context (sha1_hex sha256_hex : bytes → pystr) (open_zip : bytes → outcome (list zip_entry)) (repo : pystr).

(** ** The executing run *)

(** [context] *)
Definition context (channel : pystr) (gate : bool) : M G (pyobject * pyobject * pyobject) :=
  run_id ← lift (positive (env_value "GITHUB_RUN_ID") "Invalid run ID");
  attempt ← lift (positive (env_value "GITHUB_RUN_ATTEMPT") "Invalid run attempt");
  info ← repository_info repo;
  head ← checked_out_sha;
  run ← wait_for_executing_run py_text repo run_id channel info head attempt gate;
  sha ← lift (item (&"head_sha") run);
  let sha := str_value sha in
  snapshot ← source_policy_snapshot repo sha1_hex sha256_hex sha;
  data ← lift (item (&"data") snapshot);
  policy ← lift (_ ← require_release_policy repo data (bool_decide (channel ∈ qualified_channels));
                 policy ← as_dict data;
                 _ ← release_require (truthy (get_key "versioning" policy)) "Repository has not enabled version plans";
                 Ok policy);
  raw ← read_file POLICY;
  _ ← lift (text ← decode raw;
            local ← json_loads keep_last text;
            release_require (py_eq local data) "Working policy differs from source commit");
  branch ← lift (default_branch info);
  _ ← check_ancestry sha branch;
  _ ← (if gate then validate_validation_run run policy channel else mret tt);
  mret (info, run, snapshot).

(** [create_marker] *)
Definition create_marker (run : pyobject) (plan_digest nonce : pystr) : outcome pystr :=
  source ← item (&"head_sha") run;
  id ← item (&"id") run;
  attempt ← item (&"run_attempt") run;
  marker ← json_dumps float_repr (VDict [(&"repository", VStr repo); (&"source", source); (&"run", id); (&"attempt", attempt);
                                          (&"plan", VStr plan_digest); (&"nonce", VStr nonce)]);
  Ok ([10; 10]%N ++ &"<!-- release-create " ++ marker ++ &" -->").

(** [event_inputs] *)
Definition event_inputs : M G pyobject :=
  file ← lift match env "GITHUB_EVENT_PATH" with Some f => Ok f | None => Raise (Exn EKey "") end;
  raw ← read_file file;
  lift (event ← parse_json raw;
        _ ← release_require (is_dict event) "Workflow event must be a JSON object";
        let inputs := get_key "inputs" (dict_of event) in
        if bool_decide (inputs = VNone) then Ok []
        else _ ← release_require (is_dict inputs) "Workflow inputs must be a JSON object"; Ok (dict_of inputs)).

(** ** The accepted candidate *)

(** The manifest asset, and the manifest in its bytes. *)
Definition rc_manifest (tag : pystr) (initial : rc_snapshot) : M G (pyobject * bytes * pyobject) :=
  match filter (λ a, text_is (get_key "name" a) MANIFEST = true) (snap_assets initial) with
  | [asset] =>
    id ← lift (v ← item (&"id") asset; positive v "Invalid manifest asset ID");
    raw ← gh_binary (&"releases/assets/" ++ str_of_int id);
    manifest ← lift (validate_manifest casefold float_repr sha256_hex repo unicode_digit raw tag false);
    mret (asset, raw, manifest)
  | _ => raise (release_error "RC manifest is missing")
  end.

(** The tag against the manifest, and the manifest's run against the current one. *)
Definition check_rc_source (initial : rc_snapshot) (manifest current_run : pyobject) : outcome unit :=
  source ← item (&"source_sha") manifest;
  v ← item (&"object") (snap_ref initial);
  object ← as_dict v;
  _ ← release_require (py_eq (get_key "sha" object) source) "RC source tag mismatch";
  run_id ← item (&"run_id") manifest;
  current ← item (&"id") current_run;
  release_require (negb (py_eq run_id current)) "RC must come from a separate run".

(** The run that built the candidate. *)
Definition check_rc_run (manifest policy info : pyobject) : M G unit :=
  run_id ← lift (item (&"run_id") manifest);
  v ← gh_api (&"actions/runs/" ++ py_str run_id) (&"GET") None;
  source_run ← lift (as_dict v);
  _ ← validate_validation_run source_run policy (&"rc");
  _ ← lift (release_require (py_eq (get_key "id" source_run) run_id) "RC source run identity mismatch");
  source ← lift (item (&"source_sha") manifest);
  attempt ← lift (item (&"run_attempt") manifest);
  _ ← validate_run repo source_run info (str_value source) attempt true true;
  lift (release_require (text_is (get_key "event" source_run) (&"workflow_dispatch")) "RC must be explicitly requested").

(** [rc.download_asset], then the checks of one asset. *)
Definition check_rc_payload (expected : pydict pystr pyval) (asset : pyobject) : M G unit :=
  name ← lift (item (&"name") asset);
  if text_is name MANIFEST then mret tt
  else
    id ← lift (v ← item (&"id") asset; positive v "Invalid asset ID");
    content ← gh_download (&"releases/assets/" ++ str_of_int id);
    let identity := stream_identity sha256_hex content in
    lift (size ← item (&"size") asset;
          _ ← release_require (py_eq size (VInt identity.1)) "RC asset size mismatch";
          v ← match dict_get (str_value name) expected with Some v => Ok v | None => Raise (Exn EKey "") end;
          d ← as_dict v;
          ok ← o_and (n ← item (&"size") d; Ok (py_eq (VInt identity.1) n)) (sha256 ← item (&"sha256") d; Ok (py_eq (VStr identity.2) sha256));
          release_require ok "RC payload checksum mismatch").

(** What [verified_rc] returns beside the manifest. *)
Definition parent_of (tag : pystr) (raw : bytes) (manifest : pyobject) : outcome pyobject :=
  source ← item (&"source_sha") manifest;
  run_id ← item (&"run_id") manifest;
  Ok [(&"tag", VStr tag); (&"manifest_sha256", VStr (sha256_hex raw)); (&"source_sha", source); (&"run_id", run_id)].

(** The candidate did not change while it was read. *)
Definition same_release (message : string) (initial : rc_snapshot) (again : rc_snapshot) : outcome unit :=
  now ← snapshot_identity float_repr again;
  before ← snapshot_identity float_repr initial;
  release_require (bool_decide (now = before)) message.

(** [verified_rc] *)
Definition verified_rc (tag : pyval) (info current_run : pyobject) : M G (pyobject * pyobject) :=
  _ ← lift (release_require (str_match RC_TAG tag) "Stable requires an explicit vX.Y.Z-rc.N");
  let tag := str_value tag in
  initial ← release_snapshot casefold tag;
  '(asset, raw, manifest) ← rc_manifest tag initial;
  source ← lift (item (&"source_sha") manifest);
  source_policy ← source_policy_snapshot repo sha1_hex sha256_hex (str_value source);
  policy ← lift (recorded ← item (&"source_policy") manifest;
                 _ ← release_require (py_eq (VDict source_policy) recorded) "RC source policy changed";
                 data ← item (&"data") source_policy; as_dict data);
  head ← lift (item (&"head_sha") current_run);
  _ ← require_current_fuzzing repo sha1_hex sha256_hex policy (str_value head);
  _ ← lift (check_rc_source initial manifest current_run);
  _ ← check_rc_run manifest policy info;
  branch ← lift (default_branch info);
  _ ← check_ancestry (str_value source) branch;
  _ ← verify_evidence sha256_hex open_zip manifest raw;
  expected ← lift (v ← item (&"assets") manifest; assets ← iterate v; asset_index assets []);
  _ ← lift (_ ← release_require (same_keys ((λ a, str_value (get_key "name" a)) <$> snap_assets initial) (dict_keys expected ++ [MANIFEST]))
                  "RC asset inventory differs from immutable evidence";
            size ← item (&"size") asset;
            release_require (py_eq size (VInt (Z.of_nat (length raw)))) "RC asset size mismatch");
  _ ← for_each_M (check_rc_payload expected) (snap_assets initial);
  again ← release_snapshot casefold tag;
  _ ← lift (same_release "RC changed during verification" initial again);
  parent ← lift (parent_of tag raw manifest);
  mret (manifest, parent).

(** ** Reuse of a qualified release *)

(** The reference and the release of a published plan. *)
Definition qualified_ref (tag source : pystr) (ref : pyobject) : outcome unit :=
  ok ← o_and (Ok (text_is (get_key "ref" ref) (&"refs/tags/" ++ tag)))
         (o_and (t ← nested_get "object" "type" ref; Ok (text_is t (&"commit"))) (sha ← nested_get "object" "sha" ref; Ok (text_is sha source)));
  release_require ok "Qualified release tag/source mismatch".

Definition qualified_assets (values : list pyval) : outcome (list pyobject) :=
  assets ← collect as_dict values;
  let names := get_key "name" <$> assets in
  _ ← release_require (forallb (str_match NAME_RE) names && bool_decide (NoDup ((λ v, casefold (str_value v)) <$> names))
                       && forallb (λ a, text_is (get_key "state" a) (&"uploaded")) assets)
        "Qualified release has invalid or incomplete assets";
  Ok assets.

(** [published_plan_snapshot] *)
Definition published_plan_snapshot (tag source : pystr) (prerelease : bool) : M G rc_snapshot :=
  v ← gh_api (&"git/ref/tags/" ++ tag) (&"GET") None;
  w ← gh_api (&"releases/tags/" ++ tag) (&"GET") None;
  ref ← lift (as_dict v);
  _ ← lift (qualified_ref tag source ref);
  release ← lift (as_dict w);
  _ ← lift (release_require (text_is (get_key "tag_name" release) tag && bool_decide (get_key "draft" release = VBool false)
                             && bool_decide (get_key "prerelease" release = VBool prerelease))
              "Qualified release is not published");
  id ← lift (positive (get_key "id" release) "Invalid release ID");
  values ← gh_pages (&"releases/" ++ str_of_int id ++ &"/assets") None;
  assets ← lift (qualified_assets values);
  mret (Snapshot ref release assets).

(** The text of a field of a plan; the plans of the ledger were validated. *)
Definition plan_text (name : string) (plan : pyobject) : pystr := str_value (get_key name plan).

(** The manifest of a qualified release against its plan and its policy. *)
Definition check_qualified_manifest (snapshot plan : pyobject) (source_run_id : Z) (v : pyval) : outcome pyobject :=
  let m := dict_of v in
  let same name := py_eq (get_key name m) (get_key name plan) in
  digest ← plan_digest float_repr sha256_hex (VDict plan);
  _ ← release_require (is_dict v && bool_decide (get_key "schema" m = VInt 1) && text_is (get_key "repository" m) repo
                       && same "source_sha" && py_eq (get_key "version" m) (get_key "base_version" plan) && same "channel" && same "tag"
                       && py_eq (get_key "version_plan" m) (VDict plan) && text_is (get_key "plan_sha256" m) digest
                       && py_eq (get_key "source_policy" m) (VDict snapshot) && text_is (get_key "workflow_path" m) WORKFLOW_PATH
                       && py_eq (get_key "run_id" m) (VInt source_run_id))
        "Qualified manifest differs from its source and durable plan";
  Ok m.

(** The payloads that a manifest lists, by name. *)
Definition qualified_payloads (manifest : pyobject) (names : list pystr) : outcome (pydict pystr pyval) :=
  let expected := get_key "assets" manifest in
  _ ← release_require (is_list expected && truthy expected) "Qualified payloads missing";
  declarations ← asset_index (list_value expected) [];
  _ ← release_require (bool_decide (length declarations = length (list_value expected)) && same_keys names (dict_keys declarations ++ [MANIFEST]))
        "Qualified asset inventory mismatch";
  Ok declarations.

(** [inventory[name]] against one declared payload *)
Definition qualified_asset (inventory : pydict pystr pyobject) (declaration : pystr * pyval) : outcome bool :=
  a ← match dict_get declaration.1 inventory with Some a => Ok a | None => Raise (Exn EKey "") end;
  d ← as_dict declaration.2;
  o_and (size ← item (&"size") d; Ok (py_eq (get_key "size" a) size))
        (sha256 ← item (&"sha256") d;
         match sha256 with
         | VStr s => Ok (text_is (get_key "digest" a) (&"sha256:" ++ s))
         | _ => Raise (type_error_of "can only concatenate str")
         end).

(** Exactly one job of the names, and it succeeded for the source. *)
Definition qualified_gate (source : pystr) (jobs : list pyobject) (names : list pystr) : outcome unit :=
  release_require
    match filter (λ job, among (get_key "name" job) names = true) jobs with
    | [gate] => text_is (get_key "status" gate) (&"completed") && text_is (get_key "conclusion" gate) (&"success") && text_is (get_key "head_sha" gate) source
    | _ => false
    end "Qualified run has no successful CI and Release gates".

Definition qualified_gates : list (list pystr) := [[&"Release gate"]; [&"CI gate"; &"checks / CI gate"]].

(** The run of a qualified release, and its gates. *)
Definition check_qualified_run (info snapshot plan manifest : pyobject) (source_run_id : Z) : M G unit :=
  let source := plan_text "source_sha" plan in
  v ← gh_api (&"actions/runs/" ++ str_of_int source_run_id) (&"GET") None;
  source_run ← lift (as_dict v);
  policy ← lift (data ← item (&"data") snapshot; as_dict data);
  _ ← validate_validation_run source_run policy (plan_text "channel" plan);
  attempt ← lift (_ ← release_require (py_eq (get_key "id" source_run) (VInt source_run_id)) "Qualified run ID mismatch";
                  positive (get_key "run_attempt" manifest) "Invalid qualified run attempt");
  _ ← validate_run repo source_run info source (VInt attempt) true false;
  values ← gh_pages (jobs_path source_run_id (VInt attempt)) (Some (&"jobs"));
  lift (jobs ← collect as_dict values; for_each (qualified_gate source jobs) qualified_gates).

(** [asset["size"] <= 2_000_000] *)
Definition small_manifest (size : pyval) : outcome bool :=
  match number_of size with Some q => Ok (Qle_bool q 2000000) | None => Raise (type_error_of "'<=' not supported between instances") end.

(** [tag != f"v{plan['base_version']}"] *)
Definition is_prerelease (plan : pyobject) (tag : pystr) : bool := negb (bool_decide (tag = &"v" ++ plan_text "base_version" plan)).

(** [verify_scheduled_reuse] *)
Definition verify_scheduled_reuse (info snapshot plan : pyobject) (source_run_id : Z) (tag : pystr) : M G unit :=
  let source := plan_text "source_sha" plan in
  initial ← published_plan_snapshot tag source (is_prerelease plan tag);
  _ ← lift (snapshot_identity float_repr initial);
  let inventory := fold_left (λ d a, dict_set (receipt_name_of a) a d) (snap_assets initial) [] in
  asset ← lift match dict_get MANIFEST inventory with Some a => Ok a | None => Raise (Exn EKey "") end;
  _ ← lift (size ← item (&"size") asset; small ← small_manifest size; release_require small "Qualified manifest is too large");
  id ← lift (v ← item (&"id") asset; positive v "Invalid manifest ID");
  raw ← gh_binary (&"releases/assets/" ++ str_of_int id);
  manifest ← lift (v ← parse_json raw; check_qualified_manifest snapshot plan source_run_id v);
  _ ← lift (_ ← validate_validation_manifest float_repr manifest;
            declarations ← qualified_payloads manifest (dict_keys inventory);
            let own := VDict [(&"size", VInt (Z.of_nat (length raw))); (&"sha256", VStr (sha256_hex raw))] in
            same ← all_of (qualified_asset inventory) (dict_set MANIFEST own declarations);
            release_require same "Qualified asset metadata mismatch");
  _ ← check_qualified_run info snapshot plan manifest source_run_id;
  _ ← verify_evidence sha256_hex open_zip manifest raw;
  current ← published_plan_snapshot tag source (is_prerelease plan tag);
  lift (same_release "Qualified release changed during verification" initial current).

(** The head of the default branch is the run's commit. *)
Definition at_head (path : pystr) (run : pyobject) : M G bool :=
  v ← gh_api path (&"GET") None;
  lift (d ← as_dict v; sha ← nested_get "object" "sha" d; head ← item (&"head_sha") run; Ok (py_eq sha head)).

(** A reservation of the ledger for the same source, base and policy. *)
Definition reusable (run snapshot : pyobject) (base : pystr) (record : pyval) : outcome bool :=
  plan ← record_plan record;
  head ← item (&"head_sha") run;
  o_and (v ← item (&"source_sha") plan; Ok (py_eq v head))
   (o_and (v ← item (&"base_version") plan; Ok (text_is v base))
    (o_and (v ← item (&"policy_sha256") plan; data ← item (&"data") snapshot; digest ← policy_digest float_repr sha256_hex data; Ok (text_is v digest))
           (v ← item (&"channel") plan; py_in v published_channels))).

(** Those reservations, by run. *)
Fixpoint reusable_records (run snapshot : pyobject) (base : pystr) (plans : list (pystr * pyval)) : outcome (list (Z * pyobject)) :=
  match plans with
  | [] => Ok []
  | (key, record) :: plans =>
    ok ← reusable run snapshot base record;
    here ← (if ok : bool then n ← positive (VStr key) "Invalid reserved run"; plan ← record_plan record; Ok [(n, plan)] else Ok []);
    rest ← reusable_records run snapshot base plans;
    Ok (here ++ rest)
  end.

Definition MAX_REUSE_PROBES : nat := 10.

(** The newest plans first. *)
Definition newest_first (records : list (Z * pyobject)) : list (Z * pyobject) :=
  take MAX_REUSE_PROBES (rev (sorted (λ a b, int_value (get_key "build_number" a.2) <=? int_value (get_key "build_number" b.2)) (rev records))).

(** The tags under which a plan may be published. *)
Definition reuse_tags (base : pystr) (plan : pyobject) : list pystr :=
  plan_text "tag" plan
  :: (if text_is (get_key "channel" plan) (&"rc") && text_is (get_key "promotion" plan) (&"promote-bytes") then [&"v" ++ base] else []).

(** The exceptions that only mean that a release does not qualify. *)
Definition is_unprovable (c : exn_class) : bool :=
  is_release_error c || is_value_error c || match c with EKey | EType => true | _ => false end.

(** The probes of [scheduled_reuse]; the result is the tag, or nothing. *)
Fixpoint probe_reuse (path : pystr) (info run snapshot : pyobject) (probes : list (Z * pyobject * pystr)) : M G pystr :=
  match probes with
  | [] => mret []
  | (source_run_id, plan, tag) :: probes =>
    proved ← try_except (_ ← verify_scheduled_reuse info snapshot plan source_run_id tag; mret true) is_unprovable (λ _, mret false);
    if proved : bool then here ← at_head path run; mret (if here : bool then tag else [])
    else probe_reuse path info run snapshot probes
  end.

(** [scheduled_reuse] *)
Definition scheduled_reuse (info run snapshot : pyobject) (base : pystr) : M G pystr :=
  path ← lift (head_path info);
  here ← at_head path run;
  if negb here then mret []
  else
    '(ledger, _) ← read_state float_repr sha256_hex;
    records ← lift (plans ← dict_item (&"plans") ledger; reusable_records run snapshot base plans);
    probe_reuse path info run snapshot (newest_first records ≫= λ r, (λ tag, (r.1, r.2, tag)) <$> reuse_tags base r.2).

(** The text of a publication before its version is reserved. *)
Definition versioned_provenance (channel source : pystr) (run_id : Z) (parent : option pyobject) : outcome pystr :=
  description ← match parent with
                | Some p => tag ← item (&"tag") p;
                            Ok (&"Final build from accepted " ++ value_text py_text tag ++ &"; new verified package bytes.")
                | None => Ok (channel ++ &" candidate with a version fixed before compilation.")
                end;
  Ok (description ++ [10; 10]%N ++ &"Source: `" ++ source ++ &"`" ++ [10; 10]%N
      ++ &"Validation: https://github.com/" ++ repo ++ &"/actions/runs/" ++ str_of_int run_id ++ [10; 10]%N
      ++ &"See `" ++ MANIFEST ++ &"` for package hashes and version input evidence.").
End versioned.
