(* ===== verification/VersionedPublish.v ===== *)
(** * Versioned releases: planning and publishing ([scripts/release_versioned.py])

    The two commands: [prepare] freezes a plan before anything is built, and
    [publish_versioned] publishes what was built with it.  The inspection of an
    artifact, the verification of detached provenance and signatures, the files of
    the fuzzing configuration and the creation of the release are arguments. *)

From Stdlib Require Import QArith.QArith Strings.Byte.
From S2P Require Import Prelude PyStr PyDict PyRegex PyVal PyJson VersionPlan JsonDocument VersionEdit SyncVersions Release ReleaseState ReleaseValidation OciMetadata Fuzz ReleasePolicy ReleaseRuns ReleaseExecution Transport ReleaseNotes ReleaseManifest Publication Promotion Readback VersionReceipt Toolchain ReleaseVersion Versioned.
#[local] Open Scope Z_scope.

(** The clock of the calendar, random text, and the file of the frozen plan. *)
Class Planner (G : Type) : Type := {
  utc_now : M G datetime;
  utc_isoformat : M G pystr;
  token_hex : M G pystr;
  write_plan : bytes → M G unit;
}.

(** The checkout a command works in, and what it reads of it: the sources of the
    version, the fuzzing configuration and whether its paths stay inside. *)
Record workspace : Type := Workspace {
  ws_checkout : checkout; ws_sources : sources; ws_fuzz_manifest : bytes;
  ws_confined : pystr → outcome unit; ws_plain_file : pystr → bool
}.

Section commands.
Context `{UnicodeCase} `{EditLibrary} {G : Type} `{GitHub G} `{Host G} `{Assets G} `{Planner G}.
Context (casefold : pystr → pystr) (unicode_digit : N → bool) (float_repr : Q → pystr) (py_text : pyval → pystr).
Context (sha1_hex sha256_hex : bytes → pystr) (open_zip : bytes → outcome (list zip_entry)) (repo : pystr) (scope_verified : bool).
Context (temporary_name : checkout → path → pystr) (io : file_operation → outcome unit).

(** ** Preparing *)

(** The channel of the event. *)
Definition event_channel (inputs : pyobject) : pyval :=
  if env_is "GITHUB_EVENT_NAME" (&"schedule") then VStr (&"nightly")
  else if env_is "GITHUB_EVENT_NAME" (&"push") then VStr (&"beta")
  else get_key "channel" inputs.

Definition admit_channel (inputs : pyobject) : outcome pystr :=
  let channel := event_channel inputs in
  known ← py_in channel channels;
  _ ← release_require known "Invalid release channel";
  _ ← release_require (negb (env_is "GITHUB_EVENT_NAME" (&"workflow_dispatch")) || text_is channel (&"nightly")
                       || env_is "PUBLICATION_ENABLED" (&"true"))
        "Release channels are not enabled";
  Ok (str_value channel).

Definition check_dispatch (inputs policy : pyobject) (head : pyval) : outcome unit :=
  _ ← release_require (negb (truthy (get_key "release_blockers" policy))) "Release policy has unresolved blockers";
  let expected := get_key "expected_sha" inputs in
  release_require (negb (truthy expected) || py_eq expected head) "Default branch changed since dispatch; refresh and retry".

(** [policy["versioning"]["promotion"]] *)
Definition promotion_of (policy : pyobject) : outcome pyval :=
  v ← item (&"versioning") policy; config ← as_dict v; item (&"promotion") config.

Definition promote_bytes_policy (candidate : pyobject) : outcome unit :=
  v ← item (&"source_policy") candidate; snapshot ← as_dict v; data ← item (&"data") snapshot; policy ← as_dict data;
  promotion ← nested_get "versioning" "promotion" policy;
  release_require (negb (text_is promotion (&"final-build"))) "A final-build RC cannot be promoted unchanged".

(** A candidate that a final build starts from. *)
Definition check_final_candidate (candidate policy : pyobject) (head : pyval) : outcome unit :=
  source ← item (&"source_sha") candidate;
  _ ← release_require (py_eq source head) "Final build requires the accepted RC at current HEAD";
  let plan := get_key "version_plan" candidate in
  ok ← o_and (Ok (truthy plan)) (p ← as_dict plan; Ok (text_is (get_key "promotion" p) (&"final-build")));
  _ ← release_require ok "Final build requires an RC created under the same versioned policy";
  _ ← validate_plan float_repr sha256_hex plan (Some (VDict policy)) (Some head);
  Ok tt.

(** The result of a command: a plain record. *)
Definition prepared_result (channel base build artifact : pystr) : pyobject :=
  [(&"channel", VStr channel); (&"version", VStr base); (&"build", VStr build); (&"plan_artifact", VStr artifact)].

(** The base version and the parent of a plan; [inl] ends the command. *)
Definition base_of (ws : workspace) (channel : pystr) (inputs info run policy : pyobject) (head : pyval) : M G (pyobject + pystr * option pyobject) :=
  if bool_decide (channel = &"stable") then
    _ ← require_reviewers;
    '(candidate, parent) ← verified_rc casefold unicode_digit float_repr sha1_hex sha256_hex open_zip repo (get_key "rc_tag" inputs) info run;
    version ← lift (item (&"version") candidate);
    let base := str_value version in
    promotion ← lift (promotion_of policy);
    if text_is promotion (&"promote-bytes") then
      _ ← lift (promote_bytes_policy candidate);
      mret (inl (prepared_result channel base (&"false") []))
    else
      _ ← lift (check_final_candidate candidate policy head);
      mret (inr (base, Some parent))
  else
    base ← lift (resolve_version (ws_sources ws) policy (get_default (&"version") (VStr []) inputs));
    mret (inr (base, None)).

(** The notes that a publication of this run would have. *)
Definition preview_notes (channel base : pystr) (run : pyobject) (head : pyval) (run_id : Z) (parent : option pyobject) : M G unit :=
  provenance ← lift (text ← versioned_provenance py_text repo channel (str_value head) run_id parent;
                     marker ← create_marker float_repr repo run (replicate 64 (chr "0")) (replicate 64 (chr "0"));
                     Ok (text ++ marker));
  _ ← release_notes sha1_hex sha256_hex repo (&"v" ++ base) (str_value head) provenance;
  mret tt.

Definition parent_value (parent : option pyobject) : pyval := match parent with Some p => VDict p | None => VNone end.

(** Everything [prepare] does once the base is known. *)
Definition freeze_plan (ws : workspace) (channel base : pystr) (run policy : pyobject) (head : pyval) (parent : option pyobject) : M G pyobject :=
  _ ← lift (snd (check_base_versions float_repr sha256_hex temporary_name io (VDict policy) (Some base) (ws_checkout ws)));
  closed ← closed_push_cycle base (default [] (env "GITHUB_EVENT_NAME"));
  match closed with
  | Some result => mret result
  | None =>
    _ ← (if bool_decide (channel ∈ published_channels) then ensure_absent (&"v" ++ base) else mret tt);
    run_id ← lift (int_item (&"id") run);
    attempt ← lift (int_item (&"run_attempt") run);
    _ ← (if bool_decide (get_key "release_notes" policy = VNone) then mret tt else preview_notes channel base run head run_id parent);
    now ← utc_now;
    plan ← reserve_plan float_repr sha256_hex policy base channel (str_value head) run_id attempt now (parent_value parent);
    raw ← lift (json_bytes_indented float_repr (VDict plan));
    _ ← write_plan raw;
    mret (prepared_result channel base (&"true") (&"release-plan-" ++ str_of_int run_id ++ &"-" ++ str_of_int attempt))
  end.

(** [prepare] *)
Definition prepare_release (ws : workspace) : M G pyobject :=
  inputs ← event_inputs;
  channel ← lift (admit_channel inputs);
  '(info, run, snapshot) ← context py_text sha1_hex sha256_hex repo channel false;
  policy ← lift (data ← item (&"data") snapshot; as_dict data);
  head ← lift (item (&"head_sha") run);
  _ ← lift (check_dispatch inputs policy head);
  start ← base_of ws channel inputs info run policy head;
  match start with
  | inl result => mret result
  | inr (base, parent) => freeze_plan ws channel base run policy head parent
  end.

(** ** Publishing *)

(** The code of the repository that looks into files: the artifacts, the detached
    provenance of a staged release, and its signatures. *)
Record inspectors : Type := Inspectors {
  verify_artifact : file_entry → pyobject → pyobject → outcome pyobject;
  verify_all : list file_entry → pyobject → pyobject → outcome unit;
  verify_signatures : list file_entry → outcome unit
}.

Context (ws : workspace) (inspect : inspectors).

(** [create release of this publication]: of its run, the head that was captured
    and the ledger that was written, for the payload. *)
Context (create : pyobject → pystr * pyval → bytes → pyobject → M G pyval).

(** [verify_candidate_fuzz_report] *)
Definition verify_candidate_fuzz_report (directory : pydict pystr bytes) (policy plan : pyobject) (run_id attempt : Z) : outcome unit :=
  if negb (in_dict (&"fuzzing") policy) || negb (text_is (get_key "channel" plan) (&"rc")) then Ok tt
  else
    report ← match dict_get REPORT directory with Some b => Ok b | None => Raise (Exn EOS "") end;
    verify_report (ws_confined ws) (ws_plain_file ws) sha256_hex report (ws_fuzz_manifest ws) repo (plan_text "source_sha" plan) run_id attempt.

(** [candidate_fuzz_receipts] *)
Definition candidate_fuzz_receipts (policy : pyobject) (channel : pystr) (receipts : list pyval) : outcome (list pyval * list pyval) :=
  if negb (in_dict (&"fuzzing") policy) || negb (bool_decide (channel = &"rc")) then Ok (receipts, []) else split_receipts receipts.

(** [{"name": value["name"], "sha256": value["sha256"]}] of each receipt *)
Definition receipt_identities (receipts : list pyval) : outcome pyval :=
  l ← collect (λ r, d ← subscripted r; name ← item (&"name") d; sha256 ← item (&"sha256") d;
                    Ok (VDict [(&"name", name); (&"sha256", sha256)])) receipts;
  Ok (VList l).

(** [fuzz_manifest_fields] *)
Definition fuzz_manifest_fields (policy : pyobject) (channel : pystr) (validation : list pyval) : outcome pyobject :=
  if negb (in_dict (&"fuzzing") policy) then Ok []
  else
    selected ← fuzz_profile policy channel;
    receipts ← receipt_identities validation;
    Ok [(&"fuzzing_profile", selected); (&"validation_receipts", receipts)].

(** The accepted candidate of a stable plan, and its parent entry. *)
Definition accepted_parent (plan info run : pyobject) : M G (option (pyobject * pyobject)) :=
  if text_is (get_key "channel" plan) (&"stable") then
    _ ← lift (release_require (text_is (get_key "promotion" plan) (&"final-build")) "Stable build must explicitly select final-build");
    _ ← require_reviewers;
    inputs ← event_inputs;
    '(candidate, parent) ← verified_rc casefold unicode_digit float_repr sha1_hex sha256_hex open_zip repo (get_key "rc_tag" inputs) info run;
    _ ← lift (source ← item (&"source_sha") candidate;
              version ← item (&"version") candidate;
              _ ← release_require (py_eq source (get_key "source_sha" plan) && py_eq version (get_key "base_version" plan))
                    "Final build differs from the accepted RC source/base";
              promotion ← nested_get "version_plan" "promotion" candidate;
              release_require (text_is promotion (&"final-build")) "Accepted RC does not permit a final rebuild");
    mret (Some (candidate, parent))
  else mret None.

(** The frozen plan of the checkout. *)
Definition read_plan : M G pyobject :=
  raw ← read_file PLAN;
  lift (text ← decode raw; v ← json_loads keep_last text; validate_plan float_repr sha256_hex v None None).

(** What a publication knows once it may stage files. *)
Record admitted : Type := Admission {
  ad_plan : pyobject; ad_channel : pystr; ad_info : pyobject; ad_run : pyobject; ad_snapshot : pyobject; ad_policy : pyobject;
  ad_run_id : Z; ad_attempt : Z; ad_rc : option (pyobject * pyobject)
}.
Definition ad_parent (a : admitted) : option pyobject := snd <$> ad_rc a.
Definition ad_tag (a : admitted) : pystr := plan_text "tag" (ad_plan a).
Definition ad_sha (a : admitted) : pystr := plan_text "source_sha" (ad_plan a).

Definition check_reserved (a : admitted) : M G unit :=
  verify_reservation float_repr sha256_hex (ad_plan a) (ad_run_id a) (parent_value (ad_parent a)).

(** The plan, the run, the candidate and the reservation, before any file. *)
Definition admit_publication : M G admitted :=
  plan ← read_plan;
  let channel := plan_text "channel" plan in
  '(info, run, snapshot) ← context py_text sha1_hex sha256_hex repo channel true;
  data ← lift (item (&"data") snapshot);
  policy ← lift (as_dict data);
  head ← lift (item (&"head_sha") run);
  _ ← lift (validate_plan float_repr sha256_hex (VDict plan) (Some data) (Some head));
  rc ← accepted_parent plan info run;
  run_id ← lift (int_item (&"id") run);
  attempt ← lift (int_item (&"run_attempt") run);
  let a := Admission plan channel info run snapshot policy run_id attempt rc in
  _ ← check_reserved a;
  _ ← ensure_absent (ad_tag a);
  _ ← (if bool_decide (channel ∈ [&"beta"; &"rc"]) then ensure_absent (&"v" ++ plan_text "base_version" plan) else mret tt);
  mret a.

(** The staged files: their entries, the receipts, the fuzzing receipts and the
    versions found in the artifacts. *)
Record staged_build : Type := StagedBuild {
  sb_assets : list pyobject; sb_receipts : list pyval; sb_validation : list pyval; sb_versions : list pyval
}.

Definition contents_by_name (files : list file_entry) : pydict pystr bytes :=
  fold_left (λ d f, dict_set (entry_name f) (contents f) d) files [].

(** The checks of the staged files without the release server. *)
Definition check_staged_build (a : admitted) (files : option (list file_entry)) : outcome (list pyobject * list pyval * list pyval) :=
  assets ← stage_assets casefold sha256_hex files;
  let entries := default [] files in
  let directory := contents_by_name entries in
  _ ← verify_candidate_fuzz_report directory (ad_policy a) (ad_plan a) (ad_run_id a) (ad_attempt a);
  head ← item (&"head_sha") (ad_run a);
  producer ← producer_identity (VStr repo) (VInt (ad_run_id a)) (VInt (ad_attempt a)) head;
  receipts ← verify_receipts float_repr sha256_hex (verify_all inspect entries (ad_policy a) (ad_plan a)) directory (ad_plan a) assets
               (Some (ad_policy a)) (Some producer);
  '(receipts, validation) ← candidate_fuzz_receipts (ad_policy a) (ad_channel a) receipts;
  _ ← verify_required_build_receipts receipts (ad_policy a);
  _ ← verify_required_signatures (verify_signatures inspect entries);
  Ok (assets, receipts, validation).

Definition verify_build (a : admitted) (files : option (list file_entry)) : M G staged_build :=
  '(assets, receipts, validation) ← lift (check_staged_build a files);
  _ ← match ad_rc a with
      | Some (candidate, _) => verify_final_toolchains sha256_hex casefold candidate receipts
      | None => mret tt
      end;
  versions ← lift (verify_declared_artifacts (verify_artifact inspect) (default [] files) (ad_policy a) (ad_plan a));
  mret (StagedBuild assets receipts validation versions).

(** The manifest of a versioned release. *)
Definition versioned_manifest (a : admitted) (b : staged_build) (created_at : pystr) : outcome pyobject :=
  name ← item (&"full_name") (ad_info a);
  digest ← plan_digest float_repr sha256_hex (VDict (ad_plan a));
  receipts ← receipt_identities (sb_receipts b);
  selected ← validation_profile (ad_policy a) (ad_channel a);
  fuzzing ← fuzz_manifest_fields (ad_policy a) (ad_channel a) (sb_validation b);
  let manifest :=
    [(&"schema", VInt 1); (&"repository", name); (&"version", get_key "base_version" (ad_plan a)); (&"channel", VStr (ad_channel a));
     (&"tag", VStr (ad_tag a)); (&"source_sha", VStr (ad_sha a)); (&"source_policy", VDict (ad_snapshot a));
     (&"workflow_path", VStr WORKFLOW_PATH); (&"run_id", VInt (ad_run_id a)); (&"run_attempt", VInt (ad_attempt a));
     (&"created_at", VStr created_at); (&"assets", VList (VDict <$> sb_assets b)); (&"version_plan", VDict (ad_plan a));
     (&"plan_sha256", VStr digest); (&"build_receipts", receipts); (&"package_versions", VList (sb_versions b))]
    ++ match ad_parent a with Some p => [(&"derived_from_rc", VDict p)] | None => [] end
    ++ (if bool_decide (selected = VNone) then [] else [(&"validation_profile", selected)]) ++ fuzzing in
  Ok manifest.

(** The second reading of what can change, before the first public write; a result
    ends the command. *)
Definition recheck_publication (a : admitted) : M G (option pyobject) :=
  _ ← check_reserved a;
  _ ← (if bool_decide (ad_channel a = &"stable") then require_reviewers else mret tt);
  superseded ← superseded_candidate py_text repo (ad_info a) (ad_run a) (ad_channel a);
  match superseded with
  | Some result => mret (Some result)
  | None =>
    _ ← check_workflow_publication repo scope_verified (ad_sha a);
    event ← lift (item (&"event") (ad_run a));
    if bool_decide (ad_channel a = &"nightly") && text_is event (&"schedule") then
      reused ← scheduled_reuse casefold float_repr sha256_hex open_zip repo (ad_info a) (ad_run a) (ad_snapshot a) (plan_text "base_version" (ad_plan a));
      mret (if bool_decide (reused = []) then None
            else Some [(&"status", VStr (&"reused")); (&"tag", VStr reused);
                       (&"reason", VStr (&"Qualified same-input release; fresh nightly checks and builds passed"))])
    else mret None
  end.

(** The text of the release. *)
Definition release_body (a : admitted) : M G pystr :=
  nonce ← token_hex;
  provenance ← lift (text ← versioned_provenance py_text repo (ad_channel a) (ad_sha a) (ad_run_id a) (ad_parent a);
                     digest ← plan_digest float_repr sha256_hex (VDict (ad_plan a));
                     marker ← create_marker float_repr repo (ad_run a) digest nonce;
                     Ok (text ++ marker));
  release_notes sha1_hex sha256_hex repo (ad_tag a) (ad_sha a) provenance.

(** The head of the default branch that an automatic publication starts from. *)
Definition check_captured (branch : pystr) (head : pyval) (captured : pyval) : outcome unit :=
  let d := dict_of captured in
  let object := get_key "object" d in
  release_require (is_dict captured && text_is (get_key "ref" d) (&"refs/heads/" ++ branch) && is_dict object
                   && text_is (get_key "type" (dict_of object)) (&"commit") && py_eq (get_key "sha" (dict_of object)) head)
    "Default branch moved before source snapshot".

Definition capture_source (a : admitted) : M G (pystr * pyval * bool) :=
  path ← lift (head_path (ad_info a));
  source ← gh_api path (&"GET") None;
  event ← lift (item (&"event") (ad_run a));
  auto ← lift (automatic event (ad_channel a));
  _ ← lift (if auto : bool then branch ← default_branch (ad_info a); head ← item (&"head_sha") (ad_run a); check_captured branch head source else Ok tt);
  mret (path, source, auto).

(** [confirm_automatic_source] *)
Definition confirm_automatic_source (a : admitted) (source_ref : pystr * pyval) : M G unit :=
  info ← repository_info repo;
  _ ← lift (v ← item (&"default_branch") info; w ← item (&"default_branch") (ad_info a);
            release_require (py_eq v w) "Automatic publication default branch changed; draft left unpublished");
  head ← gh_api source_ref.1 (&"GET") None;
  lift (release_require (py_eq head source_ref.2) "Automatic publication default source changed; draft left unpublished").

(** The writes: the ledger, then the release. *)
Definition publish_plan (a : admitted) (directory : staging) (body : pystr) (source_ref : pystr * pyval) (auto : bool) : M G pyobject :=
  consumed ← begin_publication float_repr sha256_hex (ad_plan a) (ad_run_id a) (parent_value (ad_parent a)) (VBool false);
  publish_prepared casefold sha256_hex repo scope_verified (verify_signatures inspect (stage_files directory)) (create (ad_run a) source_ref consumed)
    (if auto then confirm_automatic_source a source_ref else mret tt)
    (ad_tag a) (ad_sha a) directory (negb (bool_decide (ad_channel a = &"stable"))) body.

(** What [publish_versioned] verifies; [inl] ends the command without a write. *)
Definition prepare_publication (temporary : pystr) (files : option (list file_entry)) : M G (pyobject + admitted * staging * pystr * (pystr * pyval) * bool) :=
  a ← admit_publication;
  superseded ← superseded_candidate py_text repo (ad_info a) (ad_run a) (ad_channel a);
  match superseded with
  | Some result => mret (inl result)
  | None =>
    b ← verify_build a files;
    created_at ← utc_isoformat;
    content ← lift (manifest ← versioned_manifest a b created_at; json_bytes_indented float_repr (VDict manifest));
    stop ← recheck_publication a;
    match stop with
    | Some result => mret (inl result)
    | None =>
      body ← release_body a;
      _ ← write_evidence content;
      '(path, source, auto) ← capture_source a;
      mret (inr (a, Staging temporary (staged_files (default [] files) content), body, (path, source), auto))
    end
  end.

(** [publish_versioned] *)
Definition publish_versioned (temporary : pystr) (files : option (list file_entry)) : M G pyobject :=
  prepared ← prepare_publication temporary files;
  match prepared with
  | inl result => mret result
  | inr (a, directory, body, source_ref, auto) =>
    release ← publish_plan a directory body source_ref auto;
    lift (url ← item (&"html_url") release;
          Ok [(&"status", VStr (&"published")); (&"tag", VStr (ad_tag a)); (&"release_url", url); (&"manifest_path", VStr EVIDENCE)])
  end.
End commands.

(** The creation of a publication on processes: one request, reconciled when its
    answer is lost. *)
Definition shell_create {P} `{UnicodeCase} `{Shell P} `{Host P} (casefold : pystr → pystr) (unicode_digit : N → bool) (float_repr : Q → pystr)
    (repo : pystr) (run : pyobject) (source_ref : pystr * pyval) (consumed : bytes) (payload : pyobject) : M P pyval :=
  create_or_reconcile casefold unicode_digit float_repr repo (create_confirmation unicode_digit float_repr repo run source_ref consumed) payload.
