(* ===== verification/VersionedFacts.v ===== *)
(** * What a versioned publication guarantees

    However the servers and the process answer, nothing is written before the frozen
    plan, its reservation, the receipts, the toolchains and the repository were
    verified; then the ledger is written, and the release of exactly the staged
    files, whose manifest records them. *)

From Stdlib Require Import QArith.QArith Strings.Byte.
From S2P Require Import Prelude PyStr PyDict PyRegex PyVal PyJson VersionPlan VersionPlanFacts JsonDocument VersionEdit SyncVersions Release ReleaseState ReleaseValidation OciMetadata Fuzz ReleasePolicy ReleaseRuns ReleaseExecution Transport ReleaseNotes ReleaseManifest Publication Recorded PublicationFacts Promotion PromotionFacts Readback VersionReceipt VersionReceiptFacts Toolchain ReleaseVersion Versioned VersionedPublish.
#[local] Open Scope Z_scope.

(** The calendar and the random text of a process, at a moment of the log. *)
Record calendar : Type := Calendar { c_now : list event → outcome datetime; c_iso : list event → outcome pystr; c_hex : list event → outcome pystr }.
Definition recorded_planner (c : calendar) : Planner (list event) := {|
  utc_now := λ l, (l, c_now c l);
  utc_isoformat := λ l, (l, c_iso c l);
  token_hex := λ l, (l, c_hex c l);
  write_plan b := λ l, (l ++ [Recorded b], Ok tt);
|}.

Section versioned.
Context `{UnicodeCase} `{EditLibrary} (reply : list event → outcome bytes) (p : process) (c : calendar).
#[local] Hint Extern 0 (GitHub (list event)) => exact (recorded_github reply) : typeclass_instances.
#[local] Hint Extern 0 (Assets (list event)) => exact (recorded_assets reply) : typeclass_instances.
#[local] Hint Extern 0 (Host (list event)) => exact (recorded_host p) : typeclass_instances.
#[local] Hint Extern 0 (Planner (list event)) => exact (recorded_planner c) : typeclass_instances.
Context (casefold : pystr → pystr) (unicode_digit : N → bool) (float_repr : Q → pystr) (py_text : pyval → pystr).
Context (sha1_hex sha256_hex : bytes → pystr) (open_zip : bytes → outcome (list zip_entry)) (repo : pystr) (scope_verified : bool).
Context (ws : workspace) (inspect : inspectors) (create : pyobject → pystr * pyval → bytes → pyobject → M (list event) pyval).

(** ** Everything before the ledger only reads *)

Lemma reads_now : reads_only utc_now.
Proof. apply reads_answer. Qed.
Lemma reads_iso : reads_only utc_isoformat.
Proof. apply reads_answer. Qed.
Lemma reads_hex : reads_only token_hex.
Proof. apply reads_answer. Qed.
Lemma reads_write_evidence content : reads_only (write_evidence content).
Proof. intros l l' r [= <- _]. by exists [Recorded content]. Qed.

#[local] Hint Resolve reads_now reads_iso reads_hex reads_write_evidence reads_snapshot reads_reviewers reads_evidence reads_state reads_reserved : reads.

Lemma reads_context channel gate : reads_only (context py_text sha1_hex sha256_hex repo channel gate).
Proof. unfold context. solve_reads. Qed.

Lemma reads_inputs : reads_only event_inputs.
Proof. unfold event_inputs. solve_reads. Qed.

Lemma reads_verified_rc tag info run : reads_only (verified_rc casefold unicode_digit float_repr sha1_hex sha256_hex open_zip repo tag info run).
Proof. unfold verified_rc, rc_manifest, check_rc_run, check_rc_payload. solve_reads. Qed.

Lemma reads_superseded info run channel : reads_only (superseded_candidate py_text repo info run channel).
Proof. unfold superseded_candidate. solve_reads. Qed.

Lemma reads_plan_snapshot tag source prerelease : reads_only (published_plan_snapshot casefold tag source prerelease).
Proof. unfold published_plan_snapshot. solve_reads. Qed.

#[local] Hint Resolve reads_context reads_inputs reads_verified_rc reads_superseded reads_plan_snapshot : reads.

Lemma reads_reuse info snapshot plan run_id tag :
  reads_only (verify_scheduled_reuse casefold float_repr sha256_hex open_zip repo info snapshot plan run_id tag).
Proof. unfold verify_scheduled_reuse, check_qualified_run. solve_reads. Qed.

Lemma reads_probes path info run snapshot probes :
  reads_only (probe_reuse casefold float_repr sha256_hex open_zip repo path info run snapshot probes).
Proof. pose proof reads_reuse. induction probes as [|[[n plan] tag] probes IH]; cbn [probe_reuse]; unfold at_head; solve_reads. Qed.

Lemma reads_scheduled info run snapshot base : reads_only (scheduled_reuse casefold float_repr sha256_hex open_zip repo info run snapshot base).
Proof. unfold scheduled_reuse, at_head. pose proof reads_probes. solve_reads. Qed.

Lemma reads_receipts inventory expected receipts r : reads_only (compare_receipts sha256_hex inventory expected receipts r).
Proof. revert r. induction receipts as [|current receipts IH]; intros r; cbn [compare_receipts]; solve_reads. Qed.

Lemma reads_toolchains candidate receipts : reads_only (verify_final_toolchains sha256_hex casefold candidate receipts).
Proof. unfold verify_final_toolchains. pose proof reads_receipts. solve_reads. Qed.

Notation admitting := (admit_publication casefold unicode_digit float_repr py_text sha1_hex sha256_hex open_zip repo).
Notation verify := (verify_build casefold float_repr sha256_hex repo ws inspect).
Notation recheck := (recheck_publication casefold float_repr py_text sha256_hex open_zip repo scope_verified).
Notation prepare := (prepare_publication casefold unicode_digit float_repr py_text sha1_hex sha256_hex open_zip repo scope_verified ws inspect).

Lemma reads_check_reserved a : reads_only (check_reserved float_repr sha256_hex a).
Proof. unfold check_reserved, verify_reservation. solve_reads. Qed.

#[local] Hint Resolve reads_scheduled reads_toolchains reads_check_reserved : reads.

Lemma reads_admit_publication : reads_only admitting.
Proof. unfold admit_publication, read_plan, accepted_parent. solve_reads. Qed.

Lemma reads_verify_build a files : reads_only (verify a files).
Proof. unfold verify_build. solve_reads. Qed.

Lemma reads_recheck a : reads_only (recheck a).
Proof. unfold recheck_publication. solve_reads. Qed.

Lemma reads_body a : reads_only (release_body float_repr py_text sha1_hex sha256_hex repo a).
Proof. unfold release_body. solve_reads. Qed.

Lemma reads_capture a : reads_only (capture_source a).
Proof. unfold capture_source. solve_reads. Qed.

Lemma reads_confirm a source_ref : reads_only (confirm_automatic_source repo a source_ref).
Proof. unfold confirm_automatic_source. solve_reads. Qed.

#[local] Hint Resolve reads_admit_publication reads_verify_build reads_recheck reads_body reads_capture reads_confirm : reads.

Lemma reads_prepare temporary files : reads_only (prepare temporary files).
Proof. unfold prepare_publication. solve_reads. Qed.

(** ** The staged files *)

Lemma stage_entries_names entries folded assets :
  stage_entries casefold sha256_hex entries folded = Ok assets →
  assets = (λ e, asset_of (entry_name e) (stream_identity sha256_hex (contents e))) <$> entries
  ∧ NoDup ((λ e, casefold (entry_name e)) <$> entries)
  ∧ ∀ e, e ∈ entries → casefold (entry_name e) ∉ folded ∧ casefold (entry_name e) ≠ casefold MANIFEST.
Proof.
  revert folded assets. induction entries as [|e entries IH]; intros folded assets Hs; cbn [stage_entries] in Hs.
  { injection Hs as <-. split_and!; [done|constructor|by intros ? []%elem_of_nil]. }
  cbv zeta in Hs. inv_gate. deex. match goal with Hx : stage_entries _ _ _ _ = Ok _ |- _ => apply IH in Hx as (-> & Hnd & Hall) end.
  unfold reserved_name in *. boolprop. rewrite !fmap_cons. split_and!; [done| |].
  - constructor; [|done]. intros (e' & He' & Hin)%list_elem_of_fmap. destruct (Hall e' Hin) as [Hno _]. apply Hno. rewrite <-He'. by left.
  - intros e' [->|Hin]%elem_of_cons; [done|]. destruct (Hall e' Hin) as [Hno ?]. split; [|done]. intros ?. apply Hno. by right.
Qed.

Lemma staged_names entries assets content :
  stage_assets casefold sha256_hex (Some entries) = Ok assets → NoDup (entry_name <$> staged_files entries content).
Proof.
  unfold stage_assets. intros Hs. apply bind_ok in Hs as ([] & _ & Hs). apply bind_ok in Hs as (l & (_ & Hnd & Hall)%stage_entries_names & _).
  unfold staged_files. rewrite fmap_app, <-list_fmap_compose.
  assert (∀ l : list file_entry, entry_name ∘ (λ e, FileEntry (entry_name e) true (contents e)) <$> l = entry_name <$> l) as -> by done.
  apply (NoDup_fmap_1 casefold). rewrite fmap_app, <-list_fmap_compose. apply NoDup_app. split_and!; [done| |apply NoDup_singleton].
  intros x (e & -> & Hin)%list_elem_of_fmap Hx. apply list_elem_of_singleton in Hx. by destruct (Hall e Hin).
Qed.

(** ** The toolchains *)

(** A receipt of the build records the toolchain of the candidate's receipt of that
    name, which was downloaded and has the digest the candidate's manifest gives. *)
Definition same_toolchain (l : list event) (expected : pydict pystr pyobject) (current : pyobject) : Prop :=
  ∃ id raw before after, answered reply l (Fetched (&"releases/assets/" ++ str_of_int id)) raw
    ∧ receipt_toolchains sha256_hex expected current raw = Ok (before, after) ∧ py_eq before after = true.

Lemma same_toolchain_more l k expected current : same_toolchain l expected current → same_toolchain (l ++ k) expected current.
Proof. intros (id & raw & before & after & Ha & ?). exists id, raw, before, after. split; [by apply answered_more|done]. Qed.

Lemma add_changes_platforms name changes r : drift_platforms (fold_left (add_change sha256_hex name) changes r) = drift_platforms r.
Proof. revert r. induction changes as [|ch changes IH]; intros r; cbn [fold_left]; [done|]. by rewrite IH. Qed.

Lemma compare_toolchains_ok name before after r r' :
  compare_toolchains sha256_hex name before after r = Ok r' →
  drift_platforms r <= drift_platforms r' ∧ (drift_platforms r' = drift_platforms r → py_eq before after = true).
Proof.
  unfold compare_toolchains. destruct (py_eq before after); [by intros [= <-]|].
  intros (changes & _ & [= <-])%bind_ok. rewrite add_changes_platforms. cbn. split; [lia|]. lia.
Qed.

Lemma compare_receipts_ok inventory expected receipts r l l' r' :
  compare_receipts sha256_hex inventory expected receipts r l = (l', Ok r') →
  drift_platforms r <= drift_platforms r'
  ∧ (drift_platforms r' = drift_platforms r → ∀ current, current ∈ receipts → same_toolchain l' expected current).
Proof.
  revert r l. induction receipts as [|current receipts IH]; intros r l Hc; cbn [compare_receipts] in Hc.
  { apply mret_M_ok in Hc as [-> <-]. split; [lia|]. by intros _ ? []%elem_of_nil. }
  cbv zeta in Hc. apply bind_M_ok in Hc as (? & asset & [-> _]%lift_M_ok & Hc). apply bind_M_ok in Hc as (? & id & [-> _]%lift_M_ok & Hc).
  apply bind_M_ok in Hc as (l1 & raw & Hraw & Hc). apply bind_M_ok in Hc as (? & [before after] & [-> Ht]%lift_M_ok & Hc).
  apply bind_M_ok in Hc as (? & r1 & [-> Hr1]%lift_M_ok & Hc). pose proof (reads_receipts _ _ _ _ _ _ _ Hc) as (k & -> & _).
  apply IH in Hc as [Hle Hall]. apply compare_toolchains_ok in Hr1 as [Hle1 Heq]. split; [lia|].
  intros Hsame. assert (drift_platforms r1 = drift_platforms r ∧ drift_platforms r' = drift_platforms r1) as [Hr1 Hr'] by lia.
  intros x [->|Hin]%elem_of_cons; [|by apply Hall]. exists id, raw, before, after. cbn [fst snd] in *. split_and!; [|done|by apply Heq].
  injection Hraw as <- Hraw. apply answered_more. by exists l.
Qed.

Definition toolchains_kept (l : list event) (candidate : pyobject) (receipts : list pyval) : Prop :=
  ∃ expected, (l ← iterate (get_default (&"build_receipts") (VList []) candidate); index_by_name l []) = Ok expected
    ∧ ∀ r, r ∈ receipts → ∃ d, r = VDict d ∧ same_toolchain l expected d.

Lemma verify_toolchains_ok candidate receipts l l' :
  verify_final_toolchains sha256_hex casefold candidate receipts l = (l', Ok tt) → toolchains_kept l' candidate receipts.
Proof.
  unfold verify_final_toolchains. intros Hv. apply bind_M_ok in Hv as (? & tag & [-> _]%lift_M_ok & Hv).
  apply bind_M_ok in Hv as (l1 & snapshot & _ & Hv). cbv zeta in Hv. apply bind_M_ok in Hv as (? & expected & [-> He]%lift_M_ok & Hv).
  apply bind_M_ok in Hv as (? & ds & [-> Hds]%lift_M_ok & Hv). apply bind_M_ok in Hv as (? & [] & [-> _]%lift_M_ok & Hv).
  apply bind_M_ok in Hv as (l2 & r & Hc%compare_receipts_ok & Hv). apply lift_M_ok in Hv as [-> Hv].
  destruct (drift_platforms r =? 0) eqn:E; [|done]. apply Z.eqb_eq in E. destruct Hc as [_ Hall]. specialize (Hall E).
  exists expected. split; [done|]. apply collect_dicts in Hds as ->. intros x (d & -> & Hin)%list_elem_of_fmap.
  exists d. split; [done|]. apply Hall. by rewrite sorted_perm.
Qed.

(** ** The accepted candidate *)

(** A payload of the candidate was downloaded, with the size and the digest of its
    entry in the manifest. *)
Definition payload_verified (l : list event) (expected : pydict pystr pyval) (name : pystr) : Prop :=
  ∃ id content e, answered reply l (Downloaded (&"releases/assets/" ++ str_of_int id)) content
    ∧ dict_get name expected = Some (VDict e)
    ∧ py_eq (VInt (Z.of_nat (length content))) (get_key "size" e) = true ∧ get_key "sha256" e = VStr (sha256_hex content).

Lemma payload_more l k expected name : payload_verified l expected name → payload_verified (l ++ k) expected name.
Proof. intros (id & content & e & ? & ?). exists id, content, e. split; [by apply answered_more|done]. Qed.

Lemma check_rc_payload_ok expected asset (l l' : list event) :
  check_rc_payload sha256_hex expected asset l = (l', Ok tt) → asset_name asset ≠ MANIFEST → payload_verified l' expected (asset_name asset).
Proof.
  unfold check_rc_payload. intros Hc Hm. apply bind_M_ok in Hc as (? & v & [-> <-%item_key]%lift_M_ok & Hc).
  destruct (text_is _ _) eqn:E; [apply text_is_iff in E; unfold asset_name in Hm; by rewrite E in Hm|].
  apply bind_M_ok in Hc as (? & id & [-> _]%lift_M_ok & Hc). apply bind_M_ok in Hc as (l1 & content & Hd & Hc). apply lift_M_ok in Hc as [-> Hc].
  rewrite stream_identity_spec in Hc. apply bind_ok in Hc as (size & _ & Hc). apply bind_ok in Hc as ([] & _ & Hc).
  apply bind_ok in Hc as (v & Hv & Hc). fold (asset_name asset) in Hv. destruct (dict_get _ _) as [w|] eqn:Hw; [injection Hv as ->|done].
  apply bind_ok in Hc as (e & He & Hc). destruct v; try done. injection He as ->. apply bind_ok in Hc as (ok & Hok & Hc%release_require_ok). subst ok.
  apply o_and_true in Hok as [Hsize Hsha]. apply bind_ok in Hsize as (? & <-%item_key & [= Hsize]). apply bind_ok in Hsha as (? & <-%item_key & [= Hsha]).
  exists id, content, e. split_and!; [|done|done|].
  - injection Hd as <- Hr. by exists l.
  - cbn in Hsha. destruct (get_key "sha256" e); try done. by apply bool_decide_eq_true in Hsha as ->.
Qed.

Lemma reads_payload expected asset : reads_only (check_rc_payload sha256_hex expected asset).
Proof. unfold check_rc_payload. solve_reads. Qed.

Lemma check_rc_payloads_ok expected assets (l l' : list event) :
  for_each_M (check_rc_payload sha256_hex expected) assets l = (l', Ok tt) →
  ∀ asset, asset ∈ assets → asset_name asset ≠ MANIFEST → payload_verified l' expected (asset_name asset).
Proof.
  revert l. induction assets as [|a assets IH]; intros l Hc asset Ha Hm; [by apply elem_of_nil in Ha|]. cbn [for_each_M] in Hc.
  apply bind_M_ok in Hc as (l1 & [] & Hc & Hcs). pose proof (reads_each _ assets (reads_payload expected) _ _ _ Hcs) as (k & -> & _).
  apply elem_of_cons in Ha as [->|Ha]; [apply payload_more; by eapply check_rc_payload_ok|]. by eapply IH.
Qed.

(** What [verified_rc] accepts: a manifest of another run, which is the only file of
    that run's evidence; a release that lists exactly the manifest's payloads and did
    not change while each was downloaded and compared. *)
Definition rc_verified (l : list event) (run candidate parent : pyobject) : Prop :=
  ∃ tag a assets expected,
    acc_manifest a = candidate ∧ parent_of sha256_hex tag (acc_raw a) candidate = Ok parent
    ∧ validate_manifest casefold float_repr sha256_hex repo unicode_digit (acc_raw a) tag false = Ok candidate
    ∧ py_eq (get_key "run_id" candidate) (get_key "id" run) = false
    ∧ evident reply sha256_hex open_zip l a
    ∧ unchanged reply casefold float_repr tag l a (λ l, ∀ name, name ∈ dict_keys expected → name ≠ MANIFEST → payload_verified l expected name)
    ∧ iterate (get_key "assets" candidate) = Ok assets ∧ asset_index assets [] = Ok expected
    ∧ same_keys (asset_name <$> snap_assets (acc_initial a)) (dict_keys expected ++ [MANIFEST]) = true
    ∧ ∀ name, name ∈ dict_keys expected → name ≠ MANIFEST → payload_verified l expected name.

Lemma rc_verified_more l k run candidate parent : rc_verified l run candidate parent → rc_verified (l ++ k) run candidate parent.
Proof.
  intros (tag & a & assets & expected & ? & ? & ? & ? & He & Hu & ? & ? & ? & Hp). exists tag, a, assets, expected.
  split_and!; try done; [by apply evident_more|by apply unchanged_more|]. intros name ??. by apply payload_more, Hp.
Qed.

Lemma rc_manifest_ok tag initial (l l' : list event) asset raw manifest :
  rc_manifest casefold unicode_digit float_repr sha256_hex repo tag initial l = (l', Ok (asset, raw, manifest)) →
  validate_manifest casefold float_repr sha256_hex repo unicode_digit raw tag false = Ok manifest.
Proof.
  unfold rc_manifest. destruct (filter _ _) as [|x []]; [done| |done]. intros Hr. inv_M.
  match goal with Hp : (_, _, _) = (_, _, _) |- _ => by injection Hp as -> -> -> end.
Qed.

Lemma reads_rc_manifest tag initial : reads_only (rc_manifest casefold unicode_digit float_repr sha256_hex repo tag initial).
Proof. unfold rc_manifest. solve_reads. Qed.

Lemma reads_rc_run manifest policy info : reads_only (check_rc_run repo manifest policy info).
Proof. unfold check_rc_run. solve_reads. Qed.

Lemma verified_rc_ok tag info run (l l' : list event) candidate parent :
  verified_rc casefold unicode_digit float_repr sha1_hex sha256_hex open_zip repo tag info run l = (l', Ok (candidate, parent)) →
  rc_verified l' run candidate parent.
Proof.
  unfold verified_rc. intros Hv. apply bind_M_ok in Hv as (? & [] & [-> _]%lift_M_ok & Hv). cbv zeta in Hv. set (t := str_value tag) in *.
  apply bind_M_ok in Hv as (l1 & initial & Hread & Hv). apply bind_M_ok in Hv as (l2 & [[asset raw] manifest] & Hm & Hv).
  pose proof (reads_prefix _ _ _ _ (reads_rc_manifest _ _) Hm) as H2. apply rc_manifest_ok in Hm.
  apply bind_M_ok in Hv as (? & source & [-> _]%lift_M_ok & Hv). apply bind_M_ok in Hv as (l3 & source_policy & H3 & Hv). eapply reads_prefix in H3; [|apply reads_policy].
  apply bind_M_ok in Hv as (? & policy & [-> _]%lift_M_ok & Hv). apply bind_M_ok in Hv as (? & head & [-> _]%lift_M_ok & Hv).
  apply bind_M_ok in Hv as (l4 & ? & H4 & Hv). eapply reads_prefix in H4; [|apply reads_current_fuzzing]. apply bind_M_ok in Hv as (? & [] & [-> Hc]%lift_M_ok & Hv).
  apply bind_M_ok in Hv as (l5 & ? & H5 & Hv). eapply reads_prefix in H5; [|apply reads_rc_run]. apply bind_M_ok in Hv as (? & branch & [-> _]%lift_M_ok & Hv).
  apply bind_M_ok in Hv as (l6 & ? & H6 & Hv). eapply reads_prefix in H6; [|apply reads_ancestry]. set (a := Accepted initial raw manifest [] []).
  apply bind_M_ok in Hv as (l7 & [] & He & Hv). pose proof (reads_prefix _ _ _ _ (reads_evidence _ _ _ _ _) He) as H7.
  apply (verify_evidence_ok reply sha256_hex open_zip a) in He.
  assert (l1 `prefix_of` l7) as Hpre by (do 5 (etrans; [eassumption|]); done).
  apply bind_M_ok in Hv as (? & expected & [-> Hx]%lift_M_ok & Hv). apply bind_M_ok in Hv as (? & [] & [-> Hinv]%lift_M_ok & Hv).
  apply bind_M_ok in Hv as (l8 & [] & Hp & Hv). pose proof (reads_each _ _ (reads_payload expected) _ _ _ Hp) as (k1 & -> & _).
  apply bind_M_ok in Hv as (l9 & again & Hs & Hv). pose proof (reads_snapshot _ _ _ _ _ _ Hs) as (k2 & -> & _).
  apply bind_M_ok in Hv as (? & [] & [-> Hu]%lift_M_ok & Hv). apply bind_M_ok in Hv as (? & parent' & [-> Hpar]%lift_M_ok & Hv).
  apply mret_M_ok in Hv as [-> [= <- <-]]. apply bind_ok in Hx as (v & <-%item_key & Hx). apply bind_ok in Hx as (assets & Has & Hx).
  apply bind_ok in Hinv as ([] & Hkeys%release_require_ok & _).
  assert (∀ name, name ∈ dict_keys expected → name ≠ MANIFEST → payload_verified (l7 ++ k1) expected name) as Hpayloads.
  { intros name Hin Hne. eapply same_keys_in in Hkeys; [|apply elem_of_app; by left].
    apply list_elem_of_fmap in Hkeys as (y & -> & Hy). by eapply check_rc_payloads_ok. }
  exists t, a, assets, expected. split_and!; try done.
  - unfold check_rc_source in Hc. do 4 apply bind_ok in Hc as (? & _ & Hc).
    apply bind_ok in Hc as (? & <-%item_key & Hc). apply bind_ok in Hc as (? & <-%item_key & Hc%release_require_ok). by apply negb_true_iff in Hc.
  - by do 2 apply evident_more.
  - unfold same_release in Hu. apply bind_ok in Hu as (now & Hn & Hu). apply bind_ok in Hu as (before & Hb & Hu%release_require_ok%bool_decide_eq_true).
    subst now. exists (l7 ++ k1), ((l7 ++ k1) ++ k2), again, before. split_and!; try done.
    exists l, l1. split; [by apply prefix_app_r|done].
  - intros name Hin Hne. by apply payload_more, Hpayloads.
Qed.

(** ** What was verified *)

(** The reservation of a plan was found in the ledger at some point. *)
Definition reserved_at (l : list event) (a : admitted) : Prop :=
  ∃ before after, after `prefix_of` l ∧ check_reserved float_repr sha256_hex a before = (after, Ok tt).

Lemma reserved_more l k a : reserved_at l a → reserved_at (l ++ k) a.
Proof. intros (before & after & ? & ?). exists before, after. split; [by apply prefix_app_r|done]. Qed.

(** The plan is valid for the policy and the commit of the executing run; a stable
    plan has a verified candidate of the same source and base version. *)
Definition plan_admitted (l : list event) (a : admitted) : Prop :=
  validate_plan float_repr sha256_hex (VDict (ad_plan a)) (Some (VDict (ad_policy a))) (Some (get_key "head_sha" (ad_run a))) = Ok (ad_plan a)
  ∧ get_key "data" (ad_snapshot a) = VDict (ad_policy a) ∧ ad_channel a = plan_text "channel" (ad_plan a)
  ∧ match ad_rc a with
    | Some (candidate, parent) =>
        get_key "channel" (ad_plan a) = VStr (&"stable") ∧ get_key "promotion" (ad_plan a) = VStr (&"final-build")
        ∧ py_eq (get_key "source_sha" candidate) (get_key "source_sha" (ad_plan a)) = true
        ∧ py_eq (get_key "version" candidate) (get_key "base_version" (ad_plan a)) = true
        ∧ rc_verified l (ad_run a) candidate parent
    | None => get_key "channel" (ad_plan a) ≠ VStr (&"stable")
    end.

Lemma plan_more l k a : plan_admitted l a → plan_admitted (l ++ k) a.
Proof.
  intros (? & ? & ? & Hrc). split_and!; try done. destruct (ad_rc a) as [[candidate parent]|]; [|done].
  destruct Hrc as (? & ? & ? & ? & Hrc). split_and!; try done. by apply rc_verified_more.
Qed.

Lemma accepted_parent_ok plan info run (l l' : list event) rc :
  accepted_parent casefold unicode_digit float_repr sha1_hex sha256_hex open_zip repo plan info run l = (l', Ok rc) →
  match rc with
  | Some (candidate, parent) => get_key "channel" plan = VStr (&"stable") ∧ get_key "promotion" plan = VStr (&"final-build")
      ∧ py_eq (get_key "source_sha" candidate) (get_key "source_sha" plan) = true
      ∧ py_eq (get_key "version" candidate) (get_key "base_version" plan) = true ∧ rc_verified l' run candidate parent
  | None => get_key "channel" plan ≠ VStr (&"stable")
  end.
Proof.
  unfold accepted_parent. destruct (text_is _ _) eqn:E; intros Ha.
  - apply text_is_iff in E. apply bind_M_ok in Ha as (? & [] & [-> Hp%release_require_ok%text_is_iff]%lift_M_ok & Ha).
    apply bind_M_ok in Ha as (l1 & [] & _ & Ha). apply bind_M_ok in Ha as (l2 & inputs & _ & Ha).
    apply bind_M_ok in Ha as (l3 & [candidate parent] & Hv%verified_rc_ok & Ha). apply bind_M_ok in Ha as (? & [] & [-> Hc]%lift_M_ok & Ha).
    apply mret_M_ok in Ha as [-> <-]. apply bind_ok in Hc as (source & <-%item_key & Hc). apply bind_ok in Hc as (version & <-%item_key & Hc).
    apply bind_ok in Hc as ([] & Hsame%release_require_ok & _). apply andb_true_iff in Hsame as [? ?]. by split_and!.
  - apply mret_M_ok in Ha as [_ <-]. intros Hc. rewrite Hc in E. by apply bool_decide_eq_false in E.
Qed.

Lemma reads_parent plan info run :
  reads_only (accepted_parent casefold unicode_digit float_repr sha1_hex sha256_hex open_zip repo plan info run).
Proof. unfold accepted_parent. solve_reads. Qed.

Lemma admit_publication_ok (l l' : list event) a : admitting l = (l', Ok a) → plan_admitted l' a ∧ reserved_at l' a.
Proof.
  unfold admit_publication. intros Ha. apply bind_M_ok in Ha as (l1 & plan & _ & Ha). cbv zeta in Ha.
  apply bind_M_ok in Ha as (l2 & [[info run] snapshot] & _ & Ha). apply bind_M_ok in Ha as (? & data & [-> Hdata%item_key]%lift_M_ok & Ha).
  apply bind_M_ok in Ha as (? & policy & [-> Hpolicy]%lift_M_ok & Ha). apply bind_M_ok in Ha as (? & head & [-> <-%item_key]%lift_M_ok & Ha).
  apply bind_M_ok in Ha as (? & plan' & [-> Hplan]%lift_M_ok & Ha). apply bind_M_ok in Ha as (l3 & rc & Hrc%accepted_parent_ok & Ha).
  apply bind_M_ok in Ha as (? & run_id & [-> _]%lift_M_ok & Ha). apply bind_M_ok in Ha as (? & attempt & [-> _]%lift_M_ok & Ha).
  set (a' := Admission _ _ _ _ _ _ _ _ _) in Ha. apply bind_M_ok in Ha as (l4 & [] & Hres & Ha).
  pose proof (reads_check_reserved _ _ _ _ Hres) as (k0 & -> & _).
  destruct data as [| | | | | | |d]; try done. injection Hpolicy as ->.
  assert (reserved_at (l3 ++ k0) a') as Hres' by (exists l3, (l3 ++ k0); by split).
  assert (plan_admitted l3 a') as Hadmitted.
  { pose proof (validate_plan_items _ _ _ _ _ _ Hplan) as ([= <-] & _).
    unfold plan_admitted. cbn [a' ad_plan ad_policy ad_run ad_snapshot ad_rc ad_channel]. by split_and!. }
  apply bind_M_ok in Ha as (l5 & [] & (k1 & -> & _)%reads_ensure_absent & Ha).
  apply bind_M_ok in Ha as (l6 & [] & Hbase & Ha). apply mret_M_ok in Ha as [-> <-].
  assert (∃ k2, l6 = ((l3 ++ k0) ++ k1) ++ k2) as (k2 & ->).
  { destruct (bool_decide _); [by apply reads_ensure_absent in Hbase as (k2 & -> & _); exists k2|].
    apply mret_M_ok in Hbase as [-> _]. exists []. by rewrite app_nil_r. }
  split; [by do 3 apply plan_more|by do 2 apply reserved_more].
Qed.

(** The run that the receipts must name. *)
Definition ad_producer (a : admitted) : pyobject :=
  [(&"repository", VStr repo); (&"run_id", VInt (ad_run_id a)); (&"run_attempt", VInt (ad_attempt a)); (&"source_sha", get_key "head_sha" (ad_run a))].

(** The staged files, covered exactly by receipts of this plan and run; those kept
    for the build have the toolchains of the candidate, where there is one. *)
Definition build_verified (l : list event) (a : admitted) (files : option (list file_entry)) (b : staged_build) : Prop :=
  ∃ entries results, files = Some entries ∧ stage_assets casefold sha256_hex files = Ok (sb_assets b)
    ∧ covers_exactly float_repr sha256_hex (contents_by_name entries) (ad_plan a) (sb_assets b) (Some (ad_producer a)) results
    ∧ (∀ r, r ∈ sb_receipts b → r ∈ results)
    ∧ ∀ candidate parent, ad_rc a = Some (candidate, parent) → toolchains_kept l candidate (sb_receipts b).

Lemma toolchains_more l k candidate receipts : toolchains_kept l candidate receipts → toolchains_kept (l ++ k) candidate receipts.
Proof.
  intros (expected & He & Hall). exists expected. split; [done|]. intros r Hr. destruct (Hall r Hr) as (d & -> & Hd).
  exists d. split; [done|]. by apply same_toolchain_more.
Qed.

Lemma build_verified_more l k a files b : build_verified l a files b → build_verified (l ++ k) a files b.
Proof.
  intros (entries & results & ? & ? & ? & ? & Ht). exists entries, results. split_and!; try done.
  intros candidate parent Hrc. eapply toolchains_more, Ht, Hrc.
Qed.

Lemma fuzz_receipts_incl policy channel results receipts validation :
  candidate_fuzz_receipts policy channel results = Ok (receipts, validation) → ∀ r, r ∈ receipts → r ∈ results.
Proof.
  unfold candidate_fuzz_receipts. destruct (_ || _); [by intros [= <- _]|]. unfold split_receipts. intros Hs.
  apply bind_ok in Hs as (v & _ & Hs). destruct v as [|x []]; [done| |done]. apply bind_ok in Hs as (? & _ & Hs).
  apply bind_ok in Hs as (? & _ & Hs). apply bind_ok in Hs as (? & _ & Hs). apply bind_ok in Hs as (? & _ & Hs).
  apply bind_ok in Hs as (? & _ & Hs). apply bind_ok in Hs as ([] & _ & [= <- _]). intros r Hr. by apply list_elem_of_filter in Hr as [_ ?].
Qed.

Lemma verify_build_ok a files (l l' : list event) b : verify a files l = (l', Ok b) → build_verified l' a files b.
Proof.
  unfold verify_build. intros Hv. apply bind_M_ok in Hv as (? & [[assets receipts] validation] & [-> Hs]%lift_M_ok & Hv).
  apply bind_M_ok in Hv as (l1 & [] & Ht & Hv). apply bind_M_ok in Hv as (? & versions & [-> _]%lift_M_ok & [-> <-]%mret_M_ok).
  unfold check_staged_build in Hs. apply bind_ok in Hs as (assets' & Hassets & Hs). cbv zeta in Hs.
  apply bind_ok in Hs as ([] & _ & Hs). apply bind_ok in Hs as (head & <-%item_key & Hs). apply bind_ok in Hs as (producer & Hp & Hs).
  apply bind_ok in Hs as (results & Hr%verify_receipts_ok & Hs). apply bind_ok in Hs as ([receipts' validation'] & Hf & Hs).
  apply bind_ok in Hs as ([] & _ & Hs). apply bind_ok in Hs as ([] & _ & [= -> -> ->]).
  unfold producer_identity in Hp. apply bind_ok in Hp as ([] & _ & [= <-]).
  destruct files as [entries|]; [|done]. exists entries, results. cbn [sb_assets sb_receipts default] in *. split_and!; try done.
  - by eapply fuzz_receipts_incl.
  - intros candidate parent Hrc. rewrite Hrc in Ht. by apply verify_toolchains_ok in Ht.
Qed.

(** ** The publication *)

Definition unpublished (d : pyobject) : Prop := get_key "status" d ≠ VStr (&"published").

Lemma superseded_unpublished info run channel (l l' : list event) d :
  superseded_candidate py_text repo info run channel l = (l', Ok (Some d)) → unpublished d.
Proof.
  unfold superseded_candidate. intros Hs. apply bind_M_ok in Hs as (? & event & [-> _]%lift_M_ok & Hs).
  apply bind_M_ok in Hs as (? & auto & [-> _]%lift_M_ok & Hs). destruct (negb auto); [by apply mret_M_ok in Hs as [_ ?]|].
  apply bind_M_ok in Hs as (? & v & [-> _]%lift_M_ok & Hs). apply bind_M_ok in Hs as (l1 & again & _ & Hs).
  apply bind_M_ok in Hs as (? & v' & [-> _]%lift_M_ok & Hs). apply bind_M_ok in Hs as (? & [] & [-> _]%lift_M_ok & Hs).
  apply bind_M_ok in Hs as (? & branch & [-> _]%lift_M_ok & Hs). apply bind_M_ok in Hs as (? & quoted & [-> _]%lift_M_ok & Hs). cbv zeta in Hs.
  apply bind_M_ok in Hs as (l2 & ref & _ & Hs). apply bind_M_ok in Hs as (? & head & [-> _]%lift_M_ok & Hs).
  apply bind_M_ok in Hs as (? & source & [-> _]%lift_M_ok & Hs). destruct (text_is source head); [by apply mret_M_ok in Hs as [_ ?]|].
  apply bind_M_ok in Hs as (l3 & comparison & _ & Hs). apply bind_M_ok in Hs as (? & [] & [-> _]%lift_M_ok & Hs).
  apply bind_M_ok in Hs as (l4 & replacement & _ & Hs). apply bind_M_ok in Hs as (? & successor & [-> _]%lift_M_ok & Hs).
  apply bind_M_ok in Hs as (? & attempt & [-> _]%lift_M_ok & Hs). apply bind_M_ok in Hs as (? & [] & [-> _]%lift_M_ok & Hs).
  apply bind_M_ok in Hs as (? & [] & [-> _]%lift_M_ok & Hs). apply bind_M_ok in Hs as (l5 & ref' & _ & Hs).
  apply bind_M_ok in Hs as (? & [] & [-> _]%lift_M_ok & Hs). apply bind_M_ok in Hs as (? & result & [-> Hr]%lift_M_ok & [_ [= <-]]%mret_M_ok).
  unfold superseded_outcome in Hr. apply bind_ok in Hr as (id & _ & [= <-]). done.
Qed.

Lemma recheck_ok a (l l' : list event) r :
  recheck a l = (l', Ok r) → reserved_at l' a ∧ ∀ d, r = Some d → unpublished d.
Proof.
  unfold recheck_publication. intros Hr. apply bind_M_ok in Hr as (l1 & [] & Hres & Hr).
  assert (∃ k, l' = l1 ++ k ∧ ∀ d, r = Some d → unpublished d) as (k & -> & Hd).
  2: { split; [|done]. exists l, l1. split; [by eexists|done]. }
  apply bind_M_ok in Hr as (l2 & [] & Hrev & Hr).
  assert (∃ k, l2 = l1 ++ k) as (k1 & ->).
  { destruct (bool_decide _); [by apply reads_reviewers in Hrev as (k & -> & _); exists k|].
    apply mret_M_ok in Hrev as [-> _]. exists []. by rewrite app_nil_r. }
  apply bind_M_ok in Hr as (l3 & superseded & Hs & Hr). pose proof Hs as (k2 & -> & _)%reads_superseded.
  destruct superseded as [d|].
  { apply mret_M_ok in Hr as [-> <-]. exists (k1 ++ k2). split; [by rewrite app_assoc|]. intros d' [= <-]. by eapply superseded_unpublished. }
  apply bind_M_ok in Hr as (l4 & [] & (k3 & -> & _)%reads_workflow & Hr). apply bind_M_ok in Hr as (? & event & [-> _]%lift_M_ok & Hr).
  destruct (_ && _).
  - apply bind_M_ok in Hr as (l5 & reused & (k4 & -> & _)%reads_scheduled & Hr). apply mret_M_ok in Hr as [-> <-].
    exists (k1 ++ k2 ++ k3 ++ k4). split; [by rewrite <-!app_assoc|]. destruct (bool_decide (reused = [])); [done|]. by intros d [= <-].
  - apply mret_M_ok in Hr as [-> <-]. exists (k1 ++ k2 ++ k3). by split; [rewrite <-!app_assoc|].
Qed.

(** What is published: files that were verified and reserved, and the manifest that
    records them. *)
Definition publication_verified (l : list event) (a : admitted) (files : option (list file_entry)) (directory : staging) : Prop :=
  plan_admitted l a ∧ reserved_at l a
  ∧ ∃ b created_at manifest content, build_verified l a files b
      ∧ versioned_manifest float_repr sha256_hex a b created_at = Ok manifest ∧ json_bytes_indented float_repr (VDict manifest) = Ok content
      ∧ stage_files directory = staged_files (default [] files) content.

Lemma verified_distinct l a files directory : publication_verified l a files directory → NoDup (entry_name <$> stage_files directory).
Proof.
  intros (_ & _ & b & created & manifest & content & (entries & results & -> & Hs & _) & _ & _ & ->). by eapply staged_names.
Qed.

Lemma prepare_publication_ok temporary files (l l' : list event) r :
  prepare temporary files l = (l', Ok r) →
  match r with
  | inl d => unpublished d
  | inr (a, directory, _, _, _) => publication_verified l' a files directory
  end.
Proof.
  unfold prepare_publication. intros Hp. apply bind_M_ok in Hp as (l1 & a & Ha & Hp). apply admit_publication_ok in Ha as [Hplan Hres].
  apply bind_M_ok in Hp as (l2 & superseded & Hs & Hp). destruct superseded as [d|]; [apply mret_M_ok in Hp as [_ <-]; by eapply superseded_unpublished|].
  pose proof Hs as (k6 & -> & _)%reads_superseded. apply bind_M_ok in Hp as (l3 & b & Hb & Hp).
  pose proof Hb as (k7 & -> & _)%reads_verify_build. apply verify_build_ok in Hb. apply bind_M_ok in Hp as (l4 & created & (k1 & -> & _)%reads_iso & Hp).
  apply bind_M_ok in Hp as (? & content & [-> Hc]%lift_M_ok & Hp). apply bind_M_ok in Hp as (l5 & stop & Hr & Hp).
  pose proof Hr as (k2 & -> & _)%reads_recheck. apply recheck_ok in Hr as [Hres' Hstop].
  destruct stop as [d|]; [apply mret_M_ok in Hp as [_ <-]; by apply Hstop|].
  apply bind_M_ok in Hp as (l6 & body & (k3 & -> & _)%reads_body & Hp). apply bind_M_ok in Hp as (l7 & [] & (k4 & -> & _)%reads_write_evidence & Hp).
  apply bind_M_ok in Hp as (l8 & [[path source] auto] & (k5 & -> & _)%reads_capture & Hp). apply mret_M_ok in Hp as [-> <-].
  apply bind_ok in Hc as (manifest & Hm & Hc). split_and!; [by do 7 apply plan_more|by do 3 apply reserved_more|].
  exists b, created, manifest, content. split_and!; [|done|done|done]. by do 5 apply build_verified_more.
Qed.

Context (Hcreate : ∀ run source_ref consumed, creates_once (create run source_ref consumed)).

Notation publish := (publish_plan casefold float_repr sha256_hex repo scope_verified inspect create).

Lemma publish_plan_trace a directory body source_ref auto (l l' : list event) r :
  NoDup (entry_name <$> stage_files directory) → publish a directory body source_ref auto l = (l', r) →
  ∃ j, ledger_write j ∧ publication_log reply sha256_hex (ad_tag a) (ad_sha a) body directory (negb (bool_decide (ad_channel a = &"stable"))) (l ++ j) l' (is_ok r).
Proof.
  unfold publish_plan. intros Hnd [(e & Hb & ->)|(l1 & consumed & Hb & Hp)]%bind_trace.
  - apply begin_publication_writes in Hb as (j & -> & Hj). exists j. split; [done|]. rewrite <-(app_nil_r (l ++ j)) at 2.
    apply (stopped _ _ _ _ _ _ _ 0). apply prefix_nil.
  - apply begin_publication_writes in Hb as (j & -> & Hj). exists j. split; [done|].
    eapply publication_logged; [done|apply Hcreate| |exact Hp]. destruct auto; [apply reads_confirm|apply reads_ret].
Qed.

(** C5: However the servers and the process answer, [publish_versioned] either writes
    nothing, and then does not report a publication; or before its first write the
    frozen plan was valid for the policy and the commit of the executing run, its
    reservation was found in the ledger, a stable plan had a candidate of the same
    source and version that was verified byte by byte against its manifest and
    evidence, the staged files were covered exactly by receipts of this plan and this
    run, the receipts of a final build recorded the candidate's toolchains, and the
    staged manifest records the plan and the files.  It then writes at most the
    ledger once and the publication of exactly these files, under the plan's tag at
    the plan's source. *)
Theorem versioned_publication_is_verified temporary files (l l' : list event) r :
  publish_versioned casefold unicode_digit float_repr py_text sha1_hex sha256_hex open_zip repo scope_verified ws inspect create temporary files l = (l', r) →
  (∃ k, l' = l ++ k ∧ writes k = [] ∧ ∀ d, r = Ok d → unpublished d)
  ∨ ∃ k j a directory body,
      writes k = [] ∧ publication_verified (l ++ k) a files directory ∧ ledger_write j
      ∧ publication_log reply sha256_hex (ad_tag a) (ad_sha a) body directory (negb (bool_decide (ad_channel a = &"stable"))) ((l ++ k) ++ j) l' (is_ok r).
Proof.
  unfold publish_versioned. intros [(e & Hp & ->)|(l1 & prepared & Hp & Hr)]%bind_trace.
  { left. apply reads_prepare in Hp as (k & -> & Hk). by exists k. }
  pose proof (prepare_publication_ok _ _ _ _ _ Hp) as Hver. apply reads_prepare in Hp as (k & -> & Hk).
  destruct prepared as [d|[[[[a directory] body] source_ref] auto]].
  { left. injection Hr as <- <-. exists k. split_and!; [done|done|]. by intros d' [= <-]. }
  right. pose proof (verified_distinct _ _ _ _ Hver) as Hnd.
  assert (∃ r', publish a directory body source_ref auto (l ++ k) = (l', r') ∧ (is_ok r = true → is_ok r' = true)) as (r' & Hpub & Hok).
  { apply bind_trace in Hr as [(e & Hr & ->)|(l2 & release & Hr & [= <- _])]; eauto. }
  apply publish_plan_trace in Hpub as (j & Hj & Hlog); [|done]. exists k, j, a, directory, body. split_and!; try done.
  destruct Hlog as (id & k' & ? & ? & ? & Hsent). exists id, k'. split_and!; try done. auto.
Qed.
End versioned.
