(* ===== verification/VersionedDemo.v ===== *)
(** * A concrete versioned publication

    A nightly run whose plan is reserved in the ledger publishes its two files; with
    a receipt of another version, or without the reservation, it writes nothing. *)

From Stdlib Require Import QArith.QArith Strings.Byte.
From S2P Require Import Prelude PyStr PyDict PyRegex PyVal PyJson Base64 VersionPlan VersionPlanFacts JsonDocument VersionEdit SyncVersions Release ReleaseState ReleaseValidation OciMetadata Fuzz ReleasePolicy ReleaseRuns ReleaseExecution Transport ReleaseNotes ReleaseManifest Publication Recorded PublicationFacts Promotion PromotionFacts Readback VersionReceipt VersionReceiptFacts Toolchain ReleaseVersion Versioned VersionedPublish VersionedFacts.
#[local] Open Scope Z_scope.

#[local] Existing Instance ascii_case.

Definition nightly_policy : pyobject := ReleaseManifest.demo_policy ++ dict_of VersionPlanFacts.demo_policy.

Definition nightly_plan : pyobject :=
  match create_plan demo_no_floats demo_sha256 (VStr (&"1.2.3")) (VStr (&"nightly")) (VStr (&"20240229235959.9.1")) (VStr stable_sha)
          (VDict nightly_policy) (VInt 7) with Ok p => p | Raise _ => [] end.
Definition nightly_tag : pystr := plan_text "tag" nightly_plan.

(** The receipt of a build that found the version [version]. *)
Definition nightly_receipt (version : pystr) : pyobject :=
  let digest := demo_sha256 [] in
  let file path format field projection value :=
    VDict [(&"path", VStr (lit path)); (&"after_sha256", VStr digest);
           (&"fields", VList [VDict [(&"format", VStr (lit format)); (&"field", field); (&"package", VNone);
                                     (&"projection", VStr (lit projection)); (&"value", value)]])] in
  [(&"plan_sha256", VStr digest); (&"source_sha", VStr stable_sha); (&"effective_inputs_sha256", VStr digest);
   (&"files", VList [file "package.json"%string "json"%string (VStr (&"version")) "package"%string (VStr version);
                     file "build.txt"%string "text"%string VNone "build"%string (VInt 7)]);
   (&"toolchain", VDict [(&"python", VStr (&"3.13"))]);
   (&"producer", VDict [(&"repository", VStr (&"O/R")); (&"run_id", VInt 9); (&"run_attempt", VInt 1); (&"source_sha", VStr stable_sha)]);
   (&"artifacts", VList [VDict [(&"name", VStr (&"app.zip")); (&"size", VInt 1); (&"sha256", VStr digest)]])].

Definition nightly_files (version : pystr) : list file_entry :=
  [FileEntry (&"app.zip") true [Byte.x00];
   FileEntry linux_receipt true match canonical_json demo_no_floats (VDict (nightly_receipt version)) with Ok b => b | Raise _ => [] end].

(** A file of the repository in an answer of the contents API. *)
Definition repository_file (path : pystr) (v : pyval) : outcome bytes :=
  raw ← json v;
  json (VDict [(&"type", VStr (&"file")); (&"path", VStr path); (&"encoding", VStr (&"base64")); (&"content", VStr (b64encode raw));
               (&"size", VInt (Z.of_nat (length raw))); (&"sha", VStr (demo_sha1 []))]).

Definition nightly_ledger (reserved : bool) : pyval :=
  VDict [(&"schema", VInt 1); (&"counter", VInt 7); (&"publication_floor", VInt 6);
         (&"plans", VDict (if reserved then [(&"9", VDict [(&"plan", VDict nightly_plan); (&"parent", VNone)])] else []))].

(** The manifest that a log records, and the files of the release it describes. *)
Definition recorded_manifest (l : list event) : bytes :=
  default [] (head (omap (λ e, match e with Recorded b => Some b | _ => None end) l)).
Definition nightly_assets (version : pystr) (l : list event) : list (pystr * bytes) :=
  ((λ f, (entry_name f, contents f)) <$> nightly_files version) ++ [(MANIFEST, recorded_manifest l)].

Definition nightly_read (reserved tagged : bool) (path : pystr) : outcome bytes :=
  if startswith (&"contents/" ++ POLICY) path then repository_file POLICY (VDict nightly_policy)
  else if bool_decide (path = READ_PATH) then repository_file (&"release-version-state.json") (nightly_ledger reserved)
  else if startswith (&"compare/") path then
    json (VDict [(&"status", VStr (&"identical")); (&"merge_base_commit", VDict [(&"sha", VStr stable_sha)])])
  else if bool_decide (path = &"git/ref/heads/main") then
    json (VDict [(&"ref", VStr (&"refs/heads/main")); (&"object", object_of "commit" stable_sha)])
  else if tagged && bool_decide (path = &"git/ref/tags/" ++ nightly_tag) then
    json (VDict [(&"ref", VStr (&"refs/tags/" ++ nightly_tag)); (&"object", object_of "commit" stable_sha)])
  else read_reply false path.

Definition nightly_pages (version : pystr) (l : list event) (path : pystr) : outcome bytes :=
  if bool_decide (path = &"releases/5/assets") then json (VList [VList (assets_from 20 (nightly_assets version l))])
  else if bool_decide (path = jobs_path 9 (VInt 1)) then
    json (VList [VDict [(&"jobs", VList [VDict [(&"name", VStr (&"Release gate")); (&"head_sha", VStr stable_sha); (&"status", VStr (&"completed"));
                                                  (&"conclusion", VStr (&"success"))]])]])
  else json (VList []).

Definition nightly_write (path method : pystr) : outcome bytes :=
  if bool_decide (method = &"PATCH") then
    json (VDict [(&"draft", VBool false); (&"tag_name", VStr nightly_tag); (&"prerelease", VBool true); (&"html_url", VStr (&"https://github.com/o/r"))])
  else if bool_decide (path = &"releases") then json (VDict [(&"id", VInt 5); (&"draft", VBool true); (&"tag_name", VStr nightly_tag)])
  else json (VDict []).

Definition nightly_reply (version : pystr) (reserved : bool) (l : list event) : outcome bytes :=
  match last l with
  | Some (Asked path method _ mode) =>
    if bool_decide (mode = PagesMode) then nightly_pages version l path
    else if bool_decide (method = &"GET") then nightly_read reserved (1 <? length (writes l))%nat path
    else nightly_write path method
  | Some (Downloaded path) =>
    Ok match list_find (λ p, path = &"releases/assets/" ++ str_of_int (20 + Z.of_nat p.1)) (imap (λ i a, (i, a.2)) (nightly_assets version l)) with
       | Some (_, (_, b)) => b | None => [] end
  | _ => Ok []
  end.

Definition nightly_process : process := {|
  p_environ := p_environ promotion_process;
  p_file path _ := if bool_decide (path = PLAN) then json (VDict nightly_plan) else if bool_decide (path = POLICY) then json (VDict nightly_policy)
                   else json (VDict [(&"inputs", VDict [(&"channel", VStr (&"nightly"))])]);
  p_head := p_head promotion_process;
  p_clock := p_clock promotion_process;
|}.

Definition nightly_calendar : calendar :=
  Calendar (λ _, Raise (Exn EOS "")) (λ _, Ok (&"2024-02-29T23:59:59+00:00")) (λ _, Ok (demo_sha256 [])).

Definition nightly_workspace : workspace :=
  Workspace ∅ (Sources (λ _, (true, Raise (Exn EOS ""))) (Ok [])) [] (λ _, Ok tt) (λ _, true).
Definition nightly_inspectors : inspectors := Inspectors (λ _ _ _, Ok []) (λ _ _ _, Ok tt) (λ _, Ok tt).

Definition nightly_publication (version : pystr) (reserved : bool) : list event * outcome pyobject :=
  let reply := nightly_reply version reserved in
  @publish_versioned _ _ (recorded_github reply) (recorded_host nightly_process) (recorded_assets reply) (recorded_planner nightly_calendar)
    demo_fold is_digit demo_no_floats (λ _, []) demo_sha1 demo_sha256 demo_zip (&"O/R") true nightly_workspace nightly_inspectors
    (λ _ _ _, @create_draft _ (recorded_github reply)) (&"/tmp/release-versioned-1") (Some (nightly_files version)) [].

(** The run, as the theorem states it. *)
Lemma nightly_run version reserved :
  @publish_versioned _ _ (recorded_github (nightly_reply version reserved)) (recorded_host nightly_process)
    (recorded_assets (nightly_reply version reserved)) (recorded_planner nightly_calendar)
    demo_fold is_digit demo_no_floats (λ _, []) demo_sha1 demo_sha256 demo_zip (&"O/R") true nightly_workspace nightly_inspectors
    (λ _ _ _, @create_draft _ (recorded_github (nightly_reply version reserved))) (&"/tmp/release-versioned-1") (Some (nightly_files version)) []
  = (fst (nightly_publication version reserved), snd (nightly_publication version reserved)).
Proof. unfold nightly_publication. apply surjective_pairing. Qed.

Definition nightly_version : pystr := plan_text "version" nightly_plan.

Lemma versioned_publication_is_verified_witness :
  (λ d : pyobject, get_key "status" d) <$> snd (nightly_publication nightly_version true) = Ok (VStr (&"published"))
  ∧ is_ok (snd (nightly_publication (&"1.2.3") true)) = false ∧ length (writes (fst (nightly_publication (&"1.2.3") true))) = 0%nat
  ∧ is_ok (snd (nightly_publication nightly_version false)) = false ∧ length (writes (fst (nightly_publication nightly_version false))) = 0%nat
  ∧ ∃ k j a directory body,
      writes k = [] ∧ ledger_write j
      ∧ publication_verified (nightly_reply nightly_version true) demo_fold is_digit demo_no_floats demo_sha256 demo_zip (&"O/R") k a (Some (nightly_files nightly_version)) directory
      ∧ publication_log (nightly_reply nightly_version true) demo_sha256 (ad_tag a) (ad_sha a) body directory
          (negb (bool_decide (ad_channel a = &"stable"))) (k ++ j) (fst (nightly_publication nightly_version true)) true.
Proof.
  assert ((λ d : pyobject, get_key "status" d) <$> snd (nightly_publication nightly_version true) = Ok (VStr (&"published"))) as Hok
    by (vm_compute; reflexivity).
  split; [exact Hok|]. do 4 (split; [vm_compute; reflexivity|]).
  remember (nightly_publication nightly_version true) as demo eqn:Hdemo.
  destruct (versioned_publication_is_verified (nightly_reply nightly_version true) nightly_process nightly_calendar demo_fold is_digit demo_no_floats
              (λ _, []) demo_sha1 demo_sha256 demo_zip (&"O/R") true nightly_workspace nightly_inspectors
              (λ _ _ _, @create_draft _ (recorded_github (nightly_reply nightly_version true))) (λ _ _ _, create_draft_once _)
              (&"/tmp/release-versioned-1") (Some (nightly_files nightly_version)) [] (fst demo) (snd demo))
    as [(k & _ & _ & Hno)|(k & j & a & directory & body & Hk & Hver & Hj & Hlog)].
  - rewrite Hdemo. exact (nightly_run nightly_version true).
  - destruct (snd demo) as [d|e]; [|discriminate Hok]. injection Hok as Hd. by destruct (Hno d eq_refl).
  - destruct (snd demo) as [d|e]; [|discriminate Hok]. exists k, j, a, directory, body.
    split; [exact Hk|]. split; [exact Hj|]. split; [exact Hver|exact Hlog].
Defined.
