(* ===== verification/PreparedFacts.v ===== *)
(** * What preparing a versioned release guarantees

    [prepare] writes at most a reservation, and only after everything it checks; the
    plan it freezes is valid for the policy and the commit of the executing run, and
    the ledger holds it. *)

From Stdlib Require Import QArith.QArith Strings.Byte.
From S2P Require Import Prelude PyStr PyDict PyRegex PyVal PyJson VersionPlan VersionPlanFacts JsonDocument VersionEdit SyncVersions Release Base64 ReleaseState ReservationFacts ReleaseValidation OciMetadata Fuzz ReleasePolicy ReleaseRuns ReleaseExecution ReleaseExecutionFacts Transport ReleaseNotes ReleaseManifest Publication Recorded PublicationFacts Promotion PromotionFacts Readback VersionReceipt Toolchain ReleaseVersion Versioned VersionedPublish VersionedFacts VersionedDemo SyncFacts.
#[local] Open Scope Z_scope.

(** The request that creates the branch of the ledger, and a version of the ledger. *)
Definition branch_request (source : pystr) : event :=
  Asked (&"git/refs") (&"POST") (Some [(&"ref", VStr (&"refs/heads/" ++ BRANCH)); (&"sha", VStr source)]) JsonMode.
Definition ledger_request (body : pyobject) : event := Asked WRITE_PATH (&"PUT") (Some body) JsonMode.

(** The writes of a reservation: at most the branch, then at most one version. *)
Definition reservation_writes (source : pystr) (w : list event) : Prop :=
  ∃ created put, w = created ++ put ∧ (created = [] ∨ created = [branch_request source])
    ∧ (put = [] ∨ ∃ body, put = [ledger_request body]).

Lemma no_writes source : reservation_writes source [].
Proof. exists [], []. split_and!; [done|by left..]. Qed.

Section prepared.
Context `{UnicodeCase} `{EditLibrary} (reply : list event → outcome bytes) (p : process) (c : calendar).
#[local] Hint Extern 0 (GitHub (list event)) => exact (recorded_github reply) : typeclass_instances.
#[local] Hint Extern 0 (Assets (list event)) => exact (recorded_assets reply) : typeclass_instances.
#[local] Hint Extern 0 (Host (list event)) => exact (recorded_host p) : typeclass_instances.
#[local] Hint Extern 0 (Planner (list event)) => exact (recorded_planner c) : typeclass_instances.
Context (casefold : pystr → pystr) (unicode_digit : N → bool) (float_repr : Q → pystr) (py_text : pyval → pystr).
Context (sha1_hex sha256_hex : bytes → pystr) (open_zip : bytes → outcome (list zip_entry)) (repo : pystr).
Context (temporary_name : checkout → path → pystr) (io : file_operation → outcome unit) (ws : workspace).
Context (Hsha : ∀ b, fullmatch SHA256 (sha256_hex b) = true).

(** ** The reservation *)

(** A plan for a policy, a version line and a commit. *)
Definition frozen_for (policy : pyobject) (base channel source : pystr) (plan : pyobject) : Prop :=
  validate_plan float_repr sha256_hex (VDict plan) (Some (VDict policy)) (Some (VStr source)) = Ok plan
  ∧ get_key "base_version" plan = VStr base ∧ get_key "channel" plan = VStr channel.

(** The ledger holds the plan of a run: it was read there, or the version that holds
    it was written and the server accepted it. *)
Definition durable (l : list event) (run_id : Z) (parent : pyval) (plan : pyobject) : Prop :=
  (∃ before after state previous plans d,
      after `prefix_of` l ∧ read_state float_repr sha256_hex before = (after, Ok (state, previous))
      ∧ dict_item (&"plans") state = Ok plans ∧ dict_get (str_of_int run_id) plans = Some (VDict d)
      ∧ item (&"plan") d = Ok (VDict plan) ∧ py_eq (get_default (&"parent") VNone d) parent = true)
  ∨ (∃ before state plans number previous raw b,
      before ++ [ledger_request (write_body raw previous)] `prefix_of` l
      ∧ reply (before ++ [ledger_request (write_body raw previous)]) = Ok b
      ∧ json_bytes_indented float_repr (VDict (reserve_state state plans (str_of_int run_id) number plan parent)) = Ok raw).

Lemma durable_more l k run_id parent plan : durable l run_id parent plan → durable (l ++ k) run_id parent plan.
Proof.
  intros [(before & after & state & previous & plans & d & Hp & ?)|(before & state & plans & number & previous & raw & b & Hp & ?)].
  - left. exists before, after, state, previous, plans, d. split; [by apply prefix_app_r|done].
  - right. exists before, state, plans, number, previous, raw, b. split; [by apply prefix_app_r|done].
Qed.

Lemma reads_new_sequence state base channel run_id attempt now : reads_only (new_sequence state base channel run_id attempt now).
Proof. unfold new_sequence, next_sequence. solve_reads. Qed.

(** The plan of a fresh number: everything before the ledger is written. *)
Lemma allocate_trace state policy base channel source run_id attempt now (l l' : list event) r :
  allocate_plan float_repr sha256_hex state policy base channel source run_id attempt now l = (l', r) →
  ∃ k, l' = l ++ k ∧ (writes k = [] ∨ writes k = [branch_request source])
    ∧ ∀ number plan, r = Ok (number, plan) → frozen_for policy base channel source plan.
Proof.
  unfold allocate_plan. intros Ha.
  apply bind_trace in Ha as [(e & (k & -> & Hk)%reads_new_sequence & ->)|(l1 & sequence & (k & -> & Hk)%reads_new_sequence & Ha)];
    [exists k; by split_and!; [|left|]|].
  apply bind_trace in Ha as [(e & [= <- _] & ->)|(? & versioning & [-> _]%lift_M_ok & Ha)]; [exists k; by split_and!; [|left|]|]. cbv zeta in Ha.
  apply bind_trace in Ha as [(e & [= <- _] & ->)|(? & [] & [-> _]%lift_M_ok & Ha)]; [exists k; by split_and!; [|left|]|].
  apply bind_trace in Ha as [(e & [= <- _] & ->)|(? & counter & [-> _]%lift_M_ok & Ha)]; [exists k; by split_and!; [|left|]|].
  apply bind_trace in Ha as [(e & [= <- _] & ->)|(? & plan & [-> Hplan]%lift_M_ok & Ha)]; [exists k; by split_and!; [|left|]|].
  apply bind_trace in Ha as [(e & [= <- _] & ->)|(? & tag & [-> _]%lift_M_ok & Ha)]; [exists k; by split_and!; [|left|]|].
  apply bind_trace in Ha as [(e & (k1 & -> & Hk1)%reads_ensure_absent & ->)|(l2 & [] & (k1 & -> & Hk1)%reads_ensure_absent & Ha)].
  { exists (k ++ k1). rewrite app_assoc, writes_app, Hk, Hk1. by split_and!; [|left|]. }
  apply bind_trace in Ha as [(e & (k2 & -> & Hk2)%reads_optional & ->)|(l3 & reference & (k2 & -> & Hk2)%reads_optional & Ha)].
  { exists (k ++ k1 ++ k2). rewrite !app_assoc, !writes_app, Hk, Hk1, Hk2. by split_and!; [|left|]. }
  assert (frozen_for policy base channel source plan) as Hfrozen.
  { destruct (create_plan_validates _ _ _ _ _ _ _ _ _ Hsha Hplan) as [Hv _]. destruct (create_plan_items _ _ _ _ _ _ _ _ _ Hplan). by split_and!. }
  set (m := if bool_decide (reference = VNone) then _ else _) in Ha.
  assert (∀ l l' r, m l = (l', r) → ∃ k, l' = l ++ k ∧ (writes k = [] ∨ writes k = [branch_request source])) as Hm.
  { intros j j' r'. unfold m. destruct (bool_decide _).
    - intros ->%api_trace. exists [branch_request source]. split; [done|by right].
    - intros [= <- _]. exists []. rewrite app_nil_r. split; [done|by left]. }
  assert (∃ k3, l' = ((l ++ k) ++ k1 ++ k2) ++ k3 ∧ (writes k3 = [] ∨ writes k3 = [branch_request source])
            ∧ ∀ number plan', r = Ok (number, plan') → plan' = plan) as (k3 & -> & Hk3 & Hr).
  { rewrite !app_assoc. apply bind_trace in Ha as [(e & (k3 & -> & ?)%Hm & ->)|(l4 & v & (k3 & -> & ?)%Hm & [= <- <-])]; exists k3; split_and!; try done.
    by intros ? ? [= _ <-]. }
  exists (k ++ (k1 ++ k2) ++ k3). rewrite !app_assoc, !writes_app, Hk, Hk1, Hk2. split_and!; [done|done|].
  intros number plan' ->. by rewrite (Hr _ _ eq_refl).
Qed.

Lemma write_state_ok state previous (l l' : list event) :
  write_state float_repr state previous l = (l', Ok tt) →
  ∃ raw b, l' = l ++ [ledger_request (write_body raw previous)] ∧ reply l' = Ok b ∧ json_bytes_indented float_repr (VDict state) = Ok raw.
Proof.
  unfold write_state. intros Hw. apply bind_M_ok in Hw as (? & raw & [-> Hraw]%lift_M_ok & Hw).
  apply bind_M_ok in Hw as (l1 & v & Ha & [= <-]). unfold gh_api in Ha. apply bind_M_ok in Ha as (l2 & b & [= <- Hb] & [-> _]%lift_M_ok).
  by exists raw, b.
Qed.

Lemma reserved_plan_ok policy base channel source parent record plan :
  reserved_plan float_repr sha256_hex policy base channel source parent record = Ok plan →
  frozen_for policy base channel source plan
  ∧ ∃ d, record = VDict d ∧ item (&"plan") d = Ok (VDict plan) ∧ py_eq (get_default (&"parent") VNone d) parent = true.
Proof.
  unfold reserved_plan. intros Hr. apply bind_ok in Hr as (d & Hd & Hr). apply bind_ok in Hr as (recorded & Hrec & Hr).
  apply bind_ok in Hr as (plan' & Hv & Hr). apply bind_ok in Hr as (b & <-%item_key & Hr). apply bind_ok in Hr as (ch & <-%item_key & Hr).
  apply bind_ok in Hr as ([] & Hsame%release_require_ok & Hr). apply bind_ok in Hr as ([] & Hpar%release_require_ok & [= ->]).
  apply andb_true_iff in Hsame as [Hb%py_eq_str Hc%py_eq_str]. destruct record; try done. injection Hd as ->.
  pose proof (validate_plan_items _ _ _ _ _ _ Hv) as [-> _]. split; [by split_and!|]. by exists d.
Qed.

(** A reservation: what it writes, and what a plan it returns is. *)
Lemma reserve_trace policy base channel source run_id attempt now parent (l l' : list event) r :
  reserve_plan float_repr sha256_hex policy base channel source run_id attempt now parent l = (l', r) →
  ∃ k, l' = l ++ k ∧ reservation_writes source (writes k)
    ∧ ∀ plan, r = Ok plan → frozen_for policy base channel source plan ∧ durable l' run_id parent plan.
Proof.
  unfold reserve_plan. intros Hr.
  apply bind_trace in Hr as [(e & [= <- _] & ->)|(? & run & [-> Hrun]%lift_M_ok & Hr)];
    [exists []; rewrite app_nil_r; split_and!; [done|apply no_writes|done]|]. cbv zeta in Hr.
  apply ReservationFacts.positive_int in Hrun as [-> _].
  apply bind_trace in Hr as [(e & (k & -> & Hk)%reads_state & ->)|(l1 & [state previous] & Hread & Hr)];
    [exists k; rewrite Hk; split_and!; [done|apply no_writes|done]|].
  pose proof Hread as (k & -> & Hk)%reads_state.
  apply bind_trace in Hr as [(e & [= <- _] & ->)|(? & plans & [-> Hplans]%lift_M_ok & Hr)];
    [exists k; rewrite Hk; split_and!; [done|apply no_writes|done]|].
  destruct (dict_get (str_of_int run_id) plans) as [record|] eqn:Hrecord.
  { injection Hr as <- Hr. exists k. rewrite Hk. split_and!; [done|apply no_writes|]. intros plan ->.
    apply reserved_plan_ok in Hr as (? & d & -> & ? & ?). split; [done|]. left. by exists l, (l ++ k), state, previous, plans, d. }
  apply bind_trace in Hr as [(e & (k1 & -> & Hk1 & _)%allocate_trace & ->)|(l2 & [number plan] & (k1 & -> & Hk1 & Hplan)%allocate_trace & Hr)].
  { exists (k ++ k1). rewrite app_assoc, writes_app, Hk. split_and!; [done| |done]. exists (writes k1), []. rewrite app_nil_r. split_and!; [done..|by left]. }
  assert (reservation_writes source (writes (k ++ k1))) as Hbefore.
  { rewrite writes_app, Hk. exists (writes k1), []. rewrite app_nil_r. split_and!; [done..|by left]. }
  apply bind_trace in Hr as [(e & Hw & ->)|(l3 & [] & Hw & Hr)].
  - apply write_state_trace in Hw as [->|[body ->]].
    + exists (k ++ k1). rewrite app_assoc. by split_and!.
    + exists (k ++ k1 ++ [ledger_request body]). rewrite !app_assoc, !writes_app, Hk. split_and!; [done| |done].
      exists (writes k1), [ledger_request body]. split_and!; [done..|right; by exists body].
  - injection Hr as <- <-. apply write_state_ok in Hw as (raw & b & -> & Hb & Hraw).
    exists (k ++ k1 ++ [ledger_request (write_body raw previous)]). rewrite !app_assoc, !writes_app, Hk. split_and!; [done| |].
    + exists (writes k1), [ledger_request (write_body raw previous)]. split_and!; [done..|right; by eexists].
    + intros plan' [= <-]. split; [by eapply Hplan|]. right. by exists ((l ++ k) ++ k1), state, plans, number, previous, raw, b.
Qed.

(** ** The command *)

Notation rc_accepted := (rc_verified reply casefold unicode_digit float_repr sha256_hex open_zip repo).

(** The event of the process gave these inputs. *)
Definition event_gave (l : list event) (inputs : pyobject) : Prop :=
  ∃ file raw event, dict_get (&"GITHUB_EVENT_PATH") (p_environ p) = Some file ∧ p_file p file l = Ok raw ∧ parse_json raw = Ok (VDict event)
    ∧ (get_key "inputs" event = VNone ∧ inputs = [] ∨ get_key "inputs" event = VDict inputs).

(** The run is what the server answered for the process's own run, and its commit is
    the one that is checked out. *)
Definition run_read (l : list event) (run_id : Z) (source : pystr) (run : pyobject) : Prop :=
  dict_get (&"GITHUB_RUN_ID") (p_environ p) = Some (str_of_int run_id)
  ∧ (∃ k, k `prefix_of` l ∧ read_last reply k (&"actions/runs/" ++ str_of_int run_id) (VDict run))
  ∧ py_eq (get_key "id" run) (VInt run_id) = true ∧ get_key "head_sha" run = VStr source
  ∧ ∃ k out, k `prefix_of` l ∧ p_head p k = Ok (0, out) ∧ strip out = source.

(** The policy is what the server answered for its file at a commit. *)
Definition policy_read (l : list event) (source : pystr) (policy : pyobject) : Prop :=
  ∃ k d encoded raw, k `prefix_of` l ∧ read_last reply k (&"contents/" ++ POLICY ++ &"?ref=" ++ source) (VDict d)
    ∧ get_key "content" d = VStr encoded ∧ b64decode (filter (λ c, is_space c = false) encoded) = Ok raw ∧ parse_json raw = Ok (VDict policy).

(** The channel that the event asks for may be prepared by this process. *)
Definition channel_admitted (inputs : pyobject) (channel : pystr) : Prop :=
  let name := dict_get (&"GITHUB_EVENT_NAME") (p_environ p) in
  channel ∈ channels
  ∧ VStr channel = (if bool_decide (name = Some (&"schedule")) then VStr (&"nightly")
                    else if bool_decide (name = Some (&"push")) then VStr (&"beta") else get_key "channel" inputs)
  ∧ (name = Some (&"workflow_dispatch") → channel = &"nightly" ∨ dict_get (&"PUBLICATION_ENABLED") (p_environ p) = Some (&"true")).

(** Nothing blocks the policy, and the commit is the one that the dispatch expected. *)
Definition dispatch_admitted (inputs policy : pyobject) (source : pystr) : Prop :=
  truthy (get_key "release_blockers" policy) = false
  ∧ (truthy (get_key "expected_sha" inputs) = true → get_key "expected_sha" inputs = VStr source).

(** The candidate was built from this commit under this policy, for a final build. *)
Definition final_candidate (candidate policy : pyobject) (source : pystr) : Prop :=
  get_key "source_sha" candidate = VStr source
  ∧ ∃ plan, get_key "version_plan" candidate = VDict plan ∧ get_key "promotion" plan = VStr (&"final-build")
      ∧ validate_plan float_repr sha256_hex (VDict plan) (Some (VDict policy)) (Some (VStr source)) = Ok plan.

(** The channel and the base version were admitted: a stable build comes from a
    verified candidate of the executing run's commit, the one whose tag the event
    names; every other build from the configured sources. *)
Definition started (l : list event) (inputs run policy : pyobject) (channel base source : pystr) (parent : option pyobject) : Prop :=
  channel_admitted inputs channel ∧ dispatch_admitted inputs policy source
  ∧ if bool_decide (channel = &"stable")
    then ∃ candidate entry, parent = Some entry ∧ rc_accepted l run candidate entry ∧ get_key "tag" entry = get_key "rc_tag" inputs
           ∧ str_value (get_key "version" candidate) = base ∧ final_candidate candidate policy source
    else parent = None ∧ resolve_version (ws_sources ws) policy (get_default (&"version") (VStr []) inputs) = Ok base.

Lemma event_inputs_ok (l l' : list event) inputs : event_inputs l = (l', Ok inputs) → event_gave l inputs.
Proof.
  unfold event_inputs. intros He. apply bind_M_ok in He as (? & file & [-> Hfile]%lift_M_ok & He).
  apply bind_M_ok in He as (l1 & raw & Hraw & He). injection Hraw as <- Hraw. apply lift_M_ok in He as [_ He].
  apply bind_ok in He as (event & Hevent & He). apply bind_ok in He as ([] & Hd%release_require_ok & He). cbv zeta in He.
  destruct event as [| | | | | | |event]; try discriminate Hd. cbn [dict_of] in He.
  assert (dict_get (&"GITHUB_EVENT_PATH") (p_environ p) = Some file) as Hpath by (revert Hfile; unfold env; cbn [environ recorded_host]; by destruct (dict_get _ _); [intros [= ->]|]).
  exists file, raw, event. split_and!; [done..|]. case_bool_decide as Hnone; [left; by injection He as <-|right].
  apply bind_ok in He as ([] & Hi%release_require_ok & [= <-]). by destruct (get_key "inputs" event).
Qed.

Lemma admit_channel_ok inputs channel : admit_channel (G:=list event) inputs = Ok channel → channel_admitted inputs channel.
Proof.
  unfold admit_channel, channel_admitted. cbv zeta. intros Ha. apply bind_ok in Ha as (known & Hk & Ha).
  apply bind_ok in Ha as ([] & ->%release_require_ok & Ha). apply bind_ok in Ha as ([] & He%release_require_ok & [= Hc]).
  apply py_in_true in Hk as (s & Hs & Hin). rewrite Hs in He, Hc. cbn [str_value] in Hc. subst s. split_and!; [done| |].
  - rewrite <-Hs. done.
  - intros Hname. unfold env_is, env in He. cbn [environ recorded_host] in He. rewrite Hname in He. rewrite bool_decide_eq_true_2 in He by done.
    cbn [negb orb] in He. apply orb_true_iff in He as [He|He]; [left; apply text_is_iff in He; by injection He|right; by apply bool_decide_eq_true in He].
Qed.

Lemma check_dispatch_ok inputs policy source : check_dispatch inputs policy (VStr source) = Ok tt → dispatch_admitted inputs policy source.
Proof.
  unfold check_dispatch, dispatch_admitted. intros ([] & Hb%release_require_ok%negb_true_iff & He%release_require_ok)%bind_ok.
  split; [done|]. intros Ht. rewrite Ht in He. by apply py_eq_str in He.
Qed.

Lemma check_final_candidate_ok candidate policy source :
  check_final_candidate float_repr sha256_hex candidate policy (VStr source) = Ok tt → final_candidate candidate policy source.
Proof.
  unfold check_final_candidate, final_candidate. intros Hc. apply bind_ok in Hc as (s & <-%item_key & Hc).
  apply bind_ok in Hc as ([] & Hs%release_require_ok%py_eq_str & Hc). cbv zeta in Hc. apply bind_ok in Hc as (ok & Hok & Hc).
  apply bind_ok in Hc as ([] & ->%release_require_ok & Hc). apply bind_ok in Hc as (plan & Hv & _).
  apply o_and_true in Hok as [_ Hok]. apply bind_ok in Hok as (d & Hd & [= Hp%text_is_iff]). split; [done|].
  destruct (get_key "version_plan" candidate) as [| | | | | | |d']; try discriminate Hd. injection Hd as ->.
  exists d. pose proof (validate_plan_items _ _ _ _ _ _ Hv) as [[= ->] _]. by split_and!.
Qed.

Lemma verified_rc_tag tag info run (l l' : list event) candidate parent :
  verified_rc casefold unicode_digit float_repr sha1_hex sha256_hex open_zip repo tag info run l = (l', Ok (candidate, parent)) →
  get_key "tag" parent = tag.
Proof.
  unfold verified_rc. intros Hv. apply bind_M_ok in Hv as (? & [] & [-> Ht%release_require_ok]%lift_M_ok & Hv). cbv zeta in Hv.
  apply bind_M_ok in Hv as (l1 & initial & _ & Hv). apply bind_M_ok in Hv as (l2 & [[asset raw] manifest] & _ & Hv).
  do 15 apply bind_M_ok in Hv as (? & ? & _ & Hv). apply bind_M_ok in Hv as (? & parent' & [-> Hp]%lift_M_ok & [_ [= <- <-]]%mret_M_ok).
  unfold parent_of in Hp. apply bind_ok in Hp as (? & _ & Hp). apply bind_ok in Hp as (? & _ & [= <-]). by destruct tag.
Qed.

(** *** The run and its policy *)

Lemma bound_run_read run_id channel info sha attempt (l l' : list event) run :
  bound_run py_text repo run_id channel info sha attempt l = (l', Ok run) → run_read l' run_id sha run.
Proof.
  intros Hb. pose proof (reads_bound_run reply p py_text repo run_id channel info sha attempt) as Hreads.
  unfold bound_run in Hb. apply bind_M_ok in Hb as (l1 & v & [Hl1 Hread]%api_answered & Hb). apply bind_M_ok in Hb as (? & run' & [-> Hd]%lift_M_ok & Hb).
  destruct v as [| | | | | | |d]; try discriminate Hd. injection Hd as ->.
  apply bind_M_ok in Hb as (? & ? & [-> Hid%release_require_ok]%lift_M_ok & Hb). apply bind_M_ok in Hb as (l2 & [] & He & Hb).
  apply bind_M_ok in Hb as (? & [] & [-> (Hhead_sha & _)%provenance_ok]%lift_M_ok & Hb). apply bind_M_ok in Hb as (? & ? & [-> _]%lift_M_ok & Hb).
  apply mret_M_ok in Hb as [-> ->]. assert (l1 `prefix_of` l2) as Hpre by (eapply reads_prefix, He; unfold check_execution, checked_out_sha; solve_reads).
  unfold check_execution in He. apply bind_M_ok in He as (? & [] & [-> [_ Hrun]%check_environment_ok]%lift_M_ok & He).
  apply bind_M_ok in He as (l3 & head & Hh & He). apply bind_M_ok in He as (? & ? & [-> Heq%release_require_ok%text_is_iff]%lift_M_ok & _).
  unfold checked_out_sha in Hh. apply bind_M_ok in Hh as (l4 & [code out] & Hhead & Hh). injection Hhead as <- Hhead.
  apply lift_M_ok in Hh as [_ Hh]. apply bind_ok in Hh as ([] & Hcode%release_require_ok%Z.eqb_eq & [= Hout]). cbn in Hcode, Hout. subst code.
  unfold run_read. split_and!; [exact Hrun|by exists l1|exact Hid|exact Hhead_sha|]. exists l1, out. split_and!; [done..|]. congruence.
Qed.

Lemma run_read_more l k run_id source run : run_read l run_id source run → run_read (l ++ k) run_id source run.
Proof.
  intros (? & (j & ? & ?) & ? & ? & (j' & out & ? & ?)). unfold run_read. split_and!; [done| |done|done|].
  - exists j. split; [by apply prefix_app_r|done].
  - exists j', out. split; [by apply prefix_app_r|done].
Qed.

Lemma wait_read run_id channel info sha attempt gate (l l' : list event) run :
  wait_for_executing_run py_text repo run_id channel info sha attempt gate l = (l', Ok run) → run_read l' run_id sha run.
Proof.
  unfold wait_for_executing_run. intros Hw. apply bind_M_ok in Hw as (l1 & t & _ & Hw). apply bind_M_ok in Hw as (l2 & found & Hl & Hw).
  destruct found as [run'|]; [|discriminate Hw]. apply mret_M_ok in Hw as [-> ->]. revert Hl. generalize (@None pyval) as reported. generalize l1.
  induction WAIT_ROUNDS as [|n IH]; intros l3 reported Hl; cbn [wait_loop] in Hl; [discriminate Hl|]. cbv zeta in Hl.
  apply bind_M_ok in Hl as (l4 & run'' & Hrun%bound_run_read & Hl). apply bind_M_ok in Hl as (l5 & ready & Hr & Hl). destruct ready.
  - apply bind_M_ok in Hl as (l6 & t' & Ht & Hl). apply bind_M_ok in Hl as (? & ? & [-> _]%lift_M_ok & Hl). apply mret_M_ok in Hl as [-> [= ->]].
    assert (reads_only (publication_ready run_id sha attempt gate (get_key "status" run))) as Hready by (unfold publication_ready; solve_reads).
    apply Hready in Hr as (k & -> & _). injection Ht as <- _. by apply run_read_more.
  - apply bind_M_ok in Hl as (l6 & ? & _ & Hl). apply bind_M_ok in Hl as (l7 & ? & _ & Hl). apply bind_M_ok in Hl as (l8 & ? & _ & Hl).
    apply bind_M_ok in Hl as (l9 & ? & _ & Hl). apply bind_M_ok in Hl as (l10 & ? & _ & Hl). apply bind_M_ok in Hl as (l11 & ? & _ & Hl). by eapply IH.
Qed.

Lemma snapshot_policy_read sha (l l' : list event) snapshot policy :
  source_policy_snapshot repo sha1_hex sha256_hex sha l = (l', Ok snapshot) → get_key "data" snapshot = VDict policy → policy_read l' sha policy.
Proof.
  unfold source_policy_snapshot. intros Hs Hdata. apply bind_M_ok in Hs as (? & [] & [-> _]%lift_M_ok & Hs).
  apply bind_M_ok in Hs as (l1 & v & [Hl1 Hread]%api_answered & Hs). apply lift_M_ok in Hs as [-> Hs].
  apply bind_ok in Hs as (text & Ht & Hs). apply bind_ok in Hs as (raw & Hraw & Hs). apply bind_ok in Hs as ([] & _ & Hs).
  apply bind_ok in Hs as (data & Hparse & Hs). apply bind_ok in Hs as ([] & _ & [= <-]). change (data = VDict policy) in Hdata. subst data.
  unfold contents_text in Ht. apply bind_ok in Ht as ([] & Hd%release_require_ok & Ht). cbv zeta in Ht. apply bind_ok in Ht as ([] & He%release_require_ok & [= <-]).
  destruct v as [| | | | | | |d]; try discriminate Hd. cbn [dict_of] in *. apply andb_true_iff in He as [He _].
  destruct (get_key "content" d) as [| | | |encoded| | |] eqn:Ec; try discriminate He. cbn [str_value] in Hraw.
  exists l1, d, encoded, raw. split_and!; try done. unfold catch in Hraw. by destruct (b64decode _); [|destruct (is_value_error _)].
Qed.

Lemma policy_read_more l k source policy : policy_read l source policy → policy_read (l ++ k) source policy.
Proof. intros (j & d & encoded & raw & ? & ?). exists j, d, encoded, raw. split; [by apply prefix_app_r|done]. Qed.

Lemma context_read channel gate (l l' : list event) info run snapshot policy :
  context py_text sha1_hex sha256_hex repo channel gate l = (l', Ok (info, run, snapshot)) → get_key "data" snapshot = VDict policy →
  ∃ run_id source, run_read l' run_id source run ∧ policy_read l' source policy.
Proof.
  unfold context. intros Hc Hdata. apply bind_M_ok in Hc as (? & run_id & [-> _]%lift_M_ok & Hc). apply bind_M_ok in Hc as (? & attempt & [-> _]%lift_M_ok & Hc).
  apply bind_M_ok in Hc as (l1 & info' & _ & Hc). apply bind_M_ok in Hc as (l2 & head & _ & Hc). apply bind_M_ok in Hc as (l3 & run' & Hrun%wait_read & Hc).
  apply bind_M_ok in Hc as (? & sha & [-> <-%item_key]%lift_M_ok & Hc). cbv zeta in Hc.
  pose proof Hrun as (_ & _ & _ & Hsource & _). rewrite Hsource in Hc. cbn [str_value] in Hc.
  apply bind_M_ok in Hc as (l4 & snapshot' & Hs & Hc). pose proof Hs as (k1 & -> & _)%reads_policy.
  assert (∃ k2, l' = (l3 ++ k1) ++ k2 ∧ run' = run ∧ snapshot' = snapshot) as (k2 & -> & -> & ->).
  { apply bind_M_ok in Hc as (? & data & [-> _]%lift_M_ok & Hc). apply bind_M_ok in Hc as (? & policy' & [-> _]%lift_M_ok & Hc).
    apply bind_M_ok in Hc as (l5 & raw & (k3 & -> & _)%reads_file & Hc). apply bind_M_ok in Hc as (? & [] & [-> _]%lift_M_ok & Hc).
    apply bind_M_ok in Hc as (? & branch & [-> _]%lift_M_ok & Hc). apply bind_M_ok in Hc as (l6 & [] & (k4 & -> & _)%reads_ancestry & Hc).
    assert (reads_only (if gate then validate_validation_run run' policy' channel else mret tt)) as Hv by solve_reads.
    apply bind_M_ok in Hc as (l7 & [] & (k5 & -> & _)%Hv & Hc). apply mret_M_ok in Hc as [-> [= -> -> ->]].
    exists (k3 ++ k4 ++ k5). by rewrite !app_assoc. }
  exists run_id, head. split; [by do 2 apply run_read_more|]. apply policy_read_more. eapply snapshot_policy_read; [exact Hs|done].
Qed.
(** The committed version fields hold the base version. *)
Definition base_committed (policy : pyobject) (base : pystr) : Prop :=
  ∃ files, snd (check_base_versions float_repr sha256_hex temporary_name io (VDict policy) (Some base) (ws_checkout ws)) = Ok files.

Definition not_built (d : pyobject) : Prop := get_key "build" d ≠ VStr (&"true").

Lemma started_more l k inputs run policy channel base source parent :
  started l inputs run policy channel base source parent → started (l ++ k) inputs run policy channel base source parent.
Proof.
  intros (? & ? & Hs). split; [done|split; [done|]]. destruct (bool_decide _); [|done]. destruct Hs as (candidate & entry & ? & ? & ?).
  exists candidate, entry. split; [done|split; [by apply rc_verified_more|done]].
Qed.

Lemma reads_base_of channel inputs info run policy head :
  reads_only (base_of casefold unicode_digit float_repr sha1_hex sha256_hex open_zip repo ws channel inputs info run policy head).
Proof.
  unfold base_of. pose proof (reads_reviewers reply).
  pose proof (reads_verified_rc reply casefold unicode_digit float_repr sha1_hex sha256_hex open_zip repo). solve_reads.
Qed.

Lemma base_of_ok channel inputs info run policy source (l l' : list event) start :
  channel_admitted inputs channel → dispatch_admitted inputs policy source →
  base_of casefold unicode_digit float_repr sha1_hex sha256_hex open_zip repo ws channel inputs info run policy (VStr source) l = (l', Ok start) →
  match start with inl d => not_built d | inr (base, parent) => started l' inputs run policy channel base source parent end.
Proof.
  unfold base_of, started. intros Hc Hd Hb. destruct (bool_decide (channel = _)).
  - apply bind_M_ok in Hb as (l1 & [] & _ & Hb). apply bind_M_ok in Hb as (l2 & [candidate entry] & Hv & Hb).
    pose proof (verified_rc_tag _ _ _ _ _ _ _ Hv) as Htag. apply verified_rc_ok in Hv.
    apply bind_M_ok in Hb as (? & v & [-> <-%item_key]%lift_M_ok & Hb). cbv zeta in Hb.
    apply bind_M_ok in Hb as (? & promotion & [-> _]%lift_M_ok & Hb). destruct (text_is promotion _).
    + by apply bind_M_ok in Hb as (? & [] & [-> _]%lift_M_ok & [_ <-]%mret_M_ok).
    + apply bind_M_ok in Hb as (? & [] & [-> Hf%check_final_candidate_ok]%lift_M_ok & [-> <-]%mret_M_ok).
      split; [done|split; [done|]]. exists candidate, entry. split; [done|split; [done|split; [done|split; done]]].
  - apply bind_M_ok in Hb as (? & base & [-> Hbase]%lift_M_ok & [-> <-]%mret_M_ok). split; [done|split; [done|split; done]].
Qed.

Lemma reads_closed base kind : reads_only (closed_push_cycle base kind).
Proof. unfold closed_push_cycle. solve_reads. Qed.

Lemma closed_not_built base kind (l l' : list event) d : closed_push_cycle base kind l = (l', Ok (Some d)) → not_built d.
Proof.
  unfold closed_push_cycle. destruct (negb _); [by intros [_ ?]%mret_M_ok|]. intros Hc.
  apply bind_M_ok in Hc as (? & b & [-> _]%lift_M_ok & Hc). cbv zeta in Hc. apply bind_M_ok in Hc as (? & quoted & [-> _]%lift_M_ok & Hc).
  apply bind_M_ok in Hc as (l1 & found & _ & Hc). destruct found as [ref|]; [|by apply mret_M_ok in Hc as [_ ?]].
  apply bind_M_ok in Hc as (? & known & [-> _]%lift_M_ok & Hc). apply bind_M_ok in Hc as (? & [] & [-> _]%lift_M_ok & Hc).
  by apply mret_M_ok in Hc as [_ [= <-]].
Qed.

Lemma reads_unpublished channel base : reads_only (if bool_decide (channel ∈ published_channels) then ensure_absent (&"v" ++ base) else mret tt).
Proof. solve_reads. Qed.

Lemma reads_preview channel base run policy head run_id parent :
  reads_only (if bool_decide (get_key "release_notes" policy = VNone) then mret tt
              else preview_notes float_repr py_text sha1_hex sha256_hex repo channel base run head run_id parent).
Proof. unfold preview_notes. solve_reads. Qed.

(** A plan is frozen: it was reserved, and the last event is its file. *)
Definition plan_frozen (l j : list event) (run_id : Z) (policy : pyobject) (base channel source : pystr) (parent : option pyobject) : Prop :=
  ∃ j' plan raw, j = j' ++ [Recorded raw] ∧ json_bytes_indented float_repr (VDict plan) = Ok raw
    ∧ frozen_for policy base channel source plan ∧ durable (l ++ j') run_id (parent_value parent) plan.

Notation freeze := (freeze_plan float_repr py_text sha1_hex sha256_hex repo temporary_name io ws).

Lemma freeze_trace channel base run run_id policy head parent (l l' : list event) r :
  py_eq (get_key "id" run) (VInt run_id) = true →
  freeze channel base run policy head parent l = (l', r) →
  (∃ k, l' = l ++ k ∧ writes k = [] ∧ ∀ d, r = Ok d → not_built d)
  ∨ ∃ k j, l' = (l ++ k) ++ j ∧ writes k = [] ∧ base_committed policy base ∧ reservation_writes (str_value head) (writes j)
      ∧ ∀ d, r = Ok d → plan_frozen (l ++ k) j run_id policy base channel (str_value head) parent.
Proof.
  unfold freeze_plan. intros Hid Hf.
  apply bind_trace in Hf as [(e & [= <- _] & ->)|(? & files & [-> Hfiles]%lift_M_ok & Hf)]; [left; exists []; by rewrite app_nil_r|].
  apply bind_trace in Hf as [(e & (k & -> & Hk)%reads_closed & ->)|(l1 & closed & Hc & Hf)]; [left; by exists k|].
  pose proof Hc as (k & -> & Hk)%reads_closed.
  destruct closed as [d|]; [injection Hf as <- <-; left; exists k; split_and!; [done..|]; intros d' [= <-]; by eapply closed_not_built|].
  assert (∃ k1, writes k1 = [] ∧ ((l' = (l ++ k) ++ k1 ∧ is_ok r = false) ∨ ∃ attempt now artifact,
    (plan ← reserve_plan float_repr sha256_hex policy base channel (str_value head) run_id attempt now (parent_value parent);
     raw ← lift (json_bytes_indented float_repr (VDict plan));
     _ ← write_plan raw; mret (prepared_result channel base (&"true") artifact)) ((l ++ k) ++ k1) = (l', r))) as (k1 & Hk1 & Hf').
  { apply bind_trace in Hf as [(e & (k1 & -> & ?)%reads_unpublished & ->)|(l2 & [] & (k1 & -> & Hk1)%reads_unpublished & Hf)];
      [exists k1; split; [done|by left]|].
    apply bind_trace in Hf as [(e & [= <- _] & ->)|(? & own & [-> Hown%int_item_ok]%lift_M_ok & Hf)]; [exists k1; split; [done|by left]|].
    assert (own = run_id) as -> by (unfold get_key, get_default in Hid; change (lit "id") with (&"id") in Hid; rewrite Hown in Hid; apply Qeq_bool_iff in Hid; unfold Qeq in Hid; cbn in Hid; lia).
    apply bind_trace in Hf as [(e & [= <- _] & ->)|(? & attempt & [-> _]%lift_M_ok & Hf)]; [exists k1; split; [done|by left]|].
    apply bind_trace in Hf as [(e & (k2 & -> & ?)%reads_preview & ->)|(l3 & [] & (k2 & -> & Hk2)%reads_preview & Hf)];
      [exists (k1 ++ k2); rewrite writes_app, app_assoc, Hk1; split; [done|by left]|].
    apply bind_trace in Hf as [(e & (k3 & -> & ?)%reads_now & ->)|(l4 & now & (k3 & -> & Hk3)%reads_now & Hf)];
      [exists (k1 ++ k2 ++ k3); rewrite !writes_app, !app_assoc, Hk1, Hk2; split; [done|by left]|].
    exists (k1 ++ k2 ++ k3). rewrite !writes_app, !app_assoc, Hk1, Hk2, Hk3. split; [done|right]. by eexists _, _, _. }
  right. destruct Hf' as [[-> Hr]|(attempt & now & artifact & Hf')].
  { exists (k ++ k1), []. rewrite !app_nil_r, app_assoc, writes_app, Hk. split_and!; [done..|by exists files|apply no_writes|]. by intros d ->. }
  exists (k ++ k1). rewrite app_assoc, writes_app, Hk, Hk1.
  apply bind_trace in Hf' as [(e & (j & -> & Hj & _)%reserve_trace & ->)|(l2 & plan & (j & -> & Hj & Hplan)%reserve_trace & Hf')].
  { exists j. split_and!; [done..|by exists files|done|done]. }
  destruct (Hplan _ eq_refl) as [Hfrozen Hdurable].
  apply bind_trace in Hf' as [(e & [= <- _] & ->)|(? & raw & [-> Hraw]%lift_M_ok & [= <- <-])].
  { exists j. split_and!; [done..|by exists files|done|done]. }
  exists (j ++ [Recorded raw]). split_and!; [by rewrite app_assoc|done|by exists files| |].
  - rewrite writes_app. change (writes [Recorded raw]) with (@nil event). by rewrite app_nil_r.
  - intros d _. by exists j, plan, raw.
Qed.


(** C6: However the servers and the process answer, [prepare] either writes nothing,
    and then does not ask for a build; or before its first write it has read the inputs
    from the event file, its own run from the server, at the commit that is checked out,
    and the policy from the server, at that commit; the channel was admitted, the policy
    had no blockers, the commit was the one the event expected, a stable build had the
    candidate that the event names, of this commit and verified byte by byte, the base
    version came from the policy's source and the committed version fields hold it.  It then writes
    at most the branch, at this commit, and one version of the ledger, and when it succeeds, the
    file of the plan holds a plan for exactly this policy, channel, version and commit,
    which the ledger was seen to hold, or accepted, for this run. *)
Theorem prepare_freezes_reserved_plan (l l' : list event) r :
  prepare_release casefold unicode_digit float_repr py_text sha1_hex sha256_hex open_zip repo temporary_name io ws l = (l', r) →
  (∃ k, l' = l ++ k ∧ writes k = [] ∧ ∀ d, r = Ok d → not_built d)
  ∨ ∃ k j inputs run_id source run policy channel base parent,
      l' = (l ++ k) ++ j ∧ writes k = []
      ∧ event_gave l inputs ∧ run_read (l ++ k) run_id source run ∧ policy_read (l ++ k) source policy
      ∧ started (l ++ k) inputs run policy channel base source parent ∧ base_committed policy base
      ∧ reservation_writes source (writes j)
      ∧ ∀ d, r = Ok d → plan_frozen (l ++ k) j run_id policy base channel source parent.
Proof.
  unfold prepare_release. intros Hp.
  apply bind_trace in Hp as [(e & (k & -> & Hk)%reads_inputs & ->)|(l1 & inputs & Hi & Hp)]; [left; by exists k|].
  pose proof Hi as (k & -> & Hk)%reads_inputs. apply event_inputs_ok in Hi.
  apply bind_trace in Hp as [(e & [= <- _] & ->)|(? & channel & [-> Hchannel%admit_channel_ok]%lift_M_ok & Hp)]; [left; by exists k|].
  apply bind_trace in Hp as [(e & (k1 & -> & Hk1)%reads_context & ->)|(l2 & [[info run] snapshot] & Hc & Hp)].
  { left. exists (k ++ k1). by rewrite app_assoc, writes_app, Hk. }
  pose proof Hc as (k1 & -> & Hk1)%reads_context.
  rewrite <-app_assoc in Hp, Hc. assert (writes (k ++ k1) = []) as Hw by by rewrite writes_app, Hk. remember (k ++ k1) as k2.
  apply bind_trace in Hp as [(e & [= <- _] & ->)|(? & policy & [-> Hpolicy]%lift_M_ok & Hp)]; [left; by exists k2|].
  apply bind_ok in Hpolicy as (data & <-%item_key & Hpolicy). assert (get_key "data" snapshot = VDict policy) as Hdata.
  { by destruct (get_key "data" snapshot); try discriminate Hpolicy; injection Hpolicy as ->. }
  destruct (context_read _ _ _ _ _ _ _ _ Hc Hdata) as (run_id & source & Hrun & Hpol). pose proof Hrun as (_ & _ & Hid & Hsource & _).
  apply bind_trace in Hp as [(e & [= <- _] & ->)|(? & head & [-> Hhead%item_key]%lift_M_ok & Hp)]; [left; by exists k2|].
  rewrite Hsource in Hhead. subst head.
  apply bind_trace in Hp as [(e & [= <- _] & ->)|(? & [] & [-> Hdispatch%check_dispatch_ok]%lift_M_ok & Hp)]; [left; by exists k2|].
  apply bind_trace in Hp as [(e & (k3 & -> & Hk3)%reads_base_of & ->)|(l3 & start & Hb & Hp)].
  { left. exists (k2 ++ k3). by rewrite app_assoc, writes_app, Hw. }
  pose proof Hb as (k3 & -> & Hk3)%reads_base_of. apply base_of_ok in Hb; [|done..].
  rewrite <-app_assoc in Hb, Hp. assert (writes (k2 ++ k3) = []) as Hw3 by by rewrite writes_app, Hw. remember (k2 ++ k3) as k5.
  destruct start as [d|[base parent]]; [injection Hp as <- <-; left; exists k5; split_and!; [done..|by intros ? [= <-]]|].
  apply (freeze_trace _ _ _ run_id) in Hp as [(k4 & -> & Hk4 & Hr)|(k4 & j & -> & Hk4 & Hbase & Hj & Hr)]; [| |done].
  - left. exists (k5 ++ k4). rewrite app_assoc, writes_app, Hw3. by split_and!.
  - right. exists (k5 ++ k4), j, inputs, run_id, source, run, policy, channel, base, parent. rewrite app_assoc, writes_app, Hw3. subst k5.
    split; [done|split; [done|split; [done|]]]. split; [rewrite app_assoc; by do 2 apply run_read_more|].
    split; [rewrite app_assoc; by do 2 apply policy_read_more|]. split; [by apply started_more|]. by split_and!.
Qed.
End prepared.

(** ** A concrete preparation

    A nightly run of a repository without a ledger: its plan is reserved and frozen.
    With another committed version nothing is written. *)

Section demo.
#[local] Existing Instance ascii_case.
#[local] Existing Instance demo_library.

Definition first_reply (l : list event) : outcome bytes :=
  match last l with
  | Some (Asked path _ _ _) => if bool_decide (path = READ_PATH) then missing else nightly_reply [] false l
  | _ => Ok []
  end.

Definition first_process : process := {|
  p_environ := p_environ promotion_process;
  p_file path l := if bool_decide (path = &"event.json")
                   then json (VDict [(&"inputs", VDict [(&"channel", VStr (&"nightly")); (&"version", VStr (&"1.2.3"))])])
                   else p_file nightly_process path l;
  p_head := p_head promotion_process;
  p_clock := p_clock promotion_process;
|}.

Definition first_calendar : calendar :=
  Calendar (λ _, Ok (Datetime 2024 2 29 23 59 59)) (λ _, Raise (Exn EOS "")) (λ _, Raise (Exn EOS "")).

Definition first_workspace (version : pystr) : workspace :=
  Workspace (demo_checkout version (&"7")) (Sources (λ _, (true, Raise (Exn EOS ""))) (Ok [])) [] (λ _, Ok tt) (λ _, true).

Definition first_plan (version : pystr) : list event * outcome pyobject :=
  @prepare_release _ _ _ (recorded_github first_reply) (recorded_host first_process) (recorded_assets first_reply) (recorded_planner first_calendar)
    demo_fold is_digit demo_no_floats (λ _, []) demo_sha1 demo_sha256 demo_zip (&"O/R") new_name no_failure (first_workspace version) [].

(** The run, as the theorem states it. *)
Lemma first_run version :
  @prepare_release _ _ _ (recorded_github first_reply) (recorded_host first_process) (recorded_assets first_reply) (recorded_planner first_calendar)
    demo_fold is_digit demo_no_floats (λ _, []) demo_sha1 demo_sha256 demo_zip (&"O/R") new_name no_failure (first_workspace version) []
  = (fst (first_plan version), snd (first_plan version)).
Proof. unfold first_plan. apply surjective_pairing. Qed.

Lemma prepare_freezes_reserved_plan_witness :
  (λ d : pyobject, get_key "build" d) <$> snd (first_plan (&"1.2.3")) = Ok (VStr (&"true")) ∧ length (writes (fst (first_plan (&"1.2.3")))) = 2%nat
  ∧ is_ok (snd (first_plan (&"1.2.2"))) = false ∧ length (writes (fst (first_plan (&"1.2.2")))) = 0%nat
  ∧ ∃ k j run_id policy channel base parent source,
      event_gave first_process [] [(&"channel", VStr (&"nightly")); (&"version", VStr (&"1.2.3"))]
      ∧ policy_read first_reply k source policy ∧ writes k = [] ∧ fst (first_plan (&"1.2.3")) = k ++ j ∧ reservation_writes source (writes j)
      ∧ base_committed demo_no_floats demo_sha256 new_name no_failure (first_workspace (&"1.2.3")) policy base
      ∧ plan_frozen first_reply demo_no_floats demo_sha256 k j run_id policy base channel source parent.
Proof.
  assert ((λ d : pyobject, get_key "build" d) <$> snd (first_plan (&"1.2.3")) = Ok (VStr (&"true"))) as Hok by (vm_compute; reflexivity).
  split; [exact Hok|]. do 3 (split; [vm_compute; reflexivity|]).
  remember (first_plan (&"1.2.3")) as demo eqn:Hdemo.
  destruct (prepare_freezes_reserved_plan first_reply first_process first_calendar demo_fold is_digit demo_no_floats (λ _, []) demo_sha1 demo_sha256
              demo_zip (&"O/R") new_name no_failure (first_workspace (&"1.2.3")) (λ b, ltac:(vm_compute; reflexivity)) [] (fst demo) (snd demo))
    as [(k & _ & _ & Hno)|(k & j & inputs & run_id & source & run & policy & channel & base & parent & Hl & Hk & Hin & _ & Hpol & _ & Hbase & Hj & Hr)].
  - rewrite Hdemo. exact (first_run (&"1.2.3")).
  - destruct (snd demo) as [d|e]; [|discriminate Hok]. injection Hok as Hd. by destruct (Hno d eq_refl).
  - destruct (snd demo) as [d|e]; [|discriminate Hok]. exists k, j, run_id, policy, channel, base, parent, source.
    split; [eexists _, _, _; split; [vm_compute; reflexivity|split; [vm_compute; reflexivity|split; [vm_compute; reflexivity|right; vm_compute; reflexivity]]]|].
    split; [exact Hpol|]. split; [exact Hk|]. split; [exact Hl|]. split; [exact Hj|]. split; [exact Hbase|]. exact (Hr d eq_refl).
Defined.
End demo.
