(* ===== verification/WorkflowContracts.v ===== *)
(** * Workflow contracts ([scripts/workflow_contracts.py])

    The checks of the workflow files before anything expensive runs: pinned actions,
    one CodeQL release, the graph of callable validators and the required gates.
    YAML's parser is a parameter: it answers the node graph of a document, which is
    a tree here; scalars are texts, as the loader of the script keeps them.  The
    files of the repository are arguments. *)

From S2P Require Import Prelude PyStr PyDict PyRegex PyVal PyJson VersionPlan Release ChangeScope ReleaseValidation OciMetadata JsonDocument PyMatch TomlEdit Fuzz.
#[local] Open Scope regex_scope.

Definition QUALITY_GATE : pystr := &"quality-gate.yml".
Definition RELEASE_PIPELINE : pystr := &"release-pipeline.yml".
Definition LOCAL_WORKFLOW_PREFIX : pystr := &"./.github/workflows/".
Definition toolkit_workflow (name : pystr) : pystr := &"victron-venus/venus-os-ci-toolkit/.github/workflows/" ++ name.

(** ** Dynamic values *)

(** [s.rsplit(c, 1)[-1]] *)
Definition after_last (c : N) (s : pystr) : pystr := List.last (split c s) [].

(** [s in t] of texts *)
Definition contains_text (s t : pystr) : bool := existsb (λ i, startswith s (drop i t)) (seq 0 (S (length t))).

(** [k in v] *)
Definition key_in (k : pystr) (v : pyval) : outcome bool :=
  match v with
  | VDict d => Ok (in_dict k d)
  | VList l => Ok (existsb (py_eq (VStr k)) l)
  | VStr s => Ok (contains_text k s)
  | _ => Raise (type_error_of "argument is not iterable")
  end.

Definition hashable (v : pyval) : outcome pyval :=
  match v with VList _ | VDict _ => Raise (type_error_of "unhashable type") | _ => Ok v end.

(** [set(l) == set(names)] *)
Definition same_names (l : list pyval) (names : list pystr) : outcome bool :=
  l ← collect hashable l;
  Ok (forallb (λ v, existsb (text_is v) names) l && forallb (λ name, existsb (λ v, text_is v name) l) names).

(** [v.get(k, d)] *)
Definition get_of (k : string) (d v : pyval) : outcome pyval := o ← as_dict v; Ok (get_default (lit k) d o).

(** [v.get(a, {}).get(b)] *)
Definition get_in (a b : string) (v : pyval) : outcome pyval := inner ← get_of a (VDict []) v; get_of b VNone inner.

Definition require_contract (b : bool) (message : string) : outcome unit := check b (value_error_of message).

(** ** YAML *)

(** A node; a scalar ends at a line and a column. *)
Inductive yaml_node : Type :=
  | Scalar (value : pystr) (end_line end_column : nat)
  | Sequence (items : list yaml_node)
  | Mapping (entries : list (yaml_node * yaml_node)).

(** The construction of [UniqueKeyLoader]. *)
Fixpoint construct_object (node : yaml_node) : outcome pyval :=
  match node with
  | Scalar value _ _ => Ok (VStr value)
  | Sequence items =>
    l ← (fix sequence (items : list yaml_node) : outcome (list pyval) :=
           match items with [] => Ok [] | n :: items => v ← construct_object n; l ← sequence items; Ok (v :: l) end) items;
    Ok (VList l)
  | Mapping entries =>
    d ← (fix construct_mapping (entries : list (yaml_node * yaml_node)) (mapping : pyobject) : outcome pyobject :=
           match entries with
           | [] => Ok mapping
           | (key_node, value_node) :: entries =>
             key ← construct_object key_node;
             match key with
             | VStr k =>
               _ ← require_contract (negb (dict_has k mapping)) "Duplicate or non-string YAML key at";
               value ← construct_object value_node;
               construct_mapping entries (dict_set k value mapping)
             | _ => Raise (value_error_of "Duplicate or non-string YAML key at")
             end
           end) entries [];
    Ok (VDict d)
  end.

(** [yaml_member] *)
Definition yaml_member (node : option yaml_node) (name : pystr) : option yaml_node :=
  match node with
  | Some (Mapping entries) =>
    snd <$> List.find (λ e : yaml_node * yaml_node, match e.1 with Scalar value _ _ => bool_decide (value = name) | _ => false end) entries
  | _ => None
  end.

(** ** Pinned actions *)

(** [workflow.get("jobs", {})] as a dictionary, and [job.get("steps", [])] as a list *)
Definition jobs_of (workflow : pyval) : outcome pyobject := v ← get_of "jobs" (VDict []) workflow; as_dict v.
Definition steps_of (job : pyval) : outcome (list pyval) := v ← get_of "steps" (VList []) job; iterate v.

Definition codeql_actions : list pystr :=
  (λ name, &"github/codeql-action/" ++ name ++ &"@") <$> [&"init"; &"autobuild"; &"analyze"; &"upload-sarif"].
Definition codeql_reference (uses : pystr) : bool := existsb (λ prefix, startswith prefix uses) codeql_actions.

(** The pin of one step. *)
Definition codeql_pin (step : pyval) : outcome (list pystr) :=
  uses ← get_of "uses" (VStr []) step;
  match uses with
  | VStr uses => Ok (if codeql_reference uses then [after_last (chr "@") uses] else [])
  | _ => Raise (type_error_of "expected string or bytes-like object")
  end.

(** [codeql_pins] *)
Definition codeql_pins (job : pyval) : outcome (list pystr) :=
  steps ← steps_of job;
  pins ← collect codeql_pin steps;
  Ok (remove_dups (concat pins)).

(** One job: its pins share one commit. *)
Definition codeql_job (job : pystr * pyval) : outcome (list pystr) :=
  pins ← codeql_pins job.2;
  _ ← require_contract ((length pins <=? 1)%nat && forallb (fullmatch SHA) pins) "CodeQL actions must share one full commit SHA";
  Ok pins.

(** [validate_codeql] *)
Definition validate_codeql (workflows : pyobject) : outcome unit :=
  pins ← collect (λ w, jobs ← jobs_of w.2; pins ← collect codeql_job jobs; Ok (concat pins)) workflows;
  require_contract (length (remove_dups (concat pins)) <=? 1)%nat "CodeQL actions across workflows must share one full commit SHA".

(** [yaml_step_references] of a document *)
Definition yaml_step_references (root : option yaml_node) : list (option yaml_node) :=
  match yaml_member root (&"jobs") with
  | Some (Mapping jobs) =>
    concat ((λ job : yaml_node * yaml_node,
               match yaml_member (Some job.2) (&"steps") with
               | Some (Sequence steps) => (λ step, yaml_member (Some step) (&"uses")) <$> steps
               | _ => []
               end) <$> jobs)
  | _ => []
  end.

Definition blank_char (c : N) : bool := bool_decide (c ∈ [32; 9]%N).

(** [[ \t]*#[ \t]*] and [v\d+\.\d+\.\d+] *)
Definition comment_groups : list pattern :=
  let number := pplus (PChar is_digit) in
  [pseq [PStar (PChar blank_char); pchars (&"#"); PStar (PChar blank_char)];
   pseq [pchars (&"v"); number; pchars (&"."); number; pchars (&"."); number]].

(** [(?:[ \t]|$)] *)
Definition comment_ends (rest : pystr) : bool := match rest with [] => true | c :: rest => blank_char c || bool_decide (c = 10%N ∧ rest = []) end.

(** [text.splitlines()] *)
Definition splitlines (s : pystr) : list pystr :=
  (λ line, if endswith [13; 10]%N line then take (length line - 2) line
           else if match last line with Some c => line_break c | None => false end then removelast line else line) <$> splitlines_keep s.

(** [codeql_release_comment] *)
Definition codeql_release_comment (line column : nat) (lines : list pystr) : outcome pystr :=
  let tail := drop column (default [] (lines !! line)) in
  match List.find (λ rests : list pystr, comment_ends (List.last rests [])) (group_runs comment_groups tail) with
  | Some [after_mark; rest] => Ok (take (length after_mark - length rest) after_mark)
  | _ => Raise (value_error_of "CodeQL SHA needs an inline full release comment for Renovate")
  end.

(** A reference to a CodeQL action at a commit. *)
Definition codeql_commit (uses : pystr) : bool :=
  existsb (λ prefix, startswith prefix uses && fullmatch SHA (drop (length prefix) uses)) codeql_actions.

Definition release_comments (lines : list pystr) (reference : option yaml_node) : outcome (list pystr) :=
  match reference with
  | Some (Scalar value line column) =>
    if codeql_commit value then version ← codeql_release_comment line column lines; Ok [version] else Ok []
  | _ => Ok []
  end.

(** [docker://[A-Za-z0-9][A-Za-z0-9._:/-]*@sha256:[0-9a-f]{64}] *)
Definition docker_digest : regex :=
  chars (&"docker://") ⋅ Char ascii_alnum ⋅ Star (Char (λ c, ascii_alnum c || one_of "._:/-" c)) ⋅ chars (&"@sha256:") ⋅ rep 64 (Char lower_hex).

(** The pins of the generator: keys and values of a parsed file. *)
Notation pin_list := (list (pyval * pyval)).
Fixpoint pin_set (k v : pyval) (pins : pin_list) : pin_list :=
  match pins with
  | [] => [(k, v)]
  | p :: pins => if py_eq p.1 k then (p.1, v) :: pins else p :: pin_set k v pins
  end.
Definition pin_get (k : pystr) (pins : pin_list) : option pyval := snd <$> List.find (λ p : pyval * pyval, py_eq p.1 (VStr k)) pins.

(** [validate_action_reference] *)
Definition validate_action_reference (pins : option pin_list) (reference : pyval) : outcome unit :=
  if negb (truthy reference) then Ok tt
  else
    match reference with
    | VStr reference =>
      if startswith (&"./") reference then Ok tt
      else
        let '(action, revision) := partition (chr "@") reference in
        _ ← (if startswith (&"docker://") reference
             then require_contract (fullmatch docker_digest reference) "Docker actions must use an immutable SHA-256 digest"
             else require_contract (fullmatch SHA revision) "action must use a full commit SHA");
        match pins with
        | Some pins => require_contract match pin_get action pins with Some pin => text_is pin revision | None => false end
                         "action differs from generator pins"
        | None => Ok tt
        end
    | _ => Raise attribute_error
    end.

(** The references of one job: its own, and those of its steps. *)
Definition job_references (job : pyval) : outcome (list pyval) :=
  own ← get_of "uses" (VStr []) job;
  steps ← steps_of job;
  used ← collect (get_of "uses" (VStr [])) steps;
  Ok (own :: used).

(** [validate_workflow_pins] *)
Definition validate_workflow_pins (workflow : pyval) (pins : option pin_list) : outcome unit :=
  jobs ← jobs_of workflow;
  for_each (λ job : pystr * pyval, references ← job_references job.2; for_each (validate_action_reference pins) references) jobs.

(** ** The files of the repository *)

(** The policy, the manifest of pins where there is one, whether the generator is
    there, and the texts of the workflow files in the order of the directory. *)
Record repository : Type := Repository {
  policy_text : option pystr; manifest_text : option pystr; has_installer : bool; workflow_texts : pydict pystr pystr
}.

Definition pinned_sections : list (pystr * pystr) := [(&"coverage", &"coverage-upload.yml"); (&"fuzzing", &"fuzz.yml")].

(** [configured_workflow_pins] *)
Definition configured_workflow_pins (r : repository) : outcome (pydict pystr pystr) :=
  policy ← match policy_text r with Some text => json_loads keep_last text | None => Ok (VDict []) end;
  pins ← collect (λ s : pystr * pystr,
                    d ← as_dict policy;
                    let configuration := get_default s.1 VNone d in
                    if truthy configuration then
                      reference ← subscript configuration (&"toolkit_ref");
                      _ ← require_contract (str_match SHA reference) "Toolkit workflow pins must be full commit SHAs";
                      Ok [(toolkit_workflow s.2, str_value reference)]
                    else Ok []) pinned_sections;
  Ok (concat pins).

(** One pin of the manifest. *)
Definition manifest_pin (pins : pin_list) (pin : pyval) : outcome pin_list :=
  name ← subscript pin (&"packageName");
  digest ← subscript pin (&"digest");
  name ← hashable name;
  Ok (pin_set name digest pins).
Fixpoint manifest_pins (l : list pyval) (pins : pin_list) : outcome pin_list :=
  match l with [] => Ok pins | pin :: l => pins ← manifest_pin pins pin; manifest_pins l pins end.

(** [generator_pins] *)
Definition generator_pins (r : repository) : outcome (option pin_list) :=
  match manifest_text r with
  | None => _ ← require_contract (negb (has_installer r)) "Missing generator action-pin manifest"; Ok None
  | Some text =>
    v ← json_loads keep_last text;
    l ← iterate v;
    pins ← manifest_pins l [];
    ok ← all_of (λ p : pyval * pyval, match_object SHA p.2) pins;
    _ ← require_contract ok "Generator pins must be full commit SHAs";
    configured ← configured_workflow_pins r;
    Ok (Some (fold_left (λ pins p, pin_set (VStr p.1) (VStr p.2) pins) configured pins))
  end.

Definition generated_workflows : list pystr := [QUALITY_GATE; RELEASE_PIPELINE; &"release-quality-gate.yml"].
Definition generator_marker : pystr := &"# Generated by venus-os-ci-toolkit/scripts/install_release.py;".

(** [workflows.get(RELEASE_PIPELINE, {}).get("jobs", {}).get(name, {})] *)
Definition pipeline_job (workflows : pyobject) (name : string) : outcome pyval :=
  jobs ← get_of "jobs" (VDict []) (get_default RELEASE_PIPELINE (VDict []) workflows);
  get_of name (VDict []) jobs.

(** [validate_fuzz_pins] *)
Definition validate_fuzz_pins (r : repository) (workflows : pyobject) : outcome unit :=
  configured ← configured_workflow_pins r;
  let action := toolkit_workflow (&"fuzz.yml") in
  match dict_get action configured with
  | None => Ok tt
  | Some reference =>
    job ← pipeline_job workflows "fuzz";
    uses ← get_of "uses" VNone job;
    ok ← o_and (Ok (text_is uses (action ++ &"@" ++ reference))) (toolkit_ref ← get_in "with" "toolkit-ref" job; Ok (text_is toolkit_ref reference));
    require_contract ok "Fuzz workflow, runtime and policy toolkit_ref must match"
  end.

(** [validate_generator_pins] *)
Definition validate_generator_pins (r : repository) (workflows : pyobject) : outcome unit :=
  pins ← generator_pins r;
  _ ← for_each (λ w : pystr * pyval,
         if bool_decide (w.1 ∈ generated_workflows) then
           source ← match dict_get w.1 (workflow_texts r) with Some s => Ok s | None => Raise (Exn EOS "") end;
           _ ← require_contract (startswith generator_marker source) "missing generator marker";
           validate_workflow_pins w.2 pins
         else validate_workflow_pins w.2 None) workflows;
  validate_fuzz_pins r workflows.

(** ** The graph of callable workflows *)

(** [workflows[filename]] *)
Definition workflow_of (workflows : pyobject) (filename : pystr) : outcome pyval := item filename workflows.

(** The triggers of a callable workflow. *)
Definition check_triggers (workflow : pyval) : outcome unit :=
  triggers ← get_of "on" (VDict []) workflow;
  _ ← require_contract (is_dict triggers && in_dict (&"workflow_call") (dict_of triggers)) "missing workflow_call";
  require_contract (forallb (λ k, bool_decide (k ∈ [&"workflow_call"; &"workflow_dispatch"])) (dict_keys (dict_of triggers)))
    "validation must start through Quality gate".

(** What a job calls locally: [Some] filename; a job that runs needs a timeout. *)
Definition job_call (job : pyval) : outcome (option pystr) :=
  reference ← get_of "uses" (VStr []) job;
  match reference with
  | VStr reference =>
    if startswith LOCAL_WORKFLOW_PREFIX reference then Ok (Some (after_last (chr "/") reference))
    else
      runs ← key_in (&"runs-on") job;
      timed ← (if runs : bool then key_in (&"timeout-minutes") job else Ok true);
      _ ← require_contract timed "an explicit timeout is required";
      Ok None
  | _ => Raise attribute_error
  end.

(** The jobs of one workflow: what they call is walked in turn. *)
Section jobs.
Context (walk : list pystr → pystr → outcome (list pystr)).
Fixpoint walk_jobs (jobs : pyobject) (visited : list pystr) : outcome (list pystr) :=
  match jobs with
  | [] => Ok visited
  | job :: jobs =>
    call ← job_call job.2;
    visited ← match call with Some callee => walk visited callee | None => Ok visited end;
    walk_jobs jobs visited
  end.
End jobs.

(** [_callable_workflow]; the result is the set of visited files. *)
Section walk.
Context (workflows : pyobject).
Fixpoint callable_workflow (n : nat) (visited chain : list pystr) (filename : pystr) : outcome (list pystr) :=
  match n with
  | O => Raise (Exn EOther "deeper than the workflows")
  | S n =>
    _ ← require_contract (negb (bool_decide (filename ∈ chain))) "Recursive validation";
    if bool_decide (filename ∈ visited) then Ok visited
    else
      workflow ← workflow_of workflows filename;
      _ ← check_triggers workflow;
      jobs ← jobs_of workflow;
      walk_jobs (λ visited callee, callable_workflow n visited (chain ++ [filename]) callee) jobs (visited ++ [filename])
  end.

(** The walk from every validator. *)
Fixpoint walk_all (n : nat) (validators : list pyval) (visited : list pystr) : outcome (list pystr) :=
  match validators with
  | [] => Ok visited
  | VStr filename :: validators => visited ← callable_workflow n visited [] filename; walk_all n validators visited
  | (VList _ | VDict _) :: _ => Raise (type_error_of "unhashable type")
  | _ :: _ => Raise (Exn EKey "")
  end.

(** A chain holds distinct workflows. *)
Definition WALK_DEPTH : nat := S (length workflows).

(** [validate_graph] *)
Definition validate_graph (validators : list pyval) : outcome (list pystr) := walk_all WALK_DEPTH validators [].
End walk.

(** ** Coverage *)

(** [report["name"]] and the like, where the code needs a text *)
Definition text_item (v : pyval) (k : string) : outcome pystr :=
  t ← subscript v (lit k); match t with VStr s => Ok s | _ => Raise (type_error_of "can only concatenate str") end.

Definition underscores (s : pystr) : pystr := (λ c, if (c =? chr "-")%N then chr "_" else c) <$> s.

(** The producer of a report that is a shared workflow. *)
Definition called_producer (producer report : pyval) (name ref : pystr) : outcome unit :=
  format ← subscript report (&"format");
  format ← hashable format;
  let workflow := if text_is format (&"cobertura") then Some (&"python-ci.yml") else if text_is format (&"go") then Some (&"go-ci.yml") else None in
  ok ← match workflow with
       | None => Ok false
       | Some workflow =>
         uses ← subscript producer (&"uses");
         o_and (Ok (text_is uses (toolkit_workflow workflow ++ &"@" ++ ref)))
               (artifact ← get_in "with" "coverage-artifact-name" producer; Ok (text_is artifact name))
       end;
  require_contract ok "Coverage producer pin or artifact differs from policy".

Definition upload_artifact (uses : pyval) : outcome bool := match_object (chars (&"actions/upload-artifact@") ⋅ SHA) uses.

(** A producer that exports the report itself. *)
Definition exporting_producer (producer report : pyval) (name : pystr) : outcome unit :=
  report_name ← text_item report "name";
  steps ← steps_of producer;
  exports ← select (λ step, id ← get_of "id" VNone step; Ok (text_is id (&"export_coverage_" ++ underscores report_name))) steps;
  ok ← match exports with
       | [export] =>
         o_and (uses ← get_of "uses" (VStr []) export; upload_artifact uses)
           (o_and (n ← get_in "with" "name" export; Ok (text_is n (name ++ &"-${{ github.run_attempt }}")))
                  (p ← get_in "with" "path" export; q ← subscript report (&"path"); Ok (py_eq p q)))
       | _ => Ok false
       end;
  require_contract ok "Coverage producer export differs from policy".

(** [validate_coverage_producer] *)
Definition validate_coverage_producer (producer report : pyval) (ref : pystr) : outcome unit :=
  report_name ← text_item report "name";
  let name := &"coverage-" ++ report_name in
  called ← key_in (&"uses") producer;
  if called : bool then called_producer producer report name ref else exporting_producer producer report name.

(** [l.index(v)] *)
Fixpoint index_of (v : pyval) (l : list pyval) : outcome nat :=
  match l with
  | [] => Raise (value_error_of "is not in list")
  | w :: l => if py_eq w v then Ok 0%nat else i ← index_of v l; Ok (S i)
  end.

(** [d[v]] of a value *)
Definition value_item (d v : pyval) : outcome pyval :=
  match d with
  | VDict d => v ← hashable v; match v with VStr s => item s d | _ => Raise (Exn EKey "") end
  | _ => Raise (type_error_of "indices")
  end.

Section coverage.
Context `{UnicodeCase} (py_text : pyval → pystr).

Definition coverage_permissions : pyval :=
  VDict [(&"contents", VStr (&"read")); (&"actions", VStr (&"read")); (&"id-token", VStr (&"write"))].

(** The arguments of the upload of one report. *)
Definition upload_arguments (report : pyval) (name : pystr) : outcome pyval :=
  path ← subscript report (&"path");
  file ← match path with VStr p => Ok (after_last (chr "/") p) | _ => Raise attribute_error end;
  format ← subscript report (&"format");
  flags ← subscript report (&"name");
  required ← subscript report (&"required");
  Ok (VDict [(&"artifact-name", VStr name); (&"report-file", VStr file); (&"format", format); (&"flags", flags);
             (&"required", VStr (str_lower (value_text py_text required)))]).

(** The upload job of one report. *)
Definition upload_ok (upload report : pyval) (reference name : pystr) (producer_index : nat) : outcome bool :=
  uses ← get_of "uses" VNone upload;
  needs ← get_of "needs" VNone upload;
  permissions ← get_of "permissions" VNone upload;
  o_and (Ok (text_is uses reference && py_eq needs (VList [VStr (&"scope"); VStr (&"check-" ++ str_of_int (Z.of_nat producer_index))])
             && py_eq permissions coverage_permissions))
        (given ← get_of "with" VNone upload; expected ← upload_arguments report name; Ok (py_eq given expected)).

(** One report: its upload and its producer. *)
Definition coverage_report (policy workflows : pyobject) (gate : pyval) (ref reference : pystr) (report : pyval) : outcome unit :=
  report_name ← text_item report "name";
  let name := &"coverage-" ++ report_name in
  callers ← as_dict gate;
  let upload := get_default name (VDict []) callers in
  validators ← item (&"validation_workflows") policy;
  l ← match validators with VList l => Ok l | VStr _ => Raise (value_error_of "substring not found") | _ => Raise attribute_error end;
  producer_workflow ← subscript report (&"workflow");
  producer_index ← index_of producer_workflow l;
  ok ← upload_ok upload report reference name producer_index;
  _ ← require_contract ok "Coverage upload caller differs from its policy or producer dependency";
  w ← value_item (VDict workflows) producer_workflow;
  jobs ← subscript w (&"jobs");
  job ← subscript report (&"job");
  producer ← value_item jobs job;
  validate_coverage_producer producer report ref.

(** [validate_coverage_callers]: the remote references the gate may call. *)
Definition validate_coverage_callers (policy workflows : pyobject) (gate : pyval) : outcome (list pystr) :=
  let coverage := get_default (&"coverage") VNone policy in
  if negb (truthy coverage) then Ok []
  else
    ref ← subscript coverage (&"toolkit_ref");
    _ ← require_contract (str_match SHA ref) "Coverage toolkit_ref must be a full commit SHA";
    let reference := toolkit_workflow (&"coverage-upload.yml") ++ &"@" ++ str_value ref in
    v ← subscript coverage (&"reports");
    reports ← iterate v;
    _ ← for_each (coverage_report policy workflows gate (str_value ref) reference) reports;
    Ok [reference].
End coverage.

(** ** The release gates *)

(** The condition of a default check outside beta releases. *)
Definition outside_beta (condition : pystr) : pystr :=
  &"${{ inputs.channel != 'beta' && (" ++ strip (take (length condition - 6) (drop 3 condition)) ++ &") }}".

(** One default check; [dict(original)] copies a mapping, as [validate_codeql] has read
    the steps of every job. *)
Definition baseline_job (jobs : pyobject) (job : pystr * pyval) : outcome unit :=
  if bool_decide (job.1 ∈ [&"scope"; &"gate"]) then Ok tt
  else
    actual ← item job.1 jobs;
    original ← as_dict job.2;
    wanted ← (if startswith (&"check-") job.1 || startswith (&"coverage-") job.1 then
                match get_default (&"if") (VStr (&"${{ success() }}")) original with
                | VStr condition => Ok (dict_set (&"if") (VStr (outside_beta condition)) original)
                | _ => Raise attribute_error
                end
              else Ok original);
    require_contract (py_eq actual (VDict wanted)) "Release validation must retain the complete default checks".

(** [validate_release_baseline] *)
Definition validate_release_baseline (jobs : pyobject) (baseline : pyval) : outcome unit :=
  d ← as_dict baseline; for_each (baseline_job jobs) d.

(** [validate_beta_callers] *)
Definition beta_caller (jobs : pyobject) (index : nat) (filename : pystr) : outcome unit :=
  job ← item (&"beta-check-" ++ str_of_int (Z.of_nat index)) jobs;
  uses ← get_of "uses" VNone job;
  needs ← get_of "needs" VNone job;
  condition ← get_of "if" VNone job;
  require_contract (text_is uses (LOCAL_WORKFLOW_PREFIX ++ filename) && py_eq needs (VList [VStr (&"scope"); VStr (&"workflow-contracts")])
                    && text_is condition (&"${{ inputs.channel == 'beta' && needs.scope.outputs.run == 'true' }}"))
    "Beta validation caller differs from channel policy".
Definition validate_beta_callers (jobs : pyobject) (beta : list pystr) : outcome unit :=
  for_each (λ p : nat * pystr, beta_caller jobs p.1 p.2) (imap pair beta).

(** [validate_release_scope] *)
Definition validate_release_scope (scope : pyval) : outcome unit :=
  steps ← steps_of scope;
  selector ← select (λ step, name ← get_of "name" VNone step; Ok (text_is name (&"Validate release channel"))) steps;
  name ← get_of "name" VNone scope;
  conditional ← key_in (&"if") scope;
  ok ← match selector with
       | [step] =>
         o_and (Ok (text_is name (&"Validation profile (${{ inputs.channel }})") && negb conditional))
           (run ← get_of "run" VNone step;
            environment ← get_of "env" VNone step;
            o_and (Ok (text_is run (&"python3 scripts/release_validation.py select --channel " ++ [34%N] ++ &"$RELEASE_CHANNEL" ++ [34%N])
                       && py_eq environment (VDict [(&"RELEASE_CHANNEL", VStr (&"${{ inputs.channel }}"))])))
              (any_of (λ step, full ← get_in "env" "FORCE_FULL" step; Ok (text_is full (&"true"))) steps))
       | _ => Ok false
       end;
  require_contract ok "Release validation must prove its channel and force real checks".

(** [execution_overrides.intersection(v)] is not empty *)
Definition overrides (v : pyval) : outcome bool :=
  l ← iterate v; l ← collect hashable l;
  Ok (existsb (λ v, text_is v (&"shell") || text_is v (&"working-directory")) l).

Definition overriding_defaults (scope : pyval) : outcome bool :=
  defaults ← get_of "defaults" (VDict []) scope; run ← get_of "run" (VDict []) defaults; overrides run.

Definition no_override : string := "Release validation gate cannot override its shell or working-directory".

(** The one command of the gate. *)
Definition gate_command (step : pyval) : outcome bool :=
  proceeds ← get_of "continue-on-error" (VStr (&"false")) step;
  conditional ← key_in (&"if") step;
  run ← get_of "run" VNone step;
  environment ← get_of "env" VNone step;
  Ok (text_is proceeds (&"false") && negb conditional
      && text_is run (&"python3 scripts/release_validation.py gate --channel " ++ [34%N] ++ &"$RELEASE_CHANNEL" ++ [34%N])
      && py_eq environment (VDict [(&"RESULTS", VStr (&"${{ toJSON(needs) }}")); (&"RELEASE_CHANNEL", VStr (&"${{ inputs.channel }}"))])).

(** [validate_release_gate] *)
Definition validate_release_gate (gate workflow : pyval) : outcome unit :=
  steps ← steps_of gate;
  commands ← select (key_in (&"run")) steps;
  _ ← for_each (λ scope, o ← overriding_defaults scope; require_contract (negb o) no_override)
        [if truthy workflow then workflow else VDict []; gate];
  o ← any_of overrides commands;
  _ ← require_contract (negb o) no_override;
  name ← get_of "name" VNone gate;
  condition ← get_of "if" VNone gate;
  proceeds ← get_of "continue-on-error" (VStr (&"false")) gate;
  ok ← match commands with
       | [step] => o_and (Ok (text_is name (&"CI gate") && text_is condition (&"${{ always() }}") && text_is proceeds (&"false"))) (gate_command step)
       | _ => Ok false
       end;
  require_contract ok "Release validation must use the fail-closed profile gate".

Definition RELEASE_GATE_WORKFLOW : pystr := &"release-quality-gate.yml".

(** The trigger of the release gate: its explicit channel only. *)
Definition channel_input : pyval :=
  VDict [(&"workflow_call", VDict [(&"inputs", VDict [(&"channel", VDict [(&"type", VStr (&"string")); (&"required", VStr (&"true"))])])])].

(** The job of the pipeline that calls the release gate. *)
Definition prepared_caller (workflows : pyobject) : outcome unit :=
  caller ← pipeline_job workflows "checks";
  uses ← get_of "uses" VNone caller;
  needs ← get_of "needs" VNone caller;
  given ← get_of "with" VNone caller;
  require_contract (text_is uses (LOCAL_WORKFLOW_PREFIX ++ RELEASE_GATE_WORKFLOW) && text_is needs (&"prepare")
                    && py_eq given (VDict [(&"channel", VStr (&"${{ needs.prepare.outputs.channel }}"))]))
    "Release validation must consume the prepared channel".

(** [validate_release_channels] *)
Definition validate_release_channels (policy workflows : pyobject) : outcome unit :=
  beta ← channel_workflows policy;
  match beta with
  | None => require_contract (negb (in_dict RELEASE_GATE_WORKFLOW workflows)) "Release validation workflow has no channel policy"
  | Some beta =>
    _ ← validate_graph workflows (VStr <$> beta);
    let wrapper := get_default RELEASE_GATE_WORKFLOW (VDict []) workflows in
    on ← get_of "on" VNone wrapper;
    _ ← require_contract (py_eq on channel_input) "Release validation requires only its explicit channel input";
    v ← get_of "jobs" (VDict []) wrapper;
    results ← expected_results policy (&"beta");
    let expected := dict_keys results in
    names ← iterate v;
    ok ← o_and (same_names names (expected ++ [&"gate"]))
           (gate ← subscript v (&"gate"); needs ← get_of "needs" (VList []) gate; l ← iterate needs; same_names l expected);
    _ ← require_contract ok "Release validation gate inventory differs from channel policy";
    quality ← item QUALITY_GATE workflows;
    baseline ← subscript quality (&"jobs");
    jobs ← as_dict v;
    _ ← validate_release_baseline jobs baseline;
    _ ← validate_beta_callers jobs beta;
    scope ← item (&"scope") jobs;
    _ ← validate_release_scope scope;
    gate ← item (&"gate") jobs;
    _ ← validate_release_gate gate wrapper;
    prepared_caller workflows
  end.

(** ** The whole *)

Section validation.
Context `{UnicodeCase} (py_text : pyval → pystr) (compose : pystr → outcome (option yaml_node)).

(** [yaml.load(source, Loader=UniqueKeyLoader)] *)
Definition load_workflow (source : pystr) : outcome pyval :=
  root ← compose source; match root with Some node => construct_object node | None => Ok VNone end.

(** [validate_codeql_update_metadata] *)
Definition validate_codeql_update_metadata (sources : pydict pystr pystr) : outcome unit :=
  versions ← collect (λ s : pystr * pystr,
                        root ← compose s.2;
                        found ← collect (release_comments (splitlines s.2)) (yaml_step_references root);
                        Ok (concat found)) sources;
  require_contract (length (remove_dups (concat versions)) <=? 1)%nat "CodeQL version comments must name the same release".

(** A workflow that pull requests start is behind the required gate. *)
Definition pull_request_exceptions : list pystr := [QUALITY_GATE; &"auto-approve.yml"; &"auto-merge.yml"].
Definition behind_gate (visited : list pystr) (w : pystr * pyval) : outcome unit :=
  on ← get_of "on" (VDict []) w.2;
  triggered ← key_in (&"pull_request") on;
  require_contract (negb triggered || bool_decide (w.1 ∈ visited) || bool_decide (w.1 ∈ pull_request_exceptions))
    "PR validator is outside the required gate".

(** The calls of the jobs of the gate. *)
Definition gate_calls (gate : pyobject) : outcome (list pyval) :=
  calling ← select (λ job : pystr * pyval, key_in (&"uses") job.2) gate;
  collect (λ job : pystr * pyval, get_of "uses" VNone job.2) calling.

(** The required gate: every validator and every job. *)
Definition validate_quality_gate (policy workflows : pyobject) (validators : list pyval) : outcome unit :=
  quality ← item QUALITY_GATE workflows;
  v ← subscript quality (&"jobs");
  coverage ← validate_coverage_callers py_text policy workflows v;
  gate ← as_dict v;
  calls ← gate_calls gate;
  ok ← o_and (same_names calls (((λ v, LOCAL_WORKFLOW_PREFIX ++ str_value v) <$> validators) ++ coverage))
         (job ← item (&"gate") gate; needs ← get_of "needs" (VList []) job; l ← iterate needs;
          same_names l (filter (λ name, name ≠ &"gate") (dict_keys gate)));
  _ ← require_contract ok "CI gate must require every configured validator and contract job";
  require_contract (in_dict (&"workflow-contracts") gate) "CI gate must include its configuration contracts".

(** [validate] *)
Definition validate_contracts (r : repository) (actions_only : bool) : outcome unit :=
  text ← match policy_text r with Some text => Ok text | None => Raise (Exn EOS "") end;
  v ← json_loads keep_last text;
  workflows ← collect (λ s : pystr * pystr, w ← load_workflow s.2; Ok (s.1, w)) (workflow_texts r);
  _ ← validate_codeql workflows;
  _ ← validate_codeql_update_metadata (workflow_texts r);
  _ ← validate_generator_pins r workflows;
  if actions_only then Ok tt
  else
    names ← subscript v (&"validation_workflows");
    policy ← as_dict v;
    validators ← iterate names;
    visited ← validate_graph workflows validators;
    _ ← for_each (behind_gate visited) workflows;
    _ ← validate_quality_gate policy workflows validators;
    validate_release_channels policy workflows.
End validation.

(** ** The graph *)

Section graph.
Context (workflows : pyobject).

(** A workflow calls another from one of its jobs. *)
Definition calls (f g : pystr) : Prop :=
  ∃ w jobs job, workflow_of workflows f = Ok w ∧ jobs_of w = Ok jobs ∧ job ∈ jobs ∧ job_call job.2 = Ok (Some g).

(** A job that calls a local workflow, or is bounded: one that runs by itself has a
    timeout. *)
Definition called_or_bounded (job : pyval) : Prop :=
  ∃ d reference, job = VDict d ∧ get_default (&"uses") (VStr []) d = VStr reference
    ∧ (startswith LOCAL_WORKFLOW_PREFIX reference = true ∨ in_dict (&"runs-on") d = false ∨ in_dict (&"timeout-minutes") d = true).

(** A workflow that can be called, and nothing else than called or dispatched. *)
Definition callable (f : pystr) : Prop :=
  ∃ w triggers jobs, workflow_of workflows f = Ok w ∧ get_of "on" (VDict []) w = Ok (VDict triggers) ∧ jobs_of w = Ok jobs
    ∧ &"workflow_call" ∈ dict_keys triggers ∧ dict_keys triggers ⊆ [&"workflow_call"; &"workflow_dispatch"]
    ∧ ∀ job, job ∈ jobs → called_or_bounded job.2.

Lemma require_contract_ok b message u : require_contract b message = Ok u ↔ b = true.
Proof. unfold require_contract, check. destruct u. by destruct b. Qed.

Lemma job_call_ok job : called_or_bounded job ↔ ∃ call, job_call job = Ok call.
Proof.
  unfold called_or_bounded, job_call, get_of. split.
  - intros (d & reference & -> & Hr & Hj). cbn [as_dict mbind outcome_bind key_in]. rewrite Hr.
    destruct (startswith _ _); [by eexists|]. destruct Hj as [|Hj]; [done|]. exists None.
    destruct (in_dict (&"runs-on") d); cbn [mbind outcome_bind]; [|done]. by destruct Hj as [?| ->].
  - intros (call & Hj). destruct job as [| | | | | | |d]; try discriminate Hj. cbn [as_dict mbind outcome_bind key_in] in Hj.
    destruct (get_default _ _ d) as [| | | |reference| | |] eqn:Hr; try discriminate Hj. exists d, reference. split_and!; [done..|].
    destruct (startswith _ _); [by left|right]. destruct (in_dict (&"runs-on") d); [right|by left]. cbn [mbind outcome_bind] in Hj.
    by destruct (in_dict (&"timeout-minutes") d).
Qed.

Lemma in_dict_keys k d : in_dict k d = true ↔ k ∈ dict_keys d.
Proof. unfold in_dict, dict_has. by rewrite bool_decide_eq_true, dict_keys_get. Qed.

(** The same in the words of the code. *)
Lemma callable_code f :
  callable f ↔ ∃ w jobs, workflow_of workflows f = Ok w ∧ check_triggers w = Ok tt ∧ jobs_of w = Ok jobs
    ∧ ∀ job, job ∈ jobs → ∃ call, job_call job.2 = Ok call.
Proof.
  unfold callable, check_triggers. split.
  - intros (w & triggers & jobs & Hw & Ht & Hj & Hcall & Hsub & Hjobs). exists w, jobs. split_and!; [done| |done|intros; by apply job_call_ok, Hjobs].
    rewrite Ht. cbn [mbind outcome_bind is_dict dict_of andb]. assert (in_dict (&"workflow_call") triggers = true) as -> by (by apply in_dict_keys).
    cbn [require_contract check mbind outcome_bind]. apply require_contract_ok, forallb_forall. intros k Hk. apply bool_decide_eq_true_2, Hsub. by apply list_elem_of_In.
  - intros (w & jobs & Hw & Ht & Hj & Hjobs). apply bind_ok in Ht as (v & Hv & Ht). apply bind_ok in Ht as ([] & Hd%require_contract_ok & Hall%require_contract_ok).
    apply andb_true_iff in Hd as [Hd Hcall].
    destruct v as [| | | | | | |triggers]; try discriminate Hd. exists w, triggers, jobs. split_and!; [done..| | |intros; by apply job_call_ok, Hjobs].
    + by apply in_dict_keys.
    + intros k Hk. rewrite forallb_forall in Hall. by apply (bool_decide_eq_true_1 _ (Hall k (proj1 (list_elem_of_In _ _) Hk))).
Qed.

(** The files that were walked to the end: callable, without a cycle below them, and
    calling only such files. *)
Definition walked (visited chain : list pystr) : Prop :=
  chain ⊆ visited
  ∧ ∀ f, f ∈ visited → f ∉ chain → callable f ∧ Acc (λ g f, calls f g) f ∧ ∀ g, calls f g → g ∈ visited ∧ g ∉ chain.

Lemma walk_jobs_ok (walk : list pystr → pystr → outcome (list pystr)) chain jobs visited visited' :
  (∀ v v' g, walked v chain → walk v g = Ok v' → walked v' chain ∧ v ⊆ v' ∧ g ∈ v' ∧ g ∉ chain) →
  walked visited chain → walk_jobs walk jobs visited = Ok visited' →
  walked visited' chain ∧ visited ⊆ visited'
  ∧ ∀ job, job ∈ jobs → ∃ call, job_call job.2 = Ok call ∧ ∀ g, call = Some g → g ∈ visited' ∧ g ∉ chain.
Proof.
  intros Hwalk. revert visited. induction jobs as [|job jobs IH]; intros visited Hv Hw; cbn [walk_jobs] in Hw.
  { injection Hw as <-. split_and!; [done..|]. by intros job []%elem_of_nil. }
  apply bind_ok in Hw as (call & Hcall & Hw). apply bind_ok in Hw as (v1 & Hv1 & Hw).
  assert (walked v1 chain ∧ visited ⊆ v1 ∧ ∀ g, call = Some g → g ∈ v1 ∧ g ∉ chain) as (Hw1 & Hsub & Hg).
  { destruct call as [g|]; [|by injection Hv1 as <-]. destruct (Hwalk _ _ _ Hv Hv1) as (? & ? & ? & ?). split_and!; [done..|]. by intros g' [= <-]. }
  destruct (IH _ Hw1 Hw) as (Hw' & Hsub' & Hjobs). split_and!; [done|set_solver|].
  intros job' [->|Hin]%elem_of_cons; [|by apply Hjobs]. exists call. split; [done|]. intros g Hg'. destruct (Hg _ Hg') as [? ?]. split; [by apply Hsub'|done].
Qed.

Lemma callable_workflow_ok n visited chain f visited' :
  walked visited chain → callable_workflow workflows n visited chain f = Ok visited' →
  walked visited' chain ∧ visited ⊆ visited' ∧ f ∈ visited' ∧ f ∉ chain.
Proof.
  revert visited chain f visited'. induction n as [|n IH]; intros visited chain f visited' Hv Hc; cbn [callable_workflow] in Hc; [done|].
  apply bind_ok in Hc as ([] & Hf%require_contract_ok & Hc). apply negb_true_iff, bool_decide_eq_false in Hf.
  destruct (bool_decide (f ∈ visited)) eqn:E; [apply bool_decide_eq_true in E; injection Hc as <-; by split_and!|]. apply bool_decide_eq_false in E.
  apply bind_ok in Hc as (w & Hw & Hc). apply bind_ok in Hc as ([] & Ht & Hc). apply bind_ok in Hc as (jobs & Hjobs & Hc).
  destruct Hv as [Hsub Hall]. apply (walk_jobs_ok _ (chain ++ [f])) in Hc as ((Hsub' & Hall') & Hmono & Hcalls); [|by intros; eapply IH|].
  2: { split; [set_solver|]. intros x Hx Hxc. assert (x ∈ visited ∧ x ∉ chain) as [Hxv Hxc'] by set_solver.
       destruct (Hall x Hxv Hxc') as (? & ? & Hg). split_and!; [done..|]. intros g Hg'. destruct (Hg g Hg'). set_solver. }
  assert (callable f ∧ ∀ g, calls f g → g ∈ visited' ∧ g ∉ chain ++ [f]) as [Hcf Hcalls'].
  { split; [apply callable_code; exists w, jobs; split_and!; [done..|]; intros job Hj; destruct (Hcalls job Hj) as (call & ? & _); by exists call|].
    intros g (w' & jobs' & job & Hw' & Hjobs' & Hin & Hcall). rewrite Hw in Hw'. injection Hw' as <-. rewrite Hjobs in Hjobs'. injection Hjobs' as <-.
    destruct (Hcalls job Hin) as (call & Hcall' & Hg). rewrite Hcall in Hcall'. injection Hcall' as <-. by apply Hg. }
  split_and!; [|set_solver|set_solver|done]. split; [set_solver|]. intros x Hx Hxc. destruct (decide (x = f)) as [->|Hne].
  - split_and!; [done| |intros g Hg; destruct (Hcalls' g Hg); set_solver]. constructor. intros g Hg. destruct (Hcalls' g Hg) as [Hgv Hgc].
    by destruct (Hall' g Hgv Hgc) as (_ & ? & _).
  - assert (x ∉ chain ++ [f]) as Hxc' by set_solver. destruct (Hall' x Hx Hxc') as (? & ? & Hg). split_and!; [done..|].
    intros g Hg'. destruct (Hg g Hg'). set_solver.
Qed.

Lemma acc_acyclic f : Acc (λ g f, calls f g) f → ¬ tc calls f f.
Proof.
  induction 1 as [f _ IH]. intros Hf. assert (∃ g, calls f g ∧ tc calls g g) as (g & Hg & Hc); [|by apply (IH g)].
  inversion Hf as [? ? Hc|? g ? Hg Hr]; subst; [by exists f|]. exists g. split; [done|]. eapply tc_r; [done|done].
Qed.

(** Only what the walk's root reaches is visited. *)
Lemma walk_jobs_reach (walk : list pystr → pystr → outcome (list pystr)) (reach : pystr → Prop) jobs visited visited' :
  (∀ v v' g, walk v g = Ok v' → (∃ job, job ∈ jobs ∧ job_call job.2 = Ok (Some g)) → ∀ x, x ∈ v' → x ∈ v ∨ reach x) →
  walk_jobs walk jobs visited = Ok visited' → ∀ x, x ∈ visited' → x ∈ visited ∨ reach x.
Proof.
  revert visited. induction jobs as [|job jobs IH]; intros visited Hwalk Hw x Hx; cbn [walk_jobs] in Hw; [injection Hw as <-; by left|].
  apply bind_ok in Hw as (call & Hcall & Hw). apply bind_ok in Hw as (v1 & Hv1 & Hw).
  assert (x ∈ v1 ∨ reach x) as [Hx1|]; [|clear Hx|by right].
  { apply IH; [|done..]. intros v v' g Hg (job' & Hin & Hj). apply (Hwalk v v' g Hg). exists job'. split; [by apply elem_of_cons; right|done]. }
  destruct call as [g|]; [|injection Hv1 as <-; by left]. apply (Hwalk _ _ _ Hv1); [|done]. exists job. split; [apply elem_of_cons; by left|done].
Qed.

Lemma callable_workflow_reach n visited chain f visited' :
  callable_workflow workflows n visited chain f = Ok visited' → ∀ x, x ∈ visited' → x ∈ visited ∨ rtc calls f x.
Proof.
  revert visited chain f visited'. induction n as [|n IH]; intros visited chain f visited' Hc x Hx; cbn [callable_workflow] in Hc; [done|].
  apply bind_ok in Hc as ([] & _ & Hc). destruct (bool_decide _); [injection Hc as <-; by left|].
  apply bind_ok in Hc as (w & Hw & Hc). apply bind_ok in Hc as ([] & _ & Hc). apply bind_ok in Hc as (jobs & Hjobs & Hc).
  assert (x ∈ visited ++ [f] ∨ rtc calls f x) as [[Hx'|Hx']%elem_of_app|Hx']; [|by left| |by right].
  2: { apply list_elem_of_singleton in Hx' as ->. right. apply rtc_refl. }
  eapply (walk_jobs_reach _ (rtc calls f)); [|exact Hc|exact Hx].
  - intros v v' g Hg (job & Hin & Hj) y Hy. destruct (IH _ _ _ _ Hg y Hy) as [|Hr]; [by left|right]. eapply rtc_l; [|done]. by exists w, jobs, job.
Qed.

(** A chain of distinct workflows is never longer than the workflows. *)
Definition chain_fits (n : nat) (chain : list pystr) : Prop :=
  NoDup chain ∧ (∀ f, f ∈ chain → f ∈ dict_keys workflows) ∧ (length workflows < length chain + n)%nat.

Lemma chain_never_full chain : ¬ chain_fits 0 chain.
Proof.
  intros (Hnd & Hin & Hlen). assert (length chain ≤ length (dict_keys workflows))%nat by (apply submseteq_length, NoDup_submseteq; done).
  unfold dict_keys in *. rewrite length_map in *. lia.
Qed.

Lemma chain_step n chain f w : chain_fits (S n) chain → f ∉ chain → workflow_of workflows f = Ok w → chain_fits n (chain ++ [f]).
Proof.
  intros (Hnd & Hin & Hlen) Hf Hw. unfold chain_fits. rewrite length_app. cbn [length]. split_and!; [|intros x [Hx|Hx]%elem_of_app; [by apply Hin|]|lia].
  - apply NoDup_app. split_and!; [done| |apply NoDup_singleton]. intros x Hx Hx'. apply list_elem_of_singleton in Hx'. by subst.
  - apply list_elem_of_singleton in Hx as ->. unfold workflow_of, item in Hw. destruct (dict_get f workflows) eqn:E; [|done]. by eapply dict_get_Some_key.
Qed.

(** The walk succeeds on callable workflows without a cycle. *)
Lemma walk_jobs_total (walk : list pystr → pystr → outcome (list pystr)) jobs visited :
  (∀ job, job ∈ jobs → ∃ call, job_call job.2 = Ok call ∧ ∀ g v, call = Some g → ∃ v', walk v g = Ok v') →
  ∃ visited', walk_jobs walk jobs visited = Ok visited'.
Proof.
  revert visited. induction jobs as [|job jobs IH]; intros visited Hjobs; cbn [walk_jobs]; [by eexists|].
  destruct (Hjobs job) as (call & -> & Hg); [apply elem_of_cons; by left|]. cbn [mbind outcome_bind].
  assert (∃ v1, match call with Some callee => walk visited callee | None => Ok visited end = Ok v1) as (v1 & ->).
  { destruct call; [by apply Hg|by eexists]. }
  apply IH. intros job' Hin. apply Hjobs, elem_of_cons. by right.
Qed.

Lemma callable_workflow_total n visited chain f :
  chain_fits n chain → (∀ c, c ∈ chain → tc calls c f) → (∀ x, rtc calls f x → callable x ∧ ¬ tc calls x x) →
  ∃ visited', callable_workflow workflows n visited chain f = Ok visited'.
Proof.
  revert visited chain f. induction n as [|n IH]; intros visited chain f Hn Hchain Hreach; [by apply chain_never_full in Hn|]. cbn [callable_workflow].
  destruct (Hreach f) as [(w & jobs & Hw & Ht & Hjobs & Hcalls)%callable_code Hf]; [apply rtc_refl|].
  assert (f ∉ chain) as Hfc by (intros Hin; by apply Hf, Hchain).
  rewrite (bool_decide_eq_false_2 (f ∈ chain)) by done. cbn [negb require_contract check mbind outcome_bind].
  destruct (bool_decide (f ∈ visited)); [by eexists|]. rewrite Hw. cbn [mbind outcome_bind]. rewrite Ht. cbn [mbind outcome_bind]. rewrite Hjobs. cbn [mbind outcome_bind].
  apply walk_jobs_total. intros job Hin. destruct (Hcalls job Hin) as (call & Hcall). exists call. split; [done|]. intros g v ->.
  assert (calls f g) as Hg by (by exists w, jobs, job). apply IH; [by eapply chain_step| |].
  - intros c [Hc|Hc]%elem_of_app; [by eapply tc_r; [apply Hchain|]|]. apply list_elem_of_singleton in Hc as ->. by constructor.
  - intros x Hx. apply Hreach. by eapply rtc_l.
Qed.

(** The walk from the validators, and the graph it accepts. *)
Definition reachable (validators : list pyval) (f : pystr) : Prop := ∃ v, VStr v ∈ validators ∧ rtc calls v f.

Lemma walk_all_ok n validators visited visited' :
  walked visited [] → walk_all workflows n validators visited = Ok visited' →
  walked visited' [] ∧ visited ⊆ visited' ∧ (∀ v, v ∈ validators → ∃ f, v = VStr f ∧ f ∈ visited')
  ∧ ∀ f, f ∈ visited' → f ∈ visited ∨ reachable validators f.
Proof.
  revert visited. induction validators as [|v validators IH]; intros visited Hv Hw; cbn [walk_all] in Hw.
  { injection Hw as <-. split_and!; [done..|by intros v []%elem_of_nil|by left]. }
  destruct v as [| | | |filename| | |]; try discriminate Hw. apply bind_ok in Hw as (v1 & Hv1 & Hw).
  destruct (callable_workflow_ok _ _ _ _ _ Hv Hv1) as (Hw1 & Hsub & Hf & _). destruct (IH _ Hw1 Hw) as (Hw' & Hsub' & Hall & Hreach).
  split_and!; [done|by etrans| |].
  - intros v [->|Hin]%elem_of_cons; [exists filename; split; [done|by apply Hsub']|by apply Hall].
  - intros f Hf'. destruct (Hreach f Hf') as [Hf1|(v & Hv' & Hr)]; [|right; exists v; split; [apply elem_of_cons; by right|done]].
    destruct (callable_workflow_reach _ _ _ _ _ Hv1 f Hf1) as [|Hr]; [by left|right; exists filename; split; [apply elem_of_cons; by left|done]].
Qed.

Lemma walked_closed visited f g : walked visited [] → f ∈ visited → rtc calls f g → g ∈ visited.
Proof.
  intros Hv Hf Hr. induction Hr as [|f h g Hc _ IH]; [done|]. apply IH. destruct Hv as [_ Hv].
  destruct (Hv f Hf) as (_ & _ & Hg); [apply not_elem_of_nil|]. by destruct (Hg h Hc).
Qed.

Lemma validate_graph_ok validators visited :
  validate_graph workflows validators = Ok visited →
  (∀ v, v ∈ validators → ∃ f, v = VStr f)
  ∧ (∀ f, f ∈ visited ↔ reachable validators f) ∧ ∀ f, f ∈ visited → callable f ∧ ¬ tc calls f f.
Proof.
  intros Hg. destruct (walk_all_ok (WALK_DEPTH workflows) validators [] visited) as (Hw & _ & Hall & Hreach); [|done|].
  { split; [done|]. by intros f []%elem_of_nil. }
  split_and!; [intros v Hin; destruct (Hall v Hin) as (f & ? & _); by exists f| |].
  - intros f. split; [intros Hf; by destruct (Hreach f Hf) as [[]%elem_of_nil|]|]. intros (v & Hin & Hr).
    destruct (Hall _ Hin) as (v' & [= <-] & Hv'). by eapply walked_closed.
  - intros f Hf. destruct Hw as [_ Hw]. destruct (Hw f Hf) as (? & Hacc & _); [apply not_elem_of_nil|]. split; [done|by apply acc_acyclic].
Qed.

Lemma validate_graph_total validators :
  (∀ v, v ∈ validators → ∃ f, v = VStr f) → (∀ f, reachable validators f → callable f ∧ ¬ tc calls f f) →
  ∃ visited, validate_graph workflows validators = Ok visited.
Proof.
  unfold validate_graph. generalize (@nil pystr). induction validators as [|v validators IH]; intros visited Htext Hreach; cbn [walk_all]; [by eexists|].
  destruct (Htext v) as (f & ->); [apply elem_of_cons; by left|].
  destruct (callable_workflow_total (WALK_DEPTH workflows) visited [] f) as (v1 & ->).
  - split_and!; [apply NoDup_nil_2|by intros ? []%elem_of_nil|unfold WALK_DEPTH; cbn [length]; lia].
  - by intros ? []%elem_of_nil.
  - intros x Hx. apply Hreach. exists f. split; [apply elem_of_cons; by left|done].
  - cbn [mbind outcome_bind]. apply IH; [intros v Hin; apply Htext, elem_of_cons; by right|].
    intros x (v & Hin & Hr). apply Hreach. exists v. split; [apply elem_of_cons; by right|done].
Qed.
End graph.

(** C13: The walk of the callable validators, [validate_graph], accepts exactly the graphs it
    should: it succeeds if and only if every configured validator is a text and every
    workflow that the validators reach through local calls can be called (its triggers are
    [workflow_call] and [workflow_dispatch] only, and each job calls a local workflow or
    names a timeout when it runs on its own) and reaches no call of itself, so the depth of the model is
    never used up; and the visited set it answers is then the set of the workflows that
    the validators reach. *)
Theorem validators_form_a_dag workflows validators :
  ((∃ visited, validate_graph workflows validators = Ok visited)
   ↔ (∀ v, v ∈ validators → ∃ f, v = VStr f)
     ∧ ∀ f, reachable workflows validators f → callable workflows f ∧ ¬ tc (calls workflows) f f)
  ∧ ∀ visited, validate_graph workflows validators = Ok visited → ∀ f, f ∈ visited ↔ reachable workflows validators f.
Proof.
  split; [split|].
  - intros (visited & Hv). destruct (validate_graph_ok _ _ _ Hv) as (? & Hr & Hc). split; [done|]. intros f Hf. by apply Hc, Hr.
  - intros [? ?]. by apply validate_graph_total.
  - intros visited Hv. by destruct (validate_graph_ok _ _ _ Hv) as (_ & ? & _).
Qed.

(** ** What accepted contracts say *)

(** A reference to an action that cannot change: none, one of this repository, an image by
    its digest or a revision by its commit. *)
Definition immutable (reference : pyval) : Prop :=
  truthy reference = false
  ∨ ∃ s, reference = VStr s
      ∧ (startswith (&"./") s = true ∨ fullmatch docker_digest s = true ∨ fullmatch SHA (partition (chr "@") s).2 = true).

Lemma validate_action_reference_ok pins reference u : validate_action_reference pins reference = Ok u → immutable reference.
Proof.
  unfold validate_action_reference, immutable. destruct (truthy reference); [|by left]. right. destruct reference as [| | | |s| | |]; try done.
  exists s. split; [done|]. cbn [negb] in *. destruct (startswith (&"./") s); [by left|right].
  destruct (partition (chr "@") s) as [action revision]. apply bind_ok in H as ([] & H & _).
  destruct (startswith (&"docker://") s); apply require_contract_ok in H; [by left|by right].
Qed.

(** Every reference of every job of a workflow. *)
Definition references_immutable (workflow : pyval) : Prop :=
  ∃ jobs, jobs_of workflow = Ok jobs ∧ ∀ job, job ∈ jobs → ∃ references, job_references job.2 = Ok references ∧ Forall immutable references.

Lemma validate_workflow_pins_ok workflow pins u : validate_workflow_pins workflow pins = Ok u → references_immutable workflow.
Proof.
  unfold validate_workflow_pins. intros (jobs & Hj & H)%bind_ok. exists jobs. split; [done|]. intros job Hin.
  rewrite for_each_ok in H. apply H, bind_ok in Hin as (references & Hr & Hall). exists references. split; [done|].
  apply Forall_forall. intros r Hr'. rewrite for_each_ok in Hall. by eapply validate_action_reference_ok, Hall.
Qed.

Lemma validate_generator_pins_ok r workflows u w :
  validate_generator_pins r workflows = Ok u → w ∈ workflows → references_immutable w.2.
Proof.
  unfold validate_generator_pins. intros (pins & _ & H)%bind_ok Hw. apply bind_ok in H as ([] & H & _). rewrite for_each_ok in H.
  specialize (H w Hw). cbn beta in H. destruct (bool_decide _); [|by eapply validate_workflow_pins_ok].
  apply bind_ok in H as (source & _ & H). apply bind_ok in H as ([] & _ & H). by eapply validate_workflow_pins_ok.
Qed.

(** The pin of a CodeQL action in some job. *)
Definition codeql_pinned (workflows : pyobject) (pin : pystr) : Prop :=
  ∃ w jobs job pins, w ∈ workflows ∧ jobs_of w.2 = Ok jobs ∧ job ∈ jobs ∧ codeql_pins job.2 = Ok pins ∧ pin ∈ pins.

Lemma short_list (l : list pystr) x y : (length (remove_dups l) <=? 1)%nat = true → x ∈ l → y ∈ l → x = y.
Proof.
  intros Hl Hx%elem_of_remove_dups Hy%elem_of_remove_dups. apply Nat.leb_le in Hl.
  destruct (remove_dups l) as [|z [|]]; cbn in Hl; [by apply elem_of_nil in Hx| |lia]. apply list_elem_of_singleton in Hx, Hy. by subst.
Qed.

Lemma collect_elem {A B} (f : A → outcome B) l ys x : collect f l = Ok ys → x ∈ l → ∃ y, f x = Ok y ∧ y ∈ ys.
Proof.
  rewrite collect_ok. intros Hl Hx. apply list_elem_of_lookup in Hx as [i Hi]. destruct (Forall2_lookup_l _ _ _ _ _ Hl Hi) as (y & Hy & Hf).
  exists y. split; [done|]. by eapply list_elem_of_lookup_2.
Qed.

Lemma elem_of_concat {A} (x : A) l ls : x ∈ l → l ∈ ls → x ∈ concat ls.
Proof. rewrite !list_elem_of_In. intros ? ?. apply in_concat. by exists l. Qed.

Lemma validate_codeql_ok workflows u pin pin' :
  validate_codeql workflows = Ok u → codeql_pinned workflows pin → codeql_pinned workflows pin' → pin = pin' ∧ fullmatch SHA pin = true.
Proof.
  unfold validate_codeql. intros (all & Hall & H%require_contract_ok)%bind_ok.
  assert (∀ p, codeql_pinned workflows p → p ∈ concat all ∧ fullmatch SHA p = true) as Hp.
  { intros p (w & jobs & job & pins & Hw & Hjobs & Hjob & Hpins & Hin). destruct (collect_elem _ _ _ _ Hall Hw) as (found & Hf & Hfound).
    rewrite Hjobs in Hf. cbn [mbind outcome_bind] in Hf. apply bind_ok in Hf as (ps & Hps & [= <-]).
    destruct (collect_elem _ _ _ _ Hps Hjob) as (mine & Hmine & Hin'). unfold codeql_job in Hmine. rewrite Hpins in Hmine. cbn [mbind outcome_bind] in Hmine.
    apply bind_ok in Hmine as ([] & [_ Hsha]%require_contract_ok%andb_true_iff & [= <-]). rewrite forallb_forall in Hsha.
    split; [by eapply elem_of_concat; [eapply elem_of_concat|]|by apply Hsha, list_elem_of_In]. }
  intros [Hx Hs]%Hp [Hy _]%Hp. split; [by eapply short_list|done].
Qed.

Lemma collect_hashable l l' : collect hashable l = Ok l' → l' = l.
Proof. rewrite collect_ok. induction 1 as [|x y l l' Hx _ IH]; [done|]. f_equal; [|done]. destruct x; cbn in Hx; congruence. Qed.

Lemma same_names_ok l names :
  same_names l names = Ok true → (∀ v, v ∈ l → ∃ name, v = VStr name ∧ name ∈ names) ∧ ∀ name, name ∈ names → VStr name ∈ l.
Proof.
  unfold same_names. intros (l' & ->%collect_hashable & [= [H1 H2]%andb_true_iff])%bind_ok. rewrite forallb_forall in H1, H2. split.
  - intros v Hv%list_elem_of_In%H1. apply existsb_exists in Hv as (name & Hin & ->%py_eq_str). exists name. by rewrite list_elem_of_In.
  - intros name Hn%list_elem_of_In%H2. apply existsb_exists in Hn as (v & Hin & ->%py_eq_str). by apply list_elem_of_In.
Qed.

(** The required gate: a job for every validator, and all jobs before the last one. *)
Definition gate_complete (workflows : pyobject) (validators : list pyval) : Prop :=
  ∃ quality gate job needs l,
    item QUALITY_GATE workflows = Ok quality ∧ subscript quality (&"jobs") = Ok (VDict gate)
    ∧ (∀ f, VStr f ∈ validators → ∃ caller, caller ∈ gate ∧ get_of "uses" VNone caller.2 = Ok (VStr (LOCAL_WORKFLOW_PREFIX ++ f)))
    ∧ item (&"gate") gate = Ok job ∧ get_of "needs" (VList []) job = Ok needs ∧ iterate needs = Ok l
    ∧ (∀ name, name ∈ dict_keys gate → name ≠ &"gate" → VStr name ∈ l)
    ∧ &"workflow-contracts" ∈ dict_keys gate.

Lemma validate_quality_gate_ok `{UnicodeCase} py_text policy workflows validators u :
  validate_quality_gate py_text policy workflows validators = Ok u → gate_complete workflows validators.
Proof.
  unfold validate_quality_gate. intros (quality & Hq & Hv)%bind_ok. apply bind_ok in Hv as (v & Hv & Hc). apply bind_ok in Hc as (coverage & _ & Hg).
  apply bind_ok in Hg as (gate & Hg & Hc). apply bind_ok in Hc as (calls & Hcalls & Hok). apply bind_ok in Hok as (ok & Hok & Hc).
  apply bind_ok in Hc as ([] & ->%require_contract_ok & Hcontracts%require_contract_ok). apply o_and_true in Hok as [[_ Hnames]%same_names_ok Hneeds].
  apply bind_ok in Hneeds as (job & Hjob & Hn). apply bind_ok in Hn as (needs & Hn & Hl). apply bind_ok in Hl as (l & Hl & [_ Hneeds]%same_names_ok).
  destruct v as [| | | | | | |d]; try discriminate Hg. injection Hg as ->. exists quality, gate, job, needs, l. split_and!; [done..| |done|done|done| |by apply in_dict_keys].
  - intros f Hf. unfold gate_calls in Hcalls. apply bind_ok in Hcalls as (calling & Hs & Hcalls%collect_ok).
    assert (VStr (LOCAL_WORKFLOW_PREFIX ++ f) ∈ calls) as [i Hi]%list_elem_of_lookup.
    { apply Hnames, elem_of_app. left. by apply (list_elem_of_fmap_2 (λ v, LOCAL_WORKFLOW_PREFIX ++ str_value v) validators (VStr f)). }
    destruct (Forall2_lookup_r _ _ _ _ _ Hcalls Hi) as (caller & Hcaller & Huses). exists caller. split; [|done].
    eapply select_elem; [done|]. by eapply list_elem_of_lookup_2.
  - intros name Hk Hne. apply Hneeds. by apply list_elem_of_filter.
Qed.

(** C12: Whatever the checks of the workflow files accept, [validate] without
    [--actions-only], has all of this at once: the workflows are the parsed files; every
    action or workflow that any job or step refers to is local, an image by its digest or
    a revision by its full commit; all CodeQL actions are at one commit; the workflows
    that the configured validators reach are callable, bounded in time and without a
    cycle; every workflow that a pull request starts is among them or one of the three
    exceptions; and the required gate calls every configured validator, waits for every
    other job and has the job of these contracts. *)
Theorem accepted_contracts_hold `{UnicodeCase} py_text compose r u :
  validate_contracts py_text compose r false = Ok u →
  ∃ policy workflows names validators,
    (∃ text, policy_text r = Some text ∧ json_loads keep_last text = Ok (VDict policy))
    ∧ Forall2 (λ s w, s.1 = w.1 ∧ load_workflow compose s.2 = Ok w.2) (workflow_texts r) workflows
    ∧ item (&"validation_workflows") policy = Ok names ∧ iterate names = Ok validators
    ∧ (∀ w, w ∈ workflows → references_immutable w.2)
    ∧ (∀ pin pin', codeql_pinned workflows pin → codeql_pinned workflows pin' → pin = pin' ∧ fullmatch SHA pin = true)
    ∧ (∀ f, reachable workflows validators f → callable workflows f ∧ ¬ tc (calls workflows) f f)
    ∧ (∀ w on, w ∈ workflows → get_of "on" (VDict []) w.2 = Ok on → key_in (&"pull_request") on = Ok true →
         reachable workflows validators w.1 ∨ w.1 ∈ pull_request_exceptions)
    ∧ gate_complete workflows validators.
Proof.
  unfold validate_contracts. intros (text & Htext & Hc)%bind_ok. destruct (policy_text r) as [text'|]; [injection Htext as ->|discriminate Htext].
  apply bind_ok in Hc as (v & Hv & Hc). apply bind_ok in Hc as (workflows & Hw & Hc). apply bind_ok in Hc as ([] & Hcodeql & Hc).
  apply bind_ok in Hc as ([] & _ & Hc). apply bind_ok in Hc as ([] & Hpins & Hc). apply bind_ok in Hc as (names & Hnames & Hc).
  apply bind_ok in Hc as (policy & Hpolicy & Hc). apply bind_ok in Hc as (validators & Hvalidators & Hc). apply bind_ok in Hc as (visited & Hgraph & Hc).
  apply bind_ok in Hc as ([] & Hbehind & Hc). apply bind_ok in Hc as ([] & Hgate & _).
  destruct v as [| | | | | | |d]; try discriminate Hpolicy. injection Hpolicy as ->.
  destruct (validate_graph_ok _ _ _ Hgraph) as (_ & Hreach & Hcallable). exists policy, workflows, names, validators.
  split_and!; [by exists text| |done|done| | | | |by eapply validate_quality_gate_ok].
  - apply collect_ok in Hw. eapply Forall2_impl; [exact Hw|]. intros s w Hs. apply bind_ok in Hs as (w' & Hw' & [= <-]). done.
  - intros w Hin. by eapply validate_generator_pins_ok.
  - intros pin pin'. by eapply validate_codeql_ok.
  - intros f Hf. by apply Hcallable, Hreach.
  - intros w on Hin Hon Htriggered. rewrite for_each_ok in Hbehind. specialize (Hbehind w Hin). unfold behind_gate in Hbehind.
    rewrite Hon in Hbehind. cbn [mbind outcome_bind] in Hbehind. rewrite Htriggered in Hbehind. cbn [mbind outcome_bind negb orb] in Hbehind.
    apply require_contract_ok, orb_true_iff in Hbehind as [Hb%bool_decide_eq_true|Hb%bool_decide_eq_true]; [left; by apply Hreach|by right].
Qed.

(** ** A repository *)

Definition demo_sha : pystr := replicate 40 (chr "a").
Definition yaml_text (s : pystr) : yaml_node := Scalar s 0 0.
Definition yaml_map (l : list (string * yaml_node)) : yaml_node := Mapping ((λ p : string * yaml_node, (yaml_text (lit p.1), p.2)) <$> l).

Definition demo_tests : yaml_node :=
  yaml_map [("on", yaml_map [("workflow_call", yaml_text [])]);
            ("jobs", yaml_map [("unit", yaml_map [("runs-on", yaml_text (&"ubuntu-latest")); ("timeout-minutes", yaml_text (&"5"));
              ("steps", Sequence [yaml_map [("uses", yaml_text (&"actions/checkout@" ++ demo_sha))];
                                  yaml_map [("uses", yaml_text (&"github/codeql-action/init@" ++ demo_sha))]])])])]%string.
Definition demo_gate : yaml_node :=
  yaml_map [("on", yaml_map [("pull_request", yaml_text [])]);
            ("jobs", yaml_map [("workflow-contracts", yaml_map [("runs-on", yaml_text (&"ubuntu-latest"))]);
                               ("check-1", yaml_map [("uses", yaml_text (&"./.github/workflows/tests.yml"))]);
                               ("gate", yaml_map [("needs", Sequence [yaml_text (&"workflow-contracts"); yaml_text (&"check-1")])])])]%string.

(** The release comment of the CodeQL action is the whole first line of its file. *)
Definition demo_contracts : repository :=
  Repository (Some ((λ c, if (c =? chr "'")%N then 34%N else c) <$> &"{'validation_workflows': ['tests.yml']}")) None false
    [(QUALITY_GATE, generator_marker); (&"tests.yml", &" # v3.1.0")].
Definition demo_compose (source : pystr) : outcome (option yaml_node) :=
  Ok (Some (if bool_decide (source = generator_marker) then demo_gate else demo_tests)).

#[local] Existing Instance ascii_case.
Definition demo_validation : outcome unit := validate_contracts (λ _, []) demo_compose demo_contracts false.

Lemma demo_validated : demo_validation = Ok tt.
Proof. vm_compute. reflexivity. Qed.

Lemma accepted_contracts_hold_witness :
  demo_validation = Ok tt ∧ ∃ workflows, (∀ w, w ∈ workflows → references_immutable w.2) ∧ gate_complete workflows [VStr (&"tests.yml")].
Proof.
  split; [vm_compute; reflexivity|].
  destruct (accepted_contracts_hold (λ _, []) demo_compose demo_contracts tt demo_validated)
    as (policy & workflows & names & validators & (text & Ht & Hp) & _ & Hn & Hv & Hpins & _ & _ & _ & Hgate).
  exists workflows. split; [exact Hpins|]. injection Ht as <-. revert Hp. vm_compute json_loads. intros [= <-].
  injection Hn as <-. injection Hv as <-. exact Hgate.
Defined.

(** Its graph, and one whose validator calls itself through another file. *)
Definition called_workflow (callee : string) : pyval :=
  VDict [(&"on", VDict [(&"workflow_call", VStr [])]); (&"jobs", VDict [(&"next", VDict [(&"uses", VStr (LOCAL_WORKFLOW_PREFIX ++ lit callee))])])].
Definition bounded_workflow : pyval :=
  VDict [(&"on", VDict [(&"workflow_call", VStr [])]);
         (&"jobs", VDict [(&"unit", VDict [(&"runs-on", VStr (&"ubuntu-latest")); (&"timeout-minutes", VStr (&"5"))])])].
Definition demo_chain : pyobject := [(&"a.yml", called_workflow "b.yml"); (&"b.yml", bounded_workflow)].
Definition demo_cycle : pyobject := [(&"a.yml", called_workflow "b.yml"); (&"b.yml", called_workflow "a.yml")].

Lemma validators_form_a_dag_witness :
  validate_graph demo_chain [VStr (&"a.yml")] = Ok [&"a.yml"; &"b.yml"]
  ∧ (∀ f, f ∈ [&"a.yml"; &"b.yml"] ↔ reachable demo_chain [VStr (&"a.yml")] f)
  ∧ ¬ ∃ visited, validate_graph demo_cycle [VStr (&"a.yml")] = Ok visited.
Proof.
  split_and!; [vm_compute; reflexivity| |].
  - apply (proj2 (validators_form_a_dag demo_chain [VStr (&"a.yml")])). vm_compute. reflexivity.
  - intros (visited & H). vm_compute in H. discriminate H.
Defined.
